(* ===== verification/_CoqProject ===== *)
-Q . S2P
Prelude.v
PyStr.v
Hashlib.v
PyFloat.v
Json.v
JsonFacts.v
PyTime.v
PyTimeFacts.v
PyIp.v
TaskContract.v
CapabilityAuthority.v
AuthorityFacts.v
WorkflowDesign.v
WorkflowGraph.v
WorkflowFacts.v
Validators.v
ContextManifest.v
TaskContext.v
ExecutionPlan.v
PlanFacts.v
ExecutionObservation.v
ObservationFacts.v
RuntimeScheduler.v
ReadinessFacts.v
ExecutionScheduler.v
SchedulerFacts.v
RestoreFacts.v
ExecutionCheckpoint.v
CheckpointFacts.v
CheckpointLog.v
TaskStore.v
ContractReload.v
WorkflowDrafts.v
DraftSteps.v
DraftHistory.v
DraftOwners.v
DraftListing.v
DraftTheorems.v
ExecutionBudget.v
LinkedBudget.v
CapabilityRevocation.v
BudgetFacts.v
GovernedRuns.v
LinkedFacts.v
WriterLease.v
LeaseFacts.v
WriterFence.v
FenceFacts.v
FencedLog.v
DispatchBudget.v
DispatchFacts.v
PaidRuns.v
RuntimeComposition.v
CompositionFacts.v
Cron.v
CronFacts.v
PersistentScheduler.v
ScheduleFacts.v
ScheduleClaims.v
RuntimeCheckpoint.v
RuntimeCheckpointFacts.v
DispatchRecovery.v
DispatchRecoveryFacts.v
DispatchDecisions.v
DispatchCapture.v
WorkflowAdmission.v
WorkflowState.v
WorkflowController.v
WorkflowMachine.v
WorkflowDesk.v
WorkflowAdmissionFacts.v
WorkflowParallelFacts.v
WorkflowSteps.v
WorkflowRefinement.v
WorkflowInvariant.v
WorkflowRuns.v
WorkflowRegion.v
WorkflowBinding.v
WorkflowTheorems.v
