(* ===== verification/Prelude.v ===== *)
(** * WorkSpace execution governance: a verified model

    WorkSpace (the package [src/src/three_agent]) runs language-model agents under a
    deterministic governance runtime: what a task may do is fixed by a contract, narrowed
    into a capability authority, promoted with a validated workflow into an execution plan, and
    executed node by node by a scheduler that dispatches nothing twice, nothing revoked and nothing
    the task's budget does not pay for, and that can be restored from SQLite.  This library
    models that runtime and proves what makes it correct.  Model calls, HTTP front ends, report
    rendering and the like stay outside: they only produce the untrusted values the runtime checks.

    ** The parts and their sources

    - The language: [Prelude] (results and exceptions, the state monad [ST], shared lemmas and
      automation), [PyStr] (strings), [PyFloat] (int and binary64 float), [Json] and [JsonFacts]
      (canonical JSON, its parser and their round trip), [Hashlib] (digests; SHA-256 itself),
      [PyTime] (datetimes), [PyIp] (address literals), [Validators] (the private validators the
      modules of the runtime repeat).
    - Authority: [TaskContract] ([task_contract.py]) validates and compiles a contract;
      [CapabilityAuthority] and [AuthorityFacts] ([capability_authority.py]) project the
      deny-by-default envelope, derive children and authorize operations.
    - Workflows: [WorkflowDesign], [WorkflowGraph], [WorkflowFacts] ([workflow_design.py]) validate an
      untrusted description, order its graph and render it as Mermaid text.
    - Workflow execution ([workflow_state_machine.py]): [WorkflowAdmission] (what versions 3 and 4 may
      execute; [WorkflowAdmissionFacts], [WorkflowParallelFacts]), [WorkflowState] (data, files and the interface
      [WorkflowRuntime] of the collaborators), [WorkflowController] and [WorkflowMachine] (preparation,
      authorization, the run node by node, the parallel region, checkpoints and decisions),
      [WorkflowSteps] and [WorkflowRefinement] (the abstract machine and the refinement),
      [WorkflowInvariant], [WorkflowRuns], [WorkflowRegion], [WorkflowBinding] (invariant, termination and histories,
      the lanes, fingerprints), [WorkflowTheorems] (the theorems) and [WorkflowDesk] (a concrete runtime).
    - Drafts ([workflow_drafts.py]): [WorkflowDrafts] (the tables and every operation of the store), [DraftSteps]
      (the abstract changes of the tables), [DraftHistory] (invariant and histories), [DraftOwners] (what an
      owner's rows depend on), [DraftListing] (search and reading), [DraftTheorems]; [ContractReload] reads
      stored contracts back.
    - Contexts: [ContextManifest] ([harness_context_manifest.py]) and [TaskContext]
      ([task_context.py], with the task specification of [harness_task_compiler.py]).
    - Plans and observations: [ExecutionPlan], [PlanFacts] ([execution_plan.py]);
      [ExecutionObservation], [ObservationFacts] ([execution_observation.py]).
    - Scheduling: [RuntimeScheduler], [ReadinessFacts] ([runtime_scheduler.py]) is the pure evaluator;
      [ExecutionScheduler], [SchedulerFacts], [RestoreFacts] ([execution_scheduler.py]) is the
      coordinator with its tickets, observations and cancellation.
    - Persistence: [ExecutionCheckpoint], [CheckpointFacts], [CheckpointLog]
      ([execution_checkpoint.py]); [WriterLease], [LeaseFacts] ([runtime_writer_lease.py]);
      [WriterFence], [FenceFacts], [FencedLog] ([execution_checkpoint_writer_fence.py]).
    - Budgets and revocations: [TaskStore] (the contract and budget tables of [store.py]),
      [ExecutionBudget] ([execution_budget.py], [sqlite_budget_guard.py]), [LinkedBudget], [LinkedFacts]
      ([linked_execution_budget.py]), [CapabilityRevocation] ([capability_revocation.py]),
      [BudgetFacts]; [DispatchBudget], [DispatchFacts] ([execution_dispatch_budget.py]).
    - Recovery: [RuntimeCheckpoint], [RuntimeCheckpointFacts] ([runtime_checkpoint.py]) record what a run is
      made of and evaluate whether it may go on; [DispatchRecovery], [DispatchRecoveryFacts],
      [DispatchDecisions], [DispatchCapture] ([runtime_dispatch_recovery.py]) bind the transient state of a
      run to that record and compare it with the live budget and revocations.
    - Schedules: [Cron], [CronFacts], [PersistentScheduler], [ScheduleFacts], [ScheduleClaims]
      ([persistent_scheduler.py]) compute the next runs of cron expressions and intervals and keep the tables
      of schedules, claims and events; [PyTimeFacts] holds the calendar lemmas they need.
    - Composition: [RuntimeComposition], [CompositionFacts] ([execution_runtime_composition.py]) put
      lease, repository, guard and scheduler together; [GovernedRuns] and [PaidRuns] state what the
      scheduler's collaborators promise it as type classes, prove what a run owes to them, and
      give the instances.

    ** How the parts interact

    A contract yields an authority; a workflow, an authority and a context yield a plan; the scheduler
    evaluates a plan.  Each consumer checks again what it is given, by fingerprint: no theorem
    assumes that a fingerprint was computed honestly.  The scheduler has three collaborators - a budget
    guard, a revocation guard and a checkpoint repository - which are [Protocol] classes in the
    source and type classes here, each with a state of its own inside the scheduler's.  The plain
    repository keeps tickets and observations with a hash-chained log of events; the fenced one
    adds that every write proves its lease current in its own transaction; the dispatch-budget one adds
    that a dispatch takes a step of the task's budget in the transaction that records it.

    ** How the code is translated

    - A function that may raise returns [result]: [Ok v] or [Exn cls msg] with the class and the text
      of the exception.  A method that changes state is an [ST] computation: the state survives
      an exception; a SQLite transaction is a combinator that keeps the old tables when
      its body raises, and that fails with OperationalError when another connection holds the lock.
    - A frozen dataclass is a [Record], its [__post_init__] a check that the constructor runs.
      A test on the type of a typed field holds by typing.  An untyped value ([Any]) is a JSON value.
    - A [str] is a list of Latin-1 characters; ints are [Z]; floats are binary64, exactly.  An int
      stored in an INTEGER column keeps SQLite's 64-bit bound where the code can reach it.
    - Digests are a parameter [Hashlib] of which only the shape is assumed.  Theorems about fingerprints say
      that the payloads are equal or exhibit a collision, never that there is none.  The identifier of an
      observation is 24 digits of a digest: where the evaluator has compared the full fingerprints of
      observations with one identifier, a theorem exhibits a collision of those ([fingerprint_collision]);
      [scheduler_progress], where nothing was compared, exhibits the identifier itself ([shared_id]).
    - The clock, fresh identifiers and what other connections do to a database are inputs: fields of the
      state that a step may change to anything.  Parts of one database that the source reaches through
      separate connections have their own view of clock and lock, so the model allows more than the
      program does; a theorem about all runs of the model holds for the program's.

    ** What the theorems show

    - A run as a whole: [composed_run_within_budget], [run_within_budget], [revoked_never_dispatched],
      [superseded_writer_locked_out].  The second is of a scheduler over a budget client, which counts what it
      grants ([BudgetMeter]); the first is of the composed runtime, whose guard only looks and whose repository
      counts; the third assumes nothing of the budget guard, and its witness is the composed runtime.
    - The scheduler: its invariant holds initially, after a restoration from whatever a repository
      returns, and after every operation, failed ones included ([scheduler_invariant]); [dispatch_once],
      [cancel_final], [recovery_first], [dispatch_outcome]; a run in which nothing fails progresses and
      what is reported as ready can be dispatched ([scheduler_progress], [ready_dispatches]).
    - Readiness: the evaluator computes the specification of node states, on every branch
      ([evaluate_refines]), whatever the order of the observations ([evaluate_order]).
    - Databases: the tables and their hash chains implement a plain log or map
      ([checkpoint_refines], [fenced_refines], [leases_refine]); histories of any clients keep
      contracts, counters, revocations and leases ([store_history], [lease_history]); a changed
      event is a collision ([event_chain_binds]); what is read back is what was written
      ([observation_roundtrip]).
    - Budgets: a reservation on every branch ([reserve_outcome]), a fan-out of linked children
      ([fan_out_within_budget]), a dispatch with its step ([atomic_dispatch_exact]); what composing a
      runtime does to the leases when any of its checks fails ([composition_leases]).
    - Recovery: what was captured is recovered, whatever the order of the observations ([captured_recovers]),
      and only against the inputs of the capture ([recovery_binds]); a run without a repository can be bound
      ([capture_accepted]), its binding evaluates against every later state of its store
      ([capture_recovers]), and what a recoverable run has compared with the live store is
      [recoverable_dispatch]; texts are read back ([binding_text_roundtrip], [checkpoint_text_roundtrip]).
      [schedulers_refused], [finished_run_recoverable] and [checkpoint_envelope_open] show defects.
    - Schedules: no history claims an occurrence twice or a schedule with an unresolved claim
      ([schedule_history]); a tick claims exactly what is due ([claim_due_exact]); the next run of a cron
      expression is the first matching minute of the horizon ([next_cron_exact], [cron_field_exact],
      [next_interval_exact]).  [blocked_window_starves] and [lost_schedule_stops_the_tick] show defects.
    - Authority: delegation never escalates, an authorization stays in the envelope, both are
      characterised exactly, and the fingerprint binds every field; a plan's nodes stay in the
      task's authority and budget ([plan_authority_confined], [plan_budget_bounded], [build_exact]).
    - Workflow execution: whatever agents, store and validators do, and wherever an exception interrupts a
      call, the state files move along the abstract machine ([calls_refine]); in every history they belong to
      admitted workflows and their runs are in order ([histories_sound], [report_last]); every run ends
      ([runs_end]); only an exact approval changes a state ([approvals_exact]); a region passes only with both
      lanes verified, under every interleaving ([region_verdict]); what is admitted is [admit_exact] and
      [admit_v4_sound].  [lost_contract] shows a defect.
    - Drafts: in every history the versions of a draft are complete and immutable, its row is the last of
      them and the audit entries replay to it ([drafts_sound]); no save overwrites one its author has not seen
      ([no_lost_update]); owners neither see nor change each other's rows ([owner_isolation]); what a listing, a save
      and a creation do on every branch is [list_exact], [save_exact] and [create_exact], the search of a listing
      being cut at U+0000 ([cut_query], a defect); a stored contract is read back, or is too long for its validator ([contract_reload]).
    - Validation: the validators accept exactly the values of their specification
      ([validate_exact], [validate_contract_sound]); the topological order exists exactly for acyclic
      graphs ([graph_exact], [graph_topological]); contexts keep their lineage and manifests fit their
      budgets ([lineage], [build_fits_budget]).

    ** Fuel and bounds

    Loops that are not structural take fuel computed from their input: Kahn's algorithm one round for each
    node, the JSON parser the length of its text, the shortest-decimal search of [repr] seventeen digits
    (enough for binary64).  [graph_exact] and the round trip prove it enough for the first two.  The search for
    the next minute of a cron expression has the source's own bound, the minutes of 370 days.  A workflow
    runs one round for each node and one more, which [runs_end] proves enough; its walks take a round for
    each node or edge.  The retry of a locked budget write is bounded in the source itself; its rounds are the source's attempts.

    ** Not modelled

    The SQLite repository of context manifests, the SVG renderer (also of drafts) and the LLM compilers of
    workflows, and the tables of [store.py] without rules of their own; process-local locks, which
    serialize threads and have no counterpart in a model without interleaving inside one operation.  The time
    zone database is a parameter ([ZoneInfo]).  The files of workflows are a map from task
    identifiers: failing writes and file permissions are not modelled, and a state file that the controller did
    not write is one it cannot read.  The older dispatch of workflows ([workflow_dispatch.py], [workflow.py])
    drives agents and processes directly.  Front ends, retrieval, learning, benchmarks, network tools and
    inference clients are outside the execution runtime: input and output over external services. *)

From Stdlib Require Export ZArith Lia.
From Stdlib Require Ascii String.
From stdpp Require Export base tactics strings gmap sorting option.
From stdpp Require Export list_basics list_relations list_monad list_misc list_tactics list.

#[global] Set Default Goal Selector "!".
#[global] Unset Program Cases.

(** ** Exceptions *)

(** The exception classes the modelled code raises or catches. *)
Inductive exn_class :=
  | PyValueError | PyTypeError | PyKeyError | PyRuntimeError | PyOverflowError
  | PyJSONDecodeError | PyStopIteration | SqliteOperationalError | SqliteIntegrityError
  | PyAttributeError | PyAssertionError | PyKeyboardInterrupt
  | TaskContractError | CapabilityAuthorityDenied | WorkflowDesignError
  | TaskContextError | ContextManifestError | HarnessTaskCompilationError
  | ExecutionPlanError | ExecutionObservationError
  | RuntimeSchedulerError | ExecutionSchedulerError | ExecutionBudgetExceeded
  | ExecutionCheckpointError | WorkflowStateError
  | RuntimeWriterLeaseError | ExecutionWriterFenceError | ExecutionDispatchBudgetError
  | ExecutionRuntimeCompositionError | PersistentSchedulerError | ZoneInfoNotFoundError
  | RuntimeCheckpointError | RuntimeDispatchRecoveryError
  | WorkflowDraftError | WorkflowDraftConflict | WorkflowDraftNotFound.

#[export] Instance exn_class_eq_dec : EqDecision exn_class.
Proof. solve_decision. Defined.

Record exn := Exn { exn_cls : exn_class; exn_msg : string }.

#[export] Instance exn_eq_dec : EqDecision exn.
Proof. solve_decision. Defined.

(** [isinstance(e, ValueError)]: the classes declared as [class X(ValueError)],
    and the standard library's own subclasses of [ValueError]. *)
Definition is_value_error (c : exn_class) : bool :=
  match c with
  | PyValueError | PyJSONDecodeError | TaskContractError | WorkflowDesignError
  | TaskContextError | ContextManifestError | HarnessTaskCompilationError
  | ExecutionPlanError | ExecutionObservationError | RuntimeSchedulerError
  | WorkflowStateError | PersistentSchedulerError
  | RuntimeCheckpointError | RuntimeDispatchRecoveryError
  | WorkflowDraftError | WorkflowDraftConflict => true
  | _ => false
  end.

(** [isinstance(e, RuntimeError)]. *)
Definition is_runtime_error (c : exn_class) : bool :=
  match c with
  | PyRuntimeError | ExecutionSchedulerError | ExecutionBudgetExceeded
  | ExecutionCheckpointError | RuntimeWriterLeaseError | ExecutionWriterFenceError
  | ExecutionDispatchBudgetError | ExecutionRuntimeCompositionError => true
  | _ => false
  end.

(** [isinstance(e, ExecutionCheckpointError)]. *)
Definition is_checkpoint_error (c : exn_class) : bool :=
  match c with
  | ExecutionCheckpointError | ExecutionWriterFenceError | ExecutionDispatchBudgetError => true
  | _ => false
  end.

(** ** Results: a value or a raised exception *)

Inductive result (A : Type) :=
  | Ok (a : A)
  | Raise (e : exn).
Arguments Ok {A} a.
Arguments Raise {A} e.

#[export] Instance result_ret : MRet result := @Ok.
#[export] Instance result_bind : MBind result := λ A B f m,
  match m with Ok a => f a | Raise e => Raise e end.
#[export] Instance result_fmap : FMap result := λ A B f m,
  match m with Ok a => Ok (f a) | Raise e => Raise e end.

Definition raise {A} (c : exn_class) (msg : string) : result A := Raise (Exn c msg).

(** The value of a computation that returns one. *)
Definition ok_of {A} (m : result A) : match m with Ok _ => A | Raise _ => unit end :=
  match m with Ok a => a | Raise _ => tt end.

(** [if bad: raise c(msg)]. *)
Definition raise_if (bad : bool) (c : exn_class) (msg : string) : result unit :=
  if bad then raise c msg else Ok tt.

(** [try: m  except <handled>: handler]. *)
Definition catch {A} (m : result A) (handled : exn → bool) (handler : exn → result A)
    : result A :=
  match m with
  | Ok a => Ok a
  | Raise e => if handled e then handler e else Raise e
  end.

(** [except <handled> as exc: raise c(msg) from exc]. *)
Definition reraise {A} (m : result A) (handled : exn_class → bool) (c : exn_class)
    (msg : string) : result A :=
  catch m (λ e, handled (exn_cls e)) (λ _, raise c msg).

Definition is_class (c : exn_class) (d : exn_class) : bool := bool_decide (c = d).

(** [for x in l: ...] with an accumulator, stopping at the first exception. *)
Fixpoint foldM {A B} (f : B → A → result B) (b : B) (l : list A) : result B :=
  match l with
  | [] => Ok b
  | x :: l => b' ← f b x; foldM f b' l
  end.

(** [tuple(f(x) for x in l)]. *)
Fixpoint mapM {A B} (f : A → result B) (l : list A) : result (list B) :=
  match l with
  | [] => Ok []
  | x :: l => y ← f x; ys ← mapM f l; Ok (y :: ys)
  end.

(** [for x in l: f(x)]. *)
Fixpoint iterM {A} (f : A → result unit) (l : list A) : result unit :=
  match l with
  | [] => Ok tt
  | x :: l => f x ;; iterM f l
  end.

(** A Python int bound to an INTEGER column of SQLite. *)
Definition sqlite_int (z : Z) : result Z :=
  raise_if (negb ((- 2 ^ 63 <=? z)%Z && (z <? 2 ^ 63)%Z)) PyOverflowError "Python int too large to convert to SQLite INTEGER" ;;
  Ok z.

(** ** Stateful code: the state survives a raised exception *)

Definition ST (S A : Type) : Type := S → result A * S.

#[export] Instance st_ret {S} : MRet (ST S) := λ A a s, (Ok a, s).
#[export] Instance st_bind {S} : MBind (ST S) := λ A B f m s,
  match m s with
  | (Ok a, s') => f a s'
  | (Raise e, s') => (Raise e, s')
  end.

Definition st_get {S} : ST S S := λ s, (Ok s, s).
Definition st_put {S} (s : S) : ST S unit := λ _, (Ok tt, s).
Definition st_modify {S} (f : S → S) : ST S unit := λ s, (Ok tt, f s).
Definition st_lift {S A} (m : result A) : ST S A := λ s, (m, s).

(** [with] the part of the state a collaborator owns. *)
Definition st_zoom {S T A} (get : S → T) (set : T → S → S) (m : ST T A) : ST S A := λ s,
  let '(r, t) := m (get s) in (r, set t s).

(** [try: m  except ...]: the exception that leaves the clause. *)
Definition st_map_exn {S A} (f : exn → exn) (m : ST S A) : ST S A := λ s,
  match m s with
  | (Ok a, s') => (Ok a, s')
  | (Raise e, s') => (Raise (f e), s')
  end.

(** [for x in l: f(x)], collecting the results. *)
Fixpoint st_mapM {S A B} (f : A → ST S B) (l : list A) : ST S (list B) :=
  match l with
  | [] => mret []
  | x :: l => y ← f x; ys ← st_mapM f l; mret (y :: ys)
  end.
Fixpoint st_iterM {S A} (f : A → ST S unit) (l : list A) : ST S unit :=
  match l with
  | [] => mret tt
  | x :: l => f x ;; st_iterM f l
  end.

Definition st_raise_if {S} (bad : bool) (c : exn_class) (msg : string) : ST S unit :=
  st_lift (raise_if bad c msg).

(** ** Tactics *)

Lemma bind_ok_iff {A B} (m : result A) (k : A → result B) b :
  (x ← m; k x) = Ok b ↔ ∃ a, m = Ok a ∧ k a = Ok b.
Proof. destruct m as [a|e]; simpl; [naive_solver|]. split; [done|]. by intros (? & ? & _). Qed.

(** Take apart one successful [result] computation in the hypotheses. *)
Ltac inv_ok_step :=
  match goal with
  | H : mbind _ _ = Ok _ |- _ =>
      let E := fresh "E" in apply bind_ok_iff in H as (? & E & H)
  | H : raise_if ?b _ _ = Ok _ |- _ =>
      let E := fresh "E" in
      destruct b eqn:E; [discriminate H|]; clear H
  | H : raise _ _ = Ok _ |- _ => discriminate H
  | H : Raise _ = Ok _ |- _ => discriminate H
  | H : Ok _ = Ok _ |- _ => injection H as H; subst
  | H : mret _ = Ok _ |- _ => injection H as H; subst
  | u : unit |- _ => destruct u
  end.
Ltac inv_ok := repeat (inv_ok_step; cbn beta in *).

Lemma st_bind_ok {S A B} (m : ST S A) (k : A → ST S B) s b s' :
  (x ← m; k x) s = (Ok b, s') ↔ ∃ a s1, m s = (Ok a, s1) ∧ k a s1 = (Ok b, s').
Proof. unfold mbind, st_bind. destruct (m s) as [[a|e] s1]; [naive_solver|]. split; [done|naive_solver]. Qed.

Lemma andb_false_imp (a b : bool) : a && b = false ↔ (a = true → b = false).
Proof. destruct a, b; simpl; naive_solver. Qed.

Ltac bool_prop :=
  repeat match goal with
  | H : negb _ = true |- _ => apply negb_true_iff in H
  | H : negb _ = false |- _ => apply negb_false_iff in H
  | H : _ && _ = true |- _ => apply andb_true_iff in H as [? ?]
  | H : _ || _ = false |- _ => apply orb_false_iff in H as [? ?]
  | H : bool_decide _ = true |- _ => apply bool_decide_eq_true in H
  | H : bool_decide _ = false |- _ => apply bool_decide_eq_false in H
  end.

(** ** Lists *)

Lemma Forall_elem {A} (P : A → Prop) (l : list A) : Forall P l ↔ ∀ x, x ∈ l → P x.
Proof. split; [induction 1; set_solver|]. induction l; constructor; set_solver. Qed.

Lemma Forall_mono {A} (P Q : A → Prop) (l : list A) :
  Forall P l → (∀ x, P x → Q x) → Forall Q l.
Proof. induction 1; intros HPQ; constructor; auto. Qed.

(** ** Reasoning about results *)

Lemma raise_if_ok b c msg u : raise_if b c msg = Ok u ↔ b = false.
Proof. destruct b, u; simpl; split; done. Qed.

Lemma guard_bind_ok {A} b c msg (k : result A) x :
  (raise_if b c msg ;; k) = Ok x ↔ b = false ∧ k = Ok x.
Proof. destruct b; simpl; naive_solver. Qed.

Lemma when_ok (b : bool) (m : result unit) :
  (if b then m else Ok tt) = Ok tt ↔ (b = true → m = Ok tt).
Proof. destruct b; naive_solver. Qed.

Lemma unit_bind_ok {A} (m : result unit) (k : result A) x :
  (m ;; k) = Ok x ↔ m = Ok tt ∧ k = Ok x.
Proof. rewrite bind_ok_iff. split; [by intros ([] & ? & ?)|intros []; by exists tt]. Qed.

(** Every exception of [m] is of a class in [P]. *)
Definition raises_in {A} (P : exn_class → Prop) (m : result A) : Prop :=
  ∀ e, m = Raise e → P (exn_cls e).

Lemma raises_in_ok {A} P (a : A) : raises_in P (Ok a).
Proof. by intros e. Qed.
Lemma raises_in_raise {A} (P : exn_class → Prop) c msg : P c → raises_in P (@raise A c msg).
Proof. by intros HP e [= <-]. Qed.
Lemma raises_in_raise_if (P : exn_class → Prop) b c msg : P c → raises_in P (raise_if b c msg).
Proof. intros HP. destruct b; [by apply raises_in_raise|apply raises_in_ok]. Qed.
Lemma raises_in_bind {A B} P (m : result A) (k : A → result B) :
  raises_in P m → (∀ a, m = Ok a → raises_in P (k a)) → raises_in P (x ← m; k x).
Proof. intros Hm Hk e. destruct m as [a|e']; simpl; [by apply Hk|]. intros [= <-]. by apply Hm. Qed.
Lemma raises_in_mapM {A B} P (f : A → result B) l :
  Forall (λ x, raises_in P (f x)) l → raises_in P (mapM f l).
Proof.
  induction 1 as [|x l Hx _ IH]; [apply raises_in_ok|].
  apply raises_in_bind; [done|]. intros y _.
  apply raises_in_bind; [done|]. intros ys _. apply raises_in_ok.
Qed.

(** Walk through a computation; each guard raises the one class. *)
Ltac raises :=
  repeat first
    [ apply raises_in_ok
    | apply raises_in_raise_if; try done
    | apply raises_in_raise; try done
    | apply raises_in_bind; [|intros ? ?]
    | match goal with
      | |- raises_in _ (if ?b then _ else _) => destruct b
      | |- raises_in _ (match ?x with _ => _ end) => destruct x
      | |- raises_in _ (let _ := _ in _) => cbv zeta
      end ].

(** The same first step, with a continuation that succeeds at least as often. *)
Lemma bind_mono {A B} (m : result A) (k k' : A → result B) b :
  (∀ a, k a = Ok b → k' a = Ok b) → (x ← m; k x) = Ok b → (x ← m; k' x) = Ok b.
Proof. destruct m; simpl; auto. Qed.

(** ** Dicts built from a sequence *)

(** [{key(x): x for x in l}], when the keys are distinct. *)
Lemma keyed_dict_lookup {A} (key : A → string) (l : list A) id x : NoDup (map key l) →
  fold_left (λ (m : gmap string A) x, <[key x := x]> m) l ∅ !! id = Some x ↔ x ∈ l ∧ key x = id.
Proof.
  intros Hn.
  assert (∀ m : gmap string A, fold_left (λ m x, <[key x := x]> m) l m !! id = Some x ↔
    (x ∈ l ∧ key x = id) ∨ (id ∉ map key l ∧ m !! id = Some x)) as Hgen.
  { induction l as [|y l IH]; intros m; cbn [fold_left map]; [set_solver|].
    apply NoDup_cons in Hn as [Hx Hn]. rewrite (IH Hn). split.
    - intros [[Hin Hid]|[Hid Hm]]; [left; split; [by right|done]|].
      destruct (decide (key y = id)) as [<-|Hne].
      + rewrite lookup_insert_eq in Hm. injection Hm as ->. left. split; [left|done].
      + rewrite lookup_insert_ne in Hm by done. right. split; [|done]. by apply not_elem_of_cons.
    - intros [[[->|Hin]%elem_of_cons Hid]|[[Hne Hid]%not_elem_of_cons Hm]]; [right|by left|right].
      + subst id. split; [done|]. by rewrite lookup_insert_eq.
      + split; [done|]. by rewrite lookup_insert_ne. }
  rewrite Hgen, lookup_empty. naive_solver.
Qed.

(** A guard whose condition is known to be false. *)
Ltac pass_guard tac :=
  match goal with
  | |- mbind _ (raise_if ?b _ _) = _ =>
      let H := fresh in
      assert (b = false) as H by tac; rewrite H; clear H; cbn [raise_if mbind result_bind]
  end.
