(* ===== verification/PyStr.v ===== *)
(** * Python strings

    A Python [str] is a [string] whose characters are the code points U+0000 to
    U+00FF (one [ascii] per code point): [len] counts characters, comparison is by
    code point, and the whitespace and case tables are those of the Latin-1 block.
    Code points above U+00FF are not represented.  [encode("utf-8")] produces the
    bytes, again as a [string]. *)

From Stdlib Require Import Ascii.
From Stdlib Require String DecimalString.
From S2P Require Import Prelude.

Definition code (c : ascii) : N := N_of_ascii c.

Definition in_range (lo hi : N) (c : ascii) : bool := (lo <=? code c)%N && (code c <=? hi)%N.
Definition is_digit (c : ascii) : bool := in_range 48 57 c.
Definition is_lower (c : ascii) : bool := in_range 97 122 c.
Definition is_upper (c : ascii) : bool := in_range 65 90 c.
Definition is_alnum (c : ascii) : bool := is_digit c || is_lower c || is_upper c.
Definition is_hex_lower (c : ascii) : bool := is_digit c || in_range 97 102 c.

(** [c in chars] for a string of characters. *)
Fixpoint mem_char (c : ascii) (chars : string) : bool :=
  match chars with
  | EmptyString => false
  | String d chars => bool_decide (c = d) || mem_char c chars
  end.

Definition len (s : string) : Z := Z.of_nat (String.length s).

Fixpoint forall_char (p : ascii → bool) (s : string) : bool :=
  match s with
  | EmptyString => true
  | String c s => p c && forall_char p s
  end.

Fixpoint exists_char (p : ascii → bool) (s : string) : bool :=
  match s with
  | EmptyString => false
  | String c s => p c || exists_char p s
  end.

Definition is_empty (s : string) : bool := match s with EmptyString => true | _ => false end.

(** [str.isspace] on one character of the Latin-1 block. *)
Definition is_space (c : ascii) : bool :=
  in_range 9 13 c || in_range 28 32 c || (code c =? 133)%N || (code c =? 160)%N.

Fixpoint lstrip (s : string) : string :=
  match s with
  | EmptyString => EmptyString
  | String c t => if is_space c then lstrip t else s
  end.

Fixpoint rstrip (s : string) : string :=
  match s with
  | EmptyString => EmptyString
  | String c t =>
      match rstrip t with
      | EmptyString => if is_space c then EmptyString else String c EmptyString
      | t' => String c t'
      end
  end.

Definition strip (s : string) : string := rstrip (lstrip s).

(** [s.split()]: the maximal runs of non-whitespace characters. *)
Fixpoint split_ws (s : string) : list string :=
  match s with
  | EmptyString => []
  | String c t =>
      if is_space c then split_ws t
      else match t with
           | EmptyString => [String c EmptyString]
           | String d _ =>
               if is_space d then String c EmptyString :: split_ws t
               else match split_ws t with
                    | [] => [String c EmptyString]
                    | w :: ws => String c w :: ws
                    end
           end
  end.

(** [sep.join(ws)]. *)
Fixpoint join (sep : string) (ws : list string) : string :=
  match ws with
  | [] => ""
  | [w] => w
  | w :: ws => w +:+ sep +:+ join sep ws
  end.

(** [s.split(sep)] for a one-character separator: never empty. *)
Fixpoint split_on (sep : ascii) (s : string) : list string :=
  match s with
  | EmptyString => [""]
  | String c t =>
      if bool_decide (c = sep) then "" :: split_on sep t
      else match split_on sep t with
           | [] => [String c EmptyString]
           | w :: ws => String c w :: ws
           end
  end.

Definition lower_char (c : ascii) : ascii :=
  if is_upper c || in_range 192 214 c || in_range 216 222 c
  then ascii_of_N (code c + 32) else c.

Fixpoint map_char (f : ascii → ascii) (s : string) : string :=
  match s with
  | EmptyString => EmptyString
  | String c t => String (f c) (map_char f t)
  end.

Definition lower (s : string) : string := map_char lower_char s.

(** [str.upper]: the sharp s becomes two letters; the upper case of the micro
    sign and of y-diaeresis lies outside the block, so both are left unchanged. *)
Definition upper_char (c : ascii) : string :=
  if (code c =? 223)%N then "SS"
  else if is_lower c || in_range 224 246 c || in_range 248 254 c
  then String (ascii_of_N (code c - 32)) "" else String c "".

Fixpoint upper (s : string) : string :=
  match s with
  | EmptyString => ""
  | String c t => upper_char c +:+ upper t
  end.

(** [s.startswith(p)], and the rest of [s] after [p]. *)
Fixpoint strip_prefix (p s : string) : option string :=
  match p, s with
  | EmptyString, _ => Some s
  | String a p, String b s => if bool_decide (a = b) then strip_prefix p s else None
  | String _ _, EmptyString => None
  end.
Definition startswith (s p : string) : bool :=
  match strip_prefix p s with Some _ => true | None => false end.

(** [s.endswith(p)], with [s[:-len(p)]]. *)
Fixpoint strip_suffix (s p : string) : option string :=
  if bool_decide (s = p) then Some ""
  else match s with
       | EmptyString => None
       | String c t => String c <$> strip_suffix t p
       end.
Definition endswith (s p : string) : bool :=
  match strip_suffix s p with Some _ => true | None => false end.

(** [p in s]. *)
Fixpoint contains (s p : string) : bool :=
  startswith s p || match s with EmptyString => false | String _ t => contains t p end.

(** [s.replace(c, by)] for a one-character pattern. *)
Fixpoint replace_char (c : ascii) (by_ : string) (s : string) : string :=
  match s with
  | EmptyString => ""
  | String d t => (if bool_decide (d = c) then by_ else String d "") +:+ replace_char c by_ t
  end.

(** [s[:n]] and [s[n:]] for [n >= 0]. *)
Fixpoint take_str (n : nat) (s : string) : string :=
  match n, s with
  | O, _ | _, EmptyString => ""
  | S n, String c t => String c (take_str n t)
  end.
Fixpoint drop_str (n : nat) (s : string) : string :=
  match n, s with
  | O, _ => s
  | _, EmptyString => ""
  | S n, String _ t => drop_str n t
  end.

Fixpoint repeat_str (n : nat) (s : string) : string :=
  match n with O => "" | S n => s +:+ repeat_str n s end.

(** [sorted(values)] on strings, and [sorted(set(values))]. *)
Definition sorted_str (l : list string) : list string := merge_sort String.le l.

(** [tuple(dict.fromkeys(values))]: first occurrences, in order. *)
Fixpoint dedup_from (seen : list string) (l : list string) : list string :=
  match l with
  | [] => []
  | x :: l => if bool_decide (x ∈ seen) then dedup_from seen l
              else x :: dedup_from (x :: seen) l
  end.
Definition dict_fromkeys (l : list string) : list string := dedup_from [] l.

Definition mem_str (x : string) (l : list string) : bool := bool_decide (x ∈ l).

(** [set(a).issubset(b)] and [sorted(set(a) - set(b))]. *)
Definition subset_str (a b : list string) : bool := forallb (λ x, mem_str x b) a.
Definition sorted_diff (a b : list string) : list string :=
  sorted_str (dict_fromkeys (filter (λ x, x ∉ b) a)).

(** [str(n)] for an int. *)
Definition str_of_Z (z : Z) : string :=
  DecimalString.NilZero.string_of_int (Z.to_int z).

Definition newline : ascii := "010"%char.
Definition carriage_return : ascii := "013"%char.
Definition dquote : ascii := "034"%char.
Definition backslash : ascii := "092"%char.

(** [repr(s)]: single quotes unless the text has some and no double quote; a
    character that is not printable is written as a [\x] escape. *)
Definition squote : ascii := "039"%char.
Definition hex_char (n : N) : ascii := ascii_of_N (if (n <? 10)%N then 48 + n else 87 + n).

Definition repr_char (q c : ascii) : string :=
  if bool_decide (c = q) || bool_decide (c = backslash) then String backslash (String c "")
  else if (code c =? 9)%N then String backslash "t"
  else if (code c =? 10)%N then String backslash "n"
  else if (code c =? 13)%N then String backslash "r"
  else if (code c <? 32)%N || in_range 127 160 c || (code c =? 173)%N then
    String backslash (String "x" (String (hex_char (code c / 16)) (String (hex_char (code c mod 16)) "")))
  else String c "".

Fixpoint repr_chars (q : ascii) (s : string) : string :=
  match s with
  | EmptyString => ""
  | String c s => repr_char q c +:+ repr_chars q s
  end.

Definition repr_str (s : string) : string :=
  let q := if mem_char squote s && negb (mem_char dquote s) then dquote else squote in
  String q (repr_chars q s +:+ String q "").

(** [repr] of a list of strings. *)
Definition repr_list (l : list string) : string := "[" +:+ join ", " (map repr_str l) +:+ "]".

(** [value.encode("utf-8")]. *)
Fixpoint utf8_encode (s : string) : string :=
  match s with
  | EmptyString => ""
  | String c t =>
      if (code c <? 128)%N then String c (utf8_encode t)
      else String (ascii_of_N (192 + code c / 64))
             (String (ascii_of_N (128 + code c mod 64)) (utf8_encode t))
  end.

(** ** Lemmas *)

Create HintDb pystr discriminated.

Lemma app_str_assoc (a b c : string) : (a +:+ b) +:+ c = a +:+ (b +:+ c).
Proof. induction a as [|x a IH]; [done|]. unfold String.app in *; simpl. by rewrite IH. Qed.

Lemma app_str_nil_r (a : string) : a +:+ "" = a.
Proof. induction a as [|x a IH]; [done|]. unfold String.app in *; simpl. by rewrite IH. Qed.

Lemma app_str_cons (x : ascii) (a b : string) : String x a +:+ b = String x (a +:+ b).
Proof. done. Qed.

Lemma app_str_nil_l (a : string) : "" +:+ a = a.
Proof. done. Qed.

#[export] Hint Rewrite app_str_assoc app_str_nil_l app_str_nil_r app_str_cons : strapp.

Lemma length_app_str (a b : string) :
  String.length (a +:+ b) = (String.length a + String.length b)%nat.
Proof. induction a as [|x a IH]; [done|]. rewrite app_str_cons. simpl. by rewrite IH. Qed.

Lemma len_app (a b : string) : len (a +:+ b) = (len a + len b)%Z.
Proof. unfold len. rewrite length_app_str. lia. Qed.

Lemma len_nonneg (s : string) : (0 ≤ len s)%Z.
Proof. unfold len. lia. Qed.

Lemma forall_char_app p (a b : string) :
  forall_char p (a +:+ b) = forall_char p a && forall_char p b.
Proof.
  induction a as [|x a IH]; [done|]. rewrite app_str_cons. simpl.
  by rewrite IH, andb_assoc.
Qed.

Lemma forall_char_impl (p q : ascii → bool) (s : string) :
  (∀ c, p c = true → q c = true) → forall_char p s = true → forall_char q s = true.
Proof.
  intros H. induction s as [|c s IH]; simpl; [done|].
  intros [??]%andb_true_iff. by rewrite H, IH.
Qed.

Lemma forall_char_exists p (s : string) :
  forall_char p s = true → exists_char (λ c, negb (p c)) s = false.
Proof.
  induction s as [|c s IH]; simpl; [done|]. intros [-> ?]%andb_true_iff. by rewrite IH.
Qed.

Lemma map_char_id f (s : string) :
  forall_char (λ c, bool_decide (f c = c)) s = true → map_char f s = s.
Proof.
  induction s as [|c s IH]; simpl; [done|].
  intros [Hc Hs]%andb_true_iff. apply bool_decide_eq_true in Hc. by rewrite Hc, IH.
Qed.

Lemma lstrip_id c (s : string) : is_space c = false → lstrip (String c s) = String c s.
Proof. intros H. simpl. by rewrite H. Qed.

Lemma rstrip_word (s : string) :
  forall_char (λ c, negb (is_space c)) s = true → rstrip s = s.
Proof.
  induction s as [|c s IH]; simpl; [done|]. intros [Hc Hs]%andb_true_iff.
  rewrite IH by done. apply negb_true_iff in Hc. destruct s; [|done]. by rewrite Hc.
Qed.

Lemma strip_word (s : string) :
  forall_char (λ c, negb (is_space c)) s = true → strip s = s.
Proof.
  intros H. unfold strip. destruct s as [|c s]; [done|].
  rewrite lstrip_id; [by apply rstrip_word|].
  simpl in H. apply andb_true_iff in H as [H _]. by apply negb_true_iff.
Qed.

Lemma rstrip_rstrip (s : string) : rstrip (rstrip s) = rstrip s.
Proof.
  induction s as [|c s IH]; [done|]. cbn [rstrip].
  destruct (rstrip s) as [|d t] eqn:E.
  - destruct (is_space c) eqn:Ec; [done|]. simpl. by rewrite Ec.
  - cbn [rstrip] in IH |- *. by rewrite IH.
Qed.

Lemma lstrip_cases (s : string) :
  lstrip s = "" ∨ ∃ c t, lstrip s = String c t ∧ is_space c = false.
Proof.
  induction s as [|c s IH]; [by left|]. simpl.
  destruct (is_space c) eqn:E; [done|]. right. eauto.
Qed.

Lemma strip_strip (s : string) : strip (strip s) = strip s.
Proof.
  unfold strip. destruct (lstrip_cases s) as [->|(c & t & -> & Hc)]; [done|].
  assert (∃ u, rstrip (String c t) = String c u) as [u Hu].
  { cbn [rstrip]. destruct (rstrip t); [rewrite Hc|]; eauto. }
  rewrite Hu, (lstrip_id c u Hc), <- Hu. apply rstrip_rstrip.
Qed.

(** A word: what [str.split] yields. *)
Definition is_word (w : string) : bool :=
  negb (is_empty w) && forall_char (λ c, negb (is_space c)) w.

Lemma split_ws_word_app (w r : string) :
  is_word w = true → (match r with "" => true | String c _ => is_space c end) = true →
  split_ws (w +:+ r) = w :: split_ws r.
Proof.
  unfold is_word. induction w as [|c w IH]; intros Hcw Hr; [done|].
  cbn [is_empty negb forall_char andb] in Hcw. apply andb_true_iff in Hcw as [Hc Hw].
  rewrite app_str_cons. cbn [split_ws]. apply negb_true_iff in Hc. rewrite Hc.
  destruct w as [|d w].
  - destruct r as [|e r]; [done|]. change ("" +:+ String e r) with (String e r). cbv beta iota.
    by rewrite Hr.
  - rewrite app_str_cons. simpl in Hw. apply andb_true_iff in Hw as [Hd Hw].
    rewrite app_str_cons in IH. rewrite IH; [|by simpl; rewrite Hd|done].
    apply negb_true_iff in Hd. by rewrite Hd.
Qed.

Lemma join_cons sep w w' ws : join sep (w :: w' :: ws) = w +:+ sep +:+ join sep (w' :: ws).
Proof. done. Qed.

Lemma split_ws_join (ws : list string) :
  Forall (λ w, is_word w = true) ws → split_ws (join " " ws) = ws.
Proof.
  induction 1 as [|w ws Hw Hws IH]; [done|]. destruct ws as [|w' ws].
  - simpl. rewrite <- (app_str_nil_r w) at 1. by rewrite split_ws_word_app.
  - rewrite join_cons, split_ws_word_app by done. f_equal. exact IH.
Qed.

Lemma split_ws_words (s : string) : Forall (λ w, is_word w = true) (split_ws s).
Proof.
  induction s as [|c s IH]; [constructor|]. cbn [split_ws].
  destruct (is_space c) eqn:Hc; [done|].
  assert (is_word (String c "") = true) by (unfold is_word; simpl; by rewrite Hc).
  destruct s as [|d s]; [by constructor|].
  destruct (is_space d); [by constructor|].
  destruct (split_ws (String d s)) as [|w ws]; [by constructor|].
  apply Forall_cons_1 in IH as [Hw ?]. constructor; [|done].
  unfold is_word in *. apply andb_true_iff in Hw as [_ Hw]. simpl. by rewrite Hc, Hw.
Qed.

Lemma rstrip_app (a b : string) : rstrip b ≠ "" → rstrip (a +:+ b) = a +:+ rstrip b.
Proof.
  intros Hb. induction a as [|c a IH]; [done|]. rewrite !app_str_cons. cbn [rstrip].
  rewrite IH. destruct (a +:+ rstrip b) as [|x y] eqn:E; [|done].
  destruct a; [|done]. change ("" +:+ rstrip b) with (rstrip b) in E. congruence.
Qed.

Lemma rstrip_join (ws : list string) :
  Forall (λ w, is_word w = true) ws →
  rstrip (join " " ws) = join " " ws ∧ (ws ≠ [] → join " " ws ≠ "").
Proof.
  induction 1 as [|w ws Hw Hws [IH1 IH2]]; [done|].
  unfold is_word in Hw. apply andb_true_iff in Hw as [Hne Hw].
  destruct ws as [|w' ws].
  { simpl. split; [by apply rstrip_word|]. intros _ ->. done. }
  rewrite join_cons. split; [|intros _ H; by destruct w].
  assert (rstrip (join " " (w' :: ws)) ≠ "") by (rewrite IH1; by apply IH2).
  rewrite <- app_str_assoc, rstrip_app by done. by rewrite IH1.
Qed.

(** [" ".join(s.split()).strip()], the text normalisation used throughout. *)
Definition squeeze (s : string) : string := strip (join " " (split_ws s)).

Lemma squeeze_join (s : string) : squeeze s = join " " (split_ws s).
Proof.
  unfold squeeze, strip. pose proof (split_ws_words s) as Hw.
  destruct (split_ws s) as [|w ws]; [done|].
  assert (lstrip (join " " (w :: ws)) = join " " (w :: ws)) as ->; [|by apply rstrip_join].
  apply Forall_cons_1 in Hw as [Hw _]. unfold is_word in Hw.
  destruct w as [|c w]; [done|]. simpl in Hw. apply andb_true_iff in Hw as [Hc _].
  apply negb_true_iff in Hc.
  destruct ws; rewrite ?join_cons, ?app_str_cons; by apply lstrip_id.
Qed.

Lemma squeeze_idemp (s : string) : squeeze (squeeze s) = squeeze s.
Proof.
  rewrite (squeeze_join (squeeze s)), (squeeze_join s), split_ws_join; [done|].
  apply split_ws_words.
Qed.

(** [split] and [join] on a one-character separator. *)
Definition free_of (c : ascii) (s : string) : bool := forall_char (λ d, negb (bool_decide (d = c))) s.

Lemma split_on_free sep s : Forall (λ w, free_of sep w = true) (split_on sep s).
Proof.
  induction s as [|c s IH]; cbn [split_on]; [by repeat constructor|].
  case_bool_decide as Hc; [by constructor|].
  destruct (split_on sep s) as [|w ws]; [constructor; [|done]|].
  - unfold free_of; simpl. by rewrite bool_decide_eq_false_2.
  - apply Forall_cons_1 in IH as [Hw ?]. constructor; [|done].
    unfold free_of in *; simpl. by rewrite bool_decide_eq_false_2, Hw.
Qed.

Lemma split_on_nonempty sep s : split_on sep s ≠ [].
Proof. destruct s as [|c s]; simpl; [done|]. case_bool_decide; [done|]. by destruct (split_on sep s). Qed.

Lemma join_split_on sep s : join (String sep "") (split_on sep s) = s.
Proof.
  induction s as [|c s IH]; cbn [split_on]; [done|].
  pose proof (split_on_nonempty sep s) as Hne.
  case_bool_decide as Hc; destruct (split_on sep s) as [|w ws]; try done.
  - rewrite join_cons, app_str_nil_l, app_str_cons, app_str_nil_l. congruence.
  - rewrite <- IH. destruct ws; [done|]. by rewrite !join_cons, app_str_cons.
Qed.

Lemma split_on_app sep w s : free_of sep w = true →
  split_on sep (w +:+ String sep s) = w :: split_on sep s.
Proof.
  unfold free_of. induction w as [|c w IH]; intros Hw.
  - rewrite app_str_nil_l. cbn [split_on]. by rewrite bool_decide_eq_true_2.
  - simpl in Hw. apply andb_true_iff in Hw as [Hc Hw]. rewrite app_str_cons. cbn [split_on].
    apply negb_true_iff in Hc. by rewrite Hc, IH.
Qed.

Lemma split_on_single sep w : free_of sep w = true → split_on sep w = [w].
Proof.
  unfold free_of. induction w as [|c w IH]; intros Hw; [done|].
  simpl in Hw. apply andb_true_iff in Hw as [Hc Hw]. cbn [split_on].
  apply negb_true_iff in Hc. by rewrite Hc, IH.
Qed.

Lemma split_on_join sep ws : ws ≠ [] → Forall (λ w, free_of sep w = true) ws →
  split_on sep (join (String sep "") ws) = ws.
Proof.
  intros Hne Hws. induction Hws as [|w ws Hw Hws IH]; [done|]. destruct ws as [|w' ws].
  - by apply split_on_single.
  - rewrite join_cons. rewrite app_str_cons, app_str_nil_l, split_on_app by done.
    f_equal. by apply IH.
Qed.

Lemma join_app sep l1 l2 : l1 ≠ [] → l2 ≠ [] → join sep (l1 ++ l2) = join sep l1 +:+ sep +:+ join sep l2.
Proof.
  intros H1 H2. induction l1 as [|w l1 IH]; [done|]. destruct l1 as [|w' l1].
  - destruct l2; [done|]. done.
  - change ((w :: w' :: l1) ++ l2) with (w :: w' :: (l1 ++ l2)). rewrite !join_cons, !app_str_assoc.
    do 2 f_equal. by apply IH.
Qed.

Lemma forall_char_join p sep ws : forall_char p sep = true →
  Forall (λ w, forall_char p w = true) ws → forall_char p (join sep ws) = true.
Proof.
  intros Hs. induction 1 as [|w ws Hw Hws IH]; [done|]. destruct ws; [done|].
  rewrite join_cons, !forall_char_app, Hw, Hs. done.
Qed.

Lemma forall_char_split_on p sep s : forall_char p s = true →
  Forall (λ w, forall_char p w = true) (split_on sep s).
Proof.
  induction s as [|c s IH]; simpl; [by repeat constructor|]. intros [Hc Hs]%andb_true_iff.
  specialize (IH Hs). case_bool_decide; [by constructor|].
  destruct (split_on sep s) as [|w ws]; [constructor; [|done]; simpl; by rewrite Hc|].
  apply Forall_cons_1 in IH as [??]. constructor; [simpl; by rewrite Hc|done].
Qed.

Lemma strip_prefix_Some (p s r : string) : strip_prefix p s = Some r ↔ s = p +:+ r.
Proof.
  revert s. induction p as [|a p IH]; intros s; simpl.
  - split; [by intros [= ->]|by intros ->].
  - destruct s as [|b s]; [by split|]. rewrite app_str_cons. case_bool_decide as Hab.
    + subst. rewrite IH. split; [by intros ->|by intros [= ->]].
    + split; [done|]. intros [= ??]; congruence.
Qed.

Lemma startswith_spec (s p : string) : startswith s p = true ↔ ∃ r, s = p +:+ r.
Proof.
  unfold startswith. destruct (strip_prefix p s) as [r|] eqn:E.
  - apply strip_prefix_Some in E. split; [eauto|done].
  - split; [done|]. intros [r Hr]. apply strip_prefix_Some in Hr. congruence.
Qed.

Lemma elem_of_dedup_from x seen l :
  x ∈ dedup_from seen l ↔ x ∈ l ∧ x ∉ seen.
Proof.
  revert seen. induction l as [|y l IH]; intros seen; simpl; [set_solver|].
  case_bool_decide; rewrite ?elem_of_cons, IH; [set_solver|].
  destruct (decide (x = y)); set_solver.
Qed.

Lemma NoDup_dedup_from seen l : NoDup (dedup_from seen l).
Proof.
  revert seen. induction l as [|y l IH]; intros seen; simpl; [constructor|].
  case_bool_decide; [done|]. constructor; [|done]. rewrite elem_of_dedup_from. set_solver.
Qed.

Lemma elem_of_dict_fromkeys x l : x ∈ dict_fromkeys l ↔ x ∈ l.
Proof. unfold dict_fromkeys. rewrite elem_of_dedup_from. set_solver. Qed.

Lemma NoDup_dict_fromkeys l : NoDup (dict_fromkeys l).
Proof. apply NoDup_dedup_from. Qed.

Lemma dedup_from_id seen l : NoDup l → (∀ x, x ∈ l → x ∉ seen) → dedup_from seen l = l.
Proof.
  intros Hl. revert seen. induction Hl as [|x l Hx Hl IH]; intros seen Hs; [done|]. simpl.
  rewrite bool_decide_eq_false_2 by set_solver. f_equal. apply IH. set_solver.
Qed.

Lemma dict_fromkeys_id l : NoDup l → dict_fromkeys l = l.
Proof. intros. apply dedup_from_id; set_solver. Qed.

Lemma sorted_str_perm l : sorted_str l ≡ₚ l.
Proof. apply merge_sort_Permutation. Qed.

Lemma elem_of_sorted_str x l : x ∈ sorted_str l ↔ x ∈ l.
Proof. by rewrite sorted_str_perm. Qed.

Lemma sorted_str_sorted l : StronglySorted String.le (sorted_str l).
Proof. apply StronglySorted_merge_sort; apply _. Qed.

Lemma sorted_str_unique (l1 l2 : list string) : l1 ≡ₚ l2 → sorted_str l1 = sorted_str l2.
Proof.
  intros H. apply (StronglySorted_unique String.le); [apply sorted_str_sorted..|].
  by rewrite !sorted_str_perm.
Qed.

Lemma sorted_str_id l : StronglySorted String.le l → sorted_str l = l.
Proof.
  intros H. apply (StronglySorted_unique String.le); [apply sorted_str_sorted|done|].
  apply sorted_str_perm.
Qed.

Lemma sorted_str_idemp l : sorted_str (sorted_str l) = sorted_str l.
Proof. apply sorted_str_id, sorted_str_sorted. Qed.

Lemma subset_str_spec a b : subset_str a b = true ↔ a ⊆ b.
Proof.
  unfold subset_str, mem_str. rewrite forallb_forall. split.
  - intros H x Hx. apply list_elem_of_In in Hx. by apply H, bool_decide_eq_true in Hx.
  - intros H x Hx%list_elem_of_In. apply bool_decide_eq_true. by apply H.
Qed.

Lemma is_empty_false s : is_empty s = false ↔ s ≠ "".
Proof. by destruct s. Qed.

Lemma mem_str_true x l : mem_str x l = true ↔ x ∈ l.
Proof. apply bool_decide_eq_true. Qed.
Lemma mem_str_false x l : mem_str x l = false ↔ x ∉ l.
Proof. apply bool_decide_eq_false. Qed.

Lemma is_empty_true s : is_empty s = true ↔ s = "".
Proof. by destruct s. Qed.

Lemma elem_of_sorted_diff x a b : x ∈ sorted_diff a b ↔ x ∈ a ∧ x ∉ b.
Proof.
  unfold sorted_diff. rewrite elem_of_sorted_str, elem_of_dict_fromkeys.
  rewrite list_elem_of_filter. tauto.
Qed.

#[export] Hint Rewrite elem_of_dict_fromkeys elem_of_sorted_str elem_of_sorted_diff : pystr.
#[export] Hint Resolve NoDup_dict_fromkeys sorted_str_sorted split_ws_words : pystr.

Example strip_ex : strip "  a b  " = "a b". Proof. reflexivity. Qed.
Example split_ex : split_ws "  ab  c " = ["ab"; "c"]. Proof. reflexivity. Qed.
Example split_on_ex : split_on "/" "a//b" = ["a"; ""; "b"]. Proof. reflexivity. Qed.
Example str_of_Z_ex : str_of_Z (-120) = "-120". Proof. reflexivity. Qed.
Example endswith_ex : strip_suffix "10.0.0.1:22" ":22" = Some "10.0.0.1". Proof. reflexivity. Qed.

(** Boolean tests in the hypotheses, as propositions. *)
Ltac py_prop :=
  repeat first [progress bool_prop | match goal with
  | H : mem_str _ _ = true |- _ => apply mem_str_true in H
  | H : mem_str _ _ = false |- _ => apply mem_str_false in H
  | H : subset_str _ _ = true |- _ => apply subset_str_spec in H
  | H : is_empty _ = false |- _ => apply is_empty_false in H
  | H : is_empty _ = true |- _ => apply is_empty_true in H
  | H : (_ <? _)%Z = false |- _ => apply Z.ltb_ge in H
  | H : (_ <? _)%Z = true |- _ => apply Z.ltb_lt in H
  | H : (_ <=? _)%Z = false |- _ => apply Z.leb_gt in H
  | H : (_ <=? _)%Z = true |- _ => apply Z.leb_le in H
  | H : (_ =? _)%Z = true |- _ => apply Z.eqb_eq in H
  | H : (_ =? _)%Z = false |- _ => apply Z.eqb_neq in H
  end].
