(* ===== verification/Hashlib.v ===== *)
(** * hashlib.sha256

    The development is generic in the digest function: every definition that
    fingerprints a payload takes a [Hashlib], whose only law is the shape of a
    hexadecimal digest.  No theorem assumes that digests are injective, truncated ones
    included; a theorem that needs it exhibits the colliding pair instead.  [sha256_hashlib] is SHA-256
    itself (FIPS 180-4); [checksum_hashlib] is a short checksum of the same shape,
    used by the witnesses that evaluate whole plans. *)

From Stdlib Require Import NArith Ascii.
From Stdlib Require String.
From S2P Require Import Prelude PyStr.

(** 64 lower-case hexadecimal digits. *)
Definition is_hex64 (s : string) : bool :=
  (String.length s =? 64)%nat && forall_char is_hex_lower s.

Class Hashlib := {
  sha256_hexdigest : string → string;
  sha256_hexdigest_shape (b : string) : is_hex64 (sha256_hexdigest b) = true
}.

(** ["sha256:" + hashlib.sha256(text.encode("utf-8")).hexdigest()]. *)
Definition sha256_of_text `{Hashlib} (text : string) : string :=
  "sha256:" +:+ sha256_hexdigest (utf8_encode text).

(** [re.fullmatch(r"^sha256:[0-9a-f]{64}$", s)]. *)
Definition is_sha256_ref (s : string) : bool :=
  match strip_prefix "sha256:" s with
  | Some h => is_hex64 h
  | None => false
  end.

Lemma sha256_of_text_shape `{Hashlib} (text : string) :
  is_sha256_ref (sha256_of_text text) = true.
Proof.
  unfold is_sha256_ref, sha256_of_text.
  assert (∀ r, strip_prefix "sha256:" ("sha256:" +:+ r) = Some r) as ->
    by (intros r; by apply strip_prefix_Some).
  apply sha256_hexdigest_shape.
Qed.

(** ** SHA-256 *)

Module Sha256.
Local Open Scope N_scope.

Definition mask32 : N := 0xffffffff.
Definition add32 (a b : N) : N := N.land (a + b) mask32.
Definition rotr (n x : N) : N :=
  N.lor (N.shiftr x n) (N.land (N.shiftl x (32 - n)) mask32).

(** The constants are the first 32 bits of the fractional parts of the cube roots
    of the first 64 primes, and of the square roots of the first eight. *)
Definition is_prime (n : N) : bool :=
  (2 <=? n) && forallb (λ d, negb (n mod N.of_nat d =? 0)) (seq 2 (N.to_nat (N.sqrt n) - 1)).

Definition primes : list N :=
  List.filter is_prime (map N.of_nat (seq 0 312)).

(** The largest [r] with [r ^ 3 <= n], bit by bit from [2 ^ b]. *)
Fixpoint cube_root (b : nat) (r n : N) : N :=
  let r' := r + 2 ^ N.of_nat b in
  let r := if r' * r' * r' <=? n then r' else r in
  match b with O => r | S b => cube_root b r n end.

Definition K : list N := Eval vm_compute in
  map (λ p, N.land (cube_root 40 0 (p * 2 ^ 96)) mask32) primes.

Definition big_sigma0 x := N.lxor (rotr 2 x) (N.lxor (rotr 13 x) (rotr 22 x)).
Definition big_sigma1 x := N.lxor (rotr 6 x) (N.lxor (rotr 11 x) (rotr 25 x)).
Definition small_sigma0 x := N.lxor (rotr 7 x) (N.lxor (rotr 18 x) (N.shiftr x 3)).
Definition small_sigma1 x := N.lxor (rotr 17 x) (N.lxor (rotr 19 x) (N.shiftr x 10)).
Definition ch x y z := N.lxor (N.land x y) (N.land (N.lxor x mask32) z).
Definition maj x y z := N.lxor (N.land x y) (N.lxor (N.land x z) (N.land y z)).

Record regs := Regs { ra : N; rb : N; rc : N; rd : N; re : N; rf : N; rg : N; rh : N }.

Definition root_bits (i : nat) : N := N.land (N.sqrt (nth i primes 0 * 2 ^ 64)) mask32.

Definition H0 : regs := Eval vm_compute in
  Regs (root_bits 0) (root_bits 1) (root_bits 2) (root_bits 3) (root_bits 4) (root_bits 5)
    (root_bits 6) (root_bits 7).

Definition round (k w : N) (r : regs) : regs :=
  let t1 := add32 (rh r) (add32 (big_sigma1 (re r))
              (add32 (ch (re r) (rf r) (rg r)) (add32 k w))) in
  let t2 := add32 (big_sigma0 (ra r)) (maj (ra r) (rb r) (rc r)) in
  Regs (add32 t1 t2) (ra r) (rb r) (rc r) (add32 (rd r) t1) (re r) (rf r) (rg r).

(** The next word of the schedule, from the sixteen words before it. *)
Definition next_word (w : list N) : N :=
  add32 (small_sigma1 (nth 14 w 0)) (add32 (nth 9 w 0)
    (add32 (small_sigma0 (nth 1 w 0)) (nth 0 w 0))).

Fixpoint rounds (ks w : list N) (r : regs) : regs :=
  match ks with
  | [] => r
  | k :: ks => rounds ks (tl w ++ [next_word w]) (round k (nth 0 w 0) r)
  end.

Definition compress (h : regs) (w : list N) : regs :=
  let r := rounds K w h in
  Regs (add32 (ra h) (ra r)) (add32 (rb h) (rb r)) (add32 (rc h) (rc r)) (add32 (rd h) (rd r))
       (add32 (re h) (re r)) (add32 (rf h) (rf r)) (add32 (rg h) (rg r)) (add32 (rh h) (rh r)).

Fixpoint to_words (l : list N) : list N :=
  match l with
  | a :: b :: c :: d :: l =>
      (N.shiftl a 24 + N.shiftl b 16 + N.shiftl c 8 + d) :: to_words l
  | _ => []
  end.

(** One block is sixteen words, so [length ws] iterations are enough. *)
Fixpoint blocks (fuel : nat) (ws : list N) (h : regs) : regs :=
  match fuel, ws with
  | O, _ | _, [] => h
  | S fuel, _ => blocks fuel (drop 16 ws) (compress h (take 16 ws))
  end.

Definition pad (l : list N) : list N :=
  let n := N.of_nat (length l) in
  let bits := 8 * n in
  l ++ [128] ++ repeat 0 (N.to_nat ((119 - n mod 64) mod 64))
    ++ map (λ i, N.land (N.shiftr bits (8 * i)) 255) [7; 6; 5; 4; 3; 2; 1; 0].

Definition hex_digit (n : N) : ascii := ascii_of_N (if n <? 10 then 48 + n else 87 + n).

Definition hex32 (n : N) : string :=
  fold_right (λ i, String (hex_digit (N.land (N.shiftr n (4 * i)) 15))) ""
    [7; 6; 5; 4; 3; 2; 1; 0].

Definition hexdigest (b : string) : string :=
  let ws := to_words (pad (map N_of_ascii (String.list_ascii_of_string b))) in
  let h := blocks (length ws) ws H0 in
  hex32 (ra h) +:+ hex32 (rb h) +:+ hex32 (rc h) +:+ hex32 (rd h) +:+
  hex32 (re h) +:+ hex32 (rf h) +:+ hex32 (rg h) +:+ hex32 (rh h).

Lemma hex_digit_shape n : is_hex_lower (hex_digit (N.land n 15)) = true.
Proof.
  assert (N.land n 15 < 16) as H.
  { change 15 with (N.ones 4). rewrite N.land_ones. by apply N.mod_upper_bound. }
  destruct (N.land n 15) as [|p]; [done|].
  do 4 (destruct p as [p|p|]; [..|done]; try done); lia.
Qed.

Lemma hex32_shape n : String.length (hex32 n) = 8%nat ∧ forall_char is_hex_lower (hex32 n) = true.
Proof. split; [done|]. unfold hex32. cbn [fold_right forall_char]. by rewrite !hex_digit_shape. Qed.

Lemma hexdigest_shape b : is_hex64 (hexdigest b) = true.
Proof.
  unfold is_hex64, hexdigest. rewrite !length_app_str, !forall_char_app.
  by rewrite !(proj1 (hex32_shape _)), !(proj2 (hex32_shape _)).
Qed.

Example hexdigest_abc :
  hexdigest "abc" = "ba7816bf8f01cfea414140de5dae2223b00361a396177a9cb410ff61f20015ad".
Proof. vm_compute. reflexivity. Qed.

End Sha256.

Definition sha256_hashlib : Hashlib :=
  {| sha256_hexdigest := Sha256.hexdigest; sha256_hexdigest_shape := Sha256.hexdigest_shape |}.

(** ** A checksum of the same shape *)

Module Checksum.
Local Open Scope N_scope.

Fixpoint sum (b : string) (acc : N) : N :=
  match b with
  | EmptyString => acc
  | String c b => sum b (N.land (acc * 33 + N_of_ascii c) 0xffffffff)
  end.

Definition hexdigest (b : string) : string :=
  let h := Sha256.hex32 (sum b 5381) in h +:+ h +:+ h +:+ h +:+ h +:+ h +:+ h +:+ h.

Lemma checksum_shape b : is_hex64 (hexdigest b) = true.
Proof.
  unfold is_hex64, hexdigest. rewrite !length_app_str, !forall_char_app.
  by rewrite !(proj1 (Sha256.hex32_shape _)), !(proj2 (Sha256.hex32_shape _)).
Qed.
End Checksum.

Definition checksum_hashlib : Hashlib :=
  {| sha256_hexdigest := Checksum.hexdigest; sha256_hexdigest_shape := Checksum.checksum_shape |}.
