(* ===== verification/PyFloat.v ===== *)
(** * Python numbers: int and binary64 float

    A float is a [spec_float] at precision 53 and exponent bound 1024, the standard
    library's specification of IEEE 754 arithmetic.  [repr] prints the shortest
    decimal that rounds back to the float, as CPython does; comparison between an
    int and a float is exact; [sum] adds from the left (CPython 3.11, the oldest
    version the project supports). *)

From Stdlib Require Import SpecFloat Ascii.
From Stdlib Require String DecimalString.
From S2P Require Import Prelude PyStr.

Local Open Scope Z_scope.

#[export] Instance spec_float_eq_dec : EqDecision spec_float.
Proof. solve_decision. Defined.

Definition prec : Z := 53.
Definition emax : Z := 1024.

Inductive pynum :=
  | NInt (z : Z)
  | NFloat (f : spec_float).

#[export] Instance pynum_eq_dec : EqDecision pynum.
Proof. solve_decision. Defined.

Definition float_of_Z (z : Z) : spec_float := binary_normalize prec emax z 0 false.

Definition float_finite (f : spec_float) : bool :=
  match f with S754_zero _ | S754_finite _ _ _ => true | _ => false end.

(** [float(x)]; an int beyond the float range raises OverflowError. *)
Definition to_float (x : pynum) : result spec_float :=
  match x with
  | NFloat f => Ok f
  | NInt z =>
      let f := float_of_Z z in
      if float_finite f then Ok f
      else raise PyOverflowError "int too large to convert to float"
  end.

(** Exact comparison of an int with a float; [None] when the float is a NaN. *)
Definition compare_Z_float (z : Z) (f : spec_float) : option comparison :=
  match f with
  | S754_nan => None
  | S754_infinity s => Some (if s then Gt else Lt)
  | S754_zero _ => Some (z ?= 0)
  | S754_finite s m e =>
      let m := if s then Z.neg m else Z.pos m in
      Some (if 0 <=? e then z ?= m * 2 ^ e else z * 2 ^ (- e) ?= m)
  end.

Definition num_compare (x y : pynum) : option comparison :=
  match x, y with
  | NInt a, NInt b => Some (a ?= b)
  | NInt a, NFloat f => compare_Z_float a f
  | NFloat f, NInt b => CompOpp <$> compare_Z_float b f
  | NFloat f, NFloat g => SFcompare f g
  end.

(** [x <= y], [x < y], [x > y]: false when either side is a NaN. *)
Definition num_le (x y : pynum) : bool :=
  match num_compare x y with Some Lt | Some Eq => true | _ => false end.
Definition num_lt (x y : pynum) : bool :=
  match num_compare x y with Some Lt => true | _ => false end.
Definition num_gt (x y : pynum) : bool :=
  match num_compare x y with Some Gt => true | _ => false end.

(** [math.isfinite(float(x))]. *)
Definition num_finite (x : pynum) : result bool := float_finite <$> to_float x.

Definition num_add (x y : pynum) : result pynum :=
  match x, y with
  | NInt a, NInt b => Ok (NInt (a + b))
  | _, _ => f ← to_float x; g ← to_float y; Ok (NFloat (SFadd prec emax f g))
  end.

(** [sum(values)]. *)
Definition num_sum (l : list pynum) : result pynum := foldM num_add (NInt 0) l.

(** ** repr(float) *)

Definition ndigits (z : Z) : Z := len (str_of_Z z).

(** The float nearest to [n / d], for positive [n] and [d]. *)
Definition round_ratio (n d : Z) : spec_float :=
  match n, d with
  | Zpos n, Zpos d => SFdiv prec emax (S754_finite false n 0) (S754_finite false d 0)
  | _, _ => S754_zero false
  end.

(** The float nearest to [d * 10 ^ k]. *)
Definition round_decimal (d k : Z) : spec_float :=
  if 0 <=? k then round_ratio (d * 10 ^ k) 1 else round_ratio d (10 ^ (- k)).

(** The shortest digits of [num / den], written [0.digits * 10 ^ decpt], tried
    at [k], [k + 1], ... digits; 17 digits are always enough for a binary64. *)
Fixpoint shortest (fuel : nat) (k : Z) (f : spec_float) (num den decpt : Z) : Z * Z :=
  let shift := k - decpt in
  let num' := if 0 <=? shift then num * 10 ^ shift else num in
  let den' := if 0 <=? shift then den else den * 10 ^ (- shift) in
  let lo := num' / den' in
  let rem2 := 2 * (num' mod den') in
  let near := if (rem2 <? den') || ((rem2 =? den') && Z.even lo) then lo else lo + 1 in
  let far := if near =? lo then lo + 1 else lo in
  if bool_decide (round_decimal near (decpt - k) = f) then (near, decpt - k)
  else if bool_decide (round_decimal far (decpt - k) = f) then (far, decpt - k)
  else match fuel with
       | O => (near, decpt - k)
       | S fuel => shortest fuel (k + 1) f num den decpt
       end.

Fixpoint strip_zeros (fuel : nat) (d k : Z) : Z * Z :=
  match fuel with
  | O => (d, k)
  | S fuel => if d mod 10 =? 0 then strip_zeros fuel (d / 10) (k + 1) else (d, k)
  end.

Definition zeros (n : Z) : string := repeat_str (Z.to_nat n) "0".

(** Digits [ds] with the decimal point after position [decpt], CPython's 'r' format. *)
Definition format_repr (ds : string) (decpt : Z) : string :=
  let n := len ds in
  if (decpt <=? -4) || (16 <? decpt) then
    let e := decpt - 1 in
    let digits := str_of_Z (Z.abs e) in
    take_str 1 ds
      +:+ (if 1 <? n then "." +:+ drop_str 1 ds else "")
      +:+ "e" +:+ (if e <? 0 then "-" else "+")
      +:+ (if len digits <? 2 then "0" +:+ digits else digits)
  else if decpt <=? 0 then "0." +:+ zeros (- decpt) +:+ ds
  else if n <=? decpt then ds +:+ zeros (decpt - n) +:+ ".0"
  else take_str (Z.to_nat decpt) ds +:+ "." +:+ drop_str (Z.to_nat decpt) ds.

Definition float_repr (f : spec_float) : string :=
  match f with
  | S754_nan => "nan"
  | S754_infinity s => if s then "-inf" else "inf"
  | S754_zero s => if s then "-0.0" else "0.0"
  | S754_finite s m e =>
      let num := if 0 <=? e then Zpos m * 2 ^ e else Zpos m in
      let den := if 0 <=? e then 1 else 2 ^ (- e) in
      let p := ndigits num - ndigits den in
      let reached := if 0 <=? p then 10 ^ p * den <=? num else den <=? num * 10 ^ (- p) in
      let decpt := if reached then p + 1 else p in
      let '(d, k) := shortest 16 1 (S754_finite false m e) num den decpt in
      let '(d, k) := strip_zeros 17 d k in
      (if s then "-" else "") +:+ format_repr (str_of_Z d) (ndigits d + k)
  end.

Example repr_tenth : float_repr (round_decimal 1 (-1)) = "0.1".
Proof. vm_compute. reflexivity. Qed.
Example repr_int : float_repr (float_of_Z 120) = "120.0".
Proof. vm_compute. reflexivity. Qed.
Example repr_big : float_repr (float_of_Z (10 ^ 16)) = "1e+16".
Proof. vm_compute. reflexivity. Qed.
Example repr_small : float_repr (round_decimal 5 (-324)) = "5e-324".
Proof. vm_compute. reflexivity. Qed.
Example repr_third : float_repr (round_ratio 1 3) = "0.3333333333333333".
Proof. vm_compute. reflexivity. Qed.
Example repr_frac : float_repr (round_decimal 123456789 (-3)) = "123456.789".
Proof. vm_compute. reflexivity. Qed.
Example sum_floats :
  num_sum [NFloat (round_decimal 1 (-1)); NFloat (round_decimal 2 (-1)); NInt 1]
  = Ok (NFloat (round_decimal 13 (-1))).
Proof. vm_compute. reflexivity. Qed.

Lemma num_le_int a b : num_le (NInt a) (NInt b) = true ↔ a ≤ b.
Proof. unfold num_le, num_compare. destruct (Z.compare_spec a b); split; (done || lia). Qed.

Lemma num_gt_int a b : num_gt (NInt a) (NInt b) = true ↔ b < a.
Proof. unfold num_gt, num_compare. destruct (Z.compare_spec a b); split; (done || lia). Qed.

Lemma num_lt_int a b : num_lt (NInt a) (NInt b) = true ↔ a < b.
Proof. unfold num_lt, num_compare. destruct (Z.compare_spec a b); split; (done || lia). Qed.
