(* ===== verification/Json.v ===== *)
(** * Canonical JSON

    [dumps] is [json.dumps(v, ensure_ascii=False, sort_keys=True,
    separators=(",", ":"), allow_nan=False)], the canonical text every fingerprint
    is taken over, and [loads] is [json.loads].  A dict is an association list in
    insertion order.  An escape above U+00FF is outside the character model and
    makes [loads] fail.  The round trip [loads (dumps v) = canon v] gives the
    injectivity on which the binding theorems rest. *)

From Stdlib Require Import Ascii SpecFloat DecimalFacts DecimalN DecimalZ.
From Stdlib Require String DecimalString.
From S2P Require Import Prelude PyStr Hashlib PyFloat.

Inductive json :=
  | JNull
  | JBool (b : bool)
  | JInt (z : Z)
  | JFloat (f : spec_float)
  | JStr (s : string)
  | JList (l : list json)
  | JObj (l : list (string * json)).

Section json_ind.
  Variable P : json → Prop.
  Hypothesis Hnull : P JNull.
  Hypothesis Hbool : ∀ b, P (JBool b).
  Hypothesis Hint : ∀ z, P (JInt z).
  Hypothesis Hfloat : ∀ f, P (JFloat f).
  Hypothesis Hstr : ∀ s, P (JStr s).
  Hypothesis Hlist : ∀ l, Forall P l → P (JList l).
  Hypothesis Hobj : ∀ l, Forall (λ kv, P kv.2) l → P (JObj l).

Fixpoint json_ind' (v : json) : P v :=
    match v with
    | JNull => Hnull
    | JBool b => Hbool b
    | JInt z => Hint z
    | JFloat f => Hfloat f
    | JStr s => Hstr s
    | JList l => Hlist l ((fix go l : Forall P l :=
        match l with [] => Forall_nil_2 _ | x :: l => Forall_cons_2 _ _ _ (json_ind' x) (go l) end) l)
    | JObj l => Hobj l ((fix go l : Forall (λ kv, P kv.2) l :=
        match l with [] => Forall_nil_2 _
        | kv :: l => Forall_cons_2 (λ kv, P kv.2) kv l (json_ind' kv.2) (go l) end) l)
    end.
End json_ind.

(** ** Dicts as association lists *)

Definition dict_get (k : string) (d : list (string * json)) : option json :=
  (λ p, p.2.2) <$> list_find (λ kv, kv.1 = k) d.

Fixpoint dict_set (k : string) (v : json) (d : list (string * json)) : list (string * json) :=
  match d with
  | [] => [(k, v)]
  | (k', v') :: d => if bool_decide (k' = k) then (k, v) :: d else (k', v') :: dict_set k v d
  end.

(** Items sorted by key. *)
Fixpoint insert_item {A} (x : string * A) (l : list (string * A)) : list (string * A) :=
  match l with
  | [] => [x]
  | y :: l' => if bool_decide (String.le x.1 y.1) then x :: l else y :: insert_item x l'
  end.
Definition sort_items {A} (l : list (string * A)) : list (string * A) :=
  foldr insert_item [] l.

(** [d.get(k)] and [d.get(k, default)]. *)
Definition get (d : list (string * json)) (k : string) : json := default JNull (dict_get k d).
Definition get_or (d : list (string * json)) (k : string) (v : json) : json := default v (dict_get k d).

(** [bool(v)]. *)
Definition truthy (v : json) : bool :=
  match v with
  | JNull => false
  | JBool b => b
  | JInt z => negb (z =? 0)%Z
  | JFloat f => match f with S754_zero _ => false | _ => true end
  | JStr s => negb (is_empty s)
  | JList l => match l with [] => false | _ => true end
  | JObj l => match l with [] => false | _ => true end
  end.

(** [repr(v)] and [str(v)]. *)
Fixpoint py_repr (v : json) : string :=
  match v with
  | JNull => "None"
  | JBool b => if b then "True" else "False"
  | JInt z => str_of_Z z
  | JFloat f => float_repr f
  | JStr s => repr_str s
  | JList l => "[" +:+ join ", " (map py_repr l) +:+ "]"
  | JObj l => "{" +:+ join ", " (map (λ kv, repr_str kv.1 +:+ ": " +:+ py_repr kv.2) l) +:+ "}"
  end.
Definition py_str (v : json) : string := match v with JStr s => s | _ => py_repr v end.

(** [str(v or "")]. *)
Definition str_or_empty (v : json) : string := if truthy v then py_str v else "".

(** ** Printing *)

Definition hex4 (n : N) : string :=
  foldr (λ i, String (Sha256.hex_digit (N.land (N.shiftr n (4 * i)) 15))) "" [3; 2; 1; 0]%N.

Definition escape_char (c : ascii) : string :=
  if bool_decide (c = dquote) then String backslash (String dquote "")
  else if bool_decide (c = backslash) then String backslash (String backslash "")
  else if (code c =? 8)%N then String backslash "b"
  else if (code c =? 9)%N then String backslash "t"
  else if (code c =? 10)%N then String backslash "n"
  else if (code c =? 12)%N then String backslash "f"
  else if (code c =? 13)%N then String backslash "r"
  else if (code c <? 32)%N then String backslash (String "u" (hex4 (code c)))
  else String c "".

Fixpoint escape (s : string) : string :=
  match s with
  | EmptyString => ""
  | String c s => escape_char c +:+ escape s
  end.

Definition quote (s : string) : string := String dquote (escape s +:+ String dquote "").

Fixpoint print (v : json) : string :=
  match v with
  | JNull => "null"
  | JBool b => if b then "true" else "false"
  | JInt z => str_of_Z z
  | JFloat f => float_repr f
  | JStr s => quote s
  | JList l => "[" +:+ join "," (map print l) +:+ "]"
  | JObj l =>
      "{" +:+ join "," (map snd (sort_items
                (map (λ kv, (kv.1, quote kv.1 +:+ ":" +:+ print kv.2)) l))) +:+ "}"
  end.

Fixpoint all_finite (v : json) : bool :=
  match v with
  | JFloat f => float_finite f
  | JList l => forallb all_finite l
  | JObj l => forallb (λ kv, all_finite kv.2) l
  | _ => true
  end.

(** With [allow_nan=False] a NaN or infinity raises ValueError. *)
Definition dumps (v : json) : result string :=
  if all_finite v then Ok (print v)
  else raise PyValueError "Out of range float values are not JSON compliant".

(** ** Parsing *)

Definition is_json_ws (c : ascii) : bool :=
  (code c =? 32)%N || (code c =? 9)%N || (code c =? 10)%N || (code c =? 13)%N.

Fixpoint skip_ws (s : string) : string :=
  match s with
  | String c t => if is_json_ws c then skip_ws t else s
  | EmptyString => ""
  end.

Definition unescape (c : ascii) : option ascii :=
  if bool_decide (c = dquote) then Some dquote
  else if bool_decide (c = backslash) then Some backslash
  else match c with
       | "/" => Some "/" | "b" => Some "008" | "f" => Some "012" | "n" => Some "010"
       | "r" => Some "013" | "t" => Some "009" | _ => None
       end%char.

Definition hex_value (c : ascii) : option N :=
  if is_digit c then Some (code c - 48)%N
  else if in_range 97 102 c then Some (code c - 87)%N
  else if in_range 65 70 c then Some (code c - 55)%N
  else None.

(** The four digits of a [\u] escape, when the code point is below U+0100. *)
Definition latin1_of_hex (a b c d : ascii) : option ascii :=
  match hex_value a, hex_value b, hex_value c, hex_value d with
  | Some 0%N, Some 0%N, Some x, Some y => Some (ascii_of_N (16 * x + y))
  | _, _, _, _ => None
  end.

(** The characters of a string literal, after its opening quote. *)
Fixpoint parse_chars (s : string) : option (string * string) :=
  match s with
  | EmptyString => None
  | String c t =>
      if bool_decide (c = dquote) then Some ("", t)
      else if bool_decide (c = backslash) then
        match t with
        | EmptyString => None
        | String e t' =>
            match unescape e with
            | Some x => prod_map (String x) id <$> parse_chars t'
            | None =>
                if bool_decide (e = "u"%char) then
                  match t' with
                  | String h1 (String h2 (String h3 (String h4 t''))) =>
                      x ← latin1_of_hex h1 h2 h3 h4; prod_map (String x) id <$> parse_chars t''
                  | _ => None
                  end
                else None
            end
        end
      else if (code c <? 32)%N then None
      else prod_map (String c) id <$> parse_chars t
  end.

Fixpoint span_digits (s : string) : string * string :=
  match s with
  | EmptyString => ("", "")
  | String c t => if is_digit c then let '(d, r) := span_digits t in (String c d, r) else ("", s)
  end.

(** [0|[1-9][0-9]*] *)
Definition parse_int_part (s : string) : option (string * string) :=
  let '(ds, r) := span_digits s in
  match ds with
  | EmptyString => None
  | String "0" (String _ _ as rest) => Some ("0", rest +:+ r)
  | _ => Some (ds, r)
  end.

(** [(\.[0-9]+)?] *)
Definition parse_frac (s : string) : string * string :=
  match s with
  | String "." t =>
      let '(ds, r) := span_digits t in
      match ds with EmptyString => ("", s) | _ => (ds, r) end
  | _ => ("", s)
  end.

(** [([eE][-+]?[0-9]+)?], as the exponent and whether it was there. *)
Definition parse_exp (s : string) : option Z * string :=
  match s with
  | String c t =>
      if mem_char c "eE" then
        let '(neg, t') :=
          match t with
          | String "-" u => (true, u) | String "+" u => (false, u) | _ => (false, t)
          end in
        let '(ds, r) := span_digits t' in
        match DecimalString.NilZero.uint_of_string ds with
        | Some d => if is_empty ds then (None, s)
                    else (Some (if neg then - Z.of_uint d else Z.of_uint d)%Z, r)
        | None => (None, s)
        end
      else (None, s)
  | EmptyString => (None, s)
  end.

Definition digits_value (ds : string) : Z :=
  match DecimalString.NilZero.uint_of_string ds with Some d => Z.of_uint d | None => 0 end.

Definition float_of_decimal (neg : bool) (int_part frac : string) (e : Z) : spec_float :=
  let d := digits_value (int_part +:+ frac) in
  let f := if (d =? 0)%Z then S754_zero false else round_decimal d (e - len frac) in
  if neg then SFopp f else f.

Definition parse_number (s : string) : option (json * string) :=
  let '(neg, t) := match s with String "-" t => (true, t) | _ => (false, s) end in
  '(int_part, r1) ← parse_int_part t;
  let '(frac, r2) := parse_frac r1 in
  let '(e, r3) := parse_exp r2 in
  match frac, e with
  | EmptyString, None =>
      let z := digits_value int_part in Some (JInt (if neg then - z else z)%Z, r1)
  | _, _ => Some (JFloat (float_of_decimal neg int_part frac (default 0%Z e)), r3)
  end.

(** The literals, [NaN] and the infinities included. *)
Definition parse_literal (s : string) : option (json * string) :=
  match strip_prefix "null" s, strip_prefix "true" s, strip_prefix "false" s with
  | Some r, _, _ => Some (JNull, r)
  | _, Some r, _ => Some (JBool true, r)
  | _, _, Some r => Some (JBool false, r)
  | None, None, None =>
      match strip_prefix "NaN" s, strip_prefix "Infinity" s, strip_prefix "-Infinity" s with
      | Some r, _, _ => Some (JFloat S754_nan, r)
      | _, Some r, _ => Some (JFloat (S754_infinity false), r)
      | _, _, Some r => Some (JFloat (S754_infinity true), r)
      | None, None, None => None
      end
  end.

(** Each call consumes a character, so the length of the text is enough fuel. *)
Fixpoint parse_value (fuel : nat) (s : string) : option (json * string) :=
  match fuel with
  | O => None
  | S fuel =>
      match s with
      | EmptyString => None
      | String c t =>
          if bool_decide (c = dquote) then prod_map JStr id <$> parse_chars t
          else if bool_decide (c = "["%char) then
            match skip_ws t with
            | String "]" r => Some (JList [], r)
            | u => prod_map JList id <$> parse_elems fuel u
            end
          else if bool_decide (c = "{"%char) then
            match skip_ws t with
            | String "}" r => Some (JObj [], r)
            | u => prod_map JObj id <$> parse_members fuel [] u
            end
          else match parse_literal s with
               | Some p => Some p
               | None => parse_number s
               end
      end
  end
with parse_elems (fuel : nat) (s : string) : option (list json * string) :=
  match fuel with
  | O => None
  | S fuel =>
      '(v, r) ← parse_value fuel s;
      match skip_ws r with
      | String "]" r => Some ([v], r)
      | String "," r => prod_map (cons v) id <$> parse_elems fuel (skip_ws r)
      | _ => None
      end
  end
with parse_members (fuel : nat) (acc : list (string * json)) (s : string)
    : option (list (string * json) * string) :=
  match fuel, s with
  | S fuel, String q t =>
      if bool_decide (q = dquote) then
        '(k, r) ← parse_chars t;
        match skip_ws r with
        | String ":" r =>
            '(v, r) ← parse_value fuel (skip_ws r);
            let acc := dict_set k v acc in
            match skip_ws r with
            | String "}" r => Some (acc, r)
            | String "," r => parse_members fuel acc (skip_ws r)
            | _ => None
            end
        | _ => None
        end
      else None
  | _, _ => None
  end.

Definition loads (s : string) : result json :=
  match parse_value (S (String.length s)) (skip_ws s) with
  | Some (v, r) =>
      if is_empty (skip_ws r) then Ok v else raise PyJSONDecodeError "Extra data"
  | None => raise PyJSONDecodeError "Expecting value"
  end.
