(* ===== verification/JsonFacts.v ===== *)
(** * The JSON round trip

    [loads] inverts [dumps] up to the order of dict keys, so the canonical text
    determines the payload; a fingerprint collision is then a collision of the
    digest on two different byte strings. *)

From Stdlib Require Import Ascii SpecFloat DecimalFacts DecimalPos DecimalN DecimalZ.
From Stdlib Require String DecimalString.
From S2P Require Import Prelude PyStr Hashlib PyFloat Json.

(** ** Sorting items *)

Lemma insert_item_perm {A} (x : string * A) l : insert_item x l ≡ₚ x :: l.
Proof.
  induction l as [|y l IH]; simpl; [done|]. case_bool_decide; [done|].
  rewrite IH. constructor.
Qed.

Lemma sort_items_perm {A} (l : list (string * A)) : sort_items l ≡ₚ l.
Proof.
  induction l as [|x l IH]; [done|]. unfold sort_items in *. simpl.
  by rewrite insert_item_perm, IH.
Qed.

Lemma insert_item_map {A B} (f : string → A → B) x (l : list (string * A)) :
  insert_item (x.1, f x.1 x.2) (map (λ kv, (kv.1, f kv.1 kv.2)) l)
  = map (λ kv, (kv.1, f kv.1 kv.2)) (insert_item x l).
Proof. induction l as [|y l IH]; simpl; [done|]. case_bool_decide; simpl; by rewrite ?IH. Qed.

Lemma sort_items_map {A B} (f : string → A → B) (l : list (string * A)) :
  sort_items (map (λ kv, (kv.1, f kv.1 kv.2)) l)
  = map (λ kv, (kv.1, f kv.1 kv.2)) (sort_items l).
Proof.
  induction l as [|x l IH]; [done|]. unfold sort_items in *. cbn [map foldr].
  by rewrite IH, insert_item_map.
Qed.

Definition key_le {A} (a b : string * A) : Prop := String.le a.1 b.1.

Lemma insert_item_sorted {A} (x : string * A) l :
  StronglySorted key_le l → StronglySorted key_le (insert_item x l).
Proof.
  induction 1 as [|y l Hl IH Hy]; simpl; [by repeat constructor|].
  case_bool_decide as Hxy.
  - constructor; [by constructor|]. constructor; [done|].
    eapply Forall_mono; [exact Hy|]. intros z Hz. unfold key_le in *. by etrans.
  - constructor; [done|]. rewrite insert_item_perm. constructor; [|done].
    unfold key_le. destruct (total String.le x.1 y.1); done.
Qed.

Lemma sort_items_sorted {A} (l : list (string * A)) : StronglySorted key_le (sort_items l).
Proof.
  induction l as [|x l IH]; [constructor|]. unfold sort_items in *. simpl.
  by apply insert_item_sorted.
Qed.

Lemma sort_items_id {A} (l : list (string * A)) :
  StronglySorted key_le l → sort_items l = l.
Proof.
  induction 1 as [|x l Hl IH Hx]; [done|]. unfold sort_items in *. simpl. rewrite IH.
  destruct l as [|y l]; [done|]. simpl. rewrite bool_decide_eq_true_2; [done|].
  by apply Forall_cons_1 in Hx as [? _].
Qed.

Lemma sort_items_NoDup {A} (l : list (string * A)) :
  NoDup l.*1 → NoDup (sort_items l).*1.
Proof. by rewrite sort_items_perm. Qed.

(** ** Canonical values *)

(** A float whose text reads back as the same float: every finite one, checked by computation. *)
Definition float_exact (f : spec_float) : bool :=
  match parse_number (float_repr f) with Some (JFloat g, EmptyString) => bool_decide (g = f) | _ => false end.

(** Dict keys are unique and every float is read back exactly. *)
Fixpoint json_ok (v : json) : bool :=
  match v with
  | JFloat f => float_exact f
  | JList l => forallb json_ok l
  | JObj l => bool_decide (NoDup l.*1) && forallb (λ kv, json_ok kv.2) l
  | _ => true
  end.

(** The same value with every dict in key order. *)
Fixpoint canon (v : json) : json :=
  match v with
  | JList l => JList (map canon l)
  | JObj l => JObj (sort_items (map (λ kv, (kv.1, canon kv.2)) l))
  | _ => v
  end.

(** A canonical dict determines the value at each of its keys. *)
Lemma canon_obj_elem l l' k v v' : NoDup l.*1 →
  canon (JObj l) = canon (JObj l') → (k, v) ∈ l → (k, v') ∈ l' → canon v = canon v'.
Proof.
  cbn [canon]. intros Hd [= Heq] Hin Hin'.
  assert ((k, canon v') ∈ map (λ kv : string * json, (kv.1, canon kv.2)) l) as Hin2.
  { rewrite <- (sort_items_perm (map _ l)), Heq, sort_items_perm.
    apply list_elem_of_fmap. by exists (k, v'). }
  apply list_elem_of_fmap in Hin2 as ([k2 v2] & [= <- Hv] & Hin2). rewrite Hv.
  apply list_elem_of_lookup in Hin as [i Hi], Hin2 as [j Hj].
  assert (i = j) as ->.
  { eapply NoDup_lookup; [exact Hd| |]; rewrite list_lookup_fmap; [by rewrite Hi|by rewrite Hj]. }
  congruence.
Qed.

Lemma canon_obj_inj l l' : l.*1 = l'.*1 → NoDup l.*1 → canon (JObj l) = canon (JObj l') →
  map (λ kv, canon kv.2) l = map (λ kv, canon kv.2) l'.
Proof.
  intros Hk Hd Hc. apply list_eq_Forall2, Forall2_fmap, Forall2_same_length_lookup. split.
  { apply (f_equal length) in Hk. by rewrite !length_fmap in Hk. }
  intros i [k v] [k' v'] Hi Hi'. simpl.
  assert (k = k') as <-.
  { apply (f_equal (lookup i)) in Hk. rewrite !list_lookup_fmap, Hi, Hi' in Hk. by injection Hk. }
  eapply canon_obj_elem; [exact Hd|exact Hc|by eapply list_elem_of_lookup_2..].
Qed.

Definition print_item (k : string) (v : json) : string := quote k +:+ ":" +:+ print v.

Lemma print_obj (l : list (string * json)) :
  print (JObj l)
  = "{" +:+ join "," (map (λ kv, print_item kv.1 kv.2) (sort_items l)) +:+ "}".
Proof.
  cbn [print]. f_equal. f_equal. f_equal.
  rewrite (sort_items_map (λ k v, quote k +:+ ":" +:+ print v)), map_map. done.
Qed.

Lemma print_canon (v : json) : print (canon v) = print v.
Proof.
  induction v as [| | | | |l IH|l IH] using json_ind'; try done.
  - cbn [canon print]. rewrite map_map. do 3 f_equal.
    apply map_ext_Forall. exact IH.
  - cbn [canon]. rewrite !print_obj. do 3 f_equal.
    rewrite (sort_items_map (λ _ v, canon v)), sort_items_id; cycle 1.
    { rewrite <- (sort_items_map (λ _ v, canon v)). apply sort_items_sorted. }
    rewrite map_map. apply map_ext_Forall. rewrite sort_items_perm.
    eapply Forall_mono; [exact IH|]. intros [k x] Hx. simpl in *. unfold print_item.
    by rewrite Hx.
Qed.

(** ** Characters and digits *)

Lemma parse_chars_escape_char c r :
  parse_chars (escape_char c +:+ r) = prod_map (String c) id <$> parse_chars r.
Proof. destruct c as [[] [] [] [] [] [] [] []]; reflexivity. Qed.

Lemma parse_chars_escape s r : parse_chars (escape s +:+ String dquote r) = Some (s, r).
Proof.
  induction s as [|c s IH]; [done|]. cbn [escape].
  by rewrite app_str_assoc, parse_chars_escape_char, IH.
Qed.

(** What may follow a value inside a larger text. *)
Definition tail_ok (r : string) : bool :=
  match r with EmptyString => true | String c _ => mem_char c ",]}" end.

Lemma tail_ok_head c r : tail_ok (String c r) = true → c = ","%char ∨ c = "]"%char ∨ c = "}"%char.
Proof.
  simpl. rewrite !orb_true_iff, !bool_decide_eq_true. naive_solver.
Qed.

Lemma span_digits_app ds r :
  forall_char is_digit ds = true → tail_ok r = true → span_digits (ds +:+ r) = (ds, r).
Proof.
  intros Hds Hr. induction ds as [|c ds IH].
  - destruct r as [|c r]; [done|]. by apply tail_ok_head in Hr as [->|[->| ->]].
  - simpl in Hds. apply andb_true_iff in Hds as [Hc Hds].
    rewrite app_str_cons. cbn [span_digits]. by rewrite Hc, IH.
Qed.

Lemma digits_of_uint d : forall_char is_digit (DecimalString.NilEmpty.string_of_uint d) = true.
Proof. induction d; simpl; rewrite ?IHd; done. Qed.

Lemma to_uint_head p : ∀ d, Pos.to_uint p ≠ Decimal.D0 d.
Proof.
  intros d Hd.
  assert (Pos.to_uint p = Decimal.unorm (Pos.to_uint p)) as H
    by (rewrite <- DecimalPos.Unsigned.to_of, DecimalPos.Unsigned.of_to; done).
  pose proof (DecimalPos.Unsigned.of_to p) as Hp.
  unfold Decimal.unorm in H. destruct (Decimal.nzhead (Pos.to_uint p)) eqn:E;
    try (rewrite Hd in H; discriminate H).
  - rewrite H in Hp. done.
  - by apply nzhead_nonzero in E.
Qed.

Lemma str_of_pos p : ∃ c t,
  DecimalString.NilZero.string_of_uint (Pos.to_uint p) = String c t ∧ c ≠ "0"%char ∧
  forall_char is_digit (String c t) = true ∧ digits_value (String c t) = Z.pos p.
Proof.
  pose proof (to_uint_head p) as Hh.
  assert (Pos.to_uint p ≠ Decimal.Nil) as Hn.
  { intros Hp. pose proof (DecimalPos.Unsigned.of_to p) as H. by rewrite Hp in H. }
  pose proof (DecimalString.NilZero.usu _ Hn) as Hu.
  pose proof (digits_of_uint (Pos.to_uint p)) as Hd.
  assert (DecimalString.NilZero.string_of_uint (Pos.to_uint p)
          = DecimalString.NilEmpty.string_of_uint (Pos.to_uint p)) as Heq by (by destruct (Pos.to_uint p)).
  assert (digits_value (DecimalString.NilZero.string_of_uint (Pos.to_uint p)) = Z.pos p) as Hv.
  { unfold digits_value. rewrite Hu. unfold Z.of_uint. by rewrite DecimalPos.Unsigned.of_to. }
  rewrite Heq in Hv |- *.
  destruct (Pos.to_uint p) eqn:E; try done;
    try (eexists _, _; split; [reflexivity|]; split; [done|]; split; [exact Hd|exact Hv]).
  by destruct (Hh u).
Qed.

Lemma parse_frac_tail r : tail_ok r = true → parse_frac r = ("", r).
Proof. destruct r as [|c r]; [done|]. by intros [->|[->| ->]]%tail_ok_head. Qed.

Lemma parse_exp_tail r : tail_ok r = true → parse_exp r = (None, r).
Proof. destruct r as [|c r]; [done|]. by intros [->|[->| ->]]%tail_ok_head. Qed.

Lemma parse_int_part_pos c t r :
  c ≠ "0"%char → forall_char is_digit (String c t) = true → tail_ok r = true →
  parse_int_part (String c t +:+ r) = Some (String c t, r).
Proof.
  intros Hc Hd Hr. unfold parse_int_part. rewrite span_digits_app by done.
  destruct c as [[] [] [] [] [] [] [] []]; try done; by destruct t.
Qed.

Lemma digit_cases c : is_digit c = true →
  c = "0"%char ∨ c = "1"%char ∨ c = "2"%char ∨ c = "3"%char ∨ c = "4"%char ∨
  c = "5"%char ∨ c = "6"%char ∨ c = "7"%char ∨ c = "8"%char ∨ c = "9"%char.
Proof. destruct c as [[] [] [] [] [] [] [] []]; try done; naive_solver. Qed.

Lemma parse_number_pos c t r p :
  c ≠ "0"%char → forall_char is_digit (String c t) = true → digits_value (String c t) = Z.pos p →
  tail_ok r = true →
  parse_number (String c t +:+ r) = Some (JInt (Z.pos p), r) ∧
  parse_number (String "-" (String c t +:+ r)) = Some (JInt (Z.neg p), r).
Proof.
  intros Hc Hd Hv Hr. unfold parse_number.
  assert (match String c t +:+ r with
          | String "-" t => (true, t) | _ => (false, String c t +:+ r) end
          = (false, String c t +:+ r)) as ->.
  { rewrite app_str_cons. simpl in Hd. apply andb_true_iff in Hd as [Hd _].
    apply digit_cases in Hd. naive_solver. }
  rewrite parse_int_part_pos by done.
  cbn [mbind option_bind]. rewrite parse_frac_tail, parse_exp_tail, Hv by done. done.
Qed.

Lemma parse_value_int fuel z r :
  tail_ok r = true → parse_value (S fuel) (str_of_Z z +:+ r) = Some (JInt z, r).
Proof.
  intros Hr. unfold str_of_Z. destruct z as [|p|p]; cbn [Z.to_int DecimalString.NilZero.string_of_int].
  - destruct r as [|c r]; [done|]. by apply tail_ok_head in Hr as [->|[->| ->]].
  - destruct (str_of_pos p) as (c & t & -> & Hc & Hd & Hv).
    destruct (parse_number_pos c t r p) as [Hp _]; [done..|].
    rewrite app_str_cons in *. cbn [parse_value].
    assert (parse_literal (String c (t +:+ r)) = None) as Hl.
    { simpl in Hd. apply andb_true_iff in Hd as [Hd _].
      apply digit_cases in Hd. naive_solver. }
    rewrite Hl, Hp. simpl in Hd. apply andb_true_iff in Hd as [Hd _].
    apply digit_cases in Hd. naive_solver.
  - destruct (str_of_pos p) as (c & t & -> & Hc & Hd & Hv).
    destruct (parse_number_pos c t r p) as [_ Hp]; [done..|].
    rewrite !app_str_cons in *. change ("" +:+ ?x) with x. cbn [parse_value].
    assert (parse_literal (String "-" (String c (t +:+ r))) = None) as Hl.
    { simpl in Hd. apply andb_true_iff in Hd as [Hd _].
      apply digit_cases in Hd. naive_solver. }
    by rewrite Hl, Hp.
Qed.

(** A number is read the same way inside a larger text. *)
Lemma span_digits_tail s r : tail_ok r = true →
  span_digits (s +:+ r) = (fst (span_digits s), snd (span_digits s) +:+ r).
Proof.
  intros Hr. induction s as [|c s IH].
  - destruct r as [|c r]; [done|]. by apply tail_ok_head in Hr as [->|[->| ->]].
  - rewrite app_str_cons. cbn [span_digits]. rewrite IH. destruct (is_digit c), (span_digits s); done.
Qed.

Lemma parse_int_part_tail s i u r : tail_ok r = true → parse_int_part s = Some (i, u) →
  parse_int_part (s +:+ r) = Some (i, u +:+ r).
Proof.
  intros Hr. unfold parse_int_part. rewrite span_digits_tail by done. destruct (span_digits s) as [ds v]. cbn [fst snd].
  destruct ds as [|c ds]; [done|]. destruct (decide (c = "0"%char)) as [->|Hc].
  - destruct ds as [|d ds]; intros [= <- <-]; [done|]. do 2 f_equal. by rewrite !app_str_cons, app_str_assoc.
  - intros H. destruct c as [[] [] [] [] [] [] [] []]; try done; injection H as <- <-; done.
Qed.

Lemma parse_frac_tail_app s r : tail_ok r = true → parse_frac (s +:+ r) = (fst (parse_frac s), snd (parse_frac s) +:+ r).
Proof.
  intros Hr. destruct s as [|c s]; [by apply parse_frac_tail|]. rewrite app_str_cons.
  destruct (decide (c = "."%char)) as [->|Hc].
  - cbn [parse_frac]. rewrite span_digits_tail by done. destruct (span_digits s) as [ds v]. by destruct ds.
  - destruct c as [[] [] [] [] [] [] [] []]; try done.
Qed.

Lemma parse_exp_tail_app s r : tail_ok r = true → parse_exp (s +:+ r) = (fst (parse_exp s), snd (parse_exp s) +:+ r).
Proof.
  intros Hr. destruct s as [|c s]; [by apply parse_exp_tail|]. rewrite app_str_cons. cbn [parse_exp].
  destruct (mem_char c "eE"); [|done].
  assert (∀ t : string, match t with String "-" u => (true, u) | String "+" u => (false, u) | _ => (false, t) end
    = (match t with String "-" _ => true | _ => false end,
       match t with String "-" u => u | String "+" u => u | _ => t end)) as Hsplit.
  { intros [|d t]; [done|]. destruct d as [[] [] [] [] [] [] [] []]; done. }
  rewrite !Hsplit.
  assert (∀ t : string, match t +:+ r with String "-" _ => true | _ => false end
    = match t with String "-" _ => true | _ => false end
    ∧ match t +:+ r with String "-" u => u | String "+" u => u | _ => t +:+ r end
      = match t with String "-" u => u | String "+" u => u | _ => t end +:+ r) as Hr2.
  { intros [|d t]; [|destruct d as [[] [] [] [] [] [] [] []]; done].
    destruct r as [|d r]; [done|]. by apply tail_ok_head in Hr as [->|[->| ->]]. }
  destruct (Hr2 s) as [-> ->]. rewrite span_digits_tail by done.
  destruct (span_digits _) as [ds v]. cbn [fst snd]. destruct (DecimalString.NilZero.uint_of_string ds); [|done].
  by destruct (is_empty ds).
Qed.

Lemma parse_number_tail s v u r : tail_ok r = true → parse_number s = Some (v, u) →
  parse_number (s +:+ r) = Some (v, u +:+ r).
Proof.
  intros Hr. unfold parse_number.
  assert (∀ t : string, match t with String "-" u => (true, u) | _ => (false, t) end
    = (match t with String "-" _ => true | _ => false end, match t with String "-" u => u | _ => t end)) as Hsplit.
  { intros [|d t]; [done|]. destruct d as [[] [] [] [] [] [] [] []]; done. }
  rewrite !Hsplit. destruct s as [|c s]; [done|].
  assert (match String c s +:+ r with String "-" _ => true | _ => false end
    = match String c s with String "-" _ => true | _ => false end
    ∧ match String c s +:+ r with String "-" u => u | _ => String c s +:+ r end
      = match String c s with String "-" u => u | _ => String c s end +:+ r) as [-> ->].
  { destruct c as [[] [] [] [] [] [] [] []]; done. }
  destruct (parse_int_part _) as [[i r1]|] eqn:Ei; [|done]. rewrite (parse_int_part_tail _ _ _ _ Hr Ei).
  cbn [mbind option_bind]. rewrite parse_frac_tail_app by done. destruct (parse_frac r1) as [frac r2]. cbn [fst snd].
  rewrite parse_exp_tail_app by done. destruct (parse_exp r2) as [e r3]. cbn [fst snd].
  destruct frac, e; intros [= <- <-]; done.
Qed.

Lemma parse_int_part_head s i u : parse_int_part s = Some (i, u) → ∃ c t, s = String c t ∧ is_digit c = true.
Proof.
  unfold parse_int_part. destruct s as [|c s]; [done|]. cbn [span_digits].
  destruct (is_digit c) eqn:Hc; [|done]. by exists c, s.
Qed.

Lemma parse_number_head s v u : parse_number s = Some (v, u) → ∃ c t, s = String c t
  ∧ (is_digit c = true ∨ c = "-"%char ∧ ∃ d t', t = String d t' ∧ is_digit d = true).
Proof.
  unfold parse_number. destruct s as [|c s]; [done|]. destruct (decide (c = "-"%char)) as [->|Hc].
  - destruct (parse_int_part s) as [[i r]|] eqn:E; [|done]. intros _. exists "-"%char, s. split; [done|]. right.
    split; [done|]. by apply parse_int_part_head in E.
  - assert (match String c s with String "-" t => (true, t) | _ => (false, String c s) end = (false, String c s)) as ->
      by (destruct c as [[] [] [] [] [] [] [] []]; done).
    destruct (parse_int_part _) as [[i r]|] eqn:E; [|done]. intros _.
    apply parse_int_part_head in E as (d & t & [= <- <-] & Hd). exists c, s. auto.
Qed.

Lemma float_exact_parse f : float_exact f = true → parse_number (float_repr f) = Some (JFloat f, "").
Proof.
  unfold float_exact. destruct (parse_number _) as [[[] []]|]; try done. by intros ->%bool_decide_eq_true.
Qed.

Lemma float_exact_finite f : float_exact f = true → float_finite f = true.
Proof. by destruct f as [s|[]| |]. Qed.

Lemma parse_value_float fuel f r : float_exact f = true → tail_ok r = true →
  parse_value (S fuel) (float_repr f +:+ r) = Some (JFloat f, r).
Proof.
  intros Hf Hr. apply float_exact_parse in Hf. pose proof (parse_number_tail _ _ _ _ Hr Hf) as Hn.
  destruct (parse_number_head _ _ _ Hf) as (c & t & Ht & Hc). rewrite Ht in Hn |- *. rewrite app_str_cons in Hn |- *.
  cbn [parse_value].
  assert (parse_literal (String c (t +:+ r)) = None) as Hl.
  { destruct Hc as [Hc%digit_cases|(-> & d & t' & -> & Hd%digit_cases)]; [naive_solver|].
    rewrite app_str_cons. naive_solver. }
  rewrite Hl, Hn. destruct Hc as [Hc%digit_cases|(-> & _)]; [naive_solver|done].
Qed.

(** ** The round trip *)

Lemma skip_ws_tail r : tail_ok r = true → skip_ws r = r.
Proof. destruct r as [|c r]; [done|]. by intros [->|[->| ->]]%tail_ok_head. Qed.

(** A printed value starts with a character that is neither blank nor closing. *)
Definition value_head (c : ascii) : bool := negb (is_json_ws c) && negb (mem_char c "]}").

Lemma print_head v : json_ok v = true → ∃ c t, print v = String c t ∧ value_head c = true.
Proof.
  destruct v as [|[]|z|f|s|l|l]; intros Hok; try done;
    try (by (eexists _, _; split; [reflexivity|])).
  2: { cbn [print json_ok] in *. apply float_exact_parse, parse_number_head in Hok as (c & t & -> & Hc).
       exists c, t. split; [done|]. destruct Hc as [Hc%digit_cases|(-> & _)]; [naive_solver|done]. }
  cbn [print]. unfold str_of_Z. destruct z as [|p|p]; cbn [Z.to_int DecimalString.NilZero.string_of_int].
  - by (eexists _, _; split; [reflexivity|]).
  - destruct (str_of_pos p) as (c & t & -> & Hc & Hd & _). eexists _, _. split; [done|].
    simpl in Hd. apply andb_true_iff in Hd as [Hd _]. apply digit_cases in Hd. naive_solver.
  - by (eexists _, _; split; [reflexivity|]).
Qed.

Lemma skip_ws_head c t : value_head c = true → skip_ws (String c t) = String c t.
Proof. unfold value_head. intros [Hc _]%andb_true_iff. simpl. by destruct (is_json_ws c). Qed.

Lemma print_nonempty v : json_ok v = true → (0 < String.length (print v))%nat.
Proof. intros (c & t & -> & _)%print_head. simpl. lia. Qed.

Definition value_parses (v : json) : Prop := ∀ fuel r,
  (String.length (print v) ≤ fuel)%nat → tail_ok r = true →
  parse_value fuel (print v +:+ r) = Some (canon v, r).

Lemma parse_elems_step fuel s : parse_elems (S fuel) s =
  '(v, r) ← parse_value fuel s;
  match skip_ws r with
  | String "]" r => Some ([v], r)
  | String "," r => prod_map (cons v) id <$> parse_elems fuel (skip_ws r)
  | _ => None
  end.
Proof. done. Qed.

Lemma parse_elems_print v l : Forall value_parses (v :: l) →
  Forall (λ v, json_ok v = true) (v :: l) → ∀ fuel r,
  (String.length (join "," (map print (v :: l))) < fuel)%nat →
  parse_elems fuel (join "," (map print (v :: l)) +:+ String "]" r)
  = Some (map canon (v :: l), r).
Proof.
  revert v. induction l as [|w l IH]; intros v HP Hok [|fuel] r Hf; [by apply Nat.nlt_0_r in Hf| |by apply Nat.nlt_0_r in Hf|].
  - apply Forall_cons_1 in HP as [Hv _]. rewrite parse_elems_step. simpl in Hf |- *.
    rewrite Hv; [done|lia|done].
  - apply Forall_cons_1 in HP as [Hv HP]. apply Forall_cons_1 in Hok as [Hvok Hok].
    rewrite parse_elems_step. cbn [map] in *. rewrite join_cons in *.
    rewrite !length_app_str in Hf. rewrite !app_str_assoc.
    rewrite Hv; [|lia|done]. cbn [mbind option_bind].
    change ("," +:+ ?x) with (String "," x). cbn [skip_ws]. cbv beta iota.
    change (is_json_ws ",") with false. cbv iota.
    destruct (print_head w) as (c & t & Hw & Hc); [by apply Forall_cons_1 in Hok as [? _]|].
    assert (skip_ws (join "," (print w :: map print l) +:+ String "]" r)
            = join "," (print w :: map print l) +:+ String "]" r) as ->.
    { rewrite Hw. destruct l; [|cbn [map]; rewrite join_cons, app_str_assoc];
        simpl join; rewrite app_str_cons; by apply skip_ws_head. }
    rewrite (IH w HP Hok fuel r); [done|]. cbn [map].
    change (String.length ",") with 1%nat in Hf. lia.
Qed.

Lemma dict_set_fresh k v (d : list (string * json)) :
  k ∉ d.*1 → dict_set k v d = d ++ [(k, v)].
Proof.
  induction d as [|[k' v'] d IH]; simpl; [done|]. intros H.
  rewrite bool_decide_eq_false_2 by set_solver. rewrite IH by set_solver. done.
Qed.

Lemma parse_members_step fuel acc t : parse_members (S fuel) acc (String dquote t) =
  '(k, r) ← parse_chars t;
  match skip_ws r with
  | String ":" r =>
      '(v, r) ← parse_value fuel (skip_ws r);
      match skip_ws r with
      | String "}" r => Some (dict_set k v acc, r)
      | String "," r => parse_members fuel (dict_set k v acc) (skip_ws r)
      | _ => None
      end
  | _ => None
  end.
Proof. done. Qed.

Lemma parse_item fuel acc k v r :
  value_parses v → json_ok v = true → (String.length (print v) ≤ fuel)%nat → tail_ok r = true →
  parse_members (S fuel) acc (print_item k v +:+ r) =
  match r with
  | String "}" r => Some (dict_set k (canon v) acc, r)
  | String "," r => parse_members fuel (dict_set k (canon v) acc) (skip_ws r)
  | _ => None
  end.
Proof.
  intros Hv Hok Hf Hr. unfold print_item, quote. autorewrite with strapp.
  rewrite parse_members_step, parse_chars_escape. cbn [mbind option_bind].
  cbn [skip_ws]. change (is_json_ws ":") with false. cbv iota.
  destruct (print_head v Hok) as (c & t & Hp & Hc).
  assert (skip_ws (print v +:+ r) = print v +:+ r) as ->.
  { rewrite Hp, app_str_cons. by apply skip_ws_head. }
  rewrite Hv by done. cbn [mbind option_bind]. by rewrite skip_ws_tail.
Qed.

Lemma join_items_head k v l : ∃ t,
  join "," (map (λ kv, print_item kv.1 kv.2) ((k, v) :: l)) = String dquote t.
Proof.
  destruct l as [|kv l]; [by eexists|]. cbn [map]. rewrite join_cons. unfold print_item, quote.
  simpl fst. rewrite !app_str_cons. by eexists.
Qed.

Lemma parse_members_print kv l : Forall (λ kv, value_parses kv.2) (kv :: l) →
  Forall (λ kv, json_ok kv.2 = true) (kv :: l) → ∀ fuel acc r,
  NoDup (acc ++ kv :: l).*1 →
  (String.length (join "," (map (λ kv, print_item kv.1 kv.2) (kv :: l))) < fuel)%nat →
  parse_members fuel acc (join "," (map (λ kv, print_item kv.1 kv.2) (kv :: l)) +:+ String "}" r)
  = Some (acc ++ map (λ kv, (kv.1, canon kv.2)) (kv :: l), r).
Proof.
  assert (∀ k v, String.length (print v) < String.length (print_item k v))%nat as Hlen.
  { intros k v. unfold print_item, quote. rewrite app_str_cons. simpl.
    rewrite !length_app_str. simpl. lia. }
  revert kv. induction l as [|w l IH]; intros [k v] HP Hok [|fuel] acc r Hnd Hf;
    [by apply Nat.nlt_0_r in Hf| |by apply Nat.nlt_0_r in Hf|].
  - apply Forall_cons_1 in HP as [Hv _]. apply Forall_cons_1 in Hok as [Hvok _].
    cbn [map join fst snd] in *. specialize (Hlen k v). rewrite parse_item; [|done..|lia|done].
    rewrite dict_set_fresh; [done|]. rewrite fmap_app in Hnd. simpl in Hnd.
    apply list.NoDup_app in Hnd as (_ & H & _). intros Hk. apply (H k Hk). set_solver.
  - apply Forall_cons_1 in HP as [Hv HP]. apply Forall_cons_1 in Hok as [Hvok Hok]. simpl in Hv, Hvok.
    cbn [map] in Hf |- *. rewrite join_cons in Hf |- *. cbn [fst snd] in *.
    rewrite !length_app_str in Hf. specialize (Hlen k v).
    rewrite !app_str_assoc. change ("," +:+ ?x) with (String "," x).
    rewrite parse_item; [|done|done|lia|done].
    rewrite dict_set_fresh; cycle 1.
    { rewrite fmap_app in Hnd. apply list.NoDup_app in Hnd as (_ & H & _). intros Hk.
      apply (H k Hk). set_solver. }
    destruct w as [k' v']. destruct (join_items_head k' v' l) as [t Ht].
    cbn [map fst snd] in Ht, Hf |- *.
    assert (∀ x, skip_ws (String dquote t +:+ x) = String dquote t +:+ x) as Hs by done.
    rewrite Ht, Hs, <- Ht.
    pose proof (IH (k', v') HP Hok fuel (acc ++ [(k, canon v)]) r) as IH'.
    cbn [map fst snd] in IH'. rewrite IH', <- app_assoc; [done| |change (String.length ",") with 1%nat in Hf; lia].
    rewrite !fmap_app in *. simpl in *. by rewrite <- app_assoc.
Qed.

Lemma value_parses_list l : Forall value_parses l →
  Forall (λ v, json_ok v = true) l → value_parses (JList l).
Proof.
  intros HP Hok [|fuel] r Hf Hr; [simpl in Hf; lia|].
  cbn [print] in Hf |- *. change ("[" +:+ ?x) with (String "[" x) in *.
  simpl in Hf. rewrite length_app_str in Hf. simpl in Hf.
  rewrite app_str_cons, app_str_assoc. change ("]" +:+ r) with (String "]" r).
  destruct l as [|v l]; [done|]. cbn [parse_value].
  change (bool_decide ("["%char = dquote)) with false.
  change (bool_decide ("["%char = "["%char)) with true. cbv iota.
  destruct (print_head v) as (c & t & Hv & Hc); [by apply Forall_cons_1 in Hok as [? _]|].
  assert (∃ t, join "," (map print (v :: l)) +:+ String "]" r = String c t) as [u Hu].
  { cbn [map]. destruct l; [|cbn [map]; rewrite join_cons, app_str_assoc];
      simpl join; rewrite Hv, app_str_cons; by eexists. }
  pose proof (parse_elems_print v l HP Hok fuel r) as IH. rewrite Hu in IH |- *.
  rewrite skip_ws_head by done.
  assert (match String c u with
          | String "]" r => Some (JList [], r)
          | u => prod_map JList id <$> parse_elems fuel u
          end = prod_map JList id <$> parse_elems fuel (String c u)) as ->.
  { unfold value_head in Hc. destruct c as [[] [] [] [] [] [] [] []]; done. }
  rewrite IH by lia. done.
Qed.

Lemma value_parses_obj l : Forall (λ kv, value_parses kv.2) l →
  json_ok (JObj l) = true → value_parses (JObj l).
Proof.
  intros HP Hok [|fuel] r Hf Hr; [simpl in Hf; lia|].
  cbn [json_ok] in Hok. apply andb_true_iff in Hok as [Hnd Hok].
  apply bool_decide_eq_true in Hnd.
  assert (Forall (λ kv, json_ok kv.2 = true) (sort_items l)) as Hoks.
  { rewrite sort_items_perm. apply List.Forall_forall. intros kv Hkv.
    rewrite forallb_forall in Hok. by apply Hok. }
  rewrite print_obj in Hf |- *. change ("{" +:+ ?x) with (String "{" x) in *.
  simpl in Hf. rewrite length_app_str in Hf. simpl in Hf.
  rewrite app_str_cons, app_str_assoc. change ("}" +:+ r) with (String "}" r).
  rewrite <- (sort_items_perm l) in HP. apply sort_items_NoDup in Hnd.
  cbn [canon]. rewrite (sort_items_map (λ _ v, canon v)).
  cbn [parse_value].
  change (bool_decide ("{"%char = dquote)) with false.
  change (bool_decide ("{"%char = "["%char)) with false.
  change (bool_decide ("{"%char = "{"%char)) with true. cbv iota.
  destruct (sort_items l) as [|[k v] l']; [done|].
  pose proof (parse_members_print (k, v) l' HP Hoks fuel [] r Hnd) as IH.
  destruct (join_items_head k v l') as [t Ht]. cbn [fst snd] in *. rewrite Ht in IH, Hf |- *.
  rewrite app_str_cons in IH |- *. rewrite skip_ws_head by done.
  transitivity (prod_map JObj id <$>
    parse_members fuel [] (String dquote (t +:+ String "}" r))); [done|].
  rewrite IH by (simpl in *; lia). done.
Qed.

Lemma print_parses v : json_ok v = true → value_parses v.
Proof.
  induction v as [|b|z| |s|l IH|l IH] using json_ind'; intros Hok;
    try (pose proof (print_nonempty _ Hok) as Hne).
  - intros [|fuel] r Hf Hr; [lia|done].
  - intros [|fuel] r Hf Hr; [lia|by destruct b].
  - intros [|fuel] r Hf Hr; [lia|]. apply (parse_value_int fuel z r Hr).
  - intros [|fuel] r Hf Hr; [lia|]. by apply (parse_value_float fuel _ r).
  - intros [|fuel] r Hf Hr; [lia|]. cbn [print canon]. unfold quote.
    rewrite app_str_cons. cbn [parse_value].
    change (bool_decide (dquote = dquote)) with true. cbv iota.
    rewrite app_str_assoc, app_str_cons, parse_chars_escape. done.
  - cbn [json_ok] in Hok. rewrite forallb_forall in Hok.
    apply value_parses_list; apply List.Forall_forall; intros x Hx.
    + rewrite List.Forall_forall in IH. auto.
    + auto.
  - apply value_parses_obj; [|done]. cbn [json_ok] in Hok.
    apply andb_true_iff in Hok as [_ Hok]. rewrite forallb_forall in Hok.
    apply List.Forall_forall. intros kv Hkv. rewrite List.Forall_forall in IH. auto.
Qed.

(** [json.loads] reads back what [json.dumps] wrote. *)
Lemma loads_dumps v t : json_ok v = true → dumps v = Ok t → loads t = Ok (canon v).
Proof.
  intros Hok Ht. unfold dumps in Ht. destruct (all_finite v); [|done]. injection Ht as <-.
  unfold loads. destruct (print_head v Hok) as (c & u & Hp & Hc).
  rewrite Hp, skip_ws_head, <- Hp by done.
  rewrite <- (app_str_nil_r (print v)) at 2. rewrite (print_parses v Hok); [done|lia|done].
Qed.

Lemma json_ok_finite v : json_ok v = true → all_finite v = true.
Proof.
  induction v as [| | |f| |l IH|l IH] using json_ind'; simpl; try done.
  - apply float_exact_finite.
  - rewrite !forallb_forall. rewrite List.Forall_forall in IH. auto.
  - intros [_ H]%andb_true_iff. rewrite forallb_forall in *. rewrite List.Forall_forall in IH. auto.
Qed.

Lemma dumps_ok v : json_ok v = true → dumps v = Ok (print v).
Proof. intros Hok. unfold dumps. by rewrite json_ok_finite. Qed.

(** The canonical text determines the value, as in [serialize_injective]. *)
Lemma print_inj v w :
  json_ok v = true → json_ok w = true → print v = print w → canon v = canon w.
Proof.
  intros Hv Hw Heq. pose proof (loads_dumps v _ Hv (dumps_ok v Hv)) as H1.
  pose proof (loads_dumps w _ Hw (dumps_ok w Hw)) as H2. rewrite Heq in H1. congruence.
Qed.

Lemma utf8_lead_neq c d :
  (code c < 256)%N → (code d < 128)%N → d ≠ ascii_of_N (192 + code c / 64).
Proof.
  intros Hc Hd H. apply (f_equal code) in H. revert H. unfold code at 1 2.
  assert (code c / 64 < 4)%N by (apply N.Div0.div_lt_upper_bound; lia).
  rewrite N_ascii_embedding by lia. fold (code d). generalize (code c / 64)%N. intros q Hq. lia.
Qed.

Lemma utf8_encode_inj s t : utf8_encode s = utf8_encode t → s = t.
Proof.
  revert t. induction s as [|c s IH]; intros [|d t]; cbn [utf8_encode]; [done|..].
  - by destruct (code d <? 128)%N.
  - by destruct (code c <? 128)%N.
  - pose proof (N_ascii_bounded c) as Hc. pose proof (N_ascii_bounded d) as Hd.
    change (code c < 256)%N in Hc. change (code d < 256)%N in Hd.
    destruct (code c <? 128)%N eqn:Ec, (code d <? 128)%N eqn:Ed;
      rewrite ?N.ltb_lt, ?N.ltb_ge in *.
    + intros [= -> ?]. f_equal. auto.
    + intros [= H _]. by destruct (utf8_lead_neq d c Hd Ec).
    + intros [= H _]. by destruct (utf8_lead_neq c d Hc Ed).
    + intros [= H1 H2 Ht]. apply (f_equal N_of_ascii) in H1, H2.
      assert (code c / 64 < 4)%N by (apply N.Div0.div_lt_upper_bound; lia).
      assert (code d / 64 < 4)%N by (apply N.Div0.div_lt_upper_bound; lia).
      assert (code c mod 64 < 64)%N by (by apply N.mod_upper_bound).
      assert (code d mod 64 < 64)%N by (by apply N.mod_upper_bound).
      rewrite !N_ascii_embedding in H1, H2 by lia.
      assert (code c = code d) as Hcd.
      { rewrite (N.div_mod' (code c) 64), (N.div_mod' (code d) 64). f_equal; [f_equal|]; lia. }
      f_equal; [|auto]. unfold code in Hcd.
      rewrite <- (ascii_N_embedding c), <- (ascii_N_embedding d). by rewrite Hcd.
Qed.

(** Two payloads with the same fingerprint are the same payload, unless their
    canonical texts are a collision of the digest. *)
Definition collision `{Hashlib} (s t : string) : Prop :=
  s ≠ t ∧ sha256_hexdigest s = sha256_hexdigest t.

Lemma fingerprint_binds `{Hashlib} v w :
  json_ok v = true → json_ok w = true →
  sha256_of_text (print v) = sha256_of_text (print w) →
  canon v = canon w ∨ collision (utf8_encode (print v)) (utf8_encode (print w)).
Proof.
  intros Hv Hw Heq. unfold sha256_of_text in Heq. apply (inj _) in Heq.
  destruct (decide (print v = print w)) as [Hp|Hp].
  - left. by apply print_inj.
  - right. split; [|done]. by intros ?%utf8_encode_inj.
Qed.
