(* ===== verification/PyTime.v ===== *)
(** * datetime

    [datetime.fromisoformat] as CPython 3.11 implements it (calendar and week dates,
    with or without separators, fractions truncated to microseconds, optional offset),
    the comparison of aware datetimes, and [astimezone(timezone.utc).isoformat()].
    A datetime is its local time in microseconds since the start of year 1, with the
    offset from UTC when it is aware.  Every failure of the parser is a ValueError. *)

From Stdlib Require Import Ascii.
From Stdlib Require String DecimalString.
From S2P Require Import Prelude PyStr Json.

Local Open Scope Z_scope.

Record datetime := { dt_local : Z; dt_offset : option Z }.

#[export] Instance datetime_eq_dec : EqDecision datetime.
Proof. solve_decision. Defined.

Definition second : Z := 1000000.
Definition day : Z := 86400 * second.

(** ** The calendar *)

Definition is_leap (y : Z) : bool := (y mod 4 =? 0) && (negb (y mod 100 =? 0) || (y mod 400 =? 0)).

Definition days_before_year (y : Z) : Z := (y - 1) * 365 + (y - 1) / 4 - (y - 1) / 100 + (y - 1) / 400.

Definition month_lengths (y : Z) : list Z :=
  [31; if is_leap y then 29 else 28; 31; 30; 31; 30; 31; 31; 30; 31; 30; 31].

Definition days_in_month (y m : Z) : Z := nth (Z.to_nat (m - 1)) (month_lengths y) 0.

Definition days_before_month (y m : Z) : Z :=
  foldr Z.add 0 (take (Z.to_nat (m - 1)) (month_lengths y)).

(** The number of the day, 1 for the first of January of year 1. *)
Definition ymd2ord (y m d : Z) : Z := days_before_year y + days_before_month y m + d.

(** Month and day of the [n]-th day of a year, from 0. *)
Fixpoint month_day (ls : list Z) (m n : Z) : Z * Z :=
  match ls with
  | [] => (m, n + 1)
  | l :: ls => if n <? l then (m, n + 1) else month_day ls (m + 1) (n - l)
  end.

Definition ord2ymd (n : Z) : Z * Z * Z :=
  let n := n - 1 in
  let n400 := n / 146097 in let r := n mod 146097 in
  let n100 := Z.min 3 (r / 36524) in let r := r - n100 * 36524 in
  let n4 := r / 1461 in let r := r mod 1461 in
  let n1 := Z.min 3 (r / 365) in let r := r - n1 * 365 in
  let y := n400 * 400 + n100 * 100 + n4 * 4 + n1 + 1 in
  let '(m, d) := month_day (month_lengths y) 1 r in (y, m, d).

(** Monday of ISO week 1 of a year. *)
Definition isoweek1monday (y : Z) : Z :=
  let first := ymd2ord y 1 1 in
  let weekday := (first + 6) mod 7 in
  let monday := first - weekday in
  if 3 <? weekday then monday + 7 else monday.

Definition isoweek_to_ord (y week d : Z) : option Z :=
  let first_weekday := ymd2ord y 1 1 mod 7 in
  let long := (first_weekday =? 4) || ((first_weekday =? 3) && is_leap y) in
  if negb ((1 <=? y) && (y <=? 9999)) then None
  else if negb ((0 <? week) && ((week <? 53) || ((week =? 53) && long))) then None
  else if negb ((0 <? d) && (d <? 8)) then None
  else Some (isoweek1monday y + (week - 1) * 7 + (d - 1)).

(** ** Parsing *)

(** Exactly [n] digits. *)
Fixpoint parse_digits (n : nat) (acc : Z) (s : string) : option (Z * string) :=
  match n, s with
  | O, _ => Some (acc, s)
  | S n, String c s => if is_digit c then parse_digits n (10 * acc + (Z.of_N (code c) - 48)) s else None
  | S _, EmptyString => None
  end.

Definition char_at (s : string) (i : nat) : option ascii :=
  match drop_str i s with String c _ => Some c | EmptyString => None end.
Definition char_is (s : string) (i : nat) (c : ascii) : bool := bool_decide (char_at s i = Some c).

Definition digit_run (s : string) : nat := String.length (fst (span_digits s)).

(** Where the date ends; [None] is a malformed week date. *)
Definition find_separator (s : string) : option nat :=
  let n := String.length s in
  if (n =? 7)%nat then Some 7%nat
  else if char_is s 4 "-" then
    if char_is s 5 "W" then
      if char_is s 8 "-" then
        if (n =? 9)%nat then None
        else match char_at s 10 with
             | Some c => if is_digit c then Some 8%nat else Some 10%nat
             | None => Some 10%nat
             end
      else Some 8%nat
    else Some 10%nat
  else if char_is s 4 "W" then
    let i := (7 + digit_run (drop_str 7 s))%nat in
    if (i <? 9)%nat then Some i else if Nat.even i then Some 7%nat else Some 8%nat
  else Some 8%nat.

(** The day of the date text, and whether it came from a week date. *)
Definition parse_date (s : string) : option Z :=
  '(year, r) ← parse_digits 4 0 s;
  let sep := match r with String "-" _ => true | _ => false end in
  let r := if sep then drop_str 1 r else r in
  match r with
  | String "W" r =>
      '(week, r) ← parse_digits 2 0 r;
      match r with
      | EmptyString => isoweek_to_ord year week 1
      | _ =>
          r ← (if sep then match r with String "-" r => Some r | _ => None end else Some r);
          '(d, _) ← parse_digits 1 0 r;
          isoweek_to_ord year week d
      end
  | _ =>
      '(month, r) ← parse_digits 2 0 r;
      r ← (if sep then match r with String "-" r => Some r | _ => None end else Some r);
      '(d, _) ← parse_digits 2 0 r;
      if (1 <=? year) && (1 <=? month) && (month <=? 12) && (1 <=? d) && (d <=? days_in_month year month)
      then Some (ymd2ord year month d) else None
  end.

Fixpoint all_digits (n : nat) (s : string) : string * string :=
  match n, s with
  | S n, String c t => if is_digit c then let '(d, r) := all_digits n t in (String c d, r) else ("", s)
  | _, _ => ("", s)
  end.

(** The fraction of a second: up to six digits count, more are skipped; the flag
    says that text is left over. *)
Definition parse_fraction (s : string) : option (Z * bool) :=
  let k := Nat.min 6 (String.length s) in
  '(v, r) ← parse_digits k 0 s;
  Some (v * 10 ^ Z.of_nat (6 - k), negb (is_empty (snd (span_digits r)))).

(** [HH[:MM[:SS[.ffffff]]]] in microseconds, as its four fields; the flag says that
    text is left over. *)
Fixpoint parse_hms (fuel : nat) (first sep : bool) (acc : list Z) (s : string)
    : option (list Z * Z * bool) :=
  '(v, r) ← parse_digits 2 0 s;
  let acc := acc ++ [v] in
  match r with
  | EmptyString => Some (acc, 0, false)
  | String c r' =>
      let sep := if first then bool_decide (c = ":"%char) else sep in
      if is_empty r' then Some (acc, 0, true)
      else
        let continue_ t :=
          match fuel with
          | S fuel => parse_hms fuel false sep acc t
          | O => '(f, more) ← parse_fraction t; Some (acc, f, more)
          end in
        if sep && bool_decide (c = ":"%char) then continue_ r'
        else if mem_char c ".," then '(f, more) ← parse_fraction r'; Some (acc, f, more)
        else if negb sep then continue_ r
        else None
  end.

(** Hour, minute, second and microsecond. *)
Definition parse_time_fields (s : string) : option (Z * Z * Z * Z * bool) :=
  '(fields, micros, more) ← parse_hms 2 true true [] s;
  Some (nth 0 fields 0, nth 1 fields 0, nth 2 fields 0, micros, more).

Fixpoint find_zone (s : string) : string * string :=
  match s with
  | EmptyString => ("", "")
  | String c t => if mem_char c "+-Z" then ("", s) else let '(a, b) := find_zone t in (String c a, b)
  end.

(** The offset of a zone text in microseconds, below a day. *)
Definition parse_zone (sign : Z) (s : string) : option Z :=
  match parse_time_fields s with
  | Some (h, m, sec, us, false) =>
      let offset := sign * ((h * 3600 + m * 60 + sec) * second + us) in
      if (- day <? offset) && (offset <? day) then Some offset else None
  | _ => None
  end.

Definition parse_time (s : string) : option (Z * option Z) :=
  let '(clock, zone) := find_zone s in
  match parse_time_fields clock with
  | Some (h, m, sec, us, more) =>
      offset ← match zone with
               | EmptyString => if more : bool then None else Some None
               | String "Z" r => if is_empty r then Some (Some 0) else None
               | String c r => Some <$> parse_zone (if bool_decide (c = "-"%char) then -1 else 1) r
               end;
      if (h <=? 23) && (m <=? 59) && (sec <=? 59)
      then Some ((h * 3600 + m * 60 + sec) * second + us, offset) else None
  | None => None
  end.

Definition fromisoformat (s : string) : option datetime :=
  if (String.length s <? 7)%nat then None
  else
    i ← find_separator s;
    n ← parse_date (take_str i s);
    '(time, offset) ← (if (String.length s <=? i)%nat then Some (0, None : option Z)
                       else parse_time (drop_str (S i) s));
    Some {| dt_local := (n - 1) * day + time; dt_offset := offset |}.

(** ** Comparison and output *)

(** The instant of an aware datetime. *)
Definition instant (d : datetime) : Z := dt_local d - default 0 (dt_offset d).

Definition pad (n : nat) (z : Z) : string :=
  let s := str_of_Z z in repeat_str (n - String.length s) "0" +:+ s.

(** Whether a local time lies in years 1 to 9999. *)
Definition in_calendar (t : Z) : bool :=
  let n := t / day + 1 in (1 <=? n) && (n <=? ymd2ord 9999 12 31).

(** [HH:MM:SS] and the microseconds that are not zero. *)
Definition iso_time (us : Z) : string :=
  let s := us / second in
  let f := us mod second in
  pad 2 (s / 3600) +:+ ":" +:+ pad 2 (s / 60 mod 60) +:+ ":" +:+ pad 2 (s mod 60)
  +:+ (if f =? 0 then "" else "." +:+ pad 6 f).

Definition iso_local (t : Z) : string :=
  let '(y, m, dd) := ord2ymd (t / day + 1) in
  pad 4 y +:+ "-" +:+ pad 2 m +:+ "-" +:+ pad 2 dd +:+ "T" +:+ iso_time (t mod day).

(** An offset as [+HH:MM], with its seconds when they are not zero. *)
Definition iso_offset (offset : Z) : string :=
  let o := Z.abs offset in
  (if offset <? 0 then "-" else "+")
  +:+ (if o mod (60 * second) =? 0 then pad 2 (o / second / 3600) +:+ ":" +:+ pad 2 (o / second / 60 mod 60)
       else iso_time o).

(** [d.isoformat()]. *)
Definition isoformat (d : datetime) : string :=
  iso_local (dt_local d) +:+ match dt_offset d with None => "" | Some offset => iso_offset offset end.

(** [d.astimezone(timezone.utc).isoformat().replace("+00:00", "Z")]; an instant outside
    years 1 to 9999 raises OverflowError. *)
Definition utc_isoformat (d : datetime) : result string :=
  if negb (in_calendar (instant d)) then raise PyOverflowError "date value out of range"
  else Ok (iso_local (instant d) +:+ "Z").
