(* ===== verification/PyTimeFacts.v ===== *)
(** * datetime: the UTC text of an instant

    [isoformat] of a UTC datetime is read back by [fromisoformat] as the same datetime, and the texts are
    ordered as the instants are: what the SQLite tables compare as text, they compare as time. *)

From Stdlib Require Import Ascii.
From Stdlib Require String DecimalString DecimalFacts DecimalPos DecimalN.
From S2P Require Import Prelude PyStr PyFloat Json JsonFacts PyTime.

Local Open Scope Z_scope.

(** ** Numbers of fixed width *)

Definition digit_char (z : Z) : ascii := ascii_of_N (Z.to_N (48 + z)).

(** The last [n] decimal digits of [z]. *)
Fixpoint digits (n : nat) (z : Z) : string :=
  match n with
  | O => ""
  | S n => digits n (z / 10) +:+ String (digit_char (z mod 10)) ""
  end.

Lemma digit_cases10 z : 0 ≤ z < 10 → z ∈ [0; 1; 2; 3; 4; 5; 6; 7; 8; 9].
Proof. intros H. rewrite !elem_of_cons. lia. Qed.

Ltac each_digit H := apply digit_cases10 in H; repeat (apply elem_of_cons in H as [->|H]; [try reflexivity|]); [..|by apply elem_of_nil in H].

Lemma digit_char_digit z : 0 ≤ z < 10 → is_digit (digit_char z) = true.
Proof. intros H. each_digit H. Qed.

Lemma digit_char_code z : 0 ≤ z < 10 → Z.of_N (code (digit_char z)) - 48 = z.
Proof. intros H. each_digit H. Qed.

Lemma length_digits n z : String.length (digits n z) = n.
Proof. revert z. induction n as [|n IH]; intros z; [done|]. cbn [digits]. rewrite length_app_str, IH. cbn. lia. Qed.

Lemma digits_are_digits n z : forall_char is_digit (digits n z) = true.
Proof.
  revert z. induction n as [|n IH]; intros z; [done|]. cbn [digits]. rewrite forall_char_app, IH. cbn [forall_char].
  by rewrite digit_char_digit by (apply Z.mod_pos_bound; lia).
Qed.

(** The number a digit string continues [acc] to. *)
Fixpoint number_from (acc : Z) (s : string) : Z :=
  match s with
  | EmptyString => acc
  | String c s => number_from (10 * acc + (Z.of_N (code c) - 48)) s
  end.

Definition width (s : string) : Z := 10 ^ Z.of_nat (String.length s).

Lemma width_cons c s : width (String c s) = 10 * width s.
Proof. unfold width. cbn [String.length]. rewrite Nat2Z.inj_succ, Z.pow_succ_r by lia. done. Qed.

Lemma width_pos s : 0 < width s.
Proof. unfold width. apply Z.pow_pos_nonneg; lia. Qed.

Lemma digit_value_range c : is_digit c = true → 0 ≤ Z.of_N (code c) - 48 < 10.
Proof. intros H%digit_cases. destruct_or! H; subst c; vm_compute; done. Qed.

Lemma number_from_acc acc s : number_from acc s = acc * width s + number_from 0 s.
Proof.
  revert acc. induction s as [|c s IH]; intros acc; [unfold width; cbn; lia|].
  cbn [number_from]. rewrite IH, (IH (10 * 0 + _)), width_cons. lia.
Qed.

Lemma number_range s : forall_char is_digit s = true → 0 ≤ number_from 0 s < width s.
Proof.
  induction s as [|c s IH]; [by cbn|]. cbn [forall_char number_from]. intros [Hc Hs]%andb_true_iff.
  rewrite number_from_acc, width_cons. apply digit_value_range in Hc. specialize (IH Hs). nia.
Qed.

Lemma digits_cons n z : digits (S n) z = String (digit_char (z / 10 ^ Z.of_nat n mod 10)) (digits n z).
Proof.
  revert z. induction n as [|n IH]; intros z; [cbn; by rewrite Z.div_1_r|].
  change (digits (S (S n)) z) with (digits (S n) (z / 10) +:+ String (digit_char (z mod 10)) "").
  rewrite IH. cbn [digits]. rewrite app_str_cons. do 3 f_equal.
  rewrite Nat2Z.inj_succ, Z.pow_succ_r by lia. rewrite Z.div_div by (try apply Z.pow_pos_nonneg; lia). done.
Qed.

Lemma digit_char_value c : is_digit c = true → digit_char (Z.of_N (code c) - 48) = c.
Proof. intros H%digit_cases. destruct_or! H; subst c; vm_compute; done. Qed.

(** A digit string is the digits of its number. *)
Lemma digits_number s acc : forall_char is_digit s = true → digits (String.length s) (number_from acc s) = s.
Proof.
  revert acc. induction s as [|c s IH]; intros acc; [done|]. cbn [forall_char number_from String.length]. intros [Hc Hs]%andb_true_iff.
  rewrite digits_cons. f_equal; [|by apply IH]. rewrite number_from_acc.
  fold (width s). rewrite Z.div_add_l by (pose proof (width_pos s); lia).
  rewrite (Z.div_small (number_from 0 s)) by by apply number_range.
  rewrite <- (digit_char_value c Hc) at 2. f_equal. apply digit_value_range in Hc.
  rewrite Z.add_0_r, Z.add_comm, Z.mul_comm, Z.mod_add by lia. by apply Z.mod_small.
Qed.

Ltac eval_digit :=
  match goal with |- context [Z.of_N (code ?c) - 48] =>
    let v := eval vm_compute in (Z.of_N (code c) - 48) in change (Z.of_N (code c) - 48) with v end.

Lemma number_of_uint_acc d p :
  number_from (Z.pos p) (DecimalString.NilEmpty.string_of_uint d) = Z.pos (Pos.of_uint_acc d p).
Proof.
  revert p. induction d; intros p; [done|..]; cbn [DecimalString.NilEmpty.string_of_uint number_from Pos.of_uint_acc];
    rewrite <- IHd; f_equal; eval_digit; lia.
Qed.

Lemma number_of_uint d : number_from 0 (DecimalString.NilEmpty.string_of_uint d) = Z.of_N (Pos.of_uint d).
Proof.
  induction d; [done|done|..]; cbn [DecimalString.NilEmpty.string_of_uint number_from Pos.of_uint];
    eval_digit; apply number_of_uint_acc.
Qed.

Lemma str_of_nonneg z : 0 ≤ z → ∃ c t,
  str_of_Z z = String c t ∧ forall_char is_digit (str_of_Z z) = true ∧ number_from 0 (str_of_Z z) = z
  ∧ (z ≠ 0 → c ≠ "0"%char).
Proof.
  intros Hz. destruct z as [|p|p]; [by eexists _, _|..|lia].
  destruct (str_of_pos p) as (c & t & Hs & Hc & Hd & _). exists c, t. unfold str_of_Z. cbn [Z.to_int DecimalString.NilZero.string_of_int].
  rewrite Hs. split_and!; [done|done| |done]. rewrite <- Hs.
  assert (DecimalString.NilZero.string_of_uint (Pos.to_uint p) = DecimalString.NilEmpty.string_of_uint (Pos.to_uint p)) as ->
    by (by destruct (Pos.to_uint p) eqn:E; [by apply DecimalPos.Unsigned.to_uint_nonnil in E|..]).
  rewrite number_of_uint. by rewrite DecimalPos.Unsigned.of_to.
Qed.

Lemma repeat_zeros k s : number_from 0 (repeat_str k "0" +:+ s) = number_from 0 s.
Proof. induction k as [|k IH]; [done|]. cbn [repeat_str]. rewrite <- IH. done. Qed.

Lemma zeros_digits k : forall_char is_digit (repeat_str k "0") = true ∧ String.length (repeat_str k "0") = k.
Proof. induction k as [|k [IH1 IH2]]; [done|]. cbn [repeat_str]. split; [exact IH1|]. by rewrite length_app_str, IH2. Qed.

(** A padded number has the width it is padded to. *)
Lemma pad_digits n z : (0 < n)%nat → 0 ≤ z < 10 ^ Z.of_nat n → pad n z = digits n z.
Proof.
  intros Hn Hz. destruct (str_of_nonneg z) as (c & t & Hs & Hd & Hv & Hc); [lia|].
  assert (String.length (str_of_Z z) ≤ n)%nat as Hl.
  { destruct (decide (z = 0)) as [->|Hne]; [by cbn; lia|]. rewrite Hs in Hd, Hv |- *. cbn [forall_char number_from] in Hd, Hv.
    apply andb_true_iff in Hd as [Hd Ht]. rewrite number_from_acc in Hv. pose proof (number_range _ Ht).
    assert (1 ≤ Z.of_N (code c) - 48).
    { specialize (Hc Hne). apply digit_cases in Hd. destruct_or! Hd; subst c; (done || by vm_compute). }
    cbn [String.length]. destruct (decide (String.length t < n)%nat); [done|exfalso].
    assert (10 ^ Z.of_nat n ≤ width t) by (apply Z.pow_le_mono_r; lia). nia. }
  unfold pad. set (k := (n - String.length (str_of_Z z))%nat).
  destruct (zeros_digits k) as [Hz1 Hz2].
  rewrite <- (digits_number (repeat_str k "0" +:+ str_of_Z z) 0) by by rewrite forall_char_app, Hz1.
  rewrite repeat_zeros, Hv, length_app_str, Hz2. f_equal. lia.
Qed.

(** ** The calendar *)

Lemma month_length_range y m : 28 ≤ nth m (month_lengths y) 28 ≤ 31.
Proof. unfold month_lengths. destruct (is_leap y); do 13 (destruct m as [|m]; [cbn; lia|]); cbn; lia. Qed.

Definition year_length (y : Z) : Z := if is_leap y then 366 else 365.

(** The month a day of the year lies in. *)
Lemma month_day_spec ls m n : Forall (λ l, 0 < l) ls → 0 ≤ n < foldr Z.add 0 ls →
  ∃ (i : nat), month_day ls m n = (m + Z.of_nat i, n - foldr Z.add 0 (take i ls) + 1)
    ∧ (i < length ls)%nat ∧ 0 ≤ n - foldr Z.add 0 (take i ls) < nth i ls 0.
Proof.
  intros Hl. revert m n. induction Hl as [|l ls Hl _ IH]; intros m n Hn; [cbn in Hn; lia|].
  cbn [foldr] in Hn. cbn [month_day]. destruct (Z.ltb_spec n l) as [Hlt|Hge].
  - exists O. cbn. split; [f_equal; lia|]. split; lia.
  - destruct (IH (m + 1) (n - l)) as (i & -> & Hi & Hr); [lia|]. exists (S i).
    cbn [take foldr length nth]. split; [f_equal; lia|]. split; lia.
Qed.

Ltac div_lia := Z.to_euclidean_division_equations; lia.

(** The year the algorithm finds is the year of the day. *)
Lemma ord2ymd_year n : 1 ≤ n → ∃ y r, ord2ymd n = (let '(m, d) := month_day (month_lengths y) 1 r in (y, m, d))
  ∧ 1 ≤ y ∧ 0 ≤ r < year_length y ∧ n = days_before_year y + r + 1.
Proof.
  intros Hn. unfold ord2ymd.
  set (n400 := (n - 1) / 146097). set (r400 := (n - 1) mod 146097).
  set (n100 := Z.min 3 (r400 / 36524)). set (r100 := r400 - n100 * 36524).
  set (n4 := r100 / 1461). set (r4 := r100 mod 1461).
  set (n1 := Z.min 3 (r4 / 365)). set (r1 := r4 - n1 * 365).
  exists (n400 * 400 + n100 * 100 + n4 * 4 + n1 + 1), r1. split; [done|].
  assert (n - 1 = n400 * 146097 + r400 ∧ 0 ≤ r400 < 146097) as [E400 B400] by (unfold n400, r400; div_lia).
  assert (0 ≤ n400) by (unfold n400; div_lia).
  assert (0 ≤ n100 ≤ 3 ∧ 0 ≤ r100 ∧ (r100 < 36524 ∨ n100 = 3 ∧ r100 ≤ 36524)) as (B100 & P100 & L100) by (unfold r100, n100; div_lia).
  assert (r100 = n4 * 1461 + r4 ∧ 0 ≤ r4 < 1461) as [E4 B4] by (unfold n4, r4; div_lia).
  assert (0 ≤ n4 ≤ 24) by lia.
  assert (0 ≤ n1 ≤ 3 ∧ 0 ≤ r1 ∧ (r1 < 365 ∨ n1 = 3 ∧ r1 ≤ 365)) as (B1 & P1 & L1) by (unfold r1, n1; div_lia).
  assert (r4 = n1 * 365 + r1) as E1 by (unfold r1; lia).
  assert (r400 = n100 * 36524 + r100) as E100 by (unfold r100; lia).
  clearbody n400 r400 n100 r100 n4 r4 n1 r1.
  set (y := n400 * 400 + n100 * 100 + n4 * 4 + n1 + 1).
  assert ((y - 1) / 4 = n400 * 100 + n100 * 25 + n4) as D4 by (unfold y; div_lia).
  assert ((y - 1) / 100 = n400 * 4 + n100) as D100 by (unfold y; div_lia).
  assert ((y - 1) / 400 = n400) as D400 by (unfold y; div_lia).
  split; [unfold y; lia|]. split.
  - split; [done|]. unfold year_length. destruct (is_leap y) eqn:El; [lia|].
    destruct L1 as [L1|[-> L1]]; [done|]. destruct (decide (r1 = 365)) as [->|]; [exfalso|lia].
    unfold is_leap in El. apply andb_false_iff in El as [El|El].
    + apply Z.eqb_neq in El. unfold y in El. div_lia.
    + apply orb_false_iff in El as [El1 El2]. apply negb_false_iff, Z.eqb_eq in El1. apply Z.eqb_neq in El2.
      unfold y in El1, El2. assert (n4 = 24) by div_lia. div_lia.
  - unfold days_before_year. rewrite D4, D100, D400. unfold y. lia.
Qed.

(** ** Comparing texts *)

(** Compare by the first, then by the second. *)
Definition then_by (c d : comparison) : comparison := match c with Eq => d | _ => c end.

Lemma compare_app a b c d : String.length a = String.length b →
  String.compare (a +:+ c) (b +:+ d) = then_by (String.compare a b) (String.compare c d).
Proof.
  revert b. induction a as [|x a IH]; intros [|y b] Hl; try done; cbn [String.length] in Hl.
  rewrite !app_str_cons. cbn [String.compare]. rewrite IH by lia. by destruct (Ascii.compare x y).
Qed.

Lemma digit_compare x y : 0 ≤ x < 10 → 0 ≤ y < 10 → Ascii.compare (digit_char x) (digit_char y) = (x ?= y).
Proof.
  intros Hx Hy. unfold Ascii.compare. pose proof (digit_char_code x Hx). pose proof (digit_char_code y Hy).
  unfold code in *. rewrite <- N2Z.inj_compare. destruct (Z.compare_spec x y), (Z.compare_spec (Z.of_N (N_of_ascii (digit_char x))) (Z.of_N (N_of_ascii (digit_char y)))); (done || lia).
Qed.

(** A number in mixed base is compared digit by digit. *)
Lemma mixed_compare k a b x y : 0 ≤ x < k → 0 ≤ y < k → (a * k + x ?= b * k + y) = then_by (a ?= b) (x ?= y).
Proof.
  intros Hx Hy. destruct (Z.compare_spec a b) as [->|Hl|Hl]; cbn [then_by].
  - destruct (Z.compare_spec x y); [apply Z.compare_eq_iff|apply Z.compare_lt_iff|apply Z.compare_gt_iff]; lia.
  - apply Z.compare_lt_iff. nia.
  - apply Z.compare_gt_iff. nia.
Qed.

Lemma digits_compare n x y : 0 ≤ x < 10 ^ Z.of_nat n → 0 ≤ y < 10 ^ Z.of_nat n →
  String.compare (digits n x) (digits n y) = (x ?= y).
Proof.
  revert x y. induction n as [|n IH]; intros x y Hx Hy; [cbn in Hx, Hy; by assert (x = y) as -> by lia; rewrite Z.compare_refl|].
  rewrite Nat2Z.inj_succ, Z.pow_succ_r in Hx, Hy by lia. cbn [digits].
  rewrite compare_app by by rewrite !length_digits. rewrite IH by div_lia. cbn [String.compare].
  rewrite digit_compare by div_lia.
  rewrite (Z.div_mod x 10) at 3 by lia. rewrite (Z.div_mod y 10) at 3 by lia.
  rewrite (Z.mul_comm 10 (x / 10)), (Z.mul_comm 10 (y / 10)), mixed_compare by div_lia.
  by destruct (_ ?= _), (x mod 10 ?= y mod 10).
Qed.

Lemma pad_compare n x y : (0 < n)%nat → 0 ≤ x < 10 ^ Z.of_nat n → 0 ≤ y < 10 ^ Z.of_nat n → ∀ r s,
  String.compare (pad n x +:+ r) (pad n y +:+ s) = then_by (x ?= y) (String.compare r s).
Proof.
  intros Hn Hx Hy r s. rewrite !pad_digits by done. rewrite compare_app by by rewrite !length_digits.
  by rewrite digits_compare.
Qed.

Lemma compare_same a r s : String.compare (a +:+ r) (a +:+ s) = String.compare r s.
Proof. rewrite compare_app by done. replace (String.compare a a) with Eq; [done|]. symmetry. induction a as [|x a IH]; [done|]. cbn. unfold Ascii.compare. by rewrite N.compare_refl. Qed.

(** ** The date of a day *)

Record date_of (n y m d : Z) : Prop := {
  do_year : 1 ≤ y;
  do_month : 1 ≤ m ≤ 12;
  do_day : 1 ≤ d ≤ days_in_month y m;
  do_ord : ymd2ord y m d = n;
  do_rest : 0 ≤ days_before_month y m + d - 1 < year_length y
}.

Lemma ord2ymd_spec n : 1 ≤ n → ∃ y m d, ord2ymd n = (y, m, d) ∧ date_of n y m d.
Proof.
  intros Hn. destruct (ord2ymd_year n Hn) as (y & r & -> & Hy & Hr & ->).
  assert (Forall (λ l, 0 < l) (month_lengths y)) as Hl by (unfold month_lengths; destruct (is_leap y); repeat constructor).
  assert (foldr Z.add 0 (month_lengths y) = year_length y) as Hs by (unfold month_lengths, year_length; by destruct (is_leap y)).
  destruct (month_day_spec (month_lengths y) 1 r Hl) as (i & -> & Hi & Hd); [by rewrite Hs|].
  change (length (month_lengths y)) with 12%nat in Hi.
  eexists _, _, _. split; [done|]. unfold days_before_year, days_in_month, days_before_month, ymd2ord.
  replace (Z.to_nat (1 + Z.of_nat i - 1)) with i by lia.
  split; unfold ymd2ord, days_in_month, days_before_month; replace (Z.to_nat (1 + Z.of_nat i - 1)) with i by lia;
    unfold days_before_year; lia.
Qed.

Lemma days_before_year_mono y y' : y < y' → days_before_year y + year_length y ≤ days_before_year y'.
Proof.
  intros Hy. unfold days_before_year, year_length, is_leap.
  destruct (y mod 4 =? 0) eqn:E4, (y mod 100 =? 0) eqn:E100, (y mod 400 =? 0) eqn:E400; cbn [negb orb andb];
    rewrite ?Z.eqb_eq, ?Z.eqb_neq in *; div_lia.
Qed.

Lemma year_length_range y : 365 ≤ year_length y ≤ 366.
Proof. unfold year_length. destruct (is_leap y); lia. Qed.

Lemma prefix_sums ls (i j : nat) : Forall (λ l, 0 < l) ls → (i < j)%nat →
  foldr Z.add 0 (take i ls) + nth i ls 0 ≤ foldr Z.add 0 (take j ls).
Proof.
  intros Hl. revert i j. induction Hl as [|l ls Hl Hls IH]; intros i j Hij; [by destruct i, j|].
  destruct j as [|j]; [lia|]. destruct i as [|i]; cbn [take foldr nth].
  - enough (0 ≤ foldr Z.add 0 (take j ls)) by lia. clear -Hls. revert j. induction Hls as [|x xs Hx _ IH]; intros [|j]; cbn; try lia.
    specialize (IH j). lia.
  - specialize (IH i j ltac:(lia)). lia.
Qed.

Lemma date_compare n n' y m d y' m' d' : date_of n y m d → date_of n' y' m' d' →
  (n ?= n') = then_by (y ?= y') (then_by (m ?= m') (d ?= d')).
Proof.
  intros [Hy Hm Hd <- Hr] [Hy' Hm' Hd' <- Hr']. unfold ymd2ord.
  destruct (Z.compare_spec y y') as [->|Hlt|Hlt]; cbn [then_by].
  - assert (Forall (λ l, 0 < l) (month_lengths y')) as Hl by (unfold month_lengths; destruct (is_leap y'); repeat constructor).
    unfold days_in_month, days_before_month in *.
    destruct (Z.compare_spec m m') as [->|Hlt|Hlt]; cbn [then_by].
    + destruct (Z.compare_spec d d'); [apply Z.compare_eq_iff|apply Z.compare_lt_iff|apply Z.compare_gt_iff]; lia.
    + pose proof (prefix_sums _ (Z.to_nat (m - 1)) (Z.to_nat (m' - 1)) Hl ltac:(lia)). apply Z.compare_lt_iff. lia.
    + pose proof (prefix_sums _ (Z.to_nat (m' - 1)) (Z.to_nat (m - 1)) Hl ltac:(lia)). apply Z.compare_gt_iff. lia.
  - pose proof (days_before_year_mono _ _ Hlt). apply Z.compare_lt_iff. lia.
  - pose proof (days_before_year_mono _ _ Hlt). apply Z.compare_gt_iff. lia.
Qed.

Lemma days_in_month_range y m : 1 ≤ m ≤ 12 → 28 ≤ days_in_month y m ≤ 31.
Proof.
  intros Hm. unfold days_in_month. rewrite (nth_indep _ 0 28); [apply month_length_range|].
  change (length (month_lengths y)) with 12%nat. lia.
Qed.

(** The fields of an instant of the calendar. *)
Lemma in_calendar_date t : in_calendar t = true → ∃ y m d, ord2ymd (t / day + 1) = (y, m, d)
  ∧ date_of (t / day + 1) y m d ∧ 1 ≤ y < 10 ^ 4 ∧ 1 ≤ m < 10 ^ 2 ∧ 1 ≤ d < 10 ^ 2.
Proof.
  unfold in_calendar. intros [H1 H2]%andb_true_iff. apply Z.leb_le in H1, H2.
  destruct (ord2ymd_spec (t / day + 1) H1) as (y & m & d & He & Hd). exists y, m, d. split; [done|]. split; [done|].
  destruct Hd as [Hy Hm Hd Ho Hr]. pose proof (days_in_month_range y m Hm). split_and!; try lia.
  destruct (decide (9999 < y)) as [Hlt|]; [exfalso|lia].
  pose proof (days_before_year_mono 9999 y Hlt) as Hb. unfold ymd2ord in *.
  change (days_before_year 9999 + year_length 9999) with 3652059 in Hb.
  change (days_before_year 9999 + days_before_month 9999 12 + 31) with 3652059 in H2. lia.
Qed.

(** ** The UTC text *)

Definition utc (t : Z) : datetime := {| dt_local := t; dt_offset := Some 0 |}.

Definition fraction (f : Z) : string := if f =? 0 then "" else "." +:+ pad 6 f.

Lemma fraction_compare f g : 0 ≤ f < second → 0 ≤ g < second →
  String.compare (fraction f +:+ "+00:00") (fraction g +:+ "+00:00") = (f ?= g).
Proof.
  intros Hf Hg. unfold fraction. destruct (Z.eqb_spec f 0) as [->|Hf0], (Z.eqb_spec g 0) as [->|Hg0].
  - done.
  - rewrite app_str_assoc. symmetry. apply Z.compare_lt_iff. lia.
  - rewrite app_str_assoc. symmetry. apply Z.compare_gt_iff. lia.
  - rewrite !app_str_assoc, compare_same, pad_compare by (unfold second in *; lia).
    by destruct (f ?= g).
Qed.

Lemma iso_time_shape us : iso_time us = pad 2 (us / second / 3600) +:+ ":" +:+ pad 2 (us / second / 60 mod 60) +:+ ":"
  +:+ pad 2 (us / second mod 60) +:+ fraction (us mod second).
Proof. unfold iso_time, fraction. done. Qed.

Lemma then_by_assoc a b c : then_by (then_by a b) c = then_by a (then_by b c).
Proof. by destruct a. Qed.

(** The clock of a day in its fields. *)
Lemma clock_compare us us' : 0 ≤ us < day → 0 ≤ us' < day →
  (us ?= us') = then_by (us / second / 3600 ?= us' / second / 3600)
    (then_by (us / second / 60 mod 60 ?= us' / second / 60 mod 60)
    (then_by (us / second mod 60 ?= us' / second mod 60) (us mod second ?= us' mod second))).
Proof.
  intros Hu Hu'.
  rewrite <- !then_by_assoc.
  rewrite <- (mixed_compare 60) by div_lia.
  replace (us / second / 3600 * 60 + us / second / 60 mod 60) with (us / second / 60) by div_lia.
  replace (us' / second / 3600 * 60 + us' / second / 60 mod 60) with (us' / second / 60) by div_lia.
  rewrite <- (mixed_compare 60) by div_lia.
  replace (us / second / 60 * 60 + us / second mod 60) with (us / second) by div_lia.
  replace (us' / second / 60 * 60 + us' / second mod 60) with (us' / second) by div_lia.
  rewrite <- (mixed_compare second) by (unfold second; div_lia).
  f_equal; unfold second; div_lia.
Qed.

(** The texts are ordered as the instants. *)
Lemma isoformat_compare t t' : in_calendar t = true → in_calendar t' = true →
  String.compare (isoformat (utc t)) (isoformat (utc t')) = (t ?= t').
Proof.
  intros Ht Ht'. destruct (in_calendar_date t Ht) as (y & m & d & E & Hd & By & Bm & Bd).
  destruct (in_calendar_date t' Ht') as (y' & m' & d' & E' & Hd' & By' & Bm' & Bd').
  unfold isoformat, iso_local, utc. cbn [dt_local dt_offset]. rewrite E, E', !iso_time_shape, !app_str_assoc.
  assert (0 ≤ t mod day < day ∧ 0 ≤ t' mod day < day) as [Hu Hu'] by (unfold day, second; div_lia).
  assert (∀ us, 0 ≤ us < day → 0 ≤ us / second / 3600 < 10 ^ Z.of_nat 2 ∧ 0 ≤ us / second / 60 mod 60 < 10 ^ Z.of_nat 2
    ∧ 0 ≤ us / second mod 60 < 10 ^ Z.of_nat 2 ∧ 0 ≤ us mod second < second) as Hf.
  { intros us. change (10 ^ Z.of_nat 2) with 100. unfold day, second. intros. div_lia. }
  destruct (Hf _ Hu) as (H1 & H2 & H3 & H4), (Hf _ Hu') as (H1' & H2' & H3' & H4').
  repeat first [rewrite pad_compare by lia | rewrite compare_same].
  change (iso_offset 0) with "+00:00". rewrite fraction_compare by done.
  rewrite <- clock_compare by done.
  transitivity (then_by (t / day + 1 ?= t' / day + 1) (t mod day ?= t' mod day)).
  - rewrite (date_compare _ _ _ _ _ _ _ _ Hd Hd'). by rewrite !then_by_assoc.
  - rewrite <- (mixed_compare day) by done. rewrite <- (Z.add_compare_mono_l day t t'). unfold day, second. f_equal; div_lia.
Qed.

Lemma isoformat_le t t' : in_calendar t = true → in_calendar t' = true →
  String.le (isoformat (utc t)) (isoformat (utc t')) ↔ t ≤ t'.
Proof.
  intros Ht Ht'. unfold String.le, String.leb. rewrite isoformat_compare by done. unfold Z.le.
  destruct (t ?= t'); cbn; naive_solver.
Qed.

(** ** Reading the text back *)

Lemma parse_digits_app n x acc r : 0 ≤ x < 10 ^ Z.of_nat n →
  parse_digits n acc (digits n x +:+ r) = Some (acc * 10 ^ Z.of_nat n + x, r).
Proof.
  revert x acc. induction n as [|n IH]; intros x acc Hx; [cbn in Hx |- *; do 2 f_equal; lia|].
  rewrite digits_cons, app_str_cons. cbn [parse_digits].
  rewrite Nat2Z.inj_succ, Z.pow_succ_r in Hx |- * by lia.
  assert (0 < 10 ^ Z.of_nat n) by (apply Z.pow_pos_nonneg; lia).
  assert (0 ≤ x / 10 ^ Z.of_nat n < 10) as Hq by (split; [by apply Z.div_pos; lia|apply Z.div_lt_upper_bound; lia]).
  rewrite Z.mod_small by done. rewrite digit_char_digit, digit_char_code by done.
  assert (digits n x = digits n (x mod 10 ^ Z.of_nat n)) as ->.
  { clear. revert x. induction n as [|n IH]; intros x; [done|]. cbn [digits]. rewrite Nat2Z.inj_succ, Z.pow_succ_r by lia.
    assert (0 < 10 ^ Z.of_nat n) by (apply Z.pow_pos_nonneg; lia).
    rewrite (IH (x / 10)), (IH ((x mod _) / 10)). rewrite Z.rem_mul_r by lia.
    rewrite (Z.mul_comm 10), Z.div_add, Z.mod_add by lia. rewrite (Z.div_small (x mod 10)), Z.add_0_l by div_lia.
    rewrite Zmod_mod. by rewrite Zmod_mod. }
  rewrite IH by (apply Z.mod_pos_bound; lia). do 2 f_equal. rewrite (Z.div_mod x (10 ^ Z.of_nat n)) at 3 by lia. lia.
Qed.

Lemma parse_pad n x acc r : (0 < n)%nat → 0 ≤ x < 10 ^ Z.of_nat n →
  parse_digits n acc (pad n x +:+ r) = Some (acc * 10 ^ Z.of_nat n + x, r).
Proof. intros Hn Hx. rewrite pad_digits by done. by apply parse_digits_app. Qed.

Lemma take_str_app a b : take_str (String.length a) (a +:+ b) = a.
Proof. induction a as [|c a IH]; [by destruct b|]. rewrite app_str_cons. cbn. by rewrite IH. Qed.
Lemma drop_str_app a b : drop_str (String.length a) (a +:+ b) = b.
Proof. induction a as [|c a IH]; [by destruct b|]. rewrite app_str_cons. cbn. by rewrite IH. Qed.

Lemma length_pad n z : (0 < n)%nat → 0 ≤ z < 10 ^ Z.of_nat n → String.length (pad n z) = n.
Proof. intros Hn Hz. by rewrite pad_digits, length_digits. Qed.

Lemma pad_nonempty n z r : (0 < n)%nat → 0 ≤ z < 10 ^ Z.of_nat n → is_empty (pad n z +:+ r) = false.
Proof. intros Hn Hz. rewrite pad_digits by done. destruct n as [|n]; [lia|]. by rewrite digits_cons. Qed.

Lemma find_zone_app a b : exists_char (λ c, mem_char c "+-Z") a = false →
  find_zone (a +:+ b) = (a +:+ fst (find_zone b), snd (find_zone b)).
Proof.
  induction a as [|c a IH]; [rewrite !app_str_nil_l; by destruct (find_zone b)|]. cbn [exists_char]. intros [Hc Ha]%orb_false_iff.
  rewrite app_str_cons. cbn [find_zone]. rewrite Hc, IH by done. done.
Qed.

Lemma exists_char_app p a b : exists_char p (a +:+ b) = exists_char p a || exists_char p b.
Proof. induction a as [|c a IH]; [done|]. rewrite app_str_cons. cbn. by rewrite IH, orb_assoc. Qed.

Lemma digits_no_sign n z : exists_char (λ c, mem_char c "+-Z") (digits n z) = false.
Proof.
  pose proof (digits_are_digits n z) as H. revert H. generalize (digits n z) as s. intros s. induction s as [|c s IH]; [done|].
  cbn [forall_char exists_char]. intros [Hc Hs]%andb_true_iff. rewrite IH, orb_false_r by done.
  apply digit_cases in Hc. by destruct_or! Hc; subst c.
Qed.

Lemma pad_no_sign n z : (0 < n)%nat → 0 ≤ z < 10 ^ Z.of_nat n → exists_char (λ c, mem_char c "+-Z") (pad n z) = false.
Proof. intros Hn Hz. rewrite pad_digits by done. apply digits_no_sign. Qed.

(** The date part. *)
Lemma parse_date_text n y m d : date_of n y m d → 1 ≤ y < 10 ^ 4 → 1 ≤ m < 10 ^ 2 → 1 ≤ d < 10 ^ 2 →
  parse_date (pad 4 y +:+ "-" +:+ pad 2 m +:+ "-" +:+ pad 2 d) = Some n.
Proof.
  intros [Hy Hm Hd Ho _] By Bm Bd. unfold parse_date. rewrite parse_pad by lia. cbn [mbind option_bind].
  rewrite app_str_cons, app_str_nil_l. cbn [drop_str].
  pose proof (parse_pad 2 m 0 ("-" +:+ pad 2 d) ltac:(lia) ltac:(lia)) as Hp.
  rewrite (pad_digits 2 m), digits_cons, !app_str_cons in Hp |- * by lia.
  assert (m / 10 ^ Z.of_nat 1 mod 10 = 0 ∨ m / 10 ^ Z.of_nat 1 mod 10 = 1) as Hc by (change (10 ^ Z.of_nat 1) with 10; div_lia).
  assert (∀ c, c = digit_char (m / 10 ^ Z.of_nat 1 mod 10) → c = "0"%char ∨ c = "1"%char) as Hc'
    by (intros c ->; destruct Hc as [-> | ->]; [by left|by right]).
  destruct (Hc' _ eq_refl) as [Hz|Hz]; rewrite Hz in Hp |- *; cbn iota; rewrite Hp; cbn [mbind option_bind];
    rewrite app_str_nil_l, <- (app_str_nil_r (pad 2 d)), parse_pad by lia; cbn [mbind option_bind];
    rewrite !Z.mul_0_l, !Z.add_0_l, !(proj2 (Z.leb_le _ _)) by lia; cbn [andb]; by rewrite Ho.
Qed.

Lemma parse_fraction_pad f : 0 ≤ f < second → parse_fraction (pad 6 f) = Some (f, false).
Proof.
  intros Hf. unfold parse_fraction. rewrite length_pad by (unfold second in Hf; lia). change (Nat.min 6 6) with 6%nat.
  rewrite <- (app_str_nil_r (pad 6 f)), parse_pad by (unfold second in Hf; lia). cbn [mbind option_bind]. 
  do 2 f_equal. change (10 ^ Z.of_nat (6 - 6)) with 1. lia.
Qed.

Lemma app_str_nonempty a b : is_empty a = false → is_empty (a +:+ b) = false.
Proof. by destruct a. Qed.

Lemma parse_time_text h mi s f : 0 ≤ h < 10 ^ 2 → 0 ≤ mi < 10 ^ 2 → 0 ≤ s < 10 ^ 2 → 0 ≤ f < second →
  parse_time_fields (pad 2 h +:+ ":" +:+ pad 2 mi +:+ ":" +:+ pad 2 s +:+ fraction f) = Some (h, mi, s, f, false).
Proof.
  intros Hh Hm Hs Hf. unfold parse_time_fields. cbn [parse_hms]. rewrite parse_pad by lia. cbn [mbind option_bind].
  rewrite app_str_cons, app_str_nil_l, pad_nonempty by lia. cbn [andb bool_decide].
  change (bool_decide (":"%char = ":"%char)) with true. cbn [andb].
  rewrite parse_pad by lia. cbn [mbind option_bind]. rewrite app_str_cons, app_str_nil_l, pad_nonempty by lia.
  change (bool_decide (":"%char = ":"%char)) with true. cbn [andb].
  rewrite parse_pad by lia. cbn [mbind option_bind]. unfold fraction. destruct (Z.eqb_spec f 0) as [->|Hne]; [done|].
  rewrite app_str_cons, app_str_nil_l. rewrite <- (app_str_nil_r (pad 6 f)), pad_nonempty by (unfold second in Hf; lia).
  change (bool_decide ("."%char = ":"%char)) with false. change (mem_char "." ".,") with true. cbn [andb].
  rewrite app_str_nil_r, parse_fraction_pad by done. done.
Qed.

(** [datetime.fromisoformat(d.isoformat()) = d] for a UTC datetime. *)
Lemma fromisoformat_isoformat t : in_calendar t = true → fromisoformat (isoformat (utc t)) = Some (utc t).
Proof.
  intros Ht. destruct (in_calendar_date t Ht) as (y & m & d & E & Hd & By & Bm & Bd).
  unfold isoformat, iso_local, utc. cbn [dt_local dt_offset]. rewrite E, iso_time_shape. change (iso_offset 0) with "+00:00".
  set (u := t mod day). assert (0 ≤ u < day) as Hu by (unfold u, day, second; div_lia).
  set (h := u / second / 3600). set (mi := u / second / 60 mod 60). set (s := u / second mod 60). set (f := u mod second).
  assert (0 ≤ h < 24 ∧ 0 ≤ mi < 60 ∧ 0 ≤ s < 60 ∧ 0 ≤ f < second) as (Hh & Hmi & Hs & Hf)
    by (unfold h, mi, s, f, day, second in *; div_lia).
  set (date := pad 4 y +:+ "-" +:+ pad 2 m +:+ "-" +:+ pad 2 d).
  set (clock := pad 2 h +:+ ":" +:+ pad 2 mi +:+ ":" +:+ pad 2 s +:+ fraction f).
  replace ((pad 4 y +:+ "-" +:+ pad 2 m +:+ "-" +:+ pad 2 d +:+ "T" +:+ clock) +:+ "+00:00")
    with (date +:+ String "T" (clock +:+ "+00:00")) by (unfold date; rewrite !app_str_assoc; done).
  assert (String.length date = 10%nat) as Hl by (unfold date; rewrite !length_app_str, !length_pad by lia; done).
  unfold fromisoformat.
  assert ((String.length (date +:+ String "T" (clock +:+ "+00:00")) <? 7)%nat = false) as ->
    by (rewrite length_app_str, Hl; apply Nat.ltb_ge; lia).
  assert (find_separator (date +:+ String "T" (clock +:+ "+00:00")) = Some 10%nat) as ->.
  { unfold find_separator. rewrite length_app_str, Hl. cbn [String.length Nat.add Nat.eqb].
    unfold date, char_is, char_at. rewrite !pad_digits, !digits_cons by lia. rewrite !app_str_cons, !app_str_nil_l.
    cbn [digits drop_str]. rewrite !app_str_cons, !app_str_nil_l. cbn [drop_str].
    rewrite bool_decide_true, bool_decide_false; [done| |done].
    intros [= Hw]. assert (is_digit "W"%char = true) as [=] by (rewrite <- Hw; apply digit_char_digit; apply Z.mod_pos_bound; lia). }
  cbn [mbind option_bind]. rewrite <- Hl at 1. rewrite take_str_app.
  assert (parse_date date = Some (t / day + 1)) as -> by by apply parse_date_text.
  cbn [mbind option_bind].
  assert ((String.length (date +:+ String "T" (clock +:+ "+00:00")) <=? 10)%nat = false) as ->
    by (rewrite length_app_str, Hl; cbn [String.length]; apply Nat.leb_gt; lia).
  replace (drop_str 11 (date +:+ String "T" (clock +:+ "+00:00"))) with (clock +:+ "+00:00")
    by (change (String "T" ?x) with ("T" +:+ x); rewrite <- app_str_assoc; rewrite <- (drop_str_app (date +:+ "T")) at 1;
        f_equal; rewrite length_app_str, Hl; done).
  unfold parse_time. rewrite find_zone_app.
  2: { unfold clock. rewrite !exists_char_app, !pad_no_sign by lia. unfold fraction. destruct (Z.eqb_spec f 0); [done|].
       by rewrite exists_char_app, pad_no_sign by (unfold second in Hf; lia). }
  change (find_zone "+00:00") with ("", "+00:00"). cbn [fst snd]. rewrite app_str_nil_r. unfold clock.
  rewrite parse_time_text by lia. change (parse_zone _ "00:00") with (Some 0). cbn [mbind option_bind fmap option_fmap option_map].
  rewrite !(proj2 (Z.leb_le _ _)) by lia. cbn [andb mbind option_bind].
  assert (u = (h * 3600 + mi * 60 + s) * second + f) as <-
    by (unfold h, mi, s, f, second in *; clearbody u; clear -Hu; unfold day, second in Hu; div_lia).
  unfold u, day, second. do 2 f_equal. div_lia.
Qed.
