(* ===== verification/PyIp.v ===== *)
(** * ipaddress literals

    [ipaddress.ip_address] on a string (CPython 3.11): an IPv4 dotted quad or an
    IPv6 literal with an optional scope, as the address's integer. *)

From Stdlib Require Import Ascii.
From Stdlib Require String DecimalString.
From S2P Require Import Prelude PyStr Json.

Local Open Scope Z_scope.

Inductive ip := IPv4 (n : Z) | IPv6 (n : Z).

(** [_parse_octet]: ASCII digits, no leading zero, at most 255. *)
Definition parse_octet (s : string) : option Z :=
  if is_empty s || negb (forall_char is_digit s) || (3 <? len s)
     || (negb (bool_decide (s = "0")) && startswith s "0")
  then None
  else let n := digits_value s in if 255 <? n then None else Some n.

Definition parse_ipv4 (s : string) : option Z :=
  match split_on "." s with
  | [a; b; c; d] =>
      a ← parse_octet a; b ← parse_octet b; c ← parse_octet c; d ← parse_octet d;
      Some (((a * 256 + b) * 256 + c) * 256 + d)
  | _ => None
  end.

(** [_parse_hextet]: one to four hexadecimal digits. *)
Fixpoint parse_hex (acc : Z) (s : string) : option Z :=
  match s with
  | EmptyString => Some acc
  | String c s => v ← hex_value c; parse_hex (16 * acc + Z.of_N v) s
  end.
Definition parse_hextet (s : string) : option Z :=
  if is_empty s || (4 <? len s) then None else parse_hex 0 s.

Fixpoint parse_hextets (acc : Z) (l : list string) : option Z :=
  match l with
  | [] => Some acc
  | s :: l => h ← parse_hextet s; parse_hextets (65536 * acc + h) l
  end.

(** [parts.append("%x" % n)]: four digits read back to the same value. *)
Definition hextet_str (n : Z) : string := hex4 (Z.to_N n).

(** Positions of the empty parts strictly inside the list. *)
Definition inner_empty (parts : list string) : list nat :=
  List.filter (λ i, is_empty (nth i parts "")) (seq 1 (length parts - 2)).

Definition parse_ipv6_parts (parts : list string) : option Z :=
  let n := length parts in
  let first := is_empty (nth 0 parts "") in
  let last := is_empty (nth (n - 1) parts "") in
  if (9 <? n)%nat then None
  else match inner_empty parts with
  | [] =>
      if negb (n =? 8)%nat || first || last then None else parse_hextets 0 parts
  | [i] =>
      let hi := if first then pred i else i in
      let lo := if last then pred (n - i - 1) else (n - i - 1)%nat in
      if (first && negb (hi =? 0)%nat) || (last && negb (lo =? 0)%nat) || (7 <? hi + lo)%nat
      then None
      else
        h ← parse_hextets 0 (take hi parts);
        l ← parse_hextets 0 (drop (n - lo) parts);
        Some (h * 65536 ^ Z.of_nat (8 - hi) + l)
  | _ => None
  end.

(** [addr % scope]: the scope, when there is one, is not empty and has no [%]. *)
Definition split_scope_id (s : string) : option string :=
  match split_on "%" s with
  | [a] => Some a
  | [a; scope] => if is_empty scope then None else Some a
  | _ => None
  end.

Definition parse_ipv6 (s : string) : option Z :=
  addr ← split_scope_id s;
  let parts := split_on ":" addr in
  if is_empty addr || (length parts <? 3)%nat then None
  else
    let last := nth (length parts - 1) parts "" in
    if contains last "." then
      v ← parse_ipv4 last;
      parse_ipv6_parts (take (length parts - 1) parts
        ++ [hextet_str (v / 65536); hextet_str (v mod 65536)])
    else parse_ipv6_parts parts.

Definition ip_address (s : string) : option ip :=
  if contains s "/" then None
  else match parse_ipv4 s with
  | Some n => Some (IPv4 n)
  | None => IPv6 <$> parse_ipv6 s
  end.

(** [address in network]: the first [bits] bits of a [width]-bit address. *)
Definition in_network (width bits n net : Z) : bool :=
  Z.shiftr n (width - bits) =? Z.shiftr net (width - bits).

Definition is_loopback (a : ip) : bool :=
  match a with
  | IPv4 n => in_network 32 8 n (127 * 2 ^ 24)
  | IPv6 n => n =? 1
  end.

Definition is_link_local (a : ip) : bool :=
  match a with
  | IPv4 n => in_network 32 16 n (169 * 2 ^ 24 + 254 * 2 ^ 16)
  | IPv6 n => in_network 128 10 n (65152 * 2 ^ 112)
  end.

Example ip_v4 : ip_address "192.168.1.20" = Some (IPv4 3232235796). Proof. reflexivity. Qed.
Example ip_v4_zero : ip_address "10.01.0.1" = None. Proof. reflexivity. Qed.
Example ip_v6 : ip_address "fe80::1%eth0" = Some (IPv6 (65152 * 2 ^ 112 + 1)). Proof. reflexivity. Qed.
Example ip_v6_loop : ip_address "::1" = Some (IPv6 1). Proof. reflexivity. Qed.
Example ip_v6_any : ip_address "::" = Some (IPv6 0). Proof. reflexivity. Qed.
Example ip_v6_full : ip_address "1:2:3:4:5:6:7:8" = Some (IPv6 5192455318486707404433266433261576).
Proof. reflexivity. Qed.
Example ip_v6_mapped : ip_address "::ffff:10.0.0.1" = Some (IPv6 281470849515521). Proof. reflexivity. Qed.
Example ip_v6_bad : map ip_address ["1::2::3"; ":1::2"; "1:2"; "12345::"; "::1:"; "1:2:3:4:5:6:7::8:9"]
  = repeat None 6. Proof. reflexivity. Qed.
