(* ===== verification/TaskContract.v ===== *)
(** * Task contracts

    [task_contract.py]: the authority a task runs under, its validation and the
    deterministic compiler.  A set of names is the list of its elements, tested with
    [mem_str]; [str | tuple] is the sum [write_scope].  Tests on the type of a
    dataclass field hold by typing. *)

From Stdlib Require Import SpecFloat.
From Stdlib Require String.
From S2P Require Import Prelude PyStr PyFloat Json.

Local Open Scope Z_scope.

(** ** Vocabulary *)

Definition TASK_TYPES : list string :=
  ["code_fix"; "code_review"; "doc_summary"; "sensitive_query"; "retrieval";
   "classification"; "analysis"; "general"].
Definition SENSITIVITIES : list string :=
  ["public"; "internal"; "confidential"; "restricted"; "secret"].
Definition RISK_LEVELS : list string := ["low"; "medium"; "high"; "critical"].
Definition MODEL_TIERS : list string := ["none"; "small"; "specialist"; "strong"].
Definition OFFICE_IT_NETWORK_TOOLS : list string :=
  ["network.ssh.probe"; "network.rtsp.probe"; "network.smb.probe";
   "network.printer.ipp_probe"; "network.printer.raw_probe"].
Definition DIAGNOSTIC_LOCAL_READ_TOOLS : list string :=
  ["system.platform.identify"; "system.resource.snapshot"; "system.storage.capacity";
   "network.interface.snapshot"; "network.ipconfig.snapshot"; "network.route.snapshot";
   "network.dns.snapshot"; "time.sync.status"; "service.status.read";
   "windows.group_policy.result"; "identity.session.snapshot"; "audio.devices.snapshot";
   "meeting.client.snapshot"; "process.top.snapshot"; "hardware.usb.snapshot";
   "hardware.display.snapshot"; "hardware.dock.snapshot"; "driver.inventory.snapshot";
   "camera.devices.snapshot"; "storage.io.snapshot"; "windows.print.driver.snapshot";
   "windows.boot.snapshot"; "windows.update.history"; "vpn.status.snapshot"].
Definition DIAGNOSTIC_STAGED_LOCAL_READ_TOOLS : list string :=
  ["backup.local_state.snapshot"; "cloud_files.client_state.snapshot";
   "identity.account_state.snapshot"; "mail_exchange.client_state.snapshot";
   "voip.client_state.snapshot"].
Definition DIAGNOSTIC_INTERNAL_NETWORK_TOOLS : list string :=
  ["network.reachability.internal"; "network.quality.internal"].
Definition INTERNAL_NETWORK_TOOLS : list string :=
  OFFICE_IT_NETWORK_TOOLS ++ DIAGNOSTIC_INTERNAL_NETWORK_TOOLS.
Definition TOOLS : list string :=
  ["read_file"; "search_repo"; "search_docs"; "write_staging"; "apply_patch"; "run_linter";
   "run_tests"; "query_db_readonly"; "calculator"; "web_gateway"; "windows.event.system";
   "windows.event.application"; "windows.event.security"; "windows.printer.queue"]
  ++ OFFICE_IT_NETWORK_TOOLS ++ DIAGNOSTIC_LOCAL_READ_TOOLS
  ++ DIAGNOSTIC_STAGED_LOCAL_READ_TOOLS ++ DIAGNOSTIC_INTERNAL_NETWORK_TOOLS.
Definition VALIDATORS : list string :=
  ["policy"; "schema"; "syntax"; "lint"; "unit_test"; "integration_test"; "evidence";
   "secondary_model"; "human"].
Definition NETWORK_SCOPES : list string := ["deny"; "internal_only"; "allowlisted_egress"].

(** ** Data *)

Record ContextBudget := {
  max_input_tokens : Z;
  max_retrieved_tokens : Z;
  max_tool_output_tokens : Z;
  reserve_tokens : Z
}.

Record GenerationBudget := { max_output_tokens : Z }.

Record ExecutionBudget := {
  max_steps : Z;
  max_tool_calls : Z;
  max_retries : Z;
  max_escalations : Z;
  max_wall_time_ms : Z
}.

Record ModelPolicy := {
  initial_tier : string;
  max_tier : string;
  escalation_allowed : bool;
  confidence_floor : pynum;
  trusted_local_only : bool
}.

Record CachePolicy := {
  cache_mode : string;
  trust_domain : string;
  semantic_cache_allowed : bool;
  ttl_seconds : Z
}.

Record LoggingPolicy := {
  raw_prompt : string;
  raw_tool_output : string;
  retain_days : Z
}.

(** [str | tuple[str, ...]]. *)
Inductive write_scope_t :=
  | WsStr (s : string)
  | WsTuple (l : list string).

#[export] Instance write_scope_eq_dec : EqDecision write_scope_t.
Proof. solve_decision. Defined.

Record TaskContract := {
  tc_task_id : string;
  tc_task_type : string;
  tc_sensitivity : string;
  tc_risk_level : string;
  tc_allowed_sources : list string;
  tc_allowed_tools : list string;
  tc_write_scope : write_scope_t;
  tc_network_scope : string;
  tc_context_budget : ContextBudget;
  tc_generation_budget : GenerationBudget;
  tc_execution_budget : ExecutionBudget;
  tc_evidence_required : bool;
  tc_validators : list string;
  tc_model_policy : ModelPolicy;
  tc_cache_policy : CachePolicy;
  tc_logging_policy : LoggingPolicy;
  tc_output_schema : option (list (string * json));
  tc_schema_version : string;
  tc_policy_reason_codes : list string
}.

(** ** Serialisation *)

Definition json_strs (l : list string) : json := JList (map JStr l).

Definition write_scope_json (w : write_scope_t) : json :=
  match w with WsStr s => JStr s | WsTuple l => json_strs l end.

Definition json_num (x : pynum) : json :=
  match x with NInt z => JInt z | NFloat f => JFloat f end.

Definition TaskContract_to_dict (c : TaskContract) : json := JObj [
  ("task_id", JStr (tc_task_id c));
  ("task_type", JStr (tc_task_type c));
  ("sensitivity", JStr (tc_sensitivity c));
  ("risk_level", JStr (tc_risk_level c));
  ("allowed_sources", json_strs (tc_allowed_sources c));
  ("allowed_tools", json_strs (tc_allowed_tools c));
  ("write_scope", write_scope_json (tc_write_scope c));
  ("network_scope", JStr (tc_network_scope c));
  ("context_budget", JObj [
     ("max_input_tokens", JInt (max_input_tokens (tc_context_budget c)));
     ("max_retrieved_tokens", JInt (max_retrieved_tokens (tc_context_budget c)));
     ("max_tool_output_tokens", JInt (max_tool_output_tokens (tc_context_budget c)));
     ("reserve_tokens", JInt (reserve_tokens (tc_context_budget c)))]);
  ("generation_budget", JObj [
     ("max_output_tokens", JInt (max_output_tokens (tc_generation_budget c)))]);
  ("execution_budget", JObj [
     ("max_steps", JInt (max_steps (tc_execution_budget c)));
     ("max_tool_calls", JInt (max_tool_calls (tc_execution_budget c)));
     ("max_retries", JInt (max_retries (tc_execution_budget c)));
     ("max_escalations", JInt (max_escalations (tc_execution_budget c)));
     ("max_wall_time_ms", JInt (max_wall_time_ms (tc_execution_budget c)))]);
  ("evidence_required", JBool (tc_evidence_required c));
  ("validators", json_strs (tc_validators c));
  ("model_policy", JObj [
     ("initial_tier", JStr (initial_tier (tc_model_policy c)));
     ("max_tier", JStr (max_tier (tc_model_policy c)));
     ("escalation_allowed", JBool (escalation_allowed (tc_model_policy c)));
     ("confidence_floor", json_num (confidence_floor (tc_model_policy c)));
     ("trusted_local_only", JBool (trusted_local_only (tc_model_policy c)))]);
  ("cache_policy", JObj [
     ("mode", JStr (cache_mode (tc_cache_policy c)));
     ("trust_domain", JStr (trust_domain (tc_cache_policy c)));
     ("semantic_cache_allowed", JBool (semantic_cache_allowed (tc_cache_policy c)));
     ("ttl_seconds", JInt (ttl_seconds (tc_cache_policy c)))]);
  ("logging_policy", JObj [
     ("raw_prompt", JStr (raw_prompt (tc_logging_policy c)));
     ("raw_tool_output", JStr (raw_tool_output (tc_logging_policy c)));
     ("retain_days", JInt (retain_days (tc_logging_policy c)))]);
  ("output_schema", match tc_output_schema c with Some d => JObj d | None => JNull end);
  ("schema_version", JStr (tc_schema_version c));
  ("policy_reason_codes", json_strs (tc_policy_reason_codes c))].

(** ** Validation *)

Definition tier_order (t : string) : result Z :=
  match list_find (λ p, p.1 = t)
          [("none", 0); ("small", 1); ("specialist", 2); ("strong", 3)] with
  | Some (_, (_, n)) => Ok n
  | None => raise PyKeyError t
  end.

Definition fail_if (b : bool) (msg : string) : result unit := raise_if b TaskContractError msg.

(** Vocabulary, network placement and model tier. *)
Definition validate_scope (c : TaskContract) : result unit :=
  let mp := tc_model_policy c in
  fail_if (is_empty (tc_task_id c) || (128 <? len (tc_task_id c)))
    "task_id is required and must be <= 128 characters" ;;
  fail_if (negb (mem_str (tc_task_type c) TASK_TYPES))
    ("unsupported task_type: " +:+ tc_task_type c) ;;
  fail_if (negb (mem_str (tc_sensitivity c) SENSITIVITIES))
    ("unsupported sensitivity: " +:+ tc_sensitivity c) ;;
  fail_if (negb (mem_str (tc_risk_level c) RISK_LEVELS))
    ("unsupported risk_level: " +:+ tc_risk_level c) ;;
  fail_if (negb (subset_str (tc_allowed_tools c) TOOLS))
    ("unknown tools: " +:+ repr_list (sorted_diff (tc_allowed_tools c) TOOLS)) ;;
  fail_if (negb (subset_str (tc_validators c) VALIDATORS))
    ("unknown validators: " +:+ repr_list (sorted_diff (tc_validators c) VALIDATORS)) ;;
  fail_if (negb (mem_str (tc_network_scope c) NETWORK_SCOPES))
    ("unsupported network_scope: " +:+ tc_network_scope c) ;;
  let internal := filter (λ t, t ∈ INTERNAL_NETWORK_TOOLS) (tc_allowed_tools c) in
  fail_if (negb (bool_decide (internal = []))
           && negb (bool_decide (tc_network_scope c = "internal_only")))
    ("Internal diagnostic network tools require network_scope=internal_only: "
       +:+ repr_list (sorted_str (dict_fromkeys internal))) ;;
  fail_if (negb (mem_str (initial_tier mp) MODEL_TIERS) || negb (mem_str (max_tier mp) MODEL_TIERS))
    "invalid model tier" ;;
  lo ← tier_order (initial_tier mp);
  hi ← tier_order (max_tier mp);
  fail_if (hi <? lo) "initial model tier exceeds max tier" ;;
  fail_if (negb (num_le (NInt 0) (confidence_floor mp) && num_le (confidence_floor mp) (NInt 1)))
    "confidence_floor must be within [0,1]" ;;
  if bool_decide (initial_tier mp = "none") then
    fail_if (negb (bool_decide (max_tier mp = "none"))) "NO_LLM tasks require max_tier=none" ;;
    fail_if (escalation_allowed mp) "NO_LLM tasks cannot allow model escalation"
  else Ok tt.

(** Context, generation and execution budgets. *)
Definition validate_budgets (c : TaskContract) : result unit :=
  let cb := tc_context_budget c in
  let eb := tc_execution_budget c in
  fail_if (Z.min (max_input_tokens cb) (reserve_tokens cb) <? 0)
    "context budgets must be non-negative" ;;
  fail_if (max_input_tokens cb <? 256) "max_input_tokens must be >= 256" ;;
  fail_if ((max_retrieved_tokens cb <? 0) || (max_tool_output_tokens cb <? 0))
    "retrieval/tool budgets cannot be negative" ;;
  fail_if (max_output_tokens (tc_generation_budget c) <? 1) "max_output_tokens must be >= 1" ;;
  fail_if ((max_steps eb <? 1) || (max_tool_calls eb <? 0) || (max_retries eb <? 0)
           || (max_escalations eb <? 0)) "execution budgets are invalid" ;;
  fail_if (max_wall_time_ms eb <? 100) "max_wall_time_ms must be >= 100" ;;
  fail_if (bool_decide (initial_tier (tc_model_policy c) = "none")
           && negb (max_escalations eb =? 0)) "NO_LLM tasks require max_escalations=0".

(** Cache, logging and egress policy. *)
Definition validate_policies (c : TaskContract) : result unit :=
  let cache := tc_cache_policy c in
  let log := tc_logging_policy c in
  let secret := bool_decide (tc_sensitivity c = "secret") in
  let egress := bool_decide (tc_network_scope c = "allowlisted_egress") in
  let gateway := mem_str "web_gateway" (tc_allowed_tools c) in
  fail_if (negb (mem_str (cache_mode cache) ["deny"; "exact_only"; "prefix_allowed"; "kv_allowed"]))
    "invalid cache mode" ;;
  fail_if (is_empty (trust_domain cache)) "cache trust_domain is required" ;;
  fail_if (negb (mem_str (raw_prompt log) ["deny"; "redacted"; "allow"]))
    "invalid raw_prompt logging policy" ;;
  fail_if (negb (mem_str (raw_tool_output log) ["deny"; "redacted"; "allow"]))
    "invalid raw_tool_output logging policy" ;;
  fail_if (secret && negb (bool_decide (tc_network_scope c = "deny")))
    "secret tasks require network_scope=deny" ;;
  fail_if (egress && negb gateway) "allowlisted egress requires web_gateway" ;;
  fail_if (gateway && negb egress) "web_gateway requires network_scope=allowlisted_egress" ;;
  fail_if (secret && gateway) "secret tasks cannot use web_gateway" ;;
  (if mem_str (tc_sensitivity c) ["restricted"; "secret"] then
     fail_if (negb (bool_decide (raw_prompt log = "deny"))
              || negb (bool_decide (raw_tool_output log = "deny")))
       "restricted/secret tasks cannot log raw content" ;;
     fail_if (semantic_cache_allowed cache) "restricted/secret tasks cannot use semantic answer cache"
   else Ok tt) ;;
  fail_if (secret && negb (mem_str (cache_mode cache) ["deny"; "exact_only"]))
    "secret tasks cannot use shared prefix/KV cache".

Definition TaskContract_validate (c : TaskContract) : result TaskContract :=
  validate_scope c ;; validate_budgets c ;; validate_policies c ;; Ok c.

(** ** The compiler *)

(** [tuple(dict.fromkeys(str(v).strip() for v in values if str(v).strip()))]. *)
Definition unique (values : list string) : list string :=
  dict_fromkeys (filter (λ v, is_empty v = false) (map strip values)).

(** The keyword arguments of [compile]. *)
Record CompileRequest := {
  rq_task_id : string;
  rq_task_type : string;
  rq_sensitivity : string;
  rq_risk_level : string;
  rq_allowed_sources : list string;
  rq_allowed_tools : option (list string);
  rq_write_scope : write_scope_t;
  rq_public_web : bool;
  rq_output_schema : option (list (string * json));
  rq_deterministic_only : bool
}.

(** The arguments left at their defaults. *)
Definition default_request (task_id : string) : CompileRequest := {|
  rq_task_id := task_id; rq_task_type := "general"; rq_sensitivity := "internal";
  rq_risk_level := "low"; rq_allowed_sources := []; rq_allowed_tools := None;
  rq_write_scope := WsStr "none"; rq_public_web := false; rq_output_schema := None;
  rq_deterministic_only := false |}.

(** The tools of a request that names none. *)
Definition default_tools (task_type : string) : list string :=
  if mem_str task_type ["doc_summary"; "retrieval"; "analysis"; "general"] then
    ["search_docs"; "read_file"]
  else if mem_str task_type ["code_fix"; "code_review"] then
    ["search_repo"; "read_file"; "run_linter"; "run_tests"]
      ++ (if bool_decide (task_type = "code_fix") then ["write_staging"; "apply_patch"] else [])
  else if bool_decide (task_type = "classification") then []
  else if bool_decide (task_type = "sensitive_query") then ["search_docs"; "query_db_readonly"]
  else [].

(** Initial tier, maximal tier and reason code. *)
Definition select_tiers (deterministic_only : bool) (task_type : string) : string * string * string :=
  if deterministic_only then ("none", "none", "NO_LLM_DETERMINISTIC_LOCAL_RETRIEVAL")
  else if mem_str task_type ["classification"] then ("small", "specialist", "SMALL_STRUCTURED_TASK")
  else if mem_str task_type ["doc_summary"; "retrieval"] then ("small", "specialist", "SMALL_FIRST")
  else if mem_str task_type ["code_fix"; "code_review"; "sensitive_query"; "analysis"] then
    ("specialist", "strong", "SPECIALIST_FIRST")
  else ("small", "strong", "SMALL_FIRST").

Definition select_validators (task_type risk_level : string) (has_schema evidence : bool)
    : list string :=
  ["policy"]
  ++ (if has_schema then ["schema"] else [])
  ++ (if mem_str task_type ["code_fix"; "code_review"] then ["syntax"; "lint"; "unit_test"] else [])
  ++ (if evidence then ["evidence"] else [])
  ++ (if mem_str risk_level ["high"; "critical"] then ["human"] else []).

Definition select_storage (sensitivity task_id : string) : CachePolicy * LoggingPolicy :=
  if mem_str sensitivity ["restricted"; "secret"] then
    (Build_CachePolicy "deny" (sensitivity +:+ ":task:" +:+ task_id) false 0,
     Build_LoggingPolicy "deny" "deny" 90)
  else if bool_decide (sensitivity = "confidential") then
    (Build_CachePolicy "exact_only" ("task:" +:+ task_id) false 3600,
     Build_LoggingPolicy "deny" "redacted" 30)
  else if bool_decide (sensitivity = "internal") then
    (Build_CachePolicy "prefix_allowed" "workspace:internal" false 3600,
     Build_LoggingPolicy "redacted" "redacted" 30)
  else
    (Build_CachePolicy "prefix_allowed" "system:public" false 21600,
     Build_LoggingPolicy "deny" "redacted" 30).

Definition select_budgets (deterministic_only : bool) (task_type : string)
    : ContextBudget * GenerationBudget * ExecutionBudget :=
  if deterministic_only then
    (Build_ContextBudget 12000 8000 4000 1000, Build_GenerationBudget 1,
     Build_ExecutionBudget 4 6 0 0 120000)
  else if mem_str task_type ["doc_summary"; "analysis"; "sensitive_query"] then
    (Build_ContextBudget 16000 10000 4000 1500, Build_GenerationBudget 2000,
     Build_ExecutionBudget 8 12 2 1 600000)
  else
    (Build_ContextBudget 12000 8000 4000 1000, Build_GenerationBudget 1600,
     Build_ExecutionBudget 6 10 1 1 300000).

(** The guards of [compile], on the normalised vocabulary. *)
Definition compile_guards (rq : CompileRequest) (task_type sensitivity risk_level : string)
    : result unit :=
  fail_if (negb (mem_str task_type TASK_TYPES)) ("unsupported task_type: " +:+ task_type) ;;
  fail_if (negb (mem_str sensitivity SENSITIVITIES)) ("unsupported sensitivity: " +:+ sensitivity) ;;
  fail_if (negb (mem_str risk_level RISK_LEVELS)) ("unsupported risk_level: " +:+ risk_level) ;;
  if rq_deterministic_only rq then
    fail_if (negb (bool_decide (task_type = "retrieval")))
      "NO_LLM v1 is supported only for task_type=retrieval" ;;
    fail_if (rq_public_web rq) "NO_LLM retrieval cannot enable public web egress" ;;
    fail_if (match rq_output_schema rq with Some _ => true | None => false end)
      "NO_LLM retrieval does not accept model output schemas"
  else Ok tt.

(** Network scope, tools and reason codes. *)
Definition place_network (public_web : bool) (sensitivity : string) (tools reasons : list string)
    : result (string * list string * list string) :=
  if public_web then
    fail_if (bool_decide (sensitivity = "secret"))
      "secret tasks remain network-denied; use restricted with sanitized research when abstraction is permitted" ;;
    Ok ("allowlisted_egress",
        (if mem_str "web_gateway" tools then tools else tools ++ ["web_gateway"]),
        reasons ++ ["SANITIZED_" +:+ upper sensitivity +:+ "_ALLOWLISTED_EGRESS"])
  else if mem_str sensitivity ["restricted"; "internal"] then Ok ("internal_only", tools, reasons)
  else Ok ("deny", tools, reasons).

(** [list(allowed_tools or ())], or the default tools. *)
Definition requested_tools (rq : CompileRequest) (task_type : string) : list string :=
  let tools := default [] (rq_allowed_tools rq) in
  match tools with [] => default_tools task_type | _ => tools end.

Definition compile (rq : CompileRequest) : result TaskContract :=
  let task_type := lower (strip (rq_task_type rq)) in
  let sensitivity := lower (strip (rq_sensitivity rq)) in
  let risk_level := lower (strip (rq_risk_level rq)) in
  let det := rq_deterministic_only rq in
  compile_guards rq task_type sensitivity risk_level ;;
  let reasons := ["SENSITIVITY_" +:+ upper sensitivity; "TASK_" +:+ upper task_type] in
  let tools := requested_tools rq task_type in
  fail_if (det && negb (subset_str tools ["search_docs"; "read_file"]))
    ("NO_LLM retrieval has unsupported tools: "
       +:+ repr_list (sorted_diff tools ["search_docs"; "read_file"])) ;;
  '(network_scope, tools, reasons) ← place_network (rq_public_web rq) sensitivity tools reasons;
  let '(tier0, tier1, reason) := select_tiers det task_type in
  let evidence := mem_str task_type ["doc_summary"; "retrieval"; "sensitive_query"; "analysis"]
                  || mem_str risk_level ["high"; "critical"] in
  let has_schema := match rq_output_schema rq with Some (_ :: _) => true | _ => false end in
  let '(cache, logging) := select_storage sensitivity (rq_task_id rq) in
  let write := match rq_write_scope rq with
               | WsStr s => WsStr s | WsTuple l => WsTuple (unique l) end in
  let '(context, generation, execution) := select_budgets det task_type in
  TaskContract_validate {|
    tc_task_id := rq_task_id rq;
    tc_task_type := task_type;
    tc_sensitivity := sensitivity;
    tc_risk_level := risk_level;
    tc_allowed_sources := unique (rq_allowed_sources rq);
    tc_allowed_tools := unique tools;
    tc_write_scope := write;
    tc_network_scope := network_scope;
    tc_context_budget := context;
    tc_generation_budget := generation;
    tc_execution_budget := execution;
    tc_evidence_required := evidence;
    tc_validators := unique (select_validators task_type risk_level has_schema evidence);
    tc_model_policy := {|
      initial_tier := tier0; max_tier := tier1; escalation_allowed := negb det;
      confidence_floor := NFloat (if mem_str risk_level ["high"; "critical"]
                                  then round_decimal 85 (-2) else round_decimal 70 (-2));
      trusted_local_only := negb (bool_decide (sensitivity = "public")) |};
    tc_cache_policy := cache;
    tc_logging_policy := logging;
    tc_output_schema := rq_output_schema rq;
    tc_schema_version := "workspace-task-contract/v1";
    tc_policy_reason_codes := reasons ++ [reason] |}.

(** ** Well-formed contracts *)

Definition tier_rank (t : string) : Z :=
  match list_find (λ x, x = t) MODEL_TIERS with Some (i, _) => Z.of_nat i | None => -1 end.

(** What validation promises to the rest of the system. *)
Record contract_wf (c : TaskContract) : Prop := {
  wf_task_id : 1 ≤ len (tc_task_id c) ≤ 128;
  wf_vocabulary : tc_task_type c ∈ TASK_TYPES ∧ tc_sensitivity c ∈ SENSITIVITIES
    ∧ tc_risk_level c ∈ RISK_LEVELS ∧ tc_network_scope c ∈ NETWORK_SCOPES;
  wf_tools : tc_allowed_tools c ⊆ TOOLS;
  wf_validators : tc_validators c ⊆ VALIDATORS;
  wf_internal : ∀ t, t ∈ tc_allowed_tools c → t ∈ INTERNAL_NETWORK_TOOLS →
    tc_network_scope c = "internal_only";
  wf_egress : tc_network_scope c = "allowlisted_egress" ↔ "web_gateway" ∈ tc_allowed_tools c;
  wf_secret : tc_sensitivity c = "secret" →
    tc_network_scope c = "deny" ∧ cache_mode (tc_cache_policy c) ∈ ["deny"; "exact_only"];
  wf_storage : tc_sensitivity c ∈ ["restricted"; "secret"] →
    raw_prompt (tc_logging_policy c) = "deny" ∧ raw_tool_output (tc_logging_policy c) = "deny"
    ∧ semantic_cache_allowed (tc_cache_policy c) = false;
  wf_tiers : initial_tier (tc_model_policy c) ∈ MODEL_TIERS ∧ max_tier (tc_model_policy c) ∈ MODEL_TIERS
    ∧ tier_rank (initial_tier (tc_model_policy c)) ≤ tier_rank (max_tier (tc_model_policy c));
  wf_no_llm : initial_tier (tc_model_policy c) = "none" →
    max_tier (tc_model_policy c) = "none" ∧ escalation_allowed (tc_model_policy c) = false
    ∧ max_escalations (tc_execution_budget c) = 0;
  wf_confidence : num_le (NInt 0) (confidence_floor (tc_model_policy c)) = true
    ∧ num_le (confidence_floor (tc_model_policy c)) (NInt 1) = true;
  wf_context : 256 ≤ max_input_tokens (tc_context_budget c)
    ∧ 0 ≤ reserve_tokens (tc_context_budget c)
    ∧ 0 ≤ max_retrieved_tokens (tc_context_budget c)
    ∧ 0 ≤ max_tool_output_tokens (tc_context_budget c)
    ∧ 1 ≤ max_output_tokens (tc_generation_budget c);
  wf_execution : 1 ≤ max_steps (tc_execution_budget c)
    ∧ 0 ≤ max_tool_calls (tc_execution_budget c) ∧ 0 ≤ max_retries (tc_execution_budget c)
    ∧ 0 ≤ max_escalations (tc_execution_budget c) ∧ 100 ≤ max_wall_time_ms (tc_execution_budget c);
  wf_cache : cache_mode (tc_cache_policy c) ∈ ["deny"; "exact_only"; "prefix_allowed"; "kv_allowed"]
    ∧ trust_domain (tc_cache_policy c) ≠ "";
  wf_logging : raw_prompt (tc_logging_policy c) ∈ ["deny"; "redacted"; "allow"]
    ∧ raw_tool_output (tc_logging_policy c) ∈ ["deny"; "redacted"; "allow"]
}.

Lemma len_pos s : s ≠ "" ↔ 1 ≤ len s.
Proof. unfold len. destruct s; simpl; split; intros; (done || lia). Qed.

Lemma tier_order_rank t : t ∈ MODEL_TIERS → tier_order t = Ok (tier_rank t).
Proof.
  unfold MODEL_TIERS. rewrite !elem_of_cons, elem_of_nil.
  intros [->|[->|[->|[->|[]]]]]; reflexivity.
Qed.

Lemma secret_no_tools c : contract_wf c → tc_sensitivity c = "secret" →
  "web_gateway" ∉ tc_allowed_tools c ∧ ∀ t, t ∈ tc_allowed_tools c → t ∉ INTERNAL_NETWORK_TOOLS.
Proof.
  intros Hwf [Hd _]%(wf_secret c Hwf). split.
  - rewrite <- (wf_egress c Hwf), Hd. done.
  - intros t Ht Hi. apply (wf_internal c Hwf) in Ht; [|done]. congruence.
Qed.

#[local] Hint Rewrite @guard_bind_ok @unit_bind_ok @when_ok raise_if_ok negb_false_iff negb_true_iff
  orb_false_iff andb_true_iff andb_false_imp bool_decide_eq_true bool_decide_eq_false mem_str_true
  mem_str_false subset_str_spec is_empty_false Z.ltb_ge Z.eqb_eq : guards.

Lemma validate_budgets_ok c : validate_budgets c = Ok tt ↔
  (256 ≤ max_input_tokens (tc_context_budget c) ∧ 0 ≤ reserve_tokens (tc_context_budget c)
    ∧ 0 ≤ max_retrieved_tokens (tc_context_budget c)
    ∧ 0 ≤ max_tool_output_tokens (tc_context_budget c)
    ∧ 1 ≤ max_output_tokens (tc_generation_budget c))
  ∧ (1 ≤ max_steps (tc_execution_budget c)
    ∧ 0 ≤ max_tool_calls (tc_execution_budget c) ∧ 0 ≤ max_retries (tc_execution_budget c)
    ∧ 0 ≤ max_escalations (tc_execution_budget c) ∧ 100 ≤ max_wall_time_ms (tc_execution_budget c))
  ∧ (initial_tier (tc_model_policy c) = "none" → max_escalations (tc_execution_budget c) = 0).
Proof. unfold validate_budgets, fail_if. autorewrite with guards. split; intros; intuition lia. Qed.

Lemma validate_policies_ok c : validate_policies c = Ok tt ↔
  (cache_mode (tc_cache_policy c) ∈ ["deny"; "exact_only"; "prefix_allowed"; "kv_allowed"]
    ∧ trust_domain (tc_cache_policy c) ≠ "")
  ∧ (raw_prompt (tc_logging_policy c) ∈ ["deny"; "redacted"; "allow"]
    ∧ raw_tool_output (tc_logging_policy c) ∈ ["deny"; "redacted"; "allow"])
  ∧ (tc_network_scope c = "allowlisted_egress" ↔ "web_gateway" ∈ tc_allowed_tools c)
  ∧ (tc_sensitivity c = "secret" →
      tc_network_scope c = "deny" ∧ cache_mode (tc_cache_policy c) ∈ ["deny"; "exact_only"])
  ∧ (tc_sensitivity c ∈ ["restricted"; "secret"] →
    raw_prompt (tc_logging_policy c) = "deny" ∧ raw_tool_output (tc_logging_policy c) = "deny"
    ∧ semantic_cache_allowed (tc_cache_policy c) = false).
Proof.
  unfold validate_policies, fail_if. autorewrite with guards.
  split; [intuition|]. intros (H1 & H2 & H3 & H4 & H5).
  assert (tc_sensitivity c = "secret" → "web_gateway" ∉ tc_allowed_tools c).
  { intros [Hd _]%H4. rewrite <- H3, Hd. done. }
  intuition.
Qed.

Lemma no_internal_tools c :
  filter (λ t, t ∈ INTERNAL_NETWORK_TOOLS) (tc_allowed_tools c) = []
  ↔ ∀ t, t ∈ tc_allowed_tools c → t ∉ INTERNAL_NETWORK_TOOLS.
Proof.
  split.
  - intros H t Ht Hi. assert (t ∈ []) as []%not_elem_of_nil. rewrite <- H.
    by apply list_elem_of_filter.
  - intros H. destruct (filter _ _) as [|t l] eqn:E; [done|].
    assert (t ∈ t :: l) as Ht by left. rewrite <- E, list_elem_of_filter in Ht. naive_solver.
Qed.

Lemma validate_scope_ok c : validate_scope c = Ok tt ↔
  (1 ≤ len (tc_task_id c) ≤ 128)
  ∧ (tc_task_type c ∈ TASK_TYPES ∧ tc_sensitivity c ∈ SENSITIVITIES
    ∧ tc_risk_level c ∈ RISK_LEVELS ∧ tc_network_scope c ∈ NETWORK_SCOPES)
  ∧ tc_allowed_tools c ⊆ TOOLS
  ∧ tc_validators c ⊆ VALIDATORS
  ∧ (∀ t, t ∈ tc_allowed_tools c → t ∈ INTERNAL_NETWORK_TOOLS → tc_network_scope c = "internal_only")
  ∧ (initial_tier (tc_model_policy c) ∈ MODEL_TIERS ∧ max_tier (tc_model_policy c) ∈ MODEL_TIERS
    ∧ tier_rank (initial_tier (tc_model_policy c)) ≤ tier_rank (max_tier (tc_model_policy c)))
  ∧ (num_le (NInt 0) (confidence_floor (tc_model_policy c)) = true
    ∧ num_le (confidence_floor (tc_model_policy c)) (NInt 1) = true)
  ∧ (initial_tier (tc_model_policy c) = "none" →
    max_tier (tc_model_policy c) = "none" ∧ escalation_allowed (tc_model_policy c) = false).
Proof.
  unfold validate_scope, fail_if. autorewrite with guards.
  destruct (decide (initial_tier (tc_model_policy c) ∈ MODEL_TIERS)) as [Hi|]; [|tauto].
  destruct (decide (max_tier (tc_model_policy c) ∈ MODEL_TIERS)) as [Hm|]; [|tauto].
  rewrite !tier_order_rank by done. cbn [mbind result_bind]. autorewrite with guards.
  rewrite no_internal_tools, len_pos.
  assert (∀ P : Prop, Decision P → (¬ (∀ t, t ∈ tc_allowed_tools c → t ∉ INTERNAL_NETWORK_TOOLS) → P)
    ↔ (∀ t, t ∈ tc_allowed_tools c → t ∈ INTERNAL_NETWORK_TOOLS → P)) as Himp.
  { intros P HP. destruct (decide P); naive_solver. }
  rewrite Himp by apply _. tauto.
Qed.

Lemma validate_ok_iff c : TaskContract_validate c = Ok c ↔ contract_wf c.
Proof.
  unfold TaskContract_validate. rewrite !unit_bind_ok, validate_scope_ok, validate_budgets_ok,
    validate_policies_ok.
  split; [intros; constructor; tauto|]. intros []. tauto.
Qed.

Lemma validate_raises c : raises_in (λ d, d = TaskContractError) (TaskContract_validate c).
Proof.
  unfold TaskContract_validate, validate_scope, validate_budgets, validate_policies, fail_if.
  raises.
  all: match goal with H : raise_if (negb (mem_str (initial_tier _) _) || _) _ _ = _ |- _ =>
         apply raise_if_ok, orb_false_iff in H as [Hi Hm] end.
  all: rewrite negb_false_iff, mem_str_true in Hi, Hm; rewrite tier_order_rank by done.
  all: apply raises_in_ok.
Qed.

(** ** The compiler's output *)

(** The requests the compiler accepts when no tool is named. *)
Definition request_ok (rq : CompileRequest) : Prop :=
  lower (strip (rq_task_type rq)) ∈ TASK_TYPES
  ∧ lower (strip (rq_sensitivity rq)) ∈ SENSITIVITIES
  ∧ lower (strip (rq_risk_level rq)) ∈ RISK_LEVELS
  ∧ 1 ≤ len (rq_task_id rq) ≤ 128
  ∧ (rq_public_web rq = true → lower (strip (rq_sensitivity rq)) ≠ "secret")
  ∧ (rq_deterministic_only rq = true →
      lower (strip (rq_task_type rq)) = "retrieval" ∧ rq_public_web rq = false
      ∧ rq_output_schema rq = None).

Lemma elem_of_unique x l : x ∈ unique l → ∃ y, y ∈ l ∧ x = strip y.
Proof.
  unfold unique. rewrite elem_of_dict_fromkeys, list_elem_of_filter, list_elem_of_fmap.
  intros (_ & y & -> & ?). by exists y.
Qed.

Lemma unique_intro x l : x ∈ l → strip x = x → x ≠ "" → x ∈ unique l.
Proof.
  intros Hx Hs Hne. unfold unique. rewrite elem_of_dict_fromkeys, list_elem_of_filter.
  split; [by apply is_empty_false|]. rewrite <- Hs. by apply list_elem_of_fmap_2.
Qed.

Lemma validate_id c c' : TaskContract_validate c = Ok c' → c' = c.
Proof. unfold TaskContract_validate. rewrite !unit_bind_ok. naive_solver. Qed.

Lemma human_validator tt' r sch ev : mem_str r ["high"; "critical"] = true →
  ["evidence"; "human"] ⊆ unique (select_validators tt' r sch (ev || mem_str r ["high"; "critical"])).
Proof.
  intros Hr x Hx. unfold select_validators. rewrite Hr, orb_true_r.
  apply elem_of_cons in Hx as [->|Hx%list_elem_of_singleton]; [|subst x];
    (apply unique_intro; [set_solver|reflexivity|done]).
Qed.

Lemma compile_guards_ok rq tt' s r : compile_guards rq tt' s r = Ok tt ↔
  tt' ∈ TASK_TYPES ∧ s ∈ SENSITIVITIES ∧ r ∈ RISK_LEVELS ∧
  (rq_deterministic_only rq = true →
    tt' = "retrieval" ∧ rq_public_web rq = false ∧ rq_output_schema rq = None).
Proof.
  unfold compile_guards, fail_if. autorewrite with guards.
  destruct (rq_output_schema rq); intuition congruence.
Qed.

Lemma place_network_ok web s tools reasons p :
  place_network web s tools reasons = Ok p ↔
  (web = true → s ≠ "secret") ∧
  p = (if web then "allowlisted_egress"
       else if mem_str s ["restricted"; "internal"] then "internal_only" else "deny",
       if web && negb (mem_str "web_gateway" tools) then tools ++ ["web_gateway"] else tools,
       if web then reasons ++ ["SANITIZED_" +:+ upper s +:+ "_ALLOWLISTED_EGRESS"] else reasons).
Proof.
  unfold place_network, fail_if. destruct web.
  - autorewrite with guards. destruct (mem_str "web_gateway" tools); naive_solver.
  - destruct (mem_str s _); naive_solver.
Qed.

(** The contract [compile] submits to validation, when its guards pass. *)
Lemma compile_inv rq c : compile rq = Ok c →
  request_ok rq ∧ contract_wf c
  ∧ tc_task_id c = rq_task_id rq
  ∧ tc_sensitivity c = lower (strip (rq_sensitivity rq))
  ∧ tc_risk_level c = lower (strip (rq_risk_level rq))
  ∧ (tc_network_scope c = "allowlisted_egress" ↔ rq_public_web rq = true)
  ∧ tc_allowed_tools c = unique
      (if rq_public_web rq && negb (mem_str "web_gateway" (requested_tools rq (lower (strip (rq_task_type rq)))))
       then requested_tools rq (lower (strip (rq_task_type rq))) ++ ["web_gateway"]
       else requested_tools rq (lower (strip (rq_task_type rq))))
  ∧ (mem_str (tc_risk_level c) ["high"; "critical"] = true →
      ["evidence"; "human"] ⊆ tc_validators c)
  ∧ (rq_deterministic_only rq = true →
      requested_tools rq (lower (strip (rq_task_type rq))) ⊆ ["search_docs"; "read_file"]
      ∧ initial_tier (tc_model_policy c) = "none").
Proof.
  unfold compile. set (tt' := lower (strip (rq_task_type rq))).
  set (s := lower (strip (rq_sensitivity rq))). set (r := lower (strip (rq_risk_level rq))).
  unfold fail_if. intros H. rewrite unit_bind_ok, compile_guards_ok, guard_bind_ok in H.
  destruct H as (Hg & Hf & H). apply bind_ok_iff in H as (p & Hp & H).
  apply place_network_ok in Hp as [Hw ->].
  destruct (select_tiers _ tt') as [[t0 t1] why] eqn:Et.
  destruct (select_storage s _) as [cache log].
  destruct (select_budgets _ tt') as [[cb gb] eb].
  assert (contract_wf c) as Hwf.
  { apply validate_ok_iff. by rewrite <- (validate_id _ _ H) in H. }
  apply validate_id in H. subst c.
  cbn [tc_task_id tc_sensitivity tc_risk_level tc_network_scope tc_allowed_tools tc_validators
    tc_model_policy initial_tier] in *.
  split; [|split; [done|]].
  { unfold request_ok. fold tt' s r. pose proof (wf_task_id _ Hwf).
    cbn [tc_task_id] in *. tauto. }
  do 3 (split; [done|]).
  repeat split.
  - destruct (rq_public_web rq); [done|]. by destruct (mem_str s _).
  - by intros ->.
  - intros Hr. by apply human_validator.
  - match goal with H : rq_deterministic_only rq = true |- _ => rewrite H in * end.
    by apply negb_false_iff, subset_str_spec in Hf.
  - match goal with H : rq_deterministic_only rq = true |- _ => rewrite H in * end.
    cbn in Et. by injection Et as <- <- <-.
Qed.

(** Membership in a literal list of names, as a disjunction. *)
Ltac name_cases H := repeat (apply elem_of_cons in H as [H|H]); try by apply not_elem_of_nil in H.

Lemma default_tools_wf tt' (web : bool) : tt' ∈ TASK_TYPES →
  let tools := unique (if web && negb (mem_str "web_gateway" (default_tools tt'))
                       then default_tools tt' ++ ["web_gateway"] else default_tools tt') in
  tools ⊆ TOOLS ∧ ("web_gateway" ∈ tools ↔ web = true)
  ∧ ∀ t, t ∈ tools → t ∉ INTERNAL_NETWORK_TOOLS.
Proof.
  intros H. cbv zeta.
  assert (subset_str (unique (if web && negb (mem_str "web_gateway" (default_tools tt'))
      then default_tools tt' ++ ["web_gateway"] else default_tools tt')) TOOLS = true
    ∧ mem_str "web_gateway" (unique (if web && negb (mem_str "web_gateway" (default_tools tt'))
      then default_tools tt' ++ ["web_gateway"] else default_tools tt')) = web
    ∧ filter (λ t, t ∈ INTERNAL_NETWORK_TOOLS)
        (unique (if web && negb (mem_str "web_gateway" (default_tools tt'))
      then default_tools tt' ++ ["web_gateway"] else default_tools tt')) = []) as (H1 & H2 & H3).
  { unfold TASK_TYPES in H. name_cases H; subst; destruct web; split_and!; vm_compute; reflexivity. }
  split_and!.
  - by apply subset_str_spec.
  - by rewrite <- mem_str_true, H2.
  - intros t Ht Hi. assert (t ∈ []) as []%not_elem_of_nil. rewrite <- H3. by apply list_elem_of_filter.
Qed.

Lemma default_validators tt' r sch ev : tt' ∈ TASK_TYPES → r ∈ RISK_LEVELS →
  unique (select_validators tt' r sch ev) ⊆ VALIDATORS.
Proof.
  intros Ht Hr. apply subset_str_spec. unfold TASK_TYPES, RISK_LEVELS in *.
  name_cases Ht; name_cases Hr; subst; destruct sch, ev; vm_compute; reflexivity.
Qed.

Ltac name_mem := repeat first [by left | right].

Lemma select_storage_wf s id cache log : s ∈ SENSITIVITIES → select_storage s id = (cache, log) →
  (cache_mode cache ∈ ["deny"; "exact_only"; "prefix_allowed"; "kv_allowed"] ∧ trust_domain cache ≠ "")
  ∧ (raw_prompt log ∈ ["deny"; "redacted"; "allow"] ∧ raw_tool_output log ∈ ["deny"; "redacted"; "allow"])
  ∧ (s = "secret" → cache_mode cache ∈ ["deny"; "exact_only"])
  ∧ (s ∈ ["restricted"; "secret"] → raw_prompt log = "deny" ∧ raw_tool_output log = "deny"
      ∧ semantic_cache_allowed cache = false).
Proof.
  unfold SENSITIVITIES. intros Hs. name_cases Hs; subst; cbn; intros [= <- <-]; cbn;
    (split_and!; try done; try name_mem; intros H; name_cases H; done).
Qed.

Lemma select_tiers_wf det tt' t0 t1 why : tt' ∈ TASK_TYPES → select_tiers det tt' = (t0, t1, why) →
  (t0 ∈ MODEL_TIERS ∧ t1 ∈ MODEL_TIERS ∧ tier_rank t0 ≤ tier_rank t1)
  ∧ (t0 = "none" → t1 = "none" ∧ det = true).
Proof.
  unfold TASK_TYPES. intros Ht. destruct det; [|name_cases Ht; subst]; cbn; intros [= <- <- _];
    (split_and!; [name_mem|name_mem|done|done]).
Qed.

Lemma select_budgets_wf det tt' cb gb eb : select_budgets det tt' = (cb, gb, eb) →
  (256 ≤ max_input_tokens cb ∧ 0 ≤ reserve_tokens cb ∧ 0 ≤ max_retrieved_tokens cb
    ∧ 0 ≤ max_tool_output_tokens cb ∧ 1 ≤ max_output_tokens gb)
  ∧ (1 ≤ max_steps eb ∧ 0 ≤ max_tool_calls eb ∧ 0 ≤ max_retries eb
    ∧ 0 ≤ max_escalations eb ∧ 100 ≤ max_wall_time_ms eb)
  ∧ (det = true → max_escalations eb = 0).
Proof.
  unfold select_budgets. destruct det; [|destruct (mem_str _ _)]; intros [= <- <- <-]; cbn; split_and!;
    done || lia.
Qed.

Lemma compile_default_ok rq : default [] (rq_allowed_tools rq) = [] → request_ok rq →
  ∃ c, compile rq = Ok c.
Proof.
  intros Htools (Ht & Hs & Hr & Hid & Hw & Hd). unfold compile, requested_tools. rewrite Htools.
  cbv zeta. unfold fail_if.
  set (tt' := lower (strip (rq_task_type rq))) in *.
  set (s := lower (strip (rq_sensitivity rq))) in *.
  set (r := lower (strip (rq_risk_level rq))) in *.
  rewrite (proj2 (compile_guards_ok rq tt' s r)); [|tauto]. cbn [mbind result_bind].
  assert (rq_deterministic_only rq && negb (subset_str (default_tools tt') ["search_docs"; "read_file"])
    = false) as ->.
  { destruct (rq_deterministic_only rq); [|done]. by destruct (Hd eq_refl) as (-> & _). }
  cbn [mbind result_bind raise_if].
  erewrite (proj2 (place_network_ok _ _ _ _ _)); [|split; [exact Hw|reflexivity]].
  cbn [mbind result_bind].
  destruct (default_tools_wf tt' (rq_public_web rq) Ht) as (T1 & T2 & T3).
  destruct (select_tiers _ _) as [[t0 t1] why] eqn:Et.
  destruct (select_storage _ _) as [cache log] eqn:Es.
  destruct (select_budgets _ _) as [[cb gb] eb] eqn:Eb.
  eexists. apply validate_ok_iff.
  constructor; cbn [tc_task_id tc_task_type tc_sensitivity tc_risk_level tc_allowed_tools
    tc_network_scope tc_context_budget tc_generation_budget tc_execution_budget tc_validators
    tc_model_policy tc_cache_policy tc_logging_policy initial_tier max_tier escalation_allowed
    confidence_floor].
  all: destruct (select_storage_wf _ _ _ _ Hs Es) as (S1 & S2 & S3 & S4).
  all: destruct (select_tiers_wf _ _ _ _ _ Ht Et) as (R1 & R2).
  all: destruct (select_budgets_wf _ _ _ _ _ Eb) as (B1 & B2 & B3); try done.
  - split_and!; try done. destruct (rq_public_web rq); [|destruct (mem_str s _)]; name_mem.
  - by apply default_validators.
  - intros t Hin Hi. by destruct (T3 t Hin).
  - rewrite T2. destruct (rq_public_web rq); [done|]. by destruct (mem_str s _).
  - intros H. destruct (rq_public_web rq); [exfalso; by apply Hw|].
    rewrite H in *. auto.
  - intros [-> Hdet]%R2. rewrite Hdet. auto.
  - by destruct (mem_str r _).
Qed.

(** ** Properties *)

(** C36: a task contract validates exactly when it satisfies every rule of the
    execution contract - known vocabulary, network placement, secrecy, tier and
    budget rules - and a contract that breaks a rule is refused with a
    TaskContractError and nothing else. *)
Theorem validate_exact c :
  (contract_wf c ∧ TaskContract_validate c = Ok c) ∨
  (¬ contract_wf c ∧ ∃ msg, TaskContract_validate c = raise TaskContractError msg).
Proof.
  destruct (TaskContract_validate c) as [c'|e] eqn:E.
  - left. assert (c' = c) as -> by by apply validate_id.
    split; [|done]. by apply validate_ok_iff.
  - right. split; [rewrite <- validate_ok_iff; congruence|].
    pose proof (validate_raises c e E) as He. destruct e as [cls msg]. simpl in He. subst. by exists msg.
Qed.

(** the compiler is total on its vocabulary: a request that names no tool
    compiles to a contract exactly when its type, sensitivity, risk and identifier
    are admissible, it does not ask for the public web in a secret task, and a
    deterministic request is a local retrieval. *)
Theorem compile_accepts rq : default [] (rq_allowed_tools rq) = [] →
  (request_ok rq ↔ ∃ c, compile rq = Ok c).
Proof.
  intros Ht. split; [by apply compile_default_ok|]. intros [c Hc]. exact (proj1 (compile_inv rq c Hc)).
Qed.

Definition no_llm_request : CompileRequest :=
  {| rq_task_id := "t-1"; rq_task_type := " Retrieval"; rq_sensitivity := "restricted";
     rq_risk_level := "HIGH"; rq_allowed_sources := ["docs"]; rq_allowed_tools := None;
     rq_write_scope := WsStr "none"; rq_public_web := false; rq_output_schema := None;
     rq_deterministic_only := true |}.

Lemma compile_accepts_witness :
  default [] (rq_allowed_tools no_llm_request) = [] ∧
  (request_ok no_llm_request ↔ ∃ c, compile no_llm_request = Ok c).
Proof. split; [reflexivity|]. apply (compile_accepts no_llm_request). reflexivity. Defined.

(** Whatever a request asks for, a compiled contract is well formed, gains no
    tool beyond the requested ones and the gateway of a public-web request, reaches
    the public network only for such a request and never in a secret task, reviews
    high-risk work with evidence and a human, and a deterministic request has no
    model, no escalation and only the two local retrieval tools. *)
Theorem compile_confined rq c : compile rq = Ok c →
  contract_wf c
  ∧ (∀ t, t ∈ tc_allowed_tools c →
       (∃ u, u ∈ requested_tools rq (lower (strip (rq_task_type rq))) ∧ t = strip u)
       ∨ (t = "web_gateway" ∧ rq_public_web rq = true))
  ∧ (tc_network_scope c = "allowlisted_egress" → rq_public_web rq = true ∧ tc_sensitivity c ≠ "secret")
  ∧ (tc_risk_level c ∈ ["high"; "critical"] → ["evidence"; "human"] ⊆ tc_validators c)
  ∧ (rq_deterministic_only rq = true →
       tc_allowed_tools c ⊆ ["search_docs"; "read_file"] ∧ max_tier (tc_model_policy c) = "none"
       ∧ escalation_allowed (tc_model_policy c) = false ∧ max_escalations (tc_execution_budget c) = 0).
Proof.
  intros H. pose proof (compile_inv rq c H) as (Hrq & Hwf & _ & Hs & _ & Hn & Ht & Hr & Hd).
  assert (∀ t, t ∈ tc_allowed_tools c →
       (∃ u, u ∈ requested_tools rq (lower (strip (rq_task_type rq))) ∧ t = strip u)
       ∨ (t = "web_gateway" ∧ rq_public_web rq = true)) as Htools.
  { intros t. rewrite Ht. intros (u & Hu & ->)%elem_of_unique.
    destruct (rq_public_web rq && _) eqn:E; [|eauto]. apply andb_true_iff in E as [-> _].
    apply elem_of_app in Hu as [Hu| ->%list_elem_of_singleton]; [eauto|]. by right. }
  split_and!; [done|done|..].
  - intros Heg. split; [by apply Hn|]. intros Hsec. destruct (wf_secret c Hwf Hsec). congruence.
  - intros Hrisk. by apply Hr, mem_str_true.
  - intros Hdet. destruct (Hd Hdet) as [Hsub Hnone]. destruct (wf_no_llm c Hwf Hnone) as (? & ? & ?).
    split_and!; [|done..]. intros t [(u & Hu & ->)|[_ Hweb]]%Htools.
    + apply Hsub in Hu. name_cases Hu; subst; name_mem.
    + destruct Hrq as (_ & _ & _ & _ & _ & Hrq). destruct (Hrq Hdet) as (_ & ? & _). congruence.
Qed.

Lemma compile_confined_witness : ∃ c, compile no_llm_request = Ok c ∧
  tc_allowed_tools c ⊆ ["search_docs"; "read_file"].
Proof.
  eexists. split; [vm_compute; reflexivity|].
  refine (proj1 (proj2 (proj2 (proj2 (proj2 (compile_confined no_llm_request _ _)))) _));
    vm_compute; reflexivity.
Defined.
