(* ===== verification/CapabilityAuthority.v ===== *)
(** * Capability authority

    [capability_authority.py]: the deny-by-default envelope projected from a task
    contract, its delegation to child tasks and its authorization decisions. *)

From Stdlib Require Import Ascii.
From Stdlib Require String.
From S2P Require Import Prelude PyStr Hashlib Json JsonFacts PyIp TaskContract.

Local Open Scope Z_scope.

Definition CAPABILITY_AUTHORITY_SCHEMA : string := "workspace-task-capability-authority/v1".
Definition CAPABILITY_DECISION_SCHEMA : string := "workspace-capability-decision/v1".

(** ** Policy tables *)

Definition _EFFECTS : list (string * string) :=
  [("read_file", "read"); ("search_repo", "read"); ("search_docs", "read");
   ("query_db_readonly", "read"); ("calculator", "compute"); ("run_linter", "execute");
   ("run_tests", "execute"); ("write_staging", "write"); ("apply_patch", "write");
   ("web_gateway", "network_read"); ("windows.event.system", "read");
   ("windows.event.application", "read"); ("windows.event.security", "read");
   ("windows.printer.queue", "read"); ("network.ssh.probe", "network_read");
   ("network.rtsp.probe", "network_read"); ("network.smb.probe", "network_read");
   ("network.printer.ipp_probe", "network_read"); ("network.printer.raw_probe", "network_read");
   ("system.platform.identify", "read"); ("system.resource.snapshot", "read");
   ("system.storage.capacity", "read"); ("network.interface.snapshot", "read");
   ("network.ipconfig.snapshot", "read"); ("network.route.snapshot", "read");
   ("network.dns.snapshot", "read"); ("time.sync.status", "read"); ("service.status.read", "read");
   ("windows.group_policy.result", "read"); ("identity.session.snapshot", "read");
   ("audio.devices.snapshot", "read"); ("meeting.client.snapshot", "read");
   ("process.top.snapshot", "read"); ("hardware.usb.snapshot", "read");
   ("hardware.display.snapshot", "read"); ("hardware.dock.snapshot", "read");
   ("driver.inventory.snapshot", "read"); ("camera.devices.snapshot", "read");
   ("storage.io.snapshot", "read"); ("windows.print.driver.snapshot", "read");
   ("windows.boot.snapshot", "read"); ("windows.update.history", "read");
   ("vpn.status.snapshot", "read"); ("network.reachability.internal", "network_read");
   ("network.quality.internal", "network_read")]
  ++ map (λ t, (t, "read")) DIAGNOSTIC_STAGED_LOCAL_READ_TOOLS.

Definition _WAVE1_INVOCABLE_LOCAL_READ_TOOLS : list string :=
  ["backup.local_state.snapshot"; "cloud_files.client_state.snapshot";
   "identity.account_state.snapshot"; "mail_exchange.client_state.snapshot";
   "voip.client_state.snapshot"].

(** Tool to the one resource kind and reference it may read. *)
Definition _EXACT_RESOURCE_POLICIES : list (string * (string * string)) :=
  [("windows.event.system", ("event_channel", "windows:event:System"));
   ("windows.event.application", ("event_channel", "windows:event:Application"));
   ("windows.event.security", ("event_channel", "windows:event:Security"));
   ("windows.printer.queue", ("print_queue", "windows:printer:queue"));
   ("system.platform.identify", ("system_inventory", "local:platform"));
   ("system.resource.snapshot", ("performance_snapshot", "local:resources"));
   ("system.storage.capacity", ("filesystem_capacity", "local:storage:default"));
   ("network.interface.snapshot", ("network_config", "local:interfaces"));
   ("network.ipconfig.snapshot", ("network_config", "local:ipconfig"));
   ("network.route.snapshot", ("network_config", "local:routes"));
   ("network.dns.snapshot", ("network_config", "local:dns"));
   ("time.sync.status", ("time_config", "local:time-sync"));
   ("identity.session.snapshot", ("identity_session", "local:identity:current"));
   ("audio.devices.snapshot", ("audio_devices", "local:audio:devices"));
   ("meeting.client.snapshot", ("meeting_clients", "local:meeting:clients"));
   ("process.top.snapshot", ("process_inventory", "local:processes:top"));
   ("hardware.usb.snapshot", ("usb_devices", "local:usb:devices"));
   ("hardware.display.snapshot", ("display_devices", "local:display:devices"));
   ("hardware.dock.snapshot", ("dock_devices", "local:dock:devices"));
   ("driver.inventory.snapshot", ("driver_inventory", "local:driver:inventory"));
   ("camera.devices.snapshot", ("camera_devices", "local:camera:devices"));
   ("storage.io.snapshot", ("storage_io", "local:storage:io"));
   ("windows.print.driver.snapshot", ("printer_drivers", "local:printer:drivers"));
   ("windows.boot.snapshot", ("boot_state", "local:windows:boot"));
   ("windows.update.history", ("windows_update_history", "local:windows:update-history"));
   ("vpn.status.snapshot", ("vpn_status", "local:vpn:status"));
   ("cloud_files.client_state.snapshot", ("cloud_files_client_state", "local:cloud-files:client-state"));
   ("mail_exchange.client_state.snapshot",
      ("mail_exchange_client_state", "local:mail-exchange:client-state"));
   ("voip.client_state.snapshot", ("voip_client_state", "local:voip:client-state"));
   ("identity.account_state.snapshot", ("identity_account_state", "local:identity:account-state"));
   ("backup.local_state.snapshot", ("backup_local_state", "local:backup:state"))].

Definition _GROUP_POLICY_REFS : list string :=
  ["local:gpresult:user"; "local:gpresult:computer"; "local:gpresult:all"].

Definition _NETWORK_RESOURCE_SUFFIXES : list (string * string) :=
  [("network.ssh.probe", ":22"); ("network.rtsp.probe", ":554"); ("network.smb.probe", ":445");
   ("network.printer.ipp_probe", ":631"); ("network.printer.raw_probe", ":9100");
   ("network.reachability.internal", ":icmp"); ("network.quality.internal", ":icmp-quality")].

(** [d.get(k)] on such a table. *)
Definition table_get {A} (k : string) (d : list (string * A)) : option A :=
  (λ p, p.2.2) <$> list_find (λ kv, kv.1 = k) d.

(** The check made when the module is loaded: every tool has an effect, and no
    effect is listed for a name that is not a tool. *)
Definition effect_vocabulary_check : result unit :=
  let missing := sorted_diff TOOLS (map fst _EFFECTS) in
  let stale := sorted_diff (map fst _EFFECTS) TOOLS in
  raise_if (negb (bool_decide (missing = []) && bool_decide (stale = []))) PyRuntimeError
    ("capability effect vocabulary mismatch: missing=" +:+ repr_list missing
       +:+ " stale=" +:+ repr_list stale).

(** ** Normalisation *)

(** [^[A-Za-z0-9][A-Za-z0-9._:/@+\-=]{0,255}$] *)
Definition compact_re (s : string) : bool :=
  match s with
  | EmptyString => false
  | String c t =>
      is_alnum c && (String.length t <=? 255)%nat
      && forall_char (λ d, is_alnum d || mem_char d "._:/@+-=") t
  end.

(** [^local:service:[A-Za-z0-9_.@-]{1,128}$] *)
Definition service_resource_re (s : string) : bool :=
  match strip_prefix "local:service:" s with
  | Some t => negb (is_empty t) && (len t <=? 128)
              && forall_char (λ d, is_alnum d || mem_char d "_.@-") t
  | None => false
  end.

Definition _compact (value field : string) (max_len : Z) : result string :=
  let text := strip value in
  raise_if (is_empty text || (max_len <? len text) || negb (compact_re text)) PyValueError
    (field +:+ " must be a compact identifier") ;;
  raise_if (contains text "://") PyValueError (field +:+ " must not contain a raw URL") ;;
  Ok text.

(** [PurePosixPath(text).parts] of a relative path, and [is_absolute]. *)
Definition path_parts (text : string) : list string :=
  filter (λ p, p ≠ "" ∧ p ≠ ".") (split_on "/" text).
Definition path_is_absolute (text : string) : bool := startswith text "/".

(** [path.as_posix()] of a relative path. *)
Definition as_posix (text : string) : string :=
  match path_parts text with [] => "." | parts => join "/" parts end.

(** [s.strip("/")]. *)
Fixpoint lstrip_slash (s : string) : string :=
  match s with
  | String "/" t => lstrip_slash t
  | _ => s
  end.
Fixpoint rstrip_slash (s : string) : string :=
  match s with
  | EmptyString => ""
  | String c t =>
      match rstrip_slash t with
      | EmptyString => if bool_decide (c = "/"%char) then "" else String c ""
      | t' => String c t'
      end
  end.

Definition _safe_path (value field : string) : result string :=
  text ← _compact value field 256;
  let path := replace_char backslash "/" text in
  raise_if (path_is_absolute path || mem_str ".." (path_parts path)) PyValueError
    (field +:+ " must be a safe relative path") ;;
  let normalized := rstrip_slash (lstrip_slash (as_posix path)) in
  raise_if (is_empty normalized || bool_decide (normalized = ".")) PyValueError
    (field +:+ " must identify a bounded path") ;;
  Ok normalized.

Definition _normalize_write_scope (value : write_scope_t) (field : string) : result write_scope_t :=
  match value with
  | WsStr s =>
      if bool_decide (s = "none") then Ok (WsStr "none") else WsStr <$> _safe_path s field
  | WsTuple l =>
      raise_if (bool_decide (l = [])) PyValueError
        (field +:+ " must not be empty; use 'none' to deny writes") ;;
      paths ← mapM (λ item, _safe_path item field) l;
      Ok (WsTuple (dict_fromkeys paths))
  end.

Definition scope_list (w : write_scope_t) : list string :=
  match w with WsStr s => [s] | WsTuple l => l end.

(** [p == scope or p.startswith(scope + "/")]. *)
Definition path_within (p scope : string) : bool :=
  bool_decide (p = scope) || startswith p (scope +:+ "/").

Definition _write_scope_is_subset (child parent : write_scope_t) : bool :=
  if bool_decide (child = WsStr "none") then true
  else if bool_decide (parent = WsStr "none") then false
  else forallb (λ scope, existsb (path_within scope) (scope_list parent)) (scope_list child).

Definition _is_internal_ip_literal (value : string) : bool :=
  match ip_address (strip value) with
  | None => false
  | Some a =>
      if is_loopback a || is_link_local a then true
      else match a with
      | IPv4 n => in_network 32 8 n (10 * 2 ^ 24)
                  || in_network 32 12 n (172 * 2 ^ 24 + 16 * 2 ^ 16)
                  || in_network 32 16 n (192 * 2 ^ 24 + 168 * 2 ^ 16)
      | IPv6 n => in_network 128 7 n (252 * 2 ^ 120)
      end
  end.

Definition _resource_policy_denial (capability resource_kind resource_ref : string) : option string :=
  match table_get capability _EXACT_RESOURCE_POLICIES with
  | Some (expected_kind, expected_ref) =>
      if negb (bool_decide (resource_kind = expected_kind)) then Some "RESOURCE_KIND_NOT_AUTHORIZED"
      else if negb (bool_decide (resource_ref = expected_ref)) then Some "RESOURCE_REF_NOT_AUTHORIZED"
      else None
  | None =>
  if bool_decide (capability = "service.status.read") then
    if negb (bool_decide (resource_kind = "service")) then Some "RESOURCE_KIND_NOT_AUTHORIZED"
    else if negb (service_resource_re resource_ref) then Some "RESOURCE_REF_NOT_AUTHORIZED"
    else None
  else if bool_decide (capability = "windows.group_policy.result") then
    if negb (bool_decide (resource_kind = "group_policy")) then Some "RESOURCE_KIND_NOT_AUTHORIZED"
    else if negb (mem_str resource_ref _GROUP_POLICY_REFS) then Some "RESOURCE_REF_NOT_AUTHORIZED"
    else None
  else match table_get capability _NETWORK_RESOURCE_SUFFIXES with
  | Some suffix =>
      if negb (bool_decide (resource_kind = "network_endpoint")) then Some "RESOURCE_KIND_NOT_AUTHORIZED"
      else match strip_suffix resource_ref suffix with
      | None => Some "RESOURCE_REF_NOT_AUTHORIZED"
      | Some host =>
          if is_empty host || negb (_is_internal_ip_literal host)
          then Some "RESOURCE_REF_NOT_AUTHORIZED" else None
      end
  | None => None
  end
  end.

(** ** The authority *)

Record CapabilityDecision := {
  cd_task_id : string;
  cd_capability : string;
  cd_resource_kind : string;
  cd_resource_ref : string;
  cd_effect : string;
  cd_allowed : bool;
  cd_reason_code : string;
  cd_authority_fingerprint : string;
  cd_schema_version : string
}.

Record TaskCapabilityAuthority := {
  ca_task_id : string;
  ca_sensitivity : string;
  ca_allowed_sources : list string;
  ca_allowed_tools : list string;
  ca_write_scope : write_scope_t;
  ca_network_scope : string;
  ca_fingerprint : string
}.

#[export] Instance TaskCapabilityAuthority_eq_dec : EqDecision TaskCapabilityAuthority.
Proof. solve_decision. Defined.

Section Authority.
Context {HL : Hashlib}.

Definition CapabilityDecision_metadata (d : CapabilityDecision) : json := JObj [
  ("schema_version", JStr (cd_schema_version d));
  ("task_id", JStr (cd_task_id d));
  ("capability", JStr (cd_capability d));
  ("resource_kind", JStr (cd_resource_kind d));
  ("resource_sha256", JStr (sha256_of_text (cd_resource_ref d)));
  ("effect", JStr (cd_effect d));
  ("allowed", JBool (cd_allowed d));
  ("reason_code", JStr (cd_reason_code d));
  ("authority_fingerprint", JStr (cd_authority_fingerprint d))].

Definition authority_payload (task_id sensitivity : string) (allowed_sources allowed_tools : list string)
    (write_scope : write_scope_t) (network_scope : string) : json := JObj [
  ("task_id", JStr task_id);
  ("sensitivity", JStr sensitivity);
  ("allowed_sources", json_strs allowed_sources);
  ("allowed_tools", json_strs allowed_tools);
  ("write_scope", write_scope_json write_scope);
  ("network_scope", JStr network_scope)].

Definition _fingerprint_payload (task_id sensitivity : string)
    (allowed_sources allowed_tools : list string) (write_scope : write_scope_t)
    (network_scope : string) : string :=
  sha256_of_text (print
    (authority_payload task_id sensitivity allowed_sources allowed_tools write_scope network_scope)).

Definition _build (task_id sensitivity : string) (allowed_sources allowed_tools : list string)
    (write_scope : write_scope_t) (network_scope : string) : TaskCapabilityAuthority :=
  {| ca_task_id := task_id; ca_sensitivity := sensitivity; ca_allowed_sources := allowed_sources;
     ca_allowed_tools := allowed_tools; ca_write_scope := write_scope;
     ca_network_scope := network_scope;
     ca_fingerprint := _fingerprint_payload task_id sensitivity allowed_sources allowed_tools
                         write_scope network_scope |}.

Definition from_contract (c : TaskContract) : result TaskCapabilityAuthority :=
  TaskContract_validate c ;;
  Ok (_build (tc_task_id c) (tc_sensitivity c) (tc_allowed_sources c) (tc_allowed_tools c)
        (tc_write_scope c) (tc_network_scope c)).

(** A name list given to [derive_child]: normalised, without repetition, and inside
    the parent's. *)
Definition child_names (field : string) (max_len : Z) (denial : string) (parent : list string)
    (requested : option (list string)) : result (list string) :=
  match requested with
  | None => Ok parent
  | Some names =>
      values ← mapM (λ n, _compact n field max_len) names;
      let child := dict_fromkeys values in
      raise_if (negb (subset_str child parent)) CapabilityAuthorityDenied denial ;;
      Ok child
  end.

Definition derive_child (self : TaskCapabilityAuthority) (task_id : string)
    (allowed_sources allowed_tools : option (list string)) (write_scope : option write_scope_t)
    (network_scope : option string) : result TaskCapabilityAuthority :=
  child_task_id ← _compact task_id "child_task_id" 128;
  child_sources ← child_names "child_allowed_source" 128 "CHILD_SOURCE_SCOPE_ESCALATION"
                    (ca_allowed_sources self) allowed_sources;
  child_tools ← child_names "child_allowed_tool" 64 "CHILD_CAPABILITY_ESCALATION"
                  (ca_allowed_tools self) allowed_tools;
  parent_write_scope ← _normalize_write_scope (ca_write_scope self) "parent_write_scope";
  child_write_scope ← _normalize_write_scope (default (ca_write_scope self) write_scope)
                        "child_write_scope";
  raise_if (negb (_write_scope_is_subset child_write_scope parent_write_scope))
    CapabilityAuthorityDenied "CHILD_WRITE_SCOPE_ESCALATION" ;;
  child_network_scope ← match network_scope with
                        | None => Ok (ca_network_scope self)
                        | Some n => _compact n "child_network_scope" 64
                        end;
  raise_if (negb (mem_str child_network_scope NETWORK_SCOPES)) PyValueError
    ("unsupported child_network_scope: " +:+ child_network_scope) ;;
  raise_if (negb (bool_decide (child_network_scope = ca_network_scope self))
            && negb (bool_decide (child_network_scope = "deny")))
    CapabilityAuthorityDenied "CHILD_NETWORK_SCOPE_ESCALATION" ;;
  Ok (_build child_task_id (ca_sensitivity self) child_sources child_tools child_write_scope
        child_network_scope).

Definition _decision (self : TaskCapabilityAuthority)
    (capability resource_kind resource_ref effect : string) (allowed : bool) (reason_code : string)
    : CapabilityDecision :=
  {| cd_task_id := ca_task_id self; cd_capability := capability; cd_resource_kind := resource_kind;
     cd_resource_ref := resource_ref; cd_effect := effect; cd_allowed := allowed;
     cd_reason_code := reason_code; cd_authority_fingerprint := ca_fingerprint self;
     cd_schema_version := CAPABILITY_DECISION_SCHEMA |}.

(** The loop over the scopes: one that is not a safe path is skipped. *)
Definition _write_allowed (self : TaskCapabilityAuthority) (resource_ref : string) : bool :=
  if bool_decide (ca_write_scope self = WsStr "none") then false
  else match _safe_path resource_ref "resource_ref" with
  | Raise _ => false
  | Ok resource =>
      existsb (λ raw_scope, match _safe_path raw_scope "write_scope" with
                            | Raise _ => false
                            | Ok scope => path_within resource scope
                            end) (scope_list (ca_write_scope self))
  end.

(** The reason a normalised request is denied, in the order of the checks. *)
Definition authorize_denial (self : TaskCapabilityAuthority) (cap kind ref eff : string)
    : option string :=
  if negb (mem_str cap TOOLS) then Some "CAPABILITY_UNKNOWN"
  else if negb (mem_str cap (ca_allowed_tools self)) then Some "CAPABILITY_NOT_ALLOWED"
  else if mem_str cap DIAGNOSTIC_STAGED_LOCAL_READ_TOOLS
          && negb (mem_str cap _WAVE1_INVOCABLE_LOCAL_READ_TOOLS) then Some "CAPABILITY_NOT_INVOCABLE"
  else if negb (bool_decide (table_get cap _EFFECTS = Some eff)) then Some "CAPABILITY_EFFECT_NOT_ALLOWED"
  else match _resource_policy_denial cap kind ref with
  | Some reason => Some reason
  | None =>
      let network :=
        if bool_decide (cap = "web_gateway") then
          if negb (bool_decide (ca_sensitivity self = "public"))
             || negb (bool_decide (ca_network_scope self = "allowlisted_egress"))
          then Some "NETWORK_SCOPE_NOT_AUTHORIZED" else None
        else if mem_str cap INTERNAL_NETWORK_TOOLS then
          if negb (bool_decide (ca_network_scope self = "internal_only"))
          then Some "NETWORK_SCOPE_NOT_AUTHORIZED"
          else if negb (bool_decide (kind = "network_endpoint"))
          then Some "RESOURCE_KIND_NOT_AUTHORIZED" else None
        else if startswith eff "network" then Some "NETWORK_CAPABILITY_NOT_AUTHORIZED"
        else None in
      match network with
      | Some reason => Some reason
      | None =>
          if bool_decide (eff = "write") && negb (_write_allowed self ref)
          then Some "WRITE_SCOPE_NOT_AUTHORIZED" else None
      end
  end.

Definition authorize (self : TaskCapabilityAuthority)
    (capability resource_kind resource_ref effect : string) : result CapabilityDecision :=
  cap ← _compact capability "capability" 64;
  kind ← _compact resource_kind "resource_kind" 64;
  ref ← _compact resource_ref "resource_ref" 256;
  eff ← _compact effect "effect" 64;
  Ok match authorize_denial self cap kind ref eff with
     | Some reason => _decision self cap kind ref eff false reason
     | None => _decision self cap kind ref eff true "CAPABILITY_AUTHORIZED"
     end.

(** [CapabilityAuthorityDenied] carries its reason code as its message. *)
Definition require_ (self : TaskCapabilityAuthority)
    (capability resource_kind resource_ref effect : string) : result CapabilityDecision :=
  decision ← authorize self capability resource_kind resource_ref effect;
  raise_if (negb (cd_allowed decision)) CapabilityAuthorityDenied (cd_reason_code decision) ;;
  Ok decision.

Definition TaskCapabilityAuthority_metadata (self : TaskCapabilityAuthority) : json := JObj [
  ("schema_version", JStr CAPABILITY_AUTHORITY_SCHEMA);
  ("task_id", JStr (ca_task_id self));
  ("authority_fingerprint", JStr (ca_fingerprint self))].

End Authority.

(** ** Identifiers and paths *)

Definition compact_char (d : ascii) : bool := is_alnum d || mem_char d "._:/@+-=".

Lemma compact_re_chars t : compact_re t = true → forall_char compact_char t = true ∧ t ≠ "".
Proof.
  destruct t as [|c t]; [done|]. cbn [compact_re]. rewrite !andb_true_iff. intros [[Hc _] Ht].
  split; [|done]. change (compact_char c && forall_char compact_char t = true).
  change (forall_char compact_char t = true) in Ht. rewrite Ht. unfold compact_char. by rewrite Hc.
Qed.

Lemma compact_char_plain c : compact_char c = true → is_space c = false ∧ c ≠ backslash.
Proof. destruct c as [[] [] [] [] [] [] [] []]; by vm_compute. Qed.

Lemma compact_not_space t : forall_char compact_char t = true →
  forall_char (λ c, negb (is_space c)) t = true.
Proof. apply forall_char_impl. intros c [-> _]%compact_char_plain. done. Qed.

Lemma compact_ok v field m t : _compact v field m = Ok t ↔
  t = strip v ∧ compact_re t = true ∧ len t ≤ m ∧ contains t "://" = false.
Proof.
  unfold _compact. rewrite !guard_bind_ok, !orb_false_iff, negb_false_iff, Z.ltb_ge.
  split; [intros ([[??]?] & ? & [= <-])|intros (-> & ? & ? & ?)]; [done|].
  split_and!; try done. by apply is_empty_false, compact_re_chars.
Qed.

Lemma compact_strip v field m t : _compact v field m = Ok t → strip t = t.
Proof. intros (_ & Hc & _)%compact_ok. by apply strip_word, compact_not_space, compact_re_chars. Qed.

Lemma replace_char_absent c u s : forall_char (λ d, negb (bool_decide (d = c))) s = true →
  replace_char c u s = s.
Proof.
  induction s as [|d s IH]; simpl; [done|]. intros [Hd Hs]%andb_true_iff.
  apply negb_true_iff in Hd. rewrite Hd, IH by done. done.
Qed.

Lemma replace_compact t : forall_char compact_char t = true → replace_char backslash "/" t = t.
Proof.
  intros Ht. apply replace_char_absent. revert Ht. apply forall_char_impl.
  intros c [_ Hc]%compact_char_plain. by rewrite bool_decide_eq_false_2.
Qed.

(** The components of a safe relative path. *)
Definition safe_parts (parts : list string) : Prop :=
  parts ≠ [] ∧
  Forall (λ w, w ≠ "" ∧ w ≠ "." ∧ w ≠ ".." ∧ free_of "/" w = true) parts.

Lemma safe_parts_free parts : safe_parts parts → Forall (λ w, free_of "/" w = true) parts.
Proof. intros [_ H]. eapply Forall_mono; [exact H|]. naive_solver. Qed.

Lemma rstrip_slash_free w : free_of "/" w = true → rstrip_slash w = w.
Proof.
  unfold free_of. induction w as [|c w IH]; [done|]. simpl. intros [Hc Hw]%andb_true_iff.
  rewrite IH by done. destruct w; [|done]. apply negb_true_iff in Hc. by rewrite Hc.
Qed.

Lemma rstrip_slash_app a b : rstrip_slash b ≠ "" → rstrip_slash (a +:+ b) = a +:+ rstrip_slash b.
Proof.
  intros Hb. induction a as [|c a IH]; [done|]. rewrite !app_str_cons. cbn [rstrip_slash].
  rewrite IH. destruct (a +:+ rstrip_slash b) as [|x y] eqn:E; [|done].
  destruct a; [|done]. rewrite app_str_nil_l in E. congruence.
Qed.

Lemma lstrip_slash_head c t : c ≠ "/"%char → lstrip_slash (String c t) = String c t.
Proof. intros Hc. destruct c as [[] [] [] [] [] [] [] []]; try done. Qed.

Lemma rstrip_slash_join w parts : safe_parts (w :: parts) →
  rstrip_slash (join "/" (w :: parts)) = join "/" (w :: parts).
Proof.
  intros [_ Hall]. revert w Hall. induction parts as [|w' parts IH]; intros w [Hw Hall]%Forall_cons_1.
  - simpl. apply rstrip_slash_free. tauto.
  - rewrite join_cons. specialize (IH w' Hall).
    assert (join "/" (w' :: parts) ≠ "") as Hne.
    { apply Forall_cons_1 in Hall as [(Hw' & _) _]. destruct parts; [done|].
      rewrite join_cons. by destruct w'. }
    rewrite <- app_str_assoc, rstrip_slash_app; rewrite IH; done.
Qed.

Lemma safe_parts_head parts : safe_parts parts →
  ∃ c t, join "/" parts = String c t ∧ c ≠ "/"%char.
Proof.
  intros [Hne Hall]. destruct parts as [|w parts]; [done|].
  apply Forall_cons_1 in Hall as [(Hw & _ & _ & Hf) _]. destruct w as [|c w]; [done|].
  unfold free_of in Hf. simpl in Hf. apply andb_true_iff in Hf as [Hc%negb_true_iff _].
  apply bool_decide_eq_false in Hc.
  destruct parts as [|w' parts]; [by exists c, w|].
  exists c, (w +:+ "/" +:+ join "/" (w' :: parts)). by rewrite join_cons, app_str_cons.
Qed.

Lemma strip_slash_join parts : safe_parts parts →
  rstrip_slash (lstrip_slash (join "/" parts)) = join "/" parts.
Proof.
  intros H. destruct (safe_parts_head parts H) as (c & t & Hj & Hc).
  rewrite Hj, lstrip_slash_head, <- Hj by done. destruct parts; [by destruct H|].
  by apply rstrip_slash_join.
Qed.

Lemma path_parts_join parts : safe_parts parts → path_parts (join "/" parts) = parts.
Proof.
  intros H. pose proof (safe_parts_free _ H) as Hf. destruct H as [Hne Hall].
  unfold path_parts. rewrite split_on_join by done. clear Hne Hf.
  induction Hall as [|w ws Hw _ IH]; [done|]. rewrite filter_cons_True, IH by naive_solver. done.
Qed.

Lemma path_parts_safe text : mem_str ".." (path_parts text) = false → path_parts text ≠ [] →
  safe_parts (path_parts text).
Proof.
  intros Hd Hne. split; [done|]. apply mem_str_false in Hd.
  apply Forall_elem. intros w Hw. assert (w ≠ "..") by (by intros ->).
  unfold path_parts in Hw. apply list_elem_of_filter in Hw as [[??] Hw].
  pose proof (split_on_free "/" text) as Hf. rewrite Forall_elem in Hf. auto.
Qed.

(** A safe path is the canonical text of its components. *)
Lemma safe_path_parts v field p : _safe_path v field = Ok p →
  p = join "/" (path_parts p) ∧ safe_parts (path_parts p) ∧ path_parts p = path_parts (strip v)
  ∧ forall_char compact_char p = true.
Proof.
  unfold _safe_path. intros H. apply bind_ok_iff in H as (t & Ht & H).
  apply compact_ok in Ht as (-> & Hre & _). apply compact_re_chars in Hre as [Hc _].
  rewrite (replace_compact _ Hc) in H. rewrite !guard_bind_ok in H.
  destruct H as (Hs & Hn & [= <-]). apply orb_false_iff in Hs as [_ Hs].
  unfold as_posix in *. destruct (path_parts (strip v)) as [|w ws] eqn:E; [done|].
  assert (safe_parts (w :: ws)) as Hsafe.
  { rewrite <- E. apply path_parts_safe; [by rewrite E|congruence]. }
  rewrite (strip_slash_join _ Hsafe), path_parts_join by done. split_and!; [done..|].
  apply forall_char_join; [done|]. rewrite <- E. unfold path_parts. apply Forall_elem.
  intros x [_ Hx]%list_elem_of_filter. pose proof (forall_char_split_on _ "/" _ Hc) as Hall.
  rewrite Forall_elem in Hall. auto.
Qed.

Lemma safe_path_again v f p f' q : _safe_path v f = Ok p → _safe_path p f' = Ok q → q = p.
Proof.
  intros (Hp & _ & _ & Hc)%safe_path_parts (Hq & _ & Hpq & _)%safe_path_parts.
  rewrite (strip_word p) in Hpq by (by apply compact_not_space). by rewrite Hq, Hpq, <- Hp.
Qed.

Lemma safe_path_field v f g p : _safe_path v f = Ok p → _safe_path v g = Ok p.
Proof.
  unfold _safe_path. intros H. apply bind_ok_iff in H as (t & Ht & H).
  apply compact_ok in Ht. rewrite (proj2 (compact_ok v g 256 t)) by done.
  cbn [mbind result_bind]. rewrite !guard_bind_ok in *. done.
Qed.

(** Containment of paths is containment of their components. *)
Lemma path_within_join pp sp : safe_parts pp → safe_parts sp →
  path_within (join "/" pp) (join "/" sp) = true ↔ sp `prefix_of` pp.
Proof.
  intros Hp Hs.
  pose proof (safe_parts_free _ Hp) as Fp. pose proof (safe_parts_free _ Hs) as Fs.
  unfold path_within. rewrite orb_true_iff, bool_decide_eq_true, startswith_spec. split.
  - intros [Heq|[r Hr]].
    + apply (f_equal path_parts) in Heq. rewrite !path_parts_join in Heq by done. by rewrite Heq.
    + apply (f_equal (split_on "/")) in Hr.
      rewrite split_on_join in Hr by (done || apply Hp). rewrite Hr.
      rewrite <- (join_split_on "/" r), app_str_assoc, <- join_app by (apply Hs || apply split_on_nonempty).
      rewrite split_on_join; [by apply prefix_app_r| |].
      * destruct Hs as [Hne _]. by destruct sp.
      * apply Forall_app. split; [done|apply split_on_free].
  - intros [l Hl]. rewrite Hl. destruct l as [|w l]; [left; by rewrite app_nil_r|right].
    exists (join "/" (w :: l)). rewrite join_app, app_str_assoc by (done || apply Hs). done.
Qed.

Lemma path_within_trans a b c : path_within a b = true → path_within b c = true → path_within a c = true.
Proof.
  unfold path_within. rewrite !orb_true_iff, !bool_decide_eq_true, !startswith_spec.
  intros [->|[r ->]] [->|[r' ->]]; eauto. right.
  exists (r' +:+ "/" +:+ r). by rewrite !app_str_assoc.
Qed.

(** ** What an authority grants *)

Lemma table_get_elem {A} k (v : A) d : table_get k d = Some v → (k, v) ∈ d.
Proof.
  unfold table_get. intros ([i [k' v']] & Hf & Hv)%fmap_Some. simpl in Hv. subst.
  apply list_find_Some in Hf as (Hl & Hk & _). simpl in Hk. subst. by apply list_elem_of_lookup_2 in Hl.
Qed.

Lemma table_get_unique {A} k (v : A) d : NoDup (map fst d) → (k, v) ∈ d → table_get k d = Some v.
Proof.
  unfold table_get. induction d as [|[k' v'] d IH]; intros Hd Hin; [by apply not_elem_of_nil in Hin|].
  apply NoDup_cons in Hd as [Hk Hd]. apply elem_of_cons in Hin as [[= -> ->]|Hin]; cbn [list_find].
  - by rewrite decide_True.
  - rewrite decide_False by (intros <-; apply Hk; by apply (list_elem_of_fmap_2 fst) in Hin).
    specialize (IH Hd Hin). by destruct (list_find _ d).
Qed.

Lemma table_get_None {A} k (d : list (string * A)) : table_get k d = None ↔ k ∉ map fst d.
Proof.
  unfold table_get. rewrite fmap_None, list_find_None, Forall_elem.
  split; intros H; [intros ([k' v] & -> & Hin)%list_elem_of_fmap; by apply (H (k', v))|].
  intros x Hx Hk. apply H, list_elem_of_fmap. by exists x.
Qed.

(** The resources each tool may name. *)
Inductive resource_granted (cap kind ref : string) : Prop :=
  | rg_exact : (cap, (kind, ref)) ∈ _EXACT_RESOURCE_POLICIES → resource_granted cap kind ref
  | rg_service : cap = "service.status.read" → kind = "service" →
      service_resource_re ref = true → resource_granted cap kind ref
  | rg_group_policy : cap = "windows.group_policy.result" → kind = "group_policy" →
      ref ∈ _GROUP_POLICY_REFS → resource_granted cap kind ref
  | rg_endpoint host suffix : (cap, suffix) ∈ _NETWORK_RESOURCE_SUFFIXES → kind = "network_endpoint" →
      strip_suffix ref suffix = Some host → host ≠ "" → _is_internal_ip_literal host = true →
      resource_granted cap kind ref
  | rg_unbound : cap ∉ map fst _EXACT_RESOURCE_POLICIES → cap ≠ "service.status.read" →
      cap ≠ "windows.group_policy.result" → cap ∉ map fst _NETWORK_RESOURCE_SUFFIXES →
      resource_granted cap kind ref.

(** Some scope of the authority contains the path, component by component. *)
Definition write_granted (a : TaskCapabilityAuthority) (ref : string) : Prop :=
  ca_write_scope a ≠ WsStr "none" ∧
  ∃ resource raw scope,
    _safe_path ref "resource_ref" = Ok resource ∧ raw ∈ scope_list (ca_write_scope a)
    ∧ _safe_path raw "write_scope" = Ok scope ∧ path_parts scope `prefix_of` path_parts resource.

Record granted (a : TaskCapabilityAuthority) (cap kind ref eff : string) : Prop := {
  gr_tool : cap ∈ TOOLS ∧ cap ∈ ca_allowed_tools a;
  gr_effect : (cap, eff) ∈ _EFFECTS;
  gr_resource : resource_granted cap kind ref;
  gr_gateway : cap = "web_gateway" →
    ca_sensitivity a = "public" ∧ ca_network_scope a = "allowlisted_egress";
  gr_internal : cap ∈ INTERNAL_NETWORK_TOOLS →
    ca_network_scope a = "internal_only" ∧ kind = "network_endpoint";
  gr_network : startswith eff "network" = true → cap = "web_gateway" ∨ cap ∈ INTERNAL_NETWORK_TOOLS;
  gr_write : eff = "write" → write_granted a ref
}.

Lemma write_allowed_granted a ref : _write_allowed a ref = true ↔ write_granted a ref.
Proof.
  unfold _write_allowed, write_granted. case_bool_decide as Hn; [naive_solver|].
  destruct (_safe_path ref "resource_ref") as [resource|e] eqn:Hr;
    [|split; [done|]; by intros (_ & ? & ? & ? & ? & _)].
  pose proof (safe_path_parts _ _ _ Hr) as (Er & Sr & _).
  rewrite existsb_exists. split.
  - intros (raw & Hin%list_elem_of_In & Hw). split; [done|].
    destruct (_safe_path raw "write_scope") as [scope|] eqn:Hs; [|done].
    pose proof (safe_path_parts _ _ _ Hs) as (Es & Ss & _).
    exists resource, raw, scope. split_and!; try done.
    rewrite Er, Es in Hw. by apply path_within_join in Hw.
  - intros (_ & ? & raw & scope & [= <-] & Hin & Hs & Hp).
    exists raw. split; [by apply list_elem_of_In|]. rewrite Hs.
    pose proof (safe_path_parts _ _ _ Hs) as (Es & Ss & _).
    rewrite Er, Es. by apply path_within_join.
Qed.

Lemma resource_policy_exact cap kind ref :
  _resource_policy_denial cap kind ref = None ↔ resource_granted cap kind ref.
Proof.
  unfold _resource_policy_denial. split.
  - destruct (table_get cap _EXACT_RESOURCE_POLICIES) as [[k r]|] eqn:E1.
    { apply table_get_elem in E1. case_bool_decide; [|done]. case_bool_decide; [|done].
      intros _. subst. by apply rg_exact. }
    apply table_get_None in E1. case_bool_decide as E2.
    { case_bool_decide; [|done]. cbn. destruct (service_resource_re ref) eqn:E; [|done].
      intros _. by apply rg_service. }
    case_bool_decide as E3.
    { case_bool_decide; [|done]. cbn. destruct (mem_str ref _) eqn:E; [|done].
      intros _. apply rg_group_policy; [done..|]. by apply mem_str_true. }
    destruct (table_get cap _NETWORK_RESOURCE_SUFFIXES) as [suffix|] eqn:E4.
    { apply table_get_elem in E4. case_bool_decide; [|done]. cbn.
      destruct (strip_suffix ref suffix) as [host|] eqn:E5; [|done].
      destruct (is_empty host) eqn:E6; [done|]. destruct (_is_internal_ip_literal host) eqn:E7; [|done].
      intros _. apply (rg_endpoint _ _ _ host suffix); try done. by apply is_empty_false. }
    apply table_get_None in E4. intros _. by apply rg_unbound.
  - intros [Ht| -> -> Hs| -> -> Hs|host suffix Ht -> Hs Hne Hip|H1 H2 H3 H4].
    + apply table_get_unique in Ht; [|by apply (bool_decide_unpack _)]. rewrite Ht.
      by rewrite !bool_decide_eq_true_2.
    + cbn. by rewrite Hs.
    + apply mem_str_true in Hs. cbn. by rewrite Hs.
    + assert (table_get cap _EXACT_RESOURCE_POLICIES = None ∧ cap ≠ "service.status.read"
        ∧ cap ≠ "windows.group_policy.result" ∧ table_get cap _NETWORK_RESOURCE_SUFFIXES = Some suffix)
        as (-> & ? & ? & ->).
      { unfold _NETWORK_RESOURCE_SUFFIXES in Ht.
        repeat (apply elem_of_cons in Ht as [[= -> ->]|Ht]; [by split_and!|]).
        by apply not_elem_of_nil in Ht. }
      rewrite !bool_decide_eq_false_2, bool_decide_eq_true_2, Hs, Hip by done. by destruct host.
    + apply table_get_None in H1, H4. rewrite H1, H4. by rewrite !bool_decide_eq_false_2.
Qed.

Lemma staged_invocable cap :
  mem_str cap DIAGNOSTIC_STAGED_LOCAL_READ_TOOLS && negb (mem_str cap _WAVE1_INVOCABLE_LOCAL_READ_TOOLS)
  = false.
Proof.
  destruct (mem_str cap DIAGNOSTIC_STAGED_LOCAL_READ_TOOLS) eqn:E; [|done]. apply mem_str_true in E.
  cbn [andb]. apply negb_false_iff, mem_str_true. revert cap E. by apply subset_str_spec.
Qed.

Lemma effects_spec cap eff : table_get cap _EFFECTS = Some eff ↔ (cap, eff) ∈ _EFFECTS.
Proof.
  split; [apply table_get_elem|]. apply table_get_unique. by apply (bool_decide_unpack _).
Qed.

Lemma web_gateway_external : "web_gateway" ∉ INTERNAL_NETWORK_TOOLS.
Proof. by apply (bool_decide_unpack _). Qed.

Lemma authorize_denial_exact a cap kind ref eff :
  authorize_denial a cap kind ref eff = None ↔ granted a cap kind ref eff.
Proof.
  unfold authorize_denial. rewrite staged_invocable. split.
  - destruct (mem_str cap TOOLS) eqn:E1; [|done]. destruct (mem_str cap (ca_allowed_tools a)) eqn:E2; [|done].
    rewrite mem_str_true in E1, E2. cbn [negb].
    case_bool_decide as E3; [|done]. rewrite effects_spec in E3.
    destruct (_resource_policy_denial cap kind ref) eqn:E4; [done|]. apply resource_policy_exact in E4.
    cbv zeta. cbn [negb].
    match goal with |- match ?n with _ => _ end = _ → _ => destruct n eqn:E5; [done|] end.
    destruct (bool_decide (eff = "write") && negb (_write_allowed a ref)) eqn:E6; [done|]. intros _.
    rewrite andb_false_imp, bool_decide_eq_true, negb_false_iff, write_allowed_granted in E6.
    pose proof web_gateway_external.
    cbn [negb] in E5. revert E5. repeat case_bool_decide; cbn [negb orb]; try done;
      destruct (mem_str cap INTERNAL_NETWORK_TOOLS) eqn:Ei; cbn [negb]; try done;
      rewrite ?mem_str_true, ?mem_str_false in Ei;
      destruct (startswith eff "network") eqn:Es; try done;
      constructor; try done; try tauto; intros; try congruence; by subst.
  - intros [[H1 H2] H3 H4 H5 H6 H7 H8].
    rewrite (proj2 (mem_str_true _ _) H1), (proj2 (mem_str_true _ _) H2). cbn [negb].
    rewrite bool_decide_eq_true_2 by by apply effects_spec. cbn [negb].
    rewrite (proj2 (resource_policy_exact _ _ _) H4).
    assert (bool_decide (eff = "write") && negb (_write_allowed a ref) = false) as ->.
    { rewrite andb_false_imp, bool_decide_eq_true, negb_false_iff, write_allowed_granted. done. }
    case_bool_decide as Hg.
    { destruct (H5 Hg) as [-> ->]. done. }
    destruct (mem_str cap INTERNAL_NETWORK_TOOLS) eqn:Ei.
    { apply mem_str_true in Ei. destruct (H6 Ei) as [-> ->]. done. }
    apply mem_str_false in Ei. destruct (startswith eff "network"); [|done]. by destruct H7.
Qed.

(** A probe of the internal network always names an endpoint. *)
Lemma internal_tool_endpoint cap kind ref : cap ∈ INTERNAL_NETWORK_TOOLS → resource_granted cap kind ref →
  ∃ host suffix, strip_suffix ref suffix = Some host ∧ _is_internal_ip_literal host = true.
Proof.
  intros Hi.
  assert (forallb (λ t, negb (mem_str t (map fst _EXACT_RESOURCE_POLICIES))
    && negb (mem_str t ["service.status.read"; "windows.group_policy.result"])
    && mem_str t (map fst _NETWORK_RESOURCE_SUFFIXES)) INTERNAL_NETWORK_TOOLS = true) as Hall
    by (vm_compute; reflexivity).
  rewrite forallb_forall in Hall. apply list_elem_of_In, Hall in Hi. py_prop.
  intros [Ht|Ht|Ht|host suffix|_ _ _ Ht]; [..|by exists host, suffix|done].
  - by apply (list_elem_of_fmap_2 fst) in Ht.
  - subst. set_solver.
  - subst. set_solver.
Qed.

(** ** Attenuation *)

(** [c] holds no authority that [p] does not hold. *)
Record attenuates (c p : TaskCapabilityAuthority) : Prop := {
  at_sensitivity : ca_sensitivity c = ca_sensitivity p;
  at_sources : ca_allowed_sources c ⊆ ca_allowed_sources p;
  at_tools : ca_allowed_tools c ⊆ ca_allowed_tools p;
  at_network : ca_network_scope c = ca_network_scope p ∨ ca_network_scope c = "deny";
  at_write : ∀ ref, _write_allowed c ref = true → _write_allowed p ref = true
}.

#[export] Instance attenuates_preorder : PreOrder attenuates.
Proof.
  split; [intros a; constructor; auto|].
  intros c p g [C1 C2 C3 C4 C5] [P1 P2 P3 P4 P5]. constructor; [congruence|set_solver|set_solver| |auto].
  destruct C4 as [->|]; auto.
Qed.

Lemma granted_mono c p cap kind ref eff :
  attenuates c p → granted c cap kind ref eff → granted p cap kind ref eff.
Proof.
  intros [A1 A2 A3 A4 A5] [[G1 G1'] G2 G3 G4 G5 G6 G7]. constructor; try done.
  - split; [done|]. by apply A3.
  - intros Hc. destruct (G4 Hc) as [Hs Hn]. rewrite <- A1. split; [done|].
    destruct A4 as [<-|A4]; [done|]. congruence.
  - intros Hc. destruct (G5 Hc) as [Hn Hk]. split; [|done]. destruct A4 as [<-|A4]; [done|]. congruence.
  - intros Hw. apply write_allowed_granted, A5, write_allowed_granted, G7, Hw.
Qed.

Lemma mapM_Forall2 {A B} (f : A → result B) l ys :
  mapM f l = Ok ys ↔ Forall2 (λ x y, f x = Ok y) l ys.
Proof.
  revert ys. induction l as [|x l IH]; intros ys; cbn [mapM].
  - split; [by intros [= <-]|]. by inversion 1.
  - rewrite bind_ok_iff. setoid_rewrite bind_ok_iff. split.
    + intros (y & Hy & zs & Hz & [= <-]). constructor; [done|]. by apply IH.
    + inversion 1; subst. eexists; split; [done|]. eexists; split; [by apply IH|done].
Qed.

Lemma child_names_ok field m denial parent requested child :
  child_names field m denial parent requested = Ok child → child ⊆ parent.
Proof.
  unfold child_names. destruct requested; [|by intros [= <-]].
  intros H. apply bind_ok_iff in H as (vs & _ & H). rewrite guard_bind_ok in H.
  destruct H as [Hs [= <-]]. by apply negb_false_iff, subset_str_spec in Hs.
Qed.

(** Every path of a normalised scope is a safe path of a scope it came from. *)
Lemma normalize_scope_list w field w' : _normalize_write_scope w field = Ok w' →
  w' = WsStr "none" ∨ ∀ p, p ∈ scope_list w' →
    ∃ raw, raw ∈ scope_list w ∧ _safe_path raw field = Ok p ∧ w ≠ WsStr "none".
Proof.
  destruct w as [s|l]; cbn [_normalize_write_scope].
  - case_bool_decide as Hs; [intros [= <-]; by left|].
    destruct (_safe_path s field) as [p|] eqn:E; [|done]. intros [= <-]. right.
    intros q ->%list_elem_of_singleton. exists s. split_and!; [by left|done|congruence].
  - intros H. rewrite guard_bind_ok in H. destruct H as [_ H].
    apply bind_ok_iff in H as (ps & Hps & [= <-]). right. intros q Hq. cbn [scope_list] in *.
    apply (proj1 (elem_of_dict_fromkeys q ps)) in Hq. apply mapM_Forall2 in Hps.
    apply list_elem_of_lookup in Hq as [i Hi]. destruct (Forall2_lookup_r _ _ _ _ _ Hps Hi) as (raw & Hr & ?).
    exists raw. split_and!; [by eapply list_elem_of_lookup_2|done..].
Qed.

Lemma write_scope_subset_sound w wc wp c p f g ref :
  _normalize_write_scope w f = Ok wc → ca_write_scope c = wc →
  _normalize_write_scope (ca_write_scope p) g = Ok wp → _write_scope_is_subset wc wp = true →
  _write_allowed c ref = true → _write_allowed p ref = true.
Proof.
  intros Hc Ec Hp Hsub. unfold _write_allowed. rewrite Ec. case_bool_decide as Hn; [done|].
  destruct (_safe_path ref "resource_ref") as [resource|]; [|done].
  unfold _write_scope_is_subset in Hsub. rewrite bool_decide_eq_false_2 in Hsub by done.
  case_bool_decide as Hpn; [done|]. rewrite forallb_forall in Hsub.
  intros (raw & Hraw & Hw)%existsb_exists.
  destruct (normalize_scope_list _ _ _ Hc) as [|Hcl]; [done|].
  destruct (normalize_scope_list _ _ _ Hp) as [|Hpl]; [done|].
  destruct (Hcl raw) as (r0 & _ & Hr0 & _); [by apply list_elem_of_In|].
  destruct (_safe_path raw "write_scope") as [scope|] eqn:Es; [|done].
  rewrite (safe_path_again _ _ _ _ _ Hr0 Es) in Hw. apply Hsub in Hraw.
  apply existsb_exists in Hraw as (ps & Hps%list_elem_of_In & Hin).
  destruct (Hpl ps Hps) as (rp & Hrp & Hsp & Hne).
  rewrite bool_decide_eq_false_2 by done.
  apply existsb_exists. exists rp. split; [by apply list_elem_of_In|].
  rewrite (safe_path_field _ _ _ _ Hsp). by eapply path_within_trans.
Qed.

Section Delegation.
Context {HL : Hashlib}.

Lemma derive_child_attenuates p tid srcs tools ws net c :
  derive_child p tid srcs tools ws net = Ok c → attenuates c p.
Proof.
  unfold derive_child. intros H. inv_ok. bool_prop. constructor; cbn [_build ca_sensitivity
    ca_allowed_sources ca_allowed_tools ca_network_scope].
  - done.
  - by eapply child_names_ok.
  - by eapply child_names_ok.
  - match goal with H : negb (bool_decide (?x = _)) && _ = false |- _ =>
      destruct (decide (x = ca_network_scope p)); [by left|];
      rewrite bool_decide_eq_false_2 in H by done; cbn in H end.
    bool_prop. by right.
  - intros ref. eapply write_scope_subset_sound; done.
Qed.

(** A chain of delegations from [root]. *)
Inductive delegated (root : TaskCapabilityAuthority) : TaskCapabilityAuthority → Prop :=
  | delegated_root : delegated root root
  | delegated_step p tid srcs tools ws net c :
      delegated root p → derive_child p tid srcs tools ws net = Ok c → delegated root c.

Lemma delegated_attenuates root c : delegated root c → attenuates c root.
Proof.
  induction 1 as [|p tid srcs tools ws net c _ IH Hc]; [done|].
  etrans; [by eapply derive_child_attenuates|done].
Qed.

Lemma json_strs_ok l : json_ok (json_strs l) = true.
Proof. unfold json_strs. cbn [json_ok]. induction l; [done|]. by cbn. Qed.

Lemma canon_json_strs l : canon (json_strs l) = json_strs l.
Proof. unfold json_strs. cbn [canon]. f_equal. rewrite map_map. by apply map_ext. Qed.

Lemma json_strs_inj l l' : json_strs l = json_strs l' → l = l'.
Proof. unfold json_strs. intros [= H]. revert l' H. induction l as [|x l IH]; intros [|y l'] [=]; f_equal; auto. Qed.

Lemma authority_payload_ok t s srcs tools ws net :
  json_ok (authority_payload t s srcs tools ws net) = true.
Proof.
  unfold authority_payload. cbn [json_ok forallb snd]. rewrite !json_strs_ok.
  destruct ws; cbn [write_scope_json]; by rewrite ?json_strs_ok.
Qed.

Lemma authority_payload_inj t s srcs tools ws net t' s' srcs' tools' ws' net' :
  canon (authority_payload t s srcs tools ws net) = canon (authority_payload t' s' srcs' tools' ws' net') →
  t = t' ∧ s = s' ∧ srcs = srcs' ∧ tools = tools' ∧ ws = ws' ∧ net = net'.
Proof.
  intros Hc. apply canon_obj_inj in Hc; [|done|by apply (bool_decide_unpack _)].
  cbn [map snd] in Hc. rewrite !canon_json_strs in Hc.
  assert (∀ w, canon (write_scope_json w) = write_scope_json w) as Hw
    by (intros []; cbn [write_scope_json]; [done|apply canon_json_strs]).
  rewrite !Hw in Hc. injection Hc as -> -> H1 H2 H3 ->.
  apply (f_equal JList), json_strs_inj in H1, H2. split_and!; try done.
  destruct ws, ws'; cbn in H3; try discriminate; [by injection H3 as ->|].
  apply json_strs_inj in H3. congruence.
Qed.

Lemma authorize_allowed a cap kind ref eff d : authorize a cap kind ref eff = Ok d →
  ∃ cap' kind' ref' eff',
    _compact cap "capability" 64 = Ok cap' ∧ _compact kind "resource_kind" 64 = Ok kind' ∧
    _compact ref "resource_ref" 256 = Ok ref' ∧ _compact eff "effect" 64 = Ok eff' ∧
    (cd_allowed d = true ↔ granted a cap' kind' ref' eff').
Proof.
  unfold authorize. intros H. inv_ok. eexists _, _, _, _. split_and!; [done..|].
  rewrite <- authorize_denial_exact.
  by destruct (authorize_denial _ _ _ _ _).
Qed.

(** Deny by default: authorization answers every request whose four names are
    compact identifiers, and the answer is "allowed" exactly when the tool is known
    and delegated, the effect is the tool's own, the resource is one the tool may
    name, the network scope fits the tool, and a written path lies, component by
    component, inside a write scope. *)
Theorem authorize_exact a cap kind ref eff :
  compact_re cap = true → compact_re kind = true → compact_re ref = true → compact_re eff = true →
  len cap ≤ 64 → len kind ≤ 64 → len eff ≤ 64 →
  contains cap "://" = false → contains kind "://" = false → contains ref "://" = false →
  contains eff "://" = false →
  ∃ d, authorize a cap kind ref eff = Ok d ∧ (cd_allowed d = true ↔ granted a cap kind ref eff).
Proof.
  intros. assert (∀ v f m, compact_re v = true → len v ≤ m → contains v "://" = false →
    _compact v f m = Ok v) as Hc.
  { intros v f m Hv Hl Hu. apply compact_ok. split_and!; try done. symmetry.
    by apply strip_word, compact_not_space, compact_re_chars. }
  assert (len ref ≤ 256).
  { destruct ref as [|c t]; [done|]. unfold len. cbn [compact_re String.length] in *. py_prop.
    match goal with H : (_ <=? 255)%nat = true |- _ => apply Nat.leb_le in H end. lia. }
  unfold authorize. rewrite !Hc by done. cbn [mbind result_bind]. eexists. split; [done|].
  rewrite <- authorize_denial_exact. by destruct (authorize_denial _ _ _ _ _).
Qed.

(** C30: no chain of delegations escalates: whatever a descendant of [root] is
    allowed, [root] itself is allowed - the same tool, resource, effect and written
    path - and the descendant keeps the root's sensitivity, a subset of its sources
    and tools, and its network scope or none. *)
Theorem delegation_never_escalates root c cap kind ref eff d :
  delegated root c → authorize c cap kind ref eff = Ok d → cd_allowed d = true →
  attenuates c root ∧
  ∃ d', authorize root cap kind ref eff = Ok d' ∧ cd_allowed d' = true.
Proof.
  intros Hd Ha Hal. pose proof (delegated_attenuates _ _ Hd) as Hat. split; [done|].
  destruct (authorize_allowed _ _ _ _ _ _ Ha) as (cap' & kind' & ref' & eff' & H1 & H2 & H3 & H4 & H5).
  unfold authorize. rewrite H1, H2, H3, H4. cbn [mbind result_bind]. eexists. split; [done|].
  apply H5, (granted_mono _ _ _ _ _ _ Hat), authorize_denial_exact in Hal. by rewrite Hal.
Qed.

(** A decision that allows a write names a path inside a write scope: the
    resource is relative, has no parent component, and the components of one of the
    authority's scopes are a prefix of its components; a web request is only allowed
    to a public task with allow-listed egress, and an internal probe only reaches a
    literal internal address. *)
Theorem authorize_contains a cap kind ref eff d :
  authorize a cap kind ref eff = Ok d → cd_allowed d = true →
  (cd_effect d = "write" → ∃ raw scope resource, raw ∈ scope_list (ca_write_scope a)
     ∧ _safe_path raw "write_scope" = Ok scope ∧ _safe_path (cd_resource_ref d) "resource_ref" = Ok resource
     ∧ ".." ∉ path_parts resource ∧ path_parts scope `prefix_of` path_parts resource)
  ∧ (cd_capability d = "web_gateway" →
     ca_sensitivity a = "public" ∧ ca_network_scope a = "allowlisted_egress")
  ∧ (cd_capability d ∈ INTERNAL_NETWORK_TOOLS → ca_network_scope a = "internal_only" ∧
     ∃ host suffix, strip_suffix (cd_resource_ref d) suffix = Some host ∧ _is_internal_ip_literal host = true).
Proof.
  unfold authorize. intros H. inv_ok. destruct (authorize_denial _ _ _ _ _) eqn:Ed; [done|]. intros _.
  apply authorize_denial_exact in Ed as [_ _ G3 G4 G5 _ G7]. cbn [_decision cd_effect cd_capability cd_resource_ref].
  split_and!; [|done|].
  - intros Hw. destruct (G7 Hw) as (_ & resource & raw & scope & Hr & Hin & Hs & Hp).
    exists raw, scope, resource. split_and!; try done. intros Hdd.
    apply safe_path_parts in Hr as (_ & [_ Hall] & _). rewrite Forall_elem in Hall.
    by destruct (Hall _ Hdd) as (_ & _ & [] & _).
  - intros Hi. split; [by apply G5|]. eapply internal_tool_endpoint; [exact Hi|exact G3].
Qed.

(** The authority fingerprint binds the authority: two authorities built with the
    same fingerprint agree in every field, unless their canonical payloads collide
    under the digest. *)
Theorem authority_fingerprint_binds t s srcs tools ws net t' s' srcs' tools' ws' net' :
  let a := _build t s srcs tools ws net in
  let b := _build t' s' srcs' tools' ws' net' in
  ca_fingerprint a = ca_fingerprint b →
  a = b ∨ collision (utf8_encode (print (authority_payload t s srcs tools ws net)))
            (utf8_encode (print (authority_payload t' s' srcs' tools' ws' net'))).
Proof.
  cbv zeta. cbn [_build ca_fingerprint]. unfold _fingerprint_payload. intros Hf.
  apply fingerprint_binds in Hf as [Hc|Hc]; [left|by right|apply authority_payload_ok..].
  apply authority_payload_inj in Hc as (-> & -> & -> & -> & -> & ->). done.
Qed.

End Delegation.

(** A public research authority, a child confined to one directory, and a request. *)
Section Examples.
#[local] Existing Instance checksum_hashlib.

Definition root_authority : TaskCapabilityAuthority :=
  _build "task-1" "public" ["docs"; "web"] ["web_gateway"; "apply_patch"; "read_file"]
    (WsTuple ["src/app"; "docs"]) "allowlisted_egress".

Definition child_authority : TaskCapabilityAuthority :=
  match derive_child root_authority "task-2" None (Some ["apply_patch"]) (Some (WsStr "src/app/ui/"))
          (Some "deny") with
  | Ok c => c | Raise _ => root_authority
  end.

Lemma authorize_exact_witness :
  ∃ d, authorize root_authority "apply_patch" "file" "src/app/main.py" "write" = Ok d ∧
  (cd_allowed d = true ↔ granted root_authority "apply_patch" "file" "src/app/main.py" "write").
Proof. apply authorize_exact; by vm_compute. Defined.

Lemma delegation_never_escalates_witness :
  attenuates child_authority root_authority ∧
  ∃ d', authorize root_authority "apply_patch" "file" "src/app/ui/x.py" "write" = Ok d'
    ∧ cd_allowed d' = true.
Proof.
  eapply delegation_never_escalates; [|vm_compute; reflexivity|reflexivity].
  apply (delegated_step _ root_authority "task-2" None (Some ["apply_patch"])
    (Some (WsStr "src/app/ui/")) (Some "deny")); [apply delegated_root|vm_compute; reflexivity].
Defined.

Lemma authorize_contains_witness :
  ∃ raw scope resource, raw ∈ scope_list (ca_write_scope root_authority)
     ∧ _safe_path raw "write_scope" = Ok scope
     ∧ _safe_path "src/app/ui/x.py" "resource_ref" = Ok resource
     ∧ ".." ∉ path_parts resource ∧ path_parts scope `prefix_of` path_parts resource.
Proof.
  refine (proj1 (authorize_contains root_authority "apply_patch" "file" "src/app/ui/x.py" "write"
    (_decision root_authority "apply_patch" "file" "src/app/ui/x.py" "write" true "CAPABILITY_AUTHORIZED")
    _ _) _); vm_compute; reflexivity.
Defined.

Lemma authority_fingerprint_binds_witness :
  root_authority = root_authority ∨ collision
    (utf8_encode (print (authority_payload "task-1" "public" ["docs"; "web"]
       ["web_gateway"; "apply_patch"; "read_file"] (WsTuple ["src/app"; "docs"]) "allowlisted_egress")))
    (utf8_encode (print (authority_payload "task-1" "public" ["docs"; "web"]
       ["web_gateway"; "apply_patch"; "read_file"] (WsTuple ["src/app"; "docs"]) "allowlisted_egress"))).
Proof.
  apply (authority_fingerprint_binds "task-1" "public" ["docs"; "web"]
    ["web_gateway"; "apply_patch"; "read_file"] (WsTuple ["src/app"; "docs"]) "allowlisted_egress").
  reflexivity.
Defined.
End Examples.
