(* ===== verification/AuthorityFacts.v ===== *)
(** * Rebinding an authority

    Normalised names, paths and scopes are their own normal form, so deriving a child
    again from the fields of the derived child returns the same child. *)

From Stdlib Require Import Ascii.
From Stdlib Require String.
From S2P Require Import Prelude PyStr Hashlib Json TaskContract CapabilityAuthority.

Local Open Scope Z_scope.

Lemma compact_again v field m f t : _compact v field m = Ok t → _compact t f m = Ok t.
Proof.
  intros H. pose proof (compact_strip _ _ _ _ H) as Hs. apply compact_ok in H as (-> & ? & ? & ?).
  by apply compact_ok.
Qed.

(** ** Paths *)

Lemma length_join_filter (P : string → Prop) `{∀ x, Decision (P x)} sep l :
  (String.length (join sep (filter P l)) ≤ String.length (join sep l))%nat.
Proof.
  induction l as [|w l IH]; [done|]. rewrite filter_cons. destruct (decide (P w)).
  - destruct l as [|w' l]; [done|]. rewrite (join_cons sep w w' l). destruct (filter P (w' :: l)) as [|y ys] eqn:E.
    + cbn [join]. rewrite !length_app_str. lia.
    + rewrite join_cons, !length_app_str. lia.
  - etrans; [exact IH|]. destruct l as [|w' l]; [cbn; lia|]. rewrite join_cons, !length_app_str. lia.
Qed.

Lemma length_path_parts text : (String.length (join "/" (path_parts text)) ≤ String.length text)%nat.
Proof. unfold path_parts. rewrite <- (join_split_on "/" text) at 2. apply length_join_filter. Qed.

Lemma path_parts_head c t : c ≠ "/"%char → c ≠ "."%char →
  ∃ w ws, path_parts (String c t) = String c w :: ws.
Proof.
  intros Hc Hd. unfold path_parts. cbn [split_on]. rewrite bool_decide_eq_false_2 by done.
  destruct (split_on "/" t) as [|w ws]; rewrite filter_cons_True by (split; congruence); eauto.
Qed.

Lemma contains_inv s x : contains s x = true → ∃ a b, s = a +:+ x +:+ b.
Proof.
  induction s as [|c s IH]; cbn [contains]; rewrite orb_true_iff, startswith_spec.
  - intros [[r Hr]|?]; [|done]. by exists "", r.
  - intros [[r Hr]|H]; [by exists "", r|]. destruct (IH H) as (a & b & ->). by exists (String c a), b.
Qed.

Lemma split_on_empty sep a b : "" ∈ tail (split_on sep (a +:+ String sep (String sep b))).
Proof.
  induction a as [|c a IH].
  - rewrite app_str_nil_l. cbn [split_on]. rewrite !bool_decide_eq_true_2 by done. left.
  - rewrite app_str_cons. cbn [split_on]. case_bool_decide; cbn [tail].
    + destruct (split_on sep _) as [|w ws]; [by apply not_elem_of_nil in IH|]. by right.
    + destruct (split_on sep _) as [|w ws]; [by apply not_elem_of_nil in IH|]. exact IH.
Qed.

Lemma safe_parts_no_url parts : safe_parts parts → contains (join "/" parts) "://" = false.
Proof.
  intros H. destruct (contains _ _) eqn:E; [|done]. exfalso.
  apply contains_inv in E as (a & b & E).
  pose proof (split_on_join "/" parts (proj1 H) (safe_parts_free _ H)) as Hs.
  pose proof (split_on_empty "/" (a +:+ ":") b) as Hin.
  rewrite app_str_assoc in Hin. change (join "/" parts) with (join (String "/" "") parts) in E.
  change (":" +:+ String "/" (String "/" b)) with ("://" +:+ b) in Hin. rewrite <- E, Hs in Hin.
  destruct H as [_ Hall]. rewrite Forall_elem in Hall. destruct parts as [|w parts]; [by apply not_elem_of_nil in Hin|].
  by destruct (Hall "" (list_elem_of_further _ _ _ Hin)) as [? _].
Qed.

Lemma safe_path_fix v f g p : _safe_path v f = Ok p → _safe_path p g = Ok p.
Proof.
  intros H. pose proof H as (Hp & Hsafe & Hpv & Hc)%safe_path_parts.
  assert (_compact p g 256 = Ok p) as Hcp.
  { unfold _safe_path in H. apply bind_ok_iff in H as (t & Ht & _).
    apply compact_ok in Ht as (-> & Hre & Hl & _). apply compact_ok.
    destruct (strip v) as [|c t] eqn:Et; [done|]. cbn [compact_re] in Hre.
    apply andb_true_iff in Hre as [[Ha _]%andb_true_iff _].
    destruct (path_parts_head c t) as (w & ws & Hw); [by intros ->..|].
    assert (p = join "/" (String c w :: ws)) as Hj by (by rewrite Hp, Hpv, Hw).
    assert (len p ≤ 256) as Hlp.
    { pose proof (length_path_parts (String c t)) as Hlen. rewrite <- Hpv, <- Hp in Hlen. unfold len in *. lia. }
    split_and!; [by rewrite strip_word by (by apply compact_not_space)| |done|].
    - assert (∃ r, p = String c r) as [r Hr].
      { rewrite Hj. destruct ws; [by exists w|]. rewrite join_cons. eexists. apply app_str_cons. }
      rewrite Hr in Hc, Hlp |- *. cbn [compact_re]. cbn [forall_char] in Hc.
      apply andb_true_iff in Hc as [_ Hc]. unfold len in Hlp. cbn in Hlp. rewrite Ha.
      rewrite (proj2 (Nat.leb_le _ _)) by lia. exact Hc.
    - rewrite Hp. by apply safe_parts_no_url. }
  unfold _safe_path. rewrite Hcp. cbn [mbind result_bind]. rewrite replace_compact by done.
  assert (as_posix p = p) as Hposix.
  { unfold as_posix. destruct (path_parts p) eqn:E; [by destruct Hsafe|]. by rewrite <- Hp. }
  rewrite Hposix. assert (rstrip_slash (lstrip_slash p) = p) as -> by (rewrite Hp; by apply strip_slash_join).
  destruct (safe_parts_head _ Hsafe) as (c & t & Hh & Hslash). rewrite <- Hp in Hh.
  rewrite guard_bind_ok. split.
  - apply orb_false_iff. split.
    + destruct (path_is_absolute p) eqn:Ea; [|done]. apply startswith_spec in Ea as [r Hr].
      rewrite Hh in Hr. injection Hr as Hr _. congruence.
    + apply mem_str_false. intros Hd. destruct Hsafe as [_ Hall]. rewrite Forall_elem in Hall.
      by destruct (Hall _ Hd) as (_ & _ & ? & _).
  - rewrite guard_bind_ok. split; [|done]. apply orb_false_iff. split; [by rewrite Hh|].
    apply bool_decide_eq_false. intros ->. by destruct Hsafe.
Qed.

(** ** Scopes and names *)

Lemma normalize_scope_fix w f g w' : _normalize_write_scope w f = Ok w' → _normalize_write_scope w' g = Ok w'.
Proof.
  destruct w as [s|l]; cbn [_normalize_write_scope].
  - case_bool_decide; [by intros [= <-]|]. destruct (_safe_path s f) as [p|] eqn:E; [|done]. intros [= <-].
    cbn [_normalize_write_scope]. case_bool_decide; [by subst|]. by rewrite (safe_path_fix _ _ g _ E).
  - rewrite guard_bind_ok, bool_decide_eq_false, bind_ok_iff. intros (Hne & ps & Hps & [= <-]).
    cbn [_normalize_write_scope]. rewrite guard_bind_ok, bool_decide_eq_false. split.
    + intros Hd. apply mapM_Forall2 in Hps. destruct Hps as [|x y l ps Hy]; [done|].
      apply not_elem_of_nil with (x := y). rewrite <- Hd. apply elem_of_dict_fromkeys. left.
    + apply bind_ok_iff. exists (dict_fromkeys ps). split.
      * apply mapM_Forall2, Forall_Forall2_diag, Forall_elem. intros p Hp. rewrite elem_of_dict_fromkeys in Hp.
        apply mapM_Forall2 in Hps. apply list_elem_of_lookup in Hp as [i Hi].
        destruct (Forall2_lookup_r _ _ _ _ _ Hps Hi) as (x & _ & Hx). by eapply safe_path_fix.
      * by rewrite dict_fromkeys_id by apply NoDup_dict_fromkeys.
Qed.

Lemma child_names_again field m denial parent names child :
  child_names field m denial parent (Some names) = Ok child →
  child_names field m denial parent (Some child) = Ok child.
Proof.
  unfold child_names. rewrite !bind_ok_iff. intros (vs & Hvs & H). rewrite guard_bind_ok in H.
  destruct H as [Hs [= <-]]. exists (dict_fromkeys vs). split.
  - apply mapM_Forall2, Forall_Forall2_diag, Forall_elem. intros p Hp. rewrite elem_of_dict_fromkeys in Hp.
    apply mapM_Forall2 in Hvs. apply list_elem_of_lookup in Hp as [i Hi].
    destruct (Forall2_lookup_r _ _ _ _ _ Hvs Hi) as (x & _ & Hx). by eapply compact_again.
  - cbv zeta. rewrite dict_fromkeys_id by apply NoDup_dict_fromkeys. by rewrite guard_bind_ok.
Qed.

(** Deriving a child once more from its own fields gives the same child. *)
Lemma derive_child_again `{Hashlib} p tid srcs tools ws net c :
  derive_child p tid (Some srcs) (Some tools) (Some ws) (Some net) = Ok c →
  derive_child p (ca_task_id c) (Some (ca_allowed_sources c)) (Some (ca_allowed_tools c))
    (Some (ca_write_scope c)) (Some (ca_network_scope c)) = Ok c.
Proof.
  unfold derive_child. intros Hd.
  apply bind_ok_iff in Hd as (tid' & Ht & Hd). apply bind_ok_iff in Hd as (srcs' & Hs & Hd).
  apply bind_ok_iff in Hd as (tools' & Hto & Hd). apply bind_ok_iff in Hd as (pw & Hpw & Hd).
  apply bind_ok_iff in Hd as (cw & Hcw & Hd). rewrite guard_bind_ok in Hd. destruct Hd as [Hsub Hd].
  apply bind_ok_iff in Hd as (net' & Hn & Hd). rewrite !guard_bind_ok in Hd. destruct Hd as (Hn1 & Hn2 & [= <-]).
  cbn [_build ca_task_id ca_allowed_sources ca_allowed_tools ca_write_scope ca_network_scope from_option id].
  rewrite (compact_again _ _ _ "child_task_id" _ Ht). cbn [mbind result_bind].
  rewrite (child_names_again _ _ _ _ _ _ Hs). cbn [mbind result_bind].
  rewrite (child_names_again _ _ _ _ _ _ Hto), Hpw. cbn [mbind result_bind].
  rewrite (normalize_scope_fix _ _ "child_write_scope" _ Hcw). cbn [mbind result_bind].
  rewrite Hsub. cbn [mbind result_bind raise_if]. rewrite (compact_again _ _ _ "child_network_scope" _ Hn).
  cbn [mbind result_bind]. rewrite Hn1, Hn2. done.
Qed.

(** What an attenuated authority allows, its parent allows. *)
Lemma authorize_mono `{Hashlib} c p cap kind ref eff d : attenuates c p →
  authorize c cap kind ref eff = Ok d → cd_allowed d = true →
  ∃ d', authorize p cap kind ref eff = Ok d' ∧ cd_allowed d' = true.
Proof.
  intros Hat Ha Hal. destruct (authorize_allowed _ _ _ _ _ _ Ha) as (cap' & kind' & ref' & eff' & H1 & H2 & H3 & H4 & H5).
  unfold authorize. rewrite H1, H2, H3, H4. cbn [mbind result_bind]. eexists. split; [done|].
  apply H5 in Hal. apply (granted_mono _ _ _ _ _ _ Hat), authorize_denial_exact in Hal. by rewrite Hal.
Qed.
