(* ===== verification/WorkflowDesign.v ===== *)
(** * Workflow design

    [workflow_design.py]: the validation of an untrusted workflow description, the
    topological order of its graph, its rendering as Mermaid text, and the
    parallel vocabulary of version 4.  A raw value ([Any]) is a JSON value. *)

From Stdlib Require Import Ascii.
From Stdlib Require String.
From S2P Require Import Prelude PyStr Json.

Local Open Scope Z_scope.

Definition WORKFLOW_SCHEMA_VERSION : string := "workspace-workflow-contract/v1".
Definition MAX_NODES : Z := 24.
Definition MAX_EDGES : Z := 64.
Definition NODE_KINDS : list string :=
  ["input"; "agent"; "decision"; "validation"; "approval"; "manual"; "output"].
Definition ACTIONS : list string :=
  ["input"; "research"; "presentation"; "daily_report"; "validate"; "human_approval";
   "manual_step"; "output"].
Definition RISK_LEVELS : list string := ["low"; "medium"; "high"; "critical"].
Definition DATA_CLASSES : list string := ["public"; "internal"; "confidential"; "restricted"].
Definition TRIGGERS : list string := ["manual"; "schedule"; "event"].

Record wf_node := {
  wn_id : string;
  wn_label : string;
  wn_kind : string;
  wn_action : string;
  wn_depends_on : list string;
  wn_condition : option string;
  wn_approval_required : bool
}.

Record wf_contract := {
  wc_title : string;
  wc_objective : string;
  wc_trigger : string;
  wc_risk_level : string;
  wc_data_class : string;
  wc_nodes : list wf_node;
  wc_outputs : list string;
  wc_warnings : list string
}.

#[export] Instance wf_node_eq_dec : EqDecision wf_node.
Proof. solve_decision. Defined.
#[export] Instance wf_contract_eq_dec : EqDecision wf_contract.
Proof. solve_decision. Defined.

Definition wf_fail {A} (msg : string) : result A := raise WorkflowDesignError msg.
Definition wf_fail_if (b : bool) (msg : string) : result unit := raise_if b WorkflowDesignError msg.

(** [^[a-z][a-z0-9_]{0,31}$] *)
Definition node_id_re (s : string) : bool :=
  match s with
  | EmptyString => false
  | String c t =>
      PyStr.is_lower c && (String.length t <=? 31)%nat
      && forall_char (λ d, PyStr.is_lower d || is_digit d || bool_decide (d = "_"%char)) t
  end.

Definition _text (value : json) (field : string) (limit : Z) (allow_empty : bool) : result string :=
  let text := squeeze (str_or_empty value) in
  wf_fail_if (is_empty text && negb allow_empty) (field +:+ " is required") ;;
  wf_fail_if (limit <? len text) (field +:+ " exceeds " +:+ str_of_Z limit +:+ " characters") ;;
  Ok text.

(** ** The graph *)

(** The children of every node, its number of unmet dependencies, the number of edges. *)
Record adjacency := {
  adj_children : gmap string (list string);
  adj_indegree : gmap string Z;
  adj_edges : Z
}.

Definition add_edge (ids : gset string) (node : wf_node) (a : adjacency) (parent : string)
    : result adjacency :=
  wf_fail_if (negb (bool_decide (parent ∈ ids)))
    ("node " +:+ wn_id node +:+ " depends on unknown node " +:+ parent) ;;
  wf_fail_if (bool_decide (parent = wn_id node))
    ("node " +:+ wn_id node +:+ " cannot depend on itself") ;;
  Ok {| adj_children := <[parent := default [] (adj_children a !! parent) ++ [wn_id node]]> (adj_children a);
        adj_indegree := <[wn_id node := default 0 (adj_indegree a !! wn_id node) + 1]> (adj_indegree a);
        adj_edges := adj_edges a + 1 |}.

Definition build_adjacency (nodes : list wf_node) : result adjacency :=
  let ids := list_to_set (map wn_id nodes) in
  foldM (λ a node, foldM (add_edge ids node) a (wn_depends_on node))
    {| adj_children := ∅; adj_indegree := gset_to_gmap 0 ids; adj_edges := 0 |} nodes.

Record kahn := {
  k_queue : list string;
  k_order : list string;
  k_level : gmap string Z;
  k_indegree : gmap string Z
}.

(** One child of [current]. *)
Definition visit_child (current : string) (s : kahn) (child : string) : kahn :=
  let level := <[child := Z.max (default 0 (k_level s !! child))
                                (default 0 (k_level s !! current) + 1)]> (k_level s) in
  let degree := default 0 (k_indegree s !! child) - 1 in
  {| k_queue := if degree =? 0 then k_queue s ++ [child] else k_queue s;
     k_order := k_order s;
     k_level := level;
     k_indegree := <[child := degree]> (k_indegree s) |}.

(** [while queue]: each round appends a new node to the order, so the number of
    nodes is enough fuel ([_graph_fuel]). *)
Fixpoint kahn_loop (fuel : nat) (children : gmap string (list string)) (s : kahn) : kahn :=
  match fuel, k_queue s with
  | O, _ | _, [] => s
  | S fuel, current :: queue =>
      let s := {| k_queue := queue; k_order := k_order s ++ [current]; k_level := k_level s;
                  k_indegree := k_indegree s |} in
      kahn_loop fuel children
        (fold_left (visit_child current) (sorted_str (default [] (children !! current))) s)
  end.

Definition kahn_start (a : adjacency) : kahn :=
  let roots := sorted_str (map fst (filter (λ p, p.2 = 0) (map_to_list (adj_indegree a)))) in
  {| k_queue := roots; k_order := []; k_level := gset_to_gmap 0 (list_to_set roots);
     k_indegree := adj_indegree a |}.

Definition _graph (nodes : list wf_node) : result (list string * gmap string Z) :=
  a ← build_adjacency nodes;
  wf_fail_if (MAX_EDGES <? adj_edges a) ("workflow exceeds " +:+ str_of_Z MAX_EDGES +:+ " edges") ;;
  let s := kahn_loop (length nodes) (adj_children a) (kahn_start a) in
  wf_fail_if (negb (bool_decide (length (k_order s) = length nodes))) "workflow graph contains a cycle" ;;
  Ok (k_order s, k_level s).

(** ** Validation *)

Definition vocabulary_word (v : json) : string := lower (strip (str_or_empty v)).

(** [depends]: first occurrences, each a node identifier. *)
Fixpoint node_depends (acc : list string) (raw : list json) : result (list string) :=
  match raw with
  | [] => Ok acc
  | raw_parent :: raw =>
      let parent := vocabulary_word raw_parent in
      wf_fail_if (negb (node_id_re parent)) ("invalid dependency id: " +:+ parent) ;;
      node_depends (if mem_str parent acc then acc else acc ++ [parent]) raw
  end.

Definition validate_node (seen : list string) (index : Z) (item : json) : result wf_node :=
  match item with
  | JObj item =>
      let node_id := vocabulary_word (get item "id") in
      wf_fail_if (negb (node_id_re node_id))
        ("invalid node id: " +:+ (if is_empty node_id then "<empty>" else node_id)) ;;
      wf_fail_if (mem_str node_id seen) ("duplicate node id: " +:+ node_id) ;;
      let kind := vocabulary_word (get item "kind") in
      let action := vocabulary_word (get item "action") in
      wf_fail_if (negb (mem_str kind NODE_KINDS)) ("unsupported node kind: " +:+ kind) ;;
      wf_fail_if (negb (mem_str action ACTIONS)) ("unsupported workflow action: " +:+ action) ;;
      depends ← match get_or item "depends_on" (JList []) with
                | JList raw_depends =>
                    wf_fail_if (MAX_NODES <? Z.of_nat (length raw_depends))
                      ("invalid dependencies for node " +:+ node_id) ;;
                    node_depends [] raw_depends
                | _ => wf_fail ("invalid dependencies for node " +:+ node_id)
                end;
      condition ← match get_or item "condition" (JStr "") with
                  | JNull => Ok ""
                  | JStr s => _text (JStr s) (node_id +:+ ".condition") 240 true
                  | _ => wf_fail (node_id +:+ ".condition must be a string or null")
                  end;
      approval ← match get_or item "approval_required" (JBool false) with
                 | JBool b => Ok b
                 | _ => wf_fail (node_id +:+ ".approval_required must be a boolean")
                 end;
      label ← _text (get item "label") (node_id +:+ ".label") 120 false;
      Ok {| wn_id := node_id; wn_label := label; wn_kind := kind; wn_action := action;
            wn_depends_on := depends;
            wn_condition := if is_empty condition then None else Some condition;
            wn_approval_required := approval |}
  | _ => wf_fail ("node " +:+ str_of_Z index +:+ " must be an object")
  end.

Fixpoint validate_nodes (index : Z) (nodes : list wf_node) (raw : list json) : result (list wf_node) :=
  match raw with
  | [] => Ok nodes
  | item :: raw =>
      node ← validate_node (map wn_id nodes) index item;
      validate_nodes (index + 1) (nodes ++ [node]) raw
  end.

(** The warnings the validator adds. *)
Definition automatic_warnings (trigger risk : string) (nodes : list wf_node) : list string :=
  (if existsb (λ n, bool_decide (wn_kind n = "output")) nodes then []
   else ["No explicit output node was supplied."])
  ++ (if bool_decide (trigger = "manual") then []
      else ["Trigger is represented for design only; V1 does not authorize scheduling or event execution."])
  ++ (if existsb (λ n, bool_decide (wn_action n = "manual_step")) nodes
      then ["Manual steps are visualized but cannot be converted into executable authority."] else [])
  ++ (if mem_str risk ["high"; "critical"]
         && negb (existsb (λ n, bool_decide (wn_kind n = "approval") || wn_approval_required n) nodes)
      then ["High-risk workflow has no approval checkpoint; review before any future execution."] else []).

(** A list of at most twelve elements. *)
Definition bounded_list (v : json) (msg : string) : result (list json) :=
  match v with
  | JList l => wf_fail_if (12 <? Z.of_nat (length l)) msg ;; Ok l
  | _ => wf_fail msg
  end.

Definition validate_contract (raw : json) : result wf_contract :=
  match raw with
  | JObj raw =>
      let trigger := vocabulary_word (get raw "trigger") in
      let risk := vocabulary_word (get raw "risk_level") in
      let data_class := vocabulary_word (get raw "data_class") in
      wf_fail_if (negb (mem_str trigger TRIGGERS)) "unsupported trigger" ;;
      wf_fail_if (negb (mem_str risk RISK_LEVELS)) "unsupported risk_level" ;;
      wf_fail_if (negb (mem_str data_class DATA_CLASSES)) "unsupported data_class" ;;
      let count_msg := "workflow must contain between 2 and " +:+ str_of_Z MAX_NODES +:+ " nodes" in
      raw_nodes ← match get raw "nodes" with
                  | JList l =>
                      let n := Z.of_nat (length l) in
                      wf_fail_if (negb ((2 <=? n) && (n <=? MAX_NODES))) count_msg ;; Ok l
                  | _ => wf_fail count_msg
                  end;
      nodes ← validate_nodes 0 [] raw_nodes;
      _graph nodes ;;
      raw_outputs ← bounded_list (get_or raw "outputs" (JList [])) "outputs must be a bounded list";
      raw_warnings ← bounded_list (get_or raw "warnings" (JList [])) "warnings must be a bounded list";
      warnings ← mapM (λ v, _text v "warning" 240 false) raw_warnings;
      title ← _text (get raw "title") "title" 120 false;
      objective ← _text (get raw "objective") "objective" 800 false;
      outputs ← mapM (λ v, _text v "output" 160 false) raw_outputs;
      Ok {| wc_title := title; wc_objective := objective; wc_trigger := trigger;
            wc_risk_level := risk; wc_data_class := data_class; wc_nodes := nodes;
            wc_outputs := outputs;
            wc_warnings := dict_fromkeys (warnings ++ automatic_warnings trigger risk nodes) |}
  | _ => wf_fail "workflow contract must be an object"
  end.

(** ** Contracts as JSON *)

Definition node_json (n : wf_node) : json := JObj [
  ("id", JStr (wn_id n));
  ("label", JStr (wn_label n));
  ("kind", JStr (wn_kind n));
  ("action", JStr (wn_action n));
  ("depends_on", JList (map JStr (wn_depends_on n)));
  ("condition", match wn_condition n with Some c => JStr c | None => JNull end);
  ("approval_required", JBool (wn_approval_required n))].

Definition contract_json (c : wf_contract) : json := JObj [
  ("title", JStr (wc_title c));
  ("objective", JStr (wc_objective c));
  ("trigger", JStr (wc_trigger c));
  ("risk_level", JStr (wc_risk_level c));
  ("data_class", JStr (wc_data_class c));
  ("nodes", JList (map node_json (wc_nodes c)));
  ("outputs", JList (map JStr (wc_outputs c)));
  ("warnings", JList (map JStr (wc_warnings c)))].

(** ** Mermaid text *)

(** [str.maketrans] of the delimiters. *)
Definition mermaid_char (c : ascii) : ascii :=
  if bool_decide (c = backslash) then "/"
  else if bool_decide (c = dquote) then squote
  else match c with
  | "[" => "(" | "]" => ")" | "{" => "(" | "}" => ")" | "|" => "/" | "<" => "(" | ">" => ")"
  | ";" => "," | _ => c
  end%char.

Definition _mermaid_label (value : string) : string :=
  map_char mermaid_char (take_str 120 (join " " (split_ws value))).

Definition quoted (label : string) : string := String dquote (label +:+ String dquote "").

Definition mermaid_node (parallel : bool) (n : wf_node) : string :=
  let label := quoted (_mermaid_label (wn_label n)) in
  "  " +:+ wn_id n +:+
  (if bool_decide (wn_kind n = "decision") then "{" +:+ label +:+ "}"
   else if bool_decide (wn_kind n = "approval") then "{{" +:+ label +:+ "}}"
   else if parallel && bool_decide (wn_kind n = "parallel") then "[[" +:+ label +:+ "]]"
   else if mem_str (wn_kind n) ["input"; "output"] then "([" +:+ label +:+ "])"
   else "[" +:+ label +:+ "]").

Definition mermaid_edges (n : wf_node) : list string :=
  map (λ parent,
    let condition := _mermaid_label (default "" (wn_condition n)) in
    if is_empty condition then "  " +:+ parent +:+ " --> " +:+ wn_id n
    else "  " +:+ parent +:+ " -->|" +:+ quoted condition +:+ "| " +:+ wn_id n) (wn_depends_on n).

Definition mermaid_text (parallel : bool) (c : wf_contract) : string :=
  join (String newline "")
    (("flowchart TD" :: map (mermaid_node parallel) (wc_nodes c))
     ++ concat (map mermaid_edges (wc_nodes c))).

Definition render_mermaid (contract : json) : result string :=
  c ← validate_contract contract; Ok (mermaid_text false c).

(** ** The parallel vocabulary *)

Definition parallel_actions : list string := ["parallel_fork"; "parallel_join"].

(** One node of the surrogate, and its kind and action when it is a parallel node. *)
Definition surrogate_node (index : Z) (node : json)
    : result (json * option (string * (string * string))) :=
  match node with
  | JObj d =>
      let node_id := vocabulary_word (get d "id") in
      let kind := vocabulary_word (get d "kind") in
      let action := vocabulary_word (get d "action") in
      if bool_decide (kind = "parallel") || mem_str action parallel_actions then
        wf_fail_if (negb (bool_decide (kind = "parallel")) || negb (mem_str action parallel_actions))
          "parallel nodes must use kind=parallel with action=parallel_fork or parallel_join" ;;
        wf_fail_if (truthy (get_or d "approval_required" (JBool false)))
          "parallel control nodes cannot require approval" ;;
        Ok (JObj (dict_set "action" (JStr "validate") (dict_set "kind" (JStr "validation") d)),
            Some (node_id, (kind, action)))
      else Ok (node, None)
  | _ => wf_fail ("node " +:+ str_of_Z index +:+ " must be an object")
  end.

Fixpoint surrogate_nodes (index : Z) (pairs : gmap string (string * string)) (nodes : list json)
    : result (list json * gmap string (string * string)) :=
  match nodes with
  | [] => Ok ([], pairs)
  | node :: nodes =>
      '(node, orig) ← surrogate_node index node;
      let pairs := match orig with Some (k, v) => <[k := v]> pairs | None => pairs end in
      '(nodes, pairs) ← surrogate_nodes (index + 1) pairs nodes;
      Ok (node :: nodes, pairs)
  end.

Definition restore_node (pairs : gmap string (string * string)) (n : wf_node) : wf_node :=
  match pairs !! wn_id n with
  | Some (kind, action) =>
      {| wn_id := wn_id n; wn_label := wn_label n; wn_kind := kind; wn_action := action;
         wn_depends_on := wn_depends_on n; wn_condition := wn_condition n;
         wn_approval_required := wn_approval_required n |}
  | None => n
  end.

Definition validate_contract_v4 (raw : json) : result wf_contract :=
  match raw with
  | JObj d =>
      match get d "nodes" with
      | JList raw_nodes =>
          '(nodes, pairs) ← surrogate_nodes 0 ∅ raw_nodes;
          c ← validate_contract (JObj (dict_set "nodes" (JList nodes) d));
          Ok {| wc_title := wc_title c; wc_objective := wc_objective c; wc_trigger := wc_trigger c;
                wc_risk_level := wc_risk_level c; wc_data_class := wc_data_class c;
                wc_nodes := map (restore_node pairs) (wc_nodes c);
                wc_outputs := wc_outputs c; wc_warnings := wc_warnings c |}
      | _ => wf_fail "workflow nodes must be a list"
      end
  | _ => wf_fail "workflow contract must be an object"
  end.

Definition render_mermaid_v4 (contract : json) : result string :=
  c ← validate_contract_v4 contract; Ok (mermaid_text true c).
