(* ===== verification/WorkflowGraph.v ===== *)
(** * The topological order of a workflow

    [_graph] of [workflow_design.py] is Kahn's algorithm.  The invariant of its loop
    gives its specification: it returns an order exactly when the graph is acyclic,
    and the order is topological with the level of a node one more than the highest
    level of its parents. *)

From S2P Require Import Prelude PyStr Json WorkflowDesign.

Local Open Scope Z_scope.

(** ** Counting *)

Definition count (x : string) (l : list string) : nat := length (filter (λ y, y = x) l).

Lemma count_cons x y l : count x (y :: l) = ((if decide (y = x) then 1 else 0) + count x l)%nat.
Proof. unfold count. rewrite filter_cons. by case_decide. Qed.

Lemma count_perm x l l' : l ≡ₚ l' → count x l = count x l'.
Proof. intros H. unfold count. by rewrite H. Qed.

Lemma count_app x l l' : count x (l ++ l') = (count x l + count x l')%nat.
Proof. unfold count. by rewrite filter_app, length_app. Qed.

Lemma count_zero x l : count x l = 0%nat ↔ x ∉ l.
Proof.
  unfold count. induction l as [|y l IH]; [by split; [set_solver|]|].
  rewrite filter_cons. case_decide; subst; simpl; [split; [done|set_solver]|]. rewrite IH. set_solver.
Qed.

(** Edges (child, parent), in the order the code adds them. *)
Notation edge := (string * string)%type.
Definition edges_of (nodes : list wf_node) : list edge :=
  concat (map (λ n, map (pair (wn_id n)) (wn_depends_on n)) nodes).

(** Number of edges of [v] from a parent outside [o]. *)
Definition unmet (E : list edge) (o : list string) (v : string) : nat :=
  length (filter (λ e, e.1 = v ∧ e.2 ∉ o) E).

(** Number of edges from [p] to [v]. *)
Definition multiplicity (E : list edge) (v p : string) : nat :=
  length (filter (λ e, e = (v, p)) E).

Lemma unmet_snoc E o cur v : cur ∉ o →
  unmet E o v = (unmet E (o ++ [cur]) v + multiplicity E v cur)%nat.
Proof.
  intros Hc. unfold unmet, multiplicity. induction E as [|[c p] E IH]; [done|].
  rewrite !filter_cons. cbn [fst snd].
  repeat case_decide; cbn [length]; rewrite ?IH; try lia; exfalso;
    rewrite ?not_elem_of_app, ?list_elem_of_singleton in *; naive_solver.
Qed.

Lemma unmet_zero E o v : unmet E o v = 0%nat ↔ ∀ p, (v, p) ∈ E → p ∈ o.
Proof.
  unfold unmet. split.
  - intros H p Hp. destruct (decide (p ∈ o)); [done|]. apply length_zero_iff_nil in H.
    assert ((v, p) ∈ filter (λ e, e.1 = v ∧ e.2 ∉ o) E) as Hin by (by apply list_elem_of_filter).
    rewrite H in Hin. by apply not_elem_of_nil in Hin.
  - intros H. apply length_zero_iff_nil. destruct (filter _ E) as [|[c p] l] eqn:El; [done|].
    assert ((c, p) ∈ (c, p) :: l) as Hin by left. rewrite <- El, list_elem_of_filter in Hin.
    cbn in Hin. destruct Hin as [[-> Hn] Hin]. by apply H in Hin.
Qed.

Lemma multiplicity_pos E v p : (v, p) ∈ E → (0 < multiplicity E v p)%nat.
Proof.
  intros H. unfold multiplicity. destruct (filter _ E) as [|x l] eqn:El; [|simpl; lia].
  assert ((v, p) ∈ filter (λ e, e = (v, p)) E) as Hin by (by apply list_elem_of_filter).
  rewrite El in Hin. by apply not_elem_of_nil in Hin.
Qed.

(** ** The adjacency *)

Definition add_edge_pure (a : adjacency) (e : edge) : adjacency :=
  {| adj_children := <[e.2 := default [] (adj_children a !! e.2) ++ [e.1]]> (adj_children a);
     adj_indegree := <[e.1 := default 0 (adj_indegree a !! e.1) + 1]> (adj_indegree a);
     adj_edges := adj_edges a + 1 |}.

Definition edge_ok (ids : gset string) (e : edge) : Prop := e.2 ∈ ids ∧ e.2 ≠ e.1.

Lemma add_edge_ok ids node a p a' :
  add_edge ids node a p = Ok a' ↔ edge_ok ids (wn_id node, p) ∧ a' = add_edge_pure a (wn_id node, p).
Proof.
  unfold add_edge, wf_fail_if, edge_ok. rewrite !guard_bind_ok, negb_false_iff, bool_decide_eq_true,
    bool_decide_eq_false. cbn [fst snd]. split; [by intros (? & ? & [= <-])|by intros [[??] ->]].
Qed.

Lemma add_edges_ok ids node a parents a' :
  foldM (add_edge ids node) a parents = Ok a' ↔
  Forall (λ p, edge_ok ids (wn_id node, p)) parents
  ∧ a' = fold_left add_edge_pure (map (pair (wn_id node)) parents) a.
Proof.
  revert a. induction parents as [|p parents IH]; intros a; cbn [foldM map fold_left].
  - split; [by intros [= ->]|by intros [_ ->]].
  - rewrite bind_ok_iff. setoid_rewrite add_edge_ok. setoid_rewrite IH. rewrite Forall_cons.
    split; [by intros (? & [? ->] & ? & ->)|]. intros [[? ?] ->]. by eexists.
Qed.

Lemma build_adjacency_ok nodes a :
  build_adjacency nodes = Ok a ↔
  let ids := list_to_set (map wn_id nodes) in
  Forall (edge_ok ids) (edges_of nodes)
  ∧ a = fold_left add_edge_pure (edges_of nodes)
          {| adj_children := ∅; adj_indegree := gset_to_gmap 0 ids; adj_edges := 0 |}.
Proof.
  unfold build_adjacency, edges_of. cbv zeta.
  generalize (list_to_set (map wn_id nodes) : gset string). intros ids.
  generalize {| adj_children := ∅; adj_indegree := gset_to_gmap 0 ids; adj_edges := 0 |}.
  induction nodes as [|n nodes IH]; intros b; cbn [foldM map concat].
  - cbn. split; [by intros [= ->]|by intros [_ ->]].
  - rewrite bind_ok_iff. setoid_rewrite add_edges_ok. setoid_rewrite IH.
    rewrite fold_left_app, Forall_app, Forall_fmap. naive_solver.
Qed.

Lemma adjacency_children E a p c :
  count c (default [] (adj_children (fold_left add_edge_pure E a) !! p))
  = (count c (default [] (adj_children a !! p)) + multiplicity E c p)%nat.
Proof.
  revert a. induction E as [|[c' p'] E IH]; intros a; cbn [fold_left]; [unfold multiplicity; simpl; lia|].
  rewrite IH. cbn [add_edge_pure adj_children fst snd].
  assert (multiplicity ((c', p') :: E) c p
    = ((if decide ((c', p') = (c, p)) then 1 else 0) + multiplicity E c p)%nat) as ->.
  { unfold multiplicity. rewrite filter_cons. by case_decide. }
  destruct (decide (p' = p)) as [->|Hp].
  - rewrite lookup_insert_eq. cbn [from_option id]. rewrite count_app, count_cons.
    unfold count at 2. repeat case_decide; simpl; try lia; congruence.
  - rewrite lookup_insert_ne by done. rewrite decide_False by congruence. lia.
Qed.

Lemma adjacency_indegree E a v :
  (∀ e, e ∈ E → is_Some (adj_indegree a !! e.1)) →
  adj_indegree (fold_left add_edge_pure E a) !! v
  = (λ d, d + Z.of_nat (length (filter (λ e, e.1 = v) E))) <$> adj_indegree a !! v.
Proof.
  revert a. induction E as [|[c p] E IH]; intros a Ha; cbn [fold_left].
  - simpl. destruct (_ !! v); simpl; f_equal; lia.
  - rewrite IH; cycle 1.
    { intros e He. cbn [add_edge_pure adj_indegree fst]. apply lookup_insert_is_Some.
      destruct (decide (c = e.1)); [by left|right]. split; [done|]. apply Ha. by right. }
    cbn [add_edge_pure adj_indegree fst]. rewrite filter_cons. cbn [fst].
    destruct (decide (c = v)) as [->|Hc].
    + rewrite lookup_insert_eq by done.
      destruct (Ha (v, p)) as [d Hd]; [by left|]. cbn [fst] in Hd. rewrite Hd. cbn. f_equal. lia.
    + by rewrite lookup_insert_ne by done.
Qed.

Lemma adjacency_edges E a : adj_edges (fold_left add_edge_pure E a) = adj_edges a + Z.of_nat (length E).
Proof.
  revert a. induction E as [|e E IH]; intros a; cbn [fold_left length]; [lia|]. rewrite IH. cbn. lia.
Qed.

(** ** The loop *)

Section Loop.
Variables (E : list edge) (ids : list string) (children : gmap string (list string)).
Hypothesis Hids : NoDup ids.
Hypothesis Hchildren : ∀ p c, count c (default [] (children !! p)) = multiplicity E c p.
Hypothesis Hedges : ∀ c p, (c, p) ∈ E → c ∈ ids ∧ p ∈ ids ∧ p ≠ c.

Definition level_of (L : gmap string Z) (v : string) : Z := default 0 (L !! v).

(** The level of [v] over its parents in [o]. *)
Definition level_spec (L : gmap string Z) (o : list string) (v : string) : Prop :=
  0 ≤ level_of L v
  ∧ (∀ p, (v, p) ∈ E → p ∈ o → level_of L p + 1 ≤ level_of L v)
  ∧ (level_of L v = 0 ∨ ∃ p, (v, p) ∈ E ∧ p ∈ o ∧ level_of L v = level_of L p + 1).

(** Between two rounds; [rem] are the children of the last node still to visit. *)
Record kinv (rem : list string) (s : kahn) : Prop := {
  ki_nodup : NoDup (k_order s ++ k_queue s);
  ki_ids : k_order s ++ k_queue s ⊆ ids;
  ki_degree v : v ∈ ids →
    k_indegree s !! v = Some (Z.of_nat (unmet E (k_order s) v + count v rem));
  ki_ready v : v ∈ ids →
    (v ∈ k_order s ++ k_queue s ↔ (unmet E (k_order s) v + count v rem)%nat = 0%nat);
  ki_level_dom v : v ∈ k_order s ++ k_queue s → is_Some (k_level s !! v);
  ki_topo o1 v o2 : k_order s = o1 ++ v :: o2 → ∀ p, (v, p) ∈ E → p ∈ o1
}.

Lemma visit_child_inv cur c rem s :
  c ∈ ids → kinv (c :: rem) s → kinv rem (visit_child cur s c).
Proof.
  intros Hc [H1 H2 H3 H4 H5 H6]. unfold visit_child.
  assert (default 0 (k_indegree s !! c) - 1 = Z.of_nat (unmet E (k_order s) c + count c rem)) as Hd.
  { rewrite (H3 c Hc). cbn [from_option id]. rewrite count_cons, decide_True by done. lia. }
  assert (c ∉ k_order s ++ k_queue s) as Hnew.
  { rewrite (H4 c Hc), count_cons, decide_True by done. lia. }
  rewrite Hd. set (n := (unmet E (k_order s) c + count c rem)%nat).
  set (q := if Z.of_nat n =? 0 then k_queue s ++ [c] else k_queue s).
  assert (∀ v, v ∈ k_order s ++ q ↔ v ∈ k_order s ++ k_queue s ∨ (v = c ∧ n = 0%nat)) as Hq.
  { intros v. unfold q. destruct (Z.of_nat n =? 0) eqn:En; py_prop; rewrite !elem_of_app;
      rewrite ?list_elem_of_singleton; intuition lia. }
  constructor; cbn [k_order k_queue k_indegree k_level].
  - unfold q. destruct (Z.of_nat n =? 0); [|done].
    rewrite app_assoc. apply NoDup_app. split_and!; [done| |by apply NoDup_singleton].
    intros v Hv ->%list_elem_of_singleton. done.
  - intros v [Hv|[-> _]]%Hq; auto.
  - intros v Hv. destruct (decide (c = v)) as [<-|Hne].
    + rewrite lookup_insert_eq. done.
    + rewrite lookup_insert_ne, (H3 v Hv), count_cons, decide_False by done. done.
  - intros v Hv. rewrite Hq, (H4 v Hv), count_cons. destruct (decide (c = v)) as [<-|Hne].
    + fold n. split; [intros [H|[_ H]]; lia|]. intros. by right.
    + simpl. split; [by intros [H|[-> _]]|]. intros. by left.
  - intros v Hv. apply lookup_insert_is_Some. destruct (decide (c = v)); [by left|right].
    split; [done|]. apply Hq in Hv as [Hv|[-> _]]; [by apply H5|done].
  - exact H6.
Qed.

Lemma visit_children_inv cur cs s :
  (∀ c, c ∈ cs → c ∈ ids) → kinv cs s → kinv [] (fold_left (visit_child cur) cs s).
Proof.
  revert s. induction cs as [|c cs IH]; intros s Hcs H; cbn [fold_left]; [done|].
  apply IH; [set_solver|]. apply visit_child_inv; [set_solver|done].
Qed.

Lemma visit_children_order cur cs s :
  k_order (fold_left (visit_child cur) cs s) = k_order s.
Proof. revert s. induction cs as [|c cs IH]; intros s; cbn [fold_left]; [done|]. by rewrite IH. Qed.

Lemma visit_children_level cur cs s v : cur ∉ cs → 0 ≤ level_of (k_level s) cur →
  level_of (k_level (fold_left (visit_child cur) cs s)) v
  = if decide (v ∈ cs) then Z.max (level_of (k_level s) v) (level_of (k_level s) cur + 1)
    else level_of (k_level s) v.
Proof.
  revert s. induction cs as [|c cs IH]; intros s Hcur Hl; cbn [fold_left].
  { by rewrite decide_False by apply not_elem_of_nil. }
  apply not_elem_of_cons in Hcur as [Hne Hcur].
  assert (∀ u, level_of (k_level (visit_child cur s c)) u
    = if decide (u = c) then Z.max (level_of (k_level s) c) (level_of (k_level s) cur + 1)
      else level_of (k_level s) u) as Hstep.
  { intros u. unfold level_of, visit_child. cbn [k_level]. destruct (decide (u = c)) as [->|].
    - by rewrite lookup_insert_eq.
    - by rewrite lookup_insert_ne. }
  rewrite IH; [|done|by rewrite Hstep, decide_False]. rewrite !Hstep.
  rewrite (decide_False (P := cur = c)) by done.
  destruct (decide (v = c)), (decide (v ∈ cs)), (decide (v ∈ c :: cs));
    rewrite ?elem_of_cons in *; subst; try lia; naive_solver.
Qed.

(** Visiting the children of [cur] settles the levels over [o ++ [cur]]. *)
Lemma round_levels s cur q v cs : kinv [] s → k_queue s = cur :: q →
  (∀ c, c ∈ cs ↔ (c, cur) ∈ E) →
  (∀ v, level_spec (k_level s) (k_order s) v) →
  level_spec
    (k_level (fold_left (visit_child cur) cs
       {| k_queue := q; k_order := k_order s ++ [cur]; k_level := k_level s; k_indegree := k_indegree s |}))
    (k_order s ++ [cur]) v.
Proof.
  intros Hinv Hq Hcs Hlev.
  assert (cur ∉ cs) as Hcur.
  { rewrite Hcs. intros H. by destruct (Hedges _ _ H) as (_ & _ & ?). }
  assert (0 ≤ level_of (k_level s) cur) as Hl by apply Hlev.
  pose proof (visit_children_level cur cs
    {| k_queue := q; k_order := k_order s ++ [cur]; k_level := k_level s; k_indegree := k_indegree s |})
    as HL.
  assert (∀ p, p ∈ k_order s ++ [cur] → p ∉ cs) as Hold.
  { intros p Hp. rewrite Hcs. intros Hpc. destruct (Hedges _ _ Hpc) as (Hid & _).
    assert (p ∈ k_order s ++ k_queue s) as Hin by (rewrite Hq; set_solver).
    apply (ki_ready _ _ Hinv p Hid) in Hin. cbn [count] in Hin.
    assert (unmet E (k_order s) p = 0%nat) as Hu by lia.
    rewrite unmet_zero in Hu. apply Hu in Hpc.
    pose proof (ki_nodup _ _ Hinv) as Hnd. rewrite Hq in Hnd.
    apply NoDup_app in Hnd as (_ & Hd & _). apply (Hd cur Hpc). by left. }
  destruct (Hlev v) as (Hv0 & Hv1 & Hv2). split_and!.
  - rewrite HL by done. cbn [k_level]. case_decide; lia.
  - intros p Hp Hpo. rewrite !HL, (decide_False (P := p ∈ cs)) by auto. cbn [k_level].
    apply elem_of_app in Hpo as [Hpo| ->%list_elem_of_singleton].
    + specialize (Hv1 p Hp Hpo). case_decide; lia.
    + rewrite decide_True by by apply Hcs. lia.
  - rewrite !HL by done. cbn [k_level]. case_decide as Hvc.
    + destruct (Z.max_spec (level_of (k_level s) v) (level_of (k_level s) cur + 1)) as [[Hm ->]|[Hm ->]].
      * right. exists cur. rewrite HL, decide_False by done. cbn [k_level].
        split_and!; [by apply Hcs|set_solver|done].
      * right. destruct Hv2 as [Hv2|(p & Hp & Hpo & Hv2)]; [lia|].
        exists p. rewrite HL, decide_False by (done || set_solver). set_solver.
    + destruct Hv2 as [Hv2|(p & Hp & Hpo & Hv2)]; [by left|right].
      exists p. rewrite HL, decide_False by (done || set_solver). set_solver.
Qed.

Lemma pop_inv s cur q : kinv [] s → k_queue s = cur :: q →
  kinv (sorted_str (default [] (children !! cur)))
    {| k_queue := q; k_order := k_order s ++ [cur]; k_level := k_level s; k_indegree := k_indegree s |}.
Proof.
  intros [H1 H2 H3 H4 H5 H6] Hq. rewrite Hq in *.
  assert (cur ∉ k_order s) as Hcur.
  { apply NoDup_app in H1 as (_ & Hd & _). intros Hin. apply (Hd cur Hin). by left. }
  assert (∀ v, (unmet E (k_order s ++ [cur]) v + count v (sorted_str (default [] (children !! cur))))%nat
    = unmet E (k_order s) v) as Hun.
  { intros v. rewrite (unmet_snoc E (k_order s) cur v Hcur), (count_perm _ _ _ (sorted_str_perm _)).
    by rewrite Hchildren. }
  constructor; cbn [k_order k_queue k_level k_indegree]; rewrite <- ?app_assoc; cbn [app]; try done.
  - intros v Hv. rewrite Hun, (H3 v Hv). do 2 f_equal. cbn. lia.
  - intros v Hv. rewrite Hun, (H4 v Hv). cbn. by rewrite Nat.add_0_r.
  - intros o1 v o2 Ho p Hp. destruct o2 as [|w o2 _] using rev_ind.
    + apply app_inj_tail in Ho as [<- <-]. destruct (Hedges _ _ Hp) as (Hv & _).
      assert (unmet E (k_order s) cur = 0%nat) as Hu.
      { assert (cur ∈ k_order s ++ cur :: q) as Hin by set_solver. apply H4 in Hin; [|done].
        cbn in Hin. lia. }
      rewrite unmet_zero in Hu. auto.
    + rewrite app_comm_cons, app_assoc in Ho. apply app_inj_tail in Ho as [Ho _].
      by eapply H6.
Qed.

Lemma children_edges cur c : c ∈ sorted_str (default [] (children !! cur)) ↔ (c, cur) ∈ E.
Proof.
  rewrite elem_of_sorted_str. split.
  - intros Hc. destruct (decide ((c, cur) ∈ E)) as [|Hn]; [done|]. exfalso.
    assert (multiplicity E c cur = 0%nat) as Hm.
    { unfold multiplicity. apply length_zero_iff_nil. destruct (filter _ E) as [|e l] eqn:El; [done|].
      assert (e ∈ e :: l) as Hin by left. rewrite <- El, list_elem_of_filter in Hin. naive_solver. }
    rewrite <- Hchildren, count_zero in Hm. done.
  - intros He. apply multiplicity_pos in He. rewrite <- Hchildren in He.
    destruct (decide (c ∈ default [] (children !! cur))) as [|Hn]; [done|].
    apply count_zero in Hn. lia.
Qed.

(** Enough fuel empties the queue; the invariant holds at the end. *)
Lemma kahn_loop_inv fuel s : kinv [] s → (∀ v, level_spec (k_level s) (k_order s) v) →
  (length ids ≤ length (k_order s) + fuel)%nat →
  let s' := kahn_loop fuel children s in
  kinv [] s' ∧ (∀ v, level_spec (k_level s') (k_order s') v) ∧ k_queue s' = [].
Proof.
  revert s. induction fuel as [|fuel IH]; intros s Hinv Hlev Hf; cbn [kahn_loop].
  - split_and!; [done..|]. destruct (k_queue s) as [|c q] eqn:Eq; [done|].
    pose proof (ki_nodup _ _ Hinv) as Hnd. pose proof (ki_ids _ _ Hinv) as Hsub.
    assert (length (k_order s ++ k_queue s) ≤ length ids)%nat as Hlen.
    { apply submseteq_length, NoDup_submseteq; done. }
    rewrite length_app, Eq in Hlen. simpl in Hlen. lia.
  - destruct (k_queue s) as [|cur q] eqn:Eq; [by split_and!|].
    apply IH.
    + apply visit_children_inv; [|by apply pop_inv].
      intros c Hc%children_edges. by destruct (Hedges _ _ Hc).
    + intros v. rewrite visit_children_order. cbn [k_order].
      eapply round_levels; try done. apply children_edges.
    + rewrite visit_children_order. cbn [k_order]. rewrite length_app. simpl. lia.
Qed.

(** With an empty queue a node is ordered unless it waits for one that is not. *)
Lemma kahn_done s v : kinv [] s → k_queue s = [] → v ∈ ids →
  v ∈ k_order s ∨ ∃ p, (v, p) ∈ E ∧ p ∉ k_order s.
Proof.
  intros Hinv Hq Hv. pose proof (ki_ready _ _ Hinv v Hv) as Hr. rewrite Hq, app_nil_r in Hr.
  destruct (decide (v ∈ k_order s)) as [|Hn]; [by left|right].
  destruct (unmet E (k_order s) v) eqn:Eu; [exfalso; apply Hn, Hr; done|].
  unfold unmet in Eu. destruct (filter _ E) as [|[c p] l] eqn:El; [done|].
  assert ((c, p) ∈ (c, p) :: l) as Hin by left. rewrite <- El, list_elem_of_filter in Hin.
  cbn in Hin. destruct Hin as [[-> Hp] Hin]. by exists p.
Qed.

(** [v] depends on [p]. *)
Definition depends (c p : string) : Prop := (c, p) ∈ E.

Lemma tc_depends_ids c p : tc depends c p → c ∈ ids ∧ p ∈ ids.
Proof. induction 1 as [c p H|c x p H _ IH]; destruct (Hedges _ _ H) as (? & ? & _); naive_solver. Qed.

(** On an acyclic graph every node is ordered. *)
Lemma kahn_complete s : kinv [] s → k_queue s = [] → (∀ v, ¬ tc depends v v) → ids ⊆ k_order s.
Proof.
  intros Hinv Hq Hac v.
  assert (sn depends v) as Hsn.
  { apply tc_finite_sn; [intros x Hx; by apply (Hac x)|].
    exists ids. by intros y [_ Hy]%tc_depends_ids. }
  induction Hsn as [v _ IH]. intros Hv.
  destruct (kahn_done s v Hinv Hq Hv) as [|(p & Hp & Hn)]; [done|].
  destruct Hn. apply IH; [done|]. by destruct (Hedges _ _ Hp) as (_ & ? & _).
Qed.

(** A topological order of all the nodes excludes cycles. *)
Lemma topo_acyclic s : kinv [] s → ids ⊆ k_order s → ∀ v, ¬ tc depends v v.
Proof using Hedges.
  intros Hinv Hall.
  assert (∀ c p, tc depends c p → ∀ o1 o2, k_order s = o1 ++ c :: o2 → p ∈ o1) as Htc.
  { induction 1 as [c p Hcp|c x p Hcx _ IH]; intros o1 o2 Ho; [by eapply (ki_topo _ _ Hinv)|].
    pose proof (ki_topo _ _ Hinv _ _ _ Ho _ Hcx) as Hx.
    apply list_elem_of_split in Hx as (a & b & ->).
    rewrite <- app_assoc in Ho. cbn in Ho. apply elem_of_app. left. exact (IH _ _ Ho). }
  intros v Hv. assert (v ∈ ids) as Hid.
  { by apply tc_depends_ids in Hv as [_ ?]. }
  apply Hall in Hid. apply list_elem_of_split in Hid as (o1 & o2 & Ho).
  pose proof (Htc _ _ Hv _ _ Ho) as Hin.
  pose proof (ki_nodup _ _ Hinv) as Hnd. rewrite Ho, <- app_assoc in Hnd.
  apply NoDup_app in Hnd as (_ & Hd & _). apply (Hd v Hin). by left.
Qed.

End Loop.

(** ** The whole function *)

Lemma in_edges_of nodes c p : (c, p) ∈ edges_of nodes ↔
  ∃ n, n ∈ nodes ∧ wn_id n = c ∧ p ∈ wn_depends_on n.
Proof.
  unfold edges_of. rewrite list_elem_of_In, in_concat. split.
  - intros (l & Hl & Hin). apply list_elem_of_In, list_elem_of_fmap in Hl as (n & -> & Hn).
    apply list_elem_of_In, list_elem_of_fmap in Hin as (q & [= -> ->] & Hq). eauto.
  - intros (n & Hn & <- & Hp). exists (map (pair (wn_id n)) (wn_depends_on n)).
    split; apply list_elem_of_In, list_elem_of_fmap; eauto.
Qed.

(** Every dependency is a node other than the one that names it, and there are at
    most 64 edges. *)
Definition graph_edges_ok (nodes : list wf_node) : Prop :=
  (∀ n p, n ∈ nodes → p ∈ wn_depends_on n → p ∈ map wn_id nodes ∧ p ≠ wn_id n)
  ∧ Z.of_nat (length (edges_of nodes)) ≤ MAX_EDGES.

Definition node_depends_on (nodes : list wf_node) (c p : string) : Prop :=
  ∃ n, n ∈ nodes ∧ wn_id n = c ∧ p ∈ wn_depends_on n.

Definition acyclic (nodes : list wf_node) : Prop := ∀ v, ¬ tc (node_depends_on nodes) v v.

(** The order lists the nodes, each after its parents, and levels are the longest
    distance to a node without parents. *)
Definition topological (nodes : list wf_node) (order : list string) (level : gmap string Z) : Prop :=
  order ≡ₚ map wn_id nodes
  ∧ (∀ o1 v o2, order = o1 ++ v :: o2 → ∀ p, node_depends_on nodes v p → p ∈ o1)
  ∧ (∀ v, v ∈ order → ∃ l, level !! v = Some l ∧ 0 ≤ l
      ∧ (∀ p, node_depends_on nodes v p → ∃ lp, level !! p = Some lp ∧ lp < l)
      ∧ (l = 0 ∨ ∃ p, node_depends_on nodes v p ∧ level !! p = Some (l - 1))).

Lemma node_depends_edges nodes c p : node_depends_on nodes c p ↔ depends (edges_of nodes) c p.
Proof. symmetry. apply in_edges_of. Qed.

Lemma acyclic_edges nodes : acyclic nodes ↔ ∀ v, ¬ tc (depends (edges_of nodes)) v v.
Proof.
  unfold acyclic. split; intros H v Hv; apply (H v); revert Hv;
    apply tc_congruence with (f := id); intros ??; apply node_depends_edges.
Qed.

Definition start (nodes : list wf_node) : adjacency :=
  fold_left add_edge_pure (edges_of nodes)
    {| adj_children := ∅; adj_indegree := gset_to_gmap 0 (list_to_set (map wn_id nodes)); adj_edges := 0 |}.

Section Whole.
Variable nodes : list wf_node.
Hypothesis Hids : NoDup (map wn_id nodes).
Hypothesis Hok : ∀ n p, n ∈ nodes → p ∈ wn_depends_on n → p ∈ map wn_id nodes ∧ p ≠ wn_id n.

Lemma edges_closed c p : (c, p) ∈ edges_of nodes →
  c ∈ map wn_id nodes ∧ p ∈ map wn_id nodes ∧ p ≠ c.
Proof.
  intros (n & Hn & <- & Hp)%in_edges_of. destruct (Hok n p Hn Hp). split_and!; try done.
  by apply list_elem_of_fmap_2.
Qed.

Lemma start_children p c :
  count c (default [] (adj_children (start nodes) !! p)) = multiplicity (edges_of nodes) c p.
Proof. unfold start. rewrite adjacency_children. cbn [adj_children]. by rewrite lookup_empty. Qed.

Lemma start_indegree v : adj_indegree (start nodes) !! v =
  if decide (v ∈ map wn_id nodes) then Some (Z.of_nat (unmet (edges_of nodes) [] v)) else None.
Proof.
  unfold start. rewrite adjacency_indegree; cycle 1.
  { intros [c p] He. cbn [adj_indegree fst]. apply edges_closed in He as (Hc & _).
    exists 0. apply lookup_gset_to_gmap_Some. split; [|done]. by apply elem_of_list_to_set. }
  cbn [adj_indegree]. rewrite lookup_gset_to_gmap.
  destruct (decide (v ∈ map wn_id nodes)) as [Hv|Hv].
  - rewrite option_guard_True by by apply elem_of_list_to_set. cbn [fmap option_fmap option_map].
    rewrite Z.add_0_l. unfold unmet. do 3 f_equal. apply list_filter_iff. intros [c p]. cbn. split; [|tauto].
    intros ->. split; [done|apply not_elem_of_nil].
  - by rewrite option_guard_False by by rewrite elem_of_list_to_set.
Qed.

Lemma start_root v : v ∈ k_queue (kahn_start (start nodes)) ↔
  v ∈ map wn_id nodes ∧ unmet (edges_of nodes) [] v = 0%nat.
Proof.
  cbn [kahn_start k_queue]. rewrite elem_of_sorted_str, list_elem_of_fmap. split.
  - intros ([w d] & -> & Hin). apply list_elem_of_filter in Hin as [Hd Hin]. cbn in *. subst.
    apply elem_of_map_to_list in Hin. rewrite start_indegree in Hin. case_decide; [|done].
    split; [done|]. injection Hin. lia.
  - intros [Hv Hu]. exists (v, 0). split; [done|]. apply list_elem_of_filter. split; [done|].
    apply elem_of_map_to_list. by rewrite start_indegree, decide_True, Hu.
Qed.

Lemma kahn_start_inv : kinv (edges_of nodes) (map wn_id nodes) [] (kahn_start (start nodes)).
Proof.
  constructor; cbn [k_order app].
  - cbn [kahn_start k_queue]. rewrite sorted_str_perm. apply NoDup_fmap_fst.
    + intros x y1 y2 [H1 _]%list_elem_of_filter [H2 _]%list_elem_of_filter. cbn in *. congruence.
    + apply NoDup_filter, NoDup_map_to_list.
  - intros v Hv. by apply start_root in Hv as [? _].
  - intros v Hv. cbn [kahn_start k_indegree k_order]. rewrite start_indegree, decide_True by done.
    cbn. by rewrite Nat.add_0_r.
  - intros v Hv. cbn [kahn_start k_order app]. rewrite start_root. cbn. rewrite Nat.add_0_r. tauto.
  - intros v Hv. cbn [kahn_start k_level k_order app k_queue] in *. eexists.
    apply lookup_gset_to_gmap_Some. split; [by apply elem_of_list_to_set|done].
  - intros o1 v o2 Ho. by destruct o1.
Qed.

Lemma start_level v : level_spec (edges_of nodes) (k_level (kahn_start (start nodes)))
  (k_order (kahn_start (start nodes))) v.
Proof.
  assert (level_of (k_level (kahn_start (start nodes))) v = 0) as Hz.
  { unfold level_of. cbn [kahn_start k_level]. rewrite lookup_gset_to_gmap.
    destruct (guard _); done. }
  unfold level_spec. rewrite Hz. split_and!; [done| |by left].
  intros p _ Hp. by apply not_elem_of_nil in Hp.
Qed.

(** The state in which the loop stops. *)
Lemma loop_end :
  let s := kahn_loop (length nodes) (adj_children (start nodes)) (kahn_start (start nodes)) in
  kinv (edges_of nodes) (map wn_id nodes) [] s
  ∧ (∀ v, level_spec (edges_of nodes) (k_level s) (k_order s) v) ∧ k_queue s = [].
Proof.
  apply kahn_loop_inv; [done|apply start_children|apply edges_closed|apply kahn_start_inv|apply start_level|].
  cbn. by rewrite length_map.
Qed.

Lemma order_length s : kinv (edges_of nodes) (map wn_id nodes) [] s → k_queue s = [] →
  length (k_order s) = length nodes ↔ map wn_id nodes ⊆ k_order s.
Proof.
  intros Hinv Hq. pose proof (ki_nodup _ _ _ _ Hinv) as Hnd. pose proof (ki_ids _ _ _ _ Hinv) as Hsub.
  rewrite Hq, app_nil_r in Hnd, Hsub. rewrite <- (length_map wn_id nodes). split.
  - intros Hl. assert (k_order s ≡ₚ map wn_id nodes) as ->; [|done].
    apply submseteq_length_Permutation; [by apply NoDup_submseteq|lia].
  - intros Hsup. apply Nat.le_antisymm; apply submseteq_length, NoDup_submseteq; done.
Qed.
End Whole.

Lemma graph_inv nodes r : NoDup (map wn_id nodes) →
  _graph nodes = Ok r ↔
  graph_edges_ok nodes ∧
  let s := kahn_loop (length nodes) (adj_children (start nodes)) (kahn_start (start nodes)) in
  length (k_order s) = length nodes ∧ r = (k_order s, k_level s).
Proof.
  intros Hids. unfold _graph. rewrite bind_ok_iff. unfold wf_fail_if.
  setoid_rewrite build_adjacency_ok.
  assert (Forall (edge_ok (list_to_set (map wn_id nodes))) (edges_of nodes) ↔
    ∀ n p, n ∈ nodes → p ∈ wn_depends_on n → p ∈ map wn_id nodes ∧ p ≠ wn_id n) as Hok.
  { rewrite Forall_elem. unfold edge_ok. split.
    - intros H n p Hn Hp. specialize (H (wn_id n, p)). cbn in H. rewrite elem_of_list_to_set in H.
      apply H, in_edges_of. eauto.
    - intros H [c p] (n & Hn & <- & Hp)%in_edges_of. cbn. rewrite elem_of_list_to_set. auto. }
  unfold graph_edges_ok. rewrite <- Hok. split.
  - intros (a & [He ->] & H). rewrite !guard_bind_ok, adjacency_edges in H.
    destruct H as (Hm & Hl & [= <-]). py_prop. split_and!; try done.
  - intros ((He & Hm) & Hl & ->). eexists. split; [done|].
    rewrite !guard_bind_ok, adjacency_edges. split_and!; [|by rewrite bool_decide_eq_true_2|done].
    apply Z.ltb_ge. cbn. lia.
Qed.

Lemma graph_total nodes : NoDup (map wn_id nodes) →
  (∃ r, _graph nodes = Ok r) ↔ graph_edges_ok nodes ∧ acyclic nodes.
Proof.
  intros Hids. rewrite acyclic_edges. split.
  - intros [r Hr]. apply graph_inv in Hr as (Hok & Hl & _); [|done]. split; [done|].
    destruct (loop_end nodes Hids (proj1 Hok)) as (Hinv & _ & Hq).
    apply (topo_acyclic _ _ (edges_closed nodes (proj1 Hok)) _ Hinv).
    by apply (order_length nodes Hids _ Hinv Hq).
  - intros [Hok Hac]. eexists. apply graph_inv; [done|]. split; [done|]. split; [|reflexivity].
    destruct (loop_end nodes Hids (proj1 Hok)) as (Hinv & _ & Hq).
    apply (order_length nodes Hids _ Hinv Hq).
    eapply kahn_complete; [apply edges_closed, Hok|done..].
Qed.

(** The graph check returns an order exactly when every dependency names another
    node of the workflow, there are at most 64 edges, and the dependency relation has
    no cycle.  In particular the loop never stops early: its fuel is enough. *)
Theorem graph_exact nodes : NoDup (map wn_id nodes) →
  (∃ r, _graph nodes = Ok r) ↔ graph_edges_ok nodes ∧ acyclic nodes.
Proof. apply graph_total. Qed.

Lemma graph_order nodes order level : NoDup (map wn_id nodes) →
  _graph nodes = Ok (order, level) → topological nodes order level.
Proof.
  intros Hids H. apply graph_inv in H as (Hok & Hl & [= -> ->]); [|done].
  destruct (loop_end nodes Hids (proj1 Hok)) as (Hinv & Hlev & Hq).
  revert Hl Hinv Hlev Hq. generalize (kahn_loop (length nodes) (adj_children (start nodes))
    (kahn_start (start nodes))). intros s Hl Hinv Hlev Hq.
  pose proof (proj1 (order_length nodes Hids _ Hinv Hq) Hl) as Hsup.
  pose proof (ki_nodup _ _ _ _ Hinv) as Hnd. pose proof (ki_ids _ _ _ _ Hinv) as Hsub.
  rewrite Hq, app_nil_r in Hnd, Hsub.
  assert (∀ v, v ∈ k_order s → k_level s !! v = Some (level_of (k_level s) v)) as Hdom.
  { intros v Hv. destruct (ki_level_dom _ _ _ _ Hinv v) as [l El]; [by rewrite Hq, app_nil_r|].
    unfold level_of. by rewrite El. }
  assert (∀ v p, node_depends_on nodes v p → (v, p) ∈ edges_of nodes ∧ p ∈ k_order s) as Hdep.
  { intros v p Hp. apply node_depends_edges in Hp. split; [done|].
    apply Hsup. by apply (edges_closed nodes (proj1 Hok)) in Hp as (_ & ? & _). }
  split_and!.
  - apply NoDup_Permutation; [done..|]. intros v. split; [apply Hsub|apply Hsup].
  - intros o1 v o2 Ho p Hp. eapply (ki_topo _ _ _ _ Hinv); [exact Ho|]. by apply Hdep.
  - intros v Hv. destruct (Hlev v) as (L0 & L1 & L2). exists (level_of (k_level s) v).
    split_and!; [by apply Hdom|done|..].
    + intros p Hp. destruct (Hdep _ _ Hp) as [He Hpo]. eexists. split; [by apply Hdom|].
      specialize (L1 p He Hpo). lia.
    + destruct L2 as [L2|(p & He & Hpo & L2)]; [by left|right]. exists p.
      split; [by apply node_depends_edges|]. rewrite (Hdom _ Hpo). f_equal. lia.
Qed.

(** The order is topological - a permutation of the nodes in which every node
    comes after the nodes it depends on - and the level of a node is zero for a root
    and otherwise one more than the highest level of its parents. *)
Theorem graph_topological nodes order level : NoDup (map wn_id nodes) →
  _graph nodes = Ok (order, level) → topological nodes order level.
Proof. apply graph_order. Qed.
