(* ===== verification/WorkflowFacts.v ===== *)
(** * Validated workflows

    What [validate_contract] promises about the contract it returns, and what it does
    when the contract is validated again, as the renderers and the plan compiler do. *)

From Stdlib Require Import Ascii.
From Stdlib Require String.
From S2P Require Import Prelude PyStr Json WorkflowDesign WorkflowGraph.

Local Open Scope Z_scope.

(** ** Well-formed contracts *)

(** A normalised text of bounded length. *)
Definition text_ok (limit : Z) (t : string) : Prop := squeeze t = t ∧ t ≠ "" ∧ len t ≤ limit.

Record node_ok (n : wf_node) : Prop := {
  no_id : node_id_re (wn_id n) = true;
  no_label : text_ok 120 (wn_label n);
  no_kind : wn_kind n ∈ NODE_KINDS;
  no_action : wn_action n ∈ ACTIONS;
  no_depends : Forall (λ p, node_id_re p = true) (wn_depends_on n) ∧ NoDup (wn_depends_on n)
    ∧ Z.of_nat (length (wn_depends_on n)) ≤ MAX_NODES;
  no_condition : ∀ c, wn_condition n = Some c → text_ok 240 c
}.

Record workflow_ok (c : wf_contract) : Prop := {
  wo_title : text_ok 120 (wc_title c);
  wo_objective : text_ok 800 (wc_objective c);
  wo_vocabulary : wc_trigger c ∈ TRIGGERS ∧ wc_risk_level c ∈ RISK_LEVELS ∧ wc_data_class c ∈ DATA_CLASSES;
  wo_nodes : Forall node_ok (wc_nodes c) ∧ 2 ≤ Z.of_nat (length (wc_nodes c)) ≤ MAX_NODES;
  wo_ids : NoDup (map wn_id (wc_nodes c));
  wo_graph : graph_edges_ok (wc_nodes c) ∧ acyclic (wc_nodes c);
  wo_outputs : Forall (text_ok 160) (wc_outputs c) ∧ Z.of_nat (length (wc_outputs c)) ≤ 12;
  wo_warnings : Forall (text_ok 240) (wc_warnings c) ∧ NoDup (wc_warnings c);
  wo_automatic : automatic_warnings (wc_trigger c) (wc_risk_level c) (wc_nodes c) ⊆ wc_warnings c
}.

Lemma text_result v field limit allow_empty t : _text v field limit allow_empty = Ok t →
  squeeze t = t ∧ len t ≤ limit ∧ (allow_empty = false → t ≠ "").
Proof.
  unfold _text, wf_fail_if. rewrite !guard_bind_ok, andb_false_imp, Z.ltb_ge.
  intros (He & Hl & [= <-]). split_and!; [apply squeeze_idemp|done|].
  intros ->. apply is_empty_false. destruct (is_empty _); [|done]. by specialize (He eq_refl).
Qed.

Lemma text_result_ok v field limit t : _text v field limit false = Ok t → text_ok limit t.
Proof. intros (? & ? & H)%text_result. split_and!; auto. Qed.

Lemma str_or_empty_str s : str_or_empty (JStr s) = s.
Proof. unfold str_or_empty. cbn. by destruct s. Qed.

Lemma text_again field limit t allow_empty : squeeze t = t → len t ≤ limit →
  (allow_empty = false → t ≠ "") → _text (JStr t) field limit allow_empty = Ok t.
Proof.
  intros Hs Hl He. unfold _text, wf_fail_if. rewrite !guard_bind_ok, str_or_empty_str, Hs.
  split_and!; [|by apply Z.ltb_ge|done]. destruct allow_empty; [by rewrite andb_false_r|].
  rewrite andb_true_r. apply is_empty_false. auto.
Qed.

Lemma text_ok_again field limit t : text_ok limit t → _text (JStr t) field limit false = Ok t.
Proof. intros (? & ? & ?). by apply text_again. Qed.

(** Identifiers and vocabulary words are their own normal form. *)
Definition plain_char (c : ascii) : bool :=
  PyStr.is_lower c || is_digit c || bool_decide (c = "_"%char).

Lemma plain_char_normal c : plain_char c = true → is_space c = false ∧ lower_char c = c.
Proof. destruct c as [[] [] [] [] [] [] [] []]; by vm_compute. Qed.

Lemma vocabulary_word_plain s : forall_char plain_char s = true → vocabulary_word (JStr s) = s.
Proof.
  intros Hs. unfold vocabulary_word. rewrite str_or_empty_str, strip_word.
  - apply map_char_id. revert Hs. apply forall_char_impl.
    intros c [_ Hc]%plain_char_normal. by rewrite bool_decide_eq_true_2.
  - revert Hs. apply forall_char_impl. by intros c [-> _]%plain_char_normal.
Qed.

Lemma node_id_plain s : node_id_re s = true → forall_char plain_char s = true.
Proof.
  destruct s as [|c t]; [done|]. cbn [node_id_re]. rewrite !andb_true_iff. intros [[Hc _] Ht].
  change (plain_char c && forall_char plain_char t = true). unfold plain_char at 1. rewrite Hc. exact Ht.
Qed.

Lemma words_plain l s : forallb (forall_char plain_char) l = true → s ∈ l → vocabulary_word (JStr s) = s.
Proof. rewrite forallb_forall. intros H Hs%list_elem_of_In. by apply vocabulary_word_plain, H. Qed.

(** ** What validation returns *)

Lemma node_depends_result acc raw l : node_depends acc raw = Ok l →
  Forall (λ p, node_id_re p = true) acc → NoDup acc →
  Forall (λ p, node_id_re p = true) l ∧ NoDup l ∧ (length l ≤ length acc + length raw)%nat.
Proof.
  revert acc. induction raw as [|v raw IH]; intros acc; cbn [node_depends].
  - intros [= <-] ??. split_and!; [done..|]. simpl. lia.
  - unfold wf_fail_if. rewrite guard_bind_ok, negb_false_iff. intros [Hv H] Hacc Hnd.
    destruct (mem_str (vocabulary_word v) acc) eqn:E.
    + destruct (IH _ H Hacc Hnd) as (? & ? & ?). split_and!; [done..|]. simpl. lia.
    + apply mem_str_false in E. destruct (IH _ H) as (? & ? & Hl).
      { apply Forall_app. split; [done|]. by constructor. }
      { apply NoDup_app. split_and!; [done| |apply NoDup_singleton]. set_solver. }
      split_and!; [done..|]. rewrite length_app in Hl. simpl in *. lia.
Qed.

Lemma node_depends_again acc l : Forall (λ p, node_id_re p = true) l → NoDup (acc ++ l) →
  node_depends acc (map JStr l) = Ok (acc ++ l).
Proof.
  intros Hl. revert acc. induction Hl as [|p l Hp _ IH]; intros acc Hnd; cbn [map node_depends].
  - by rewrite app_nil_r.
  - rewrite vocabulary_word_plain by by apply node_id_plain. unfold wf_fail_if.
    rewrite guard_bind_ok, Hp. split; [done|].
    assert (p ∉ acc) as Hn.
    { apply NoDup_app in Hnd as (_ & Hd & _). intros Hin. apply (Hd p Hin). by left. }
    rewrite (proj2 (mem_str_false p acc) Hn), IH, <- app_assoc; [done|]. by rewrite <- app_assoc.
Qed.

Lemma validate_node_result seen index item n : validate_node seen index item = Ok n →
  node_ok n ∧ wn_id n ∉ seen.
Proof.
  unfold validate_node, wf_fail_if, wf_fail. destruct item as [| | | | | |d]; try done.
  rewrite !guard_bind_ok. intros (Hid & Hseen & Hk & Ha & H). py_prop.
  apply bind_ok_iff in H as (deps & Hdeps & H). apply bind_ok_iff in H as (cond & Hcond & H).
  apply bind_ok_iff in H as (appr & _ & H). apply bind_ok_iff in H as (label & Hlabel & [= <-]).
  split; [|done]. constructor; cbn [wn_id wn_label wn_kind wn_action wn_depends_on wn_condition]; try done.
  - by eapply text_result_ok.
  - destruct (get_or d "depends_on" _) as [| | | | |raw|]; try done.
    rewrite guard_bind_ok in Hdeps. destruct Hdeps as [Hl Hdeps]. apply Z.ltb_ge in Hl.
    apply node_depends_result in Hdeps as (? & ? & Hlen); [|constructor..].
    split_and!; [done..|]. simpl in Hlen. lia.
  - intros c Hc. destruct (is_empty cond) eqn:Ec; [done|]. injection Hc as <-.
    apply is_empty_false in Ec.
    destruct (get_or d "condition" _); try done; [by injection Hcond as <-|].
    apply text_result in Hcond as (? & ? & _). by split_and!.
Qed.

Definition node_items (n : wf_node) : list (string * json) :=
  match node_json n with JObj d => d | _ => [] end.

Lemma validate_node_again seen index n : node_ok n → wn_id n ∉ seen →
  validate_node seen index (node_json n) = Ok n.
Proof.
  intros [H1 H2 H3 H4 (H5 & H6 & H7) H8] Hn. unfold validate_node, wf_fail_if.
  change (node_json n) with (JObj (node_items n)). cbv beta iota.
  change (get (node_items n) "id") with (JStr (wn_id n)).
  change (get (node_items n) "kind") with (JStr (wn_kind n)).
  change (get (node_items n) "action") with (JStr (wn_action n)).
  change (get_or (node_items n) "depends_on" (JList [])) with (JList (map JStr (wn_depends_on n))).
  change (get_or (node_items n) "condition" (JStr "")) with
    (match wn_condition n with Some c => JStr c | None => JNull end).
  change (get_or (node_items n) "approval_required" (JBool false)) with (JBool (wn_approval_required n)).
  change (get (node_items n) "label") with (JStr (wn_label n)).
  rewrite (vocabulary_word_plain (wn_id n)) by by apply node_id_plain.
  rewrite (words_plain NODE_KINDS) by (reflexivity || done).
  rewrite (words_plain ACTIONS) by (reflexivity || done).
  rewrite !guard_bind_ok, H1, (proj2 (mem_str_false _ _) Hn), (proj2 (mem_str_true _ _) H3),
    (proj2 (mem_str_true _ _) H4).
  split_and!; try done. rewrite length_map, (proj2 (Z.ltb_ge _ _) H7).
  cbn [raise_if mbind result_bind]. rewrite node_depends_again by done. cbn [app].
  destruct (wn_condition n) as [c|] eqn:Ec.
  - destruct (H8 c eq_refl) as (C1 & C2 & C3). rewrite (text_again _ 240 c true) by done. cbn [mbind result_bind].
    rewrite text_ok_again by done.
    apply is_empty_false in C2. rewrite C2, <- Ec. by destruct n.
  - rewrite text_ok_again by done. cbn. rewrite <- Ec. by destruct n.
Qed.

Lemma validate_nodes_result index nodes raw l : validate_nodes index nodes raw = Ok l →
  ∃ new, l = nodes ++ new ∧ length new = length raw ∧ Forall node_ok new
    ∧ (NoDup (map wn_id nodes) → NoDup (map wn_id l)).
Proof.
  revert index nodes. induction raw as [|item raw IH]; intros index nodes; cbn [validate_nodes].
  - intros [= <-]. exists []. rewrite app_nil_r. by split_and!.
  - intros H. apply bind_ok_iff in H as (n & Hn & H). apply validate_node_result in Hn as [Hok Hid].
    apply IH in H as (new & -> & Hlen & Hall & Hnd). exists (n :: new).
    rewrite <- app_assoc in *. split_and!; [done|simpl; congruence|by constructor|].
    intros Hnodes. apply Hnd. rewrite map_app. apply NoDup_app. split_and!; [done| |apply NoDup_singleton].
    intros x Hx ->%list_elem_of_singleton. done.
Qed.

Lemma validate_nodes_again index nodes l : Forall node_ok l → NoDup (map wn_id (nodes ++ l)) →
  validate_nodes index nodes (map node_json l) = Ok (nodes ++ l).
Proof.
  intros Hl. revert index nodes. induction Hl as [|n l Hn _ IH]; intros index nodes Hnd; cbn [map validate_nodes].
  - by rewrite app_nil_r.
  - rewrite validate_node_again; [|done|].
    + cbn [mbind result_bind]. rewrite IH; by rewrite <- app_assoc.
    + rewrite map_app in Hnd. apply NoDup_app in Hnd as (_ & Hd & _).
      intros Hin. apply (Hd _ Hin). by left.
Qed.

Lemma mapM_texts field limit raw l : mapM (λ v, _text v field limit false) raw = Ok l →
  Forall (text_ok limit) l ∧ length l = length raw.
Proof.
  revert l. induction raw as [|v raw IH]; intros l; cbn [mapM]; [by intros [= <-]|].
  intros H. apply bind_ok_iff in H as (t & Ht & H). apply bind_ok_iff in H as (ts & Hts & [= <-]).
  apply IH in Hts as [? ?]. split; [|simpl; congruence]. constructor; [by eapply text_result_ok|done].
Qed.

Lemma mapM_texts_again field limit l : Forall (text_ok limit) l →
  mapM (λ v, _text v field limit false) (map JStr l) = Ok l.
Proof.
  induction 1 as [|t l Ht _ IH]; cbn [map mapM]; [done|]. by rewrite text_ok_again, IH.
Qed.

Lemma bounded_list_ok v msg l : bounded_list v msg = Ok l ↔ v = JList l ∧ Z.of_nat (length l) ≤ 12.
Proof.
  unfold bounded_list, wf_fail_if, wf_fail. destruct v; try (split; [done|naive_solver]).
  rewrite guard_bind_ok, Z.ltb_ge. naive_solver.
Qed.

Lemma bounded_strs l msg : Z.of_nat (length l) ≤ 12 →
  bounded_list (JList (map JStr l)) msg = Ok (map JStr l).
Proof. intros H. apply bounded_list_ok. by rewrite length_map. Qed.

Lemma automatic_text_ok trigger risk nodes :
  Forall (text_ok 240) (automatic_warnings trigger risk nodes).
Proof.
  unfold automatic_warnings. rewrite !Forall_app.
  assert (∀ t, squeeze t = t → t ≠ "" → len t ≤ 240 → Forall (text_ok 240) [t]) as Hone
    by (intros; by repeat constructor).
  split_and!; match goal with |- Forall _ (if ?b then _ else _) => destruct b end;
    first [by apply Forall_nil | apply Hone; [reflexivity|done|vm_compute; done]].
Qed.

Lemma validate_contract_ok raw c : validate_contract raw = Ok c → workflow_ok c.
Proof.
  unfold validate_contract, wf_fail_if, wf_fail. destruct raw as [| | | | | |d]; try done.
  rewrite !guard_bind_ok. intros (H1 & H2 & H3 & H). py_prop.
  apply bind_ok_iff in H as (raw_nodes & Hraw & H). apply bind_ok_iff in H as (nodes & Hnodes & H).
  apply bind_ok_iff in H as (g & Hg & H). apply bind_ok_iff in H as (ro & Hro & H).
  apply bind_ok_iff in H as (rw & Hrw & H). apply bind_ok_iff in H as (ws & Hws & H).
  apply bind_ok_iff in H as (title & Htitle & H). apply bind_ok_iff in H as (obj & Hobj & H).
  apply bind_ok_iff in H as (outs & Houts & [= <-]).
  apply validate_nodes_result in Hnodes as (new & -> & Hlen & Hall & Hnd). cbn [app] in *.
  apply mapM_texts in Hws as [Hws _]. apply mapM_texts in Houts as [Houts Hol].
  apply bounded_list_ok in Hro as [_ Hro].
  assert (NoDup (map wn_id new)) as Hids by (apply Hnd; constructor).
  constructor; cbn [wc_title wc_objective wc_trigger wc_risk_level wc_data_class wc_nodes wc_outputs wc_warnings].
  - by eapply text_result_ok.
  - by eapply text_result_ok.
  - done.
  - split; [done|]. rewrite Hlen. destruct (get d "nodes") as [| | | | |l|]; try done.
    rewrite guard_bind_ok in Hraw. destruct Hraw as [Hb [= <-]]. py_prop. lia.
  - done.
  - apply graph_total; [done|]. by exists g.
  - split; [done|]. by rewrite Hol.
  - split; [|apply NoDup_dict_fromkeys]. apply Forall_elem. intros t Ht.
    apply elem_of_dict_fromkeys, elem_of_app in Ht.
    pose proof (automatic_text_ok (vocabulary_word (get d "trigger")) (vocabulary_word (get d "risk_level")) new) as Ha.
    rewrite Forall_elem in Hws, Ha. naive_solver.
  - intros t Ht. apply elem_of_dict_fromkeys, elem_of_app. by right.
Qed.

(** ** Validating again *)

Definition contract_items (c : wf_contract) : list (string * json) :=
  match contract_json c with JObj d => d | _ => [] end.

Lemma dict_fromkeys_app_subset l l' : NoDup l → l' ⊆ l → dict_fromkeys (l ++ l') = l.
Proof.
  intros Hl Hsub. unfold dict_fromkeys.
  assert (∀ seen, (∀ x, x ∈ l → x ∉ seen) → ∀ k, k ⊆ l ++ seen →
    dedup_from seen (l ++ k) = l) as Hgen.
  { clear Hsub. induction Hl as [|x l Hx Hl IH]; intros seen Hs k Hk.
    - cbn [app] in *. induction k as [|y k IHk]; [done|]. cbn [dedup_from].
      rewrite bool_decide_eq_true_2 by set_solver. apply IHk. set_solver.
    - cbn [app dedup_from]. rewrite bool_decide_eq_false_2 by set_solver. f_equal.
      apply IH; set_solver. }
  apply Hgen; set_solver.
Qed.

Lemma revalidate_ok c : workflow_ok c →
  validate_contract (contract_json c) =
  if 12 <? Z.of_nat (length (wc_warnings c))
  then raise WorkflowDesignError "warnings must be a bounded list" else Ok c.
Proof.
  intros [H1 H2 (V1 & V2 & V3) (N1 & N2 & N3) Hids Hg (O1 & O2) (W1 & W2) Ha].
  unfold validate_contract, wf_fail_if.
  change (contract_json c) with (JObj (contract_items c)). cbv beta iota.
  change (get (contract_items c) "trigger") with (JStr (wc_trigger c)).
  change (get (contract_items c) "risk_level") with (JStr (wc_risk_level c)).
  change (get (contract_items c) "data_class") with (JStr (wc_data_class c)).
  change (get (contract_items c) "nodes") with (JList (map node_json (wc_nodes c))).
  change (get (contract_items c) "title") with (JStr (wc_title c)).
  change (get (contract_items c) "objective") with (JStr (wc_objective c)).
  change (get_or (contract_items c) "outputs" (JList [])) with (JList (map JStr (wc_outputs c))).
  change (get_or (contract_items c) "warnings" (JList [])) with (JList (map JStr (wc_warnings c))).
  rewrite (words_plain TRIGGERS), (words_plain RISK_LEVELS), (words_plain DATA_CLASSES) by (reflexivity || done).
  rewrite (proj2 (mem_str_true _ _) V1), (proj2 (mem_str_true _ _) V2), (proj2 (mem_str_true _ _) V3).
  cbn [negb raise_if mbind result_bind]. cbv zeta. rewrite length_map.
  rewrite (proj2 (Z.leb_le _ _) N2), (proj2 (Z.leb_le _ _) N3). cbn [andb negb raise_if mbind result_bind].
  rewrite validate_nodes_again by done. cbn [app mbind result_bind].
  destruct (proj2 (graph_total _ Hids) Hg) as [g ->]. cbn [mbind result_bind].
  rewrite (bounded_strs (wc_outputs c)) by done.
  cbn [mbind result_bind]. destruct (12 <? _) eqn:E.
  - unfold bounded_list, wf_fail_if. by rewrite length_map, E.
  - apply Z.ltb_ge in E. rewrite (bounded_strs (wc_warnings c)) by done.
    cbn [mbind result_bind]. rewrite (mapM_texts_again _ _ (wc_warnings c)) by done. cbn [mbind result_bind].
    rewrite (text_ok_again _ _ (wc_title c)), (text_ok_again _ _ (wc_objective c)) by done.
    cbn [mbind result_bind]. rewrite mapM_texts_again by done.
    cbn [mbind result_bind]. rewrite dict_fromkeys_app_subset by done. by destruct c.
Qed.

(** ** The parallel vocabulary *)

Lemma validate_nodes_Forall2 index nodes raw l : validate_nodes index nodes raw = Ok (nodes ++ l) →
  Forall2 (λ item n, ∃ seen i, validate_node seen i item = Ok n) raw l.
Proof.
  revert index nodes l. induction raw as [|item raw IH]; intros index nodes l; cbn [validate_nodes].
  - intros [= H]. rewrite <- (app_nil_r nodes) in H at 1. apply app_inv_head in H as <-. constructor.
  - intros H. apply bind_ok_iff in H as (n & Hn & H).
    pose proof (validate_nodes_result _ _ _ _ H) as (new & Hl & _).
    rewrite <- app_assoc in Hl. apply app_inv_head in Hl as ->.
    constructor; [eauto|]. apply (IH (index + 1) (nodes ++ [n])). by rewrite <- app_assoc.
Qed.

(** What the surrogate records for one raw node. *)
Definition surrogate_of (item sur : json) (pairs : gmap string (string * string)) : Prop :=
  ∃ d, item = JObj d ∧
  let id := vocabulary_word (get d "id") in
  (sur = item ∨
   ∃ action, action ∈ parallel_actions ∧ pairs !! id = Some ("parallel", action)
     ∧ truthy (get_or d "approval_required" (JBool false)) = false
     ∧ sur = JObj (dict_set "action" (JStr "validate") (dict_set "kind" (JStr "validation") d))).

Lemma dict_get_cons k k' v d : dict_get k ((k', v) :: d) = if decide (k' = k) then Some v else dict_get k d.
Proof.
  unfold dict_get. cbn [list_find fst]. destruct (decide (k' = k)); [done|].
  by destruct (list_find _ d) as [[? []]|].
Qed.

Lemma dict_get_set k k' v d : dict_get k (dict_set k' v d) = if decide (k' = k) then Some v else dict_get k d.
Proof.
  induction d as [|[k2 v2] d IH]; cbn [dict_set]; [apply dict_get_cons|].
  case_bool_decide as E; rewrite !dict_get_cons, ?IH; subst; by repeat case_decide; subst.
Qed.

Lemma surrogate_nodes_spec raw : ∀ i pairs nodes pairs',
  surrogate_nodes i pairs raw = Ok (nodes, pairs') →
  NoDup (map (λ item, match item with JObj d => vocabulary_word (get d "id") | _ => "" end) raw) →
  Forall2 (λ item sur, surrogate_of item sur pairs') raw nodes
  ∧ (∀ id v, pairs' !! id = Some v → pairs !! id = Some v ∨
      ∃ d, JObj d ∈ raw ∧ id = vocabulary_word (get d "id") ∧ v.1 = "parallel" ∧ v.2 ∈ parallel_actions
        ∧ truthy (get_or d "approval_required" (JBool false)) = false)
  ∧ (∀ id, id ∉ map (λ item, match item with JObj d => vocabulary_word (get d "id") | _ => "" end) raw →
      pairs' !! id = pairs !! id).
Proof.
  induction raw as [|item raw IH]; intros i pairs nodes pairs'; cbn [surrogate_nodes].
  - intros [= <- <-] _. split_and!; [constructor|by left|done].
  - intros H [Hnew Hnd]%NoDup_cons. apply bind_ok_iff in H as ([sur orig] & Hsur & H).
    apply bind_ok_iff in H as ([sn pairs2] & Hrest & [= <- <-]).
    apply IH in Hrest as (R1 & R2 & R3); [|done].
    unfold surrogate_node, wf_fail_if, wf_fail in Hsur. destruct item as [| | | | | |d]; try done.
    destruct (bool_decide _ || _) eqn:Epar; cycle 1.
    { injection Hsur as <- <-. split_and!.
      - constructor; [|done]. exists d. split; [done|]. by left.
      - intros id v Hv. destruct (R2 id v Hv) as [|(d' & ? & ?)]; [by left|right].
        exists d'. split; [by right|done].
      - intros id Hid. apply R3. set_solver. }
    rewrite !guard_bind_ok in Hsur. destruct Hsur as (Hk & Hap & [= <- <-]). py_prop.
    set (id0 := vocabulary_word (get d "id")) in *. split_and!.
    + constructor; [|done]. exists d. split; [done|]. right.
      exists (vocabulary_word (get d "action")). fold id0. split_and!; try done.
      rewrite (R3 id0 Hnew). cbn iota. rewrite lookup_insert_eq. congruence.
    + intros id v Hv. destruct (R2 id v Hv) as [Hp|(d' & ? & ?)]; cycle 1.
      { right. exists d'. split; [by right|done]. }
      destruct (decide (id = id0)) as [->|Hne]; [|left; by rewrite lookup_insert_ne in Hp].
      rewrite lookup_insert_eq in Hp. injection Hp as <-. right. exists d.
      split_and!; [by left|done..].
    + intros id Hid. rewrite R3 by set_solver. apply lookup_insert_ne. set_solver.
Qed.

Definition raw_id (item : json) : string :=
  match item with JObj d => vocabulary_word (get d "id") | _ => "" end.

Lemma validate_node_fields seen i item n : validate_node seen i item = Ok n →
  ∃ d, item = JObj d ∧ wn_id n = raw_id item
    ∧ get_or d "approval_required" (JBool false) = JBool (wn_approval_required n).
Proof.
  unfold validate_node, wf_fail_if, wf_fail. destruct item as [| | | | | |d]; try done.
  rewrite !guard_bind_ok. intros (_ & _ & _ & _ & H).
  apply bind_ok_iff in H as (deps & _ & H). apply bind_ok_iff in H as (cond & _ & H).
  apply bind_ok_iff in H as (appr & Ha & H). apply bind_ok_iff in H as (label & _ & [= <-]).
  exists d. split_and!; [done..|]. cbn [wn_approval_required].
  destruct (get_or d "approval_required" _); try done. congruence.
Qed.

Lemma surrogate_raw_id i item sur orig : surrogate_node i item = Ok (sur, orig) → raw_id sur = raw_id item.
Proof.
  unfold surrogate_node, wf_fail_if, wf_fail. destruct item as [| | | | | |d]; try done.
  destruct (bool_decide _ || _); [|by intros [= <- <-]]. rewrite !guard_bind_ok.
  intros (_ & _ & [= <- <-]). cbn [raw_id]. unfold get. by rewrite !dict_get_set, !decide_False by done.
Qed.

Lemma surrogate_nodes_ids raw : ∀ i pairs nodes pairs',
  surrogate_nodes i pairs raw = Ok (nodes, pairs') → map raw_id nodes = map raw_id raw.
Proof.
  induction raw as [|item raw IH]; intros i pairs nodes pairs'; cbn [surrogate_nodes].
  - by intros [= <- <-].
  - intros H. apply bind_ok_iff in H as ([sur orig] & Hsur & H).
    apply bind_ok_iff in H as ([sn pairs2] & Hrest & [= <- <-]).
    cbn [map]. f_equal; [by eapply surrogate_raw_id|by eapply IH].
Qed.

(** The nodes a successful validation started from. *)
Lemma validate_contract_nodes d c raw_nodes : validate_contract (JObj d) = Ok c →
  get d "nodes" = JList raw_nodes →
  Forall2 (λ item n, ∃ seen i, validate_node seen i item = Ok n) raw_nodes (wc_nodes c).
Proof.
  unfold validate_contract, wf_fail_if, wf_fail. intros H Hget.
  rewrite !guard_bind_ok in H. destruct H as (_ & _ & _ & H). cbv zeta in H. rewrite Hget in H.
  apply bind_ok_iff in H as (l & Hl & H). rewrite guard_bind_ok in Hl. destruct Hl as [_ [= <-]].
  apply bind_ok_iff in H as (nodes & Hnodes & H). inv_ok. cbn [wc_nodes].
  by apply (validate_nodes_Forall2 0 []).
Qed.

Lemma Forall2_map_eq {A B C} (R : A → B → Prop) (f : A → C) (g : B → C) l k :
  Forall2 R l k → (∀ x y, R x y → f x = g y) → map f l = map g k.
Proof. intros H HR. induction H; [done|]. cbn. f_equal; auto. Qed.

(** The nodes of a version 4 contract. *)
Definition v4_node_ok (n : wf_node) : Prop :=
  (wn_kind n ∈ NODE_KINDS ∧ wn_action n ∈ ACTIONS)
  ∨ (wn_kind n = "parallel" ∧ wn_action n ∈ parallel_actions ∧ wn_approval_required n = false).

Lemma restore_node_id pairs n : wn_id (restore_node pairs n) = wn_id n.
Proof. unfold restore_node. by destruct (pairs !! wn_id n) as [[]|]. Qed.

Lemma restore_node_depends pairs n : wn_depends_on (restore_node pairs n) = wn_depends_on n.
Proof. unfold restore_node. by destruct (pairs !! wn_id n) as [[]|]. Qed.

Lemma restored_node_ok raw nodes pairs d c n raw_nodes :
  raw = JObj d → get d "nodes" = JList raw_nodes →
  surrogate_nodes 0 ∅ raw_nodes = Ok (nodes, pairs) →
  validate_contract (JObj (dict_set "nodes" (JList nodes) d)) = Ok c →
  n ∈ wc_nodes c → v4_node_ok (restore_node pairs n).
Proof.
  intros -> Hget Hsur Hval Hn.
  pose proof (validate_contract_ok _ _ Hval) as Hok.
  pose proof (validate_contract_nodes _ _ nodes Hval) as Hnodes.
  unfold get in Hnodes. rewrite dict_get_set, decide_True in Hnodes by done. specialize (Hnodes eq_refl).
  assert (map raw_id raw_nodes = map wn_id (wc_nodes c)) as Hids.
  { rewrite <- (surrogate_nodes_ids _ _ _ _ _ Hsur). eapply Forall2_map_eq; [exact Hnodes|].
    intros item m (seen & i & Hm). by destruct (validate_node_fields _ _ _ _ Hm) as (? & _ & <- & _). }
  destruct (surrogate_nodes_spec _ _ _ _ _ Hsur) as (S1 & S2 & _).
  { change (NoDup (map raw_id raw_nodes)). rewrite Hids. apply Hok. }
  unfold restore_node. destruct (pairs !! wn_id n) as [[k a]|] eqn:Ep; cycle 1.
  { left. destruct Hok as [_ _ _ [Hall _] _ _ _ _ _]. rewrite Forall_elem in Hall.
    by destruct (Hall n Hn). }
  destruct (S2 _ _ Ep) as [Hbad|(d0 & Hd0 & Hid & Hk & Ha & Htr)]; [by rewrite lookup_empty in Hbad|].
  right. cbn in *. subst k. split_and!; [done..|].
  apply list_elem_of_lookup in Hn as [i Hi]. apply list_elem_of_lookup in Hd0 as [j Hj].
  destruct (Forall2_lookup_r _ _ _ _ _ Hnodes Hi) as (sur & Hs & seen & idx & Hm).
  destruct (Forall2_lookup_r _ _ _ _ _ S1 Hs) as (item & Hitem & d1 & -> & Hsd).
  assert (i = j) as <-.
  { eapply (NoDup_lookup (map raw_id raw_nodes)); [rewrite Hids; apply Hok| |].
    - rewrite Hids, list_lookup_fmap, Hi. reflexivity.
    - rewrite list_lookup_fmap, Hj. cbn. by rewrite Hid. }
  rewrite Hitem in Hj. injection Hj as <-.
  destruct (validate_node_fields _ _ _ _ Hm) as (d2 & -> & _ & Happ).
  assert (get_or d2 "approval_required" (JBool false) = get_or d1 "approval_required" (JBool false)) as Heq.
  { destruct Hsd as [[= ->]|(act & _ & _ & _ & [= ->])]; [done|].
    unfold get_or. by rewrite !dict_get_set, !decide_False by done. }
  rewrite <- Heq, Happ in Htr. exact Htr.
Qed.

(** ** Properties *)

(** A three-node workflow: input, research, output. *)
Definition sample_workflow : json := JObj [
  ("title", JStr "Weekly  review"); ("objective", JStr "Collect and publish"); ("trigger", JStr "Schedule");
  ("risk_level", JStr "high"); ("data_class", JStr "internal");
  ("nodes", JList [
     JObj [("id", JStr "In"); ("label", JStr "Start"); ("kind", JStr "input"); ("action", JStr "input")];
     JObj [("id", JStr "work"); ("label", JStr "Research"); ("kind", JStr "agent");
           ("action", JStr "research"); ("depends_on", JList [JStr "in"; JStr " IN"])];
     JObj [("id", JStr "out"); ("label", JStr "Publish"); ("kind", JStr "output"); ("action", JStr "output");
           ("depends_on", JList [JStr "work"; JStr "in"]); ("condition", JNull)]]);
  ("outputs", JList [JStr "report"]); ("warnings", JList [])].

Definition validated_sample : wf_contract :=
  match validate_contract sample_workflow with
  | Ok c => c
  | Raise _ => Build_wf_contract "" "" "" "" "" [] [] []
  end.

(** A workflow that validates is well formed: normalised bounded texts, known
    vocabulary, between 2 and 24 distinct nodes whose dependencies are other nodes of
    the workflow, at most 64 edges and no cycle, and every automatic warning
    present. *)
Theorem validate_contract_sound raw c : validate_contract raw = Ok c → workflow_ok c.
Proof. apply validate_contract_ok. Qed.

Lemma validate_contract_sound_witness : workflow_ok validated_sample.
Proof. apply (validate_contract_sound sample_workflow). vm_compute. reflexivity. Defined.

(** validating a validated contract again, as the renderers and the plan
    compiler do, returns it unchanged when it has at most twelve warnings, and is
    refused otherwise. *)
Theorem revalidation_exact raw c : validate_contract raw = Ok c →
  validate_contract (contract_json c) =
  if 12 <? Z.of_nat (length (wc_warnings c))
  then raise WorkflowDesignError "warnings must be a bounded list" else Ok c.
Proof. intros H. by apply revalidate_ok, (validate_contract_ok raw). Qed.

Lemma revalidation_exact_witness :
  validate_contract (contract_json validated_sample) =
  if 12 <? Z.of_nat (length (wc_warnings validated_sample))
  then raise WorkflowDesignError "warnings must be a bounded list" else Ok validated_sample.
Proof. apply (revalidation_exact sample_workflow). vm_compute. reflexivity. Defined.

(** A contract of version 4 has distinct nodes, an acyclic graph of at most 64
    edges, and its nodes carry either the base vocabulary or the parallel one; a
    parallel control node never requires approval. *)
Theorem validate_v4_sound raw c : validate_contract_v4 raw = Ok c →
  NoDup (map wn_id (wc_nodes c)) ∧ graph_edges_ok (wc_nodes c) ∧ acyclic (wc_nodes c)
  ∧ Forall v4_node_ok (wc_nodes c).
Proof.
  unfold validate_contract_v4, wf_fail. destruct raw as [| | | | | |d]; try done.
  destruct (get d "nodes") as [| | | | |raw_nodes|] eqn:Hget; try done. intros H.
  apply bind_ok_iff in H as ([nodes pairs] & Hsur & H). apply bind_ok_iff in H as (c0 & Hc & [= <-]).
  cbn [wc_nodes]. pose proof (validate_contract_ok _ _ Hc) as Hok.
  assert (map wn_id (map (restore_node pairs) (wc_nodes c0)) = map wn_id (wc_nodes c0)) as Hids
    by (rewrite map_map; apply map_ext; intros; apply restore_node_id).
  assert (edges_of (map (restore_node pairs) (wc_nodes c0)) = edges_of (wc_nodes c0)) as Hedges.
  { unfold edges_of. rewrite map_map. f_equal. apply map_ext. intros n.
    by rewrite restore_node_id, restore_node_depends. }
  split_and!.
  - rewrite Hids. apply Hok.
  - destruct (wo_graph _ Hok) as [[G1 G2] _]. split; [|by rewrite Hedges].
    intros n p (n0 & -> & Hn)%list_elem_of_fmap. rewrite restore_node_depends, restore_node_id, Hids. auto.
  - apply acyclic_edges. rewrite Hedges. apply acyclic_edges, Hok.
  - apply Forall_elem. intros n (n0 & -> & Hn)%list_elem_of_fmap. by eapply restored_node_ok.
Qed.

(** A workflow with one parallel region of two lanes. *)
Definition parallel_workflow : json :=
  let node id kind action deps := JObj [("id", JStr id); ("label", JStr id); ("kind", JStr kind);
    ("action", JStr action); ("depends_on", JList (map JStr deps))] in
  JObj [
  ("title", JStr "Two lanes"); ("objective", JStr "Concurrent research"); ("trigger", JStr "manual");
  ("risk_level", JStr "low"); ("data_class", JStr "public");
  ("nodes", JList [node "start" "input" "input" []; node "fork" "parallel" "parallel_fork" ["start"];
     node "a" "agent" "research" ["fork"]; node "b" "agent" "research" ["fork"];
     node "join" "parallel" "parallel_join" ["a"; "b"]; node "end" "output" "output" ["join"]]);
  ("outputs", JList []); ("warnings", JList [])].

Lemma validate_v4_sound_witness : ∃ c, validate_contract_v4 parallel_workflow = Ok c
  ∧ Forall v4_node_ok (wc_nodes c).
Proof.
  eexists. split; [vm_compute; reflexivity|].
  apply (validate_v4_sound parallel_workflow). vm_compute. reflexivity.
Defined.

(** Twelve warnings of its author and three automatic ones: the contract validates,
    and is refused when it is rendered. *)
Definition verbose_workflow : json :=
  match sample_workflow with
  | JObj d => JObj (dict_set "warnings" (JList (map (λ i, JStr ("warning " +:+ str_of_Z (Z.of_nat i))) (seq 0 12))) d)
  | v => v
  end.

Lemma warnings_overflow : ∃ c, validate_contract verbose_workflow = Ok c
  ∧ validate_contract (contract_json c)
    = raise WorkflowDesignError "warnings must be a bounded list".
Proof. eexists. split; [vm_compute; reflexivity|]. vm_compute. reflexivity. Qed.

Lemma graph_exact_witness : ∃ r, _graph (wc_nodes validated_sample) = Ok r.
Proof.
  apply (graph_exact (wc_nodes validated_sample)); [apply (bool_decide_unpack _); by vm_compute|].
  apply (validate_contract_ok sample_workflow). vm_compute. reflexivity.
Defined.

Lemma graph_topological_witness : ∃ order level, _graph (wc_nodes validated_sample) = Ok (order, level)
  ∧ order = ["in"; "work"; "out"] ∧ topological (wc_nodes validated_sample) order level.
Proof.
  eexists _, _. split; [vm_compute; reflexivity|]. split; [reflexivity|].
  apply (graph_topological (wc_nodes validated_sample)); [apply (bool_decide_unpack _); by vm_compute|].
  vm_compute. reflexivity.
Defined.

(** Characters that delimit Mermaid syntax, and whitespace other than a space. *)
Definition mermaid_delimiter (c : ascii) : bool :=
  mem_char c (String dquote (String backslash "[]{}|<>;")) || (is_space c && negb (bool_decide (c = " "%char))).

Lemma mermaid_char_neutral c : is_space c && negb (bool_decide (c = " "%char)) = false →
  mermaid_delimiter (mermaid_char c) = false.
Proof. destruct c as [[] [] [] [] [] [] [] []]; by vm_compute. Qed.

Lemma forall_char_take p n s : forall_char p s = true → forall_char p (take_str n s) = true.
Proof.
  revert s. induction n as [|n IH]; intros [|c s]; cbn; try done.
  intros [-> Hs]%andb_true_iff. cbn. auto.
Qed.

Lemma forall_char_map p q f s : (∀ c, p c = true → q (f c) = true) →
  forall_char p s = true → forall_char q (map_char f s) = true.
Proof. intros H. induction s as [|c s IH]; cbn; [done|]. intros [Hc Hs]%andb_true_iff. by rewrite H, IH. Qed.

(** A label put into a Mermaid diagram is neutral: whatever text it comes from,
    it has at most 120 characters and none of the characters that delimit Mermaid
    syntax, so it cannot end its node or start another line. *)
Theorem mermaid_label_neutral value :
  len (_mermaid_label value) ≤ 120 ∧
  forall_char (λ c, negb (mermaid_delimiter c)) (_mermaid_label value) = true.
Proof.
  unfold _mermaid_label. split.
  - unfold len. assert (∀ f s, String.length (map_char f s) = String.length s) as ->
      by (intros f s; induction s; cbn; congruence).
    assert (∀ n s, (String.length (take_str n s) ≤ n)%nat) as Htake.
    { induction n as [|n IH]; intros [|c s]; cbn; try lia. specialize (IH s). lia. }
    specialize (Htake 120%nat (join " " (split_ws value))). lia.
  - apply forall_char_map with (p := λ c, negb (is_space c && negb (bool_decide (c = " "%char)))).
    + intros c Hc. apply negb_true_iff in Hc. by rewrite mermaid_char_neutral.
    + apply forall_char_take, forall_char_join; [done|].
      eapply Forall_mono; [apply split_ws_words|]. intros w [_ Hw]%andb_true_iff.
      revert Hw. apply forall_char_impl. intros c Hc. apply negb_true_iff in Hc. by rewrite Hc.
Qed.
