(* ===== verification/Validators.v ===== *)
(** * Shared validators

    Most modules of the runtime carry the same private helpers with their own
    exception class; they are written once here, for any class. *)

From Stdlib Require Import Ascii.
From Stdlib Require String.
From S2P Require Import Prelude PyStr Hashlib PyFloat Json PyTime.

Local Open Scope Z_scope.

(** [^[A-Za-z0-9][A-Za-z0-9._:-]{0,127}$] *)
Definition id_re (s : string) : bool :=
  match s with
  | EmptyString => false
  | String c t =>
      is_alnum c && (String.length t <=? 127)%nat
      && forall_char (λ d, is_alnum d || mem_char d "._:-") t
  end.

Section Validators.
Variable cls : exn_class.

Definition invalid (field : string) : string := "INVALID_" +:+ upper field.

(** [_compact_id(value, field)]. *)
Definition compact_id (value field : string) : result string :=
  raise_if (negb (bool_decide (value = strip value)) || negb (id_re value)) cls (invalid field) ;;
  Ok value.

(** [_single_line(value, field, max_len=...)]. *)
Definition single_line (value field : string) (max_len : Z) : result string :=
  raise_if (is_empty value || negb (bool_decide (value = strip value))) cls (invalid field) ;;
  raise_if ((max_len <? len value) || mem_char newline value || mem_char carriage_return value)
    cls (invalid field) ;;
  Ok value.

(** [_sha256(value, field)]. *)
Definition sha256_ref (value field : string) : result string :=
  raise_if (negb (is_sha256_ref value)) cls (invalid field) ;; Ok value.

(** [text[:-1] + "+00:00" if text.endswith("Z") else text]. *)
Definition normalize_zulu (text : string) : string :=
  match strip_suffix text "Z" with Some t => t +:+ "+00:00" | None => text end.

(** [_timestamp(value, field)]. *)
Definition timestamp (value field : string) : result string :=
  text ← single_line value field 64;
  match fromisoformat (normalize_zulu text) with
  | None => raise cls (invalid field)
  | Some parsed =>
      raise_if (match dt_offset parsed with None => true | Some _ => false end) cls
        (upper field +:+ "_MUST_BE_TIMEZONE_AWARE") ;;
      Ok text
  end.

(** [_canonical_json(payload)]. *)
Definition canonical_json (msg : string) (payload : json) : result string :=
  reraise (dumps payload) is_value_error cls msg.

Context {HL : Hashlib}.

(** [_digest(payload)]. *)
Definition digest (msg : string) (payload : json) : result string :=
  text ← canonical_json msg payload; Ok (sha256_of_text text).
End Validators.

(** [_as_datetime(value)]; the text has been checked by [timestamp]. *)
Definition as_datetime (value : string) : result datetime :=
  match fromisoformat (normalize_zulu value) with
  | Some d => Ok d
  | None => raise PyValueError ("Invalid isoformat string: " +:+ repr_str value)
  end.

Lemma compact_id_ok cls v f t : compact_id cls v f = Ok t ↔ t = v ∧ v = strip v ∧ id_re v = true.
Proof.
  unfold compact_id. rewrite guard_bind_ok, orb_false_iff, !negb_false_iff, bool_decide_eq_true.
  naive_solver.
Qed.

Lemma single_line_ok cls v f m t : single_line cls v f m = Ok t ↔
  t = v ∧ v ≠ "" ∧ v = strip v ∧ len v ≤ m ∧ mem_char newline v = false
  ∧ mem_char carriage_return v = false.
Proof.
  unfold single_line. rewrite !guard_bind_ok, !orb_false_iff, negb_false_iff, bool_decide_eq_true,
    is_empty_false, Z.ltb_ge. naive_solver.
Qed.

Lemma sha256_ref_ok cls v f t : sha256_ref cls v f = Ok t ↔ t = v ∧ is_sha256_ref v = true.
Proof. unfold sha256_ref. rewrite guard_bind_ok, negb_false_iff. naive_solver. Qed.

Lemma single_line_id cls v f m t : single_line cls v f m = Ok t → t = v.
Proof. by intros (-> & _)%single_line_ok. Qed.

Lemma timestamp_id cls v f t : timestamp cls v f = Ok t → t = v.
Proof.
  unfold timestamp. intros H. apply bind_ok_iff in H as (u & Hu & H). apply single_line_id in Hu as ->.
  destruct (fromisoformat _); [|done]. rewrite guard_bind_ok in H. naive_solver.
Qed.

Lemma digest_shape cls {HL : Hashlib} msg v d : digest cls msg v = Ok d → is_sha256_ref d = true.
Proof.
  unfold digest. intros H. apply bind_ok_iff in H as (t & _ & [= <-]). apply sha256_of_text_shape.
Qed.
