(* ===== verification/ContextManifest.v ===== *)
(** * Context manifests

    [harness_context_manifest.py]: the audited description of the context compiled for
    one model call - its token budget, sections and compaction - without the text
    itself.  The SQLite repository of the same file is not modelled. *)

From Stdlib Require String.
From S2P Require Import Prelude PyStr Hashlib Json PyTime Validators TaskContract.

Local Open Scope Z_scope.

Definition CONTEXT_MANIFEST_SCHEMA : string := "workspace-context-manifest/v1".
Definition _COMPACTION_MODES : list string := ["structural"; "extractive"; "abstractive"].

Definition cm_fail_if (b : bool) (msg : string) : result unit := raise_if b ContextManifestError msg.

Definition _compact_id : string → string → result string := compact_id ContextManifestError.
Definition _single_line : string → string → Z → result string := single_line ContextManifestError.
Definition _sha256 : string → string → result string := sha256_ref ContextManifestError.
Definition _timestamp : string → string → result string := timestamp ContextManifestError.

Definition _nonnegative_int (value : Z) (field_name : string) : result Z :=
  cm_fail_if (value <? 0) (invalid field_name) ;; Ok value.

Record TokenBudget := {
  tb_max_input : Z;
  tb_reserved_output : Z;
  tb_compiled_input : Z
}.

Definition TokenBudget_validate (b : TokenBudget) : result TokenBudget :=
  max_input ← _nonnegative_int (tb_max_input b) "max_input";
  reserved ← _nonnegative_int (tb_reserved_output b) "reserved_output";
  compiled ← _nonnegative_int (tb_compiled_input b) "compiled_input";
  cm_fail_if (max_input <=? 0) "MAX_INPUT_MUST_BE_POSITIVE" ;;
  cm_fail_if (max_input <=? reserved) "OUTPUT_RESERVE_EXHAUSTS_CONTEXT" ;;
  cm_fail_if (max_input - reserved <? compiled) "CONTEXT_TOKEN_BUDGET_EXCEEDED" ;;
  Ok b.

Definition TokenBudget_input_capacity (b : TokenBudget) : result Z :=
  TokenBudget_validate b ;; Ok (tb_max_input b - tb_reserved_output b).

Definition TokenBudget_canonical_dict (b : TokenBudget) : result json :=
  TokenBudget_validate b ;;
  Ok (JObj [("max_input", JInt (tb_max_input b)); ("reserved_output", JInt (tb_reserved_output b));
            ("compiled_input", JInt (tb_compiled_input b))]).

Record ContextSectionInput := {
  si_section_type : string;
  si_item_count : Z;
  si_token_count : Z;
  si_source_hash : string;
  si_source_refs : list string;
  si_critical : bool
}.

Definition has_duplicates (l : list string) : bool :=
  negb (length (dict_fromkeys l) =? length l)%nat.

Definition ContextSectionInput_validate (s : ContextSectionInput) : result ContextSectionInput :=
  _compact_id (si_section_type s) "section_type" ;;
  count ← _nonnegative_int (si_item_count s) "item_count";
  cm_fail_if (count <=? 0) "SECTION_ITEM_COUNT_MUST_BE_POSITIVE" ;;
  _nonnegative_int (si_token_count s) "token_count" ;;
  _sha256 (si_source_hash s) "source_hash" ;;
  cm_fail_if (512 <? Z.of_nat (length (si_source_refs s))) "SOURCE_REFS_TOO_MANY" ;;
  iterM (λ ref, _single_line ref "source_ref" 2048 ;; Ok tt) (si_source_refs s) ;;
  cm_fail_if (has_duplicates (si_source_refs s)) "DUPLICATE_SOURCE_REF" ;;
  Ok s.

Record ContextManifestSection := {
  ms_section_type : string;
  ms_item_count : Z;
  ms_token_count : Z;
  ms_source_hash : string;
  ms_source_ref_hashes : list string;
  ms_critical : bool
}.

Definition ContextManifestSection_validate (s : ContextManifestSection)
    : result ContextManifestSection :=
  _compact_id (ms_section_type s) "section_type" ;;
  count ← _nonnegative_int (ms_item_count s) "item_count";
  cm_fail_if (count <=? 0) "SECTION_ITEM_COUNT_MUST_BE_POSITIVE" ;;
  _nonnegative_int (ms_token_count s) "token_count" ;;
  _sha256 (ms_source_hash s) "source_hash" ;;
  iterM (λ h, _sha256 h "source_ref_hash" ;; Ok tt) (ms_source_ref_hashes s) ;;
  cm_fail_if (has_duplicates (ms_source_ref_hashes s)) "DUPLICATE_SOURCE_REF_HASH" ;;
  Ok s.

Definition ContextManifestSection_canonical_dict (s : ContextManifestSection) : result json :=
  ContextManifestSection_validate s ;;
  Ok (JObj [("type", JStr (ms_section_type s)); ("item_count", JInt (ms_item_count s));
            ("tokens", JInt (ms_token_count s)); ("source_hash", JStr (ms_source_hash s));
            ("source_ref_hashes", json_strs (ms_source_ref_hashes s));
            ("critical", JBool (ms_critical s))]).

Record CompactionState := { cs_applied : bool; cs_modes : list string }.

Definition CompactionState_validate (c : CompactionState) : result CompactionState :=
  cm_fail_if (has_duplicates (cs_modes c)) "DUPLICATE_COMPACTION_MODE" ;;
  iterM (λ mode, cm_fail_if (negb (mem_str mode _COMPACTION_MODES)) "INVALID_COMPACTION_MODE") (cs_modes c) ;;
  cm_fail_if (cs_applied c && bool_decide (cs_modes c = [])) "COMPACTION_MODE_REQUIRED" ;;
  cm_fail_if (negb (cs_applied c) && negb (bool_decide (cs_modes c = [])))
    "COMPACTION_MODE_WITHOUT_APPLICATION" ;;
  Ok c.

Definition CompactionState_canonical_dict (c : CompactionState) : result json :=
  CompactionState_validate c ;;
  Ok (JObj [("applied", JBool (cs_applied c)); ("mode", json_strs (cs_modes c))]).

Record ContextManifest := {
  cm_context_manifest_id : string;
  cm_project_id : string;
  cm_conversation_id : string;
  cm_task_id : string;
  cm_model_id : string;
  cm_token_budget : TokenBudget;
  cm_sections : list ContextManifestSection;
  cm_compaction : CompactionState;
  cm_authority_fingerprint : string;
  cm_created_at : string;
  cm_schema_version : string
}.

Definition total_tokens (sections : list ContextManifestSection) : Z :=
  foldr Z.add 0 (map ms_token_count sections).

Definition ContextManifest_validate (m : ContextManifest) : result ContextManifest :=
  _compact_id (cm_context_manifest_id m) "context_manifest_id" ;;
  _compact_id (cm_project_id m) "project_id" ;;
  _compact_id (cm_conversation_id m) "conversation_id" ;;
  _compact_id (cm_task_id m) "task_id" ;;
  _single_line (cm_model_id m) "model_id" 256 ;;
  TokenBudget_validate (cm_token_budget m) ;;
  cm_fail_if (bool_decide (length (cm_sections m) = 0%nat)) "CONTEXT_SECTIONS_REQUIRED" ;;
  iterM (λ s, ContextManifestSection_validate s ;; Ok tt) (cm_sections m) ;;
  cm_fail_if (negb (total_tokens (cm_sections m) =? tb_compiled_input (cm_token_budget m)))
    "COMPILED_INPUT_TOKEN_MISMATCH" ;;
  CompactionState_validate (cm_compaction m) ;;
  _sha256 (cm_authority_fingerprint m) "authority_fingerprint" ;;
  _timestamp (cm_created_at m) "created_at" ;;
  cm_fail_if (negb (bool_decide (cm_schema_version m = CONTEXT_MANIFEST_SCHEMA)))
    "CONTEXT_MANIFEST_SCHEMA_VERSION_MISMATCH" ;;
  Ok m.

Definition ContextManifest_canonical_dict (m : ContextManifest) : result json :=
  ContextManifest_validate m ;;
  budget ← TokenBudget_canonical_dict (cm_token_budget m);
  sections ← mapM ContextManifestSection_canonical_dict (cm_sections m);
  compaction ← CompactionState_canonical_dict (cm_compaction m);
  Ok (JObj [
    ("schema_version", JStr (cm_schema_version m));
    ("context_manifest_id", JStr (cm_context_manifest_id m));
    ("project_id", JStr (cm_project_id m));
    ("conversation_id", JStr (cm_conversation_id m));
    ("task_id", JStr (cm_task_id m));
    ("model_id", JStr (cm_model_id m));
    ("created_at", JStr (cm_created_at m));
    ("token_budget", budget);
    ("sections", JList sections);
    ("compaction", compaction);
    ("authority_fingerprint", JStr (cm_authority_fingerprint m))]).

Section Manifest.
Context {HL : Hashlib}.

Definition _digest : json → result string := digest ContextManifestError "CONTEXT_MANIFEST_NOT_CANONICAL_JSON".

Definition ContextManifest_fingerprint (m : ContextManifest) : result string :=
  d ← ContextManifest_canonical_dict m;
  _digest d.

(** One section of the manifest: the references are only kept as digests. *)
Definition build_section (i : ContextSectionInput) : result ContextManifestSection :=
  ContextSectionInput_validate i ;;
  Ok {| ms_section_type := si_section_type i; ms_item_count := si_item_count i;
        ms_token_count := si_token_count i; ms_source_hash := si_source_hash i;
        ms_source_ref_hashes := map sha256_of_text (si_source_refs i);
        ms_critical := si_critical i |}.

(** [created_at] is the caller's, or the clock's. *)
Definition ContextManifestBuilder_build (context_manifest_id project_id conversation_id task_id
    model_id : string) (max_input reserved_output : Z) (section_inputs : list ContextSectionInput)
    (authority_fingerprint : string) (compaction : option CompactionState) (created_at : option string)
    (now : string) : result ContextManifest :=
  cm_fail_if (bool_decide (length section_inputs = 0%nat)) "CONTEXT_SECTION_INPUTS_REQUIRED" ;;
  sections ← mapM build_section section_inputs;
  ContextManifest_validate {|
    cm_context_manifest_id := context_manifest_id; cm_project_id := project_id;
    cm_conversation_id := conversation_id; cm_task_id := task_id; cm_model_id := model_id;
    cm_token_budget := {| tb_max_input := max_input; tb_reserved_output := reserved_output;
                          tb_compiled_input := total_tokens sections |};
    cm_sections := sections;
    cm_compaction := default {| cs_applied := false; cs_modes := [] |} compaction;
    cm_authority_fingerprint := authority_fingerprint;
    cm_created_at := match created_at with
                     | Some t => if is_empty t then now else t
                     | None => now
                     end;
    cm_schema_version := CONTEXT_MANIFEST_SCHEMA |}.

Lemma build_section_tokens i s : build_section i = Ok s →
  ms_token_count s = si_token_count i ∧ 0 ≤ si_token_count i
  ∧ ms_source_ref_hashes s = map sha256_of_text (si_source_refs i).
Proof.
  unfold build_section, ContextSectionInput_validate, _nonnegative_int, cm_fail_if.
  intros H. inv_ok. py_prop. done.
Qed.

Lemma build_sections_tokens inputs sections : mapM build_section inputs = Ok sections →
  total_tokens sections = foldr Z.add 0 (map si_token_count inputs)
  ∧ 0 ≤ foldr Z.add 0 (map si_token_count inputs)
  ∧ map ms_source_ref_hashes sections = map (map sha256_of_text ∘ si_source_refs) inputs.
Proof.
  revert sections. induction inputs as [|i inputs IH]; intros sections H; cbn [mapM] in H; inv_ok; [done|].
  apply build_section_tokens in E as (Ht & Hn & Hr). destruct (IH _ E0) as (Hs & Hp & Hm).
  unfold total_tokens in *. cbn [map foldr]. rewrite Hs, Ht, Hr, Hm. split; [done|]. split; [lia|done].
Qed.

Lemma ContextManifest_validate_id m x : ContextManifest_validate m = Ok x → x = m.
Proof. unfold ContextManifest_validate. intros H. inv_ok. done. Qed.

Lemma TokenBudget_validate_ok b x : TokenBudget_validate b = Ok x ↔ x = b
  ∧ 0 ≤ tb_compiled_input b ∧ 0 ≤ tb_reserved_output b < tb_max_input b
  ∧ tb_compiled_input b + tb_reserved_output b ≤ tb_max_input b.
Proof.
  unfold TokenBudget_validate, _nonnegative_int, cm_fail_if. split.
  - intros H. inv_ok. py_prop. split_and!; try done; lia.
  - intros (-> & ? & ? & ?). destruct (Z.ltb_ge (tb_max_input b) 0) as [_ ->]; [|lia].
    destruct (Z.ltb_ge (tb_reserved_output b) 0) as [_ ->]; [|lia].
    destruct (Z.ltb_ge (tb_compiled_input b) 0) as [_ ->]; [|lia].
    cbn [raise_if mbind result_bind]. repeat (pass_guard lia). done.
Qed.

(** A manifest the builder returns fits the model: the tokens of its sections, which are the
    tokens of the given sections, together with the reserved output never exceed the input
    limit, and every reference is recorded as its digest, in order. *)
Theorem build_fits_budget id project conversation task model max_input reserved inputs authority
    compaction created now m
    (Hb : ContextManifestBuilder_build id project conversation task model max_input reserved inputs
            authority compaction created now = Ok m) :
  ContextManifest_validate m = Ok m
  ∧ 0 ≤ foldr Z.add 0 (map si_token_count inputs)
  ∧ total_tokens (cm_sections m) = foldr Z.add 0 (map si_token_count inputs)
  ∧ total_tokens (cm_sections m) + reserved ≤ max_input ∧ 0 ≤ reserved < max_input
  ∧ map ms_source_ref_hashes (cm_sections m) = map (map sha256_of_text ∘ si_source_refs) inputs.
Proof.
  unfold ContextManifestBuilder_build, cm_fail_if in Hb. inv_ok.
  pose proof (ContextManifest_validate_id _ _ Hb) as ->.
  apply build_sections_tokens in E0 as (Hs & Hp & Hm). cbn [cm_sections].
  assert (0 ≤ reserved < max_input ∧ total_tokens x0 + reserved ≤ max_input) as [[? ?] ?];
    [|split_and!; first [done|lia]].
  unfold ContextManifest_validate in Hb. cbn [cm_token_budget] in Hb. inv_ok.
  apply TokenBudget_validate_ok in E5 as (_ & _ & ? & ?). by split.
Qed.
End Manifest.

Section Examples.
#[local] Existing Instance checksum_hashlib.

Definition sample_digest : string := Eval vm_compute in sha256_of_text "evidence".

Definition sample_sections : list ContextSectionInput := [
  {| si_section_type := "history"; si_item_count := 2; si_token_count := 300;
     si_source_hash := sample_digest; si_source_refs := ["turn:1"; "turn:2"]; si_critical := true |};
  {| si_section_type := "evidence"; si_item_count := 1; si_token_count := 500;
     si_source_hash := sample_digest; si_source_refs := []; si_critical := false |}].

Definition sample_manifest : ContextManifest := Eval vm_compute in
  ok_of (ContextManifestBuilder_build "manifest-1" "project-1" "session-1" "task-1" "model" 1000 200
           sample_sections sample_digest None (Some "2024-05-01T08:00:00+00:00") "").

Lemma build_fits_budget_witness :
  ContextManifest_validate sample_manifest = Ok sample_manifest
  ∧ total_tokens (cm_sections sample_manifest) + 200 ≤ 1000.
Proof.
  assert (ContextManifestBuilder_build "manifest-1" "project-1" "session-1" "task-1" "model" 1000 200
            sample_sections sample_digest None (Some "2024-05-01T08:00:00+00:00") "" = Ok sample_manifest)
    as H by (vm_compute; reflexivity).
  destruct (build_fits_budget "manifest-1" "project-1" "session-1" "task-1" "model" 1000 200
    sample_sections sample_digest None (Some "2024-05-01T08:00:00+00:00") "" sample_manifest H)
    as (Hv & _ & _ & Hl & _).
  split; [exact Hv|exact Hl].
Defined.
End Examples.
