(* ===== verification/TaskContext.v ===== *)
(** * Task contexts

    [task_context.py]: the immutable runtime binding of a task - identity, budget,
    fingerprints - and its versioned enrichment with context and evidence references;
    [CanonicalTaskSpec] of [harness_task_compiler.py], which the builder checks. *)

From Stdlib Require Import SpecFloat.
From Stdlib Require String.
From S2P Require Import Prelude PyStr Hashlib PyFloat Json PyTime Validators TaskContract.
From S2P Require Import CapabilityAuthority ContextManifest.

Local Open Scope Z_scope.

Definition TASK_CONTEXT_SCHEMA : string := "workspace-task-context/v1".
Definition CANONICAL_TASK_SCHEMA : string := "workspace-canonical-task/v1".
Definition _RISK_CLASSES : list string := ["R0"; "R1"; "R2"; "R3"; "R4"].

(** [_RISK_CLASS_BY_LEVEL[level]]. *)
Definition risk_class_of_level (level : string) : result string :=
  match table_get level [("low", "R1"); ("medium", "R2"); ("high", "R3"); ("critical", "R4")] with
  | Some c => Ok c
  | None => raise PyKeyError level
  end.

Definition tx_fail_if (b : bool) (msg : string) : result unit := raise_if b TaskContextError msg.

Definition _compact_id : string → string → result string := compact_id TaskContextError.
Definition _single_line : string → string → Z → result string := single_line TaskContextError.
Definition _sha256 : string → string → result string := sha256_ref TaskContextError.
Definition _timestamp : string → string → result string := timestamp TaskContextError.

(** [_iso8601] of an optional-offset datetime. *)
Definition _iso8601 (value : datetime) : result string :=
  tx_fail_if (match dt_offset value with None => true | Some _ => false end)
    "TASK_CONTEXT_TIME_MUST_BE_TIMEZONE_AWARE" ;;
  utc_isoformat value.

(** The loop keeps the first occurrence of every reference. *)
Definition _normalize_refs (values : list string) (field_name : string) : result (list string) :=
  items ← mapM (λ value, _single_line value field_name 2048) values;
  let result := dict_fromkeys items in
  tx_fail_if (1024 <? Z.of_nat (length result)) (upper field_name +:+ "_TOO_MANY") ;;
  Ok result.

(** ** The resource budget *)

Record TaskResourceBudget := {
  rb_wall_time_s : option Z;
  rb_model_tokens : option Z;
  rb_tool_calls : option Z;
  rb_cost_usd : option pynum
}.

#[export] Instance TaskResourceBudget_eq_dec : EqDecision TaskResourceBudget.
Proof. solve_decision. Defined.

Definition budget_int (field_name : string) (value : option Z) : result unit :=
  tx_fail_if (match value with Some v => v <? 0 | None => false end)
    ("INVALID_RESOURCE_BUDGET_" +:+ upper field_name).

Definition TaskResourceBudget_validate (b : TaskResourceBudget) : result TaskResourceBudget :=
  budget_int "wall_time_s" (rb_wall_time_s b) ;;
  budget_int "model_tokens" (rb_model_tokens b) ;;
  budget_int "tool_calls" (rb_tool_calls b) ;;
  (match rb_cost_usd b with
   | None => Ok tt
   | Some cost =>
       c ← to_float cost;
       tx_fail_if (negb (float_finite c) || num_lt (NFloat c) (NInt 0)) "INVALID_RESOURCE_BUDGET_COST_USD"
   end) ;;
  Ok b.

Definition TaskResourceBudget_from_contract (c : TaskContract) (cost_usd : option pynum)
    : result TaskResourceBudget :=
  TaskContract_validate c ;;
  TaskResourceBudget_validate {|
    rb_wall_time_s := Some ((max_wall_time_ms (tc_execution_budget c) + 999) / 1000);
    rb_model_tokens := Some (max_input_tokens (tc_context_budget c)
                             + max_output_tokens (tc_generation_budget c));
    rb_tool_calls := Some (max_tool_calls (tc_execution_budget c));
    rb_cost_usd := cost_usd |}.

Definition json_opt_int (v : option Z) : json := match v with Some z => JInt z | None => JNull end.
Definition json_opt_str (v : option string) : json := match v with Some s => JStr s | None => JNull end.

Definition TaskResourceBudget_canonical_dict (b : TaskResourceBudget) : result json :=
  TaskResourceBudget_validate b ;;
  cost ← match rb_cost_usd b with
         | None => Ok JNull
         | Some c => JFloat <$> to_float c
         end;
  Ok (JObj [("wall_time_s", json_opt_int (rb_wall_time_s b));
            ("model_tokens", json_opt_int (rb_model_tokens b));
            ("tool_calls", json_opt_int (rb_tool_calls b));
            ("cost_usd", cost)]).

(** ** The canonical task *)

Record CanonicalTaskSpec := {
  ct_task_id : string;
  ct_task_type : string;
  ct_sensitivity : string;
  ct_risk_level : string;
  ct_compiled_intent : string;
  ct_prompt_compiler_version : string;
  ct_original_sha256 : string;
  ct_compiled_sha256 : string;
  ct_task_contract_schema : string;
  ct_authority_fingerprint : string;
  ct_acceptance_fingerprint : string;
  ct_schema_version : string;
  ct_compiler_version : string
}.

(** The compiled intent is left out. *)
Definition CanonicalTaskSpec_canonical_dict (t : CanonicalTaskSpec) : json := JObj [
  ("task_id", JStr (ct_task_id t)); ("task_type", JStr (ct_task_type t));
  ("sensitivity", JStr (ct_sensitivity t)); ("risk_level", JStr (ct_risk_level t));
  ("prompt_compiler_version", JStr (ct_prompt_compiler_version t));
  ("original_sha256", JStr (ct_original_sha256 t)); ("compiled_sha256", JStr (ct_compiled_sha256 t));
  ("task_contract_schema", JStr (ct_task_contract_schema t));
  ("authority_fingerprint", JStr (ct_authority_fingerprint t));
  ("acceptance_fingerprint", JStr (ct_acceptance_fingerprint t));
  ("schema_version", JStr (ct_schema_version t)); ("compiler_version", JStr (ct_compiler_version t))].

(** ** The context *)

Record TaskContext := {
  tx_task_id : string;
  tx_session_id : string;
  tx_trace_id : string;
  tx_actor_id : string;
  tx_intent : string;
  tx_purpose : string;
  tx_project_id : option string;
  tx_risk_class : string;
  tx_created_at : string;
  tx_deadline : option string;
  tx_resource_budget : TaskResourceBudget;
  tx_inventory_scope : list string;
  tx_task_contract_fingerprint : string;
  tx_canonical_task_fingerprint : string;
  tx_authority_fingerprint : string;
  tx_context_refs : list string;
  tx_evidence_refs : list string;
  tx_context_version : Z;
  tx_parent_context_fingerprint : option string;
  tx_schema_version : string
}.

Definition opt_check {A} (f : A → result unit) (v : option A) : result unit :=
  match v with Some a => f a | None => Ok tt end.

(** Identity, intent and time. *)
Definition validate_identity (c : TaskContext) : result unit :=
  _compact_id (tx_task_id c) "task_id" ;;
  _compact_id (tx_session_id c) "session_id" ;;
  _compact_id (tx_trace_id c) "trace_id" ;;
  _compact_id (tx_actor_id c) "actor_id" ;;
  tx_fail_if (is_empty (strip (tx_intent c))) "TASK_CONTEXT_INTENT_REQUIRED" ;;
  tx_fail_if (32768 <? len (tx_intent c)) "TASK_CONTEXT_INTENT_TOO_LARGE" ;;
  _single_line (tx_purpose c) "purpose" 512 ;;
  opt_check (λ p, _compact_id p "project_id" ;; Ok tt) (tx_project_id c) ;;
  tx_fail_if (negb (mem_str (tx_risk_class c) _RISK_CLASSES)) "INVALID_RISK_CLASS" ;;
  created_text ← _timestamp (tx_created_at c) "created_at";
  created ← as_datetime created_text;
  opt_check (λ d,
    deadline_text ← _timestamp d "deadline";
    deadline ← as_datetime deadline_text;
    tx_fail_if (instant deadline <=? instant created) "TASK_CONTEXT_DEADLINE_NOT_AFTER_CREATED_AT")
    (tx_deadline c).

Definition refs_normalized (values : list string) (field_name msg : string) : result unit :=
  refs ← _normalize_refs values field_name;
  tx_fail_if (negb (bool_decide (refs = values))) msg.

(** Budget, scope, fingerprints, references and version. *)
Definition validate_binding (c : TaskContext) : result unit :=
  TaskResourceBudget_validate (tx_resource_budget c) ;;
  refs_normalized (tx_inventory_scope c) "inventory_scope"
    "INVENTORY_SCOPE_MUST_BE_UNIQUE_AND_NORMALIZED" ;;
  _sha256 (tx_task_contract_fingerprint c) "task_contract_fingerprint" ;;
  _sha256 (tx_canonical_task_fingerprint c) "canonical_task_fingerprint" ;;
  _sha256 (tx_authority_fingerprint c) "authority_fingerprint" ;;
  refs_normalized (tx_context_refs c) "context_ref" "CONTEXT_REFS_MUST_BE_UNIQUE_AND_NORMALIZED" ;;
  refs_normalized (tx_evidence_refs c) "evidence_ref" "EVIDENCE_REFS_MUST_BE_UNIQUE_AND_NORMALIZED" ;;
  tx_fail_if (tx_context_version c <? 1) "INVALID_CONTEXT_VERSION" ;;
  (if tx_context_version c =? 1 then
     tx_fail_if (match tx_parent_context_fingerprint c with Some _ => true | None => false end)
       "ROOT_CONTEXT_CANNOT_HAVE_PARENT"
   else match tx_parent_context_fingerprint c with
        | Some p => _sha256 p "parent_context_fingerprint" ;; Ok tt
        | None => raise TaskContextError (invalid "parent_context_fingerprint")
        end) ;;
  tx_fail_if (negb (bool_decide (tx_schema_version c = TASK_CONTEXT_SCHEMA)))
    "TASK_CONTEXT_SCHEMA_VERSION_MISMATCH".

Definition TaskContext_validate (c : TaskContext) : result TaskContext :=
  validate_identity c ;; validate_binding c ;; Ok c.

Section Context.
Context {HL : Hashlib}.

Definition _digest : json → result string := digest TaskContextError "TASK_CONTEXT_NOT_CANONICAL_JSON".

Definition CanonicalTaskSpec_fingerprint (t : CanonicalTaskSpec) : string :=
  sha256_of_text (print (CanonicalTaskSpec_canonical_dict t)).

Definition assert_authority_binding (t : CanonicalTaskSpec) (c : TaskContract) : result unit :=
  current ← from_contract c;
  raise_if (negb (bool_decide (tc_task_id c = ct_task_id t))) HarnessTaskCompilationError
    "TaskContract task_id changed after compilation" ;;
  raise_if (negb (bool_decide (ca_fingerprint current = ct_authority_fingerprint t)))
    HarnessTaskCompilationError "TaskContract authority changed after canonical task compilation".

Definition intent_sha256 (c : TaskContext) : string := sha256_of_text (tx_intent c).

Definition _identity_items (c : TaskContext) : result (list (string * json)) :=
  budget ← TaskResourceBudget_canonical_dict (tx_resource_budget c);
  Ok [
    ("task_id", JStr (tx_task_id c));
    ("session_id", JStr (tx_session_id c));
    ("trace_id", JStr (tx_trace_id c));
    ("actor_id", JStr (tx_actor_id c));
    ("intent_sha256", JStr (intent_sha256 c));
    ("purpose", JStr (tx_purpose c));
    ("project_id", json_opt_str (tx_project_id c));
    ("risk_class", JStr (tx_risk_class c));
    ("created_at", JStr (tx_created_at c));
    ("deadline", json_opt_str (tx_deadline c));
    ("resource_budget", budget);
    ("inventory_scope", json_strs (tx_inventory_scope c));
    ("task_contract_fingerprint", JStr (tx_task_contract_fingerprint c));
    ("canonical_task_fingerprint", JStr (tx_canonical_task_fingerprint c));
    ("authority_fingerprint", JStr (tx_authority_fingerprint c))].

Definition identity_fingerprint (c : TaskContext) : result string :=
  TaskContext_validate c ;; items ← _identity_items c; _digest (JObj items).

Definition TaskContext_canonical_dict (c : TaskContext) : result json :=
  TaskContext_validate c ;;
  items ← _identity_items c;
  Ok (JObj ([("schema_version", JStr (tx_schema_version c))] ++ items ++ [
    ("context_refs", json_strs (tx_context_refs c));
    ("evidence_refs", json_strs (tx_evidence_refs c));
    ("context_version", JInt (tx_context_version c));
    ("parent_context_fingerprint", json_opt_str (tx_parent_context_fingerprint c))])).

Definition TaskContext_fingerprint (c : TaskContext) : result string :=
  d ← TaskContext_canonical_dict c; _digest d.

(** [replace(self, context_refs=..., evidence_refs=..., context_version=..., ...)]. *)
Definition with_refs (c : TaskContext) (context_refs evidence_refs : list string) (version : Z)
    (parent : string) : TaskContext := {|
  tx_task_id := tx_task_id c; tx_session_id := tx_session_id c; tx_trace_id := tx_trace_id c;
  tx_actor_id := tx_actor_id c; tx_intent := tx_intent c; tx_purpose := tx_purpose c;
  tx_project_id := tx_project_id c; tx_risk_class := tx_risk_class c;
  tx_created_at := tx_created_at c; tx_deadline := tx_deadline c;
  tx_resource_budget := tx_resource_budget c; tx_inventory_scope := tx_inventory_scope c;
  tx_task_contract_fingerprint := tx_task_contract_fingerprint c;
  tx_canonical_task_fingerprint := tx_canonical_task_fingerprint c;
  tx_authority_fingerprint := tx_authority_fingerprint c;
  tx_context_refs := context_refs; tx_evidence_refs := evidence_refs; tx_context_version := version;
  tx_parent_context_fingerprint := Some parent; tx_schema_version := tx_schema_version c |}.

Definition derive (c : TaskContext) (context_refs evidence_refs : list string) : result TaskContext :=
  TaskContext_validate c ;;
  merged_context_refs ← _normalize_refs (tx_context_refs c ++ context_refs) "context_ref";
  merged_evidence_refs ← _normalize_refs (tx_evidence_refs c ++ evidence_refs) "evidence_ref";
  tx_fail_if (bool_decide (merged_context_refs = tx_context_refs c)
              && bool_decide (merged_evidence_refs = tx_evidence_refs c))
    "TASK_CONTEXT_DERIVATION_HAS_NO_NEW_REFERENCES" ;;
  parent ← TaskContext_fingerprint c;
  let derived := with_refs c merged_context_refs merged_evidence_refs (tx_context_version c + 1) parent in
  TaskContext_validate derived ;;
  derived_identity ← identity_fingerprint derived;
  identity ← identity_fingerprint c;
  tx_fail_if (negb (bool_decide (derived_identity = identity)))
    "TASK_CONTEXT_IDENTITY_CHANGED_DURING_DERIVATION" ;;
  Ok derived.

Definition bind_context_manifest (c : TaskContext) (m : ContextManifest) : result TaskContext :=
  TaskContext_validate c ;;
  ContextManifest_validate m ;;
  project ← match tx_project_id c with
            | Some p => Ok p
            | None => raise TaskContextError "TASK_CONTEXT_PROJECT_REQUIRED_FOR_MANIFEST"
            end;
  tx_fail_if (negb (bool_decide (cm_project_id m = project))) "TASK_CONTEXT_MANIFEST_PROJECT_MISMATCH" ;;
  tx_fail_if (negb (bool_decide (cm_conversation_id m = tx_session_id c)))
    "TASK_CONTEXT_MANIFEST_SESSION_MISMATCH" ;;
  tx_fail_if (negb (bool_decide (cm_task_id m = tx_task_id c))) "TASK_CONTEXT_MANIFEST_TASK_MISMATCH" ;;
  tx_fail_if (negb (bool_decide (cm_authority_fingerprint m = tx_authority_fingerprint c)))
    "TASK_CONTEXT_MANIFEST_AUTHORITY_MISMATCH" ;;
  fingerprint ← ContextManifest_fingerprint m;
  derive c ["context-manifest:" +:+ cm_context_manifest_id m +:+ ":" +:+ fingerprint] [].

(** [created_at or datetime.now(timezone.utc)]: the clock is the argument [now]. *)
Definition TaskContextBuilder_build (task_contract : TaskContract) (canonical_task : CanonicalTaskSpec)
    (session_id trace_id actor_id purpose : string) (project_id : option string)
    (inventory_scope : list string) (created_at deadline : option datetime) (cost_usd : option pynum)
    (now : datetime) : result TaskContext :=
  TaskContract_validate task_contract ;;
  catch (assert_authority_binding canonical_task task_contract)
    (λ e, bool_decide (exn_cls e = HarnessTaskCompilationError))
    (λ e, raise TaskContextError (exn_msg e)) ;;
  authority ← from_contract task_contract;
  tx_fail_if (negb (bool_decide (ct_task_id canonical_task = tc_task_id task_contract)))
    "TASK_CONTEXT_CANONICAL_TASK_ID_MISMATCH" ;;
  tx_fail_if (negb (bool_decide (ct_authority_fingerprint canonical_task = ca_fingerprint authority)))
    "TASK_CONTEXT_AUTHORITY_BINDING_MISMATCH" ;;
  session ← _compact_id session_id "session_id";
  trace ← _compact_id trace_id "trace_id";
  actor ← _compact_id actor_id "actor_id";
  purpose ← _single_line purpose "purpose" 512;
  opt_check (λ p, _compact_id p "project_id" ;; Ok tt) project_id ;;
  risk ← risk_class_of_level (tc_risk_level task_contract);
  created ← _iso8601 (default now created_at);
  deadline ← match deadline with Some d => Some <$> _iso8601 d | None => Ok None end;
  budget ← TaskResourceBudget_from_contract task_contract cost_usd;
  inventory ← _normalize_refs inventory_scope "inventory_scope";
  contract_fingerprint ← _digest (TaskContract_to_dict task_contract);
  TaskContext_validate {|
    tx_task_id := tc_task_id task_contract; tx_session_id := session; tx_trace_id := trace;
    tx_actor_id := actor; tx_intent := ct_compiled_intent canonical_task; tx_purpose := purpose;
    tx_project_id := project_id; tx_risk_class := risk; tx_created_at := created;
    tx_deadline := deadline; tx_resource_budget := budget; tx_inventory_scope := inventory;
    tx_task_contract_fingerprint := contract_fingerprint;
    tx_canonical_task_fingerprint := CanonicalTaskSpec_fingerprint canonical_task;
    tx_authority_fingerprint := ca_fingerprint authority;
    tx_context_refs := []; tx_evidence_refs := []; tx_context_version := 1;
    tx_parent_context_fingerprint := None; tx_schema_version := TASK_CONTEXT_SCHEMA |}.
End Context.

(** ** References *)

Definition ref_ok (r : string) : Prop :=
  r ≠ "" ∧ r = strip r ∧ len r ≤ 2048 ∧ mem_char newline r = false ∧ mem_char carriage_return r = false.

Lemma mapM_single_line f values items :
  mapM (λ value, _single_line value f 2048) values = Ok items ↔ Forall ref_ok values ∧ items = values.
Proof.
  revert items. induction values as [|v values IH]; intros items; cbn [mapM].
  - split; [by intros [= <-]|by intros [_ ->]].
  - rewrite bind_ok_iff. unfold _single_line at 1. split.
    + intros (x & [-> Hx]%single_line_ok & H). apply bind_ok_iff in H as (xs & Hxs & [= <-]).
      apply IH in Hxs as [? ->]. split; [by constructor|done].
    + intros [[Hx Hxs]%Forall_cons ->]. exists v. split; [by apply single_line_ok|].
      apply bind_ok_iff. exists values. split; [by apply IH|done].
Qed.

Lemma normalize_refs_ok values f l : _normalize_refs values f = Ok l ↔
  Forall ref_ok values ∧ l = dict_fromkeys values ∧ Z.of_nat (length l) ≤ 1024.
Proof.
  unfold _normalize_refs. rewrite bind_ok_iff. setoid_rewrite mapM_single_line. split.
  - intros (u & [Hf ->] & Hk). cbv zeta in Hk. unfold tx_fail_if in Hk.
    rewrite guard_bind_ok, Z.ltb_ge in Hk. destruct Hk as [Hk [= <-]]. done.
  - intros (? & -> & ?). exists values. split; [done|]. unfold tx_fail_if.
    by rewrite guard_bind_ok, Z.ltb_ge.
Qed.

Lemma dict_fromkeys_app l l' : NoDup l → ∃ k, dict_fromkeys (l ++ l') = l ++ k ∧ ∀ x, x ∈ k ↔ x ∈ l' ∧ x ∉ l.
Proof.
  intros Hl. unfold dict_fromkeys.
  assert (∀ seen, (∀ x, x ∈ l → x ∉ seen) →
    ∃ k, dedup_from seen (l ++ l') = l ++ k ∧ ∀ x, x ∈ k ↔ x ∈ l' ∧ x ∉ l ∧ x ∉ seen) as Hgen.
  { induction Hl as [|y l Hy Hl IH]; intros seen Hs.
    - exists (dedup_from seen l'). split; [done|]. intros x. rewrite elem_of_dedup_from. set_solver.
    - cbn [app dedup_from]. rewrite bool_decide_eq_false_2 by set_solver.
      destruct (IH (y :: seen)) as (k & -> & Hk); [set_solver|]. exists k. split; [done|]. set_solver. }
  destruct (Hgen []) as (k & -> & Hk); [set_solver|]. exists k. split; [done|]. set_solver.
Qed.

Lemma dict_fromkeys_idemp l : dict_fromkeys (dict_fromkeys l) = dict_fromkeys l.
Proof. apply dict_fromkeys_id, NoDup_dict_fromkeys. Qed.

Lemma refs_normalized_ok values f msg : refs_normalized values f msg = Ok tt ↔
  Forall ref_ok values ∧ NoDup values ∧ Z.of_nat (length values) ≤ 1024.
Proof.
  unfold refs_normalized, tx_fail_if. rewrite bind_ok_iff. setoid_rewrite normalize_refs_ok.
  setoid_rewrite raise_if_ok. split.
  - intros (? & (? & -> & Hl) & Hb). apply negb_false_iff, bool_decide_eq_true in Hb.
    rewrite Hb in Hl. split_and!; [done| |done]. rewrite <- Hb. apply NoDup_dict_fromkeys.
  - intros (? & Hn & ?). exists values. rewrite (dict_fromkeys_id _ Hn). split; [done|].
    by rewrite bool_decide_eq_true_2.
Qed.

(** ** Valid contexts *)

Lemma validate_binding_ok c : validate_binding c = Ok tt ↔
  TaskResourceBudget_validate (tx_resource_budget c) = Ok (tx_resource_budget c)
  ∧ (Forall ref_ok (tx_inventory_scope c) ∧ NoDup (tx_inventory_scope c)
     ∧ Z.of_nat (length (tx_inventory_scope c)) ≤ 1024)
  ∧ (is_sha256_ref (tx_task_contract_fingerprint c) = true
     ∧ is_sha256_ref (tx_canonical_task_fingerprint c) = true
     ∧ is_sha256_ref (tx_authority_fingerprint c) = true)
  ∧ (Forall ref_ok (tx_context_refs c) ∧ NoDup (tx_context_refs c)
     ∧ Z.of_nat (length (tx_context_refs c)) ≤ 1024)
  ∧ (Forall ref_ok (tx_evidence_refs c) ∧ NoDup (tx_evidence_refs c)
     ∧ Z.of_nat (length (tx_evidence_refs c)) ≤ 1024)
  ∧ ((tx_context_version c = 1 ∧ tx_parent_context_fingerprint c = None)
     ∨ (1 < tx_context_version c ∧ ∃ p, tx_parent_context_fingerprint c = Some p ∧ is_sha256_ref p = true))
  ∧ tx_schema_version c = TASK_CONTEXT_SCHEMA.
Proof.
  unfold validate_binding.
  assert (∀ b, (∃ x, TaskResourceBudget_validate b = Ok x) ↔ TaskResourceBudget_validate b = Ok b) as Hb.
  { intros b. split; [|eauto]. intros [x Hx]. rewrite Hx. f_equal. revert Hx.
    unfold TaskResourceBudget_validate. rewrite !unit_bind_ok. naive_solver. }
  assert (∀ v f k, (∃ x : string, _sha256 v f = Ok x ∧ k) ↔ is_sha256_ref v = true ∧ k) as Hsha.
  { intros v f k. unfold _sha256. setoid_rewrite sha256_ref_ok. naive_solver. }
  assert (∀ b (k : Prop), (∃ x, TaskResourceBudget_validate b = Ok x ∧ k) ↔ TaskResourceBudget_validate b = Ok b ∧ k) as Hb2
    by (intros b k; rewrite <- Hb; naive_solver).
  rewrite bind_ok_iff, Hb2, unit_bind_ok, refs_normalized_ok, bind_ok_iff, Hsha, bind_ok_iff, Hsha,
    bind_ok_iff, Hsha, !unit_bind_ok, !refs_normalized_ok.
  unfold tx_fail_if. rewrite !raise_if_ok, negb_false_iff, bool_decide_eq_true, Z.ltb_ge.
  assert ((1 ≤ tx_context_version c ∧
    (if tx_context_version c =? 1
     then raise_if match tx_parent_context_fingerprint c with Some _ => true | None => false end
            TaskContextError "ROOT_CONTEXT_CANNOT_HAVE_PARENT"
     else match tx_parent_context_fingerprint c with
          | Some p => _sha256 p "parent_context_fingerprint" ;; Ok tt
          | None => raise TaskContextError (invalid "parent_context_fingerprint") end) = Ok tt) ↔
    ((tx_context_version c = 1 ∧ tx_parent_context_fingerprint c = None)
     ∨ (1 < tx_context_version c ∧ ∃ p, tx_parent_context_fingerprint c = Some p ∧ is_sha256_ref p = true)))
    as Hv.
  { destruct (tx_context_version c =? 1) eqn:E; py_prop.
    - rewrite raise_if_ok. destruct (tx_parent_context_fingerprint c); (split;
        [intros [? ?]; first [done|by left]|intros [[? ?]|[? _]]; first [done|lia|split; [lia|done]]]).
    - destruct (tx_parent_context_fingerprint c) as [p|].
      + rewrite bind_ok_iff, Hsha. split; [intros (? & ? & _); right; split; [lia|eauto]|].
        intros [[??]|(? & ? & [= <-] & ?)]; [done|]. split; [lia|done].
      + split; [by intros [_ ?]|]. intros [[? _]|(? & ? & ? & _)]; done. }
  rewrite <- Hv. tauto.
Qed.

(** ** Derivation *)

Section Derivation.
Context {HL : Hashlib}.

Lemma TaskContext_validate_ok c x : TaskContext_validate c = Ok x ↔
  x = c ∧ validate_identity c = Ok tt ∧ validate_binding c = Ok tt.
Proof. unfold TaskContext_validate. rewrite !unit_bind_ok. naive_solver. Qed.

Lemma all_finite_strs l : all_finite (json_strs l) = true.
Proof. unfold json_strs. cbn [all_finite]. induction l as [|s l IH]; [done|]. exact IH. Qed.

Lemma budget_dict_total b : TaskResourceBudget_validate b = Ok b →
  ∃ v, TaskResourceBudget_canonical_dict b = Ok v ∧ all_finite v = true.
Proof.
  intros Hb. unfold TaskResourceBudget_canonical_dict. rewrite Hb. cbn [mbind result_bind].
  unfold TaskResourceBudget_validate in Hb. rewrite !unit_bind_ok in Hb.
  destruct Hb as (_ & _ & _ & Hcost & _).
  destruct b as [[w|] [m|] [t|] [cost|]]; cbn [rb_cost_usd] in *;
    try (apply bind_ok_iff in Hcost as (f & -> & Hf); unfold tx_fail_if in Hf;
         apply raise_if_ok, orb_false_iff in Hf as [Hf%negb_false_iff _]);
    (eexists; split; [reflexivity|]; cbn; by rewrite ?andb_true_r).
Qed.

Lemma identity_items_total c : validate_binding c = Ok tt →
  ∃ items, _identity_items c = Ok items ∧ forallb (λ kv, all_finite kv.2) items = true.
Proof.
  intros (Hb & _)%validate_binding_ok. destruct (budget_dict_total _ Hb) as (v & Hv & Hf).
  unfold _identity_items. rewrite Hv. eexists; split; [reflexivity|].
  assert (∀ o, all_finite (json_opt_str o) = true) as Ho by (intros []; reflexivity).
  cbn [forallb snd]. by rewrite Hf, !Ho, !all_finite_strs.
Qed.

Lemma digest_total v : all_finite v = true → _digest v = Ok (sha256_of_text (print v)).
Proof. intros Hv. unfold _digest, digest, canonical_json, dumps. by rewrite Hv. Qed.

Lemma fingerprints_total c : TaskContext_validate c = Ok c →
  (∃ f, TaskContext_fingerprint c = Ok f ∧ is_sha256_ref f = true)
  ∧ ∃ i, identity_fingerprint c = Ok i.
Proof.
  intros Hc. pose proof Hc as (_ & _ & Hb)%TaskContext_validate_ok.
  destruct (identity_items_total c Hb) as (items & Hi & Hf). split.
  - unfold TaskContext_fingerprint, TaskContext_canonical_dict. rewrite Hc, Hi.
    cbn [mbind result_bind]. rewrite digest_total; [eexists; split; [done|apply sha256_of_text_shape]|].
    cbn [all_finite]. rewrite !forallb_app, Hf.
    cbn [forallb snd]. rewrite !all_finite_strs. by destruct (tx_parent_context_fingerprint c).
  - unfold identity_fingerprint. rewrite Hc, Hi. cbn [mbind result_bind].
    rewrite digest_total by done. eauto.
Qed.

Lemma identity_fingerprint_with_refs c cr er v p :
  TaskContext_validate c = Ok c →
  TaskContext_validate (with_refs c cr er v p) = Ok (with_refs c cr er v p) →
  identity_fingerprint (with_refs c cr er v p) = identity_fingerprint c.
Proof. intros Hc Hd. unfold identity_fingerprint. by rewrite Hc, Hd. Qed.

(** The merged references of a derivation. *)
Definition merged (old new : list string) : list string := dict_fromkeys (old ++ new).

Lemma merged_new old new : NoDup old → merged old new ≠ old ↔ ∃ r, r ∈ new ∧ r ∉ old.
Proof.
  intros Ho. destruct (dict_fromkeys_app old new Ho) as (k & Hk & Hin). unfold merged. rewrite Hk.
  destruct k as [|x k].
  - rewrite app_nil_r. split; [done|]. intros (r & Hr). by apply Hin, not_elem_of_nil in Hr.
  - split; [intros _; exists x; apply Hin; left|].
    intros _ Heq%(f_equal length). rewrite length_app in Heq. cbn in Heq. lia.
Qed.

Lemma merged_prefix old new : NoDup old → old `prefix_of` merged old new.
Proof. intros Ho. destruct (dict_fromkeys_app old new Ho) as (k & Hk & _). by exists k. Qed.

Lemma merged_normalized old new : Forall ref_ok old → Forall ref_ok new →
  Forall ref_ok (merged old new) ∧ NoDup (merged old new).
Proof.
  intros Ho Hn. split; [|apply NoDup_dict_fromkeys].
  rewrite Forall_elem in Ho, Hn |- *. intros r [?|?]%elem_of_dict_fromkeys%elem_of_app; auto.
Qed.

Lemma with_refs_valid c cr er f : TaskContext_validate c = Ok c →
  (Forall ref_ok cr ∧ NoDup cr ∧ Z.of_nat (length cr) ≤ 1024) →
  (Forall ref_ok er ∧ NoDup er ∧ Z.of_nat (length er) ≤ 1024) → is_sha256_ref f = true →
  TaskContext_validate (with_refs c cr er (tx_context_version c + 1) f)
  = Ok (with_refs c cr er (tx_context_version c + 1) f).
Proof.
  intros (_ & Hi & Hb)%TaskContext_validate_ok (? & ? & ?) (? & ? & ?) Hf. apply TaskContext_validate_ok.
  split_and!; [done|exact Hi|]. apply validate_binding_ok.
  apply validate_binding_ok in Hb as (? & (? & ? & ?) & (? & ? & ?) & _ & _ & Hv & ?).
  split_and!; try done.
  right. split; [|by eauto]. cbn [with_refs tx_context_version].
  destruct Hv as [[-> _]|[? _]]; lia.
Qed.

Lemma derive_ok_iff c crs ers d (Hc : TaskContext_validate c = Ok c) :
  derive c crs ers = Ok d ↔
  Forall ref_ok crs ∧ Forall ref_ok ers
  ∧ Z.of_nat (length (merged (tx_context_refs c) crs)) ≤ 1024
  ∧ Z.of_nat (length (merged (tx_evidence_refs c) ers)) ≤ 1024
  ∧ (∃ r, r ∈ crs ∧ r ∉ tx_context_refs c ∨ r ∈ ers ∧ r ∉ tx_evidence_refs c)
  ∧ ∃ f, TaskContext_fingerprint c = Ok f
    ∧ d = with_refs c (merged (tx_context_refs c) crs) (merged (tx_evidence_refs c) ers)
            (tx_context_version c + 1) f.
Proof.
  pose proof Hc as (_ & _ & Hb)%TaskContext_validate_ok.
  apply validate_binding_ok in Hb as (_ & _ & _ & (Hcf & Hcn & _) & (Hef & Hen & _) & _).
  destruct (fingerprints_total c Hc) as [(f & Hf & Hsha) (i & Hi)].
  set (cr := merged (tx_context_refs c) crs). set (er := merged (tx_evidence_refs c) ers).
  assert (cr ≠ tx_context_refs c ∨ er ≠ tx_evidence_refs c ↔
    ∃ r, r ∈ crs ∧ r ∉ tx_context_refs c ∨ r ∈ ers ∧ r ∉ tx_evidence_refs c) as Hnew.
  { unfold cr, er. rewrite !merged_new by done. naive_solver. }
  assert (Forall ref_ok crs → Forall ref_ok ers → Z.of_nat (length cr) ≤ 1024 → Z.of_nat (length er) ≤ 1024 →
    let d := with_refs c cr er (tx_context_version c + 1) f in
    TaskContext_validate d = Ok d ∧ identity_fingerprint d = Ok i) as Hd.
  { intros ???? d'. assert (TaskContext_validate d' = Ok d') as Hd'
      by (apply with_refs_valid; try done; split_and!; try done; by apply merged_normalized).
    split; [done|]. rewrite <- Hi. by apply identity_fingerprint_with_refs. }
  rewrite <- Hnew. unfold derive. rewrite Hc. cbn [mbind result_bind].
  rewrite bind_ok_iff. setoid_rewrite normalize_refs_ok. unfold tx_fail_if.
  rewrite Hf, Hi. cbn [mbind result_bind]. cbv zeta. split.
  - intros (? & ([_ Hcrs]%Forall_app & -> & Hl1) & Hk).
    apply bind_ok_iff in Hk as (? & ([_ Hers]%Forall_app & -> & Hl2)%normalize_refs_ok & Hk).
    apply guard_bind_ok in Hk as [Hn%andb_false_iff Hk]. rewrite !bool_decide_eq_false in Hn.
    fold (merged (tx_context_refs c) crs) cr in Hl1, Hn, Hk.
    fold (merged (tx_evidence_refs c) ers) er in Hl2, Hn, Hk.
    destruct (Hd Hcrs Hers Hl1 Hl2) as [Hv Hid]. rewrite Hv, Hid in Hk. cbn in Hk.
    rewrite bool_decide_eq_true_2 in Hk by done. injection Hk as <-. split_and!; eauto.
  - intros (Hcrs & Hers & Hl1 & Hl2 & Hn & ? & [= <-] & ->).
    exists cr. split; [split_and!; [by apply Forall_app|done|done]|].
    apply bind_ok_iff. exists er. split; [apply normalize_refs_ok; split_and!; [by apply Forall_app|done|done]|].
    apply guard_bind_ok. rewrite andb_false_iff, !bool_decide_eq_false. split; [done|].
    destruct (Hd Hcrs Hers Hl1 Hl2) as [Hv Hid]. rewrite Hv, Hid. cbn.
    by rewrite bool_decide_eq_true_2.
Qed.
(** One enrichment: a call of [derive] or of [bind_context_manifest] that returns. *)
Inductive enriched (c : TaskContext) : TaskContext → Prop :=
  | enriched_derive crs ers d : derive c crs ers = Ok d → enriched c d
  | enriched_manifest m d : bind_context_manifest c m = Ok d → enriched c d.

Lemma bind_context_manifest_derives c m d : bind_context_manifest c m = Ok d →
  ∃ f, ContextManifest_fingerprint m = Ok f ∧ cm_task_id m = tx_task_id c
  ∧ cm_conversation_id m = tx_session_id c ∧ tx_project_id c = Some (cm_project_id m)
  ∧ cm_authority_fingerprint m = tx_authority_fingerprint c
  ∧ derive c ["context-manifest:" +:+ cm_context_manifest_id m +:+ ":" +:+ f] [] = Ok d.
Proof.
  unfold bind_context_manifest, tx_fail_if. intros H. inv_ok. bool_prop.
  destruct (tx_project_id c) as [p|]; inv_ok. eexists. split_and!; eauto; congruence.
Qed.

Lemma enriched_is_derive c d : enriched c d → ∃ crs ers, derive c crs ers = Ok d.
Proof.
  destruct 1 as [crs ers d Hd|m d Hd]; [eauto|].
  apply bind_context_manifest_derives in Hd as (f & _ & _ & _ & _ & _ & Hd). eauto.
Qed.

(** The part of a context that no enrichment may change. *)
Definition fixed_part (c : TaskContext) : TaskContext := with_refs c [] [] 0 "".

(** What [n] enrichments keep and what they add. *)
Definition extends (n : nat) (c d : TaskContext) : Prop :=
  TaskContext_validate d = Ok d
  ∧ fixed_part d = fixed_part c
  ∧ identity_fingerprint d = identity_fingerprint c
  ∧ tx_context_refs c `prefix_of` tx_context_refs d
  ∧ tx_evidence_refs c `prefix_of` tx_evidence_refs d
  ∧ tx_context_version d = tx_context_version c + Z.of_nat n.

Lemma enriched_extends c d : TaskContext_validate c = Ok c → enriched c d →
  extends 1 c d ∧ ∃ f, TaskContext_fingerprint c = Ok f ∧ tx_parent_context_fingerprint d = Some f.
Proof.
  intros Hc (crs & ers & Hd)%enriched_is_derive. pose proof Hc as (_ & _ & Hb)%TaskContext_validate_ok.
  apply validate_binding_ok in Hb as (_ & _ & _ & (Hcf & Hcn & _) & (Hef & Hen & _) & _).
  apply derive_ok_iff in Hd as (Hcrs & Hers & Hl1 & Hl2 & _ & f & Hf & ->); [|done].
  destruct (fingerprints_total c Hc) as [(f' & Hf' & Hsha) _].
  assert (f' = f) as -> by congruence.
  assert (TaskContext_validate _ = Ok _) as Hd
    by (apply (with_refs_valid c (merged (tx_context_refs c) crs) (merged (tx_evidence_refs c) ers) f);
        try done; split_and!; try done; by apply merged_normalized).
  split; [|by exists f]. split_and!; try done.
  - by apply identity_fingerprint_with_refs.
  - by apply merged_prefix.
  - by apply merged_prefix.
Qed.

Lemma validate_identity_deadline c : validate_identity c = Ok tt →
  ∀ d, tx_deadline c = Some d → ∃ created deadline,
    as_datetime (tx_created_at c) = Ok created ∧ as_datetime d = Ok deadline
    ∧ instant created < instant deadline.
Proof.
  unfold validate_identity, tx_fail_if, _timestamp. intros H d Hd. inv_ok. rewrite Hd in H.
  cbn [opt_check] in H. inv_ok. py_prop.
  repeat match goal with E : timestamp _ _ _ = Ok _ |- _ => apply timestamp_id in E; subst end. eauto.
Qed.

Lemma budget_rounds_up c cost b : TaskResourceBudget_from_contract c cost = Ok b →
  ∃ w, rb_wall_time_s b = Some w
  ∧ 1000 * (w - 1) < max_wall_time_ms (tc_execution_budget c) ≤ 1000 * w.
Proof.
  unfold TaskResourceBudget_from_contract, TaskResourceBudget_validate. intros H. inv_ok.
  eexists. split; [reflexivity|].
  pose proof (Z.div_mod (max_wall_time_ms (tc_execution_budget c) + 999) 1000).
  pose proof (Z.mod_pos_bound (max_wall_time_ms (tc_execution_budget c) + 999) 1000). lia.
Qed.

(** on a valid context [derive] succeeds exactly when every new reference is a clean
    single line of at most 2048 characters, the merged lists stay within 1024 entries and
    at least one reference is new; the result is the same context with the merged references
    (old ones first, in order, then the new ones without repetition), the next version number
    and the fingerprint of its parent. The check that the identity is unchanged never fires. *)
Theorem derive_exact c crs ers d (Hc : TaskContext_validate c = Ok c) :
  derive c crs ers = Ok d ↔
  Forall ref_ok crs ∧ Forall ref_ok ers
  ∧ Z.of_nat (length (merged (tx_context_refs c) crs)) ≤ 1024
  ∧ Z.of_nat (length (merged (tx_evidence_refs c) ers)) ≤ 1024
  ∧ (∃ r, r ∈ crs ∧ r ∉ tx_context_refs c ∨ r ∈ ers ∧ r ∉ tx_evidence_refs c)
  ∧ ∃ f, TaskContext_fingerprint c = Ok f
    ∧ d = with_refs c (merged (tx_context_refs c) crs) (merged (tx_evidence_refs c) ers)
            (tx_context_version c + 1) f.
Proof. by apply derive_ok_iff. Qed.

(** However often a valid context is enriched by [derive] and [bind_context_manifest], the
    result is valid, everything but the references is unchanged, the identity fingerprint
    is the root's, the root's references stay a prefix of the current ones, the version counts the
    enrichments, and the parent fingerprint is that of the context enriched last. *)
Theorem lineage n c d (Hc : TaskContext_validate c = Ok c) (Hs : nsteps enriched n c d) :
  extends n c d
  ∧ match n with
    | O => True
    | S k => ∃ p f, nsteps enriched k c p ∧ enriched p d
        ∧ TaskContext_fingerprint p = Ok f ∧ tx_parent_context_fingerprint d = Some f
    end.
Proof.
  revert d Hs. induction n as [|n IH]; intros d Hs.
  - inversion Hs; subst. split; [|done]. split_and!; try done. lia.
  - apply nsteps_inv_r in Hs as (p & Hp & Hpd).
    destruct (IH p Hp) as [(Hv & Hfix & Hid & Hcr & Her & Hver) _].
    destruct (enriched_extends p d Hv Hpd) as [(Hv' & Hfix' & Hid' & Hcr' & Her' & Hver') (f & Hf & Hpar)].
    split; [|by exists p, f]. split_and!; try done; [congruence|congruence|by etrans|by etrans|lia].
Qed.

(** a context the builder returns is a valid root of the contract's task: version 1, no
    references and no parent, the task id, the authority fingerprint and the contract digest of
    the contract, the compiled intent of the canonical task, whose task id and authority
    fingerprint are the contract's, a deadline that is later than the creation time, and a wall
    time in seconds that is the contract's milliseconds rounded up. *)
Theorem build_root contract task session trace actor purpose project scope created deadline cost now c
    (Hb : TaskContextBuilder_build contract task session trace actor purpose project scope created
            deadline cost now = Ok c) :
  TaskContext_validate c = Ok c
  ∧ tx_context_version c = 1 ∧ tx_context_refs c = [] ∧ tx_evidence_refs c = []
  ∧ tx_parent_context_fingerprint c = None
  ∧ (∃ a, from_contract contract = Ok a ∧ tx_authority_fingerprint c = ca_fingerprint a
      ∧ ct_authority_fingerprint task = ca_fingerprint a)
  ∧ tx_task_id c = tc_task_id contract ∧ ct_task_id task = tc_task_id contract
  ∧ tx_intent c = ct_compiled_intent task
  ∧ _digest (TaskContract_to_dict contract) = Ok (tx_task_contract_fingerprint c)
  ∧ (∀ d, tx_deadline c = Some d → ∃ created' deadline',
      as_datetime (tx_created_at c) = Ok created' ∧ as_datetime d = Ok deadline'
      ∧ instant created' < instant deadline')
  ∧ ∃ w, rb_wall_time_s (tx_resource_budget c) = Some w
    ∧ 1000 * (w - 1) < max_wall_time_ms (tc_execution_budget contract) ≤ 1000 * w.
Proof.
  unfold TaskContextBuilder_build, tx_fail_if in Hb. inv_ok. bool_prop.
  apply TaskContext_validate_ok in Hb as Hv. destruct Hv as (-> & Hi & _).
  split_and!; try done; [by eexists|by apply validate_identity_deadline|].
  eapply budget_rounds_up; eassumption.
Qed.
End Derivation.

(** A public retrieval task that cites one document. *)
Section Examples.
#[local] Existing Instance checksum_hashlib.

Definition sample_contract : TaskContract := Eval vm_compute in ok_of (compile no_llm_request).

Definition sample_authority : string := Eval vm_compute in
  ca_fingerprint (ok_of (from_contract sample_contract)).

Definition sample_task : CanonicalTaskSpec := {|
  ct_task_id := tc_task_id sample_contract; ct_task_type := "retrieval";
  ct_sensitivity := "restricted"; ct_risk_level := "high"; ct_compiled_intent := "Find the report";
  ct_prompt_compiler_version := "v1"; ct_original_sha256 := ""; ct_compiled_sha256 := "";
  ct_task_contract_schema := tc_schema_version sample_contract;
  ct_authority_fingerprint := sample_authority;
  ct_acceptance_fingerprint := ""; ct_schema_version := CANONICAL_TASK_SCHEMA; ct_compiler_version := "v1" |}.

Definition sample_time : datetime := {| dt_local := 63850147200 * second; dt_offset := Some 0 |}.

Definition sample_build : result TaskContext :=
  TaskContextBuilder_build sample_contract sample_task "session-1" "trace-1" "actor-1" "retrieval" None
    ["inventory:docs"] (Some sample_time) None None sample_time.

Definition sample_context : TaskContext := Eval vm_compute in ok_of sample_build.

Definition sample_context_2 : TaskContext := Eval vm_compute in
  ok_of (derive sample_context ["doc:a"; "doc:b"; "doc:a"] []).

Lemma derive_exact_witness :
  derive sample_context ["doc:a"; "doc:b"; "doc:a"] [] = Ok sample_context_2
  ∧ ∃ r, (r ∈ ["doc:a"; "doc:b"; "doc:a"] ∧ r ∉ tx_context_refs sample_context)
      ∨ (r ∈ [] ∧ r ∉ tx_evidence_refs sample_context).
Proof.
  assert (derive sample_context ["doc:a"; "doc:b"; "doc:a"] [] = Ok sample_context_2) as H
    by (vm_compute; reflexivity).
  split; [exact H|].
  exact (proj1 (proj2 (proj2 (proj2 (proj2 (proj1
    (derive_exact sample_context ["doc:a"; "doc:b"; "doc:a"] [] sample_context_2
      ltac:(vm_compute; reflexivity)) H)))))).
Defined.

Lemma lineage_witness :
  extends 1 sample_context sample_context_2 ∧ tx_context_refs sample_context_2 = ["doc:a"; "doc:b"].
Proof.
  split; [|reflexivity].
  refine (proj1 (lineage 1 sample_context sample_context_2 _ _)); [vm_compute; reflexivity|].
  apply nsteps_once, (enriched_derive _ ["doc:a"; "doc:b"; "doc:a"] []). vm_compute. reflexivity.
Defined.

Lemma build_root_witness :
  TaskContext_validate sample_context = Ok sample_context ∧ tx_context_version sample_context = 1.
Proof.
  assert (sample_build = Ok sample_context) as H by (vm_compute; reflexivity).
  destruct (build_root sample_contract sample_task "session-1" "trace-1" "actor-1" "retrieval" None
    ["inventory:docs"] (Some sample_time) None None sample_time sample_context H) as (Hv & Hn & _).
  split; [exact Hv|exact Hn].
Defined.
End Examples.
