(* ===== verification/ExecutionPlan.v ===== *)
(** * Execution plans

    [execution_plan.py]: the promotion of a validated workflow graph into a canonical plan
    whose nodes carry an attenuated authority, a budget and their evidence requirements.
    A plan authorizes nothing: it is checked again, against the authority it was built
    from, by every consumer. *)

From Stdlib Require Import SpecFloat.
From Stdlib Require String.
From S2P Require Import Prelude PyStr Hashlib PyFloat Json JsonFacts PyTime Validators TaskContract.
From S2P Require Import CapabilityAuthority AuthorityFacts WorkflowDesign WorkflowGraph.
From S2P Require Import WorkflowFacts ContextManifest TaskContext.

Local Open Scope Z_scope.

Definition EXECUTION_NODE_SCHEMA : string := "workspace-execution-node/v1".
Definition EXECUTION_PLAN_SCHEMA : string := "workspace-execution-plan/v1".
Definition MAX_EVIDENCE_REQUIREMENTS : Z := 16.

Definition _RISK_RANK : list (string * Z) := [("R0", 0); ("R1", 1); ("R2", 2); ("R3", 3); ("R4", 4)].
Definition _WORKFLOW_RISK_CLASS : list (string * string) :=
  [("low", "R1"); ("medium", "R2"); ("high", "R3"); ("critical", "R4")].

(** [table[key]] *)
Definition index {A} (key : string) (table : list (string * A)) : result A :=
  match table_get key table with Some v => Ok v | None => raise PyKeyError key end.

Definition xp_fail_if (b : bool) (msg : string) : result unit := raise_if b ExecutionPlanError msg.

Definition _sha256 : string → string → result string := sha256_ref ExecutionPlanError.
Definition _single_line : string → string → Z → result string := single_line ExecutionPlanError.
Definition _canonical_json : json → result string :=
  canonical_json ExecutionPlanError "EXECUTION_PLAN_NOT_CANONICAL_JSON".

(** [tuple(sorted(set))]. *)
Definition sorted_set (l : list string) : list string := sorted_str (dict_fromkeys l).

Definition _normalize_requirements (values : list string) : result (list string) :=
  items ← mapM (λ value, _single_line value "evidence_requirement" 256) values;
  let normalized := sorted_set items in
  xp_fail_if (MAX_EVIDENCE_REQUIREMENTS <? Z.of_nat (length normalized)) "TOO_MANY_EVIDENCE_REQUIREMENTS" ;;
  Ok normalized.

Definition _normalize_scope (value : write_scope_t) : write_scope_t :=
  match value with
  | WsStr s => WsStr s
  | WsTuple l => WsTuple (sorted_set l)
  end.

(** ** Budgets *)

Definition _zero_budget : TaskResourceBudget :=
  {| rb_wall_time_s := Some 0; rb_model_tokens := Some 0; rb_tool_calls := Some 0; rb_cost_usd := None |}.

(** [for field_name in ("wall_time_s", ...)], with [getattr(budget, field_name)]. *)
Definition budget_fields : list (string * (TaskResourceBudget → option pynum)) := [
  ("wall_time_s", λ b, NInt <$> rb_wall_time_s b);
  ("model_tokens", λ b, NInt <$> rb_model_tokens b);
  ("tool_calls", λ b, NInt <$> rb_tool_calls b);
  ("cost_usd", rb_cost_usd)].

Definition _budget_dimension_is_subset (child parent : option pynum) : bool :=
  match parent, child with
  | None, None => true
  | None, Some _ => false
  | Some _, None => false
  | Some p, Some c => num_le c p
  end.

Definition _require_budget_subset (child parent : TaskResourceBudget) : result unit :=
  TaskResourceBudget_validate child ;;
  TaskResourceBudget_validate parent ;;
  iterM (λ '(name, get), xp_fail_if (negb (_budget_dimension_is_subset (get child) (get parent)))
      ("EXECUTION_NODE_BUDGET_EXCEEDS_TASK_" +:+ upper name)) budget_fields.

Definition is_none {A} (v : option A) : bool := match v with None => true | Some _ => false end.

(** One dimension: no child value where the parent has none, and the sum of all child
    values within the parent's. *)
Definition aggregate_dimension (name : string) (children : list (option pynum)) (parent : option pynum)
    : result unit :=
  match parent with
  | None => xp_fail_if (existsb (λ v, negb (is_none v)) children)
              ("EXECUTION_PLAN_BUDGET_DIMENSION_NOT_BOUND_" +:+ upper name)
  | Some parent_value =>
      xp_fail_if (existsb is_none children) ("EXECUTION_PLAN_BUDGET_DIMENSION_MISSING_" +:+ upper name) ;;
      total ← num_sum (omap id children);
      xp_fail_if (num_gt total parent_value) ("EXECUTION_PLAN_BUDGET_EXCEEDS_TASK_" +:+ upper name)
  end.

(** ** Bindings and nodes *)

Record ExecutionNodeBinding := {
  nb_allowed_sources : list string;
  nb_allowed_tools : list string;
  nb_write_scope : write_scope_t;
  nb_network_scope : string;
  nb_resource_budget : TaskResourceBudget;
  nb_evidence_requirements : list string;
  nb_approval_required : bool
}.

(** [ExecutionNodeBinding()]. *)
Definition default_binding : ExecutionNodeBinding := {|
  nb_allowed_sources := []; nb_allowed_tools := []; nb_write_scope := WsStr "none";
  nb_network_scope := "deny"; nb_resource_budget := _zero_budget; nb_evidence_requirements := [];
  nb_approval_required := false |}.

Definition normalized (b : ExecutionNodeBinding) : result ExecutionNodeBinding :=
  TaskResourceBudget_validate (nb_resource_budget b) ;;
  network ← _single_line (nb_network_scope b) "network_scope" 64;
  requirements ← _normalize_requirements (nb_evidence_requirements b);
  Ok {| nb_allowed_sources := sorted_set (nb_allowed_sources b);
        nb_allowed_tools := sorted_set (nb_allowed_tools b);
        nb_write_scope := _normalize_scope (nb_write_scope b);
        nb_network_scope := network; nb_resource_budget := nb_resource_budget b;
        nb_evidence_requirements := requirements; nb_approval_required := nb_approval_required b |}.

Record ExecutionNode := {
  en_node_id : string;
  en_label : string;
  en_kind : string;
  en_action : string;
  en_depends_on : list string;
  en_condition : option string;
  en_approval_required : bool;
  en_execution_level : Z;
  en_authority_task_id : string;
  en_authority_fingerprint : string;
  en_allowed_sources : list string;
  en_allowed_tools : list string;
  en_write_scope : write_scope_t;
  en_network_scope : string;
  en_resource_budget : TaskResourceBudget;
  en_evidence_requirements : list string;
  en_workflow_node_fingerprint : string;
  en_schema_version : string
}.

Definition ExecutionNode_canonical_dict (n : ExecutionNode) : result json :=
  _sha256 (en_authority_fingerprint n) "authority_fingerprint" ;;
  _sha256 (en_workflow_node_fingerprint n) "workflow_node_fingerprint" ;;
  TaskResourceBudget_validate (en_resource_budget n) ;;
  xp_fail_if (negb (bool_decide (en_schema_version n = EXECUTION_NODE_SCHEMA)))
    "EXECUTION_NODE_SCHEMA_VERSION_MISMATCH" ;;
  xp_fail_if (en_execution_level n <? 0) "INVALID_EXECUTION_LEVEL" ;;
  requirements ← _normalize_requirements (en_evidence_requirements n);
  xp_fail_if (negb (bool_decide (requirements = en_evidence_requirements n)))
    "EVIDENCE_REQUIREMENTS_NOT_NORMALIZED" ;;
  budget ← TaskResourceBudget_canonical_dict (en_resource_budget n);
  Ok (JObj [
    ("schema_version", JStr (en_schema_version n));
    ("node_id", JStr (en_node_id n)); ("label", JStr (en_label n)); ("kind", JStr (en_kind n));
    ("action", JStr (en_action n)); ("depends_on", json_strs (en_depends_on n));
    ("condition", json_opt_str (en_condition n));
    ("approval_required", JBool (en_approval_required n));
    ("execution_level", JInt (en_execution_level n));
    ("authority_task_id", JStr (en_authority_task_id n));
    ("authority_fingerprint", JStr (en_authority_fingerprint n));
    ("authority_projection", JObj [
       ("allowed_sources", json_strs (en_allowed_sources n));
       ("allowed_tools", json_strs (en_allowed_tools n));
       ("write_scope", write_scope_json (en_write_scope n));
       ("network_scope", JStr (en_network_scope n))]);
    ("resource_budget", budget);
    ("evidence_requirements", json_strs (en_evidence_requirements n));
    ("workflow_node_fingerprint", JStr (en_workflow_node_fingerprint n));
    ("execution_authorized", JBool false)]).

Definition _require_aggregate_budget (nodes : list ExecutionNode) (parent : TaskResourceBudget) : result unit :=
  iterM (λ '(name, get), aggregate_dimension name (map (get ∘ en_resource_budget) nodes) (get parent))
    budget_fields.

Record ExecutionPlan := {
  xp_task_id : string;
  xp_task_context_fingerprint : string;
  xp_task_context_identity_fingerprint : string;
  xp_task_risk_class : string;
  xp_parent_authority_fingerprint : string;
  xp_task_resource_budget : TaskResourceBudget;
  xp_workflow_contract_json : string;
  xp_workflow_contract_fingerprint : string;
  xp_nodes : list ExecutionNode;
  xp_schema_version : string;
  xp_execution_authorized : bool;
  xp_execution_mode : string
}.

(** [{node["id"]: node for node in workflow["nodes"]}]. *)
Definition workflow_by_id (nodes : list wf_node) : gmap string wf_node :=
  fold_left (λ m n, <[wn_id n := n]> m) nodes ∅.

Section Plan.
Context {HL : Hashlib}.

Definition _digest : json → result string :=
  digest ExecutionPlanError "EXECUTION_PLAN_NOT_CANONICAL_JSON".

Definition _child_task_id (task_id node_id : string) : string :=
  let candidate := task_id +:+ ":" +:+ node_id in
  if len candidate <=? 128 then candidate
  else "node:" +:+ take_str 32 (sha256_hexdigest (utf8_encode candidate)) +:+ ":" +:+ node_id.

Definition ExecutionNode_fingerprint (n : ExecutionNode) : result string :=
  d ← ExecutionNode_canonical_dict n; _digest d.

(** [except (CapabilityAuthorityDenied, ValueError)]. *)
Definition denied_or_value_error (c : exn_class) : bool :=
  bool_decide (c = CapabilityAuthorityDenied) || is_value_error c.

Definition rebind_authority (n : ExecutionNode) (parent : TaskCapabilityAuthority)
    : result TaskCapabilityAuthority :=
  rebound ← reraise
    (derive_child parent (en_authority_task_id n) (Some (en_allowed_sources n)) (Some (en_allowed_tools n))
       (Some (en_write_scope n)) (Some (en_network_scope n)))
    denied_or_value_error ExecutionPlanError ("EXECUTION_NODE_AUTHORITY_REBIND_FAILED:" +:+ en_node_id n);
  xp_fail_if (negb (bool_decide (ca_fingerprint rebound = en_authority_fingerprint n)))
    ("EXECUTION_NODE_AUTHORITY_FINGERPRINT_MISMATCH:" +:+ en_node_id n) ;;
  Ok rebound.

Definition _validated_workflow (p : ExecutionPlan) : result wf_contract :=
  raw ← reraise (loads (xp_workflow_contract_json p))
    (λ c, bool_decide (c = PyTypeError) || bool_decide (c = PyJSONDecodeError))
    ExecutionPlanError "INVALID_WORKFLOW_CONTRACT_JSON";
  workflow ← reraise (validate_contract raw) (is_class WorkflowDesignError)
    ExecutionPlanError "INVALID_WORKFLOW_CONTRACT";
  canonical ← _canonical_json (contract_json workflow);
  xp_fail_if (negb (bool_decide (canonical = xp_workflow_contract_json p)))
    "WORKFLOW_CONTRACT_NOT_CANONICAL" ;;
  fingerprint ← _digest (contract_json workflow);
  xp_fail_if (negb (bool_decide (fingerprint = xp_workflow_contract_fingerprint p)))
    "WORKFLOW_CONTRACT_FINGERPRINT_MISMATCH" ;;
  Ok workflow.

(** The workflow is not classified below the task. *)
Definition risk_check (workflow_risk_level task_risk_class : string) : result unit :=
  workflow_risk ← index workflow_risk_level _WORKFLOW_RISK_CLASS;
  workflow_rank ← index workflow_risk _RISK_RANK;
  task_rank ← index task_risk_class _RISK_RANK;
  xp_fail_if (workflow_rank <? task_rank) "EXECUTION_PLAN_RISK_UNDERCLASSIFIED".

(** One round of the loop over the nodes of a plan. *)
Definition check_node (by_id : gmap string wf_node) (levels : gmap string Z) (seen : list string)
    (n : ExecutionNode) : result (list string) :=
  xp_fail_if (mem_str (en_node_id n) seen) "DUPLICATE_EXECUTION_NODE_ID" ;;
  source ← match by_id !! en_node_id n with
           | Some s => Ok s
           | None => raise ExecutionPlanError "EXECUTION_NODE_NOT_IN_WORKFLOW"
           end;
  source_fingerprint ← _digest (node_json source);
  xp_fail_if (negb (bool_decide (en_workflow_node_fingerprint n = source_fingerprint)))
    ("EXECUTION_NODE_WORKFLOW_FINGERPRINT_MISMATCH:" +:+ en_node_id n) ;;
  let mismatch := "EXECUTION_NODE_WORKFLOW_PROJECTION_MISMATCH:" +:+ en_node_id n in
  xp_fail_if (negb (bool_decide (en_label n = wn_label source) && bool_decide (en_kind n = wn_kind source)
              && bool_decide (en_action n = wn_action source)
              && bool_decide (en_depends_on n = wn_depends_on source)
              && bool_decide (en_condition n = wn_condition source))) mismatch ;;
  level ← match levels !! en_node_id n with
          | Some l => Ok l
          | None => raise PyKeyError (en_node_id n)
          end;
  xp_fail_if (negb (en_execution_level n =? level)) mismatch ;;
  let weakened := "EXECUTION_NODE_APPROVAL_WEAKENED:" +:+ en_node_id n in
  xp_fail_if (wn_approval_required source && negb (en_approval_required n)) weakened ;;
  xp_fail_if (bool_decide (wn_kind source = "approval") && negb (en_approval_required n)) weakened ;;
  ExecutionNode_canonical_dict n ;;
  Ok (en_node_id n :: seen).

Definition check_parent (p : ExecutionPlan) (parent : TaskCapabilityAuthority) : result unit :=
  xp_fail_if (negb (bool_decide (ca_task_id parent = xp_task_id p))) "EXECUTION_PLAN_PARENT_TASK_MISMATCH" ;;
  xp_fail_if (negb (bool_decide (ca_fingerprint parent = xp_parent_authority_fingerprint p)))
    "EXECUTION_PLAN_PARENT_AUTHORITY_MISMATCH" ;;
  iterM (λ n, rebind_authority n parent ;; Ok tt) (xp_nodes p).

Definition ExecutionPlan_validate (p : ExecutionPlan) (parent : option TaskCapabilityAuthority)
    : result ExecutionPlan :=
  xp_fail_if (negb (bool_decide (xp_schema_version p = EXECUTION_PLAN_SCHEMA)))
    "EXECUTION_PLAN_SCHEMA_VERSION_MISMATCH" ;;
  _sha256 (xp_task_context_fingerprint p) "task_context_fingerprint" ;;
  _sha256 (xp_task_context_identity_fingerprint p) "task_context_identity_fingerprint" ;;
  _sha256 (xp_parent_authority_fingerprint p) "parent_authority_fingerprint" ;;
  _sha256 (xp_workflow_contract_fingerprint p) "workflow_contract_fingerprint" ;;
  xp_fail_if (negb (mem_str (xp_task_risk_class p) (map fst _RISK_RANK))) "INVALID_TASK_RISK_CLASS" ;;
  TaskResourceBudget_validate (xp_task_resource_budget p) ;;
  xp_fail_if (negb ((2 <=? Z.of_nat (length (xp_nodes p))) && (Z.of_nat (length (xp_nodes p)) <=? MAX_NODES)))
    "INVALID_EXECUTION_PLAN_NODE_COUNT" ;;
  workflow ← _validated_workflow p;
  risk_check (wc_risk_level workflow) (xp_task_risk_class p) ;;
  '(order, levels) ← _graph (wc_nodes workflow);
  xp_fail_if (negb (bool_decide (order = map en_node_id (xp_nodes p)))) "EXECUTION_PLAN_TOPOLOGY_MISMATCH" ;;
  foldM (check_node (workflow_by_id (wc_nodes workflow)) levels) [] (xp_nodes p) ;;
  _require_aggregate_budget (xp_nodes p) (xp_task_resource_budget p) ;;
  opt_check (check_parent p) parent ;;
  xp_fail_if (xp_execution_authorized p || negb (bool_decide (xp_execution_mode p = "plan_only")))
    "EXECUTION_PLAN_CANNOT_AUTHORIZE_EXECUTION" ;;
  Ok p.

Definition ExecutionPlan_canonical_dict (p : ExecutionPlan) : result json :=
  ExecutionPlan_validate p None ;;
  workflow ← loads (xp_workflow_contract_json p);
  budget ← TaskResourceBudget_canonical_dict (xp_task_resource_budget p);
  nodes ← mapM ExecutionNode_canonical_dict (xp_nodes p);
  Ok (JObj [
    ("schema_version", JStr (xp_schema_version p));
    ("task_id", JStr (xp_task_id p));
    ("task_context_fingerprint", JStr (xp_task_context_fingerprint p));
    ("task_context_identity_fingerprint", JStr (xp_task_context_identity_fingerprint p));
    ("task_risk_class", JStr (xp_task_risk_class p));
    ("parent_authority_fingerprint", JStr (xp_parent_authority_fingerprint p));
    ("task_resource_budget", budget);
    ("workflow_contract", workflow);
    ("workflow_contract_fingerprint", JStr (xp_workflow_contract_fingerprint p));
    ("nodes", JList nodes);
    ("execution_authorized", JBool false);
    ("execution_mode", JStr "plan_only")]).

Definition ExecutionPlan_fingerprint (p : ExecutionPlan) : result string :=
  d ← ExecutionPlan_canonical_dict p; _digest d.

Definition rebind_authorities (p : ExecutionPlan) (parent : TaskCapabilityAuthority)
    : result (gmap string TaskCapabilityAuthority) :=
  ExecutionPlan_validate p (Some parent) ;;
  foldM (λ m n, rebound ← rebind_authority n parent; Ok (<[en_node_id n := rebound]> m)) ∅ (xp_nodes p).

(** ** The builder *)

Definition build_node (task_context : TaskContext) (parent : TaskCapabilityAuthority)
    (by_id : gmap string wf_node) (levels : gmap string Z) (bindings : gmap string ExecutionNodeBinding)
    (node_id : string) : result ExecutionNode :=
  source ← match by_id !! node_id with Some s => Ok s | None => raise PyKeyError node_id end;
  binding ← normalized (default default_binding (bindings !! node_id));
  _require_budget_subset (nb_resource_budget binding) (tx_resource_budget task_context) ;;
  child ← reraise
    (derive_child parent (_child_task_id (tx_task_id task_context) node_id)
       (Some (nb_allowed_sources binding)) (Some (nb_allowed_tools binding))
       (Some (nb_write_scope binding)) (Some (nb_network_scope binding)))
    denied_or_value_error ExecutionPlanError ("EXECUTION_NODE_AUTHORITY_ESCALATION:" +:+ node_id);
  level ← match levels !! node_id with Some l => Ok l | None => raise PyKeyError node_id end;
  fingerprint ← _digest (node_json source);
  Ok {| en_node_id := node_id; en_label := wn_label source; en_kind := wn_kind source;
        en_action := wn_action source; en_depends_on := wn_depends_on source;
        en_condition := wn_condition source;
        en_approval_required := wn_approval_required source || bool_decide (wn_kind source = "approval")
          || bool_decide (wn_action source = "human_approval") || nb_approval_required binding;
        en_execution_level := level;
        en_authority_task_id := ca_task_id child; en_authority_fingerprint := ca_fingerprint child;
        en_allowed_sources := ca_allowed_sources child; en_allowed_tools := ca_allowed_tools child;
        en_write_scope := ca_write_scope child; en_network_scope := ca_network_scope child;
        en_resource_budget := nb_resource_budget binding;
        en_evidence_requirements := nb_evidence_requirements binding;
        en_workflow_node_fingerprint := fingerprint; en_schema_version := EXECUTION_NODE_SCHEMA |}.

Definition ExecutionPlanBuilder_build (task_context : TaskContext) (parent : TaskCapabilityAuthority)
    (workflow_contract : json) (node_bindings : gmap string ExecutionNodeBinding) : result ExecutionPlan :=
  TaskContext_validate task_context ;;
  xp_fail_if (negb (bool_decide (ca_task_id parent = tx_task_id task_context)))
    "EXECUTION_PLAN_PARENT_TASK_MISMATCH" ;;
  xp_fail_if (negb (bool_decide (ca_fingerprint parent = tx_authority_fingerprint task_context)))
    "EXECUTION_PLAN_PARENT_AUTHORITY_MISMATCH" ;;
  (match workflow_contract with
   | JObj _ => Ok tt
   | _ => raise ExecutionPlanError "INVALID_WORKFLOW_CONTRACT"
   end) ;;
  workflow ← reraise (validate_contract workflow_contract) (is_class WorkflowDesignError)
    ExecutionPlanError "INVALID_WORKFLOW_CONTRACT";
  risk_check (wc_risk_level workflow) (tx_risk_class task_context) ;;
  let unknown_bindings := sorted_diff (map fst (map_to_list node_bindings)) (map wn_id (wc_nodes workflow)) in
  xp_fail_if (negb (bool_decide (unknown_bindings = [])))
    ("EXECUTION_PLAN_UNKNOWN_NODE_BINDING:" +:+ join "," unknown_bindings) ;;
  '(order, levels) ← _graph (wc_nodes workflow);
  nodes ← mapM (build_node task_context parent (workflow_by_id (wc_nodes workflow)) levels node_bindings) order;
  context_fingerprint ← TaskContext_fingerprint task_context;
  identity ← identity_fingerprint task_context;
  canonical ← _canonical_json (contract_json workflow);
  fingerprint ← _digest (contract_json workflow);
  ExecutionPlan_validate {|
    xp_task_id := tx_task_id task_context; xp_task_context_fingerprint := context_fingerprint;
    xp_task_context_identity_fingerprint := identity; xp_task_risk_class := tx_risk_class task_context;
    xp_parent_authority_fingerprint := ca_fingerprint parent;
    xp_task_resource_budget := tx_resource_budget task_context;
    xp_workflow_contract_json := canonical; xp_workflow_contract_fingerprint := fingerprint;
    xp_nodes := nodes; xp_schema_version := EXECUTION_PLAN_SCHEMA;
    xp_execution_authorized := false; xp_execution_mode := "plan_only" |} (Some parent).
End Plan.
