(* ===== verification/PlanFacts.v ===== *)
(** * Execution plans: what validation and the builder guarantee *)

From Stdlib Require Import SpecFloat.
From Stdlib Require String.
From S2P Require Import Prelude PyStr Hashlib PyFloat Json JsonFacts PyTime Validators TaskContract.
From S2P Require Import CapabilityAuthority AuthorityFacts WorkflowDesign WorkflowGraph.
From S2P Require Import WorkflowFacts ContextManifest TaskContext ExecutionPlan.

Local Open Scope Z_scope.

Lemma bool_decide_refl `{EqDecision A} (x : A) : bool_decide (x = x) = true.
Proof. by apply bool_decide_eq_true. Qed.

(** ** The workflow text of a plan *)

Lemma canon_strs l : canon (JList (map JStr l)) = JList (map JStr l).
Proof. cbn [canon]. f_equal. rewrite map_map. by apply map_ext. Qed.

Lemma json_ok_strs l : forallb json_ok (map JStr l) = true.
Proof. by induction l. Qed.

(** The keys of the canonical text are sorted; validation reads them by name. *)
Lemma canon_node n : canon (node_json n) = JObj [
  ("action", JStr (wn_action n)); ("approval_required", JBool (wn_approval_required n));
  ("condition", match wn_condition n with Some c => JStr c | None => JNull end);
  ("depends_on", JList (map JStr (wn_depends_on n))); ("id", JStr (wn_id n)); ("kind", JStr (wn_kind n));
  ("label", JStr (wn_label n))].
Proof.
  unfold node_json. cbn [canon]. cbn [map fst snd]. rewrite canon_strs.
  destruct (wn_condition n); reflexivity.
Qed.

Lemma validate_node_canon seen i n : validate_node seen i (canon (node_json n)) = validate_node seen i (node_json n).
Proof. rewrite canon_node. reflexivity. Qed.

Lemma validate_nodes_canon i acc l :
  validate_nodes i acc (map canon (map node_json l)) = validate_nodes i acc (map node_json l).
Proof.
  revert i acc. induction l as [|n l IH]; intros i acc; [done|]. cbn [map validate_nodes].
  rewrite validate_node_canon. destruct (validate_node _ i (node_json n)); [apply IH|done].
Qed.

Lemma canon_contract c : canon (contract_json c) = JObj [
  ("data_class", JStr (wc_data_class c)); ("nodes", JList (map canon (map node_json (wc_nodes c))));
  ("objective", JStr (wc_objective c)); ("outputs", JList (map JStr (wc_outputs c)));
  ("risk_level", JStr (wc_risk_level c)); ("title", JStr (wc_title c)); ("trigger", JStr (wc_trigger c));
  ("warnings", JList (map JStr (wc_warnings c)))].
Proof. unfold contract_json. cbn [canon]. cbn [map fst snd]. rewrite !canon_strs. reflexivity. Qed.

Lemma validate_contract_ext d d' l l' :
  Forall (λ k, dict_get k d = dict_get k d')
    ["title"; "objective"; "trigger"; "risk_level"; "data_class"; "outputs"; "warnings"] →
  dict_get "nodes" d = Some (JList l) → dict_get "nodes" d' = Some (JList l') → length l = length l' →
  validate_nodes 0 [] l = validate_nodes 0 [] l' → validate_contract (JObj d) = validate_contract (JObj d').
Proof.
  rewrite !Forall_cons. intros (H1 & H2 & H3 & H4 & H5 & H6 & H7 & _) Hd Hd' Hl Hn.
  unfold validate_contract, get, get_or. rewrite H1, H2, H3, H4, H5, H6, H7, Hd, Hd'.
  cbn [from_option id]. rewrite Hl. unfold wf_fail_if.
  do 3 (destruct (negb (mem_str _ _)); [done|]; cbn [raise_if mbind result_bind]).
  destruct (negb (_ && _)); [done|]; cbn [raise_if mbind result_bind]. by rewrite Hn.
Qed.

Lemma validate_canon c : validate_contract (canon (contract_json c)) = validate_contract (contract_json c).
Proof.
  rewrite canon_contract. unfold contract_json. eapply validate_contract_ext; [|reflexivity|reflexivity|..].
  - repeat constructor.
  - by rewrite length_map.
  - apply validate_nodes_canon.
Qed.

Lemma node_json_ok n : json_ok (node_json n) = true.
Proof.
  unfold node_json. cbn [json_ok forallb snd]. rewrite json_ok_strs.
  by destruct (wn_condition n).
Qed.

Lemma contract_json_ok c : json_ok (contract_json c) = true.
Proof.
  unfold contract_json. cbn [json_ok forallb snd]. rewrite !json_ok_strs.
  assert (forallb json_ok (map node_json (wc_nodes c)) = true) as ->; [|done].
  induction (wc_nodes c) as [|n l IH]; [done|]. cbn [map forallb]. by rewrite node_json_ok.
Qed.

Lemma loads_contract c : loads (print (contract_json c)) = Ok (canon (contract_json c)).
Proof. apply loads_dumps; [apply contract_json_ok|]. by apply dumps_ok, contract_json_ok. Qed.

Lemma canonical_ok v : json_ok v = true → _canonical_json v = Ok (print v).
Proof. intros H. unfold _canonical_json, canonical_json. by rewrite dumps_ok. Qed.

Section Facts.
Context {HL : Hashlib}.

Lemma plan_digest_ok v : json_ok v = true → _digest v = Ok (sha256_of_text (print v)).
Proof. intros H. unfold _digest, digest. fold _canonical_json. by rewrite canonical_ok. Qed.

(** A plan's workflow text is the canonical text of a valid workflow, and determines it. *)
Lemma validated_workflow_ok p w : _validated_workflow p = Ok w ↔
  workflow_ok w ∧ Z.of_nat (length (wc_warnings w)) ≤ 12
  ∧ xp_workflow_contract_json p = print (contract_json w)
  ∧ xp_workflow_contract_fingerprint p = sha256_of_text (print (contract_json w)).
Proof.
  unfold _validated_workflow, xp_fail_if. split.
  - intros H. apply bind_ok_iff in H as (raw & Hraw & H). apply bind_ok_iff in H as (w' & Hw & H).
    rewrite canonical_ok, plan_digest_ok in H by apply contract_json_ok. cbn [mbind result_bind] in H.
    rewrite !guard_bind_ok in H. destruct H as (Hc & Hf & [= ->]). bool_prop.
    assert (validate_contract raw = Ok w) as Hv.
    { unfold reraise, catch in Hw. destruct (validate_contract raw) as [|e]; [done|]. by destruct (is_class _ _). }
    pose proof (validate_contract_ok _ _ Hv) as Hok. split; [done|].
    assert (raw = canon (contract_json w)) as ->.
    { unfold reraise, catch in Hraw. rewrite <- Hc, loads_contract in Hraw. by injection Hraw. }
    rewrite validate_canon, revalidate_ok in Hv by done.
    destruct (12 <? _) eqn:E in Hv; [done|]. py_prop. done.
  - intros (Hok & Hl & Hj & Hf). rewrite Hj, Hf, loads_contract. unfold reraise.
    cbn [catch mbind result_bind]. rewrite validate_canon, revalidate_ok by done.
    rewrite (proj2 (Z.ltb_ge _ _)) by done. cbn [catch mbind result_bind].
    rewrite canonical_ok, plan_digest_ok by apply contract_json_ok. cbn [mbind result_bind].
    by rewrite !bool_decide_eq_true_2.
Qed.
(** ** Nodes against their source *)

Record node_matches (by_id : gmap string wf_node) (levels : gmap string Z) (n : ExecutionNode)
    (source : wf_node) : Prop := {
  nm_source : by_id !! en_node_id n = Some source;
  nm_fingerprint : en_workflow_node_fingerprint n = sha256_of_text (print (node_json source));
  nm_label : en_label n = wn_label source;
  nm_kind : en_kind n = wn_kind source;
  nm_action : en_action n = wn_action source;
  nm_depends : en_depends_on n = wn_depends_on source;
  nm_condition : en_condition n = wn_condition source;
  nm_level : levels !! en_node_id n = Some (en_execution_level n);
  nm_approval : wn_approval_required source = true ∨ wn_kind source = "approval" → en_approval_required n = true
}.

Lemma check_node_ok by_id levels seen n seen' : check_node by_id levels seen n = Ok seen' ↔
  en_node_id n ∉ seen ∧ seen' = en_node_id n :: seen
  ∧ (∃ source, node_matches by_id levels n source) ∧ ∃ d, ExecutionNode_canonical_dict n = Ok d.
Proof.
  unfold check_node, xp_fail_if. rewrite guard_bind_ok, mem_str_false. split.
  - intros [Hseen H]. split; [done|]. destruct (by_id !! en_node_id n) as [source|] eqn:Hs; [|done].
    cbn [mbind result_bind] in H. rewrite plan_digest_ok in H by apply node_json_ok.
    cbn [mbind result_bind] in H. cbv zeta in H. rewrite !guard_bind_ok in H. destruct H as (Hf & Hp & H).
    destruct (levels !! en_node_id n) as [level|] eqn:Hl; [|done]. cbn [mbind result_bind] in H.
    rewrite !guard_bind_ok in H. destruct H as (He & Ha1 & Ha2 & H). py_prop.
    apply bind_ok_iff in H as (d & Hd & [= <-]). split; [done|]. split; [|by eexists].
    exists source. constructor; try done; [congruence|].
    intros [Ha|Ha]; apply not_false_iff_true; intros Hn; rewrite Hn in *; [by rewrite Ha in Ha1|].
    by rewrite Ha in Ha2.
  - intros (Hseen & -> & (source & [Hs Hf H1 H2 H3 H4 H5 Hl Ha]) & d & Hd). split; [done|].
    rewrite Hs. cbn [mbind result_bind]. rewrite plan_digest_ok by apply node_json_ok. cbn [mbind result_bind].
    cbv zeta. rewrite Hf, H1, H2, H3, H4, H5, Hl, !bool_decide_refl. cbn [andb negb raise_if mbind result_bind].
    rewrite Z.eqb_refl, !guard_bind_ok. split_and!; [done| | |by rewrite Hd].
    + destruct (wn_approval_required source); [|done]. by rewrite Ha by (by left).
    + case_bool_decide; [|done]. by rewrite Ha by (by right).
Qed.

Definition nodes_match (by_id : gmap string wf_node) (levels : gmap string Z) (nodes : list ExecutionNode) : Prop :=
  Forall (λ n, (∃ source, node_matches by_id levels n source) ∧ ∃ d, ExecutionNode_canonical_dict n = Ok d) nodes.

Lemma check_nodes_ok by_id levels seen nodes seen' : foldM (check_node by_id levels) seen nodes = Ok seen' ↔
  NoDup (map en_node_id nodes) ∧ (∀ id, id ∈ map en_node_id nodes → id ∉ seen)
  ∧ nodes_match by_id levels nodes ∧ seen' = rev (map en_node_id nodes) ++ seen.
Proof.
  revert seen. induction nodes as [|n nodes IH]; intros seen; cbn [foldM map rev].
  - split; [intros [= <-]|intros (_ & _ & _ & ->)]; [|done].
    split_and!; [constructor|intros ? []%not_elem_of_nil|constructor|done].
  - rewrite bind_ok_iff. setoid_rewrite check_node_ok. setoid_rewrite IH. unfold nodes_match.
    rewrite NoDup_cons, Forall_cons, <- app_assoc. cbn [app]. split.
    + intros (s & (Hn & -> & Hm & Hc) & Hd & Hs & Ha & ->). split_and!; try done; [set_solver|].
      intros id [->|Hid]%elem_of_cons; [done|]. specialize (Hs id Hid). set_solver.
    + intros ((Hn & Hd) & Hs & (Hm & Ha) & ->). destruct Hm as [Hm Hc]. exists (en_node_id n :: seen).
      split; [split; [apply Hs; by left|by split_and!]|].
      split_and!; [done| |done|done]. intros id Hid. apply not_elem_of_cons. split; [by intros ->|]. apply Hs. by right.
Qed.

Lemma sha_ref_unit v f : (∃ x, _sha256 v f = Ok x) ↔ is_sha256_ref v = true.
Proof. unfold _sha256. setoid_rewrite sha256_ref_ok. naive_solver. Qed.

(** A validated plan, unfolded. *)
Record plan_ok (p : ExecutionPlan) (w : wf_contract) (levels : gmap string Z) : Prop := {
  po_workflow : _validated_workflow p = Ok w;
  po_risk : risk_check (wc_risk_level w) (xp_task_risk_class p) = Ok tt;
  po_graph : _graph (wc_nodes w) = Ok (map en_node_id (xp_nodes p), levels);
  po_nodes : nodes_match (workflow_by_id (wc_nodes w)) levels (xp_nodes p);
  po_budget : _require_aggregate_budget (xp_nodes p) (xp_task_resource_budget p) = Ok tt
}.

Lemma plan_validate_inv p parent x : ExecutionPlan_validate p parent = Ok x →
  x = p ∧ (∃ w levels, plan_ok p w levels) ∧ (∀ a, parent = Some a → check_parent p a = Ok tt).
Proof.
  unfold ExecutionPlan_validate, xp_fail_if. intros H.
  apply guard_bind_ok in H as [_ H]. do 4 apply bind_ok_iff in H as (? & _ & H).
  apply guard_bind_ok in H as [_ H]. apply bind_ok_iff in H as (? & _ & H).
  apply guard_bind_ok in H as [_ H]. apply bind_ok_iff in H as (w & Hw & H).
  rewrite unit_bind_ok in H. destruct H as [Hr H]. apply bind_ok_iff in H as ([order levels] & Hg & H).
  apply guard_bind_ok in H as [Ho H]. apply bind_ok_iff in H as (seen & Hn & H).
  rewrite !unit_bind_ok in H. destruct H as (Hb & Hp & _ & [= <-]). bool_prop. subst order.
  split; [done|]. split; [|by intros a ->]. exists w, levels. constructor; try done.
  by apply check_nodes_ok in Hn as (_ & _ & ? & _).
Qed.

Lemma workflow_by_id_lookup nodes id n : NoDup (map wn_id nodes) →
  workflow_by_id nodes !! id = Some n ↔ n ∈ nodes ∧ wn_id n = id.
Proof.
  apply keyed_dict_lookup.
Qed.

Lemma plan_source p w levels n : plan_ok p w levels → n ∈ xp_nodes p →
  ∃ source, source ∈ wc_nodes w ∧ wn_id source = en_node_id n
  ∧ node_matches (workflow_by_id (wc_nodes w)) levels n source.
Proof.
  intros [Hw _ _ Hn _] Hin. apply validated_workflow_ok in Hw as (Hok & _).
  unfold nodes_match in Hn. rewrite Forall_elem in Hn. destruct (Hn n Hin) as [(source & Hm) _].
  exists source. pose proof (nm_source _ _ _ _ Hm) as Hs.
  apply workflow_by_id_lookup in Hs as [? ?]; [done|apply Hok].
Qed.

(** The class of a workflow and of a task, ranked. *)
Definition rank_of (risk_class : string) : Z := default (-1) (table_get risk_class _RISK_RANK).

Lemma index_ok {A} k (t : list (string * A)) v : index k t = Ok v ↔ table_get k t = Some v.
Proof. unfold index, raise. destruct (table_get k t); split; congruence. Qed.

Lemma risk_check_ok level risk : risk_check level risk = Ok tt →
  ∃ c, table_get level _WORKFLOW_RISK_CLASS = Some c ∧ rank_of risk ≤ rank_of c.
Proof.
  unfold risk_check, xp_fail_if. intros H. apply bind_ok_iff in H as (c & Hc%index_ok & H).
  apply bind_ok_iff in H as (rc & Hrc%index_ok & H). apply bind_ok_iff in H as (rt & Hrt%index_ok & H).
  apply raise_if_ok, Z.ltb_ge in H. exists c. split; [done|]. unfold rank_of. by rewrite Hrc, Hrt.
Qed.

(** A plan that validates is a faithful projection of a valid workflow: its nodes are the
    workflow's, in an order where every node follows the nodes it depends on; each keeps its
    source's label, kind, action, dependencies and condition; an approval the workflow
    asks for is never dropped; and the workflow's risk is not below the task's. *)
Theorem plan_matches_workflow p parent (H : ExecutionPlan_validate p parent = Ok p) :
  ∃ w, workflow_ok w
  ∧ xp_workflow_contract_json p = print (contract_json w)
  ∧ xp_workflow_contract_fingerprint p = sha256_of_text (print (contract_json w))
  ∧ map en_node_id (xp_nodes p) ≡ₚ map wn_id (wc_nodes w)
  ∧ (∀ before n after, xp_nodes p = before ++ n :: after →
      ∀ dep, dep ∈ en_depends_on n → dep ∈ map en_node_id before)
  ∧ (∀ n, n ∈ xp_nodes p → ∃ source, source ∈ wc_nodes w ∧ wn_id source = en_node_id n
      ∧ en_label n = wn_label source ∧ en_kind n = wn_kind source ∧ en_action n = wn_action source
      ∧ en_depends_on n = wn_depends_on source ∧ en_condition n = wn_condition source
      ∧ (wn_approval_required source = true ∨ wn_kind source = "approval" → en_approval_required n = true))
  ∧ ∃ c, table_get (wc_risk_level w) _WORKFLOW_RISK_CLASS = Some c ∧ rank_of (xp_task_risk_class p) ≤ rank_of c.
Proof.
  apply plan_validate_inv in H as (_ & (w & levels & Hp) & _). exists w.
  pose proof (proj1 (validated_workflow_ok p w) (po_workflow _ _ _ Hp)) as (Hok & _ & Hj & Hf).
  destruct (graph_order _ _ _ (wo_ids _ Hok) (po_graph _ _ _ Hp)) as (Hperm & Htopo & _).
  split_and!; try done; [..|by apply risk_check_ok, Hp].
  - intros before n after Hn dep Hdep. rewrite Hn, map_app in Htopo. apply (Htopo _ _ _ eq_refl).
    destruct (plan_source _ _ _ n Hp) as (source & Hin & Hid & Hm); [rewrite Hn; set_solver|].
    exists source. split_and!; [done..|]. by rewrite <- (nm_depends _ _ _ _ Hm).
  - intros n Hn. destruct (plan_source _ _ _ n Hp Hn) as (source & Hin & Hid & [_ _ ??????]).
    by exists source.
Qed.

(** ** Authorities *)

Lemma rebind_authority_inv n parent a : rebind_authority n parent = Ok a →
  attenuates a parent ∧ ca_fingerprint a = en_authority_fingerprint n.
Proof.
  unfold rebind_authority, xp_fail_if, reraise, catch. intros H. apply bind_ok_iff in H as (b & Hb & H).
  apply guard_bind_ok in H as [Hf [= ->]]. bool_prop. split; [|done].
  destruct (derive_child _ _ _ _ _ _) as [b|e] eqn:E; [|by destruct (denied_or_value_error _)].
  injection Hb as ->. by eapply derive_child_attenuates.
Qed.

Lemma iterM_Forall {A} (f : A → result unit) l : iterM f l = Ok tt ↔ Forall (λ x, f x = Ok tt) l.
Proof.
  induction l as [|x l IH]; cbn [iterM]; [split; [constructor|done]|].
  by rewrite unit_bind_ok, Forall_cons, IH.
Qed.

Lemma check_parent_ok p parent : check_parent p parent = Ok tt ↔
  ca_task_id parent = xp_task_id p ∧ ca_fingerprint parent = xp_parent_authority_fingerprint p
  ∧ Forall (λ n, ∃ a, rebind_authority n parent = Ok a) (xp_nodes p).
Proof.
  unfold check_parent, xp_fail_if. rewrite !guard_bind_ok, iterM_Forall, !negb_false_iff, !bool_decide_eq_true.
  assert (∀ n, (rebind_authority n parent ;; Ok tt) = Ok tt ↔ ∃ a, rebind_authority n parent = Ok a) as Hn.
  { intros n. rewrite bind_ok_iff. naive_solver. }
  by setoid_rewrite Hn.
Qed.

Lemma rebind_nodes_ok parent nodes (m : gmap string TaskCapabilityAuthority) :
  NoDup (map en_node_id nodes) → Forall (λ n, ∃ a, rebind_authority n parent = Ok a) nodes →
  ∃ m', foldM (λ m n, rebound ← rebind_authority n parent; Ok (<[en_node_id n := rebound]> m)) m nodes = Ok m'
  ∧ dom m' = list_to_set (map en_node_id nodes) ∪ dom m
  ∧ (∀ n, n ∈ nodes → ∃ a, m' !! en_node_id n = Some a ∧ rebind_authority n parent = Ok a)
  ∧ (∀ id, id ∉ map en_node_id nodes → m' !! id = m !! id).
Proof.
  intros Hnd Hall. revert m. induction Hall as [|n nodes (a & Ha) _ IH]; intros m; cbn [foldM map] in *.
  - exists m. split_and!; [done|set_solver| |done]. intros n []%not_elem_of_nil.
  - apply NoDup_cons in Hnd as [Hn Hnd]. rewrite Ha. cbn [mbind result_bind].
    destruct (IH Hnd (<[en_node_id n := a]> m)) as (m' & -> & Hdom & Hin & Hout). exists m'. split_and!; [done|..].
    + rewrite Hdom, dom_insert_L. cbn [list_to_set]. set_solver.
    + intros n' [->|Hn']%elem_of_cons; [|by apply Hin]. exists a. split; [|done].
      by rewrite Hout, lookup_insert_eq.
    + intros id [Hne Hid]%not_elem_of_cons. by rewrite Hout, lookup_insert_ne.
Qed.

Lemma plan_ids_NoDup p w levels : plan_ok p w levels → NoDup (map en_node_id (xp_nodes p)).
Proof.
  intros [Hw _ Hg _ _]. apply validated_workflow_ok in Hw as (Hok & _).
  destruct (graph_order _ _ _ (wo_ids _ Hok) Hg) as (-> & _). apply Hok.
Qed.

(** C31: on a plan that validates against its parent authority, rebinding succeeds and gives
    every node, and nothing else, an authority that carries the node's fingerprint
    and attenuates the parent's: every request it allows, the parent allows too. *)
Theorem plan_authority_confined p parent (H : ExecutionPlan_validate p (Some parent) = Ok p) :
  ∃ m, rebind_authorities p parent = Ok m ∧ dom m = list_to_set (map en_node_id (xp_nodes p))
  ∧ ∀ n, n ∈ xp_nodes p → ∃ a, m !! en_node_id n = Some a ∧ attenuates a parent
    ∧ ca_fingerprint a = en_authority_fingerprint n
    ∧ ∀ cap kind ref eff d, authorize a cap kind ref eff = Ok d → cd_allowed d = true →
        ∃ d', authorize parent cap kind ref eff = Ok d' ∧ cd_allowed d' = true.
Proof.
  pose proof (plan_validate_inv _ _ _ H) as (_ & (w & levels & Hp) & Hparent).
  specialize (Hparent parent eq_refl). apply check_parent_ok in Hparent as (_ & _ & Hall).
  unfold rebind_authorities. rewrite H. cbn [mbind result_bind].
  destruct (rebind_nodes_ok parent (xp_nodes p) ∅ (plan_ids_NoDup _ _ _ Hp) Hall) as (m & Hm & Hdom & Hin & _).
  exists m. split; [exact Hm|]. split; [rewrite Hdom; set_solver|].
  intros n Hn. destruct (Hin n Hn) as (a & Ha & Hr). pose proof (rebind_authority_inv _ _ _ Hr) as [Hat Hf].
  exists a. split_and!; [done..|]. intros cap kind ref eff d. by apply authorize_mono.
Qed.

(** ** Budgets *)

Lemma num_sum_ints l z : foldM num_add (NInt z) (map NInt l) = Ok (NInt (z + foldr Z.add 0 l)).
Proof.
  revert z. induction l as [|x l IH]; intros z; cbn [map foldM foldr]; [by rewrite Z.add_0_r|].
  cbn [num_add mbind result_bind]. rewrite IH. do 2 f_equal. lia.
Qed.

(** An integer dimension of the children stays within the parent's. *)
Definition dimension_bounded (limit : option Z) (children : list (option Z)) : Prop :=
  match limit with
  | None => Forall (λ v, v = None) children
  | Some limit => ∃ vs, children = map Some vs ∧ foldr Z.add 0 vs ≤ limit
  end.

Lemma existsb_Forall {A} (f : A → bool) l : existsb f l = false ↔ Forall (λ x, f x = false) l.
Proof. induction l as [|x l IH]; cbn [existsb]; [split; [constructor|done]|]. by rewrite orb_false_iff, Forall_cons, IH. Qed.

Lemma present_values vs : omap id (map (fmap NInt) (map Some vs)) = map NInt vs.
Proof.
  induction vs as [|v vs IH]; [done|].
  change (NInt v :: omap id (map (fmap NInt) (map Some vs)) = NInt v :: map NInt vs). by rewrite IH.
Qed.

Lemma aggregate_int name children limit : aggregate_dimension name (map (fmap NInt) children) (NInt <$> limit) = Ok tt ↔
  dimension_bounded limit children.
Proof.
  unfold aggregate_dimension, xp_fail_if, dimension_bounded. destruct limit as [limit|]; cbn [fmap option_fmap option_map].
  - rewrite guard_bind_ok, existsb_Forall, Forall_map. split.
    + intros [Hall Hs]. assert (∃ vs, children = map Some vs) as [vs ->].
      { clear Hs. induction Hall as [|[v|] children Hv _ [vs ->]]; [by exists []|by exists (v :: vs)|done]. }
      exists vs. split; [done|]. revert Hs. rewrite present_values.
      unfold num_sum. rewrite num_sum_ints. cbn [mbind result_bind]. rewrite raise_if_ok.
      intros Hg. apply Z.le_ngt. intros Hlt. by rewrite (proj2 (num_gt_int _ _)) in Hg by lia.
    + intros (vs & -> & Hle). split; [clear Hle; induction vs; cbn; by constructor|]. rewrite present_values.
      unfold num_sum. rewrite num_sum_ints. cbn [mbind result_bind]. rewrite raise_if_ok.
      apply not_true_iff_false. rewrite num_gt_int. lia.
  - rewrite raise_if_ok, existsb_Forall, Forall_map.
    split; intros Hall; (eapply Forall_mono; [exact Hall|]); intros [v|]; done.
Qed.

Lemma ExecutionNode_dict_budget n d : ExecutionNode_canonical_dict n = Ok d →
  TaskResourceBudget_validate (en_resource_budget n) = Ok (en_resource_budget n).
Proof.
  unfold ExecutionNode_canonical_dict. intros H. do 2 apply bind_ok_iff in H as (? & _ & H).
  apply bind_ok_iff in H as (b & Hb & _). rewrite Hb. f_equal. revert Hb.
  unfold TaskResourceBudget_validate. rewrite !unit_bind_ok. naive_solver.
Qed.

Lemma budget_nonneg b : TaskResourceBudget_validate b = Ok b →
  Forall (λ v, ∀ z, v = Some z → 0 ≤ z) [rb_wall_time_s b; rb_model_tokens b; rb_tool_calls b].
Proof.
  unfold TaskResourceBudget_validate, budget_int, tx_fail_if. rewrite !unit_bind_ok, !raise_if_ok.
  intros (H1 & H2 & H3 & _). repeat constructor; intros z Hz; rewrite Hz in *; by apply Z.ltb_ge.
Qed.

Lemma sum_nonneg vs v : Forall (λ v, 0 ≤ v) vs → v ∈ vs → v ≤ foldr Z.add 0 vs.
Proof.
  assert (∀ vs, Forall (λ v, 0 ≤ v) vs → 0 ≤ foldr Z.add 0 vs) as Hp by (induction 1; cbn; lia).
  induction 1 as [|x vs Hx Hvs IH]; [by intros []%not_elem_of_nil|]. specialize (Hp vs Hvs). cbn [foldr].
  intros [->|Hin]%elem_of_cons; [lia|]. specialize (IH Hin). lia.
Qed.

(** The budgets of a plan's nodes fit the task's budget together: in each integer
    dimension either the task has no bound and no node has a value, or every node has one
    and their sum - so also each of them - is at most the task's. *)
Theorem plan_budget_bounded p parent (H : ExecutionPlan_validate p parent = Ok p) :
  Forall (λ get : TaskResourceBudget → option Z,
    match get (xp_task_resource_budget p) with
    | None => ∀ n, n ∈ xp_nodes p → get (en_resource_budget n) = None
    | Some limit => ∃ vs, map (get ∘ en_resource_budget) (xp_nodes p) = map Some vs
        ∧ foldr Z.add 0 vs ≤ limit ∧ ∀ v, v ∈ vs → 0 ≤ v ≤ limit
    end) [rb_wall_time_s; rb_model_tokens; rb_tool_calls].
Proof.
  apply plan_validate_inv in H as (_ & (w & levels & [_ _ _ Hn Hb]) & _).
  unfold _require_aggregate_budget in Hb. rewrite iterM_Forall in Hb. unfold budget_fields in Hb.
  rewrite !Forall_cons in Hb. destruct Hb as (H1 & H2 & H3 & _).
  assert (∀ get : TaskResourceBudget → option Z,
    (∀ b, TaskResourceBudget_validate b = Ok b → ∀ z, get b = Some z → 0 ≤ z) →
    dimension_bounded (get (xp_task_resource_budget p)) (map (get ∘ en_resource_budget) (xp_nodes p)) →
    match get (xp_task_resource_budget p) with
    | None => ∀ n, n ∈ xp_nodes p → get (en_resource_budget n) = None
    | Some limit => ∃ vs, map (get ∘ en_resource_budget) (xp_nodes p) = map Some vs
        ∧ foldr Z.add 0 vs ≤ limit ∧ ∀ v, v ∈ vs → 0 ≤ v ≤ limit
    end) as Hdim.
  { intros get Hget. unfold dimension_bounded. destruct (get (xp_task_resource_budget p)) as [limit|].
    - intros (vs & Hvs & Hle). exists vs. split_and!; [done..|].
      assert (Forall (λ v, 0 ≤ v) vs) as Hpos.
      { apply Forall_elem. intros v Hv. apply (list_elem_of_fmap_2 Some) in Hv.
        change (Some v ∈ map Some vs) in Hv. rewrite <- Hvs in Hv.
        apply list_elem_of_fmap in Hv as (n & Hv & Hin). unfold nodes_match in Hn. rewrite Forall_elem in Hn.
        destruct (Hn n Hin) as [_ [d Hd%ExecutionNode_dict_budget]]. by eapply Hget. }
      intros v Hv. pose proof (sum_nonneg _ _ Hpos Hv). rewrite Forall_elem in Hpos. specialize (Hpos v Hv). lia.
    - rewrite Forall_map, Forall_elem. done. }
  assert (∀ b, TaskResourceBudget_validate b = Ok b → _) as Hnn by exact budget_nonneg.
  setoid_rewrite Forall_cons in Hnn. setoid_rewrite Forall_cons in Hnn. setoid_rewrite Forall_cons in Hnn.
  repeat constructor; apply Hdim; try (intros b Hv; by apply Hnn);
    eapply aggregate_int; rewrite map_map; eassumption.
Qed.

(** ** The builder *)

Lemma requirements_ok values r : _normalize_requirements values = Ok r ↔
  Forall (λ v, single_line ExecutionPlanError v "evidence_requirement" 256 = Ok v) values
  ∧ r = sorted_set values ∧ Z.of_nat (length r) ≤ MAX_EVIDENCE_REQUIREMENTS.
Proof.
  unfold _normalize_requirements, xp_fail_if.
  assert (∀ l items, mapM (λ value, _single_line value "evidence_requirement" 256) l = Ok items ↔
    Forall (λ v, single_line ExecutionPlanError v "evidence_requirement" 256 = Ok v) l ∧ items = l) as Hm.
  { intros l. induction l as [|v l IH]; intros items; cbn [mapM].
    - split; [by intros [= <-]|by intros [_ ->]].
    - rewrite Forall_cons. split.
      + intros H. apply bind_ok_iff in H as (x & Hx & H). apply bind_ok_iff in H as (ys & [Hl ->]%IH & [= <-]).
        pose proof (single_line_id _ _ _ _ _ Hx) as ->. done.
      + intros [[Hv Hl] ->]. apply bind_ok_iff. exists v. split; [exact Hv|]. apply bind_ok_iff. exists l.
        split; [by apply IH|done]. }
  rewrite bind_ok_iff. setoid_rewrite Hm. split.
  - intros (u & [Hf ->] & Hk). cbv zeta in Hk. rewrite guard_bind_ok, Z.ltb_ge in Hk. naive_solver.
  - intros (Hf & -> & Hl). exists values. split; [done|]. cbv zeta. by rewrite guard_bind_ok, Z.ltb_ge.
Qed.

Lemma elem_of_sorted_set x l : x ∈ sorted_set l ↔ x ∈ l.
Proof. unfold sorted_set. by rewrite elem_of_sorted_str, elem_of_dict_fromkeys. Qed.

Lemma sorted_set_idemp l : sorted_set (sorted_set l) = sorted_set l.
Proof.
  unfold sorted_set at 1. rewrite dict_fromkeys_id; [apply sorted_str_idemp|].
  unfold sorted_set. rewrite sorted_str_perm. apply NoDup_dict_fromkeys.
Qed.

Lemma requirements_again values r : _normalize_requirements values = Ok r → _normalize_requirements r = Ok r.
Proof.
  rewrite !requirements_ok. intros (Hf & -> & Hl). rewrite sorted_set_idemp. split_and!; [|done|done].
  rewrite Forall_elem in *. intros v Hv. by apply Hf, elem_of_sorted_set.
Qed.

Lemma derive_child_fingerprint p tid srcs tools ws net c : derive_child p tid srcs tools ws net = Ok c →
  is_sha256_ref (ca_fingerprint c) = true.
Proof. unfold derive_child. intros H. inv_ok. apply sha256_of_text_shape. Qed.

(** A node the builder makes is accepted by every check of the plan on its own. *)
Lemma build_node_inv tc parent by_id levels bindings id n :
  (∀ l, levels !! id = Some l → 0 ≤ l) → (∀ s, by_id !! id = Some s → wn_id s = id) →
  build_node tc parent by_id levels bindings id = Ok n →
  en_node_id n = id ∧ (∃ source, node_matches by_id levels n source)
  ∧ (∃ d, ExecutionNode_canonical_dict n = Ok d) ∧ ∃ a, rebind_authority n parent = Ok a.
Proof.
  intros Hlev Hid H. unfold build_node in H.
  apply bind_ok_iff in H as (source & Hs & H). destruct (by_id !! id) as [s|] eqn:Es; [|done]. injection Hs as ->.
  apply bind_ok_iff in H as (binding & Hb & H). rewrite unit_bind_ok in H. destruct H as [_ H].
  apply bind_ok_iff in H as (child & Hc & H). apply bind_ok_iff in H as (level & Hl & H).
  destruct (levels !! id) as [l|] eqn:El; [|done]. injection Hl as ->.
  rewrite plan_digest_ok in H by apply node_json_ok. cbn [mbind result_bind] in H. injection H as <-.
  unfold reraise, catch in Hc. destruct (derive_child _ _ _ _ _ _) as [c|e] eqn:Ec; [|by destruct (denied_or_value_error _)].
  injection Hc as ->. split_and!; [done|..].
  - exists source. constructor; try done. cbn. intros [->|Ha]; [done|]. by rewrite Ha, bool_decide_refl, orb_true_r.
  - unfold ExecutionNode_canonical_dict, _sha256, sha256_ref, xp_fail_if.
    cbn [en_authority_fingerprint en_workflow_node_fingerprint en_resource_budget en_schema_version
      en_execution_level en_evidence_requirements].
    unfold normalized in Hb. apply bind_ok_iff in Hb as (b & Hbud & Hb). apply bind_ok_iff in Hb as (net & _ & Hb).
    apply bind_ok_iff in Hb as (req & Hreq & [= <-]). cbn [nb_resource_budget nb_evidence_requirements].
    rewrite (derive_child_fingerprint _ _ _ _ _ _ _ Ec), sha256_of_text_shape. cbn [negb raise_if mbind result_bind].
    rewrite Hbud, bool_decide_refl. cbn [negb raise_if mbind result_bind].
    rewrite (proj2 (Z.ltb_ge level 0)) by (by apply Hlev). cbn [raise_if mbind result_bind].
    rewrite (requirements_again _ _ Hreq). cbn [mbind result_bind]. rewrite bool_decide_refl. cbn [negb raise_if mbind result_bind].
    destruct (budget_dict_total (nb_resource_budget (default default_binding (bindings !! id)))) as (v & -> & _).
    { rewrite Hbud. f_equal. revert Hbud. unfold TaskResourceBudget_validate. rewrite !unit_bind_ok. naive_solver. }
    by eexists.
  - exists child. unfold rebind_authority, xp_fail_if, reraise, catch.
    cbn [en_authority_task_id en_allowed_sources en_allowed_tools en_write_scope en_network_scope
      en_authority_fingerprint]. rewrite (derive_child_again _ _ _ _ _ _ _ Ec). cbn [mbind result_bind].
    by rewrite bool_decide_refl.
Qed.

(** The plan the builder assembles. *)
Definition assembled (tc : TaskContext) (parent : TaskCapabilityAuthority) (w : wf_contract)
    (context_fingerprint identity : string) (nodes : list ExecutionNode) : ExecutionPlan := {|
  xp_task_id := tx_task_id tc; xp_task_context_fingerprint := context_fingerprint;
  xp_task_context_identity_fingerprint := identity; xp_task_risk_class := tx_risk_class tc;
  xp_parent_authority_fingerprint := ca_fingerprint parent;
  xp_task_resource_budget := tx_resource_budget tc;
  xp_workflow_contract_json := print (contract_json w);
  xp_workflow_contract_fingerprint := sha256_of_text (print (contract_json w));
  xp_nodes := nodes; xp_schema_version := EXECUTION_PLAN_SCHEMA;
  xp_execution_authorized := false; xp_execution_mode := "plan_only" |}.

Lemma build_nodes_inv tc parent w levels bindings order nodes : workflow_ok w →
  _graph (wc_nodes w) = Ok (order, levels) →
  mapM (build_node tc parent (workflow_by_id (wc_nodes w)) levels bindings) order = Ok nodes →
  map en_node_id nodes = order ∧ nodes_match (workflow_by_id (wc_nodes w)) levels nodes
  ∧ Forall (λ n, ∃ a, rebind_authority n parent = Ok a) nodes.
Proof.
  intros Hok Hg Hm. destruct (graph_order _ _ _ (wo_ids _ Hok) Hg) as (_ & _ & Hlev).
  assert (∀ id, id ∈ order → ∀ l, levels !! id = Some l → 0 ≤ l) as Hpos.
  { intros id Hin l Hl. destruct (Hlev id Hin) as (l' & Hl' & ? & _). congruence. }
  assert (∀ id s, workflow_by_id (wc_nodes w) !! id = Some s → wn_id s = id) as Hid.
  { intros id s Hs. apply workflow_by_id_lookup in Hs as [_ ?]; [done|apply Hok]. }
  clear Hlev Hg. apply mapM_Forall2 in Hm. induction Hm as [|id n order nodes Hn _ IH].
  - split_and!; constructor.
  - apply build_node_inv in Hn as (Hn & Hmatch & Hd & Ha); [|apply Hpos; by left|apply Hid].
    destruct IH as (Hi & Hms & Has); [intros i Hi; apply Hpos; by right|].
    split_and!; [cbn; by rewrite Hn, Hi|by constructor|by constructor].
Qed.

Lemma risk_class_known c : validate_identity c = Ok tt → tx_risk_class c ∈ _RISK_CLASSES.
Proof. unfold validate_identity, tx_fail_if. intros H. inv_ok. by py_prop. Qed.

Lemma plan_validate_intro p parent w order levels :
  xp_schema_version p = EXECUTION_PLAN_SCHEMA → is_sha256_ref (xp_task_context_fingerprint p) = true →
  is_sha256_ref (xp_task_context_identity_fingerprint p) = true →
  is_sha256_ref (xp_workflow_contract_fingerprint p) = true →
  is_sha256_ref (xp_parent_authority_fingerprint p) = true →
  xp_task_risk_class p ∈ _RISK_CLASSES →
  TaskResourceBudget_validate (xp_task_resource_budget p) = Ok (xp_task_resource_budget p) →
  2 ≤ Z.of_nat (length (xp_nodes p)) ≤ MAX_NODES →
  _validated_workflow p = Ok w → risk_check (wc_risk_level w) (xp_task_risk_class p) = Ok tt →
  _graph (wc_nodes w) = Ok (order, levels) → order = map en_node_id (xp_nodes p) → NoDup order →
  nodes_match (workflow_by_id (wc_nodes w)) levels (xp_nodes p) →
  _require_aggregate_budget (xp_nodes p) (xp_task_resource_budget p) = Ok tt →
  check_parent p parent = Ok tt →
  xp_execution_authorized p = false → xp_execution_mode p = "plan_only" →
  ExecutionPlan_validate p (Some parent) = Ok p.
Proof.
  intros H1 H2 H3 H4 H5 H6 H7 [H8 H9] H10 H11 H12 H13 H14 H15 H16 H17 H18 H19.
  unfold ExecutionPlan_validate, _sha256, sha256_ref, xp_fail_if.
  rewrite H1, bool_decide_refl, H2, H3, H4, H5. cbn [negb raise_if mbind result_bind].
  rewrite (proj2 (mem_str_true _ _)) by exact H6. cbn [negb raise_if mbind result_bind].
  rewrite H7. cbn [mbind result_bind].
  rewrite (proj2 (Z.leb_le _ _) H8), (proj2 (Z.leb_le _ _) H9). cbn [andb negb raise_if mbind result_bind].
  rewrite H10. cbn [mbind result_bind]. rewrite H11. cbn [mbind result_bind].
  rewrite H12. cbn [mbind result_bind]. rewrite H13, bool_decide_refl. cbn [negb raise_if mbind result_bind].
  rewrite (proj2 (check_nodes_ok _ _ [] (xp_nodes p) (rev (map en_node_id (xp_nodes p)) ++ []))).
  - cbn [mbind result_bind]. rewrite H16. cbn [mbind result_bind opt_check].
    by rewrite H17, H18, H19, bool_decide_refl.
  - split_and!; [by rewrite <- H13|intros ? _; apply not_elem_of_nil|done|done].
Qed.

Lemma assembled_valid tc parent w cf idf order levels bindings nodes :
  TaskContext_validate tc = Ok tc → ca_task_id parent = tx_task_id tc →
  ca_fingerprint parent = tx_authority_fingerprint tc → workflow_ok w →
  Z.of_nat (length (wc_warnings w)) ≤ 12 → risk_check (wc_risk_level w) (tx_risk_class tc) = Ok tt →
  _graph (wc_nodes w) = Ok (order, levels) →
  mapM (build_node tc parent (workflow_by_id (wc_nodes w)) levels bindings) order = Ok nodes →
  _require_aggregate_budget nodes (tx_resource_budget tc) = Ok tt →
  is_sha256_ref cf = true → is_sha256_ref idf = true →
  ExecutionPlan_validate (assembled tc parent w cf idf nodes) (Some parent)
  = Ok (assembled tc parent w cf idf nodes).
Proof.
  intros Htc Hid Hfp Hok Hw Hr Hg Hm Hb Hcf Hidf.
  destruct (build_nodes_inv _ _ _ _ _ _ _ Hok Hg Hm) as (Hids & Hmatch & Hreb).
  pose proof (graph_order _ _ _ (wo_ids _ Hok) Hg) as (Hperm & _).
  apply TaskContext_validate_ok in Htc as (_ & Hident & Hbind). apply risk_class_known in Hident.
  apply validate_binding_ok in Hbind as (Hbud & _ & (_ & _ & Hauth) & _).
  assert (length nodes = length (wc_nodes w)) as Hlen.
  { rewrite <- (length_map en_node_id), Hids, Hperm. apply length_map. }
  apply (plan_validate_intro _ _ w order levels); try done.
  - apply sha256_of_text_shape.
  - exact (eq_trans (f_equal is_sha256_ref Hfp) Hauth).
  - cbn [xp_nodes assembled]. rewrite Hlen. apply (wo_nodes _ Hok).
  - by apply validated_workflow_ok.
  - rewrite Hperm. apply Hok.
  - by apply check_parent_ok.
Qed.

Lemma reraise_ok {A} (m : result A) h c msg a : reraise m h c msg = Ok a ↔ m = Ok a.
Proof. unfold reraise, catch. destruct m as [x|e]; [done|]. by destruct (h (exn_cls e)). Qed.

Lemma no_unknown_bindings (bindings : gmap string ExecutionNodeBinding) ids :
  sorted_diff (map fst (map_to_list bindings)) ids = [] ↔ ∀ id, is_Some (bindings !! id) → id ∈ ids.
Proof.
  assert (∀ id, id ∈ map fst (map_to_list bindings) ↔ is_Some (bindings !! id)) as Hin.
  { intros id. split.
    - intros ([k v] & -> & Hkv)%list_elem_of_fmap. apply elem_of_map_to_list in Hkv. by exists v.
    - intros [v Hv]. apply list_elem_of_fmap. exists (id, v). split; [done|]. by apply elem_of_map_to_list. }
  split.
  - intros Hd id Hid%Hin. destruct (decide (id ∈ ids)) as [|Hn]; [done|].
    assert (id ∈ ([] : list string)) as []%not_elem_of_nil. rewrite <- Hd. by apply elem_of_sorted_diff.
  - intros Hall. destruct (sorted_diff _ _) as [|x l] eqn:E; [done|].
    assert (x ∈ x :: l) as Hx by left. rewrite <- E in Hx. apply elem_of_sorted_diff in Hx as [Hx Hn].
    by apply Hin, Hall in Hx.
Qed.

(** The builder returns a plan exactly when the context is valid and belongs to the parent
    authority, the workflow validates with at most twelve warnings and is not classified below the
    task, every binding names a node, every node can be built within the task's budget and
    the parent's authority, and the node budgets fit the task's together. Nothing else can
    fail: the plan it assembles passes the whole validation, rebinding included. *)
Theorem build_exact tc parent raw bindings p :
  ExecutionPlanBuilder_build tc parent raw bindings = Ok p ↔
  TaskContext_validate tc = Ok tc ∧ ca_task_id parent = tx_task_id tc
  ∧ ca_fingerprint parent = tx_authority_fingerprint tc
  ∧ ∃ w order levels nodes cf idf,
      validate_contract raw = Ok w ∧ Z.of_nat (length (wc_warnings w)) ≤ 12
      ∧ risk_check (wc_risk_level w) (tx_risk_class tc) = Ok tt
      ∧ (∀ id, is_Some (bindings !! id) → id ∈ map wn_id (wc_nodes w))
      ∧ _graph (wc_nodes w) = Ok (order, levels)
      ∧ mapM (build_node tc parent (workflow_by_id (wc_nodes w)) levels bindings) order = Ok nodes
      ∧ _require_aggregate_budget nodes (tx_resource_budget tc) = Ok tt
      ∧ TaskContext_fingerprint tc = Ok cf ∧ identity_fingerprint tc = Ok idf
      ∧ p = assembled tc parent w cf idf nodes.
Proof.
  unfold ExecutionPlanBuilder_build, xp_fail_if. split.
  - intros H. apply bind_ok_iff in H as (tc' & Htc & H). pose proof Htc as (-> & _)%TaskContext_validate_ok.
    rewrite !guard_bind_ok in H. destruct H as (Hid & Hfp & H). bool_prop.
    rewrite unit_bind_ok in H. destruct H as [_ H].
    apply bind_ok_iff in H as (w & Hw%reraise_ok & H). rewrite unit_bind_ok in H. destruct H as [Hr H].
    cbv zeta in H. apply guard_bind_ok in H as [Hu H]. bool_prop. rewrite no_unknown_bindings in Hu.
    apply bind_ok_iff in H as ([order levels] & Hg & H). apply bind_ok_iff in H as (nodes & Hm & H).
    apply bind_ok_iff in H as (cf & Hcf & H). apply bind_ok_iff in H as (idf & Hidf & H).
    rewrite canonical_ok, plan_digest_ok in H by apply contract_json_ok. cbn [mbind result_bind] in H.
    fold (assembled tc parent w cf idf nodes) in H. apply plan_validate_inv in H as (-> & (w' & levels' & Hp) & _).
    pose proof (po_budget _ _ _ Hp) as Hb.
    pose proof (proj1 (validated_workflow_ok _ _) (po_workflow _ _ _ Hp)) as (Hok' & Hwarn & Hj & _).
    cbn [assembled xp_workflow_contract_json] in Hj.
    assert (w' = w) as ->.
    { pose proof (revalidate_ok w (validate_contract_ok _ _ Hw)) as R1.
      pose proof (revalidate_ok w' Hok') as R2.
      rewrite (proj2 (Z.ltb_ge _ _)) in R2 by done. apply print_inj in Hj; [|apply contract_json_ok..].
      rewrite <- validate_canon, Hj, validate_canon, R2 in R1. destruct (12 <? _); [discriminate R1|by injection R1]. }
    split_and!; [done..|]. exists w, order, levels, nodes, cf, idf. split_and!; done.
  - intros (Htc & Hid & Hfp & w & order & levels & nodes & cf & idf & Hw & Hwarn & Hr & Hu & Hg & Hm & Hb & Hcf & Hidf & ->).
    rewrite Htc, Hid, bool_decide_refl. cbn [negb raise_if mbind result_bind].
    rewrite Hfp, bool_decide_refl. cbn [negb raise_if mbind result_bind].
    assert (∃ d, raw = JObj d) as [d Hd] by (unfold validate_contract, wf_fail in Hw; destruct raw; try done; by eexists).
    rewrite Hd at 1. cbn [mbind result_bind]. rewrite (proj2 (reraise_ok _ _ _ _ w)) by done. cbn [mbind result_bind].
    rewrite Hr. cbn [mbind result_bind]. cbv zeta. rewrite (proj2 (no_unknown_bindings _ _)) by done.
    rewrite bool_decide_eq_true_2 by done. cbn [negb raise_if mbind result_bind]. rewrite Hg. cbn [mbind result_bind].
    rewrite Hm. cbn [mbind result_bind]. rewrite Hcf, Hidf. cbn [mbind result_bind].
    rewrite canonical_ok, plan_digest_ok by apply contract_json_ok. cbn [mbind result_bind].
    rewrite <- Hfp. fold (assembled tc parent w cf idf nodes).
    assert (is_sha256_ref cf = true ∧ is_sha256_ref idf = true) as [??].
    { unfold TaskContext_fingerprint in Hcf. unfold identity_fingerprint in Hidf. split.
      - apply bind_ok_iff in Hcf as (? & _ & Hcf). by eapply digest_shape.
      - apply bind_ok_iff in Hidf as (? & _ & Hidf). apply bind_ok_iff in Hidf as (? & _ & Hidf).
        by eapply digest_shape. }
    by eapply assembled_valid; eauto using validate_contract_ok.
Qed.
End Facts.

(** A plan for the sample context: three nodes, the middle one bound to a document tool. *)
Section Examples.
#[local] Existing Instance checksum_hashlib.

Definition sample_parent : TaskCapabilityAuthority := Eval vm_compute in ok_of (from_contract sample_contract).

Definition work_binding : ExecutionNodeBinding := {|
  nb_allowed_sources := ["docs"]; nb_allowed_tools := ["search_docs"]; nb_write_scope := WsStr "none";
  nb_network_scope := "deny";
  nb_resource_budget := {| rb_wall_time_s := Some 1; rb_model_tokens := Some 0; rb_tool_calls := Some 1;
                           rb_cost_usd := None |};
  nb_evidence_requirements := ["citation"; "audit"; "citation"]; nb_approval_required := true |}.

Definition sample_plan : ExecutionPlan.
Proof.
  let r := eval vm_compute in
    (ExecutionPlanBuilder_build sample_context sample_parent sample_workflow {["work" := work_binding]}) in
  match r with Ok ?p => exact p end.
Defined.

Lemma sample_plan_valid : ExecutionPlan_validate sample_plan (Some sample_parent) = Ok sample_plan.
Proof. vm_compute. reflexivity. Qed.

Lemma plan_matches_workflow_witness : ∃ w, workflow_ok w
  ∧ map en_node_id (xp_nodes sample_plan) ≡ₚ map wn_id (wc_nodes w).
Proof.
  destruct (plan_matches_workflow sample_plan (Some sample_parent) sample_plan_valid)
    as (w & Hw & _ & _ & Hperm & _). exists w. split; [exact Hw|exact Hperm].
Defined.

Lemma plan_authority_confined_witness : ∃ m, rebind_authorities sample_plan sample_parent = Ok m
  ∧ dom m = list_to_set ["in"; "work"; "out"].
Proof.
  destruct (plan_authority_confined sample_plan sample_parent sample_plan_valid) as (m & Hm & Hd & _).
  exists m. split; [exact Hm|exact Hd].
Defined.

Lemma plan_budget_bounded_witness : ∃ vs,
  map (rb_tool_calls ∘ en_resource_budget) (xp_nodes sample_plan) = map Some vs ∧ vs = [0; 1; 0].
Proof.
  pose proof (plan_budget_bounded sample_plan (Some sample_parent) sample_plan_valid) as H.
  apply Forall_cons in H as [_ H]. apply Forall_cons in H as [_ H]. apply Forall_cons in H as [H _].
  destruct H as (vs & Hvs & _). exists vs. split; [exact Hvs|].
  destruct vs as [|a [|b [|c [|]]]]; try discriminate Hvs. injection Hvs as <- <- <-. reflexivity.
Defined.
End Examples.
