(* ===== verification/ExecutionObservation.v ===== *)
(** * Execution observations

    [execution_observation.py]: the immutable report of one node run - status, times, output,
    evidence and cost - bound to the plan, the node and the authority it ran under, and named by
    the digest of its own content. *)

From Stdlib Require Import Ascii.
From Stdlib Require String.
From S2P Require Import Prelude PyStr Hashlib PyFloat Json JsonFacts PyTime Validators TaskContract.
From S2P Require Import CapabilityAuthority AuthorityFacts WorkflowDesign ContextManifest TaskContext.
From S2P Require Import ExecutionPlan PlanFacts.

Local Open Scope Z_scope.

Definition EXECUTION_OBSERVATION_SCHEMA : string := "workspace-execution-observation/v1".
Definition EXECUTION_EVIDENCE_BINDING_SCHEMA : string := "workspace-execution-evidence-binding/v1".
Definition OBSERVATION_STATUSES : list string := ["SUCCEEDED"; "FAILED"; "PARTIAL"; "CANCELLED"].
Definition MAX_NORMALIZED_OUTPUT_BYTES : Z := 64 * 1024.
Definition MAX_EVIDENCE_BINDINGS : Z := 32.

Definition ob_fail {A} (msg : string) : result A := raise ExecutionObservationError msg.
Definition ob_fail_if (b : bool) (msg : string) : result unit := raise_if b ExecutionObservationError msg.

Definition _sha256 : string → string → result string := sha256_ref ExecutionObservationError.
Definition _single_line : string → string → Z → result string := single_line ExecutionObservationError.
Definition _canonical_json : json → result string :=
  canonical_json ExecutionObservationError "OBSERVATION_NOT_CANONICAL_JSON".

(** [^[A-Za-z0-9][A-Za-z0-9._:@+\-/]{0,255}$] *)
Definition ref_re (s : string) : bool :=
  match s with
  | EmptyString => false
  | String c t =>
      is_alnum c && (String.length t <=? 255)%nat
      && forall_char (λ d, is_alnum d || mem_char d "._:@+-/") t
  end.

Definition _reference (value field_name : string) : result string :=
  text ← _single_line value field_name 256;
  ob_fail_if (negb (ref_re text) || contains text "://") (invalid field_name) ;;
  ob_fail_if (mem_str ".." (split_on "/" text)) (invalid field_name) ;;
  Ok text.

(** [datetime.fromisoformat(text.replace("Z", "+00:00"))]. *)
Definition parse_instant_text (text : string) : option datetime :=
  fromisoformat (replace_char "Z" "+00:00" text).

Definition _timestamp (value field_name : string) : result string :=
  ob_fail_if (is_empty (strip value)) (invalid field_name) ;;
  match parse_instant_text (strip value) with
  | None => ob_fail (invalid field_name)
  | Some parsed =>
      ob_fail_if (is_none (dt_offset parsed)) (invalid field_name) ;;
      utc_isoformat parsed
  end.

(** The instant of a text [_timestamp] returned. *)
Definition instant_of (text : string) : result Z :=
  match parse_instant_text text with
  | Some d => Ok (instant d)
  | None => raise PyValueError ("Invalid isoformat string: " +:+ repr_str text)
  end.

(** [None] is the null value. *)
Definition _normalized_output_json (value : json) : result (option string) :=
  match value with
  | JNull => Ok None
  | JObj _ =>
      canonical ← _canonical_json value;
      ob_fail_if (MAX_NORMALIZED_OUTPUT_BYTES <? len (utf8_encode canonical))
        "NORMALIZED_OUTPUT_BOUND_EXCEEDED" ;;
      Ok (Some canonical)
  | _ => ob_fail "NORMALIZED_OUTPUT_MUST_BE_OBJECT"
  end.

Fixpoint node_for (nodes : list ExecutionNode) (node_id : string) : result ExecutionNode :=
  match nodes with
  | [] => ob_fail ("OBSERVATION_UNKNOWN_NODE:" +:+ node_id)
  | n :: nodes => if bool_decide (en_node_id n = node_id) then Ok n else node_for nodes node_id
  end.
Definition _node_for (plan : ExecutionPlan) (node_id : string) : result ExecutionNode :=
  node_for (xp_nodes plan) node_id.

(** ** Cost *)

Record ObservationCost := {
  oc_wall_time_s : pynum;
  oc_model_tokens : Z;
  oc_tool_calls : Z;
  oc_cost_usd : option pynum
}.

#[export] Instance ObservationCost_eq_dec : EqDecision ObservationCost.
Proof. solve_decision. Defined.

(** A NaN or an infinity is not below zero. *)
Definition ObservationCost_validate (c : ObservationCost) : result ObservationCost :=
  ob_fail_if (num_lt (oc_wall_time_s c) (NInt 0)) "INVALID_OBSERVATION_WALL_TIME" ;;
  ob_fail_if (oc_model_tokens c <? 0) "INVALID_OBSERVATION_MODEL_TOKENS" ;;
  ob_fail_if (oc_tool_calls c <? 0) "INVALID_OBSERVATION_TOOL_CALLS" ;;
  ob_fail_if (match oc_cost_usd c with Some u => num_lt u (NInt 0) | None => false end)
    "INVALID_OBSERVATION_COST_USD" ;;
  Ok c.

Definition ObservationCost_canonical_dict (c : ObservationCost) : result json :=
  ObservationCost_validate c ;;
  wall ← to_float (oc_wall_time_s c);
  cost ← match oc_cost_usd c with None => Ok JNull | Some u => JFloat <$> to_float u end;
  Ok (JObj [("wall_time_s", JFloat wall); ("model_tokens", JInt (oc_model_tokens c));
            ("tool_calls", JInt (oc_tool_calls c)); ("cost_usd", cost)]).

(** [x > limit]: comparing with [None] is a TypeError. *)
Definition exceeds (x : pynum) (limit : option pynum) : result bool :=
  match limit with
  | Some l => Ok (num_gt x l)
  | None => raise PyTypeError ("'>' not supported between instances of '" +:+
              match x with NInt _ => "int" | NFloat _ => "float" end +:+ "' and 'NoneType'")
  end.

Definition ObservationCost_validate_against (c : ObservationCost) (n : ExecutionNode) : result ObservationCost :=
  ObservationCost_validate c ;;
  let budget := en_resource_budget n in
  wall ← exceeds (oc_wall_time_s c) (NInt <$> rb_wall_time_s budget);
  ob_fail_if wall "OBSERVATION_WALL_TIME_EXCEEDS_NODE_BUDGET" ;;
  tokens ← exceeds (NInt (oc_model_tokens c)) (NInt <$> rb_model_tokens budget);
  ob_fail_if tokens "OBSERVATION_MODEL_TOKENS_EXCEED_NODE_BUDGET" ;;
  calls ← exceeds (NInt (oc_tool_calls c)) (NInt <$> rb_tool_calls budget);
  ob_fail_if calls "OBSERVATION_TOOL_CALLS_EXCEED_NODE_BUDGET" ;;
  ob_fail_if (match oc_cost_usd c with
              | None => false
              | Some u => match rb_cost_usd budget with None => true | Some l => num_gt u l end
              end) "OBSERVATION_COST_EXCEEDS_NODE_BUDGET" ;;
  Ok c.

(** ** Evidence *)

Record ExecutionEvidenceBinding := {
  eb_evidence_ref : string;
  eb_evidence_fingerprint : string;
  eb_requirement : option string;
  eb_schema_version : string
}.

#[export] Instance ExecutionEvidenceBinding_eq_dec : EqDecision ExecutionEvidenceBinding.
Proof. solve_decision. Defined.

Definition ExecutionEvidenceBinding_validate (b : ExecutionEvidenceBinding) : result ExecutionEvidenceBinding :=
  ob_fail_if (negb (bool_decide (eb_schema_version b = EXECUTION_EVIDENCE_BINDING_SCHEMA)))
    "EVIDENCE_BINDING_SCHEMA_VERSION_MISMATCH" ;;
  _reference (eb_evidence_ref b) "evidence_ref" ;;
  _sha256 (eb_evidence_fingerprint b) "evidence_fingerprint" ;;
  opt_check (λ r, _single_line r "evidence_requirement" 256 ;; Ok tt) (eb_requirement b) ;;
  Ok b.

Definition ExecutionEvidenceBinding_canonical_dict (b : ExecutionEvidenceBinding) : result json :=
  ExecutionEvidenceBinding_validate b ;;
  Ok (JObj [("schema_version", JStr (eb_schema_version b)); ("requirement", json_opt_str (eb_requirement b));
            ("evidence_ref", JStr (eb_evidence_ref b));
            ("evidence_fingerprint", JStr (eb_evidence_fingerprint b))]).

Definition binding_row (b : ExecutionEvidenceBinding) : option string * string * string :=
  (eb_requirement b, eb_evidence_ref b, eb_evidence_fingerprint b).

(** The order of the sort keys, compared as tuples. *)
Definition binding_le (a b : ExecutionEvidenceBinding) : bool :=
  let ra := default "" (eb_requirement a) in
  let rb := default "" (eb_requirement b) in
  if bool_decide (ra = rb) then
    if bool_decide (eb_evidence_ref a = eb_evidence_ref b)
    then bool_decide (String.le (eb_evidence_fingerprint a) (eb_evidence_fingerprint b))
    else bool_decide (String.le (eb_evidence_ref a) (eb_evidence_ref b))
  else bool_decide (String.le ra rb).

Fixpoint insert_binding (b : ExecutionEvidenceBinding) (l : list ExecutionEvidenceBinding)
    : list ExecutionEvidenceBinding :=
  match l with
  | [] => [b]
  | x :: l' => if binding_le b x then b :: l else x :: insert_binding b l'
  end.

Record binding_scan := {
  bs_normalized : list ExecutionEvidenceBinding;
  bs_seen_rows : list (option string * string * string);
  bs_seen_requirements : list string
}.

(** One round of the loop of [_normalize_evidence_bindings]. *)
Definition scan_binding (s : binding_scan) (b : ExecutionEvidenceBinding) : result binding_scan :=
  ExecutionEvidenceBinding_validate b ;;
  if bool_decide (binding_row b ∈ bs_seen_rows s) then Ok s
  else
    requirements ← match eb_requirement b with
                   | None => Ok (bs_seen_requirements s)
                   | Some r =>
                       ob_fail_if (mem_str r (bs_seen_requirements s))
                         ("DUPLICATE_EVIDENCE_REQUIREMENT:" +:+ r) ;;
                       Ok (r :: bs_seen_requirements s)
                   end;
    Ok {| bs_normalized := bs_normalized s ++ [b]; bs_seen_rows := binding_row b :: bs_seen_rows s;
          bs_seen_requirements := requirements |}.

Definition _normalize_evidence_bindings (bindings : list ExecutionEvidenceBinding)
    : result (list ExecutionEvidenceBinding) :=
  ob_fail_if (MAX_EVIDENCE_BINDINGS <? Z.of_nat (length bindings)) "EVIDENCE_BINDING_BOUND_EXCEEDED" ;;
  s ← foldM scan_binding {| bs_normalized := []; bs_seen_rows := []; bs_seen_requirements := [] |} bindings;
  Ok (foldr insert_binding [] (bs_normalized s)).

Definition _validate_evidence_requirements (n : ExecutionNode) (status : string)
    (bindings : list ExecutionEvidenceBinding) : result unit :=
  let declared := en_evidence_requirements n in
  let satisfied := omap eb_requirement bindings in
  let unknown := sorted_diff satisfied declared in
  ob_fail_if (negb (bool_decide (unknown = [])))
    ("OBSERVATION_UNDECLARED_EVIDENCE_REQUIREMENT:" +:+ join "," unknown) ;;
  if bool_decide (status = "SUCCEEDED") then
    let missing := sorted_diff declared satisfied in
    ob_fail_if (negb (bool_decide (missing = [])))
      ("OBSERVATION_REQUIRED_EVIDENCE_MISSING:" +:+ join "," missing)
  else Ok tt.

(** ** Observations *)

Record ExecutionObservation := {
  eo_observation_id : string;
  eo_task_id : string;
  eo_task_context_fingerprint : string;
  eo_plan_fingerprint : string;
  eo_node_id : string;
  eo_node_fingerprint : string;
  eo_authority_fingerprint : string;
  eo_status : string;
  eo_started_at : string;
  eo_finished_at : string;
  eo_normalized_output_json : option string;
  eo_error_class : option string;
  eo_evidence_bindings : list ExecutionEvidenceBinding;
  eo_cost : option ObservationCost;
  eo_schema_version : string
}.

#[export] Instance ExecutionObservation_eq_dec : EqDecision ExecutionObservation.
Proof. solve_decision. Defined.

Definition normalized_output (o : ExecutionObservation) : result json :=
  match eo_normalized_output_json o with
  | None => Ok JNull
  | Some text =>
      value ← loads text;
      match value with
      | JObj _ => Ok value
      | _ => ob_fail "NORMALIZED_OUTPUT_MUST_BE_OBJECT"
      end
  end.

Definition evidence_refs (o : ExecutionObservation) : list string :=
  map eb_evidence_ref (eo_evidence_bindings o).

(** [digest.split(":", 1)[1][:24]]. *)
Fixpoint after_colon (s : string) : string :=
  match s with
  | EmptyString => ""
  | String c t => if bool_decide (c = ":"%char) then t else after_colon t
  end.
Definition short_digest (digest : string) : string := take_str 24 (after_colon digest).

(** Status, error class, evidence and cost, without the plan. *)
Definition validate_outcome (status : string) (error_class : option string) : result unit :=
  ob_fail_if (bool_decide (status = "SUCCEEDED") && negb (is_none error_class))
    "SUCCEEDED_OBSERVATION_CANNOT_HAVE_ERROR" ;;
  ob_fail_if (bool_decide (status = "FAILED") && is_none error_class)
    "FAILED_OBSERVATION_REQUIRES_ERROR_CLASS".

Definition validate_output_text (text : string) : result unit :=
  value ← reraise (loads text) (is_class PyJSONDecodeError) ExecutionObservationError
            "INVALID_NORMALIZED_OUTPUT_JSON";
  canonical ← _normalized_output_json value;
  ob_fail_if (negb (bool_decide (canonical = Some text))) "NORMALIZED_OUTPUT_NOT_CANONICAL".

Definition validate_record (o : ExecutionObservation) : result unit :=
  ob_fail_if (negb (bool_decide (eo_schema_version o = EXECUTION_OBSERVATION_SCHEMA)))
    "OBSERVATION_SCHEMA_VERSION_MISMATCH" ;;
  _reference (eo_task_id o) "task_id" ;;
  _sha256 (eo_task_context_fingerprint o) "task_context_fingerprint" ;;
  _sha256 (eo_plan_fingerprint o) "plan_fingerprint" ;;
  _reference (eo_node_id o) "node_id" ;;
  _sha256 (eo_node_fingerprint o) "node_fingerprint" ;;
  _sha256 (eo_authority_fingerprint o) "authority_fingerprint" ;;
  ob_fail_if (negb (mem_str (eo_status o) OBSERVATION_STATUSES)) "INVALID_OBSERVATION_STATUS" ;;
  started ← _timestamp (eo_started_at o) "started_at";
  finished ← _timestamp (eo_finished_at o) "finished_at";
  ob_fail_if (negb (bool_decide (eo_started_at o = started)) || negb (bool_decide (eo_finished_at o = finished)))
    "OBSERVATION_TIMESTAMPS_NOT_NORMALIZED" ;;
  finish ← instant_of finished;
  start ← instant_of started;
  ob_fail_if (finish <? start) "OBSERVATION_FINISHED_BEFORE_STARTED" ;;
  opt_check validate_output_text (eo_normalized_output_json o) ;;
  opt_check (λ e, _reference e "error_class" ;; Ok tt) (eo_error_class o) ;;
  validate_outcome (eo_status o) (eo_error_class o) ;;
  bindings ← _normalize_evidence_bindings (eo_evidence_bindings o);
  ob_fail_if (negb (bool_decide (bindings = eo_evidence_bindings o))) "EVIDENCE_BINDINGS_NOT_NORMALIZED" ;;
  opt_check (λ c, ObservationCost_validate c ;; Ok tt) (eo_cost o).

Section Observation.
Context {HL : Hashlib}.

Definition _digest : json → result string :=
  digest ExecutionObservationError "OBSERVATION_NOT_CANONICAL_JSON".

Definition normalized_output_sha256 (o : ExecutionObservation) : option string :=
  sha256_of_text <$> eo_normalized_output_json o.

Definition identity_items (o : ExecutionObservation) : result (list (string * json)) :=
  output ← normalized_output o;
  bindings ← mapM ExecutionEvidenceBinding_canonical_dict (eo_evidence_bindings o);
  cost ← match eo_cost o with None => Ok JNull | Some c => ObservationCost_canonical_dict c end;
  Ok [("schema_version", JStr (eo_schema_version o));
      ("task_id", JStr (eo_task_id o));
      ("task_context_fingerprint", JStr (eo_task_context_fingerprint o));
      ("plan_fingerprint", JStr (eo_plan_fingerprint o));
      ("node_id", JStr (eo_node_id o));
      ("node_fingerprint", JStr (eo_node_fingerprint o));
      ("authority_fingerprint", JStr (eo_authority_fingerprint o));
      ("status", JStr (eo_status o));
      ("started_at", JStr (eo_started_at o));
      ("finished_at", JStr (eo_finished_at o));
      ("normalized_output", output);
      ("normalized_output_sha256", json_opt_str (normalized_output_sha256 o));
      ("error_class", json_opt_str (eo_error_class o));
      ("evidence_bindings", JList bindings);
      ("cost", cost)].

Definition expected_observation_id (o : ExecutionObservation) : result string :=
  items ← identity_items o;
  digest ← _digest (JObj items);
  Ok ("observation:" +:+ short_digest digest).

(** The checks against the plan and, when it is given, its parent authority. *)
Definition validate_binding_to (o : ExecutionObservation) (parent : option TaskCapabilityAuthority)
    (plan : ExecutionPlan) : result unit :=
  reraise (ExecutionPlan_validate plan parent) (is_class ExecutionPlanError) ExecutionObservationError
    "OBSERVATION_PLAN_REVALIDATION_FAILED" ;;
  node ← _node_for plan (eo_node_id o);
  ob_fail_if (negb (bool_decide (eo_task_id o = xp_task_id plan))) "OBSERVATION_TASK_MISMATCH" ;;
  ob_fail_if (negb (bool_decide (eo_task_context_fingerprint o = xp_task_context_fingerprint plan)))
    "OBSERVATION_TASK_CONTEXT_MISMATCH" ;;
  plan_fingerprint ← ExecutionPlan_fingerprint plan;
  ob_fail_if (negb (bool_decide (eo_plan_fingerprint o = plan_fingerprint)))
    "OBSERVATION_PLAN_FINGERPRINT_MISMATCH" ;;
  node_fingerprint ← ExecutionNode_fingerprint node;
  ob_fail_if (negb (bool_decide (eo_node_fingerprint o = node_fingerprint)))
    "OBSERVATION_NODE_FINGERPRINT_MISMATCH" ;;
  ob_fail_if (negb (bool_decide (eo_authority_fingerprint o = en_authority_fingerprint node)))
    "OBSERVATION_AUTHORITY_FINGERPRINT_MISMATCH" ;;
  opt_check (λ parent,
    rebound ← reraise (rebind_authority node parent) (is_class ExecutionPlanError)
                ExecutionObservationError "OBSERVATION_AUTHORITY_REVALIDATION_FAILED";
    ob_fail_if (negb (bool_decide (ca_fingerprint rebound = eo_authority_fingerprint o)))
      "OBSERVATION_AUTHORITY_FINGERPRINT_MISMATCH") parent ;;
  _validate_evidence_requirements node (eo_status o) (eo_evidence_bindings o) ;;
  opt_check (λ c, ObservationCost_validate_against c node ;; Ok tt) (eo_cost o).

Definition ExecutionObservation_validate (o : ExecutionObservation) (plan : option ExecutionPlan)
    (parent : option TaskCapabilityAuthority) : result ExecutionObservation :=
  validate_record o ;;
  opt_check (validate_binding_to o parent) plan ;;
  expected_id ← expected_observation_id o;
  ob_fail_if (negb (bool_decide (eo_observation_id o = expected_id))) "OBSERVATION_IDENTITY_MISMATCH" ;;
  Ok o.

Definition ExecutionObservation_canonical_dict (o : ExecutionObservation) : result json :=
  ExecutionObservation_validate o None None ;;
  items ← identity_items o;
  Ok (JObj (("observation_id", JStr (eo_observation_id o)) :: items)).

Definition ExecutionObservation_fingerprint (o : ExecutionObservation) : result string :=
  d ← ExecutionObservation_canonical_dict o; _digest d.

(** The provisional record with its identifier replaced. *)
Definition with_observation_id (o : ExecutionObservation) (id : string) : ExecutionObservation := {|
  eo_observation_id := id; eo_task_id := eo_task_id o;
  eo_task_context_fingerprint := eo_task_context_fingerprint o; eo_plan_fingerprint := eo_plan_fingerprint o;
  eo_node_id := eo_node_id o; eo_node_fingerprint := eo_node_fingerprint o;
  eo_authority_fingerprint := eo_authority_fingerprint o; eo_status := eo_status o;
  eo_started_at := eo_started_at o; eo_finished_at := eo_finished_at o;
  eo_normalized_output_json := eo_normalized_output_json o; eo_error_class := eo_error_class o;
  eo_evidence_bindings := eo_evidence_bindings o; eo_cost := eo_cost o;
  eo_schema_version := eo_schema_version o |}.

Definition ExecutionObservationBuilder_build (plan : ExecutionPlan) (node_id : string)
    (parent : TaskCapabilityAuthority) (status started_at finished_at : string) (output : json)
    (error_class : option string) (evidence_bindings : list ExecutionEvidenceBinding)
    (cost : option ObservationCost) : result ExecutionObservation :=
  reraise (ExecutionPlan_validate plan (Some parent)) (is_class ExecutionPlanError)
    ExecutionObservationError "OBSERVATION_PLAN_REVALIDATION_FAILED" ;;
  id ← _reference node_id "node_id";
  node ← _node_for plan id;
  rebound ← reraise (rebind_authority node parent) (is_class ExecutionPlanError)
              ExecutionObservationError "OBSERVATION_AUTHORITY_REVALIDATION_FAILED";
  ob_fail_if (negb (mem_str status OBSERVATION_STATUSES)) "INVALID_OBSERVATION_STATUS" ;;
  started ← _timestamp started_at "started_at";
  finished ← _timestamp finished_at "finished_at";
  finish ← instant_of finished;
  start ← instant_of started;
  ob_fail_if (finish <? start) "OBSERVATION_FINISHED_BEFORE_STARTED" ;;
  output_json ← _normalized_output_json output;
  bindings ← _normalize_evidence_bindings evidence_bindings;
  _validate_evidence_requirements node status bindings ;;
  opt_check (λ e, _reference e "error_class" ;; Ok tt) error_class ;;
  validate_outcome status error_class ;;
  opt_check (λ c, ObservationCost_validate_against c node ;; Ok tt) cost ;;
  plan_fingerprint ← ExecutionPlan_fingerprint plan;
  node_fingerprint ← ExecutionNode_fingerprint node;
  let provisional := {|
    eo_observation_id := "observation:" +:+ repeat_str 24 "0"; eo_task_id := xp_task_id plan;
    eo_task_context_fingerprint := xp_task_context_fingerprint plan; eo_plan_fingerprint := plan_fingerprint;
    eo_node_id := en_node_id node; eo_node_fingerprint := node_fingerprint;
    eo_authority_fingerprint := ca_fingerprint rebound; eo_status := status; eo_started_at := started;
    eo_finished_at := finished; eo_normalized_output_json := output_json; eo_error_class := error_class;
    eo_evidence_bindings := bindings; eo_cost := cost;
    eo_schema_version := EXECUTION_OBSERVATION_SCHEMA |} in
  observation_id ← expected_observation_id provisional;
  ExecutionObservation_validate (with_observation_id provisional observation_id) (Some plan) (Some parent).
End Observation.
