(* ===== verification/ObservationFacts.v ===== *)
(** * Execution observations: what validation guarantees *)

From Stdlib Require Import Ascii.
From Stdlib Require String.
From S2P Require Import Prelude PyStr Hashlib PyFloat Json JsonFacts PyTime Validators TaskContract.
From S2P Require Import CapabilityAuthority AuthorityFacts WorkflowDesign ContextManifest TaskContext.
From S2P Require Import ExecutionPlan PlanFacts ExecutionObservation.

Local Open Scope Z_scope.

(** ** Evidence bindings *)

Lemma binding_validate_ok b x : ExecutionEvidenceBinding_validate b = Ok x → x = b.
Proof. unfold ExecutionEvidenceBinding_validate. intros H. inv_ok. done. Qed.

Definition binding_valid (b : ExecutionEvidenceBinding) : Prop := ExecutionEvidenceBinding_validate b = Ok b.

Lemma binding_valid_fields b : binding_valid b → eb_requirement b ≠ Some ""
  ∧ eb_schema_version b = EXECUTION_EVIDENCE_BINDING_SCHEMA.
Proof.
  unfold binding_valid, ExecutionEvidenceBinding_validate, ob_fail_if. intros H. inv_ok. bool_prop.
  split; [|done]. intros Hr. rewrite Hr in *. by cbn in *.
Qed.

(** A valid binding is determined by its row. *)
Lemma binding_row_inj a b : binding_valid a → binding_valid b → binding_row a = binding_row b → a = b.
Proof.
  intros [_ Ha]%binding_valid_fields [_ Hb]%binding_valid_fields [= H1 H2 H3].
  destruct a, b; simpl in *; congruence.
Qed.

Definition ble (a b : ExecutionEvidenceBinding) : Prop := binding_le a b = true.

Lemma insert_binding_perm b l : insert_binding b l ≡ₚ b :: l.
Proof.
  induction l as [|x l IH]; [done|]. cbn [insert_binding]. destruct (binding_le b x); [done|].
  rewrite IH. apply Permutation_swap.
Qed.

Lemma sort_bindings_perm l : foldr insert_binding [] l ≡ₚ l.
Proof. induction l as [|x l IH]; [done|]. cbn [foldr]. by rewrite insert_binding_perm, IH. Qed.

Definition key (b : ExecutionEvidenceBinding) : string * string * string :=
  (default "" (eb_requirement b), eb_evidence_ref b, eb_evidence_fingerprint b).

Lemma ble_spec a b : ble a b ↔
  let '(r, e, f) := key a in let '(r', e', f') := key b in
  (r ≠ r' ∧ String.le r r') ∨ (r = r' ∧ ((e ≠ e' ∧ String.le e e') ∨ (e = e' ∧ String.le f f'))).
Proof.
  unfold ble, binding_le, key. repeat case_bool_decide; rewrite ?bool_decide_eq_true; naive_solver.
Qed.

Lemma ble_total a b : ble a b ∨ ble b a.
Proof.
  rewrite !ble_spec. destruct (key a) as [[r e] f], (key b) as [[r' e'] f'].
  destruct (total String.le r r'), (total String.le e e'), (total String.le f f'),
    (decide (r = r')), (decide (e = e')); subst; naive_solver.
Qed.

Lemma ble_antisym a b : ble a b → ble b a → key a = key b.
Proof.
  rewrite !ble_spec. destruct (key a) as [[r e] f], (key b) as [[r' e'] f'].
  assert (∀ x y : string, String.le x y → String.le y x → x = y) as Has by (intros x y; apply (anti_symm _)).
  intros [[Hn H]|[-> H]] [[Hn' H']|[E H']]; [by destruct Hn; auto|congruence|congruence|].
  destruct H as [[Hn H]|[-> H]], H' as [[Hn' H']|[E' H']]; [by destruct Hn; auto|congruence|congruence|].
  by rewrite (Has f f').
Qed.

Lemma ble_trans a b c : ble a b → ble b c → ble a c.
Proof.
  rewrite !ble_spec. destruct (key a) as [[r e] f], (key b) as [[r2 e2] f2], (key c) as [[r3 e3] f3].
  assert (∀ x y z : string, x ≠ y → String.le x y → String.le y z → x ≠ z ∧ String.le x z) as Hl.
  { intros x y z Hn Hxy Hyz. split; [|by etrans]. intros ->. by apply Hn, (anti_symm String.le). }
  assert (∀ x y z : string, y ≠ z → String.le x y → String.le y z → x ≠ z ∧ String.le x z) as Hr.
  { intros x y z Hn Hxy Hyz. split; [|by etrans]. intros ->. by apply Hn, (anti_symm String.le). }
  intros [[Hn H]|[-> [[Hn H]|[-> H]]]] [[Hn' H']|[<- [[Hn' H']|[<- H']]]]; eauto 7.
  right. split; [done|]. right. split; [done|]. by etrans.
Qed.

Lemma insert_binding_sorted b l : StronglySorted ble l → StronglySorted ble (insert_binding b l).
Proof.
  induction 1 as [|x l Hl IH Hx]; cbn [insert_binding]; [by repeat constructor|].
  destruct (binding_le b x) eqn:E.
  - constructor; [by constructor|]. constructor; [done|]. eapply Forall_mono; [exact Hx|].
    intros y. by apply ble_trans.
  - constructor; [done|]. rewrite insert_binding_perm. constructor; [|done].
    destruct (ble_total b x) as [H|H]; [unfold ble in H; congruence|done].
Qed.

Lemma sort_bindings_sorted l : StronglySorted ble (foldr insert_binding [] l).
Proof. induction l; [constructor|]. by apply insert_binding_sorted. Qed.

(** Two sorted lists of the same bindings, with different keys, are equal. *)
Lemma sorted_bindings_unique l l' : l ≡ₚ l' → (∀ a b, a ∈ l → b ∈ l → key a = key b → a = b) →
  StronglySorted ble l → StronglySorted ble l' → l = l'.
Proof.
  intros Hp Hkey Hl. revert l' Hp Hkey. induction Hl as [|x l Hl IH Hx]; intros l' Hp Hkey Hl'.
  - by apply Permutation_nil_l in Hp.
  - destruct Hl' as [|y l' Hl' Hy]; [by apply Permutation_nil_r in Hp|].
    rewrite Forall_elem in Hx, Hy.
    assert (x = y) as ->.
    { assert (y ∈ x :: l) as Hyin by (rewrite Hp; left). assert (x ∈ y :: l') as Hxin by (rewrite <- Hp; left).
      apply elem_of_cons in Hyin as [?|Hyin]; [done|]. apply elem_of_cons in Hxin as [?|Hxin]; [done|].
      apply Hkey; [left|by right|]. apply ble_antisym; auto. }
    f_equal. apply IH; [by apply Permutation_cons_inv in Hp| |done]. intros a b Ha Hb. apply Hkey; by right.
Qed.

(** What the loop has collected. *)
Record scan_inv (done_ : list ExecutionEvidenceBinding) (s : binding_scan) : Prop := {
  si_rows : bs_seen_rows s = reverse (map binding_row (bs_normalized s));
  si_nodup : NoDup (map binding_row (bs_normalized s));
  si_members : ∀ b, b ∈ bs_normalized s ↔ b ∈ done_;
  si_reqs : ∀ r, r ∈ bs_seen_requirements s ↔ r ∈ omap eb_requirement (bs_normalized s);
  si_reqs_nodup : NoDup (omap eb_requirement (bs_normalized s));
  si_valid : Forall binding_valid done_
}.

Lemma scan_seen done_ s b : scan_inv done_ s → binding_valid b → binding_row b ∈ bs_seen_rows s ↔ b ∈ done_.
Proof.
  intros [Hr _ Hm _ _ Hv] Hb. rewrite Hr, elem_of_reverse. rewrite Forall_elem in Hv. split.
  - intros (x & Hx & Hin)%list_elem_of_fmap. apply Hm in Hin.
    by rewrite (binding_row_inj b x Hb (Hv x Hin) Hx).
  - intros Hin%Hm. by apply (list_elem_of_fmap_2 binding_row).
Qed.

(** At most one binding per requirement. *)
Definition consistent (l : list ExecutionEvidenceBinding) : Prop :=
  ∀ a b r, a ∈ l → b ∈ l → eb_requirement a = Some r → eb_requirement b = Some r → a = b.

Lemma elem_of_requirements r (l : list ExecutionEvidenceBinding) : r ∈ omap eb_requirement l ↔ ∃ b, b ∈ l ∧ eb_requirement b = Some r.
Proof. apply list_elem_of_omap. Qed.

Lemma requirements_unique (l : list ExecutionEvidenceBinding) a b r : NoDup (omap eb_requirement l) → a ∈ l → b ∈ l →
  eb_requirement a = Some r → eb_requirement b = Some r → a = b.
Proof.
  induction l as [|x l IH]; [by intros _ []%not_elem_of_nil|]. intros Hnd Ha Hb Hra Hrb.
  assert (NoDup (omap eb_requirement l)) as Hl.
  { cbn [omap list_omap] in Hnd. destruct (eb_requirement x); [by apply NoDup_cons in Hnd as [_ ?]|done]. }
  assert (∀ c, c ∈ l → eb_requirement c = Some r → eb_requirement x = Some r → False) as Hx.
  { intros c Hc Hrc Hrx. cbn [omap list_omap] in Hnd. rewrite Hrx in Hnd. apply NoDup_cons in Hnd as [Hn _].
    apply Hn, elem_of_requirements. by exists c. }
  apply elem_of_cons in Ha as [->|Ha]; apply elem_of_cons in Hb as [->|Hb]; [done| | |by apply IH].
  - exfalso. by eapply Hx.
  - exfalso. by eapply Hx.
Qed.

Lemma scan_consistent done_ s : scan_inv done_ s → consistent done_.
Proof.
  intros [_ _ Hm _ Hn _] a b r Ha Hb. apply Hm in Ha, Hb. by apply requirements_unique with (l := bs_normalized s).
Qed.

Lemma scan_inv_snoc done_ s b s' : scan_inv done_ s → scan_binding s b = Ok s' → scan_inv (done_ ++ [b]) s'.
Proof.
  intros Hs H. unfold scan_binding in H. apply bind_ok_iff in H as (x & Hb & H).
  pose proof (binding_validate_ok _ _ Hb) as ->. pose proof (scan_seen _ _ _ Hs Hb) as Hseen.
  pose proof Hs as [Hr Hn Hm Hq Hqn Hv].
  assert (Forall binding_valid (done_ ++ [b])) as Hv' by (apply Forall_app; split; [done|by constructor]).
  case_bool_decide as Hrow.
  - injection H as <-. apply Hseen in Hrow. constructor; try done. intros c. rewrite Hm. set_solver.
  - assert (b ∉ done_) as Hfresh by (by rewrite <- Hseen).
    assert (∀ l, omap eb_requirement (l ++ [b]) = omap eb_requirement l ++ match eb_requirement b with Some r => [r] | None => [] end)
      as Homap.
    { intros l. rewrite omap_app. f_equal. }
    apply bind_ok_iff in H as (reqs & Hreqs & [= <-]).
    assert ((∀ r, eb_requirement b = Some r → r ∉ bs_seen_requirements s)
      ∧ reqs = match eb_requirement b with Some r => [r] | None => [] end ++ bs_seen_requirements s) as [Hnew ->].
    { destruct (eb_requirement b) as [r|]; [|injection Hreqs as <-; split; [done|done]].
      unfold ob_fail_if in Hreqs. rewrite guard_bind_ok, mem_str_false in Hreqs. destruct Hreqs as [? [= <-]].
      split; [by intros ? [= <-]|done]. }
    constructor; cbn [bs_normalized bs_seen_rows bs_seen_requirements].
    + rewrite map_app, reverse_app, Hr. done.
    + rewrite map_app. apply NoDup_app. split; [done|]. split; [|by apply NoDup_singleton].
      intros row Hrow' ->%list_elem_of_singleton. apply Hrow. by rewrite Hr, elem_of_reverse.
    + intros c. rewrite !elem_of_app, Hm. done.
    + intros r. rewrite Homap, !elem_of_app, Hq. tauto.
    + rewrite Homap. apply NoDup_app. split; [done|]. destruct (eb_requirement b) as [r|]; [|split; [set_solver|constructor]].
      split; [|apply NoDup_singleton]. intros r' Hr' ->%list_elem_of_singleton. apply (Hnew r eq_refl), Hq, Hr'.
    + done.
Qed.

Lemma scan_step_total done_ s b : scan_inv done_ s → binding_valid b → consistent (done_ ++ [b]) →
  ∃ s', scan_binding s b = Ok s'.
Proof.
  intros Hs Hb Hc. unfold scan_binding. rewrite Hb. cbn [mbind result_bind].
  case_bool_decide as Hrow; [by eexists|]. rewrite (scan_seen _ _ _ Hs Hb) in Hrow.
  destruct (eb_requirement b) as [r|] eqn:Er; [|by eexists].
  unfold ob_fail_if. destruct (mem_str r (bs_seen_requirements s)) eqn:E; [|by eexists]. exfalso.
  apply mem_str_true in E. apply (si_reqs _ _ Hs), elem_of_requirements in E as (c & Hcin & Hrc).
  apply (si_members _ _ Hs) in Hcin. apply Hrow. rewrite <- (Hc c b r); [done|set_solver|set_solver|done|done].
Qed.

Lemma scan_all bs : ∀ done_ s, scan_inv done_ s →
  (Forall binding_valid bs → consistent (done_ ++ bs) → ∃ s', foldM scan_binding s bs = Ok s')
  ∧ (∀ s', foldM scan_binding s bs = Ok s' → scan_inv (done_ ++ bs) s').
Proof.
  induction bs as [|b bs IH]; intros done_ s Hs; cbn [foldM].
  - rewrite app_nil_r. split; [by eexists|]. by intros s' [= <-].
  - assert (∀ l : list ExecutionEvidenceBinding, done_ ++ b :: l = (done_ ++ [b]) ++ l) as Happ
      by (intros l; by rewrite <- app_assoc).
    split.
    + intros [Hb Hbs]%Forall_cons Hc. destruct (scan_step_total _ _ b Hs Hb) as [s1 Hs1].
      { intros x y r Hx Hy. apply Hc; set_solver. }
      rewrite Hs1. cbn [mbind result_bind]. apply (IH _ _ (scan_inv_snoc _ _ _ _ Hs Hs1)); [done|].
      by rewrite <- Happ.
    + intros s' H. apply bind_ok_iff in H as (s1 & Hs1 & H). rewrite Happ.
      by apply (IH _ _ (scan_inv_snoc _ _ _ _ Hs Hs1)).
Qed.

Lemma scan_inv_start : scan_inv [] {| bs_normalized := []; bs_seen_rows := []; bs_seen_requirements := [] |}.
Proof. constructor; cbn; try constructor; try done; by intros ?%not_elem_of_nil. Qed.

(** The normal form of a list of bindings. *)
Record normal_form (bs l : list ExecutionEvidenceBinding) : Prop := {
  nf_sorted : StronglySorted ble l;
  nf_nodup : NoDup l;
  nf_members : ∀ b, b ∈ l ↔ b ∈ bs;
  nf_requirements : NoDup (omap eb_requirement l)
}.

Lemma normalize_bindings_ok bs l : _normalize_evidence_bindings bs = Ok l ↔
  Z.of_nat (length bs) ≤ MAX_EVIDENCE_BINDINGS ∧ Forall binding_valid bs ∧ consistent bs ∧ normal_form bs l.
Proof.
  unfold _normalize_evidence_bindings, ob_fail_if. rewrite guard_bind_ok, Z.ltb_ge.
  destruct (scan_all bs [] _ scan_inv_start) as [Htotal Hinv].
  assert (∀ s', scan_inv bs s' → normal_form bs (foldr insert_binding [] (bs_normalized s'))) as Hnf.
  { intros s' Hs. constructor.
    - apply sort_bindings_sorted.
    - rewrite sort_bindings_perm. apply (NoDup_fmap_1 binding_row), Hs.
    - intros b. rewrite sort_bindings_perm. apply Hs.
    - rewrite (omap_Permutation eb_requirement _ _ (sort_bindings_perm _)). apply Hs. }
  split.
  - intros [Hl H]. apply bind_ok_iff in H as (s & Hs & [= <-]). pose proof (Hinv s Hs) as Hs'.
    split_and!; [done|apply Hs'|by eapply scan_consistent|by apply Hnf].
  - intros (Hl & Hv & Hc & Hn). split; [done|]. destruct (Htotal Hv Hc) as [s Hs].
    apply bind_ok_iff. exists s. split; [exact Hs|]. f_equal. pose proof (Hinv s Hs) as Hs'. apply Hnf in Hs'.
    assert (∀ a b, a ∈ bs → b ∈ bs → key a = key b → a = b) as Hkey.
    { rewrite Forall_elem in Hv. intros a b Ha Hb [= H1 H2 H3]. apply binding_row_inj; [by apply Hv..|].
      unfold binding_row. rewrite H2, H3. do 2 f_equal.
      apply Hv, binding_valid_fields in Ha as [Ha _]. apply Hv, binding_valid_fields in Hb as [Hb _].
      destruct (eb_requirement a), (eb_requirement b); simpl in H1; congruence. }
    apply sorted_bindings_unique.
    + apply NoDup_Permutation; [apply Hs'|apply Hn|]. intros b. by rewrite (nf_members _ _ Hs'), (nf_members _ _ Hn).
    + intros a b Ha%(nf_members _ _ Hs') Hb%(nf_members _ _ Hs'). by apply Hkey.
    + apply Hs'.
    + apply Hn.
Qed.

Lemma normalize_again bs l : _normalize_evidence_bindings bs = Ok l → _normalize_evidence_bindings l = Ok l.
Proof.
  rewrite !normalize_bindings_ok. intros (Hl & Hv & Hc & [H1 H2 H3 H4]).
  rewrite Forall_elem in *. split_and!.
  - etrans; [|exact Hl]. apply Nat2Z.inj_le, submseteq_length, NoDup_submseteq; [done|]. intros x. by rewrite H3.
  - intros b Hb%H3. by apply Hv.
  - intros a b r Ha%H3 Hb%H3. by apply Hc.
  - by constructor.
Qed.

Lemma normalize_perm bs bs' l : _normalize_evidence_bindings bs = Ok l → bs' ≡ₚ bs →
  _normalize_evidence_bindings bs' = Ok l.
Proof.
  rewrite !normalize_bindings_ok. intros (Hl & Hv & Hc & [H1 H2 H3 H4]) Hp. split_and!.
  - by rewrite Hp.
  - by rewrite Hp.
  - intros a b r Ha Hb. apply Hc; by rewrite <- Hp.
  - constructor; try done. intros b. by rewrite H3, Hp.
Qed.

(** evidence is normalized to one canonical list: normalization succeeds exactly when there
    are at most 32 valid bindings with at most one per requirement; the result is sorted, without
    repetition and has the same bindings; it is its own normal form, and it does not depend
    on the order in which the bindings were given. *)
Theorem evidence_normal_form bs :
  (∀ l, _normalize_evidence_bindings bs = Ok l ↔
    Z.of_nat (length bs) ≤ MAX_EVIDENCE_BINDINGS ∧ Forall binding_valid bs ∧ consistent bs ∧ normal_form bs l)
  ∧ (∀ l, _normalize_evidence_bindings bs = Ok l → _normalize_evidence_bindings l = Ok l)
  ∧ (∀ l bs', _normalize_evidence_bindings bs = Ok l → bs' ≡ₚ bs → _normalize_evidence_bindings bs' = Ok l).
Proof.
  split; [intros l; apply normalize_bindings_ok|]. split; [intros l; apply normalize_again|].
  intros l bs'. apply normalize_perm.
Qed.

(** ** Observations of a plan *)

Section Facts.
Context {HL : Hashlib}.

Lemma node_for_ok nodes id n : node_for nodes id = Ok n → n ∈ nodes ∧ en_node_id n = id.
Proof.
  induction nodes as [|x nodes IH]; cbn [node_for]; [done|]. case_bool_decide as E.
  - intros [= <-]. split; [left|done].
  - intros [? ?]%IH. split; [by right|done].
Qed.

Lemma node_for_found nodes n : NoDup (map en_node_id nodes) → n ∈ nodes → node_for nodes (en_node_id n) = Ok n.
Proof.
  induction nodes as [|x nodes IH]; [by intros _ []%not_elem_of_nil|].
  intros [Hx Hnd]%NoDup_cons [->|Hin]%elem_of_cons; cbn [node_for]; [by rewrite bool_decide_refl|].
  rewrite bool_decide_eq_false_2; [by apply IH|]. intros Heq. apply Hx. rewrite Heq.
  by apply (list_elem_of_fmap_2 en_node_id).
Qed.

Lemma num_gt_false_int a b : num_gt (NInt a) (NInt b) = false → a ≤ b.
Proof. intros H. apply Z.le_ngt. intros Hlt. by rewrite (proj2 (num_gt_int _ _)) in H by lia. Qed.

(** A cost inside the budget of its node. *)
Definition cost_within (c : ObservationCost) (b : TaskResourceBudget) : Prop :=
  (∃ limit, rb_wall_time_s b = Some limit ∧ num_gt (oc_wall_time_s c) (NInt limit) = false)
  ∧ (∃ limit, rb_model_tokens b = Some limit ∧ 0 ≤ oc_model_tokens c ≤ limit)
  ∧ (∃ limit, rb_tool_calls b = Some limit ∧ 0 ≤ oc_tool_calls c ≤ limit)
  ∧ ∀ u, oc_cost_usd c = Some u → ∃ limit, rb_cost_usd b = Some limit ∧ num_gt u limit = false.

Lemma exceeds_ok x limit b : exceeds x limit = Ok b → ∃ l, limit = Some l ∧ b = num_gt x l.
Proof. destruct limit; [|done]. intros [= <-]. eauto. Qed.

Lemma cost_validate_against_ok c n x : ObservationCost_validate_against c n = Ok x →
  cost_within c (en_resource_budget n).
Proof.
  unfold ObservationCost_validate_against, ObservationCost_validate, ob_fail_if. intros H. inv_ok. py_prop.
  repeat match goal with E : exceeds _ _ = Ok _ |- _ => apply exceeds_ok in E as (? & ? & ?) end.
  repeat match goal with E : _ <$> _ = Some _ |- _ => apply fmap_Some in E as (? & ? & ->) end.
  split_and!; try (eexists; split; [eassumption|]); try done.
  - split; [done|]. by apply num_gt_false_int.
  - split; [done|]. by apply num_gt_false_int.
  - intros u Hu. rewrite Hu in *. destruct (rb_cost_usd _) as [limit|]; [|done]. by exists limit.
Qed.

Lemma requirements_covered n status bindings : _validate_evidence_requirements n status bindings = Ok tt ↔
  (∀ b r, b ∈ bindings → eb_requirement b = Some r → r ∈ en_evidence_requirements n)
  ∧ (status = "SUCCEEDED" → ∀ r, r ∈ en_evidence_requirements n → ∃ b, b ∈ bindings ∧ eb_requirement b = Some r).
Proof.
  unfold _validate_evidence_requirements, ob_fail_if. cbv zeta.
  rewrite unit_bind_ok, raise_if_ok, negb_false_iff, bool_decide_eq_true, when_ok, raise_if_ok,
    negb_false_iff, !bool_decide_eq_true.
  assert (∀ a b, sorted_diff a b = [] ↔ ∀ r, r ∈ a → r ∈ b) as Hd.
  { intros a b. split.
    - intros E r Hr. destruct (decide (r ∈ b)) as [|Hn]; [done|].
      assert (r ∈ ([] : list string)) as []%not_elem_of_nil. rewrite <- E. by apply elem_of_sorted_diff.
    - intros Hall. destruct (sorted_diff a b) as [|x l] eqn:E; [done|].
      assert (x ∈ x :: l) as Hx by left. rewrite <- E in Hx. apply elem_of_sorted_diff in Hx as [? Hx]. by destruct Hx; auto. }
  rewrite !Hd. setoid_rewrite elem_of_requirements. naive_solver.
Qed.

(** An observation that was made under a plan and its parent authority. *)
Record observed (p : ExecutionPlan) (parent : TaskCapabilityAuthority) (o : ExecutionObservation)
    (n : ExecutionNode) (a : TaskCapabilityAuthority) : Prop := {
  obs_plan : ExecutionPlan_validate p (Some parent) = Ok p ∧ ExecutionPlan_fingerprint p = Ok (eo_plan_fingerprint o);
  obs_task : eo_task_id o = xp_task_id p ∧ eo_task_context_fingerprint o = xp_task_context_fingerprint p;
  obs_node : n ∈ xp_nodes p ∧ en_node_id n = eo_node_id o
    ∧ ExecutionNode_fingerprint n = Ok (eo_node_fingerprint o);
  obs_authority : rebind_authority n parent = Ok a ∧ attenuates a parent
    ∧ ca_fingerprint a = eo_authority_fingerprint o ∧ eo_authority_fingerprint o = en_authority_fingerprint n;
  obs_declared : ∀ b r, b ∈ eo_evidence_bindings o → eb_requirement b = Some r → r ∈ en_evidence_requirements n;
  obs_evidence : eo_status o = "SUCCEEDED" → ∀ r, r ∈ en_evidence_requirements n →
    ∃ b, b ∈ eo_evidence_bindings o ∧ eb_requirement b = Some r;
  obs_cost : ∀ c, eo_cost o = Some c → cost_within c (en_resource_budget n);
  obs_status : eo_status o ∈ OBSERVATION_STATUSES;
  obs_error : (eo_status o = "SUCCEEDED" → eo_error_class o = None)
    ∧ (eo_status o = "FAILED" → is_Some (eo_error_class o));
  obs_times : ∃ s f, instant_of (eo_started_at o) = Ok s ∧ instant_of (eo_finished_at o) = Ok f ∧ s ≤ f;
  obs_identity : expected_observation_id o = Ok (eo_observation_id o)
}.

Lemma validate_outcome_ok status error : validate_outcome status error = Ok tt ↔
  (status = "SUCCEEDED" → error = None) ∧ (status = "FAILED" → is_Some error).
Proof.
  unfold validate_outcome, ob_fail_if. rewrite unit_bind_ok, !raise_if_ok, !andb_false_imp, !bool_decide_eq_true.
  destruct error; cbn; rewrite ?is_Some_alt; naive_solver.
Qed.

Lemma validate_plan_id p parent x : ExecutionPlan_validate p parent = Ok x → x = p.
Proof. by intros (-> & _)%plan_validate_inv. Qed.

Lemma observation_observed p parent o x : ExecutionObservation_validate o (Some p) (Some parent) = Ok x →
  x = o ∧ ∃ n a, observed p parent o n a.
Proof.
  unfold ExecutionObservation_validate. cbn [opt_check]. intros H.
  rewrite !unit_bind_ok in H. destruct H as (Hrec & Hplan & H). apply bind_ok_iff in H as (id & Hid & H).
  unfold ob_fail_if in H. apply guard_bind_ok in H as [He [= <-]]. bool_prop. split; [done|].
  unfold validate_binding_to in Hplan. cbn [opt_check] in Hplan.
  apply bind_ok_iff in Hplan as (q & Hq%reraise_ok & Hplan). pose proof (validate_plan_id _ _ _ Hq) as ->.
  apply bind_ok_iff in Hplan as (n & [Hn Hnid]%node_for_ok & Hplan). unfold ob_fail_if in Hplan.
  rewrite !guard_bind_ok in Hplan. destruct Hplan as (Ht & Hc & Hplan).
  apply bind_ok_iff in Hplan as (pf & Hpf & Hplan). apply guard_bind_ok in Hplan as [Hpe Hplan].
  apply bind_ok_iff in Hplan as (nf & Hnf & Hplan). rewrite !guard_bind_ok in Hplan.
  destruct Hplan as (Hne & Hae & Hplan). rewrite !unit_bind_ok in Hplan. destruct Hplan as (Hreb & Hev & Hcost).
  apply bind_ok_iff in Hreb as (a & Ha%reraise_ok & Hreb). apply raise_if_ok in Hreb. bool_prop. subst.
  pose proof (rebind_authority_inv _ _ _ Ha) as [Hat Haf].
  apply requirements_covered in Hev as [Hdecl Hevid].
  unfold validate_record, ob_fail_if in Hrec.
  apply guard_bind_ok in Hrec as [_ Hrec]. do 6 apply bind_ok_iff in Hrec as (? & _ & Hrec).
  apply guard_bind_ok in Hrec as [Hst Hrec]. apply bind_ok_iff in Hrec as (s & Hs & Hrec).
  apply bind_ok_iff in Hrec as (f & Hf & Hrec). apply guard_bind_ok in Hrec as [Hnorm Hrec].
  apply bind_ok_iff in Hrec as (fi & Hfi & Hrec). apply bind_ok_iff in Hrec as (si & Hsi & Hrec).
  apply guard_bind_ok in Hrec as [Hord Hrec]. rewrite !unit_bind_ok in Hrec. destruct Hrec as (_ & _ & Hout & _).
  py_prop. exists n, a. constructor; try done.
  - intros c Hc'. rewrite Hc' in Hcost. cbn in Hcost. apply bind_ok_iff in Hcost as (? & Hcost & _).
    by eapply cost_validate_against_ok.
  - by apply validate_outcome_ok.
  - exists si, fi. split_and!; [congruence..|done].
Qed.

(** An observation that validates against a plan and its parent authority reports a node
    of that plan, under that plan's, node's and authority's fingerprints; the authority
    attenuates the parent; every binding answers a declared requirement and a success answers all of
    them; the cost is within the node's budget; a success carries no error and a failure carries
    one; it did not finish before it started; and its identifier is the digest of its content. *)
Theorem observation_confined p parent o (H : ExecutionObservation_validate o (Some p) (Some parent) = Ok o) :
  ∃ n a, observed p parent o n a.
Proof. by apply observation_observed in H as [_ ?]. Qed.
End Facts.

(** Observations of the sample plan: its first node, and its bound node with all its evidence. *)
Section Examples.
#[local] Existing Instance checksum_hashlib.

Definition sample_evidence (requirement : string) : ExecutionEvidenceBinding := {|
  eb_evidence_ref := "ledger/" +:+ requirement; eb_evidence_fingerprint := "sha256:" +:+ repeat_str 64 "a";
  eb_requirement := Some requirement; eb_schema_version := EXECUTION_EVIDENCE_BINDING_SCHEMA |}.

Definition observe_sample (node_id status : string) (error : option string)
    (evidence : list ExecutionEvidenceBinding) : result ExecutionObservation :=
  ExecutionObservationBuilder_build sample_plan node_id sample_parent status "2026-01-01T12:00:00Z"
    "2026-01-01T13:00:01+01:00" (JObj [("answer", JInt 42)]) error evidence
    (Some {| oc_wall_time_s := NInt 0; oc_model_tokens := 0; oc_tool_calls := 0; oc_cost_usd := None |}).

Definition sample_in : ExecutionObservation.
Proof.
  let r := eval vm_compute in (observe_sample "in" "SUCCEEDED" None []) in
  match r with Ok ?o => exact o end.
Defined.
Definition sample_work : ExecutionObservation.
Proof.
  let r := eval vm_compute in
    (observe_sample "work" "SUCCEEDED" None (map sample_evidence ["citation"; "audit"])) in
  match r with Ok ?o => exact o end.
Defined.

Example sample_work_evidence : map eb_requirement (eo_evidence_bindings sample_work) = [Some "audit"; Some "citation"].
Proof. vm_compute. reflexivity. Qed.
Example sample_missing_evidence : observe_sample "work" "SUCCEEDED" None [sample_evidence "audit"]
  = ob_fail "OBSERVATION_REQUIRED_EVIDENCE_MISSING:citation".
Proof. vm_compute. reflexivity. Qed.

Lemma sample_work_valid :
  ExecutionObservation_validate sample_work (Some sample_plan) (Some sample_parent) = Ok sample_work.
Proof. vm_compute. reflexivity. Qed.

Lemma observation_confined_witness : ∃ n a, observed sample_plan sample_parent sample_work n a.
Proof. exact (observation_confined sample_plan sample_parent sample_work sample_work_valid). Defined.
End Examples.
