(* ===== verification/RuntimeScheduler.v ===== *)
(** * The runtime scheduler

    [runtime_scheduler.py]: the pure evaluator that decides, from a plan, the observations made
    so far and the approvals given, which nodes are ready, waiting or blocked. *)

From Stdlib Require Import Ascii.
From Stdlib Require String.
From S2P Require Import Prelude PyStr Hashlib PyFloat Json JsonFacts PyTime Validators TaskContract.
From S2P Require Import CapabilityAuthority WorkflowDesign ContextManifest TaskContext.
From S2P Require Import ExecutionPlan PlanFacts ExecutionObservation.

Local Open Scope Z_scope.

Definition RUNTIME_SCHEDULING_DECISION_SCHEMA : string := "workspace-runtime-scheduling-decision/v1".
Definition NODE_SCHEDULING_RECORD_SCHEMA : string := "workspace-runtime-node-scheduling-record/v1".

Definition _DECISION_STATUSES : list string := ["READY"; "WAITING"; "BLOCKED"; "COMPLETE"].
Definition _NODE_STATES : list string := ["READY"; "WAITING"; "BLOCKED"; "SUCCEEDED"; "FAILED"; "CANCELLED"].
Definition _TERMINAL_OBSERVATION_STATUSES : list string := ["SUCCEEDED"; "FAILED"; "CANCELLED"].

Definition rs_fail {A} (msg : string) : result A := raise RuntimeSchedulerError msg.
Definition rs_fail_if (b : bool) (msg : string) : result unit := raise_if b RuntimeSchedulerError msg.

Definition _sha256 : string → string → result string := sha256_ref RuntimeSchedulerError.

Definition _normalized_ids (values : list string) (field_name : string) : result (list string) :=
  let normalized := sorted_str (dict_fromkeys values) in
  rs_fail_if (existsb is_empty normalized) (invalid field_name) ;;
  Ok normalized.

(** ** Decisions *)

Record NodeSchedulingRecord := {
  nr_node_id : string;
  nr_node_fingerprint : string;
  nr_authority_fingerprint : string;
  nr_state : string;
  nr_reason_code : string;
  nr_approval_required : bool;
  nr_schema_version : string
}.

#[export] Instance NodeSchedulingRecord_eq_dec : EqDecision NodeSchedulingRecord.
Proof. solve_decision. Defined.

Definition NodeSchedulingRecord_canonical_dict (r : NodeSchedulingRecord) : result json :=
  rs_fail_if (negb (bool_decide (nr_schema_version r = NODE_SCHEDULING_RECORD_SCHEMA)))
    "NODE_SCHEDULING_RECORD_SCHEMA_VERSION_MISMATCH" ;;
  rs_fail_if (negb (mem_str (nr_state r) _NODE_STATES)) "INVALID_NODE_SCHEDULING_STATE" ;;
  rs_fail_if (is_empty (nr_node_id r)) "INVALID_NODE_ID" ;;
  _sha256 (nr_node_fingerprint r) "node_fingerprint" ;;
  _sha256 (nr_authority_fingerprint r) "node_authority_fingerprint" ;;
  rs_fail_if (is_empty (nr_reason_code r)) "INVALID_SCHEDULING_REASON_CODE" ;;
  Ok (JObj [("schema_version", JStr (nr_schema_version r)); ("node_id", JStr (nr_node_id r));
            ("node_fingerprint", JStr (nr_node_fingerprint r));
            ("authority_fingerprint", JStr (nr_authority_fingerprint r)); ("state", JStr (nr_state r));
            ("reason_code", JStr (nr_reason_code r)); ("approval_required", JBool (nr_approval_required r))]).

Record SchedulingDecision := {
  sd_task_id : string;
  sd_task_context_fingerprint : string;
  sd_plan_fingerprint : string;
  sd_status : string;
  sd_records : list NodeSchedulingRecord;
  sd_approved_node_ids : list string;
  sd_schema_version : string
}.

#[export] Instance SchedulingDecision_eq_dec : EqDecision SchedulingDecision.
Proof. solve_decision. Defined.

Definition has_state (state : string) (r : NodeSchedulingRecord) : bool := bool_decide (nr_state r = state).

Definition ready_node_ids (d : SchedulingDecision) : list string :=
  map nr_node_id (List.filter (has_state "READY") (sd_records d)).
Definition blocked_node_ids (d : SchedulingDecision) : list string :=
  map nr_node_id (List.filter (has_state "BLOCKED") (sd_records d)).
Definition waiting_node_ids (d : SchedulingDecision) : list string :=
  map nr_node_id (List.filter (has_state "WAITING") (sd_records d)).
Definition terminal_node_ids (d : SchedulingDecision) : list string :=
  map nr_node_id (List.filter (λ r, mem_str (nr_state r) _TERMINAL_OBSERVATION_STATUSES) (sd_records d)).

Definition SchedulingDecision_canonical_dict (d : SchedulingDecision) : result json :=
  rs_fail_if (negb (bool_decide (sd_schema_version d = RUNTIME_SCHEDULING_DECISION_SCHEMA)))
    "SCHEDULING_DECISION_SCHEMA_VERSION_MISMATCH" ;;
  rs_fail_if (negb (mem_str (sd_status d) _DECISION_STATUSES)) "INVALID_SCHEDULING_DECISION_STATUS" ;;
  normalized ← _normalized_ids (sd_approved_node_ids d) "approved_node_ids";
  rs_fail_if (negb (bool_decide (sd_approved_node_ids d = normalized))) "APPROVED_NODE_IDS_NOT_NORMALIZED" ;;
  _sha256 (sd_task_context_fingerprint d) "task_context_fingerprint" ;;
  _sha256 (sd_plan_fingerprint d) "plan_fingerprint" ;;
  records ← mapM NodeSchedulingRecord_canonical_dict (sd_records d);
  Ok (JObj [("schema_version", JStr (sd_schema_version d)); ("task_id", JStr (sd_task_id d));
            ("task_context_fingerprint", JStr (sd_task_context_fingerprint d));
            ("plan_fingerprint", JStr (sd_plan_fingerprint d)); ("status", JStr (sd_status d));
            ("records", JList records); ("approved_node_ids", json_strs (sd_approved_node_ids d))]).

(** ** Node states *)

(** [{node.node_id: node for node in plan.nodes}]. *)
Definition node_by_id (nodes : list ExecutionNode) : gmap string ExecutionNode :=
  fold_left (λ m n, <[en_node_id n := n]> m) nodes ∅.

Definition success_nodes (terminal : gmap string ExecutionObservation) : gset string :=
  dom (filter (λ kv, eo_status kv.2 = "SUCCEEDED") terminal).

(** What stops a node whose own dependencies are looked up in [states]. *)
Definition node_state (terminal : gmap string ExecutionObservation) (partial : gset string)
    (approvals : list string) (states : gmap string string) (n : ExecutionNode) : string * string :=
  match terminal !! en_node_id n with
  | Some o => (eo_status o, "OBSERVATION_" +:+ eo_status o)
  | None =>
      if bool_decide (en_node_id n ∈ partial)
      then ("WAITING", "PARTIAL_OBSERVATION_REQUIRES_RECONCILIATION")
      else
        let dependency_states := map (λ d, default "WAITING" (states !! d)) (en_depends_on n) in
        if existsb (λ st, mem_str st ["FAILED"; "CANCELLED"; "BLOCKED"]) dependency_states
        then ("BLOCKED", "DEPENDENCY_NOT_SUCCESSFUL")
        else if negb (forallb (λ d, bool_decide (d ∈ success_nodes terminal)) (en_depends_on n))
        then ("WAITING", "DEPENDENCY_NOT_TERMINAL_SUCCESS")
        else if en_approval_required n && negb (mem_str (en_node_id n) approvals)
        then ("BLOCKED", "EXPLICIT_APPROVAL_REQUIRED")
        else ("READY", "NODE_ADMISSIBLE")
  end.

(** [if record_tuple and all(... == "SUCCEEDED"): ... elif any(...)]. *)
Definition decision_status (records : list NodeSchedulingRecord) : string :=
  if negb (bool_decide (records = [])) && forallb (has_state "SUCCEEDED") records then "COMPLETE"
  else if existsb (has_state "READY") records then "READY"
  else if existsb (has_state "BLOCKED") records then "BLOCKED"
  else "WAITING".

Section Scheduler.
Context {HL : Hashlib}.

Definition _digest : json → result string := digest RuntimeSchedulerError "SCHEDULER_STATE_NOT_CANONICAL_JSON".

Definition SchedulingDecision_fingerprint (d : SchedulingDecision) : result string :=
  v ← SchedulingDecision_canonical_dict d; _digest v.

(** The admission of context, plan and authority. *)
Definition check_admission (task_context : TaskContext) (plan : ExecutionPlan)
    (parent : TaskCapabilityAuthority) : result unit :=
  reraise (TaskContext_validate task_context ;; ExecutionPlan_validate plan (Some parent) ;; Ok tt)
    is_value_error RuntimeSchedulerError "SCHEDULER_CANONICAL_REVALIDATION_FAILED" ;;
  rs_fail_if (negb (bool_decide (tx_task_id task_context = xp_task_id plan))) "SCHEDULER_TASK_MISMATCH" ;;
  fingerprint ← TaskContext_fingerprint task_context;
  rs_fail_if (negb (bool_decide (fingerprint = xp_task_context_fingerprint plan)))
    "SCHEDULER_TASK_CONTEXT_FINGERPRINT_MISMATCH" ;;
  identity ← identity_fingerprint task_context;
  rs_fail_if (negb (bool_decide (identity = xp_task_context_identity_fingerprint plan)))
    "SCHEDULER_TASK_CONTEXT_IDENTITY_MISMATCH" ;;
  rs_fail_if (negb (bool_decide (tx_authority_fingerprint task_context = ca_fingerprint parent)))
    "SCHEDULER_PARENT_AUTHORITY_MISMATCH" ;;
  rs_fail_if (negb (bool_decide (xp_parent_authority_fingerprint plan = ca_fingerprint parent)))
    "SCHEDULER_PLAN_AUTHORITY_MISMATCH".

(** Approvals name nodes of the plan that ask for one. *)
Definition check_approvals (nodes : gmap string ExecutionNode) (approvals : list string) : result unit :=
  let unknown := List.filter (λ id, is_none (nodes !! id)) approvals in
  rs_fail_if (negb (bool_decide (unknown = []))) ("SCHEDULER_UNKNOWN_APPROVED_NODE:" +:+ join "," unknown) ;;
  let invalid_approvals :=
    List.filter (λ id, match nodes !! id with Some n => negb (en_approval_required n) | None => true end)
      approvals in
  rs_fail_if (negb (bool_decide (invalid_approvals = [])))
    ("SCHEDULER_APPROVAL_FOR_NON_APPROVAL_NODE:" +:+ join "," invalid_approvals).

Record observation_scan := {
  os_unique : gmap string ExecutionObservation;
  os_terminal : gmap string ExecutionObservation;
  os_partial : gset string
}.

Definition scan_start : observation_scan := {| os_unique := ∅; os_terminal := ∅; os_partial := ∅ |}.

(** One round of the loop over the observations. *)
Definition scan_observation (plan : ExecutionPlan) (parent : TaskCapabilityAuthority)
    (nodes : gmap string ExecutionNode) (approvals : list string) (s : observation_scan)
    (o : ExecutionObservation) : result observation_scan :=
  reraise (ExecutionObservation_validate o (Some plan) (Some parent)) (is_class ExecutionObservationError)
    RuntimeSchedulerError "SCHEDULER_OBSERVATION_REVALIDATION_FAILED" ;;
  node ← match nodes !! eo_node_id o with Some n => Ok n | None => raise PyKeyError (eo_node_id o) end;
  rs_fail_if (en_approval_required node && negb (mem_str (eo_node_id o) approvals))
    ("SCHEDULER_APPROVAL_REQUIRED_FOR_OBSERVATION:" +:+ eo_node_id o) ;;
  match os_unique s !! eo_observation_id o with
  | Some existing =>
      f ← ExecutionObservation_fingerprint existing;
      g ← ExecutionObservation_fingerprint o;
      rs_fail_if (negb (bool_decide (f = g))) "SCHEDULER_OBSERVATION_ID_COLLISION" ;;
      Ok s
  | None =>
      let unique := <[eo_observation_id o := o]> (os_unique s) in
      if bool_decide (eo_status o = "PARTIAL") then
        Ok {| os_unique := unique; os_terminal := os_terminal s;
              os_partial := {[eo_node_id o]} ∪ os_partial s |}
      else if mem_str (eo_status o) _TERMINAL_OBSERVATION_STATUSES then
        rs_fail_if (match os_terminal s !! eo_node_id o with
                    | Some previous => negb (bool_decide (eo_observation_id previous = eo_observation_id o))
                    | None => false
                    end) ("SCHEDULER_MULTIPLE_TERMINAL_OBSERVATIONS:" +:+ eo_node_id o) ;;
        Ok {| os_unique := unique; os_terminal := <[eo_node_id o := o]> (os_terminal s);
              os_partial := os_partial s |}
      else Ok {| os_unique := unique; os_terminal := os_terminal s; os_partial := os_partial s |}
  end.

(** One round of the loop over the nodes. *)
Definition schedule_node (s : observation_scan) (approvals : list string)
    (acc : gmap string string * list NodeSchedulingRecord) (n : ExecutionNode)
    : result (gmap string string * list NodeSchedulingRecord) :=
  let '(states, records) := acc in
  let '(state, reason) := node_state (os_terminal s) (os_partial s) approvals states n in
  fingerprint ← ExecutionNode_fingerprint n;
  Ok (<[en_node_id n := state]> states,
      records ++ [{| nr_node_id := en_node_id n; nr_node_fingerprint := fingerprint;
                     nr_authority_fingerprint := en_authority_fingerprint n; nr_state := state;
                     nr_reason_code := reason; nr_approval_required := en_approval_required n;
                     nr_schema_version := NODE_SCHEDULING_RECORD_SCHEMA |}]).

Definition RuntimeScheduler_evaluate (task_context : TaskContext) (plan : ExecutionPlan)
    (parent : TaskCapabilityAuthority) (observations : list ExecutionObservation)
    (approved_node_ids : list string) : result SchedulingDecision :=
  check_admission task_context plan parent ;;
  let nodes := node_by_id (xp_nodes plan) in
  approvals ← _normalized_ids approved_node_ids "approved_node_ids";
  check_approvals nodes approvals ;;
  s ← foldM (scan_observation plan parent nodes approvals) scan_start observations;
  '(_, records) ← foldM (schedule_node s approvals) (∅, []) (xp_nodes plan);
  context_fingerprint ← TaskContext_fingerprint task_context;
  plan_fingerprint ← ExecutionPlan_fingerprint plan;
  let decision := {| sd_task_id := xp_task_id plan; sd_task_context_fingerprint := context_fingerprint;
                     sd_plan_fingerprint := plan_fingerprint; sd_status := decision_status records;
                     sd_records := records; sd_approved_node_ids := approvals;
                     sd_schema_version := RUNTIME_SCHEDULING_DECISION_SCHEMA |} in
  SchedulingDecision_canonical_dict decision ;;
  Ok decision.
End Scheduler.
