(* ===== verification/ReadinessFacts.v ===== *)
(** * Readiness: the runtime scheduler against its specification

    What a node's state means, given the observations and approvals; that the evaluator computes
    it, on every input it accepts; which inputs it accepts; that the order of the observations
    does not matter; and that a run in which nothing fails always progresses. *)

From Stdlib Require Import Ascii.
From Stdlib Require String.
From S2P Require Import Prelude PyStr Hashlib PyFloat Json JsonFacts PyTime Validators TaskContract.
From S2P Require Import CapabilityAuthority AuthorityFacts WorkflowDesign WorkflowGraph WorkflowFacts ContextManifest.
From S2P Require Import TaskContext ExecutionPlan PlanFacts ExecutionObservation ObservationFacts RuntimeScheduler.

Local Open Scope Z_scope.

Lemma digest_finite cls {HL : Hashlib} msg v : all_finite v = true → digest cls msg v = Ok (sha256_of_text (print v)).
Proof. intros Hv. unfold digest, canonical_json, dumps. by rewrite Hv. Qed.

Lemma all_finite_canon v : all_finite v = true → all_finite (canon v) = true.
Proof.
  induction v as [| | | | |l IH|l IH] using json_ind'; try done; cbn [all_finite canon];
    rewrite !forallb_forall; rewrite List.Forall_forall in IH.
  - intros H x (y & <- & Hy)%in_map_iff. auto.
  - intros H kv Hkv%list_elem_of_In. rewrite sort_items_perm in Hkv.
    apply list_elem_of_fmap in Hkv as (kv' & -> & Hkv'%list_elem_of_In). apply IH; auto.
Qed.

Lemma node_ok_id n : node_ok n → wn_id n ≠ "".
Proof. intros [Hid _ _ _ _ _] E. by rewrite E in Hid. Qed.

Section Plans.
Context {HL : Hashlib}.

(** ** Plans that validate *)

Lemma plan_valid_alone p parent : ExecutionPlan_validate p parent = Ok p → ExecutionPlan_validate p None = Ok p.
Proof.
  unfold ExecutionPlan_validate. do 11 (apply bind_mono; intros ?).
  match goal with |- context [let '(_, _) := ?r in _] => destruct r as [order levels] end.
  do 3 (apply bind_mono; intros ?). by intros [_ ?]%unit_bind_ok.
Qed.

Record plan_shape (nodes : list ExecutionNode) : Prop := {
  ps_ids : NoDup (map en_node_id nodes);
  ps_order : ∀ before n after, nodes = before ++ n :: after →
    ∀ dep, dep ∈ en_depends_on n → dep ∈ map en_node_id before;
  ps_dicts : ∀ n, n ∈ nodes → ∃ d, ExecutionNode_canonical_dict n = Ok d;
  ps_named : ∀ n, n ∈ nodes → en_node_id n ≠ "";
  ps_some : nodes ≠ []
}.

Lemma plan_valid_shape p parent : ExecutionPlan_validate p parent = Ok p → plan_shape (xp_nodes p).
Proof.
  intros H. apply plan_validate_inv in H as (_ & (w & levels & Hp) & _).
  pose proof (proj1 (validated_workflow_ok p w) (po_workflow _ _ _ Hp)) as (Hok & _).
  destruct (graph_order _ _ _ (wo_ids _ Hok) (po_graph _ _ _ Hp)) as (Hperm & Htopo & _).
  pose proof (po_nodes _ _ _ Hp) as Hn. unfold nodes_match in Hn. rewrite Forall_elem in Hn. constructor.
  - by eapply plan_ids_NoDup.
  - intros before n after Hb dep Hdep. rewrite Hb, map_app in Htopo. apply (Htopo _ _ _ eq_refl).
    destruct (plan_source _ _ _ n Hp) as (source & Hin & Hid & Hm); [rewrite Hb; set_solver|].
    exists source. split_and!; [done..|]. by rewrite <- (nm_depends _ _ _ _ Hm).
  - intros n Hin. apply (Hn n Hin).
  - intros n Hin. destruct (plan_source _ _ _ n Hp Hin) as (source & Hs & <- & _).
    apply node_ok_id. pose proof (proj1 (wo_nodes _ Hok)) as Hall. rewrite Forall_elem in Hall. auto.
  - intros E. rewrite E in Hperm. apply Permutation_length in Hperm. rewrite !length_map in Hperm.
    pose proof (proj2 (wo_nodes _ Hok)). cbn in Hperm. lia.
Qed.

Lemma all_finite_opt o : all_finite (json_opt_str o) = true.
Proof. by destruct o. Qed.
Lemma all_finite_scope w : all_finite (write_scope_json w) = true.
Proof. destruct w; [done|apply all_finite_strs]. Qed.

Lemma budget_valid_id b x : TaskResourceBudget_validate b = Ok x → x = b.
Proof. unfold TaskResourceBudget_validate. rewrite !unit_bind_ok. intros (_ & _ & _ & _ & [= <-]). done. Qed.

Lemma node_fingerprint_total n d : ExecutionNode_canonical_dict n = Ok d →
  all_finite d = true ∧ ∃ f, ExecutionNode_fingerprint n = Ok f ∧ is_sha256_ref f = true
    ∧ is_sha256_ref (en_authority_fingerprint n) = true.
Proof.
  intros Hd. assert (all_finite d = true ∧ is_sha256_ref (en_authority_fingerprint n) = true) as [Hf Ha].
  { unfold ExecutionNode_canonical_dict in Hd. apply bind_ok_iff in Hd as (? & [_ Ha]%sha256_ref_ok & Hd). split; [|done].
    apply bind_ok_iff in Hd as (? & _ & Hd). apply bind_ok_iff in Hd as (b & Hb & Hd).
    unfold xp_fail_if in Hd. rewrite !guard_bind_ok in Hd. destruct Hd as (_ & _ & Hd).
    apply bind_ok_iff in Hd as (? & _ & Hd). apply guard_bind_ok in Hd as [_ Hd].
    apply bind_ok_iff in Hd as (v & Hv & [= <-]).
    destruct (budget_dict_total (en_resource_budget n)) as (v' & Hv' & Hfin).
    { unfold TaskResourceBudget_canonical_dict in Hv. apply bind_ok_iff in Hv as (b' & Hb' & _).
      rewrite Hb'. f_equal. by apply budget_valid_id in Hb'. }
    rewrite Hv in Hv'. injection Hv' as ->. cbn [all_finite forallb snd]. rewrite Hfin, !all_finite_strs.
    by rewrite all_finite_opt, all_finite_scope. }
  split; [done|]. unfold ExecutionNode_fingerprint. rewrite Hd. cbn [mbind result_bind].
  unfold ExecutionPlan._digest. rewrite digest_finite by done. eexists. split_and!; [done|apply sha256_of_text_shape|done].
Qed.

Lemma plan_valid_budget p parent : ExecutionPlan_validate p parent = Ok p →
  TaskResourceBudget_validate (xp_task_resource_budget p) = Ok (xp_task_resource_budget p).
Proof.
  unfold ExecutionPlan_validate, xp_fail_if. intros H. apply guard_bind_ok in H as [_ H].
  do 4 apply bind_ok_iff in H as (? & _ & H). apply guard_bind_ok in H as [_ H].
  apply bind_ok_iff in H as (b & Hb & _). rewrite Hb. f_equal. by apply budget_valid_id in Hb.
Qed.

Lemma node_dicts_total nodes : (∀ n, n ∈ nodes → ∃ d, ExecutionNode_canonical_dict n = Ok d) →
  ∃ ds, mapM ExecutionNode_canonical_dict nodes = Ok ds ∧ forallb all_finite ds = true.
Proof.
  induction nodes as [|n nodes IH]; intros Hall; [by exists []|].
  destruct (Hall n) as [d Hd]; [left|]. destruct IH as (ds & Hds & Hf); [intros m Hm; apply Hall; by right|].
  exists (d :: ds). cbn [mapM]. rewrite Hd. cbn [mbind result_bind]. rewrite Hds. cbn [mbind result_bind forallb].
  split; [done|]. by rewrite Hf, (proj1 (node_fingerprint_total n d Hd)).
Qed.

Lemma plan_fingerprint_total p parent : ExecutionPlan_validate p parent = Ok p →
  ∃ f, ExecutionPlan_fingerprint p = Ok f ∧ is_sha256_ref f = true.
Proof.
  intros H. pose proof (plan_valid_alone _ _ H) as H0. pose proof (plan_valid_shape _ _ H) as Hs.
  destruct (budget_dict_total _ (plan_valid_budget _ _ H)) as (b & Hb & Hbf).
  destruct (node_dicts_total _ (ps_dicts _ Hs)) as (ds & Hds & Hdf).
  apply plan_validate_inv in H as (_ & (w & levels & Hp) & _).
  pose proof (proj1 (validated_workflow_ok p w) (po_workflow _ _ _ Hp)) as (_ & _ & Hj & _).
  unfold ExecutionPlan_fingerprint, ExecutionPlan_canonical_dict.
  rewrite H0, Hj, loads_contract. cbn [mbind result_bind]. rewrite Hb. cbn [mbind result_bind].
  rewrite Hds. cbn [mbind result_bind]. unfold ExecutionPlan._digest.
  rewrite digest_finite; [eexists; split; [done|apply sha256_of_text_shape]|].
  cbn [all_finite forallb snd]. rewrite Hbf, all_finite_canon by apply json_ok_finite, contract_json_ok.
  by rewrite Hdf.
Qed.
End Plans.

(** ** What the evaluator accepts *)

Section Scan.
Context {HL : Hashlib}.

(** A context, a plan and an authority that belong together. *)
Record admitted (tc : TaskContext) (p : ExecutionPlan) (parent : TaskCapabilityAuthority) : Prop := {
  ad_context : TaskContext_validate tc = Ok tc;
  ad_plan : ExecutionPlan_validate p (Some parent) = Ok p;
  ad_task : tx_task_id tc = xp_task_id p;
  ad_fingerprint : TaskContext_fingerprint tc = Ok (xp_task_context_fingerprint p);
  ad_identity : identity_fingerprint tc = Ok (xp_task_context_identity_fingerprint p);
  ad_authority : tx_authority_fingerprint tc = ca_fingerprint parent
    ∧ xp_parent_authority_fingerprint p = ca_fingerprint parent
}.

Lemma check_admission_ok tc p parent : check_admission tc p parent = Ok tt ↔ admitted tc p parent.
Proof.
  unfold check_admission, rs_fail_if. rewrite unit_bind_ok, reraise_ok, !bind_ok_iff, guard_bind_ok. split.
  - intros ((x & Hx & H2) & Ht & H). apply bind_ok_iff in H2 as (y & Hy & _).
    apply bind_ok_iff in H as (f & Hf & H). apply guard_bind_ok in H as [Hfe H].
    apply bind_ok_iff in H as (i & Hi & H). rewrite !guard_bind_ok, raise_if_ok in H. destruct H as (Hie & Ha & Hb).
    bool_prop. subst f i. pose proof Hx as (-> & _)%TaskContext_validate_ok.
    rewrite (validate_plan_id _ _ _ Hy) in Hy. by constructor.
  - intros [Hx Hy Ht Hf Hi [Ha Hb]]. rewrite Hx, Hf, Hi, Ht, Ha, Hb. cbn [mbind result_bind].
    rewrite Hy, !bool_decide_refl. split_and!; [by eexists|done|].
    done.
Qed.

(** Approvals name nodes that ask for one. *)
Definition approvals_ok (nodes : list ExecutionNode) (ids : list string) : Prop :=
  ∀ id, id ∈ ids → id ≠ "" ∧ ∃ n, n ∈ nodes ∧ en_node_id n = id ∧ en_approval_required n = true.

Lemma filter_nil {A} (f : A → bool) (l : list A) : List.filter f l = [] ↔ ∀ x, x ∈ l → f x = false.
Proof.
  induction l as [|x l IH]; cbn [List.filter]; [set_solver|].
  destruct (f x) eqn:E; [|rewrite IH; set_solver]. split; [done|].
  intros H. specialize (H x ltac:(left)). congruence.
Qed.

Lemma node_by_id_lookup nodes id n : NoDup (map en_node_id nodes) →
  node_by_id nodes !! id = Some n ↔ n ∈ nodes ∧ en_node_id n = id.
Proof. apply keyed_dict_lookup. Qed.

Lemma check_approvals_ok nodes ids : NoDup (map en_node_id nodes) →
  check_approvals (node_by_id nodes) ids = Ok tt ↔
  ∀ id, id ∈ ids → ∃ n, n ∈ nodes ∧ en_node_id n = id ∧ en_approval_required n = true.
Proof.
  intros Hd. unfold check_approvals, rs_fail_if. cbv zeta.
  rewrite guard_bind_ok, raise_if_ok, !negb_false_iff, !bool_decide_eq_true, !filter_nil. split.
  - intros [Hu Hv] id Hid. specialize (Hu id Hid). specialize (Hv id Hid).
    destruct (node_by_id nodes !! id) as [n|] eqn:E; [|done]. apply node_by_id_lookup in E as [? ?]; [|done].
    exists n. split_and!; [done..|]. by apply negb_false_iff.
  - intros H. split; intros id Hid; destruct (H id Hid) as (n & Hn & Hi & Ha);
      rewrite (proj2 (node_by_id_lookup _ _ _ Hd) (conj Hn Hi)); [done|by rewrite Ha].
Qed.

Lemma normalized_ids_ok values field ids : _normalized_ids values field = Ok ids ↔
  ids = sorted_str (dict_fromkeys values) ∧ ∀ id, id ∈ values → id ≠ "".
Proof.
  unfold _normalized_ids, rs_fail_if. cbv zeta. rewrite guard_bind_ok, existsb_Forall, Forall_elem. split.
  - intros [H [= <-]]. split; [done|]. intros id Hid. apply is_empty_false, H.
    by rewrite elem_of_sorted_str, elem_of_dict_fromkeys.
  - intros [-> H]. split; [|done]. intros id. rewrite elem_of_sorted_str, elem_of_dict_fromkeys.
    intros Hid. by apply is_empty_false, H.
Qed.

Lemma elem_of_normalized values id : id ∈ sorted_str (dict_fromkeys values) ↔ id ∈ values.
Proof. by rewrite elem_of_sorted_str, elem_of_dict_fromkeys. Qed.

(** An observation the evaluator takes into account. *)
Definition admissible (p : ExecutionPlan) (parent : TaskCapabilityAuthority) (approvals : list string)
    (o : ExecutionObservation) : Prop :=
  ExecutionObservation_validate o (Some p) (Some parent) = Ok o
  ∧ ∃ n, n ∈ xp_nodes p ∧ en_node_id n = eo_node_id o
    ∧ (en_approval_required n = true → eo_node_id o ∈ approvals).

Definition terminal (o : ExecutionObservation) : Prop := eo_status o ∈ _TERMINAL_OBSERVATION_STATUSES.
#[local] Instance terminal_dec o : Decision (terminal o).
Proof. unfold terminal. apply _. Defined.

(** The observations agree with each other: no identifier stands for two contents, and
    no node has two terminal reports. *)
Definition consistent (obs : list ExecutionObservation) : Prop :=
  (∀ o o', o ∈ obs → o' ∈ obs → eo_observation_id o = eo_observation_id o' →
    ExecutionObservation_fingerprint o = ExecutionObservation_fingerprint o')
  ∧ (∀ o o', o ∈ obs → o' ∈ obs → terminal o → terminal o' → eo_node_id o = eo_node_id o' →
    eo_observation_id o = eo_observation_id o').

(** An identifier is the start of a digest of the content, 24 digits of it; among these observations it
    names one node and one status. The lemmas below start from this; a theorem never does: it says that
    two observations which break it exist. *)
Definition ids_faithful (obs : list ExecutionObservation) : Prop :=
  ∀ o o', o ∈ obs → o' ∈ obs → eo_observation_id o = eo_observation_id o' →
    eo_node_id o = eo_node_id o' ∧ eo_status o = eo_status o'.

(** Two observations of different nodes, or of different statuses, under one identifier. *)
Definition same_id (o o' : ExecutionObservation) : Prop :=
  eo_observation_id o = eo_observation_id o' ∧ ¬ (eo_node_id o = eo_node_id o' ∧ eo_status o = eo_status o').
Definition shared_id (obs : list ExecutionObservation) : Prop := ∃ o o', o ∈ obs ∧ o' ∈ obs ∧ same_id o o'.

(** Two such observations whose fingerprints, the digests of their full contents, are equal as well. *)
Definition fingerprint_collision (obs : list ExecutionObservation) : Prop := ∃ o o' f,
  o ∈ obs ∧ o' ∈ obs ∧ same_id o o' ∧ ExecutionObservation_fingerprint o = Ok f ∧ ExecutionObservation_fingerprint o' = Ok f.

#[local] Instance same_id_dec o o' : Decision (same_id o o').
Proof. unfold same_id. apply _. Defined.

Lemma faithful_or_shared obs : ids_faithful obs ∨ shared_id obs.
Proof.
  destruct (decide (Exists (λ o, Exists (same_id o) obs) obs)) as [E|E].
  - right. apply Exists_exists in E as (o & Ho & (o' & Ho' & Hs)%Exists_exists). by exists o, o'.
  - left. intros o o' Ho Ho' Hid. destruct (decide (eo_node_id o = eo_node_id o' ∧ eo_status o = eo_status o')) as [H|H]; [done|].
    destruct E. apply Exists_exists. exists o. split; [done|]. apply Exists_exists. by exists o'.
Qed.

(** Where equal identifiers come with equal fingerprints, only a collision of the full digest breaks the rule. *)
Definition ids_checked (obs : list ExecutionObservation) : Prop :=
  ∀ o o', o ∈ obs → o' ∈ obs → eo_observation_id o = eo_observation_id o' →
    ∃ f, ExecutionObservation_fingerprint o = Ok f ∧ ExecutionObservation_fingerprint o' = Ok f.

Lemma checked_faithful obs : ids_checked obs → ids_faithful obs ∨ fingerprint_collision obs.
Proof.
  intros H. destruct (faithful_or_shared obs) as [?|(o & o' & Ho & Ho' & Hs)]; [by left|right].
  destruct (H o o' Ho Ho' (proj1 Hs)) as (f & ? & ?). by exists o, o', f.
Qed.

Lemma faithful_no_collision obs : ids_faithful obs → ¬ fingerprint_collision obs.
Proof. intros Hf (o & o' & f & Ho & Ho' & [E Hne] & _). by apply Hne, Hf. Qed.

(** The contents are different values that the digest does not tell apart. *)
Lemma collision_contents obs : fingerprint_collision obs → ∃ o o' v w f, o ∈ obs ∧ o' ∈ obs
  ∧ ExecutionObservation_canonical_dict o = Ok v ∧ ExecutionObservation_canonical_dict o' = Ok w ∧ v ≠ w
  ∧ ExecutionObservation._digest v = Ok f ∧ ExecutionObservation._digest w = Ok f.
Proof.
  intros (o & o' & f & Ho & Ho' & [_ Hne] & Hf & Hf'). unfold ExecutionObservation_fingerprint in Hf, Hf'.
  apply bind_ok_iff in Hf as (v & Hv & Hf). apply bind_ok_iff in Hf' as (w & Hw & Hf').
  exists o, o', v, w, f. split_and!; try done. intros <-. apply Hne.
  unfold ExecutionObservation_canonical_dict, identity_items in Hv, Hw.
  apply bind_ok_iff in Hv as (? & _ & Hv). apply bind_ok_iff in Hw as (? & _ & Hw).
  apply bind_ok_iff in Hv as (i & Hi & [= Hv]). apply bind_ok_iff in Hw as (j & Hj & [= Hw]).
  apply bind_ok_iff in Hi as (? & _ & Hi). apply bind_ok_iff in Hi as (? & _ & Hi). apply bind_ok_iff in Hi as (? & _ & [= <-]).
  apply bind_ok_iff in Hj as (? & _ & Hj). apply bind_ok_iff in Hj as (? & _ & Hj). apply bind_ok_iff in Hj as (? & _ & [= <-]).
  rewrite <- Hv in Hw. injection Hw. auto.
Qed.

(** What the scan has recorded after the observations [seen]. *)
Record scanned (seen : list ExecutionObservation) (s : observation_scan) : Prop := {
  sc_unique : ∀ id e, os_unique s !! id = Some e → e ∈ seen ∧ eo_observation_id e = id;
  sc_seen : ∀ o, o ∈ seen → ∃ e, os_unique s !! eo_observation_id o = Some e
    ∧ ExecutionObservation_fingerprint e = ExecutionObservation_fingerprint o;
  sc_terminal : ∀ id e, os_terminal s !! id = Some e → e ∈ seen ∧ eo_node_id e = id ∧ terminal e;
  sc_covered : ∀ o, o ∈ seen → terminal o →
    ∃ e, os_terminal s !! eo_node_id o = Some e ∧ eo_observation_id e = eo_observation_id o;
  sc_partial : ∀ id, id ∈ os_partial s ↔ ∃ o, o ∈ seen ∧ eo_node_id o = id ∧ eo_status o = "PARTIAL"
}.

Lemma scanned_start : scanned [] scan_start.
Proof.
  constructor; cbn [scan_start os_unique os_terminal os_partial]; try (intros ? ? []%lookup_empty_Some);
    try (intros ? []%not_elem_of_nil). intros id. split; [set_solver|]. intros (? & []%not_elem_of_nil & _).
Qed.

Lemma digest_is_finite cls msg v d : digest cls msg v = Ok d → all_finite v = true.
Proof.
  unfold digest, canonical_json, dumps, reraise, catch. by destruct (all_finite v).
Qed.

Lemma observation_fingerprint_total o plan parent : ExecutionObservation_validate o plan parent = Ok o →
  ∃ f, ExecutionObservation_fingerprint o = Ok f ∧ is_sha256_ref f = true.
Proof.
  intros H. assert (ExecutionObservation_validate o None None = Ok o) as H0.
  { revert H. unfold ExecutionObservation_validate. apply bind_mono. intros _. by intros [_ ?]%unit_bind_ok. }
  unfold ExecutionObservation_fingerprint, ExecutionObservation_canonical_dict. rewrite H0. cbn [mbind result_bind].
  unfold ExecutionObservation_validate in H0. rewrite !unit_bind_ok in H0. destruct H0 as (_ & _ & H0).
  apply bind_ok_iff in H0 as (id & Hid & _). unfold expected_observation_id in Hid.
  apply bind_ok_iff in Hid as (items & Hi & Hid). apply bind_ok_iff in Hid as (d & Hd & _).
  apply digest_is_finite in Hd. rewrite Hi. cbn [mbind result_bind]. unfold ExecutionObservation._digest.
  rewrite digest_finite by exact Hd. eexists. split; [done|apply sha256_of_text_shape].
Qed.

(** The state of the scan after a new observation. *)
Definition record_observation (s : observation_scan) (o : ExecutionObservation) : observation_scan := {|
  os_unique := <[eo_observation_id o := o]> (os_unique s);
  os_terminal := if decide (terminal o) then <[eo_node_id o := o]> (os_terminal s) else os_terminal s;
  os_partial := if decide (eo_status o = "PARTIAL") then {[eo_node_id o]} ∪ os_partial s else os_partial s |}.

Lemma scan_step p parent approvals s o s' : plan_shape (xp_nodes p) →
  scan_observation p parent (node_by_id (xp_nodes p)) approvals s o = Ok s' ↔
  admissible p parent approvals o
  ∧ match os_unique s !! eo_observation_id o with
    | Some e => (∃ f, ExecutionObservation_fingerprint e = Ok f ∧ ExecutionObservation_fingerprint o = Ok f) ∧ s' = s
    | None => (terminal o → ∀ prev, os_terminal s !! eo_node_id o = Some prev →
                 eo_observation_id prev = eo_observation_id o) ∧ s' = record_observation s o
    end.
Proof.
  intros Hp. unfold scan_observation, rs_fail_if.
  assert (∀ k : result observation_scan,
    (reraise (ExecutionObservation_validate o (Some p) (Some parent)) (is_class ExecutionObservationError)
       RuntimeSchedulerError "SCHEDULER_OBSERVATION_REVALIDATION_FAILED" ;;
     node ← match node_by_id (xp_nodes p) !! eo_node_id o with
            | Some n => Ok n | None => raise PyKeyError (eo_node_id o) end;
     raise_if (en_approval_required node && negb (mem_str (eo_node_id o) approvals)) RuntimeSchedulerError
       ("SCHEDULER_APPROVAL_REQUIRED_FOR_OBSERVATION:" +:+ eo_node_id o) ;; k) = Ok s'
    ↔ admissible p parent approvals o ∧ k = Ok s') as Hk.
  { intros k. rewrite bind_ok_iff. split.
    - intros (x & Hx%reraise_ok & H). pose proof (observation_observed _ _ _ _ Hx) as [-> _].
      destruct (node_by_id _ !! _) as [n|] eqn:E; [|done]. cbn [mbind result_bind] in H.
      apply node_by_id_lookup in E as [Hn Hi]; [|apply Hp]. apply guard_bind_ok in H as [Ha H]. split; [|done].
      split; [done|]. exists n. split_and!; [done..|]. intros Hr. rewrite Hr in Ha. cbn [andb] in Ha.
      by apply negb_false_iff, mem_str_true in Ha.
    - intros ((Hx & n & Hn & Hi & Ha) & H). exists o. split; [by apply reraise_ok|].
      rewrite (proj2 (node_by_id_lookup (xp_nodes p) (eo_node_id o) n (ps_ids _ Hp)) (conj Hn Hi)). cbn [mbind result_bind].
      destruct (en_approval_required n); [|done]. rewrite (proj2 (mem_str_true _ _) (Ha eq_refl)). done. }
  rewrite Hk. apply and_iff_compat_l. unfold record_observation. destruct (os_unique s !! _) as [e|].
  - split.
    + intros H. apply bind_ok_iff in H as (f & Hf & H). apply bind_ok_iff in H as (g & Hg & H).
      apply guard_bind_ok in H as [Hfg [= <-]]. bool_prop. subst. eauto.
    + intros ((f & Hf & Hg) & ->). rewrite Hf. cbn [mbind result_bind]. rewrite Hg. cbn [mbind result_bind].
      by rewrite bool_decide_refl.
  - destruct (decide (eo_status o = "PARTIAL")) as [Hs|Hs].
    + rewrite bool_decide_eq_true_2 by done. assert (¬ terminal o) as Hn by (unfold terminal; rewrite Hs; by apply (bool_decide_eq_false_1 _)).
      rewrite decide_False by done.
      naive_solver.
    + rewrite bool_decide_eq_false_2 by done. unfold terminal, mem_str. case_bool_decide as Ht.
      * rewrite decide_True by done. rewrite guard_bind_ok. destruct (os_terminal s !! _) as [prev|]; [|naive_solver].
        rewrite negb_false_iff, bool_decide_eq_true. naive_solver.
      * rewrite decide_False by done. naive_solver.
Qed.

Section Seen.
Context (p : ExecutionPlan) (parent : TaskCapabilityAuthority) (approvals : list string).
Hypothesis Hshape : plan_shape (xp_nodes p).

Notation scan := (scan_observation p parent (node_by_id (xp_nodes p)) approvals).

Lemma scanned_record seen s o : ids_faithful (seen ++ [o]) → scanned seen s →
  os_unique s !! eo_observation_id o = None →
  (terminal o → ∀ prev, os_terminal s !! eo_node_id o = Some prev → eo_observation_id prev = eo_observation_id o) →
  scanned (seen ++ [o]) (record_observation s o).
Proof.
  intros Hfaith [Hu Hs Ht Hc Hp] Hnew Hprev.
  constructor; cbn [record_observation os_unique os_terminal os_partial].
  - intros id e [[<- <-]|[_ [He <-]%Hu]]%lookup_insert_Some; set_solver.
  - intros o' [Ho'|Ho'%list_elem_of_singleton]%elem_of_app; [|subst o'].
    + destruct (Hs o' Ho') as (e & He & Hf). exists e. split; [|done]. rewrite lookup_insert_ne; [done|congruence].
    + exists o. by rewrite lookup_insert_eq.
  - intros id e. destruct (decide (terminal o)) as [Hto|_].
    + intros [[<- <-]|[_ (? & <- & ?)%Ht]]%lookup_insert_Some; set_solver.
    + intros (? & <- & ?)%Ht. set_solver.
  - intros o' [Ho'|Ho'%list_elem_of_singleton]%elem_of_app Hto'; [|subst o'].
    + destruct (Hc o' Ho' Hto') as (e & He & Hid). destruct (decide (terminal o)) as [Hto|_]; [|by exists e].
      destruct (decide (eo_node_id o = eo_node_id o')) as [E|E]; [|exists e; by rewrite lookup_insert_ne].
      exists o. rewrite E, lookup_insert_eq. split; [done|]. rewrite <- Hid. symmetry. apply (Hprev Hto). by rewrite E.
    + exists o. rewrite decide_True by done. by rewrite lookup_insert_eq.
  - intros id. setoid_rewrite elem_of_app. setoid_rewrite list_elem_of_singleton.
    destruct (decide (eo_status o = "PARTIAL")); rewrite ?elem_of_union, ?elem_of_singleton, Hp; naive_solver.
Qed.

Lemma scanned_again seen s o e : ids_faithful (seen ++ [o]) → scanned seen s →
  os_unique s !! eo_observation_id o = Some e →
  ExecutionObservation_fingerprint e = ExecutionObservation_fingerprint o → scanned (seen ++ [o]) s.
Proof.
  intros Hfaith [Hu Hs Ht Hc Hp] He Hf. destruct (Hu _ _ He) as [Hin Hid].
  destruct (Hfaith e o) as [Hnode Hstatus]; [set_solver..|done|].
  constructor.
  - intros id e' [? ?]%Hu. set_solver.
  - intros o' [Ho'|Ho'%list_elem_of_singleton]%elem_of_app; [by apply Hs|]. subst o'. by exists e.
  - intros id e' (? & ? & ?)%Ht. set_solver.
  - intros o' [Ho'|Ho'%list_elem_of_singleton]%elem_of_app Hto'; [by apply Hc|]. subst o'.
    rewrite <- Hnode, <- Hid. apply Hc; [done|]. unfold terminal. by rewrite Hstatus.
  - intros id. rewrite Hp. setoid_rewrite elem_of_app. setoid_rewrite list_elem_of_singleton. naive_solver congruence.
Qed.

Lemma scan_sound seen s obs s' : ids_faithful (seen ++ obs) → scanned seen s → foldM scan s obs = Ok s' →
  Forall (admissible p parent approvals) obs ∧ scanned (seen ++ obs) s'.
Proof.
  revert seen s. induction obs as [|o obs IH]; intros seen s Hfaith Hsc; cbn [foldM].
  - intros [= <-]. by rewrite app_nil_r.
  - intros H. apply bind_ok_iff in H as (s1 & [Ha H1]%scan_step & H); [|done].
    replace (seen ++ o :: obs) with ((seen ++ [o]) ++ obs) in * by (by rewrite <- app_assoc).
    assert (ids_faithful (seen ++ [o])) as Hfo by (intros ????; apply Hfaith; set_solver).
    assert (scanned (seen ++ [o]) s1) as Hsc1.
    { destruct (os_unique s !! _) as [e|] eqn:E.
      - destruct H1 as ((f & Hf & Hg) & ->). eapply scanned_again; [done..|congruence].
      - destruct H1 as [Hprev ->]. by apply scanned_record. }
    destruct (IH _ _ Hfaith Hsc1 H) as [Hall Hsc2]. split; [by constructor|done].
Qed.

Lemma scanned_consistent obs s : scanned obs s → consistent obs.
Proof.
  intros [Hu Hs Ht Hc Hp]. split.
  - intros o o' Ho Ho' E. destruct (Hs o Ho) as (e & He & <-), (Hs o' Ho') as (e' & He' & <-). congruence.
  - intros o o' Ho Ho' Hto Hto' E. destruct (Hc o Ho Hto) as (e & He & <-), (Hc o' Ho' Hto') as (e' & He' & <-).
    congruence.
Qed.

Lemma scan_complete seen s obs : ids_faithful (seen ++ obs) → consistent (seen ++ obs) → scanned seen s →
  Forall (admissible p parent approvals) obs → ∃ s', foldM scan s obs = Ok s'.
Proof.
  intros Hfaith Hcons Hsc Hall. revert seen s Hfaith Hcons Hsc.
  induction Hall as [|o obs Ha _ IH]; intros seen s Hfaith Hcons Hsc; [by eexists|].
  assert (∃ s1, scan s o = Ok s1 ∧ scanned (seen ++ [o]) s1) as (s1 & Hs1 & Hsc1).
  { assert (ids_faithful (seen ++ [o])) as Hfo by (intros ????; apply Hfaith; set_solver).
    destruct (os_unique s !! eo_observation_id o) as [e|] eqn:E.
    - destruct (sc_unique _ _ Hsc _ _ E) as [Hin Hid].
      assert (ExecutionObservation_fingerprint e = ExecutionObservation_fingerprint o) as Hf
        by (apply Hcons; [set_solver..|done]).
      exists s. split; [|by eapply scanned_again]. apply scan_step; [done|]. split; [done|]. rewrite E.
      destruct (observation_fingerprint_total _ _ _ (proj1 Ha)) as (f & Hg & _). split; [|done].
      exists f. by rewrite Hf.
    - assert (terminal o → ∀ prev, os_terminal s !! eo_node_id o = Some prev →
        eo_observation_id prev = eo_observation_id o) as Hprev.
      { intros Hto prev (Hin & Hn & Htp)%(sc_terminal _ _ Hsc). apply Hcons; [set_solver..|done|done|done]. }
      exists (record_observation s o). split; [|by apply scanned_record].
      apply scan_step; [done|]. split; [done|]. by rewrite E. }
  cbn [foldM]. rewrite Hs1. cbn [mbind result_bind].
  apply (IH (seen ++ [o])); [..|done]; rewrite <- app_assoc; cbn [app]; done.
Qed.

(** The scan itself compares the fingerprints of observations with one identifier. *)
Lemma scan_checked obs : (∃ s, foldM scan scan_start obs = Ok s) → ids_checked obs.
Proof.
  set (ok := λ (s : observation_scan) o, ∃ e f, os_unique s !! eo_observation_id o = Some e
    ∧ ExecutionObservation_fingerprint e = Ok f ∧ ExecutionObservation_fingerprint o = Ok f).
  assert (∀ obs seen s s', Forall (ok s) seen → foldM scan s obs = Ok s' → Forall (ok s') (seen ++ obs)) as Hgen.
  { clear obs. induction obs as [|o obs IH]; intros seen s s' Hs; cbn [foldM]; [intros [= <-]; by rewrite app_nil_r|].
    intros H. apply bind_ok_iff in H as (s1 & [Ha H1]%scan_step & H); [|done].
    replace (seen ++ o :: obs) with ((seen ++ [o]) ++ obs) by (by rewrite <- app_assoc). apply (IH _ s1); [|done].
    apply Forall_app. destruct (os_unique s !! _) as [e|] eqn:E.
    - destruct H1 as ((f & Hf & Hg) & ->). split; [done|]. repeat constructor. by exists e, f.
    - destruct H1 as [_ ->]. split.
      + eapply Forall_impl; [exact Hs|]. intros o' (e & f & He & ?). exists e, f. split; [|done].
        cbn [record_observation os_unique]. rewrite lookup_insert_ne; [done|congruence].
      + repeat constructor. destruct (observation_fingerprint_total _ _ _ (proj1 Ha)) as (f & Hf & _).
        exists o, f. split; [apply lookup_insert_eq|done]. }
  intros [s Hs]. apply (Hgen obs [] scan_start s) in Hs; [|constructor]. rewrite Forall_forall in Hs.
  intros o o' Ho Ho' E. destruct (Hs o Ho) as (e & f & He & Hf & Ho1), (Hs o' Ho') as (e' & f' & He' & Hf' & Ho2).
  exists f. split; [done|]. congruence.
Qed.

(** The scan succeeds exactly on admissible, consistent observations. *)
Lemma scan_exact obs : ids_faithful obs →
  (∃ s, foldM scan scan_start obs = Ok s) ↔ Forall (admissible p parent approvals) obs ∧ consistent obs.
Proof.
  intros Hfaith. split.
  - intros [s Hs]. destruct (scan_sound [] _ _ _ Hfaith scanned_start Hs) as [Hall Hsc].
    split; [done|]. by eapply scanned_consistent.
  - intros [Hall Hcons]. by apply (scan_complete [] scan_start obs Hfaith Hcons scanned_start).
Qed.
End Seen.
End Scan.

(** ** The meaning of a node's state *)

Section Spec.
Context (nodes : list ExecutionNode) (obs : list ExecutionObservation) (approved : list string).

Definition observed_node (id : string) : Prop := ∃ o, o ∈ obs ∧ eo_node_id o = id.
Definition succeeded (id : string) : Prop := ∃ o, o ∈ obs ∧ eo_node_id o = id ∧ eo_status o = "SUCCEEDED".
Definition stopped (id : string) : Prop :=
  ∃ o, o ∈ obs ∧ eo_node_id o = id ∧ (eo_status o = "FAILED" ∨ eo_status o = "CANCELLED").

Definition ready (n : ExecutionNode) : Prop :=
  ¬ observed_node (en_node_id n) ∧ (∀ d, d ∈ en_depends_on n → succeeded d)
  ∧ (en_approval_required n = true → en_node_id n ∈ approved).

(** An unobserved node is blocked for want of its approval, by a dependency that failed or was
    cancelled, or by one that is blocked itself. *)
Inductive blocked : ExecutionNode → Prop :=
  | blocked_approval n : ¬ observed_node (en_node_id n) → (∀ d, d ∈ en_depends_on n → succeeded d) →
      en_approval_required n = true → en_node_id n ∉ approved → blocked n
  | blocked_stopped n d : ¬ observed_node (en_node_id n) → d ∈ en_depends_on n → stopped d → blocked n
  | blocked_by n m : ¬ observed_node (en_node_id n) → en_node_id m ∈ en_depends_on n → m ∈ nodes →
      blocked m → blocked n.

Inductive node_spec (n : ExecutionNode) : string → Prop :=
  | spec_terminal o : o ∈ obs → eo_node_id o = en_node_id n → terminal o → node_spec n (eo_status o)
  | spec_partial : observed_node (en_node_id n) →
      (∀ o, o ∈ obs → eo_node_id o = en_node_id n → ¬ terminal o) → node_spec n "WAITING"
  | spec_ready : ready n → node_spec n "READY"
  | spec_blocked : blocked n → node_spec n "BLOCKED"
  | spec_waiting : ¬ observed_node (en_node_id n) → ¬ blocked n → ¬ (∀ d, d ∈ en_depends_on n → succeeded d) →
      node_spec n "WAITING".

Hypothesis Hunique : ∀ o o', o ∈ obs → o' ∈ obs → terminal o → terminal o' → eo_node_id o = eo_node_id o' →
  eo_status o = eo_status o'.

Lemma terminal_statuses o : terminal o ↔
  eo_status o = "SUCCEEDED" ∨ eo_status o = "FAILED" ∨ eo_status o = "CANCELLED".
Proof. unfold terminal, _TERMINAL_OBSERVATION_STATUSES. rewrite !elem_of_cons, elem_of_nil. naive_solver. Qed.

Lemma stopped_not_succeeded id : stopped id → ¬ succeeded id.
Proof.
  intros (o & Ho & Hid & Hs) (o' & Ho' & Hid' & Hs').
  assert (eo_status o = eo_status o') as E; [|rewrite Hs' in E; destruct Hs; congruence].
  apply Hunique; rewrite ?terminal_statuses; naive_solver congruence.
Qed.

Lemma blocked_inv n : blocked n → ¬ observed_node (en_node_id n)
  ∧ ((en_approval_required n = true ∧ en_node_id n ∉ approved) ∨ ∃ d, d ∈ en_depends_on n ∧ ¬ succeeded d).
Proof.
  intros [n' Hn _ Ha Hna|n' d Hn Hd Hs|n' m Hn Hd _ Hm]; (split; [done|]).
  - by left.
  - right. exists d. split; [done|]. by apply stopped_not_succeeded.
  - right. exists (en_node_id m). split; [done|]. intros (o & Ho & Hid & _).
    destruct Hm as [? Hm _ _ _|? ? Hm _ _|? ? Hm _ _ _]; by apply Hm; exists o.
Qed.

(** The specification fixes the state. *)
Lemma node_spec_fun n st st' : node_spec n st → node_spec n st' → st = st'.
Proof.
  assert (blocked n → ¬ ready n) as Hbr.
  { intros [_ [[? Hna]|(d & Hd & Hnd)]]%blocked_inv (_ & Hdeps & Ha); [by apply Hna, Ha|by apply Hnd, Hdeps]. }
  assert (∀ o, o ∈ obs → eo_node_id o = en_node_id n → observed_node (en_node_id n)) as Hobs by (intros o; by exists o).
  intros [o Ho Hid Hto|Ho Hnt|Hr|Hb|Hn Hnb Hd] [o' Ho' Hid' Hto'|Ho' Hnt'|Hr'|Hb'|Hn' Hnb' Hd'];
    try done; try (by destruct Hnt with o'); try (by destruct Hnt' with o);
    try (by destruct Hr as [[] _]; eauto); try (by destruct Hr' as [[] _]; eauto);
    try (by apply blocked_inv in Hb as [[] _]; eauto); try (by apply blocked_inv in Hb' as [[] _]; eauto);
    try (by destruct Hn; eauto); try (by destruct Hn'; eauto).
  - apply Hunique; congruence || done.
  - by destruct (Hbr Hb').
  - by destruct Hr as (_ & ? & _).
  - by destruct (Hbr Hb).
  - by destruct Hr' as (_ & ? & _).
Qed.
End Spec.

(** ** The evaluator computes it *)

Section Evaluate.
Context {HL : Hashlib}.
Context (nodes : list ExecutionNode) (obs : list ExecutionObservation) (approvals : list string).
Hypothesis Hshape : plan_shape nodes.
Hypothesis Hfaith : ids_faithful obs.
Hypothesis Hcons : consistent obs.
Hypothesis Hstatus : ∀ o, o ∈ obs → eo_status o ∈ OBSERVATION_STATUSES.

Notation spec := (node_spec nodes obs approvals).

Lemma unique_status o o' : o ∈ obs → o' ∈ obs → terminal o → terminal o' → eo_node_id o = eo_node_id o' →
  eo_status o = eo_status o'.
Proof. intros Ho Ho' Ht Ht' Hid. apply Hfaith; [done..|]. by apply Hcons. Qed.

Lemma scanned_status s id : scanned obs s → ∀ st,
  (eo_status <$> os_terminal s !! id = Some st) ↔ ∃ o, o ∈ obs ∧ eo_node_id o = id ∧ terminal o ∧ eo_status o = st.
Proof.
  intros Hsc st. rewrite fmap_Some. split.
  - intros (o & (? & ? & ?)%(sc_terminal _ _ Hsc) & ->). by exists o.
  - intros (o & Ho & <- & Ht & <-). destruct (sc_covered _ _ Hsc o Ho Ht) as (e & He & Hid).
    exists e. split; [done|]. symmetry. apply Hfaith; [by apply (sc_terminal _ _ Hsc) in He as [? _]|done..].
Qed.

Lemma elem_of_success s d : scanned obs s → d ∈ success_nodes (os_terminal s) ↔ succeeded obs d.
Proof.
  intros Hsc. unfold success_nodes. rewrite elem_of_dom. split.
  - intros [o Ho]. apply map_lookup_filter_Some in Ho as [Ho Hs].
    apply (sc_terminal _ _ Hsc) in Ho as (? & ? & _). by exists o.
  - intros (o & Ho & Hid & Hs).
    assert (eo_status <$> os_terminal s !! d = Some "SUCCEEDED") as (e & He & Hst)%fmap_Some.
    { apply scanned_status; [done|]. exists o. split_and!; try done. apply terminal_statuses. auto. }
    exists e. by apply map_lookup_filter_Some.
Qed.

Lemma unobserved s id : scanned obs s → os_terminal s !! id = None → id ∉ os_partial s → ¬ observed_node obs id.
Proof.
  intros Hsc Ht Hp (o & Ho & Hid). destruct (decide (terminal o)) as [Hto|Hto].
  - destruct (sc_covered _ _ Hsc o Ho Hto) as (e & He & _). congruence.
  - apply Hp, (sc_partial _ _ Hsc). exists o. split_and!; [done..|].
    specialize (Hstatus o Ho). unfold terminal in Hto. revert Hstatus Hto.
    unfold OBSERVATION_STATUSES, _TERMINAL_OBSERVATION_STATUSES. rewrite !elem_of_cons, elem_of_nil. naive_solver.
Qed.

(** The dependencies of a node precede it, with their states recorded. *)
Definition recorded (states : gmap string string) (before : list ExecutionNode) : Prop :=
  ∀ m, m ∈ before → ∃ st, states !! en_node_id m = Some st ∧ spec m st.

Lemma dependency_state states before n after d : nodes = before ++ n :: after → recorded states before →
  d ∈ en_depends_on n → ∃ m st, m ∈ nodes ∧ en_node_id m = d ∧ states !! d = Some st ∧ spec m st.
Proof.
  intros Hn Hrec Hd. pose proof (ps_order _ Hshape _ _ _ Hn d Hd) as (m & -> & Hm)%list_elem_of_fmap.
  destruct (Hrec m Hm) as (st & Hst & Hspec). exists m, st. split_and!; try done. rewrite Hn. set_solver.
Qed.

(** The same node twice is the same record. *)
Lemma same_node m m' : m ∈ nodes → m' ∈ nodes → en_node_id m = en_node_id m' → m = m'.
Proof.
  intros Hm Hm' E. pose proof (ps_ids _ Hshape) as Hd.
  apply (keyed_dict_lookup _ _ (en_node_id m') m) in Hd as [_ H1].
  pose proof (ps_ids _ Hshape) as Hd. apply (keyed_dict_lookup _ _ (en_node_id m') m') in Hd as [_ H2].
  specialize (H1 (conj Hm E)). specialize (H2 (conj Hm' eq_refl)). congruence.
Qed.

Lemma bad_dependency states before n after : nodes = before ++ n :: after → recorded states before →
  existsb (λ st, mem_str st ["FAILED"; "CANCELLED"; "BLOCKED"])
    (map (λ d, default "WAITING" (states !! d)) (en_depends_on n)) = true ↔
  ∃ d, d ∈ en_depends_on n ∧ (stopped obs d ∨ ∃ m, m ∈ nodes ∧ en_node_id m = d ∧ blocked nodes obs approvals m).
Proof.
  intros Hn Hrec. rewrite existsb_exists. setoid_rewrite in_map_iff. split.
  - intros (st & (d & <- & Hd%list_elem_of_In) & Hbad%mem_str_true). exists d. split; [done|].
    destruct (dependency_state _ _ _ _ _ Hn Hrec Hd) as (m & st & Hm & Hid & Hst & Hspec).
    rewrite Hst in Hbad. cbn [default] in Hbad.
    destruct Hspec as [o Ho Hoid Hto|_ _|_|Hb|_ _ _].
    + left. exists o. split_and!; [done|congruence|]. rewrite !elem_of_cons, elem_of_nil in Hbad.
      apply terminal_statuses in Hto. naive_solver congruence.
    + rewrite !elem_of_cons, elem_of_nil in Hbad. naive_solver.
    + rewrite !elem_of_cons, elem_of_nil in Hbad. naive_solver.
    + right. by exists m.
    + rewrite !elem_of_cons, elem_of_nil in Hbad. naive_solver.
  - intros (d & Hd & Hwhy). destruct (dependency_state _ _ _ _ _ Hn Hrec Hd) as (m & st & Hm & Hid & Hst & Hspec).
    exists st. split; [exists d; split; [by rewrite Hst|by apply list_elem_of_In]|]. apply mem_str_true.
    destruct Hwhy as [(o & Ho & Hoid & Hos)|(m' & Hm' & Hid' & Hb)].
    + assert (node_spec nodes obs approvals m (eo_status o)) as Hso.
      { apply spec_terminal; [done|congruence|]. apply terminal_statuses. naive_solver. }
      rewrite (node_spec_fun _ _ _ unique_status _ _ _ Hspec Hso). set_solver.
    + assert (m' = m) as -> by (apply same_node; [done..|congruence]).
      rewrite (node_spec_fun _ _ _ unique_status _ _ _ Hspec (spec_blocked _ _ _ _ Hb)). set_solver.
Qed.

Lemma state_spec s states before n after : scanned obs s → nodes = before ++ n :: after → recorded states before →
  spec n (node_state (os_terminal s) (os_partial s) approvals states n).1.
Proof.
  intros Hsc Hn Hrec. pose proof unique_status as Huniq. unfold node_state.
  destruct (os_terminal s !! en_node_id n) as [o|] eqn:Ht.
  { apply (sc_terminal _ _ Hsc) in Ht as (? & ? & ?). by apply spec_terminal. }
  assert (∀ o, o ∈ obs → eo_node_id o = en_node_id n → ¬ terminal o) as Hnt.
  { intros o Ho Hid Hto. destruct (sc_covered _ _ Hsc o Ho Hto) as (e & He & _). rewrite Hid in He. congruence. }
  case_bool_decide as Hp.
  { apply (sc_partial _ _ Hsc) in Hp as (o & ? & ? & _). apply spec_partial; [by exists o|done]. }
  pose proof (unobserved _ _ Hsc Ht Hp) as Hun. cbv zeta.
  destruct (existsb _ _) eqn:Hbad.
  { apply (bad_dependency _ _ _ _ Hn Hrec) in Hbad as (d & Hd & [Hst|(m & Hm & <- & Hb)]); apply spec_blocked.
    - by eapply blocked_stopped.
    - by eapply blocked_by. }
  assert (∀ d, d ∈ en_depends_on n → ¬ stopped obs d ∧
    ∀ m, m ∈ nodes → en_node_id m = d → ¬ blocked nodes obs approvals m) as Hgood.
  { intros d Hd. apply not_true_iff_false in Hbad. rewrite (bad_dependency _ _ _ _ Hn Hrec) in Hbad.
    split; [intros Hs|intros m Hm Hid Hb]; apply Hbad; exists d; (split; [done|]); [by left|right; by exists m]. }
  destruct (forallb _ _) eqn:Hall; cbn [negb].
  - assert (∀ d, d ∈ en_depends_on n → succeeded obs d) as Hdeps.
    { intros d Hd. rewrite forallb_forall in Hall. apply list_elem_of_In in Hd.
      specialize (Hall d Hd). apply bool_decide_eq_true in Hall. by apply (elem_of_success s). }
    destruct (en_approval_required n) eqn:Ha; cbn [andb]; [|apply spec_ready; split_and!; [done..|congruence]].
    destruct (mem_str _ approvals) eqn:Hin; cbn [negb].
    + apply mem_str_true in Hin. by apply spec_ready.
    + apply mem_str_false in Hin. apply spec_blocked. by apply blocked_approval.
  - assert (¬ ∀ d, d ∈ en_depends_on n → succeeded obs d) as Hdeps.
    { intros Hdeps. apply not_true_iff_false in Hall. apply Hall, forallb_forall. intros d Hd%list_elem_of_In.
      apply bool_decide_eq_true. by apply (elem_of_success s), Hdeps. }
    apply spec_waiting; [done| |done]. inversion 1 as [m _ Hd|m d _ Hd Hs|m m' _ Hd Hm Hb]; subst m.
    + by apply Hdeps.
    + by apply (Hgood d Hd).
    + by apply (proj2 (Hgood _ Hd) m' Hm).
Qed.

(** The record of a node. *)
Record record_for (n : ExecutionNode) (r : NodeSchedulingRecord) : Prop := {
  rf_node : nr_node_id r = en_node_id n;
  rf_fingerprint : ExecutionNode_fingerprint n = Ok (nr_node_fingerprint r);
  rf_authority : nr_authority_fingerprint r = en_authority_fingerprint n;
  rf_state : spec n (nr_state r);
  rf_approval : nr_approval_required r = en_approval_required n;
  rf_format : nr_reason_code r ≠ "" ∧ nr_schema_version r = NODE_SCHEDULING_RECORD_SCHEMA
}.

Lemma reason_named terminals partial states n : (node_state terminals partial approvals states n).2 ≠ "".
Proof. unfold node_state. cbv zeta. by repeat case_match. Qed.

Lemma schedule_total s states recs before rest : scanned obs s → nodes = before ++ rest → recorded states before →
  ∃ states' rs, foldM (schedule_node s approvals) (states, recs) rest = Ok (states', recs ++ rs)
  ∧ Forall2 record_for rest rs.
Proof.
  intros Hsc. revert states recs before. induction rest as [|n rest IH]; intros states recs before Hn Hrec.
  { exists states, []. rewrite app_nil_r. by split. }
  pose proof (state_spec _ _ _ _ _ Hsc Hn Hrec) as Hspec.
  pose proof (reason_named (os_terminal s) (os_partial s) states n) as Hreason.
  destruct (ps_dicts _ Hshape n) as [d Hd]; [rewrite Hn; set_solver|].
  destruct (node_fingerprint_total n d Hd) as (_ & f & Hf & _).
  cbn [foldM schedule_node]. destruct (node_state _ _ _ _ _) as [state reason]. cbn [fst snd] in *.
  rewrite Hf. cbn [mbind result_bind].
  match goal with |- context [foldM _ (?states', recs ++ [?r]) rest] =>
    destruct (IH states' (recs ++ [r]) (before ++ [n])) as (states2 & rs & -> & Hrs);
      [by rewrite <- app_assoc| |exists states2, (r :: rs)] end.
  - intros m [Hm|Hm%list_elem_of_singleton]%elem_of_app.
    + destruct (Hrec m Hm) as (st & Hst & Hs). exists st. rewrite lookup_insert_ne; [done|].
      intros E. pose proof (ps_ids _ Hshape) as Hd2. rewrite Hn, map_app in Hd2.
      apply NoDup_app in Hd2 as (_ & Hd2 & _). apply (Hd2 (en_node_id m)).
      * by apply list_elem_of_fmap_2.
      * rewrite <- E. left.
    + subst m. exists state. by rewrite lookup_insert_eq.
  - split; [by rewrite <- app_assoc|]. by repeat constructor.
Qed.

Lemma spec_known n st : spec n st → st ∈ _NODE_STATES.
Proof.
  clear Hfaith Hcons Hstatus. destruct 1 as [o _ _ Ho%terminal_statuses|_ _|_|_|_ _ _]; unfold _NODE_STATES; set_solver.
Qed.

Lemma record_dict_total n r : n ∈ nodes → record_for n r → ∃ v, NodeSchedulingRecord_canonical_dict r = Ok v.
Proof.
  intros Hn [Hid Hf Ha Hs _ [Hr Hsch]]. destruct (ps_dicts _ Hshape n Hn) as [d Hd].
  destruct (node_fingerprint_total n d Hd) as (_ & f & Hf' & Hsha & Hauth).
  rewrite Hf in Hf'. injection Hf' as <-.
  unfold NodeSchedulingRecord_canonical_dict, rs_fail_if, _sha256, sha256_ref.
  rewrite Hsch, Hid, Ha, Hsha, Hauth, bool_decide_refl.
  rewrite (proj2 (mem_str_true _ _) (spec_known _ _ Hs)), (proj2 (is_empty_false _) (ps_named _ Hshape n Hn)).
  rewrite (proj2 (is_empty_false _) Hr). by eexists.
Qed.
End Evaluate.

(** ** Decisions *)

Section Decisions.
Context {HL : Hashlib}.

(** The abstract decision: one record per node in plan order, in the state the
    specification gives it; the decision is complete when every node succeeded, otherwise
    ready when a node is ready, otherwise blocked when a node is blocked. *)
Record decision_spec (p : ExecutionPlan) (obs : list ExecutionObservation) (ids : list string)
    (d : SchedulingDecision) : Prop := {
  ds_plan : sd_task_id d = xp_task_id p ∧ sd_task_context_fingerprint d = xp_task_context_fingerprint p
    ∧ ExecutionPlan_fingerprint p = Ok (sd_plan_fingerprint d);
  ds_approved : sd_approved_node_ids d = sorted_str (dict_fromkeys ids);
  ds_records : Forall2 (record_for (xp_nodes p) obs (sd_approved_node_ids d)) (xp_nodes p) (sd_records d);
  ds_status : sd_status d = decision_status (sd_records d)
}.

(** What the evaluator accepts. *)
Record evaluable (tc : TaskContext) (p : ExecutionPlan) (parent : TaskCapabilityAuthority)
    (obs : list ExecutionObservation) (ids : list string) : Prop := {
  ev_admitted : admitted tc p parent;
  ev_approvals : approvals_ok (xp_nodes p) ids;
  ev_observations : Forall (admissible p parent (sorted_str (dict_fromkeys ids))) obs;
  ev_consistent : consistent obs
}.

Lemma admissible_status p parent ids obs : Forall (admissible p parent ids) obs →
  ∀ o, o ∈ obs → eo_status o ∈ OBSERVATION_STATUSES.
Proof.
  rewrite Forall_elem. intros H o Ho. destruct (H o Ho) as [Hv _].
  apply observation_observed in Hv as (_ & n & a & Hob). apply Hob.
Qed.

Lemma approvals_normalized nodes ids : NoDup (map en_node_id nodes) → approvals_ok nodes ids ↔
  ∃ approvals, _normalized_ids ids "approved_node_ids" = Ok approvals
    ∧ check_approvals (node_by_id nodes) approvals = Ok tt.
Proof.
  intros Hd. unfold approvals_ok. setoid_rewrite normalized_ids_ok. setoid_rewrite (check_approvals_ok nodes _ Hd). split.
  - intros H. exists (sorted_str (dict_fromkeys ids)). split_and!; [done| |]; intros id Hid.
    + by apply H.
    + rewrite elem_of_normalized in Hid. by destruct (H id Hid) as [_ ?].
  - intros (? & [-> Hne] & H) id Hid. split; [by apply Hne|]. apply H. by apply elem_of_normalized.
Qed.

Lemma decision_dict_total p parent obs ids d : ExecutionPlan_validate p (Some parent) = Ok p →
  is_sha256_ref (xp_task_context_fingerprint p) = true → (∀ id, id ∈ ids → id ≠ "") →
  decision_spec p obs ids d → sd_schema_version d = RUNTIME_SCHEDULING_DECISION_SCHEMA →
  ∃ v, SchedulingDecision_canonical_dict d = Ok v.
Proof.
  intros Hp Hctx Hids [(_ & Hc & Hf) Ha Hr Hs] Hsch. pose proof (plan_valid_shape _ _ Hp) as Hshape.
  destruct (plan_fingerprint_total _ _ Hp) as (f & Hf' & Hsha). rewrite Hf in Hf'. injection Hf' as <-.
  unfold SchedulingDecision_canonical_dict, rs_fail_if, _sha256, sha256_ref.
  rewrite Hsch, bool_decide_refl, Hs, Hc, Hctx, Hsha.
  assert (mem_str (decision_status (sd_records d)) _DECISION_STATUSES = true) as ->.
  { apply mem_str_true. unfold decision_status, _DECISION_STATUSES. repeat case_match; set_solver. }
  cbn [negb raise_if mbind result_bind].
  assert (_normalized_ids (sd_approved_node_ids d) "approved_node_ids" = Ok (sd_approved_node_ids d)) as ->.
  { apply normalized_ids_ok. rewrite Ha. split.
    - rewrite (dict_fromkeys_id (sorted_str _)); [by rewrite sorted_str_idemp|]. rewrite sorted_str_perm. apply NoDup_dict_fromkeys.
    - intros id. rewrite elem_of_normalized. apply Hids. }
  cbn [mbind result_bind]. rewrite bool_decide_refl. cbn [negb raise_if mbind result_bind].
  assert (∃ rs, mapM NodeSchedulingRecord_canonical_dict (sd_records d) = Ok rs) as [rs ->]; [|by eexists].
  assert (∀ n, n ∈ xp_nodes p → n ∈ xp_nodes p) as Hsub by done. revert Hsub Hr.
  generalize (sd_records d). generalize (xp_nodes p) at 1 4. intros ns rs Hsub Hr.
  induction Hr as [|n r ns rs Hr _ IH]; [by eexists|].
  destruct (record_dict_total _ _ _ Hshape n r (Hsub n ltac:(left)) Hr) as [v Hv].
  destruct IH as [vs Hvs]; [intros m Hm; apply Hsub; by right|].
  exists (v :: vs). cbn [mapM]. rewrite Hv. cbn [mbind result_bind]. by rewrite Hvs.
Qed.

(** The evaluator, on the inputs it accepts. *)
Lemma evaluate_total tc p parent obs ids : ids_faithful obs → evaluable tc p parent obs ids →
  ∃ d, RuntimeScheduler_evaluate tc p parent obs ids = Ok d ∧ decision_spec p obs ids d.
Proof.
  intros Hfaith [Had Happ Hobs Hcons]. pose proof (ad_plan _ _ _ Had) as Hp.
  pose proof (plan_valid_shape _ _ Hp) as Hshape.
  unfold RuntimeScheduler_evaluate. rewrite (proj2 (check_admission_ok _ _ _) Had). cbn [mbind result_bind]. cbv zeta.
  pose proof (proj1 (approvals_normalized _ _ (ps_ids _ Hshape)) Happ) as (approvals & Hn & Hc).
  rewrite Hn. cbn [mbind result_bind]. rewrite Hc. cbn [mbind result_bind].
  apply normalized_ids_ok in Hn as [-> Hids]. set (approvals := sorted_str (dict_fromkeys ids)) in *.
  destruct (proj2 (scan_exact p parent approvals Hshape obs Hfaith) (conj Hobs Hcons)) as [s Hs].
  rewrite Hs. cbn [mbind result_bind].
  destruct (scan_sound _ _ _ Hshape [] _ _ _ Hfaith scanned_start Hs) as [_ Hsc]. cbn [app] in Hsc.
  destruct (schedule_total (xp_nodes p) obs approvals Hshape Hfaith Hcons
    (admissible_status _ _ _ _ Hobs) s ∅ [] [] (xp_nodes p) Hsc eq_refl) as (states' & rs & -> & Hrs);
    [by intros ? []%not_elem_of_nil|].
  cbn [mbind result_bind app]. rewrite (ad_fingerprint _ _ _ Had). cbn [mbind result_bind].
  destruct (plan_fingerprint_total _ _ Hp) as (pf & Hpf & _). rewrite Hpf. cbn [mbind result_bind].
  match goal with |- ∃ d, (SchedulingDecision_canonical_dict ?d' ;; _) = _ ∧ _ =>
    assert (decision_spec p obs ids d') as Hd by (constructor; cbn; done);
    destruct (decision_dict_total p parent obs ids d' Hp) as [v Hv]; [|done..|] end.
  - destruct (fingerprints_total tc (ad_context _ _ _ Had)) as ((f & Hf & Hsha) & _).
    rewrite (ad_fingerprint _ _ _ Had) in Hf. by injection Hf as ->.
  - rewrite Hv. by eexists.
Qed.

Lemma evaluate_evaluable tc p parent obs ids d : ids_faithful obs →
  RuntimeScheduler_evaluate tc p parent obs ids = Ok d → evaluable tc p parent obs ids.
Proof.
  intros Hfaith H. unfold RuntimeScheduler_evaluate in H. apply unit_bind_ok in H as [Had%check_admission_ok H].
  pose proof (plan_valid_shape _ _ (ad_plan _ _ _ Had)) as Hshape. cbv zeta in H.
  apply bind_ok_iff in H as (approvals & Hn & H). apply unit_bind_ok in H as [Hc H].
  apply bind_ok_iff in H as (s & Hs & _).
  destruct (proj1 (scan_exact p parent approvals Hshape obs Hfaith)) as [Hobs Hcons]; [by exists s|].
  constructor; [done|apply approvals_normalized; [apply Hshape|by exists approvals]| |done].
  by apply normalized_ids_ok in Hn as [-> _].
Qed.

Lemma evaluate_spec tc p parent obs ids d : ids_faithful obs →
  RuntimeScheduler_evaluate tc p parent obs ids = Ok d → evaluable tc p parent obs ids ∧ decision_spec p obs ids d.
Proof.
  intros Hfaith H. pose proof (evaluate_evaluable _ _ _ _ _ _ Hfaith H) as Hev. split; [done|].
  destruct (evaluate_total _ _ _ _ _ Hfaith Hev) as (d' & Hd' & Hspec). congruence.
Qed.

Lemma evaluable_unique tc p parent obs ids : ids_faithful obs → evaluable tc p parent obs ids →
  ∀ o o', o ∈ obs → o' ∈ obs → terminal o → terminal o' → eo_node_id o = eo_node_id o' → eo_status o = eo_status o'.
Proof. intros Hfaith Hev. apply unique_status; [done|apply Hev]. Qed.

(** What the evaluator accepts has been checked, and so has what its specification accepts. *)
Lemma evaluable_faithful tc p parent obs ids : evaluable tc p parent obs ids → ids_faithful obs ∨ fingerprint_collision obs.
Proof.
  intros [_ _ Hobs [Hc _]]. apply checked_faithful. intros o o' Ho Ho' E.
  rewrite Forall_forall in Hobs. destruct (observation_fingerprint_total _ _ _ (proj1 (Hobs o Ho))) as (f & Hf & _).
  exists f. split; [done|]. by rewrite <- (Hc o o' Ho Ho' E).
Qed.

Lemma evaluate_faithful tc p parent obs ids d : RuntimeScheduler_evaluate tc p parent obs ids = Ok d →
  ids_faithful obs ∨ fingerprint_collision obs.
Proof.
  intros H. unfold RuntimeScheduler_evaluate in H. apply unit_bind_ok in H as [Had%check_admission_ok H].
  pose proof (plan_valid_shape _ _ (ad_plan _ _ _ Had)) as Hshape. cbv zeta in H.
  apply bind_ok_iff in H as (approvals & _ & H). apply unit_bind_ok in H as [_ H]. apply bind_ok_iff in H as (s & Hs & _).
  eapply checked_faithful, (scan_checked p parent approvals Hshape). by exists s.
Qed.

(** A state is on the records exactly when the specification gives it to a node. *)
Lemma record_states nodes obs approved records st : Forall2 (record_for nodes obs approved) nodes records →
  ∀ id, (∃ r, r ∈ records ∧ nr_node_id r = id ∧ nr_state r = st) →
    ∃ n, n ∈ nodes ∧ en_node_id n = id ∧ node_spec nodes obs approved n st.
Proof.
  intros Hr id (r & Hin & <- & <-). apply list_elem_of_lookup in Hin as [i Hi].
  destruct (Forall2_lookup_r _ _ _ _ _ Hr Hi) as (n & Hn & Hrec). exists n.
  split_and!; [by eapply list_elem_of_lookup_2|by rewrite (rf_node _ _ _ _ _ Hrec)|apply Hrec].
Qed.

Lemma state_records nodes obs approved records n st :
  (∀ o o', o ∈ obs → o' ∈ obs → terminal o → terminal o' → eo_node_id o = eo_node_id o' → eo_status o = eo_status o') →
  Forall2 (record_for nodes obs approved) nodes records → n ∈ nodes → node_spec nodes obs approved n st →
  ∃ r, r ∈ records ∧ nr_node_id r = en_node_id n ∧ nr_state r = st.
Proof.
  intros Hu Hr [i Hi]%list_elem_of_lookup Hst. destruct (Forall2_lookup_l _ _ _ _ _ Hr Hi) as (r & Hri & Hrec).
  exists r. split_and!; [by eapply list_elem_of_lookup_2|apply Hrec|]. by eapply node_spec_fun; [exact Hu|apply Hrec|].
Qed.

Lemma elem_of_state_ids st records id :
  id ∈ map nr_node_id (List.filter (has_state st) records) ↔ ∃ r, r ∈ records ∧ nr_node_id r = id ∧ nr_state r = st.
Proof.
  rewrite list_elem_of_fmap. setoid_rewrite list_elem_of_In at 1. setoid_rewrite filter_In.
  setoid_rewrite <- list_elem_of_In. unfold has_state. setoid_rewrite bool_decide_eq_true. naive_solver.
Qed.

Lemma existsb_state st records : existsb (has_state st) records = true ↔ ∃ r, r ∈ records ∧ nr_state r = st.
Proof.
  rewrite existsb_exists. setoid_rewrite <- list_elem_of_In. unfold has_state. by setoid_rewrite bool_decide_eq_true.
Qed.

Lemma complete_status records : records ≠ [] →
  decision_status records = "COMPLETE" ↔ ∀ r, r ∈ records → nr_state r = "SUCCEEDED".
Proof.
  intros Hne. unfold decision_status. rewrite (bool_decide_eq_false_2 _ Hne). cbn [negb andb].
  assert (forallb (has_state "SUCCEEDED") records = true ↔ ∀ r, r ∈ records → nr_state r = "SUCCEEDED") as <-.
  { rewrite forallb_forall. setoid_rewrite <- list_elem_of_In. unfold has_state. by setoid_rewrite bool_decide_eq_true. }
  destruct (forallb _ _); [done|].
  by destruct (existsb (has_state "READY") records), (existsb (has_state "BLOCKED") records).
Qed.

Lemma ready_status records : decision_status records = "READY" ↔ ∃ r, r ∈ records ∧ nr_state r = "READY".
Proof.
  rewrite <- existsb_state. unfold decision_status. case_bool_decide as Hnil; [subst|]; cbn [negb andb]; [done|].
  destruct (forallb _ _) eqn:Hall; [|by destruct (existsb (has_state "READY") records), (existsb (has_state "BLOCKED") records)].
  split; [done|]. intros (r & Hr & Hs)%existsb_state. rewrite forallb_forall in Hall.
  specialize (Hall r (proj1 (list_elem_of_In _ _) Hr)). apply bool_decide_eq_true in Hall. congruence.
Qed.

Lemma spec_states nodes obs approved n :
  (node_spec nodes obs approved n "READY" ↔ ready obs approved n)
  ∧ (node_spec nodes obs approved n "BLOCKED" ↔ blocked nodes obs approved n)
  ∧ (node_spec nodes obs approved n "SUCCEEDED" ↔ succeeded obs (en_node_id n)).
Proof.
  split_and!; (split; [inversion 1 as [o Ho Hid Ht E| | | |]|]); try done;
    try (by apply terminal_statuses in Ht; rewrite E in Ht; naive_solver).
  - apply spec_ready.
  - apply spec_blocked.
  - by exists o.
  - intros (o & Ho & Hid & Hs). rewrite <- Hs. apply spec_terminal; [done..|]. apply terminal_statuses. auto.
Qed.

Lemma state_ids nodes obs approved records st (P : ExecutionNode → Prop) :
  (∀ o o', o ∈ obs → o' ∈ obs → terminal o → terminal o' → eo_node_id o = eo_node_id o' → eo_status o = eo_status o') →
  Forall2 (record_for nodes obs approved) nodes records → (∀ n, node_spec nodes obs approved n st ↔ P n) →
  ∀ id, (∃ r, r ∈ records ∧ nr_node_id r = id ∧ nr_state r = st) ↔ ∃ n, n ∈ nodes ∧ en_node_id n = id ∧ P n.
Proof.
  intros Hu Hr HP id. split.
  - intros (n & Hn & Hid & Hs)%(record_states _ _ _ _ _ Hr). exists n. by rewrite <- HP.
  - intros (n & Hn & <- & Hs%HP). by apply (state_records _ _ _ _ _ _ Hu Hr Hn).
Qed.

(** C32: the evaluator implements its specification. An accepted decision has one record per node
    of the plan, in plan order and under the node's fingerprints, in the state the specification
    gives the node; the ready nodes are those with no report, all dependencies successful and
    the approval they ask for; the blocked ones are those without their approval or behind a node
    that failed, was cancelled or is blocked; it is complete exactly when every node succeeded,
    and ready exactly when some node is. Nothing is assumed of the identifiers of the observations, 24 digits
    of a digest each: the scan compares the full fingerprints of two observations under one identifier, so
    the only other case is that two of them, of different nodes or statuses, have one full fingerprint. *)
Theorem evaluate_refines tc p parent obs ids d (H : RuntimeScheduler_evaluate tc p parent obs ids = Ok d) :
  (decision_spec p obs ids d
   ∧ (∀ id, id ∈ ready_node_ids d ↔ ∃ n, n ∈ xp_nodes p ∧ en_node_id n = id ∧ ready obs (sd_approved_node_ids d) n)
   ∧ (∀ id, id ∈ blocked_node_ids d ↔
        ∃ n, n ∈ xp_nodes p ∧ en_node_id n = id ∧ blocked (xp_nodes p) obs (sd_approved_node_ids d) n)
   ∧ (sd_status d = "COMPLETE" ↔ ∀ n, n ∈ xp_nodes p → succeeded obs (en_node_id n))
   ∧ (sd_status d = "READY" ↔ ∃ n, n ∈ xp_nodes p ∧ ready obs (sd_approved_node_ids d) n))
  ∨ fingerprint_collision obs.
Proof.
  destruct (evaluate_faithful _ _ _ _ _ _ H) as [Hfaith|?]; [left|by right].
  destruct (evaluate_spec _ _ _ _ _ _ Hfaith H) as [Hev Hd]. pose proof (evaluable_unique _ _ _ _ _ Hfaith Hev) as Hu.
  pose proof (ds_records _ _ _ _ Hd) as Hr. pose proof (plan_valid_shape _ _ (ad_plan _ _ _ (ev_admitted _ _ _ _ _ Hev))) as Hsh.
  split_and!; [done|..].
  - intros id. unfold ready_node_ids. rewrite elem_of_state_ids. by apply (state_ids _ _ _ _ _ _ Hu Hr), spec_states.
  - intros id. unfold blocked_node_ids. rewrite elem_of_state_ids. by apply (state_ids _ _ _ _ _ _ Hu Hr), spec_states.
  - rewrite (ds_status _ _ _ _ Hd), complete_status.
    + split.
      * intros Hall n Hn. pose proof Hn as [i Hi]%list_elem_of_lookup.
        destruct (Forall2_lookup_l _ _ _ _ _ Hr Hi) as (r & Hri & Hrec). apply list_elem_of_lookup_2 in Hri.
        apply (spec_states (xp_nodes p) obs (sd_approved_node_ids d)). rewrite <- (Hall r Hri). apply Hrec.
      * intros Hall r [i Hi]%list_elem_of_lookup. destruct (Forall2_lookup_r _ _ _ _ _ Hr Hi) as (n & Hn & Hrec).
        apply list_elem_of_lookup_2 in Hn. eapply node_spec_fun; [exact Hu|apply Hrec|]. by apply spec_states, Hall.
    + intros E. rewrite E in Hr. apply Forall2_nil_inv_r in Hr. by apply (ps_some _ Hsh).
  - rewrite (ds_status _ _ _ _ Hd), ready_status. split.
    + intros (r & Hin & Hst). destruct (proj1 (state_ids _ _ _ _ "READY" _ Hu Hr (λ n, proj1 (spec_states _ _ _ n)) (nr_node_id r)))
        as (n & Hn & _ & Hready); [by exists r|]. by exists n.
    + intros (n & Hn & Hready). destruct (proj2 (state_ids _ _ _ _ "READY" _ Hu Hr (λ n, proj1 (spec_states _ _ _ n)) (en_node_id n)))
        as (r & Hin & _ & Hst); [by exists n|]. by exists r.
Qed.

(** The evaluator returns a decision exactly when context, plan and authority belong together
    and validate, every approval names a node that asks for one, every observation validates
    against the plan and is of a node that is approved if it must be, and the observations agree:
    no identifier stands for two contents and no node has two terminal reports. On any other
    input it raises; no later step of it can fail. The other case is a collision of the full fingerprints of two
    of the observations. *)
Theorem evaluate_accepts tc p parent obs ids :
  ((∃ d, RuntimeScheduler_evaluate tc p parent obs ids = Ok d) ↔ evaluable tc p parent obs ids) ∨ fingerprint_collision obs.
Proof.
  destruct (faithful_or_shared obs) as [Hfaith|(o & o' & Ho & Ho' & Hs)].
  - left. split; [intros [d H]; by eapply evaluate_evaluable|].
    intros Hev. destruct (evaluate_total _ _ _ _ _ Hfaith Hev) as (d & Hd & _). by exists d.
  - assert (¬ ids_faithful obs) as Hnot by (intros Hf; apply (proj2 Hs), (Hf o o' Ho Ho' (proj1 Hs))).
    destruct (RuntimeScheduler_evaluate tc p parent obs ids) as [d|e] eqn:E.
    { destruct (evaluate_faithful _ _ _ _ _ _ E) as [?|?]; [done|by right]. }
    destruct (ExecutionObservation_fingerprint o) as [f|e1] eqn:Ef.
    + destruct (ExecutionObservation_fingerprint o') as [f'|e1] eqn:Ef'; [destruct (decide (f = f')) as [<-|Hff];
        [right; by exists o, o', f|]|]; (left; split; [by intros [d [=]]|]; intros [_ _ _ [Hc _]];
        specialize (Hc o o' Ho Ho' (proj1 Hs)); congruence).
    + left. split; [by intros [d [=]]|]. intros [_ _ Hobs _]. rewrite Forall_forall in Hobs.
      destruct (observation_fingerprint_total _ _ _ (proj1 (Hobs o Ho))) as (f & Hf & _). congruence.
Qed.

Lemma option_status_cases (a b : option ExecutionObservation) : eo_status <$> a = eo_status <$> b →
  (a = None ∧ b = None) ∨ ∃ o o', a = Some o ∧ b = Some o' ∧ eo_status o = eo_status o'.
Proof. destruct a, b; simpl; intros [=]; eauto 6. Qed.

Lemma node_state_ext obs obs' s s' approvals states n : ids_faithful obs → obs ≡ₚ obs' →
  scanned obs s → scanned obs' s' →
  node_state (os_terminal s) (os_partial s) approvals states n
  = node_state (os_terminal s') (os_partial s') approvals states n.
Proof.
  intros Hfaith Hperm Hsc Hsc'.
  assert (ids_faithful obs') as Hfaith' by (intros ??; rewrite <- Hperm; intros; by apply Hfaith).
  assert (∀ id, eo_status <$> os_terminal s !! id = eo_status <$> os_terminal s' !! id) as Ht.
  { intros id. apply option_eq. intros st. rewrite (scanned_status obs Hfaith), (scanned_status obs' Hfaith') by done.
    by setoid_rewrite Hperm. }
  assert (os_partial s = os_partial s') as ->.
  { apply set_eq. intros id. rewrite (sc_partial _ _ Hsc), (sc_partial _ _ Hsc'). by setoid_rewrite Hperm. }
  assert (∀ d, d ∈ success_nodes (os_terminal s) ↔ d ∈ success_nodes (os_terminal s')) as Hsucc.
  { intros d. rewrite (elem_of_success obs Hfaith), (elem_of_success obs' Hfaith') by done. unfold succeeded.
    by setoid_rewrite Hperm. }
  unfold node_state. destruct (option_status_cases _ _ (Ht (en_node_id n))) as [[-> ->]|(o & o' & -> & -> & ->)]; [|done].
  cbv zeta. replace (forallb (λ d, bool_decide (d ∈ success_nodes (os_terminal s))) (en_depends_on n))
    with (forallb (λ d, bool_decide (d ∈ success_nodes (os_terminal s'))) (en_depends_on n)); [done|].
  induction (en_depends_on n) as [|d l IH]; [done|]. cbn [forallb]. rewrite IH. f_equal. by apply bool_decide_ext.
Qed.

Lemma schedule_ext s s' approvals acc nodes :
  (∀ states n, node_state (os_terminal s) (os_partial s) approvals states n
    = node_state (os_terminal s') (os_partial s') approvals states n) →
  foldM (schedule_node s approvals) acc nodes = foldM (schedule_node s' approvals) acc nodes.
Proof.
  intros Hext. revert acc. induction nodes as [|n nodes IH]; intros [states recs]; [done|].
  cbn [foldM schedule_node]. rewrite Hext. destruct (node_state _ _ _ _ _) as [st reason].
  destruct (ExecutionNode_fingerprint n); cbn [mbind result_bind]; [apply IH|done].
Qed.

Lemma evaluable_perm tc p parent obs obs' ids : obs ≡ₚ obs' → evaluable tc p parent obs ids →
  evaluable tc p parent obs' ids.
Proof.
  intros Hperm [H1 H2 H3 H4]. constructor; [done..|by rewrite <- Hperm|].
  unfold consistent in *. by setoid_rewrite <- Hperm.
Qed.

Lemma evaluate_perm tc p parent obs obs' ids ids' d : ids_faithful obs → obs ≡ₚ obs' → (∀ id, id ∈ ids ↔ id ∈ ids') →
  RuntimeScheduler_evaluate tc p parent obs ids = Ok d → RuntimeScheduler_evaluate tc p parent obs' ids' = Ok d.
Proof.
  intros Hfaith Hperm Hids H. pose proof (evaluate_evaluable _ _ _ _ _ _ Hfaith H) as Hev. apply (evaluable_perm _ _ _ _ _ _ Hperm) in Hev.
  assert (ids_faithful obs') as Hfaith' by (intros ??; rewrite <- Hperm; intros; by apply Hfaith).
  assert (sorted_str (dict_fromkeys ids') = sorted_str (dict_fromkeys ids)) as Hnorm.
  { apply sorted_str_unique, NoDup_Permutation; [apply NoDup_dict_fromkeys..|].
    intros id. rewrite !elem_of_dict_fromkeys. by rewrite Hids. }
  pose proof (plan_valid_shape _ _ (ad_plan _ _ _ (ev_admitted _ _ _ _ _ Hev))) as Hsh.
  pose proof (proj2 (scan_exact p parent _ Hsh obs' Hfaith') (conj (ev_observations _ _ _ _ _ Hev) (ev_consistent _ _ _ _ _ Hev))) as [s' Hs'].
  unfold RuntimeScheduler_evaluate in *. apply unit_bind_ok in H as [-> H]. cbn [mbind result_bind]. cbv zeta in H |- *.
  apply bind_ok_iff in H as (approvals & [-> Hne]%normalized_ids_ok & H).
  rewrite (proj2 (normalized_ids_ok ids' "approved_node_ids" (sorted_str (dict_fromkeys ids)))).
  2: { split; [done|]. intros id Hid. apply Hne, Hids, Hid. }
  cbn [mbind result_bind]. apply unit_bind_ok in H as [-> H]. cbn [mbind result_bind].
  apply bind_ok_iff in H as (s & Hs & H). rewrite Hs'. cbn [mbind result_bind].
  destruct (scan_sound _ _ _ Hsh [] _ _ _ Hfaith scanned_start Hs) as [_ Hsc].
  destruct (scan_sound _ _ _ Hsh [] _ _ _ Hfaith' scanned_start Hs') as [_ Hsc'].
  rewrite (schedule_ext s s') in H; [exact H|].
  intros states n. by apply (node_state_ext obs obs').
Qed.

(** The decision does not depend on the order in which the observations arrived, nor on the
    order or repetition of the approvals, short of a collision of their full fingerprints. *)
Theorem evaluate_order tc p parent obs obs' ids ids' d (Hperm : obs ≡ₚ obs') (Hids : ∀ id, id ∈ ids ↔ id ∈ ids')
    (H : RuntimeScheduler_evaluate tc p parent obs ids = Ok d) :
  RuntimeScheduler_evaluate tc p parent obs' ids' = Ok d ∨ fingerprint_collision obs.
Proof.
  destruct (evaluate_faithful _ _ _ _ _ _ H) as [Hfaith|?]; [left; by apply (evaluate_perm _ _ _ obs _ ids)|by right].
Qed.

Lemma succeeded_dec obs id : succeeded obs id ∨ ¬ succeeded obs id.
Proof.
  destruct (decide (Exists (λ o, eo_node_id o = id ∧ eo_status o = "SUCCEEDED") obs)) as [E|E];
    rewrite Exists_exists in E; [left|right]; exact E.
Qed.

(** Going through the plan in order: either all nodes succeeded or the first that did not is ready. *)
Lemma frontier nodes obs approved : plan_shape nodes → (∀ o, o ∈ obs → eo_status o = "SUCCEEDED") →
  (∀ n, n ∈ nodes → en_approval_required n = true → en_node_id n ∈ approved) →
  (∀ n, n ∈ nodes → succeeded obs (en_node_id n)) ∨ ∃ n, n ∈ nodes ∧ ready obs approved n.
Proof.
  intros Hsh Hall Happ.
  assert (∀ after before, nodes = before ++ after → (∀ n, n ∈ before → succeeded obs (en_node_id n)) →
    (∀ n, n ∈ nodes → succeeded obs (en_node_id n)) ∨ ∃ n, n ∈ nodes ∧ ready obs approved n) as Hgen.
  { induction after as [|n after IH]; intros before Hn Hbefore.
    { left. rewrite app_nil_r in Hn. by subst. }
    assert (n ∈ nodes) as Hin by (rewrite Hn; set_solver).
    destruct (succeeded_dec obs (en_node_id n)) as [Hs|Hs].
    - apply (IH (before ++ [n])); [by rewrite <- app_assoc|]. intros m [Hm|Hm%list_elem_of_singleton]%elem_of_app; [auto|].
      by subst m.
    - right. exists n. split; [done|]. split_and!; [|..|by apply Happ].
      + intros (o & Ho & Hid). apply Hs. exists o. auto.
      + intros d Hd. pose proof (ps_order _ Hsh _ _ _ Hn d Hd) as (m & -> & Hm)%list_elem_of_fmap. auto. }
  by apply (Hgen nodes []); [|intros ? []%not_elem_of_nil].
Qed.

(** Progress. When every report so far is a success and every node that asks for an approval
    has it, the evaluator returns a decision, and that decision is complete or names a node to
    run next: such a run never blocks and never waits - short of a collision of full fingerprints. *)
Theorem evaluate_progress tc p parent obs ids (Hev : evaluable tc p parent obs ids)
    (Hall : ∀ o, o ∈ obs → eo_status o = "SUCCEEDED")
    (Happ : ∀ n, n ∈ xp_nodes p → en_approval_required n = true → en_node_id n ∈ ids) :
  (∃ d, RuntimeScheduler_evaluate tc p parent obs ids = Ok d
   ∧ (sd_status d = "COMPLETE" ∨ (sd_status d = "READY" ∧ ready_node_ids d ≠ []))) ∨ fingerprint_collision obs.
Proof.
  destruct (evaluable_faithful _ _ _ _ _ Hev) as [Hfaith|?]; [left|by right].
  destruct (evaluate_total _ _ _ _ _ Hfaith Hev) as (d & Hd & Hspec). exists d. split; [done|].
  pose proof (evaluable_unique _ _ _ _ _ Hfaith Hev) as Hu. pose proof (ds_records _ _ _ _ Hspec) as Hr.
  pose proof (plan_valid_shape _ _ (ad_plan _ _ _ (ev_admitted _ _ _ _ _ Hev))) as Hsh.
  destruct (frontier _ obs (sd_approved_node_ids d) Hsh Hall) as [Hdone|(n & Hn & Hready)].
  { intros n Hn Ha. rewrite (ds_approved _ _ _ _ Hspec). apply elem_of_normalized. auto. }
  - left. rewrite (ds_status _ _ _ _ Hspec). apply complete_status.
    + intros E. rewrite E in Hr. apply Forall2_nil_inv_r in Hr. by apply (ps_some _ Hsh).
    + intros r [i Hi]%list_elem_of_lookup. destruct (Forall2_lookup_r _ _ _ _ _ Hr Hi) as (n & Hn & Hrec).
      apply list_elem_of_lookup_2 in Hn. eapply node_spec_fun; [exact Hu|apply Hrec|]. by apply spec_states, Hdone.
  - right. apply (proj2 (proj1 (spec_states (xp_nodes p) _ _ _))) in Hready.
    destruct (state_records _ _ _ _ _ _ Hu Hr Hn Hready) as (r & Hin & Hid & Hst). split.
    + rewrite (ds_status _ _ _ _ Hspec). apply ready_status. by exists r.
    + assert (en_node_id n ∈ ready_node_ids d) as Hel; [|by intros E; rewrite E in Hel; apply not_elem_of_nil in Hel].
      unfold ready_node_ids. apply elem_of_state_ids. by exists r.
Qed.
End Decisions.

(** The sample plan: its first node reported, its middle node approved. *)
Section Examples.
#[local] Existing Instance checksum_hashlib.

Definition sample_reports : list ExecutionObservation := [sample_in; sample_work].

Lemma sample_faithful obs : obs ⊆ sample_reports → ids_faithful obs.
Proof.
  intros Hsub o o' Ho%Hsub Ho'%Hsub. unfold sample_reports in *.
  rewrite !elem_of_cons, elem_of_nil in Ho, Ho'.
  destruct Ho as [->|[->|[]]], Ho' as [->|[->|[]]]; by vm_compute.
Qed.

Definition sample_decision (obs : list ExecutionObservation) (ids : list string) : result SchedulingDecision :=
  RuntimeScheduler_evaluate sample_context sample_plan sample_parent obs ids.

Example sample_unapproved :
  (λ d, (sd_status d, map nr_state (sd_records d))) <$> sample_decision [sample_in] []
  = Ok ("BLOCKED", ["SUCCEEDED"; "BLOCKED"; "BLOCKED"]).
Proof. vm_compute. reflexivity. Qed.
Example sample_approved :
  (λ d, (sd_status d, map nr_state (sd_records d))) <$> sample_decision [sample_in] ["work"]
  = Ok ("READY", ["SUCCEEDED"; "READY"; "WAITING"]).
Proof. vm_compute. reflexivity. Qed.

Definition sample_running : SchedulingDecision.
Proof.
  let r := eval vm_compute in (sample_decision [sample_in; sample_work] ["work"]) in
  match r with Ok ?d => exact d end.
Defined.
Lemma sample_running_ok : sample_decision [sample_in; sample_work] ["work"] = Ok sample_running.
Proof. vm_compute. reflexivity. Qed.

Lemma no_sample_collision obs : obs ⊆ sample_reports → ¬ fingerprint_collision obs.
Proof. intros Hsub. by apply faithful_no_collision, sample_faithful. Qed.

Lemma evaluate_refines_witness : ∃ n, n ∈ xp_nodes sample_plan ∧ en_node_id n = "out"
  ∧ ready sample_reports ["work"] n.
Proof.
  destruct (evaluate_refines sample_context sample_plan sample_parent [sample_in; sample_work] ["work"] sample_running
    sample_running_ok) as [(_ & Hready & _)|[]%(no_sample_collision _ (reflexivity _))].
  apply (Hready "out"). vm_compute. left.
Defined.

Lemma evaluate_accepts_witness : evaluable sample_context sample_plan sample_parent sample_reports ["work"].
Proof.
  destruct (evaluate_accepts sample_context sample_plan sample_parent sample_reports ["work"])
    as [H|[]%(no_sample_collision _ (reflexivity _))].
  apply H. exists sample_running. exact sample_running_ok.
Defined.

Lemma evaluate_order_witness :
  RuntimeScheduler_evaluate sample_context sample_plan sample_parent [sample_work; sample_in] ["work"; "work"]
  = Ok sample_running.
Proof.
  destruct (evaluate_order sample_context sample_plan sample_parent [sample_in; sample_work] [sample_work; sample_in]
    ["work"] ["work"; "work"] sample_running (Permutation_swap _ _ _)) as [H|[]%(no_sample_collision _ (reflexivity _))].
  - intros id. rewrite !elem_of_cons, elem_of_nil. split; intros Hid; repeat destruct Hid as [Hid|Hid]; auto.
  - exact sample_running_ok.
  - exact H.
Defined.

Lemma evaluate_progress_witness : ∃ d,
  RuntimeScheduler_evaluate sample_context sample_plan sample_parent sample_reports ["work"] = Ok d
  ∧ (sd_status d = "COMPLETE" ∨ (sd_status d = "READY" ∧ ready_node_ids d ≠ [])).
Proof.
  destruct (evaluate_progress sample_context sample_plan sample_parent sample_reports ["work"])
    as [H|[]%(no_sample_collision _ (reflexivity _))].
  - apply (evaluate_evaluable _ _ _ _ _ sample_running (sample_faithful _ (reflexivity _))). exact sample_running_ok.
  - intros o Ho. unfold sample_reports in Ho. rewrite !elem_of_cons, elem_of_nil in Ho.
    destruct Ho as [->|[->|[]]]; reflexivity.
  - intros n Hn. pose proof (eq_refl (xp_nodes sample_plan)) as E.
    repeat (apply elem_of_cons in Hn as [->|Hn]; [intros Ha; first [discriminate Ha|left]|]).
    by apply not_elem_of_nil in Hn.
  - exact H.
Defined.
End Examples.
