(* ===== verification/ExecutionScheduler.v ===== *)
(** * The execution scheduler

    [execution_scheduler.py]: the stateful coordinator that issues dispatch tickets, admits
    observations and cancels, over the runtime scheduler's decisions. Its budget guard,
    its revocation guard and its checkpoint repository are interfaces, as the source's
    [Protocol] classes are; each keeps a state of its own inside the scheduler's. *)

From Stdlib Require Import Ascii.
From Stdlib Require String.
From S2P Require Import Prelude PyStr Hashlib PyFloat Json JsonFacts PyTime Validators TaskContract.
From S2P Require Import CapabilityAuthority WorkflowDesign ContextManifest TaskContext ExecutionPlan PlanFacts.
From S2P Require Import ExecutionObservation RuntimeScheduler.

Local Open Scope Z_scope.

Definition EXECUTION_SCHEDULER_SCHEMA : string := "workspace-execution-scheduler/v1".
Definition DISPATCH_TICKET_SCHEMA : string := "workspace-dispatch-ticket/v1".
Definition MAX_SCHEDULER_CONCURRENCY : Z := 24.

Definition es_fail {A} (msg : string) : result A := raise ExecutionSchedulerError msg.
Definition es_fail_if (b : bool) (msg : string) : result unit := raise_if b ExecutionSchedulerError msg.

(** ** Dispatch tickets *)

Record DispatchTicket := {
  dt_ticket_id : string;
  dt_task_id : string;
  dt_plan_fingerprint : string;
  dt_node_id : string;
  dt_node_fingerprint : string;
  dt_authority_fingerprint : string;
  dt_dependency_observation_fingerprints : list string;
  dt_dispatch_sequence : Z;
  dt_execution_level : Z;
  dt_schema_version : string;
  dt_dispatch_authorized : bool
}.

#[export] Instance DispatchTicket_eq_dec : EqDecision DispatchTicket.
Proof. solve_decision. Defined.

Definition ticket_identity (t : DispatchTicket) : json := JObj [
  ("schema_version", JStr (dt_schema_version t)); ("task_id", JStr (dt_task_id t));
  ("plan_fingerprint", JStr (dt_plan_fingerprint t)); ("node_id", JStr (dt_node_id t));
  ("node_fingerprint", JStr (dt_node_fingerprint t));
  ("authority_fingerprint", JStr (dt_authority_fingerprint t));
  ("dependency_observation_fingerprints", json_strs (dt_dependency_observation_fingerprints t));
  ("dispatch_sequence", JInt (dt_dispatch_sequence t)); ("execution_level", JInt (dt_execution_level t));
  ("dispatch_authorized", JBool (dt_dispatch_authorized t))].

(** [_canonical_json] of this module lets the exceptions of [json.dumps] through. *)
Definition _digest `{Hashlib} (payload : json) : result string :=
  text ← dumps payload; Ok (sha256_of_text text).

Definition DispatchTicket_fingerprint `{Hashlib} (t : DispatchTicket) : result string := _digest (ticket_identity t).

Definition expected_ticket_id `{Hashlib} (t : DispatchTicket) : result string :=
  digest ← _digest (ticket_identity t); Ok ("dispatch:" +:+ short_digest digest).

Definition DispatchTicket_validate `{Hashlib} (t : DispatchTicket) : result DispatchTicket :=
  es_fail_if (negb (bool_decide (dt_schema_version t = DISPATCH_TICKET_SCHEMA)))
    "DISPATCH_TICKET_SCHEMA_VERSION_MISMATCH" ;;
  es_fail_if (negb (dt_dispatch_authorized t)) "DISPATCH_TICKET_NOT_AUTHORIZED" ;;
  es_fail_if (dt_dispatch_sequence t <? 1) "INVALID_DISPATCH_SEQUENCE" ;;
  expected ← expected_ticket_id t;
  es_fail_if (negb (bool_decide (dt_ticket_id t = expected))) "DISPATCH_TICKET_IDENTITY_MISMATCH" ;;
  Ok t.

Definition _node_map (plan : ExecutionPlan) : gmap string ExecutionNode := node_by_id (xp_nodes plan).

(** ** Collaborators *)

Class SchedulerBudgetGuard (B : Type) := {
  assert_active : ST B unit;
  reserve : Z → Z → Z → Z → ST B unit
}.

(** A revocation guard answers from its state, which operators change. *)
Class SchedulerRevocationGuard (R : Type) := {
  is_revoked : string → string → ST R bool
}.

(** What a checkpoint repository hands back ([execution_checkpoint.py]). *)
Record RecoveredExecutionState := {
  rx_task_id : string;
  rx_plan_fingerprint : string;
  rx_dispatches : list DispatchTicket;
  rx_observations : list ExecutionObservation;
  rx_recovery_required_ticket_ids : list string;
  rx_cancellation_reason : option string
}.

Class SchedulerCheckpointRepository (C : Type) := {
  initialize : ST C unit;
  record_dispatch : DispatchTicket → ST C DispatchTicket;
  record_observation : ExecutionObservation → ST C ExecutionObservation;
  record_cancellation : string → string → string → ST C unit;
  load : string → string → ST C RecoveredExecutionState
}.

(** ** State *)

(** The attributes the constructor fixes. *)
Record SchedulerConfig := {
  ec_task_context : TaskContext;
  ec_plan : ExecutionPlan;
  ec_parent_authority : TaskCapabilityAuthority;
  ec_max_concurrency : Z
}.

Record ExecutionScheduler (B R C : Type) := {
  es_observations : gmap string ExecutionObservation;
  es_in_flight : gmap string DispatchTicket;
  es_recovery_required : gmap string DispatchTicket;
  es_approved_nodes : gset string;
  es_dispatch_sequence : Z;
  es_cancelled : bool;
  es_cancellation_reason : option string;
  es_budget_guard : B;
  es_revocation_guard : R;
  es_checkpoint_repository : option C
}.
Arguments es_observations {B R C} _.
Arguments es_in_flight {B R C} _.
Arguments es_recovery_required {B R C} _.
Arguments es_approved_nodes {B R C} _.
Arguments es_dispatch_sequence {B R C} _.
Arguments es_cancelled {B R C} _.
Arguments es_cancellation_reason {B R C} _.
Arguments es_budget_guard {B R C} _.
Arguments es_revocation_guard {B R C} _.
Arguments es_checkpoint_repository {B R C} _.

(** The exception that leaves [except ExecutionBudgetExceeded ... except (ValueError, RuntimeError)];
    a budget exception's message is its reason code. *)
Definition budget_exn (failure : string) (e : exn) : exn :=
  if bool_decide (exn_cls e = ExecutionBudgetExceeded)
  then Exn ExecutionSchedulerError ("SCHEDULER_BUDGET_DENIED:" +:+ exn_msg e)
  else if is_value_error (exn_cls e) || is_runtime_error (exn_cls e)
  then Exn ExecutionSchedulerError failure
  else e.

(** [except (KeyError, ValueError, RuntimeError)]. *)
Definition revocation_exn (failure : string) (e : exn) : exn :=
  if bool_decide (exn_cls e = PyKeyError) || is_value_error (exn_cls e) || is_runtime_error (exn_cls e)
  then Exn ExecutionSchedulerError failure
  else e.

(** [except Exception]: of the modelled classes KeyboardInterrupt is no Exception and passes through. *)
Definition any_exn (failure : string) (e : exn) : exn :=
  if bool_decide (exn_cls e = PyKeyboardInterrupt) then e else Exn ExecutionSchedulerError failure.

Section Scheduler.
Context {HL : Hashlib} {B R C : Type} `{!SchedulerBudgetGuard B} `{!SchedulerRevocationGuard R}
  `{!SchedulerCheckpointRepository C} (cfg : SchedulerConfig).

Notation state := (ExecutionScheduler B R C).
Notation plan := (ec_plan cfg).

(** Field updates. *)
Definition set_dispatches (observations : gmap string ExecutionObservation)
    (in_flight recovery : gmap string DispatchTicket) (approved : gset string) (sequence : Z)
    (s : state) : state := {|
  es_observations := observations; es_in_flight := in_flight; es_recovery_required := recovery;
  es_approved_nodes := approved; es_dispatch_sequence := sequence; es_cancelled := es_cancelled s;
  es_cancellation_reason := es_cancellation_reason s; es_budget_guard := es_budget_guard s;
  es_revocation_guard := es_revocation_guard s; es_checkpoint_repository := es_checkpoint_repository s |}.
Definition set_cancelled (reason : option string) (s : state) : state := {|
  es_observations := es_observations s; es_in_flight := es_in_flight s;
  es_recovery_required := es_recovery_required s; es_approved_nodes := es_approved_nodes s;
  es_dispatch_sequence := es_dispatch_sequence s; es_cancelled := true; es_cancellation_reason := reason;
  es_budget_guard := es_budget_guard s; es_revocation_guard := es_revocation_guard s;
  es_checkpoint_repository := es_checkpoint_repository s |}.
Definition set_guards (budget : B) (revocation : R) (repository : option C) (s : state) : state := {|
  es_observations := es_observations s; es_in_flight := es_in_flight s;
  es_recovery_required := es_recovery_required s; es_approved_nodes := es_approved_nodes s;
  es_dispatch_sequence := es_dispatch_sequence s; es_cancelled := es_cancelled s;
  es_cancellation_reason := es_cancellation_reason s; es_budget_guard := budget;
  es_revocation_guard := revocation; es_checkpoint_repository := repository |}.

Definition on_budget {A} (m : ST B A) : ST state A :=
  st_zoom es_budget_guard (λ b s, set_guards b (es_revocation_guard s) (es_checkpoint_repository s) s) m.
Definition on_revocation {A} (m : ST R A) : ST state A :=
  st_zoom es_revocation_guard (λ r s, set_guards (es_budget_guard s) r (es_checkpoint_repository s) s) m.

(** [if self.checkpoint_repository is not None: try: ... except Exception: raise]. *)
Definition on_checkpoint {A} (m : ST C A) (failure : string) : ST state unit := λ s,
  match es_checkpoint_repository s with
  | None => (Ok tt, s)
  | Some c =>
      let '(r, c') := m c in
      (match r with Ok _ => Ok tt | Raise e => Raise (any_exn failure e) end,
       set_guards (es_budget_guard s) (es_revocation_guard s) (Some c') s)
  end.

Definition _ordered_observations (s : state) : list ExecutionObservation :=
  omap (λ n, es_observations s !! en_node_id n) (xp_nodes plan).

Definition sorted_set_ids (ids : gset string) : list string := sorted_str (elements ids).

Definition evaluate (observations : list ExecutionObservation) (approved : list string) : result SchedulingDecision :=
  RuntimeScheduler_evaluate (ec_task_context cfg) plan (ec_parent_authority cfg) observations approved.

(** The message of the caught exception is part of the new one. *)
Definition admission_decision (approved_nodes : gset string) (s : state) : result SchedulingDecision :=
  catch (evaluate (_ordered_observations s) (sorted_set_ids (es_approved_nodes s ∪ approved_nodes)))
    (λ e, is_class RuntimeSchedulerError (exn_cls e))
    (λ e, es_fail ("SCHEDULER_DECISION_REVALIDATION_FAILED:" +:+ exn_msg e)).

Definition find_node (node_id : string) : result ExecutionNode :=
  match _node_map plan !! node_id with
  | Some n => Ok n
  | None => es_fail ("UNKNOWN_EXECUTION_NODE:" +:+ node_id)
  end.

(** [next(row for row in decision.records if row.node_id == node_id)]. *)
Definition record_of (d : SchedulingDecision) (node_id : string) : result NodeSchedulingRecord :=
  match List.find (λ r, bool_decide (nr_node_id r = node_id)) (sd_records d) with
  | Some r => Ok r
  | None => raise PyStopIteration ""
  end.

Definition _revalidate_runtime (n : ExecutionNode) : ST state unit :=
  rebound ← st_lift (reraise
    (ExecutionPlan_validate plan (Some (ec_parent_authority cfg)) ;; rebind_authority n (ec_parent_authority cfg))
    (is_class ExecutionPlanError) ExecutionSchedulerError
    ("SCHEDULER_AUTHORITY_REVALIDATION_FAILED:" +:+ en_node_id n));
  st_lift (es_fail_if (negb (bool_decide (ca_fingerprint rebound = en_authority_fingerprint n)))
    ("SCHEDULER_AUTHORITY_FINGERPRINT_MISMATCH:" +:+ en_node_id n)) ;;
  st_map_exn (budget_exn "SCHEDULER_BUDGET_REVALIDATION_FAILED") (on_budget assert_active) ;;
  st_iterM (λ capability,
    revoked ← st_map_exn
      (revocation_exn ("SCHEDULER_REVOCATION_CHECK_FAILED:" +:+ en_node_id n +:+ ":" +:+ capability))
      (on_revocation (is_revoked (xp_task_id plan) capability));
    st_lift (es_fail_if revoked ("SCHEDULER_CAPABILITY_REVOKED:" +:+ en_node_id n +:+ ":" +:+ capability)))
    (en_allowed_tools n).

(** One step of the loop over the dependencies of a node. *)
Definition dependency_observation (s : state) (n : ExecutionNode) (dependency_id : string) : result ExecutionObservation :=
  match es_observations s !! dependency_id with
  | None => es_fail ("SCHEDULER_DEPENDENCY_PENDING:" +:+ en_node_id n +:+ ":" +:+ dependency_id)
  | Some o =>
      es_fail_if (negb (bool_decide (eo_status o = "SUCCEEDED")))
        ("SCHEDULER_DEPENDENCY_NOT_SUCCEEDED:" +:+ en_node_id n +:+ ":" +:+ dependency_id +:+ ":" +:+ eo_status o) ;;
      Ok o
  end.
Definition _dependency_observations (s : state) (n : ExecutionNode) : result (list ExecutionObservation) :=
  mapM (dependency_observation s n) (en_depends_on n).

(** ** Queries *)

Fixpoint pending_dependency (s : state) (dependencies : list string) : option string :=
  match dependencies with
  | [] => None
  | d :: dependencies =>
      match es_observations s !! d with
      | None => Some ("DEPENDENCY_PENDING:" +:+ d)
      | Some o => if bool_decide (eo_status o = "SUCCEEDED") then pending_dependency s dependencies
                  else Some ("DEPENDENCY_" +:+ eo_status o +:+ ":" +:+ d)
      end
  end.

Definition blocked_reason (s : state) (node_id : string) : result (option string) :=
  node ← find_node node_id;
  if bool_decide (is_Some (es_observations s !! node_id)) then Ok (Some "OBSERVED")
  else if bool_decide (is_Some (es_in_flight s !! node_id)) then Ok (Some "IN_FLIGHT")
  else if bool_decide (is_Some (es_recovery_required s !! node_id)) then Ok (Some "RECOVERY_REQUIRED")
  else if es_cancelled s then Ok (Some "SCHEDULER_CANCELLED")
  else if negb (bool_decide (es_recovery_required s = ∅)) then Ok (Some "SCHEDULER_RECOVERY_REQUIRED")
  else match pending_dependency s (en_depends_on node) with
       | Some reason => Ok (Some reason)
       | None =>
           decision ← admission_decision ∅ s;
           record ← record_of decision node_id;
           if bool_decide (nr_state record = "READY") then Ok None
           else if bool_decide (nr_reason_code record = "EXPLICIT_APPROVAL_REQUIRED") then Ok (Some "APPROVAL_REQUIRED")
           else Ok (Some (nr_reason_code record))
       end.

Definition dispatchable (s : state) (r : NodeSchedulingRecord) : bool :=
  bool_decide (nr_state r = "READY") && is_none (es_observations s !! nr_node_id r)
  && is_none (es_in_flight s !! nr_node_id r) && is_none (es_recovery_required s !! nr_node_id r).

Definition ready_node_ids (approved_nodes : gset string) (s : state) : result (list string) :=
  if es_cancelled s || negb (bool_decide (es_recovery_required s = ∅)) then Ok []
  else
    let capacity := ec_max_concurrency cfg - Z.of_nat (size (es_in_flight s)) in
    if capacity <=? 0 then Ok []
    else
      decision ← admission_decision approved_nodes s;
      Ok (take (Z.to_nat capacity) (map nr_node_id (List.filter (dispatchable s) (sd_records decision)))).

Definition fan_in (s : state) (node_id : string) : result (list ExecutionObservation) :=
  node ← find_node node_id; _dependency_observations s node.

(** ** Dispatch *)

Definition new_ticket (node : ExecutionNode) (dependencies : list ExecutionObservation) (sequence : Z)
    : result DispatchTicket :=
  plan_fingerprint ← ExecutionPlan_fingerprint plan;
  node_fingerprint ← ExecutionNode_fingerprint node;
  fingerprints ← mapM ExecutionObservation_fingerprint dependencies;
  let ticket id := {|
    dt_ticket_id := id; dt_task_id := xp_task_id plan; dt_plan_fingerprint := plan_fingerprint;
    dt_node_id := en_node_id node; dt_node_fingerprint := node_fingerprint;
    dt_authority_fingerprint := en_authority_fingerprint node;
    dt_dependency_observation_fingerprints := fingerprints; dt_dispatch_sequence := sequence;
    dt_execution_level := en_execution_level node; dt_schema_version := DISPATCH_TICKET_SCHEMA;
    dt_dispatch_authorized := true |} in
  ticket_id ← expected_ticket_id (ticket ("dispatch:" +:+ repeat_str 24 "0"));
  DispatchTicket_validate (ticket ticket_id).

(** The refusals that need no collaborator. *)
Definition dispatch_checks (s : state) (node_id : string) (approval_granted : bool)
    : result (ExecutionNode * list ExecutionObservation) :=
  es_fail_if (es_cancelled s) "SCHEDULER_CANCELLED" ;;
  node ← find_node node_id;
  es_fail_if (bool_decide (is_Some (es_observations s !! node_id))) ("NODE_ALREADY_OBSERVED:" +:+ node_id) ;;
  es_fail_if (bool_decide (is_Some (es_in_flight s !! node_id))) ("NODE_ALREADY_IN_FLIGHT:" +:+ node_id) ;;
  es_fail_if (bool_decide (is_Some (es_recovery_required s !! node_id))) ("NODE_RECOVERY_REQUIRED:" +:+ node_id) ;;
  es_fail_if (negb (bool_decide (es_recovery_required s = ∅))) "SCHEDULER_RECOVERY_REQUIRED" ;;
  es_fail_if (ec_max_concurrency cfg <=? Z.of_nat (size (es_in_flight s))) "SCHEDULER_BACKPRESSURE" ;;
  es_fail_if (en_approval_required node && negb approval_granted) ("NODE_APPROVAL_REQUIRED:" +:+ node_id) ;;
  let candidate_approvals : gset string :=
    if en_approval_required node && approval_granted then {[node_id]} else ∅ in
  decision ← admission_decision candidate_approvals s;
  record ← record_of decision node_id;
  (if bool_decide (nr_state record = "READY") then Ok tt
   else _dependency_observations s node ;;
        es_fail ("SCHEDULER_NODE_NOT_READY:" +:+ node_id +:+ ":" +:+ nr_reason_code record)) ;;
  dependencies ← _dependency_observations s node;
  Ok (node, dependencies).

Definition issue_dispatch (node_id : string) (approval_granted : bool) : ST state DispatchTicket :=
  s0 ← st_get;
  '(node, dependencies) ← st_lift (dispatch_checks s0 node_id approval_granted);
  _revalidate_runtime node ;;
  st_map_exn (budget_exn "SCHEDULER_BUDGET_RESERVATION_FAILED") (on_budget (reserve 1 0 0 0)) ;;
  st_modify (λ s, set_dispatches (es_observations s) (es_in_flight s) (es_recovery_required s)
                    (es_approved_nodes s) (es_dispatch_sequence s + 1) s) ;;
  s1 ← st_get;
  ticket ← st_lift (new_ticket node dependencies (es_dispatch_sequence s1));
  on_checkpoint (record_dispatch ticket) ("SCHEDULER_CHECKPOINT_DISPATCH_FAILED:" +:+ node_id) ;;
  st_modify (λ s, set_dispatches (es_observations s) (<[en_node_id node := ticket]> (es_in_flight s))
                    (es_recovery_required s)
                    (if en_approval_required node then {[node_id]} ∪ es_approved_nodes s else es_approved_nodes s)
                    (es_dispatch_sequence s) s) ;;
  mret ticket.

Definition issue_ready (approved_nodes : gset string) : ST state (list DispatchTicket) :=
  s ← st_get;
  node_ids ← st_lift (ready_node_ids approved_nodes s);
  st_mapM (λ node_id, issue_dispatch node_id (bool_decide (node_id ∈ approved_nodes))) node_ids.

(** ** Observation, cancellation *)

Definition observation_checks (s : state) (o : ExecutionObservation) : result unit :=
  ticket ← match es_in_flight s !! eo_node_id o with
           | Some t => Ok t
           | None =>
               match es_recovery_required s !! eo_node_id o with
               | Some t => Ok t
               | None => es_fail ("OBSERVATION_NODE_NOT_IN_FLIGHT:" +:+ eo_node_id o)
               end
           end;
  reraise (ExecutionObservation_validate o (Some plan) (Some (ec_parent_authority cfg)))
    (is_class ExecutionObservationError) ExecutionSchedulerError
    ("SCHEDULER_OBSERVATION_REJECTED:" +:+ eo_node_id o) ;;
  es_fail_if (negb (bool_decide (eo_node_fingerprint o = dt_node_fingerprint ticket)))
    "OBSERVATION_TICKET_NODE_MISMATCH" ;;
  es_fail_if (negb (bool_decide (eo_authority_fingerprint o = dt_authority_fingerprint ticket)))
    "OBSERVATION_TICKET_AUTHORITY_MISMATCH" ;;
  reraise (evaluate (_ordered_observations s ++ [o]) (sorted_set_ids (es_approved_nodes s)))
    (is_class RuntimeSchedulerError) ExecutionSchedulerError
    ("SCHEDULER_OBSERVATION_DECISION_REJECTED:" +:+ eo_node_id o) ;;
  Ok tt.

Definition accept_observation (o : ExecutionObservation) : ST state ExecutionObservation :=
  s0 ← st_get;
  st_lift (observation_checks s0 o) ;;
  on_checkpoint (record_observation o) ("SCHEDULER_CHECKPOINT_OBSERVATION_FAILED:" +:+ eo_node_id o) ;;
  st_modify (λ s, set_dispatches (<[eo_node_id o := o]> (es_observations s)) (delete (eo_node_id o) (es_in_flight s))
                    (delete (eo_node_id o) (es_recovery_required s)) (es_approved_nodes s)
                    (es_dispatch_sequence s) s) ;;
  mret o.

(** The local flag is set before the repository is told. *)
Definition cancel (reason_code : string) : ST state unit :=
  st_lift (es_fail_if (is_empty (strip reason_code)) "INVALID_CANCELLATION_REASON") ;;
  st_modify (set_cancelled (Some (strip reason_code))) ;;
  on_checkpoint
    (plan_fingerprint ← st_lift (ExecutionPlan_fingerprint plan);
     record_cancellation (xp_task_id plan) plan_fingerprint (strip reason_code))
    "SCHEDULER_CHECKPOINT_CANCELLATION_FAILED".

(** ** Restoring a checkpoint *)

Record dispatch_restore := {
  dr_dispatches : list DispatchTicket;
  dr_seen_sequences : list Z;
  dr_approval_nodes : gset string;
  dr_sequence : Z
}.

(** One round of the loop over the persisted dispatches; [dr_dispatches] is the dict
    [restored_dispatches] in its insertion order. *)
Definition restore_dispatch (plan_fingerprint : string) (r : dispatch_restore) (t : DispatchTicket)
    : result dispatch_restore :=
  DispatchTicket_validate t ;;
  es_fail_if (negb (bool_decide (dt_task_id t = xp_task_id plan))) "SCHEDULER_CHECKPOINT_DISPATCH_TASK_MISMATCH" ;;
  es_fail_if (negb (bool_decide (dt_plan_fingerprint t = plan_fingerprint)))
    "SCHEDULER_CHECKPOINT_DISPATCH_PLAN_MISMATCH" ;;
  node ← match _node_map plan !! dt_node_id t with
         | Some n => Ok n
         | None => es_fail ("SCHEDULER_CHECKPOINT_UNKNOWN_NODE:" +:+ dt_node_id t)
         end;
  node_fingerprint ← ExecutionNode_fingerprint node;
  es_fail_if (negb (bool_decide (dt_node_fingerprint t = node_fingerprint)))
    ("SCHEDULER_CHECKPOINT_NODE_FINGERPRINT_MISMATCH:" +:+ dt_node_id t) ;;
  es_fail_if (negb (bool_decide (dt_authority_fingerprint t = en_authority_fingerprint node)))
    ("SCHEDULER_CHECKPOINT_AUTHORITY_FINGERPRINT_MISMATCH:" +:+ dt_node_id t) ;;
  es_fail_if (negb (dt_execution_level t =? en_execution_level node))
    ("SCHEDULER_CHECKPOINT_EXECUTION_LEVEL_MISMATCH:" +:+ dt_node_id t) ;;
  es_fail_if (mem_str (dt_node_id t) (map dt_node_id (dr_dispatches r)))
    ("SCHEDULER_CHECKPOINT_DUPLICATE_NODE:" +:+ dt_node_id t) ;;
  es_fail_if (bool_decide (dt_dispatch_sequence t ∈ dr_seen_sequences r))
    ("SCHEDULER_CHECKPOINT_DUPLICATE_SEQUENCE:" +:+ str_of_Z (dt_dispatch_sequence t)) ;;
  Ok {| dr_dispatches := dr_dispatches r ++ [t];
        dr_seen_sequences := dt_dispatch_sequence t :: dr_seen_sequences r;
        dr_approval_nodes := if en_approval_required node then {[en_node_id node]} ∪ dr_approval_nodes r
                             else dr_approval_nodes r;
        dr_sequence := Z.max (dr_sequence r) (dt_dispatch_sequence t) |}.

Definition ticket_for (dispatches : list DispatchTicket) (node_id : string) : option DispatchTicket :=
  List.find (λ t, bool_decide (dt_node_id t = node_id)) dispatches.

(** One round of the loop over the persisted observations. *)
Definition restore_observation (dispatches : list DispatchTicket) (observations : gmap string ExecutionObservation)
    (o : ExecutionObservation) : result (gmap string ExecutionObservation) :=
  es_fail_if (bool_decide (is_Some (observations !! eo_node_id o)))
    ("SCHEDULER_CHECKPOINT_DUPLICATE_OBSERVATION:" +:+ eo_node_id o) ;;
  reraise (ExecutionObservation_validate o (Some plan) (Some (ec_parent_authority cfg)))
    (is_class ExecutionObservationError) ExecutionSchedulerError
    ("SCHEDULER_CHECKPOINT_OBSERVATION_REJECTED:" +:+ eo_node_id o) ;;
  ticket ← match ticket_for dispatches (eo_node_id o) with
           | Some t => Ok t
           | None => es_fail ("SCHEDULER_CHECKPOINT_OBSERVATION_WITHOUT_DISPATCH:" +:+ eo_node_id o)
           end;
  es_fail_if (negb (bool_decide (eo_node_fingerprint o = dt_node_fingerprint ticket)))
    "SCHEDULER_CHECKPOINT_OBSERVATION_NODE_MISMATCH" ;;
  es_fail_if (negb (bool_decide (eo_authority_fingerprint o = dt_authority_fingerprint ticket)))
    "SCHEDULER_CHECKPOINT_OBSERVATION_AUTHORITY_MISMATCH" ;;
  Ok (<[eo_node_id o := o]> observations).

(** One round of the loop that checks the dependencies of the persisted dispatches. *)
Definition check_dependencies (observations : gmap string ExecutionObservation) (t : DispatchTicket) : result unit :=
  node ← match _node_map plan !! dt_node_id t with Some n => Ok n | None => raise PyKeyError (dt_node_id t) end;
  expected ← mapM (λ d,
    match observations !! d with
    | Some o => if bool_decide (eo_status o = "SUCCEEDED") then ExecutionObservation_fingerprint o
                else es_fail ("SCHEDULER_CHECKPOINT_DISPATCH_DEPENDENCY_MISSING:" +:+ dt_node_id t +:+ ":" +:+ d)
    | None => es_fail ("SCHEDULER_CHECKPOINT_DISPATCH_DEPENDENCY_MISSING:" +:+ dt_node_id t +:+ ":" +:+ d)
    end) (en_depends_on node);
  es_fail_if (negb (bool_decide (dt_dependency_observation_fingerprints t = expected)))
    ("SCHEDULER_CHECKPOINT_DEPENDENCY_FINGERPRINT_MISMATCH:" +:+ dt_node_id t).

Definition start_restore : dispatch_restore :=
  {| dr_dispatches := []; dr_seen_sequences := []; dr_approval_nodes := ∅; dr_sequence := 0 |}.

Definition tickets_by_node (dispatches : list DispatchTicket) : gmap string DispatchTicket :=
  fold_left (λ m t, <[dt_node_id t := t]> m) dispatches ∅.

(** From the recovered state to the scheduler's, after the repository has answered. *)
Definition restore_state (reapproved : gset string) (recovered : RecoveredExecutionState) (s : state) : result state :=
  plan_fingerprint ← ExecutionPlan_fingerprint plan;
  es_fail_if (negb (bool_decide (rx_task_id recovered = xp_task_id plan))) "SCHEDULER_CHECKPOINT_TASK_MISMATCH" ;;
  es_fail_if (negb (bool_decide (rx_plan_fingerprint recovered = plan_fingerprint)))
    "SCHEDULER_CHECKPOINT_PLAN_MISMATCH" ;;
  r ← foldM (restore_dispatch plan_fingerprint) start_restore (rx_dispatches recovered);
  let unexpected := sorted_set_ids (reapproved ∖ dr_approval_nodes r) in
  es_fail_if (negb (bool_decide (unexpected = [])))
    ("SCHEDULER_CHECKPOINT_REAPPROVAL_NOT_APPLICABLE:" +:+ join "," unexpected) ;;
  let missing := sorted_set_ids (dr_approval_nodes r ∖ reapproved) in
  es_fail_if (negb (bool_decide (missing = [])))
    ("SCHEDULER_CHECKPOINT_REAPPROVAL_REQUIRED:" +:+ join "," missing) ;;
  observations ← foldM (restore_observation (dr_dispatches r)) ∅ (rx_observations recovered);
  iterM (check_dependencies observations) (dr_dispatches r) ;;
  let unfinished := List.filter (λ t, is_none (observations !! dt_node_id t)) (dr_dispatches r) in
  let ids := rx_recovery_required_ticket_ids recovered in
  es_fail_if (negb (bool_decide (NoDup ids))
              || negb (bool_decide ((list_to_set ids : gset string) = list_to_set (map dt_ticket_id unfinished))))
    "SCHEDULER_CHECKPOINT_RECOVERY_SET_MISMATCH" ;;
  let s1 := set_dispatches observations ∅ (tickets_by_node unfinished) (dr_approval_nodes r) (dr_sequence r) s in
  s2 ← match rx_cancellation_reason recovered with
       | None => Ok s1
       | Some reason =>
           es_fail_if (is_empty (strip reason)) "SCHEDULER_CHECKPOINT_CANCELLATION_REASON_INVALID" ;;
           Ok (set_cancelled (Some (strip reason)) s1)
       end;
  reraise (evaluate (_ordered_observations s2) (sorted_set_ids (es_approved_nodes s2)))
    (is_class RuntimeSchedulerError) ExecutionSchedulerError "SCHEDULER_CHECKPOINT_OBSERVATION_SET_INVALID" ;;
  Ok s2.

Definition _restore_checkpoint (reapproved : gset string) : ST state unit := λ s,
  match es_checkpoint_repository s with
  | None => (Ok tt, s)
  | Some c =>
      let unknown := List.filter (λ id, is_none (_node_map plan !! id)) (sorted_set_ids reapproved) in
      match es_fail_if (negb (bool_decide (unknown = [])))
              ("SCHEDULER_CHECKPOINT_REAPPROVAL_UNKNOWN_NODE:" +:+ join "," unknown) with
      | Raise e => (Raise e, s)
      | Ok _ =>
          let '(recovered, c') :=
            (initialize ;;
             plan_fingerprint ← st_lift (ExecutionPlan_fingerprint plan);
             load (xp_task_id plan) plan_fingerprint) c in
          let s' := set_guards (es_budget_guard s) (es_revocation_guard s) (Some c') s in
          match recovered with
          | Raise e => (Raise (any_exn "SCHEDULER_CHECKPOINT_RESTORE_FAILED" e), s')
          | Ok recovered =>
              match restore_state reapproved recovered s' with
              | Ok s'' => (Ok tt, s'')
              | Raise e => (Raise e, s')
              end
          end
      end
  end.

Definition start_state (budget_guard : B) (revocation_guard : R) (repository : option C) : state := {|
  es_observations := ∅; es_in_flight := ∅; es_recovery_required := ∅; es_approved_nodes := ∅;
  es_dispatch_sequence := 0; es_cancelled := false; es_cancellation_reason := None;
  es_budget_guard := budget_guard; es_revocation_guard := revocation_guard;
  es_checkpoint_repository := repository |}.

(** The constructor: the scheduler it leaves is only an object when the result is [Ok]. *)
Definition ExecutionScheduler_init (reapproved : gset string) : ST state unit :=
  s ← st_get;
  st_lift (
    es_fail_if (negb ((1 <=? ec_max_concurrency cfg) && (ec_max_concurrency cfg <=? MAX_SCHEDULER_CONCURRENCY)))
      "INVALID_MAX_CONCURRENCY" ;;
    es_fail_if (existsb (λ id, is_empty (strip id)) (elements reapproved)) "INVALID_CHECKPOINT_REAPPROVED_NODE" ;;
    es_fail_if (is_none (es_checkpoint_repository s) && negb (bool_decide (reapproved = ∅)))
      "CHECKPOINT_REAPPROVALS_REQUIRE_REPOSITORY" ;;
    reraise (evaluate [] []) (is_class RuntimeSchedulerError) ExecutionSchedulerError
      "SCHEDULER_CANONICAL_ADMISSION_REVALIDATION_FAILED" ;;
    Ok tt) ;;
  st_modify (λ s, start_state (es_budget_guard s) (es_revocation_guard s) (es_checkpoint_repository s)) ;;
  _restore_checkpoint reapproved.

(** ** Snapshot *)

Definition recovery_required_ticket_ids (s : state) : list string :=
  omap (λ n, dt_ticket_id <$> es_recovery_required s !! en_node_id n) (xp_nodes plan).

Definition snapshot (s : state) : result json :=
  context_fingerprint ← TaskContext_fingerprint (ec_task_context cfg);
  plan_fingerprint ← ExecutionPlan_fingerprint plan;
  in_flight ← mapM DispatchTicket_fingerprint (omap (λ n, es_in_flight s !! en_node_id n) (xp_nodes plan));
  observations ← mapM ExecutionObservation_fingerprint (_ordered_observations s);
  Ok (JObj ([("schema_version", JStr EXECUTION_SCHEDULER_SCHEMA); ("task_id", JStr (xp_task_id plan));
     ("task_context_fingerprint", JStr context_fingerprint); ("plan_fingerprint", JStr plan_fingerprint);
     ("parent_authority_fingerprint", JStr (ca_fingerprint (ec_parent_authority cfg)));
     ("max_concurrency", JInt (ec_max_concurrency cfg)); ("cancelled", JBool (es_cancelled s));
     ("cancellation_reason", json_opt_str (es_cancellation_reason s));
     ("dispatch_sequence", JInt (es_dispatch_sequence s));
     ("approved_node_ids", json_strs (sorted_set_ids (es_approved_nodes s)));
     ("in_flight", json_strs in_flight); ("observations", json_strs observations)]
     ++ (if is_none (es_checkpoint_repository s) then []
         else [("checkpoint_bound", JBool true);
               ("recovery_required_ticket_ids", json_strs (recovery_required_ticket_ids s))]))).
End Scheduler.
