(* ===== verification/SchedulerFacts.v ===== *)
(** * The execution scheduler: its invariant, its operations on every branch

    What a scheduler state must satisfy, that the constructor establishes it - from a checkpoint
    too - and every operation keeps it, whether it succeeds or raises; that no node is dispatched
    twice, nothing after a cancellation and nothing without its approval; and that what the
    scheduler reports as ready can be dispatched. *)

From Stdlib Require Import Ascii.
From Stdlib Require String.
From S2P Require Import Prelude PyStr Hashlib PyFloat Json JsonFacts PyTime Validators TaskContract.
From S2P Require Import CapabilityAuthority AuthorityFacts WorkflowDesign ContextManifest TaskContext.
From S2P Require Import ExecutionPlan PlanFacts ExecutionObservation ObservationFacts RuntimeScheduler ReadinessFacts.
From S2P Require Import ExecutionScheduler.

Local Open Scope Z_scope.

(** ** Stateful computations *)

Lemma st_bind_cases {S A B} (m : ST S A) (k : A → ST S B) s r s' :
  (x ← m; k x) s = (r, s') →
  (∃ e, m s = (Raise e, s') ∧ r = Raise e) ∨ ∃ a s1, m s = (Ok a, s1) ∧ k a s1 = (r, s').
Proof. unfold mbind, st_bind. destruct (m s) as [[a|e] s1]; [naive_solver|]. intros [= <- <-]. eauto. Qed.

Lemma st_lift_eq {S A} (m : result A) (s s' : S) r : st_lift m s = (r, s') → m = r ∧ s' = s.
Proof. by intros [= -> ->]. Qed.

(** A computation that leaves a view of the state alone. *)
Definition keeps {S A V} (view : S → V) (m : ST S A) : Prop := ∀ s, view (m s).2 = view s.

Lemma keeps_run {S A V} (view : S → V) (m : ST S A) s r s' : keeps view m → m s = (r, s') → view s' = view s.
Proof. intros Hk E. specialize (Hk s). by rewrite E in Hk. Qed.

Section Keeps.
Context {S V : Type} (view : S → V).

Lemma keeps_lift {A} (m : result A) : keeps view (st_lift m).
Proof. done. Qed.
Lemma keeps_ret {A} (a : A) : keeps view (mret a : ST S A).
Proof. done. Qed.
Lemma keeps_bind {A B} (m : ST S A) (k : A → ST S B) :
  keeps view m → (∀ a, keeps view (k a)) → keeps view (x ← m; k x).
Proof.
  intros Hm Hk s. unfold mbind, st_bind. specialize (Hm s). destruct (m s) as [[a|e] s1]; [|done].
  simpl in *. by rewrite Hk.
Qed.
Lemma keeps_map_exn {A} f (m : ST S A) : keeps view m → keeps view (st_map_exn f m).
Proof. intros Hm s. unfold st_map_exn. specialize (Hm s). by destruct (m s) as [[]]. Qed.
Lemma keeps_zoom {T A} get set (m : ST T A) : (∀ t s, view (set t s) = view s) → keeps view (st_zoom get set m).
Proof. intros Hs s. unfold st_zoom. destruct (m (get s)). simpl. apply Hs. Qed.
Lemma keeps_iterM {A} (f : A → ST S unit) l : (∀ x, keeps view (f x)) → keeps view (st_iterM f l).
Proof. intros Hf. induction l; cbn [st_iterM]; [done|]. by apply keeps_bind. Qed.
End Keeps.

#[export] Hint Resolve keeps_lift keeps_ret keeps_bind keeps_map_exn keeps_iterM : keeps.

Section Facts.
Context {HL : Hashlib} {B R C : Type} `{!SchedulerBudgetGuard B} `{!SchedulerRevocationGuard R}
  `{!SchedulerCheckpointRepository C} (cfg : SchedulerConfig).

Notation state := (ExecutionScheduler B R C).
Notation plan := (ec_plan cfg).
Notation parent := (ec_parent_authority cfg).

(** What the scheduler itself remembers, as opposed to its collaborators. *)
Definition core (s : state) :=
  (es_observations s, es_in_flight s, es_recovery_required s, es_approved_nodes s, es_dispatch_sequence s,
   (es_cancelled s, es_cancellation_reason s)).

Lemma keeps_budget {A} (m : ST B A) : keeps core (on_budget (R := R) (C := C) m).
Proof. by apply keeps_zoom. Qed.
Lemma keeps_revocation {A} (m : ST R A) : keeps core (on_revocation (B := B) (C := C) m).
Proof. by apply keeps_zoom. Qed.
Lemma keeps_checkpoint {A} (m : ST C A) msg : keeps core (on_checkpoint (B := B) (R := R) m msg).
Proof. intros s. unfold on_checkpoint. destruct (es_checkpoint_repository s); [|done]. by destruct (m c). Qed.

Lemma keeps_revalidate n : keeps core (_revalidate_runtime (B := B) (R := R) (C := C) cfg n).
Proof.
  unfold _revalidate_runtime. apply keeps_bind; [done|]. intros rebound. apply keeps_bind; [done|]. intros _.
  apply keeps_bind; [apply keeps_map_exn, keeps_budget|]. intros _. apply keeps_iterM. intros cap.
  apply keeps_bind; [apply keeps_map_exn, keeps_revocation|]. done.
Qed.

(** The state after a ticket has been issued. *)
Definition dispatched_state (n : ExecutionNode) (t : DispatchTicket) (s s' : state) : Prop :=
  core s' = (es_observations s, <[en_node_id n := t]> (es_in_flight s), es_recovery_required s,
             (if en_approval_required n then {[en_node_id n]} ∪ es_approved_nodes s else es_approved_nodes s),
             es_dispatch_sequence s + 1, (es_cancelled s, es_cancellation_reason s)).

(** The state after a refusal: at most a sequence number is lost. *)
Definition refused_state (s s' : state) : Prop :=
  core s' = core s ∨
  core s' = (es_observations s, es_in_flight s, es_recovery_required s, es_approved_nodes s,
             es_dispatch_sequence s + 1, (es_cancelled s, es_cancellation_reason s)).

Lemma find_node_ok id n : plan_shape (xp_nodes plan) →
  find_node cfg id = Ok n ↔ n ∈ xp_nodes plan ∧ en_node_id n = id.
Proof.
  intros Hs. rewrite <- (node_by_id_lookup _ _ _ (ps_ids _ Hs)). unfold find_node, _node_map.
  destruct (node_by_id _ !! id); [split; congruence|done].
Qed.

Lemma dispatch_node s id a n deps : plan_shape (xp_nodes plan) →
  dispatch_checks (B := B) (R := R) (C := C) cfg s id a = Ok (n, deps) → n ∈ xp_nodes plan ∧ en_node_id n = id.
Proof.
  intros Hs H. unfold dispatch_checks in H. apply unit_bind_ok in H as [_ H].
  apply bind_ok_iff in H as (n' & Hn%(find_node_ok _ _ Hs) & H). do 6 apply unit_bind_ok in H as [_ H].
  cbv zeta in H. do 2 apply bind_ok_iff in H as (? & _ & H). apply unit_bind_ok in H as [_ H].
  apply bind_ok_iff in H as (? & _ & [= <- _]). done.
Qed.

Lemma issue_dispatch_cases id a s r s' : plan_shape (xp_nodes plan) →
  issue_dispatch (B := B) (R := R) (C := C) cfg id a s = (r, s') →
  match r with
  | Ok t => ∃ n deps, dispatch_checks cfg s id a = Ok (n, deps)
      ∧ new_ticket cfg n deps (es_dispatch_sequence s + 1) = Ok t ∧ dispatched_state n t s s'
  | Raise _ => refused_state s s'
  end.
Proof.
  intros Hs H. unfold issue_dispatch in H.
  apply st_bind_cases in H as [(e & [=] & _)|(s0 & s1 & [= <- <-] & H)].
  apply st_bind_cases in H as [(e & [_ ->]%st_lift_eq & ->)|([n deps] & s1 & [Hc ->]%st_lift_eq & H)]; [by left|].
  apply st_bind_cases in H as [(e & Hm & ->)|([] & s1 & Hm & H)];
    apply (keeps_run _ _ _ _ _ (keeps_revalidate n)) in Hm as Hk; clear Hm; [by left|].
  apply st_bind_cases in H as [(e & Hm & ->)|([] & s2 & Hm & H)];
    apply (keeps_run _ _ _ _ _ (keeps_map_exn core _ _ (keeps_budget _))) in Hm as Hk1; rewrite Hk in Hk1; clear Hm; [by left|].
  apply st_bind_cases in H as [(e & [=] & _)|([] & s3 & [= <-] & H)].
  apply st_bind_cases in H as [(e & [=] & _)|(? & ? & [= <- <-] & H)].
  cbn [es_dispatch_sequence set_dispatches] in H. unfold core in Hk1.
  injection Hk1 as Ho Hf Hr Ha Hq Hx Hy. rewrite Hq in H.
  apply st_bind_cases in H as [(e & [_ ->]%st_lift_eq & ->)|(t & s4 & [Ht ->]%st_lift_eq & H)].
  { right. unfold core. cbn. congruence. }
  apply st_bind_cases in H as [(e & Hm & ->)|([] & s5 & Hm & H)];
    apply (keeps_run _ _ _ _ _ (keeps_checkpoint _ _)) in Hm as Hk2; clear Hm.
  { right. rewrite Hk2. unfold core. cbn. congruence. }
  injection H as <- <-. exists n, deps. split_and!; [done..|].
  unfold core in Hk2. cbn in Hk2. injection Hk2 as H1 H2 H3 H4 H5 H6 H7.
  apply (dispatch_node _ _ _ _ _ Hs) in Hc as [_ Hid]. unfold dispatched_state, core. cbn.
  by rewrite Hid, H1, H2, H3, H4, H5, H6, H7, Ho, Hf, Hr, Ha, Hx, Hy.
Qed.

(** The approval an [issue_dispatch] adds to those on record. *)
Definition candidate (n : ExecutionNode) (approval_granted : bool) : gset string :=
  if en_approval_required n && approval_granted then {[en_node_id n]} else ∅.

(** What [issue_dispatch] asks of the scheduler's own state. *)
Record dispatch_allowed (s : state) (n : ExecutionNode) (approval_granted : bool)
    (deps : list ExecutionObservation) : Prop := {
  da_active : es_cancelled s = false;
  da_new : es_observations s !! en_node_id n = None ∧ es_in_flight s !! en_node_id n = None;
  da_recovered : es_recovery_required s = ∅;
  da_capacity : Z.of_nat (size (es_in_flight s)) < ec_max_concurrency cfg;
  da_approval : en_approval_required n = true → approval_granted = true;
  da_decision : ∃ d r, admission_decision cfg (candidate n approval_granted) s = Ok d
    ∧ record_of d (en_node_id n) = Ok r ∧ nr_state r = "READY";
  da_deps : _dependency_observations s n = Ok deps
}.

Lemma dispatch_checks_ok s id a n deps : plan_shape (xp_nodes plan) →
  dispatch_checks (B := B) (R := R) (C := C) cfg s id a = Ok (n, deps) ↔
  n ∈ xp_nodes plan ∧ en_node_id n = id ∧ dispatch_allowed s n a deps.
Proof.
  intros Hs. unfold dispatch_checks, es_fail_if. split.
  - intros H. apply guard_bind_ok in H as [H1 H]. apply bind_ok_iff in H as (n' & Hn & H).
    pose proof Hn as [Hin Hid]%(find_node_ok _ _ Hs). rewrite !guard_bind_ok in H.
    destruct H as (H2 & H3 & H4 & H5 & H6 & H7 & H). cbv zeta in H.
    apply bind_ok_iff in H as (d & Hd & H). apply bind_ok_iff in H as (r & Hr & H).
    apply unit_bind_ok in H as [Hst H]. apply bind_ok_iff in H as (ds & Hds & [= <- <-]).
    py_prop. rewrite <- Hid in *. split_and!; [done..|]. constructor; try done.
    + split; by apply eq_None_not_Some.
    + intros Ha. by rewrite Ha in H7; destruct a.
    + exists d, r. split_and!; [done..|]. case_bool_decide; [done|].
      by apply unit_bind_ok in Hst as [_ ?] || (apply bind_ok_iff in Hst as (? & _ & ?)).
  - intros (Hin & <- & [H1 [H2 H3] H4 H5 H6 (d & r & Hd & Hr & Hst) H7]).
    rewrite H1. cbn [raise_if mbind result_bind]. rewrite (proj2 (find_node_ok _ _ Hs) (conj Hin eq_refl)).
    cbn [mbind result_bind]. rewrite H2, H3, H4. rewrite !(bool_decide_eq_false_2 (is_Some _)) by (by intros []).
    rewrite bool_decide_eq_true_2 by done. rewrite (proj2 (Z.leb_gt _ _)) by done.
    cbn [negb raise_if mbind result_bind].
    assert (en_approval_required n && negb a = false) as ->.
    { destruct (en_approval_required n); [|done]. by rewrite (H6 eq_refl). }
    cbn [raise_if mbind result_bind]. unfold candidate in Hd. rewrite Hd. cbn [mbind result_bind].
    rewrite Hr. cbn [mbind result_bind]. rewrite (bool_decide_eq_true_2 _ Hst). cbn [mbind result_bind]. by rewrite H7.
Qed.

(** The state after an observation has been admitted. *)
Definition observed_state (o : ExecutionObservation) (s s' : state) : Prop :=
  core s' = (<[eo_node_id o := o]> (es_observations s), delete (eo_node_id o) (es_in_flight s),
             delete (eo_node_id o) (es_recovery_required s), es_approved_nodes s, es_dispatch_sequence s,
             (es_cancelled s, es_cancellation_reason s)).

Lemma accept_cases o s r s' : accept_observation (B := B) (R := R) (C := C) cfg o s = (r, s') →
  match r with
  | Ok x => x = o ∧ observation_checks cfg s o = Ok tt ∧ observed_state o s s'
  | Raise _ => core s' = core s
  end.
Proof.
  intros H. unfold accept_observation in H.
  apply st_bind_cases in H as [(e & [=] & _)|(s0 & s1 & [= <- <-] & H)].
  apply st_bind_cases in H as [(e & [_ ->]%st_lift_eq & ->)|([] & s1 & [Hc ->]%st_lift_eq & H)]; [done|].
  apply st_bind_cases in H as [(e & Hm & ->)|([] & s2 & Hm & H)];
    apply (keeps_run _ _ _ _ _ (keeps_checkpoint _ _)) in Hm as Hk; clear Hm; [done|].
  injection H as <- <-. split_and!; [done..|].
  unfold core in Hk. injection Hk as H1 H2 H3 H4 H5 H6 H7. unfold observed_state, core. cbn.
  by rewrite H1, H2, H3, H4, H5, H6, H7.
Qed.

Lemma cancel_cases reason s r s' : cancel (B := B) (R := R) (C := C) cfg reason s = (r, s') →
  (strip reason = "" ∧ (∃ e, r = Raise e) ∧ s' = s)
  ∨ (strip reason ≠ "" ∧ core s' = core (set_cancelled (Some (strip reason)) s)).
Proof.
  intros H. unfold cancel, es_fail_if in H.
  apply st_bind_cases in H as [(e & [Hg ->]%st_lift_eq & ->)|([] & s1 & [Hg ->]%st_lift_eq & H)].
  - left. unfold raise_if, raise in Hg. destruct (is_empty _) eqn:E; [|done]. apply is_empty_true in E. eauto.
  - right. apply raise_if_ok, is_empty_false in Hg. split; [done|].
    apply st_bind_cases in H as [(e & [=] & _)|([] & s2 & [= <-] & H)].
    by apply (keeps_run _ _ _ _ _ (keeps_checkpoint _ _)) in H.
Qed.

(** ** The invariant *)

Definition dep_succeeded (observations : gmap string ExecutionObservation) (d : string) : Prop :=
  ∃ o, observations !! d = Some o ∧ eo_status o = "SUCCEEDED".

(** A node that may run: its dependencies succeeded and its approval, if it needs one, is on record. *)
Record runnable (observations : gmap string ExecutionObservation) (approved : gset string) (id : string)
    (n : ExecutionNode) : Prop := {
  rn_node : n ∈ xp_nodes plan ∧ en_node_id n = id;
  rn_deps : ∀ d, d ∈ en_depends_on n → dep_succeeded observations d;
  rn_approval : en_approval_required n = true → id ∈ approved
}.

(** A ticket for a node: intact, of this plan, this node and this authority, and
    binding the reports of the dependencies in their declared order. *)
Record ticket_ok (observations : gmap string ExecutionObservation) (approved : gset string) (sequence : Z)
    (id : string) (t : DispatchTicket) : Prop := {
  tk_valid : DispatchTicket_validate t = Ok t;
  tk_node : ∃ n, runnable observations approved id n ∧ dt_node_id t = id
    ∧ ExecutionNode_fingerprint n = Ok (dt_node_fingerprint t)
    ∧ dt_authority_fingerprint t = en_authority_fingerprint n ∧ dt_execution_level t = en_execution_level n
    ∧ Forall2 (λ d f, ∃ o, observations !! d = Some o ∧ eo_status o = "SUCCEEDED"
        ∧ ExecutionObservation_fingerprint o = Ok f) (en_depends_on n) (dt_dependency_observation_fingerprints t);
  tk_plan : dt_task_id t = xp_task_id plan ∧ ExecutionPlan_fingerprint plan = Ok (dt_plan_fingerprint t);
  tk_sequence : 1 ≤ dt_dispatch_sequence t ≤ sequence
}.

Record invariant (observations : gmap string ExecutionObservation) (in_flight recovery : gmap string DispatchTicket)
    (approved : gset string) (sequence : Z) : Prop := {
  iv_observed : ∀ id, is_Some (observations !! id) → in_flight !! id = None ∧ recovery !! id = None;
  iv_in_flight : ∀ id, is_Some (in_flight !! id) → recovery !! id = None;
  iv_capacity : Z.of_nat (size in_flight) ≤ ec_max_concurrency cfg;
  iv_tickets : ∀ id t, in_flight !! id = Some t ∨ recovery !! id = Some t →
    ticket_ok observations approved sequence id t;
  iv_observations : ∀ id o, observations !! id = Some o → eo_node_id o = id
    ∧ ExecutionObservation_validate o (Some plan) (Some parent) = Ok o
    ∧ ∃ n, runnable observations approved id n;
  iv_approved : ∀ id, id ∈ approved → ∃ n, n ∈ xp_nodes plan ∧ en_node_id n = id ∧ en_approval_required n = true
    ∧ (is_Some (observations !! id) ∨ is_Some (in_flight !! id) ∨ is_Some (recovery !! id));
  iv_sequence : 0 ≤ sequence;
  iv_unique : ∀ id t id' t', in_flight !! id = Some t ∨ recovery !! id = Some t →
    in_flight !! id' = Some t' ∨ recovery !! id' = Some t' →
    dt_dispatch_sequence t = dt_dispatch_sequence t' → id = id'
}.

Definition scheduler_inv (s : state) : Prop :=
  invariant (es_observations s) (es_in_flight s) (es_recovery_required s) (es_approved_nodes s) (es_dispatch_sequence s).

Lemma inv_core s s' : core s' = core s → scheduler_inv s → scheduler_inv s'.
Proof. unfold core, scheduler_inv. by intros [= -> -> -> -> -> _ _]. Qed.

Lemma runnable_mono obs obs' appr appr' id n : obs ⊆ obs' → appr ⊆ appr' → runnable obs appr id n →
  runnable obs' appr' id n.
Proof.
  intros Ho Ha [Hn Hd Happ]. constructor; [done| |auto]. intros d Hdep.
  destruct (Hd d Hdep) as (o & Hl & Hs). exists o. split; [by eapply lookup_weaken|done].
Qed.

Lemma ticket_mono obs obs' appr appr' seq seq' id t : obs ⊆ obs' → appr ⊆ appr' → seq ≤ seq' →
  ticket_ok obs appr seq id t → ticket_ok obs' appr' seq' id t.
Proof.
  intros Ho Ha Hs [H1 (n & Hn & H2 & H3 & H4 & H5 & H6) H7 H8]. constructor; [done| |done|lia].
  exists n. split_and!; [by eapply runnable_mono|done..|]. eapply Forall2_impl; [done|].
  intros d f (o & Hl & ?). exists o. split; [by eapply lookup_weaken|done].
Qed.

Lemma invariant_sequence obs infl rec appr seq seq' : seq ≤ seq' → invariant obs infl rec appr seq →
  invariant obs infl rec appr seq'.
Proof.
  intros Hs [H1 H2 H3 H4 H5 H6 H7 H8]. constructor; try done; [|lia].
  intros id t Ht. eapply ticket_mono; [done..|eauto].
Qed.

Lemma invariant_dispatch obs infl rec appr seq n t (a : gset string) :
  a = (if en_approval_required n then {[en_node_id n]} ∪ appr else appr) →
  invariant obs infl rec appr seq → obs !! en_node_id n = None → infl !! en_node_id n = None → rec = ∅ →
  Z.of_nat (size infl) < ec_max_concurrency cfg → dt_dispatch_sequence t = seq + 1 →
  ticket_ok obs a (seq + 1) (en_node_id n) t → n ∈ xp_nodes plan →
  invariant obs (<[en_node_id n := t]> infl) rec a (seq + 1).
Proof.
  intros Ea [H1 H2 H3 H4 H5 H6 H7 H8] Ho Hi -> Hcap Hseq Ht Hn.
  assert (appr ⊆ a) as Ha by (rewrite Ea; case_match; set_solver). constructor.
  - intros id Hid. destruct (H1 id Hid). rewrite lookup_insert_ne; [done|]. intros <-. rewrite Ho in Hid. by destruct Hid.
  - intros id _. apply lookup_empty.
  - rewrite map_size_insert_None by done. lia.
  - intros id t' [[[<- <-]|[_ Hid]]%lookup_insert_Some|[]%lookup_empty_Some]; [done|].
    eapply ticket_mono; [done|exact Ha| |by apply H4; left]. lia.
  - intros id o Hid. destruct (H5 id o Hid) as (? & ? & m & Hm). split_and!; [done..|]. exists m.
    by eapply runnable_mono.
  - intros id Hid. rewrite Ea in Hid. assert (id ∈ appr ∨ id = en_node_id n ∧ en_approval_required n = true) as Hc.
    { case_match; [|by left]. apply elem_of_union in Hid as [Hid%elem_of_singleton|]; [by right|by left]. }
    destruct Hc as [Hc|[-> Hr]].
    + destruct (H6 id Hc) as (m & Hm & Hmi & Hmr & Hd). exists m. split_and!; [done..|].
      destruct Hd as [?|[?|[? []%lookup_empty_Some]]]; [by left|]. right. left. by apply lookup_insert_is_Some'; right.
    + exists n. split_and!; [done..|]. right. left. rewrite lookup_insert_eq. by eexists.
  - lia.
  - intros id t1 id' t2 [E1|[]%lookup_empty_Some] [E2|[]%lookup_empty_Some] Heq.
    apply lookup_insert_Some in E1 as [[<- <-]|[N1 E1]], E2 as [[<- <-]|[N2 E2]]; [done|..].
    + pose proof (tk_sequence _ _ _ _ _ (H4 _ _ (or_introl E2))). lia.
    + pose proof (tk_sequence _ _ _ _ _ (H4 _ _ (or_introl E1))). lia.
    + apply (H8 id t1 id' t2); [by left|by left|done].
Qed.

Lemma invariant_observe obs infl rec appr seq o :
  invariant obs infl rec appr seq → (is_Some (infl !! eo_node_id o) ∨ is_Some (rec !! eo_node_id o)) →
  ExecutionObservation_validate o (Some plan) (Some parent) = Ok o →
  invariant (<[eo_node_id o := o]> obs) (delete (eo_node_id o) infl) (delete (eo_node_id o) rec) appr seq.
Proof.
  intros [H1 H2 H3 H4 H5 H6 H7 H8] Hp Hv.
  assert (obs !! eo_node_id o = None) as Hfresh.
  { apply eq_None_not_Some. intros [Hi Hr]%H1. rewrite Hi, Hr in Hp. destruct Hp as [[]|[]]; done. }
  assert (obs ⊆ <[eo_node_id o := o]> obs) as Hsub by by apply insert_subseteq.
  assert (∀ id t, delete (eo_node_id o) infl !! id = Some t ∨ delete (eo_node_id o) rec !! id = Some t →
    infl !! id = Some t ∨ rec !! id = Some t) as Hold.
  { intros id t [[? ?]%lookup_delete_Some|[? ?]%lookup_delete_Some]; auto. }
  assert (∃ t, ticket_ok obs appr seq (eo_node_id o) t) as [t Ht].
  { destruct Hp as [[t Ht]|[t Ht]]; exists t; apply H4; auto. }
  constructor.
  - intros id [[= <-]|[Hne Hid]]%lookup_insert_is_Some; [by rewrite !lookup_delete_eq|].
    destruct (H1 id Hid). by rewrite !lookup_delete_ne.
  - intros id (Hne & Hid)%lookup_delete_is_Some. rewrite lookup_delete_ne by done. by apply H2.
  - rewrite map_size_delete. destruct (infl !! eo_node_id o); cbn; lia.
  - intros id t' Ht'. apply (ticket_mono obs _ appr appr seq seq); [done..|]. by apply H4, Hold.
  - intros id o' [[<- <-]|[Hne Hid]]%lookup_insert_Some.
    + split_and!; [done..|]. destruct (tk_node _ _ _ _ _ Ht) as (n & Hn & _). exists n. by eapply runnable_mono.
    + destruct (H5 id o' Hid) as (? & ? & n & Hn). split_and!; [done..|]. exists n. by eapply runnable_mono.
  - intros id Hid. destruct (H6 id Hid) as (n & Hn & Hi & Ha & Hd). exists n. split_and!; [done..|].
    destruct (decide (eo_node_id o = id)) as [<-|Hne]; [left; rewrite lookup_insert_eq; by eexists|].
    by rewrite lookup_insert_ne, !lookup_delete_ne by done.
  - done.
  - intros id t1 id' t2 E1%Hold E2%Hold. eauto.
Qed.

(** ** Operations keep it *)

Lemma ticket_validate_id t x : DispatchTicket_validate t = Ok x → x = t.
Proof. unfold DispatchTicket_validate, es_fail_if. intros H. inv_ok. done. Qed.

(** A new ticket is intact and names the node, the plan and the reports it was made for. *)
Record new_ticket_spec (n : ExecutionNode) (deps : list ExecutionObservation) (sequence : Z) (t : DispatchTicket) : Prop := {
  nt_valid : DispatchTicket_validate t = Ok t;
  nt_node : dt_node_id t = en_node_id n ∧ ExecutionNode_fingerprint n = Ok (dt_node_fingerprint t)
    ∧ dt_authority_fingerprint t = en_authority_fingerprint n ∧ dt_execution_level t = en_execution_level n;
  nt_plan : dt_task_id t = xp_task_id plan ∧ ExecutionPlan_fingerprint plan = Ok (dt_plan_fingerprint t);
  nt_deps : Forall2 (λ o f, ExecutionObservation_fingerprint o = Ok f) deps (dt_dependency_observation_fingerprints t);
  nt_sequence : dt_dispatch_sequence t = sequence ∧ 1 ≤ sequence
}.

Lemma new_ticket_ok n deps sequence t : new_ticket cfg n deps sequence = Ok t → new_ticket_spec n deps sequence t.
Proof.
  unfold new_ticket. intros H. apply bind_ok_iff in H as (pf & Hpf & H). apply bind_ok_iff in H as (nf & Hnf & H).
  apply bind_ok_iff in H as (fs & Hfs%mapM_Forall2 & H). cbv zeta in H. apply bind_ok_iff in H as (id & Hid & H).
  pose proof (ticket_validate_id _ _ H) as ->. constructor; cbn; try done.
  split; [done|]. unfold DispatchTicket_validate, es_fail_if in H. rewrite !guard_bind_ok in H.
  destruct H as (_ & _ & H & _). by apply Z.ltb_ge in H.
Qed.

Lemma dependencies_spec (s : state) n deps : _dependency_observations s n = Ok deps ↔
  Forall2 (λ d o, es_observations s !! d = Some o ∧ eo_status o = "SUCCEEDED") (en_depends_on n) deps.
Proof.
  unfold _dependency_observations. rewrite mapM_Forall2.
  assert (∀ d o, dependency_observation s n d = Ok o ↔ es_observations s !! d = Some o ∧ eo_status o = "SUCCEEDED") as Hiff.
  { intros d o. unfold dependency_observation, es_fail_if. destruct (es_observations s !! d) as [o'|]; [|naive_solver].
    rewrite guard_bind_ok, negb_false_iff, bool_decide_eq_true. naive_solver. }
  split; intros H; (eapply Forall2_impl; [exact H|]); intros d o; apply Hiff.
Qed.

Lemma dispatch_keeps (s s' : state) n a deps t : n ∈ xp_nodes plan → scheduler_inv s → dispatch_allowed s n a deps →
  new_ticket cfg n deps (es_dispatch_sequence s + 1) = Ok t → dispatched_state n t s s' → scheduler_inv s'.
Proof.
  intros Hn Hinv [H1 [H2 H3] H4 H5 H6 _ H7%dependencies_spec] Ht%new_ticket_ok Hs.
  unfold dispatched_state, core in Hs. injection Hs as E1 E2 E3 E4 E5 _ _. unfold scheduler_inv.
  rewrite E1, E2, E3, E4, E5. destruct Ht as [Hv (Hid & Hnf & Ha & Hl) Hp Hd [Hseq Hpos]].
  eapply invariant_dispatch; try done. constructor; [done| |done|lia]. exists n. split_and!; try done.
  - constructor; [done| |].
    + intros d Hdep. apply list_elem_of_lookup in Hdep as [i Hi].
      destruct (Forall2_lookup_l _ _ _ _ _ H7 Hi) as (o & _ & Ho & Hst). by exists o.
    + intros ->. set_solver.
  - clear -H7 Hd. revert Hd. generalize (dt_dependency_observation_fingerprints t). intros fs Hd.
    revert fs Hd. induction H7 as [|d o ds os [Ho Hst] _ IH]; intros fs Hd; inversion Hd; subst; constructor; eauto.
Qed.

(** The steps of a scheduler with the tickets they issue: its operations, whatever they return, and
    the changes others make to the budget, the revocations and the database. *)
Inductive step (s : state) : list DispatchTicket → state → Prop :=
  | step_issue id a t s' : issue_dispatch cfg id a s = (Ok t, s') → step s [t] s'
  | step_refuse id a e s' : issue_dispatch cfg id a s = (Raise e, s') → step s [] s'
  | step_accept o r s' : accept_observation cfg o s = (r, s') → step s [] s'
  | step_cancel reason r s' : cancel cfg reason s = (r, s') → step s [] s'
  | step_environment b r c : step s [] (set_guards b r c s).

Inductive steps : state → list DispatchTicket → state → Prop :=
  | steps_refl s : steps s [] s
  | steps_step s ts s1 ts' s2 : step s ts s1 → steps s1 ts' s2 → steps s (ts ++ ts') s2.

Context (Hshape : plan_shape (xp_nodes plan)).

Lemma issue_ok id a s t s' : issue_dispatch (B := B) (R := R) (C := C) cfg id a s = (Ok t, s') →
  ∃ n deps, n ∈ xp_nodes plan ∧ en_node_id n = id ∧ dispatch_allowed s n a deps
    ∧ new_ticket cfg n deps (es_dispatch_sequence s + 1) = Ok t ∧ dispatched_state n t s s'.
Proof.
  intros (n & deps & Hc & Ht & Hs)%(issue_dispatch_cases _ _ _ _ _ Hshape).
  apply (dispatch_checks_ok _ _ _ _ _ Hshape) in Hc as (Hn & Hid & Hd). by exists n, deps.
Qed.

Lemma observation_checks_ok (s : state) o : observation_checks cfg s o = Ok tt →
  (is_Some (es_in_flight s !! eo_node_id o) ∨ is_Some (es_recovery_required s !! eo_node_id o))
  ∧ ExecutionObservation_validate o (Some plan) (Some parent) = Ok o.
Proof.
  unfold observation_checks. intros H. apply bind_ok_iff in H as (t & Ht & H).
  apply bind_ok_iff in H as (x & Hx%reraise_ok & _). pose proof (observation_observed _ _ _ _ Hx) as [-> _].
  split; [|done]. destruct (es_in_flight s !! _); [left; by eexists|].
  destruct (es_recovery_required s !! _); [right; by eexists|done].
Qed.

Lemma step_invariant s ts s' : step s ts s' → scheduler_inv s → scheduler_inv s'.
Proof.
  intros Hstep Hinv. destruct Hstep as [id a t s' H|id a e s' H|o r s' H|reason r s' H|b r c].
  - apply issue_ok in H as (n & deps & Hn & _ & Hd & Ht & Hs). by eapply dispatch_keeps.
  - apply (issue_dispatch_cases _ _ _ _ _ Hshape) in H as [H|H]; [by eapply inv_core|].
    unfold core in H. injection H as E1 E2 E3 E4 E5 _ _. unfold scheduler_inv. rewrite E1, E2, E3, E4, E5.
    apply (invariant_sequence _ _ _ _ (es_dispatch_sequence s)); [lia|done].
  - apply accept_cases in H. destruct r as [x|e]; [|by eapply inv_core].
    destruct H as (-> & [Hp Hv]%observation_checks_ok & Hs). unfold observed_state, core in Hs.
    injection Hs as E1 E2 E3 E4 E5 _ _. unfold scheduler_inv. rewrite E1, E2, E3, E4, E5.
    by apply invariant_observe.
  - apply cancel_cases in H as [(_ & _ & ->)|[_ H]]; [done|]. by apply (inv_core _ _ H).
  - done.
Qed.

Lemma steps_invariant s ts s' : steps s ts s' → scheduler_inv s → scheduler_inv s'.
Proof. induction 1; [done|]. intros Hinv. eauto using step_invariant. Qed.

Lemma steps_app s1 ts s2 ts' s3 : steps s1 ts s2 → steps s2 ts' s3 → steps s1 (ts ++ ts') s3.
Proof. induction 1; [done|]. intros H3. rewrite <- app_assoc. eapply steps_step; eauto. Qed.

(** [issue_ready] is a sequence of dispatches, also when one of them raises. *)
Lemma issue_all_steps approved ids s r s' :
  st_mapM (λ id, issue_dispatch (B := B) (R := R) (C := C) cfg id (bool_decide (id ∈ (approved : gset string)))) ids s = (r, s') →
  ∃ ts, steps s ts s' ∧ (∀ x, r = Ok x → x = ts).
Proof.
  revert s r. induction ids as [|id ids IH]; intros s r; cbn [st_mapM].
  - intros [= <- <-]. exists []. split; [constructor|congruence].
  - intros [(e & H & ->)|(t & s1 & H & Hr)]%st_bind_cases.
    + exists []. split; [|done]. apply (steps_step _ [] _ []  _ (step_refuse _ _ _ _ _ H)). constructor.
    + apply st_bind_cases in Hr as [(e & Hr & ->)|(ts & s2 & Hr & [= <- <-])].
      * destruct (IH _ _ Hr) as (ts & Hts & _). exists (t :: ts). split; [|done].
        by apply (steps_step _ [t] _ ts _ (step_issue _ _ _ _ _ H)).
      * destruct (IH _ _ Hr) as (ts' & Hts & Heq). exists (t :: ts'). split.
        -- by apply (steps_step _ [t] _ ts' _ (step_issue _ _ _ _ _ H)).
        -- intros x [= <-]. by rewrite (Heq ts eq_refl).
Qed.

Lemma issue_ready_steps approved s r s' : issue_ready (B := B) (R := R) (C := C) cfg approved s = (r, s') →
  ∃ ts, steps s ts s' ∧ (∀ x, r = Ok x → x = ts).
Proof.
  unfold issue_ready. intros [(e & [=] & _)|(s0 & s1 & [= <- <-] & H)]%st_bind_cases.
  apply st_bind_cases in H as [(e & [_ ->]%st_lift_eq & ->)|(ids & s1 & [Hids ->]%st_lift_eq & H)].
  - exists []. split; [constructor|done].
  - by apply issue_all_steps in H.
Qed.

(** ** Traces *)

Definition dispatched (s : state) (id : string) : Prop :=
  is_Some (es_observations s !! id) ∨ is_Some (es_in_flight s !! id) ∨ is_Some (es_recovery_required s !! id).

Lemma core_dispatched s s' id : core s' = core s → dispatched s' id ↔ dispatched s id.
Proof. unfold core, dispatched. by intros [= -> -> -> _ _ _ _]. Qed.

Lemma step_trace s ts s' : step s ts s' → scheduler_inv s →
  (∀ id, dispatched s id → dispatched s' id)
  ∧ es_dispatch_sequence s ≤ es_dispatch_sequence s'
  ∧ (∀ t, t ∈ ts → ts = [t] ∧ ¬ dispatched s (dt_node_id t) ∧ dispatched s' (dt_node_id t)
       ∧ dt_dispatch_sequence t = es_dispatch_sequence s + 1 ∧ es_dispatch_sequence s' = es_dispatch_sequence s + 1).
Proof.
  intros Hstep Hinv. destruct Hstep as [id a t s' H|id a e s' H|o r s' H|reason r s' H|b r c].
  - apply issue_ok in H as (n & deps & Hn & _ & [_ [Ho Hi] Hrec _ _ _ _] & Ht%new_ticket_ok & Hs).
    unfold dispatched_state, core in Hs. injection Hs as E1 E2 E3 _ E5 _ _. unfold dispatched.
    rewrite E1, E2, E3, E5. split_and!; [|lia|].
    + intros id'. rewrite !is_Some_alt, lookup_insert. case_decide; naive_solver.
    + intros t' ->%list_elem_of_singleton. rewrite (proj1 (nt_node _ _ _ _ Ht)), Ho, Hi, Hrec, lookup_insert_eq, lookup_empty.
      split_and!; [done| |right; left; by eexists|by apply Ht|done]. intros [[]|[[]|[]]]; done.
  - apply (issue_dispatch_cases _ _ _ _ _ Hshape) in H as [H|H]; unfold core in H;
      injection H as E1 E2 E3 _ E5 _ _; unfold dispatched; rewrite E1, E2, E3, E5;
      (split_and!; [done|lia|by intros ? []%not_elem_of_nil]).
  - apply accept_cases in H. destruct r as [x|e].
    + destruct H as (-> & _ & Hs). unfold observed_state, core in Hs. injection Hs as E1 E2 E3 _ E5 _ _.
      unfold dispatched. rewrite E1, E2, E3, E5. split_and!; [|lia|by intros ? []%not_elem_of_nil].
      intros id Hid. destruct (decide (eo_node_id o = id)) as [<-|Hne].
      * left. rewrite lookup_insert_eq. by eexists.
      * by rewrite lookup_insert_ne, !lookup_delete_ne by done.
    + split_and!; [by intros id ?%(core_dispatched _ _ id H)| |by intros ? []%not_elem_of_nil].
      unfold core in H. injection H as _ _ _ _ -> _ _. done.
  - apply cancel_cases in H as [(_ & _ & ->)|[_ H]]; [split_and!; [done..|by intros ? []%not_elem_of_nil]|].
    split_and!; [by intros id ?%(core_dispatched _ _ id H)| |by intros ? []%not_elem_of_nil].
    unfold core in H. injection H as _ _ _ _ -> _ _. done.
  - split_and!; [done..|by intros ? []%not_elem_of_nil].
Qed.

Lemma steps_trace s ts s' : steps s ts s' → scheduler_inv s →
  (∀ id, dispatched s id → dispatched s' id) ∧ es_dispatch_sequence s ≤ es_dispatch_sequence s'
  ∧ NoDup (map dt_node_id ts) ∧ StronglySorted Z.lt (map dt_dispatch_sequence ts)
  ∧ (∀ t, t ∈ ts → ¬ dispatched s (dt_node_id t) ∧ dispatched s' (dt_node_id t)
       ∧ es_dispatch_sequence s < dt_dispatch_sequence t ≤ es_dispatch_sequence s').
Proof.
  induction 1 as [s|s ts s1 ts' s2 Hstep Hsteps IH]; intros Hinv.
  { split_and!; [done|lia|constructor|constructor|by intros ? []%not_elem_of_nil]. }
  destruct (step_trace _ _ _ Hstep Hinv) as (Hd & Hq & Ht).
  destruct (IH (step_invariant _ _ _ Hstep Hinv)) as (Hd' & Hq' & Hnd & Hsort & Ht').
  split_and!; [auto|lia|..].
  - destruct ts as [|t ts]; [done|]. destruct (Ht t) as ([= ->] & Hn & Hdt & _); [left|]. cbn [app map].
    apply NoDup_cons. split; [|done]. intros (t' & E & Hin)%list_elem_of_fmap.
    destruct (Ht' t' Hin) as [Hnot _]. by rewrite <- E in Hnot.
  - destruct ts as [|t ts]; [done|]. destruct (Ht t) as ([= ->] & _ & _ & Hs & Hs1); [left|]. cbn [app map].
    constructor; [done|]. apply List.Forall_forall. intros q (t' & <- & Hin)%in_map_iff.
    apply list_elem_of_In in Hin. destruct (Ht' t' Hin) as (_ & _ & ?). lia.
  - intros t [Hin|Hin]%elem_of_app.
    + destruct (Ht t Hin) as (_ & Hn & Hdt & Hs & Hs1). split_and!; [done|auto|lia|lia].
    + destruct (Ht' t Hin) as (Hn & Hdt & ?). split_and!; [auto|done|lia|lia].
Qed.

Lemma step_cancelled s ts s' : step s ts s' → es_cancelled s = true → ts = [] ∧ es_cancelled s' = true.
Proof.
  intros Hstep Hc. destruct Hstep as [id a t s' H|id a e s' H|o r s' H|reason r s' H|b r c].
  - apply issue_ok in H as (n & deps & _ & _ & [Ha _ _ _ _ _ _] & _). congruence.
  - apply (issue_dispatch_cases _ _ _ _ _ Hshape) in H as [H|H]; unfold core in H; injection H as _ _ _ _ _ -> _; done.
  - apply accept_cases in H. destruct r; [destruct H as (_ & _ & H)|]; unfold observed_state, core in H;
      injection H as _ _ _ _ _ -> _; done.
  - apply cancel_cases in H as [(_ & _ & ->)|[_ H]]; [done|]. unfold core in H. by injection H as _ _ _ _ _ -> _.
  - done.
Qed.

Lemma steps_cancelled s ts s' : steps s ts s' → es_cancelled s = true → ts = [] ∧ es_cancelled s' = true.
Proof.
  induction 1 as [|s ts s1 ts' s2 Hstep _ IH]; intros Hc; [done|].
  destruct (step_cancelled _ _ _ Hstep Hc) as [-> Hc1]. by destruct (IH Hc1) as [-> ?].
Qed.
End Facts.
