(* ===== verification/RestoreFacts.v ===== *)
(** * The execution scheduler: restored states, and the scheduler's properties

    A scheduler restored from a checkpoint satisfies the invariant, whatever the repository
    returned; the properties of every run follow, with those of one dispatch. *)

From Stdlib Require Import Ascii.
From Stdlib Require String.
From S2P Require Import Prelude PyStr Hashlib PyFloat Json JsonFacts PyTime Validators TaskContract.
From S2P Require Import CapabilityAuthority AuthorityFacts WorkflowDesign ContextManifest TaskContext.
From S2P Require Import ExecutionPlan PlanFacts ExecutionObservation ObservationFacts RuntimeScheduler ReadinessFacts.
From S2P Require Import ExecutionScheduler SchedulerFacts.

Local Open Scope Z_scope.

Section Facts.
Context {HL : Hashlib} {B R C : Type} `{!SchedulerBudgetGuard B} `{!SchedulerRevocationGuard R}
  `{!SchedulerCheckpointRepository C} (cfg : SchedulerConfig).

Notation state := (ExecutionScheduler B R C).
Notation plan := (ec_plan cfg).
Notation parent := (ec_parent_authority cfg).

Context (Hshape : plan_shape (xp_nodes plan)).

(** A persisted ticket of one of the plan's nodes. *)
Definition persisted (pf : string) (t : DispatchTicket) (n : ExecutionNode) : Prop :=
  DispatchTicket_validate t = Ok t ∧ dt_task_id t = xp_task_id plan ∧ dt_plan_fingerprint t = pf
  ∧ n ∈ xp_nodes plan ∧ en_node_id n = dt_node_id t
  ∧ ExecutionNode_fingerprint n = Ok (dt_node_fingerprint t)
  ∧ dt_authority_fingerprint t = en_authority_fingerprint n ∧ dt_execution_level t = en_execution_level n.

Lemma persisted_positive pf t n : persisted pf t n → 1 ≤ dt_dispatch_sequence t.
Proof.
  intros (H & _). unfold DispatchTicket_validate, es_fail_if in H. rewrite !guard_bind_ok in H.
  destruct H as (_ & _ & H & _). by apply Z.ltb_ge in H.
Qed.

Record restored_dispatches (pf : string) (ts : list DispatchTicket) (r : dispatch_restore) : Prop := {
  rd_tickets : dr_dispatches r = ts;
  rd_persisted : ∀ t, t ∈ ts → ∃ n, persisted pf t n;
  rd_nodes : NoDup (map dt_node_id ts);
  rd_sequences : NoDup (map dt_dispatch_sequence ts);
  rd_seen : ∀ q, q ∈ dr_seen_sequences r ↔ q ∈ map dt_dispatch_sequence ts;
  rd_sequence : 0 ≤ dr_sequence r ∧ ∀ t, t ∈ ts → dt_dispatch_sequence t ≤ dr_sequence r;
  rd_approvals : ∀ id, id ∈ dr_approval_nodes r ↔
    ∃ t n, t ∈ ts ∧ dt_node_id t = id ∧ n ∈ xp_nodes plan ∧ en_node_id n = id ∧ en_approval_required n = true
}.

Lemma restore_dispatch_ok pf ts r t r' : restored_dispatches pf ts r → restore_dispatch cfg pf r t = Ok r' →
  restored_dispatches pf (ts ++ [t]) r'.
Proof.
  intros [E1 E2 E3 E4 E5 [E6 E6'] E7] H. unfold restore_dispatch, es_fail_if, _node_map in H.
  apply bind_ok_iff in H as (t' & Ht & H). pose proof (ticket_validate_id _ _ Ht) as ->.
  rewrite !guard_bind_ok in H. destruct H as (Htask & Hpf & H). apply bind_ok_iff in H as (n & Hn & H).
  destruct (node_by_id _ !! _) as [m|] eqn:Hm; [|done]. injection Hn as ->.
  apply (node_by_id_lookup _ _ _ (ps_ids _ Hshape)) in Hm as [Hn Hid].
  apply bind_ok_iff in H as (nf & Hnf & H). rewrite !guard_bind_ok in H.
  destruct H as (Hf & Ha & Hl & Hdup & Hseq & [= <-]). py_prop. subst nf.
  rewrite E1 in Hdup. rewrite E5 in Hseq.
  constructor; cbn [dr_dispatches dr_seen_sequences dr_approval_nodes dr_sequence].
  - by rewrite E1.
  - intros t' [Ht'|Ht'%list_elem_of_singleton]%elem_of_app; [auto|]. subst t'. by exists n.
  - rewrite map_app. apply NoDup_app. split_and!; [done| |apply NoDup_singleton].
    intros x Hx Hx'%list_elem_of_singleton. by subst x.
  - rewrite map_app. apply NoDup_app. split_and!; [done| |apply NoDup_singleton].
    intros x Hx Hx'%list_elem_of_singleton. by subst x.
  - intros q. rewrite map_app, elem_of_cons, elem_of_app, E5. cbn [map]. rewrite list_elem_of_singleton. tauto.
  - split; [lia|]. intros t' [Ht'|Ht'%list_elem_of_singleton]%elem_of_app; [specialize (E6' _ Ht'); lia|]. subst t'. lia.
  - intros id. assert (id ∈ (if en_approval_required n then {[en_node_id n]} ∪ dr_approval_nodes r else dr_approval_nodes r)
      ↔ id ∈ dr_approval_nodes r ∨ (id = en_node_id n ∧ en_approval_required n = true)) as ->.
    { destruct (en_approval_required n); [rewrite elem_of_union, elem_of_singleton|]; naive_solver. }
    rewrite E7. setoid_rewrite elem_of_app. setoid_rewrite list_elem_of_singleton. split.
    + intros [(t' & n' & ? & ?)|[-> Hr]]; [exists t', n'; naive_solver|]. exists t, n. naive_solver.
    + intros (t' & n' & [Ht'|Ht'] & Hi & Hn' & Hi' & Hr); [left; by exists t', n'|right]. subst t'.
      rewrite <- (same_node (xp_nodes plan) Hshape n' n); [done..|congruence].
Qed.

Lemma restore_dispatches_ok pf ts r rest r' : restored_dispatches pf ts r →
  foldM (restore_dispatch cfg pf) r rest = Ok r' → restored_dispatches pf (ts ++ rest) r'.
Proof.
  revert ts r. induction rest as [|t rest IH]; intros ts r Hr; cbn [foldM].
  - intros [= <-]. by rewrite app_nil_r.
  - intros (r1 & H1 & H)%bind_ok_iff. apply (IH (ts ++ [t]) r1) in H; [|by eapply restore_dispatch_ok].
    by rewrite <- app_assoc in H.
Qed.

Lemma restored_start pf : restored_dispatches pf [] start_restore.
Proof.
  split; cbn; [done|by intros ? []%not_elem_of_nil|constructor|constructor|done| |].
  - split; [done|]. by intros ? []%not_elem_of_nil.
  - intros id. split; [by intros []%elem_of_empty|]. by intros (? & ? & []%not_elem_of_nil & _).
Qed.

Lemma ticket_for_ok ts id t : ticket_for ts id = Some t → t ∈ ts ∧ dt_node_id t = id.
Proof. intros [Hin Hid]%List.find_some. split; [by apply list_elem_of_In|]. by apply bool_decide_eq_true in Hid. Qed.

Lemma restore_observations_ok ts obs os obs' :
  (∀ id o, obs !! id = Some o → eo_node_id o = id
    ∧ ExecutionObservation_validate o (Some plan) (Some parent) = Ok o ∧ ∃ t, t ∈ ts ∧ dt_node_id t = id) →
  foldM (restore_observation cfg ts) obs os = Ok obs' →
  ∀ id o, obs' !! id = Some o → eo_node_id o = id
    ∧ ExecutionObservation_validate o (Some plan) (Some parent) = Ok o ∧ ∃ t, t ∈ ts ∧ dt_node_id t = id.
Proof.
  revert obs. induction os as [|o os IH]; intros obs Hobs; cbn [foldM]; [by intros [= <-]|].
  intros (obs1 & H1 & H)%bind_ok_iff. revert H. apply IH.
  unfold restore_observation, es_fail_if in H1. apply guard_bind_ok in H1 as [_ H1].
  apply bind_ok_iff in H1 as (x & Hx%reraise_ok & H1). pose proof (observation_observed _ _ _ _ Hx) as [-> _].
  apply bind_ok_iff in H1 as (t & Ht & H1). destruct (ticket_for ts _) as [t'|] eqn:E; [|done].
  apply ticket_for_ok in E as [Hin Hid]. rewrite !guard_bind_ok in H1. destruct H1 as (_ & _ & [= <-]).
  intros id o' [[<- <-]|[_ ?]]%lookup_insert_Some; [|by apply Hobs]. split_and!; [done..|]. by exists t'.
Qed.

Lemma check_dependencies_ok obs t n : n ∈ xp_nodes plan → en_node_id n = dt_node_id t →
  check_dependencies cfg obs t = Ok tt →
  Forall2 (λ d f, ∃ o, obs !! d = Some o ∧ eo_status o = "SUCCEEDED"
    ∧ ExecutionObservation_fingerprint o = Ok f) (en_depends_on n) (dt_dependency_observation_fingerprints t).
Proof.
  intros Hn Hid H. unfold check_dependencies, _node_map, es_fail_if in H. apply bind_ok_iff in H as (m & Hm & H).
  destruct (node_by_id _ !! _) as [m'|] eqn:E; [|done]. injection Hm as ->.
  apply (node_by_id_lookup _ _ _ (ps_ids _ Hshape)) in E as [Hm Hmid].
  assert (m = n) as -> by (apply (same_node (xp_nodes plan) Hshape); [done..|congruence]).
  apply bind_ok_iff in H as (fs & Hfs%mapM_Forall2 & H). apply raise_if_ok in H. py_prop. subst fs.
  eapply Forall2_impl; [exact Hfs|]. intros d f. cbn beta. destruct (obs !! d) as [o|]; [|done].
  case_bool_decide; [|done]. by exists o.
Qed.

Lemma tickets_by_node_lookup ts id t : NoDup (map dt_node_id ts) →
  tickets_by_node ts !! id = Some t ↔ t ∈ ts ∧ dt_node_id t = id.
Proof. apply keyed_dict_lookup. Qed.

Lemma NoDup_map_filter {A} (f : A → string) (P : A → bool) l : NoDup (map f l) → NoDup (map f (List.filter P l)).
Proof.
  induction l as [|x l IH]; cbn [map List.filter]; [done|]. intros [Hx Hl]%NoDup_cons. destruct (P x); [|auto].
  cbn [map]. apply NoDup_cons. split; [|auto]. intros (y & E & [Hy _]%list_elem_of_In%filter_In)%list_elem_of_fmap.
  apply Hx. rewrite E. apply list_elem_of_fmap_2. by apply list_elem_of_In.
Qed.

Lemma restored_invariant pf ts r obs :
  ExecutionPlan_fingerprint plan = Ok pf → 1 ≤ ec_max_concurrency cfg → restored_dispatches pf ts r →
  (∀ id o, obs !! id = Some o → eo_node_id o = id
    ∧ ExecutionObservation_validate o (Some plan) (Some parent) = Ok o ∧ ∃ t, t ∈ ts ∧ dt_node_id t = id) →
  iterM (check_dependencies cfg obs) ts = Ok tt →
  invariant cfg obs ∅ (tickets_by_node (List.filter (λ t, is_none (obs !! dt_node_id t)) ts))
    (dr_approval_nodes r) (dr_sequence r).
Proof.
  intros Hpf Hmax [E1 E2 E3 E4 E5 [E6 E6'] E7] Hobs Hdeps. rewrite iterM_Forall, Forall_elem in Hdeps.
  assert (∀ id t, tickets_by_node (List.filter (λ t, is_none (obs !! dt_node_id t)) ts) !! id = Some t ↔
    t ∈ ts ∧ dt_node_id t = id ∧ obs !! id = None) as Hrec.
  { intros id t. rewrite tickets_by_node_lookup by by apply NoDup_map_filter.
    rewrite list_elem_of_In, filter_In, <- list_elem_of_In.
    split; [intros [[? Hn] <-]|intros (? & <- & Hn)]; destruct (obs !! dt_node_id t); naive_solver. }
  assert (∀ t, t ∈ ts → ∃ n, persisted pf t n ∧ runnable cfg obs (dr_approval_nodes r) (dt_node_id t) n) as Hrun.
  { intros t Ht. destruct (E2 t Ht) as (n & Hp). exists n. split; [done|]. destruct Hp as (_ & _ & _ & Hn & Hid & _).
    constructor; [done| |].
    - intros d Hd. pose proof (check_dependencies_ok obs t n Hn Hid (Hdeps t Ht)) as HF.
      apply list_elem_of_lookup in Hd as [i Hi]. destruct (Forall2_lookup_l _ _ _ _ _ HF Hi) as (f & _ & o & ? & ? & _).
      by exists o.
    - intros Ha. apply E7. exists t, n. by split_and!. }
  constructor.
  - intros id [o Ho]. split; [apply lookup_empty|]. apply eq_None_not_Some. intros [t (_ & _ & Hn)%Hrec]. congruence.
  - intros id [? []%lookup_empty_Some].
  - rewrite map_size_empty. lia.
  - intros id t [[]%lookup_empty_Some|(Ht & <- & Hn)%Hrec]. destruct (Hrun t Ht) as (n & Hp & Hr).
    pose proof (persisted_positive _ _ _ Hp). pose proof Hp as (Hv & Htask & Hpf' & Hnode & Hid & Hnf & Ha & Hl).
    constructor; [done| |split; congruence|split; [done|by apply E6']].
    exists n. split_and!; try done. apply check_dependencies_ok; [done..|]. by apply Hdeps.
  - intros id o Ho. destruct (Hobs id o Ho) as (? & ? & t & Ht & <-). split_and!; [done..|].
    destruct (Hrun t Ht) as (n & _ & Hr). by exists n.
  - intros id (t & n & Ht & <- & Hn & Hid & Ha)%E7. exists n. split_and!; [done..|].
    destruct (obs !! dt_node_id t) as [o|] eqn:Ho; [left; by eexists|]. right. right. exists t. by apply Hrec.
  - done.
  - intros id t id' t' [[]%lookup_empty_Some|(Ht & <- & _)%Hrec] [[]%lookup_empty_Some|(Ht' & <- & _)%Hrec] Heq.
    f_equal. apply list_elem_of_lookup in Ht as [i Hi], Ht' as [j Hj].
    assert (i = j) as ->; [|congruence]. eapply (NoDup_lookup (map dt_dispatch_sequence ts)); [done|..];
      rewrite list_lookup_fmap; [by rewrite Hi|by rewrite Hj, Heq].
Qed.

Lemma restore_state_invariant reapproved recovered (s s' : state) : 1 ≤ ec_max_concurrency cfg →
  restore_state cfg reapproved recovered s = Ok s' → scheduler_inv cfg s'.
Proof.
  intros Hmax H. unfold restore_state, es_fail_if in H. apply bind_ok_iff in H as (pf & Hpf & H).
  rewrite !guard_bind_ok in H. destruct H as (_ & _ & H). apply bind_ok_iff in H as (r & Hr & H). cbv zeta in H.
  apply (restore_dispatches_ok _ _ _ _ _ (restored_start pf)) in Hr. cbn [app] in Hr.
  rewrite !guard_bind_ok in H. destruct H as (_ & _ & H). apply bind_ok_iff in H as (obs & Hobs & H).
  rewrite (rd_tickets _ _ _ Hr) in H, Hobs. apply unit_bind_ok in H as [Hdeps H]. apply guard_bind_ok in H as [_ H].
  apply bind_ok_iff in H as (s2 & Hs2 & H). apply bind_ok_iff in H as (? & _ & [= <-]).
  assert (scheduler_inv cfg (set_dispatches obs ∅ (tickets_by_node
    (List.filter (λ t, is_none (obs !! dt_node_id t)) (rx_dispatches recovered))) (dr_approval_nodes r) (dr_sequence r) s)) as Hinv.
  { eapply restored_invariant; try done. eapply restore_observations_ok; [|exact Hobs]. by intros id o []%lookup_empty_Some. }
  destruct (rx_cancellation_reason recovered) as [reason|]; [|injection Hs2 as <-; done].
  apply guard_bind_ok in Hs2 as [_ [= <-]]. done.
Qed.
End Facts.

Section Runs.
Context {HL : Hashlib} {B R C : Type} `{!SchedulerBudgetGuard B} `{!SchedulerRevocationGuard R}
  `{!SchedulerCheckpointRepository C} (cfg : SchedulerConfig).

Notation state := (ExecutionScheduler B R C).
Notation plan := (ec_plan cfg).
Notation parent := (ec_parent_authority cfg).

Lemma empty_faithful : ids_faithful [].
Proof. intros o o' []%not_elem_of_nil. Qed.

(** A scheduler object exists only for a context, a plan and an authority that belong together. *)
Lemma init_admitted reapproved (s0 s : state) : ExecutionScheduler_init cfg reapproved s0 = (Ok tt, s) →
  admitted (ec_task_context cfg) plan parent ∧ 1 ≤ ec_max_concurrency cfg ≤ MAX_SCHEDULER_CONCURRENCY.
Proof.
  unfold ExecutionScheduler_init. intros (? & ? & [= <- <-] & H)%st_bind_ok.
  apply st_bind_ok in H as ([] & s1 & [Hc ->]%st_lift_eq & _). unfold es_fail_if in Hc.
  rewrite !guard_bind_ok in Hc. destruct Hc as (Hm & _ & _ & Hc). apply bind_ok_iff in Hc as (d & Hd%reraise_ok & _).
  apply (evaluate_evaluable _ _ _ _ _ _ empty_faithful) in Hd. split; [apply Hd|].
  apply negb_false_iff, andb_true_iff in Hm as [?%Z.leb_le ?%Z.leb_le]. done.
Qed.

Lemma start_invariant (b : B) (r : R) (c : option C) : 1 ≤ ec_max_concurrency cfg →
  scheduler_inv cfg (start_state b r c).
Proof.
  intros Hm. unfold scheduler_inv. cbn. constructor.
  - by intros id [? ?%lookup_empty_Some].
  - by intros id [? ?%lookup_empty_Some].
  - rewrite map_size_empty. lia.
  - by intros id t [?%lookup_empty_Some|?%lookup_empty_Some].
  - by intros id o ?%lookup_empty_Some.
  - by intros id ?%elem_of_empty.
  - done.
  - by intros id t id' t' [?%lookup_empty_Some|?%lookup_empty_Some].
Qed.

Lemma init_invariant reapproved (s0 s : state) : ExecutionScheduler_init cfg reapproved s0 = (Ok tt, s) →
  scheduler_inv cfg s.
Proof.
  intros H. pose proof (init_admitted _ _ _ H) as [Had Hm]. pose proof (plan_valid_shape _ _ (ad_plan _ _ _ Had)) as Hsh.
  revert H. unfold ExecutionScheduler_init. intros (? & ? & [= <- <-] & H)%st_bind_ok.
  apply st_bind_ok in H as ([] & s1 & [_ ->]%st_lift_eq & H).
  apply st_bind_ok in H as ([] & s1 & [= <-] & H). unfold _restore_checkpoint in H. cbn [es_checkpoint_repository start_state] in H.
  destruct (es_checkpoint_repository s0) as [c|]; [|injection H as <-; apply start_invariant; lia].
  destruct (es_fail_if _ _); [|done].
  match type of H with context [let '(_, _) := ?m in _] => destruct m as [[rx|e] c'] end; [|done].
  destruct (restore_state _ _ _ _) as [s2|] eqn:E; [|done]. injection H as <-.
  eapply restore_state_invariant; [done| |exact E]. lia.
Qed.

(** C1: the scheduler's invariant. From any object the constructor returns, on a fresh or on a
    restored checkpoint, through any sequence of dispatches, reports and cancellations, successful or
    refused, and whatever others do to the budget, the revocations and the database: a node is
    never in two of observed, in flight and awaiting recovery; at most [max_concurrency], itself
    at most 24, are in flight; every ticket is intact, of this plan, and binds the reports of
    the node's dependencies; every dispatched node's dependencies succeeded and its approval
    is on record; and only nodes that ask for an approval and were dispatched have one. *)
Theorem scheduler_invariant reapproved (s0 s : state) ts s'
    (Hinit : ExecutionScheduler_init cfg reapproved s0 = (Ok tt, s)) (Hsteps : steps cfg s ts s') :
  scheduler_inv cfg s' ∧ Z.of_nat (size (es_in_flight s')) ≤ MAX_SCHEDULER_CONCURRENCY.
Proof.
  pose proof (init_admitted _ _ _ Hinit) as [Had Hm]. pose proof (plan_valid_shape _ _ (ad_plan _ _ _ Had)) as Hsh.
  pose proof (steps_invariant cfg Hsh _ _ _ Hsteps (init_invariant _ _ _ Hinit)) as Hinv. split; [done|].
  pose proof (iv_capacity _ _ _ _ _ _ Hinv). lia.
Qed.


(** A cancellation is final. Once [cancel] has been called with a reason, even when it
    raised because the checkpoint could not be written, no later step issues a ticket and the
    scheduler stays cancelled. *)
Theorem cancel_final reapproved (s0 s : state) ts s1 reason r s2 ts' s'
    (Hinit : ExecutionScheduler_init cfg reapproved s0 = (Ok tt, s)) (Hsteps : steps cfg s ts s1)
    (Hcancel : cancel cfg reason s1 = (r, s2)) (Hreason : strip reason ≠ "") (Hafter : steps cfg s2 ts' s') :
  ts' = [] ∧ es_cancelled s' = true.
Proof.
  pose proof (init_admitted _ _ _ Hinit) as [Had _]. pose proof (plan_valid_shape _ _ (ad_plan _ _ _ Had)) as Hsh.
  apply (steps_cancelled cfg Hsh _ _ _ Hafter).
  apply cancel_cases in Hcancel as [(? & _)|[_ H]]; [done|]. unfold core in H. by injection H as _ _ _ _ _ -> _.
Qed.

(** What one dispatch does. It returns a ticket only for a node of the plan that is new, while
    the scheduler is neither cancelled nor recovering nor at its limit, granted the approval
    it asks for, with every dependency successful; the ticket binds their reports and takes the next
    sequence number, and the node is then in flight. When it raises, whatever the reason,
    observations, tickets, approvals and cancellation are as before and at most the sequence number
    has advanced. *)
Theorem dispatch_outcome id approval_granted (s s' : state) r
    (Hplan : ExecutionPlan_validate plan (Some parent) = Ok plan)
    (H : issue_dispatch cfg id approval_granted s = (r, s')) :
  match r with
  | Ok t => ∃ n deps, n ∈ xp_nodes plan ∧ en_node_id n = id ∧ dispatch_allowed cfg s n approval_granted deps
      ∧ Forall2 (λ d o, es_observations s !! d = Some o ∧ eo_status o = "SUCCEEDED") (en_depends_on n) deps
      ∧ new_ticket_spec cfg n deps (es_dispatch_sequence s + 1) t ∧ dispatched_state n t s s'
  | Raise _ => refused_state s s'
  end.
Proof.
  pose proof (plan_valid_shape _ _ Hplan) as Hsh. destruct r as [t|e].
  - apply (issue_ok cfg Hsh) in H as (n & deps & Hn & Hid & Hd & Ht & Hs). exists n, deps.
    split_and!; try done; [by apply dependencies_spec, Hd|by apply new_ticket_ok].
  - by apply (issue_dispatch_cases _ _ _ _ _ _ Hsh) in H.
Qed.

Lemma step_recovering (s : state) ts s' : plan_shape (xp_nodes plan) → step cfg s ts s' →
  es_recovery_required s' ≠ ∅ → ts = [] ∧ es_recovery_required s ≠ ∅.
Proof.
  intros Hsh Hstep Hrec. destruct Hstep as [id a t s' H|id a e s' H|o r s' H|reason r s' H|b r c].
  - apply (issue_ok cfg Hsh) in H as (n & deps & _ & _ & [_ _ Hr _ _ _ _] & _ & Hs).
    unfold dispatched_state, core in Hs. injection Hs as _ _ E _ _ _ _. congruence.
  - apply (issue_dispatch_cases _ _ _ _ _ _ Hsh) in H as [H|H]; unfold core in H; injection H as _ _ E _ _ _ _;
      by rewrite E in Hrec.
  - apply accept_cases in H. split; [done|]. destruct r; [destruct H as (_ & _ & H)|]; unfold observed_state, core in H;
      injection H as _ _ E _ _ _ _; rewrite E in Hrec; [|done]. intros Hnone. by rewrite Hnone, delete_empty in Hrec.
  - apply cancel_cases in H as [(_ & _ & ->)|[_ H]]; [done|]. unfold core in H. injection H as _ _ E _ _ _ _.
    by rewrite E in Hrec.
  - done.
Qed.

(** Nothing runs before recovery is done. As long as a dispatch persisted by an earlier process
    has no report, no step issues a ticket. *)
Theorem recovery_first reapproved (s0 s : state) ts s'
    (Hinit : ExecutionScheduler_init cfg reapproved s0 = (Ok tt, s)) (Hsteps : steps cfg s ts s')
    (Hrec : es_recovery_required s' ≠ ∅) : ts = [].
Proof.
  pose proof (init_admitted _ _ _ Hinit) as [Had _]. pose proof (plan_valid_shape _ _ (ad_plan _ _ _ Had)) as Hsh.
  clear Hinit. assert (ts = [] ∧ es_recovery_required s ≠ ∅) as [? _]; [|done].
  induction Hsteps as [s|s ts s1 ts' s2 Hstep _ IH]; [done|]. destruct (IH Hrec) as [-> Hr].
  destruct (step_recovering _ _ _ Hsh Hstep Hr) as [-> ?]. done.
Qed.
End Runs.

(** ** Progress *)

Section Progress.
Context {HL : Hashlib} {B R C : Type} `{!SchedulerBudgetGuard B} `{!SchedulerRevocationGuard R}
  `{!SchedulerCheckpointRepository C} (cfg : SchedulerConfig).

Notation state := (ExecutionScheduler B R C).
Notation plan := (ec_plan cfg).
Notation parent := (ec_parent_authority cfg).

Context (Had : admitted (ec_task_context cfg) plan parent).

Lemma shape : plan_shape (xp_nodes plan).
Proof. exact (plan_valid_shape _ _ (ad_plan _ _ _ Had)). Qed.

Lemma elem_of_ordered (s : state) o : scheduler_inv cfg s →
  o ∈ _ordered_observations cfg s ↔ es_observations s !! eo_node_id o = Some o.
Proof.
  intros Hinv. unfold _ordered_observations. rewrite list_elem_of_omap. split.
  - intros (n & Hn & Ho). by destruct (iv_observations _ _ _ _ _ _ Hinv _ _ Ho) as (-> & _).
  - intros Ho. destruct (iv_observations _ _ _ _ _ _ Hinv _ _ Ho) as (_ & _ & n & [[Hn Hid] _ _]).
    exists n. by rewrite Hid.
Qed.

Lemma elem_of_sorted_set_ids (ids : gset string) id : id ∈ sorted_set_ids ids ↔ id ∈ ids.
Proof. unfold sorted_set_ids. by rewrite elem_of_sorted_str, elem_of_elements. Qed.

(** The scheduler can be evaluated under any further approvals of nodes that ask for one. *)
Lemma state_evaluable (s : state) (extra : gset string) : scheduler_inv cfg s →
  consistent (_ordered_observations cfg s) →
  (∀ id, id ∈ extra → ∃ n, n ∈ xp_nodes plan ∧ en_node_id n = id ∧ en_approval_required n = true) →
  evaluable (ec_task_context cfg) plan parent (_ordered_observations cfg s)
    (sorted_set_ids (es_approved_nodes s ∪ extra)).
Proof.
  intros Hinv Hcons Hextra. pose proof shape as Hsh. constructor; [done| | |done].
  - intros id. rewrite elem_of_sorted_set_ids, elem_of_union. intros Hid.
    assert (∃ n, n ∈ xp_nodes plan ∧ en_node_id n = id ∧ en_approval_required n = true) as (n & Hn & <- & Ha).
    { destruct Hid as [Hid|Hid]; [|by apply Hextra].
      destruct (iv_approved _ _ _ _ _ _ Hinv id Hid) as (n & ? & ? & ? & _). by exists n. }
    split; [by apply (ps_named _ Hsh)|by exists n].
  - apply Forall_elem. intros o Ho%(elem_of_ordered _ _ Hinv).
    destruct (iv_observations _ _ _ _ _ _ Hinv _ _ Ho) as (_ & Hv & n & [[Hn Hid] _ Ha]).
    split; [done|]. exists n. split_and!; [done..|]. intros Hr. apply elem_of_normalized, elem_of_sorted_set_ids.
    apply elem_of_union. left. auto.
Qed.

Lemma admission_ok (s : state) (extra : gset string) d : admission_decision cfg extra s = Ok d ↔
  evaluate cfg (_ordered_observations cfg s) (sorted_set_ids (es_approved_nodes s ∪ extra)) = Ok d.
Proof.
  unfold admission_decision, catch. destruct (evaluate _ _ _) as [x|e]; [done|].
  destruct (is_class _ _); [|done]. split; [|done]. unfold es_fail, raise. done.
Qed.

Lemma record_of_ready (s : state) ids d n : ids_faithful (_ordered_observations cfg s) →
  evaluate cfg (_ordered_observations cfg s) ids = Ok d → n ∈ xp_nodes plan →
  (∃ r, record_of d (en_node_id n) = Ok r ∧ nr_state r = "READY") ↔
  ready (_ordered_observations cfg s) (sd_approved_node_ids d) n.
Proof.
  intros Hfaith Hd Hn. destruct (evaluate_spec _ _ _ _ _ _ Hfaith Hd) as [Hev Hspec].
  pose proof (evaluable_unique _ _ _ _ _ Hfaith Hev) as Hu. pose proof (ds_records _ _ _ _ Hspec) as Hr.
  rewrite <- (proj1 (spec_states (xp_nodes plan) _ _ _)).
  assert (∀ r, record_of d (en_node_id n) = Ok r → record_for (xp_nodes plan) (_ordered_observations cfg s) (sd_approved_node_ids d) n r) as Hof.
  { intros r E. unfold record_of in E. destruct (List.find _ _) as [r'|] eqn:F; [|done]. injection E as ->.
    apply List.find_some in F as [Hin Hid]. apply list_elem_of_In, list_elem_of_lookup in Hin as [i Hi].
    apply bool_decide_eq_true in Hid. destruct (Forall2_lookup_r _ _ _ _ _ Hr Hi) as (m & Hm & Hrec).
    apply list_elem_of_lookup_2 in Hm. replace n with m; [done|]. apply (same_node _ shape); [done..|].
    by rewrite <- (rf_node _ _ _ _ _ Hrec). }
  split.
  - intros (r & E & Hst). rewrite <- Hst. apply Hof, E.
  - intros Hready. destruct (state_records _ _ _ _ _ _ Hu Hr Hn Hready) as (r & Hin & Hid & Hst).
    assert (∃ r', record_of d (en_node_id n) = Ok r') as [r' E].
    { unfold record_of. destruct (List.find _ _) as [r'|] eqn:F; [by eexists|].
      apply list_elem_of_In in Hin. eapply List.find_none in F; [|exact Hin]. by apply bool_decide_eq_false in F. }
    exists r'. split; [done|]. eapply node_spec_fun; [exact Hu|apply Hof, E|done].
Qed.

(** What the collaborators have to grant for a node. *)
Fixpoint unrevoked (capabilities : list string) (r : R) : Prop :=
  match capabilities with
  | [] => True
  | c :: capabilities => ∃ r', is_revoked (xp_task_id plan) c r = (Ok false, r') ∧ unrevoked capabilities r'
  end.
Definition granted (s : state) (n : ExecutionNode) : Prop :=
  (∃ b, assert_active (es_budget_guard s) = (Ok tt, b) ∧ ∃ b', reserve 1 0 0 0 b = (Ok tt, b'))
  ∧ unrevoked (en_allowed_tools n) (es_revocation_guard s)
  ∧ ∀ c t, es_checkpoint_repository s = Some c → ∃ x c', record_dispatch t c = (Ok x, c').

Lemma revocations_pass n caps (s : state) : unrevoked caps (es_revocation_guard s) →
  ∃ s', st_iterM (λ capability,
    revoked ← st_map_exn (revocation_exn ("SCHEDULER_REVOCATION_CHECK_FAILED:" +:+ en_node_id n +:+ ":" +:+ capability))
      (on_revocation (B := B) (C := C) (is_revoked (xp_task_id plan) capability));
    st_lift (es_fail_if revoked ("SCHEDULER_CAPABILITY_REVOKED:" +:+ en_node_id n +:+ ":" +:+ capability))) caps s = (Ok tt, s')
  ∧ core s' = core s ∧ es_budget_guard s' = es_budget_guard s
  ∧ es_checkpoint_repository s' = es_checkpoint_repository s.
Proof.
  revert s. induction caps as [|c caps IH]; intros s; cbn [st_iterM unrevoked]; [by intros _; eexists|].
  intros (r' & Hr & Hcaps).
  destruct (IH (set_guards (es_budget_guard s) r' (es_checkpoint_repository s) s) Hcaps) as (s' & Hs' & Hc & Hb & Hk).
  exists s'. split_and!; [|done..]. rewrite <- Hs'. unfold mbind, st_bind, st_map_exn, on_revocation, st_zoom.
  by rewrite Hr.
Qed.

Lemma revalidate_passes (s : state) n : n ∈ xp_nodes plan →
  (∃ b, assert_active (es_budget_guard s) = (Ok tt, b)) → unrevoked (en_allowed_tools n) (es_revocation_guard s) →
  ∃ s', _revalidate_runtime cfg n s = (Ok tt, s') ∧ core s' = core s
    ∧ assert_active (es_budget_guard s) = (Ok tt, es_budget_guard s')
    ∧ es_checkpoint_repository s' = es_checkpoint_repository s.
Proof.
  intros Hn [b Hb] Hr. pose proof (ad_plan _ _ _ Had) as Hp.
  pose proof (plan_validate_inv _ _ _ Hp) as (_ & _ & Hpar). specialize (Hpar parent eq_refl).
  apply check_parent_ok in Hpar as (_ & _ & Hall). rewrite Forall_elem in Hall. destruct (Hall n Hn) as [a Ha].
  pose proof (rebind_authority_inv _ _ _ Ha) as [_ Hf].
  destruct (revocations_pass n (en_allowed_tools n)
    (set_guards b (es_revocation_guard s) (es_checkpoint_repository s) s) Hr) as (s' & Hs' & Hc & Hbg & Hk).
  exists s'. cbn in Hbg. split_and!; [|done|by rewrite Hb, Hbg|done]. rewrite <- Hs'. unfold _revalidate_runtime.
  unfold mbind, st_bind at 1. unfold st_lift at 1. rewrite Hp. cbn [mbind result_bind]. rewrite Ha.
  cbn [reraise catch]. rewrite Hf, bool_decide_refl. unfold st_bind, st_map_exn, on_budget, st_zoom. cbn [negb].
  unfold st_lift, es_fail_if, raise_if. by rewrite Hb.
Qed.

Lemma ticket_total n deps sequence : n ∈ xp_nodes plan → 1 ≤ sequence →
  (∀ o, o ∈ deps → ∃ f, ExecutionObservation_fingerprint o = Ok f) → ∃ t, new_ticket cfg n deps sequence = Ok t.
Proof.
  intros Hn Hseq Hdeps. unfold new_ticket.
  destruct (plan_fingerprint_total _ _ (ad_plan _ _ _ Had)) as (pf & -> & _). cbn [mbind result_bind].
  destruct (ps_dicts _ shape n Hn) as [d Hd]. destruct (node_fingerprint_total n d Hd) as (_ & nf & -> & _).
  cbn [mbind result_bind].
  assert (∃ fs, mapM ExecutionObservation_fingerprint deps = Ok fs) as [fs ->].
  { clear Hseq. induction deps as [|o deps IH]; [by eexists|]. destruct (Hdeps o) as [f Hf]; [left|].
    destruct IH as [fs Hfs]; [intros o' Ho'; apply Hdeps; by right|]. cbn [mapM]. rewrite Hf. cbn [mbind result_bind].
    rewrite Hfs. by eexists. }
  cbn [mbind result_bind]. cbv zeta.
  match goal with |- context [expected_ticket_id ?t] => assert (∃ id, expected_ticket_id t = Ok id) as [id Hid] end.
  { unfold expected_ticket_id, ExecutionScheduler._digest, dumps.
    match goal with |- context [all_finite ?v] => assert (all_finite v = true) as -> end; [|by eexists].
    unfold ticket_identity. cbn [all_finite forallb snd]. by rewrite all_finite_strs. }
  rewrite Hid. cbn [mbind result_bind]. eexists. unfold DispatchTicket_validate, es_fail_if. cbn [dt_schema_version
    dt_dispatch_authorized dt_dispatch_sequence dt_ticket_id]. rewrite bool_decide_refl, (proj2 (Z.ltb_ge _ _)) by done.
  cbn [negb raise_if mbind result_bind]. unfold expected_ticket_id, ticket_identity in *. cbn in Hid |- *.
  rewrite Hid. cbn [mbind result_bind]. by rewrite bool_decide_refl.
Qed.

Lemma ordered_unique (s : state) o o' : scheduler_inv cfg s → o ∈ _ordered_observations cfg s →
  o' ∈ _ordered_observations cfg s → eo_node_id o = eo_node_id o' → o = o'.
Proof. intros Hinv Ho%(elem_of_ordered _ _ Hinv) Ho'%(elem_of_ordered _ _ Hinv) E. congruence. Qed.

Lemma state_consistent (s : state) : scheduler_inv cfg s → ids_faithful (_ordered_observations cfg s) →
  consistent (_ordered_observations cfg s).
Proof.
  intros Hinv Hfaith. split.
  - intros o o' Ho Ho' E. by rewrite (ordered_unique s o o' Hinv Ho Ho' (proj1 (Hfaith _ _ Ho Ho' E))).
  - intros o o' Ho Ho' _ _ E. by rewrite (ordered_unique s o o' Hinv Ho Ho' E).
Qed.

Lemma ready_candidate (s : state) (extra : gset string) d n (a : bool) : scheduler_inv cfg s →
  ids_faithful (_ordered_observations cfg s) → admission_decision cfg extra s = Ok d → n ∈ xp_nodes plan →
  ready (_ordered_observations cfg s) (sd_approved_node_ids d) n → a = bool_decide (en_node_id n ∈ extra) →
  (en_approval_required n = true → en_node_id n ∉ es_approved_nodes s) →
  ∃ d' r, admission_decision cfg (candidate n a) s = Ok d' ∧ record_of d' (en_node_id n) = Ok r ∧ nr_state r = "READY".
Proof.
  intros Hinv Hfaith Hd Hn (Hun & Hdeps & Happ) -> Hnew. apply admission_ok in Hd.
  pose proof (evaluate_spec _ _ _ _ _ _ Hfaith Hd) as [_ Hspec]. rewrite (ds_approved _ _ _ _ Hspec) in Happ.
  assert (en_approval_required n = true → en_node_id n ∈ extra) as Hx.
  { intros Ha. specialize (Happ Ha). rewrite elem_of_normalized, elem_of_sorted_set_ids, elem_of_union in Happ.
    destruct Happ; [by destruct (Hnew Ha)|done]. }
  destruct (evaluate_total _ _ _ _ _ Hfaith (state_evaluable s (candidate n (bool_decide (en_node_id n ∈ extra))) Hinv
    (state_consistent _ Hinv Hfaith) ltac:(unfold candidate; intros id Hid; destruct (en_approval_required n) eqn:Ha;
      [|by apply elem_of_empty in Hid]; case_bool_decide; [|by apply elem_of_empty in Hid];
      apply elem_of_singleton in Hid as ->; by exists n)))
    as (d' & Hd' & Hspec').
  destruct (proj2 (record_of_ready s _ d' n Hfaith Hd' Hn)) as (r & Hr & Hst).
  { split_and!; [done..|]. intros Ha. rewrite (ds_approved _ _ _ _ Hspec'). apply elem_of_normalized, elem_of_sorted_set_ids.
    unfold candidate. rewrite Ha, bool_decide_eq_true_2 by auto. set_solver. }
  exists d', r. split_and!; [by apply admission_ok|done..].
Qed.

Lemma dispatch_succeeds (s : state) id a n deps : n ∈ xp_nodes plan → en_node_id n = id → scheduler_inv cfg s →
  dispatch_allowed cfg s n a deps → granted s n → ∃ t s', issue_dispatch cfg id a s = (Ok t, s').
Proof.
  intros Hn Hid Hinv Hd ((b & Hb & b' & Hb') & Hrev & Hck).
  destruct (revalidate_passes s n Hn (ex_intro _ b Hb) Hrev) as (s1 & Hs1 & Hc1 & Hb1 & Hk1).
  destruct (ticket_total n deps (es_dispatch_sequence s + 1) Hn) as [t Ht].
  { pose proof (iv_sequence _ _ _ _ _ _ Hinv). lia. }
  { intros o [i Hi]%list_elem_of_lookup. pose proof (proj1 (dependencies_spec _ _ _) (da_deps _ _ _ _ _ Hd)) as HF.
    destruct (Forall2_lookup_r _ _ _ _ _ HF Hi) as (dep & _ & Ho & _).
    destruct (iv_observations _ _ _ _ _ _ Hinv _ _ Ho) as (_ & Hv & _).
    destruct (observation_fingerprint_total _ _ _ Hv) as (f & Hf & _). by exists f. }
  assert (reserve 1 0 0 0 (es_budget_guard s1) = (Ok tt, b')) as Hres by (rewrite Hb in Hb1; by injection Hb1 as <-).
  assert (es_dispatch_sequence s1 = es_dispatch_sequence s) as Hq by (unfold core in Hc1; by injection Hc1).
  unfold issue_dispatch. unfold mbind, st_bind at 1. unfold st_get at 1. unfold st_bind at 1.
  unfold st_lift at 1. rewrite (proj2 (dispatch_checks_ok cfg s id a n deps shape)) by done.
  unfold st_bind at 1. rewrite Hs1. unfold st_bind at 1. unfold st_map_exn, on_budget, st_zoom. rewrite Hres.
  unfold st_bind, st_modify, st_get, st_lift. cbn [es_dispatch_sequence set_dispatches set_guards]. rewrite Hq, Ht.
  unfold on_checkpoint. cbn [es_checkpoint_repository set_dispatches set_guards]. rewrite Hk1.
  destruct (es_checkpoint_repository s) as [c|]; [|by eexists _, _].
  destruct (Hck c t eq_refl) as (x & c' & Hrec). rewrite Hrec. by eexists _, _.
Qed.
End Progress.

Section Liveness.
Context {HL : Hashlib} {B R C : Type} `{!SchedulerBudgetGuard B} `{!SchedulerRevocationGuard R}
  `{!SchedulerCheckpointRepository C} (cfg : SchedulerConfig).

Notation state := (ExecutionScheduler B R C).
Notation plan := (ec_plan cfg).
Notation parent := (ec_parent_authority cfg).

Lemma ready_ids_inv (s : state) approved ids id : scheduler_inv cfg s → ids_faithful (_ordered_observations cfg s) →
  admitted (ec_task_context cfg) plan parent →
  ready_node_ids cfg approved s = Ok ids → id ∈ ids →
  es_cancelled s = false ∧ es_recovery_required s = ∅
  ∧ Z.of_nat (size (es_in_flight s)) < ec_max_concurrency cfg
  ∧ es_observations s !! id = None ∧ es_in_flight s !! id = None
  ∧ ∃ d n, admission_decision cfg approved s = Ok d ∧ n ∈ xp_nodes plan ∧ en_node_id n = id
    ∧ ready (_ordered_observations cfg s) (sd_approved_node_ids d) n.
Proof.
  intros Hinv Hfaith Had H Hin. unfold ready_node_ids in H.
  destruct (es_cancelled s); cbn [orb] in H; [injection H as <-; by apply not_elem_of_nil in Hin|].
  case_bool_decide as Hrec; cbn [negb] in H; [|injection H as <-; by apply not_elem_of_nil in Hin]. cbv zeta in H.
  destruct (_ <=? 0) eqn:Hcap; [injection H as <-; by apply not_elem_of_nil in Hin|]. apply Z.leb_gt in Hcap.
  apply bind_ok_iff in H as (d & Hd & [= <-]). apply elem_of_take in Hin as (i & Hi & _).
  apply list_elem_of_lookup_2, list_elem_of_fmap in Hi as (r & -> & [Hr Hdis]%list_elem_of_In%filter_In).
  apply list_elem_of_In in Hr. unfold dispatchable in Hdis. rewrite !andb_true_iff, bool_decide_eq_true in Hdis.
  destruct Hdis as [[[Hst Ho] Hf] _]. split_and!; [done..|lia| | |].
  - by destruct (es_observations s !! _).
  - by destruct (es_in_flight s !! _).
  - pose proof Hd as Hd'%admission_ok. unfold evaluate in Hd'.
    destruct (evaluate_spec _ _ _ _ _ _ Hfaith Hd') as [Hev Hspec].
    destruct (record_states _ _ _ _ "READY" (ds_records _ _ _ _ Hspec) (nr_node_id r)) as (n & Hn & Hid & Hspecn); [by exists r|].
    exists d, n. split_and!; [done..|]. by apply spec_states in Hspecn.
Qed.

(** A node is reported ready only after an evaluation. *)
Lemma ready_faithful (s : state) approved ids id : ready_node_ids cfg approved s = Ok ids → id ∈ ids →
  ids_faithful (_ordered_observations cfg s) ∨ fingerprint_collision (_ordered_observations cfg s).
Proof.
  intros H Hin. unfold ready_node_ids in H.
  destruct (_ || _); [injection H as <-; by apply not_elem_of_nil in Hin|]. cbv zeta in H.
  destruct (_ <=? 0); [injection H as <-; by apply not_elem_of_nil in Hin|].
  apply bind_ok_iff in H as (d & Hd%admission_ok & _). by eapply evaluate_faithful.
Qed.

(** What is reported ready can be dispatched. In any state a run reaches, if [ready_node_ids]
    names a node under some approvals and the collaborators grant it - the budget is active and
    has a step left, no tool of the node is revoked, the checkpoint can be written - then
    [issue_dispatch] with those approvals returns a ticket for it, short of a collision of the full
    fingerprints of two observations. *)
Theorem ready_dispatches reapproved (s0 s : state) ts s1 approved ids n
    (Hinit : ExecutionScheduler_init cfg reapproved s0 = (Ok tt, s)) (Hsteps : steps cfg s ts s1)
    (Hready : ready_node_ids cfg approved s1 = Ok ids) (Hn : n ∈ xp_nodes plan) (Hid : en_node_id n ∈ ids)
    (Hgranted : granted cfg s1 n) :
  (∃ t s2, issue_dispatch cfg (en_node_id n) (bool_decide (en_node_id n ∈ approved)) s1 = (Ok t, s2))
  ∨ fingerprint_collision (_ordered_observations cfg s1).
Proof.
  destruct (ready_faithful _ _ _ _ Hready Hid) as [Hfaith|?]; [left|by right].
  pose proof (init_admitted _ _ _ _ Hinit) as [Had _]. pose proof (shape cfg Had) as Hsh.
  pose proof (steps_invariant cfg Hsh _ _ _ Hsteps (init_invariant _ _ _ _ Hinit)) as Hinv.
  destruct (ready_ids_inv _ _ _ _ Hinv Hfaith Had Hready Hid) as (Hc & Hrec & Hcap & Ho & Hf & d & m & Hd & Hm & Hmid & Hr).
  assert (m = n) as -> by (by apply (same_node _ Hsh)).
  assert (en_approval_required n = true → en_node_id n ∉ es_approved_nodes s1) as Hnew.
  { intros _ Hin. destruct (iv_approved _ _ _ _ _ _ Hinv _ Hin) as (? & _ & _ & _ & Hdisp).
    rewrite Ho, Hf, Hrec, lookup_empty in Hdisp. destruct Hdisp as [[]|[[]|[]]]; done. }
  pose proof Hr as (_ & Hdeps & Happ).
  assert (∃ deps, _dependency_observations s1 n = Ok deps) as [deps Hdo].
  { setoid_rewrite dependencies_spec. clear -Hdeps Hinv Had. induction (en_depends_on n) as [|x l IH]; [by exists []|].
    destruct (Hdeps x) as (o & Hin & <- & Hs); [left|]. apply (elem_of_ordered _ _ _ Hinv) in Hin.
    destruct IH as [os Hos]; [intros d' Hd'; apply Hdeps; by right|]. exists (o :: os). by constructor. }
  apply (dispatch_succeeds cfg Had s1 _ _ n deps); try done. constructor; try done.
  - intros Ha. apply bool_decide_eq_true. specialize (Happ Ha). apply admission_ok in Hd. unfold evaluate in Hd.
    destruct (evaluate_spec _ _ _ _ _ _ Hfaith Hd) as [_ Hspec].
    rewrite (ds_approved _ _ _ _ Hspec), elem_of_normalized, elem_of_sorted_set_ids, elem_of_union in Happ.
    destruct Happ; [by destruct (Hnew Ha)|done].
  - by eapply ready_candidate.
Qed.

(** A run in which nothing fails does not get stuck. In any reachable state that is not
    cancelled, has nothing in flight and nothing to recover, and whose reports are all successes,
    either every node has reported or, once the nodes that ask for it are approved,
    [ready_node_ids] names a node - or two observations of different nodes share an identifier, which
    the evaluator refuses. *)
Theorem scheduler_progress reapproved (s0 s : state) ts s1 (approved : gset string)
    (Hinit : ExecutionScheduler_init cfg reapproved s0 = (Ok tt, s)) (Hsteps : steps cfg s ts s1)
    (Hactive : es_cancelled s1 = false)
    (Hidle : es_in_flight s1 = ∅) (Hrec : es_recovery_required s1 = ∅)
    (Hall : ∀ id o, es_observations s1 !! id = Some o → eo_status o = "SUCCEEDED")
    (Happ : ∀ id, id ∈ approved ↔ ∃ n, n ∈ xp_nodes plan ∧ en_node_id n = id ∧ en_approval_required n = true) :
  (∀ n, n ∈ xp_nodes plan → is_Some (es_observations s1 !! en_node_id n))
  ∨ (∃ ids, ready_node_ids cfg approved s1 = Ok ids ∧ ids ≠ []) ∨ shared_id (_ordered_observations cfg s1).
Proof.
  destruct (faithful_or_shared (_ordered_observations cfg s1)) as [Hfaith|?]; [|by right; right].
  pose proof (init_admitted _ _ _ _ Hinit) as [Had Hmax]. pose proof (shape cfg Had) as Hsh.
  pose proof (steps_invariant cfg Hsh _ _ _ Hsteps (init_invariant _ _ _ _ Hinit)) as Hinv.
  pose proof (state_consistent cfg s1 Hinv Hfaith) as Hcons.
  destruct (evaluate_total _ _ _ _ _ Hfaith (state_evaluable cfg Had s1 approved Hinv Hcons (λ id, proj1 (Happ id))))
    as (d & Hd & Hspec).
  assert (∀ n, n ∈ xp_nodes plan → en_approval_required n = true → en_node_id n ∈ sd_approved_node_ids d) as Hin.
  { intros n Hn Ha. rewrite (ds_approved _ _ _ _ Hspec). apply elem_of_normalized, elem_of_sorted_set_ids, elem_of_union.
    right. apply Happ. by exists n. }
  assert (∀ o, o ∈ _ordered_observations cfg s1 → eo_status o = "SUCCEEDED") as Hsucc.
  { intros o Ho%(elem_of_ordered _ _ _ Hinv). eauto. }
  destruct (frontier _ _ _ Hsh Hsucc Hin) as [Hdone|(n & Hn & Hr)].
  { left. intros n Hn. destruct (Hdone n Hn) as (o & Ho%(elem_of_ordered _ _ _ Hinv) & <- & _). by eexists. }
  right. left. unfold ready_node_ids. rewrite Hactive, Hrec, bool_decide_eq_true_2, Hidle by done. cbn [negb orb]. cbv zeta.
  rewrite map_size_empty. cbn [Z.of_nat]. rewrite Z.sub_0_r, (proj2 (Z.leb_gt _ _)) by lia.
  rewrite (proj2 (admission_ok cfg s1 approved d) Hd). cbn [mbind result_bind]. eexists. split; [done|].
  destruct (proj2 (record_of_ready cfg Had s1 _ d n Hfaith Hd Hn) Hr) as (r & Hof & Hst).
  assert (r ∈ sd_records d ∧ nr_node_id r = en_node_id n) as [Hrin Hrid].
  { unfold record_of in Hof. destruct (List.find _ _) as [r'|] eqn:F; [|done]. injection Hof as ->.
    apply List.find_some in F as [F1 F2]. apply bool_decide_eq_true in F2. split; [by apply list_elem_of_In|done]. }
  assert (dispatchable s1 r = true) as Hdis.
  { unfold dispatchable. rewrite Hst, Hidle, Hrec, !lookup_empty, bool_decide_refl, !andb_true_r. cbn [is_none andb].
    destruct Hr as (Hun & _). rewrite Hrid. destruct (es_observations s1 !! en_node_id n) as [o|] eqn:Ho; [|done].
    destruct Hun. destruct (iv_observations _ _ _ _ _ _ Hinv _ _ Ho) as (Hi & _). exists o. split; [|done].
    apply (elem_of_ordered _ _ _ Hinv). by rewrite Hi. }
  intros Hnil. destruct (List.filter (dispatchable s1) (sd_records d)) as [|x l] eqn:Hf.
  { apply list_elem_of_In in Hrin. pose proof (proj2 (filter_In (dispatchable s1) r (sd_records d)) (conj Hrin Hdis)) as Hx.
    by rewrite Hf in Hx. }
  cbn [map] in Hnil. destruct (Z.to_nat (ec_max_concurrency cfg)) eqn:E; [lia|done].
Qed.
End Liveness.

(** A run of the sample plan with a step counter, a set of revoked tools and a fixed checkpoint. *)
Section Examples.
#[local] Existing Instance checksum_hashlib.

#[local] Instance step_counter : SchedulerBudgetGuard Z := {|
  assert_active := mret tt;
  reserve := λ steps _ _ _ left, if left <? steps then (raise ExecutionBudgetExceeded "TASK_STEP_BUDGET_EXHAUSTED", left)
                                 else (Ok tt, left - steps) |}.
#[local] Instance revoked_set : SchedulerRevocationGuard (gset string) := {|
  is_revoked := λ _ capability revoked, (Ok (bool_decide (capability ∈ revoked)), revoked) |}.
#[local] Instance fixed_checkpoint : SchedulerCheckpointRepository RecoveredExecutionState := {|
  initialize := mret tt; record_dispatch := λ t, mret t; record_observation := λ o, mret o;
  record_cancellation := λ _ _ _, mret tt; load := λ _ _ c, (Ok c, c) |}.

Notation sample_state := (ExecutionScheduler Z (gset string) RecoveredExecutionState).

Definition sample_config : SchedulerConfig := {|
  ec_task_context := sample_context; ec_plan := sample_plan; ec_parent_authority := sample_parent;
  ec_max_concurrency := 2 |}.

Definition sample_fresh : sample_state := start_state 10 ∅ None.

Lemma sample_init : ExecutionScheduler_init sample_config ∅ sample_fresh = (Ok tt, sample_fresh).
Proof. vm_compute. reflexivity. Qed.

Definition after_in : sample_state.
Proof. let r := eval vm_compute in (issue_dispatch sample_config "in" false sample_fresh).2 in exact r. Defined.
Definition ticket_in : DispatchTicket.
Proof.
  let r := eval vm_compute in (issue_dispatch sample_config "in" false sample_fresh).1 in
  match r with Ok ?t => exact t end.
Defined.
Lemma issue_in : issue_dispatch sample_config "in" false sample_fresh = (Ok ticket_in, after_in).
Proof. vm_compute. reflexivity. Qed.

Definition reported_in : sample_state.
Proof. let r := eval vm_compute in (accept_observation sample_config sample_in after_in).2 in exact r. Defined.
Lemma accept_in : accept_observation sample_config sample_in after_in = (Ok sample_in, reported_in).
Proof. vm_compute. reflexivity. Qed.

Example work_needs_approval : (issue_dispatch sample_config "work" false reported_in).1
  = es_fail "NODE_APPROVAL_REQUIRED:work".
Proof. vm_compute. reflexivity. Qed.
Example out_waits : (issue_dispatch sample_config "out" false reported_in).1
  = es_fail "SCHEDULER_DEPENDENCY_PENDING:out:work".
Proof. vm_compute. reflexivity. Qed.
Example revoked_tool_stops : (issue_dispatch sample_config "work" true
    (set_guards 10 {["search_docs"]} None reported_in)).1
  = es_fail "SCHEDULER_CAPABILITY_REVOKED:work:search_docs".
Proof. vm_compute. reflexivity. Qed.
Example exhausted_budget_stops : (issue_dispatch sample_config "work" true (set_guards 0 ∅ None reported_in)).1
  = es_fail "SCHEDULER_BUDGET_DENIED:TASK_STEP_BUDGET_EXHAUSTED".
Proof. vm_compute. reflexivity. Qed.

Lemma sample_run : steps sample_config sample_fresh [ticket_in] reported_in.
Proof.
  apply (steps_step _ _ [ticket_in] after_in []); [exact (step_issue _ _ _ _ _ _ issue_in)|].
  apply (steps_step _ _ [] reported_in []); [exact (step_accept _ _ _ _ _ accept_in)|constructor].
Qed.

Lemma scheduler_invariant_witness : scheduler_inv sample_config reported_in.
Proof. exact (proj1 (scheduler_invariant sample_config ∅ sample_fresh sample_fresh _ _ sample_init sample_run)). Defined.


Definition cancelled_in : sample_state := Eval vm_compute in (cancel sample_config " STOP " reported_in).2.

Lemma cancel_final_witness : ∃ e s', issue_dispatch sample_config "work" true cancelled_in = (Raise e, s')
  ∧ es_cancelled s' = true.
Proof.
  assert (∃ e s', issue_dispatch sample_config "work" true cancelled_in = (Raise e, s')) as (e & s' & H).
  { eexists _, _. vm_compute. reflexivity. }
  exists e, s'. split; [exact H|].
  apply (cancel_final sample_config ∅ sample_fresh sample_fresh [ticket_in] reported_in " STOP " (Ok tt) cancelled_in
    ([] ++ []) s' sample_init sample_run).
  - vm_compute. reflexivity.
  - vm_compute. discriminate.
  - exact (steps_step _ _ [] s' [] s' (step_refuse _ _ _ _ _ _ H) (steps_refl _ s')).
Defined.

Lemma dispatch_outcome_witness : ∃ n, en_node_id n = "in" ∧ dispatched_state n ticket_in sample_fresh after_in.
Proof.
  destruct (dispatch_outcome sample_config "in" false sample_fresh after_in (Ok ticket_in) sample_plan_valid issue_in)
    as (n & deps & _ & Hid & _ & _ & _ & Hs).
  exists n. split; [exact Hid|exact Hs].
Defined.

(** The checkpoint of a process that stopped with its first dispatch unreported. *)
Definition unfinished : RecoveredExecutionState := Eval vm_compute in {|
  rx_task_id := xp_task_id sample_plan; rx_plan_fingerprint := dt_plan_fingerprint ticket_in;
  rx_dispatches := [ticket_in]; rx_observations := [];
  rx_recovery_required_ticket_ids := [dt_ticket_id ticket_in]; rx_cancellation_reason := None |}.
Definition sample_restored : sample_state :=
  Eval vm_compute in (ExecutionScheduler_init sample_config ∅ (start_state 10 ∅ (Some unfinished))).2.
Lemma sample_restore :
  ExecutionScheduler_init sample_config ∅ (start_state 10 ∅ (Some unfinished)) = (Ok tt, sample_restored).
Proof. vm_compute. reflexivity. Qed.

Example unexpected_recovery_set : (ExecutionScheduler_init sample_config ∅ (start_state (B := Z) (R := gset string) 10 ∅
    (Some {| rx_task_id := rx_task_id unfinished; rx_plan_fingerprint := rx_plan_fingerprint unfinished;
             rx_dispatches := [ticket_in]; rx_observations := []; rx_recovery_required_ticket_ids := [];
             rx_cancellation_reason := None |}))).1 = es_fail "SCHEDULER_CHECKPOINT_RECOVERY_SET_MISMATCH".
Proof. vm_compute. reflexivity. Qed.

Definition refused_work : sample_state :=
  Eval vm_compute in (issue_dispatch sample_config "work" true sample_restored).2.
Lemma refuse_work : issue_dispatch sample_config "work" true sample_restored
  = (es_fail "SCHEDULER_RECOVERY_REQUIRED", refused_work).
Proof. vm_compute. reflexivity. Qed.

Lemma recovery_first_witness : ∃ ts, steps sample_config sample_restored ts refused_work ∧ ts = [].
Proof.
  exists ([] ++ []).
  assert (steps sample_config sample_restored ([] ++ []) refused_work) as Hrun.
  { exact (steps_step sample_config sample_restored [] refused_work [] refused_work
      (step_refuse _ _ _ _ _ _ refuse_work) (steps_refl sample_config refused_work)). }
  split; [exact Hrun|].
  pose proof (recovery_first sample_config ∅ (start_state 10 ∅ (Some unfinished)) sample_restored ([] ++ []) refused_work) as X.
  specialize (X sample_restore). specialize (X Hrun). apply X. vm_compute. discriminate.
Defined.

Definition sample_work_node : ExecutionNode.
Proof.
  let r := eval vm_compute in (xp_nodes sample_plan !! 1%nat) in match r with Some ?n => exact n end.
Defined.
Lemma sample_work_in : sample_work_node ∈ xp_nodes sample_plan.
Proof. apply (list_elem_of_lookup_2 _ 1%nat). vm_compute. reflexivity. Qed.

Lemma reported_faithful : ids_faithful (_ordered_observations sample_config reported_in).
Proof.
  assert (_ordered_observations sample_config reported_in = [sample_in]) as -> by (vm_compute; reflexivity).
  apply sample_faithful. intros o ->%list_elem_of_singleton. left.
Qed.

Lemma ready_dispatches_witness : ∃ t s', issue_dispatch sample_config (en_node_id sample_work_node)
  (bool_decide (en_node_id sample_work_node ∈ ({["work"]} : gset string))) reported_in = (Ok t, s').
Proof.
  pose proof (ready_dispatches sample_config ∅ sample_fresh sample_fresh [ticket_in] reported_in {["work"]} ["work"]
    sample_work_node sample_init sample_run) as X.
  destruct X as [H|(o & o' & f & Ho & Ho' & [E Hne] & _)]; [..|exact H|destruct (Hne (reported_faithful o o' Ho Ho' E))].
  - vm_compute. reflexivity.
  - exact sample_work_in.
  - left.
  - split; [|split].
    + eexists. split; [reflexivity|]. eexists. vm_compute. reflexivity.
    + eexists. split; [vm_compute; reflexivity|exact I].
    + intros c t H. discriminate H.
Defined.

Lemma scheduler_progress_witness : ∃ ids, ready_node_ids sample_config {["work"]} reported_in = Ok ids ∧ ids ≠ [].
Proof.
  destruct (scheduler_progress sample_config ∅ sample_fresh sample_fresh [ticket_in] reported_in {["work"]}
    sample_init sample_run) as [Hdone|[H|(o & o' & Ho & Ho' & [E Hne])]]; [reflexivity..| | | |exact H|].
  - intros id o. assert (es_observations reported_in = <["in" := sample_in]> ∅) as -> by (vm_compute; reflexivity).
    intros [[_ <-]|[_ []%lookup_empty_Some]]%lookup_insert_Some. reflexivity.
  - intros id. rewrite elem_of_singleton. split.
    + intros ->. exists sample_work_node. split; [exact sample_work_in|split; vm_compute; reflexivity].
    + intros (n & Hn & <- & Ha). revert Ha. change (xp_nodes sample_plan) with (xp_nodes sample_plan) in Hn.
      repeat (apply elem_of_cons in Hn as [->|Hn]; [vm_compute; first [discriminate|reflexivity]|]).
      by apply not_elem_of_nil in Hn.
  - exfalso. destruct (Hdone sample_work_node sample_work_in) as [o Ho]. vm_compute in Ho. discriminate Ho.
  - destruct (Hne (reported_faithful o o' Ho Ho' E)).
Defined.
End Examples.
