(* ===== verification/ExecutionCheckpoint.v ===== *)
(** * Execution checkpoints

    [execution_checkpoint.py]: the SQLite tables that keep the scheduler's tickets and
    observations and a hash-chained log of events, and the recovery of a scheduler state
    from them. A write transaction takes effect as a whole or not at all, and fails when
    another connection holds the write lock. *)

From Stdlib Require Import Ascii SpecFloat.
From Stdlib Require String DecimalString.
From S2P Require Import Prelude PyStr Hashlib PyFloat Json JsonFacts PyTime Validators TaskContract.
From S2P Require Import CapabilityAuthority WorkflowDesign ContextManifest TaskContext ExecutionPlan PlanFacts.
From S2P Require Import ExecutionObservation RuntimeScheduler ExecutionScheduler.

Local Open Scope Z_scope.

Definition ZERO_HASH : string := "sha256:" +:+ repeat_str 64 "0".

Definition cp_fail {A} (msg : string) : result A := raise ExecutionCheckpointError msg.
Definition cp_fail_if (b : bool) (msg : string) : result unit := raise_if b ExecutionCheckpointError msg.

Definition _canonical_json : json → result string :=
  canonical_json ExecutionCheckpointError "CHECKPOINT_NOT_CANONICAL_JSON".
Definition _digest_payload `{Hashlib} : json → result string :=
  digest ExecutionCheckpointError "CHECKPOINT_NOT_CANONICAL_JSON".
Definition _require_sha256 (value field : string) : result string :=
  cp_fail_if (negb (is_sha256_ref value)) (invalid field) ;; Ok value.

(** ** Payload values *)

(** [v == s] and [v is True]. *)
Definition is_str (v : json) (s : string) : bool := match v with JStr t => bool_decide (t = s) | _ => false end.
Definition is_true (v : json) : bool := match v with JBool b => b | _ => false end.

(** [int(text)]: blanks around it, a sign, digits with single underscores between them. *)
Fixpoint int_digits (acc : Z) (after_digit : bool) (s : string) : option Z :=
  match s with
  | EmptyString => if after_digit then Some acc else None
  | String c s =>
      if is_digit c then int_digits (10 * acc + (Z.of_N (code c) - 48)) true s
      else if bool_decide (c = "_"%char) && after_digit
      then match s with EmptyString => None | _ => int_digits acc false s end
      else None
  end.
Definition int_of_text (s : string) : option Z :=
  match strip s with
  | String "-" t => Z.opp <$> int_digits 0 false t
  | String "+" t => int_digits 0 false t
  | t => int_digits 0 false t
  end.

(** [int(v)]. *)
Definition py_int (v : json) : result Z :=
  match v with
  | JInt z => Ok z
  | JBool b => Ok (if b then 1 else 0)
  | JFloat (S754_zero _) => Ok 0
  | JFloat (S754_finite s m e) =>
      let n := if 0 <=? e then Z.pos m * 2 ^ e else Z.pos m / 2 ^ (- e) in Ok (if s then - n else n)
  | JFloat (S754_infinity _) => raise PyOverflowError "cannot convert float infinity to integer"
  | JFloat S754_nan => raise PyValueError "cannot convert float NaN to integer"
  | JStr s =>
      match int_of_text s with
      | Some z => Ok z
      | None => raise PyValueError ("invalid literal for int() with base 10: " +:+ repr_str s)
      end
  | JNull | JList _ | JObj _ =>
      raise PyTypeError "int() argument must be a string, a bytes-like object or a real number"
  end.

(** [set(payload) == {...}]. *)
Definition has_keys (d : list (string * json)) (keys : list string) : bool :=
  bool_decide ((list_to_set (map fst d) : gset string) = list_to_set keys).

(** [None if v is None else str(v)]. *)
Definition opt_py_str (v : json) : option string := match v with JNull => None | _ => Some (py_str v) end.

(** The strings of a list of strings. *)
Fixpoint strings_of (l : list json) : option (list string) :=
  match l with
  | [] => Some []
  | JStr s :: l => cons s <$> strings_of l
  | _ :: _ => None
  end.

(** [except (TypeError, ValueError)]. *)
Definition type_or_value_error (c : exn_class) : bool := bool_decide (c = PyTypeError) || is_value_error c.

Section Payloads.
Context {HL : Hashlib}.

Definition _parse_canonical_payload (raw_json stored_sha256 kind : string) : result json :=
  payload ← reraise (loads raw_json) (is_class PyJSONDecodeError) ExecutionCheckpointError
              (kind +:+ "_CHECKPOINT_JSON_INVALID");
  canonical ← _canonical_json payload;
  cp_fail_if (negb (bool_decide (canonical = raw_json))) (kind +:+ "_CHECKPOINT_NOT_CANONICAL") ;;
  digest ← _digest_payload payload;
  cp_fail_if (negb (bool_decide (stored_sha256 = digest))) (kind +:+ "_CHECKPOINT_DIGEST_MISMATCH") ;;
  Ok payload.

(** ** Dispatches *)

Definition _validate_dispatch_fingerprints (t : DispatchTicket) : result unit :=
  _require_sha256 (dt_plan_fingerprint t) "plan_fingerprint" ;;
  _require_sha256 (dt_node_fingerprint t) "node_fingerprint" ;;
  _require_sha256 (dt_authority_fingerprint t) "authority_fingerprint" ;;
  iterM (λ d, _require_sha256 d "dependency_observation_fingerprint" ;; Ok tt)
    (dt_dependency_observation_fingerprints t).

Definition dispatch_items (t : DispatchTicket) : list (string * json) := [
  ("ticket_id", JStr (dt_ticket_id t)); ("schema_version", JStr (dt_schema_version t));
  ("task_id", JStr (dt_task_id t)); ("plan_fingerprint", JStr (dt_plan_fingerprint t));
  ("node_id", JStr (dt_node_id t)); ("node_fingerprint", JStr (dt_node_fingerprint t));
  ("authority_fingerprint", JStr (dt_authority_fingerprint t));
  ("dependency_observation_fingerprints", json_strs (dt_dependency_observation_fingerprints t));
  ("dispatch_sequence", JInt (dt_dispatch_sequence t)); ("execution_level", JInt (dt_execution_level t));
  ("dispatch_authorized", JBool (dt_dispatch_authorized t))].

Definition _dispatch_payload (t : DispatchTicket) : result json :=
  DispatchTicket_validate t ;; _validate_dispatch_fingerprints t ;; Ok (JObj (dispatch_items t)).

Definition DISPATCH_KEYS : list string := [
  "ticket_id"; "schema_version"; "task_id"; "plan_fingerprint"; "node_id"; "node_fingerprint";
  "authority_fingerprint"; "dependency_observation_fingerprints"; "dispatch_sequence"; "execution_level";
  "dispatch_authorized"].

Definition _dispatch_from_payload (payload : json) : result DispatchTicket :=
  match payload with
  | JObj d =>
      cp_fail_if (negb (has_keys d DISPATCH_KEYS)) "DISPATCH_CHECKPOINT_FIELDS_MISMATCH" ;;
      cp_fail_if (negb (is_str (get d "schema_version") DISPATCH_TICKET_SCHEMA))
        "DISPATCH_CHECKPOINT_SCHEMA_VERSION_MISMATCH" ;;
      cp_fail_if (negb (is_true (get d "dispatch_authorized"))) "DISPATCH_CHECKPOINT_NOT_AUTHORIZED" ;;
      dependencies ← match get d "dependency_observation_fingerprints" with
                     | JList l =>
                         match strings_of l with
                         | Some ds => if forallb is_sha256_ref ds then Ok ds
                                      else cp_fail "INVALID_DISPATCH_DEPENDENCY_FINGERPRINTS"
                         | None => cp_fail "INVALID_DISPATCH_DEPENDENCY_FINGERPRINTS"
                         end
                     | _ => cp_fail "INVALID_DISPATCH_DEPENDENCY_FINGERPRINTS"
                     end;
      reraise (
        plan_fingerprint ← _require_sha256 (py_str (get d "plan_fingerprint")) "plan_fingerprint";
        node_fingerprint ← _require_sha256 (py_str (get d "node_fingerprint")) "node_fingerprint";
        authority_fingerprint ← _require_sha256 (py_str (get d "authority_fingerprint")) "authority_fingerprint";
        sequence ← py_int (get d "dispatch_sequence");
        level ← py_int (get d "execution_level");
        let ticket := {|
          dt_ticket_id := py_str (get d "ticket_id"); dt_task_id := py_str (get d "task_id");
          dt_plan_fingerprint := plan_fingerprint; dt_node_id := py_str (get d "node_id");
          dt_node_fingerprint := node_fingerprint; dt_authority_fingerprint := authority_fingerprint;
          dt_dependency_observation_fingerprints := dependencies; dt_dispatch_sequence := sequence;
          dt_execution_level := level; dt_schema_version := py_str (get d "schema_version");
          dt_dispatch_authorized := true |} in
        DispatchTicket_validate ticket ;;
        _validate_dispatch_fingerprints ticket ;;
        Ok ticket) type_or_value_error ExecutionCheckpointError "INVALID_DISPATCH_CHECKPOINT"
  | _ => cp_fail "DISPATCH_CHECKPOINT_MUST_BE_OBJECT"
  end.

(** ** Observations *)

Definition OBSERVATION_KEYS : list string := [
  "observation_id"; "schema_version"; "task_id"; "task_context_fingerprint"; "plan_fingerprint"; "node_id";
  "node_fingerprint"; "authority_fingerprint"; "status"; "started_at"; "finished_at"; "normalized_output";
  "normalized_output_sha256"; "error_class"; "evidence_bindings"; "cost"].

Definition binding_from_payload (raw : json) : result ExecutionEvidenceBinding :=
  match raw with
  | JObj d =>
      cp_fail_if (negb (has_keys d ["schema_version"; "requirement"; "evidence_ref"; "evidence_fingerprint"]))
        "INVALID_OBSERVATION_EVIDENCE_BINDING" ;;
      cp_fail_if (negb (is_str (get d "schema_version") EXECUTION_EVIDENCE_BINDING_SCHEMA))
        "EVIDENCE_BINDING_SCHEMA_VERSION_MISMATCH" ;;
      ExecutionEvidenceBinding_validate {|
        eb_evidence_ref := py_str (get d "evidence_ref");
        eb_evidence_fingerprint := py_str (get d "evidence_fingerprint");
        eb_requirement := opt_py_str (get d "requirement");
        eb_schema_version := py_str (get d "schema_version") |}
  | _ => cp_fail "INVALID_OBSERVATION_EVIDENCE_BINDING"
  end.

(** [ObservationCost(...).validate()] on values that may be of any type. *)
Definition raw_num (v : json) : option pynum :=
  match v with JInt z => Some (NInt z) | JFloat f => Some (NFloat f) | _ => None end.
Definition raw_int (v : json) : option Z := match v with JInt z => Some z | _ => None end.

Definition cost_of_raw (wall tokens calls usd : json) : result ObservationCost :=
  w ← match raw_num wall with
      | Some w => ob_fail_if (num_lt w (NInt 0)) "INVALID_OBSERVATION_WALL_TIME" ;; Ok w
      | None => ob_fail "INVALID_OBSERVATION_WALL_TIME"
      end;
  t ← match raw_int tokens with
      | Some t => ob_fail_if (t <? 0) "INVALID_OBSERVATION_MODEL_TOKENS" ;; Ok t
      | None => ob_fail "INVALID_OBSERVATION_MODEL_TOKENS"
      end;
  c ← match raw_int calls with
      | Some c => ob_fail_if (c <? 0) "INVALID_OBSERVATION_TOOL_CALLS" ;; Ok c
      | None => ob_fail "INVALID_OBSERVATION_TOOL_CALLS"
      end;
  u ← match usd with
      | JNull => Ok None
      | _ => match raw_num usd with
             | Some u => ob_fail_if (num_lt u (NInt 0)) "INVALID_OBSERVATION_COST_USD" ;; Ok (Some u)
             | None => ob_fail "INVALID_OBSERVATION_COST_USD"
             end
      end;
  Ok {| oc_wall_time_s := w; oc_model_tokens := t; oc_tool_calls := c; oc_cost_usd := u |}.

Definition cost_from_payload (raw : json) : result (option ObservationCost) :=
  match raw with
  | JNull => Ok None
  | JObj d =>
      cp_fail_if (negb (has_keys d ["wall_time_s"; "model_tokens"; "tool_calls"; "cost_usd"])) "INVALID_OBSERVATION_COST" ;;
      Some <$> cost_of_raw (get d "wall_time_s") (get d "model_tokens") (get d "tool_calls") (get d "cost_usd")
  | _ => cp_fail "INVALID_OBSERVATION_COST"
  end.

Definition _observation_from_payload (payload : json) : result ExecutionObservation :=
  match payload with
  | JObj d =>
      cp_fail_if (negb (has_keys d OBSERVATION_KEYS)) "OBSERVATION_CHECKPOINT_FIELDS_MISMATCH" ;;
      cp_fail_if (negb (is_str (get d "schema_version") EXECUTION_OBSERVATION_SCHEMA))
        "OBSERVATION_CHECKPOINT_SCHEMA_VERSION_MISMATCH" ;;
      bindings ← match get d "evidence_bindings" with
                 | JList l => mapM binding_from_payload l
                 | _ => cp_fail "INVALID_OBSERVATION_EVIDENCE_BINDINGS"
                 end;
      cost ← cost_from_payload (get d "cost");
      output ← match get d "normalized_output" with
               | JNull => Ok None
               | v => Some <$> _canonical_json v
               end;
      let observation := {|
        eo_observation_id := py_str (get d "observation_id"); eo_task_id := py_str (get d "task_id");
        eo_task_context_fingerprint := py_str (get d "task_context_fingerprint");
        eo_plan_fingerprint := py_str (get d "plan_fingerprint"); eo_node_id := py_str (get d "node_id");
        eo_node_fingerprint := py_str (get d "node_fingerprint");
        eo_authority_fingerprint := py_str (get d "authority_fingerprint"); eo_status := py_str (get d "status");
        eo_started_at := py_str (get d "started_at"); eo_finished_at := py_str (get d "finished_at");
        eo_normalized_output_json := output; eo_error_class := opt_py_str (get d "error_class");
        eo_evidence_bindings := bindings; eo_cost := cost; eo_schema_version := py_str (get d "schema_version") |} in
      reraise (ExecutionObservation_validate observation None None) type_or_value_error ExecutionCheckpointError
        "INVALID_OBSERVATION_CHECKPOINT" ;;
      cp_fail_if (negb (match normalized_output_sha256 observation with
                        | None => match get d "normalized_output_sha256" with JNull => true | _ => false end
                        | Some h => is_str (get d "normalized_output_sha256") h
                        end)) "OBSERVATION_OUTPUT_DIGEST_MISMATCH" ;;
      Ok observation
  | _ => cp_fail "OBSERVATION_CHECKPOINT_MUST_BE_OBJECT"
  end.
End Payloads.

(** ** The database *)

Record dispatch_row := {
  pd_ticket_id : string; pd_task_id : string; pd_plan_fingerprint : string; pd_node_id : string;
  pd_dispatch_sequence : Z; pd_ticket_json : string; pd_ticket_sha256 : string; pd_recorded_at : string
}.
Record observation_row := {
  po_observation_id : string; po_task_id : string; po_plan_fingerprint : string; po_node_id : string;
  po_observation_json : string; po_observation_sha256 : string; po_recorded_at : string
}.
Record event_row := {
  pe_task_id : string; pe_plan_fingerprint : string; pe_event_type : string; pe_subject_id : string;
  pe_payload_json : string; pe_payload_sha256 : string; pe_previous_hash : string; pe_event_hash : string;
  pe_recorded_at : string
}.

(** The rows of each table in rowid order, the order of an event's [sequence]. *)
Record CheckpointTables := {
  ct_dispatches : list dispatch_row;
  ct_observations : list observation_row;
  ct_events : list event_row
}.
Definition no_rows : CheckpointTables := {| ct_dispatches := []; ct_observations := []; ct_events := [] |}.

(** The tasks of the store, the tables once they are created, the clock, and whether another
    connection keeps the write lock. *)
Record CheckpointStore := {
  cs_tasks : gset string;
  cs_tables : option CheckpointTables;
  cs_now : string;
  cs_locked : bool
}.

Definition set_tables (t : CheckpointTables) (s : CheckpointStore) : CheckpointStore := {|
  cs_tasks := cs_tasks s; cs_tables := Some t; cs_now := cs_now s; cs_locked := cs_locked s |}.

(** [with conn: conn.execute("BEGIN IMMEDIATE"); ...] *)
Definition transaction {A} (m : ST CheckpointStore A) : ST CheckpointStore A := λ s,
  if cs_locked s then (raise SqliteOperationalError "database is locked", s)
  else match m s with
       | (Ok a, s') => (Ok a, s')
       | (Raise e, _) => (Raise e, s)
       end.

(** A statement on the tables. *)
Definition read_table {A} (name : string) (rows : CheckpointTables → list A) : ST CheckpointStore (list A) := λ s,
  (match cs_tables s with
   | Some t => Ok (rows t)
   | None => raise SqliteOperationalError ("no such table: " +:+ name)
   end, s).
Definition read_dispatches := read_table "execution_dispatch_checkpoints" ct_dispatches.
Definition read_observations := read_table "execution_observation_checkpoints" ct_observations.
Definition read_events := read_table "execution_checkpoint_events" ct_events.

Definition write_tables (f : CheckpointTables → CheckpointTables) : ST CheckpointStore unit :=
  st_modify (λ s, match cs_tables s with Some t => set_tables (f t) s | None => s end).

Definition in_scope (task_id plan_fingerprint : string) (task plan : string) : bool :=
  bool_decide (task = task_id) && bool_decide (plan = plan_fingerprint).
Definition dispatch_in (task_id plan_fingerprint : string) (r : dispatch_row) : bool :=
  in_scope task_id plan_fingerprint (pd_task_id r) (pd_plan_fingerprint r).
Definition observation_in (task_id plan_fingerprint : string) (r : observation_row) : bool :=
  in_scope task_id plan_fingerprint (po_task_id r) (po_plan_fingerprint r).
Definition event_in (task_id plan_fingerprint : string) (r : event_row) : bool :=
  in_scope task_id plan_fingerprint (pe_task_id r) (pe_plan_fingerprint r).

Definition insert_dispatch (r : dispatch_row) : ST CheckpointStore unit :=
  rows ← read_dispatches;
  st_lift (sqlite_int (pd_dispatch_sequence r)) ;;
  st_raise_if (existsb (λ x, bool_decide (pd_ticket_id x = pd_ticket_id r)) rows) SqliteIntegrityError
    "UNIQUE constraint failed: execution_dispatch_checkpoints.ticket_id" ;;
  st_raise_if (existsb (λ x, dispatch_in (pd_task_id r) (pd_plan_fingerprint r) x && bool_decide (pd_node_id x = pd_node_id r)) rows)
    SqliteIntegrityError "UNIQUE constraint failed: execution_dispatch_checkpoints.task_id, execution_dispatch_checkpoints.plan_fingerprint, execution_dispatch_checkpoints.node_id" ;;
  write_tables (λ t, {| ct_dispatches := ct_dispatches t ++ [r]; ct_observations := ct_observations t; ct_events := ct_events t |}).

Definition insert_observation (r : observation_row) : ST CheckpointStore unit :=
  rows ← read_observations;
  st_raise_if (existsb (λ x, bool_decide (po_observation_id x = po_observation_id r)) rows) SqliteIntegrityError
    "UNIQUE constraint failed: execution_observation_checkpoints.observation_id" ;;
  st_raise_if (existsb (λ x, observation_in (po_task_id r) (po_plan_fingerprint r) x && bool_decide (po_node_id x = po_node_id r)) rows)
    SqliteIntegrityError "UNIQUE constraint failed: execution_observation_checkpoints.task_id, execution_observation_checkpoints.plan_fingerprint, execution_observation_checkpoints.node_id" ;;
  write_tables (λ t, {| ct_dispatches := ct_dispatches t; ct_observations := ct_observations t ++ [r]; ct_events := ct_events t |}).

Definition insert_event (r : event_row) : ST CheckpointStore unit :=
  read_events ;;
  write_tables (λ t, {| ct_dispatches := ct_dispatches t; ct_observations := ct_observations t; ct_events := ct_events t ++ [r] |}).

(** [CREATE TABLE IF NOT EXISTS] writes only when the table is missing. *)
Definition CheckpointRepository_initialize : ST CheckpointStore unit := λ s,
  match cs_tables s with
  | Some _ => (Ok tt, s)
  | None => if cs_locked s then (raise SqliteOperationalError "database is locked", s) else (Ok tt, set_tables no_rows s)
  end.

Definition _require_task (task_id : string) : ST CheckpointStore unit :=
  s ← st_get;
  st_raise_if (bool_decide (task_id ∉ cs_tasks s)) ExecutionCheckpointError "EXECUTION_CHECKPOINT_TASK_NOT_FOUND".

Section Repository.
Context {HL : Hashlib}.

Definition _event_hash (task_id plan_fingerprint event_type subject_id payload_json payload_sha256 previous_hash
    recorded_at : string) : result string :=
  _digest_payload (JObj [
    ("task_id", JStr task_id); ("plan_fingerprint", JStr plan_fingerprint); ("event_type", JStr event_type);
    ("subject_id", JStr subject_id); ("payload_json", JStr payload_json); ("payload_sha256", JStr payload_sha256);
    ("previous_hash", JStr previous_hash); ("recorded_at", JStr recorded_at)]).

(** The hash of the last event of a task and plan. *)
Definition chain_head (events : list event_row) (task_id plan_fingerprint : string) : string :=
  match last (List.filter (event_in task_id plan_fingerprint) events) with
  | Some e => pe_event_hash e
  | None => ZERO_HASH
  end.

Definition _append_event (task_id plan_fingerprint event_type subject_id payload_json payload_sha256 recorded_at : string)
    : ST CheckpointStore unit :=
  events ← read_events;
  let previous_hash := chain_head events task_id plan_fingerprint in
  event_hash ← st_lift (_event_hash task_id plan_fingerprint event_type subject_id payload_json payload_sha256
                          previous_hash recorded_at);
  insert_event {|
    pe_task_id := task_id; pe_plan_fingerprint := plan_fingerprint; pe_event_type := event_type;
    pe_subject_id := subject_id; pe_payload_json := payload_json; pe_payload_sha256 := payload_sha256;
    pe_previous_hash := previous_hash; pe_event_hash := event_hash; pe_recorded_at := recorded_at |}.

Definition dispatch_row_of (t : DispatchTicket) (payload_json payload_sha256 now : string) : dispatch_row := {|
  pd_ticket_id := dt_ticket_id t; pd_task_id := dt_task_id t; pd_plan_fingerprint := dt_plan_fingerprint t;
  pd_node_id := dt_node_id t; pd_dispatch_sequence := dt_dispatch_sequence t; pd_ticket_json := payload_json;
  pd_ticket_sha256 := payload_sha256; pd_recorded_at := now |}.
Definition observation_row_of (o : ExecutionObservation) (payload_json payload_sha256 now : string) : observation_row := {|
  po_observation_id := eo_observation_id o; po_task_id := eo_task_id o; po_plan_fingerprint := eo_plan_fingerprint o;
  po_node_id := eo_node_id o; po_observation_json := payload_json; po_observation_sha256 := payload_sha256;
  po_recorded_at := now |}.

(** The stored payload under an identity that is recorded already. *)
Definition same_payload (raw_json stored_sha256 kind payload_sha256 : string) : result unit :=
  existing_payload ← _parse_canonical_payload raw_json stored_sha256 kind;
  existing_sha256 ← _digest_payload existing_payload;
  cp_fail_if (negb (bool_decide (existing_sha256 = payload_sha256))) (kind +:+ "_CHECKPOINT_IDENTITY_CONFLICT").

Definition CheckpointRepository_record_dispatch (ticket : DispatchTicket) : ST CheckpointStore DispatchTicket :=
  payload ← st_lift (_dispatch_payload ticket);
  payload_json ← st_lift (_canonical_json payload);
  payload_sha256 ← st_lift (_digest_payload payload);
  s ← st_get;
  transaction (
    _require_task (dt_task_id ticket) ;;
    rows ← read_dispatches;
    match List.find (λ r, bool_decide (pd_ticket_id r = dt_ticket_id ticket)) rows with
    | Some existing =>
        st_lift (same_payload (pd_ticket_json existing) (pd_ticket_sha256 existing) "DISPATCH" payload_sha256) ;;
        mret ticket
    | None =>
        st_raise_if (existsb (λ r, dispatch_in (dt_task_id ticket) (dt_plan_fingerprint ticket) r
                                   && bool_decide (pd_node_id r = dt_node_id ticket)) rows)
          ExecutionCheckpointError "DISPATCH_CHECKPOINT_NODE_CONFLICT" ;;
        insert_dispatch (dispatch_row_of ticket payload_json payload_sha256 (cs_now s)) ;;
        _append_event (dt_task_id ticket) (dt_plan_fingerprint ticket) "DISPATCH_RECORDED" (dt_ticket_id ticket)
          payload_json payload_sha256 (cs_now s) ;;
        mret ticket
    end).

Definition CheckpointRepository_record_observation (observation : ExecutionObservation)
    : ST CheckpointStore ExecutionObservation :=
  st_lift (ExecutionObservation_validate observation None None) ;;
  payload ← st_lift (ExecutionObservation_canonical_dict observation);
  payload_json ← st_lift (_canonical_json payload);
  payload_sha256 ← st_lift (_digest_payload payload);
  s ← st_get;
  transaction (
    _require_task (eo_task_id observation) ;;
    dispatch_rows ← read_dispatches;
    match List.find (λ r, dispatch_in (eo_task_id observation) (eo_plan_fingerprint observation) r
                          && bool_decide (pd_node_id r = eo_node_id observation)) dispatch_rows with
    | None => st_lift (cp_fail "OBSERVATION_CHECKPOINT_REQUIRES_DISPATCH")
    | Some ticket =>
        dispatch_payload ← st_lift (_parse_canonical_payload (pd_ticket_json ticket) (pd_ticket_sha256 ticket) "DISPATCH");
        dispatch ← st_lift (_dispatch_from_payload dispatch_payload);
        st_raise_if (negb (bool_decide (eo_node_fingerprint observation = dt_node_fingerprint dispatch)))
          ExecutionCheckpointError "OBSERVATION_CHECKPOINT_NODE_MISMATCH" ;;
        st_raise_if (negb (bool_decide (eo_authority_fingerprint observation = dt_authority_fingerprint dispatch)))
          ExecutionCheckpointError "OBSERVATION_CHECKPOINT_AUTHORITY_MISMATCH" ;;
        rows ← read_observations;
        match List.find (λ r, bool_decide (po_observation_id r = eo_observation_id observation)) rows with
        | Some existing =>
            st_lift (same_payload (po_observation_json existing) (po_observation_sha256 existing) "OBSERVATION"
                       payload_sha256) ;;
            mret observation
        | None =>
            st_raise_if (existsb (λ r, observation_in (eo_task_id observation) (eo_plan_fingerprint observation) r
                                       && bool_decide (po_node_id r = eo_node_id observation)) rows)
              ExecutionCheckpointError "OBSERVATION_CHECKPOINT_NODE_CONFLICT" ;;
            insert_observation (observation_row_of observation payload_json payload_sha256 (cs_now s)) ;;
            _append_event (eo_task_id observation) (eo_plan_fingerprint observation) "OBSERVATION_RECORDED"
              (eo_observation_id observation) payload_json payload_sha256 (cs_now s) ;;
            mret observation
        end
    end).

(** The last [CANCELLED] event of a task and plan. *)
Definition last_cancellation (events : list event_row) (task_id plan_fingerprint : string) : option event_row :=
  last (List.filter (λ e, event_in task_id plan_fingerprint e && bool_decide (pe_event_type e = "CANCELLED")) events).

(** Whether the latest cancellation has the payload. *)
Definition same_cancellation (latest : option event_row) (payload_json : string) : result bool :=
  match latest with
  | None => Ok false
  | Some latest =>
      latest_payload ← _parse_canonical_payload (pe_payload_json latest) (pe_payload_sha256 latest) "CANCELLATION";
      latest_json ← _canonical_json latest_payload;
      Ok (bool_decide (latest_json = payload_json))
  end.

Definition CheckpointRepository_record_cancellation (task_id plan_fingerprint reason_code : string)
    : ST CheckpointStore unit :=
  st_lift (_require_sha256 plan_fingerprint "plan_fingerprint") ;;
  st_raise_if (is_empty (strip reason_code)) ExecutionCheckpointError "INVALID_CANCELLATION_REASON" ;;
  let payload := JObj [("reason_code", JStr (strip reason_code))] in
  payload_json ← st_lift (_canonical_json payload);
  payload_sha256 ← st_lift (_digest_payload payload);
  s ← st_get;
  transaction (
    _require_task task_id ;;
    events ← read_events;
    recorded ← st_lift (same_cancellation (last_cancellation events task_id plan_fingerprint) payload_json);
    if (recorded : bool) then mret tt
    else _append_event task_id plan_fingerprint "CANCELLED" task_id payload_json payload_sha256 (cs_now s)).

(** ** Reading back *)

Fixpoint verify_rows (previous_hash : string) (rows : list event_row) : result bool :=
  match rows with
  | [] => Ok true
  | row :: rows =>
      match loads (pe_payload_json row) with
      | Raise e => if is_class PyJSONDecodeError (exn_cls e) then Ok false else Raise e
      | Ok payload =>
          canonical ← _canonical_json payload;
          if negb (bool_decide (canonical = pe_payload_json row)) then Ok false
          else
            payload_sha256 ← _digest_payload payload;
            if negb (bool_decide (pe_payload_sha256 row = payload_sha256)) then Ok false
            else if negb (bool_decide (pe_previous_hash row = previous_hash)) then Ok false
            else
              expected ← _event_hash (pe_task_id row) (pe_plan_fingerprint row) (pe_event_type row) (pe_subject_id row)
                           (pe_payload_json row) payload_sha256 previous_hash (pe_recorded_at row);
              if negb (bool_decide (pe_event_hash row = expected)) then Ok false
              else verify_rows expected rows
      end
  end.

Definition verify_event_chain (task_id plan_fingerprint : string) : ST CheckpointStore bool :=
  events ← read_events;
  st_lift (verify_rows ZERO_HASH (List.filter (event_in task_id plan_fingerprint) events)).

(** [ORDER BY]; rows with equal keys keep their order. *)
Fixpoint insert_by {A} (le : A → A → bool) (x : A) (l : list A) : list A :=
  match l with
  | [] => [x]
  | y :: l' => if le x y then x :: l else y :: insert_by le x l'
  end.
Definition order_by {A} (le : A → A → bool) (l : list A) : list A := foldr (insert_by le) [] l.

(** One round of the loop over the dispatch rows. *)
Definition load_dispatch (task_id plan_fingerprint : string) (acc : list DispatchTicket * gmap string DispatchTicket)
    (row : dispatch_row) : result (list DispatchTicket * gmap string DispatchTicket) :=
  payload ← _parse_canonical_payload (pd_ticket_json row) (pd_ticket_sha256 row) "DISPATCH";
  ticket ← _dispatch_from_payload payload;
  cp_fail_if (negb (bool_decide (dt_task_id ticket = task_id)) || negb (bool_decide (dt_plan_fingerprint ticket = plan_fingerprint)))
    "DISPATCH_CHECKPOINT_SCOPE_MISMATCH" ;;
  cp_fail_if (bool_decide (is_Some (snd acc !! dt_node_id ticket))) "DUPLICATE_DISPATCH_CHECKPOINT_NODE" ;;
  Ok (fst acc ++ [ticket], <[dt_node_id ticket := ticket]> (snd acc)).

(** One round of the loop over the observation rows. *)
Definition load_observation (task_id plan_fingerprint : string) (dispatch_by_node : gmap string DispatchTicket)
    (row : observation_row) : result ExecutionObservation :=
  payload ← _parse_canonical_payload (po_observation_json row) (po_observation_sha256 row) "OBSERVATION";
  observation ← _observation_from_payload payload;
  cp_fail_if (negb (bool_decide (eo_task_id observation = task_id))
              || negb (bool_decide (eo_plan_fingerprint observation = plan_fingerprint)))
    "OBSERVATION_CHECKPOINT_SCOPE_MISMATCH" ;;
  match dispatch_by_node !! eo_node_id observation with
  | None => cp_fail "OBSERVATION_CHECKPOINT_ORPHANED"
  | Some dispatch =>
      cp_fail_if (negb (bool_decide (eo_node_fingerprint observation = dt_node_fingerprint dispatch)))
        "OBSERVATION_CHECKPOINT_NODE_MISMATCH" ;;
      cp_fail_if (negb (bool_decide (eo_authority_fingerprint observation = dt_authority_fingerprint dispatch)))
        "OBSERVATION_CHECKPOINT_AUTHORITY_MISMATCH" ;;
      Ok observation
  end.

(** [payload.get("reason_code")], checked. *)
Definition cancellation_reason (row : event_row) : result string :=
  payload ← _parse_canonical_payload (pe_payload_json row) (pe_payload_sha256 row) "CANCELLATION";
  match payload with
  | JObj d =>
      match get d "reason_code" with
      | JStr reason => cp_fail_if (is_empty reason) "CANCELLATION_CHECKPOINT_INVALID" ;; Ok reason
      | _ => cp_fail "CANCELLATION_CHECKPOINT_INVALID"
      end
  | _ => raise PyAttributeError "object has no attribute 'get'"
  end.

(** The recovery of a state from the rows that were read. *)
Definition recover (task_id plan_fingerprint : string) (tables : CheckpointTables) : result RecoveredExecutionState :=
  '(dispatches, dispatch_by_node) ←
    foldM (load_dispatch task_id plan_fingerprint) ([], ∅)
      (order_by (λ a b, pd_dispatch_sequence a <=? pd_dispatch_sequence b)
         (List.filter (dispatch_in task_id plan_fingerprint) (ct_dispatches tables)));
  observations ←
    mapM (load_observation task_id plan_fingerprint dispatch_by_node)
      (order_by (λ a b, bool_decide (String.le (po_node_id a) (po_node_id b)))
         (List.filter (observation_in task_id plan_fingerprint) (ct_observations tables)));
  reason ← match last_cancellation (ct_events tables) task_id plan_fingerprint with
           | None => Ok None
           | Some row => Some <$> cancellation_reason row
           end;
  let observed_nodes := map eo_node_id observations in
  Ok {| rx_task_id := task_id; rx_plan_fingerprint := plan_fingerprint; rx_dispatches := dispatches;
        rx_observations := observations;
        rx_recovery_required_ticket_ids :=
          map dt_ticket_id (List.filter (λ t, negb (mem_str (dt_node_id t) observed_nodes)) dispatches);
        rx_cancellation_reason := reason |}.

Definition CheckpointRepository_load (task_id plan_fingerprint : string) : ST CheckpointStore RecoveredExecutionState :=
  st_lift (_require_sha256 plan_fingerprint "plan_fingerprint") ;;
  valid ← verify_event_chain task_id plan_fingerprint;
  st_raise_if (negb valid) ExecutionCheckpointError "EXECUTION_CHECKPOINT_EVENT_CHAIN_INVALID" ;;
  _require_task task_id ;;
  dispatches ← read_dispatches;
  observations ← read_observations;
  events ← read_events;
  st_lift (recover task_id plan_fingerprint
             {| ct_dispatches := dispatches; ct_observations := observations; ct_events := events |}).

#[export] Instance CheckpointRepository : SchedulerCheckpointRepository CheckpointStore := {
  initialize := CheckpointRepository_initialize;
  record_dispatch := CheckpointRepository_record_dispatch;
  record_observation := CheckpointRepository_record_observation;
  record_cancellation := CheckpointRepository_record_cancellation;
  load := CheckpointRepository_load
}.
End Repository.

Definition max_dispatch_sequence (r : RecoveredExecutionState) : Z :=
  match rx_dispatches r with
  | [] => 0
  | t :: ts => fold_left (λ m t, Z.max m (dt_dispatch_sequence t)) ts (dt_dispatch_sequence t)
  end.
