(* ===== verification/CheckpointFacts.v ===== *)
(** * Execution checkpoints: what is read back is what was written

    The round trips of tickets and observations through their stored payloads. *)

From Stdlib Require Import Ascii SpecFloat.
From Stdlib Require String.
From S2P Require Import Prelude PyStr Hashlib PyFloat Json JsonFacts PyTime Validators TaskContract.
From S2P Require Import CapabilityAuthority AuthorityFacts WorkflowDesign ContextManifest TaskContext.
From S2P Require Import ExecutionPlan PlanFacts ExecutionObservation ObservationFacts RuntimeScheduler ReadinessFacts.
From S2P Require Import ExecutionScheduler SchedulerFacts RestoreFacts ExecutionCheckpoint.

Local Open Scope Z_scope.

(** ** Dicts in canonical order *)

Definition canon_items (l : list (string * json)) : list (string * json) :=
  sort_items (map (λ kv, (kv.1, canon kv.2)) l).

Lemma canon_items_keys l : (canon_items l).*1 ≡ₚ l.*1.
Proof. 
  unfold canon_items. rewrite sort_items_perm. induction l as [|kv l IH]; [done|]. cbn. by rewrite IH.
Qed.

Lemma dict_get_elem k v d : NoDup d.*1 → dict_get k d = Some v ↔ (k, v) ∈ d.
Proof.
  induction d as [|[k' v'] d IH]; intros Hd; [split; [done|set_solver]|].
  cbn in Hd. apply NoDup_cons in Hd as [Hk Hd]. specialize (IH Hd). unfold dict_get in *. cbn [list_find].
  destruct (decide (k' = k)) as [->|Hne]; cbn.
  - rewrite decide_True by done. cbn. rewrite elem_of_cons. split; [by intros [= ->]; left|]. intros [[= ->]|Hin]; [done|].
    by apply (list_elem_of_fmap_2 fst) in Hin.
  - rewrite decide_False by done. rewrite elem_of_cons.
    destruct (list_find _ d) as [[i [k1 v1]]|] eqn:E; cbn in *; rewrite <- IH; naive_solver.
Qed.

Lemma dict_get_none k (d : list (string * json)) : k ∉ d.*1 → dict_get k d = None.
Proof.
  intros Hk. unfold dict_get. destruct (list_find _ d) as [[i [k' v]]|] eqn:E; [|done].
  apply list_find_Some in E as (Hi & Heq & _). cbn in Heq. subst. destruct Hk.
  apply (list_elem_of_fmap_2' fst _ (k, v)); [|done]. by eapply list_elem_of_lookup_2.
Qed.

Lemma get_canon l k : NoDup l.*1 → get (canon_items l) k = canon (get l k).
Proof.
  intros Hd. unfold get. assert (NoDup (canon_items l).*1) as Hd' by (by rewrite canon_items_keys).
  destruct (dict_get k l) as [v|] eqn:E.
  - apply dict_get_elem in E; [|done]. cbn. rewrite (proj2 (dict_get_elem k (canon v) _ Hd')); [done|].
    unfold canon_items. rewrite sort_items_perm. apply list_elem_of_fmap. by exists (k, v).
  - rewrite dict_get_none; [done|]. rewrite canon_items_keys. intros Hk.
    apply list_elem_of_fmap in Hk as ([k' v] & -> & Hin). apply dict_get_elem in Hin; [|done]. cbn in E. congruence.
Qed.

Lemma has_keys_canon l keys : has_keys (canon_items l) keys = has_keys l keys.
Proof.
  unfold has_keys. apply bool_decide_ext. change (map fst ?x) with (x.*1). by rewrite canon_items_keys.
Qed.

(** The value a literal dict has under a literal key. *)
Ltac read_items :=
  repeat match goal with
  | |- context [get ?l ?k] => match l with context [@pair _ _ k ?v] => change (get l k) with v end
  end.

(** ** Stored payloads *)

Lemma opt_py_str_json o : opt_py_str (json_opt_str o) = o.
Proof. by destruct o. Qed.
Lemma canon_opt_str o : canon (json_opt_str o) = json_opt_str o.
Proof. by destruct o. Qed.
Lemma strings_of_strs l : strings_of (map JStr l) = Some l.
Proof. induction l as [|s l IH]; [done|]. cbn [map strings_of]. by rewrite IH. Qed.

Section Payloads.
Context {HL : Hashlib}.

Lemma canonical_json_ok v : json_ok v = true → _canonical_json v = Ok (print v).
Proof. intros Hv. unfold _canonical_json, canonical_json. by rewrite dumps_ok. Qed.
Lemma digest_payload_ok v : json_ok v = true → _digest_payload v = Ok (sha256_of_text (print v)).
Proof. intros Hv. unfold _digest_payload, digest, canonical_json. by rewrite dumps_ok. Qed.

Lemma json_ok_canon v : json_ok v = true → json_ok (canon v) = true.
Proof.
  induction v as [| | | | |l IH|l IH] using json_ind'; intros Hok; try done.
  - cbn [canon json_ok] in *. rewrite forallb_forall in *. intros x Hx. apply in_map_iff in Hx as (y & <- & Hy).
    rewrite List.Forall_forall in IH. auto.
  - change (canon (JObj l)) with (JObj (canon_items l)). cbn [json_ok] in *.
    apply andb_true_iff in Hok as [Hd Hok]. apply andb_true_iff. split.
    { apply bool_decide_eq_true in Hd. apply bool_decide_eq_true. by rewrite canon_items_keys. }
    rewrite forallb_forall in *. intros kv Hkv. apply list_elem_of_In in Hkv. unfold canon_items in Hkv.
    rewrite sort_items_perm in Hkv. apply list_elem_of_fmap in Hkv as (kv' & -> & Hin). cbn.
    apply list_elem_of_In in Hin. rewrite List.Forall_forall in IH. auto.
Qed.

(** What is written is read back in canonical order. *)
Lemma parse_canonical v kind : json_ok v = true →
  _parse_canonical_payload (print v) (sha256_of_text (print v)) kind = Ok (canon v).
Proof.
  intros Hv. unfold _parse_canonical_payload. rewrite (loads_dumps v _ Hv (dumps_ok v Hv)). cbn [reraise catch mbind result_bind].
  rewrite canonical_json_ok, digest_payload_ok by (by apply json_ok_canon). rewrite print_canon.
  cbn [mbind result_bind]. rewrite !bool_decide_true by done. done.
Qed.

(** ** Dispatch tickets *)

Lemma ticket_validate_ok t x : DispatchTicket_validate t = Ok x → x = t.
Proof. unfold DispatchTicket_validate. intros H. inv_ok. done. Qed.

Lemma dispatch_payload_ok t p : _dispatch_payload t = Ok p → p = JObj (dispatch_items t) ∧ json_ok p = true.
Proof.
  unfold _dispatch_payload. intros H. inv_ok. split; [done|]. cbn [json_ok dispatch_items forallb snd].
  rewrite json_strs_ok. reflexivity.
Qed.

Lemma require_sha256_ok v field x : _require_sha256 v field = Ok x ↔ x = v ∧ is_sha256_ref v = true.
Proof. unfold _require_sha256, cp_fail_if. rewrite guard_bind_ok, negb_false_iff. naive_solver. Qed.

Lemma iter_sha256 l field : iterM (λ d, _require_sha256 d field ;; Ok tt) l = Ok tt → forallb is_sha256_ref l = true.
Proof.
  induction l as [|d l IH]; [done|]. cbn [iterM]. intros H. apply unit_bind_ok in H as [Hd H].
  apply bind_ok_iff in Hd as (? & [_ Hd]%require_sha256_ok & _). cbn. by rewrite Hd, (IH H).
Qed.

Lemma dispatch_read t p : _dispatch_payload t = Ok p → _dispatch_from_payload (canon p) = Ok t.
Proof.
  intros H. pose proof H as Hp. apply dispatch_payload_ok in Hp as [-> _].
  unfold _dispatch_payload in H. apply bind_ok_iff in H as (x & Hv & H). apply unit_bind_ok in H as [Hf _].
  pose proof Hv as Hv0. unfold DispatchTicket_validate, es_fail_if in Hv0. rewrite !guard_bind_ok in Hv0.
  destruct Hv0 as (Hs & Ha & _). bool_prop.
  pose proof Hf as Hf0. unfold _validate_dispatch_fingerprints in Hf0.
  apply bind_ok_iff in Hf0 as (? & Hpf & Hf0). apply bind_ok_iff in Hf0 as (? & Hnf & Hf0).
  apply bind_ok_iff in Hf0 as (? & Haf & Hdeps). apply iter_sha256 in Hdeps.
  assert (NoDup (dispatch_items t).*1) as Hd by (apply (proj1 (bool_decide_eq_true _)); reflexivity).
  change (canon (JObj (dispatch_items t))) with (JObj (canon_items (dispatch_items t))).
  cbn [_dispatch_from_payload]. rewrite has_keys_canon, !get_canon by done. unfold dispatch_items. read_items.
  rewrite canon_json_strs. cbn [canon py_str py_int is_str is_true json_strs]. rewrite strings_of_strs, Hdeps, Ha.
  apply require_sha256_ok in Hpf as [-> Hpf], Hnf as [-> Hnf], Haf as [-> Haf].
  unfold _require_sha256. rewrite Hpf, Hnf, Haf, (bool_decide_true _ Hs). cbn -[DispatchTicket_validate _validate_dispatch_fingerprints has_keys].
  change (has_keys _ DISPATCH_KEYS) with true. cbn [negb cp_fail_if raise_if mbind result_bind].
  match goal with |- context [DispatchTicket_validate ?u] => assert (u = t) as -> end.
  { destruct t. cbn in Ha |- *. by rewrite Ha. }
  rewrite Hv. cbn [mbind result_bind]. by rewrite Hf.
Qed.

(** ** Observations *)

(** The cost as the payload keeps it: every amount is a float. *)
Definition as_float (x : pynum) : pynum := match to_float x with Ok f => NFloat f | Raise _ => x end.
Definition float_cost (c : ObservationCost) : ObservationCost := {|
  oc_wall_time_s := as_float (oc_wall_time_s c); oc_model_tokens := oc_model_tokens c;
  oc_tool_calls := oc_tool_calls c; oc_cost_usd := as_float <$> oc_cost_usd c |}.
Definition with_cost (o : ExecutionObservation) (cost : option ObservationCost) : ExecutionObservation := {|
  eo_observation_id := eo_observation_id o; eo_task_id := eo_task_id o;
  eo_task_context_fingerprint := eo_task_context_fingerprint o; eo_plan_fingerprint := eo_plan_fingerprint o;
  eo_node_id := eo_node_id o; eo_node_fingerprint := eo_node_fingerprint o;
  eo_authority_fingerprint := eo_authority_fingerprint o; eo_status := eo_status o;
  eo_started_at := eo_started_at o; eo_finished_at := eo_finished_at o;
  eo_normalized_output_json := eo_normalized_output_json o; eo_error_class := eo_error_class o;
  eo_evidence_bindings := eo_evidence_bindings o; eo_cost := cost; eo_schema_version := eo_schema_version o |}.
Definition stored_form (o : ExecutionObservation) : ExecutionObservation := with_cost o (float_cost <$> eo_cost o).

Lemma float_of_Z_sign z : 0 <= z → float_finite (float_of_Z z) = true →
  num_lt (NFloat (float_of_Z z)) (NInt 0) = false.
Proof.
  intros Hz. assert (∀ f, (match f with S754_finite s _ _ => s = false | _ => True end) →
    float_finite f = true → num_lt (NFloat f) (NInt 0) = false) as Hs.
  { intros [s|s| |s m e]; try done. intros -> _. unfold num_lt. cbn [num_compare compare_Z_float].
    assert (0 <= Z.pos m * 2 ^ e) by (apply Z.mul_nonneg_nonneg; [lia|by apply Z.pow_nonneg]).
    destruct (0 <=? e).
    - destruct (Z.compare_spec 0 (Z.pos m * 2 ^ e)); [done|done|lia].
    - done. }
  apply Hs. unfold float_of_Z, binary_normalize. destruct z as [|p|p]; [done| |lia].
  unfold binary_round. destruct (shl_align _ _ _) as [m e]. unfold binary_round_aux.
  destruct (shr_fexp _ _ _ _ _) as [r1 e1]. destruct (shr_fexp _ _ _ _ _) as [r2 e2].
  destruct (shr_m r2); try done. by destruct (e2 <=? _).
Qed.

Lemma as_float_ok x f : to_float x = Ok f → as_float x = NFloat f.
Proof. unfold as_float. by intros ->. Qed.
Lemma as_float_sign x f : to_float x = Ok f → num_lt x (NInt 0) = false → num_lt (NFloat f) (NInt 0) = false.
Proof.
  destruct x as [z|g]; cbn [to_float]; [|congruence]. destruct (float_finite (float_of_Z z)) eqn:E; [|done].
  intros [= <-] Hz. apply float_of_Z_sign; [|done]. unfold num_lt in Hz. cbn in Hz.
  destruct (z ?= 0) eqn:Ez; [apply Z.compare_eq in Ez; lia|done|rewrite Z.compare_gt_iff in Ez; lia].
Qed.

Lemma cost_validate_ok c x : ObservationCost_validate c = Ok x ↔ x = c ∧ num_lt (oc_wall_time_s c) (NInt 0) = false
  ∧ (oc_model_tokens c <? 0) = false ∧ (oc_tool_calls c <? 0) = false
  ∧ ∀ u, oc_cost_usd c = Some u → num_lt u (NInt 0) = false.
Proof.
  unfold ObservationCost_validate, ob_fail_if. rewrite !guard_bind_ok.
  destruct (oc_cost_usd c); naive_solver.
Qed.

Lemma cost_read c p : ObservationCost_canonical_dict c = Ok p →
  cost_from_payload (canon p) = Ok (Some (float_cost c)) ∧ ObservationCost_validate (float_cost c) = Ok (float_cost c)
  ∧ ObservationCost_canonical_dict (float_cost c) = Ok p.
Proof.
  unfold ObservationCost_canonical_dict at 1. intros H.
  apply bind_ok_iff in H as (x & (_ & Hw & Ht & Hc & Hu)%cost_validate_ok & H).
  apply bind_ok_iff in H as (w & Hw' & H). apply bind_ok_iff in H as (u & Hu' & [= <-]).
  pose proof (as_float_ok _ _ Hw') as Ew. pose proof (as_float_sign _ _ Hw' Hw) as Sw.
  assert (∀ y, as_float <$> oc_cost_usd c = Some y → ∃ f, y = NFloat f ∧ u = JFloat f ∧ num_lt y (NInt 0) = false) as Su.
  { destruct (oc_cost_usd c) as [v|]; [|done]. intros y [= <-].
    destruct (to_float v) as [f|] eqn:E; [|done]. cbn in Hu'. injection Hu' as <-. rewrite (as_float_ok _ _ E).
    exists f. split_and!; [done..|]. by apply (as_float_sign v), Hu. }
  assert (as_float <$> oc_cost_usd c = None → u = JNull) as Nu.
  { destruct (oc_cost_usd c); [done|]. cbn in Hu'. congruence. }
  assert (ObservationCost_validate (float_cost c) = Ok (float_cost c)) as Hv.
  { apply cost_validate_ok. split; [done|]. unfold float_cost. cbn. rewrite Ew. split_and!; [done..|].
    intros y Hy. apply Su in Hy. naive_solver. }
  split_and!; [|done|].
  - match goal with |- context [canon (JObj ?l)] =>
      assert (NoDup l.*1) as Hd by (apply (proj1 (bool_decide_eq_true _)); reflexivity);
      change (canon (JObj l)) with (JObj (canon_items l)) end.
    cbn [cost_from_payload]. rewrite has_keys_canon, !get_canon by done. read_items.
    change (has_keys _ _) with true. cbn [negb cp_fail_if raise_if mbind result_bind canon].
    unfold cost_of_raw. cbn [raw_num raw_int]. unfold ob_fail_if. rewrite Sw, Ht, Hc.
    cbn [raise_if mbind result_bind]. unfold float_cost. rewrite Ew.
    destruct (as_float <$> oc_cost_usd c) as [y|].
    + destruct (Su y eq_refl) as (f & -> & -> & Sf). cbn [canon raw_num]. by rewrite Sf.
    + by rewrite Nu.
  - unfold ObservationCost_canonical_dict. rewrite Hv. unfold float_cost. cbn [mbind result_bind oc_wall_time_s oc_model_tokens oc_tool_calls oc_cost_usd].
    rewrite Ew. cbn [to_float mbind result_bind].
    destruct (as_float <$> oc_cost_usd c) as [y|].
    + destruct (Su y eq_refl) as (f & -> & -> & Sf). done.
    + by rewrite Nu.
Qed.

Lemma binding_read b p : ExecutionEvidenceBinding_canonical_dict b = Ok p → binding_from_payload (canon p) = Ok b.
Proof.
  unfold ExecutionEvidenceBinding_canonical_dict. intros H. apply bind_ok_iff in H as (x & Hv & [= <-]).
  pose proof (binding_validate_ok _ _ Hv) as ->.
  assert (eb_schema_version b = EXECUTION_EVIDENCE_BINDING_SCHEMA) as Hs.
  { unfold ExecutionEvidenceBinding_validate, ob_fail_if in Hv. apply guard_bind_ok in Hv as [Hs _]. by bool_prop. }
  match goal with |- context [canon (JObj ?l)] =>
      assert (NoDup l.*1) as Hd by (apply (proj1 (bool_decide_eq_true _)); reflexivity);
      change (canon (JObj l)) with (JObj (canon_items l)) end.
  cbn [binding_from_payload]. rewrite has_keys_canon, !get_canon by done. read_items.
  change (has_keys _ _) with true. cbn [canon is_str py_str]. rewrite (bool_decide_true _ Hs).
  rewrite canon_opt_str, opt_py_str_json. cbn [negb cp_fail_if raise_if mbind result_bind]. by destruct b.
Qed.

Lemma bindings_read bs ps : mapM ExecutionEvidenceBinding_canonical_dict bs = Ok ps →
  mapM binding_from_payload (map canon ps) = Ok bs.
Proof.
  revert ps. induction bs as [|b bs IH]; intros ps H; cbn [mapM] in H; [by injection H as <-|].
  apply bind_ok_iff in H as (p & Hp & H). apply bind_ok_iff in H as (ps' & Hps & [= <-]).
  cbn [map mapM]. rewrite (binding_read _ _ Hp). cbn [mbind result_bind]. by rewrite (IH _ Hps).
Qed.
(** Everything but the cost is kept, and the payload of the stored form is the same payload. *)
Lemma validate_record_cost o c : validate_record o = Ok tt →
  opt_check (λ c, ObservationCost_validate c ;; Ok tt) c = Ok tt → validate_record (with_cost o c) = Ok tt.
Proof.
  intros H Hc. revert H. unfold validate_record. cbn [with_cost eo_schema_version eo_task_id eo_task_context_fingerprint
    eo_plan_fingerprint eo_node_id eo_node_fingerprint eo_authority_fingerprint eo_status eo_started_at eo_finished_at
    eo_normalized_output_json eo_error_class eo_evidence_bindings eo_cost].
  repeat (apply bind_mono; intros ?). done.
Qed.

Lemma stored_items o items : identity_items o = Ok items → identity_items (stored_form o) = Ok items
  ∧ opt_check (λ c, ObservationCost_validate c ;; Ok tt) (float_cost <$> eo_cost o) = Ok tt.
Proof.
  unfold identity_items. intros H. apply bind_ok_iff in H as (out & Ho & H). apply bind_ok_iff in H as (bs & Hb & H).
  apply bind_ok_iff in H as (cost & Hc & H).
  change (normalized_output (stored_form o)) with (normalized_output o).
  change (normalized_output_sha256 (stored_form o)) with (normalized_output_sha256 o).
  cbn [stored_form with_cost eo_schema_version eo_task_id eo_task_context_fingerprint
    eo_plan_fingerprint eo_node_id eo_node_fingerprint eo_authority_fingerprint eo_status eo_started_at eo_finished_at
    eo_error_class eo_evidence_bindings eo_cost].
  rewrite Ho, Hb. cbn [mbind result_bind]. destruct (eo_cost o) as [c|]; cbn [fmap option_fmap option_map opt_check].
  - apply cost_read in Hc as (_ & Hv & Hd). rewrite Hd, Hv. done.
  - injection Hc as <-. done.
Qed.

Lemma validated_record o x : ExecutionObservation_validate o None None = Ok x → x = o ∧ validate_record o = Ok tt
  ∧ expected_observation_id o = Ok (eo_observation_id o).
Proof.
  unfold ExecutionObservation_validate, ob_fail_if. rewrite !unit_bind_ok. intros (Hr & _ & H).
  apply bind_ok_iff in H as (id & Hid & H). apply guard_bind_ok in H as [He [= <-]]. bool_prop. by subst.
Qed.

Lemma validate_record_schema o : validate_record o = Ok tt → eo_schema_version o = EXECUTION_OBSERVATION_SCHEMA.
Proof. unfold validate_record, ob_fail_if. intros [H _]%guard_bind_ok. by bool_prop. Qed.

Lemma validate_record_output o text : validate_record o = Ok tt → eo_normalized_output_json o = Some text →
  ∃ l, loads text = Ok (JObj l) ∧ print (JObj l) = text.
Proof.
  unfold validate_record, ob_fail_if. intros H Ht.
  apply guard_bind_ok in H as [_ H]. do 6 apply bind_ok_iff in H as (? & _ & H).
  apply guard_bind_ok in H as [_ H]. do 2 apply bind_ok_iff in H as (? & _ & H).
  apply guard_bind_ok in H as [_ H]. do 2 apply bind_ok_iff in H as (? & _ & H).
  apply guard_bind_ok in H as [_ H]. apply unit_bind_ok in H as [H _]. rewrite Ht in H. cbn [opt_check] in H.
  unfold validate_output_text in H. apply bind_ok_iff in H as (v & Hv%reraise_ok & H).
  apply bind_ok_iff in H as (c & Hc & H). apply raise_if_ok in H. bool_prop. subst c.
  destruct v as [| | | | | |l]; try done. exists l. split; [done|]. cbn [_normalized_output_json] in Hc.
  apply bind_ok_iff in Hc as (u & Hu%reraise_ok & Hc). apply guard_bind_ok in Hc as [_ [= ->]].
  unfold dumps in Hu. destruct (all_finite _); [|done]. congruence.
Qed.

Lemma stored_valid o : ExecutionObservation_validate o None None = Ok o →
  ExecutionObservation_validate (stored_form o) None None = Ok (stored_form o).
Proof.
  intros (_ & Hr & Hid)%validated_record. unfold expected_observation_id in Hid.
  apply bind_ok_iff in Hid as (items & Hi & Hid). apply stored_items in Hi as [Hi Hc].
  unfold ExecutionObservation_validate. 
  assert (validate_record (stored_form o) = Ok tt) as -> by (by apply validate_record_cost).
  cbn [mbind result_bind opt_check]. unfold expected_observation_id. rewrite Hi. cbn [mbind result_bind]. rewrite Hid.
  cbn [mbind result_bind]. unfold ob_fail_if. by rewrite bool_decide_true.
Qed.

Lemma stored_dict o p : ExecutionObservation_canonical_dict o = Ok p → ExecutionObservation_canonical_dict (stored_form o) = Ok p.
Proof.
  unfold ExecutionObservation_canonical_dict. intros H. apply bind_ok_iff in H as (x & Hv & H).
  pose proof (validated_record _ _ Hv) as (-> & _). rewrite (stored_valid _ Hv). cbn [mbind result_bind].
  apply bind_ok_iff in H as (items & Hi & H). by rewrite (proj1 (stored_items _ _ Hi)).
Qed.

Lemma observation_read o p : ExecutionObservation_canonical_dict o = Ok p → json_ok p = true →
  _observation_from_payload (canon p) = Ok (stored_form o).
Proof.
  unfold ExecutionObservation_canonical_dict. intros H Hok. apply bind_ok_iff in H as (x & Hv & H).
  pose proof (validated_record _ _ Hv) as (-> & Hr & _). pose proof (stored_valid _ Hv) as Hsv.
  apply bind_ok_iff in H as (items & Hi & [= <-]). unfold identity_items in Hi.
  apply bind_ok_iff in Hi as (out & Ho & Hi). apply bind_ok_iff in Hi as (bs & Hb & Hi).
  apply bind_ok_iff in Hi as (cost & Hc & [= <-]). cbn [json_ok] in Hok. apply andb_true_iff in Hok as [Hd Hok].
  apply bool_decide_eq_true in Hd.
  assert (json_ok out = true) as Hout.
  { rewrite forallb_forall in Hok. apply (Hok ("normalized_output", out)). do 11 right. by left. }
  match goal with |- context [canon (JObj ?l)] => change (canon (JObj l)) with (JObj (canon_items l)) end.
  cbn [_observation_from_payload]. rewrite has_keys_canon, !get_canon by done. read_items.
  change (has_keys _ _) with true. pose proof (validate_record_schema _ Hr) as Hs.
  cbn [canon is_str py_str].
  rewrite (bool_decide_true _ Hs), !canon_opt_str, opt_py_str_json, (bindings_read _ _ Hb).
  cbn [negb cp_fail_if raise_if mbind result_bind].
  assert (cost_from_payload (canon cost) = Ok (float_cost <$> eo_cost o)) as ->.
  { destruct (eo_cost o) as [c|]; [by apply cost_read in Hc as [-> _]|by injection Hc as <-]. }
  cbn [mbind result_bind].
  assert (match canon out with JNull => Ok None | v => Some <$> _canonical_json v end
    = Ok (eo_normalized_output_json o)) as ->.
  { unfold normalized_output in Ho. destruct (eo_normalized_output_json o) as [text|] eqn:Et; [|by injection Ho as <-].
    destruct (validate_record_output _ _ Hr Et) as (l & Hl & Hp). rewrite Hl in Ho. injection Ho as <-.
    change (canon (JObj l)) with (JObj (canon_items l)) at 1. cbv iota.
    rewrite canonical_json_ok by (by apply (json_ok_canon (JObj l))). cbn [fmap result_fmap].
    change (JObj (canon_items l)) with (canon (JObj l)). by rewrite print_canon, Hp. }
  cbn [mbind result_bind].
  match goal with |- context [ExecutionObservation_validate ?u None None] => change u with (stored_form o) end.
  rewrite Hsv. cbn [reraise catch mbind result_bind].
  change (normalized_output_sha256 (stored_form o)) with (normalized_output_sha256 o).
  destruct (normalized_output_sha256 o) as [h|]; [|done]. cbn [json_opt_str is_str]. by rewrite bool_decide_true.
Qed.
End Payloads.

(** ** The round trips *)

Section RoundTrips.
Context {HL : Hashlib}.

(** A ticket the repository accepts is written as canonical text under its digest, and that
    text and digest are read back as the same ticket. *)
Theorem dispatch_roundtrip t p (H : _dispatch_payload t = Ok p) : ∃ text, _canonical_json p = Ok text
  ∧ _digest_payload p = Ok (sha256_of_text text)
  ∧ (payload ← _parse_canonical_payload text (sha256_of_text text) "DISPATCH"; _dispatch_from_payload payload) = Ok t.
Proof.
  exists (print p). pose proof (dispatch_payload_ok _ _ H) as [_ Hok].
  rewrite canonical_json_ok, digest_payload_ok, parse_canonical by done. split_and!; [done..|].
  cbn [mbind result_bind]. by apply dispatch_read.
Qed.

(** A valid observation whose floats print exactly is read back from its stored text as the
    observation with the amounts of its cost as floats, which is valid, has the same identifier
    and the same payload, and is the observation itself when it reports no cost. *)
Theorem observation_roundtrip o p (H : ExecutionObservation_canonical_dict o = Ok p) (Hok : json_ok p = true) :
  ∃ text, _canonical_json p = Ok text
    ∧ (payload ← _parse_canonical_payload text (sha256_of_text text) "OBSERVATION"; _observation_from_payload payload)
      = Ok (stored_form o)
    ∧ ExecutionObservation_canonical_dict (stored_form o) = Ok p
    ∧ (eo_cost o = None → stored_form o = o).
Proof.
  exists (print p). rewrite canonical_json_ok, parse_canonical by done. cbn [mbind result_bind].
  split_and!; [done|by apply observation_read|by apply stored_dict|].
  intros Hc. unfold stored_form. rewrite Hc. destruct o. cbn in *. by subst.
Qed.
End RoundTrips.

Section Examples.
#[local] Existing Instance checksum_hashlib.

Definition ticket_with (id : string) : DispatchTicket := {|
  dt_ticket_id := id; dt_task_id := "task"; dt_plan_fingerprint := "sha256:" +:+ repeat_str 64 "a";
  dt_node_id := "node"; dt_node_fingerprint := "sha256:" +:+ repeat_str 64 "b";
  dt_authority_fingerprint := "sha256:" +:+ repeat_str 64 "c"; dt_dependency_observation_fingerprints := [];
  dt_dispatch_sequence := 1; dt_execution_level := 0; dt_schema_version := DISPATCH_TICKET_SCHEMA;
  dt_dispatch_authorized := true |}.
Definition sample_ticket : DispatchTicket.
Proof.
  let r := eval vm_compute in (expected_ticket_id (ticket_with "")) in
  match r with Ok ?id => let t := eval vm_compute in (ticket_with id) in exact t end.
Defined.

Definition sample_payload : json.
Proof. let r := eval vm_compute in (_dispatch_payload sample_ticket) in match r with Ok ?p => exact p end. Defined.
Lemma sample_payload_ok : _dispatch_payload sample_ticket = Ok sample_payload.
Proof. vm_compute. reflexivity. Qed.

Lemma dispatch_roundtrip_witness : ∃ text, _canonical_json sample_payload = Ok text
  ∧ _digest_payload sample_payload = Ok (sha256_of_text text)
  ∧ (payload ← _parse_canonical_payload text (sha256_of_text text) "DISPATCH"; _dispatch_from_payload payload) = Ok sample_ticket.
Proof. exact (dispatch_roundtrip sample_ticket sample_payload sample_payload_ok). Defined.

Definition sample_report : json.
Proof. let r := eval vm_compute in (ExecutionObservation_canonical_dict sample_work) in match r with Ok ?p => exact p end. Defined.
Lemma sample_report_ok : ExecutionObservation_canonical_dict sample_work = Ok sample_report.
Proof. vm_compute. reflexivity. Qed.
Lemma sample_report_exact : json_ok sample_report = true.
Proof. vm_compute. reflexivity. Qed.

Lemma observation_roundtrip_witness : ∃ text, _canonical_json sample_report = Ok text
    ∧ (payload ← _parse_canonical_payload text (sha256_of_text text) "OBSERVATION"; _observation_from_payload payload)
      = Ok (stored_form sample_work)
    ∧ ExecutionObservation_canonical_dict (stored_form sample_work) = Ok sample_report
    ∧ (eo_cost sample_work = None → stored_form sample_work = sample_work).
Proof. exact (observation_roundtrip sample_work sample_report sample_report_ok sample_report_exact). Defined.

(** A changed character, a changed digest and a respaced text are refused. *)
Example tampered_text : _parse_canonical_payload "[1]" (sha256_of_text "{}") "CANCELLATION"
  = cp_fail "CANCELLATION_CHECKPOINT_DIGEST_MISMATCH".
Proof. vm_compute. reflexivity. Qed.
Example respaced_text : _parse_canonical_payload "{ }" (sha256_of_text "{}") "CANCELLATION"
  = cp_fail "CANCELLATION_CHECKPOINT_NOT_CANONICAL".
Proof. vm_compute. reflexivity. Qed.
End Examples.
