(* ===== verification/CheckpointLog.v ===== *)
(** * Execution checkpoints: the log behind the tables

    A plain log of what was recorded, with the repository's operations on it, and the
    refinement: the three tables and their hash chain implement the log, so that a load
    returns exactly what was recorded and no reachable database is refused as tampered. *)

From Stdlib Require Import Ascii SpecFloat.
From Stdlib Require String.
From S2P Require Import Prelude PyStr Hashlib PyFloat Json JsonFacts PyTime Validators TaskContract.
From S2P Require Import CapabilityAuthority AuthorityFacts WorkflowDesign ContextManifest TaskContext.
From S2P Require Import ExecutionPlan PlanFacts ExecutionObservation ObservationFacts RuntimeScheduler ReadinessFacts.
From S2P Require Import ExecutionScheduler SchedulerFacts RestoreFacts ExecutionCheckpoint CheckpointFacts.

Local Open Scope Z_scope.

(** ** The log the tables stand for *)

(** What the repository records, and the events that others append to the same chain. *)
Inductive entry :=
  | Dispatched (t : DispatchTicket)
  | Observed (o : ExecutionObservation)
  | Cancelled (task_id plan_fingerprint reason : string)
  | Noted (task_id plan_fingerprint event_type subject_id : string) (payload : json).

(** The entries with the time of each, the oldest first. *)
Notation log := (list (entry * string)).

Section Log.
Context {HL : Hashlib}.

Definition ticket_text (t : DispatchTicket) : string := print (JObj (dispatch_items t)).
Definition observation_text (o : ExecutionObservation) : string :=
  match ExecutionObservation_canonical_dict o with Ok p => print p | Raise _ => "" end.
Definition reason_text (reason : string) : string := print (JObj [("reason_code", JStr reason)]).

Definition ticket_of (e : entry * string) : option DispatchTicket :=
  match e.1 with Dispatched t => Some t | _ => None end.
Definition observation_of (e : entry * string) : option ExecutionObservation :=
  match e.1 with Observed o => Some o | _ => None end.
Definition tickets (l : log) : list DispatchTicket := omap ticket_of l.
Definition reports (l : log) : list ExecutionObservation := omap observation_of l.

(** The row of a ticket or an observation recorded at a time. *)
Definition ticket_row (t : DispatchTicket) (now : string) : dispatch_row :=
  dispatch_row_of t (ticket_text t) (sha256_of_text (ticket_text t)) now.
Definition report_row (o : ExecutionObservation) (now : string) : observation_row :=
  observation_row_of o (observation_text o) (sha256_of_text (observation_text o)) now.
Definition rows_of {A R} (pick : entry * string → option A) (row : A → string → R) (l : log) : list R :=
  omap (λ e, (λ a, row a e.2) <$> pick e) l.

(** The scope, type, subject and payload of an entry's event. *)
Definition entry_event (e : entry) : string * string * string * string * string :=
  match e with
  | Dispatched t => (dt_task_id t, dt_plan_fingerprint t, "DISPATCH_RECORDED", dt_ticket_id t, ticket_text t)
  | Observed o => (eo_task_id o, eo_plan_fingerprint o, "OBSERVATION_RECORDED", eo_observation_id o, observation_text o)
  | Cancelled task plan reason => (task, plan, "CANCELLED", task, reason_text reason)
  | Noted task plan type subject payload => (task, plan, type, subject, print payload)
  end.

Definition event_digest (task plan type subject text sha previous now : string) : string :=
  sha256_of_text (print (JObj [
    ("task_id", JStr task); ("plan_fingerprint", JStr plan); ("event_type", JStr type);
    ("subject_id", JStr subject); ("payload_json", JStr text); ("payload_sha256", JStr sha);
    ("previous_hash", JStr previous); ("recorded_at", JStr now)])).

Definition event_row_for (events : list event_row) (task plan type subject text now : string) : event_row :=
  let previous := chain_head events task plan in {|
    pe_task_id := task; pe_plan_fingerprint := plan; pe_event_type := type; pe_subject_id := subject;
    pe_payload_json := text; pe_payload_sha256 := sha256_of_text text; pe_previous_hash := previous;
    pe_event_hash := event_digest task plan type subject text (sha256_of_text text) previous now;
    pe_recorded_at := now |}.

Definition chain_entry (events : list event_row) (e : entry * string) : list event_row :=
  let '(task, plan, type, subject, text) := entry_event e.1 in
  events ++ [event_row_for events task plan type subject text e.2].

Definition tables_of (l : log) : CheckpointTables := {|
  ct_dispatches := rows_of ticket_of ticket_row l; ct_observations := rows_of observation_of report_row l;
  ct_events := fold_left chain_entry l [] |}.

(** ** What a log must satisfy *)

Definition node_key (t : DispatchTicket) : string * string * string := (dt_task_id t, dt_plan_fingerprint t, dt_node_id t).
Definition report_key (o : ExecutionObservation) : string * string * string :=
  (eo_task_id o, eo_plan_fingerprint o, eo_node_id o).

(** An observation of a dispatched node, under the fingerprints of its ticket. *)
Definition answers (o : ExecutionObservation) (t : DispatchTicket) : Prop :=
  report_key o = node_key t ∧ eo_node_fingerprint o = dt_node_fingerprint t
  ∧ eo_authority_fingerprint o = dt_authority_fingerprint t.

Definition entry_ok (e : entry) : Prop :=
  match e with
  | Dispatched t => _dispatch_payload t = Ok (JObj (dispatch_items t))
  | Observed o => ∃ p, ExecutionObservation_canonical_dict o = Ok p ∧ json_ok p = true
  | Cancelled _ _ reason => reason ≠ ""
  | Noted _ _ type _ payload => json_ok payload = true ∧ type ≠ "CANCELLED"
  end.

Record log_ok (l : log) : Prop := {
  lo_entries : Forall (λ e, entry_ok e.1) l;
  lo_ids : NoDup (map dt_ticket_id (tickets l));
  lo_nodes : NoDup (map node_key (tickets l));
  lo_reports : NoDup (map report_key (reports l));
  lo_answers : ∀ o, o ∈ reports l → ∃ t, t ∈ tickets l ∧ answers o t
}.

(** ** The event chain *)

Lemma event_hash_ok task plan type subject text sha previous now :
  _event_hash task plan type subject text sha previous now = Ok (event_digest task plan type subject text sha previous now).
Proof. unfold _event_hash. by rewrite digest_payload_ok by reflexivity. Qed.

(** The payload text of an entry is canonical. *)
Lemma entry_payload e : entry_ok e → ∃ p, json_ok p = true ∧ (entry_event e).2 = print p.
Proof.
  destruct e as [t|o|task plan reason|task plan type subject payload]; cbn [entry_ok entry_event snd].
  - intros H. exists (JObj (dispatch_items t)). by apply dispatch_payload_ok in H as [_ H].
  - intros (p & Hp & Hok). exists p. unfold observation_text. by rewrite Hp.
  - intros _. by exists (JObj [("reason_code", JStr reason)]).
  - intros [Hok _]. by exists payload.
Qed.

Definition last_hash (previous : string) (rows : list event_row) : string :=
  match last rows with Some r => pe_event_hash r | None => previous end.

Definition row_follows (previous : string) (r : event_row) : Prop := ∃ p, json_ok p = true
  ∧ pe_payload_json r = print p ∧ pe_payload_sha256 r = sha256_of_text (print p) ∧ pe_previous_hash r = previous
  ∧ pe_event_hash r = event_digest (pe_task_id r) (pe_plan_fingerprint r) (pe_event_type r) (pe_subject_id r)
      (print p) (sha256_of_text (print p)) previous (pe_recorded_at r).

Lemma verify_row previous r rows : row_follows previous r →
  verify_rows previous (r :: rows) = verify_rows (pe_event_hash r) rows.
Proof.
  intros (p & Hok & Ht & Hs & Hp & Hh). cbn [verify_rows]. rewrite Ht, (loads_dumps p _ Hok (dumps_ok p Hok)).
  rewrite canonical_json_ok, digest_payload_ok by (by apply json_ok_canon). rewrite print_canon. cbn [mbind result_bind].
  rewrite Hs, Hp, !bool_decide_true by done. cbn [negb]. rewrite event_hash_ok. cbn [mbind result_bind].
  by rewrite Hh, bool_decide_true.
Qed.

Lemma last_hash_cons previous r rows : last_hash previous (r :: rows) = last_hash (pe_event_hash r) rows.
Proof. unfold last_hash. rewrite last_cons. by destruct (last rows). Qed.

Fixpoint chained (previous : string) (rows : list event_row) : Prop :=
  match rows with [] => True | r :: rows => row_follows previous r ∧ chained (pe_event_hash r) rows end.

Lemma chained_snoc previous rows r : chained previous rows → row_follows (last_hash previous rows) r →
  chained previous (rows ++ [r]).
Proof.
  revert previous. induction rows as [|x rows IH]; intros previous; [by intros|].
  intros [Hx Hrows]. rewrite last_hash_cons. cbn [app chained]. auto.
Qed.

Lemma chained_verifies previous rows : chained previous rows → verify_rows previous rows = Ok true.
Proof.
  revert previous. induction rows as [|r rows IH]; intros previous; [done|]. intros [Hr Hrows].
  rewrite verify_row by done. auto.
Qed.

Lemma log_chained l task plan : Forall (λ e, entry_ok e.1) l →
  chained ZERO_HASH (List.filter (event_in task plan) (fold_left chain_entry l [])).
Proof.
  induction l as [|[e now] l IH] using rev_ind; [done|]. intros [Hl He]%Forall_app. apply Forall_cons_1 in He as [He _].
  cbn [fst] in He. rewrite fold_left_app. cbn [fold_left]. specialize (IH Hl). set (events := fold_left _ _ _) in *.
  unfold chain_entry. cbn [fst snd]. apply entry_payload in He as (p & Hok & Hp).
  destruct (entry_event e) as [[[[t pf] type] subject] text]. cbn [snd] in Hp. rewrite List.filter_app. cbn [List.filter].
  destruct (event_in task plan _) eqn:Hin; [|by rewrite app_nil_r]. apply chained_snoc; [done|].
  unfold event_in, in_scope in Hin. cbn in Hin. bool_prop. subst t pf text.
  exists p. cbn. split_and!; try done.
Qed.
(** ** Rows and what they stand for *)

Section Rows.
Context {A R : Type} (pick : entry * string → option A) (row : A → string → R).

Definition row_for (r : R) (a : A) : Prop := ∃ now, r = row a now.

Lemma rows_match l : Forall2 row_for (rows_of pick row l) (omap pick l).
Proof.
  unfold rows_of. induction l as [|e l IH]; [constructor|]. cbn. destruct (pick e); cbn; [|done].
  constructor; [by eexists|done].
Qed.

Context (P : R → bool) (Q : A → bool) (HPQ : ∀ a now, P (row a now) = Q a).

Lemma find_match rs l : Forall2 row_for rs l → option_Forall2 row_for (List.find P rs) (List.find Q l).
Proof.
  induction 1 as [|r a rs l [now ->] _ IH]; [constructor|]. cbn [List.find]. rewrite HPQ.
  destruct (Q a); [constructor; by eexists|done].
Qed.
Lemma existsb_match rs l : Forall2 row_for rs l → existsb P rs = existsb Q l.
Proof. induction 1 as [|r a rs l [now ->] _ IH]; [done|]. cbn. by rewrite HPQ, IH. Qed.
Lemma filter_match rs l : Forall2 row_for rs l → Forall2 row_for (List.filter P rs) (List.filter Q l).
Proof.
  induction 1 as [|r a rs l [now ->] _ IH]; [constructor|]. cbn [List.filter]. rewrite HPQ.
  destruct (Q a); [constructor; [by eexists|done]|done].
Qed.
End Rows.

Lemma order_match {A R} (row : A → string → R) (le : R → R → bool) (le' : A → A → bool) rs l :
  (∀ a b n m, le (row a n) (row b m) = le' a b) → Forall2 (row_for row) rs l →
  Forall2 (row_for row) (order_by le rs) (order_by le' l).
Proof.
  intros Hle. unfold order_by. induction 1 as [|r a rs l [now ->] _ IH]; [constructor|]. cbn [foldr].
  revert IH. generalize (foldr (insert_by le) [] rs) (foldr (insert_by le') [] l). clear rs l.
  induction 1 as [|r b rs l [m ->] Hrest IH]; cbn [insert_by].
  { repeat constructor. by eexists. }
  rewrite Hle. destruct (le' a b).
  - constructor; [by eexists|]. constructor; [by eexists|done].
  - constructor; [by eexists|done].
Qed.

Lemma order_by_perm {A} (le : A → A → bool) l : order_by le l ≡ₚ l.
Proof.
  unfold order_by. induction l as [|x l IH]; [done|]. cbn [foldr]. rewrite <- IH at 2.
  generalize (foldr (insert_by le) [] l). clear. intros l. induction l as [|y l IH]; [done|]. cbn [insert_by].
  destruct (le x y); [done|]. rewrite IH. constructor.
Qed.

(** ** The operations on the log *)

Record LogStore := {
  ls_tasks : gset string;
  ls_log : log;
  ls_now : string;
  ls_locked : bool
}.

Definition log_transaction (f : LogStore → result log) : ST LogStore unit := λ a,
  if ls_locked a then (raise SqliteOperationalError "database is locked", a)
  else match f a with
       | Ok l => (Ok tt, {| ls_tasks := ls_tasks a; ls_log := l; ls_now := ls_now a; ls_locked := false |})
       | Raise e => (Raise e, a)
       end.

Definition log_require_task (task : string) (a : LogStore) : result unit :=
  cp_fail_if (bool_decide (task ∉ ls_tasks a)) "EXECUTION_CHECKPOINT_TASK_NOT_FOUND".

Definition append (e : entry) (a : LogStore) : log := ls_log a ++ [(e, ls_now a)].

Definition log_dispatch (t : DispatchTicket) (a : LogStore) : result log :=
  log_require_task (dt_task_id t) a ;;
  match List.find (λ x, bool_decide (dt_ticket_id x = dt_ticket_id t)) (tickets (ls_log a)) with
  | Some x =>
      cp_fail_if (negb (bool_decide (sha256_of_text (ticket_text x) = sha256_of_text (ticket_text t))))
        "DISPATCH_CHECKPOINT_IDENTITY_CONFLICT" ;;
      Ok (ls_log a)
  | None =>
      cp_fail_if (existsb (λ x, bool_decide (node_key x = node_key t)) (tickets (ls_log a)))
        "DISPATCH_CHECKPOINT_NODE_CONFLICT" ;;
      sqlite_int (dt_dispatch_sequence t) ;;
      Ok (append (Dispatched t) a)
  end.

Definition log_observation (o : ExecutionObservation) (a : LogStore) : result log :=
  log_require_task (eo_task_id o) a ;;
  match List.find (λ x, bool_decide (node_key x = report_key o)) (tickets (ls_log a)) with
  | None => cp_fail "OBSERVATION_CHECKPOINT_REQUIRES_DISPATCH"
  | Some t =>
      cp_fail_if (negb (bool_decide (eo_node_fingerprint o = dt_node_fingerprint t))) "OBSERVATION_CHECKPOINT_NODE_MISMATCH" ;;
      cp_fail_if (negb (bool_decide (eo_authority_fingerprint o = dt_authority_fingerprint t)))
        "OBSERVATION_CHECKPOINT_AUTHORITY_MISMATCH" ;;
      match List.find (λ x, bool_decide (eo_observation_id x = eo_observation_id o)) (reports (ls_log a)) with
      | Some x =>
          cp_fail_if (negb (bool_decide (sha256_of_text (observation_text x) = sha256_of_text (observation_text o))))
            "OBSERVATION_CHECKPOINT_IDENTITY_CONFLICT" ;;
          Ok (ls_log a)
      | None =>
          cp_fail_if (existsb (λ x, bool_decide (report_key x = report_key o)) (reports (ls_log a)))
            "OBSERVATION_CHECKPOINT_NODE_CONFLICT" ;;
          Ok (append (Observed o) a)
      end
  end.

(** The reason of the last cancellation of a task and plan. *)
Definition reason_in (task plan : string) (e : entry * string) : option string :=
  match e.1 with Cancelled t p reason => if in_scope task plan t p then Some reason else None | _ => None end.
Definition last_reason (l : log) (task plan : string) : option string := last (omap (reason_in task plan) l).

Definition log_cancellation (task plan reason : string) (a : LogStore) : result log :=
  log_require_task task a ;;
  Ok (if bool_decide (last_reason (ls_log a) task plan = Some reason) then ls_log a
      else append (Cancelled task plan reason) a).

(** What is recorded of a task and plan. *)
Definition log_recover (task plan : string) (l : log) : RecoveredExecutionState :=
  let dispatches := order_by (λ x y, dt_dispatch_sequence x <=? dt_dispatch_sequence y)
    (List.filter (λ t, in_scope task plan (dt_task_id t) (dt_plan_fingerprint t)) (tickets l)) in
  let observations := order_by (λ x y, bool_decide (String.le (eo_node_id x) (eo_node_id y)))
    (List.filter (λ o, in_scope task plan (eo_task_id o) (eo_plan_fingerprint o)) (reports l)) in {|
  rx_task_id := task; rx_plan_fingerprint := plan; rx_dispatches := dispatches;
  rx_observations := map stored_form observations;
  rx_recovery_required_ticket_ids :=
    map dt_ticket_id (List.filter (λ t, negb (mem_str (dt_node_id t) (map eo_node_id observations))) dispatches);
  rx_cancellation_reason := last_reason l task plan |}.

#[export] Instance LogRepository : SchedulerCheckpointRepository LogStore := {
  initialize := mret tt;
  record_dispatch t := st_lift (_dispatch_payload t) ;; log_transaction (log_dispatch t) ;; mret t;
  record_observation o :=
    st_lift (ExecutionObservation_canonical_dict o) ;; log_transaction (log_observation o) ;; mret o;
  record_cancellation task plan reason :=
    st_lift (_require_sha256 plan "plan_fingerprint") ;;
    st_raise_if (is_empty (strip reason)) ExecutionCheckpointError "INVALID_CANCELLATION_REASON" ;;
    log_transaction (log_cancellation task plan (strip reason));
  load task plan :=
    st_lift (_require_sha256 plan "plan_fingerprint") ;;
    a ← st_get;
    st_lift (log_require_task task a) ;;
    mret (log_recover task plan (ls_log a))
}.

(** ** The tables implement the log *)

Record represents (s : CheckpointStore) (a : LogStore) : Prop := {
  rp_tasks : cs_tasks s = ls_tasks a;
  rp_tables : cs_tables s = Some (tables_of (ls_log a));
  rp_now : cs_now s = ls_now a;
  rp_locked : cs_locked s = ls_locked a;
  rp_ok : log_ok (ls_log a)
}.

(** The same answer, and states that still correspond. *)
Definition simulates {A} (m : ST CheckpointStore A) (m' : ST LogStore A) : Prop := ∀ s a, represents s a →
  (m s).1 = (m' a).1 ∧ represents (m s).2 (m' a).2.
Lemma st_bind_run {S A B} (m : ST S A) (k : A → ST S B) s x s1 : m s = (Ok x, s1) → (y ← m; k y) s = k x s1.
Proof. unfold mbind, st_bind. by intros ->. Qed.
Lemma st_bind_stop {S A B} (m : ST S A) (k : A → ST S B) s e s1 : m s = (Raise e, s1) → (y ← m; k y) s = (Raise e, s1).
Proof. unfold mbind, st_bind. by intros ->. Qed.

Section Simulation.
Context (s : CheckpointStore) (a : LogStore) (Hr : represents s a).

Lemma set_tables_same : set_tables (tables_of (ls_log a)) s = s.
Proof. destruct Hr as [_ Ht _ _ _]. unfold set_tables. destruct s. cbn in *. by rewrite Ht. Qed.

Lemma read_table_run {A} name (rows : CheckpointTables → list A) :
  read_table name rows s = (Ok (rows (tables_of (ls_log a))), s).
Proof. unfold read_table. by rewrite (rp_tables _ _ Hr). Qed.
Lemma read_dispatches_run : read_dispatches s = (Ok (rows_of ticket_of ticket_row (ls_log a)), s).
Proof. apply read_table_run. Qed.
Lemma read_observations_run : read_observations s = (Ok (rows_of observation_of report_row (ls_log a)), s).
Proof. apply read_table_run. Qed.
Lemma read_events_run : read_events s = (Ok (fold_left chain_entry (ls_log a) []), s).
Proof. apply read_table_run. Qed.

Lemma require_task_run task : _require_task task s = (log_require_task task a, s).
Proof. unfold _require_task, log_require_task. by rewrite <- (rp_tasks _ _ Hr). Qed.

Lemma transaction_sim {A} (m : ST CheckpointStore A) f (x : A) :
  match f a with
  | Ok l => log_ok l ∧ m s = (Ok x, set_tables (tables_of l) s)
  | Raise e => ∃ s', m s = (Raise e, s')
  end →
  (transaction m s).1 = ((log_transaction f ;; mret x) a).1
  ∧ represents (transaction m s).2 ((log_transaction f ;; mret x) a).2.
Proof.
  intros H. unfold transaction, log_transaction, mbind, st_bind. rewrite (rp_locked _ _ Hr).
  destruct (ls_locked a) eqn:Hl; [done|]. destruct (f a) as [l|e].
  - destruct H as [Hok ->]. split; [done|]. destruct Hr as [H1 H2 H3 H4 H5]. constructor; cbn; congruence || done.
  - destruct H as [s' ->]. done.
Qed.
End Simulation.

Lemma tables_snoc l e now : tables_of (l ++ [(e, now)]) = {|
  ct_dispatches := ct_dispatches (tables_of l)
    ++ match e with Dispatched t => [ticket_row t now] | _ => [] end;
  ct_observations := ct_observations (tables_of l)
    ++ match e with Observed o => [report_row o now] | _ => [] end;
  ct_events := chain_entry (ct_events (tables_of l)) (e, now) |}.
Proof. unfold tables_of, rows_of. rewrite fold_left_app, !omap_app. cbn. by destruct e. Qed.

Lemma append_event_run s t task plan type subject text sha now : cs_tables s = Some t →
  sha = sha256_of_text text →
  _append_event task plan type subject text sha now s
  = (Ok tt, set_tables {| ct_dispatches := ct_dispatches t; ct_observations := ct_observations t;
      ct_events := ct_events t ++ [event_row_for (ct_events t) task plan type subject text now] |} s).
Proof.
  intros Ht ->. unfold _append_event, read_events, insert_event, write_tables.
  rewrite (st_bind_run _ _ _ (ct_events t) s) by (unfold read_table; by rewrite Ht).
  rewrite event_hash_ok. unfold st_lift, mbind, st_bind, read_events, read_table, st_modify. rewrite Ht. cbn. by rewrite ?Ht.
Qed.

Lemma same_payload_ok p kind sha : json_ok p = true →
  same_payload (print p) (sha256_of_text (print p)) kind sha
  = cp_fail_if (negb (bool_decide (sha256_of_text (print p) = sha))) (kind +:+ "_CHECKPOINT_IDENTITY_CONFLICT").
Proof.
  intros Hok. unfold same_payload. rewrite parse_canonical by done. cbn [mbind result_bind].
  rewrite digest_payload_ok by (by apply json_ok_canon). by rewrite print_canon.
Qed.

Lemma tickets_app l l' : tickets (l ++ l') = tickets l ++ tickets l'.
Proof. apply omap_app. Qed.
Lemma reports_app l l' : reports (l ++ l') = reports l ++ reports l'.
Proof. apply omap_app. Qed.

Lemma ticket_ok l t : log_ok l → t ∈ tickets l → _dispatch_payload t = Ok (JObj (dispatch_items t)).
Proof.
  intros [He _ _ _ _] Ht. unfold tickets in Ht. apply list_elem_of_omap in Ht as ([e now] & Hin & He').
  rewrite Forall_elem in He. specialize (He _ Hin). unfold ticket_of in He'. cbn in *. destruct e; try done. by injection He' as ->.
Qed.
Lemma report_ok l o : log_ok l → o ∈ reports l → ∃ p, ExecutionObservation_canonical_dict o = Ok p ∧ json_ok p = true.
Proof.
  intros [He _ _ _ _] Ht. unfold reports in Ht. apply list_elem_of_omap in Ht as ([e now] & Hin & He').
  rewrite Forall_elem in He. specialize (He _ Hin). unfold observation_of in He'. cbn in *. destruct e; try done. by injection He' as ->.
Qed.
Lemma NoDup_snoc {A} (l : list A) x : NoDup l → x ∉ l → NoDup (l ++ [x]).
Proof.
  intros Hl Hx. apply NoDup_app. split_and!; [done| |apply NoDup_singleton].
  intros y Hy ->%list_elem_of_singleton. done.
Qed.

Lemma log_ok_dispatch l t now : log_ok l → entry_ok (Dispatched t) →
  dt_ticket_id t ∉ map dt_ticket_id (tickets l) → node_key t ∉ map node_key (tickets l) →
  log_ok (l ++ [(Dispatched t, now)]).
Proof.
  intros [He Hi Hn Hu Ha] Ht Hid Hk. constructor; rewrite ?tickets_app, ?reports_app; cbn [tickets reports omap list_omap];
    rewrite ?app_nil_r, ?map_app.
  - apply Forall_app. by repeat constructor.
  - by apply NoDup_snoc.
  - by apply NoDup_snoc.
  - done.
  - intros o Ho. destruct (Ha o Ho) as (t' & Ht' & Hans). exists t'. split; [apply elem_of_app; by left|done].
Qed.

Lemma log_ok_report l o t now : log_ok l → entry_ok (Observed o) → report_key o ∉ map report_key (reports l) →
  t ∈ tickets l → answers o t → log_ok (l ++ [(Observed o, now)]).
Proof.
  intros [He Hi Hn Hu Ha] Ho Hk Ht Hans. constructor; rewrite ?tickets_app, ?reports_app; cbn [tickets reports omap list_omap];
    rewrite ?app_nil_r, ?map_app; try done.
  - apply Forall_app. by repeat constructor.
  - by apply NoDup_snoc.
  - intros x [Hx| ->%list_elem_of_singleton]%elem_of_app; [auto|]. by exists t.
Qed.

Lemma log_ok_cancel l task plan reason now : log_ok l → reason ≠ "" → log_ok (l ++ [(Cancelled task plan reason, now)]).
Proof.
  intros [He Hi Hn Hu Ha] Hr. constructor; rewrite ?tickets_app, ?reports_app; cbn [tickets reports omap list_omap];
    rewrite ?app_nil_r; try done.
  apply Forall_app. by repeat constructor.
Qed.

(** Searches by a decidable equation. *)
Lemma find_eq_some {A} (f : A → string) v l x :
  List.find (λ y, bool_decide (f y = v)) l = Some x → x ∈ l ∧ f x = v.
Proof. intros [Hx Hv]%find_some. bool_prop. split; [by apply list_elem_of_In|done]. Qed.
Lemma find_eq_none {A} (f : A → string) v l : List.find (λ y, bool_decide (f y = v)) l = None → v ∉ map f l.
Proof.
  intros Hn (x & -> & Hx)%list_elem_of_fmap. apply list_elem_of_In in Hx.
  pose proof (find_none _ _ Hn x Hx) as H. cbn beta in H. by bool_prop.
Qed.
Lemma exists_eq {A K} `{EqDecision K} (f : A → K) v l : existsb (λ x, bool_decide (f x = v)) l = false → v ∉ map f l.
Proof.
  intros Hn (x & -> & Hx)%list_elem_of_fmap. apply list_elem_of_In in Hx.
  assert (existsb (λ y, bool_decide (f y = f x)) l = true); [|congruence].
  apply existsb_exists. exists x. split; [done|]. by apply bool_decide_eq_true.
Qed.

Lemma dispatch_scope t x now : dispatch_in (dt_task_id t) (dt_plan_fingerprint t) (ticket_row x now)
    && bool_decide (pd_node_id (ticket_row x now) = dt_node_id t) = bool_decide (node_key x = node_key t).
Proof.
  unfold dispatch_in, in_scope, node_key. rewrite <- !bool_decide_and. apply bool_decide_ext. cbn.
  split; [by intros [[-> ->] ->]|by intros [= -> -> ->]].
Qed.

Lemma insert_dispatch_run s t r : cs_tables s = Some t →
  existsb (λ x, bool_decide (pd_ticket_id x = pd_ticket_id r)) (ct_dispatches t) = false →
  existsb (λ x, dispatch_in (pd_task_id r) (pd_plan_fingerprint r) x && bool_decide (pd_node_id x = pd_node_id r))
    (ct_dispatches t) = false →
  insert_dispatch r s = match sqlite_int (pd_dispatch_sequence r) with
    | Raise e => (Raise e, s)
    | Ok _ => (Ok tt, set_tables {| ct_dispatches := ct_dispatches t ++ [r]; ct_observations := ct_observations t;
                                    ct_events := ct_events t |} s)
    end.
Proof.
  intros Ht H1 H2. unfold insert_dispatch, read_dispatches.
  rewrite (st_bind_run _ _ _ (ct_dispatches t) s) by (unfold read_table; by rewrite Ht).
  destruct (sqlite_int _); [|done]. unfold st_lift, st_raise_if, mbind, st_bind. rewrite H1, H2. cbn.
  unfold write_tables, st_modify. by rewrite Ht.
Qed.

Lemma find_none_existsb {A} (P : A → bool) l : List.find P l = None → existsb P l = false.
Proof. induction l as [|x l IH]; [done|]. cbn. by destruct (P x). Qed.

Lemma record_dispatch_sim t : simulates (CheckpointRepository_record_dispatch t) (record_dispatch t).
Proof.
  intros s a Hr. unfold CheckpointRepository_record_dispatch. cbn [record_dispatch LogRepository].
  destruct (_dispatch_payload t) as [p|e] eqn:Hp; [|done].
  pose proof (dispatch_payload_ok _ _ Hp) as [-> Hok].
  rewrite !(st_bind_run (st_lift (Ok _)) _ s _ s) by done. rewrite (st_bind_run (st_lift (Ok _)) _ a _ a) by done.
  rewrite canonical_json_ok, digest_payload_ok by done. fold (ticket_text t).
  do 2 rewrite (st_bind_run (st_lift (Ok _)) _ s _ s) by done. rewrite (st_bind_run st_get _ s s s) by done.
  apply (transaction_sim _ _ Hr). unfold log_dispatch. destruct (log_require_task (dt_task_id t) a) as [[]|e] eqn:Htask.
  2: { exists s. by rewrite (st_bind_stop _ _ _ e s) by (by rewrite (require_task_run _ _ Hr), Htask). }
  rewrite (st_bind_run _ _ _ tt s) by (by rewrite (require_task_run _ _ Hr), Htask).
  rewrite (st_bind_run _ _ _ _ _ (read_dispatches_run _ _ Hr)). cbn [mbind result_bind].
  pose proof (rows_match ticket_of ticket_row (ls_log a)) as Hrows. fold (tickets (ls_log a)) in Hrows.
  pose proof (find_match ticket_row (λ r, bool_decide (pd_ticket_id r = dt_ticket_id t))
    (λ x, bool_decide (dt_ticket_id x = dt_ticket_id t)) (λ _ _, eq_refl) _ _ Hrows) as Hfind.
  destruct (List.find (λ r : dispatch_row, _) _) as [r|] eqn:Er, (List.find (λ x : DispatchTicket, _) _) as [x|] eqn:Ex;
    try (by inversion Hfind).
  - assert (row_for ticket_row r x) as [now ->] by (by inversion Hfind). cbn [ticket_row dispatch_row_of pd_ticket_json pd_ticket_sha256].
    apply find_eq_some in Ex as [Hx _]. pose proof (dispatch_payload_ok _ _ (ticket_ok _ _ (rp_ok _ _ Hr) Hx)) as [_ Hokx].
    pose proof (same_payload_ok (JObj (dispatch_items x)) "DISPATCH" (sha256_of_text (ticket_text t)) Hokx) as Hsp.
    fold (ticket_text x) in Hsp. rewrite Hsp.
    change ("DISPATCH" +:+ "_CHECKPOINT_IDENTITY_CONFLICT") with "DISPATCH_CHECKPOINT_IDENTITY_CONFLICT".
    destruct (cp_fail_if _ _) as [[]|e] eqn:Hsame; cbn [mbind result_bind].
    + split; [by apply Hr|]. by rewrite (set_tables_same _ _ Hr).
    + by exists s.
  - pose proof (existsb_match ticket_row (λ r, dispatch_in (dt_task_id t) (dt_plan_fingerprint t) r
      && bool_decide (pd_node_id r = dt_node_id t)) (λ x, bool_decide (node_key x = node_key t))
      (λ x now, dispatch_scope t x now) _ _ Hrows) as Hex.
    rewrite Hex. destruct (existsb (λ x : DispatchTicket, _) _) eqn:En; [by exists s|].
    rewrite (st_bind_run (st_raise_if _ _ _) _ s tt s) by done. cbn [cp_fail_if raise_if mbind result_bind].
    assert (insert_dispatch (dispatch_row_of t (ticket_text t) (sha256_of_text (ticket_text t)) (cs_now s)) s
      = match sqlite_int (dt_dispatch_sequence t) with
        | Raise e => (Raise e, s)
        | Ok _ => (Ok tt, set_tables {| ct_dispatches := ct_dispatches (tables_of (ls_log a)) ++ [ticket_row t (cs_now s)];
            ct_observations := ct_observations (tables_of (ls_log a)); ct_events := ct_events (tables_of (ls_log a)) |} s)
        end) as Hins.
    { apply insert_dispatch_run; [apply Hr|by apply find_none_existsb|exact Hex]. }
    destruct (sqlite_int _) as [z|e]; [|exists s; by rewrite (st_bind_stop _ _ _ _ _ Hins)].
    rewrite (st_bind_run _ _ _ _ _ Hins). split.
    { unfold append. apply log_ok_dispatch; [apply Hr|by apply find_eq_none in Ex|by apply find_eq_none|by apply exists_eq]. }
    erewrite st_bind_run by (by apply append_event_run). unfold append. rewrite tables_snoc, (rp_now _ _ Hr), app_nil_r. done.
Qed.
Lemma parse_ticket l t kind : log_ok l → t ∈ tickets l →
  (payload ← _parse_canonical_payload (ticket_text t) (sha256_of_text (ticket_text t)) kind; _dispatch_from_payload payload) = Ok t.
Proof.
  intros Hl Ht. pose proof (ticket_ok _ _ Hl Ht) as Htp. pose proof (dispatch_payload_ok _ _ Htp) as [_ Hokt].
  pose proof (parse_canonical _ kind Hokt) as Hp. fold (ticket_text t) in Hp. rewrite Hp. cbn [mbind result_bind].
  by apply dispatch_read.
Qed.

(** Every float of the payload is read back exactly, and its dicts have distinct keys. *)
Definition storable (o : ExecutionObservation) : Prop :=
  ∀ p, ExecutionObservation_canonical_dict o = Ok p → json_ok p = true.

Lemma observation_scope o x now : dispatch_in (eo_task_id o) (eo_plan_fingerprint o) (ticket_row x now)
    && bool_decide (pd_node_id (ticket_row x now) = eo_node_id o) = bool_decide (node_key x = report_key o).
Proof.
  unfold dispatch_in, in_scope, node_key, report_key. rewrite <- !bool_decide_and. apply bool_decide_ext. cbn.
  split; [by intros [[-> ->] ->]|by intros [= -> -> ->]].
Qed.
Lemma report_scope o x now : observation_in (eo_task_id o) (eo_plan_fingerprint o) (report_row x now)
    && bool_decide (po_node_id (report_row x now) = eo_node_id o) = bool_decide (report_key x = report_key o).
Proof.
  unfold observation_in, in_scope, report_key. rewrite <- !bool_decide_and. apply bool_decide_ext. cbn.
  split; [by intros [[-> ->] ->]|by intros [= -> -> ->]].
Qed.

Lemma insert_observation_run s t r : cs_tables s = Some t →
  existsb (λ x, bool_decide (po_observation_id x = po_observation_id r)) (ct_observations t) = false →
  existsb (λ x, observation_in (po_task_id r) (po_plan_fingerprint r) x && bool_decide (po_node_id x = po_node_id r))
    (ct_observations t) = false →
  insert_observation r s = (Ok tt, set_tables {| ct_dispatches := ct_dispatches t;
    ct_observations := ct_observations t ++ [r]; ct_events := ct_events t |} s).
Proof.
  intros Ht H1 H2. unfold insert_observation, read_observations.
  rewrite (st_bind_run _ _ _ (ct_observations t) s) by (unfold read_table; by rewrite Ht).
  unfold st_raise_if, mbind, st_bind. rewrite H1, H2. cbn. unfold write_tables, st_modify. by rewrite Ht.
Qed.

(** The second half of [record_observation], after the ticket has been read. *)
Lemma record_report_run s a o t : represents s a → (∃ p, ExecutionObservation_canonical_dict o = Ok p ∧ json_ok p = true) →
  t ∈ tickets (ls_log a) → answers o t →
  let text := observation_text o in
  let m :=
    rows ← read_observations;
    match List.find (λ r, bool_decide (po_observation_id r = eo_observation_id o)) rows with
    | Some existing =>
        st_lift (same_payload (po_observation_json existing) (po_observation_sha256 existing) "OBSERVATION"
                   (sha256_of_text text)) ;;
        mret o
    | None =>
        st_raise_if (existsb (λ r, observation_in (eo_task_id o) (eo_plan_fingerprint o) r
                                   && bool_decide (po_node_id r = eo_node_id o)) rows)
          ExecutionCheckpointError "OBSERVATION_CHECKPOINT_NODE_CONFLICT" ;;
        insert_observation (observation_row_of o text (sha256_of_text text) (cs_now s)) ;;
        _append_event (eo_task_id o) (eo_plan_fingerprint o) "OBSERVATION_RECORDED" (eo_observation_id o)
          text (sha256_of_text text) (cs_now s) ;;
        mret o
    end in
  match (match List.find (λ x, bool_decide (eo_observation_id x = eo_observation_id o)) (reports (ls_log a)) with
      | Some x =>
          cp_fail_if (negb (bool_decide (sha256_of_text (observation_text x) = sha256_of_text (observation_text o))))
            "OBSERVATION_CHECKPOINT_IDENTITY_CONFLICT" ;;
          Ok (ls_log a)
      | None =>
          cp_fail_if (existsb (λ x, bool_decide (report_key x = report_key o)) (reports (ls_log a)))
            "OBSERVATION_CHECKPOINT_NODE_CONFLICT" ;;
          Ok (append (Observed o) a)
      end) with
  | Ok l => log_ok l ∧ m s = (Ok o, set_tables (tables_of l) s)
  | Raise e => ∃ s', m s = (Raise e, s')
  end.
Proof.
  intros Hr Ho Ht Hans text. cbv zeta. rewrite (st_bind_run _ _ _ _ _ (read_observations_run _ _ Hr)).
  pose proof (rows_match observation_of report_row (ls_log a)) as Hrows. fold (reports (ls_log a)) in Hrows.
  pose proof (find_match report_row (λ r, bool_decide (po_observation_id r = eo_observation_id o))
    (λ x, bool_decide (eo_observation_id x = eo_observation_id o)) (λ _ _, eq_refl) _ _ Hrows) as Hfind.
  destruct (List.find (λ r : observation_row, _) _) as [r|] eqn:Er, (List.find (λ x : ExecutionObservation, _) _) as [x|] eqn:Ex;
    try (by inversion Hfind).
  - assert (row_for report_row r x) as [now ->] by (by inversion Hfind).
    cbn [report_row observation_row_of po_observation_json po_observation_sha256].
    apply find_eq_some in Ex as [Hx _]. destruct (report_ok _ _ (rp_ok _ _ Hr) Hx) as (p & Hp & Hokx).
    assert (observation_text x = print p) as -> by (unfold observation_text; by rewrite Hp).
    rewrite (same_payload_ok _ _ _ Hokx).
    change ("OBSERVATION" +:+ "_CHECKPOINT_IDENTITY_CONFLICT") with "OBSERVATION_CHECKPOINT_IDENTITY_CONFLICT".
    destruct (cp_fail_if _ _) as [[]|e] eqn:Hsame; cbn [mbind result_bind].
    + split; [by apply Hr|]. by rewrite (set_tables_same _ _ Hr).
    + by exists s.
  - pose proof (existsb_match report_row (λ r, observation_in (eo_task_id o) (eo_plan_fingerprint o) r
      && bool_decide (po_node_id r = eo_node_id o)) (λ x, bool_decide (report_key x = report_key o))
      (λ x now, report_scope o x now) _ _ Hrows) as Hex.
    rewrite Hex. destruct (existsb (λ x : ExecutionObservation, _) _) eqn:En; [by exists s|].
    rewrite (st_bind_run (st_raise_if _ _ _) _ s tt s) by done. cbn [cp_fail_if raise_if mbind result_bind]. split.
    { unfold append. apply (log_ok_report _ _ t); [apply Hr|done|by apply exists_eq|done..]. }
    erewrite st_bind_run by (apply insert_observation_run; [apply Hr|by apply find_none_existsb|exact Hex]).
    erewrite st_bind_run by (by apply append_event_run). unfold append. rewrite tables_snoc, (rp_now _ _ Hr), app_nil_r. done.
Qed.

Lemma record_observation_sim o : storable o → simulates (CheckpointRepository_record_observation o) (record_observation o).
Proof.
  intros Hst s a Hr. unfold CheckpointRepository_record_observation. cbn [record_observation LogRepository].
  destruct (ExecutionObservation_canonical_dict o) as [p|e] eqn:Hp.
  2: { unfold ExecutionObservation_canonical_dict in Hp. destruct (ExecutionObservation_validate o None None) eqn:Hv; cbn in Hp.
       - by rewrite (st_bind_run (st_lift (Ok _)) _ s _ s) by done.
       - injection Hp as ->. done. }
  specialize (Hst p Hp). assert (ExecutionObservation_validate o None None = Ok o) as Hv.
  { unfold ExecutionObservation_canonical_dict in Hp. apply bind_ok_iff in Hp as (x & Hx & _).
    by pose proof (validated_record _ _ Hx) as (-> & _). }
  assert (observation_text o = print p) as Htext by (unfold observation_text; by rewrite Hp).
  rewrite Hv, !(st_bind_run (st_lift (Ok _)) _ s _ s) by done. rewrite (st_bind_run (st_lift (Ok _)) _ a _ a) by done.
  rewrite canonical_json_ok, digest_payload_ok by done. rewrite <- Htext.
  do 2 rewrite (st_bind_run (st_lift (Ok _)) _ s _ s) by done. rewrite (st_bind_run st_get _ s s s) by done.
  apply (transaction_sim _ _ Hr). unfold log_observation. destruct (log_require_task (eo_task_id o) a) as [[]|e] eqn:Htask.
  2: { exists s. by rewrite (st_bind_stop _ _ _ e s) by (by rewrite (require_task_run _ _ Hr), Htask). }
  rewrite (st_bind_run _ _ _ tt s) by (by rewrite (require_task_run _ _ Hr), Htask).
  rewrite (st_bind_run _ _ _ _ _ (read_dispatches_run _ _ Hr)). cbn [mbind result_bind].
  pose proof (rows_match ticket_of ticket_row (ls_log a)) as Hrows. fold (tickets (ls_log a)) in Hrows.
  pose proof (find_match ticket_row (λ r, dispatch_in (eo_task_id o) (eo_plan_fingerprint o) r && bool_decide (pd_node_id r = eo_node_id o))
    (λ x, bool_decide (node_key x = report_key o)) (λ x now, observation_scope o x now) _ _ Hrows) as Hfind.
  destruct (List.find (λ r : dispatch_row, _) _) as [r|] eqn:Er, (List.find (λ x : DispatchTicket, _) _) as [t|] eqn:Et;
    try (by inversion Hfind); [|by exists s].
  assert (row_for ticket_row r t) as [now ->] by (by inversion Hfind). cbn [ticket_row dispatch_row_of pd_ticket_json pd_ticket_sha256].
  apply find_some in Et as [Ht%list_elem_of_In Hkey]. cbn beta in Hkey. bool_prop.
  pose proof (parse_ticket _ _ "DISPATCH" (rp_ok _ _ Hr) Ht) as Hparse. apply bind_ok_iff in Hparse as (v & -> & Hv').
  rewrite (st_bind_run (st_lift (Ok _)) _ s _ s), Hv', (st_bind_run (st_lift (Ok _)) _ s _ s) by done.
  destruct (bool_decide (eo_node_fingerprint o = _)) eqn:Hn; [|by exists s].
  destruct (bool_decide (eo_authority_fingerprint o = _)) eqn:Hauth; [|by exists s]. bool_prop.
  rewrite !(st_bind_run (st_raise_if _ _ _) _ s tt s) by done. cbn [negb cp_fail_if raise_if mbind result_bind].
  apply (record_report_run s a o t); [done|by exists p|exact Ht|done].
Qed.
(** ** Cancellation *)

Lemma reason_text_inj r r' : reason_text r = reason_text r' → r = r'.
Proof. intros H. apply print_inj in H; [|done|done]. cbn in H. congruence. Qed.

Lemma reason_payload r kind : _parse_canonical_payload (reason_text r) (sha256_of_text (reason_text r)) kind
  = Ok (JObj [("reason_code", JStr r)]).
Proof. unfold reason_text. by rewrite parse_canonical. Qed.

Definition reason_row (r : event_row) (reason : string) : Prop :=
  pe_payload_json r = reason_text reason ∧ pe_payload_sha256 r = sha256_of_text (reason_text reason).

Lemma last_cancellation_match l task plan : Forall (λ e, entry_ok e.1) l →
  option_Forall2 reason_row (last_cancellation (fold_left chain_entry l []) task plan) (last_reason l task plan).
Proof.
  unfold last_cancellation, last_reason. induction l as [|[e now] l IH] using rev_ind; [constructor|].
  intros [Hl He]%Forall_app. apply Forall_cons_1 in He as [He _]. specialize (IH Hl). cbn [fst] in He.
  rewrite fold_left_app, omap_app. cbn [fold_left]. set (events := fold_left _ _ _) in *.
  unfold chain_entry. cbn [fst snd]. destruct (entry_event e) as [[[[t pf] type] subject] text] eqn:Ee.
  rewrite List.filter_app. cbn [List.filter omap list_omap].
  set (r := event_row_for events t pf type subject text now).
  assert (event_in task plan r && bool_decide (pe_event_type r = "CANCELLED")
    = match reason_in task plan (e, now) with Some _ => true | None => false end) as Hin.
  { unfold event_in, reason_in, r. cbn [event_row_for pe_task_id pe_plan_fingerprint pe_event_type fst].
    destruct e as [x|x|x y z|x y type' u v]; injection Ee as <- <- <- <- <-; rewrite ?andb_false_r; [done..| |].
    - rewrite andb_true_r. by destruct (in_scope _ _ _ _).
    - destruct He as [_ He]. by rewrite (bool_decide_false _ He), andb_false_r. }
  rewrite Hin. unfold reason_in in *. cbn [fst] in *.
  destruct e as [x|x|x y z|]; cbn [fst]; rewrite ?app_nil_r; try done.
  destruct (in_scope task plan x y); rewrite ?app_nil_r; [|done]. rewrite !last_snoc. constructor.
  injection Ee as <- <- <- <- <-. done.
Qed.

Lemma last_reason_ok l task plan reason : log_ok l → last_reason l task plan = Some reason → reason ≠ "".
Proof.
  intros [He _ _ _ _] H. unfold last_reason in H. apply last_Some_elem_of in H.
  apply list_elem_of_omap in H as ([e now] & Hin & He'). rewrite Forall_elem in He. specialize (He _ Hin).
  unfold reason_in in He'. cbn in *. destruct e; try done. destruct (in_scope _ _ _ _); [|done]. by injection He' as ->.
Qed.

Lemma same_cancellation_ok latest l task plan reason :
  option_Forall2 reason_row latest (last_reason l task plan) →
  same_cancellation latest (reason_text reason) = Ok (bool_decide (last_reason l task plan = Some reason)).
Proof.
  intros H. destruct H as [r x [Ht Hs]|]; [|done]. cbn [same_cancellation]. rewrite Ht, Hs, reason_payload.
  cbn [mbind result_bind]. rewrite canonical_json_ok by done. cbn [mbind result_bind]. f_equal.
  apply bool_decide_ext. fold (reason_text x). split; [by intros ->%reason_text_inj|by intros [= ->]].
Qed.

Lemma record_cancellation_sim task plan reason :
  simulates (CheckpointRepository_record_cancellation task plan reason) (record_cancellation task plan reason).
Proof.
  intros s a Hr. unfold CheckpointRepository_record_cancellation. cbn [record_cancellation LogRepository].
  destruct (_require_sha256 plan "plan_fingerprint") as [x|e]; [|done].
  rewrite (st_bind_run (st_lift (Ok _)) _ s _ s), (st_bind_run (st_lift (Ok _)) _ a _ a) by done.
  destruct (is_empty (strip reason)) eqn:Hempty; [done|].
  rewrite (st_bind_run (st_raise_if false _ _) _ s _ s), (st_bind_run (st_raise_if false _ _) _ a _ a) by done. cbv zeta.
  set (p := JObj [("reason_code", JStr (strip reason))]).
  rewrite canonical_json_ok, digest_payload_ok by done. change (print p) with (reason_text (strip reason)).
  do 2 rewrite (st_bind_run (st_lift (Ok _)) _ s _ s) by done. rewrite (st_bind_run st_get _ s s s) by done.
  match goal with |- (transaction ?m s).1 = _ ∧ _ =>
    pose proof (transaction_sim s a Hr m (log_cancellation task plan (strip reason)) tt) as Hsim end.
  assert (∀ b : LogStore, (log_transaction (log_cancellation task plan (strip reason)) ;; mret tt) b
    = log_transaction (log_cancellation task plan (strip reason)) b) as Hret.
  { intros b. unfold mbind, st_bind. by destruct (log_transaction _ b) as [[[]|] ?]. }
  rewrite Hret in Hsim. apply Hsim. clear Hsim Hret. unfold log_cancellation.
  destruct (log_require_task task a) as [[]|e] eqn:Htask.
  2: { exists s. by rewrite (st_bind_stop _ _ _ e s) by (by rewrite (require_task_run _ _ Hr), Htask). }
  rewrite (st_bind_run _ _ _ tt s) by (by rewrite (require_task_run _ _ Hr), Htask).
  rewrite (st_bind_run _ _ _ _ _ (read_events_run _ _ Hr)). cbn [mbind result_bind].
  rewrite (same_cancellation_ok _ (ls_log a) task plan) by apply last_cancellation_match, Hr.
  rewrite (st_bind_run (st_lift (Ok _)) _ s _ s) by done. destruct (bool_decide _).
  - split; [apply Hr|]. by rewrite (set_tables_same _ _ Hr).
  - split.
    { unfold append. apply log_ok_cancel; [apply Hr|]. apply is_empty_false in Hempty. done. }
    erewrite append_event_run; [|apply Hr|done]. unfold append. rewrite tables_snoc, (rp_now _ _ Hr), !app_nil_r. done.
Qed.

(** ** Loading *)

Lemma log_verifies l task plan : log_ok l →
  verify_rows ZERO_HASH (List.filter (event_in task plan) (fold_left chain_entry l [])) = Ok true.
Proof. intros [He _ _ _ _]. by apply chained_verifies, log_chained. Qed.

(** A ticket of a log that belongs to a task and plan. *)
Definition ticket_in (l : log) (task plan : string) (t : DispatchTicket) : Prop :=
  t ∈ tickets l ∧ dt_task_id t = task ∧ dt_plan_fingerprint t = plan.

Lemma load_dispatch_ok l task plan ts m t now : log_ok l → ticket_in l task plan t → m !! dt_node_id t = None →
  load_dispatch task plan (ts, m) (ticket_row t now) = Ok (ts ++ [t], <[dt_node_id t := t]> m).
Proof.
  intros Hl (Ht & Htask & Hplan) Hm. unfold load_dispatch. cbn [ticket_row dispatch_row_of pd_ticket_json pd_ticket_sha256].
  pose proof (parse_ticket _ _ "DISPATCH" Hl Ht) as Hparse. apply bind_ok_iff in Hparse as (v & -> & Hv).
  cbn [mbind result_bind]. rewrite Hv. cbn [mbind result_bind fst snd]. rewrite !(bool_decide_true (_ = _)) by done. rewrite Hm.
  by rewrite bool_decide_false by (by intros [? ?]).
Qed.

Lemma load_dispatches l task plan rows ts ts0 m : log_ok l → Forall2 (row_for ticket_row) rows ts →
  Forall (ticket_in l task plan) ts → NoDup (map dt_node_id ts) → (∀ t, t ∈ ts → m !! dt_node_id t = None) →
  foldM (load_dispatch task plan) (ts0, m) rows = Ok (ts0 ++ ts, fold_left (λ m t, <[dt_node_id t := t]> m) ts m).
Proof.
  intros Hl Hrows. revert ts0 m. induction Hrows as [|r t rows ts [now ->] _ IH]; intros ts0 m Hin Hn Hm.
  { by rewrite app_nil_r. }
  apply Forall_cons_1 in Hin as [Ht Hin]. cbn [map] in Hn. apply NoDup_cons in Hn as [Hfresh Hn].
  cbn [foldM fold_left]. rewrite (load_dispatch_ok l) by (try done; apply Hm; left). cbn [mbind result_bind].
  rewrite IH; [by rewrite <- app_assoc|done..|].
  intros t' Ht'. rewrite lookup_insert_ne; [apply Hm; by right|]. intros Heq. destruct Hfresh. rewrite Heq.
  by apply list_elem_of_fmap_2.
Qed.

(** An observation of a log that belongs to a task and plan, with the ticket it answers. *)
Definition report_in (l : log) (task plan : string) (m : gmap string DispatchTicket) (o : ExecutionObservation) : Prop :=
  o ∈ reports l ∧ eo_task_id o = task ∧ eo_plan_fingerprint o = plan ∧ ∃ t, m !! eo_node_id o = Some t ∧ answers o t.

Lemma load_observation_ok l task plan m o now : log_ok l → report_in l task plan m o →
  load_observation task plan m (report_row o now) = Ok (stored_form o).
Proof.
  intros Hl (Ho & Htask & Hplan & t & Ht & _ & Hn & Ha). unfold load_observation.
  cbn [report_row observation_row_of po_observation_json po_observation_sha256].
  destruct (report_ok _ _ Hl Ho) as (p & Hp & Hok).
  assert (observation_text o = print p) as -> by (unfold observation_text; by rewrite Hp).
  rewrite (parse_canonical _ _ Hok). cbn [mbind result_bind]. rewrite (observation_read _ _ Hp Hok).
  cbn [mbind result_bind stored_form with_cost eo_task_id eo_plan_fingerprint eo_node_id eo_node_fingerprint eo_authority_fingerprint].
  rewrite Ht. by rewrite !bool_decide_true by done.
Qed.

Lemma load_observations l task plan rows os m : log_ok l → Forall2 (row_for report_row) rows os →
  Forall (report_in l task plan m) os → mapM (load_observation task plan m) rows = Ok (map stored_form os).
Proof.
  intros Hl. induction 1 as [|r o rows os [now ->] _ IH]; [done|]. intros [Ho Hos]%Forall_cons_1. cbn [mapM map].
  rewrite (load_observation_ok l) by done. cbn [mbind result_bind]. by rewrite (IH Hos).
Qed.

(** The tickets of a task and plan in the order of their sequence numbers. *)
Definition scoped_tickets (l : log) (task plan : string) : list DispatchTicket :=
  order_by (λ x y, dt_dispatch_sequence x <=? dt_dispatch_sequence y)
    (List.filter (λ t, in_scope task plan (dt_task_id t) (dt_plan_fingerprint t)) (tickets l)).
Definition scoped_reports (l : log) (task plan : string) : list ExecutionObservation :=
  order_by (λ x y, bool_decide (String.le (eo_node_id x) (eo_node_id y)))
    (List.filter (λ o, in_scope task plan (eo_task_id o) (eo_plan_fingerprint o)) (reports l)).

Lemma in_scope_iff task plan t p : in_scope task plan t p = true ↔ t = task ∧ p = plan.
Proof. unfold in_scope. rewrite andb_true_iff, !bool_decide_eq_true. done. Qed.

Lemma elem_scoped_tickets l task plan t : t ∈ scoped_tickets l task plan ↔ ticket_in l task plan t.
Proof.
  unfold scoped_tickets, ticket_in. rewrite order_by_perm, list_elem_of_In, List.filter_In, in_scope_iff, <- list_elem_of_In. done.
Qed.
Lemma elem_scoped_reports l task plan o : o ∈ scoped_reports l task plan ↔
  o ∈ reports l ∧ eo_task_id o = task ∧ eo_plan_fingerprint o = plan.
Proof.
  unfold scoped_reports. rewrite order_by_perm, list_elem_of_In, List.filter_In, in_scope_iff, <- list_elem_of_In. done.
Qed.

Lemma scoped_nodes l task plan : log_ok l → NoDup (map dt_node_id (scoped_tickets l task plan)).
Proof.
  intros [_ _ Hn _ _]. unfold scoped_tickets. change (map ?f ?x) with (f <$> x). rewrite order_by_perm.
  induction (tickets l) as [|t ts IH]; [constructor|]. cbn [map] in Hn. apply NoDup_cons in Hn as [Hk Hn]. cbn [List.filter].
  destruct (in_scope _ _ (dt_task_id t) _) eqn:Hs; [|by apply IH]. apply in_scope_iff in Hs as [Ht Hp].
  apply NoDup_cons. split; [|by apply IH]. intros (x & Hx & Hin)%list_elem_of_fmap.
  apply list_elem_of_In, List.filter_In in Hin as [Hin [Ht' Hp']%in_scope_iff]. destruct Hk.
  apply list_elem_of_fmap. exists x. split; [unfold node_key; congruence|by apply list_elem_of_In].
Qed.

Lemma recover_log l task plan : log_ok l → recover task plan (tables_of l) = Ok (log_recover task plan l).
Proof.
  intros Hl. unfold recover. cbn [tables_of ct_dispatches ct_observations ct_events].
  assert (Forall2 (row_for ticket_row) (order_by (λ a b, pd_dispatch_sequence a <=? pd_dispatch_sequence b)
    (List.filter (dispatch_in task plan) (rows_of ticket_of ticket_row l))) (scoped_tickets l task plan)) as Hd.
  { apply order_match; [done|]. apply filter_match; [done|]. apply rows_match. }
  rewrite (load_dispatches l _ _ _ _ _ _ Hl Hd); [|by apply Forall_elem, elem_scoped_tickets|by apply scoped_nodes|done].
  cbn [mbind result_bind app].
  assert (Forall2 (row_for report_row) (order_by (λ a b, bool_decide (String.le (po_node_id a) (po_node_id b)))
    (List.filter (observation_in task plan) (rows_of observation_of report_row l))) (scoped_reports l task plan)) as Ho.
  { apply order_match; [done|]. apply filter_match; [done|]. apply rows_match. }
  rewrite (load_observations l _ _ _ _ _ Hl Ho).
  2: { apply Forall_elem. intros o (Hin & Ht & Hp)%elem_scoped_reports. split_and!; [done..|].
       destruct (lo_answers _ Hl o Hin) as (t & Htin & Hans). exists t. split; [|done].
       apply keyed_dict_lookup; [by apply scoped_nodes|]. destruct Hans as ([= H1 H2 H3] & _).
       rewrite elem_scoped_tickets. unfold ticket_in. naive_solver. }
  cbn [mbind result_bind].
  assert (match last_cancellation (fold_left chain_entry l []) task plan with
          | Some row => Some <$> cancellation_reason row | None => Ok None end = Ok (last_reason l task plan)) as ->.
  { pose proof (last_cancellation_match l task plan (lo_entries _ Hl)) as Hc. pose proof (last_reason_ok l task plan) as Hne.
    destruct Hc as [r x [Hx Hs]|]; [|done]. unfold cancellation_reason. rewrite Hx, Hs, reason_payload. cbn [mbind result_bind].
    change (get [("reason_code", JStr x)] "reason_code") with (JStr x). cbv iota.
    destruct (is_empty x) eqn:He; [|done]. specialize (Hne x Hl eq_refl). by destruct x. }
  cbn [mbind result_bind]. unfold log_recover. fold (scoped_tickets l task plan). fold (scoped_reports l task plan).
  by rewrite map_map.
Qed.

(** A load of a task and plan; it changes nothing. *)
Lemma load_run s a task plan : represents s a → CheckpointRepository_load task plan s
  = ((_require_sha256 plan "plan_fingerprint" ;; log_require_task task a ;; Ok (log_recover task plan (ls_log a))), s).
Proof.
  intros Hr. unfold CheckpointRepository_load. destruct (_require_sha256 plan "plan_fingerprint") as [x|e]; [|done].
  rewrite (st_bind_run (st_lift (Ok _)) _ s _ s) by done. rewrite (st_bind_run (verify_event_chain task plan) _ s true s).
  2: { unfold verify_event_chain. rewrite (st_bind_run _ _ _ _ _ (read_events_run _ _ Hr)). by rewrite log_verifies by apply Hr. }
  rewrite (st_bind_run (st_raise_if false _ _) _ s _ s) by done. cbn [mbind result_bind].
  destruct (log_require_task task a) as [[]|e] eqn:Htask.
  2: { by rewrite (st_bind_stop _ _ _ e s) by (by rewrite (require_task_run _ _ Hr), Htask). }
  rewrite (st_bind_run (_require_task task) _ _ tt s) by (by rewrite (require_task_run _ _ Hr), Htask).
  rewrite (st_bind_run _ _ _ _ _ (read_dispatches_run _ _ Hr)), (st_bind_run _ _ _ _ _ (read_observations_run _ _ Hr)),
    (st_bind_run _ _ _ _ _ (read_events_run _ _ Hr)).
  pose proof (recover_log (ls_log a) task plan (rp_ok _ _ Hr)) as Hrec. unfold tables_of in Hrec. by rewrite Hrec.
Qed.

Lemma load_sim task plan : simulates (CheckpointRepository_load task plan) (load task plan).
Proof.
  intros s a Hr. rewrite (load_run _ _ _ _ Hr). cbn [load LogRepository].
  destruct (_require_sha256 plan "plan_fingerprint") as [x|e]; [|done].
  rewrite (st_bind_run (st_lift (Ok _)) _ a _ a), (st_bind_run st_get _ a a a) by done. cbn [mbind result_bind].
  by destruct (log_require_task task a) as [[]|e].
Qed.

(** ** The chain binds its rows *)

Definition event_text (r : event_row) : string := print (JObj [
    ("task_id", JStr (pe_task_id r)); ("plan_fingerprint", JStr (pe_plan_fingerprint r));
    ("event_type", JStr (pe_event_type r)); ("subject_id", JStr (pe_subject_id r));
    ("payload_json", JStr (pe_payload_json r)); ("payload_sha256", JStr (pe_payload_sha256 r));
    ("previous_hash", JStr (pe_previous_hash r)); ("recorded_at", JStr (pe_recorded_at r))]).

Lemma verify_cons previous r rows : verify_rows previous (r :: rows) = Ok true ↔
  verify_rows previous [r] = Ok true ∧ verify_rows (pe_event_hash r) rows = Ok true.
Proof.
  cbn [verify_rows]. destruct (loads _) as [v|e]; [|destruct (is_class _ _); naive_solver].
  destruct (_canonical_json v); [|naive_solver]. cbn [mbind result_bind]. destruct (negb _); [naive_solver|].
  destruct (_digest_payload v); [|naive_solver]. cbn [mbind result_bind]. do 2 (destruct (negb _); [naive_solver|]).
  rewrite event_hash_ok. cbn [mbind result_bind]. destruct (bool_decide _) eqn:E; [|naive_solver]. bool_prop.
  rewrite <- E. naive_solver.
Qed.

Lemma verify_one previous r : verify_rows previous [r] = Ok true →
  pe_previous_hash r = previous ∧ pe_event_hash r = sha256_of_text (event_text r).
Proof.
  cbn [verify_rows]. destruct (loads _) as [v|e]; [|by destruct (is_class _ _)]. intros H.
  apply bind_ok_iff in H as (c & Hc & H). destruct (bool_decide (c = _)); [|done]. cbn [negb] in H.
  apply bind_ok_iff in H as (d & Hd & H). destruct (bool_decide (_ = d)) eqn:E2; [|done]. cbn [negb] in H.
  destruct (bool_decide (_ = previous)) eqn:E3; [|done]. cbn [negb] in H.
  rewrite event_hash_ok in H. cbn [mbind result_bind] in H. destruct (bool_decide (pe_event_hash r = _)) eqn:E4; [|done].
  bool_prop. split; [done|]. rewrite E4. unfold event_text, event_digest. by rewrite E2, E3.
Qed.

Lemma verify_app previous rows r : verify_rows previous (rows ++ [r]) = Ok true ↔
  verify_rows previous rows = Ok true ∧ verify_rows (last_hash previous rows) [r] = Ok true.
Proof.
  revert previous. induction rows as [|x rows IH]; intros previous; [naive_solver|]. cbn [app].
  rewrite last_hash_cons, verify_cons, (verify_cons _ x rows), IH. tauto.
Qed.

Lemma event_text_inj r r' : event_text r = event_text r' → pe_event_hash r = pe_event_hash r' → r = r'.
Proof.
  intros H Hh. apply print_inj in H; [|reflexivity..]. apply canon_obj_inj in H; [|done|].
  2: { apply (proj1 (bool_decide_eq_true _)). reflexivity. }
  destruct r, r'. cbn in *. congruence.
Qed.

(** The event chain seals its rows. Two chains of the same length that verify from the same
    hash and end in the same hash have the same rows - every scope, type, subject, payload, digest and
    time - unless the texts of two of their events are a collision of the digest. *)
Theorem event_chain_binds previous rows rows' (H : verify_rows previous rows = Ok true)
    (H' : verify_rows previous rows' = Ok true) (Hlen : length rows = length rows')
    (Hlast : last_hash previous rows = last_hash previous rows') :
  rows = rows' ∨ ∃ r r', r ∈ rows ∧ r' ∈ rows'
    ∧ collision (utf8_encode (event_text r)) (utf8_encode (event_text r')).
Proof.
  revert rows' H' Hlen Hlast. induction rows as [|r rows IH] using rev_ind; intros rows' H' Hlen Hlast.
  { destruct rows'; [by left|done]. }
  destruct rows' as [|r' rows' _] using rev_ind; [rewrite length_app in Hlen; cbn in Hlen; lia|].
  rewrite !length_app in Hlen. cbn in Hlen. apply verify_app in H as [H Hr], H' as [H' Hr'].
  pose proof (verify_one _ _ Hr) as (Hp & Hh). pose proof (verify_one _ _ Hr') as (Hp' & Hh').
  unfold last_hash in Hlast. rewrite !last_snoc in Hlast. pose proof Hlast as Heq. rewrite Hh, Hh' in Heq.
  unfold sha256_of_text in Heq. apply (inj _) in Heq. destruct (decide (event_text r = event_text r')) as [Ht|Ht].
  - pose proof (event_text_inj _ _ Ht Hlast) as ->. destruct (IH H rows' H') as [->|(x & x' & Hx & Hx' & Hc)].
    + lia.
    + congruence.
    + by left.
    + right. exists x, x'. split_and!; [apply elem_of_app; by left..|done].
  - right. exists r, r'. split_and!; [apply elem_of_app; right; by left..|].
    split; [|done]. by intros ?%utf8_encode_inj.
Qed.

(** C10: the database implements the log. Creating the tables gives the empty log; and from a
    database that stands for a log, recording a ticket, an observation or a cancellation and loading a
    task's state each give the answer - the value or the exception - the log gives, and leave a database
    that stands for the log's next state: a refused or interrupted call changes nothing, the chain always
    verifies, and a load returns precisely what was recorded. *)
Theorem checkpoint_refines :
  (∀ s s', cs_tables s = None → CheckpointRepository_initialize s = (Ok tt, s') →
     represents s' {| ls_tasks := cs_tasks s; ls_log := []; ls_now := cs_now s; ls_locked := cs_locked s |})
  ∧ simulates initialize initialize
  ∧ (∀ t, simulates (record_dispatch t) (record_dispatch t))
  ∧ (∀ o, storable o → simulates (record_observation o) (record_observation o))
  ∧ (∀ task plan reason, simulates (record_cancellation task plan reason) (record_cancellation task plan reason))
  ∧ (∀ task plan, simulates (load task plan) (load task plan)).
Proof.
  split_and!.
  - intros s s' Ht. unfold CheckpointRepository_initialize. rewrite Ht. destruct (cs_locked s) eqn:Hl; [done|].
    intros [= <-]. constructor; cbn; try done. constructor; cbn; try constructor. set_solver.
  - intros s a Hr. cbn [initialize CheckpointRepository LogRepository]. unfold CheckpointRepository_initialize.
    by rewrite (rp_tables _ _ Hr).
  - exact record_dispatch_sim.
  - exact record_observation_sim.
  - exact record_cancellation_sim.
  - exact load_sim.
Qed.
End Log.

(** A run of the database: a ticket, its repetition, a cancellation, and what is loaded. *)
Section Examples.
#[local] Existing Instance checksum_hashlib.

Definition fresh_store : CheckpointStore :=
  {| cs_tasks := {["task"]}; cs_tables := None; cs_now := "2026-01-01T00:00:00Z"; cs_locked := false |}.
Definition sample_session : ST CheckpointStore RecoveredExecutionState :=
  initialize ;;
  record_dispatch sample_ticket ;;
  record_dispatch sample_ticket ;;
  record_cancellation "task" (dt_plan_fingerprint sample_ticket) " stop " ;;
  load "task" (dt_plan_fingerprint sample_ticket).

Example session_loads : (sample_session fresh_store).1 = Ok {|
  rx_task_id := "task"; rx_plan_fingerprint := dt_plan_fingerprint sample_ticket; rx_dispatches := [sample_ticket];
  rx_observations := []; rx_recovery_required_ticket_ids := [dt_ticket_id sample_ticket];
  rx_cancellation_reason := Some "stop" |}.
Proof. vm_compute. reflexivity. Qed.

Definition session_events : list event_row :=
  match cs_tables (sample_session fresh_store).2 with Some t => ct_events t | None => [] end.
Example session_chain : length session_events = 2%nat ∧ verify_rows ZERO_HASH session_events = Ok true.
Proof. vm_compute. split; reflexivity. Qed.

(** A row taken out of the chain is noticed. *)
Example shortened_chain : verify_rows ZERO_HASH (tail session_events) = Ok false.
Proof. vm_compute. reflexivity. Qed.

Lemma event_chain_binds_witness : session_events = session_events ∨ ∃ r r', r ∈ session_events ∧ r' ∈ session_events
    ∧ collision (utf8_encode (event_text r)) (utf8_encode (event_text r')).
Proof.
  exact (event_chain_binds ZERO_HASH session_events session_events (proj2 session_chain) (proj2 session_chain)
    eq_refl eq_refl).
Defined.
End Examples.
