(* ===== verification/TaskStore.v ===== *)
(** * The task store: contracts and execution budgets

    [store.py]: the SQLite tables that bind one immutable task contract to a task and keep the
    task's persistent execution budget. Another connection may hold the write lock when a
    write transaction starts; a transaction that raises takes no effect. *)

From Stdlib Require Import Ascii.
From Stdlib Require String.
From S2P Require Import Prelude PyStr Hashlib PyFloat Json JsonFacts PyTime.

Local Open Scope Z_scope.

(** The time zone database: the offset of Asia/Tokyo at a local time. *)
Class TokyoZone := utcoffset : Z → Z.

(** ** State *)

Record contract_row := {
  cb_schema_version : string; cb_contract_json : string; cb_contract_sha256 : string; cb_bound_at : string
}.
Record usage_row := {
  us_max_steps : Z; us_max_tool_calls : Z; us_max_retries : Z; us_max_escalations : Z; us_max_wall_time_ms : Z;
  us_steps_used : Z; us_tool_calls_used : Z; us_retries_used : Z; us_escalations_used : Z;
  us_deadline_at : string; us_bound_at : string; us_updated_at : string
}.
Record activity := {
  ac_timestamp : string; ac_task_id : string; ac_agent_id : string; ac_action : string; ac_status : string;
  ac_details : string
}.
Record revocation_row := { rv_reason_code : string; rv_revoked_at : string }.

#[export] Instance contract_row_eq_dec : EqDecision contract_row.
Proof. solve_decision. Defined.
#[export] Instance usage_row_eq_dec : EqDecision usage_row.
Proof. solve_decision. Defined.

(** The rows by primary key, the clock, and for each coming write transaction whether another
    connection keeps the lock. The table of revocations is created on demand. *)
Record TaskStore := {
  ts_tasks : gset string;
  ts_contracts : gmap string contract_row;
  ts_usage : gmap string usage_row;
  ts_revocations : option (gmap (string * string) revocation_row);
  ts_activities : list activity;
  ts_now : datetime;
  ts_contention : list bool
}.

Definition set_contracts (c : gmap string contract_row) (s : TaskStore) : TaskStore := {|
  ts_tasks := ts_tasks s; ts_contracts := c; ts_usage := ts_usage s; ts_revocations := ts_revocations s;
  ts_activities := ts_activities s; ts_now := ts_now s; ts_contention := ts_contention s |}.
Definition set_usage (u : gmap string usage_row) (s : TaskStore) : TaskStore := {|
  ts_tasks := ts_tasks s; ts_contracts := ts_contracts s; ts_usage := u; ts_revocations := ts_revocations s;
  ts_activities := ts_activities s; ts_now := ts_now s; ts_contention := ts_contention s |}.
Definition set_revocations (r : option (gmap (string * string) revocation_row)) (s : TaskStore) : TaskStore := {|
  ts_tasks := ts_tasks s; ts_contracts := ts_contracts s; ts_usage := ts_usage s; ts_revocations := r;
  ts_activities := ts_activities s; ts_now := ts_now s; ts_contention := ts_contention s |}.
Definition add_activity (a : activity) (s : TaskStore) : TaskStore := {|
  ts_tasks := ts_tasks s; ts_contracts := ts_contracts s; ts_usage := ts_usage s; ts_revocations := ts_revocations s;
  ts_activities := ts_activities s ++ [a]; ts_now := ts_now s; ts_contention := ts_contention s |}.
Definition set_clock (now : datetime) (contention : list bool) (s : TaskStore) : TaskStore := {|
  ts_tasks := ts_tasks s; ts_contracts := ts_contracts s; ts_usage := ts_usage s; ts_revocations := ts_revocations s;
  ts_activities := ts_activities s; ts_now := now; ts_contention := contention |}.

Definition next_attempt (s : TaskStore) : TaskStore := set_clock (ts_now s) (tail (ts_contention s)) s.

(** A write transaction: it waits for the lock in vain, or takes effect as a whole. *)
Definition write {A} (m : ST TaskStore A) : ST TaskStore A := λ s,
  let s0 := next_attempt s in
  if default false (head (ts_contention s)) then (raise SqliteOperationalError "database is locked", s0)
  else match m s0 with
       | (Ok a, s') => (Ok a, s')
       | (Raise e, _) => (Raise e, s0)
       end.

(** [datetime.now(TZ)] and its text. *)
Definition now_text (s : TaskStore) : string := isoformat (ts_now s).

Definition get_task (task_id : string) : ST TaskStore unit :=
  s ← st_get;
  st_raise_if (bool_decide (task_id ∉ ts_tasks s)) PyKeyError ("Unknown task_id: " +:+ task_id).

Definition record_activity (task_id agent_id action status details : string) : ST TaskStore unit :=
  write (st_modify (λ s, add_activity {| ac_timestamp := now_text s; ac_task_id := task_id; ac_agent_id := agent_id;
                                         ac_action := action; ac_status := status; ac_details := details |} s)).

(** ** Task contracts *)

(** [json.dumps] with its defaults prints a NaN or an infinity by name. *)
Fixpoint print_any (v : json) : string :=
  match v with
  | JFloat f => match f with
                | SpecFloat.S754_nan => "NaN"
                | SpecFloat.S754_infinity s => if s : bool then "-Infinity" else "Infinity"
                | _ => float_repr f
                end
  | JList l => "[" +:+ join "," (map print_any l) +:+ "]"
  | JObj l =>
      "{" +:+ join "," (map snd (sort_items (map (λ kv, (kv.1, quote kv.1 +:+ ":" +:+ print_any kv.2)) l))) +:+ "}"
  | _ => print v
  end.

Section Contracts.
Context {HL : Hashlib}.

Definition TaskStore_canonical_json (payload : json) : string * string :=
  let text := print_any payload in (text, sha256_of_text text).

Definition bind_task_contract (task_id : string) (contract : json) : ST TaskStore string :=
  get_task task_id ;;
  match contract with
  | JObj d =>
      let schema_version := strip (str_or_empty (get d "schema_version")) in
      st_raise_if (is_empty schema_version) PyValueError "contract schema_version is required" ;;
      st_raise_if (negb (bool_decide (str_or_empty (get d "task_id") = task_id))) PyValueError
        "contract task_id does not match task" ;;
      let '(text, digest) := TaskStore_canonical_json contract in
      s ← st_get;
      match ts_contracts s !! task_id with
      | Some existing =>
          st_raise_if (negb (bool_decide (cb_contract_sha256 existing = digest))) PyValueError
            "task contract is immutable once bound" ;;
          mret digest
      | None =>
          write (st_modify (λ s', set_contracts (<[task_id := {| cb_schema_version := schema_version;
            cb_contract_json := text; cb_contract_sha256 := digest; cb_bound_at := now_text s |}]> (ts_contracts s')) s')) ;;
          record_activity task_id "validator_bus" "task_contract_bound" "ok"
            ("schema=" +:+ schema_version +:+ " digest=" +:+ digest) ;;
          mret digest
      end
  | _ => st_lift (raise PyTypeError "contract must be a dictionary")
  end.
End Contracts.

(** [None] when no contract is bound, or the bound text is not an object. *)
Definition task_contract_for_task (task_id : string) (s : TaskStore) : result (option (list (string * json))) :=
  match ts_contracts s !! task_id with
  | None => Ok None
  | Some row => payload ← loads (cb_contract_json row); Ok (match payload with JObj d => Some d | _ => None end)
  end.

(** ** Execution budgets *)

Definition _budget_value (value : json) (field : string) : result Z :=
  match value with
  | JInt z => if z <? 0 then raise PyValueError (field +:+ " must be an integer >= 0") else Ok z
  | _ => raise PyValueError (field +:+ " must be an integer >= 0")
  end.

Record execution_limits := {
  el_max_steps : Z; el_max_tool_calls : Z; el_max_retries : Z; el_max_escalations : Z; el_max_wall_time_ms : Z
}.

Definition _bound_execution_limits (task_id : string) (s : TaskStore) : result execution_limits :=
  contract ← task_contract_for_task task_id s;
  match contract with
  | None => raise PyValueError "TASK_CONTRACT_NOT_BOUND"
  | Some c =>
      match get c "execution_budget" with
      | JObj execution =>
          steps ← _budget_value (get execution "max_steps") "max_steps";
          tools ← _budget_value (get execution "max_tool_calls") "max_tool_calls";
          retries ← _budget_value (get execution "max_retries") "max_retries";
          escalations ← _budget_value (get execution "max_escalations") "max_escalations";
          wall ← _budget_value (get execution "max_wall_time_ms") "max_wall_time_ms";
          Ok {| el_max_steps := steps; el_max_tool_calls := tools; el_max_retries := retries;
                el_max_escalations := escalations; el_max_wall_time_ms := wall |}
      | _ => raise PyValueError "BOUND_TASK_CONTRACT_EXECUTION_BUDGET_MISSING"
      end
  end.

Section Budget.
Context {TZ : TokyoZone}.

(** [d.replace(tzinfo=TZ)] of a naive datetime. *)
Definition in_tokyo (d : datetime) : datetime :=
  match dt_offset d with
  | Some _ => d
  | None => {| dt_local := dt_local d; dt_offset := Some (utcoffset (dt_local d)) |}
  end.

(** [started + timedelta(milliseconds=n)]: local time; the zone gives the offset anew. *)
Definition _deadline (bound_at : string) (max_wall_time_ms : Z) : result string :=
  match fromisoformat bound_at with
  | None => raise PyValueError ("Invalid isoformat string: " +:+ repr_str bound_at)
  | Some started =>
      raise_if (999999999 <? max_wall_time_ms / 86400000) PyOverflowError "must have magnitude <= 999999999" ;;
      let local := dt_local started + max_wall_time_ms * 1000 in
      raise_if (negb (in_calendar local)) PyOverflowError "date value out of range" ;;
      Ok (isoformat (in_tokyo {| dt_local := local; dt_offset := dt_offset started |}))
  end.

Definition _deadline_expired (deadline_at : string) (now : datetime) : result bool :=
  match fromisoformat deadline_at with
  | None => raise PyValueError "TASK_EXECUTION_BUDGET_DEADLINE_INVALID"
  | Some deadline => Ok (instant (in_tokyo deadline) <=? instant now)
  end.

Definition task_execution_budget_for_task (task_id : string) (s : TaskStore) : result usage_row :=
  match ts_usage s !! task_id with
  | None => raise PyValueError "TASK_EXECUTION_BUDGET_NOT_BOUND"
  | Some row => Ok row
  end.

Definition new_usage (l : execution_limits) (deadline now : string) : usage_row := {|
  us_max_steps := el_max_steps l; us_max_tool_calls := el_max_tool_calls l; us_max_retries := el_max_retries l;
  us_max_escalations := el_max_escalations l; us_max_wall_time_ms := el_max_wall_time_ms l;
  us_steps_used := 0; us_tool_calls_used := 0; us_retries_used := 0; us_escalations_used := 0;
  us_deadline_at := deadline; us_bound_at := now; us_updated_at := now |}.

(** A row an older version wrote, without all the limits. *)
Definition is_legacy (r : usage_row) : bool :=
  (us_max_steps r <? 0) || (us_max_tool_calls r <? 0) || (us_max_wall_time_ms r <? 0) || is_empty (us_deadline_at r).

Definition extend_usage (l : execution_limits) (deadline now : string) (r : usage_row) : usage_row := {|
  us_max_steps := el_max_steps l; us_max_tool_calls := el_max_tool_calls l; us_max_retries := us_max_retries r;
  us_max_escalations := us_max_escalations r; us_max_wall_time_ms := el_max_wall_time_ms l;
  us_steps_used := us_steps_used r; us_tool_calls_used := us_tool_calls_used r; us_retries_used := us_retries_used r;
  us_escalations_used := us_escalations_used r; us_deadline_at := deadline; us_bound_at := us_bound_at r;
  us_updated_at := now |}.

Definition sqlite_limits (l : execution_limits) : result unit :=
  sqlite_int (el_max_steps l) ;; sqlite_int (el_max_tool_calls l) ;; sqlite_int (el_max_retries l) ;;
  sqlite_int (el_max_escalations l) ;; sqlite_int (el_max_wall_time_ms l) ;; Ok tt.

(** The row to write and whether it is new; [None] when the bound row stays. *)
Definition bound_usage (l : execution_limits) (now : string) (row : option usage_row)
    : result (option (usage_row * bool)) :=
  match row with
  | None =>
      deadline ← _deadline now (el_max_wall_time_ms l);
      sqlite_limits l ;;
      Ok (Some (new_usage l deadline now, true))
  | Some r =>
      raise_if (negb (us_max_retries r =? el_max_retries l) || negb (us_max_escalations r =? el_max_escalations l))
        PyValueError "TASK_EXECUTION_BUDGET_IMMUTABLE_MISMATCH" ;;
      if is_legacy r then
        deadline ← _deadline (us_bound_at r) (el_max_wall_time_ms l);
        sqlite_int (el_max_steps l) ;; sqlite_int (el_max_tool_calls l) ;; sqlite_int (el_max_wall_time_ms l) ;;
        Ok (Some (extend_usage l deadline now r, false))
      else
        raise_if (negb (us_max_steps r =? el_max_steps l) || negb (us_max_tool_calls r =? el_max_tool_calls l)
                  || negb (us_max_wall_time_ms r =? el_max_wall_time_ms l))
          PyValueError "TASK_EXECUTION_BUDGET_IMMUTABLE_MISMATCH" ;;
        Ok None
  end.

Definition limits_text (l : execution_limits) : string :=
  "max_steps=" +:+ str_of_Z (el_max_steps l) +:+ " max_tool_calls=" +:+ str_of_Z (el_max_tool_calls l)
  +:+ " max_retries=" +:+ str_of_Z (el_max_retries l) +:+ " max_escalations=" +:+ str_of_Z (el_max_escalations l)
  +:+ " max_wall_time_ms=" +:+ str_of_Z (el_max_wall_time_ms l).

Definition write_usage (task_id : string) (l : execution_limits) (now : string) : ST TaskStore (option (usage_row * bool)) :=
  s ← st_get;
  change ← st_lift (bound_usage l now (ts_usage s !! task_id));
  match change with
  | Some (row, _) => st_modify (λ s', set_usage (<[task_id := row]> (ts_usage s')) s')
  | None => mret tt
  end ;;
  mret change.

Definition report_binding (task_id : string) (l : execution_limits) (written : option (usage_row * bool))
    : ST TaskStore unit :=
  match written with
  | Some (_, created) =>
      record_activity task_id "execution_budget"
        (if created then "execution_budget_bound" else "execution_budget_extended") "ok" (limits_text l)
  | None => mret tt
  end.

Definition bind_task_execution_budget (task_id : string) : ST TaskStore usage_row :=
  get_task task_id ;;
  s ← st_get;
  limits ← st_lift (_bound_execution_limits task_id s);
  written ← write (write_usage task_id limits (now_text s));
  report_binding task_id limits written ;;
  s2 ← st_get;
  st_lift (task_execution_budget_for_task task_id s2).

(** The counters after a reservation. *)
Definition charge (r : usage_row) (steps tool_calls retries escalations : Z) (now : string) : usage_row := {|
  us_max_steps := us_max_steps r; us_max_tool_calls := us_max_tool_calls r; us_max_retries := us_max_retries r;
  us_max_escalations := us_max_escalations r; us_max_wall_time_ms := us_max_wall_time_ms r;
  us_steps_used := us_steps_used r + steps; us_tool_calls_used := us_tool_calls_used r + tool_calls;
  us_retries_used := us_retries_used r + retries; us_escalations_used := us_escalations_used r + escalations;
  us_deadline_at := us_deadline_at r; us_bound_at := us_bound_at r; us_updated_at := now |}.

(** The checks of a reservation and the row it leaves. *)
Definition reserve_row (r : usage_row) (steps tool_calls retries escalations : Z) (now : datetime) : result usage_row :=
  expired ← _deadline_expired (us_deadline_at r) now;
  raise_if expired PyValueError "TASK_WALL_TIME_BUDGET_EXHAUSTED" ;;
  let r' := charge r steps tool_calls retries escalations (isoformat now) in
  raise_if (us_max_steps r <? us_steps_used r') PyValueError "TASK_STEP_BUDGET_EXHAUSTED" ;;
  raise_if (us_max_tool_calls r <? us_tool_calls_used r') PyValueError "TASK_TOOL_CALL_BUDGET_EXHAUSTED" ;;
  raise_if (us_max_retries r <? us_retries_used r') PyValueError "MODEL_RETRY_BUDGET_EXHAUSTED" ;;
  raise_if (us_max_escalations r <? us_escalations_used r') PyValueError "MODEL_ESCALATION_BUDGET_EXHAUSTED" ;;
  Ok (if (steps =? 0) && (tool_calls =? 0) && (retries =? 0) && (escalations =? 0) then r else r').

Definition reserve_usage (task_id : string) (steps tool_calls retries escalations : Z) (now : datetime) : ST TaskStore unit :=
  s ← st_get;
  row ← st_lift (task_execution_budget_for_task task_id s);
  row' ← st_lift (reserve_row row steps tool_calls retries escalations now);
  st_modify (λ s', set_usage (<[task_id := row']> (ts_usage s')) s').

Definition reserve_task_execution_budget (task_id : string) (steps tool_calls retries escalations : Z)
    : ST TaskStore usage_row :=
  steps ← st_lift (_budget_value (JInt steps) "steps");
  tool_calls ← st_lift (_budget_value (JInt tool_calls) "tool_calls");
  retries ← st_lift (_budget_value (JInt retries) "retries");
  escalations ← st_lift (_budget_value (JInt escalations) "escalations");
  s ← st_get;
  write (reserve_usage task_id steps tool_calls retries escalations (ts_now s)) ;;
  s2 ← st_get;
  st_lift (task_execution_budget_for_task task_id s2).
End Budget.
