(* ===== verification/ContractReload.v ===== *)
(** * Reading a validated contract back

    A contract that version 4 validated is written as canonical JSON, parsed and validated again
    whenever it is read: what comes back is the contract, unless the validator's own warnings have
    made it too long for itself. *)

From Stdlib Require Import Ascii.
From Stdlib Require String.
From S2P Require Import Prelude PyStr Json JsonFacts WorkflowDesign WorkflowGraph WorkflowFacts PlanFacts TaskStore.

Local Open Scope Z_scope.

(** [json.dumps] with and without [allow_nan] agree on values with finite numbers. *)
Lemma print_any_finite v : all_finite v = true → print_any v = print v.
Proof.
  induction v as [| | |f| |l IH|l IH] using json_ind'; cbn [all_finite print_any print]; try done.
  - by destruct f.
  - intros H. do 3 f_equal. apply map_ext_in. intros x Hx. rewrite List.Forall_forall in IH. apply IH; [done|].
    rewrite forallb_forall in H. by apply H.
  - intros H. do 5 f_equal. apply map_ext_in. intros kv Hkv. rewrite List.Forall_forall in IH. rewrite IH; [done..|].
    rewrite forallb_forall in H. by apply H.
Qed.

Lemma print_any_contract c : print_any (contract_json c) = print (contract_json c).
Proof. apply print_any_finite, json_ok_finite, contract_json_ok. Qed.

(** A node of the surrogate, and the parallel node it stands for. *)
Definition as_validation (n : wf_node) : wf_node := {|
  wn_id := wn_id n; wn_label := wn_label n; wn_kind := "validation"; wn_action := "validate";
  wn_depends_on := wn_depends_on n; wn_condition := wn_condition n; wn_approval_required := wn_approval_required n |}.

Definition is_parallel_node (n : wf_node) : bool := bool_decide (wn_kind n = "parallel").
Definition surrogate_of_node (n : wf_node) : wf_node := if is_parallel_node n then as_validation n else n.

(** Nodes whose fields the surrogate reads as they are. *)
Definition readable_node (n : wf_node) : Prop :=
  vocabulary_word (JStr (wn_id n)) = wn_id n ∧ vocabulary_word (JStr (wn_kind n)) = wn_kind n
  ∧ vocabulary_word (JStr (wn_action n)) = wn_action n
  ∧ (wn_kind n = "parallel" ↔ wn_action n ∈ parallel_actions)
  ∧ (wn_kind n = "parallel" → wn_approval_required n = false).

Lemma surrogate_json i n : readable_node n →
  surrogate_node i (canon (node_json n)) =
    Ok (canon (node_json (surrogate_of_node n)),
        if is_parallel_node n then Some (wn_id n, (wn_kind n, wn_action n)) else None).
Proof.
  intros (H1 & H2 & H3 & H4 & H5). rewrite !canon_node. unfold surrogate_node. cbv zeta.
  change (get _ "id") with (JStr (wn_id n)). change (get _ "kind") with (JStr (wn_kind n)).
  change (get _ "action") with (JStr (wn_action n)). rewrite H1, H2, H3.
  change (get_or _ "approval_required" (JBool false)) with (JBool (wn_approval_required n)).
  unfold surrogate_of_node, is_parallel_node. case_bool_decide as E.
  - rewrite (proj2 (mem_str_true _ _)) by (by apply H4). cbn [orb negb wf_fail_if].
    unfold as_validation. cbn [wn_id wn_label wn_kind wn_action wn_depends_on wn_condition wn_approval_required].
    rewrite !(H5 E). reflexivity.
  - rewrite (proj2 (mem_str_false _ _)) by (by rewrite <- H4). reflexivity.
Qed.

Definition parallel_pairs (nodes : list wf_node) (pairs : gmap string (string * string)) : gmap string (string * string) :=
  fold_left (λ m n, if is_parallel_node n then <[wn_id n := (wn_kind n, wn_action n)]> m else m) nodes pairs.

Lemma surrogates_json nodes : ∀ i pairs, Forall readable_node nodes →
  surrogate_nodes i pairs (map canon (map node_json nodes)) =
    Ok (map canon (map node_json (map surrogate_of_node nodes)), parallel_pairs nodes pairs).
Proof.
  induction nodes as [|n nodes IH]; intros i pairs; [done|]. intros [Hn Hall]%Forall_cons. cbn [map surrogate_nodes].
  rewrite surrogate_json by done. cbn [mbind result_bind]. rewrite IH by done. unfold parallel_pairs. cbn [fold_left].
  by destruct (is_parallel_node n).
Qed.

Lemma parallel_pairs_other nodes pairs id : id ∉ map wn_id nodes → parallel_pairs nodes pairs !! id = pairs !! id.
Proof.
  revert pairs. induction nodes as [|n nodes IH]; intros pairs; [done|]. cbn [map]. intros [Hne Hid]%not_elem_of_cons.
  unfold parallel_pairs in *. cbn [fold_left]. rewrite IH by done. destruct (is_parallel_node n); [|done].
  by apply lookup_insert_ne.
Qed.

Lemma restored_again nodes pairs n : NoDup (map wn_id nodes) → (∀ m, m ∈ nodes → pairs !! wn_id m = None) → n ∈ nodes →
  restore_node (parallel_pairs nodes pairs) (surrogate_of_node n) = n.
Proof.
  revert pairs. induction nodes as [|m nodes IH]; intros pairs Hnd Hp Hn; [by apply elem_of_nil in Hn|].
  apply NoDup_cons in Hnd as [Hm Hnd]. unfold parallel_pairs. cbn [fold_left]. apply elem_of_cons in Hn as [->|Hn].
  - unfold restore_node. assert (wn_id (surrogate_of_node m) = wn_id m) as -> by (unfold surrogate_of_node; by destruct (is_parallel_node m)).
    fold (parallel_pairs nodes (if is_parallel_node m then <[wn_id m := (wn_kind m, wn_action m)]> pairs else pairs)).
    rewrite parallel_pairs_other by done. unfold surrogate_of_node. destruct (is_parallel_node m) eqn:E.
    + rewrite lookup_insert_eq. by destruct m.
    + by rewrite Hp by left.
  - apply IH; [done| |done]. intros n' Hn'. destruct (is_parallel_node m); [|apply Hp; by right].
    rewrite lookup_insert_ne; [apply Hp; by right|]. intros He. apply Hm. rewrite He. by apply list_elem_of_fmap_2.
Qed.

(** What version 4 validates: the surrogate of its nodes is a contract of version 3. *)
Definition surrogate_contract (c : wf_contract) : wf_contract := {|
  wc_title := wc_title c; wc_objective := wc_objective c; wc_trigger := wc_trigger c; wc_risk_level := wc_risk_level c;
  wc_data_class := wc_data_class c; wc_nodes := map surrogate_of_node (wc_nodes c); wc_outputs := wc_outputs c;
  wc_warnings := wc_warnings c |}.

Record workflow_v4_ok (c : wf_contract) : Prop := {
  v4_surrogate : workflow_ok (surrogate_contract c);
  v4_nodes : Forall readable_node (wc_nodes c)
}.

Lemma surrogate_id n : wn_id (surrogate_of_node n) = wn_id n.
Proof. unfold surrogate_of_node. by destruct (is_parallel_node n). Qed.

Lemma reload_v4 c : workflow_v4_ok c →
  validate_contract_v4 (canon (contract_json c)) =
  if 12 <? Z.of_nat (length (wc_warnings c))
  then raise WorkflowDesignError "warnings must be a bounded list" else Ok c.
Proof.
  intros [Hok Hn]. pose proof (revalidate_ok _ Hok) as Hr. rewrite <- validate_canon in Hr.
  unfold validate_contract_v4. rewrite canon_contract. cbv beta iota.
  change (get _ "nodes") with (JList (map canon (map node_json (wc_nodes c)))). cbv beta iota.
  rewrite surrogates_json by done. cbn [mbind result_bind].
  rewrite canon_contract in Hr. cbn [surrogate_contract wc_title wc_objective wc_trigger wc_risk_level wc_data_class
    wc_nodes wc_outputs wc_warnings] in Hr.
  change (dict_set "nodes" ?l ?d) with (dict_set "nodes" l d).
  match goal with |- (validate_contract ?x ≫= _) = _ => match type of Hr with validate_contract ?y = _ => change x with y end end.
  rewrite Hr. destruct (12 <? _); [done|]. cbn [mbind result_bind surrogate_contract wc_title wc_objective wc_trigger
    wc_risk_level wc_data_class wc_nodes wc_outputs wc_warnings]. f_equal. destruct c as [ti ob tr ri da nodes ou wa]. cbn in *.
  f_equal. rewrite map_map. etransitivity; [|apply map_id]. apply map_ext_in. intros n Hin%list_elem_of_In.
  apply restored_again; [|intros ? _; apply lookup_empty|done].
  pose proof (wo_ids _ Hok) as Hnd. cbn in Hnd. rewrite map_map in Hnd.
  rewrite (map_ext _ wn_id) in Hnd by (intros; apply surrogate_id). done.
Qed.

(** ** What validation makes of a node *)

(** The surrogate of an item, by the pairs that are kept. *)
Definition item_surrogate (pairs : gmap string (string * string)) (item sur : json) : Prop :=
  match pairs !! raw_id item with
  | Some (kind, action) => kind = "parallel" ∧ action ∈ parallel_actions
      ∧ ∃ d, item = JObj d ∧ truthy (get_or d "approval_required" (JBool false)) = false
          ∧ sur = JObj (dict_set "action" (JStr "validate") (dict_set "kind" (JStr "validation") d))
  | None => sur = item
  end.

Lemma surrogate_nodes_exact raw : ∀ i pairs nodes pairs', surrogate_nodes i pairs raw = Ok (nodes, pairs') →
  NoDup (map raw_id raw) → (∀ item, item ∈ raw → pairs !! raw_id item = None) →
  Forall2 (item_surrogate pairs') raw nodes ∧ (∀ id, id ∉ map raw_id raw → pairs' !! id = pairs !! id).
Proof.
  induction raw as [|item raw IH]; intros i pairs nodes pairs'; cbn [surrogate_nodes map].
  - intros [= <- <-] _ _. by split; [constructor|].
  - intros H [Hnew Hnd]%NoDup_cons Hp. apply bind_ok_iff in H as ([sur orig] & Hsur & H).
    apply bind_ok_iff in H as ([sn pairs2] & Hrest & [= <- <-]).
    assert (∀ it, it ∈ raw → raw_id it ≠ raw_id item) as Hother.
    { intros it Hit He. apply Hnew. rewrite <- He. by apply list_elem_of_fmap_2. }
    unfold surrogate_node, wf_fail_if, wf_fail in Hsur. destruct item as [| | | | | |d]; try done. cbn [raw_id] in *.
    destruct (bool_decide _ || _) eqn:Epar.
    + rewrite !guard_bind_ok in Hsur. destruct Hsur as (Hk & Hap & [= <- <-]). py_prop.
      apply IH in Hrest as [R1 R2]; [|done|].
      2: { intros it Hit. rewrite lookup_insert_ne by (by apply not_eq_sym, Hother). apply Hp. by right. }
      split.
      * constructor; [|done]. unfold item_surrogate. cbn [raw_id]. rewrite R2 by done. rewrite lookup_insert_eq.
        split_and!; [done..|]. by exists d.
      * intros id Hid. rewrite R2 by set_solver. apply lookup_insert_ne. set_solver.
    + injection Hsur as <- <-. apply IH in Hrest as [R1 R2]; [|done|intros it Hit; apply Hp; by right]. split.
      * constructor; [|done]. unfold item_surrogate. cbn [raw_id]. rewrite R2 by done.
        pose proof (Hp (JObj d) ltac:(left)) as Hno. cbn [raw_id] in Hno. by rewrite Hno.
      * intros id Hid. apply R2. set_solver.
Qed.

Lemma validated_words seen i d n : validate_node seen i (JObj d) = Ok n →
  wn_kind n = vocabulary_word (get d "kind") ∧ wn_action n = vocabulary_word (get d "action")
  ∧ get_or d "approval_required" (JBool false) = JBool (wn_approval_required n).
Proof.
  intros H. destruct (validate_node_fields _ _ _ _ H) as (d' & [= <-] & _ & Ha). revert H.
  unfold validate_node, wf_fail_if, wf_fail. rewrite !guard_bind_ok. intros (_ & _ & _ & _ & H).
  apply bind_ok_iff in H as (deps & _ & H). apply bind_ok_iff in H as (cond & _ & H).
  apply bind_ok_iff in H as (appr & _ & H). apply bind_ok_iff in H as (label & _ & [= <-]). done.
Qed.

Lemma kinds_plain k : k ∈ NODE_KINDS → vocabulary_word (JStr k) = k ∧ k ≠ "parallel".
Proof.
  assert (Forall (λ k, vocabulary_word (JStr k) = k ∧ k ≠ "parallel") NODE_KINDS) as H by (apply (bool_decide_unpack _); by vm_compute).
  rewrite Forall_elem in H. apply H.
Qed.
Lemma actions_plain a : a ∈ ACTIONS → vocabulary_word (JStr a) = a ∧ a ∉ parallel_actions.
Proof.
  assert (Forall (λ a, vocabulary_word (JStr a) = a ∧ a ∉ parallel_actions) ACTIONS) as H by (apply (bool_decide_unpack _); by vm_compute).
  rewrite Forall_elem in H. apply H.
Qed.
Lemma parallel_plain a : a ∈ parallel_actions → vocabulary_word (JStr a) = a.
Proof.
  assert (Forall (λ a, vocabulary_word (JStr a) = a) parallel_actions) as H by (apply (bool_decide_unpack _); by vm_compute).
  rewrite Forall_elem in H. apply H.
Qed.

(** A validated node of the surrogate, restored: its surrogate is the node again. *)
Lemma restored_surrogate pairs item sur seen i n : item_surrogate pairs item sur → raw_id item = wn_id n →
  validate_node seen i sur = Ok n → node_ok n →
  surrogate_of_node (restore_node pairs n) = n ∧ readable_node (restore_node pairs n).
Proof.
  intros Hs Hid Hv Hok. pose proof (kinds_plain _ (no_kind _ Hok)) as [K1 K2].
  pose proof (actions_plain _ (no_action _ Hok)) as [A1 A2].
  assert (vocabulary_word (JStr (wn_id n)) = wn_id n) as Hword by (apply vocabulary_word_plain, node_id_plain, Hok).
  unfold item_surrogate in Hs. rewrite Hid in Hs. unfold restore_node.
  destruct (pairs !! wn_id n) as [[kind action]|].
  - destruct Hs as (-> & Ha & d & -> & Htr & ->). apply validated_words in Hv as (V1 & V2 & V3).
    unfold get, get_or in V1, V2, V3. rewrite !dict_get_set in V1, V2, V3. cbn in V1, V2.
    rewrite !decide_False in V3 by done. unfold get_or in Htr. rewrite V3 in Htr. cbn in Htr. split.
    + unfold surrogate_of_node, is_parallel_node, as_validation. cbn. destruct n. cbn in *. by subst.
    + split_and!; cbn [wn_id wn_kind wn_action wn_approval_required]; try done. by apply parallel_plain.
  - split.
    + unfold surrogate_of_node, is_parallel_node. by rewrite bool_decide_eq_false_2.
    + split_and!; try done.
Qed.

Lemma v4_result raw c : validate_contract_v4 raw = Ok c → workflow_v4_ok c.
Proof.
  unfold validate_contract_v4, wf_fail. destruct raw as [| | | | | |d]; try done.
  destruct (get d "nodes") as [| | | | |raw_nodes|] eqn:Hget; try done. intros H.
  apply bind_ok_iff in H as ([nodes pairs] & Hsur & H). apply bind_ok_iff in H as (c0 & Hc & [= <-]).
  pose proof (validate_contract_ok _ _ Hc) as Hok. pose proof (validate_contract_nodes _ _ nodes Hc) as Hnodes.
  unfold get in Hnodes. rewrite dict_get_set, decide_True in Hnodes by done. specialize (Hnodes eq_refl).
  assert (map raw_id raw_nodes = map wn_id (wc_nodes c0)) as Hids.
  { rewrite <- (surrogate_nodes_ids _ _ _ _ _ Hsur). eapply Forall2_map_eq; [exact Hnodes|].
    intros item m (seen & i & Hm). by destruct (validate_node_fields _ _ _ _ Hm) as (? & _ & <- & _). }
  destruct (surrogate_nodes_exact _ _ _ _ _ Hsur) as [Hs _]; [rewrite Hids; apply Hok|intros; apply lookup_empty|].
  assert (∀ n, n ∈ wc_nodes c0 → surrogate_of_node (restore_node pairs n) = n ∧ readable_node (restore_node pairs n)) as Hall.
  { intros n Hn. assert (node_ok n) as Hnok by (destruct (wo_nodes _ Hok) as [Hf _]; rewrite Forall_elem in Hf; auto).
    apply list_elem_of_lookup in Hn as [i Hi]. destruct (Forall2_lookup_r _ _ _ _ _ Hnodes Hi) as (sur & Hsu & seen & idx & Hm).
    destruct (Forall2_lookup_r _ _ _ _ _ Hs Hsu) as (item & Hitem & Hrel). eapply restored_surrogate; [exact Hrel| |exact Hm|done].
    assert (map raw_id raw_nodes !! i = map wn_id (wc_nodes c0) !! i) as He by (by rewrite Hids).
    rewrite !list_lookup_fmap, Hitem, Hi in He. by injection He. }
  split.
  - assert (surrogate_contract {| wc_title := wc_title c0; wc_objective := wc_objective c0; wc_trigger := wc_trigger c0;
      wc_risk_level := wc_risk_level c0; wc_data_class := wc_data_class c0; wc_nodes := map (restore_node pairs) (wc_nodes c0);
      wc_outputs := wc_outputs c0; wc_warnings := wc_warnings c0 |} = c0) as ->; [|done].
    unfold surrogate_contract. cbn. rewrite map_map.
    rewrite (map_ext_in _ id), map_id; [by destruct c0|]. intros n Hn%list_elem_of_In. by apply Hall.
  - cbn. apply Forall_elem. intros n (n0 & -> & Hn)%list_elem_of_fmap. by apply Hall.
Qed.

(** C39: a contract that version 4 has validated is read back as itself: its canonical text parses,
    and the parsed value validates to the same contract - exactly when it has at most twelve
    warnings, those of the validator included; otherwise it is refused as too long. *)
Theorem contract_reload raw c : validate_contract_v4 raw = Ok c →
  (loaded ← loads (print (contract_json c)); validate_contract_v4 loaded) =
  if 12 <? Z.of_nat (length (wc_warnings c))
  then raise WorkflowDesignError "warnings must be a bounded list" else Ok c.
Proof.
  intros H. rewrite loads_contract. cbn [mbind result_bind]. by apply reload_v4, (v4_result raw).
Qed.

Lemma contract_reload_witness : ∃ c, validate_contract_v4 parallel_workflow = Ok c
  ∧ (loaded ← loads (print (contract_json c)); validate_contract_v4 loaded) = Ok c.
Proof.
  destruct (validate_contract_v4 parallel_workflow) as [c|e] eqn:E; [|vm_compute in E; discriminate].
  exists c. split; [reflexivity|]. rewrite (contract_reload parallel_workflow c E).
  assert ((12 <? Z.of_nat (length (wc_warnings c))) = false) as ->; [|reflexivity].
  vm_compute in E. injection E as <-. reflexivity.
Defined.
