(* ===== verification/WorkflowDrafts.v ===== *)
(** * Workflow drafts

    [workflow_drafts.py]: the SQLite store of workflow designs.  Each draft belongs to an owner; every
    save appends an immutable version and an audit entry, and is refused when its author has not seen
    the current revision.  A draft is design data: nothing here executes a workflow.

    A call is one transaction followed by a read of the draft; other clients act between the calls.
    The SVG diagram of a draft is not modelled. *)

From Stdlib Require Import Ascii.
From Stdlib Require String.
From S2P Require Import Prelude PyStr Hashlib Json WorkflowDesign ExecutionCheckpoint TaskStore.

Local Open Scope Z_scope.

Definition VALID_ORIGINS : list string := ["human"; "workspace_ai"; "import"].
Definition MAX_TITLE_CHARS : Z := 120.
Definition MAX_DESCRIPTION_CHARS : Z := 8000.
Definition MAX_QUERY_CHARS : Z := 200.
Definition MAX_LIST_LIMIT : Z := 100.

Definition wd_fail {A} (msg : string) : result A := raise WorkflowDraftError msg.
Definition wd_fail_if (b : bool) (msg : string) : result unit := raise_if b WorkflowDraftError msg.

(** [secrets.token_hex(8)]: the draws of 16 hexadecimal digits, in order. *)
Class TokenSource := {
  token_hex : Z → string;
  token_hex_shape (i : Z) : (String.length (token_hex i) =? 16)%nat && forall_char is_hex_lower (token_hex i) = true
}.

(** ** Checked arguments *)

(** [re.fullmatch(prefix + "[a-f0-9]{n}", s)]. *)
Definition hex_id (prefix : string) (n : nat) (s : string) : bool :=
  match strip_prefix prefix s with
  | Some h => (String.length h =? n)%nat && forall_char is_hex_lower h
  | None => false
  end.

Definition _owner (value : string) : result string :=
  let value := lower (strip value) in
  wd_fail_if (negb (hex_id "" 64 value)) "invalid workflow owner key" ;; Ok value.
Definition _actor (value : string) : result string :=
  let value := lower (strip value) in
  wd_fail_if (negb (hex_id "usr_" 16 value)) "invalid workflow actor id" ;; Ok value.
Definition _draft_id (value : string) : result string :=
  let value := lower (strip value) in
  wd_fail_if (negb (hex_id "wfd_" 16 value)) "invalid workflow draft id" ;; Ok value.
Definition _origin (value : string) : result string :=
  let value := lower (strip value) in
  wd_fail_if (negb (mem_str value VALID_ORIGINS)) "origin must be human, workspace_ai or import" ;; Ok value.
Definition _status_view (value : string) : result string :=
  let value := lower (strip (if is_empty value then "active" else value)) in
  wd_fail_if (negb (mem_str value ["active"; "archived"; "all"])) "view must be active, archived or all" ;; Ok value.

Definition Draft_bounded_text (value : json) (field : string) (limit : Z) (allow_empty : bool) : result string :=
  let text := squeeze (str_or_empty value) in
  wd_fail_if (is_empty text && negb allow_empty) (field +:+ " is required") ;;
  wd_fail_if (limit <? len text) (field +:+ " exceeds " +:+ str_of_Z limit +:+ " characters") ;;
  Ok text.

Definition _normalize_contract (value : json) : result wf_contract :=
  catch (validate_contract_v4 value) (λ e, is_class WorkflowDesignError (exn_cls e)) (λ e, wd_fail (exn_msg e)).

Section Drafts.
Context {HL : Hashlib} {TS : TokenSource}.

Definition content_payload (title description : string) (contract : json) : json :=
  JObj [("title", JStr title); ("description", JStr description); ("contract", contract)].
Definition _content_sha (title description contract_json : string) : result string :=
  contract ← loads contract_json;
  Ok (sha256_hexdigest (utf8_encode (print_any (content_payload title description contract)))).

(** [str(origin or default)]. *)
Definition origin_or (origin : json) (default_origin : string) : string :=
  if truthy origin then py_str origin else default_origin.

(** What a saved draft says: title, description, the text of the contract, and the digest of all. *)
Record content := { ct_title : string; ct_description : string; ct_contract_json : string; ct_sha256 : string }.

Definition _normalize_payload (title description contract origin : json) : result content :=
  normalized ← _normalize_contract contract;
  let fallback_title := if is_empty (wc_title normalized) then "Untitled workflow" else wc_title normalized in
  title_text ← Draft_bounded_text (if is_empty (strip (str_or_empty title)) then JStr fallback_title else title)
                 "title" MAX_TITLE_CHARS false;
  description_text ← Draft_bounded_text description "description" MAX_DESCRIPTION_CHARS true;
  _origin (origin_or origin "human") ;;
  let contract_json := print_any (contract_json normalized) in
  sha ← _content_sha title_text description_text contract_json;
  Ok {| ct_title := title_text; ct_description := description_text; ct_contract_json := contract_json; ct_sha256 := sha |}.

(** ** The tables *)

(** A row of [workspace_workflow_drafts], whose key is the identifier of the draft. *)
Record draft_row := {
  dr_owner_key : string; dr_content : content; dr_revision : Z; dr_status : string; dr_origin : string;
  dr_created_by : string; dr_updated_by : string; dr_created_at : string; dr_updated_at : string;
  dr_archived_at : option string; dr_lineage_parent_draft_id : option string; dr_lineage_parent_revision : option Z
}.
(** A row of [workspace_workflow_draft_versions], whose key is the draft with the revision. *)
Record version_row := {
  dv_owner_key : string; dv_content : content; dv_origin : string; dv_actor_id : string; dv_created_at : string
}.
(** A row of [workspace_workflow_draft_audit]; the rows are in the order of their numbers. *)
Record audit_row := {
  da_draft_id : string; da_owner_key : string; da_actor_id : string; da_operation : string;
  da_base_revision : option Z; da_new_revision : option Z; da_before_sha256 : option string;
  da_after_sha256 : option string; da_created_at : string
}.

Record DraftTables := {
  wt_drafts : gmap string draft_row;
  wt_versions : gmap (string * Z) version_row;
  wt_audit : list audit_row
}.
Definition no_drafts : DraftTables := {| wt_drafts := ∅; wt_versions := ∅; wt_audit := [] |}.
Definition set_wt_drafts (x : gmap string draft_row) (t : DraftTables) : DraftTables :=
  {| wt_drafts := x; wt_versions := wt_versions t; wt_audit := wt_audit t |}.
Definition set_wt_versions (x : gmap (string * Z) version_row) (t : DraftTables) : DraftTables :=
  {| wt_drafts := wt_drafts t; wt_versions := x; wt_audit := wt_audit t |}.
Definition set_wt_audit (x : list audit_row) (t : DraftTables) : DraftTables :=
  {| wt_drafts := wt_drafts t; wt_versions := wt_versions t; wt_audit := x |}.

(** The tables once they are created, the clock, the locks that the next connections meet and the
    number of tokens drawn. *)
Record DraftDB := {
  wd_tables : option DraftTables; wd_now : string; wd_contention : list bool; wd_draws : Z
}.
Definition set_wd_tables (t : DraftTables) (s : DraftDB) : DraftDB :=
  {| wd_tables := Some t; wd_now := wd_now s; wd_contention := wd_contention s; wd_draws := wd_draws s |}.
Definition next_connection (s : DraftDB) : DraftDB :=
  {| wd_tables := wd_tables s; wd_now := wd_now s; wd_contention := tail (wd_contention s); wd_draws := wd_draws s |}.

(** [with self.connect() as conn: ...]: commits when the body returns, rolls back when it raises. *)
Definition connect {A} (m : ST DraftTables A) : ST DraftDB A := λ s,
  let s0 := next_connection s in
  if default false (head (wd_contention s)) then (raise SqliteOperationalError "database is locked", s0)
  else match wd_tables s with
       | None => (raise SqliteOperationalError "no such table: workspace_workflow_drafts", s0)
       | Some t => match m t with
                   | (Ok a, t') => (Ok a, set_wd_tables t' s0)
                   | (Raise e, _) => (Raise e, s0)
                   end
       end.

Definition Draft_initialize : ST DraftDB unit := λ s,
  let s0 := next_connection s in
  if default false (head (wd_contention s)) then (raise SqliteOperationalError "database is locked", s0)
  else (Ok tt, match wd_tables s with None => set_wd_tables no_drafts s0 | Some _ => s0 end).

Definition draft_now : ST DraftDB string := s ← st_get; mret (wd_now s).
Definition draw_token : ST DraftDB string := λ s,
  (Ok (token_hex (wd_draws s)),
   {| wd_tables := wd_tables s; wd_now := wd_now s; wd_contention := wd_contention s; wd_draws := wd_draws s + 1 |}).

(** [SELECT * FROM workspace_workflow_drafts WHERE owner_key=? AND draft_id=?]. *)
Definition owned_row (t : DraftTables) (owner_key draft_id : string) : option draft_row :=
  match wt_drafts t !! draft_id with
  | Some r => if bool_decide (dr_owner_key r = owner_key) then Some r else None
  | None => None
  end.

Definition insert_draft (draft_id : string) (r : draft_row) : ST DraftTables unit :=
  t ← st_get;
  st_raise_if (bool_decide (is_Some (wt_drafts t !! draft_id))) SqliteIntegrityError
    "UNIQUE constraint failed: workspace_workflow_drafts.draft_id" ;;
  st_modify (set_wt_drafts (<[draft_id := r]> (wt_drafts t))).
Definition _insert_version (draft_id : string) (revision : Z) (r : version_row) : ST DraftTables unit :=
  t ← st_get;
  st_raise_if (bool_decide (is_Some (wt_versions t !! (draft_id, revision)))) SqliteIntegrityError
    "UNIQUE constraint failed: workspace_workflow_draft_versions.draft_id, workspace_workflow_draft_versions.revision" ;;
  st_modify (set_wt_versions (<[(draft_id, revision) := r]> (wt_versions t))).
Definition _audit (a : audit_row) : ST DraftTables unit := st_modify (λ t, set_wt_audit (wt_audit t ++ [a]) t).

(** ** Rows as values *)

Record draft_summary := {
  ds_draft_id : string; ds_title : string; ds_revision : Z; ds_content_sha256 : string; ds_status : string;
  ds_origin : string; ds_updated_at : string; ds_created_at : string; ds_archived_at : string; ds_node_count : Z;
  ds_risk_level : string; ds_data_class : string; ds_trigger : string; ds_lineage_parent_draft_id : string;
  ds_lineage_parent_revision : option Z
}.
Record draft_full := {
  df_summary : draft_summary; df_description : string; df_contract : json; df_mermaid : string
}.

(** [json.loads(row["contract_json"])], of which [get] is taken. *)
Definition contract_dict (text : string) : result (list (string * json)) :=
  contract ← loads text;
  match contract with JObj d => Ok d | _ => raise PyAttributeError "object has no attribute 'get'" end.
(** [len(contract.get("nodes") or [])]. *)
Definition node_count (d : list (string * json)) : result Z :=
  let nodes := get d "nodes" in
  if negb (truthy nodes) then Ok 0
  else match nodes with
       | JList l => Ok (Z.of_nat (length l))
       | JObj l => Ok (Z.of_nat (length l))
       | JStr s => Ok (len s)
       | _ => raise PyTypeError "object has no len()"
       end.

Definition _summary_from_row (draft_id : string) (r : draft_row) : result draft_summary :=
  d ← contract_dict (ct_contract_json (dr_content r));
  nodes ← node_count d;
  Ok {| ds_draft_id := draft_id; ds_title := ct_title (dr_content r); ds_revision := dr_revision r;
        ds_content_sha256 := ct_sha256 (dr_content r); ds_status := dr_status r; ds_origin := dr_origin r;
        ds_updated_at := dr_updated_at r; ds_created_at := dr_created_at r;
        ds_archived_at := default "" (dr_archived_at r); ds_node_count := nodes;
        ds_risk_level := str_or_empty (get d "risk_level"); ds_data_class := str_or_empty (get d "data_class");
        ds_trigger := str_or_empty (get d "trigger");
        ds_lineage_parent_draft_id := default "" (dr_lineage_parent_draft_id r);
        ds_lineage_parent_revision := dr_lineage_parent_revision r |}.

Definition _full_from_row (draft_id : string) (r : draft_row) : result draft_full :=
  summary ← _summary_from_row draft_id r;
  contract ← loads (ct_contract_json (dr_content r));
  mermaid ← render_mermaid_v4 contract;
  Ok {| df_summary := summary; df_description := ct_description (dr_content r); df_contract := contract;
        df_mermaid := mermaid |}.

Definition not_found {A} (what : string) : result A := raise WorkflowDraftNotFound what.
Definition draft_row_of (owner_key draft_id : string) : ST DraftTables draft_row :=
  t ← st_get;
  st_lift (match owned_row t owner_key draft_id with Some r => Ok r | None => not_found draft_id end).

(** ** Reading and creating *)

Definition Draft_get (owner_key draft_id : string) : ST DraftDB draft_full :=
  owner_key ← st_lift (_owner owner_key);
  draft_id ← st_lift (_draft_id draft_id);
  r ← connect (draft_row_of owner_key draft_id);
  st_lift (_full_from_row draft_id r).

Definition created_row (owner_key actor_id origin : string) (c : content) (now : string) (parent : option (string * Z))
    : draft_row := {|
  dr_owner_key := owner_key; dr_content := c; dr_revision := 1; dr_status := "active"; dr_origin := origin;
  dr_created_by := actor_id; dr_updated_by := actor_id; dr_created_at := now; dr_updated_at := now;
  dr_archived_at := None; dr_lineage_parent_draft_id := fst <$> parent; dr_lineage_parent_revision := snd <$> parent |}.
Definition version_of (owner_key actor_id origin : string) (c : content) (now : string) : version_row := {|
  dv_owner_key := owner_key; dv_content := c; dv_origin := origin; dv_actor_id := actor_id; dv_created_at := now |}.

Definition create_entry (owner_key actor_id : string) (c : content) (now : string) (parent : option (string * Z))
    (draft_id : string) : audit_row := {|
  da_draft_id := draft_id; da_owner_key := owner_key; da_actor_id := actor_id;
  da_operation := match parent with Some _ => "duplicate" | None => "create" end;
  da_base_revision := snd <$> parent; da_new_revision := Some 1; da_before_sha256 := None;
  da_after_sha256 := Some (ct_sha256 c); da_created_at := now |}.

(** The transaction of [create] for one identifier. *)
Definition create_draft (owner_key actor_id origin : string) (c : content) (now : string) (parent : option (string * Z))
    (draft_id : string) : ST DraftTables unit :=
  (match parent with
   | Some (parent_id, parent_revision) =>
       t ← st_get;
       st_raise_if (match owned_row t owner_key parent_id with Some _ => false | None => true end)
         WorkflowDraftNotFound parent_id ;;
       st_lift (sqlite_int parent_revision) ;;
       st_raise_if (match wt_versions t !! (parent_id, parent_revision) with
                    | Some v => negb (bool_decide (dv_owner_key v = owner_key))
                    | None => true
                    end) WorkflowDraftNotFound (parent_id +:+ "@" +:+ str_of_Z parent_revision)
   | None => mret tt
   end) ;;
  insert_draft draft_id (created_row owner_key actor_id origin c now parent) ;;
  _insert_version draft_id 1 (version_of owner_key actor_id origin c now) ;;
  _audit (create_entry owner_key actor_id c now parent draft_id).

(** [try: m  except sqlite3.IntegrityError: handler]. *)
Definition catch_integrity {A} (m handler : ST DraftDB A) : ST DraftDB A := λ s,
  match m s with
  | (Raise e, s') => if bool_decide (exn_cls e = SqliteIntegrityError) then handler s' else (Raise e, s')
  | r => r
  end.

(** [for _ in range(attempts): ...]: another identifier is drawn when one is taken. *)
Fixpoint create_attempts (attempts : nat) (owner_key actor_id origin : string) (c : content) (now : string)
    (parent : option (string * Z)) : ST DraftDB draft_full :=
  match attempts with
  | O => st_lift (wd_fail "unable to allocate workflow draft id")
  | S attempts =>
      token ← draw_token;
      let draft_id := "wfd_" +:+ token in
      catch_integrity
        (connect (create_draft owner_key actor_id origin c now parent draft_id) ;; Draft_get owner_key draft_id)
        (create_attempts attempts owner_key actor_id origin c now parent)
  end.

Definition Draft_create (owner_key actor_id : string) (title description contract origin : json)
    (lineage_parent_draft_id : option string) (lineage_parent_revision : option Z) : ST DraftDB draft_full :=
  owner_key ← st_lift (_owner owner_key);
  actor_id ← st_lift (_actor actor_id);
  c ← st_lift (_normalize_payload title description contract origin);
  origin_text ← st_lift (_origin (origin_or origin "workspace_ai"));
  parent ← st_lift (match lineage_parent_draft_id with
                    | None | Some "" => Ok None
                    | Some parent =>
                        parent_id ← _draft_id parent;
                        match lineage_parent_revision with
                        | Some n => if n <? 1 then wd_fail "lineage parent revision is required" else Ok (Some (parent_id, n))
                        | None => wd_fail "lineage parent revision is required"
                        end
                    end);
  now ← draft_now;
  create_attempts 8 owner_key actor_id origin_text c now parent.

(** ** Changing *)

Definition saved_row (actor_id origin : string) (c : content) (now : string) (r : draft_row) : draft_row := {|
  dr_owner_key := dr_owner_key r; dr_content := c; dr_revision := dr_revision r + 1; dr_status := dr_status r;
  dr_origin := origin; dr_created_by := dr_created_by r; dr_updated_by := actor_id;
  dr_created_at := dr_created_at r; dr_updated_at := now; dr_archived_at := dr_archived_at r;
  dr_lineage_parent_draft_id := dr_lineage_parent_draft_id r;
  dr_lineage_parent_revision := dr_lineage_parent_revision r |}.
Definition save_entry (owner_key actor_id : string) (c : content) (now draft_id : string) (r : draft_row) : audit_row := {|
  da_draft_id := draft_id; da_owner_key := owner_key; da_actor_id := actor_id; da_operation := "save";
  da_base_revision := Some (dr_revision r); da_new_revision := Some (dr_revision r + 1);
  da_before_sha256 := Some (ct_sha256 (dr_content r)); da_after_sha256 := Some (ct_sha256 c); da_created_at := now |}.

(** The transaction of [save]; the draft, when there is nothing to save. *)
Definition save_draft (owner_key actor_id origin : string) (c : content) (expected_revision : Z) (expected_sha now : string)
    (draft_id : string) : ST DraftTables (option draft_full) :=
  r ← draft_row_of owner_key draft_id;
  st_raise_if (negb (bool_decide (dr_status r = "active"))) WorkflowDraftConflict
    "archived workflow must be restored before editing" ;;
  st_raise_if (negb (bool_decide (dr_revision r = expected_revision) && bool_decide (ct_sha256 (dr_content r) = expected_sha)))
    WorkflowDraftConflict "stale workflow revision; reload before saving" ;;
  if bool_decide (ct_sha256 c = ct_sha256 (dr_content r)) then
    full ← st_lift (_full_from_row draft_id r); mret (Some full)
  else
    let new_revision := dr_revision r + 1 in
    st_lift (sqlite_int new_revision) ;;
    st_modify (λ t, set_wt_drafts (<[draft_id := saved_row actor_id origin c now r]> (wt_drafts t)) t) ;;
    _insert_version draft_id new_revision (version_of owner_key actor_id origin c now) ;;
    _audit (save_entry owner_key actor_id c now draft_id r) ;;
    mret None.

Definition Draft_save (owner_key actor_id draft_id : string) (expected_revision expected_content_sha256 title description
    contract origin : json) : ST DraftDB draft_full :=
  owner_key ← st_lift (_owner owner_key);
  actor_id ← st_lift (_actor actor_id);
  draft_id ← st_lift (_draft_id draft_id);
  origin_text ← st_lift (_origin (origin_or origin "human"));
  expected ← st_lift (reraise (py_int expected_revision) (λ c, is_class PyTypeError c || is_class PyValueError c)
               WorkflowDraftError "expected_revision must be an integer");
  let expected_sha := lower (strip (str_or_empty expected_content_sha256)) in
  st_raise_if (negb (hex_id "" 64 expected_sha)) WorkflowDraftError "expected_content_sha256 is required" ;;
  c ← st_lift (_normalize_payload title description contract (JStr origin_text));
  now ← draft_now;
  unchanged ← connect (save_draft owner_key actor_id origin_text c expected expected_sha now draft_id);
  match unchanged with
  | Some full => mret full
  | None => Draft_get owner_key draft_id
  end.

Definition desired_status (archived : bool) : string := if archived then "archived" else "active".
Definition archived_row (actor_id : string) (archived : bool) (now : string) (r : draft_row) : draft_row := {|
  dr_owner_key := dr_owner_key r; dr_content := dr_content r; dr_revision := dr_revision r;
  dr_status := desired_status archived; dr_origin := dr_origin r; dr_created_by := dr_created_by r;
  dr_updated_by := actor_id; dr_created_at := dr_created_at r; dr_updated_at := now;
  dr_archived_at := if archived then Some now else None;
  dr_lineage_parent_draft_id := dr_lineage_parent_draft_id r;
  dr_lineage_parent_revision := dr_lineage_parent_revision r |}.
Definition archive_entry (owner_key actor_id : string) (archived : bool) (now draft_id : string) (r : draft_row)
    : audit_row := {|
  da_draft_id := draft_id; da_owner_key := owner_key; da_actor_id := actor_id;
  da_operation := if archived then "archive" else "restore"; da_base_revision := Some (dr_revision r);
  da_new_revision := Some (dr_revision r); da_before_sha256 := Some (ct_sha256 (dr_content r));
  da_after_sha256 := Some (ct_sha256 (dr_content r)); da_created_at := now |}.

(** The transaction of [set_archived]. *)
Definition archive_draft (owner_key actor_id : string) (archived : bool) (now draft_id : string) : ST DraftTables unit :=
  r ← draft_row_of owner_key draft_id;
  if bool_decide (dr_status r = desired_status archived) then mret tt
  else
    st_modify (λ t, set_wt_drafts (<[draft_id := archived_row actor_id archived now r]> (wt_drafts t)) t) ;;
    _audit (archive_entry owner_key actor_id archived now draft_id r).

Definition set_archived (owner_key actor_id draft_id : string) (archived : bool) : ST DraftDB draft_full :=
  owner_key ← st_lift (_owner owner_key);
  actor_id ← st_lift (_actor actor_id);
  draft_id ← st_lift (_draft_id draft_id);
  now ← draft_now;
  connect (archive_draft owner_key actor_id archived now draft_id) ;;
  Draft_get owner_key draft_id.

Definition duplicate (owner_key actor_id draft_id : string) : ST DraftDB draft_full :=
  source ← Draft_get owner_key draft_id;
  Draft_create owner_key actor_id
    (JStr (take_str (Z.to_nat MAX_TITLE_CHARS) ("Copy of " +:+ ds_title (df_summary source))))
    (JStr (df_description source)) (df_contract source) (JStr "human")
    (Some (ds_draft_id (df_summary source))) (Some (ds_revision (df_summary source))).

(** ** Listing *)

Definition _escape_like (value : string) : string :=
  replace_char "_" (String backslash "_")
    (replace_char "%" (String backslash "%") (replace_char backslash (String backslash (String backslash "")) value)).

(** Characters that [LIKE] takes for equal: ASCII letters of either case. *)
Definition fold_ascii (c : ascii) : ascii := if is_upper c then ascii_of_N (code c + 32) else c.
Definition like_char (c d : ascii) : bool := bool_decide (fold_ascii c = fold_ascii d).

(** What SQLite's [LIKE] reads of a text: up to the first U+0000, in the pattern and in the column alike. *)
Definition NUL : ascii := "000"%char.
Fixpoint c_str (s : string) : string :=
  match s with
  | EmptyString => ""
  | String c t => if bool_decide (c = NUL) then "" else String c (c_str t)
  end.

Fixpoint like_match (p : string) : string → bool :=
  match p with
  | EmptyString => is_empty
  | String c p' =>
      if bool_decide (c = "%"%char) then
        fix any (s : string) := like_match p' s || match s with String _ s' => any s' | EmptyString => false end
      else if bool_decide (c = "_"%char) then
        λ s, match s with String _ s' => like_match p' s' | EmptyString => false end
      else if bool_decide (c = backslash) then
        match p' with
        | EmptyString => λ _, false
        | String e p'' => λ s, match s with String d s' => like_char e d && like_match p'' s' | EmptyString => false end
        end
      else λ s, match s with String d s' => like_char c d && like_match p' s' | EmptyString => false end
  end.

(** [s LIKE p ESCAPE '\\']. *)
Definition sql_like (p s : string) : bool := like_match (c_str p) (c_str s).

(** [ORDER BY updated_at DESC, draft_id ASC]. *)
Definition listed_before (p q : string * draft_row) : Prop :=
  (dr_updated_at p.2 ≠ dr_updated_at q.2 ∧ String.le (dr_updated_at q.2) (dr_updated_at p.2))
  ∨ (dr_updated_at p.2 = dr_updated_at q.2 ∧ String.le p.1 q.1).
#[export] Instance listed_before_dec : RelDecision listed_before.
Proof. intros p q. unfold listed_before. apply _. Defined.

(** The clauses of the query. *)
Definition listed (owner_key view query : string) (p : string * draft_row) : Prop :=
  let pattern := "%" +:+ _escape_like query +:+ "%" in
  dr_owner_key p.2 = owner_key ∧ (view = "all" ∨ dr_status p.2 = view)
  ∧ (query = "" ∨ sql_like pattern (ct_title (dr_content p.2)) = true
     ∨ sql_like pattern (ct_description (dr_content p.2)) = true).
#[export] Instance listed_dec owner_key view query p : Decision (listed owner_key view query p).
Proof. unfold listed. apply _. Defined.

Definition list_rows (owner_key view query : string) (limit : Z) (t : DraftTables) : list (string * draft_row) :=
  take (Z.to_nat limit) (merge_sort listed_before (filter (listed owner_key view query) (map_to_list (wt_drafts t)))).

Definition Draft_list (owner_key : string) (query : json) (view : string) (limit : Z) : ST DraftDB (list draft_summary) :=
  owner_key ← st_lift (_owner owner_key);
  view ← st_lift (_status_view view);
  query ← st_lift (Draft_bounded_text query "query" MAX_QUERY_CHARS true);
  st_raise_if (negb ((1 <=? limit) && (limit <=? MAX_LIST_LIMIT))) WorkflowDraftError
    ("limit must be between 1 and " +:+ str_of_Z MAX_LIST_LIMIT) ;;
  rows ← connect (t ← st_get; mret (list_rows owner_key view query limit t));
  st_lift (mapM (λ p, _summary_from_row p.1 p.2) rows).

Record version_summary := {
  vs_revision : Z; vs_title : string; vs_content_sha256 : string; vs_origin : string; vs_actor_id : string;
  vs_created_at : string; vs_node_count : Z; vs_risk_level : string; vs_data_class : string
}.
Definition version_summary_of (revision : Z) (r : version_row) : result version_summary :=
  d ← contract_dict (ct_contract_json (dv_content r));
  nodes ← node_count d;
  Ok {| vs_revision := revision; vs_title := ct_title (dv_content r); vs_content_sha256 := ct_sha256 (dv_content r);
        vs_origin := dv_origin r; vs_actor_id := dv_actor_id r; vs_created_at := dv_created_at r; vs_node_count := nodes;
        vs_risk_level := str_or_empty (get d "risk_level"); vs_data_class := str_or_empty (get d "data_class") |}.

Definition newest_first (p q : Z * version_row) : Prop := q.1 ≤ p.1.
#[export] Instance newest_first_dec : RelDecision newest_first.
Proof. intros p q. unfold newest_first. apply _. Defined.

(** [WHERE owner_key=? AND draft_id=? ORDER BY revision DESC]. *)
Definition version_rows (t : DraftTables) (owner_key draft_id : string) : list (Z * version_row) :=
  merge_sort newest_first (map (λ p, (p.1.2, p.2))
    (filter (λ p, p.1.1 = draft_id ∧ dv_owner_key p.2 = owner_key) (map_to_list (wt_versions t)))).

Definition versions (owner_key draft_id : string) : ST DraftDB (list version_summary) :=
  owner_key ← st_lift (_owner owner_key);
  draft_id ← st_lift (_draft_id draft_id);
  rows ← connect (draft_row_of owner_key draft_id ;; t ← st_get; mret (version_rows t owner_key draft_id));
  st_lift (mapM (λ p, version_summary_of p.1 p.2) rows).

(** [ORDER BY audit_id DESC LIMIT ?]. *)
Definition audit_rows (t : DraftTables) (owner_key draft_id : string) (limit : Z) : list audit_row :=
  take (Z.to_nat limit) (rev (filter (λ a, da_owner_key a = owner_key ∧ da_draft_id a = draft_id) (wt_audit t))).

Definition Draft_audit (owner_key draft_id : string) (limit : Z) : ST DraftDB (list audit_row) :=
  owner_key ← st_lift (_owner owner_key);
  draft_id ← st_lift (_draft_id draft_id);
  let limit := Z.max 1 (Z.min MAX_LIST_LIMIT limit) in
  connect (draft_row_of owner_key draft_id ;; t ← st_get; mret (audit_rows t owner_key draft_id limit)).
End Drafts.
