(* ===== verification/DraftSteps.v ===== *)
(** * The draft store, abstractly

    The changes a call may make to the tables: a new draft, a new version of a draft, a draft put
    aside or restored.  Every call of an owner is a sequence of such changes by that owner. *)

From Stdlib Require Import Ascii.
From Stdlib Require String.
From S2P Require Import Prelude PyStr Hashlib Json JsonFacts WorkflowDesign WorkflowGraph WorkflowFacts PlanFacts.
From S2P Require Import ContractReload ExecutionCheckpoint TaskStore WorkflowDrafts.

Local Open Scope Z_scope.

Section Steps.
Context {HL : Hashlib} {TS : TokenSource}.

(** ** Contents *)

(** The content says what a validated contract says, in normal form, with its own digest. *)
Definition content_of (c : wf_contract) (ct : content) : Prop :=
  (∃ raw, validate_contract_v4 raw = Ok c)
  ∧ ct_contract_json ct = print (contract_json c)
  ∧ ct_sha256 ct = sha256_hexdigest (utf8_encode (print_any
      (content_payload (ct_title ct) (ct_description ct) (canon (contract_json c)))))
  ∧ (squeeze (ct_title ct) = ct_title ct ∧ ct_title ct ≠ "" ∧ len (ct_title ct) ≤ MAX_TITLE_CHARS)
  ∧ (squeeze (ct_description ct) = ct_description ct ∧ len (ct_description ct) ≤ MAX_DESCRIPTION_CHARS).
Definition valid_content (ct : content) : Prop := ∃ c, content_of c ct.

Lemma bounded_text_ok v field limit allow_empty text : Draft_bounded_text v field limit allow_empty = Ok text →
  squeeze text = text ∧ len text ≤ limit ∧ (allow_empty = false → text ≠ "").
Proof.
  unfold Draft_bounded_text, wd_fail_if. rewrite !guard_bind_ok, andb_false_imp, Z.ltb_ge. intros (He & Hl & [= <-]).
  split_and!; [apply squeeze_idemp|done|]. intros -> Hs. rewrite Hs in He. by specialize (He eq_refl).
Qed.

Lemma normalize_contract_ok v c : _normalize_contract v = Ok c → validate_contract_v4 v = Ok c.
Proof. unfold _normalize_contract, catch. destruct (validate_contract_v4 v) as [|e]; [done|]. by destruct (is_class _ _). Qed.

Lemma content_sha_ok ti de c : _content_sha ti de (print (contract_json c)) =
  Ok (sha256_hexdigest (utf8_encode (print_any (content_payload ti de (canon (contract_json c)))))).
Proof. unfold _content_sha. by rewrite loads_contract. Qed.

Lemma payload_content title description contract origin ct c : validate_contract_v4 contract = Ok c →
  _normalize_payload title description contract origin = Ok ct → content_of c ct.
Proof.
  intros Hv. unfold _normalize_payload. intros H. apply bind_ok_iff in H as (c' & Hc & H). apply normalize_contract_ok in Hc.
  replace c' with c in * by congruence. clear c' Hc.
  cbv zeta in H. rewrite print_any_contract in H.
  apply bind_ok_iff in H as (ti & Ht & H). apply bind_ok_iff in H as (de & Hd & H). apply bind_ok_iff in H as (o & _ & H).
  rewrite content_sha_ok in H. apply bounded_text_ok in Ht as (T1 & T2 & T3), Hd as (D1 & D2 & _).
  cbn [mbind result_bind] in H. injection H as <-. split; [by exists contract|]. split; [exact eq_refl|]. split; [exact eq_refl|].
  exact (conj (conj T1 (conj (T3 eq_refl) T2)) (conj D1 D2)).
Qed.

Lemma payload_ok title description contract origin ct : _normalize_payload title description contract origin = Ok ct →
  valid_content ct.
Proof.
  intros H. pose proof H as H'. unfold _normalize_payload in H'. apply bind_ok_iff in H' as (c & Hc%normalize_contract_ok & _).
  exists c. by eapply payload_content.
Qed.

(** ** Changes *)

Inductive draft_step (owner : string) (t : DraftTables) : DraftTables → Prop :=
  | draft_created actor origin ct now parent id :
      hex_id "wfd_" 16 id = true → origin ∈ VALID_ORIGINS → valid_content ct →
      wt_drafts t !! id = None → wt_versions t !! (id, 1) = None →
      (∀ p n, parent = Some (p, n) → ∃ r v, owned_row t owner p = Some r ∧ wt_versions t !! (p, n) = Some v ∧ dv_owner_key v = owner) →
      draft_step owner t {|
        wt_drafts := <[id := created_row owner actor origin ct now parent]> (wt_drafts t);
        wt_versions := <[(id, 1) := version_of owner actor origin ct now]> (wt_versions t);
        wt_audit := wt_audit t ++ [create_entry owner actor ct now parent id] |}
  | draft_saved actor origin ct now id r :
      origin ∈ VALID_ORIGINS → valid_content ct → owned_row t owner id = Some r → dr_status r = "active" →
      ct_sha256 ct ≠ ct_sha256 (dr_content r) → wt_versions t !! (id, dr_revision r + 1) = None →
      draft_step owner t {|
        wt_drafts := <[id := saved_row actor origin ct now r]> (wt_drafts t);
        wt_versions := <[(id, dr_revision r + 1) := version_of owner actor origin ct now]> (wt_versions t);
        wt_audit := wt_audit t ++ [save_entry owner actor ct now id r] |}
  | draft_archived actor archived now id r :
      owned_row t owner id = Some r → dr_status r ≠ desired_status archived →
      draft_step owner t {|
        wt_drafts := <[id := archived_row actor archived now r]> (wt_drafts t);
        wt_versions := wt_versions t;
        wt_audit := wt_audit t ++ [archive_entry owner actor archived now id r] |}.

Lemma owned_row_ok t owner id r : owned_row t owner id = Some r ↔ wt_drafts t !! id = Some r ∧ dr_owner_key r = owner.
Proof.
  unfold owned_row. destruct (wt_drafts t !! id) as [r'|]; [|naive_solver]. case_bool_decide; naive_solver.
Qed.

Lemma draft_row_of_ok owner id t r t' : draft_row_of owner id t = (Ok r, t') → t' = t ∧ owned_row t owner id = Some r.
Proof.
  unfold draft_row_of, mbind, st_bind, st_get, st_lift, not_found. destruct (owned_row t owner id); intros [= <- <-]. done.
Qed.

Lemma insert_draft_ok id r t u t' : insert_draft id r t = (Ok u, t') →
  wt_drafts t !! id = None ∧ t' = set_wt_drafts (<[id := r]> (wt_drafts t)) t.
Proof.
  unfold insert_draft, mbind, st_bind, st_get, st_raise_if, st_lift, st_modify. case_bool_decide as E; [done|].
  intros [= _ <-]. split; [by apply eq_None_not_Some|done].
Qed.
Lemma insert_version_ok id n r t u t' : _insert_version id n r t = (Ok u, t') →
  wt_versions t !! (id, n) = None ∧ t' = set_wt_versions (<[(id, n) := r]> (wt_versions t)) t.
Proof.
  unfold _insert_version, mbind, st_bind, st_get, st_raise_if, st_lift, st_modify. case_bool_decide as E; [done|].
  intros [= _ <-]. split; [by apply eq_None_not_Some|done].
Qed.

Lemma create_draft_ok owner actor origin ct now parent id t u t' : hex_id "wfd_" 16 id = true → origin ∈ VALID_ORIGINS →
  valid_content ct → create_draft owner actor origin ct now parent id t = (Ok u, t') → draft_step owner t t'.
Proof.
  intros Hid Ho Hct H. unfold create_draft in H. apply st_bind_ok in H as (u1 & t1 & Hp & H).
  assert (t1 = t ∧ ∀ p n, parent = Some (p, n) → ∃ r v, owned_row t owner p = Some r ∧ wt_versions t !! (p, n) = Some v
    ∧ dv_owner_key v = owner) as [-> Hpar].
  { destruct parent as [[p n]|]; [|injection Hp as _ <-; by split].
    apply st_bind_ok in Hp as (t2 & t3 & [= <- <-] & Hp). apply st_bind_ok in Hp as (u2 & t4 & [= H1 <-] & Hp).
    apply st_bind_ok in Hp as (m & t5 & [= _ <-] & [= H2 <-]). apply raise_if_ok in H1, H2. split; [done|].
    intros p' n' [= <- <-]. destruct (owned_row t owner p) as [r|]; [|done].
    destruct (wt_versions t !! (p, n)) as [v|]; [|done]. apply negb_false_iff, bool_decide_eq_true in H2. by exists r, v. }
  apply st_bind_ok in H as (u2 & t2 & H1 & H). apply insert_draft_ok in H1 as [N1 ->].
  apply st_bind_ok in H as (u3 & t3 & H2 & H). apply insert_version_ok in H2 as [N2 ->]. injection H as _ <-.
  by apply draft_created.
Qed.

Lemma save_draft_ok owner actor origin ct n sha now id t r t' : origin ∈ VALID_ORIGINS → valid_content ct →
  save_draft owner actor origin ct n sha now id t = (Ok r, t') →
  ∃ row, owned_row t owner id = Some row ∧ dr_status row = "active" ∧ dr_revision row = n ∧ ct_sha256 (dr_content row) = sha
    ∧ (ct_sha256 ct = ct_sha256 (dr_content row) ∧ t' = t ∧ is_Some r
       ∨ ct_sha256 ct ≠ ct_sha256 (dr_content row) ∧ r = None
         ∧ wt_versions t' !! (id, n + 1) = Some (version_of owner actor origin ct now) ∧ draft_step owner t t').
Proof.
  intros Ho Hct H. unfold save_draft in H. apply st_bind_ok in H as (row & t1 & Hr & H). apply draft_row_of_ok in Hr as [-> Hr].
  apply st_bind_ok in H as (u1 & t1 & [= G1 <-] & H). apply st_bind_ok in H as (u2 & t1 & [= G2 <-] & H).
  apply raise_if_ok in G1, G2. apply negb_false_iff in G1, G2. apply andb_true_iff in G2 as [G2 G3].
  apply bool_decide_eq_true in G1, G2, G3. exists row. split_and!; [done..|].
  case_bool_decide as E.
  - left. apply st_bind_ok in H as (full & t1 & [= _ <-] & [= <- <-]). by split_and!.
  - right. apply st_bind_ok in H as (m & t1 & [= _ <-] & H). apply st_bind_ok in H as (u3 & t1 & [= _ <-] & H).
    apply st_bind_ok in H as (u4 & t1 & Hi & H). apply insert_version_ok in Hi as [Hn ->].
    apply st_bind_ok in H as (u5 & t1 & [= _ <-] & [= <- <-]). split_and!; [done|done| |].
    + cbn. rewrite <- G2. apply lookup_insert_eq.
    + by apply draft_saved.
Qed.

Lemma archive_draft_ok owner actor archived now id t u t' :
  archive_draft owner actor archived now id t = (Ok u, t') → t' = t ∨ draft_step owner t t'.
Proof.
  unfold archive_draft. intros H. apply st_bind_ok in H as (row & t1 & Hr & H). apply draft_row_of_ok in Hr as [-> Hr].
  case_bool_decide as E; [injection H as _ <-; by left|]. apply st_bind_ok in H as (u1 & t1 & [= _ <-] & [= _ <-]).
  right. by apply (draft_archived owner t).
Qed.

(** ** Calls *)

Definition tables_of (o : option DraftTables) : DraftTables := default no_drafts o.

(** The tables before and after: as they were, or changed by the owner. *)
Definition evolve (owner : string) (o o' : option DraftTables) : Prop :=
  o' = o ∨ ∃ t', o' = Some t' ∧ rtc (draft_step owner) (tables_of o) t'.

Lemma evolve_trans owner o1 o2 o3 : evolve owner o1 o2 → evolve owner o2 o3 → evolve owner o1 o3.
Proof.
  intros [->|(t2 & -> & H2)] [->|(t3 & -> & H3)]; [by left|right; eauto|right; eauto|].
  right. exists t3. split; [done|]. by etrans.
Qed.

Definition evolves (owner : string) {A} (m : ST DraftDB A) : Prop :=
  ∀ s r s', m s = (r, s') → evolve owner (wd_tables s) (wd_tables s').

Lemma evolves_lift owner {A} (m : result A) : evolves owner (st_lift m).
Proof. intros s r s' [= <- <-]. by left. Qed.
Lemma evolves_ret owner {A} (a : A) : evolves owner (mret a).
Proof. intros s r s' [= <- <-]. by left. Qed.
Lemma evolves_now owner : evolves owner draft_now.
Proof. intros s r s' [= <- <-]. by left. Qed.
Lemma evolves_draw owner : evolves owner draw_token.
Proof. intros s r s' [= <- <-]. by left. Qed.
Lemma evolves_bind owner {A B} (m : ST DraftDB A) (f : A → ST DraftDB B) :
  evolves owner m → (∀ a, evolves owner (f a)) → evolves owner (a ← m; f a).
Proof.
  intros Hm Hf s r s'. unfold mbind, st_bind. destruct (m s) as [[a|e] s1] eqn:E; intros H; [|injection H as <- <-; eauto].
  eapply evolve_trans; [by eapply Hm|by eapply Hf].
Qed.
Lemma evolves_checked owner {A B} (m : result A) (f : A → ST DraftDB B) :
  (∀ a, m = Ok a → evolves owner (f a)) → evolves owner (a ← st_lift m; f a).
Proof.
  intros Hf s r s'. unfold mbind, st_bind, st_lift. destruct m as [a|e]; [by apply Hf|]. intros [= <- <-]. by left.
Qed.
Lemma evolves_connect owner {A} (m : ST DraftTables A) :
  (∀ t a t', m t = (Ok a, t') → rtc (draft_step owner) t t') → evolves owner (connect m).
Proof.
  intros Hm s r s'. unfold connect. destruct (default false _); [intros [= <- <-]; by left|].
  destruct (wd_tables s) as [t|] eqn:Et; [|intros [= <- <-]; by left].
  destruct (m t) as [[a|e] t'] eqn:E; intros [= <- <-]; [|by left]. right. exists t'. split; [done|]. by eapply Hm.
Qed.

Lemma evolves_read owner {A} (m : ST DraftTables A) : (∀ t r t', m t = (r, t') → t' = t) → evolves owner (connect m).
Proof. intros Hm. apply evolves_connect. intros t a t' H. by apply Hm in H as ->. Qed.

Lemma draft_row_of_reads owner id t r t' : draft_row_of owner id t = (r, t') → t' = t.
Proof. unfold draft_row_of, mbind, st_bind, st_get, st_lift. by intros [= _ <-]. Qed.

Lemma evolves_get owner o id : evolves owner (Draft_get o id).
Proof.
  unfold Draft_get. do 2 (apply evolves_bind; [apply evolves_lift|intros ?]). apply evolves_bind; [|intros; apply evolves_lift].
  apply evolves_read. intros t r t'. apply draft_row_of_reads.
Qed.

Lemma origin_ok v o : _origin v = Ok o → o ∈ VALID_ORIGINS.
Proof. unfold _origin, wd_fail_if. rewrite guard_bind_ok, negb_false_iff. intros [H [= <-]]. by apply mem_str_true. Qed.

Lemma token_id i : hex_id "wfd_" 16 ("wfd_" +:+ token_hex i) = true.
Proof. unfold hex_id. apply token_hex_shape. Qed.

Lemma evolves_attempts n owner actor origin ct now parent : origin ∈ VALID_ORIGINS → valid_content ct →
  evolves owner (create_attempts n owner actor origin ct now parent).
Proof.
  intros Ho Hct. induction n as [|n IH]; cbn [create_attempts]; [apply evolves_lift|].
  intros s r s' H. unfold mbind at 1, st_bind at 1, draw_token at 1 in H. unfold catch_integrity in H.
  destruct ((connect _ ;; _) _) as [r1 s1] eqn:E.
  assert (evolve owner (wd_tables s) (wd_tables s1)) as H1.
  { pose proof (evolves_bind owner _ _ (evolves_connect owner
      (create_draft owner actor origin ct now parent ("wfd_" +:+ token_hex (wd_draws s)))
      (λ t a t' Hc, rtc_once _ _ (create_draft_ok _ _ _ _ _ _ _ _ _ _ (token_id _) Ho Hct Hc)))
      (λ _, evolves_get owner owner ("wfd_" +:+ token_hex (wd_draws s)))) as Hev.
    by apply (Hev _ _ _ E). }
  destruct r1 as [full|e]; [by injection H as <- <-|]. case_bool_decide; [|by injection H as <- <-].
  eapply evolve_trans; [exact H1|by eapply IH].
Qed.

(** The owner a call acts for, once its key is normalized. *)
Definition owner_of (raw : string) : string := lower (strip raw).

Lemma owner_ok raw o : _owner raw = Ok o → o = owner_of raw ∧ hex_id "" 64 o = true.
Proof. unfold _owner, wd_fail_if. rewrite guard_bind_ok, negb_false_iff. by intros [H [= <-]]. Qed.

Lemma evolves_create raw actor title description contract origin lp lr :
  evolves (owner_of raw) (Draft_create raw actor title description contract origin lp lr).
Proof.
  unfold Draft_create. apply evolves_checked. intros o [-> _]%owner_ok. apply evolves_checked. intros a _.
  apply evolves_checked. intros ct Hct%payload_ok. apply evolves_checked. intros og Hog%origin_ok.
  apply evolves_checked. intros parent _. apply evolves_bind; [apply evolves_now|]. intros now.
  by apply evolves_attempts.
Qed.

Lemma evolves_save raw actor id rev sha title description contract origin :
  evolves (owner_of raw) (Draft_save raw actor id rev sha title description contract origin).
Proof.
  unfold Draft_save. apply evolves_checked. intros o [-> _]%owner_ok. apply evolves_checked. intros a _.
  apply evolves_checked. intros i _. apply evolves_checked. intros og Hog%origin_ok. apply evolves_checked. intros n _.
  unfold st_raise_if. apply evolves_checked. intros _ _. apply evolves_checked. intros ct Hct%payload_ok.
  apply evolves_bind; [apply evolves_now|]. intros now. apply evolves_bind.
  - apply evolves_connect. intros t r t' H. apply save_draft_ok in H as (row & _ & _ & _ & _ & [(_ & -> & _)|(_ & _ & _ & H)]); [done| |done|done].
    by apply rtc_once.
  - intros [full|]; [apply evolves_ret|apply evolves_get].
Qed.

Lemma evolves_set_archived raw actor id archived : evolves (owner_of raw) (set_archived raw actor id archived).
Proof.
  unfold set_archived. apply evolves_checked. intros o [-> _]%owner_ok. apply evolves_checked. intros a _.
  apply evolves_checked. intros i _. apply evolves_bind; [apply evolves_now|]. intros now.
  apply evolves_bind; [|intros; apply evolves_get]. apply evolves_connect. intros t r t' H.
  apply archive_draft_ok in H as [->|H]; [done|]. by apply rtc_once.
Qed.

Lemma evolves_duplicate raw actor id : evolves (owner_of raw) (duplicate raw actor id).
Proof. unfold duplicate. apply evolves_bind; [apply evolves_get|]. intros source. apply evolves_create. Qed.

Lemma evolves_list raw query view limit : evolves (owner_of raw) (Draft_list raw query view limit).
Proof.
  unfold Draft_list, st_raise_if. do 4 (apply evolves_checked; intros ? _). apply evolves_bind; [|intros; apply evolves_lift].
  apply evolves_read. by intros t r t' [= _ <-].
Qed.

Lemma row_then_reads {A} o id (f : DraftTables → A) t r t' :
  (draft_row_of o id ;; t ← st_get; mret (f t)) t = (r, t') → t' = t.
Proof.
  unfold mbind, st_bind. destruct (draft_row_of o id t) as [[row|e] t1] eqn:E; apply draft_row_of_reads in E as ->; by intros [= _ <-].
Qed.

Lemma evolves_versions raw id : evolves (owner_of raw) (versions raw id).
Proof.
  unfold versions. do 2 (apply evolves_checked; intros ? _). apply evolves_bind; [|intros; apply evolves_lift].
  apply evolves_read. intros t r t'. apply row_then_reads.
Qed.

Lemma evolves_audit raw id limit : evolves (owner_of raw) (Draft_audit raw id limit).
Proof.
  unfold Draft_audit. do 2 (apply evolves_checked; intros ? _). apply evolves_read. intros t r t'. apply row_then_reads.
Qed.
End Steps.
