(* ===== verification/DraftHistory.v ===== *)
(** * Histories of the draft store

    What holds of the tables after any sequence of calls, by any owners, at any times and under any
    contention: the versions of a draft are complete and never change, its row is its last version,
    and its audit entries replay to it. *)

From Stdlib Require Import Ascii.
From Stdlib Require String.
From S2P Require Import Prelude PyStr Hashlib Json JsonFacts WorkflowDesign WorkflowGraph WorkflowFacts PlanFacts.
From S2P Require Import ExecutionCheckpoint TaskStore ContractReload WorkflowDrafts DraftSteps.

Local Open Scope Z_scope.

(** ** The audit log, replayed *)

(** What the entries of a draft say of it. *)
Record draft_head := { dh_owner_key : string; dh_revision : Z; dh_sha256 : string; dh_status : string }.
Definition head_of (r : draft_row) : draft_head := {|
  dh_owner_key := dr_owner_key r; dh_revision := dr_revision r; dh_sha256 := ct_sha256 (dr_content r);
  dh_status := dr_status r |}.

Definition first_entry (a : audit_row) : option draft_head :=
  after ← da_after_sha256 a;
  if bool_decide (da_operation a ∈ ["create"; "duplicate"] ∧ da_new_revision a = Some 1 ∧ da_before_sha256 a = None)
  then Some {| dh_owner_key := da_owner_key a; dh_revision := 1; dh_sha256 := after; dh_status := "active" |} else None.

Definition next_entry (h : draft_head) (a : audit_row) : option draft_head :=
  after ← da_after_sha256 a;
  new ← da_new_revision a;
  if bool_decide (da_owner_key a = dh_owner_key h ∧ da_base_revision a = Some (dh_revision h)
                  ∧ da_before_sha256 a = Some (dh_sha256 h)) then
    if bool_decide (da_operation a = "save" ∧ dh_status h = "active" ∧ new = dh_revision h + 1 ∧ after ≠ dh_sha256 h)
    then Some {| dh_owner_key := dh_owner_key h; dh_revision := new; dh_sha256 := after; dh_status := "active" |}
    else if bool_decide (da_operation a = "archive" ∧ dh_status h = "active" ∧ new = dh_revision h ∧ after = dh_sha256 h)
    then Some {| dh_owner_key := dh_owner_key h; dh_revision := new; dh_sha256 := after; dh_status := "archived" |}
    else if bool_decide (da_operation a = "restore" ∧ dh_status h = "archived" ∧ new = dh_revision h ∧ after = dh_sha256 h)
    then Some {| dh_owner_key := dh_owner_key h; dh_revision := new; dh_sha256 := after; dh_status := "active" |}
    else None
  else None.

Definition replay_entry (h : option draft_head) (a : audit_row) : option draft_head :=
  match h with Some h => next_entry h a | None => first_entry a end.
(** The draft after all entries, if every one of them follows from those before. *)
Definition replay (log : list audit_row) : option (option draft_head) :=
  fold_left (λ h a, h ← h; Some <$> replay_entry h a) log (Some None).

Definition audit_of (t : DraftTables) (id : string) : list audit_row := filter (λ a, da_draft_id a = id) (wt_audit t).

Lemma replay_snoc log a h : replay log = Some h → replay (log ++ [a]) = Some <$> replay_entry h a.
Proof. unfold replay. rewrite fold_left_app. intros ->. done. Qed.

(** ** The invariant *)

Definition status_ok (r : draft_row) : Prop :=
  dr_status r = "active" ∧ dr_archived_at r = None ∨ dr_status r = "archived" ∧ is_Some (dr_archived_at r).

Section History.
Context {HL : Hashlib} {TS : TokenSource}.

Record draft_inv (t : DraftTables) : Prop := {
  (** a draft has a well-formed identifier and a status, and its row is its last version; *)
  di_head : ∀ id r, wt_drafts t !! id = Some r → hex_id "wfd_" 16 id = true ∧ 1 ≤ dr_revision r ∧ status_ok r
    ∧ ∃ v, wt_versions t !! (id, dr_revision r) = Some v ∧ dv_content v = dr_content r ∧ dv_origin v = dr_origin r;
  (** its versions are those from the first to the last, and all are its owner's and valid; *)
  di_version : ∀ id n v, wt_versions t !! (id, n) = Some v → valid_content (dv_content v) ∧ dv_origin v ∈ VALID_ORIGINS
    ∧ ∃ r, wt_drafts t !! id = Some r ∧ 1 ≤ n ≤ dr_revision r ∧ dv_owner_key v = dr_owner_key r;
  di_all : ∀ id r n, wt_drafts t !! id = Some r → 1 ≤ n ≤ dr_revision r → is_Some (wt_versions t !! (id, n));
  (** every version changed something; *)
  di_changed : ∀ id n v w, wt_versions t !! (id, n) = Some v → wt_versions t !! (id, n + 1) = Some w →
    ct_sha256 (dv_content v) ≠ ct_sha256 (dv_content w);
  (** a copy comes from a version of a draft of the same owner; *)
  di_lineage : ∀ id r p, wt_drafts t !! id = Some r → dr_lineage_parent_draft_id r = Some p → p ≠ id
    ∧ ∃ n v, dr_lineage_parent_revision r = Some n ∧ wt_versions t !! (p, n) = Some v ∧ dv_owner_key v = dr_owner_key r;
  (** and the audit entries of a draft replay to its row. *)
  di_audit : ∀ id, replay (audit_of t id) = Some (head_of <$> wt_drafts t !! id)
}.

Lemma inv_empty : draft_inv no_drafts.
Proof. split; intros *; cbn; rewrite ?lookup_empty; try done. Qed.

(** ** Growth *)

(** Versions, audit entries, owners and origins of drafts are kept; a row that says something else
    has a later revision. *)
Record grows (t t' : DraftTables) : Prop := {
  gr_versions : wt_versions t ⊆ wt_versions t';
  gr_audit : ∃ l, wt_audit t' = wt_audit t ++ l;
  gr_drafts : ∀ id r, wt_drafts t !! id = Some r → ∃ r', wt_drafts t' !! id = Some r' ∧ dr_owner_key r' = dr_owner_key r
    ∧ dr_created_by r' = dr_created_by r ∧ dr_created_at r' = dr_created_at r
    ∧ dr_lineage_parent_draft_id r' = dr_lineage_parent_draft_id r
    ∧ dr_lineage_parent_revision r' = dr_lineage_parent_revision r
    ∧ dr_revision r ≤ dr_revision r' ∧ (dr_revision r' = dr_revision r → dr_content r' = dr_content r)
}.

#[export] Instance grows_preorder : PreOrder grows.
Proof.
  split.
  - intros t. split; [done|exists []; by rewrite app_nil_r|]. intros id r H. exists r. by split_and!.
  - intros t1 t2 t3 [V1 [l1 A1] D1] [V2 [l2 A2] D2]. split.
    + by etrans.
    + exists (l1 ++ l2). by rewrite A2, A1, app_assoc.
    + intros id r H. apply D1 in H as (r2 & H & ?). apply D2 in H as (r3 & H & ?). exists r3.
      destruct_and!. split_and!; [done|congruence..|lia|]. intros He. assert (dr_revision r2 = dr_revision r) by lia.
      transitivity (dr_content r2); auto with lia.
Qed.

Lemma step_grows owner t t' : draft_step owner t t' → grows t t'.
Proof.
  intros [actor origin ct now parent id _ _ _ Hnew Hv _|actor origin ct now id r _ _ Hr _ _ Hv|actor archived now id r Hr _].
  - split; cbn; [by apply insert_subseteq|by eexists|]. intros id' r' H'. exists r'.
    rewrite lookup_insert_ne by congruence. by split_and!.
  - apply owned_row_ok in Hr as [Hr Hown]. split; cbn; [by apply insert_subseteq|by eexists|]. intros id' r' H'.
    destruct (decide (id' = id)) as [->|Hne].
    + replace r' with r in * by congruence. eexists. rewrite lookup_insert_eq. split; [done|]. cbn. split_and!; [done..|lia|lia].
    + exists r'. rewrite lookup_insert_ne by done. by split_and!.
  - apply owned_row_ok in Hr as [Hr Hown]. split; cbn; [done|by eexists|]. intros id' r' H'.
    destruct (decide (id' = id)) as [->|Hne].
    + replace r' with r in * by congruence. eexists. rewrite lookup_insert_eq. by split_and!.
    + exists r'. rewrite lookup_insert_ne by done. by split_and!.
Qed.

Lemma audit_snoc (t : DraftTables) a id : filter (λ a, da_draft_id a = id) (wt_audit t ++ [a]) =
  audit_of t id ++ (if decide (da_draft_id a = id) then [a] else []).
Proof. unfold audit_of. rewrite filter_app. cbn [filter list_filter]. by destruct (decide _). Qed.
Lemma audit_later t id a : da_draft_id a = id → filter (λ a, da_draft_id a = id) (wt_audit t ++ [a]) = audit_of t id ++ [a].
Proof. intros H. by rewrite audit_snoc, decide_True. Qed.
Lemma audit_other t id a : da_draft_id a ≠ id → filter (λ a, da_draft_id a = id) (wt_audit t ++ [a]) = audit_of t id.
Proof. intros H. by rewrite audit_snoc, decide_False, app_nil_r. Qed.

Lemma no_versions t id n : draft_inv t → wt_drafts t !! id = None → wt_versions t !! (id, n) = None.
Proof.
  intros Hi Hn. apply eq_None_not_Some. intros [v Hv]. apply (di_version _ Hi) in Hv as (_ & _ & r & Hr & _). congruence.
Qed.

Lemma inv_created owner actor origin ct now parent id t : draft_inv t →
  hex_id "wfd_" 16 id = true → origin ∈ VALID_ORIGINS → valid_content ct → wt_drafts t !! id = None →
  (∀ p n, parent = Some (p, n) → ∃ r v, owned_row t owner p = Some r ∧ wt_versions t !! (p, n) = Some v ∧ dv_owner_key v = owner) →
  draft_inv {|
    wt_drafts := <[id := created_row owner actor origin ct now parent]> (wt_drafts t);
    wt_versions := <[(id, 1) := version_of owner actor origin ct now]> (wt_versions t);
    wt_audit := wt_audit t ++ [create_entry owner actor ct now parent id] |}.
Proof.
  intros Hi Hid Ho Hct Hnew Hpar. pose proof (λ n, no_versions t id n Hi Hnew) as Hnov.
  split; unfold audit_of; cbn [wt_drafts wt_versions wt_audit].
  - intros id' r. destruct (decide (id' = id)) as [->|Hne].
    + rewrite lookup_insert_eq. intros [= <-]. split_and!; [done|cbn; lia|by left|]. eexists. by rewrite lookup_insert_eq.
    + rewrite lookup_insert_ne by done. intros (? & ? & ? & v & ? & ?)%(di_head _ Hi). split_and!; [done..|].
      exists v. rewrite lookup_insert_ne by congruence. done.
  - intros id' n v. destruct (decide ((id', n) = (id, 1))) as [[= -> ->]|Hne].
    + rewrite lookup_insert_eq. intros [= <-]. split_and!; [done..|]. eexists. rewrite lookup_insert_eq. by split_and!.
    + rewrite lookup_insert_ne by congruence. intros (? & ? & r & Hr & ?)%(di_version _ Hi). split_and!; [done..|].
      exists r. rewrite lookup_insert_ne by congruence. done.
  - intros id' r n. destruct (decide (id' = id)) as [->|Hne].
    + rewrite lookup_insert_eq. intros [= <-]. cbn. intros. replace n with 1 by lia. by rewrite lookup_insert_eq.
    + rewrite !lookup_insert_ne by congruence. apply (di_all _ Hi).
  - intros id' n v w. destruct (decide (id' = id)) as [->|Hne].
    + intros Hv. rewrite lookup_insert_ne, Hnov; [done|]. intros [= He]. assert (n ≠ 1) by lia.
      rewrite lookup_insert_ne, Hnov in Hv by congruence. done.
    + rewrite !lookup_insert_ne by congruence. apply (di_changed _ Hi).
  - intros id' r p. destruct (decide (id' = id)) as [->|Hne].
    + rewrite lookup_insert_eq. intros [= <-]. cbn. destruct parent as [[p' n]|]; [|done]. intros [= <-].
      destruct (Hpar _ _ eq_refl) as (rp & v & Hr & Hv & Hov). split; [intros ->; congruence|].
      exists n, v. rewrite lookup_insert_ne by (intros [= -> <-]; congruence). done.
    + rewrite lookup_insert_ne by congruence. intros Hr Hp. destruct (di_lineage _ Hi _ _ _ Hr Hp) as (? & n & v & ? & Hv & ?).
      split; [done|]. exists n, v. rewrite lookup_insert_ne; [done|]. intros [= -> <-]. congruence.
  - intros id'. destruct (decide (id = id')) as [<-|Hne].
    + rewrite audit_later by done. erewrite replay_snoc by apply (di_audit _ Hi). rewrite Hnew, lookup_insert_eq. cbn.
      unfold first_entry. by destruct parent.
    + rewrite audit_other by done. rewrite lookup_insert_ne by congruence. apply (di_audit _ Hi).
Qed.

Lemma inv_saved owner actor origin ct now id r t : draft_inv t → origin ∈ VALID_ORIGINS → valid_content ct →
  owned_row t owner id = Some r → dr_status r = "active" → ct_sha256 ct ≠ ct_sha256 (dr_content r) →
  wt_versions t !! (id, dr_revision r + 1) = None →
  draft_inv {|
    wt_drafts := <[id := saved_row actor origin ct now r]> (wt_drafts t);
    wt_versions := <[(id, dr_revision r + 1) := version_of owner actor origin ct now]> (wt_versions t);
    wt_audit := wt_audit t ++ [save_entry owner actor ct now id r] |}.
Proof.
  intros Hi Ho Hct [Hr Hown]%owned_row_ok Hst Hsha Hnov. destruct (di_head _ Hi _ _ Hr) as (Hid & Hrev & Hstat & v0 & Hv0 & Hc0 & Hog0).
  split; unfold audit_of; cbn [wt_drafts wt_versions wt_audit].
  - intros id' r'. destruct (decide (id' = id)) as [->|Hne].
    + rewrite lookup_insert_eq. intros [= <-]. split_and!; [done|cbn; lia|done|]. eexists. by rewrite lookup_insert_eq.
    + rewrite lookup_insert_ne by done. intros (? & ? & ? & v & ? & ?)%(di_head _ Hi). split_and!; [done..|].
      exists v. rewrite lookup_insert_ne by congruence. done.
  - intros id' n v. destruct (decide ((id', n) = (id, dr_revision r + 1))) as [[= -> ->]|Hne].
    + rewrite lookup_insert_eq. intros [= <-]. split_and!; [done..|]. eexists. rewrite lookup_insert_eq. split_and!; first [done|cbn; first [lia|congruence]].
    + rewrite lookup_insert_ne by congruence. intros (? & ? & r' & Hr' & Hn & ?)%(di_version _ Hi). split_and!; [done..|].
      destruct (decide (id' = id)) as [->|]; [|exists r'; by rewrite lookup_insert_ne by congruence].
      eexists. rewrite lookup_insert_eq. replace r' with r in * by congruence. split_and!; first [done|cbn; first [lia|congruence]].
  - intros id' r' n. destruct (decide (id' = id)) as [->|Hne].
    + rewrite lookup_insert_eq. intros [= <-]. cbn. intros. destruct (decide (n = dr_revision r + 1)) as [->|].
      * by rewrite lookup_insert_eq.
      * rewrite lookup_insert_ne by congruence. eapply (di_all _ Hi); [done|lia].
    + rewrite !lookup_insert_ne by congruence. apply (di_all _ Hi).
  - intros id' n v w. destruct (decide (id' = id)) as [->|Hne]; [|rewrite !lookup_insert_ne by congruence; apply (di_changed _ Hi)].
    destruct (decide (n = dr_revision r)) as [->|Hn].
    + rewrite lookup_insert_eq, lookup_insert_ne by (intros [=]; lia). intros Hv [= <-]. cbn. congruence.
    + rewrite (lookup_insert_ne _ _ (id, n + 1)) by (intros [=]; lia).
      destruct (decide (n = dr_revision r + 1)) as [->|].
      * intros _ Hw. apply (di_version _ Hi) in Hw as (_ & _ & r' & Hr' & ? & _). replace r' with r in * by congruence. lia.
      * rewrite lookup_insert_ne by congruence. apply (di_changed _ Hi).
  - intros id' r' p Hr' Hp. assert (∃ r0, wt_drafts t !! id' = Some r0 ∧ dr_owner_key r0 = dr_owner_key r'
      ∧ dr_lineage_parent_draft_id r0 = Some p ∧ dr_lineage_parent_revision r0 = dr_lineage_parent_revision r') as (r0 & H0 & Eo & El & Er).
    { destruct (decide (id' = id)) as [->|Hne].
      - rewrite lookup_insert_eq in Hr'. injection Hr' as <-. by exists r.
      - rewrite lookup_insert_ne in Hr' by done. by exists r'. }
    destruct (di_lineage _ Hi _ _ _ H0 El) as (? & n & v & ? & Hv & ?). split; [done|]. exists n, v.
    rewrite lookup_insert_ne by congruence. split_and!; congruence.
  - intros id'. destruct (decide (id = id')) as [<-|Hne].
    + rewrite audit_later by done. erewrite replay_snoc by apply (di_audit _ Hi). rewrite Hr, lookup_insert_eq. cbn.
      unfold next_entry, head_of. cbn. rewrite Hst, bool_decide_eq_true_2 by (by rewrite Hown). by rewrite bool_decide_eq_true_2.
    + rewrite audit_other by done. rewrite lookup_insert_ne by congruence. apply (di_audit _ Hi).
Qed.

Lemma inv_archived owner actor archived now id r t : draft_inv t → owned_row t owner id = Some r →
  dr_status r ≠ desired_status archived →
  draft_inv {|
    wt_drafts := <[id := archived_row actor archived now r]> (wt_drafts t);
    wt_versions := wt_versions t;
    wt_audit := wt_audit t ++ [archive_entry owner actor archived now id r] |}.
Proof.
  intros Hi [Hr Hown]%owned_row_ok Hst. destruct (di_head _ Hi _ _ Hr) as (Hid & Hrev & Hstat & Hv0).
  assert (∀ id' r', <[id := archived_row actor archived now r]> (wt_drafts t) !! id' = Some r' →
    ∃ r0, wt_drafts t !! id' = Some r0 ∧ dr_owner_key r0 = dr_owner_key r' ∧ dr_revision r0 = dr_revision r'
      ∧ dr_lineage_parent_draft_id r0 = dr_lineage_parent_draft_id r'
      ∧ dr_lineage_parent_revision r0 = dr_lineage_parent_revision r') as Hback.
  { intros id' r'. destruct (decide (id' = id)) as [->|Hne].
    - rewrite lookup_insert_eq. intros [= <-]. by exists r.
    - rewrite lookup_insert_ne by done. by exists r'. }
  split; unfold audit_of; cbn [wt_drafts wt_versions wt_audit].
  - intros id' r'. destruct (decide (id' = id)) as [->|Hne].
    + rewrite lookup_insert_eq. intros [= <-]. split_and!; [done..| |done]. unfold status_ok, archived_row. cbn.
      destruct archived; [right|left]; split; by eauto.
    + rewrite lookup_insert_ne by done. apply (di_head _ Hi).
  - intros id' n v (? & ? & r' & Hr' & Hn & ?)%(di_version _ Hi). split_and!; [done..|].
    destruct (decide (id' = id)) as [->|]; [|exists r'; by rewrite lookup_insert_ne by congruence].
    eexists. rewrite lookup_insert_eq. replace r' with r in * by congruence. split; [done|]. split; [exact Hn|done].
  - intros id' r' n (r0 & H0 & _ & <- & _)%Hback. by apply (di_all _ Hi).
  - apply (di_changed _ Hi).
  - intros id' r' p (r0 & H0 & <- & _ & <- & <-)%Hback. by apply (di_lineage _ Hi).
  - intros id'. destruct (decide (id = id')) as [<-|Hne].
    + rewrite audit_later by done. erewrite replay_snoc by apply (di_audit _ Hi). rewrite Hr, lookup_insert_eq. cbn.
      unfold next_entry, head_of. destruct Hstat as [[Hs _]|[Hs _]], archived; cbn in *; rewrite Hs in *; try done.
      all: rewrite bool_decide_eq_true_2 by (by rewrite Hown); rewrite bool_decide_eq_false_2 by (by intros (? & _)).
      all: try rewrite bool_decide_eq_true_2 by done; try done.
      by rewrite bool_decide_eq_false_2, bool_decide_eq_true_2 by (done || by intros (? & _)).
    + rewrite audit_other by done. rewrite lookup_insert_ne by congruence. apply (di_audit _ Hi).
Qed.

Lemma step_inv owner t t' : draft_step owner t t' → draft_inv t → draft_inv t'.
Proof.
  intros [actor origin ct now parent id Hid Ho Hct Hnew _ Hpar|actor origin ct now id r Ho Hct Hr Hst Hsha Hv|actor archived now id r Hr Hst] Hi.
  - by apply inv_created.
  - by apply inv_saved.
  - by apply inv_archived.
Qed.
Lemma evolve_inv owner o o' : evolve owner o o' → draft_inv (tables_of o) → draft_inv (tables_of o') ∧ grows (tables_of o) (tables_of o').
Proof.
  intros [->|(t & -> & Hs)] Hi; [done|]. cbn [tables_of default id]. change (default no_drafts (Some t)) with t.
  induction Hs as [|t1 t2 t3 H12 _ IH]; [done|]. destruct (IH (step_inv _ _ _ H12 Hi)) as [? ?]. split; [done|].
  etrans; [by eapply step_grows|done].
Qed.

(** ** Histories *)

Inductive draft_call :=
  | CallInitialize
  | CallCreate (owner actor : string) (title description contract origin : json) (parent : option string) (revision : option Z)
  | CallGet (owner draft_id : string)
  | CallList (owner : string) (query : json) (view : string) (limit : Z)
  | CallSave (owner actor draft_id : string) (expected_revision expected_sha256 title description contract origin : json)
  | CallArchive (owner actor draft_id : string) (archived : bool)
  | CallDuplicate (owner actor draft_id : string)
  | CallVersions (owner draft_id : string)
  | CallAudit (owner draft_id : string) (limit : Z).
Inductive draft_reply :=
  | ReplyDone
  | ReplyDraft (d : draft_full)
  | ReplyDrafts (l : list draft_summary)
  | ReplyVersions (l : list version_summary)
  | ReplyAudit (l : list audit_row).

Definition run_call (c : draft_call) : ST DraftDB draft_reply :=
  match c with
  | CallInitialize => Draft_initialize ;; mret ReplyDone
  | CallCreate o a t d c g p n => r ← Draft_create o a t d c g p n; mret (ReplyDraft r)
  | CallGet o i => r ← Draft_get o i; mret (ReplyDraft r)
  | CallList o q v n => r ← Draft_list o q v n; mret (ReplyDrafts r)
  | CallSave o a i n h t d c g => r ← Draft_save o a i n h t d c g; mret (ReplyDraft r)
  | CallArchive o a i b => r ← set_archived o a i b; mret (ReplyDraft r)
  | CallDuplicate o a i => r ← duplicate o a i; mret (ReplyDraft r)
  | CallVersions o i => r ← versions o i; mret (ReplyVersions r)
  | CallAudit o i n => r ← Draft_audit o i n; mret (ReplyAudit r)
  end.
(** The owner key that the caller presents; the tables are created for none. *)
Definition call_owner (c : draft_call) : string :=
  match c with
  | CallInitialize => ""
  | CallCreate o _ _ _ _ _ _ _ | CallGet o _ | CallList o _ _ _ | CallSave o _ _ _ _ _ _ _ _ | CallArchive o _ _ _
  | CallDuplicate o _ _ | CallVersions o _ | CallAudit o _ _ => o
  end.

(** A call, the time at which it is made and the locks it meets. *)
Record draft_request := { dq_now : string; dq_contention : list bool; dq_call : draft_call }.
Definition arrive (q : draft_request) (s : DraftDB) : DraftDB := {|
  wd_tables := wd_tables s; wd_now := dq_now q; wd_contention := dq_contention q; wd_draws := wd_draws s |}.
Definition serve (q : draft_request) (s : DraftDB) : result draft_reply * DraftDB := run_call (dq_call q) (arrive q s).
Definition serve_all (qs : list draft_request) (s : DraftDB) : DraftDB := fold_left (λ s q, (serve q s).2) qs s.

Definition fresh_db : DraftDB := {| wd_tables := None; wd_now := ""; wd_contention := []; wd_draws := 0 |}.
Definition drafts_of (s : DraftDB) : DraftTables := tables_of (wd_tables s).
Definition drafts_after (qs : list draft_request) : DraftTables := drafts_of (serve_all qs fresh_db).

Lemma evolves_reply owner {A} (m : ST DraftDB A) (f : A → draft_reply) : evolves owner m → evolves owner (r ← m; mret (f r)).
Proof. intros H. apply evolves_bind; [done|]. intros. apply evolves_ret. Qed.

Lemma evolves_initialize owner : evolves owner Draft_initialize.
Proof.
  intros s r s'. unfold Draft_initialize. destruct (default false _); [intros [= <- <-]; by left|]. intros [= <- <-].
  destruct s as [[t|] now con n]; cbn; [by left|]. right. by exists no_drafts.
Qed.

Lemma serve_evolves q s r s' : serve q s = (r, s') → evolve (owner_of (call_owner (dq_call q))) (wd_tables s) (wd_tables s').
Proof.
  unfold serve. intros H. change (wd_tables s) with (wd_tables (arrive q s)).
  assert (evolves (owner_of (call_owner (dq_call q))) (run_call (dq_call q))) as Hev; [|by eapply Hev].
  destruct (dq_call q); cbn [run_call call_owner]; apply evolves_reply;
    auto using evolves_initialize, evolves_create, evolves_get, evolves_list, evolves_save, evolves_set_archived,
      evolves_duplicate, evolves_versions, evolves_audit.
Qed.

Lemma serve_inv q s r s' : serve q s = (r, s') → draft_inv (drafts_of s) → draft_inv (drafts_of s') ∧ grows (drafts_of s) (drafts_of s').
Proof. intros H. by eapply evolve_inv, serve_evolves. Qed.

Lemma serve_all_inv qs s : draft_inv (drafts_of s) → draft_inv (drafts_of (serve_all qs s)) ∧ grows (drafts_of s) (drafts_of (serve_all qs s)).
Proof.
  revert s. induction qs as [|q qs IH]; intros s Hi; [done|]. unfold serve_all. cbn [fold_left].
  destruct (serve q s) as [r s1] eqn:E. apply serve_inv in E as [H1 G1]; [|done]. cbn [snd].
  destruct (IH s1 H1) as [H2 G2]. split; [exact H2|]. by etrans.
Qed.

Lemma history_inv qs : draft_inv (drafts_after qs).
Proof. apply serve_all_inv, inv_empty. Qed.
Lemma history_grows qs more : grows (drafts_after qs) (drafts_after (qs ++ more)).
Proof. unfold drafts_after, serve_all. rewrite fold_left_app. apply serve_all_inv, history_inv. Qed.
End History.
