(* ===== verification/DraftOwners.v ===== *)
(** * Owners of drafts

    A call of one owner leaves the rows of all others as they are, and what it answers depends on its
    owner's rows only. *)

From Stdlib Require Import Ascii.
From Stdlib Require String.
From S2P Require Import Prelude PyStr Hashlib Json JsonFacts WorkflowDesign WorkflowGraph WorkflowFacts PlanFacts.
From S2P Require Import ExecutionCheckpoint TaskStore ContractReload WorkflowDrafts DraftSteps DraftHistory.

Local Open Scope Z_scope.

(** ** Identifiers *)

Lemma hex_plain c : is_hex_lower c = true → is_space c = false ∧ lower_char c = c.
Proof. destruct c as [[] [] [] [] [] [] [] []]; by vm_compute. Qed.

Definition word_plain (s : string) : bool := forall_char (λ c, negb (is_space c) && bool_decide (lower_char c = c)) s.
Lemma word_plain_normal s : word_plain s = true → lower (strip s) = s.
Proof.
  intros H. rewrite strip_word.
  - apply map_char_id. revert H. apply forall_char_impl. by intros c [_ ?]%andb_true_iff.
  - revert H. apply forall_char_impl. by intros c [? _]%andb_true_iff.
Qed.
Lemma hex_id_plain p n s : word_plain p = true → hex_id p n s = true → word_plain s = true.
Proof.
  unfold hex_id. intros Hp H. destruct (strip_prefix p s) as [h|] eqn:E; [|done]. apply strip_prefix_Some in E as ->.
  apply andb_true_iff in H as [_ H]. unfold word_plain in *. rewrite forall_char_app, Hp. cbn. revert H. apply forall_char_impl.
  intros c [-> ->]%hex_plain. by rewrite bool_decide_eq_true_2.
Qed.

Lemma owner_again o : hex_id "" 64 o = true → owner_of o = o ∧ _owner o = Ok o.
Proof.
  intros H. pose proof (word_plain_normal _ (hex_id_plain "" 64 o eq_refl H)) as Hn. split; [exact Hn|].
  unfold _owner, wd_fail_if. rewrite Hn, H. done.
Qed.
Lemma draft_id_again i : hex_id "wfd_" 16 i = true → _draft_id i = Ok i.
Proof. intros H. unfold _draft_id, wd_fail_if. rewrite (word_plain_normal _ (hex_id_plain "wfd_" 16 i eq_refl H)), H. done. Qed.
Lemma draft_id_ok v i : _draft_id v = Ok i → hex_id "wfd_" 16 i = true.
Proof. unfold _draft_id, wd_fail_if. rewrite guard_bind_ok, negb_false_iff. by intros [H [= <-]]. Qed.

(** ** Sorted rows *)

Lemma merge_sort_unique {A} (R : relation A) `{!RelDecision R, !Transitive R, !Total R} l1 l2 :
  (∀ x y, x ∈ l1 → y ∈ l2 → R x y → R y x → x = y) → l1 ≡ₚ l2 → merge_sort R l1 = merge_sort R l2.
Proof.
  intros HR Hl. apply (StronglySorted_unique_strong R); [|apply StronglySorted_merge_sort; done..|by rewrite !merge_sort_Permutation].
  intros x y. rewrite !merge_sort_Permutation. apply HR.
Qed.

#[export] Instance listed_before_trans : Transitive listed_before.
Proof.
  intros [i1 r1] [i2 r2] [i3 r3]. unfold listed_before. cbn.
  intros [[N1 L1]|[E1 L1]] [[N2 L2]|[E2 L2]].
  - left. split; [|by etrans]. intros He. rewrite He in *. apply N1. by apply (anti_symm String.le).
  - left. rewrite <- E2. by split.
  - left. rewrite E1. by split.
  - right. split; [congruence|by etrans].
Qed.
#[export] Instance listed_before_total : Total listed_before.
Proof.
  intros [i1 r1] [i2 r2]. unfold listed_before. cbn. destruct (decide (dr_updated_at r1 = dr_updated_at r2)) as [He|Hne].
  - destruct (total String.le i1 i2); [left|right]; by right.
  - destruct (total String.le (dr_updated_at r1) (dr_updated_at r2)); [right|left]; left; by split.
Qed.
Lemma listed_same p q : listed_before p q → listed_before q p → p.1 = q.1.
Proof.
  intros [[N1 L1]|[E1 L1]] [[N2 L2]|[E2 L2]]; try congruence.
  - destruct N1. by apply (anti_symm String.le).
  - by apply (anti_symm String.le).
Qed.
#[export] Instance newest_first_trans : Transitive newest_first.
Proof. intros p q r. unfold newest_first. lia. Qed.
#[export] Instance newest_first_total : Total newest_first.
Proof. intros p q. unfold newest_first. lia. Qed.

(** ** Rows of some owners *)

Section Owners.
Context {HL : Hashlib} {TS : TokenSource}.

Definition rows_of (P : string → Prop) `{∀ x, Decision (P x)} (t : DraftTables) : DraftTables := {|
  wt_drafts := filter (λ p, P (dr_owner_key p.2)) (wt_drafts t);
  wt_versions := filter (λ p, P (dv_owner_key p.2)) (wt_versions t);
  wt_audit := filter (λ a, P (da_owner_key a)) (wt_audit t) |}.
Definition own (o : string) : DraftTables → DraftTables := rows_of (λ x, x = o).
Definition foreign (o : string) : DraftTables → DraftTables := rows_of (λ x, x ≠ o).

Lemma step_foreign o t t' : draft_step o t t' → foreign o t' = foreign o t.
Proof.
  intros [actor origin ct now parent id _ _ _ Hnew Hv _|actor origin ct now id r _ _ [Hr Hown]%owned_row_ok _ _ Hv
         |actor archived now id r [Hr Hown]%owned_row_ok _];
    unfold foreign, rows_of; cbn [wt_drafts wt_versions wt_audit]; f_equal;
    try (apply map_filter_insert_not'; [by intros []|]; intros y Hy; cbn; naive_solver congruence);
    rewrite filter_app; cbn; rewrite decide_False by (by intros []); apply app_nil_r.
Qed.

Lemma evolve_foreign o x y : evolve o x y → foreign o (tables_of y) = foreign o (tables_of x).
Proof.
  intros [->|(t & -> & Hs)]; [done|]. change (tables_of (Some t)) with t.
  induction Hs as [|t1 t2 t3 H12 _ IH]; [done|]. rewrite IH. by apply step_foreign.
Qed.

(** ** What an owner sees *)

Lemma own_lookup o t id : wt_drafts (own o t) !! id = owned_row t o id.
Proof.
  apply option_eq. intros r. rewrite owned_row_ok. unfold own, rows_of. cbn [wt_drafts]. apply map_lookup_filter_Some.
Qed.
Lemma own_row o t1 t2 id : own o t1 = own o t2 → owned_row t1 o id = owned_row t2 o id.
Proof. intros H. by rewrite <- !own_lookup, H. Qed.

Lemma own_rows o t1 t2 id r : own o t1 = own o t2 → dr_owner_key r = o → wt_drafts t1 !! id = Some r → wt_drafts t2 !! id = Some r.
Proof.
  intros H Ho Hl. pose proof (own_row _ _ _ id H) as Hr. apply (conj Hl) in Ho. rewrite <- owned_row_ok, Hr in Ho.
  by apply owned_row_ok in Ho as [? _].
Qed.

Lemma own_list o view query limit t1 t2 : own o t1 = own o t2 →
  list_rows o view query limit t1 = list_rows o view query limit t2.
Proof.
  intros H. unfold list_rows. f_equal. apply (merge_sort_unique listed_before).
  - intros [i1 r1] [i2 r2] [[Ho _] H1]%list_elem_of_filter [_ H2]%list_elem_of_filter L1 L2. apply elem_of_map_to_list in H1, H2.
    pose proof (listed_same _ _ L1 L2) as He. cbn in He, Ho. subst i2. apply (own_rows o t1 t2) in H1; [|done..]. congruence.
  - apply NoDup_Permutation; [apply NoDup_filter, NoDup_map_to_list..|]. intros [id r].
    rewrite !list_elem_of_filter, !elem_of_map_to_list.
    split; intros [Hl Hr]; (split; [done|]); destruct Hl as [Ho _].
    + by apply (own_rows o t1 t2).
    + by apply (own_rows o t2 t1).
Qed.

Lemma own_versions o id t1 t2 : own o t1 = own o t2 → version_rows t1 o id = version_rows t2 o id.
Proof.
  intros H. unfold version_rows.
  assert (∀ k v, dv_owner_key v = o → wt_versions t1 !! k = Some v ↔ wt_versions t2 !! k = Some v) as Hv.
  { intros k v Hk. assert (wt_versions (own o t1) !! k = Some v ↔ wt_versions (own o t2) !! k = Some v) as Hiff by (by rewrite H).
    unfold own, rows_of in Hiff. cbn [wt_versions] in Hiff. rewrite !map_lookup_filter_Some in Hiff. naive_solver. }
  assert (∀ t, NoDup (map (λ p : string * Z * version_row, (p.1.2, p.2)) (filter (λ p, p.1.1 = id ∧ dv_owner_key p.2 = o) (map_to_list (wt_versions t))))) as Hnd.
  { intros t. apply NoDup_fmap_2_strong; [|apply NoDup_filter, NoDup_map_to_list]. intros [[i1 n1] v1] [[i2 n2] v2].
    rewrite !list_elem_of_filter. cbn. naive_solver. }
  apply (merge_sort_unique newest_first).
  - intros [n1 v1] [n2 v2] H1 H2 L1 L2. unfold newest_first in *. cbn in *. assert (n1 = n2) as <- by lia.
    apply list_elem_of_fmap in H1 as ([[i1 m1] w1] & [= -> ->] & [[E1 F1] G1]%list_elem_of_filter).
    apply list_elem_of_fmap in H2 as ([[i2 m2] w2] & [= Em ->] & [[E2 F2] G2]%list_elem_of_filter).
    cbn in *. subst. apply elem_of_map_to_list in G1, G2. apply Hv in G1; [|done]. congruence.
  - apply NoDup_Permutation; [apply Hnd..|]. intros [n v]. rewrite !list_elem_of_fmap. split; intros ([[i m] w] & [= -> ->] & Hin); exists (i, m, w);
      (split; [done|]); rewrite list_elem_of_filter, elem_of_map_to_list in *; cbn in *; naive_solver.
Qed.

Lemma own_audit o id limit t1 t2 : own o t1 = own o t2 → audit_rows t1 o id limit = audit_rows t2 o id limit.
Proof.
  intros H. unfold audit_rows. do 2 f_equal. apply (f_equal wt_audit) in H. unfold own, rows_of in H. cbn in H.
  assert (∀ l : list audit_row, filter (λ a, da_owner_key a = o ∧ da_draft_id a = id) l = filter (λ a, da_draft_id a = id) (filter (λ a, da_owner_key a = o) l)) as Hf.
  { intros l. rewrite list_filter_filter. apply list_filter_iff. naive_solver. }
  by rewrite !Hf, H.
Qed.
(** ** Stores that are alike for an owner *)

Record alike (o : string) (s1 s2 : DraftDB) : Prop := {
  al_tables : own o <$> wd_tables s1 = own o <$> wd_tables s2;
  al_now : wd_now s1 = wd_now s2;
  al_contention : wd_contention s1 = wd_contention s2;
  al_inv1 : draft_inv (drafts_of s1);
  al_inv2 : draft_inv (drafts_of s2)
}.

(** The computation answers the same, and leaves the stores alike. *)
Definition same (o : string) {A} (m : ST DraftDB A) : Prop :=
  ∀ s1 s2, alike o s1 s2 → (m s1).1 = (m s2).1 ∧ alike o (m s1).2 (m s2).2.

Lemma same_lift o {A} (m : result A) : same o (st_lift m).
Proof. by intros s1 s2 H. Qed.
Lemma same_ret o {A} (a : A) : same o (mret a).
Proof. by intros s1 s2 H. Qed.
Lemma same_bind o {A B} (m : ST DraftDB A) (f : A → ST DraftDB B) : same o m → (∀ a, same o (f a)) → same o (a ← m; f a).
Proof.
  intros Hm Hf s1 s2 H. destruct (Hm _ _ H) as [E1 E2]. unfold mbind, st_bind.
  destruct (m s1) as [r1 u1], (m s2) as [r2 u2]. cbn in E1, E2. subst r2. destruct r1 as [a|e]; [by apply Hf|done].
Qed.
Lemma same_checked o {A B} (m : result A) (f : A → ST DraftDB B) : (∀ a, m = Ok a → same o (f a)) → same o (a ← st_lift m; f a).
Proof. intros Hf s1 s2 H. unfold mbind, st_bind, st_lift. destruct m as [a|e]; [by apply Hf|done]. Qed.
Lemma same_now o {B} (f : string → ST DraftDB B) : (∀ now, same o (f now)) → same o (now ← draft_now; f now).
Proof. intros Hf. apply same_bind; [|done]. intros s1 s2 H. split; [|done]. unfold draft_now, mbind, st_bind. cbn. by rewrite (al_now _ _ _ H). Qed.

Lemma same_connect o {A} (m : ST DraftTables A) :
  (∀ t a t', m t = (Ok a, t') → draft_inv t → draft_inv t') →
  (∀ t1 t2, own o t1 = own o t2 → draft_inv t1 → draft_inv t2 →
    (m t1).1 = (m t2).1 ∧ own o (m t1).2 = own o (m t2).2) →
  same o (connect m).
Proof.
  intros Hinv Hm [o1 n c d] [o2 n2 c2 d2] [Ht En Ec I1 I2]. cbn in *. subst n2 c2. unfold drafts_of in *. cbn in I1, I2.
  unfold connect, next_connection. cbn [wd_contention wd_tables wd_now wd_draws].
  destruct (default false _); [split; [done|by split]|].
  destruct o1 as [t1|], o2 as [t2|]; try done; try (split; [done|by split]). apply (inj Some) in Ht. cbn in I1, I2.
  destruct (Hm t1 t2) as [E1 E2]; [done..|]. destruct (m t1) as [r1 t1'] eqn:M1, (m t2) as [r2 t2'] eqn:M2. cbn in E1, E2. subst r2.
  destruct r1 as [a|e]; (split; [done|]); split; try done; cbn; try (by rewrite ?Ht, ?E2).
  - exact (Hinv _ _ _ M1 I1).
  - exact (Hinv _ _ _ M2 I2).
Qed.

Lemma same_row o id t1 t2 : own o t1 = own o t2 → (draft_row_of o id t1).1 = (draft_row_of o id t2).1.
Proof. intros H. unfold draft_row_of, mbind, st_bind, st_get, st_lift. cbn. by rewrite (own_row _ _ _ id H). Qed.
Lemma no_next t o id r : draft_inv t → owned_row t o id = Some r → wt_versions t !! (id, dr_revision r + 1) = None.
Proof.
  intros Hi [Hr _]%owned_row_ok. apply eq_None_not_Some. intros [v Hv]. apply (di_version _ Hi) in Hv as (_ & _ & r' & Hr' & Hn & _).
  replace r' with r in * by congruence. lia.
Qed.

(** The transaction of [save], once its checks are passed. *)
Definition saved_tables (owner actor origin : string) (ct : content) (now id : string) (r : draft_row) (t : DraftTables) : DraftTables := {|
  wt_drafts := <[id := saved_row actor origin ct now r]> (wt_drafts t);
  wt_versions := <[(id, dr_revision r + 1) := version_of owner actor origin ct now]> (wt_versions t);
  wt_audit := wt_audit t ++ [save_entry owner actor ct now id r] |}.

Lemma own_saved owner actor origin ct now id r t1 t2 : own owner t1 = own owner t2 → dr_owner_key r = owner →
  own owner (saved_tables owner actor origin ct now id r t1) = own owner (saved_tables owner actor origin ct now id r t2).
Proof.
  intros H Ho. injection H as H1 H2 H3. unfold own, rows_of, saved_tables. cbn [wt_drafts wt_versions wt_audit].
  rewrite !map_filter_insert_True, !filter_app by done. congruence.
Qed.

Lemma save_draft_exact owner actor origin ct n sha now id t : draft_inv t →
  save_draft owner actor origin ct n sha now id t =
  match owned_row t owner id with
  | None => (not_found id, t)
  | Some r =>
      if negb (bool_decide (dr_status r = "active")) then
        (raise WorkflowDraftConflict "archived workflow must be restored before editing", t)
      else if negb (bool_decide (dr_revision r = n) && bool_decide (ct_sha256 (dr_content r) = sha)) then
        (raise WorkflowDraftConflict "stale workflow revision; reload before saving", t)
      else if bool_decide (ct_sha256 ct = ct_sha256 (dr_content r)) then
        (full ← _full_from_row id r; Ok (Some full), t)
      else match sqlite_int (dr_revision r + 1) with
           | Ok _ => (Ok None, saved_tables owner actor origin ct now id r t)
           | Raise e => (Raise e, t)
           end
  end.
Proof.
  intros Hi. unfold save_draft, draft_row_of, mbind, st_bind, st_get, st_lift, st_raise_if, raise_if.
  destruct (owned_row t owner id) as [r|] eqn:Er; [|done]. pose proof (no_next _ _ _ _ Hi Er) as Hn.
  destruct (negb _); [done|]. destruct (negb _); [done|]. case_bool_decide as Es.
  - by destruct (_full_from_row id r).
  - destruct (sqlite_int _) as [m|e]; [|done]. unfold st_modify, _insert_version, _audit, st_modify, mbind, st_bind, st_get, st_raise_if, raise_if, st_lift.
    cbn [set_wt_drafts wt_versions]. rewrite Hn, bool_decide_eq_false_2 by (by intros []). done.
Qed.

Lemma same_save_draft owner actor origin ct n sha now id t1 t2 : own owner t1 = own owner t2 → draft_inv t1 → draft_inv t2 →
  let m := save_draft owner actor origin ct n sha now id in (m t1).1 = (m t2).1 ∧ own owner (m t1).2 = own owner (m t2).2.
Proof.
  intros H I1 I2 m. unfold m. rewrite !save_draft_exact, (own_row _ _ _ id H) by done.
  destruct (owned_row t2 owner id) as [r|] eqn:Er; [|done]. destruct (negb _); [done|]. destruct (negb _); [done|].
  case_bool_decide; [done|]. destruct (sqlite_int _); [|done]. split; [done|]. apply owned_row_ok in Er as [_ Ho].
  by apply own_saved.
Qed.

Lemma same_archive_draft owner actor archived now id t1 t2 : own owner t1 = own owner t2 →
  let m := archive_draft owner actor archived now id in (m t1).1 = (m t2).1 ∧ own owner (m t1).2 = own owner (m t2).2.
Proof.
  intros H. cbv zeta. unfold archive_draft, draft_row_of, mbind, st_bind, st_get, st_lift. rewrite (own_row _ _ _ id H).
  destruct (owned_row t2 owner id) as [r|] eqn:Er; [|done]. case_bool_decide; [done|]. split; [done|].
  apply owned_row_ok in Er as [_ Ho]. injection H as H1 H2 H3. unfold own, rows_of, st_modify, _audit. cbn.
  rewrite !map_filter_insert_True, !filter_app by done. congruence.
Qed.

(** A read of one draft's rows. *)
Lemma same_row_then o id {A} (f : DraftTables → A) : (∀ t1 t2, own o t1 = own o t2 → f t1 = f t2) →
  same o (connect (draft_row_of o id ;; t ← st_get; mret (f t))).
Proof.
  intros Hf. apply same_connect.
  - intros t a t' Ht. by apply row_then_reads in Ht as ->.
  - intros t1 t2 H I1 I2. unfold mbind, st_bind. pose proof (same_row o id _ _ H) as Hr.
    destruct (draft_row_of o id t1) as [r1 u1] eqn:E1, (draft_row_of o id t2) as [r2 u2] eqn:E2. cbn in Hr. subst r2.
    apply draft_row_of_reads in E1 as ->, E2 as ->. destruct r1; [|done]. cbn. by rewrite (Hf _ _ H).
Qed.

Lemma same_get raw id : same (owner_of raw) (Draft_get raw id).
Proof.
  unfold Draft_get. apply same_checked. intros o [-> _]%owner_ok. apply same_checked. intros i _.
  apply same_bind; [|intros; apply same_lift]. apply same_connect.
  - intros t a t' Ht. by apply draft_row_of_reads in Ht as ->.
  - intros t1 t2 H _ _. split; [by apply same_row|].
    destruct (draft_row_of _ i t1) as [r1 u1] eqn:E1, (draft_row_of _ i t2) as [r2 u2] eqn:E2.
    by apply draft_row_of_reads in E1 as ->, E2 as ->.
Qed.

Lemma same_get_again o id : hex_id "" 64 o = true → same o (Draft_get o id).
Proof. intros H. destruct (owner_again _ H) as [He _]. pose proof (same_get o id) as Hs. by rewrite He in Hs. Qed.

Lemma same_save raw actor id rev sha title description contract origin :
  same (owner_of raw) (Draft_save raw actor id rev sha title description contract origin).
Proof.
  unfold Draft_save, st_raise_if. apply same_checked. intros o [-> Ho]%owner_ok. apply same_checked. intros a _.
  apply same_checked. intros i _. apply same_checked. intros og Hog%origin_ok. apply same_checked. intros n _.
  apply same_checked. intros _ _. apply same_checked. intros ct Hct%payload_ok. apply same_now. intros now.
  apply same_bind; [|intros [full|]; [apply same_ret|by apply same_get_again]]. apply same_connect.
  - intros t r t' H Hi. apply save_draft_ok in H as (row & _ & _ & _ & _ & [(_ & -> & _)|(_ & _ & _ & H)]); [done| |done..].
    by eapply step_inv.
  - intros t1 t2 H I1 I2. by apply same_save_draft.
Qed.

Lemma same_set_archived raw actor id archived : same (owner_of raw) (set_archived raw actor id archived).
Proof.
  unfold set_archived. apply same_checked. intros o [-> Ho]%owner_ok. apply same_checked. intros a _.
  apply same_checked. intros i _. apply same_now. intros now. apply same_bind; [|intros; by apply same_get_again].
  apply same_connect; [|intros t1 t2 H _ _; by apply same_archive_draft].
  intros t r t' H Hi. apply archive_draft_ok in H as [->|H]; [done|]. by eapply step_inv.
Qed.

Lemma same_list raw query view limit : same (owner_of raw) (Draft_list raw query view limit).
Proof.
  unfold Draft_list, st_raise_if. apply same_checked. intros o [-> _]%owner_ok. apply same_checked. intros v _.
  apply same_checked. intros q _. apply same_checked. intros _ _. apply same_bind; [|intros; apply same_lift].
  apply same_connect; [by intros t a t' [= _ <-]|]. intros t1 t2 H _ _. split; [|done].
  exact (f_equal Ok (own_list _ v q limit _ _ H)).
Qed.

Lemma same_versions raw id : same (owner_of raw) (versions raw id).
Proof.
  unfold versions. apply same_checked. intros o [-> _]%owner_ok. apply same_checked. intros i _.
  apply same_bind; [|intros; apply same_lift]. apply same_row_then. intros. by apply own_versions.
Qed.
Lemma same_audit raw id limit : same (owner_of raw) (Draft_audit raw id limit).
Proof.
  unfold Draft_audit. apply same_checked. intros o [-> _]%owner_ok. apply same_checked. intros i _.
  apply same_row_then. intros. by apply own_audit.
Qed.
End Owners.
