(* ===== verification/DraftListing.v ===== *)
(** * Listing and reading drafts

    The search pattern of a listing finds the drafts whose title or description contains the query, as far
    as [LIKE] reads them; and the stored text of a draft gives back its contract. *)

From Stdlib Require Import Ascii.
From Stdlib Require String.
From S2P Require Import Prelude PyStr Hashlib Json JsonFacts WorkflowDesign WorkflowGraph WorkflowFacts PlanFacts.
From S2P Require Import ExecutionCheckpoint TaskStore ContractReload WorkflowDrafts DraftSteps DraftHistory DraftOwners.

Local Open Scope Z_scope.

(** ** The search pattern *)

Definition escaped_char (c : ascii) : string :=
  if bool_decide (c = backslash) then String backslash (String backslash "")
  else if bool_decide (c = "%"%char) then String backslash "%"
  else if bool_decide (c = "_"%char) then String backslash "_" else String c "".

Lemma replace_char_app c u a b : replace_char c u (a +:+ b) = replace_char c u a +:+ replace_char c u b.
Proof. induction a as [|d a IH]; [done|]. rewrite app_str_cons. cbn [replace_char]. by rewrite IH, app_str_assoc. Qed.

Lemma escape_cons c q : _escape_like (String c q) = escaped_char c +:+ _escape_like q.
Proof.
  unfold _escape_like. cbn [replace_char]. rewrite !replace_char_app. f_equal. unfold escaped_char.
  destruct (decide (c = backslash)) as [->|H1]; [done|]. destruct (decide (c = "%"%char)) as [->|H2]; [done|].
  destruct (decide (c = "_"%char)) as [->|H3]; [done|].
  by do 3 (rewrite !(bool_decide_eq_false_2 (c = _)) by done; rewrite ?app_str_nil_r; cbn [replace_char]).
Qed.

(** The text without its case. *)
Definition fold_text : string → string := map_char fold_ascii.

(** Whether a text is found by a query: one without U+0000 is looked for anywhere in the text, as far as
    [LIKE] reads it; one with a U+0000 is cut there, with the percent sign that ends the pattern, and its rest
    is looked for at the end only. *)
Definition text_matches (query text : string) : bool :=
  if mem_char NUL query then endswith (fold_text (c_str text)) (fold_text (c_str query))
  else contains (fold_text (c_str text)) (fold_text query).

Lemma c_str_plain s : mem_char NUL s = false → c_str s = s.
Proof.
  induction s as [|c s IH]; [done|]. cbn [mem_char c_str]. rewrite orb_false_iff, !bool_decide_eq_false.
  intros [Hc Hs]. rewrite bool_decide_eq_false_2 by congruence. by rewrite IH.
Qed.

(** Without U+0000 the text contains the query. *)
Lemma text_matches_plain q s : mem_char NUL q = false → mem_char NUL s = false →
  text_matches q s = contains (fold_text s) (fold_text q).
Proof. intros Hq Hs. unfold text_matches. by rewrite Hq, c_str_plain. Qed.

Lemma text_matches_empty s : text_matches "" s = true.
Proof. unfold text_matches. by destruct (c_str s). Qed.

Lemma c_str_char c s : c ≠ NUL → c_str (escaped_char c +:+ s) = escaped_char c +:+ c_str s.
Proof.
  intros Hc. unfold escaped_char. repeat case_bool_decide; subst; try done. rewrite !app_str_cons. cbn [c_str].
  by rewrite bool_decide_eq_false_2.
Qed.

(** What is read of the pattern: that of the query, escaped, and the last percent sign if nothing cuts it off. *)
Lemma c_str_escape q r : c_str (_escape_like q +:+ r) = _escape_like (c_str q) +:+ if mem_char NUL q then "" else c_str r.
Proof.
  induction q as [|c q IH]; [done|]. rewrite escape_cons, app_str_assoc. cbn [mem_char c_str].
  destruct (decide (c = NUL)) as [->|Hc]; [done|]. rewrite c_str_char, IH by done.
  rewrite !bool_decide_eq_false_2 by congruence. by rewrite escape_cons, app_str_assoc.
Qed.

Lemma like_percent s : like_match "%" s = true.
Proof. induction s as [|c s IH]; [done|]. cbn in *. exact IH. Qed.

(** A character of the query matches one character, of either case. *)
Lemma like_escaped_char c p s : like_match (escaped_char c +:+ p) s =
  match s with String d s' => like_char c d && like_match p s' | EmptyString => false end.
Proof.
  unfold escaped_char. repeat case_bool_decide; subst; try done. rewrite app_str_cons. cbn [like_match].
  by rewrite !bool_decide_eq_false_2 by done.
Qed.

Lemma like_escaped q s : like_match (_escape_like q +:+ "%") s = startswith (fold_text s) (fold_text q).
Proof.
  revert s. induction q as [|c q IH]; intros s; [apply like_percent|]. rewrite escape_cons, app_str_assoc, like_escaped_char.
  destruct s as [|d s]; [done|]. rewrite IH. unfold startswith, fold_text, like_char. cbn [map_char strip_prefix].
  by case_bool_decide.
Qed.

Lemma like_exact q s : like_match (_escape_like q) s = bool_decide (fold_text s = fold_text q).
Proof.
  revert s. induction q as [|c q IH]; intros s; [by destruct s|]. rewrite escape_cons, like_escaped_char.
  destruct s as [|d s]; [done|]. rewrite IH. unfold fold_text, like_char. cbn [map_char].
  case_bool_decide as E1; cbn [andb]; [|symmetry; apply bool_decide_eq_false; congruence].
  apply bool_decide_ext. rewrite E1. split; congruence.
Qed.

(** After a percent sign the match may begin anywhere. *)
Lemma like_anywhere p s : like_match (String "%" p) s =
  like_match p s || match s with String _ s' => like_match (String "%" p) s' | EmptyString => false end.
Proof. by destruct s. Qed.

Lemma endswith_step s p : endswith s p = bool_decide (s = p) || match s with String _ t => endswith t p | EmptyString => false end.
Proof.
  unfold endswith. destruct s as [|c s]; cbn [strip_suffix]; case_bool_decide; try done. by destruct (strip_suffix s p).
Qed.

Lemma like_contains q s : sql_like ("%" +:+ _escape_like q +:+ "%") s = text_matches q s.
Proof.
  unfold sql_like, text_matches. rewrite app_str_cons, app_str_nil_l. cbn [c_str]. rewrite bool_decide_eq_false_2, c_str_escape by done.
  destruct (mem_char NUL q) eqn:Hq.
  - rewrite app_str_nil_r. induction (c_str s) as [|c t IH]; rewrite like_anywhere, like_exact, endswith_step; [done|by rewrite IH].
  - rewrite (c_str_plain q Hq). induction (c_str s) as [|c t IH]; rewrite like_anywhere, like_escaped; [done|by rewrite IH].
Qed.

(** A text that is found without containing the query, and one that contains it and is not found. *)
Example cut_query : sql_like ("%" +:+ _escape_like ("a" +:+ String NUL "b") +:+ "%") "banana" = true
  ∧ sql_like ("%" +:+ _escape_like "b" +:+ "%") ("a" +:+ String NUL "b") = false.
Proof. split; reflexivity. Qed.

(** ** What is read *)

Section Reading.
Context {HL : Hashlib} {TS : TokenSource}.

Definition summary_of (id : string) (r : draft_row) (c : wf_contract) : draft_summary := {|
  ds_draft_id := id; ds_title := ct_title (dr_content r); ds_revision := dr_revision r;
  ds_content_sha256 := ct_sha256 (dr_content r); ds_status := dr_status r; ds_origin := dr_origin r;
  ds_updated_at := dr_updated_at r; ds_created_at := dr_created_at r;
  ds_archived_at := default "" (dr_archived_at r); ds_node_count := Z.of_nat (length (wc_nodes c));
  ds_risk_level := wc_risk_level c; ds_data_class := wc_data_class c; ds_trigger := wc_trigger c;
  ds_lineage_parent_draft_id := default "" (dr_lineage_parent_draft_id r);
  ds_lineage_parent_revision := dr_lineage_parent_revision r |}.
(** The draft, which is read only while its contract is not too long for its own validator. *)
Definition full_of (id : string) (r : draft_row) (c : wf_contract) : result draft_full :=
  if 12 <? Z.of_nat (length (wc_warnings c)) then raise WorkflowDesignError "warnings must be a bounded list"
  else Ok {| df_summary := summary_of id r c; df_description := ct_description (dr_content r);
             df_contract := canon (contract_json c); df_mermaid := mermaid_text true c |}.

Lemma summary_exact id r c : content_of c (dr_content r) → _summary_from_row id r = Ok (summary_of id r c).
Proof.
  intros (_ & Ht & _). unfold _summary_from_row, contract_dict. rewrite Ht, loads_contract, canon_contract. cbn [mbind result_bind].
  unfold node_count. change (get _ "nodes") with (JList (map canon (map node_json (wc_nodes c)))). cbv zeta beta iota.
  change (get _ "risk_level") with (JStr (wc_risk_level c)). change (get _ "data_class") with (JStr (wc_data_class c)).
  change (get _ "trigger") with (JStr (wc_trigger c)). rewrite !str_or_empty_str.
  destruct (wc_nodes c) as [|n ns] eqn:En; unfold summary_of; rewrite En; [done|]. cbn [truthy map negb mbind result_bind].
  by rewrite <- !map_cons, !length_map.
Qed.

Lemma full_exact id r c : content_of c (dr_content r) → _full_from_row id r = full_of id r c.
Proof.
  intros Hc. unfold _full_from_row. rewrite (summary_exact _ _ c Hc). destruct Hc as ([raw Hraw] & Ht & _).
  rewrite Ht, loads_contract. cbn [mbind result_bind]. unfold render_mermaid_v4. rewrite reload_v4 by (by eapply v4_result).
  unfold full_of. by destruct (12 <? _).
Qed.

Lemma row_content t id r : draft_inv t → wt_drafts t !! id = Some r → valid_content (dr_content r).
Proof.
  intros Hi Hr. destruct (di_head _ Hi _ _ Hr) as (_ & _ & _ & v & Hv & <- & _). by apply (di_version _ Hi) in Hv as [? _].
Qed.

(** A state in which the next connections are not locked out. *)
Definition uncontended (s : DraftDB) (t : DraftTables) : Prop := wd_tables s = Some t ∧ Forall (λ b, b = false) (wd_contention s).

Lemma connect_open {A} (m : ST DraftTables A) s t : uncontended s t →
  connect m s = match m t with
                | (Ok a, t') => (Ok a, set_wd_tables t' (next_connection s))
                | (Raise e, _) => (Raise e, next_connection s)
                end.
Proof. intros [Ht Hc]. unfold connect. rewrite Ht. destruct (wd_contention s) as [|[] l]; [done| |done]. by inversion Hc. Qed.
Lemma uncontended_next s t t' : uncontended s t → uncontended (set_wd_tables t' (next_connection s)) t'.
Proof. intros [_ Hc]. split; [done|]. cbn. destruct Hc; [constructor|done]. Qed.

Lemma get_open raw v s t o i : _owner raw = Ok o → _draft_id v = Ok i → uncontended s t →
  Draft_get raw v s = (r ← match owned_row t o i with Some r => Ok r | None => not_found i end; _full_from_row i r,
                       next_connection s).
Proof.
  intros Ho Hi Hs. unfold Draft_get. rewrite Ho, Hi. unfold mbind at 1 2 3, st_bind, st_lift. rewrite (connect_open _ _ t Hs).
  unfold draft_row_of, mbind, st_bind, st_get, st_lift. destruct (owned_row t o i) as [r|]; [|done].
  destruct Hs as [Ht _]. cbn. destruct s as [tb now con n]. cbn in Ht. by subst tb.
Qed.

Lemma list_open raw query view limit s t o v q : _owner raw = Ok o → _status_view view = Ok v →
  Draft_bounded_text query "query" MAX_QUERY_CHARS true = Ok q → 1 ≤ limit ≤ MAX_LIST_LIMIT → uncontended s t →
  Draft_list raw query view limit s =
    (mapM (λ p, _summary_from_row p.1 p.2) (list_rows o v q limit t), next_connection s).
Proof.
  intros Ho Hv Hq Hl Hs. unfold Draft_list. rewrite Ho, Hv, Hq. unfold st_raise_if.
  replace ((1 <=? limit) && (limit <=? MAX_LIST_LIMIT)) with true by (symmetry; apply andb_true_iff; lia).
  unfold mbind, st_bind, st_lift. cbn [negb raise_if]. rewrite (connect_open _ _ t Hs). destruct Hs as [Ht _]. cbn.
  destruct s as [tb now con n]. cbn in Ht. by subst tb.
Qed.

Lemma summaries_exact rows : Forall (λ p : string * draft_row, valid_content (dr_content p.2)) rows →
  ∃ sums, mapM (λ p, _summary_from_row p.1 p.2) rows = Ok sums
    ∧ Forall2 (λ p sm, ∃ c, content_of c (dr_content p.2) ∧ sm = summary_of p.1 p.2 c) rows sums.
Proof.
  induction 1 as [|[id r] rows [c Hc] _ (sums & IH1 & IH2)]; [by exists []|]. cbn [fst snd] in *.
  exists (summary_of id r c :: sums). split; [|by constructor; [exists c|]]. cbn [mapM fst snd]. rewrite (summary_exact _ _ c Hc), IH1. done.
Qed.
End Reading.
