(* ===== verification/DraftTheorems.v ===== *)
(** * Properties of the draft store

    Histories are sound, no save overwrites another, owners do not see or change each other's
    drafts, and a listing finds what it is asked for. *)

From Stdlib Require Import Ascii.
From Stdlib Require String.
From S2P Require Import Prelude PyStr Hashlib Json JsonFacts WorkflowDesign WorkflowGraph WorkflowFacts PlanFacts.
From S2P Require Import ExecutionCheckpoint TaskStore ContractReload WorkflowDrafts DraftSteps DraftHistory.
From S2P Require Import DraftOwners DraftListing.

Local Open Scope Z_scope.

Section Theorems.
Context {HL : Hashlib} {TS : TokenSource}.

(** C14: after any history of calls - by any owners, with any arguments, at any times and under any
    contention - every draft row is the last of its versions, the versions are exactly those
    numbered from one, belong to the draft's owner, hold validated normalized contents with their
    digests and differ each from the one before; copies come from existing versions of the same
    owner; the audit entries of every draft replay, without a gap, to its row; and whatever follows
    never removes or rewrites a version or an audit entry, nor changes who made a draft, when, or
    from what it was copied. *)
Theorem drafts_sound (qs more : list draft_request) :
  draft_inv (drafts_after qs) ∧ grows (drafts_after qs) (drafts_after (qs ++ more)).
Proof. split; [apply history_inv|apply history_grows]. Qed.

(** ** Saves *)

(** The draft and the revision that a save quotes. *)
Definition quotes (q : draft_request) : option (string * Z) :=
  match dq_call q with
  | CallSave _ _ id n _ _ _ _ _ =>
      match _draft_id id, py_int n with Ok id, Ok n => Some (id, n) | _, _ => None end
  | _ => None
  end.

(** The computation raises, and leaves the tables, from the states of [P]. *)
Definition refuses {A} (P : option DraftTables → Prop) (m : ST DraftDB A) : Prop :=
  ∀ s r s', P (wd_tables s) → m s = (r, s') → wd_tables s' = wd_tables s ∧ ∃ e, r = Raise e.

Lemma refuses_checked {A B} P (m : result A) (f : A → ST DraftDB B) :
  (∀ a, m = Ok a → refuses P (f a)) → refuses P (a ← st_lift m; f a).
Proof.
  intros Hf s r s' HP. unfold mbind, st_bind, st_lift. destruct m as [a|e]; [by apply Hf|]. intros [= <- <-]. eauto.
Qed.
Lemma refuses_now {B} P (f : string → ST DraftDB B) : (∀ now, refuses P (f now)) → refuses P (now ← draft_now; f now).
Proof. intros Hf s r s' HP H. by eapply Hf in H. Qed.
Lemma refuses_connect {A B} (P : option DraftTables → Prop) (m : ST DraftTables A) (f : A → ST DraftDB B) :
  (∀ t a t', P (Some t) → m t ≠ (Ok a, t')) → refuses P (a ← connect m; f a).
Proof.
  intros Hm s r s' HP. unfold mbind, st_bind, connect. destruct (default false _); [intros [= <- <-]; eauto|].
  destruct (wd_tables s) as [t|] eqn:Et; [|intros [= <- <-]; eauto].
  destruct (m t) as [[a|e] t'] eqn:E; [by apply Hm in E|]. intros [= <- <-]. split; [exact Et|eauto].
Qed.

Lemma save_quoting owner actor id n sha title description contract origin i k : _draft_id id = Ok i → py_int n = Ok k →
  refuses (λ o, ∀ t r, o = Some t → wt_drafts t !! i = Some r → dr_revision r ≠ k)
    (Draft_save owner actor id n sha title description contract origin).
Proof.
  intros Hi Hn. unfold Draft_save, st_raise_if. apply refuses_checked. intros o _. apply refuses_checked. intros a _.
  rewrite Hi. apply refuses_checked. intros i' [= <-]. apply refuses_checked. intros og Hog%origin_ok.
  unfold reraise. rewrite Hn. apply refuses_checked. intros k' [= <-]. apply refuses_checked. intros _ _.
  apply refuses_checked. intros ct Hct%payload_ok. apply refuses_now. intros now. apply refuses_connect.
  intros t u t' HP Hs. apply save_draft_ok in Hs as (row & [Hrow _]%owned_row_ok & _ & Hk & _); [|done..].
  by apply (HP t row).
Qed.

(** A save that changed the tables stored the next revision. *)
Definition stores (i : string) (k : Z) {A} (m : ST DraftDB A) : Prop :=
  ∀ s r s', m s = (r, s') → wd_tables s' = wd_tables s ∨ is_Some (wt_versions (drafts_of s') !! (i, k)).

Lemma stores_checked {A B} i k (m : result A) (f : A → ST DraftDB B) :
  (∀ a, m = Ok a → stores i k (f a)) → stores i k (a ← st_lift m; f a).
Proof.
  intros Hf s r s'. unfold mbind, st_bind, st_lift. destruct m as [a|e]; [by apply Hf|]. intros [= <- <-]. by left.
Qed.
Lemma get_reads o i s r s' : Draft_get o i s = (r, s') → wd_tables s' = wd_tables s.
Proof.
  unfold Draft_get, mbind, st_bind, st_lift. destruct (_owner o); [|by intros [= _ <-]]. destruct (_draft_id i) as [id|]; [|by intros [= _ <-]].
  unfold connect. destruct (default false _); [by intros [= _ <-]|]. destruct (wd_tables s) as [t|] eqn:E; [|by intros [= _ <-]].
  destruct (draft_row_of _ _ t) as [[row|e] t'] eqn:Er; [|by intros [= _ <-]]. apply draft_row_of_reads in Er as ->. by intros [= _ <-].
Qed.

Lemma save_stores owner actor id n sha title description contract origin i k : _draft_id id = Ok i → py_int n = Ok k →
  stores i (k + 1) (Draft_save owner actor id n sha title description contract origin).
Proof.
  intros Hi Hn. unfold Draft_save, st_raise_if. apply stores_checked. intros o _. apply stores_checked. intros a _.
  rewrite Hi. apply stores_checked. intros i' [= <-]. apply stores_checked. intros og Hog%origin_ok.
  unfold reraise. rewrite Hn. apply stores_checked. intros k' [= <-]. apply stores_checked. intros _ _.
  apply stores_checked. intros ct Hct%payload_ok. intros s r s'. unfold mbind, st_bind, connect. cbn [draft_now st_get mret st_ret].
  destruct (draft_now s) as [[now|] s0] eqn:E0; [|done]. injection E0 as _ <-.
  destruct (default false _); [intros [= _ <-]; by left|]. destruct (wd_tables s) as [t|] eqn:Et; [|intros [= _ <-]; by left].
  destruct (save_draft _ _ _ _ _ _ _ _ t) as [[u|] t'] eqn:Es; [|intros [= _ <-]; by left].
  apply save_draft_ok in Es as (row & _ & _ & _ & _ & Hs); [|done..]. destruct Hs as [(_ & -> & _)|(_ & -> & Hv & _)]; intros H.
  - left. destruct u; [injection H as _ <-|apply get_reads in H]; [by rewrite <- Et|by rewrite H, <- Et].
  - right. apply get_reads in H. unfold drafts_of. rewrite H. cbn. rewrite Hv. by eexists.
Qed.

(** C15: no update is lost.  Once a save that quotes a revision of a draft has changed the store, any
    other save that quotes the same revision of it - by whomever, whatever happened in between, and
    even when the first caller was answered with an error - raises and changes nothing. *)
Theorem no_lost_update (qs more : list draft_request) (q q' : draft_request) (id : string) (n : Z) :
  let s := serve_all qs fresh_db in
  let s' := serve_all more (serve q s).2 in
  quotes q = Some (id, n) → quotes q' = Some (id, n) → wd_tables (serve q s).2 ≠ wd_tables s →
  (∃ e, (serve q' s').1 = Raise e) ∧ wd_tables (serve q' s').2 = wd_tables s'.
Proof.
  intros s s' Hq Hq' Hchange.
  assert (is_Some (wt_versions (drafts_of (serve q s).2) !! (id, n + 1))) as [v Hv].
  { destruct q as [now con []]; cbn in Hq; try done. destruct (_draft_id draft_id) as [i|] eqn:Ei, (py_int expected_revision) as [k|] eqn:Ek; try done.
    injection Hq as -> ->. unfold serve in *. cbn [dq_call run_call] in *. unfold mbind, st_bind in *.
    destruct (Draft_save _ _ _ _ _ _ _ _ _ _) as [r s1] eqn:E. eapply save_stores in E; [|done..].
    destruct r; cbn [snd mret st_ret] in *; by destruct E as [E|E]. }
  pose proof (history_inv qs) as Hi. fold s in Hi.
  destruct (serve q s) as [r1 s1] eqn:E1. cbn [snd] in *. apply serve_inv in E1 as [Hi1 _]; [|done].
  destruct (serve_all_inv more s1 Hi1) as [Hi2 [Hv2 _ _]]. fold s' in Hi2, Hv2.
  apply (lookup_weaken _ _ _ _ Hv) in Hv2. apply (di_version _ Hi2) in Hv2 as (_ & _ & row & Hrow & Hn & _).
  destruct q' as [now con []]; cbn in Hq'; try done. destruct (_draft_id draft_id) as [i|] eqn:Ei, (py_int expected_revision) as [k|] eqn:Ek; try done.
  injection Hq' as -> ->. unfold serve. cbn [dq_call run_call]. unfold mbind, st_bind.
  destruct (Draft_save _ _ _ _ _ _ _ _ _ _) as [r s2] eqn:E.
  eapply save_quoting in E as [E [e ->]]; [split; [by eexists|exact E]|done..|].
  intros t row' Ht Hrow' Hk. unfold drafts_of in Hrow. cbn in Ht. rewrite Ht in Hrow. cbn in Hrow.
  replace row' with row in * by congruence. lia.
Qed.
(** ** Owners *)

(** Calls that draw no new identifier. *)
Definition draws_nothing (c : draft_call) : Prop :=
  match c with CallCreate _ _ _ _ _ _ _ _ | CallDuplicate _ _ _ => False | _ => True end.

Lemma same_reply o {A} (m : ST DraftDB A) (f : A → draft_reply) : same o m → same o (r ← m; mret (f r)).
Proof. intros H. apply same_bind; [done|]. intros. apply same_ret. Qed.

Lemma same_initialize o : same o Draft_initialize.
Proof.
  intros [o1 n c d] [o2 n2 c2 d2] [Ht En Ec I1 I2]. cbn in *. subst n2 c2. unfold drafts_of in *. cbn in I1, I2.
  unfold Draft_initialize, next_connection. cbn [wd_contention wd_tables wd_now wd_draws].
  destruct (default false _); [split; [done|by split]|].
  destruct o1 as [t1|], o2 as [t2|]; try done; (split; [done|by split]).
Qed.

Lemma serve_same q s1 s2 : draws_nothing (dq_call q) → alike (owner_of (call_owner (dq_call q))) s1 s2 →
  same (owner_of (call_owner (dq_call q))) (run_call (dq_call q)).
Proof.
  intros Hd _. destruct (dq_call q); try done; cbn [run_call call_owner]; apply same_reply;
    auto using same_initialize, same_get, same_list, same_save, same_set_archived, same_versions, same_audit.
Qed.

(** C16: a call leaves every draft, version and audit entry of other owners as it was; and a call that
    draws no identifier answers the same, and does the same to its owner's rows, in two stores that
    agree on the rows of its owner, whatever the others hold in them. *)
Theorem owner_isolation (q : draft_request) (s1 s2 : DraftDB) :
  let o := owner_of (call_owner (dq_call q)) in
  foreign o (drafts_of (serve q s1).2) = foreign o (drafts_of s1)
  ∧ (draws_nothing (dq_call q) → own o <$> wd_tables s1 = own o <$> wd_tables s2 →
     draft_inv (drafts_of s1) → draft_inv (drafts_of s2) →
     (serve q s1).1 = (serve q s2).1
     ∧ own o <$> wd_tables (serve q s1).2 = own o <$> wd_tables (serve q s2).2).
Proof.
  cbv zeta. split.
  - destruct (serve q s1) as [r s'] eqn:E. apply serve_evolves, evolve_foreign in E. exact E.
  - intros Hd Ht I1 I2. assert (alike (owner_of (call_owner (dq_call q))) (arrive q s1) (arrive q s2)) as Ha by (by split).
    destruct (serve_same q _ _ Hd Ha _ _ Ha) as [H1 H2]. split; [exact H1|]. apply (al_tables _ _ _ H2).
Qed.

(** ** Calls, branch by branch *)

(** C27: a listing answers with the drafts of its owner in the view whose title or description
    contains the query - wildcards in it stand for themselves, letters of either case are equal, and [LIKE]
    reads nothing behind a U+0000: of a text it is the part before that is searched, and a query with one is its
    part before, searched at the end of the text only - most recently changed first and then by identifier,
    up to the limit; each with the number of nodes and the classification of the contract it holds.
    It changes nothing. *)
Theorem list_exact (raw view : string) (query : json) (limit : Z) (s : DraftDB) (t : DraftTables) (o v q : string) :
  _owner raw = Ok o → _status_view view = Ok v → Draft_bounded_text query "query" MAX_QUERY_CHARS true = Ok q →
  1 ≤ limit ≤ MAX_LIST_LIMIT → uncontended s t → draft_inv t →
  ∃ (all : list (string * draft_row)) sums s', Draft_list raw query view limit s = (Ok sums, s') ∧ wd_tables s' = wd_tables s
    ∧ StronglySorted listed_before all ∧ NoDup all
    ∧ (∀ id r, (id, r) ∈ all ↔ wt_drafts t !! id = Some r ∧ dr_owner_key r = o ∧ (v = "all" ∨ dr_status r = v)
        ∧ (text_matches q (ct_title (dr_content r)) = true ∨ text_matches q (ct_description (dr_content r)) = true))
    ∧ Forall2 (λ p sm, ∃ c, content_of c (dr_content p.2) ∧ sm = summary_of p.1 p.2 c) (take (Z.to_nat limit) all) sums.
Proof.
  intros Ho Hv Hq Hl Hs Hi. set (all := merge_sort listed_before (filter (listed o v q) (map_to_list (wt_drafts t)))).
  assert (∀ id r, (id, r) ∈ all ↔ listed o v q (id, r) ∧ wt_drafts t !! id = Some r) as Hall.
  { intros id r. unfold all. by rewrite merge_sort_Permutation, list_elem_of_filter, elem_of_map_to_list. }
  destruct (summaries_exact (take (Z.to_nat limit) all)) as (sums & Hsum & Hrel).
  { apply Forall_take, Forall_elem. intros [id r] [_ Hr]%Hall. by eapply row_content. }
  exists all, sums, (next_connection s). split_and!; try done.
  - by rewrite (list_open _ _ _ _ _ _ _ _ _ Ho Hv Hq Hl Hs), <- Hsum.
  - apply StronglySorted_merge_sort; apply _.
  - unfold all. rewrite merge_sort_Permutation. apply NoDup_filter, NoDup_map_to_list.
  - intros id r. rewrite Hall. unfold listed. cbn [fst snd]. rewrite !like_contains.
    assert (q = "" → text_matches q (ct_title (dr_content r)) = true) as He by (intros ->; apply text_matches_empty). naive_solver.
Qed.

Lemma bind_checked {S A B} (m : result A) x (f : A → ST S B) s : m = Ok x → (a ← st_lift m; f a) s = f x s.
Proof. by intros ->. Qed.
Lemma bind_now {B} (f : string → ST DraftDB B) s : (now ← draft_now; f now) s = f (wd_now s) s.
Proof. done. Qed.

(** The tables after a draft is created. *)
Definition created_tables (owner actor origin : string) (ct : content) (now : string) (parent : option (string * Z)) (id : string)
    (t : DraftTables) : DraftTables := {|
  wt_drafts := <[id := created_row owner actor origin ct now parent]> (wt_drafts t);
  wt_versions := <[(id, 1) := version_of owner actor origin ct now]> (wt_versions t);
  wt_audit := wt_audit t ++ [create_entry owner actor ct now parent id] |}.

(** C26: on every branch, a save does what it says: an unknown draft, an archived one and a stale
    revision or digest are refused; a content with the current digest changes nothing; any other
    content becomes the next revision, a new version and an audit entry, and the answer is the
    draft as saved - or the error of a contract with more than twelve warnings, although it is
    saved. *)
Theorem save_exact (raw actor id : string) (rev sha title description contract origin : json) (s : DraftDB) (t : DraftTables)
    (o a i og : string) (n : Z) (ct : content) (c : wf_contract) :
  _owner raw = Ok o → _actor actor = Ok a → _draft_id id = Ok i → _origin (origin_or origin "human") = Ok og →
  py_int rev = Ok n → hex_id "" 64 (lower (strip (str_or_empty sha))) = true →
  _normalize_payload title description contract (JStr og) = Ok ct → validate_contract_v4 contract = Ok c → uncontended s t → draft_inv t →
  let res := Draft_save raw actor id rev sha title description contract origin s in
  let kept := drafts_of res.2 = t in
  match owned_row t o i with
  | None => res.1 = not_found i ∧ kept
  | Some r =>
      if decide (dr_status r ≠ "active") then
        res.1 = raise WorkflowDraftConflict "archived workflow must be restored before editing" ∧ kept
      else if decide (dr_revision r ≠ n ∨ ct_sha256 (dr_content r) ≠ lower (strip (str_or_empty sha))) then
        res.1 = raise WorkflowDraftConflict "stale workflow revision; reload before saving" ∧ kept
      else if decide (ct_sha256 ct = ct_sha256 (dr_content r)) then
        (∃ c', content_of c' (dr_content r) ∧ res.1 = full_of i r c') ∧ kept
      else match sqlite_int (dr_revision r + 1) with
           | Ok _ => res.1 = full_of i (saved_row a og ct (wd_now s) r) c
                     ∧ drafts_of res.2 = saved_tables o a og ct (wd_now s) i r t
           | Raise e => res.1 = Raise e ∧ kept
           end
  end.
Proof.
  intros Ho Ha Hi Hog Hn Hsha Hct Hc Hs Hinv res kept. pose proof (payload_content _ _ _ _ _ _ Hc Hct) as Hco.
  assert (res = match save_draft o a og ct n (lower (strip (str_or_empty sha))) (wd_now s) i t with
                | (Ok (Some full), t') => (Ok full, set_wd_tables t' (next_connection s))
                | (Ok None, t') => Draft_get o i (set_wd_tables t' (next_connection s))
                | (Raise e, _) => (Raise e, next_connection s)
                end) as Hres.
  { unfold res, Draft_save, st_raise_if. rewrite (bind_checked _ _ _ _ Ho), (bind_checked _ _ _ _ Ha), (bind_checked _ _ _ _ Hi).
    rewrite (bind_checked _ _ _ _ Hog), (bind_checked _ n) by (unfold reraise; by rewrite Hn). cbv zeta.
    rewrite (bind_checked _ tt) by (by rewrite Hsha). rewrite (bind_checked _ _ _ _ Hct), bind_now.
    unfold mbind at 1, st_bind at 1. rewrite (connect_open _ _ t Hs). by destruct (save_draft _ _ _ _ _ _ _ _ _) as [[[full|]|e] t']. }
  assert (drafts_of (next_connection s) = t) as Hkeep by (unfold drafts_of; cbn; by rewrite (proj1 Hs)).
  unfold kept. rewrite Hres. clearbody res. clear Hres kept. rewrite save_draft_exact by done.
  destruct (owned_row t o i) as [r|] eqn:Er; [|done]. pose proof Er as [Hr Hown]%owned_row_ok.
  case_decide as Hst; [by rewrite bool_decide_eq_false_2|]. rewrite bool_decide_eq_true_2 by done. cbn [negb].
  case_decide as Hq.
  { assert (bool_decide (dr_revision r = n) && bool_decide (ct_sha256 (dr_content r) = lower (strip (str_or_empty sha))) = false) as ->; [|done].
    apply andb_false_iff. rewrite !bool_decide_eq_false. exact Hq. }
  assert (dr_revision r = n ∧ ct_sha256 (dr_content r) = lower (strip (str_or_empty sha))) as [E1 E2].
  { split; apply dec_stable; intros Hne; apply Hq; [by left|by right]. }
  rewrite !(bool_decide_eq_true_2 (_ = _)) by done. cbn [negb andb].
  case_decide as Hd.
  - rewrite bool_decide_eq_true_2 by done. destruct (row_content _ _ _ Hinv Hr) as [c' Hc']. rewrite (full_exact _ _ c' Hc').
    destruct (full_of i r c') as [full|e] eqn:Ef; cbn [mbind result_bind]; (split; [by exists c'|first [done|exact Hkeep]]).
  - rewrite bool_decide_eq_false_2 by done. destruct (sqlite_int (dr_revision r + 1)) as [m|e]; [|done].
    destruct (owner_ok _ _ Ho) as [_ Hox]. pose proof (draft_id_ok _ _ Hi) as Hix.
    rewrite (get_open o i _ (saved_tables o a og ct (wd_now s) i r t) o i); [|by apply owner_again|by apply draft_id_again|by eapply uncontended_next].
    assert (owned_row (saved_tables o a og ct (wd_now s) i r t) o i = Some (saved_row a og ct (wd_now s) r)) as ->.
    { apply owned_row_ok. cbn. by rewrite lookup_insert_eq. }
    split; [|done]. cbn [fst mbind result_bind]. apply full_exact, Hco.
Qed.

(** The first identifier drawn is free. *)
Lemma attempt_free k o a og ct s t c : let id := "wfd_" +:+ token_hex (wd_draws s) in
  hex_id "" 64 o = true → content_of c ct → uncontended s t → draft_inv t → wt_drafts t !! id = None →
  let res := create_attempts (S k) o a og ct (wd_now s) None s in
  res.1 = full_of id (created_row o a og ct (wd_now s) None) c ∧ drafts_of res.2 = created_tables o a og ct (wd_now s) None id t.
Proof.
  intros id Ho Hc Hs Hi Hnew. cbn [create_attempts]. set (rest := create_attempts k _ _ _ _ _ _). clearbody rest.
  set (s1 := {| wd_tables := wd_tables s; wd_now := wd_now s; wd_contention := wd_contention s; wd_draws := wd_draws s + 1 |}).
  assert (uncontended s1 t) as Hs1 by exact Hs.
  assert (create_draft o a og ct (wd_now s) None id t = (Ok tt, created_tables o a og ct (wd_now s) None id t)) as Hcr.
  { unfold create_draft, insert_draft, _insert_version, _audit, st_raise_if, st_modify, mbind, st_bind, st_get, st_lift. cbn [mret st_ret].
    rewrite bool_decide_eq_false_2 by (rewrite Hnew; by intros []). cbn [raise_if set_wt_drafts wt_versions].
    by rewrite bool_decide_eq_false_2 by (rewrite (no_versions _ _ _ Hi Hnew); by intros []). }
  unfold catch_integrity, mbind, st_bind, draw_token. fold id s1. rewrite !(connect_open _ _ t Hs1), Hcr.
  rewrite (get_open o id _ (created_tables o a og ct (wd_now s) None id t) o id);
    [|by apply owner_again|apply draft_id_again, token_id|by eapply uncontended_next].
  assert (owned_row (created_tables o a og ct (wd_now s) None id t) o id = Some (created_row o a og ct (wd_now s) None)) as ->.
  { apply owned_row_ok. cbn. by rewrite lookup_insert_eq. }
  cbn [mbind result_bind]. rewrite (full_exact id _ c) by exact Hc. unfold full_of. destruct (12 <? _); [|done].
  unfold raise. cbn [exn_cls]. by rewrite bool_decide_eq_false_2.
Qed.

(** C28: a new draft, on the first identifier that is free: the answer is the draft with its contract
    normalized - or an error, when the validator's own warnings have made that contract too long for
    it, and then the draft is in the store all the same. *)
Theorem create_exact (raw actor : string) (title description contract origin : json) (s : DraftDB) (t : DraftTables)
    (o a og : string) (ct : content) (c : wf_contract) :
  let id := "wfd_" +:+ token_hex (wd_draws s) in
  _owner raw = Ok o → _actor actor = Ok a → _normalize_payload title description contract origin = Ok ct →
  _origin (origin_or origin "workspace_ai") = Ok og → validate_contract_v4 contract = Ok c → uncontended s t → draft_inv t →
  wt_drafts t !! id = None →
  let r := created_row o a og ct (wd_now s) None in
  let res := Draft_create raw actor title description contract origin None None s in
  res.1 = full_of id r c ∧ drafts_of res.2 = created_tables o a og ct (wd_now s) None id t.
Proof.
  intros id Ho Ha Hct Hog Hc Hs Hi Hnew r res. unfold res, Draft_create.
  rewrite (bind_checked _ _ _ _ Ho), (bind_checked _ _ _ _ Ha), (bind_checked _ _ _ _ Hct), (bind_checked _ _ _ _ Hog).
  rewrite (bind_checked _ None), bind_now by done. destruct (owner_ok _ _ Ho) as [_ Hox].
  apply attempt_free; [done|by eapply payload_content|done..].
Qed.
End Theorems.

(** ** On a sample store *)

Definition counted_token (i : Z) : string := "00000000" +:+ Sha256.hex32 (Z.to_N i).
Lemma counted_token_shape i : (String.length (counted_token i) =? 16)%nat && forall_char is_hex_lower (counted_token i) = true.
Proof.
  unfold counted_token. destruct (Sha256.hex32_shape (Z.to_N i)) as [H1 H2].
  by rewrite length_app_str, forall_char_app, H1, H2.
Qed.
Definition counted_tokens : TokenSource := {| token_hex := counted_token; token_hex_shape := counted_token_shape |}.

#[local] Existing Instance checksum_hashlib.
#[local] Existing Instance counted_tokens.

Definition sample_key (c : string) : string := repeat_str 64 c.
Definition sample_actor : string := "usr_0123456789abcdef".
Definition ask (now : string) (c : draft_call) : draft_request := {| dq_now := now; dq_contention := []; dq_call := c |}.
Definition sample_create (now owner title : string) (contract : json) : draft_request :=
  ask now (CallCreate owner sample_actor (JStr title) (JStr "100% of_the work") contract (JStr "human") None None).
Definition sample_draft (i : Z) : string := "wfd_" +:+ counted_token i.

(** Two owners with a draft each. *)
Definition sample_history (other : string) : list draft_request := [
  ask "t0" CallInitialize; sample_create "t1" (sample_key "a") "Weekly Survey" parallel_workflow;
  sample_create "t2" (sample_key other) "Budget" parallel_workflow].
Definition sample_store (other : string) : DraftDB := serve_all (sample_history other) fresh_db.
Lemma sample_inv other : draft_inv (drafts_of (sample_store other)).
Proof. unfold sample_store. exact (history_inv (sample_history other)). Qed.
Definition sample_sha (i : Z) : string :=
  match wt_drafts (drafts_of (sample_store "b")) !! sample_draft i with Some r => ct_sha256 (dr_content r) | None => "" end.
Definition sample_save (now title : string) : draft_request :=
  ask now (CallSave (sample_key "a") sample_actor (sample_draft 0) (JInt 1) (JStr (sample_sha 0)) (JStr title) (JStr "") parallel_workflow JNull).

Lemma no_lost_update_witness :
  let s := serve_all (sample_history "b") fresh_db in
  let s' := serve_all [ask "t4" (CallArchive (sample_key "a") sample_actor (sample_draft 0) true)]
              (serve (sample_save "t3" "Monthly") s).2 in
  (∃ e, (serve (sample_save "t5" "Yearly") s').1 = Raise e) ∧ wd_tables (serve (sample_save "t5" "Yearly") s').2 = wd_tables s'.
Proof.
  refine (no_lost_update (sample_history "b") [ask "t4" (CallArchive (sample_key "a") sample_actor (sample_draft 0) true)]
    (sample_save "t3" "Monthly") (sample_save "t5" "Yearly") (sample_draft 0) 1 _ _ _).
  - vm_compute. reflexivity.
  - vm_compute. reflexivity.
  - intros H. apply (f_equal (λ o, dr_revision <$> wt_drafts (tables_of o) !! sample_draft 0)) in H. vm_compute in H. discriminate H.
Defined.

Lemma owner_isolation_witness :
  let q := ask "t3" (CallList (sample_key "a") (JStr "_THE") "active" 10) in
  (serve q (sample_store "b")).1 = (serve q (sample_store "c")).1
  ∧ match (serve q (sample_store "b")).1 with Ok (ReplyDrafts [d]) => ds_title d = "Weekly Survey" | _ => False end.
Proof.
  split; [|vm_compute; reflexivity].
  apply (owner_isolation (ask "t3" (CallList (sample_key "a") (JStr "_THE") "active" 10)) (sample_store "b") (sample_store "c")).
  - exact I.
  - vm_compute. reflexivity.
  - apply sample_inv.
  - apply sample_inv.
Defined.


(** The sample store, when it is asked again. *)
Definition asked (s : DraftDB) : DraftDB := arrive (ask "t3" CallInitialize) s.
Lemma asked_open s t : wd_tables s = Some t → uncontended (asked s) t.
Proof. intros H. split; [exact H|constructor]. Qed.
Definition sample_tables (other : string) : DraftTables := drafts_of (sample_store other).

Lemma sample_some : wd_tables (sample_store "b") = Some (sample_tables "b").
Proof. assert (is_Some (wd_tables (sample_store "b"))) as [t Ht] by (vm_compute; by eexists). unfold sample_tables, drafts_of. by rewrite Ht. Qed.

Lemma list_exact_witness : ∃ (all : list (string * draft_row)) sums s',
  Draft_list (sample_key "a") (JStr "00% OF_") "all" 5 (asked (sample_store "b")) = (Ok sums, s')
  ∧ map ds_title sums = ["Weekly Survey"] ∧ length (take 5 all) = 1%nat.
Proof.
  destruct (list_exact (sample_key "a") "all" (JStr "00% OF_") 5 (asked (sample_store "b")) (sample_tables "b") (sample_key "a") "all" "00% OF_")
    as (all & sums & s' & Hl & _ & _ & _ & _ & Hrel).
  - vm_compute. reflexivity.
  - vm_compute. reflexivity.
  - vm_compute. reflexivity.
  - unfold MAX_LIST_LIMIT. lia.
  - apply asked_open, sample_some.
  - apply sample_inv.
  - exists all, sums, s'. split; [exact Hl|].
    assert (fst (Draft_list (sample_key "a") (JStr "00% OF_") "all" 5 (asked (sample_store "b"))) = Ok sums) as Hs by (by rewrite Hl).
    assert (match fst (Draft_list (sample_key "a") (JStr "00% OF_") "all" 5 (asked (sample_store "b"))) with
            | Ok l => map ds_title l = ["Weekly Survey"] | Raise _ => False end) as Ht by (vm_compute; reflexivity).
    rewrite Hs in Ht. split; [exact Ht|]. apply Forall2_length in Hrel. apply (f_equal length) in Ht. rewrite length_map in Ht.
    change (Z.to_nat 5) with 5%nat in Hrel. by rewrite Hrel, Ht.
Defined.

Definition sample_payload (title : string) : result content := _normalize_payload (JStr title) (JStr "") parallel_workflow (JStr "human").


(** The sample draft, and what the sample save makes of it. *)
Definition sample_row : option draft_row := owned_row (sample_tables "b") (sample_key "a") (sample_draft 0).
Lemma some_field {A B} (f : A → B) o r x : o = Some r → f <$> o = Some x → f r = x.
Proof. intros ->. cbn. by intros [= ->]. Qed.
Lemma sample_status : dr_status <$> sample_row = Some "active".
Proof. vm_compute. reflexivity. Qed.
Lemma sample_revision : dr_revision <$> sample_row = Some 1.
Proof. vm_compute. reflexivity. Qed.
Lemma sample_digest : (λ r, ct_sha256 (dr_content r)) <$> sample_row = Some (lower (strip (str_or_empty (JStr (sample_sha 0))))).
Proof. vm_compute. reflexivity. Qed.
Lemma sample_change : match sample_payload "Monthly" with Ok ct => bool_decide (ct_sha256 ct = lower (strip (str_or_empty (JStr (sample_sha 0))))) | Raise _ => true end = false.
Proof. vm_compute. reflexivity. Qed.

Lemma save_exact_witness : ∃ r ct c, sample_row = Some r
  ∧ sample_payload "Monthly" = Ok ct ∧ validate_contract_v4 parallel_workflow = Ok c
  ∧ (Draft_save (sample_key "a") sample_actor (sample_draft 0) (JInt 1) (JStr (sample_sha 0)) (JStr "Monthly") (JStr "")
       parallel_workflow JNull (asked (sample_store "b"))).1 = full_of (sample_draft 0) (saved_row sample_actor "human" ct "t3" r) c.
Proof.
  destruct sample_row as [r|] eqn:Er; [|vm_compute in Er; discriminate].
  destruct (sample_payload "Monthly") as [ct|] eqn:Ep; [|vm_compute in Ep; discriminate].
  destruct (validate_contract_v4 parallel_workflow) as [c|] eqn:Ec; [|vm_compute in Ec; discriminate].
  exists r, ct, c. split_and!; [done..|].
  pose proof (save_exact (sample_key "a") sample_actor (sample_draft 0) (JInt 1) (JStr (sample_sha 0)) (JStr "Monthly") (JStr "")
    parallel_workflow JNull (asked (sample_store "b")) (sample_tables "b") (sample_key "a") sample_actor (sample_draft 0) "human" 1 ct c
    ltac:(vm_compute; reflexivity) ltac:(vm_compute; reflexivity) ltac:(vm_compute; reflexivity) ltac:(vm_compute; reflexivity)
    eq_refl ltac:(vm_compute; reflexivity) Ep Ec (asked_open _ _ sample_some) (sample_inv "b")) as H.
  cbv zeta in H. fold sample_row in H. rewrite Er in H. pose proof sample_change as Hch. rewrite Ep in Hch. apply bool_decide_eq_false in Hch.
  pose proof (some_field _ _ _ _ Er sample_status) as R1. pose proof (some_field _ _ _ _ Er sample_revision) as R2.
  pose proof (some_field _ _ _ _ Er sample_digest) as R3. cbv beta in R3.
  rewrite decide_False in H by (intros Hn; exact (Hn R1)).
  rewrite decide_False in H by (intros [Hn|Hn]; [exact (Hn R2)|exact (Hn R3)]).
  rewrite decide_False in H by (rewrite R3; exact Hch). rewrite R2 in H. exact (proj1 H).
Defined.

Lemma create_exact_witness : ∃ ct c, validate_contract_v4 verbose_workflow = Ok c ∧ (12 <? Z.of_nat (length (wc_warnings c))) = true
  ∧ let res := Draft_create (sample_key "a") sample_actor (JStr "Long") JNull verbose_workflow JNull None None (asked (sample_store "b")) in
    res.1 = raise WorkflowDesignError "warnings must be a bounded list"
    ∧ drafts_of res.2 = created_tables (sample_key "a") sample_actor "workspace_ai" ct "t3" None (sample_draft 2) (sample_tables "b").
Proof.
  destruct (validate_contract_v4 verbose_workflow) as [c|] eqn:Ec; [|vm_compute in Ec; discriminate].
  destruct (_normalize_payload (JStr "Long") JNull verbose_workflow JNull) as [ct|] eqn:Ep; [|vm_compute in Ep; discriminate].
  assert (match validate_contract_v4 verbose_workflow with Ok c => 12 <? Z.of_nat (length (wc_warnings c)) | Raise _ => false end = true)
    as Hw by (vm_compute; reflexivity). rewrite Ec in Hw. exists ct, c. split; [done|]. split; [done|].
  pose proof (create_exact (sample_key "a") sample_actor (JStr "Long") JNull verbose_workflow JNull (asked (sample_store "b")) (sample_tables "b")
    (sample_key "a") sample_actor "workspace_ai" ct c ltac:(vm_compute; reflexivity) ltac:(vm_compute; reflexivity) Ep
    ltac:(vm_compute; reflexivity) Ec (asked_open _ _ sample_some) (sample_inv "b") ltac:(vm_compute; reflexivity)) as H.
  cbv zeta in H. unfold full_of in H. rewrite Hw in H. exact H.
Defined.
