(* ===== verification/ExecutionBudget.v ===== *)
(** * Execution budgets

    [execution_budget.py] and [sqlite_budget_guard.py]: the client of a task's persistent
    budget, whose writes are tried again a bounded number of times while another process
    holds the database. The process-local lock around them serializes the threads of one
    process; here an operation runs without interleaving. *)

From Stdlib Require Import Ascii.
From Stdlib Require String.
From S2P Require Import Prelude PyStr Hashlib PyFloat Json JsonFacts PyTime TaskStore.
From S2P Require Import TaskContract CapabilityAuthority ContextManifest TaskContext ExecutionPlan ExecutionObservation.
From S2P Require Import ExecutionScheduler.

Local Open Scope Z_scope.

(** ** Bounded retries *)

Definition SQLITE_BUDGET_LOCK_RETRY_ATTEMPTS : Z := 2.
(** In microseconds. *)
Definition SQLITE_BUDGET_LOCK_RETRY_DELAY : Z := 50000.

Definition is_lock_error (e : exn) : bool :=
  bool_decide (exn_cls e = SqliteOperationalError)
  && (contains (lower (exn_msg e)) "database is locked" || contains (lower (exn_msg e)) "database is busy").

Definition sleep (microseconds : Z) : ST TaskStore unit :=
  st_modify (λ s, set_clock {| dt_local := dt_local (ts_now s) + microseconds; dt_offset := dt_offset (ts_now s) |}
                    (ts_contention s) s).

(** The rounds of the loop from number [attempt] on, of which there are [rounds]. *)
Fixpoint try_write {A} (operation : ST TaskStore A) (delay attempt : Z) (rounds : nat) : ST TaskStore A :=
  match rounds with
  | O => st_lift (raise PyAssertionError "unreachable")
  | S rounds => λ s,
      match operation s with
      | (Ok a, s') => (Ok a, s')
      | (Raise e, s') =>
          if negb (is_lock_error e) || (rounds =? 0)%nat then (Raise e, s')
          else ((if delay =? 0 then mret tt else sleep (delay * (attempt + 1))) ;;
                try_write operation delay (attempt + 1) rounds) s'
      end
  end.

Definition run_budget_write_with {A} (operation : ST TaskStore A) (attempts delay : Z) : ST TaskStore A :=
  st_raise_if (attempts <? 1) PyValueError "attempts must be >= 1" ;;
  st_raise_if (delay <? 0) PyValueError "retry_delay_seconds must be >= 0" ;;
  try_write operation delay 0 (Z.to_nat attempts).
Definition run_budget_write {A} (operation : ST TaskStore A) : ST TaskStore A :=
  run_budget_write_with operation SQLITE_BUDGET_LOCK_RETRY_ATTEMPTS SQLITE_BUDGET_LOCK_RETRY_DELAY.

(** ** The budget of a task *)

Definition _BUDGET_EXHAUSTION_CODES : list string := [
  "TASK_STEP_BUDGET_EXHAUSTED"; "TASK_TOOL_CALL_BUDGET_EXHAUSTED"; "TASK_WALL_TIME_BUDGET_EXHAUSTED";
  "MODEL_RETRY_BUDGET_EXHAUSTED"; "MODEL_ESCALATION_BUDGET_EXHAUSTED"].

Record TaskExecutionBudgetState := {
  tb_task_id : string;
  tb_max_steps : Z;
  tb_max_tool_calls : Z;
  tb_max_model_retries : Z;
  tb_max_model_escalations : Z;
  tb_max_wall_time_ms : Z;
  tb_deadline_at : string
}.

(** [except ValueError as exc]: an exhausted dimension becomes its own exception. *)
Definition exhausted_exn (e : exn) : exn :=
  if is_value_error (exn_cls e) && mem_str (exn_msg e) _BUDGET_EXHAUSTION_CODES
  then Exn ExecutionBudgetExceeded (exn_msg e) else e.

Section Client.
Context {TZ : TokyoZone}.

Definition from_bound_contract (task_id : string) : ST TaskStore TaskExecutionBudgetState :=
  row ← run_budget_write (bind_task_execution_budget task_id);
  mret {| tb_task_id := task_id; tb_max_steps := us_max_steps row; tb_max_tool_calls := us_max_tool_calls row;
          tb_max_model_retries := us_max_retries row; tb_max_model_escalations := us_max_escalations row;
          tb_max_wall_time_ms := us_max_wall_time_ms row; tb_deadline_at := us_deadline_at row |}.

Definition BudgetState_reserve (b : TaskExecutionBudgetState) (steps tool_calls retries escalations : Z)
    : ST TaskStore unit :=
  st_map_exn exhausted_exn
    (run_budget_write (reserve_task_execution_budget (tb_task_id b) steps tool_calls retries escalations)) ;;
  mret tt.

Definition BudgetState_assert_active (b : TaskExecutionBudgetState) : ST TaskStore unit :=
  BudgetState_reserve b 0 0 0 0.

Definition BudgetState_snapshot (b : TaskExecutionBudgetState) (s : TaskStore) : result json :=
  row ← task_execution_budget_for_task (tb_task_id b) s;
  Ok (JObj [
    ("schema_version", JStr "workspace-task-execution-budget-state/v2"); ("task_id", JStr (tb_task_id b));
    ("max_steps", JInt (us_max_steps row)); ("max_tool_calls", JInt (us_max_tool_calls row));
    ("max_model_retries", JInt (us_max_retries row)); ("max_model_escalations", JInt (us_max_escalations row));
    ("max_wall_time_ms", JInt (us_max_wall_time_ms row)); ("steps_used", JInt (us_steps_used row));
    ("tool_calls_used", JInt (us_tool_calls_used row)); ("model_retries_used", JInt (us_retries_used row));
    ("model_escalations_used", JInt (us_escalations_used row)); ("deadline_at", JStr (us_deadline_at row))]).

(** ** As the scheduler's guard *)

Record BudgetClient := { bc_state : TaskExecutionBudgetState; bc_store : TaskStore }.

Definition on_store {A} (m : TaskExecutionBudgetState → ST TaskStore A) : ST BudgetClient A := λ b,
  let '(r, s) := m (bc_state b) (bc_store b) in (r, {| bc_state := bc_state b; bc_store := s |}).

#[export] Instance BudgetClient_guard : SchedulerBudgetGuard BudgetClient := {
  assert_active := on_store BudgetState_assert_active;
  reserve steps tool_calls retries escalations := on_store (λ b, BudgetState_reserve b steps tool_calls retries escalations)
}.
End Client.
