(* ===== verification/LinkedBudget.v ===== *)
(** * Linked execution budgets

    [linked_execution_budget.py]: the budget of a child task, each of whose reservations is charged to
    the child and to its parent in one transaction. *)

From Stdlib Require Import Ascii.
From Stdlib Require String.
From S2P Require Import Prelude PyStr Hashlib PyFloat Json JsonFacts PyTime TaskStore.
From S2P Require Import TaskContract CapabilityAuthority ContextManifest TaskContext ExecutionPlan ExecutionObservation.
From S2P Require Import ExecutionScheduler ExecutionBudget.

Local Open Scope Z_scope.

Record LinkedTaskExecutionBudgetState := {
  lk_task_id : string;
  lk_parent_task_id : string;
  lk_max_steps : Z;
  lk_max_tool_calls : Z;
  lk_max_model_retries : Z;
  lk_max_model_escalations : Z;
  lk_max_wall_time_ms : Z;
  lk_deadline_at : string
}.

(** The paths are those of the databases of the two states, resolved. *)
Definition from_states (parent child : TaskExecutionBudgetState) (parent_path child_path : string)
    : result LinkedTaskExecutionBudgetState :=
  raise_if (bool_decide (tb_task_id parent = tb_task_id child)) PyValueError
    "linked execution budget requires distinct parent and child tasks" ;;
  raise_if (negb (bool_decide (parent_path = child_path))) PyValueError
    "linked execution budgets must share one authoritative TaskStore" ;;
  Ok {| lk_task_id := tb_task_id child; lk_parent_task_id := tb_task_id parent; lk_max_steps := tb_max_steps child;
        lk_max_tool_calls := tb_max_tool_calls child; lk_max_model_retries := tb_max_model_retries child;
        lk_max_model_escalations := tb_max_model_escalations child; lk_max_wall_time_ms := tb_max_wall_time_ms child;
        lk_deadline_at := tb_deadline_at child |}.

Definition _delta (value : Z) (field : string) : result Z :=
  raise_if (value <? 0) PyValueError (field +:+ " must be an integer >= 0") ;; Ok value.

Section Client.
Context {TZ : TokyoZone}.

(** The row with the counters of the projection; the first exhausted dimension raises. *)
Definition _project (row : usage_row) (steps tool_calls retries escalations : Z) (now : datetime) : result usage_row :=
  deadline ← match fromisoformat (us_deadline_at row) with
             | Some d => Ok (in_tokyo d)
             | None => raise PyValueError "TASK_EXECUTION_BUDGET_DEADLINE_INVALID"
             end;
  raise_if (instant deadline <=? instant now) PyValueError "TASK_WALL_TIME_BUDGET_EXHAUSTED" ;;
  let projected := charge row steps tool_calls retries escalations (isoformat now) in
  raise_if (us_max_steps row <? us_steps_used projected) PyValueError "TASK_STEP_BUDGET_EXHAUSTED" ;;
  raise_if (us_max_tool_calls row <? us_tool_calls_used projected) PyValueError "TASK_TOOL_CALL_BUDGET_EXHAUSTED" ;;
  raise_if (us_max_retries row <? us_retries_used projected) PyValueError "MODEL_RETRY_BUDGET_EXHAUSTED" ;;
  raise_if (us_max_escalations row <? us_escalations_used projected) PyValueError "MODEL_ESCALATION_BUDGET_EXHAUSTED" ;;
  Ok projected.

(** [reserve_transaction], at the time the reservation was asked for. *)
Definition reserve_both (l : LinkedTaskExecutionBudgetState) (steps tool_calls retries escalations : Z) (now : datetime)
    : ST TaskStore unit :=
  s ← st_get;
  parent ← st_lift (match ts_usage s !! lk_parent_task_id l with
                    | Some row => Ok row
                    | None => raise PyValueError "PARENT_TASK_EXECUTION_BUDGET_NOT_BOUND"
                    end);
  child ← st_lift (task_execution_budget_for_task (lk_task_id l) s);
  parent_next ← st_lift (_project parent steps tool_calls retries escalations now);
  child_next ← st_lift (_project child steps tool_calls retries escalations now);
  if (steps =? 0) && (tool_calls =? 0) && (retries =? 0) && (escalations =? 0) then mret tt
  else st_modify (λ s, set_usage (<[lk_task_id l := child_next]> (<[lk_parent_task_id l := parent_next]> (ts_usage s))) s).

Definition Linked_reserve (l : LinkedTaskExecutionBudgetState) (steps tool_calls retries escalations : Z)
    : ST TaskStore unit :=
  steps ← st_lift (_delta steps "steps");
  tool_calls ← st_lift (_delta tool_calls "tool_calls");
  retries ← st_lift (_delta retries "retries");
  escalations ← st_lift (_delta escalations "escalations");
  s ← st_get;
  st_map_exn exhausted_exn
    (run_budget_write (write (reserve_both l steps tool_calls retries escalations (ts_now s)))).

Definition Linked_assert_active (l : LinkedTaskExecutionBudgetState) : ST TaskStore unit := Linked_reserve l 0 0 0 0.

Definition Linked_snapshot (l : LinkedTaskExecutionBudgetState) (s : TaskStore) : result json :=
  child ← task_execution_budget_for_task (lk_task_id l) s;
  parent ← task_execution_budget_for_task (lk_parent_task_id l) s;
  Ok (JObj [
    ("schema_version", JStr "workspace-linked-task-execution-budget-state/v1"); ("task_id", JStr (lk_task_id l));
    ("aggregate_parent_task_id", JStr (lk_parent_task_id l));
    ("max_steps", JInt (us_max_steps child)); ("max_tool_calls", JInt (us_max_tool_calls child));
    ("max_model_retries", JInt (us_max_retries child)); ("max_model_escalations", JInt (us_max_escalations child));
    ("max_wall_time_ms", JInt (us_max_wall_time_ms child)); ("steps_used", JInt (us_steps_used child));
    ("tool_calls_used", JInt (us_tool_calls_used child)); ("model_retries_used", JInt (us_retries_used child));
    ("model_escalations_used", JInt (us_escalations_used child)); ("deadline_at", JStr (us_deadline_at child));
    ("aggregate_parent", JObj [
       ("max_steps", JInt (us_max_steps parent)); ("max_tool_calls", JInt (us_max_tool_calls parent));
       ("max_model_retries", JInt (us_max_retries parent)); ("max_model_escalations", JInt (us_max_escalations parent));
       ("steps_used", JInt (us_steps_used parent)); ("tool_calls_used", JInt (us_tool_calls_used parent));
       ("model_retries_used", JInt (us_retries_used parent)); ("model_escalations_used", JInt (us_escalations_used parent));
       ("deadline_at", JStr (us_deadline_at parent))])]).

(** ** As the scheduler's guard *)

Record LinkedClient := { lc_state : LinkedTaskExecutionBudgetState; lc_store : TaskStore }.

Definition on_linked {A} (m : LinkedTaskExecutionBudgetState → ST TaskStore A) : ST LinkedClient A := λ b,
  let '(r, s) := m (lc_state b) (lc_store b) in (r, {| lc_state := lc_state b; lc_store := s |}).

#[export] Instance LinkedClient_guard : SchedulerBudgetGuard LinkedClient := {
  assert_active := on_linked Linked_assert_active;
  reserve steps tool_calls retries escalations := on_linked (λ l, Linked_reserve l steps tool_calls retries escalations)
}.
End Client.
