(* ===== verification/CapabilityRevocation.v ===== *)
(** * Capability revocations

    [capability_revocation.py]: the persistent list of capabilities an operator has taken away
    from a task. There is no operation that gives one back. The command line around it is
    not modelled. *)

From Stdlib Require Import Ascii.
From Stdlib Require String.
From S2P Require Import Prelude PyStr Hashlib PyFloat Json JsonFacts PyTime TaskStore ExecutionCheckpoint.
From S2P Require Import TaskContract CapabilityAuthority ContextManifest TaskContext ExecutionPlan ExecutionObservation.
From S2P Require Import ExecutionScheduler.

Local Open Scope Z_scope.

(** [^[A-Za-z0-9][A-Za-z0-9._:/@+\-=]{0,127}$] *)
Definition capability_re (s : string) : bool :=
  match s with
  | EmptyString => false
  | String c t =>
      is_alnum c && (String.length t <=? 127)%nat && forall_char (λ d, is_alnum d || mem_char d "._:/@+-=") t
  end.
(** [^[A-Z][A-Z0-9_]{1,127}$] *)
Definition reason_re (s : string) : bool :=
  match s with
  | EmptyString => false
  | String c t =>
      in_range 65 90 c && (1 <=? String.length t)%nat && (String.length t <=? 127)%nat
      && forall_char (λ d, in_range 65 90 d || is_digit d || bool_decide (d = "_"%char)) t
  end.

Record Revocation := {
  cr_task_id : string;
  cr_capability : string;
  cr_reason_code : string;
  cr_revoked_at : string
}.

(** [CREATE TABLE IF NOT EXISTS] writes only when the table is missing. *)
Definition _ensure_schema : ST TaskStore unit :=
  s ← st_get;
  match ts_revocations s with
  | Some _ => mret tt
  | None => write (st_modify (set_revocations (Some ∅)))
  end.

Definition _capability (value : string) : result string :=
  let text := strip value in
  raise_if (is_empty text || negb (capability_re text)) PyValueError "capability must be a compact identifier" ;;
  Ok text.
Definition _reason (value : string) : result string :=
  let text := upper (strip value) in
  raise_if (negb (reason_re text)) PyValueError "reason_code must be a compact uppercase identifier" ;; Ok text.

Definition revocations (s : TaskStore) : gmap (string * string) revocation_row := default ∅ (ts_revocations s).

(** [logical in {str(item) for item in allowed}], when [allowed] is a list. *)
Definition in_allowed (allowed : json) (logical : string) : bool :=
  match allowed with JList l => mem_str logical (map py_str l) | _ => false end.

(** [INSERT OR IGNORE], and the row that is there afterwards. *)
Definition insert_revocation (task_id logical reason now : string) : ST TaskStore (bool * revocation_row) :=
  s ← st_get;
  match revocations s !! (task_id, logical) with
  | Some row => mret (false, row)
  | None =>
      let row := {| rv_reason_code := reason; rv_revoked_at := now |} in
      st_modify (set_revocations (Some (<[(task_id, logical) := row]> (revocations s)))) ;; mret (true, row)
  end.

Definition revoke (task_id capability reason_code : string) : ST TaskStore Revocation :=
  let id := strip task_id in
  get_task id ;;
  s ← st_get;
  contract ← st_lift (task_contract_for_task id s);
  match contract with
  | None => st_lift (raise PyValueError "TASK_CONTRACT_NOT_BOUND")
  | Some c =>
      logical ← st_lift (_capability capability);
      reason ← st_lift (_reason reason_code);
      st_raise_if (negb (in_allowed (get c "allowed_tools") logical)) PyValueError
        "CAPABILITY_NOT_IN_BOUND_TASK_CONTRACT" ;;
      _ensure_schema ;;
      s1 ← st_get;
      '(created, row) ← write (insert_revocation id logical reason (now_text s1));
      (if created : bool
       then record_activity id "capability_broker" "capability_revoked" "ok"
              ("capability=" +:+ logical +:+ " reason=" +:+ reason)
       else mret tt) ;;
      mret {| cr_task_id := id; cr_capability := logical; cr_reason_code := rv_reason_code row;
              cr_revoked_at := rv_revoked_at row |}
  end.

Definition Revocations_is_revoked (task_id capability : string) : ST TaskStore bool :=
  logical ← st_lift (_capability capability);
  _ensure_schema ;;
  s ← st_get;
  mret (bool_decide (is_Some (revocations s !! (strip task_id, logical)))).

Definition list_for_task (task_id : string) : ST TaskStore (list Revocation) :=
  let id := strip task_id in
  get_task id ;;
  _ensure_schema ;;
  s ← st_get;
  mret (order_by (λ a b, bool_decide (String.le (cr_capability a) (cr_capability b)))
    (omap (λ kv, if bool_decide (kv.1.1 = id)
                 then Some {| cr_task_id := id; cr_capability := kv.1.2; cr_reason_code := rv_reason_code kv.2;
                              cr_revoked_at := rv_revoked_at kv.2 |}
                 else None) (map_to_list (revocations s)))).

(** ** As the scheduler's guard *)

#[export] Instance RevocationStore_guard : SchedulerRevocationGuard TaskStore := {
  is_revoked := Revocations_is_revoked
}.
