(* ===== verification/BudgetFacts.v ===== *)
(** * Contracts, budgets and revocations: what the store guarantees

    Over any history of any clients: a bound contract never changes, counters only grow and
    never pass their limits, a revocation is never taken back; what a reservation does on every
    branch; and, through the scheduler's interfaces, that no run dispatches more nodes than the
    step budget allows, nor a node with a revoked capability. *)

From Stdlib Require Import Ascii.
From Stdlib Require String.
From S2P Require Import Prelude PyStr Hashlib PyFloat Json JsonFacts PyTime Validators TaskContract.
From S2P Require Import CapabilityAuthority AuthorityFacts WorkflowDesign ContextManifest TaskContext.
From S2P Require Import ExecutionPlan PlanFacts ExecutionObservation ObservationFacts RuntimeScheduler ReadinessFacts.
From S2P Require Import ExecutionScheduler SchedulerFacts RestoreFacts TaskStore ExecutionBudget ExecutionCheckpoint.
From S2P Require Import CapabilityRevocation LinkedBudget.

Local Open Scope Z_scope.

(** ** Budgets *)

(** A row of an older version after the columns were added, with their default values. *)
Definition migrated (r : usage_row) : Prop :=
  us_max_steps r = -1 ∧ us_max_tool_calls r = -1 ∧ us_max_wall_time_ms r = -1 ∧ us_deadline_at r = ""
  ∧ us_steps_used r = 0 ∧ us_tool_calls_used r = 0.

(** What a row may hold: counters within their limits, or what the migration leaves. *)
Record budget_ok (r : usage_row) : Prop := {
  bo_retries : 0 <= us_retries_used r <= us_max_retries r;
  bo_escalations : 0 <= us_escalations_used r <= us_max_escalations r;
  bo_steps : if is_legacy r then migrated r else 0 <= us_steps_used r <= us_max_steps r
    ∧ 0 <= us_tool_calls_used r <= us_max_tool_calls r
}.

(** The fixed part of a row, and its counters in a later state. *)
Record row_grows (r r' : usage_row) : Prop := {
  rg_retries : us_max_retries r' = us_max_retries r;
  rg_escalations : us_max_escalations r' = us_max_escalations r;
  rg_bound : us_bound_at r' = us_bound_at r;
  rg_used : us_steps_used r <= us_steps_used r' ∧ us_tool_calls_used r <= us_tool_calls_used r'
    ∧ us_retries_used r <= us_retries_used r' ∧ us_escalations_used r <= us_escalations_used r';
  rg_fixed : is_legacy r = false → is_legacy r' = false ∧ us_max_steps r' = us_max_steps r
    ∧ us_max_tool_calls r' = us_max_tool_calls r ∧ us_max_wall_time_ms r' = us_max_wall_time_ms r
    ∧ us_deadline_at r' = us_deadline_at r
}.

#[export] Instance row_grows_preorder : PreOrder row_grows.
Proof.
  split.
  - intros r. constructor; auto. lia.
  - intros r1 r2 r3 [] []. constructor; try congruence; [lia|]. intros H.
    destruct (rg_fixed0 H) as (H2 & ?). destruct (rg_fixed1 H2) as (H3 & ?). intuition congruence.
Qed.

Definition budgets_ok (s : TaskStore) : Prop := map_Forall (λ _, budget_ok) (ts_usage s).

(** What persists from a state to a later one. *)
Record store_grows (s s' : TaskStore) : Prop := {
  sg_tasks : ts_tasks s ⊆ ts_tasks s';
  sg_contracts : ts_contracts s ⊆ ts_contracts s';
  sg_usage : ∀ id r, ts_usage s !! id = Some r → ∃ r', ts_usage s' !! id = Some r' ∧ row_grows r r';
  sg_revocations : revocations s ⊆ revocations s'
}.

#[export] Instance store_grows_preorder : PreOrder store_grows.
Proof.
  split.
  - intros s. constructor; [done..| |done]. intros id r H. by exists r.
  - intros s1 s2 s3 H1 H2. constructor.
    + etrans; [apply H1|apply H2].
    + etrans; [apply H1|apply H2].
    + intros id r H. destruct (sg_usage _ _ H1 _ _ H) as (r' & H' & Hg). destruct (sg_usage _ _ H2 _ _ H') as (r'' & H'' & Hg').
      exists r''. split; [done|]. by etrans.
    + etrans; [apply H1|apply H2].
Qed.

Definition moves (s s' : TaskStore) : Prop := budgets_ok s → budgets_ok s' ∧ store_grows s s'.

#[export] Instance moves_preorder : PreOrder moves.
Proof.
  split.
  - intros s H. by split.
  - intros s1 s2 s3 H1 H2 H. destruct (H1 H) as [Hb Hg]. destruct (H2 Hb) as [Hb' Hg']. split; [done|]. by etrans.
Qed.

Lemma moves_clock s now contention : moves s (set_clock now contention s).
Proof. intros H. split; [done|]. constructor; try done. intros id r Hr. by exists r. Qed.
Lemma moves_activity s a : moves s (add_activity a s).
Proof. intros H. split; [done|]. constructor; try done. intros id r Hr. by exists r. Qed.
Lemma moves_revocations s r : revocations s ⊆ default ∅ r → moves s (set_revocations r s).
Proof. intros Hs H. split; [done|]. constructor; try done. intros id x Hr. by exists x. Qed.
Lemma moves_contract s id c : ts_contracts s !! id = None → moves s (set_contracts (<[id := c]> (ts_contracts s)) s).
Proof.
  intros Hn H. split; [done|]. constructor; try done; [by apply insert_subseteq|]. intros i x Hr. by exists x.
Qed.
Lemma moves_usage s id r' : budget_ok r' → (∀ r, ts_usage s !! id = Some r → row_grows r r') →
  moves s (set_usage (<[id := r']> (ts_usage s)) s).
Proof.
  intros Hok Hg H. split; [by apply map_Forall_insert_2|]. constructor; try done. intros i r Hr.
  destruct (decide (id = i)) as [<-|Hne].
  - exists r'. split; [apply lookup_insert_eq|auto].
  - exists r. split; [|done]. cbn. by rewrite lookup_insert_ne.
Qed.

(** ** Every operation only moves the store on *)

Definition steady {A} (m : ST TaskStore A) : Prop := ∀ s, moves s (m s).2.

Lemma steady_lift {A} (m : result A) : steady (st_lift m).
Proof. intros s. reflexivity. Qed.
Lemma steady_get : steady st_get.
Proof. intros s. reflexivity. Qed.
Lemma steady_ret {A} (a : A) : steady (mret a).
Proof. intros s. reflexivity. Qed.
Lemma steady_bind {A B} (m : ST TaskStore A) (k : A → ST TaskStore B) :
  steady m → (∀ a, steady (k a)) → steady (x ← m; k x).
Proof.
  intros Hm Hk s. unfold mbind, st_bind. specialize (Hm s). destruct (m s) as [[a|e] s1]; [|done]. cbn in *. etrans; [done|apply Hk].
Qed.
Lemma steady_modify f : (∀ s, moves s (f s)) → steady (st_modify f).
Proof. intros Hf s. apply Hf. Qed.
Lemma steady_write {A} (m : ST TaskStore A) : steady m → steady (write m).
Proof.
  intros Hm s. unfold write. pose proof (moves_clock s (ts_now s) (tail (ts_contention s))) as Hc. fold (next_attempt s) in Hc.
  destruct (default _ _); [done|]. specialize (Hm (next_attempt s)). destruct (m _) as [[a|e] s1]; [|done]. cbn in *. by etrans.
Qed.

Create HintDb steady.
#[export] Hint Resolve steady_lift steady_get steady_ret steady_bind steady_write : steady.

(** Through the binds, options, pairs and conditions of an operation. *)
Ltac steady :=
  repeat first
    [ solve [auto with steady]
    | apply steady_bind; [|intros ?]
    | apply steady_write
    | match goal with
      | |- steady (match ?x with _ => _ end) => destruct x
      | |- steady (let _ := _ in _) => cbv zeta
      end ].

Lemma get_task_steady id : steady (get_task id).
Proof. unfold get_task, st_raise_if. steady. Qed.
Lemma record_activity_steady t a c st d : steady (record_activity t a c st d).
Proof. unfold record_activity. steady. apply steady_modify. intros s. apply moves_activity. Qed.
#[export] Hint Resolve get_task_steady record_activity_steady : steady.

Lemma moves_bind {A B} (m : ST TaskStore A) (k : A → ST TaskStore B) s :
  moves s (m s).2 → (∀ a s1, m s = (Ok a, s1) → moves s1 (k a s1).2) → moves s ((x ← m; k x) s).2.
Proof.
  intros Hm Hk. unfold mbind, st_bind. destruct (m s) as [[a|e] s1] eqn:E; [|done]. cbn in *. etrans; [done|by apply Hk].
Qed.
Lemma moves_write {A} (m : ST TaskStore A) s : moves (next_attempt s) (m (next_attempt s)).2 → moves s (write m s).2.
Proof.
  intros Hm. unfold write. pose proof (moves_clock s (ts_now s) (tail (ts_contention s))) as Hc. fold (next_attempt s) in Hc.
  destruct (default _ _); [done|]. destruct (m _) as [[a|e] s1]; [|done]. cbn in *. by etrans.
Qed.

Section Steady.
Context {HL : Hashlib} {TZ : TokyoZone}.

Lemma bind_contract_steady id c : steady (bind_task_contract id c).
Proof.
  unfold bind_task_contract. apply steady_bind; [apply get_task_steady|]. intros _. destruct c; try apply steady_lift.
  cbv zeta. do 2 (apply steady_bind; [apply steady_lift|intros _]). destruct (TaskStore_canonical_json _) as [text digest].
  intros s. apply moves_bind; [reflexivity|]. intros s' s1 [= <- <-]. destruct (ts_contracts s !! id) as [row|] eqn:E.
  - apply (steady_bind (st_raise_if _ _ _)); [apply steady_lift|]. intros _. apply steady_ret.
  - apply moves_bind.
    + apply moves_write. by apply moves_contract.
    + intros _ s1 _. apply (steady_bind (record_activity _ _ _ _ _)); [apply record_activity_steady|]. intros _. apply steady_ret.
Qed.

(** ** Binding a budget *)

Lemma limits_nonneg id s l : _bound_execution_limits id s = Ok l → 0 <= el_max_steps l ∧ 0 <= el_max_tool_calls l
  ∧ 0 <= el_max_retries l ∧ 0 <= el_max_escalations l ∧ 0 <= el_max_wall_time_ms l.
Proof.
  assert (∀ v f z, _budget_value v f = Ok z → 0 <= z) as Hv.
  { intros v field x. destruct v as [| |z| | | |]; try done. cbn. destruct (z <? 0) eqn:E; [done|]. intros [= <-]. lia. }
  unfold _bound_execution_limits. intros H. apply bind_ok_iff in H as (c & _ & H). destruct c as [c|]; [|done].
  destruct (get c "execution_budget"); try done. do 5 (apply bind_ok_iff in H as (? & ?%Hv & H)). injection H as <-. done.
Qed.

Lemma isoformat_nonempty d : is_empty (isoformat d) = false.
Proof.
  unfold isoformat, iso_local. destruct (ord2ymd _) as [[y m] dd].
  destruct (_ +:+ _) eqn:E; [|done]. apply (f_equal String.length) in E. rewrite !length_app_str in E. cbn in E. lia.
Qed.

Lemma deadline_nonempty b w d : _deadline b w = Ok d → is_empty d = false.
Proof.
  unfold _deadline. destruct (fromisoformat b); [|done]. rewrite !guard_bind_ok. intros (_ & _ & [= <-]). apply isoformat_nonempty.
Qed.

Lemma bound_usage_ok l now row r b : 0 <= el_max_steps l ∧ 0 <= el_max_tool_calls l
  ∧ 0 <= el_max_retries l ∧ 0 <= el_max_escalations l ∧ 0 <= el_max_wall_time_ms l →
  bound_usage l now row = Ok (Some (r, b)) → (∀ x, row = Some x → budget_ok x) →
  budget_ok r ∧ is_legacy r = false ∧ ∀ x, row = Some x → row_grows x r.
Proof.
  intros Hl H Hok. destruct row as [x|]; cbn [bound_usage] in H.
  - apply guard_bind_ok in H as [Hm H]. bool_prop. destruct (is_legacy x) eqn:Hleg; [|by apply guard_bind_ok in H as [_ ?]].
    apply bind_ok_iff in H as (d & Hd%deadline_nonempty & H). do 3 apply bind_ok_iff in H as (? & _ & H).
    injection H as <- <-. destruct (Hok x eq_refl) as [Hr He Hs]. rewrite Hleg in Hs. destruct Hs as (_ & _ & _ & _ & Hs & Ht).
    assert (is_legacy (extend_usage l d now x) = false) as Hl'.
    { unfold is_legacy. cbn. rewrite Hd. rewrite !(proj2 (Z.ltb_ge _ _)) by lia. done. }
    split_and!; [|done|].
    + constructor; rewrite ?Hl'; cbn; lia.
    + intros y [= <-]. constructor; cbn; auto; [lia|]. by rewrite Hleg.
  - apply bind_ok_iff in H as (d & Hd%deadline_nonempty & H). apply bind_ok_iff in H as (? & _ & H). injection H as <- <-.
    assert (is_legacy (new_usage l d now) = false) as Hl'.
    { unfold is_legacy. cbn. rewrite Hd. rewrite !(proj2 (Z.ltb_ge _ _)) by lia. done. }
    split_and!; [|done|done]. constructor; rewrite ?Hl'; cbn; lia.
Qed.

Lemma bind_budget_steady id : steady (bind_task_execution_budget id).
Proof.
  unfold bind_task_execution_budget. apply steady_bind; [apply get_task_steady|]. intros _ s.
  apply moves_bind; [reflexivity|]. intros s' s1 [= <- <-]. apply moves_bind; [reflexivity|]. intros l s1 [Hl ->]%st_lift_eq.
  apply limits_nonneg in Hl. apply moves_bind.
  - apply moves_write. unfold write_usage. apply moves_bind; [reflexivity|]. intros s' s1 [= <- <-].
    apply moves_bind; [reflexivity|]. intros change s1 [Hc ->]%st_lift_eq. destruct change as [[r b]|]; [|apply (steady_ret _ _)].
    apply moves_bind; [|intros; reflexivity]. intros Hb. cbn [st_modify snd].
    destruct (bound_usage_ok _ _ _ _ _ Hl Hc) as (Hok & _ & Hg).
    { intros x Hx. by apply (map_Forall_lookup_1 _ _ _ _ Hb Hx). }
    by apply moves_usage.
  - intros change s1 _. apply (steady_bind (report_binding id l change)).
    { unfold report_binding. destruct change as [[]|]; steady. }
    intros _. steady.
Qed.

(** ** Reserving *)

Definition within (r : usage_row) (steps tool_calls retries escalations : Z) : Prop :=
  us_steps_used r + steps <= us_max_steps r ∧ us_tool_calls_used r + tool_calls <= us_max_tool_calls r
  ∧ us_retries_used r + retries <= us_max_retries r ∧ us_escalations_used r + escalations <= us_max_escalations r.

(** The deadline of a row lies ahead. *)
Definition active (r : usage_row) (now : datetime) : Prop :=
  ∃ d, fromisoformat (us_deadline_at r) = Some d ∧ instant now < instant (in_tokyo d).

Lemma reserve_row_ok r a b c d now r' : reserve_row r a b c d now = Ok r' ↔ active r now ∧ within r a b c d
  ∧ r' = if (a =? 0) && (b =? 0) && (c =? 0) && (d =? 0) then r else charge r a b c d (isoformat now).
Proof.
  unfold reserve_row, _deadline_expired, active, within. destruct (fromisoformat _) as [dl|].
  - cbn [mbind result_bind]. rewrite !guard_bind_ok, !Z.ltb_ge, Z.leb_gt. cbn. split.
    + intros (H0 & H1 & H2 & H3 & H4 & [= <-]). split_and!; try done. by exists dl.
    + intros ((d' & [= <-] & H0) & (H1 & H2 & H3 & H4) & ->). done.
  - split; [done|]. intros ((? & ? & _) & _). done.
Qed.

(** A charge that is within the limits, before the deadline. *)
Lemma charge_moves r a b c d now text : 0 <= a → 0 <= b → 0 <= c → 0 <= d → budget_ok r → active r now →
  within r a b c d → budget_ok (charge r a b c d text) ∧ row_grows r (charge r a b c d text) ∧ is_legacy r = false.
Proof.
  intros Ha Hb Hc Hd [Hr He Hs] (dl & Hdl & _) Hw. unfold within in Hw.
  destruct (is_legacy r) eqn:Hleg; [by destruct Hs as (_ & _ & _ & Hs & _); rewrite Hs in Hdl|].
  assert (is_legacy (charge r a b c d text) = false) as Hl' by done.
  split_and!; [|constructor; cbn; auto; lia|done]. constructor; rewrite ?Hl'; cbn; lia.
Qed.

Lemma reserve_row_moves r a b c d now r' : 0 <= a → 0 <= b → 0 <= c → 0 <= d → budget_ok r →
  reserve_row r a b c d now = Ok r' → budget_ok r' ∧ row_grows r r' ∧ is_legacy r = false.
Proof.
  intros Ha Hb Hc Hd Hr H. apply reserve_row_ok in H as (Hact & Hw & ->).
  destruct (charge_moves r a b c d now (isoformat now) Ha Hb Hc Hd Hr Hact Hw) as (H1 & H2 & H3).
  by destruct ((a =? 0) && (b =? 0) && (c =? 0) && (d =? 0)).
Qed.

Lemma project_ok r a b c d now r' : _project r a b c d now = Ok r' ↔ active r now ∧ within r a b c d
  ∧ r' = charge r a b c d (isoformat now).
Proof.
  unfold _project, active, within. destruct (fromisoformat _) as [dl|].
  - cbn [mbind result_bind]. rewrite !guard_bind_ok, !Z.ltb_ge, Z.leb_gt. cbn. split.
    + intros (H0 & H1 & H2 & H3 & H4 & [= <-]). split_and!; try done. by exists dl.
    + intros ((d' & [= <-] & H0) & (H1 & H2 & H3 & H4) & ->). done.
  - split; [done|]. intros ((? & ? & _) & _). done.
Qed.

Lemma budget_int_ok z field x : _budget_value (JInt z) field = Ok x ↔ x = z ∧ 0 <= z.
Proof. cbn. destruct (z <? 0) eqn:E; split; [done|lia|intros [= <-]; split; [done|lia]|by intros [-> _]]. Qed.

Lemma reserve_usage_moves id a b c d now s : 0 <= a → 0 <= b → 0 <= c → 0 <= d →
  moves s (reserve_usage id a b c d now s).2.
Proof.
  intros Ha Hb Hc Hd. unfold reserve_usage. apply moves_bind; [reflexivity|]. intros s' s1 [= <- <-].
  apply moves_bind; [reflexivity|]. intros r s1 [Hr ->]%st_lift_eq. apply moves_bind; [reflexivity|].
  intros r' s1 [Hr' ->]%st_lift_eq. intros Hok. unfold task_execution_budget_for_task in Hr.
  destruct (ts_usage s !! id) as [x|] eqn:E; [|done]. injection Hr as ->.
  destruct (reserve_row_moves _ _ _ _ _ _ _ Ha Hb Hc Hd (map_Forall_lookup_1 _ _ _ _ Hok E) Hr') as (Hok' & Hg & _).
  apply moves_usage; [done| |done]. rewrite E. by intros ? [= <-].
Qed.

Lemma reserve_steady id a b c d : steady (reserve_task_execution_budget id a b c d).
Proof.
  unfold reserve_task_execution_budget. intros s.
  do 4 (apply moves_bind; [reflexivity|]; intros ? ? [[-> ?]%budget_int_ok ->]%st_lift_eq).
  apply moves_bind; [reflexivity|]. intros s' s1 [= <- <-]. apply moves_bind.
  - apply moves_write. by apply reserve_usage_moves.
  - intros. apply moves_bind; [reflexivity|]. intros. reflexivity.
Qed.

(** ** Revocations *)

Lemma ensure_schema_steady : steady _ensure_schema.
Proof.
  unfold _ensure_schema. intros s. apply moves_bind; [reflexivity|]. intros s' s1 [= <- <-].
  destruct (ts_revocations s) eqn:E; [reflexivity|]. apply moves_write. apply moves_revocations. unfold revocations. cbn.
  by rewrite E.
Qed.

Lemma insert_revocation_steady id cap reason now : steady (insert_revocation id cap reason now).
Proof.
  unfold insert_revocation. intros s. apply moves_bind; [reflexivity|]. intros s' s1 [= <- <-].
  destruct (revocations s !! (id, cap)) eqn:E; [reflexivity|]. apply moves_bind; [|intros; reflexivity].
  apply moves_revocations. cbn. by apply insert_subseteq.
Qed.

Lemma revoke_steady id cap reason : steady (revoke id cap reason).
Proof.
  unfold revoke. cbv zeta. apply steady_bind; [apply get_task_steady|]. intros _. apply steady_bind; [apply steady_get|]. intros s0.
  apply steady_bind; [apply steady_lift|]. intros [c|]; [|apply steady_lift].
  do 3 (apply steady_bind; [apply steady_lift|intros ?]). apply steady_bind; [apply ensure_schema_steady|]. intros _.
  apply steady_bind; [apply steady_get|]. intros s1. apply steady_bind; [apply steady_write, insert_revocation_steady|].
  intros [created row]. apply steady_bind; [destruct created; steady|]. intros _. apply steady_ret.
Qed.

Lemma is_revoked_steady id cap : steady (Revocations_is_revoked id cap).
Proof.
  unfold Revocations_is_revoked. apply steady_bind; [apply steady_lift|]. intros logical.
  apply steady_bind; [apply ensure_schema_steady|]. intros _. steady.
Qed.

(** ** Retried and linked writes *)

Lemma try_write_steady {A} (m : ST TaskStore A) delay n : steady m → ∀ k, steady (try_write m delay k n).
Proof.
  intros Hm. induction n as [|n IH]; intros k s; [apply steady_lift|]. cbn [try_write]. specialize (Hm s).
  destruct (m s) as [[a|e] s1]; [done|]. destruct (_ || _); [done|]. cbn in Hm. etrans; [exact Hm|].
  apply steady_bind; [|intros _; apply IH]. destruct (delay =? 0); [apply steady_ret|].
  apply steady_modify. intros s2. apply moves_clock.
Qed.

Lemma reserve_both_steady l a b c d now : 0 <= a → 0 <= b → 0 <= c → 0 <= d → steady (reserve_both l a b c d now).
Proof.
  intros Ha Hb Hc Hd s. unfold reserve_both. apply moves_bind; [reflexivity|]. intros s' s1 [= <- <-].
  apply moves_bind; [reflexivity|]. intros p s1 [Hp ->]%st_lift_eq. apply moves_bind; [reflexivity|].
  intros ch s1 [Hch ->]%st_lift_eq. apply moves_bind; [reflexivity|]. intros p' s1 [(Hap & Hwp & ->)%project_ok ->]%st_lift_eq.
  apply moves_bind; [reflexivity|]. intros ch' s1 [(Hac & Hwc & ->)%project_ok ->]%st_lift_eq.
  destruct (_ && _); [reflexivity|]. intros Hok. unfold task_execution_budget_for_task in Hch.
  destruct (ts_usage s !! lk_parent_task_id l) as [x|] eqn:Ep; [|done]. injection Hp as ->.
  destruct (ts_usage s !! lk_task_id l) as [y|] eqn:Ec; [|done]. injection Hch as ->.
  destruct (charge_moves _ _ _ _ _ _ (isoformat now) Ha Hb Hc Hd (map_Forall_lookup_1 _ _ _ _ Hok Ep) Hap Hwp) as (Hp1 & Hp2 & _).
  destruct (charge_moves _ _ _ _ _ _ (isoformat now) Ha Hb Hc Hd (map_Forall_lookup_1 _ _ _ _ Hok Ec) Hac Hwc) as (Hc1 & Hc2 & _).
  refine ((_ : moves s _) Hok). cbn [st_modify snd].
  etrans; [apply (moves_usage s (lk_parent_task_id l)); [exact Hp1|]; rewrite Ep; by intros ? [= <-]|].
  apply (moves_usage (set_usage _ s) (lk_task_id l)); [done|]. cbn [set_usage ts_usage]. intros r Hr.
  rewrite lookup_insert in Hr. case_decide as E; [|rewrite Ec in Hr; by injection Hr as <-].
  injection Hr as <-. rewrite E, Ec in Ep. injection Ep as <-. reflexivity.
Qed.

Lemma run_budget_write_steady {A} (m : ST TaskStore A) : steady m → steady (run_budget_write m).
Proof.
  intros Hm. unfold run_budget_write, run_budget_write_with. do 2 (apply steady_bind; [apply steady_lift|intros _]).
  by apply try_write_steady.
Qed.
Lemma steady_map_exn {A} f (m : ST TaskStore A) : steady m → steady (st_map_exn f m).
Proof. intros Hm s. unfold st_map_exn. specialize (Hm s). by destruct (m s) as [[a|e] s1]. Qed.

Lemma delta_ok z field x : _delta z field = Ok x ↔ x = z ∧ 0 <= z.
Proof. unfold _delta. rewrite guard_bind_ok, Z.ltb_ge. naive_solver. Qed.

Lemma linked_steady l a b c d : steady (Linked_reserve l a b c d).
Proof.
  unfold Linked_reserve. intros s.
  do 4 (apply moves_bind; [reflexivity|]; intros ? ? [[-> ?]%delta_ok ->]%st_lift_eq).
  apply moves_bind; [reflexivity|]. intros s' s1 [= <- <-].
  refine (steady_map_exn _ _ (run_budget_write_steady _ (steady_write _ _)) s). by apply reserve_both_steady.
Qed.

(** ** Histories *)

(** One operation of any client, an attempt that was given up included, and the step that a dispatch takes
    with an UPDATE of its own; time passes, other connections take the lock, tasks are created. *)
Inductive store_step (s : TaskStore) : TaskStore → Prop :=
  | ss_contract id c r s' : bind_task_contract id c s = (r, s') → store_step s s'
  | ss_bind id r s' : bind_task_execution_budget id s = (r, s') → store_step s s'
  | ss_reserve id steps tools retries escalations r s' :
      reserve_task_execution_budget id steps tools retries escalations s = (r, s') → store_step s s'
  | ss_linked link steps tools retries escalations r s' :
      Linked_reserve link steps tools retries escalations s = (r, s') → store_step s s'
  | ss_revoke id capability reason r s' : revoke id capability reason s = (r, s') → store_step s s'
  | ss_is_revoked id capability r s' : Revocations_is_revoked id capability s = (r, s') → store_step s s'
  | ss_activity id agent action status details r s' :
      record_activity id agent action status details s = (r, s') → store_step s s'
  | ss_dispatch id row text : ts_usage s !! id = Some row → active row (ts_now s) → within row 1 0 0 0 →
      store_step s (set_usage (<[id := charge row 1 0 0 0 text]> (ts_usage s)) s)
  | ss_task id : store_step s {| ts_tasks := {[id]} ∪ ts_tasks s; ts_contracts := ts_contracts s;
      ts_usage := ts_usage s; ts_revocations := ts_revocations s; ts_activities := ts_activities s; ts_now := ts_now s;
      ts_contention := ts_contention s |}
  | ss_time now contention : store_step s (set_clock now contention s).

Lemma store_step_moves s s' : store_step s s' → moves s s'.
Proof.
  assert (∀ A (m : ST TaskStore A) r s', steady m → m s = (r, s') → moves s s') as Hm.
  { intros A m r s1 Hst E. specialize (Hst s). by rewrite E in Hst. }
  destruct 1.
  - eapply Hm; [apply bind_contract_steady|done].
  - eapply Hm; [apply bind_budget_steady|done].
  - eapply Hm; [apply reserve_steady|done].
  - eapply Hm; [apply linked_steady|done].
  - eapply Hm; [apply revoke_steady|done].
  - eapply Hm; [apply is_revoked_steady|done].
  - eapply Hm; [apply record_activity_steady|done].
  - intros Hok. destruct (charge_moves row 1 0 0 0 (ts_now s) text) as (Hr & Hg & _);
      [lia..|by apply (map_Forall_lookup_1 _ _ _ _ Hok H)|done|done|].
    apply (moves_usage s id (charge row 1 0 0 0 text)); [done| |done]. rewrite H. by intros ? [= <-].
  - intros Hok. split; [done|]. constructor; cbn; try done; [set_solver|]. intros i r Hr. by exists r.
  - apply moves_clock.
Qed.

Lemma history_moves s s' : rtc store_step s s' → moves s s'.
Proof. induction 1 as [|s s1 s2 H _ IH]; [reflexivity|]. apply store_step_moves in H. by etrans. Qed.
(** ** One reservation *)

(** The dimension that refuses, the first in the order of the checks. *)
Definition refusal (r : usage_row) (deadline : datetime) (steps tools retries escalations : Z) (now : datetime)
    : option string :=
  if instant (in_tokyo deadline) <=? instant now then Some "TASK_WALL_TIME_BUDGET_EXHAUSTED"
  else if us_max_steps r <? us_steps_used r + steps then Some "TASK_STEP_BUDGET_EXHAUSTED"
  else if us_max_tool_calls r <? us_tool_calls_used r + tools then Some "TASK_TOOL_CALL_BUDGET_EXHAUSTED"
  else if us_max_retries r <? us_retries_used r + retries then Some "MODEL_RETRY_BUDGET_EXHAUSTED"
  else if us_max_escalations r <? us_escalations_used r + escalations then Some "MODEL_ESCALATION_BUDGET_EXHAUSTED"
  else None.

(** The row after a reservation that was granted; asking for nothing writes nothing. *)
Definition reserved (r : usage_row) (steps tools retries escalations : Z) (now : datetime) : usage_row :=
  if (steps =? 0) && (tools =? 0) && (retries =? 0) && (escalations =? 0) then r
  else charge r steps tools retries escalations (isoformat now).

Lemma reserve_row_refusal r dl a b c d now : fromisoformat (us_deadline_at r) = Some dl →
  reserve_row r a b c d now = match refusal r dl a b c d now with
    | Some code => raise PyValueError code
    | None => Ok (reserved r a b c d now)
    end.
Proof.
  intros Hdl. unfold reserve_row, _deadline_expired, refusal. rewrite Hdl. cbn [mbind result_bind]. cbv zeta.
  cbn [charge us_steps_used us_tool_calls_used us_retries_used us_escalations_used].
  destruct (instant (in_tokyo dl) <=? instant now); [done|]. cbn [raise_if mbind result_bind].
  destruct (us_max_steps r <? _); [done|]. destruct (us_max_tool_calls r <? _); [done|].
  destruct (us_max_retries r <? _); [done|]. by destruct (us_max_escalations r <? _).
Qed.

(** One attempt, and whether it finds the lock taken. *)
Definition lock_refused (s : TaskStore) : bool := default false (head (ts_contention s)).
Definition attempt (id : string) (r : usage_row) (a b c d : Z) (s : TaskStore) : result usage_row * TaskStore :=
  match reserve_row r a b c d (ts_now s) with
  | Raise e => (Raise e, next_attempt s)
  | Ok r' => (Ok r', set_usage (<[id := r']> (ts_usage s)) (next_attempt s))
  end.

Lemma reserve_attempt id a b c d s r : ts_usage s !! id = Some r → 0 <= a → 0 <= b → 0 <= c → 0 <= d →
  reserve_task_execution_budget id a b c d s =
    if lock_refused s then (raise SqliteOperationalError "database is locked", next_attempt s) else attempt id r a b c d s.
Proof.
  intros Hr Ha Hb Hc Hd. unfold reserve_task_execution_budget, lock_refused, attempt.
  rewrite !(proj2 (budget_int_ok _ _ _)) by done.
  assert (reserve_usage id a b c d (ts_now s) (next_attempt s) = match reserve_row r a b c d (ts_now s) with
    | Raise e => (Raise e, next_attempt s)
    | Ok r' => (Ok tt, set_usage (<[id := r']> (ts_usage s)) (next_attempt s)) end) as Hrun.
  { unfold reserve_usage, task_execution_budget_for_task, mbind, st_bind, st_lift, st_get, st_modify.
    change (ts_usage (next_attempt s)) with (ts_usage s). rewrite Hr. by destruct (reserve_row _ _ _ _ _ _). }
  unfold mbind, st_bind, st_lift, st_get, write. rewrite Hrun. destruct (default false _); [done|].
  destruct (reserve_row _ _ _ _ _ _) as [r'|e]; [|done]. unfold task_execution_budget_for_task.
  cbn [set_usage ts_usage]. by rewrite lookup_insert_eq.
Qed.

Lemma reserve_row_value_error r a b c d now e : reserve_row r a b c d now = Raise e → exn_cls e = PyValueError.
Proof.
  revert e. change (raises_in (λ c, c = PyValueError) (reserve_row r a b c d now)).
  unfold reserve_row, _deadline_expired. raises.
Qed.

(** The state in which an attempt finds the database free: the first one, or the second, 50 ms later. *)
Definition second_attempt (s : TaskStore) : TaskStore :=
  set_clock {| dt_local := dt_local (ts_now s) + SQLITE_BUDGET_LOCK_RETRY_DELAY; dt_offset := dt_offset (ts_now s) |}
    (tail (ts_contention s)) s.
Definition free_attempt (s : TaskStore) : option TaskStore :=
  match ts_contention s with
  | true :: true :: _ => None
  | true :: _ => Some (second_attempt s)
  | _ => Some s
  end.

Lemma try_final {A} (m : ST TaskStore A) delay attempt n s :
  match (m s).1 with Raise e => is_lock_error e = false | Ok _ => True end ∨ n = O →
  try_write m delay attempt (S n) s = m s.
Proof.
  intros H. cbn [try_write]. destruct (m s) as [[a|e] s1]; [done|]. cbn in H.
  destruct H as [->| ->]; [done|]. by destruct (negb _).
Qed.
Lemma try_again {A} (m : ST TaskStore A) attempt n s s1 e : m s = (Raise e, s1) → is_lock_error e = true →
  try_write m SQLITE_BUDGET_LOCK_RETRY_DELAY attempt (S (S n)) s
  = try_write m SQLITE_BUDGET_LOCK_RETRY_DELAY (attempt + 1) (S n)
      (sleep (SQLITE_BUDGET_LOCK_RETRY_DELAY * (attempt + 1)) s1).2.
Proof. intros Hm He. cbn [try_write]. rewrite Hm, He. done. Qed.

(** Two attempts at one operation that either finds the lock taken or runs. *)
Lemma run_write_twice {A} (m : ST TaskStore A) (f : TaskStore → result A * TaskStore) s :
  (∀ s', ts_usage s' = ts_usage s → m s' = if lock_refused s'
    then (raise SqliteOperationalError "database is locked", next_attempt s') else f s') →
  (∀ s', ts_usage s' = ts_usage s → match (f s').1 with Raise e => is_lock_error e = false | Ok _ => True end) →
  run_budget_write m s = match free_attempt s with
    | Some s' => f s'
    | None => (raise SqliteOperationalError "database is locked", next_attempt (second_attempt s))
    end.
Proof.
  intros Hm Hf. change (run_budget_write m s) with (try_write m SQLITE_BUDGET_LOCK_RETRY_DELAY 0 2 s).
  pose proof (Hm s eq_refl) as Hs. unfold lock_refused in Hs, Hm. unfold free_attempt.
  assert (m s = f s → try_write m SQLITE_BUDGET_LOCK_RETRY_DELAY 0 2 s = f s) as Hfirst.
  { intros E. rewrite <- E. apply try_final. left. rewrite E. by apply Hf. }
  destruct (ts_contention s) as [|[] c] eqn:Ec; [by apply Hfirst| |by apply Hfirst].
  cbn [default head] in Hs. rewrite (try_again _ _ _ _ _ _ Hs) by done.
  change (sleep (SQLITE_BUDGET_LOCK_RETRY_DELAY * (0 + 1)) (next_attempt s)).2 with (second_attempt s).
  pose proof (Hm (second_attempt s) eq_refl) as H2. unfold second_attempt at 2 in H2. cbn [set_clock ts_contention] in H2.
  rewrite Ec in H2. cbn [tail] in H2. rewrite try_final by (by right). rewrite H2. by destruct c as [|[] c].
Qed.
Lemma refusal_code r dl a b c d now code : refusal r dl a b c d now = Some code →
  mem_str code _BUDGET_EXHAUSTION_CODES = true.
Proof. unfold refusal. repeat case_match; intros [= <-]; reflexivity. Qed.

Lemma reserve_run b st tools re es s r : ts_usage s !! tb_task_id b = Some r →
  0 <= st → 0 <= tools → 0 <= re → 0 <= es →
  BudgetState_reserve b st tools re es s = match free_attempt s with
    | None => (raise SqliteOperationalError "database is locked", next_attempt (second_attempt s))
    | Some s' =>
        match reserve_row r st tools re es (ts_now s') with
        | Raise e => (Raise (exhausted_exn e), next_attempt s')
        | Ok r' => (Ok tt, set_usage (<[tb_task_id b := r']> (ts_usage s)) (next_attempt s'))
        end
    end.
Proof.
  intros Hr H1 H2 H3 H4. unfold BudgetState_reserve.
  pose proof (run_write_twice (reserve_task_execution_budget (tb_task_id b) st tools re es)
    (attempt (tb_task_id b) r st tools re es) s) as Hrun.
  unfold mbind, st_bind, st_map_exn. rewrite Hrun; clear Hrun.
  - destruct (free_attempt s) as [s'|] eqn:Ef; [|done]. unfold attempt.
    assert (ts_usage s' = ts_usage s) as ->.
    { unfold free_attempt in Ef. destruct (ts_contention s) as [|[] [|[] c]]; naive_solver. }
    by destruct (reserve_row _ _ _ _ _ _).
  - intros s' Hs. rewrite (reserve_attempt _ _ _ _ _ _ r) by (try done; by rewrite Hs). done.
  - intros s' _. unfold attempt. destruct (reserve_row _ _ _ _ _ _) as [r'|e] eqn:E; [done|].
    apply reserve_row_value_error in E. cbn. unfold is_lock_error. by rewrite E.
Qed.

Lemma budget_reserve_steady b st tools re es : steady (BudgetState_reserve b st tools re es).
Proof.
  unfold BudgetState_reserve. apply steady_bind; [|intros _; apply steady_ret].
  apply steady_map_exn, run_budget_write_steady, reserve_steady.
Qed.

(** C33: what one reservation does. For a bound row with a readable deadline and amounts that are not
    negative: when both attempts find the database locked it raises the lock error; otherwise, at the
    attempt that finds it free, it raises the code of the first dimension that is exhausted - the
    deadline, then steps, tool calls, retries and escalations - or charges all four counters at once.
    No exception leaves a counter changed, and asking for nothing changes nothing. *)
Theorem reserve_outcome b steps tools retries escalations s r dl
    (Hr : ts_usage s !! tb_task_id b = Some r) (Hdl : fromisoformat (us_deadline_at r) = Some dl)
    (Ha : 0 <= steps) (Hb : 0 <= tools) (Hc : 0 <= retries) (Hd : 0 <= escalations) :
  let '(res, s') := BudgetState_reserve b steps tools retries escalations s in
  match free_attempt s with
  | None => res = raise SqliteOperationalError "database is locked" ∧ ts_usage s' = ts_usage s
  | Some s1 =>
      match refusal r dl steps tools retries escalations (ts_now s1) with
      | Some code => res = raise ExecutionBudgetExceeded code ∧ ts_usage s' = ts_usage s
      | None => res = Ok tt ∧ ts_usage s' = <[tb_task_id b := reserved r steps tools retries escalations (ts_now s1)]> (ts_usage s)
      end
  end.
Proof.
  rewrite (reserve_run b _ _ _ _ s r) by done. destruct (free_attempt s) as [s1|] eqn:Ef; [|done].
  assert (ts_usage s1 = ts_usage s) as Hu.
  { unfold free_attempt in Ef. destruct (ts_contention s) as [|[] [|[] c]]; naive_solver. }
  rewrite (reserve_row_refusal _ dl) by done. destruct (refusal _ _ _ _ _ _ _) as [code|] eqn:E; [|done].
  apply refusal_code in E. unfold exhausted_exn. cbn [raise exn_cls exn_msg is_value_error andb]. by rewrite E.
Qed.

(** C34: what no history undoes. Over any sequence of operations by any clients - bindings, reservations,
    revocations, refused or given up, with any clock and any contention - a bound contract stays
    byte for byte, a budget row stays bound under the limits and the deadline it has, its counters never
    decrease and never pass their limits, and no revocation is taken back. *)
Theorem store_history s s' (H : rtc store_step s s') (Hok : budgets_ok s) : budgets_ok s' ∧ store_grows s s'.
Proof. by apply history_moves. Qed.
(** ** The budget a contract gives *)

Lemma write_ok {A} (m : ST TaskStore A) s a s' : write m s = (Ok a, s') → m (next_attempt s) = (Ok a, s').
Proof. unfold write. destruct (default _ _); [done|]. by destruct (m _) as [[]]. Qed.

Lemma activity_usage t a c st d s r s' : record_activity t a c st d s = (r, s') → ts_usage s' = ts_usage s.
Proof. unfold record_activity, write, st_modify. destruct (default _ _); by intros [= _ <-]. Qed.

(** A binding that returns: the row holds the contract's limits. *)
Lemma bind_budget_row id s row s' : budgets_ok s → bind_task_execution_budget id s = (Ok row, s') →
  ∃ l, _bound_execution_limits id s = Ok l ∧ ts_usage s' !! id = Some row ∧ is_legacy row = false
    ∧ us_max_steps row = el_max_steps l.
Proof.
  intros Hok H. unfold bind_task_execution_budget in H. apply st_bind_ok in H as ([] & s1 & Ht & H).
  assert (s1 = s) as ->.
  { unfold get_task in Ht. apply st_bind_ok in Ht as (? & ? & [= <- <-] & Ht). by injection Ht. }
  apply st_bind_ok in H as (? & ? & [= <- <-] & H). apply st_bind_ok in H as (l & ? & [Hl ->]%st_lift_eq & H).
  apply st_bind_ok in H as (change & s1 & Hw%write_ok & H). apply st_bind_ok in H as ([] & s2 & Hrep & H).
  apply st_bind_ok in H as (? & ? & [= <- <-] & [Hrow <-]%st_lift_eq).
  assert (ts_usage s' = ts_usage s1) as Hu2.
  { unfold report_binding in Hrep. destruct change as [[]|]; [by apply activity_usage in Hrep|by injection Hrep as <-]. }
  unfold task_execution_budget_for_task in Hrow. rewrite Hu2 in *. exists l. split; [done|].
  destruct (ts_usage s1 !! id) as [x|] eqn:Ex; [|done]. injection Hrow as ->. split; [done|].
  unfold write_usage in Hw. apply st_bind_ok in Hw as (? & ? & [= <- <-] & Hw).
  apply st_bind_ok in Hw as (change' & ? & [Hc ->]%st_lift_eq & Hw). apply st_bind_ok in Hw as ([] & s3 & Hm & Hw).
  injection Hw as -> ->. change (ts_usage (next_attempt s)) with (ts_usage s) in Hc.
  destruct change as [[r b]|].
  - injection Hm as <-. cbn in Ex. rewrite lookup_insert_eq in Ex. injection Ex as ->.
    destruct (bound_usage_ok _ _ _ _ _ (limits_nonneg _ _ _ Hl) Hc) as (_ & Hleg & _).
    { intros y Hy. by apply (map_Forall_lookup_1 _ _ _ _ Hok Hy). }
    split; [done|]. clear - Hc. destruct (ts_usage s !! id) as [y|]; cbn [bound_usage] in Hc.
    + apply guard_bind_ok in Hc as [_ Hc]. destruct (is_legacy y); [|by apply guard_bind_ok in Hc as [_ ?]].
      do 4 apply bind_ok_iff in Hc as (? & _ & Hc). by injection Hc as <- <-.
    + do 2 apply bind_ok_iff in Hc as (? & _ & Hc). by injection Hc as <- <-.
  - injection Hm as <-. cbn in Ex. rewrite Ex in Hc. cbn [bound_usage] in Hc. apply guard_bind_ok in Hc as [_ Hc].
    destruct (is_legacy row) eqn:Hleg; [by do 4 apply bind_ok_iff in Hc as (? & _ & Hc)|].
    apply guard_bind_ok in Hc as [Hc _]. bool_prop. apply Z.eqb_eq in H. by split.
Qed.

Lemma keeps_write {A V} (view : TaskStore → V) (m : ST TaskStore A) : (∀ s, view (next_attempt s) = view s) →
  keeps view m → keeps view (write m).
Proof.
  intros Hn Hm s. unfold write. destruct (default _ _); [apply Hn|]. specialize (Hm (next_attempt s)).
  destruct (m _) as [[a|e] s1]; cbn in *; [congruence|apply Hn].
Qed.

Lemma bind_keeps_contracts id : keeps ts_contracts (bind_task_execution_budget id).
Proof.
  unfold bind_task_execution_budget. apply keeps_bind; [by apply keeps_bind|]. intros _. apply keeps_bind; [done|]. intros s.
  apply keeps_bind; [done|]. intros l. apply keeps_bind.
  - apply keeps_write; [done|]. unfold write_usage. apply keeps_bind; [done|]. intros s1. apply keeps_bind; [done|].
    intros [[]|]; apply keeps_bind; done.
  - intros change. apply keeps_bind; [|by intros _; apply keeps_bind].
    unfold report_binding. destruct change as [[]|]; [|done]. by apply keeps_write.
Qed.

Lemma try_write_ok {A} (m : ST TaskStore A) delay n : keeps ts_contracts m → steady m → ∀ k s x s', budgets_ok s →
  try_write m delay k n s = (Ok x, s') → ∃ s0, ts_contracts s0 = ts_contracts s ∧ budgets_ok s0 ∧ m s0 = (Ok x, s').
Proof.
  intros Hc Hm. induction n as [|n IH]; intros k s x s' Hok H; [done|]. cbn [try_write] in H.
  specialize (Hc s) as Hcs. specialize (Hm s) as Hms. destruct (m s) as [[a|e] s1] eqn:E.
  { injection H as -> ->. by exists s. }
  destruct (_ || _); [done|]. cbn in Hcs, Hms. destruct (Hms Hok) as [Hok1 _].
  apply st_bind_ok in H as ([] & s2 & Hsleep & H).
  assert (ts_contracts s2 = ts_contracts s1 ∧ budgets_ok s2) as [Hc2 Hok2].
  { destruct (delay =? 0); injection Hsleep as <-; done. }
  apply IH in H as (s0 & H1 & H2 & H3); [|done]. exists s0. split_and!; [congruence|done..].
Qed.

Lemma from_contract_row id s b s' : budgets_ok s → from_bound_contract id s = (Ok b, s') →
  budgets_ok s' ∧ ∃ l row, _bound_execution_limits id s = Ok l ∧ tb_task_id b = id ∧ ts_usage s' !! id = Some row
    ∧ is_legacy row = false ∧ us_max_steps row = el_max_steps l.
Proof.
  intros Hok H. unfold from_bound_contract in H. apply st_bind_ok in H as (row & s1 & Hrun & H). injection H as <- <-.
  change (run_budget_write (bind_task_execution_budget id) s)
    with (try_write (bind_task_execution_budget id) SQLITE_BUDGET_LOCK_RETRY_DELAY 0 2 s) in Hrun.
  apply (try_write_ok _ _ _ (bind_keeps_contracts id) (bind_budget_steady id) _ _ _ _ Hok) in Hrun as (s0 & Hc & Hok0 & Hb).
  pose proof (bind_budget_steady id s0 Hok0) as Hm. rewrite Hb in Hm. split; [apply Hm|].
  apply bind_budget_row in Hb as (l & Hl & Hrow & Hleg & Hmax); [|done]. exists l, row. split_and!; try done.
  revert Hl. unfold _bound_execution_limits, task_contract_for_task. by rewrite Hc.
Qed.
End Steady.

(** The sample contract bound in a store, its budget bound while another process is in the way, and charged. *)
Section Examples.
#[local] Existing Instance checksum_hashlib.
#[local] Instance nine_hours : TokyoZone := λ _, 9 * 3600 * second.

Definition sample_id : string := Eval vm_compute in xp_task_id sample_plan.
Definition empty_store : TaskStore := {|
  ts_tasks := {[sample_id]}; ts_contracts := ∅; ts_usage := ∅; ts_revocations := None; ts_activities := [];
  ts_now := {| dt_local := 739252 * day; dt_offset := Some (9 * 3600 * second) |}; ts_contention := [] |}.
Definition bound_store : TaskStore.
Proof.
  let s := eval vm_compute in (bind_task_contract sample_id (TaskContract_to_dict sample_contract) empty_store).2 in exact s.
Defined.

Lemma bound_store_ok : budgets_ok bound_store.
Proof. change (map_Forall (λ _, budget_ok) (∅ : gmap string usage_row)). apply map_Forall_empty. Qed.

(** The first attempt to write finds another process in the way. *)
Definition contended_store : TaskStore := set_clock (ts_now bound_store) [true] bound_store.
Definition sample_client : BudgetClient.
Proof.
  let r := eval vm_compute in (from_bound_contract sample_id contended_store) in
  match r with (Ok ?b, ?s) => exact {| bc_state := b; bc_store := s |} end.
Defined.
Lemma sample_binding : from_bound_contract sample_id contended_store = (Ok (bc_state sample_client), bc_store sample_client).
Proof. vm_compute. reflexivity. Qed.

Example sample_deadline : tb_deadline_at (bc_state sample_client) = "2025-01-02T00:02:00.050000+09:00".
Proof. vm_compute. reflexivity. Qed.

Lemma store_history_witness : rtc store_step empty_store bound_store ∧ budgets_ok bound_store.
Proof.
  assert (rtc store_step empty_store bound_store) as H.
  { apply rtc_once. apply (ss_contract _ sample_id (TaskContract_to_dict sample_contract)
      (bind_task_contract sample_id (TaskContract_to_dict sample_contract) empty_store).1). vm_compute. reflexivity. }
  split; [exact H|]. exact (proj1 (store_history empty_store bound_store H bound_store_ok)).
Defined.

Definition sample_row : usage_row.
Proof.
  let r := eval vm_compute in (ts_usage (bc_store sample_client) !! sample_id) in match r with Some ?x => exact x end.
Defined.

(** All the steps but none more. *)
Lemma reserve_outcome_witness :
  ∃ s', BudgetState_reserve (bc_state sample_client) (us_max_steps sample_row + 1) 0 0 0 (bc_store sample_client)
    = (raise ExecutionBudgetExceeded "TASK_STEP_BUDGET_EXHAUSTED", s') ∧ ts_usage s' = ts_usage (bc_store sample_client).
Proof.
  assert (∃ d, fromisoformat (us_deadline_at sample_row) = Some d) as [d Hd] by (eexists; vm_compute; reflexivity).
  pose proof (reserve_outcome (bc_state sample_client) (us_max_steps sample_row + 1) 0 0 0 (bc_store sample_client)
    sample_row d) as H.
  specialize (H eq_refl Hd).
  assert (∃ s1, free_attempt (bc_store sample_client) = Some s1
    ∧ refusal sample_row d (us_max_steps sample_row + 1) 0 0 0 (ts_now s1) = Some "TASK_STEP_BUDGET_EXHAUSTED") as (s1 & H1 & H2).
  { eexists. split; [reflexivity|]. vm_compute in Hd. injection Hd as <-. vm_compute. reflexivity. }
  destruct (BudgetState_reserve _ _ _ _ _ _) as [res s']. rewrite H1, H2 in H.
  destruct H as [-> Hu]; [vm_compute; discriminate|lia|lia|lia|]. exists s'. split; [reflexivity|exact Hu].
Defined.
End Examples.
