(* ===== verification/GovernedRuns.v ===== *)
(** * Governed runs

    What the scheduler's collaborators promise it, as interfaces, and what a run owes to them:
    no more dispatches than the step budget leaves, and none with a revoked capability. The
    task store's budget client and revocation list keep the promises. *)

From Stdlib Require Import Ascii.
From Stdlib Require String.
From S2P Require Import Prelude PyStr Hashlib PyFloat Json JsonFacts PyTime Validators TaskContract.
From S2P Require Import CapabilityAuthority AuthorityFacts WorkflowDesign ContextManifest TaskContext.
From S2P Require Import ExecutionPlan PlanFacts ExecutionObservation ObservationFacts RuntimeScheduler ReadinessFacts.
From S2P Require Import ExecutionScheduler SchedulerFacts RestoreFacts ExecutionCheckpoint TaskStore ExecutionBudget.
From S2P Require Import CapabilityRevocation BudgetFacts.

Local Open Scope Z_scope.

(** ** What the collaborators promise *)

(** A budget guard counts the steps it grants, up to a limit; others may use the same budget. *)
Class BudgetMeter (B : Type) `{!SchedulerBudgetGuard B} := {
  meter_ok : B → Prop;
  steps_used : B → Z;
  steps_limit : B → Z;
  budget_env : B → B → Prop;
  meter_bound b : meter_ok b → steps_used b <= steps_limit b;
  meter_active b r b' : meter_ok b → assert_active b = (r, b') →
    meter_ok b' ∧ steps_limit b' = steps_limit b ∧ steps_used b' = steps_used b;
  meter_reserve b r b' : meter_ok b → reserve 1 0 0 0 b = (r, b') →
    meter_ok b' ∧ steps_limit b' = steps_limit b
    ∧ steps_used b' = steps_used b + match r with Ok _ => 1 | Raise _ => 0 end;
  meter_env b b' : meter_ok b → budget_env b b' →
    meter_ok b' ∧ steps_limit b' = steps_limit b ∧ steps_used b <= steps_used b'
}.

(** A revocation guard reports what is revoked, and what is revoked stays so. *)
Class RevocationRegister (R : Type) `{!SchedulerRevocationGuard R} := {
  revoked : R → string → string → Prop;
  revocation_env : R → R → Prop;
  revoked_reported r task cap r' : is_revoked task cap r = (Ok false, r') → ¬ revoked r task cap;
  revoked_stays r task cap x r' task' cap' : is_revoked task cap r = (x, r') → revoked r task' cap' → revoked r' task' cap';
  revoked_env r r' task cap : revocation_env r r' → revoked r task cap → revoked r' task cap
}.

(** ** Runs *)

Section Runs.
Context {HL : Hashlib} {B R C : Type} `{!SchedulerBudgetGuard B} `{!SchedulerRevocationGuard R}
  `{!SchedulerCheckpointRepository C} `{!RevocationRegister R} (cfg : SchedulerConfig).

Notation state := (ExecutionScheduler B R C).
Notation plan := (ec_plan cfg).

(** Operations in any order, with any outcome; between them the collaborators' environments act, the
    one of the budget guard by [budget_step]. *)
Inductive governed (budget_step : B → B → Prop) (s : state) : list DispatchTicket → state → Prop :=
  | gov_refl : governed budget_step s [] s
  | gov_issue id a t s1 ts s2 : issue_dispatch cfg id a s = (Ok t, s1) → governed budget_step s1 ts s2 →
      governed budget_step s (t :: ts) s2
  | gov_refuse id a e s1 ts s2 : issue_dispatch cfg id a s = (Raise e, s1) → governed budget_step s1 ts s2 → governed budget_step s ts s2
  | gov_accept o r s1 ts s2 : accept_observation cfg o s = (r, s1) → governed budget_step s1 ts s2 → governed budget_step s ts s2
  | gov_cancel reason r s1 ts s2 : cancel cfg reason s = (r, s1) → governed budget_step s1 ts s2 → governed budget_step s ts s2
  | gov_environment b r c ts s2 : budget_step (es_budget_guard s) b → revocation_env (es_revocation_guard s) r →
      governed budget_step (set_guards b r c s) ts s2 → governed budget_step s ts s2.

(** ** What each part of a dispatch does to the guards *)

Lemma on_budget_run {A} (m : ST B A) (s : state) r s' : on_budget m s = (r, s') →
  ∃ b, m (es_budget_guard s) = (r, b) ∧ es_budget_guard s' = b ∧ es_revocation_guard s' = es_revocation_guard s.
Proof. unfold on_budget, st_zoom. destruct (m _) as [x b]. intros [= <- <-]. by exists b. Qed.
Lemma on_revocation_run {A} (m : ST R A) (s : state) r s' : on_revocation m s = (r, s') →
  ∃ g, m (es_revocation_guard s) = (r, g) ∧ es_revocation_guard s' = g ∧ es_budget_guard s' = es_budget_guard s.
Proof. unfold on_revocation, st_zoom. destruct (m _) as [x g]. intros [= <- <-]. by exists g. Qed.

Lemma map_exn_run {S A} f (m : ST S A) s r s' : st_map_exn f m s = (r, s') →
  ∃ r0, m s = (r0, s') ∧ match r with Ok a => r0 = Ok a | Raise e => ∃ e0, r0 = Raise e0 end.
Proof. unfold st_map_exn. destruct (m s) as [[a|e] s1]; intros [= <- <-]; eauto. Qed.

Notation guards s := (es_budget_guard s, es_revocation_guard s).

Lemma checkpoint_guards {A} (m : ST C A) msg : keeps (λ s : state, guards s) (on_checkpoint m msg).
Proof. intros s. unfold on_checkpoint. destruct (es_checkpoint_repository s) as [c|]; [|done]. by destruct (m c). Qed.

Definition check_capability (n : ExecutionNode) (capability : string) : ST state unit :=
  revoked ← st_map_exn (revocation_exn ("SCHEDULER_REVOCATION_CHECK_FAILED:" +:+ en_node_id n +:+ ":" +:+ capability))
              (on_revocation (is_revoked (xp_task_id plan) capability));
  st_lift (es_fail_if revoked ("SCHEDULER_CAPABILITY_REVOKED:" +:+ en_node_id n +:+ ":" +:+ capability)).

Lemma check_capability_run n cap (s : state) r s' : check_capability n cap s = (r, s') →
  es_budget_guard s' = es_budget_guard s
  ∧ (∀ t c, revoked (es_revocation_guard s) t c → revoked (es_revocation_guard s') t c)
  ∧ (r = Ok tt → ¬ revoked (es_revocation_guard s) (xp_task_id plan) cap).
Proof.
  intros H. unfold check_capability in H. apply st_bind_cases in H as [(e & Hm & ->)|(x & s1 & Hm & [Hx ->]%st_lift_eq)];
    apply map_exn_run in Hm as (r0 & Hm & Hr); apply on_revocation_run in Hm as (g & Hg & Hrev & Hbud);
    rewrite Hrev, Hbud; split_and!; try done; try (intros; eapply revoked_stays; eassumption).
  intros ->. apply raise_if_ok in Hx. subst. by eapply revoked_reported.
Qed.

Lemma check_capabilities_run n caps (s : state) r s' : st_iterM (check_capability n) caps s = (r, s') →
  es_budget_guard s' = es_budget_guard s
  ∧ (∀ t c, revoked (es_revocation_guard s) t c → revoked (es_revocation_guard s') t c)
  ∧ (r = Ok tt → ∀ c, c ∈ caps → ¬ revoked (es_revocation_guard s) (xp_task_id plan) c).
Proof.
  revert s. induction caps as [|cap caps IH]; intros s H.
  { injection H as <- <-. split_and!; [done..|]. intros _ c []%not_elem_of_nil. }
  cbn [st_iterM] in H. apply st_bind_cases in H as [(e & Hm & ->)|([] & s1 & Hm & H)];
    apply check_capability_run in Hm as (H1 & H2 & H3); [done|].
  apply IH in H as (H4 & H5 & H6). split_and!; [congruence|auto|].
  intros Hr c [->|Hc]%elem_of_cons; [auto|]. intros Hrv. eapply H6; eauto.
Qed.

Lemma revalidate_revocations n (s : state) r s' : _revalidate_runtime cfg n s = (r, s') →
  (∀ t c, revoked (es_revocation_guard s) t c → revoked (es_revocation_guard s') t c)
  ∧ (r = Ok tt → ∀ c, c ∈ en_allowed_tools n → ¬ revoked (es_revocation_guard s) (xp_task_id plan) c).
Proof.
  intros H. unfold _revalidate_runtime in H.
  apply st_bind_cases in H as [(e & [_ ->]%st_lift_eq & ->)|(rebound & s1 & [_ ->]%st_lift_eq & H)]; [done|].
  apply st_bind_cases in H as [(e & [_ ->]%st_lift_eq & ->)|([] & s1 & [_ ->]%st_lift_eq & H)]; [done|].
  apply st_bind_cases in H as [(e & Hm & ->)|([] & s1 & Hm & H)];
    apply map_exn_run in Hm as (r0 & Hm & Hr); apply on_budget_run in Hm as (b & _ & _ & Hrev).
  - by rewrite Hrev.
  - apply check_capabilities_run in H as (_ & H2 & H3). by rewrite Hrev in H2, H3.
Qed.

Lemma revalidate_meter `{!BudgetMeter B} n (s : state) r s' : meter_ok (es_budget_guard s) → _revalidate_runtime cfg n s = (r, s') →
  meter_ok (es_budget_guard s') ∧ steps_limit (es_budget_guard s') = steps_limit (es_budget_guard s)
  ∧ steps_used (es_budget_guard s') = steps_used (es_budget_guard s).
Proof.
  intros Hok H. unfold _revalidate_runtime in H.
  apply st_bind_cases in H as [(e & [_ ->]%st_lift_eq & ->)|(rebound & s1 & [_ ->]%st_lift_eq & H)]; [done|].
  apply st_bind_cases in H as [(e & [_ ->]%st_lift_eq & ->)|([] & s1 & [_ ->]%st_lift_eq & H)]; [done|].
  apply st_bind_cases in H as [(e & Hm & ->)|([] & s1 & Hm & H)];
    apply map_exn_run in Hm as (r0 & Hm & Hr); apply on_budget_run in Hm as (b & Hb & <- & _);
    pose proof (meter_active _ _ _ Hok Hb); [done|].
  apply check_capabilities_run in H as (H1 & _). by rewrite H1.
Qed.

(** What a dispatch does to the guards: nothing before the node is found; then the revalidation, and where
    that passes one reservation of a step, without which there is no ticket. *)
Inductive dispatch_run (s : state) (r : result DispatchTicket) (s' : state) : Prop :=
  | dr_unknown e : r = Raise e → guards s' = guards s → dispatch_run s r s'
  | dr_invalid n e e' : _revalidate_runtime cfg n s = (Raise e, s') → r = Raise e' → dispatch_run s r s'
  | dr_reserved n s1 x b : n ∈ xp_nodes plan → _revalidate_runtime cfg n s = (Ok tt, s1) →
      reserve 1 0 0 0 (es_budget_guard s1) = (x, b) → guards s' = (b, es_revocation_guard s1) →
      (∀ t, r = Ok t → x = Ok tt ∧ dt_node_id t = en_node_id n) → dispatch_run s r s'.

Lemma issue_cases id a (s : state) r s' : plan_shape (xp_nodes plan) → issue_dispatch cfg id a s = (r, s') → dispatch_run s r s'.
Proof.
  intros Hs H. unfold issue_dispatch in H.
  apply st_bind_cases in H as [(e & [=] & _)|(s0 & s1 & [= <- <-] & H)].
  apply st_bind_cases in H as [(e & [_ ->]%st_lift_eq & ->)|([n deps] & s1 & [Hc ->]%st_lift_eq & H)]; [by eapply dr_unknown|].
  apply (dispatch_node _ _ _ _ _ _ Hs) in Hc as [Hn Hid].
  apply st_bind_cases in H as [(e & Hm & ->)|([] & s1 & Hv & H)]; [by eapply dr_invalid|].
  apply st_bind_cases in H as [(e & Hm & ->)|([] & s2 & Hm & H)];
    apply map_exn_run in Hm as (r0 & Hm & Hr0); apply on_budget_run in Hm as (b & Hb & <- & Hrev).
  { eapply dr_reserved; [done..|by rewrite Hrev|done]. }
  subst r0. apply st_bind_cases in H as [(e & [=] & _)|([] & s3 & [= <-] & H)].
  apply st_bind_cases in H as [(e & [=] & _)|(? & ? & [= <- <-] & H)].
  apply st_bind_cases in H as [(e & [_ ->]%st_lift_eq & ->)|(t & s4 & [Ht ->]%st_lift_eq & H)].
  { eapply dr_reserved; [done..|cbn; by rewrite Hrev|done]. }
  apply st_bind_cases in H as [(e & Hm & ->)|([] & s5 & Hm & H)];
    apply (keeps_run _ _ _ _ _ (checkpoint_guards _ _)) in Hm as [= Hb5 Hr5]; cbn in Hb5, Hr5.
  { eapply dr_reserved; [done..|by rewrite Hb5, Hr5, Hrev|done]. }
  injection H as <- <-. eapply dr_reserved; [done..|cbn; by rewrite Hb5, Hr5, Hrev|].
  intros t' [= <-]. split; [done|]. by apply (nt_node _ _ _ _ _ (new_ticket_ok _ _ _ _ _ Ht)).
Qed.

(** What is revoked stays revoked, and a ticket is for a node none of whose tools is. *)
Lemma issue_revocations id a (s : state) r s' : plan_shape (xp_nodes plan) → issue_dispatch cfg id a s = (r, s') →
  (∀ t c, revoked (es_revocation_guard s) t c → revoked (es_revocation_guard s') t c)
  ∧ (∀ t, r = Ok t → ∃ n, n ∈ xp_nodes plan ∧ en_node_id n = dt_node_id t
       ∧ ∀ c, c ∈ en_allowed_tools n → ¬ revoked (es_revocation_guard s) (xp_task_id plan) c).
Proof.
  intros Hs H. destruct (issue_cases _ _ _ _ _ Hs H) as [e -> [= _ E]|n e e' Hv ->|n s1 x b Hn Hv _ [= _ E] Ht].
  - by rewrite E.
  - by apply revalidate_revocations in Hv as [? _].
  - apply revalidate_revocations in Hv as [Hr Hfree]. rewrite E. split; [done|]. intros t [_ Hid]%Ht. exists n. auto.
Qed.

(** At most one step is used, exactly one when a ticket is issued. *)
Lemma issue_steps `{!BudgetMeter B} id a (s : state) r s' : plan_shape (xp_nodes plan) → meter_ok (es_budget_guard s) →
  issue_dispatch cfg id a s = (r, s') →
  meter_ok (es_budget_guard s') ∧ steps_limit (es_budget_guard s') = steps_limit (es_budget_guard s)
  ∧ steps_used (es_budget_guard s) + match r with Ok _ => 1 | Raise _ => 0 end <= steps_used (es_budget_guard s').
Proof.
  intros Hs Hok H. destruct (issue_cases _ _ _ _ _ Hs H) as [e -> [= E _]|n e e' Hv ->|n s1 x b _ Hv Hb [= E _] Ht].
  - rewrite E. split_and!; [done..|lia].
  - apply (revalidate_meter _ _ _ _ Hok) in Hv as (? & ? & ?). split_and!; [done..|lia].
  - apply (revalidate_meter _ _ _ _ Hok) in Hv as (Hok1 & Hl1 & Hu1).
    destruct (meter_reserve _ _ _ Hok1 Hb) as (Hok2 & Hl2 & Hu2). rewrite E. split_and!; [done|congruence|].
    destruct r as [t|e]; [destruct (Ht t eq_refl) as [-> _]|destruct x]; lia.
Qed.

Lemma keeps_modify {S V} (view : S → V) f : (∀ s, view (f s) = view s) → keeps view (st_modify f).
Proof. intros Hf s. apply Hf. Qed.

Lemma accept_guards o : keeps (λ s : state, guards s) (accept_observation cfg o).
Proof.
  unfold accept_observation. apply keeps_bind; [done|]. intros s0. apply keeps_bind; [done|]. intros _.
  apply keeps_bind; [apply checkpoint_guards|]. intros _. apply keeps_bind; [by apply keeps_modify|]. done.
Qed.
Lemma cancel_guards reason : keeps (λ s : state, guards s) (cancel cfg reason).
Proof.
  unfold cancel. apply keeps_bind; [done|]. intros _. apply keeps_bind; [by apply keeps_modify|]. intros _.
  apply checkpoint_guards.
Qed.

(** The nodes of a run's tickets are free of what was revoked before it, whatever the budget guard does. *)
Lemma governed_revocations budget_step s ts s' : plan_shape (xp_nodes plan) → governed budget_step s ts s' →
  ∀ c, revoked (es_revocation_guard s) (xp_task_id plan) c → ∀ t, t ∈ ts →
    ∀ n, n ∈ xp_nodes plan → en_node_id n = dt_node_id t → c ∉ en_allowed_tools n.
Proof.
  intros Hs. induction 1 as [s|s id a t s1 ts s2 Hi _ IH|s id a e s1 ts s2 Hi _ IH|s o r s1 ts s2 Ha _ IH
    |s reason r s1 ts s2 Hc _ IH|s b r c ts s2 _ Hr _ IH]; intros cap Hcap.
  - by intros t []%not_elem_of_nil.
  - apply (issue_revocations _ _ _ _ _ Hs) in Hi as (Hrev & Ht).
    intros t' [->|Ht']%elem_of_cons; [|by apply IH; auto].
    intros n Hn Hid Hin. destruct (Ht t eq_refl) as (m & Hm & Hmid & Hfree).
    assert (n = m) as -> by (pose proof (proj2 (find_node_ok cfg _ n Hs) (conj Hn Hid));
      pose proof (proj2 (find_node_ok cfg _ m Hs) (conj Hm Hmid)); congruence).
    by apply (Hfree cap).
  - apply (issue_revocations _ _ _ _ _ Hs) in Hi as (Hrev & _). by apply IH, Hrev.
  - apply (keeps_run _ _ _ _ _ (accept_guards o)) in Ha as [= _ E]. apply IH. by rewrite E.
  - apply (keeps_run _ _ _ _ _ (cancel_guards reason)) in Hc as [= _ E]. apply IH. by rewrite E.
  - apply IH. by eapply revoked_env.
Qed.

(** The steps a run uses cover its tickets, where the budget guard counts what it grants. *)
Lemma governed_steps `{!BudgetMeter B} s ts s' : plan_shape (xp_nodes plan) → governed budget_env s ts s' → meter_ok (es_budget_guard s) →
  meter_ok (es_budget_guard s') ∧ steps_limit (es_budget_guard s') = steps_limit (es_budget_guard s)
  ∧ steps_used (es_budget_guard s) + Z.of_nat (length ts) <= steps_used (es_budget_guard s').
Proof.
  intros Hs. induction 1 as [s|s id a t s1 ts s2 Hi _ IH|s id a e s1 ts s2 Hi _ IH|s o r s1 ts s2 Ha _ IH
    |s reason r s1 ts s2 Hc _ IH|s b r c ts s2 Hb _ _ IH]; intros Hok.
  - cbn. split_and!; [done|done|lia].
  - apply (issue_steps _ _ _ _ _ Hs Hok) in Hi as (Hok1 & Hl & Hu).
    destruct (IH Hok1) as (H1 & H2 & H3). cbn [length]. split_and!; [done|congruence|lia].
  - apply (issue_steps _ _ _ _ _ Hs Hok) in Hi as (Hok1 & Hl & Hu).
    destruct (IH Hok1) as (H1 & H2 & H3). split_and!; [done|congruence|lia].
  - apply (keeps_run _ _ _ _ _ (accept_guards o)) in Ha as [= E _]. rewrite E in IH. auto.
  - apply (keeps_run _ _ _ _ _ (cancel_guards reason)) in Hc as [= E _]. rewrite E in IH. auto.
  - destruct (meter_env _ _ Hok Hb) as (Hok1 & Hl & Hu). cbn in IH. destruct (IH Hok1) as (H1 & H2 & H3).
    split_and!; [done|congruence|lia].
Qed.
End Runs.

(** ** The task store keeps the promises *)

Section Store.
Context {HL : Hashlib} {TZ : TokyoZone}.

(** The row of the client's task is bound under all its limits. *)
Definition client_row (b : BudgetClient) : option usage_row := ts_usage (bc_store b) !! tb_task_id (bc_state b).
Definition client_ok (b : BudgetClient) : Prop :=
  budgets_ok (bc_store b) ∧ ∃ r, client_row b = Some r ∧ is_legacy r = false.

Lemma client_row_grows b s' : client_ok b → moves (bc_store b) s' →
  let b' := {| bc_state := bc_state b; bc_store := s' |} in
  client_ok b' ∧ ∃ r r', client_row b = Some r ∧ client_row b' = Some r' ∧ row_grows r r' ∧ is_legacy r = false.
Proof.
  intros (Hok & r & Hr & Hl) Hm. destruct (Hm Hok) as [Hok' Hg]. destruct (sg_usage _ _ Hg _ _ Hr) as (r' & Hr' & Hrr).
  destruct (rg_fixed _ _ Hrr Hl) as [Hl' _]. split; [split; [done|by exists r']|]. by exists r, r'.
Qed.

(** A reservation of steps by the client, whatever its outcome. *)
Lemma client_reserve b st r b' : client_ok b → 0 <= st →
  on_store (λ x, BudgetState_reserve x st 0 0 0) b = (r, b') →
  client_ok b' ∧ ∃ x x', client_row b = Some x ∧ client_row b' = Some x' ∧ us_max_steps x' = us_max_steps x
    ∧ us_steps_used x' = us_steps_used x + match r with Ok _ => st | Raise _ => 0 end.
Proof.
  intros Hok Hst H. unfold on_store in H.
  pose proof (client_row_grows b _ Hok (budget_reserve_steady (bc_state b) st 0 0 0 (bc_store b))) as (Hok' & x & x' & Hx & Hx' & Hg & Hl).
  pose proof (reserve_run (bc_state b) st 0 0 0 _ _ Hx Hst (Z.le_refl 0) (Z.le_refl 0) (Z.le_refl 0)) as Hrun.
  destruct (BudgetState_reserve (bc_state b) st 0 0 0 (bc_store b)) as [r0 s'] eqn:E. cbn [snd] in *. injection H as <- <-.
  split; [exact Hok'|]. exists x, x'. split_and!; [done..|by apply (rg_fixed _ _ Hg Hl)|].
  unfold client_row in Hx, Hx'. cbn [bc_store bc_state] in Hx'.
  assert (∀ s, free_attempt (bc_store b) = Some s → ts_usage s = ts_usage (bc_store b)) as Hfree.
  { intros s Ef. unfold free_attempt in Ef. destruct (ts_contention (bc_store b)) as [|[] [|[] c]]; naive_solver. }
  destruct (free_attempt (bc_store b)) as [s|] eqn:Ef.
  - destruct (reserve_row x st 0 0 0 (ts_now s)) as [y|e] eqn:Ey; injection Hrun as -> ->.
    + cbn [set_usage ts_usage] in Hx'. rewrite lookup_insert_eq in Hx'. injection Hx' as <-.
      apply reserve_row_ok in Ey as (_ & _ & ->). change (0 =? 0) with true. rewrite !andb_true_r.
      destruct (st =? 0) eqn:Ez; cbn [charge us_steps_used]; [apply Z.eqb_eq in Ez; lia|done].
    + cbn in Hx'. rewrite (Hfree s eq_refl) in Hx'. assert (x = x') as -> by congruence. cbn. lia.
  - injection Hrun as -> ->. cbn in Hx'. assert (x = x') as -> by congruence. cbn. lia.
Qed.

#[export] Instance BudgetClient_meter : BudgetMeter BudgetClient.
Proof.
  refine {|
    meter_ok := client_ok;
    steps_used := λ b, match client_row b with Some r => us_steps_used r | None => 0 end;
    steps_limit := λ b, match client_row b with Some r => us_max_steps r | None => 0 end;
    budget_env := λ b b', bc_state b' = bc_state b ∧ rtc store_step (bc_store b) (bc_store b')
  |}.
  - intros b (Hok & r & Hr & Hl). rewrite Hr. pose proof (map_Forall_lookup_1 _ _ _ _ Hok Hr) as [_ _ Hs]. rewrite Hl in Hs. lia.
  - intros b r b' Hok H. cbn [assert_active BudgetClient_guard] in H. unfold BudgetState_assert_active in H.
    apply (client_reserve _ 0) in H as (Hok' & x & x' & -> & -> & Hm & Hu); [|done|done].
    split_and!; [done..|]. rewrite Hu. destruct r; lia.
  - intros b r b' Hok H. cbn [reserve BudgetClient_guard] in H.
    apply (client_reserve _ 1) in H as (Hok' & x & x' & -> & -> & Hm & Hu); [by split_and!|done|done].
  - intros b [st s'] Hok [Hst H]. cbn [bc_state bc_store] in *. subst st.
    apply history_moves in H. destruct (client_row_grows b s' Hok H) as (Hok' & x & x' & -> & -> & Hg & Hl).
    split_and!; [done|by apply (rg_fixed _ _ Hg Hl)|apply Hg].
Defined.

(** A capability that is on the list of a task, in a store with sound budgets. *)
Definition store_revoked (s : TaskStore) (task capability : string) : Prop :=
  budgets_ok s ∧ ∃ logical, _capability capability = Ok logical ∧ is_Some (revocations s !! (strip task, logical)).

Lemma store_revoked_moves s s' task cap : moves s s' → store_revoked s task cap → store_revoked s' task cap.
Proof.
  intros Hm (Hok & l & Hl & row & Hrow). destruct (Hm Hok) as [Hok' Hg]. split; [done|]. exists l. split; [done|].
  exists row. eapply lookup_weaken; [done|apply Hg].
Qed.

Lemma ensure_schema_run s r s' : _ensure_schema s = (r, s') → revocations s' = revocations s.
Proof.
  unfold _ensure_schema, mbind, st_bind, st_get, write, st_modify, revocations. cbn.
  destruct (ts_revocations s) eqn:E; [intros [= _ <-]; by rewrite E|].
  destruct (default false _); intros [= _ <-]; cbn; by rewrite ?E.
Qed.

#[export] Instance RevocationStore_register : RevocationRegister TaskStore.
Proof.
  refine {| revoked := store_revoked; revocation_env := rtc store_step |}.
  - intros s task cap s' H (_ & l & Hl & Hrow). cbn [is_revoked RevocationStore_guard] in H. unfold Revocations_is_revoked in H.
    rewrite Hl in H. apply st_bind_ok in H as (? & s1 & [= <- <-] & H). apply st_bind_ok in H as ([] & s1 & Hs%ensure_schema_run & H).
    apply st_bind_ok in H as (? & s2 & [= <- <-] & H). injection H as H _. rewrite Hs in H. by bool_prop.
  - intros s task cap x s' task' cap' H. apply store_revoked_moves. pose proof (is_revoked_steady task cap s) as Hm.
    cbn [is_revoked RevocationStore_guard] in H. by rewrite H in Hm.
  - intros s s' task cap H. apply store_revoked_moves. by apply history_moves.
Defined.
End Store.

Section Composition.
Context {HL : Hashlib} {TZ : TokyoZone} {C : Type} `{!SchedulerCheckpointRepository C}.

(** No run spends more than the contract allows. After the budget of a task has been bound from its
    contract, any run of a scheduler that holds it - whatever other clients reserve, however time passes
    and the database is contended, whatever is refused - issues at most as many tickets as the contract's
    [max_steps]; together with the steps used by others they are all on the task's row. *)
Theorem run_within_budget `{!SchedulerRevocationGuard R} `{!RevocationRegister R} (cfg : SchedulerConfig)
    id s0 b s1 (s s' : ExecutionScheduler BudgetClient R C) ts
    (Hok : budgets_ok s0) (Hbind : from_bound_contract id s0 = (Ok b, s1))
    (Hguard : es_budget_guard s = {| bc_state := b; bc_store := s1 |})
    (Hplan : ExecutionPlan_validate (ec_plan cfg) (Some (ec_parent_authority cfg)) = Ok (ec_plan cfg))
    (Hrun : governed cfg budget_env s ts s') :
  ∃ limits row, _bound_execution_limits id s0 = Ok limits
    ∧ client_row (es_budget_guard s') = Some row
    ∧ Z.of_nat (length ts) <= us_steps_used row <= us_max_steps row ∧ us_max_steps row = el_max_steps limits.
Proof.
  apply from_contract_row in Hbind as (Hok1 & l & row & Hl & Hid & Hrow & Hleg & Hmax); [|done].
  assert (client_row (es_budget_guard s) = Some row) as Hr by (unfold client_row; by rewrite Hguard; cbn; rewrite Hid).
  assert (meter_ok (es_budget_guard s)) as Hm.
  { split; [by rewrite Hguard|by exists row]. }
  destruct (governed_steps cfg s ts s' (plan_valid_shape _ _ Hplan) Hrun Hm) as (Hm' & Hlim & Hu).
  pose proof (meter_bound _ Hm') as Hb. destruct Hm' as (Hok' & row' & Hr' & Hleg').
  cbn [steps_limit steps_used BudgetClient_meter] in *. rewrite Hr, Hr' in *.
  exists l, row'. split; [done|]. split; [done|].
  pose proof (map_Forall_lookup_1 _ _ _ _ Hok1 Hrow) as [_ _ Hs]. rewrite Hleg in Hs. lia.
Qed.

Lemma insert_revocation_run id cap reason now s created row s' :
  insert_revocation id cap reason now s = (Ok (created, row), s') → revocations s' !! (id, cap) = Some row.
Proof.
  unfold insert_revocation, mbind, st_bind, st_get, st_modify. destruct (revocations s !! (id, cap)) as [x|] eqn:E.
  - intros [= <- <- <-]. done.
  - intros [= <- <- <-]. unfold revocations at 1. cbn. apply lookup_insert_eq.
Qed.

Lemma revoke_ok task cap reason s x s' : revoke task cap reason s = (Ok x, s') →
  _capability cap = Ok (cr_capability x) ∧ is_Some (revocations s' !! (strip task, cr_capability x)).
Proof.
  intros H. unfold revoke in H. cbv zeta in H. apply st_bind_ok in H as ([] & s1 & _ & H).
  apply st_bind_ok in H as (? & ? & [= <- <-] & H). apply st_bind_ok in H as (c & ? & [_ ->]%st_lift_eq & H).
  destruct c as [c|]; [|done]. apply st_bind_ok in H as (l & ? & [Hl ->]%st_lift_eq & H).
  apply st_bind_ok in H as (re & ? & [_ ->]%st_lift_eq & H). apply st_bind_ok in H as ([] & ? & [_ ->]%st_lift_eq & H).
  apply st_bind_ok in H as ([] & s2 & _ & H). apply st_bind_ok in H as (? & ? & [= <- <-] & H).
  apply st_bind_ok in H as ([created row] & s3 & Hw%write_ok & H). apply insert_revocation_run in Hw.
  apply st_bind_ok in H as ([] & s4 & Ha & H). injection H as <- <-. cbn. split; [done|].
  assert (revocations s4 = revocations s3) as ->; [|by exists row].
  destruct created; [|by injection Ha as <-]. clear - Ha. unfold record_activity, write, st_modify in Ha.
  destruct (default _ _); [done|]. by injection Ha as <-.
Qed.

(** C7: a revoked capability is never used again. Once the operator's [revoke] has returned, no run of any
    scheduler that consults the list - whatever its budget guard and its repository are and do, and come to hold
    between two operations, whatever else is revoked or fails meanwhile - issues a ticket for a node of the task
    whose tools contain the capability. Of the budget guard nothing is assumed; the plan is valid, as the
    constructor of a scheduler demands, and the store is one that its own operations have made
    ([budgets_ok], which every history of an empty store has). *)
Theorem revoked_never_dispatched `{!SchedulerBudgetGuard B} (cfg : SchedulerConfig)
    g0 task capability reason x g1 (s s' : ExecutionScheduler B TaskStore C) ts
    (Hok : budgets_ok g0) (Hrevoke : revoke task capability reason g0 = (Ok x, g1))
    (Hguard : es_revocation_guard s = g1) (Htask : strip (xp_task_id (ec_plan cfg)) = strip task)
    (Hplan : ExecutionPlan_validate (ec_plan cfg) (Some (ec_parent_authority cfg)) = Ok (ec_plan cfg))
    (Hrun : governed cfg (λ _ _, True) s ts s') :
  ∀ t n tool, t ∈ ts → n ∈ xp_nodes (ec_plan cfg) → en_node_id n = dt_node_id t → tool ∈ en_allowed_tools n →
    _capability tool ≠ Ok (cr_capability x).
Proof.
  intros t n tool Ht Hn Hid Htool Hcap.
  pose proof (revoke_steady task capability reason g0 Hok) as Hm. rewrite Hrevoke in Hm. destruct Hm as [Hok1 _].
  apply revoke_ok in Hrevoke as [_ Hrow].
  apply (governed_revocations cfg _ s ts s' (plan_valid_shape _ _ Hplan) Hrun tool) with (t := t) (n := n); try done.
  rewrite Hguard. split; [done|]. exists (cr_capability x). split; [done|]. by rewrite Htask.
Qed.
End Composition.

(** The whole system on the sample plan: the contract and its budget in the task store, the operator's
    revocations, the checkpoint database, and the scheduler over them. *)
Section Examples.
#[local] Existing Instance checksum_hashlib.
#[local] Existing Instance nine_hours.

Notation full_state := (ExecutionScheduler BudgetClient TaskStore CheckpointStore).

Definition sample_database : CheckpointStore :=
  {| cs_tasks := {[sample_id]}; cs_tables := None; cs_now := "2025-01-02T00:00:00Z"; cs_locked := false |}.
Definition full_start : full_state.
Proof.
  let s := eval vm_compute in
    (ExecutionScheduler_init sample_config ∅ (start_state sample_client bound_store (Some sample_database))).2 in exact s.
Defined.
Lemma full_init : ExecutionScheduler_init sample_config ∅ (start_state sample_client bound_store (Some sample_database))
  = (Ok tt, full_start).
Proof. vm_compute. reflexivity. Qed.

(** The first node is dispatched and reported, the second waits for its approval. *)
Definition full_issued : full_state.
Proof. let s := eval vm_compute in (issue_dispatch sample_config "in" false full_start).2 in exact s. Defined.
Definition full_ticket : DispatchTicket.
Proof.
  let r := eval vm_compute in (issue_dispatch sample_config "in" false full_start).1 in match r with Ok ?t => exact t end.
Defined.
Lemma full_issue : issue_dispatch sample_config "in" false full_start = (Ok full_ticket, full_issued).
Proof. vm_compute. reflexivity. Qed.
Definition full_observed : full_state.
Proof. let s := eval vm_compute in (accept_observation sample_config sample_in full_issued).2 in exact s. Defined.
Lemma full_accept : accept_observation sample_config sample_in full_issued = (Ok sample_in, full_observed).
Proof. vm_compute. reflexivity. Qed.
Definition full_refused : full_state.
Proof. let s := eval vm_compute in (issue_dispatch sample_config "work" false full_observed).2 in exact s. Defined.
Lemma full_refuse : issue_dispatch sample_config "work" false full_observed
  = (es_fail "NODE_APPROVAL_REQUIRED:work", full_refused).
Proof. vm_compute. reflexivity. Qed.

Lemma full_run : governed sample_config budget_env full_start [full_ticket] full_refused.
Proof.
  apply (gov_issue _ _ _ _ _ _ _ _ _ full_issue). apply (gov_accept _ _ _ _ _ _ _ _ full_accept).
  apply (gov_refuse _ _ _ _ _ _ _ _ _ full_refuse). apply gov_refl.
Qed.

Lemma run_within_budget_witness : ∃ limits row, _bound_execution_limits sample_id contended_store = Ok limits
    ∧ client_row (es_budget_guard full_refused) = Some row
    ∧ Z.of_nat (length [full_ticket]) <= us_steps_used row <= us_max_steps row ∧ us_max_steps row = el_max_steps limits.
Proof.
  exact (run_within_budget sample_config sample_id contended_store _ _ full_start full_refused [full_ticket]
    bound_store_ok sample_binding eq_refl sample_plan_valid full_run).
Defined.

(** A process that starts again finds its first node reported and nothing to recover. *)
Definition full_restored : full_state.
Proof.
  let c := eval vm_compute in (es_checkpoint_repository full_refused) in
  let s := eval vm_compute in (ExecutionScheduler_init sample_config ∅ (start_state sample_client bound_store c)).2 in exact s.
Defined.
Example restored_observations : map eo_node_id (_ordered_observations sample_config full_restored) = ["in"]
  ∧ es_recovery_required full_restored = ∅ ∧ es_dispatch_sequence full_restored = 1.
Proof. vm_compute. split_and!; reflexivity. Qed.

(** The operator takes a tool away from the task; the first node does not use it, the second does. *)
Definition sample_revocation : Revocation.
Proof.
  let r := eval vm_compute in (revoke sample_id "search_docs" "operator_revoked" bound_store).1 in
  match r with Ok ?x => exact x end.
Defined.
Definition revoked_store : TaskStore.
Proof. let s := eval vm_compute in (revoke sample_id "search_docs" "operator_revoked" bound_store).2 in exact s. Defined.
Lemma sample_revoke : revoke sample_id "search_docs" "operator_revoked" bound_store = (Ok sample_revocation, revoked_store).
Proof. vm_compute. reflexivity. Qed.

Example revoked_refuse : (issue_dispatch sample_config "work" true (set_guards sample_client revoked_store None full_observed)).1
  = es_fail "SCHEDULER_CAPABILITY_REVOKED:work:search_docs".
Proof. vm_compute. reflexivity. Qed.

Lemma sample_client_ok : client_ok sample_client.
Proof.
  destruct (from_contract_row sample_id contended_store _ _ bound_store_ok sample_binding) as (Hok & l & row & _ & _ & Hrow & Hleg & _).
  split; [exact Hok|]. exists row. split; [exact Hrow|exact Hleg].
Qed.
End Examples.
