(* ===== verification/LinkedFacts.v ===== *)
(** * Linked budgets: what a fan-out can spend

    What one linked reservation does on every branch, and that whatever the children of a task reserve,
    in any number and any order, is on the row of the task and within its limits. *)

From Stdlib Require Import Ascii.
From Stdlib Require String.
From S2P Require Import Prelude PyStr Hashlib PyFloat Json JsonFacts PyTime Validators TaskContract.
From S2P Require Import CapabilityAuthority AuthorityFacts WorkflowDesign ContextManifest TaskContext.
From S2P Require Import ExecutionPlan PlanFacts ExecutionObservation ObservationFacts RuntimeScheduler ReadinessFacts.
From S2P Require Import ExecutionScheduler SchedulerFacts RestoreFacts TaskStore ExecutionBudget ExecutionCheckpoint.
From S2P Require Import CapabilityRevocation LinkedBudget BudgetFacts.

Local Open Scope Z_scope.

(** What a reservation asks for. *)
Record demand := {
  dm_steps : Z;
  dm_tool_calls : Z;
  dm_retries : Z;
  dm_escalations : Z
}.

Section Linked.
Context {HL : Hashlib} {TZ : TokyoZone}.

Definition Linked_demand (l : LinkedTaskExecutionBudgetState) (d : demand) : ST TaskStore unit :=
  Linked_reserve l (dm_steps d) (dm_tool_calls d) (dm_retries d) (dm_escalations d).

(** ** One reservation *)

(** A transaction on its own, once it has the lock. *)
Definition rolled_back {A} (m : ST TaskStore A) (s : TaskStore) : result A * TaskStore :=
  match m s with (Ok a, s') => (Ok a, s') | (Raise e, _) => (Raise e, s) end.

Lemma project_value_error r a b c d now : raises_in (λ c, c = PyValueError) (_project r a b c d now).
Proof. unfold _project. raises. Qed.

(** The rows a reservation needs and the state it leaves. *)
Lemma reserve_both_run l a b c d now s : reserve_both l a b c d now s =
  match ts_usage s !! lk_parent_task_id l, ts_usage s !! lk_task_id l with
  | None, _ => (raise PyValueError "PARENT_TASK_EXECUTION_BUDGET_NOT_BOUND", s)
  | Some _, None => (raise PyValueError "TASK_EXECUTION_BUDGET_NOT_BOUND", s)
  | Some p, Some ch =>
      match _project p a b c d now, _project ch a b c d now with
      | Raise e, _ | Ok _, Raise e => (Raise e, s)
      | Ok p', Ok ch' =>
          (Ok tt, if (a =? 0) && (b =? 0) && (c =? 0) && (d =? 0) then s
                  else set_usage (<[lk_task_id l := ch']> (<[lk_parent_task_id l := p']> (ts_usage s))) s)
      end
  end.
Proof.
  unfold reserve_both, mbind, st_bind, st_get, st_lift, task_execution_budget_for_task.
  destruct (ts_usage s !! lk_parent_task_id l) as [p|]; [|done]. destruct (ts_usage s !! lk_task_id l) as [ch|]; [|done].
  destruct (_project p _ _ _ _ _) as [p'|e]; [|done]. destruct (_project ch _ _ _ _ _) as [ch'|e]; [|done]. by destruct (_ && _).
Qed.

Lemma reserve_both_error l a b c d now s e : (rolled_back (reserve_both l a b c d now) s).1 = Raise e → is_lock_error e = false.
Proof.
  unfold rolled_back. rewrite reserve_both_run. unfold is_lock_error.
  destruct (ts_usage s !! lk_parent_task_id l) as [p|]; [|by intros [= <-]].
  destruct (ts_usage s !! lk_task_id l) as [ch|]; [|by intros [= <-]].
  pose proof (project_value_error p a b c d now) as Hp. pose proof (project_value_error ch a b c d now) as Hc.
  destruct (_project p _ _ _ _ _) as [p'|e']; [|intros [= <-]; by rewrite (Hp _ eq_refl)].
  destruct (_project ch _ _ _ _ _) as [ch'|e']; [done|intros [= <-]; by rewrite (Hc _ eq_refl)].
Qed.

Lemma linked_run l d s : 0 <= dm_steps d → 0 <= dm_tool_calls d → 0 <= dm_retries d → 0 <= dm_escalations d →
  Linked_demand l d s = match free_attempt s with
    | None => (raise SqliteOperationalError "database is locked", next_attempt (second_attempt s))
    | Some s1 =>
        st_map_exn exhausted_exn
          (rolled_back (reserve_both l (dm_steps d) (dm_tool_calls d) (dm_retries d) (dm_escalations d) (ts_now s)))
          (next_attempt s1)
    end.
Proof.
  intros H1 H2 H3 H4. unfold Linked_demand, Linked_reserve. rewrite !(proj2 (delta_ok _ _ _)) by done.
  unfold mbind, st_bind, st_lift, st_get. set (m := reserve_both _ _ _ _ _ _).
  assert (run_budget_write (write m) s = match free_attempt s with
    | None => (raise SqliteOperationalError "database is locked", next_attempt (second_attempt s))
    | Some s1 => rolled_back m (next_attempt s1) end) as Hrun.
  { apply (run_write_twice _ (λ s', rolled_back m (next_attempt s'))); [done|]. intros s' _.
    destruct (rolled_back m (next_attempt s')).1 as [|e] eqn:E; [done|]. by apply reserve_both_error in E. }
  unfold st_map_exn at 1. rewrite Hrun. by destruct (free_attempt s) as [s1|].
Qed.

Lemma free_attempt_usage s s1 : free_attempt s = Some s1 → ts_usage s1 = ts_usage s.
Proof. unfold free_attempt. destruct (ts_contention s) as [|[] [|[] c]]; naive_solver. Qed.

Lemma project_refusal r dl a b c d now : fromisoformat (us_deadline_at r) = Some dl →
  _project r a b c d now = match refusal r dl a b c d now with
    | Some code => raise PyValueError code
    | None => Ok (charge r a b c d (isoformat now))
    end.
Proof.
  intros Hdl. unfold _project, refusal. rewrite Hdl. cbn [mbind result_bind]. cbv zeta.
  cbn [charge us_steps_used us_tool_calls_used us_retries_used us_escalations_used].
  destruct (instant (in_tokyo dl) <=? instant now); [done|]. cbn [raise_if mbind result_bind].
  destruct (us_max_steps r <? _); [done|]. destruct (us_max_tool_calls r <? _); [done|].
  destruct (us_max_retries r <? _); [done|]. by destruct (us_max_escalations r <? _).
Qed.

(** What one linked reservation does. For bound rows with readable deadlines and amounts that are not
    negative: when both attempts find the database locked it raises the lock error; otherwise it raises the
    code of the first dimension exhausted in the parent, else in the child, or charges all the counters of
    both rows at once. No exception leaves a counter of either changed. *)
Lemma linked_outcome l d s p ch dp dc :
  ts_usage s !! lk_parent_task_id l = Some p → ts_usage s !! lk_task_id l = Some ch →
  fromisoformat (us_deadline_at p) = Some dp → fromisoformat (us_deadline_at ch) = Some dc →
  0 <= dm_steps d → 0 <= dm_tool_calls d → 0 <= dm_retries d → 0 <= dm_escalations d →
  let refused r dl := refusal r dl (dm_steps d) (dm_tool_calls d) (dm_retries d) (dm_escalations d) (ts_now s) in
  let granted r := reserved r (dm_steps d) (dm_tool_calls d) (dm_retries d) (dm_escalations d) (ts_now s) in
  let '(res, s') := Linked_demand l d s in
  match free_attempt s with
  | None => res = raise SqliteOperationalError "database is locked" ∧ ts_usage s' = ts_usage s
  | Some _ =>
      match refused p dp, refused ch dc with
      | Some code, _ | None, Some code => res = raise ExecutionBudgetExceeded code ∧ ts_usage s' = ts_usage s
      | None, None => res = Ok tt
          ∧ ts_usage s' = <[lk_task_id l := granted ch]> (<[lk_parent_task_id l := granted p]> (ts_usage s))
      end
  end.
Proof.
  intros Hp Hch Hdp Hdc H1 H2 H3 H4. cbv zeta. rewrite (linked_run l d s) by done.
  destruct (free_attempt s) as [s1|] eqn:Ef; [|done]. pose proof (free_attempt_usage _ _ Ef) as Hu.
  unfold st_map_exn, rolled_back. rewrite reserve_both_run. cbn [next_attempt set_clock ts_usage]. rewrite Hu, Hp, Hch.
  unfold reserved. rewrite (project_refusal p dp), (project_refusal ch dc) by done.
  destruct (refusal p dp _ _ _ _ _) as [code|] eqn:E.
  { apply refusal_code in E. unfold exhausted_exn. cbn [raise exn_cls exn_msg is_value_error andb]. by rewrite E. }
  destruct (refusal ch dc _ _ _ _ _) as [code|] eqn:E'.
  { apply refusal_code in E'. unfold exhausted_exn. cbn [raise exn_cls exn_msg is_value_error andb]. by rewrite E'. }
  split; [done|]. destruct (_ && _); cbn [next_attempt set_usage set_clock ts_usage]; [|done].
  by rewrite Hu, (insert_id (ts_usage s)), insert_id.
Qed.

(** ** Fan-out *)

Definition charged_to (id : string) (l : LinkedTaskExecutionBudgetState) : bool :=
  bool_decide (lk_parent_task_id l = id) || bool_decide (lk_task_id l = id).

(** What the granted reservations of a log charge to a task, in one dimension. *)
Definition total (dimension : demand → Z) (id : string) (log : list (LinkedTaskExecutionBudgetState * demand)) : Z :=
  foldr (λ x n, (if charged_to id x.1 then dimension x.2 else 0) + n) 0 log.

(** A history of the store with the linked reservations that were granted. *)
Inductive linked_history : TaskStore → list (LinkedTaskExecutionBudgetState * demand) → TaskStore → Prop :=
  | lh_done s : linked_history s [] s
  | lh_granted l d s s1 log s2 : Linked_demand l d s = (Ok tt, s1) → linked_history s1 log s2 →
      linked_history s ((l, d) :: log) s2
  | lh_other s s1 log s2 : store_step s s1 → linked_history s1 log s2 → linked_history s log s2.

(** A granted reservation is on the row of its parent and on that of its child. *)
Lemma granted_charged l d s s1 id r : Linked_demand l d s = (Ok tt, s1) → ts_usage s !! id = Some r → charged_to id l = true →
  ∃ r', ts_usage s1 !! id = Some r' ∧ us_steps_used r' = us_steps_used r + dm_steps d
    ∧ us_tool_calls_used r' = us_tool_calls_used r + dm_tool_calls d ∧ us_retries_used r' = us_retries_used r + dm_retries d
    ∧ us_escalations_used r' = us_escalations_used r + dm_escalations d.
Proof.
  intros H Hr Hid. assert (0 <= dm_steps d ∧ 0 <= dm_tool_calls d ∧ 0 <= dm_retries d ∧ 0 <= dm_escalations d) as (H1 & H2 & H3 & H4).
  { unfold Linked_demand, Linked_reserve in H.
    rename H into Hrun. do 4 apply st_bind_ok in Hrun as (? & ? & [[-> ?]%delta_ok ->]%st_lift_eq & Hrun). done. }
  rewrite linked_run in H by done. destruct (free_attempt s) as [s0|] eqn:Ef; [|done]. pose proof (free_attempt_usage _ _ Ef) as Hu.
  unfold st_map_exn, rolled_back in H. rewrite reserve_both_run in H. cbn [next_attempt set_clock ts_usage] in H. rewrite Hu in H.
  destruct (ts_usage s !! lk_parent_task_id l) as [p|] eqn:Ep; [|done].
  destruct (ts_usage s !! lk_task_id l) as [ch|] eqn:Ec; [|done].
  destruct (_project p _ _ _ _ _) as [p'|e] eqn:Epp; [|done]. apply project_ok in Epp as (_ & _ & ->).
  destruct (_project ch _ _ _ _ _) as [ch'|e] eqn:Ecc; [|done]. apply project_ok in Ecc as (_ & _ & ->).
  injection H as <-. destruct (_ && _) eqn:Ez.
  - bool_prop. repeat match goal with H : (_ =? 0) = true |- _ => apply Z.eqb_eq in H; rewrite H end. clear - Hr Hu.
    exists r. cbn [next_attempt set_clock ts_usage]. rewrite Hu. split_and!; [done|lia..].
  - cbn [set_usage ts_usage]. unfold charged_to in Hid. destruct (decide (lk_task_id l = id)) as [E1|E1].
    { subst id. rewrite Hr in Ec. injection Ec as <-. eexists. by rewrite lookup_insert_eq. }
    apply orb_true_iff in Hid as [Hid|Hid]; apply bool_decide_eq_true in Hid; [|done]. subst id.
    rewrite Hr in Ep. injection Ep as <-. eexists. by rewrite lookup_insert_ne, lookup_insert_eq.
Qed.

Lemma history_charged s log s' : linked_history s log s' → budgets_ok s → ∀ id r, ts_usage s !! id = Some r →
  budgets_ok s' ∧ ∃ r', ts_usage s' !! id = Some r' ∧ row_grows r r'
    ∧ us_steps_used r + total dm_steps id log <= us_steps_used r'
    ∧ us_tool_calls_used r + total dm_tool_calls id log <= us_tool_calls_used r'
    ∧ us_retries_used r + total dm_retries id log <= us_retries_used r'
    ∧ us_escalations_used r + total dm_escalations id log <= us_escalations_used r'.
Proof.
  induction 1 as [s|l d s s1 log s2 H _ IH|s s1 log s2 H _ IH]; intros Hok id r Hr.
  - split; [done|]. exists r. split; [done|]. split; [reflexivity|]. cbn. lia.
  - pose proof (linked_steady l (dm_steps d) (dm_tool_calls d) (dm_retries d) (dm_escalations d) s Hok) as [Hok1 Hg].
    change (Linked_reserve _ _ _ _ _ s) with (Linked_demand l d s) in Hok1, Hg. rewrite H in Hok1, Hg.
    destruct (sg_usage _ _ Hg _ _ Hr) as (r1 & Hr1 & Hrr). destruct (IH Hok1 id r1 Hr1) as (Hok2 & r2 & Hr2 & Hg2 & Ht).
    split; [done|]. exists r2. split; [done|]. split; [by etrans|]. cbn [total foldr fst snd]. fold (total dm_steps id log).
    fold (total dm_tool_calls id log). fold (total dm_retries id log). fold (total dm_escalations id log).
    destruct (charged_to id l) eqn:Ec; [|pose proof (rg_used _ _ Hrr); lia].
    destruct (granted_charged _ _ _ _ _ _ H Hr Ec) as (x & Hx & ?). cbn in Hr1. rewrite Hr1 in Hx. injection Hx as <-. lia.
  - destruct (store_step_moves _ _ H Hok) as [Hok1 Hg]. destruct (sg_usage _ _ Hg _ _ Hr) as (r1 & Hr1 & Hrr).
    destruct (IH Hok1 id r1 Hr1) as (Hok2 & r2 & Hr2 & Hg2 & Ht). split; [done|]. exists r2.
    pose proof (rg_used _ _ Hrr). split; [done|]. split; [by etrans|]. lia.
Qed.

(** C35: fan-out never multiplies a budget. Over any history of the store - linked reservations of any
    children of any parents, other clients, refusals, lock errors - everything that was granted to the
    children of a task, or to the task itself through a link, is on the row of the task, and that row stays
    within the limits it was bound with, in each of the four dimensions. *)
Theorem fan_out_within_budget s log s' id r (Hrun : linked_history s log s') (Hok : budgets_ok s)
    (Hr : ts_usage s !! id = Some r) (Hbound : is_legacy r = false) :
  ∃ r', ts_usage s' !! id = Some r'
    ∧ us_steps_used r + total dm_steps id log <= us_steps_used r' <= us_max_steps r
    ∧ us_tool_calls_used r + total dm_tool_calls id log <= us_tool_calls_used r' <= us_max_tool_calls r
    ∧ us_retries_used r + total dm_retries id log <= us_retries_used r' <= us_max_retries r
    ∧ us_escalations_used r + total dm_escalations id log <= us_escalations_used r' <= us_max_escalations r.
Proof.
  destruct (history_charged _ _ _ Hrun Hok _ _ Hr) as (Hok' & r' & Hr' & Hg & Ht). exists r'. split; [done|].
  pose proof (map_Forall_lookup_1 _ _ _ _ Hok' Hr') as [Hre Hes Hst]. destruct (rg_fixed _ _ Hg Hbound) as (Hl & Hs & Htc & _).
  rewrite Hl in Hst. pose proof (rg_retries _ _ Hg). pose proof (rg_escalations _ _ Hg). lia.
Qed.
End Linked.

(** Two children of the sample task reserve under its budget. *)
Section Examples.
#[local] Existing Instance checksum_hashlib.
#[local] Existing Instance nine_hours.

Definition child_link (id : string) : LinkedTaskExecutionBudgetState := {|
  lk_task_id := id; lk_parent_task_id := sample_id; lk_max_steps := us_max_steps sample_row;
  lk_max_tool_calls := us_max_tool_calls sample_row; lk_max_model_retries := us_max_retries sample_row;
  lk_max_model_escalations := us_max_escalations sample_row; lk_max_wall_time_ms := us_max_wall_time_ms sample_row;
  lk_deadline_at := us_deadline_at sample_row |}.
Definition family_usage : gmap string usage_row := <[sample_id := sample_row]> (<["a" := sample_row]> (<["b" := sample_row]> ∅)).
Definition family_store : TaskStore := set_usage family_usage bound_store.
Definition two_steps : demand := {| dm_steps := 2; dm_tool_calls := 1; dm_retries := 0; dm_escalations := 0 |}.

(** The links are those the states of the parent and the child make. *)
Example sample_link : from_states (bc_state sample_client)
    {| tb_task_id := "a"; tb_max_steps := us_max_steps sample_row; tb_max_tool_calls := us_max_tool_calls sample_row;
       tb_max_model_retries := us_max_retries sample_row; tb_max_model_escalations := us_max_escalations sample_row;
       tb_max_wall_time_ms := us_max_wall_time_ms sample_row; tb_deadline_at := us_deadline_at sample_row |}
    "/data/tasks.db" "/data/tasks.db" = Ok (child_link "a").
Proof. vm_compute. reflexivity. Qed.

Definition first_reserved : TaskStore := (Linked_demand (child_link "a") two_steps family_store).2.
Definition second_reserved : TaskStore := (Linked_demand (child_link "b") two_steps first_reserved).2.

(** Each child has steps of its own left, but the four of the parent are spent. *)
Example parent_exhausted : (Linked_demand (child_link "a") two_steps second_reserved).1
  = raise ExecutionBudgetExceeded "TASK_STEP_BUDGET_EXHAUSTED".
Proof. vm_compute. reflexivity. Qed.
Example unlinked_parent : (Linked_demand (child_link "a") two_steps bound_store).1
  = raise PyValueError "PARENT_TASK_EXECUTION_BUDGET_NOT_BOUND".
Proof. vm_compute. reflexivity. Qed.

Lemma family_ok : budgets_ok family_store.
Proof.
  assert (budget_ok sample_row) as Hr by (constructor; vm_compute; split; discriminate || split; discriminate).
  apply map_Forall_insert_2; [done|]. apply map_Forall_insert_2; [done|]. apply map_Forall_insert_2; [done|]. apply map_Forall_empty.
Qed.
Lemma family_history : linked_history family_store [(child_link "a", two_steps); (child_link "b", two_steps)] second_reserved.
Proof.
  apply (lh_granted _ _ _ first_reserved); [vm_compute; reflexivity|].
  apply (lh_granted _ _ _ second_reserved); [vm_compute; reflexivity|]. apply lh_done.
Qed.

Lemma fan_out_within_budget_witness : ∃ r', ts_usage second_reserved !! sample_id = Some r'
  ∧ us_steps_used sample_row + 4 <= us_steps_used r' <= us_max_steps sample_row
  ∧ us_tool_calls_used sample_row + 2 <= us_tool_calls_used r' <= us_max_tool_calls sample_row
  ∧ us_retries_used sample_row + 0 <= us_retries_used r' <= us_max_retries sample_row
  ∧ us_escalations_used sample_row + 0 <= us_escalations_used r' <= us_max_escalations sample_row.
Proof. exact (fan_out_within_budget _ _ _ sample_id sample_row family_history family_ok eq_refl eq_refl). Defined.
End Examples.
