(* ===== verification/WriterLease.v ===== *)
(** * Runtime writer leases

    [runtime_writer_lease.py]: which run owns the writes of a task and plan. A claim by another run
    raises the generation and supersedes the lease before it; the table keeps the current lease of
    each task and plan, a hash-chained log keeps every claim and release. *)

From Stdlib Require Import Ascii.
From Stdlib Require String.
From S2P Require Import Prelude PyStr Hashlib PyFloat Json PyTime Validators CapabilityAuthority WorkflowDesign TaskContext ExecutionPlan.
From S2P Require Import ExecutionObservation ExecutionCheckpoint.

Local Open Scope Z_scope.

Definition RUNTIME_WRITER_LEASE_SCHEMA : string := "workspace-runtime-writer-lease/v1".
Definition LEASE_STATUSES : list string := ["ACTIVE"; "RELEASED"].

Definition wl_fail {A} (msg : string) : result A := raise RuntimeWriterLeaseError msg.
Definition wl_fail_if (b : bool) (msg : string) : result unit := raise_if b RuntimeWriterLeaseError msg.

Definition Lease_canonical_json : json → result string :=
  canonical_json RuntimeWriterLeaseError "WRITER_LEASE_NOT_CANONICAL_JSON".
Definition Lease_digest `{Hashlib} : json → result string :=
  digest RuntimeWriterLeaseError "WRITER_LEASE_NOT_CANONICAL_JSON".

(** The fields of a lease are checked whatever their type: they may come from a stored payload. *)
Definition Lease_compact_id (value : json) (field : string) : result string :=
  match value with JStr s => compact_id RuntimeWriterLeaseError s field | _ => wl_fail (invalid field) end.
Definition Lease_sha256 (value : json) (field : string) : result string :=
  match value with JStr s => sha256_ref RuntimeWriterLeaseError s field | _ => wl_fail (invalid field) end.

(** Only the text [_utc_now] would write for the instant is accepted. *)
Definition Lease_timestamp (value : json) (field : string) : result string :=
  match value with
  | JStr s =>
      wl_fail_if (is_empty s || negb (bool_decide (s = strip s))) (invalid field) ;;
      match fromisoformat (normalize_zulu s) with
      | None => wl_fail (invalid field)
      | Some parsed =>
          wl_fail_if (is_none (dt_offset parsed)) (upper field +:+ "_MUST_BE_TIMEZONE_AWARE") ;;
          canonical ← utc_isoformat parsed;
          wl_fail_if (negb (bool_decide (canonical = s))) (upper field +:+ "_MUST_BE_NORMALIZED_UTC") ;;
          Ok s
      end
  | _ => wl_fail (invalid field)
  end.

(** ** Leases *)

Record RuntimeWriterLease := {
  wl_task_id : string;
  wl_plan_fingerprint : string;
  wl_run_id : string;
  wl_generation : Z;
  wl_issued_at : string;
  wl_status : string;
  wl_released_at : option string;
  wl_schema_version : string
}.

#[export] Instance RuntimeWriterLease_eq_dec : EqDecision RuntimeWriterLease.
Proof. solve_decision. Defined.

(** [validate] on the raw fields; [status not in _STATUSES] hashes the status. *)
Definition validate_fields (task_id plan_fingerprint run_id generation issued_at status released_at schema : json)
    : result RuntimeWriterLease :=
  wl_fail_if (negb (is_str schema RUNTIME_WRITER_LEASE_SCHEMA)) "WRITER_LEASE_SCHEMA_VERSION_MISMATCH" ;;
  task ← Lease_compact_id task_id "task_id";
  plan ← Lease_sha256 plan_fingerprint "plan_fingerprint";
  run ← Lease_compact_id run_id "run_id";
  number ← match generation with
           | JInt z => wl_fail_if (z <? 1) "INVALID_WRITER_GENERATION" ;; Ok z
           | _ => wl_fail "INVALID_WRITER_GENERATION"
           end;
  state ← match status with
          | JStr s => wl_fail_if (negb (mem_str s LEASE_STATUSES)) "INVALID_WRITER_LEASE_STATUS" ;; Ok s
          | JList _ => raise PyTypeError "unhashable type: 'list'"
          | JObj _ => raise PyTypeError "unhashable type: 'dict'"
          | _ => wl_fail "INVALID_WRITER_LEASE_STATUS"
          end;
  issued ← Lease_timestamp issued_at "issued_at";
  let lease released := {|
    wl_task_id := task; wl_plan_fingerprint := plan; wl_run_id := run; wl_generation := number;
    wl_issued_at := issued; wl_status := state; wl_released_at := released;
    wl_schema_version := RUNTIME_WRITER_LEASE_SCHEMA |} in
  if bool_decide (state = "ACTIVE") then
    match released_at with
    | JNull => Ok (lease None)
    | _ => wl_fail "ACTIVE_WRITER_LEASE_HAS_RELEASE_TIME"
    end
  else
    match released_at with
    | JNull => wl_fail "RELEASED_WRITER_LEASE_MISSING_RELEASE_TIME"
    | v =>
        released ← Lease_timestamp v "released_at";
        issued_instant ← instant_of issued;
        released_instant ← instant_of released;
        wl_fail_if (released_instant <? issued_instant) "WRITER_LEASE_RELEASE_PRECEDES_ISSUE" ;;
        Ok (lease (Some released))
    end.

Definition RuntimeWriterLease_validate (l : RuntimeWriterLease) : result RuntimeWriterLease :=
  validate_fields (JStr (wl_task_id l)) (JStr (wl_plan_fingerprint l)) (JStr (wl_run_id l)) (JInt (wl_generation l))
    (JStr (wl_issued_at l)) (JStr (wl_status l)) (json_opt_str (wl_released_at l)) (JStr (wl_schema_version l)).

Definition lease_items (l : RuntimeWriterLease) : list (string * json) := [
  ("schema_version", JStr (wl_schema_version l)); ("task_id", JStr (wl_task_id l));
  ("plan_fingerprint", JStr (wl_plan_fingerprint l)); ("run_id", JStr (wl_run_id l));
  ("generation", JInt (wl_generation l)); ("issued_at", JStr (wl_issued_at l)); ("status", JStr (wl_status l));
  ("released_at", json_opt_str (wl_released_at l))].

Definition RuntimeWriterLease_canonical_dict (l : RuntimeWriterLease) : result json :=
  RuntimeWriterLease_validate l ;; Ok (JObj (lease_items l)).

Definition LEASE_KEYS : list string := [
  "schema_version"; "task_id"; "plan_fingerprint"; "run_id"; "generation"; "issued_at"; "status"; "released_at"].

(** ** The tables *)

Record lease_row := {
  lr_run_id : string; lr_generation : Z; lr_status : string; lr_lease_json : string; lr_lease_sha256 : string;
  lr_updated_at : string
}.
Record lease_event_row := {
  lv_task_id : string; lv_plan_fingerprint : string; lv_event_type : string; lv_run_id : string; lv_generation : Z;
  lv_payload_json : string; lv_payload_sha256 : string; lv_previous_hash : string; lv_event_hash : string;
  lv_recorded_at : string
}.

(** The current lease of each task and plan, and the log in the order of its sequence numbers. *)
Record LeaseTables := {
  lt_leases : gmap (string * string) lease_row;
  lt_events : list lease_event_row
}.
Definition no_leases : LeaseTables := {| lt_leases := ∅; lt_events := [] |}.

(** The database of the checkpoints with the lease tables, once they are created. *)
Record WriterDB := {
  wd_checkpoints : CheckpointStore;
  wd_leases : option LeaseTables
}.

Definition set_leases (t : LeaseTables) (s : WriterDB) : WriterDB := {|
  wd_checkpoints := wd_checkpoints s; wd_leases := Some t |}.

(** [with task_store.connect() as conn: conn.execute("BEGIN IMMEDIATE"); ...] *)
Definition db_transaction {A} (m : ST WriterDB A) : ST WriterDB A := λ s,
  if cs_locked (wd_checkpoints s) then (raise SqliteOperationalError "database is locked", s)
  else match m s with
       | (Ok a, s') => (Ok a, s')
       | (Raise e, _) => (Raise e, s)
       end.

Definition read_leases : ST WriterDB LeaseTables := λ s,
  (match wd_leases s with
   | Some t => Ok t
   | None => raise SqliteOperationalError "no such table: runtime_writer_leases"
   end, s).

Definition Leases_initialize : ST WriterDB unit := λ s,
  match wd_leases s with
  | Some _ => (Ok tt, s)
  | None =>
      if cs_locked (wd_checkpoints s) then (raise SqliteOperationalError "database is locked", s)
      else (Ok tt, set_leases no_leases s)
  end.

Definition Leases_require_task (task_id : string) : ST WriterDB unit :=
  s ← st_get;
  st_raise_if (bool_decide (task_id ∉ cs_tasks (wd_checkpoints s))) RuntimeWriterLeaseError "WRITER_LEASE_TASK_NOT_FOUND".

Section Repository.
Context {HL : Hashlib}.

Definition RuntimeWriterLease_fingerprint (l : RuntimeWriterLease) : result string :=
  payload ← RuntimeWriterLease_canonical_dict l; Lease_digest payload.

Definition _lease_from_row (task_id plan_fingerprint : string) (row : lease_row) : result RuntimeWriterLease :=
  payload ← reraise (loads (lr_lease_json row)) (is_class PyJSONDecodeError) RuntimeWriterLeaseError
              "WRITER_LEASE_JSON_INVALID";
  match payload with
  | JObj d =>
      canonical ← Lease_canonical_json payload;
      wl_fail_if (negb (bool_decide (canonical = lr_lease_json row))) "WRITER_LEASE_RECORD_NOT_CANONICAL" ;;
      sha256 ← Lease_digest payload;
      wl_fail_if (negb (bool_decide (sha256 = lr_lease_sha256 row))) "WRITER_LEASE_DIGEST_MISMATCH" ;;
      wl_fail_if (negb (has_keys d LEASE_KEYS)) "WRITER_LEASE_RECORD_SHAPE_INVALID" ;;
      lease ← reraise
        (validate_fields (get d "task_id") (get d "plan_fingerprint") (get d "run_id") (get d "generation")
           (get d "issued_at") (get d "status") (get d "released_at") (get d "schema_version"))
        (is_class PyTypeError) RuntimeWriterLeaseError "WRITER_LEASE_RECORD_SHAPE_INVALID";
      fingerprint ← RuntimeWriterLease_fingerprint lease;
      wl_fail_if (negb (bool_decide (fingerprint = lr_lease_sha256 row))) "WRITER_LEASE_FINGERPRINT_MISMATCH" ;;
      wl_fail_if (negb (bool_decide (task_id = wl_task_id lease))
                  || negb (bool_decide (plan_fingerprint = wl_plan_fingerprint lease))
                  || negb (bool_decide (lr_run_id row = wl_run_id lease))
                  || negb (lr_generation row =? wl_generation lease)
                  || negb (bool_decide (lr_status row = wl_status lease))) "WRITER_LEASE_INDEX_MISMATCH" ;;
      Ok lease
  | _ => wl_fail "WRITER_LEASE_RECORD_NOT_OBJECT"
  end.

Definition lease_event_hash (r : lease_event_row) : result string :=
  Lease_digest (JObj [
    ("task_id", JStr (lv_task_id r)); ("plan_fingerprint", JStr (lv_plan_fingerprint r));
    ("event_type", JStr (lv_event_type r)); ("run_id", JStr (lv_run_id r)); ("generation", JInt (lv_generation r));
    ("payload_json", JStr (lv_payload_json r)); ("payload_sha256", JStr (lv_payload_sha256 r));
    ("previous_hash", JStr (lv_previous_hash r)); ("recorded_at", JStr (lv_recorded_at r))]).

Definition lease_event_in (task_id plan_fingerprint : string) (r : lease_event_row) : bool :=
  in_scope task_id plan_fingerprint (lv_task_id r) (lv_plan_fingerprint r).

Definition lease_chain_head (events : list lease_event_row) (task_id plan_fingerprint : string) : string :=
  match last (List.filter (lease_event_in task_id plan_fingerprint) events) with
  | Some e => lv_event_hash e
  | None => ZERO_HASH
  end.

Definition set_event_hash (hash : string) (r : lease_event_row) : lease_event_row := {|
  lv_task_id := lv_task_id r; lv_plan_fingerprint := lv_plan_fingerprint r; lv_event_type := lv_event_type r;
  lv_run_id := lv_run_id r; lv_generation := lv_generation r; lv_payload_json := lv_payload_json r;
  lv_payload_sha256 := lv_payload_sha256 r; lv_previous_hash := lv_previous_hash r; lv_event_hash := hash;
  lv_recorded_at := lv_recorded_at r |}.

Definition append_lease_event (lease : RuntimeWriterLease) (event_type recorded_at : string) : ST WriterDB unit :=
  fingerprint ← st_lift (RuntimeWriterLease_fingerprint lease);
  let payload := JObj [("lease_fingerprint", JStr fingerprint); ("status", JStr (wl_status lease))] in
  payload_json ← st_lift (Lease_canonical_json payload);
  payload_sha256 ← st_lift (Lease_digest payload);
  tables ← read_leases;
  let row := {|
    lv_task_id := wl_task_id lease; lv_plan_fingerprint := wl_plan_fingerprint lease; lv_event_type := event_type;
    lv_run_id := wl_run_id lease; lv_generation := wl_generation lease; lv_payload_json := payload_json;
    lv_payload_sha256 := payload_sha256;
    lv_previous_hash := lease_chain_head (lt_events tables) (wl_task_id lease) (wl_plan_fingerprint lease);
    lv_event_hash := ""; lv_recorded_at := recorded_at |} in
  event_hash ← st_lift (lease_event_hash row);
  st_lift (sqlite_int (wl_generation lease)) ;;
  st_modify (set_leases {| lt_leases := lt_leases tables; lt_events := lt_events tables ++ [set_event_hash event_hash row] |}).

(** The row of a lease, written over the row of its task and plan. *)
Definition write_lease (lease : RuntimeWriterLease) (lease_json lease_sha256 timestamp : string) : ST WriterDB unit :=
  tables ← read_leases;
  st_lift (sqlite_int (wl_generation lease)) ;;
  st_modify (set_leases {|
    lt_leases := <[(wl_task_id lease, wl_plan_fingerprint lease) := {|
      lr_run_id := wl_run_id lease; lr_generation := wl_generation lease; lr_status := wl_status lease;
      lr_lease_json := lease_json; lr_lease_sha256 := lease_sha256; lr_updated_at := timestamp |}]> (lt_leases tables);
    lt_events := lt_events tables |}).

(** Validate a lease, write its row and its event; a release leaves the run and the generation of the row. *)
Definition store_lease (lease : RuntimeWriterLease) (event_type timestamp : string) : ST WriterDB RuntimeWriterLease :=
  lease ← st_lift (RuntimeWriterLease_validate lease);
  payload ← st_lift (RuntimeWriterLease_canonical_dict lease);
  lease_json ← st_lift (Lease_canonical_json payload);
  lease_sha256 ← st_lift (RuntimeWriterLease_fingerprint lease);
  write_lease lease lease_json lease_sha256 timestamp ;;
  append_lease_event lease event_type timestamp ;;
  mret lease.

Definition new_lease (task plan run : string) (generation : Z) (timestamp : string) : RuntimeWriterLease := {|
  wl_task_id := task; wl_plan_fingerprint := plan; wl_run_id := run; wl_generation := generation;
  wl_issued_at := timestamp; wl_status := "ACTIVE"; wl_released_at := None;
  wl_schema_version := RUNTIME_WRITER_LEASE_SCHEMA |}.

Definition claim (task_id plan_fingerprint run_id : string) (issued_at : option string) : ST WriterDB RuntimeWriterLease :=
  task ← st_lift (Lease_compact_id (JStr task_id) "task_id");
  plan ← st_lift (Lease_sha256 (JStr plan_fingerprint) "plan_fingerprint");
  run ← st_lift (Lease_compact_id (JStr run_id) "run_id");
  s ← st_get;
  timestamp ← st_lift (match issued_at with
                       | Some t => Lease_timestamp (JStr t) "issued_at"
                       | None => Ok (cs_now (wd_checkpoints s))
                       end);
  db_transaction (
    Leases_require_task task ;;
    tables ← read_leases;
    match lt_leases tables !! (task, plan) with
    | Some row =>
        current ← st_lift (_lease_from_row task plan row);
        if bool_decide (wl_status current = "ACTIVE") && bool_decide (wl_run_id current = run) then mret current
        else store_lease (new_lease task plan run (wl_generation current + 1) timestamp) "WRITER_CLAIMED" timestamp
    | None => store_lease (new_lease task plan run 1 timestamp) "WRITER_CLAIMED" timestamp
    end).

Definition current (task_id plan_fingerprint : string) : ST WriterDB (option RuntimeWriterLease) :=
  task ← st_lift (Lease_compact_id (JStr task_id) "task_id");
  plan ← st_lift (Lease_sha256 (JStr plan_fingerprint) "plan_fingerprint");
  Leases_require_task task ;;
  tables ← read_leases;
  match lt_leases tables !! (task, plan) with
  | None => mret None
  | Some row => lease ← st_lift (_lease_from_row task plan row); mret (Some lease)
  end.

Definition require_current_in_transaction (lease : RuntimeWriterLease) : ST WriterDB RuntimeWriterLease :=
  st_lift (RuntimeWriterLease_validate lease) ;;
  st_raise_if (negb (bool_decide (wl_status lease = "ACTIVE"))) RuntimeWriterLeaseError "WRITER_LEASE_NOT_ACTIVE" ;;
  tables ← read_leases;
  match lt_leases tables !! (wl_task_id lease, wl_plan_fingerprint lease) with
  | None => st_lift (wl_fail "WRITER_LEASE_NOT_FOUND")
  | Some row =>
      current ← st_lift (_lease_from_row (wl_task_id lease) (wl_plan_fingerprint lease) row);
      st_raise_if (negb (bool_decide (wl_status current = "ACTIVE"))) RuntimeWriterLeaseError "WRITER_LEASE_NOT_ACTIVE" ;;
      current_fingerprint ← st_lift (RuntimeWriterLease_fingerprint current);
      fingerprint ← st_lift (RuntimeWriterLease_fingerprint lease);
      st_raise_if (negb (bool_decide (current_fingerprint = fingerprint))) RuntimeWriterLeaseError "WRITER_LEASE_STALE" ;;
      mret current
  end.

(** A read of its own: no write lock. *)
Definition require_current (lease : RuntimeWriterLease) : ST WriterDB RuntimeWriterLease :=
  require_current_in_transaction lease.

Definition released_lease (current : RuntimeWriterLease) (timestamp : string) : RuntimeWriterLease := {|
  wl_task_id := wl_task_id current; wl_plan_fingerprint := wl_plan_fingerprint current;
  wl_run_id := wl_run_id current; wl_generation := wl_generation current; wl_issued_at := wl_issued_at current;
  wl_status := "RELEASED"; wl_released_at := Some timestamp; wl_schema_version := RUNTIME_WRITER_LEASE_SCHEMA |}.

Definition release (lease : RuntimeWriterLease) (released_at : option string) : ST WriterDB RuntimeWriterLease :=
  st_lift (RuntimeWriterLease_validate lease) ;;
  st_raise_if (negb (bool_decide (wl_status lease = "ACTIVE"))) RuntimeWriterLeaseError "WRITER_LEASE_NOT_ACTIVE" ;;
  s ← st_get;
  timestamp ← st_lift (match released_at with
                       | Some t => Lease_timestamp (JStr t) "released_at"
                       | None => Ok (cs_now (wd_checkpoints s))
                       end);
  db_transaction (
    Leases_require_task (wl_task_id lease) ;;
    tables ← read_leases;
    match lt_leases tables !! (wl_task_id lease, wl_plan_fingerprint lease) with
    | None => st_lift (wl_fail "WRITER_LEASE_NOT_FOUND")
    | Some row =>
        current ← st_lift (_lease_from_row (wl_task_id lease) (wl_plan_fingerprint lease) row);
        st_raise_if (negb (bool_decide (wl_run_id current = wl_run_id lease)
                           && (wl_generation current =? wl_generation lease)
                           && bool_decide (wl_issued_at current = wl_issued_at lease)))
          RuntimeWriterLeaseError "WRITER_LEASE_STALE" ;;
        if bool_decide (wl_status current = "RELEASED") then mret current
        else
          current_fingerprint ← st_lift (RuntimeWriterLease_fingerprint current);
          fingerprint ← st_lift (RuntimeWriterLease_fingerprint lease);
          st_raise_if (negb (bool_decide (current_fingerprint = fingerprint))) RuntimeWriterLeaseError
            "WRITER_LEASE_STALE" ;;
          store_lease (released_lease current timestamp) "WRITER_RELEASED" timestamp
    end).

Fixpoint verify_lease_rows (previous_hash : string) (rows : list lease_event_row) : result bool :=
  match rows with
  | [] => Ok true
  | row :: rows =>
      match loads (lv_payload_json row) with
      | Raise e => if is_class PyJSONDecodeError (exn_cls e) then Ok false else Raise e
      | Ok payload =>
          match payload with
          | JObj _ =>
              canonical ← Lease_canonical_json payload;
              if negb (bool_decide (canonical = lv_payload_json row)) then Ok false
              else
                payload_sha256 ← Lease_digest payload;
                if negb (bool_decide (lv_payload_sha256 row = payload_sha256)) then Ok false
                else if negb (bool_decide (lv_previous_hash row = previous_hash)) then Ok false
                else
                  expected ← lease_event_hash row;
                  if negb (bool_decide (lv_event_hash row = expected)) then Ok false
                  else verify_lease_rows expected rows
          | _ => Ok false
          end
      end
  end.

Definition verify_lease_events (task_id plan_fingerprint : string) : ST WriterDB bool :=
  task ← st_lift (Lease_compact_id (JStr task_id) "task_id");
  plan ← st_lift (Lease_sha256 (JStr plan_fingerprint) "plan_fingerprint");
  tables ← read_leases;
  st_lift (verify_lease_rows ZERO_HASH (List.filter (lease_event_in task plan) (lt_events tables))).
End Repository.

(** ** What the repository offers *)

Class LeaseRepository (S : Type) := {
  lease_claim : string → string → string → option string → ST S RuntimeWriterLease;
  lease_current : string → string → ST S (option RuntimeWriterLease);
  lease_require : RuntimeWriterLease → ST S RuntimeWriterLease;
  lease_release : RuntimeWriterLease → option string → ST S RuntimeWriterLease;
  lease_verify : string → string → ST S bool
}.

#[export] Instance RuntimeWriterLeaseRepository `{Hashlib} : LeaseRepository WriterDB := {
  lease_claim := claim; lease_current := current; lease_require := require_current; lease_release := release;
  lease_verify := verify_lease_events
}.
