(* ===== verification/LeaseFacts.v ===== *)
(** * Writer leases: the book behind the table

    A plain map from task and plan to the current lease, the operations on it, and the lemmas that the
    lease table and its event chain implement it. *)

From Stdlib Require Import Ascii.
From Stdlib Require String.
From S2P Require Import Prelude PyStr Hashlib PyFloat Json JsonFacts PyTime Validators CapabilityAuthority WorkflowDesign.
From S2P Require Import TaskContext ExecutionPlan ExecutionObservation ExecutionCheckpoint CheckpointFacts CheckpointLog.
From S2P Require Import WriterLease.

Local Open Scope Z_scope.

(** ** Valid leases *)

Lemma lease_compact_ok v f x : Lease_compact_id v f = Ok x → v = JStr x.
Proof. destruct v; try done. cbn. by intros (-> & _)%compact_id_ok. Qed.
Lemma lease_sha256_ok v f x : Lease_sha256 v f = Ok x → v = JStr x.
Proof. destruct v; try done. cbn. by intros (-> & _)%sha256_ref_ok. Qed.
Lemma lease_timestamp_ok v f x : Lease_timestamp v f = Ok x → v = JStr x.
Proof.
  destruct v; try done. unfold Lease_timestamp, wl_fail_if. rewrite guard_bind_ok. intros [_ H].
  destruct (fromisoformat _); [|done]. apply guard_bind_ok in H as [_ H]. apply bind_ok_iff in H as (? & _ & H).
  rewrite guard_bind_ok in H. naive_solver.
Qed.

(** Validation returns the fields it was given. *)
Lemma validate_fields_ok task plan run generation issued status released schema l :
  validate_fields task plan run generation issued status released schema = Ok l →
  task = JStr (wl_task_id l) ∧ plan = JStr (wl_plan_fingerprint l) ∧ run = JStr (wl_run_id l)
  ∧ generation = JInt (wl_generation l) ∧ issued = JStr (wl_issued_at l) ∧ status = JStr (wl_status l)
  ∧ released = json_opt_str (wl_released_at l) ∧ schema = JStr (wl_schema_version l)
  ∧ 1 ≤ wl_generation l ∧ wl_status l ∈ LEASE_STATUSES.
Proof.
  unfold validate_fields, wl_fail_if. rewrite guard_bind_ok. intros [Hschema H].
  apply bind_ok_iff in H as (t & ->%lease_compact_ok & H). apply bind_ok_iff in H as (p & ->%lease_sha256_ok & H).
  apply bind_ok_iff in H as (r & ->%lease_compact_ok & H). apply bind_ok_iff in H as (g & Hg & H).
  apply bind_ok_iff in H as (st & Hst & H). apply bind_ok_iff in H as (i & ->%lease_timestamp_ok & H). cbv zeta in H.
  destruct generation as [| |g'| | | |]; try done. apply guard_bind_ok in Hg as [Hg [= ->]]. apply Z.ltb_ge in Hg.
  destruct status as [| | | |st'| |]; try done. apply guard_bind_ok in Hst as [Hst [= ->]].
  apply negb_false_iff, mem_str_true in Hst.
  assert (schema = JStr RUNTIME_WRITER_LEASE_SCHEMA) as ->. { destruct schema; cbn in Hschema; try done. by bool_prop; subst. }
  destruct (bool_decide (st = "ACTIVE")).
  - destruct released; try done. injection H as <-. done.
  - destruct released as [| | | |rel| |]; try done; try by apply bind_ok_iff in H as (? & ? & _).
    apply bind_ok_iff in H as (rel' & [= ->]%lease_timestamp_ok & H). apply bind_ok_iff in H as (? & _ & H).
    apply bind_ok_iff in H as (? & _ & H). apply guard_bind_ok in H as [_ [= <-]]. done.
Qed.

Lemma json_opt_str_inj a b : json_opt_str a = json_opt_str b → a = b.
Proof. destruct a, b; cbn; congruence. Qed.

Lemma validate_lease_ok l x : RuntimeWriterLease_validate l = Ok x → x = l.
Proof.
  intros H. apply validate_fields_ok in H as (H1 & H2 & H3 & H4 & H5 & H6 & H7 & H8 & _).
  apply json_opt_str_inj in H7. destruct l, x. cbn in *. congruence.
Qed.

Definition lease_valid (l : RuntimeWriterLease) : Prop := RuntimeWriterLease_validate l = Ok l.
Definition lease_key (l : RuntimeWriterLease) : string * string := (wl_task_id l, wl_plan_fingerprint l).

Lemma lease_valid_intro l x : RuntimeWriterLease_validate l = Ok x → lease_valid l.
Proof. intros H. unfold lease_valid. by rewrite H, (validate_lease_ok _ _ H). Qed.

Lemma valid_generation l : lease_valid l → 1 ≤ wl_generation l.
Proof. intros H. by apply validate_fields_ok in H as (_ & _ & _ & _ & _ & _ & _ & _ & ? & _). Qed.
Lemma valid_status l : lease_valid l → wl_status l = "ACTIVE" ∨ wl_status l = "RELEASED".
Proof. intros H. apply validate_fields_ok in H as (_ & _ & _ & _ & _ & _ & _ & _ & _ & H). unfold LEASE_STATUSES in H. set_solver. Qed.

(** ** The row of a lease *)

Section Rows.
Context {HL : Hashlib}.

Definition lease_text (l : RuntimeWriterLease) : string := print (JObj (lease_items l)).
Definition lease_sha (l : RuntimeWriterLease) : string := sha256_of_text (lease_text l).

Lemma lease_items_ok l : json_ok (JObj (lease_items l)) = true.
Proof. destruct l as [? ? ? ? ? ? [?|] ?]; reflexivity. Qed.

Lemma lease_json_ok v : json_ok v = true → Lease_canonical_json v = Ok (print v).
Proof. intros Hv. unfold Lease_canonical_json, canonical_json. by rewrite dumps_ok. Qed.
Lemma lease_digest_ok v : json_ok v = true → Lease_digest v = Ok (sha256_of_text (print v)).
Proof. intros Hv. unfold Lease_digest, digest, canonical_json. by rewrite dumps_ok. Qed.

Lemma lease_dict_ok l : lease_valid l → RuntimeWriterLease_canonical_dict l = Ok (JObj (lease_items l)).
Proof. intros H. unfold RuntimeWriterLease_canonical_dict. by rewrite H. Qed.
Lemma lease_fingerprint_ok l : lease_valid l → RuntimeWriterLease_fingerprint l = Ok (lease_sha l).
Proof. intros H. unfold RuntimeWriterLease_fingerprint. rewrite lease_dict_ok by done. by apply lease_digest_ok, lease_items_ok. Qed.

Definition row_of_lease (l : RuntimeWriterLease) (now : string) : lease_row := {|
  lr_run_id := wl_run_id l; lr_generation := wl_generation l; lr_status := wl_status l; lr_lease_json := lease_text l;
  lr_lease_sha256 := lease_sha l; lr_updated_at := now |}.

(** A lease is read back from its row. *)
Lemma lease_row_read l now : lease_valid l →
  _lease_from_row (wl_task_id l) (wl_plan_fingerprint l) (row_of_lease l now) = Ok l.
Proof.
  intros Hl. pose proof (lease_items_ok l) as Hok. unfold _lease_from_row. cbn [row_of_lease lr_lease_json lr_lease_sha256].
  unfold lease_text. rewrite (loads_dumps _ _ Hok (dumps_ok _ Hok)). cbn [reraise catch mbind result_bind].
  change (canon (JObj (lease_items l))) with (JObj (canon_items (lease_items l))). cbv iota.
  change (JObj (canon_items (lease_items l))) with (canon (JObj (lease_items l))).
  rewrite lease_json_ok, lease_digest_ok by (by apply json_ok_canon). rewrite print_canon. cbn [mbind result_bind].
  rewrite !(bool_decide_true (_ = _)) by done. cbn [negb wl_fail_if raise_if mbind result_bind].
  assert (NoDup (lease_items l).*1) as Hd by (apply (proj1 (bool_decide_eq_true _)); reflexivity).
  rewrite has_keys_canon, !get_canon by done. unfold lease_items. read_items. rewrite canon_opt_str. cbn [canon].
  change (has_keys _ LEASE_KEYS) with true. cbn [negb wl_fail_if raise_if mbind result_bind].
  fold (RuntimeWriterLease_validate l). rewrite Hl. cbn [reraise catch mbind result_bind].
  rewrite lease_fingerprint_ok by done. cbn [mbind result_bind]. rewrite !(bool_decide_true (_ = _)) by done.
  cbn [row_of_lease lr_generation]. by rewrite Z.eqb_refl.
Qed.

(** ** The event chain *)

Definition lease_event_digest (r : lease_event_row) : string := sha256_of_text (print (JObj [
  ("task_id", JStr (lv_task_id r)); ("plan_fingerprint", JStr (lv_plan_fingerprint r));
  ("event_type", JStr (lv_event_type r)); ("run_id", JStr (lv_run_id r)); ("generation", JInt (lv_generation r));
  ("payload_json", JStr (lv_payload_json r)); ("payload_sha256", JStr (lv_payload_sha256 r));
  ("previous_hash", JStr (lv_previous_hash r)); ("recorded_at", JStr (lv_recorded_at r))])).

Lemma lease_event_hash_ok r : lease_event_hash r = Ok (lease_event_digest r).
Proof. unfold lease_event_hash. by rewrite lease_digest_ok by reflexivity. Qed.

Definition lease_event_follows (previous : string) (r : lease_event_row) : Prop := ∃ d, json_ok (JObj d) = true
  ∧ lv_payload_json r = print (JObj d) ∧ lv_payload_sha256 r = sha256_of_text (print (JObj d))
  ∧ lv_previous_hash r = previous ∧ lv_event_hash r = lease_event_digest r.

Fixpoint lease_chained (previous : string) (rows : list lease_event_row) : Prop :=
  match rows with [] => True | r :: rows => lease_event_follows previous r ∧ lease_chained (lv_event_hash r) rows end.

Lemma lease_chained_verifies previous rows : lease_chained previous rows → verify_lease_rows previous rows = Ok true.
Proof.
  revert previous. induction rows as [|r rows IH]; intros previous; [done|]. intros [(d & Hok & Ht & Hs & Hp & Hh) Hrows].
  cbn [verify_lease_rows]. rewrite Ht, (loads_dumps _ _ Hok (dumps_ok _ Hok)).
  change (canon (JObj d)) with (JObj (canon_items d)). cbv iota. change (JObj (canon_items d)) with (canon (JObj d)).
  rewrite lease_json_ok, lease_digest_ok by (by apply json_ok_canon). rewrite print_canon. cbn [mbind result_bind].
  rewrite Hs, Hp, lease_event_hash_ok, Hh, !bool_decide_true by done. cbn [negb mbind result_bind].
  rewrite bool_decide_true by done. cbn [negb]. rewrite <- Hh. auto.
Qed.

Lemma lease_chained_snoc previous rows r : lease_chained previous rows →
  lease_event_follows (match last rows with Some e => lv_event_hash e | None => previous end) r →
  lease_chained previous (rows ++ [r]).
Proof.
  revert previous. induction rows as [|x rows IH]; intros previous; [done|]. intros [Hx Hrows] Hr. cbn [app lease_chained].
  split; [done|]. apply IH; [done|]. rewrite last_cons in Hr. by destruct (last rows).
Qed.

Definition lease_chains (events : list lease_event_row) : Prop := ∀ task plan,
  lease_chained ZERO_HASH (List.filter (lease_event_in task plan) events).

Lemma lease_chains_snoc events r : lease_chains events →
  lease_event_follows (lease_chain_head events (lv_task_id r) (lv_plan_fingerprint r)) r → lease_chains (events ++ [r]).
Proof.
  intros Hc Hr task plan. rewrite List.filter_app. cbn [List.filter].
  destruct (lease_event_in task plan r) eqn:Hin; [|rewrite app_nil_r; apply Hc].
  unfold lease_event_in in Hin. apply in_scope_iff in Hin as [Ht Hp]. apply lease_chained_snoc; [apply Hc|].
  unfold lease_chain_head in Hr. by rewrite Ht, Hp in Hr.
Qed.
End Rows.

(** ** The book *)

Notation book := (gmap (string * string) RuntimeWriterLease).

Record WriterBook := {
  wb_tasks : gset string;
  wb_leases : book;
  wb_now : string;
  wb_locked : bool
}.

Section Book.
Context {HL : Hashlib}.

Definition store_in_book (l : RuntimeWriterLease) (m : book) : result (RuntimeWriterLease * book) :=
  RuntimeWriterLease_validate l ;;
  sqlite_int (wl_generation l) ;;
  Ok (l, <[lease_key l := l]> m).

(** The holder keeps its lease; another run, or the holder after its release, gets the next generation. *)
Definition book_claim (task plan run timestamp : string) (m : book) : result (RuntimeWriterLease * book) :=
  match m !! (task, plan) with
  | Some held =>
      if bool_decide (wl_status held = "ACTIVE") && bool_decide (wl_run_id held = run) then Ok (held, m)
      else store_in_book (new_lease task plan run (wl_generation held + 1) timestamp) m
  | None => store_in_book (new_lease task plan run 1 timestamp) m
  end.

(** A lease is accepted while it is the one in the book, and active. *)
Definition book_require (l : RuntimeWriterLease) (m : book) : result RuntimeWriterLease :=
  RuntimeWriterLease_validate l ;;
  wl_fail_if (negb (bool_decide (wl_status l = "ACTIVE"))) "WRITER_LEASE_NOT_ACTIVE" ;;
  match m !! lease_key l with
  | None => wl_fail "WRITER_LEASE_NOT_FOUND"
  | Some held =>
      wl_fail_if (negb (bool_decide (wl_status held = "ACTIVE"))) "WRITER_LEASE_NOT_ACTIVE" ;;
      wl_fail_if (negb (bool_decide (lease_sha held = lease_sha l))) "WRITER_LEASE_STALE" ;;
      Ok held
  end.

Definition same_grant (held l : RuntimeWriterLease) : bool :=
  bool_decide (wl_run_id held = wl_run_id l) && (wl_generation held =? wl_generation l)
  && bool_decide (wl_issued_at held = wl_issued_at l).

Definition book_release (l : RuntimeWriterLease) (timestamp : string) (m : book) : result (RuntimeWriterLease * book) :=
  match m !! lease_key l with
  | None => wl_fail "WRITER_LEASE_NOT_FOUND"
  | Some held =>
      wl_fail_if (negb (same_grant held l)) "WRITER_LEASE_STALE" ;;
      if bool_decide (wl_status held = "RELEASED") then Ok (held, m)
      else
        wl_fail_if (negb (bool_decide (lease_sha held = lease_sha l))) "WRITER_LEASE_STALE" ;;
        store_in_book (released_lease held timestamp) m
  end.

Definition book_require_task (task : string) (b : WriterBook) : result unit :=
  wl_fail_if (bool_decide (task ∉ wb_tasks b)) "WRITER_LEASE_TASK_NOT_FOUND".

Definition book_transaction {A} (f : WriterBook → result (A * book)) : ST WriterBook A := λ b,
  if wb_locked b then (raise SqliteOperationalError "database is locked", b)
  else match f b with
       | Ok (x, m) => (Ok x, {| wb_tasks := wb_tasks b; wb_leases := m; wb_now := wb_now b; wb_locked := false |})
       | Raise e => (Raise e, b)
       end.

(** A given time is checked, the clock is taken as it is. *)
Definition book_time (given : option string) (field : string) (b : WriterBook) : result string :=
  match given with Some t => Lease_timestamp (JStr t) field | None => Ok (wb_now b) end.

#[export] Instance BookRepository : LeaseRepository WriterBook := {
  lease_claim task plan run issued_at :=
    st_lift (Lease_compact_id (JStr task) "task_id") ;; st_lift (Lease_sha256 (JStr plan) "plan_fingerprint") ;;
    st_lift (Lease_compact_id (JStr run) "run_id") ;;
    b ← st_get;
    timestamp ← st_lift (book_time issued_at "issued_at" b);
    book_transaction (λ b, book_require_task task b ;; book_claim task plan run timestamp (wb_leases b));
  lease_current task plan :=
    st_lift (Lease_compact_id (JStr task) "task_id") ;; st_lift (Lease_sha256 (JStr plan) "plan_fingerprint") ;;
    b ← st_get;
    st_lift (book_require_task task b) ;;
    mret (wb_leases b !! (task, plan));
  lease_require l := b ← st_get; st_lift (book_require l (wb_leases b));
  lease_release l released_at :=
    st_lift (RuntimeWriterLease_validate l) ;;
    st_raise_if (negb (bool_decide (wl_status l = "ACTIVE"))) RuntimeWriterLeaseError "WRITER_LEASE_NOT_ACTIVE" ;;
    b ← st_get;
    timestamp ← st_lift (book_time released_at "released_at" b);
    book_transaction (λ b, book_require_task (wl_task_id l) b ;; book_release l timestamp (wb_leases b));
  lease_verify task plan :=
    st_lift (Lease_compact_id (JStr task) "task_id") ;; st_lift (Lease_sha256 (JStr plan) "plan_fingerprint") ;; mret true
}.

(** ** The table implements the book *)

Definition book_row (key : string * string) (r : lease_row) (l : RuntimeWriterLease) : Prop :=
  lease_valid l ∧ lease_key l = key ∧ ∃ now, r = row_of_lease l now.

Definition book_table (t : LeaseTables) (m : book) : Prop :=
  (∀ key, option_Forall2 (book_row key) (lt_leases t !! key) (m !! key)) ∧ lease_chains (lt_events t).

Record books (s : WriterDB) (b : WriterBook) : Prop := {
  bk_tasks : cs_tasks (wd_checkpoints s) = wb_tasks b;
  bk_now : cs_now (wd_checkpoints s) = wb_now b;
  bk_locked : cs_locked (wd_checkpoints s) = wb_locked b;
  bk_table : ∃ t, wd_leases s = Some t ∧ book_table t (wb_leases b)
}.

(** The same answer, states that still correspond, and nothing but the leases changed. *)
Definition book_simulates {A} (m : ST WriterDB A) (m' : ST WriterBook A) : Prop := ∀ s b, books s b →
  (m s).1 = (m' b).1 ∧ books (m s).2 (m' b).2 ∧ wd_checkpoints (m s).2 = wd_checkpoints s.

Lemma read_leases_run s t : wd_leases s = Some t → read_leases s = (Ok t, s).
Proof. unfold read_leases. by intros ->. Qed.

Lemma set_leases_same s t : wd_leases s = Some t → set_leases t s = s.
Proof. destruct s. unfold set_leases. cbn. by intros ->. Qed.

(** A lease that is stored is stored in the book, its event is on the chain. *)
Lemma append_lease_event_run s t l type ts z : lease_valid l → sqlite_int (wl_generation l) = Ok z →
  wd_leases s = Some t → lease_chains (lt_events t) →
  ∃ t', append_lease_event l type ts s = (Ok tt, set_leases t' s)
    ∧ lt_leases t' = lt_leases t ∧ lease_chains (lt_events t').
Proof.
  intros Hv Hz Ht Hchain. unfold append_lease_event.
  rewrite (lease_fingerprint_ok _ Hv), (st_bind_run (st_lift (Ok _)) _ s _ s) by done. cbv zeta.
  rewrite lease_json_ok, (st_bind_run (st_lift (Ok _)) _ s _ s) by done.
  rewrite lease_digest_ok, (st_bind_run (st_lift (Ok _)) _ s _ s) by done.
  rewrite (st_bind_run _ _ _ _ _ (read_leases_run _ _ Ht)), lease_event_hash_ok, (st_bind_run (st_lift (Ok _)) _ s _ s) by done.
  rewrite Hz, (st_bind_run (st_lift (Ok _)) _ s _ s) by done. eexists. split; [reflexivity|]. split; [done|].
  cbn [lt_events]. apply lease_chains_snoc; [done|]. eexists. split_and!; [|reflexivity..]. reflexivity.
Qed.

Lemma store_lease_run s t m l type ts : wd_leases s = Some t → book_table t m →
  match store_in_book l m with
  | Ok (x, m') => ∃ t', store_lease l type ts s = (Ok x, set_leases t' s) ∧ book_table t' m'
  | Raise e => ∃ s', store_lease l type ts s = (Raise e, s')
  end.
Proof.
  intros Ht [Hrows Hchain]. unfold store_in_book, store_lease.
  destruct (RuntimeWriterLease_validate l) as [x|e] eqn:Hv; [|by exists s].
  pose proof (validate_lease_ok _ _ Hv) as ->. cbn [mbind result_bind].
  rewrite (st_bind_run (st_lift (Ok _)) _ s _ s), (lease_dict_ok _ Hv), (st_bind_run (st_lift (Ok _)) _ s _ s) by done.
  rewrite lease_json_ok, (st_bind_run (st_lift (Ok _)) _ s _ s) by (done || apply lease_items_ok).
  rewrite (lease_fingerprint_ok _ Hv), (st_bind_run (st_lift (Ok _)) _ s _ s) by done. unfold write_lease.
  destruct (sqlite_int (wl_generation l)) as [z|e] eqn:Hz; cbn [mbind result_bind].
  2: { exists s. unfold mbind, st_bind. by rewrite (read_leases_run _ _ Ht). }
  set (t1 := {| lt_leases := <[lease_key l := row_of_lease l ts]> (lt_leases t); lt_events := lt_events t |}).
  destruct (append_lease_event_run (set_leases t1 s) t1 l type ts z Hv Hz eq_refl Hchain) as (t' & Happ & Hl & Hc).
  exists t'. split.
  - rewrite (st_bind_run _ _ _ tt (set_leases t1 s)).
    + by rewrite (st_bind_run _ _ _ _ _ Happ).
    + unfold mbind, st_bind. by rewrite (read_leases_run _ _ Ht).
  - split; [|done]. rewrite Hl. intros key. cbn [t1 lt_leases].
    destruct (decide (lease_key l = key)) as [<-|Hne]; [|by rewrite !lookup_insert_ne].
    rewrite !lookup_insert_eq. constructor. split_and!; [done..|]. by exists ts.
Qed.

(** A row of the table is the row of the lease in the book. *)
Lemma book_lookup t m task plan : book_table t m →
  match m !! (task, plan) with
  | Some l => ∃ now, lt_leases t !! (task, plan) = Some (row_of_lease l now) ∧ lease_valid l ∧ lease_key l = (task, plan)
      ∧ _lease_from_row task plan (row_of_lease l now) = Ok l
  | None => lt_leases t !! (task, plan) = None
  end.
Proof.
  intros [Hrows _]. destruct (Hrows (task, plan)) as [r l (Hv & Hk & now & ->)|]; [|done].
  exists now. split_and!; [done..|]. unfold lease_key in Hk. injection Hk as <- <-. by apply lease_row_read.
Qed.

Section Simulation.
Context (s : WriterDB) (b : WriterBook) (Hb : books s b).

Lemma book_task_run task : Leases_require_task task s = (book_require_task task b, s).
Proof. unfold Leases_require_task, book_require_task. by rewrite <- (bk_tasks _ _ Hb). Qed.

Lemma book_time_ok given field :
  match given with Some t => Lease_timestamp (JStr t) field | None => Ok (cs_now (wd_checkpoints s)) end
  = book_time given field b.
Proof. unfold book_time. by rewrite (bk_now _ _ Hb). Qed.

Lemma book_transaction_sim {A} (m : ST WriterDB A) (f : WriterBook → result (A * book)) :
  match f b with
  | Ok (x, leases) => ∃ t', m s = (Ok x, set_leases t' s) ∧ book_table t' leases
  | Raise e => ∃ s', m s = (Raise e, s')
  end →
  (db_transaction m s).1 = (book_transaction f b).1 ∧ books (db_transaction m s).2 (book_transaction f b).2
  ∧ wd_checkpoints (db_transaction m s).2 = wd_checkpoints s.
Proof.
  intros H. unfold db_transaction, book_transaction. rewrite (bk_locked _ _ Hb).
  destruct (wb_locked b) eqn:Hl; [done|]. destruct (f b) as [[x leases]|e].
  - destruct H as (t' & -> & Ht'). split_and!; [done| |done]. destruct Hb. constructor; cbn; try done; [congruence|]. by exists t'.
  - destruct H as [s' ->]. done.
Qed.
End Simulation.

(** What the body of a claim does once the task is known. *)
Lemma claim_body_run s t m task plan run ts : wd_leases s = Some t → book_table t m →
  match book_claim task plan run ts m with
  | Ok (x, m') => ∃ t', match lt_leases t !! (task, plan) with
        | Some row =>
            current ← st_lift (_lease_from_row task plan row);
            if bool_decide (wl_status current = "ACTIVE") && bool_decide (wl_run_id current = run) then mret current
            else store_lease (new_lease task plan run (wl_generation current + 1) ts) "WRITER_CLAIMED" ts
        | None => store_lease (new_lease task plan run 1 ts) "WRITER_CLAIMED" ts
        end s = (Ok x, set_leases t' s) ∧ book_table t' m'
  | Raise e => ∃ s', match lt_leases t !! (task, plan) with
        | Some row =>
            current ← st_lift (_lease_from_row task plan row);
            if bool_decide (wl_status current = "ACTIVE") && bool_decide (wl_run_id current = run) then mret current
            else store_lease (new_lease task plan run (wl_generation current + 1) ts) "WRITER_CLAIMED" ts
        | None => store_lease (new_lease task plan run 1 ts) "WRITER_CLAIMED" ts
        end s = (Raise e, s')
  end.
Proof.
  intros Ht Hm. unfold book_claim. pose proof (book_lookup t m task plan Hm) as Hl.
  destruct (m !! (task, plan)) as [held|]; [|rewrite Hl; by apply (store_lease_run s t m)].
  destruct Hl as (now & -> & _ & _ & Hread). rewrite Hread, (st_bind_run (st_lift (Ok _)) _ s _ s) by done.
  destruct (_ && _); [|by apply (store_lease_run s t m)]. exists t. by rewrite (set_leases_same _ _ Ht).
Qed.

Lemma claim_sim task plan run issued : book_simulates (claim task plan run issued) (lease_claim task plan run issued).
Proof.
  intros s b Hb. unfold claim. cbn [lease_claim BookRepository].
  destruct (Lease_compact_id (JStr task) "task_id") as [x|e] eqn:E1; [|done]. apply lease_compact_ok in E1 as [= ->].
  destruct (Lease_sha256 (JStr plan) "plan_fingerprint") as [x'|e] eqn:E2; [|done]. apply lease_sha256_ok in E2 as [= ->].
  destruct (Lease_compact_id (JStr run) "run_id") as [x''|e] eqn:E3; [|done]. apply lease_compact_ok in E3 as [= ->].
  rewrite !(st_bind_run (st_lift (Ok _)) _ s _ s), !(st_bind_run (st_lift (Ok _)) _ b _ b) by done.
  rewrite (st_bind_run st_get _ s s s), (st_bind_run st_get _ b b b) by done.
  rewrite (book_time_ok _ _ Hb). destruct (book_time issued "issued_at" b) as [ts|e]; [|done].
  rewrite (st_bind_run (st_lift (Ok _)) _ s _ s), (st_bind_run (st_lift (Ok _)) _ b _ b) by done.
  apply (book_transaction_sim _ _ Hb). destruct (book_require_task x b) as [[]|e] eqn:Htask; cbn [mbind result_bind].
  2: { exists s. by rewrite (st_bind_stop _ _ _ e s) by (by rewrite (book_task_run _ _ Hb), Htask). }
  rewrite (st_bind_run _ _ _ tt s) by (by rewrite (book_task_run _ _ Hb), Htask).
  destruct (bk_table _ _ Hb) as (t & Ht & Hm). rewrite (st_bind_run _ _ _ _ _ (read_leases_run _ _ Ht)).
  by apply (claim_body_run s t).
Qed.

Lemma current_sim task plan : book_simulates (current task plan) (lease_current task plan).
Proof.
  intros s b Hb. unfold current. cbn [lease_current BookRepository].
  destruct (Lease_compact_id (JStr task) "task_id") as [x|e] eqn:E1; [|done]. apply lease_compact_ok in E1 as [= ->].
  destruct (Lease_sha256 (JStr plan) "plan_fingerprint") as [x'|e] eqn:E2; [|done]. apply lease_sha256_ok in E2 as [= ->].
  rewrite !(st_bind_run (st_lift (Ok _)) _ s _ s), !(st_bind_run (st_lift (Ok _)) _ b _ b) by done.
  rewrite (st_bind_run st_get _ b b b) by done. destruct (book_require_task x b) as [[]|e] eqn:Htask.
  2: { by rewrite (st_bind_stop _ _ _ e s) by (by rewrite (book_task_run _ _ Hb), Htask). }
  rewrite (st_bind_run _ _ _ tt s) by (by rewrite (book_task_run _ _ Hb), Htask).
  rewrite (st_bind_run (st_lift (Ok _)) _ b _ b) by done.
  destruct (bk_table _ _ Hb) as (t & Ht & Hm). rewrite (st_bind_run _ _ _ _ _ (read_leases_run _ _ Ht)).
  pose proof (book_lookup t _ x x' Hm) as Hl. destruct (wb_leases b !! (x, x')) as [held|]; [|by rewrite Hl].
  destruct Hl as (now & -> & _ & _ & Hread). by rewrite Hread, (st_bind_run (st_lift (Ok _)) _ s _ s) by done.
Qed.

(** The check, wherever it is made. *)
Lemma require_run s t m l : wd_leases s = Some t → book_table t m →
  require_current_in_transaction l s = (book_require l m, s).
Proof.
  intros Ht Hm. unfold require_current_in_transaction, book_require.
  destruct (RuntimeWriterLease_validate l) as [x|e] eqn:Hv; [|done]. pose proof (validate_lease_ok _ _ Hv) as ->.
  rewrite (st_bind_run (st_lift (Ok _)) _ s _ s) by done. destruct (bool_decide (wl_status l = "ACTIVE")); [|done].
  cbn [negb wl_fail_if raise_if mbind result_bind]. rewrite (st_bind_run (st_raise_if false _ _) _ s _ s) by done.
  rewrite (st_bind_run _ _ _ _ _ (read_leases_run _ _ Ht)). fold (lease_key l).
  pose proof (book_lookup t m (wl_task_id l) (wl_plan_fingerprint l) Hm) as Hl. fold (lease_key l) in Hl.
  destruct (m !! lease_key l) as [held|]; [|by rewrite Hl]. destruct Hl as (now & -> & Hvh & _ & Hread).
  rewrite Hread, (st_bind_run (st_lift (Ok _)) _ s _ s) by done.
  destruct (bool_decide (wl_status held = "ACTIVE")); [|done].
  cbn [negb wl_fail_if raise_if mbind result_bind]. rewrite (st_bind_run (st_raise_if false _ _) _ s _ s) by done.
  rewrite !lease_fingerprint_ok by done. rewrite !(st_bind_run (st_lift (Ok _)) _ s _ s) by done.
  by destruct (bool_decide (lease_sha held = lease_sha l)).
Qed.

Lemma require_sim l : book_simulates (require_current l) (lease_require l).
Proof.
  intros s b Hb. destruct (bk_table _ _ Hb) as (t & Ht & Hm). unfold require_current. rewrite (require_run _ _ _ _ Ht Hm). done.
Qed.

Lemma release_sim l released : book_simulates (release l released) (lease_release l released).
Proof.
  intros s b Hb. unfold release. cbn [lease_release BookRepository].
  destruct (RuntimeWriterLease_validate l) as [x|e] eqn:Hv; [|done]. pose proof (validate_lease_ok _ _ Hv) as ->.
  rewrite (st_bind_run (st_lift (Ok _)) _ s _ s), (st_bind_run (st_lift (Ok _)) _ b _ b) by done.
  destruct (bool_decide (wl_status l = "ACTIVE")); [|done]. cbn [negb].
  rewrite (st_bind_run (st_raise_if false _ _) _ s _ s), (st_bind_run (st_raise_if false _ _) _ b _ b) by done.
  rewrite (st_bind_run st_get _ s s s), (st_bind_run st_get _ b b b) by done.
  rewrite (book_time_ok _ _ Hb). destruct (book_time released "released_at" b) as [ts|e]; [|done].
  rewrite (st_bind_run (st_lift (Ok _)) _ s _ s), (st_bind_run (st_lift (Ok _)) _ b _ b) by done.
  apply (book_transaction_sim _ _ Hb). destruct (book_require_task (wl_task_id l) b) as [[]|e] eqn:Htask; cbn [mbind result_bind].
  2: { exists s. by rewrite (st_bind_stop _ _ _ e s) by (by rewrite (book_task_run _ _ Hb), Htask). }
  rewrite (st_bind_run _ _ _ tt s) by (by rewrite (book_task_run _ _ Hb), Htask).
  destruct (bk_table _ _ Hb) as (t & Ht & Hm). rewrite (st_bind_run _ _ _ _ _ (read_leases_run _ _ Ht)).
  unfold book_release. fold (lease_key l).
  pose proof (book_lookup t _ (wl_task_id l) (wl_plan_fingerprint l) Hm) as Hl. fold (lease_key l) in Hl.
  destruct (wb_leases b !! lease_key l) as [held|]; [|rewrite Hl; by exists s]. destruct Hl as (now & -> & Hvh & _ & Hread).
  rewrite Hread, (st_bind_run (st_lift (Ok _)) _ s _ s) by done. fold (same_grant held l).
  destruct (same_grant held l); [|by exists s]. cbn [negb wl_fail_if raise_if mbind result_bind].
  rewrite (st_bind_run (st_raise_if false _ _) _ s _ s) by done.
  destruct (bool_decide (wl_status held = "RELEASED")); [exists t; by rewrite (set_leases_same _ _ Ht)|].
  rewrite !lease_fingerprint_ok by done. rewrite !(st_bind_run (st_lift (Ok _)) _ s _ s) by done.
  destruct (bool_decide (lease_sha held = lease_sha l)); [|by exists s]. cbn [negb raise_if mbind result_bind].
  rewrite (st_bind_run (st_raise_if false _ _) _ s _ s) by done. by apply (store_lease_run s t).
Qed.

Lemma lease_verify_sim task plan : book_simulates (verify_lease_events task plan) (lease_verify task plan).
Proof.
  intros s b Hb. unfold verify_lease_events. cbn [lease_verify BookRepository].
  destruct (Lease_compact_id (JStr task) "task_id") as [x|e] eqn:E1; [|done].
  destruct (Lease_sha256 (JStr plan) "plan_fingerprint") as [x'|e] eqn:E2; [|done].
  rewrite !(st_bind_run (st_lift (Ok _)) _ s _ s), !(st_bind_run (st_lift (Ok _)) _ b _ b) by done.
  destruct (bk_table _ _ Hb) as (t & Ht & _ & Hchain). rewrite (st_bind_run _ _ _ _ _ (read_leases_run _ _ Ht)).
  by rewrite lease_chained_verifies by apply Hchain.
Qed.
End Book.

(** ** How leases change *)

(** A lease gives way to a later generation, or is released by its holder. *)
Definition released_from (l l' : RuntimeWriterLease) : Prop :=
  wl_generation l = wl_generation l' ∧ wl_run_id l = wl_run_id l' ∧ wl_issued_at l = wl_issued_at l'
  ∧ wl_status l = "ACTIVE" ∧ wl_status l' = "RELEASED".
Definition superseded (l l' : RuntimeWriterLease) : Prop := wl_generation l < wl_generation l' ∨ released_from l l'.
Definition succeeds (l l' : RuntimeWriterLease) : Prop := l' = l ∨ superseded l l'.

Lemma superseded_neq l l' : superseded l l' → l' ≠ l.
Proof. intros [Hg|(_ & _ & _ & Ha & Hr)] ->; [lia|]. congruence. Qed.
Lemma succeeds_superseded l l' : succeeds l l' → l' ≠ l → superseded l l'.
Proof. by intros [->|H]. Qed.
Lemma superseded_trans l l' l'' : superseded l l' → succeeds l' l'' → superseded l l''.
Proof.
  intros H [->|H']; [done|]. destruct H as [Hg|(Hg & _ & _ & Ha & Hr)], H' as [Hg'|(Hg' & _ & _ & Ha' & Hr')].
  - left. lia.
  - left. lia.
  - left. lia.
  - congruence.
Qed.
Lemma succeeds_trans l l' l'' : succeeds l l' → succeeds l' l'' → succeeds l l''.
Proof. intros [->|H] H'; [done|]. right. by eapply superseded_trans. Qed.

Definition book_grows (m m' : book) : Prop := ∀ key l, m !! key = Some l → ∃ l', m' !! key = Some l' ∧ succeeds l l'.

#[export] Instance book_grows_preorder : PreOrder book_grows.
Proof.
  split.
  - intros m key l Hl. exists l. split; [done|by left].
  - intros m1 m2 m3 H12 H23 key l Hl. destruct (H12 _ _ Hl) as (l' & Hl' & Hs).
    destruct (H23 _ _ Hl') as (l'' & Hl'' & Hs'). exists l''. split; [done|]. by eapply succeeds_trans.
Qed.

Lemma book_grows_insert m l : (∀ held, m !! lease_key l = Some held → succeeds held l) → book_grows m (<[lease_key l := l]> m).
Proof.
  intros Hs key held Hheld. destruct (decide (lease_key l = key)) as [<-|Hne].
  - exists l. rewrite lookup_insert_eq. auto.
  - exists held. rewrite lookup_insert_ne by done. split; [done|by left].
Qed.

Section History.
Context {HL : Hashlib}.

Lemma store_in_book_ok l m x m' : store_in_book l m = Ok (x, m') →
  x = l ∧ lease_valid l ∧ m' = <[lease_key l := l]> m.
Proof.
  unfold store_in_book. intros H. apply bind_ok_iff in H as (y & Hy & H). apply bind_ok_iff in H as (z & _ & [= <- <-]).
  split_and!; [done| |done]. by eapply lease_valid_intro.
Qed.

(** A claim gives the run an active lease that stays the holder's or is of the next generation. *)
Lemma book_claim_ok task plan run ts m l m' : (∀ key held, m !! key = Some held → lease_key held = key) →
  book_claim task plan run ts m = Ok (l, m') →
  lease_key l = (task, plan) ∧ wl_run_id l = run ∧ wl_status l = "ACTIVE" ∧ m' !! (task, plan) = Some l ∧ book_grows m m'.
Proof.
  intros Hkeys. unfold book_claim. destruct (m !! (task, plan)) as [held|] eqn:Hheld.
  - destruct (_ && _) eqn:Hsame.
    + intros [= <- <-]. bool_prop. split_and!; [by apply Hkeys|done..|reflexivity].
    + intros (-> & _ & ->)%store_in_book_ok. split_and!; [done..|by rewrite lookup_insert_eq|].
      apply book_grows_insert. intros held'. unfold lease_key. cbn. rewrite Hheld. intros [= <-]. right. left. cbn. lia.
  - intros (-> & _ & ->)%store_in_book_ok. split_and!; [done..|by rewrite lookup_insert_eq|].
    apply book_grows_insert. intros held'. unfold lease_key. cbn. by rewrite Hheld.
Qed.

Lemma book_release_grows l ts m x m' : (∀ key held, m !! key = Some held → lease_valid held ∧ lease_key held = key) →
  book_release l ts m = Ok (x, m') → book_grows m m'.
Proof.
  intros Hm. unfold book_release. destruct (m !! lease_key l) as [held|] eqn:Hheld; [|done].
  destruct (Hm _ _ Hheld) as [Hv Hk]. intros H. apply guard_bind_ok in H as [_ H].
  destruct (bool_decide _) eqn:Hs; [by injection H as <- <-|]. apply guard_bind_ok in H as [_ H].
  apply store_in_book_ok in H as (-> & _ & ->). apply book_grows_insert.
  change (lease_key (released_lease held ts)) with (lease_key held). rewrite Hk, Hheld. intros ? [= <-].
  right. right. bool_prop. destruct (valid_status _ Hv) as [Ha|?]; [|done]. split_and!; done.
Qed.

(** A step of any client: claims, releases, and whatever leaves the lease tables alone - other
    writes, the clock, the lock. *)
Inductive lease_step (s s' : WriterDB) : Prop :=
  | step_claim task plan run issued (H : (claim task plan run issued s).2 = s')
  | step_release l released (H : (release l released s).2 = s')
  | step_elsewhere (H : wd_leases s' = wd_leases s).

Lemma books_rows s b : books s b → ∀ key held, wb_leases b !! key = Some held → lease_valid held ∧ lease_key held = key.
Proof.
  intros Hb key held Hheld. destruct (bk_table _ _ Hb) as (t & _ & Hrows & _). specialize (Hrows key).
  rewrite Hheld in Hrows. inversion Hrows as [r ? (? & ? & _)|]; subst. done.
Qed.

Lemma book_transaction_grows {A} (f : WriterBook → result (A * book)) b :
  (∀ x m', f b = Ok (x, m') → book_grows (wb_leases b) m') →
  book_grows (wb_leases b) (wb_leases (book_transaction f b).2).
Proof.
  intros H. unfold book_transaction. destruct (wb_locked b); [reflexivity|].
  destruct (f b) as [[x m']|e]; [by apply (H x)|reflexivity].
Qed.

Lemma lease_step_books s b s' : books s b → lease_step s s' →
  ∃ b', books s' b' ∧ book_grows (wb_leases b) (wb_leases b').
Proof.
  intros Hb [task plan run issued <-|l released <-|Hw].
  - destruct (claim_sim task plan run issued s b Hb) as (_ & Hb' & _). eexists. split; [done|].
    cbn [lease_claim BookRepository]. destruct (Lease_compact_id (JStr task) _); [|reflexivity].
    destruct (Lease_sha256 _ _); [|reflexivity]. destruct (Lease_compact_id (JStr run) _); [|reflexivity].
    rewrite !(st_bind_run (st_lift (Ok _)) _ b _ b), (st_bind_run st_get _ b b b) by done.
    destruct (book_time _ _ b); [|reflexivity]. rewrite (st_bind_run (st_lift (Ok _)) _ b _ b) by done.
    apply book_transaction_grows. intros x m' H. apply bind_ok_iff in H as (? & _ & H).
    eapply book_claim_ok in H; [apply H|]. intros key held Hh. by apply (books_rows _ _ Hb) in Hh as [_ ?].
  - destruct (release_sim l released s b Hb) as (_ & Hb' & _). eexists. split; [done|].
    cbn [lease_release BookRepository]. destruct (RuntimeWriterLease_validate l); [|reflexivity].
    rewrite (st_bind_run (st_lift (Ok _)) _ b _ b) by done. destruct (negb _); [reflexivity|].
    rewrite (st_bind_run (st_raise_if false _ _) _ b _ b), (st_bind_run st_get _ b b b) by done.
    destruct (book_time _ _ b); [|reflexivity]. rewrite (st_bind_run (st_lift (Ok _)) _ b _ b) by done.
    apply book_transaction_grows. intros x m' H. apply bind_ok_iff in H as (? & _ & H).
    eapply book_release_grows; [|done]. by apply (books_rows _ _ Hb).
  - exists {| wb_tasks := cs_tasks (wd_checkpoints s'); wb_leases := wb_leases b; wb_now := cs_now (wd_checkpoints s');
              wb_locked := cs_locked (wd_checkpoints s') |}.
    split; [|reflexivity]. constructor; [done..|]. cbn. rewrite Hw. apply Hb.
Qed.

Lemma lease_steps_books s b s' : books s b → rtc lease_step s s' →
  ∃ b', books s' b' ∧ book_grows (wb_leases b) (wb_leases b').
Proof.
  intros Hb H. revert b Hb. induction H as [s|s s1 s' H1 _ IH]; intros b Hb; [by exists b|].
  destruct (lease_step_books _ _ _ Hb H1) as (b1 & Hb1 & Hg1). destruct (IH b1 Hb1) as (b' & Hb' & Hg).
  exists b'. split; [done|]. by etrans.
Qed.

(** Two leases with the same fingerprint are the same lease. *)
Lemma lease_sha_binds l l' : lease_sha l = lease_sha l' →
  l = l' ∨ collision (utf8_encode (lease_text l)) (utf8_encode (lease_text l')).
Proof.
  intros Heq. destruct (fingerprint_binds _ _ (lease_items_ok l) (lease_items_ok l') Heq) as [Hc|?]; [left|by right].
  pose proof (f_equal (λ v, match v with JObj d => d | _ => [] end) Hc) as Hd.
  change (canon_items (lease_items l) = canon_items (lease_items l')) in Hd.
  assert (∀ k, canon (get (lease_items l) k) = canon (get (lease_items l') k)) as Hget.
  { intros k. rewrite <- !get_canon by (apply (proj1 (bool_decide_eq_true _)); reflexivity). by rewrite Hd. }
  assert (JStr (wl_task_id l) = JStr (wl_task_id l')) as [= H1] by exact (Hget "task_id").
  assert (JStr (wl_plan_fingerprint l) = JStr (wl_plan_fingerprint l')) as [= H2] by exact (Hget "plan_fingerprint").
  assert (JStr (wl_run_id l) = JStr (wl_run_id l')) as [= H3] by exact (Hget "run_id").
  assert (JInt (wl_generation l) = JInt (wl_generation l')) as [= H4] by exact (Hget "generation").
  assert (JStr (wl_issued_at l) = JStr (wl_issued_at l')) as [= H5] by exact (Hget "issued_at").
  assert (JStr (wl_status l) = JStr (wl_status l')) as [= H6] by exact (Hget "status").
  assert (JStr (wl_schema_version l) = JStr (wl_schema_version l')) as [= H7] by exact (Hget "schema_version").
  assert (canon (json_opt_str (wl_released_at l)) = canon (json_opt_str (wl_released_at l'))) as H8
    by exact (Hget "released_at").
  rewrite !canon_opt_str in H8. apply json_opt_str_inj in H8. destruct l, l'. cbn in *. congruence.
Qed.

(** What a check that succeeds has seen. *)
Lemma book_require_ok l m x : book_require l m = Ok x → lease_valid l ∧ wl_status l = "ACTIVE"
  ∧ m !! lease_key l = Some x ∧ wl_status x = "ACTIVE" ∧ lease_sha x = lease_sha l.
Proof.
  unfold book_require, wl_fail_if. intros H. apply bind_ok_iff in H as (y & Hy & H). apply guard_bind_ok in H as [Ha H].
  destruct (m !! lease_key l) as [held|]; [|done]. rewrite !guard_bind_ok in H. destruct H as (Hs & Hf & [= ->]).
  bool_prop. split_and!; try done. by eapply lease_valid_intro.
Qed.
End History.

(** ** The repository implements the book *)

(** C13: the lease table implements a map. Creating the tables gives the empty book; from a database that
    stands for a book, claiming, looking up, checking and releasing a lease and verifying the event log each
    give the answer - the value or the exception - the book gives, and leave a database that stands for the
    book's next state. In the book, a claim by a run keeps an active lease of that run and otherwise writes
    the next generation; a release writes the release of the lease that is held, once; the log of a
    database that stands for a book is never taken for tampered. *)
Theorem leases_refine `{Hashlib} :
  (∀ s s', wd_leases s = None → Leases_initialize s = (Ok tt, s') →
     books s' {| wb_tasks := cs_tasks (wd_checkpoints s); wb_leases := ∅; wb_now := cs_now (wd_checkpoints s);
                 wb_locked := cs_locked (wd_checkpoints s) |})
  ∧ (∀ s b, books s b → Leases_initialize s = (Ok tt, s))
  ∧ (∀ task plan run issued, book_simulates (lease_claim task plan run issued) (lease_claim task plan run issued))
  ∧ (∀ task plan, book_simulates (lease_current task plan) (lease_current task plan))
  ∧ (∀ l, book_simulates (lease_require l) (lease_require l))
  ∧ (∀ l released, book_simulates (lease_release l released) (lease_release l released))
  ∧ (∀ task plan, book_simulates (lease_verify task plan) (lease_verify task plan)).
Proof.
  split_and!.
  - intros s s' Hn Hi. unfold Leases_initialize in Hi. rewrite Hn in Hi.
    destruct (cs_locked (wd_checkpoints s)) eqn:Hl; [done|]. injection Hi as <-. constructor; [done..|].
    exists no_leases. split; [done|]. split; [|by intros ? ?]. intros key. cbn [wb_leases no_leases lt_leases]. rewrite !lookup_empty. constructor.
  - intros s b Hb. destruct (bk_table _ _ Hb) as (t & Ht & _). unfold Leases_initialize. by rewrite Ht.
  - exact claim_sim.
  - exact current_sim.
  - exact require_sim.
  - exact release_sim.
  - exact lease_verify_sim.
Qed.

(** What no history of leases undoes. Over any sequence of claims, releases and writes elsewhere by any
    clients, successful or refused, a lease that is in the book stays there until a later generation takes
    its place or its holder releases it: generations never decrease, no lease is ever removed, and no two
    runs hold the same generation of a task and plan. *)
Theorem lease_history `{Hashlib} s s' b (Hb : books s b) (Hsteps : rtc lease_step s s') :
  ∃ b', books s' b' ∧ ∀ key l, wb_leases b !! key = Some l → ∃ l', wb_leases b' !! key = Some l'
    ∧ wl_generation l ≤ wl_generation l'
    ∧ (wl_generation l = wl_generation l' → wl_run_id l = wl_run_id l' ∧ wl_issued_at l = wl_issued_at l')
    ∧ (l' = l ∨ superseded l l').
Proof.
  destruct (lease_steps_books _ _ _ Hb Hsteps) as (b' & Hb' & Hg). exists b'. split; [done|]. intros key l Hl.
  destruct (Hg _ _ Hl) as (l' & Hl' & Hs). exists l'. split; [done|].
  destruct Hs as [->|Hs]; [split_and!; [lia|done|by left]|].
  split_and!; [|by destruct Hs as [?|(? & ? & ? & _)]; [lia|]|by right]. destruct Hs as [?|(? & _)]; lia.
Qed.

(** ** Examples *)

Section Examples.
#[local] Existing Instance checksum_hashlib.

Definition lease_plan : string := "sha256:" +:+ repeat_str 64 "a".
Definition empty_writer_db : WriterDB := {|
  wd_checkpoints := {| cs_tasks := {["task"]}; cs_tables := Some no_rows; cs_now := "2026-01-01T00:00:00Z"; cs_locked := false |};
  wd_leases := Some no_leases |}.
Definition empty_writer_book : WriterBook := {|
  wb_tasks := {["task"]}; wb_leases := ∅; wb_now := "2026-01-01T00:00:00Z"; wb_locked := false |}.

Lemma empty_books : books empty_writer_db empty_writer_book.
Proof.
  constructor; [done..|]. exists no_leases. split; [done|]. split; [|by intros ? ?]. intros key.
  cbn [wb_leases empty_writer_book no_leases lt_leases]. rewrite !lookup_empty. constructor.
Qed.

(** The database after a claim by one run, and after the claim of another. *)
Definition first_db : WriterDB := (claim "task" lease_plan "run-a" None empty_writer_db).2.
Definition first_book : WriterBook := (lease_claim "task" lease_plan "run-a" None empty_writer_book).2.
Definition second_db : WriterDB := (claim "task" lease_plan "run-b" None first_db).2.
Definition second_book : WriterBook := (lease_claim "task" lease_plan "run-b" None first_book).2.
Definition first_lease : RuntimeWriterLease := new_lease "task" lease_plan "run-a" 1 "2026-01-01T00:00:00Z".
Definition second_lease : RuntimeWriterLease := new_lease "task" lease_plan "run-b" 2 "2026-01-01T00:00:00Z".

Example first_claim : (claim "task" lease_plan "run-a" None empty_writer_db).1 = Ok first_lease.
Proof. vm_compute. reflexivity. Qed.
Example claim_again : (claim "task" lease_plan "run-a" (Some "2026-01-02T00:00:00Z") first_db).1 = Ok first_lease.
Proof. vm_compute. reflexivity. Qed.
Example second_claim : (claim "task" lease_plan "run-b" None first_db).1 = Ok second_lease.
Proof. vm_compute. reflexivity. Qed.
Example first_refused : (require_current first_lease second_db).1 = raise RuntimeWriterLeaseError "WRITER_LEASE_STALE".
Proof. vm_compute. reflexivity. Qed.
Example released_once :
  (release second_lease (Some "2026-01-03T00:00:00Z") ;; release second_lease (Some "2026-01-04T00:00:00Z")) second_db
  = (Ok (released_lease second_lease "2026-01-03T00:00:00Z"), (release second_lease (Some "2026-01-03T00:00:00Z") second_db).2).
Proof. vm_compute. reflexivity. Qed.
Example release_before_issue : (release second_lease (Some "2025-12-31T00:00:00Z") second_db).1
  = raise RuntimeWriterLeaseError "WRITER_LEASE_RELEASE_PRECEDES_ISSUE".
Proof. vm_compute. reflexivity. Qed.
Example local_time_refused : (claim "task" lease_plan "run-c" (Some "2026-01-02T09:00:00+09:00") second_db).1
  = raise RuntimeWriterLeaseError "ISSUED_AT_MUST_BE_NORMALIZED_UTC".
Proof. vm_compute. reflexivity. Qed.

Lemma first_books : books first_db first_book.
Proof. apply claim_sim, empty_books. Qed.
Lemma second_books : books second_db second_book.
Proof. apply claim_sim, first_books. Qed.
Lemma first_held : wb_leases first_book !! lease_key first_lease = Some first_lease.
Proof. vm_compute. reflexivity. Qed.
Lemma second_held : wb_leases second_book !! lease_key first_lease = Some second_lease.
Proof. vm_compute. reflexivity. Qed.
Lemma superseding_steps : rtc lease_step first_db second_db.
Proof. eapply rtc_l; [|reflexivity]. by apply (step_claim _ _ "task" lease_plan "run-b" None). Qed.

Lemma lease_history_witness : ∃ b', books second_db b' ∧ ∀ key l, wb_leases first_book !! key = Some l →
  ∃ l', wb_leases b' !! key = Some l' ∧ wl_generation l ≤ wl_generation l'
    ∧ (wl_generation l = wl_generation l' → wl_run_id l = wl_run_id l' ∧ wl_issued_at l = wl_issued_at l')
    ∧ (l' = l ∨ superseded l l').
Proof. exact (lease_history first_db second_db first_book first_books superseding_steps). Defined.
End Examples.
