(* ===== verification/WriterFence.v ===== *)
(** * Writer-fenced execution checkpoints

    [execution_checkpoint_writer_fence.py]: the checkpoint repository for one writer lease. Each write
    proves, in its own transaction, that the lease is still the current one, and appends to the event
    of the write a receipt that names the writer; an observation is accepted only from the writer of
    its dispatch. Events get consecutive sequence numbers, so the event after another is the next of
    the list. *)

From Stdlib Require Import Ascii.
From Stdlib Require String.
From S2P Require Import Prelude PyStr Hashlib PyFloat Json PyTime Validators CapabilityAuthority WorkflowDesign ExecutionPlan ExecutionObservation.
From S2P Require Import ExecutionScheduler ExecutionCheckpoint WriterLease.

Local Open Scope Z_scope.

Definition EXECUTION_WRITER_FENCE_SCHEMA : string := "workspace-execution-writer-fence/v1".
Definition WRITER_FENCE_EVENT_TYPE : string := "WRITER_FENCE_BOUND".
Definition _PROTECTED_EVENT_KINDS : list (string * string) := [
  ("DISPATCH_RECORDED", "DISPATCH"); ("OBSERVATION_RECORDED", "OBSERVATION"); ("CANCELLED", "CANCELLATION")].

Definition wf_fail {A} (msg : string) : result A := raise ExecutionWriterFenceError msg.
Definition wf_fail_if (b : bool) (msg : string) : result unit := raise_if b ExecutionWriterFenceError msg.

(** A method of the repository the class extends. *)
Definition on_checkpoints {A} (m : ST CheckpointStore A) : ST WriterDB A :=
  st_zoom wd_checkpoints (λ c s, {| wd_checkpoints := c; wd_leases := wd_leases s |}) m.

Definition _translate_writer_error (e : exn) : exn :=
  if is_class RuntimeWriterLeaseError (exn_cls e)
  then Exn ExecutionWriterFenceError ("EXECUTION_WRITER_FENCE_DENIED:" +:+ exn_msg e) else e.

(** The writer a receipt names. *)
Record fence_binding := {
  fb_run_id : string;
  fb_generation : Z;
  fb_lease_fingerprint : string
}.
#[export] Instance fence_binding_eq_dec : EqDecision fence_binding.
Proof. solve_decision. Defined.

Definition FENCE_KEYS : list string := [
  "schema_version"; "subject_kind"; "writer_run_id"; "writer_generation"; "writer_lease_fingerprint"].

Definition _validate_fence_payload (payload : json) (subject_kind : string) : result fence_binding :=
  match payload with
  | JObj d =>
      wf_fail_if (negb (has_keys d FENCE_KEYS)) "EXECUTION_WRITER_FENCE_PAYLOAD_SHAPE_INVALID" ;;
      wf_fail_if (negb (is_str (get d "schema_version") EXECUTION_WRITER_FENCE_SCHEMA))
        "EXECUTION_WRITER_FENCE_SCHEMA_MISMATCH" ;;
      wf_fail_if (negb (is_str (get d "subject_kind") subject_kind)) "EXECUTION_WRITER_FENCE_SUBJECT_KIND_MISMATCH" ;;
      run ← match get d "writer_run_id" with
            | JStr run => wf_fail_if (is_empty run) "EXECUTION_WRITER_FENCE_RUN_ID_INVALID" ;; Ok run
            | _ => wf_fail "EXECUTION_WRITER_FENCE_RUN_ID_INVALID"
            end;
      generation ← match get d "writer_generation" with
                   | JInt z => wf_fail_if (z <? 1) "EXECUTION_WRITER_FENCE_GENERATION_INVALID" ;; Ok z
                   | _ => wf_fail "EXECUTION_WRITER_FENCE_GENERATION_INVALID"
                   end;
      fingerprint ← match get d "writer_lease_fingerprint" with
                    | JStr f => _require_sha256 f "writer_lease_fingerprint"
                    | _ => wf_fail "EXECUTION_WRITER_FENCE_FINGERPRINT_INVALID"
                    end;
      Ok {| fb_run_id := run; fb_generation := generation; fb_lease_fingerprint := fingerprint |}
  | _ => wf_fail "EXECUTION_WRITER_FENCE_PAYLOAD_NOT_OBJECT"
  end.

Section Fence.
Context {HL : Hashlib}.

Definition fence_items (lease : RuntimeWriterLease) (subject_kind fingerprint : string) : list (string * json) := [
  ("schema_version", JStr EXECUTION_WRITER_FENCE_SCHEMA); ("subject_kind", JStr subject_kind);
  ("writer_run_id", JStr (wl_run_id lease)); ("writer_generation", JInt (wl_generation lease));
  ("writer_lease_fingerprint", JStr fingerprint)].

Definition _fence_payload (lease : RuntimeWriterLease) (subject_kind : string) : result json :=
  RuntimeWriterLease_validate lease ;;
  wf_fail_if (negb (bool_decide (wl_status lease = "ACTIVE"))) "EXECUTION_WRITER_LEASE_NOT_ACTIVE" ;;
  wf_fail_if (negb (mem_str subject_kind _PROTECTED_EVENT_KINDS.*2)) "INVALID_EXECUTION_WRITER_FENCE_SUBJECT_KIND" ;;
  fingerprint ← RuntimeWriterLease_fingerprint lease;
  Ok (JObj (fence_items lease subject_kind fingerprint)).

(** The event after the last one that satisfies [P], if that one exists. *)
Fixpoint after_last (P : event_row → bool) (events : list event_row) : option (option event_row) :=
  match events with
  | [] => None
  | e :: rest =>
      match after_last P rest with
      | Some next => Some next
      | None => if P e then Some (head rest) else None
      end
  end.

(** The receipt the event after a protected one holds. *)
Definition fence_of (task_id plan_fingerprint : string) (subject_kind subject_id : string) (next : option event_row)
    : result fence_binding :=
  match next with
  | Some binding =>
      wf_fail_if (negb (event_in task_id plan_fingerprint binding)) "EXECUTION_WRITER_FENCE_BINDING_MISSING" ;;
      wf_fail_if (negb (bool_decide (pe_event_type binding = WRITER_FENCE_EVENT_TYPE)))
        "EXECUTION_WRITER_FENCE_NOT_ADJACENT" ;;
      wf_fail_if (negb (bool_decide (pe_subject_id binding = subject_id))) "EXECUTION_WRITER_FENCE_SUBJECT_MISMATCH" ;;
      payload ← _parse_canonical_payload (pe_payload_json binding) (pe_payload_sha256 binding) "WRITER_FENCE";
      _validate_fence_payload payload subject_kind
  | None => wf_fail "EXECUTION_WRITER_FENCE_BINDING_MISSING"
  end.

(** ** The repository of one lease *)

Variable writer_lease : RuntimeWriterLease.

Notation lease_task := (wl_task_id writer_lease).
Notation lease_plan := (wl_plan_fingerprint writer_lease).

(** [__init__]. *)
Definition WriterFenced_init : result unit :=
  RuntimeWriterLease_validate writer_lease ;;
  wf_fail_if (negb (bool_decide (wl_status writer_lease = "ACTIVE"))) "EXECUTION_WRITER_LEASE_NOT_ACTIVE".

Definition _require_scope (task_id plan_fingerprint : string) : result unit :=
  wf_fail_if (negb (bool_decide (task_id = lease_task))) "EXECUTION_WRITER_TASK_SCOPE_MISMATCH" ;;
  wf_fail_if (negb (bool_decide (plan_fingerprint = lease_plan))) "EXECUTION_WRITER_PLAN_SCOPE_MISMATCH".

Definition _require_current_writer : ST WriterDB unit :=
  st_map_exn _translate_writer_error (require_current writer_lease ;; mret tt).

Definition _require_current_writer_in_transaction : ST WriterDB unit :=
  st_map_exn _translate_writer_error (require_current_in_transaction writer_lease ;; mret tt).

Definition WriterFenced_initialize : ST WriterDB unit :=
  on_checkpoints CheckpointRepository_initialize ;;
  Leases_initialize ;;
  _require_current_writer.

Definition _append_writer_fence_event (subject_kind subject_id recorded_at : string) : ST WriterDB unit :=
  payload ← st_lift (_fence_payload writer_lease subject_kind);
  payload_json ← st_lift (_canonical_json payload);
  payload_sha256 ← st_lift (_digest_payload payload);
  on_checkpoints (_append_event lease_task lease_plan WRITER_FENCE_EVENT_TYPE subject_id payload_json payload_sha256
                    recorded_at).

Definition _binding_after_event (events : list event_row) (protected_event_type subject_id : string)
    : result fence_binding :=
  match table_get protected_event_type _PROTECTED_EVENT_KINDS with
  | None => wf_fail "UNKNOWN_PROTECTED_EXECUTION_EVENT"
  | Some subject_kind =>
      match after_last (λ e, event_in lease_task lease_plan e && bool_decide (pe_event_type e = protected_event_type)
                             && bool_decide (pe_subject_id e = subject_id)) events with
      | None => wf_fail "EXECUTION_PROTECTED_EVENT_NOT_FOUND"
      | Some next => fence_of lease_task lease_plan subject_kind subject_id next
      end
  end.

(** Whether a receipt names the lease; the fingerprint is computed when the rest agrees. *)
Definition names_writer (b : fence_binding) : result bool :=
  if bool_decide (fb_run_id b = wl_run_id writer_lease) && (fb_generation b =? wl_generation writer_lease)
  then fingerprint ← RuntimeWriterLease_fingerprint writer_lease; Ok (bool_decide (fb_lease_fingerprint b = fingerprint))
  else Ok false.

Definition _require_binding_matches_current_writer (events : list event_row) (protected_event_type subject_id : string)
    : result unit :=
  binding ← _binding_after_event events protected_event_type subject_id;
  same ← names_writer binding;
  wf_fail_if (negb same) "EXECUTION_WRITER_GENERATION_BINDING_MISMATCH".

Definition WriterFenced_record_dispatch (ticket : DispatchTicket) : ST WriterDB DispatchTicket :=
  st_lift (_require_scope (dt_task_id ticket) (dt_plan_fingerprint ticket)) ;;
  payload ← st_lift (_dispatch_payload ticket);
  payload_json ← st_lift (_canonical_json payload);
  payload_sha256 ← st_lift (_digest_payload payload);
  s ← st_get;
  let now := cs_now (wd_checkpoints s) in
  db_transaction (
    on_checkpoints (_require_task (dt_task_id ticket)) ;;
    _require_current_writer_in_transaction ;;
    rows ← on_checkpoints read_dispatches;
    match List.find (λ r, bool_decide (pd_ticket_id r = dt_ticket_id ticket)) rows with
    | Some existing =>
        st_lift (same_payload (pd_ticket_json existing) (pd_ticket_sha256 existing) "DISPATCH" payload_sha256) ;;
        events ← on_checkpoints read_events;
        st_lift (_require_binding_matches_current_writer events "DISPATCH_RECORDED" (dt_ticket_id ticket)) ;;
        mret ticket
    | None =>
        st_raise_if (existsb (λ r, dispatch_in (dt_task_id ticket) (dt_plan_fingerprint ticket) r
                                   && bool_decide (pd_node_id r = dt_node_id ticket)) rows)
          ExecutionCheckpointError "DISPATCH_CHECKPOINT_NODE_CONFLICT" ;;
        on_checkpoints (insert_dispatch (dispatch_row_of ticket payload_json payload_sha256 now)) ;;
        on_checkpoints (_append_event (dt_task_id ticket) (dt_plan_fingerprint ticket) "DISPATCH_RECORDED"
                          (dt_ticket_id ticket) payload_json payload_sha256 now) ;;
        _append_writer_fence_event "DISPATCH" (dt_ticket_id ticket) now ;;
        mret ticket
    end).

Definition WriterFenced_record_observation (observation : ExecutionObservation) : ST WriterDB ExecutionObservation :=
  st_lift (ExecutionObservation_validate observation None None) ;;
  st_lift (_require_scope (eo_task_id observation) (eo_plan_fingerprint observation)) ;;
  payload ← st_lift (ExecutionObservation_canonical_dict observation);
  payload_json ← st_lift (_canonical_json payload);
  payload_sha256 ← st_lift (_digest_payload payload);
  s ← st_get;
  let now := cs_now (wd_checkpoints s) in
  db_transaction (
    on_checkpoints (_require_task (eo_task_id observation)) ;;
    _require_current_writer_in_transaction ;;
    dispatch_rows ← on_checkpoints read_dispatches;
    match List.find (λ r, dispatch_in (eo_task_id observation) (eo_plan_fingerprint observation) r
                          && bool_decide (pd_node_id r = eo_node_id observation)) dispatch_rows with
    | None => st_lift (cp_fail "OBSERVATION_CHECKPOINT_REQUIRES_DISPATCH")
    | Some ticket =>
        dispatch_payload ← st_lift (_parse_canonical_payload (pd_ticket_json ticket) (pd_ticket_sha256 ticket) "DISPATCH");
        dispatch ← st_lift (_dispatch_from_payload dispatch_payload);
        st_raise_if (negb (bool_decide (eo_node_fingerprint observation = dt_node_fingerprint dispatch)))
          ExecutionCheckpointError "OBSERVATION_CHECKPOINT_NODE_MISMATCH" ;;
        st_raise_if (negb (bool_decide (eo_authority_fingerprint observation = dt_authority_fingerprint dispatch)))
          ExecutionCheckpointError "OBSERVATION_CHECKPOINT_AUTHORITY_MISMATCH" ;;
        events ← on_checkpoints read_events;
        st_lift (_require_binding_matches_current_writer events "DISPATCH_RECORDED" (pd_ticket_id ticket)) ;;
        rows ← on_checkpoints read_observations;
        match List.find (λ r, bool_decide (po_observation_id r = eo_observation_id observation)) rows with
        | Some existing =>
            st_lift (same_payload (po_observation_json existing) (po_observation_sha256 existing) "OBSERVATION"
                       payload_sha256) ;;
            st_lift (_require_binding_matches_current_writer events "OBSERVATION_RECORDED"
                       (eo_observation_id observation)) ;;
            mret observation
        | None =>
            st_raise_if (existsb (λ r, observation_in (eo_task_id observation) (eo_plan_fingerprint observation) r
                                       && bool_decide (po_node_id r = eo_node_id observation)) rows)
              ExecutionCheckpointError "OBSERVATION_CHECKPOINT_NODE_CONFLICT" ;;
            on_checkpoints (insert_observation (observation_row_of observation payload_json payload_sha256 now)) ;;
            on_checkpoints (_append_event (eo_task_id observation) (eo_plan_fingerprint observation) "OBSERVATION_RECORDED"
                              (eo_observation_id observation) payload_json payload_sha256 now) ;;
            _append_writer_fence_event "OBSERVATION" (eo_observation_id observation) now ;;
            mret observation
        end
    end).

(** Whether the latest cancellation was recorded by the writer: a receipt that is missing or malformed
    says no. [ExecutionCheckpointError] is not an [ExecutionWriterFenceError]. *)
Definition cancelled_by_writer (events : list event_row) (task_id : string) : result bool :=
  existing ← catch (Some <$> _binding_after_event events "CANCELLED" task_id)
               (λ e, is_class ExecutionWriterFenceError (exn_cls e)) (λ _, Ok None);
  match existing with Some binding => names_writer binding | None => Ok false end.

Definition WriterFenced_record_cancellation (task_id plan_fingerprint reason_code : string) : ST WriterDB unit :=
  st_lift (_require_scope task_id plan_fingerprint) ;;
  st_lift (_require_sha256 plan_fingerprint "plan_fingerprint") ;;
  st_raise_if (is_empty (strip reason_code)) ExecutionCheckpointError "INVALID_CANCELLATION_REASON" ;;
  let payload := JObj [("reason_code", JStr (strip reason_code))] in
  payload_json ← st_lift (_canonical_json payload);
  payload_sha256 ← st_lift (_digest_payload payload);
  s ← st_get;
  let now := cs_now (wd_checkpoints s) in
  db_transaction (
    on_checkpoints (_require_task task_id) ;;
    _require_current_writer_in_transaction ;;
    events ← on_checkpoints read_events;
    recorded ← st_lift (same_cancellation (last_cancellation events task_id plan_fingerprint) payload_json);
    mine ← st_lift (if (recorded : bool) then cancelled_by_writer events task_id else Ok false);
    if (mine : bool) then mret tt
    else
      on_checkpoints (_append_event task_id plan_fingerprint "CANCELLED" task_id payload_json payload_sha256 now) ;;
      _append_writer_fence_event "CANCELLATION" task_id now).

(** ** The audit *)

(** Every protected event of the task and plan is followed by its receipt. *)
Fixpoint events_bound (events : list event_row) : result bool :=
  match events with
  | [] => Ok true
  | e :: rest =>
      match (if event_in lease_task lease_plan e then table_get (pe_event_type e) _PROTECTED_EVENT_KINDS else None) with
      | None => events_bound rest
      | Some subject_kind =>
          match head rest with
          | Some binding =>
              if negb (event_in lease_task lease_plan binding)
                 || negb (bool_decide (pe_event_type binding = WRITER_FENCE_EVENT_TYPE))
                 || negb (bool_decide (pe_subject_id binding = pe_subject_id e)) then Ok false
              else
                payload ← _parse_canonical_payload (pe_payload_json binding) (pe_payload_sha256 binding) "WRITER_FENCE";
                _validate_fence_payload payload subject_kind ;;
                events_bound rest
          | None => Ok false
          end
      end
  end.

(** The receipt of each dispatched node. *)
Definition bind_dispatch (events : list event_row) (bindings : gmap string fence_binding) (r : dispatch_row)
    : result (gmap string fence_binding) :=
  binding ← _binding_after_event events "DISPATCH_RECORDED" (pd_ticket_id r);
  Ok (<[pd_node_id r := binding]> bindings).

(** Every observation has the writer of its dispatch. *)
Fixpoint observations_bound (events : list event_row) (bindings : gmap string fence_binding) (rows : list observation_row)
    : result bool :=
  match rows with
  | [] => Ok true
  | r :: rows =>
      match bindings !! po_node_id r with
      | None => Ok false
      | Some dispatch_binding =>
          binding ← _binding_after_event events "OBSERVATION_RECORDED" (po_observation_id r);
          if negb (bool_decide (binding = dispatch_binding)) then Ok false else observations_bound events bindings rows
      end
  end.

(** [except (ExecutionCheckpointError, RuntimeWriterLeaseError, ValueError, TypeError)] *)
Definition audit_error (e : exn) : bool :=
  is_checkpoint_error (exn_cls e) || is_class RuntimeWriterLeaseError (exn_cls e) || type_or_value_error (exn_cls e).

Definition audit_tables (tables : CheckpointTables) : result bool :=
  bound ← events_bound (ct_events tables);
  if negb bound then Ok false
  else
    bindings ← foldM (bind_dispatch (ct_events tables)) ∅
                 (List.filter (dispatch_in lease_task lease_plan) (ct_dispatches tables));
    observations_bound (ct_events tables) bindings
      (List.filter (observation_in lease_task lease_plan) (ct_observations tables)).

Definition verify_writer_fence_bindings : ST WriterDB bool :=
  valid ← on_checkpoints (verify_event_chain lease_task lease_plan);
  if negb valid then mret false
  else
    dispatches ← on_checkpoints read_dispatches;
    observations ← on_checkpoints read_observations;
    events ← on_checkpoints read_events;
    st_lift (catch (audit_tables {| ct_dispatches := dispatches; ct_observations := observations; ct_events := events |})
               audit_error (λ _, Ok false)).

Definition WriterFenced_load (task_id plan_fingerprint : string) : ST WriterDB RecoveredExecutionState :=
  st_lift (_require_scope task_id plan_fingerprint) ;;
  _require_current_writer ;;
  state ← on_checkpoints (CheckpointRepository_load task_id plan_fingerprint);
  bound ← verify_writer_fence_bindings;
  st_raise_if (negb bound) ExecutionWriterFenceError "EXECUTION_WRITER_FENCE_BINDINGS_INVALID" ;;
  mret state.
End Fence.

(** ** The repository as the scheduler holds it *)

Record WriterFencedRepository := {
  wr_lease : RuntimeWriterLease;
  wr_db : WriterDB
}.

Definition on_fenced {A} (m : RuntimeWriterLease → ST WriterDB A) : ST WriterFencedRepository A := λ s,
  st_zoom wr_db (λ db s, {| wr_lease := wr_lease s; wr_db := db |}) (m (wr_lease s)) s.

#[export] Instance FencedRepository `{Hashlib} : SchedulerCheckpointRepository WriterFencedRepository := {
  initialize := on_fenced WriterFenced_initialize;
  record_dispatch t := on_fenced (λ l, WriterFenced_record_dispatch l t);
  record_observation o := on_fenced (λ l, WriterFenced_record_observation l o);
  record_cancellation task plan reason := on_fenced (λ l, WriterFenced_record_cancellation l task plan reason);
  load task plan := on_fenced (λ l, WriterFenced_load l task plan)
}.
