(* ===== verification/FenceFacts.v ===== *)
(** * Writer-fenced checkpoints: the log with its writers

    A plain log in which every record carries the lease of its writer, and the lemmas that the fenced
    repository implements it on top of the checkpoint tables, their event chain and the lease table. *)

From Stdlib Require Import Ascii SpecFloat.
From Stdlib Require String.
From S2P Require Import Prelude PyStr Hashlib PyFloat Json JsonFacts PyTime Validators TaskContract.
From S2P Require Import CapabilityAuthority AuthorityFacts WorkflowDesign ContextManifest TaskContext.
From S2P Require Import ExecutionPlan PlanFacts ExecutionObservation ObservationFacts RuntimeScheduler ReadinessFacts.
From S2P Require Import ExecutionScheduler SchedulerFacts RestoreFacts ExecutionCheckpoint CheckpointFacts CheckpointLog.
From S2P Require Import WriterLease LeaseFacts WriterFence.

Local Open Scope Z_scope.

(** ** Records and their writers *)

Record fenced_entry := {
  fe_entry : entry;
  fe_time : string;
  fe_writer : RuntimeWriterLease
}.

Definition kind_of (e : entry) : string :=
  match e with Dispatched _ => "DISPATCH" | Observed _ => "OBSERVATION" | Cancelled _ _ _ => "CANCELLATION" | Noted _ _ _ _ _ => "" end.

Section Fenced.
Context {HL : Hashlib}.

(** The task, plan, type and subject of an entry's event. *)
Definition entry_key (e : entry) : string * string * string * string := (entry_event e).1.

(** The receipt that follows the event of an entry. *)
Definition receipt (e : entry) (w : RuntimeWriterLease) : entry :=
  Noted (wl_task_id w) (wl_plan_fingerprint w) WRITER_FENCE_EVENT_TYPE (entry_key e).2
    (JObj (fence_items w (kind_of e) (lease_sha w))).

Definition with_receipt (r : fenced_entry) : list (entry * string) :=
  [(fe_entry r, fe_time r); (receipt (fe_entry r) (fe_writer r), fe_time r)].
Definition full_log (rs : list fenced_entry) : list (entry * string) := flat_map with_receipt rs.

(** The writer of the last record under a key. *)
Definition writer_of (rs : list fenced_entry) (key : string * string * string * string) : option RuntimeWriterLease :=
  last (omap (λ r, if bool_decide (entry_key (fe_entry r) = key) then Some (fe_writer r) else None) rs).

Definition binding_of (w : RuntimeWriterLease) : fence_binding := {|
  fb_run_id := wl_run_id w; fb_generation := wl_generation w; fb_lease_fingerprint := lease_sha w |}.

Definition writer_ok (w : RuntimeWriterLease) : Prop := lease_valid w ∧ wl_status w = "ACTIVE".

Definition is_noted (e : entry) : bool := match e with Noted _ _ _ _ _ => true | _ => false end.

Record record_ok (r : fenced_entry) : Prop := {
  ro_entry : is_noted (fe_entry r) = false;
  ro_writer : writer_ok (fe_writer r);
  ro_scope : (entry_key (fe_entry r)).1.1 = lease_key (fe_writer r)
}.

Lemma kind_known r : record_ok r → table_get (entry_key (fe_entry r)).1.2 _PROTECTED_EVENT_KINDS = Some (kind_of (fe_entry r)).
Proof. intros [Hn _ _]. by destruct (fe_entry r). Qed.

(** ** Receipts *)

Lemma receipt_ok e w : entry_ok (receipt e w).
Proof. split; [|done]. reflexivity. Qed.

Lemma compact_nonempty s f x : compact_id RuntimeWriterLeaseError s f = Ok x → s ≠ "".
Proof. by intros (-> & _ & H)%compact_id_ok ->. Qed.

Lemma valid_run w : lease_valid w → wl_run_id w ≠ "".
Proof.
  intros H. unfold lease_valid, RuntimeWriterLease_validate, validate_fields in H.
  do 3 apply bind_ok_iff in H as (? & _ & H). apply bind_ok_iff in H as (run & Hrun & _). by eapply compact_nonempty.
Qed.

(** A receipt is read back as the writer it names. *)
Lemma fence_payload_read w kind : lease_valid w →
  _validate_fence_payload (canon (JObj (fence_items w kind (lease_sha w)))) kind = Ok (binding_of w).
Proof.
  intros Hw. change (canon (JObj (fence_items w kind (lease_sha w)))) with (JObj (canon_items (fence_items w kind (lease_sha w)))).
  assert (NoDup (fence_items w kind (lease_sha w)).*1) as Hd by (apply (proj1 (bool_decide_eq_true _)); reflexivity).
  cbn [_validate_fence_payload]. rewrite has_keys_canon, !get_canon by done. unfold fence_items. read_items. cbn [canon is_str].
  change (has_keys _ FENCE_KEYS) with true. rewrite !(bool_decide_true (_ = _)) by done.
  assert (is_empty (wl_run_id w) = false) as -> by (apply is_empty_false; by apply valid_run).
  assert ((wl_generation w <? 1) = false) as -> by (apply Z.ltb_ge; by apply valid_generation).
  cbn [negb wf_fail_if raise_if mbind result_bind]. unfold _require_sha256, lease_sha. rewrite sha256_of_text_shape. done.
Qed.

Lemma fence_payload_ok w kind : writer_ok w → mem_str kind _PROTECTED_EVENT_KINDS.*2 = true →
  _fence_payload w kind = Ok (JObj (fence_items w kind (lease_sha w))).
Proof.
  intros [Hv Ha] Hk. unfold _fence_payload. rewrite Hv, Ha, Hk. cbn [mbind result_bind]. rewrite (bool_decide_true (_ = _)) by done.
  cbn [negb wf_fail_if raise_if mbind result_bind]. by rewrite lease_fingerprint_ok.
Qed.

(** ** The events of the log *)

(** An event row that tells of an entry. *)
Definition row_says (e : entry) (x : event_row) : Prop :=
  entry_event e = (pe_task_id x, pe_plan_fingerprint x, pe_event_type x, pe_subject_id x, pe_payload_json x)
  ∧ pe_payload_sha256 x = sha256_of_text (pe_payload_json x).

Definition rows_say (r : fenced_entry) (p : event_row * event_row) : Prop :=
  row_says (fe_entry r) p.1 ∧ row_says (receipt (fe_entry r) (fe_writer r)) p.2.

Definition flat_pairs (ps : list (event_row * event_row)) : list event_row := flat_map (λ p, [p.1; p.2]) ps.

Lemma chain_entry_says events e now : ∃ x, chain_entry events (e, now) = events ++ [x] ∧ row_says e x.
Proof.
  unfold chain_entry. cbn [fst snd]. destruct (entry_event e) as [[[[t p] type] subject] text] eqn:Ee.
  eexists. split; [reflexivity|]. split; [|done]. by rewrite Ee.
Qed.

Lemma full_log_pairs rs : ∃ ps, fold_left chain_entry (full_log rs) [] = flat_pairs ps ∧ Forall2 rows_say rs ps.
Proof.
  induction rs as [|r rs IH] using rev_ind; [by exists []|]. destruct IH as (ps & Hps & Hall).
  unfold full_log. rewrite flat_map_app. fold (full_log rs). rewrite fold_left_app, Hps. cbn [flat_map with_receipt app fold_left].
  destruct (chain_entry_says (flat_pairs ps) (fe_entry r) (fe_time r)) as (x & -> & Hx).
  destruct (chain_entry_says (flat_pairs ps ++ [x]) (receipt (fe_entry r) (fe_writer r)) (fe_time r)) as (y & -> & Hy).
  exists (ps ++ [(x, y)]). split; [unfold flat_pairs; rewrite flat_map_app; cbn; by rewrite <- app_assoc|].
  apply Forall2_app; [done|]. constructor; [by split|constructor].
Qed.

Lemma after_last_pairs P ps : (∀ p, p ∈ ps → P p.2 = false) →
  after_last P (flat_pairs ps) = (λ f, Some f) <$> last (omap (λ p, if P p.1 then Some p.2 else None) ps).
Proof.
  induction ps as [|p ps IH]; [done|]. intros Hp. cbn [flat_pairs flat_map app after_last omap list_omap].
  fold (flat_pairs ps). rewrite IH by (intros q Hq; apply Hp; by right). rewrite (Hp p) by left.
  destruct (last (omap _ ps)) as [f|] eqn:Hl; cbn [fmap option_fmap option_map].
  - destruct (P p.1); [|by rewrite Hl]. by rewrite last_cons, Hl.
  - destruct (P p.1); [|by rewrite Hl]. by rewrite last_cons, Hl.
Qed.

Lemma noted_row task plan type subject v x : row_says (Noted task plan type subject v) x →
  pe_task_id x = task ∧ pe_plan_fingerprint x = plan ∧ pe_event_type x = type ∧ pe_subject_id x = subject
  ∧ pe_payload_json x = print v ∧ pe_payload_sha256 x = sha256_of_text (print v).
Proof. intros [[= <- <- <- <- Hv] Hs]. by rewrite Hs, <- Hv. Qed.

Lemma fence_of_noted task plan subject v x kind : json_ok v = true →
  row_says (Noted task plan WRITER_FENCE_EVENT_TYPE subject v) x →
  fence_of task plan kind subject (Some x) = _validate_fence_payload (canon v) kind.
Proof.
  intros Hv (H1 & H2 & H3 & H4 & H5 & H6)%noted_row.
  unfold fence_of, event_in, in_scope. rewrite H1, H2, H3, H4, H5, H6, (parse_canonical v) by done.
  by rewrite !(bool_decide_true (_ = _)) by done.
Qed.

(** The receipt of a record, read from its row. *)
Lemma fence_of_row r p : record_ok r → rows_say r p →
  fence_of (wl_task_id (fe_writer r)) (wl_plan_fingerprint (fe_writer r)) (kind_of (fe_entry r)) (entry_key (fe_entry r)).2
    (Some p.2) = Ok (binding_of (fe_writer r)).
Proof.
  intros [_ [Hv _] _] [_ Hrow]. unfold receipt in Hrow. rewrite <- (fence_payload_read _ (kind_of (fe_entry r)) Hv).
  apply (fence_of_noted _ _ _ _ _ _ (proj1 (receipt_ok (fe_entry r) (fe_writer r))) Hrow).
Qed.

Lemma Forall2_last {A B} (R : A → B → Prop) l k : Forall2 R l k → option_Forall2 R (last l) (last k).
Proof.
  induction 1 as [|x y l k Hxy Hlk IH]; [constructor|]. rewrite !last_cons. by destruct IH; constructor.
Qed.

Context (l : RuntimeWriterLease).

Notation key type subject := (wl_task_id l, wl_plan_fingerprint l, type, subject).

Lemma key_matches e x type subject : row_says e x →
  event_in (wl_task_id l) (wl_plan_fingerprint l) x && bool_decide (pe_event_type x = type)
    && bool_decide (pe_subject_id x = subject) = bool_decide (entry_key e = key type subject).
Proof.
  intros [He _]. unfold entry_key. rewrite He. cbn [fst]. unfold event_in, in_scope. rewrite <- !bool_decide_and.
  apply bool_decide_ext. split; [by intros [[[-> ->] ->] ->]|by intros [= -> -> -> ->]].
Qed.

(** What the event after the last one under a key says. *)
Lemma binding_run rs type subject kind : Forall record_ok rs → table_get type _PROTECTED_EVENT_KINDS = Some kind →
  _binding_after_event l (fold_left chain_entry (full_log rs) []) type subject
  = match writer_of rs (key type subject) with
    | Some w => Ok (binding_of w)
    | None => wf_fail "EXECUTION_PROTECTED_EVENT_NOT_FOUND"
    end.
Proof.
  intros Hrs Hk. destruct (full_log_pairs rs) as (ps & -> & Hps). unfold _binding_after_event. rewrite Hk.
  rewrite after_last_pairs.
  2: { intros p Hp. apply list_elem_of_lookup in Hp as [i Hp]. destruct (Forall2_lookup_r _ _ _ i p Hps Hp) as (r & _ & _ & Hs).
       rewrite (key_matches _ _ _ _ Hs). apply bool_decide_eq_false. intros [= _ _ Hty _]. subst type. done. }
  assert (Forall2 (λ w f, fence_of (wl_task_id l) (wl_plan_fingerprint l) kind subject (Some f) = Ok (binding_of w))
    (omap (λ r, if bool_decide (entry_key (fe_entry r) = key type subject) then Some (fe_writer r) else None) rs)
    (omap (λ p, if event_in (wl_task_id l) (wl_plan_fingerprint l) p.1 && bool_decide (pe_event_type p.1 = type)
                   && bool_decide (pe_subject_id p.1 = subject) then Some p.2 else None) ps)) as Hlast.
  { induction Hps as [|r p rs ps Hrp Hps IH]; [constructor|]. apply Forall_cons_1 in Hrs as [Hr Hrs]. specialize (IH Hrs).
    cbn [omap list_omap]. rewrite (key_matches _ _ _ _ (proj1 Hrp)). destruct (bool_decide (entry_key _ = _)) eqn:Hm; [|done].
    bool_prop. constructor; [|done]. pose proof (fence_of_row _ _ Hr Hrp) as Hf. pose proof (kind_known _ Hr) as Hkind.
    pose proof (ro_scope _ Hr) as Hscope. unfold lease_key in Hscope. rewrite Hm in Hf, Hkind, Hscope. cbn [fst snd] in Hf, Hkind, Hscope.
    injection Hscope as Ht Hp. rewrite <- Ht, <- Hp in Hf. rewrite Hk in Hkind. injection Hkind as ->. exact Hf. }
  apply Forall2_last in Hlast. unfold writer_of. destruct Hlast as [w f Hf|]; [exact Hf|done].
Qed.

(** ** What a log with writers must satisfy *)

Definition dispatched_by (r : fenced_entry) : option DispatchTicket := match fe_entry r with Dispatched t => Some t | _ => None end.
Definition observed_by (r : fenced_entry) : option ExecutionObservation := match fe_entry r with Observed o => Some o | _ => None end.

Lemma full_tickets rs : tickets (full_log rs) = omap dispatched_by rs.
Proof.
  induction rs as [|r rs IH]; [done|]. cbn [full_log flat_map with_receipt app]. fold (full_log rs).
  unfold tickets in *. cbn [omap list_omap]. unfold ticket_of, dispatched_by in *. cbn [fst receipt].
  destruct (fe_entry r); cbn [receipt]; by rewrite IH.
Qed.
Lemma full_reports rs : reports (full_log rs) = omap observed_by rs.
Proof.
  induction rs as [|r rs IH]; [done|]. cbn [full_log flat_map with_receipt app]. fold (full_log rs).
  unfold reports in *. cbn [omap list_omap]. unfold observation_of, observed_by in *. cbn [fst receipt].
  destruct (fe_entry r); cbn [receipt]; by rewrite IH.
Qed.

(** Every record is its writer's, and an observation has the writer of its dispatch. *)
Record fenced_ok (rs : list fenced_entry) : Prop := {
  fo_log : log_ok (full_log rs);
  fo_records : Forall record_ok rs;
  fo_ids : NoDup (map eo_observation_id (reports (full_log rs)));
  fo_settled : ∀ r o, r ∈ rs → observed_by r = Some o →
    ∃ d t, d ∈ rs ∧ dispatched_by d = Some t ∧ answers o t ∧ binding_of (fe_writer d) = binding_of (fe_writer r)
}.

Lemma NoDup_omap_inj {A B C} (f : A → option B) (g : B → C) xs x y b b' : NoDup (map g (omap f xs)) → x ∈ xs → y ∈ xs →
  f x = Some b → f y = Some b' → g b = g b' → x = y.
Proof.
  induction xs as [|z xs IH]; [by intros _ ?%elem_of_nil|]. cbn [omap list_omap]. intros Hn Hx Hy Hfx Hfy Hg.
  assert (∀ u v, u ∈ xs → f u = Some v → g v ∈ map g (omap f xs)) as Hin.
  { intros u v Hu Hv. apply list_elem_of_fmap_2. apply list_elem_of_omap. by exists u. }
  apply elem_of_cons in Hx as [->|Hx], Hy as [->|Hy]; [done|..].
  - rewrite Hfx in Hn. cbn [map] in Hn. apply NoDup_cons in Hn as [Hn _]. destruct Hn. rewrite Hg. by eapply Hin.
  - rewrite Hfy in Hn. cbn [map] in Hn. apply NoDup_cons in Hn as [Hn _]. destruct Hn. rewrite <- Hg. by eapply Hin.
  - apply IH; [|done..]. destruct (f z); [|done]. cbn [map] in Hn. by apply NoDup_cons in Hn as [_ ?].
Qed.

(** The writer under a key that one record has. *)
Lemma writer_of_unique rs r k : r ∈ rs → entry_key (fe_entry r) = k →
  (∀ r', r' ∈ rs → entry_key (fe_entry r') = k → r' = r) → writer_of rs k = Some (fe_writer r).
Proof.
  intros Hr Hk Hu. unfold writer_of. set (f := λ r, if bool_decide (entry_key (fe_entry r) = k) then Some (fe_writer r) else None).
  assert (fe_writer r ∈ omap f rs) as Hin.
  { apply list_elem_of_omap. exists r. split; [done|]. unfold f. by rewrite bool_decide_true. }
  assert (∀ w, w ∈ omap f rs → w = fe_writer r) as Hall.
  { intros w (r' & Hr' & Hw)%list_elem_of_omap. unfold f in Hw. destruct (bool_decide _) eqn:E; [|done]. injection Hw as <-.
    bool_prop. by rewrite (Hu r'). }
  destruct (last (omap f rs)) as [w|] eqn:Hl; [|by apply last_None in Hl; rewrite Hl in Hin; apply elem_of_nil in Hin].
  by rewrite (Hall w) by (by apply last_Some_elem_of).
Qed.

Definition ticket_key (t : DispatchTicket) : string * string * string * string :=
  (dt_task_id t, dt_plan_fingerprint t, "DISPATCH_RECORDED", dt_ticket_id t).
Definition observation_key (o : ExecutionObservation) : string * string * string * string :=
  (eo_task_id o, eo_plan_fingerprint o, "OBSERVATION_RECORDED", eo_observation_id o).

Lemma dispatched_key r t : dispatched_by r = Some t → entry_key (fe_entry r) = ticket_key t.
Proof. unfold dispatched_by. destruct (fe_entry r); try done. by intros [= ->]. Qed.
Lemma observed_key r o : observed_by r = Some o → entry_key (fe_entry r) = observation_key o.
Proof. unfold observed_by. destruct (fe_entry r); try done. by intros [= ->]. Qed.

Lemma ticket_writer rs r t : fenced_ok rs → r ∈ rs → dispatched_by r = Some t → writer_of rs (ticket_key t) = Some (fe_writer r).
Proof.
  intros [Hlog Hrs _ _] Hr Ht. apply writer_of_unique; [done|by apply dispatched_key|]. intros r' Hr' Hk.
  rewrite Forall_elem in Hrs. pose proof (ro_entry _ (Hrs _ Hr')) as Hn.
  assert (∃ t', dispatched_by r' = Some t' ∧ dt_ticket_id t' = dt_ticket_id t) as (t' & Ht' & Hid).
  { unfold dispatched_by, entry_key, ticket_key in *. destruct (fe_entry r'); try done. injection Hk as _ _ ?. by eexists. }
  eapply (NoDup_omap_inj dispatched_by dt_ticket_id rs); [|done..]. rewrite <- full_tickets. apply Hlog.
Qed.
Lemma observation_writer rs r o : fenced_ok rs → r ∈ rs → observed_by r = Some o → writer_of rs (observation_key o) = Some (fe_writer r).
Proof.
  intros [_ Hrs Hids _] Hr Ho. apply writer_of_unique; [done|by apply observed_key|]. intros r' Hr' Hk.
  rewrite Forall_elem in Hrs. pose proof (ro_entry _ (Hrs _ Hr')) as Hn.
  assert (∃ o', observed_by r' = Some o' ∧ eo_observation_id o' = eo_observation_id o) as (o' & Ho' & Hid).
  { unfold observed_by, entry_key, observation_key in *. destruct (fe_entry r'); try done. injection Hk as _ _ ?. by eexists. }
  eapply (NoDup_omap_inj observed_by eo_observation_id rs); [|done..]. by rewrite <- full_reports.
Qed.

(** ** The audit accepts the log *)

Lemma event_in_says e x task plan type subject text : row_says e x → entry_event e = (task, plan, type, subject, text) →
  pe_task_id x = task ∧ pe_plan_fingerprint x = plan ∧ pe_event_type x = type ∧ pe_subject_id x = subject.
Proof. intros [-> _] [= -> -> -> -> _]. done. Qed.

Lemma events_bound_pair r p rest : record_ok r → rows_say r p →
  events_bound l (p.1 :: p.2 :: rest) = events_bound l rest.
Proof.
  intros Hr [Hrow Hrcpt]. pose proof (kind_known _ Hr) as Hkind. destruct Hr as [_ [Hv _] Hscope].
  destruct (noted_row _ _ _ _ _ _ Hrcpt) as (H1 & H2 & H3 & H4 & H5 & H6).
  unfold entry_key in Hkind, Hscope, H4. destruct (entry_event (fe_entry r)) as [[[[t pl] type] subject] text] eqn:Ee.
  cbn [fst snd] in Hkind, Hscope, H4. injection Hscope as -> ->.
  destruct (event_in_says _ _ _ _ _ _ _ Hrow Ee) as (G1 & G2 & G3 & G4).
  assert (event_in (wl_task_id l) (wl_plan_fingerprint l) p.2 = event_in (wl_task_id l) (wl_plan_fingerprint l) p.1) as Hin.
  { unfold event_in. by rewrite H1, H2, G1, G2. }
  assert (events_bound l (p.2 :: rest) = events_bound l rest) as Hskip.
  { cbn [events_bound]. rewrite H3. by destruct (event_in _ _ p.2). }
  change (events_bound l (p.1 :: p.2 :: rest)) with
    (match (if event_in (wl_task_id l) (wl_plan_fingerprint l) p.1 then table_get (pe_event_type p.1) _PROTECTED_EVENT_KINDS else None) with
     | None => events_bound l (p.2 :: rest)
     | Some subject_kind =>
         if negb (event_in (wl_task_id l) (wl_plan_fingerprint l) p.2)
            || negb (bool_decide (pe_event_type p.2 = WRITER_FENCE_EVENT_TYPE))
            || negb (bool_decide (pe_subject_id p.2 = pe_subject_id p.1)) then Ok false
         else
           payload ← _parse_canonical_payload (pe_payload_json p.2) (pe_payload_sha256 p.2) "WRITER_FENCE";
           _validate_fence_payload payload subject_kind ;; events_bound l (p.2 :: rest)
     end).
  rewrite Hskip, Hin. destruct (event_in _ _ p.1) eqn:Hs; [|done]. rewrite G3, Hkind, H3, H4, G4, !(bool_decide_true (_ = _)) by done.
  cbn [negb orb]. rewrite H5, H6, parse_canonical by reflexivity. cbn [mbind result_bind]. by rewrite fence_payload_read.
Qed.

Lemma log_bound rs : Forall record_ok rs → events_bound l (fold_left chain_entry (full_log rs) []) = Ok true.
Proof.
  intros Hrs. destruct (full_log_pairs rs) as (ps & -> & Hps). induction Hps as [|r p rs ps Hrp Hps IH]; [done|].
  apply Forall_cons_1 in Hrs as [Hr Hrs]. change (flat_pairs (p :: ps)) with (p.1 :: p.2 :: flat_pairs ps).
  rewrite (events_bound_pair r) by done. auto.
Qed.

Notation in_lease := (in_scope (wl_task_id l) (wl_plan_fingerprint l)).

(** The receipt of a ticket or an observation of the log. *)
Definition binding_at (rs : list fenced_entry) (k : string * string * string * string) : fence_binding :=
  binding_of (default l (writer_of rs k)).

Lemma bind_dispatches rs rows ts m : fenced_ok rs → Forall2 (row_for ticket_row) rows ts →
  Forall (ticket_in (full_log rs) (wl_task_id l) (wl_plan_fingerprint l)) ts →
  foldM (bind_dispatch l (fold_left chain_entry (full_log rs) [])) m rows
  = Ok (fold_left (λ m t, <[dt_node_id t := binding_at rs (ticket_key t)]> m) ts m).
Proof.
  intros Hrs Hrows. revert m. induction Hrows as [|row t rows ts [now ->] _ IH]; intros m Hts; [done|].
  apply Forall_cons_1 in Hts as [(Ht & Htask & Hplan) Hts]. cbn [foldM fold_left].
  assert (bind_dispatch l (fold_left chain_entry (full_log rs) []) m (ticket_row t now)
    = Ok (<[dt_node_id t := binding_at rs (ticket_key t)]> m)) as ->; [|by apply IH].
  unfold bind_dispatch. cbn [ticket_row dispatch_row_of pd_ticket_id pd_node_id].
  rewrite (binding_run rs _ _ "DISPATCH") by (apply Hrs || done). rewrite <- Htask, <- Hplan. fold (ticket_key t).
  rewrite full_tickets in Ht. apply list_elem_of_omap in Ht as (r & Hr & Hrt).
  unfold binding_at. by rewrite (ticket_writer rs r t) by done.
Qed.

Lemma fold_insert_lookup {A} (node : A → string) (b : A → fence_binding) ts (m : gmap string fence_binding) t : NoDup (map node ts) → t ∈ ts →
  fold_left (λ (m : gmap string fence_binding) t, <[node t := b t]> m) ts m !! node t = Some (b t).
Proof.
  revert m. induction ts as [|x ts IH]; intros m Hn Ht; [by apply elem_of_nil in Ht|]. cbn [map fold_left] in *.
  apply NoDup_cons in Hn as [Hx Hn]. apply elem_of_cons in Ht as [->|Ht]; [|by apply IH]. clear IH.
  assert (∀ m : gmap string fence_binding, m !! node x = Some (b x) → fold_left (λ (m : gmap string fence_binding) t, <[node t := b t]> m) ts m !! node x = Some (b x)) as Hkeep.
  { induction ts as [|y ts IH]; intros m' Hm; [done|]. cbn [map fold_left] in *. apply not_elem_of_cons in Hx as [Hne Hx].
    apply NoDup_cons in Hn as [_ Hn]. apply IH; [done|done|]. by rewrite lookup_insert_ne by congruence. }
  apply Hkeep. by rewrite lookup_insert_eq.
Qed.

Lemma observations_are_bound rs rows os m : fenced_ok rs → Forall2 (row_for report_row) rows os →
  Forall (λ o, o ∈ reports (full_log rs) ∧ eo_task_id o = wl_task_id l ∧ eo_plan_fingerprint o = wl_plan_fingerprint l) os →
  (∀ t, t ∈ tickets (full_log rs) → dt_task_id t = wl_task_id l → dt_plan_fingerprint t = wl_plan_fingerprint l →
     m !! dt_node_id t = Some (binding_at rs (ticket_key t))) →
  observations_bound l (fold_left chain_entry (full_log rs) []) m rows = Ok true.
Proof.
  intros Hrs Hrows Hos Hm. induction Hrows as [|row o rows os [now ->] _ IH]; [done|].
  apply Forall_cons_1 in Hos as [(Ho & Htask & Hplan) Hos]. cbn [observations_bound report_row observation_row_of po_node_id po_observation_id].
  rewrite full_reports in Ho. apply list_elem_of_omap in Ho as (r & Hr & Hro).
  destruct (fo_settled _ Hrs r o Hr Hro) as (d & t & Hd & Hdt & Hans & Hw). destruct Hans as ([= A1 A2 A3] & _).
  assert (m !! eo_node_id o = Some (binding_at rs (ticket_key t))) as ->.
  { rewrite A3. apply Hm; [|congruence..]. rewrite full_tickets. apply list_elem_of_omap. by exists d. }
  rewrite (binding_run rs _ _ "OBSERVATION") by (apply Hrs || done). rewrite <- Htask, <- Hplan. fold (observation_key o).
  rewrite (observation_writer rs r o) by done. cbn [mbind result_bind].
  unfold binding_at. rewrite (ticket_writer rs d t) by done. change (default l (Some (fe_writer d))) with (fe_writer d).
  rewrite Hw, bool_decide_true by done. by apply IH.
Qed.

Lemma audit_log rs : fenced_ok rs → audit_tables l (tables_of (full_log rs)) = Ok true.
Proof.
  intros Hrs. unfold audit_tables. cbn [tables_of ct_dispatches ct_observations ct_events].
  rewrite log_bound by apply Hrs. cbn [negb mbind result_bind].
  pose proof (filter_match ticket_row (dispatch_in (wl_task_id l) (wl_plan_fingerprint l))
    (λ t, in_lease (dt_task_id t) (dt_plan_fingerprint t)) (λ _ _, eq_refl) _ _ (rows_match ticket_of ticket_row (full_log rs))) as Hd.
  pose proof (filter_match report_row (observation_in (wl_task_id l) (wl_plan_fingerprint l))
    (λ o, in_lease (eo_task_id o) (eo_plan_fingerprint o)) (λ _ _, eq_refl) _ _ (rows_match observation_of report_row (full_log rs))) as Ho.
  fold (tickets (full_log rs)) in Hd. fold (reports (full_log rs)) in Ho.
  rewrite (bind_dispatches rs _ _ ∅ Hrs Hd).
  2: { apply Forall_elem. intros t (Ht & Hs%in_scope_iff)%list_elem_of_In%List.filter_In. split; [by apply list_elem_of_In|done]. }
  cbn [mbind result_bind]. eapply observations_are_bound; [done|exact Ho|..].
  - apply Forall_elem. intros o (Ht & Hs%in_scope_iff)%list_elem_of_In%List.filter_In. split; [by apply list_elem_of_In|done].
  - intros t Ht Htask Hplan. apply (fold_insert_lookup dt_node_id).
    + pose proof (scoped_nodes (full_log rs) (wl_task_id l) (wl_plan_fingerprint l) (fo_log _ Hrs)) as Hn.
      unfold scoped_tickets in Hn. by rewrite order_by_perm in Hn.
    + apply list_elem_of_In, List.filter_In. split; [by apply list_elem_of_In|]. by apply in_scope_iff.
Qed.
End Fenced.
