(* ===== verification/FencedLog.v ===== *)
(** * Writer-fenced checkpoints: the repository implements the log

    The operations of the fenced repository on the log with writers, and the refinement: the checkpoint
    tables, their event chain and the lease table together implement that log. *)

From Stdlib Require Import Ascii SpecFloat.
From Stdlib Require String.
From S2P Require Import Prelude PyStr Hashlib PyFloat Json JsonFacts PyTime Validators TaskContract.
From S2P Require Import CapabilityAuthority AuthorityFacts WorkflowDesign ContextManifest TaskContext.
From S2P Require Import ExecutionPlan PlanFacts ExecutionObservation ObservationFacts RuntimeScheduler ReadinessFacts.
From S2P Require Import ExecutionScheduler SchedulerFacts RestoreFacts ExecutionCheckpoint CheckpointFacts CheckpointLog.
From S2P Require Import WriterLease LeaseFacts WriterFence FenceFacts.

Local Open Scope Z_scope.

(** ** The operations on the log *)

Record FencedLog := {
  fl_book : WriterBook;
  fl_records : list fenced_entry
}.

Definition set_records (rs : list fenced_entry) (a : FencedLog) : FencedLog := {| fl_book := fl_book a; fl_records := rs |}.

Definition denied {A} (m : result A) : result A :=
  match m with Ok x => Ok x | Raise e => Raise (_translate_writer_error e) end.

Definition fenced_transaction (f : FencedLog → result (list fenced_entry)) : ST FencedLog unit := λ a,
  if wb_locked (fl_book a) then (raise SqliteOperationalError "database is locked", a)
  else match f a with
       | Ok rs => (Ok tt, set_records rs a)
       | Raise e => (Raise e, a)
       end.

Section Operations.
Context {HL : Hashlib}.

(** The log without its writers. *)
Definition log_store (a : FencedLog) : LogStore := {|
  ls_tasks := wb_tasks (fl_book a); ls_log := full_log (fl_records a); ls_now := wb_now (fl_book a);
  ls_locked := wb_locked (fl_book a) |}.

Definition still_writer (l : RuntimeWriterLease) (a : FencedLog) : result unit :=
  denied (book_require l (wb_leases (fl_book a)) ;; Ok tt).

(** The last record of the type and subject is of the writer. *)
Definition written_by (l : RuntimeWriterLease) (type subject : string) (a : FencedLog) : result unit :=
  match writer_of (fl_records a) (wl_task_id l, wl_plan_fingerprint l, type, subject) with
  | None => wf_fail "EXECUTION_PROTECTED_EVENT_NOT_FOUND"
  | Some w => wf_fail_if (negb (bool_decide (binding_of w = binding_of l))) "EXECUTION_WRITER_GENERATION_BINDING_MISMATCH"
  end.

Definition log_write (l : RuntimeWriterLease) (e : entry) (a : FencedLog) : list fenced_entry :=
  fl_records a ++ [{| fe_entry := e; fe_time := wb_now (fl_book a); fe_writer := l |}].

Definition fenced_dispatch (l : RuntimeWriterLease) (t : DispatchTicket) (a : FencedLog) : result (list fenced_entry) :=
  log_require_task (dt_task_id t) (log_store a) ;;
  still_writer l a ;;
  match List.find (λ x, bool_decide (dt_ticket_id x = dt_ticket_id t)) (tickets (full_log (fl_records a))) with
  | Some x =>
      cp_fail_if (negb (bool_decide (sha256_of_text (ticket_text x) = sha256_of_text (ticket_text t))))
        "DISPATCH_CHECKPOINT_IDENTITY_CONFLICT" ;;
      written_by l "DISPATCH_RECORDED" (dt_ticket_id t) a ;;
      Ok (fl_records a)
  | None =>
      cp_fail_if (existsb (λ x, bool_decide (node_key x = node_key t)) (tickets (full_log (fl_records a))))
        "DISPATCH_CHECKPOINT_NODE_CONFLICT" ;;
      sqlite_int (dt_dispatch_sequence t) ;;
      Ok (log_write l (Dispatched t) a)
  end.

Definition fenced_observation (l : RuntimeWriterLease) (o : ExecutionObservation) (a : FencedLog)
    : result (list fenced_entry) :=
  log_require_task (eo_task_id o) (log_store a) ;;
  still_writer l a ;;
  match List.find (λ x, bool_decide (node_key x = report_key o)) (tickets (full_log (fl_records a))) with
  | None => cp_fail "OBSERVATION_CHECKPOINT_REQUIRES_DISPATCH"
  | Some t =>
      cp_fail_if (negb (bool_decide (eo_node_fingerprint o = dt_node_fingerprint t))) "OBSERVATION_CHECKPOINT_NODE_MISMATCH" ;;
      cp_fail_if (negb (bool_decide (eo_authority_fingerprint o = dt_authority_fingerprint t)))
        "OBSERVATION_CHECKPOINT_AUTHORITY_MISMATCH" ;;
      written_by l "DISPATCH_RECORDED" (dt_ticket_id t) a ;;
      match List.find (λ x, bool_decide (eo_observation_id x = eo_observation_id o)) (reports (full_log (fl_records a))) with
      | Some x =>
          cp_fail_if (negb (bool_decide (sha256_of_text (observation_text x) = sha256_of_text (observation_text o))))
            "OBSERVATION_CHECKPOINT_IDENTITY_CONFLICT" ;;
          written_by l "OBSERVATION_RECORDED" (eo_observation_id o) a ;;
          Ok (fl_records a)
      | None =>
          cp_fail_if (existsb (λ x, bool_decide (report_key x = report_key o)) (reports (full_log (fl_records a))))
            "OBSERVATION_CHECKPOINT_NODE_CONFLICT" ;;
          Ok (log_write l (Observed o) a)
      end
  end.

(** A cancellation is recorded again unless the last one has the same reason and writer. *)
Definition fenced_cancellation (l : RuntimeWriterLease) (task plan reason : string) (a : FencedLog)
    : result (list fenced_entry) :=
  log_require_task task (log_store a) ;;
  still_writer l a ;;
  Ok (if bool_decide (last_reason (full_log (fl_records a)) task plan = Some reason)
         && match writer_of (fl_records a) (wl_task_id l, wl_plan_fingerprint l, "CANCELLED", task) with
            | Some w => bool_decide (binding_of w = binding_of l)
            | None => false
            end
      then fl_records a else log_write l (Cancelled task plan reason) a).

Definition log_record_dispatch (l : RuntimeWriterLease) (t : DispatchTicket) : ST FencedLog DispatchTicket :=
  st_lift (_require_scope l (dt_task_id t) (dt_plan_fingerprint t)) ;;
  st_lift (_dispatch_payload t) ;; fenced_transaction (fenced_dispatch l t) ;; mret t.

Definition log_record_observation (l : RuntimeWriterLease) (o : ExecutionObservation) : ST FencedLog ExecutionObservation :=
  st_lift (ExecutionObservation_validate o None None) ;;
  st_lift (_require_scope l (eo_task_id o) (eo_plan_fingerprint o)) ;;
  st_lift (ExecutionObservation_canonical_dict o) ;;
  fenced_transaction (fenced_observation l o) ;; mret o.

Definition log_record_cancellation (l : RuntimeWriterLease) (task plan reason : string) : ST FencedLog unit :=
  st_lift (_require_scope l task plan) ;;
  st_lift (_require_sha256 plan "plan_fingerprint") ;;
  st_raise_if (is_empty (strip reason)) ExecutionCheckpointError "INVALID_CANCELLATION_REASON" ;;
  fenced_transaction (fenced_cancellation l task plan (strip reason)).

Definition log_load (l : RuntimeWriterLease) (task plan : string) : ST FencedLog RecoveredExecutionState :=
  st_lift (_require_scope l task plan) ;;
  a ← st_get;
  st_lift (still_writer l a) ;;
  st_lift (_require_sha256 plan "plan_fingerprint") ;;
  st_lift (log_require_task task (log_store a)) ;;
  mret (log_recover task plan (full_log (fl_records a))).

Definition log_initialize (l : RuntimeWriterLease) : ST FencedLog unit := a ← st_get; st_lift (still_writer l a).

(** ** The tables implement the log *)

Record fenced_by (s : WriterDB) (a : FencedLog) : Prop := {
  fb_log : represents (wd_checkpoints s) (log_store a);
  fb_book : books s (fl_book a);
  fb_records : fenced_ok (fl_records a)
}.

Definition fenced_simulates {A} (m : ST WriterDB A) (m' : ST FencedLog A) : Prop := ∀ s a, fenced_by s a →
  (m s).1 = (m' a).1 ∧ fenced_by (m s).2 (m' a).2.

Definition set_checkpoint (c : CheckpointStore) (s : WriterDB) : WriterDB := {| wd_checkpoints := c; wd_leases := wd_leases s |}.

Lemma on_checkpoints_run {A} (m : ST CheckpointStore A) s r c : m (wd_checkpoints s) = (r, c) →
  on_checkpoints m s = (r, set_checkpoint c s).
Proof. unfold on_checkpoints, st_zoom. by intros ->. Qed.
Lemma on_checkpoints_read {A} (m : ST CheckpointStore A) s r : m (wd_checkpoints s) = (r, wd_checkpoints s) →
  on_checkpoints m s = (r, s).
Proof. intros H. rewrite (on_checkpoints_run _ _ _ _ H). by destruct s. Qed.

Section Simulation.
Context (s : WriterDB) (a : FencedLog) (Hf : fenced_by s a).

Notation events := (fold_left chain_entry (full_log (fl_records a)) []).

Lemma fenced_task_run task : on_checkpoints (_require_task task) s = (log_require_task task (log_store a), s).
Proof. apply on_checkpoints_read. apply (require_task_run _ _ (fb_log _ _ Hf)). Qed.
Lemma fenced_dispatches_run : on_checkpoints read_dispatches s = (Ok (rows_of ticket_of ticket_row (full_log (fl_records a))), s).
Proof. apply on_checkpoints_read. apply (read_dispatches_run _ _ (fb_log _ _ Hf)). Qed.
Lemma fenced_observations_run : on_checkpoints read_observations s = (Ok (rows_of observation_of report_row (full_log (fl_records a))), s).
Proof. apply on_checkpoints_read. apply (read_observations_run _ _ (fb_log _ _ Hf)). Qed.
Lemma fenced_events_run : on_checkpoints read_events s = (Ok events, s).
Proof. apply on_checkpoints_read. apply (read_events_run _ _ (fb_log _ _ Hf)). Qed.

Lemma still_writer_run l : st_map_exn _translate_writer_error (require_current_in_transaction l ;; mret tt) s = (still_writer l a, s).
Proof.
  destruct (bk_table _ _ (fb_book _ _ Hf)) as (t & Ht & Hm). unfold st_map_exn, mbind, st_bind.
  rewrite (require_run _ _ _ l Ht Hm). unfold still_writer, denied, mbind, result_bind. by destruct (book_require _ _).
Qed.

(** What a writer that passed the check is. *)
Lemma still_writer_ok l : still_writer l a = Ok tt → writer_ok l.
Proof.
  unfold still_writer, denied. destruct (book_require l _) as [x|] eqn:H; [|done]. intros _.
  by apply book_require_ok in H as (? & ? & _).
Qed.

Lemma binding_eq w l : binding_of w = binding_of l ↔
  wl_run_id w = wl_run_id l ∧ wl_generation w = wl_generation l ∧ lease_sha w = lease_sha l.
Proof.
  split; [|by intros (H1 & H2 & H3); unfold binding_of; rewrite H1, H2, H3].
  intros H. split_and!; [exact (f_equal fb_run_id H)|exact (f_equal fb_generation H)|exact (f_equal fb_lease_fingerprint H)].
Qed.

Lemma names_writer_ok l w : lease_valid l → names_writer l (binding_of w) = Ok (bool_decide (binding_of w = binding_of l)).
Proof.
  intros Hl. unfold names_writer. rewrite (bool_decide_ext _ _ (binding_eq w l)).
  cbn [binding_of fb_run_id fb_generation fb_lease_fingerprint]. rewrite lease_fingerprint_ok by done.
  destruct (decide (wl_run_id w = wl_run_id l)) as [E1|E1]; [|by rewrite !bool_decide_false by tauto].
  destruct (decide (wl_generation w = wl_generation l)) as [E2|E2].
  - rewrite E2, Z.eqb_refl, (bool_decide_true (wl_run_id w = _)) by done. cbn [andb mbind result_bind]. f_equal.
    apply bool_decide_ext. tauto.
  - rewrite (proj2 (Z.eqb_neq _ _) E2), andb_false_r. by rewrite bool_decide_false by tauto.
Qed.

Lemma written_by_run l type subject kind : lease_valid l → table_get type _PROTECTED_EVENT_KINDS = Some kind →
  _require_binding_matches_current_writer l events type subject = written_by l type subject a.
Proof.
  intros Hl Hk. unfold _require_binding_matches_current_writer, written_by.
  rewrite (binding_run l _ _ _ kind) by (done || apply Hf). destruct (writer_of _ _) as [w|]; [|done].
  cbn [mbind result_bind]. by rewrite names_writer_ok.
Qed.

Lemma fenced_transaction_sim {A} (m : ST WriterDB A) f (x : A) :
  match f a with
  | Ok rs => fenced_ok rs ∧ m s = (Ok x, set_checkpoint (set_tables (tables_of (full_log rs)) (wd_checkpoints s)) s)
  | Raise e => ∃ s', m s = (Raise e, s')
  end →
  (db_transaction m s).1 = ((fenced_transaction f ;; mret x) a).1
  ∧ fenced_by (db_transaction m s).2 ((fenced_transaction f ;; mret x) a).2.
Proof.
  intros H. destruct Hf as [Hlog [B1 B2 B3 B4] Hrs]. unfold db_transaction, fenced_transaction, mbind, st_bind.
  rewrite (rp_locked _ _ Hlog). cbn [log_store ls_locked]. destruct (wb_locked (fl_book a)) eqn:Hl; [done|].
  destruct (f a) as [rs|e]; [|by destruct H as [s' ->]]. destruct H as [Hok ->]. split; [done|].
  constructor; [|constructor; [exact B1|exact B2|exact (eq_trans B3 (eq_sym Hl))|exact B4]|done]. destruct Hlog as [H1 H2 H3 H4 H5]. constructor; try done. apply Hok.
Qed.

Lemma fenced_unchanged {A} (x : A) : (Ok x, s) = (Ok x, set_checkpoint (set_tables (tables_of (full_log (fl_records a))) (wd_checkpoints s)) s).
Proof.
  pose proof (set_tables_same _ _ (fb_log _ _ Hf)) as H. cbn [log_store ls_log] in H. rewrite H. by destruct s.
Qed.
End Simulation.

(** The event of an entry and its receipt, appended to the tables of a log. *)
Lemma append_pair_run l s t rs e now : writer_ok l → record_ok {| fe_entry := e; fe_time := now; fe_writer := l |} →
  cs_tables (wd_checkpoints s) = Some t → ct_events t = fold_left chain_entry (full_log rs) [] →
  let '(task, plan, type, subject, text) := entry_event e in
  (on_checkpoints (_append_event task plan type subject text (sha256_of_text text) now) ;;
   _append_writer_fence_event l (kind_of e) subject now) s
  = (Ok tt, set_checkpoint (set_tables {| ct_dispatches := ct_dispatches t; ct_observations := ct_observations t;
       ct_events := fold_left chain_entry (full_log (rs ++ [{| fe_entry := e; fe_time := now; fe_writer := l |}])) [] |}
       (wd_checkpoints s)) s).
Proof.
  intros Hl Hr Ht Hev. destruct (entry_event e) as [[[[task plan] type] subject] text] eqn:Ee.
  rewrite (st_bind_run _ _ _ _ _ (on_checkpoints_run _ _ _ _ (append_event_run _ t task plan type subject text _ now Ht eq_refl))).
  assert (mem_str (kind_of e) _PROTECTED_EVENT_KINDS.*2 = true) as Hk by (pose proof (ro_entry _ Hr); by destruct e).
  unfold _append_writer_fence_event. rewrite (fence_payload_ok _ _ Hl Hk).
  rewrite (st_bind_run (st_lift (Ok _)) _ _ _ _ eq_refl).
  rewrite canonical_json_ok by reflexivity. rewrite (st_bind_run (st_lift (Ok _)) _ _ _ _ eq_refl).
  rewrite digest_payload_ok by reflexivity. rewrite (st_bind_run (st_lift (Ok _)) _ _ _ _ eq_refl).
  erewrite on_checkpoints_run; [|by apply append_event_run]. f_equal. unfold set_checkpoint, set_tables. cbn. f_equal. f_equal. f_equal. f_equal.
  unfold full_log. rewrite flat_map_app, fold_left_app. cbn [flat_map with_receipt app fold_left fe_entry fe_time fe_writer].
  fold (full_log rs). rewrite <- Hev. unfold chain_entry. cbn [fst snd]. rewrite Ee. unfold receipt, entry_key. cbn [entry_event].
  by rewrite Ee.
Qed.

Lemma append_pair_ret {A} l s t rs e now (x : A) : writer_ok l → record_ok {| fe_entry := e; fe_time := now; fe_writer := l |} →
  cs_tables (wd_checkpoints s) = Some t → ct_events t = fold_left chain_entry (full_log rs) [] →
  let '(task, plan, type, subject, text) := entry_event e in
  (on_checkpoints (_append_event task plan type subject text (sha256_of_text text) now) ;;
   _append_writer_fence_event l (kind_of e) subject now ;; mret x) s
  = (Ok x, set_checkpoint (set_tables {| ct_dispatches := ct_dispatches t; ct_observations := ct_observations t;
       ct_events := fold_left chain_entry (full_log (rs ++ [{| fe_entry := e; fe_time := now; fe_writer := l |}])) [] |}
       (wd_checkpoints s)) s).
Proof.
  intros Hl Hr Ht Hev. pose proof (append_pair_run l s t rs e now Hl Hr Ht Hev) as H.
  destruct (entry_event e) as [[[[task plan] type] subject] text]. revert H. unfold mbind, st_bind.
  destruct (on_checkpoints _ s) as [[[]|] s1]; [|done]. by intros ->.
Qed.

(** ** Logs that grow *)

Lemma log_ok_noted rs task plan type subject v now : log_ok rs → entry_ok (Noted task plan type subject v) →
  log_ok (rs ++ [(Noted task plan type subject v, now)]).
Proof.
  intros [He Hi Hn Hu Ha] Hv. constructor; rewrite ?tickets_app, ?reports_app; cbn [tickets reports omap list_omap];
    rewrite ?app_nil_r; try done.
  apply Forall_app. split; [done|]. constructor; [done|constructor].
Qed.

Definition record_of (l : RuntimeWriterLease) (e : entry) (now : string) : fenced_entry := {|
  fe_entry := e; fe_time := now; fe_writer := l |}.

Lemma full_log_snoc rs l e now : full_log (rs ++ [record_of l e now]) = (full_log rs ++ [(e, now)]) ++ [(receipt e l, now)].
Proof. unfold full_log. rewrite flat_map_app, <- app_assoc. done. Qed.

Lemma tables_record rs l e now : tables_of (full_log (rs ++ [record_of l e now])) = {|
  ct_dispatches := ct_dispatches (tables_of (full_log rs)) ++ match e with Dispatched t => [ticket_row t now] | _ => [] end;
  ct_observations := ct_observations (tables_of (full_log rs)) ++ match e with Observed o => [report_row o now] | _ => [] end;
  ct_events := fold_left chain_entry (full_log (rs ++ [record_of l e now])) [] |}.
Proof.
  rewrite full_log_snoc, !tables_snoc. cbn [receipt ct_dispatches ct_observations ct_events]. rewrite !app_nil_r.
  by rewrite !fold_left_app.
Qed.

Lemma fenced_ok_snoc rs l e now : fenced_ok rs → record_ok (record_of l e now) → log_ok (full_log rs ++ [(e, now)]) →
  (∀ o, e = Observed o → eo_observation_id o ∉ map eo_observation_id (reports (full_log rs))
     ∧ ∃ d t, d ∈ rs ∧ dispatched_by d = Some t ∧ answers o t ∧ binding_of (fe_writer d) = binding_of l) →
  fenced_ok (rs ++ [record_of l e now]).
Proof.
  intros [Hlog Hrs Hids Hset] Hr Hl Ho. constructor.
  - rewrite full_log_snoc. unfold receipt. apply log_ok_noted; [done|]. apply (receipt_ok e l).
  - apply Forall_app. split; [done|]. constructor; [done|constructor].
  - rewrite full_log_snoc, !reports_app, !map_app. cbn [reports omap list_omap]. unfold observation_of at 2. cbn [fst receipt].
    rewrite app_nil_r. unfold observation_of. cbn [fst]. destruct e as [t|o|? ? ?|? ? ? ? ?]; cbn [map]; rewrite ?app_nil_r; try done.
    destruct (Ho o eq_refl) as [Hid _]. by apply NoDup_snoc.
  - intros r o [Hin| ->%list_elem_of_singleton]%elem_of_app Hro.
    + destruct (Hset r o Hin Hro) as (d & t & Hd & Hrest). exists d, t. split; [apply elem_of_app; by left|done].
    + unfold observed_by in Hro. cbn [record_of fe_entry] in Hro. destruct e as [|o'| |]; try done. injection Hro as ->.
      destruct (Ho o eq_refl) as [_ (d & t & Hd & Hrest)]. exists d, t. split; [apply elem_of_app; by left|done].
Qed.

(** ** Dispatches *)

Lemma require_scope_ok l task plan : _require_scope l task plan = Ok tt ↔ (task, plan) = lease_key l.
Proof.
  unfold _require_scope, wf_fail_if, lease_key. rewrite guard_bind_ok, raise_if_ok, !negb_false_iff, !bool_decide_eq_true.
  naive_solver.
Qed.

Lemma written_by_ok l type subject a : written_by l type subject a = Ok tt →
  ∃ w, writer_of (fl_records a) (wl_task_id l, wl_plan_fingerprint l, type, subject) = Some w ∧ binding_of w = binding_of l.
Proof.
  unfold written_by. destruct (writer_of _ _) as [w|]; [|done]. unfold wf_fail_if. rewrite raise_if_ok. intros H. bool_prop.
  by exists w.
Qed.

(** The task and the writer are checked first, whatever follows. *)
Lemma guarded_run {A} s a l task (m : ST WriterDB A) (f : result (list fenced_entry)) (x : A) : fenced_by s a →
  (writer_ok l → match f with
   | Ok rs => fenced_ok rs ∧ m s = (Ok x, set_checkpoint (set_tables (tables_of (full_log rs)) (wd_checkpoints s)) s)
   | Raise e => ∃ s', m s = (Raise e, s')
   end) →
  match (log_require_task task (log_store a) ;; still_writer l a ;; f) with
  | Ok rs => fenced_ok rs ∧ (on_checkpoints (_require_task task) ;; _require_current_writer_in_transaction l ;; m) s
      = (Ok x, set_checkpoint (set_tables (tables_of (full_log rs)) (wd_checkpoints s)) s)
  | Raise e => ∃ s', (on_checkpoints (_require_task task) ;; _require_current_writer_in_transaction l ;; m) s = (Raise e, s')
  end.
Proof.
  intros Hf Hm. destruct (log_require_task task (log_store a)) as [[]|e] eqn:Htask; cbn [mbind result_bind].
  2: { exists s. by rewrite (st_bind_stop _ _ _ e s) by (by rewrite (fenced_task_run _ _ Hf), Htask). }
  rewrite (st_bind_run _ _ _ tt s) by (by rewrite (fenced_task_run _ _ Hf), Htask).
  unfold _require_current_writer_in_transaction. destruct (still_writer l a) as [[]|e] eqn:Hwriter; cbn [mbind result_bind].
  2: { exists s. by rewrite (st_bind_stop _ _ _ e s) by (by rewrite (still_writer_run _ _ Hf), Hwriter). }
  rewrite (st_bind_run _ _ _ tt s) by (by rewrite (still_writer_run _ _ Hf), Hwriter).
  by apply Hm, (still_writer_ok a).
Qed.

Lemma record_dispatch_fenced l t : fenced_simulates (WriterFenced_record_dispatch l t) (log_record_dispatch l t).
Proof.
  intros s a Hf. unfold WriterFenced_record_dispatch, log_record_dispatch.
  destruct (_require_scope l _ _) as [[]|e] eqn:Hscope; [|done]. apply require_scope_ok in Hscope.
  rewrite (st_bind_run (st_lift (Ok tt)) _ s _ s), (st_bind_run (st_lift (Ok tt)) _ a _ a) by done.
  destruct (_dispatch_payload t) as [p|e] eqn:Hp; [|done]. pose proof (dispatch_payload_ok _ _ Hp) as [-> Hok].
  rewrite (st_bind_run (st_lift (Ok _)) _ s _ s), (st_bind_run (st_lift (Ok _)) _ a _ a) by done.
  rewrite canonical_json_ok, digest_payload_ok by done. fold (ticket_text t).
  do 2 rewrite (st_bind_run (st_lift (Ok _)) _ s _ s) by done. rewrite (st_bind_run st_get _ s s s) by done. cbv zeta.
  apply (fenced_transaction_sim _ _ Hf). unfold fenced_dispatch. apply (guarded_run _ _ _ _ _ _ _ Hf). intros Hwriter.
  rewrite (st_bind_run _ _ _ _ _ (fenced_dispatches_run _ _ Hf)).
  set (rs := fl_records a). pose proof (rows_match ticket_of ticket_row (full_log rs)) as Hrows. fold (tickets (full_log rs)) in Hrows.
  pose proof (find_match ticket_row (λ r, bool_decide (pd_ticket_id r = dt_ticket_id t))
    (λ x, bool_decide (dt_ticket_id x = dt_ticket_id t)) (λ _ _, eq_refl) _ _ Hrows) as Hfind.
  destruct (List.find (λ r : dispatch_row, _) _) as [r|] eqn:Er, (List.find (λ x : DispatchTicket, _) _) as [x|] eqn:Ex;
    try (by inversion Hfind).
  - assert (row_for ticket_row r x) as [now ->] by (by inversion Hfind). cbn [ticket_row dispatch_row_of pd_ticket_json pd_ticket_sha256].
    apply find_eq_some in Ex as [Hx _].
    pose proof (dispatch_payload_ok _ _ (ticket_ok _ _ (fo_log _ (fb_records _ _ Hf)) Hx)) as [_ Hokx].
    pose proof (same_payload_ok (JObj (dispatch_items x)) "DISPATCH" (sha256_of_text (ticket_text t)) Hokx) as Hsp.
    fold (ticket_text x) in Hsp. rewrite Hsp. clear Hsp.
    change ("DISPATCH" +:+ "_CHECKPOINT_IDENTITY_CONFLICT") with "DISPATCH_CHECKPOINT_IDENTITY_CONFLICT".
    destruct (cp_fail_if _ _) as [[]|e]; cbn [mbind result_bind]; [|by exists s].
    rewrite (st_bind_run (st_lift (Ok tt)) _ s _ s), (st_bind_run _ _ _ _ _ (fenced_events_run _ _ Hf)) by done.
    rewrite (written_by_run _ _ Hf l _ _ "DISPATCH") by (apply Hwriter || done).
    destruct (written_by l _ _ a) as [[]|e]; cbn [mbind result_bind]; [|by exists s].
    rewrite (st_bind_run (st_lift (Ok tt)) _ s _ s) by done. split; [apply Hf|]. apply (fenced_unchanged _ _ Hf).
  - pose proof (existsb_match ticket_row (λ r, dispatch_in (dt_task_id t) (dt_plan_fingerprint t) r
      && bool_decide (pd_node_id r = dt_node_id t)) (λ x, bool_decide (node_key x = node_key t))
      (λ x now, dispatch_scope t x now) _ _ Hrows) as Hex.
    rewrite Hex. destruct (existsb (λ x : DispatchTicket, _) _) eqn:En; [by exists s|].
    rewrite (st_bind_run (st_raise_if false _ _) _ s tt s) by done. cbn [cp_fail_if raise_if mbind result_bind].
    pose proof (insert_dispatch_run (wd_checkpoints s) _ (dispatch_row_of t (ticket_text t) (sha256_of_text (ticket_text t)) (cs_now (wd_checkpoints s)))
      (rp_tables _ _ (fb_log _ _ Hf)) (find_none_existsb _ _ Er) Hex) as Hins.
    cbn [dispatch_row_of pd_dispatch_sequence] in Hins.
    destruct (sqlite_int (dt_dispatch_sequence t)) as [z|e]; cbn [mbind result_bind].
    2: { eexists. erewrite st_bind_stop by (by apply on_checkpoints_run). reflexivity. }
    assert (record_ok (record_of l (Dispatched t) (wb_now (fl_book a)))) as Hr.
    { split; [done|done|]. exact Hscope. }
    split.
    { apply fenced_ok_snoc; [apply Hf|done| |done]. apply log_ok_dispatch; [apply Hf|done|by apply find_eq_none|by apply exists_eq]. }
    erewrite st_bind_run by (by apply on_checkpoints_run).
    rewrite (rp_now _ _ (fb_log _ _ Hf)). cbn [log_store ls_now].
    match goal with |- _ ?s1 = _ => pose proof (append_pair_ret l s1 _ rs (Dispatched t) (wb_now (fl_book a)) t Hwriter Hr eq_refl eq_refl) as Happ end.
    cbn [entry_event kind_of] in Happ. rewrite Happ. unfold log_write. fold rs.
    fold (record_of l (Dispatched t) (wb_now (fl_book a))). rewrite (tables_record rs), app_nil_r. reflexivity.
Qed.

(** ** Observations *)

(** An observation is recorded once its dispatch is known to be the writer's. *)
Lemma record_report_fenced s a l o t p : fenced_by s a → writer_ok l → (eo_task_id o, eo_plan_fingerprint o) = lease_key l →
  ExecutionObservation_canonical_dict o = Ok p → json_ok p = true →
  t ∈ tickets (full_log (fl_records a)) → answers o t → written_by l "DISPATCH_RECORDED" (dt_ticket_id t) a = Ok tt →
  let text := observation_text o in let now := wb_now (fl_book a) in
  let m := rows ← on_checkpoints read_observations;
    match List.find (λ r, bool_decide (po_observation_id r = eo_observation_id o)) rows with
    | Some existing =>
        st_lift (same_payload (po_observation_json existing) (po_observation_sha256 existing) "OBSERVATION" (sha256_of_text text)) ;;
        st_lift (_require_binding_matches_current_writer l (fold_left chain_entry (full_log (fl_records a)) [])
                   "OBSERVATION_RECORDED" (eo_observation_id o)) ;;
        mret o
    | None =>
        st_raise_if (existsb (λ r, observation_in (eo_task_id o) (eo_plan_fingerprint o) r
                                   && bool_decide (po_node_id r = eo_node_id o)) rows)
          ExecutionCheckpointError "OBSERVATION_CHECKPOINT_NODE_CONFLICT" ;;
        on_checkpoints (insert_observation (observation_row_of o text (sha256_of_text text) now)) ;;
        on_checkpoints (_append_event (eo_task_id o) (eo_plan_fingerprint o) "OBSERVATION_RECORDED" (eo_observation_id o)
                          text (sha256_of_text text) now) ;;
        _append_writer_fence_event l "OBSERVATION" (eo_observation_id o) now ;;
        mret o
    end in
  match match List.find (λ x, bool_decide (eo_observation_id x = eo_observation_id o)) (reports (full_log (fl_records a))) with
    | Some x =>
        cp_fail_if (negb (bool_decide (sha256_of_text (observation_text x) = sha256_of_text text)))
          "OBSERVATION_CHECKPOINT_IDENTITY_CONFLICT" ;;
        written_by l "OBSERVATION_RECORDED" (eo_observation_id o) a ;;
        Ok (fl_records a)
    | None =>
        cp_fail_if (existsb (λ x, bool_decide (report_key x = report_key o)) (reports (full_log (fl_records a))))
          "OBSERVATION_CHECKPOINT_NODE_CONFLICT" ;;
        Ok (log_write l (Observed o) a)
    end with
  | Ok rs => fenced_ok rs ∧ m s = (Ok o, set_checkpoint (set_tables (tables_of (full_log rs)) (wd_checkpoints s)) s)
  | Raise e => ∃ s', m s = (Raise e, s')
  end.
Proof.
  intros Hf Hwriter Hscope Hp Hok Ht Hans Hmine text now. cbv zeta. rewrite (st_bind_run _ _ _ _ _ (fenced_observations_run _ _ Hf)).
  set (rs := fl_records a). pose proof (rows_match observation_of report_row (full_log rs)) as Hrows. fold (reports (full_log rs)) in Hrows.
  pose proof (find_match report_row (λ r, bool_decide (po_observation_id r = eo_observation_id o))
    (λ x, bool_decide (eo_observation_id x = eo_observation_id o)) (λ _ _, eq_refl) _ _ Hrows) as Hfind.
  destruct (List.find (λ r : observation_row, _) _) as [r|] eqn:Er, (List.find (λ x : ExecutionObservation, _) _) as [x|] eqn:Ex;
    try (by inversion Hfind).
  - assert (row_for report_row r x) as [time ->] by (by inversion Hfind).
    cbn [report_row observation_row_of po_observation_json po_observation_sha256].
    apply find_eq_some in Ex as [Hx _]. destruct (report_ok _ _ (fo_log _ (fb_records _ _ Hf)) Hx) as (px & Hpx & Hokx).
    assert (observation_text x = print px) as -> by (unfold observation_text; by rewrite Hpx).
    rewrite (same_payload_ok _ _ _ Hokx).
    change ("OBSERVATION" +:+ "_CHECKPOINT_IDENTITY_CONFLICT") with "OBSERVATION_CHECKPOINT_IDENTITY_CONFLICT".
    destruct (cp_fail_if _ _) as [[]|e]; cbn [mbind result_bind]; [|by exists s].
    rewrite (st_bind_run (st_lift (Ok tt)) _ s _ s) by done.
    rewrite (written_by_run _ _ Hf l _ _ "OBSERVATION") by (apply Hwriter || done).
    destruct (written_by l "OBSERVATION_RECORDED" _ a) as [[]|e]; cbn [mbind result_bind]; [|by exists s].
    rewrite (st_bind_run (st_lift (Ok tt)) _ s _ s) by done. split; [apply Hf|]. apply (fenced_unchanged _ _ Hf).
  - pose proof (existsb_match report_row (λ r, observation_in (eo_task_id o) (eo_plan_fingerprint o) r
      && bool_decide (po_node_id r = eo_node_id o)) (λ x, bool_decide (report_key x = report_key o))
      (λ x now, report_scope o x now) _ _ Hrows) as Hex.
    rewrite Hex. destruct (existsb (λ x : ExecutionObservation, _) _) eqn:En; [by exists s|].
    rewrite (st_bind_run (st_raise_if false _ _) _ s tt s) by done. cbn [cp_fail_if raise_if mbind result_bind].
    assert (record_ok (record_of l (Observed o) now)) as Hr by (split; [done|done|exact Hscope]).
    split.
    { apply fenced_ok_snoc; [apply Hf|done|..].
      - apply (log_ok_report _ _ t); [apply Hf|by exists p|by apply exists_eq|done..].
      - intros o' [= <-]. split; [by apply find_eq_none|]. rewrite full_tickets in Ht.
        apply list_elem_of_omap in Ht as (d & Hd & Hdt). exists d, t. split_and!; [done..|].
        apply written_by_ok in Hmine as (w & Hw & Hbind). destruct Hans as ([= K1 K2 K3] & _).
        unfold lease_key in Hscope. injection Hscope as K4 K5. rewrite <- K4, <- K5, K1, K2 in Hw. fold (ticket_key t) in Hw.
        rewrite (ticket_writer _ d t) in Hw by (apply Hf || done). by injection Hw as ->. }
    erewrite st_bind_run by (apply on_checkpoints_run, insert_observation_run;
      [apply (fb_log _ _ Hf)|by apply find_none_existsb|exact Hex]).
    match goal with |- _ ?s1 = _ => pose proof (append_pair_ret l s1 _ rs (Observed o) now o Hwriter Hr eq_refl eq_refl) as Happ end.
    cbn [entry_event kind_of] in Happ. fold text in Happ. rewrite Happ. unfold log_write. fold rs.
    fold now. fold (record_of l (Observed o) now). rewrite (tables_record rs), app_nil_r. reflexivity.
Qed.

Lemma record_observation_fenced l o : storable o →
  fenced_simulates (WriterFenced_record_observation l o) (log_record_observation l o).
Proof.
  intros Hst s a Hf. unfold WriterFenced_record_observation, log_record_observation.
  destruct (ExecutionObservation_validate o None None) as [x|e] eqn:Hv; [|done].
  pose proof (validated_record _ _ Hv) as (-> & _).
  rewrite (st_bind_run (st_lift (Ok _)) _ s _ s), (st_bind_run (st_lift (Ok _)) _ a _ a) by done.
  destruct (_require_scope l _ _) as [[]|e] eqn:Hscope; [|done]. apply require_scope_ok in Hscope.
  rewrite (st_bind_run (st_lift (Ok tt)) _ s _ s), (st_bind_run (st_lift (Ok tt)) _ a _ a) by done.
  destruct (ExecutionObservation_canonical_dict o) as [p|e] eqn:Hp; [|done]. specialize (Hst p Hp).
  assert (observation_text o = print p) as Htext by (unfold observation_text; by rewrite Hp).
  rewrite (st_bind_run (st_lift (Ok _)) _ s _ s), (st_bind_run (st_lift (Ok _)) _ a _ a) by done.
  rewrite canonical_json_ok, digest_payload_ok by done. rewrite <- Htext.
  do 2 rewrite (st_bind_run (st_lift (Ok _)) _ s _ s) by done. rewrite (st_bind_run st_get _ s s s) by done. cbv zeta.
  apply (fenced_transaction_sim _ _ Hf). unfold fenced_observation. apply (guarded_run _ _ _ _ _ _ _ Hf). intros Hwriter.
  rewrite (st_bind_run _ _ _ _ _ (fenced_dispatches_run _ _ Hf)).
  set (rs := fl_records a). pose proof (rows_match ticket_of ticket_row (full_log rs)) as Hrows. fold (tickets (full_log rs)) in Hrows.
  pose proof (find_match ticket_row (λ r, dispatch_in (eo_task_id o) (eo_plan_fingerprint o) r && bool_decide (pd_node_id r = eo_node_id o))
    (λ x, bool_decide (node_key x = report_key o)) (λ x now, observation_scope o x now) _ _ Hrows) as Hfind.
  destruct (List.find (λ r : dispatch_row, _) _) as [r|] eqn:Er, (List.find (λ x : DispatchTicket, _) _) as [t|] eqn:Et;
    try (by inversion Hfind); [|by exists s].
  assert (row_for ticket_row r t) as [now ->] by (by inversion Hfind).
  cbn [ticket_row dispatch_row_of pd_ticket_json pd_ticket_sha256 pd_ticket_id].
  apply find_some in Et as [Ht%list_elem_of_In Hkey]. cbn beta in Hkey. bool_prop.
  pose proof (parse_ticket _ _ "DISPATCH" (fo_log _ (fb_records _ _ Hf)) Ht) as Hparse. apply bind_ok_iff in Hparse as (v & -> & Hv').
  rewrite (st_bind_run (st_lift (Ok _)) _ s _ s), Hv', (st_bind_run (st_lift (Ok _)) _ s _ s) by done.
  destruct (bool_decide (eo_node_fingerprint o = _)) eqn:Hn; [|by exists s].
  destruct (bool_decide (eo_authority_fingerprint o = _)) eqn:Hauth; [|by exists s]. bool_prop.
  rewrite !(st_bind_run (st_raise_if _ _ _) _ s tt s) by done. cbn [negb cp_fail_if raise_if mbind result_bind].
  rewrite (st_bind_run _ _ _ _ _ (fenced_events_run _ _ Hf)).
  rewrite (written_by_run _ _ Hf l "DISPATCH_RECORDED" (dt_ticket_id t) "DISPATCH") by (apply Hwriter || done).
  destruct (written_by l "DISPATCH_RECORDED" (dt_ticket_id t) a) as [[]|e] eqn:Hmine; cbn [mbind result_bind]; [|by exists s].
  rewrite (st_bind_run (st_lift (Ok tt)) _ s _ s) by done.
  rewrite (rp_now _ _ (fb_log _ _ Hf)). by apply (record_report_fenced s a l o t p).
Qed.

(** ** Cancellations *)

Lemma cancelled_by_writer_run s a l task : fenced_by s a → lease_valid l →
  cancelled_by_writer l (fold_left chain_entry (full_log (fl_records a)) []) task
  = Ok (match writer_of (fl_records a) (wl_task_id l, wl_plan_fingerprint l, "CANCELLED", task) with
        | Some w => bool_decide (binding_of w = binding_of l)
        | None => false
        end).
Proof.
  intros Hf Hl. unfold cancelled_by_writer. rewrite (binding_run l _ "CANCELLED" _ "CANCELLATION") by (apply Hf || done).
  destruct (writer_of _ _) as [w|]; [|done]. cbn [fmap result_fmap catch mbind result_bind]. by apply names_writer_ok.
Qed.

Lemma record_cancellation_fenced l task plan reason :
  fenced_simulates (WriterFenced_record_cancellation l task plan reason) (log_record_cancellation l task plan reason).
Proof.
  intros s a Hf. unfold WriterFenced_record_cancellation, log_record_cancellation.
  destruct (_require_scope l _ _) as [[]|e] eqn:Hscope; [|done]. apply require_scope_ok in Hscope.
  rewrite (st_bind_run (st_lift (Ok tt)) _ s _ s), (st_bind_run (st_lift (Ok tt)) _ a _ a) by done.
  destruct (_require_sha256 plan "plan_fingerprint") as [x|e]; [|done].
  rewrite (st_bind_run (st_lift (Ok _)) _ s _ s), (st_bind_run (st_lift (Ok _)) _ a _ a) by done.
  destruct (is_empty (strip reason)) eqn:Hempty; [done|]. apply is_empty_false in Hempty.
  rewrite (st_bind_run (st_raise_if false _ _) _ s _ s), (st_bind_run (st_raise_if false _ _) _ a _ a) by done. cbv zeta.
  set (p := JObj [("reason_code", JStr (strip reason))]).
  rewrite canonical_json_ok, digest_payload_ok by done. change (print p) with (reason_text (strip reason)).
  do 2 rewrite (st_bind_run (st_lift (Ok _)) _ s _ s) by done. rewrite (st_bind_run st_get _ s s s) by done.
  match goal with |- (db_transaction ?m s).1 = _ ∧ _ =>
    pose proof (fenced_transaction_sim s a Hf m (fenced_cancellation l task plan (strip reason)) tt) as Hsim end.
  assert (∀ b : FencedLog, (fenced_transaction (fenced_cancellation l task plan (strip reason)) ;; mret tt) b
    = fenced_transaction (fenced_cancellation l task plan (strip reason)) b) as Hret.
  { intros b. unfold mbind, st_bind. by destruct (fenced_transaction _ b) as [[[]|] ?]. }
  rewrite Hret in Hsim. apply Hsim. clear Hsim Hret. unfold fenced_cancellation. apply (guarded_run _ _ _ _ _ _ _ Hf). intros Hwriter.
  rewrite (st_bind_run _ _ _ _ _ (fenced_events_run _ _ Hf)).
  rewrite (same_cancellation_ok _ (full_log (fl_records a)) task plan) by apply last_cancellation_match, (fo_log _ (fb_records _ _ Hf)).
  rewrite (st_bind_run (st_lift (Ok _)) _ s _ s) by done.
  assert ((if bool_decide (last_reason (full_log (fl_records a)) task plan = Some (strip reason))
           then cancelled_by_writer l (fold_left chain_entry (full_log (fl_records a)) []) task else Ok false)
    = Ok (bool_decide (last_reason (full_log (fl_records a)) task plan = Some (strip reason))
         && match writer_of (fl_records a) (wl_task_id l, wl_plan_fingerprint l, "CANCELLED", task) with
            | Some w => bool_decide (binding_of w = binding_of l)
            | None => false
            end)) as ->.
  { destruct (bool_decide (last_reason _ _ _ = _)); [|done]. by rewrite (cancelled_by_writer_run _ _ _ _ Hf) by apply Hwriter. }
  rewrite (st_bind_run (st_lift (Ok _)) _ s _ s) by done. destruct (_ && _).
  - split; [apply Hf|]. apply (fenced_unchanged _ _ Hf).
  - set (rs := fl_records a). set (now := wb_now (fl_book a)).
    assert (record_ok (record_of l (Cancelled task plan (strip reason)) now)) as Hr by (split; [done|done|exact Hscope]).
    split; [apply fenced_ok_snoc; [apply Hf|done| |done]; apply log_ok_cancel; [apply Hf|done]|].
    pose proof (append_pair_run l s _ rs _ _ Hwriter Hr (rp_tables _ _ (fb_log _ _ Hf)) eq_refl) as Happ.
    cbn [entry_event kind_of] in Happ. rewrite (rp_now _ _ (fb_log _ _ Hf)). cbn [log_store ls_now]. fold now.
    rewrite Happ. unfold log_write. fold rs. fold now. fold (record_of l (Cancelled task plan (strip reason)) now).
    rewrite (tables_record rs), !app_nil_r. reflexivity.
Qed.

(** ** Loading *)

Lemma verify_bindings_run s a l : fenced_by s a → verify_writer_fence_bindings l s = (Ok true, s).
Proof.
  intros Hf. unfold verify_writer_fence_bindings.
  assert (on_checkpoints (verify_event_chain (wl_task_id l) (wl_plan_fingerprint l)) s = (Ok true, s)) as Hchain.
  { apply on_checkpoints_read. unfold verify_event_chain. rewrite (st_bind_run _ _ _ _ _ (read_events_run _ _ (fb_log _ _ Hf))).
    by rewrite log_verifies by apply Hf. }
  rewrite (st_bind_run _ _ _ _ _ Hchain). cbn [negb].
  rewrite (st_bind_run _ _ _ _ _ (fenced_dispatches_run _ _ Hf)), (st_bind_run _ _ _ _ _ (fenced_observations_run _ _ Hf)),
    (st_bind_run _ _ _ _ _ (fenced_events_run _ _ Hf)).
  pose proof (audit_log l _ (fb_records _ _ Hf)) as H. unfold tables_of in H. by rewrite H.
Qed.

Lemma load_fenced l task plan : fenced_simulates (WriterFenced_load l task plan) (log_load l task plan).
Proof.
  intros s a Hf. unfold WriterFenced_load, log_load. destruct (_require_scope l _ _) as [[]|e] eqn:Hscope; [|done].
  rewrite (st_bind_run (st_lift (Ok tt)) _ s _ s), (st_bind_run (st_lift (Ok tt)) _ a _ a), (st_bind_run st_get _ a a a) by done.
  unfold _require_current_writer, require_current. destruct (still_writer l a) as [[]|e] eqn:Hwriter.
  2: { rewrite (st_bind_stop _ _ _ e s); [done|]. by rewrite (still_writer_run _ _ Hf), Hwriter. }
  rewrite (st_bind_run _ _ _ tt s) by (by rewrite (still_writer_run _ _ Hf), Hwriter).
  rewrite (st_bind_run (st_lift (Ok tt)) _ a _ a) by done.
  pose proof (on_checkpoints_read _ _ _ (load_run _ _ task plan (fb_log _ _ Hf))) as Hload.
  destruct (_require_sha256 plan "plan_fingerprint") as [x|e]; cbn [mbind result_bind] in Hload.
  2: { by rewrite (st_bind_stop _ _ _ _ _ Hload). }
  rewrite (st_bind_run (st_lift (Ok _)) _ a _ a) by done.
  destruct (log_require_task task (log_store a)) as [[]|e]; cbn [mbind result_bind] in Hload.
  2: { by rewrite (st_bind_stop _ _ _ _ _ Hload). }
  rewrite (st_bind_run _ _ _ _ _ Hload), (st_bind_run (st_lift (Ok tt)) _ a _ a) by done.
  rewrite (st_bind_run _ _ _ _ _ (verify_bindings_run s a l Hf)). done.
Qed.

Lemma initialize_fenced l : fenced_simulates (WriterFenced_initialize l) (log_initialize l).
Proof.
  intros s a Hf. unfold WriterFenced_initialize, log_initialize.
  assert (CheckpointRepository_initialize (wd_checkpoints s) = (Ok tt, wd_checkpoints s)) as Hcp.
  { unfold CheckpointRepository_initialize. by rewrite (rp_tables _ _ (fb_log _ _ Hf)). }
  rewrite (st_bind_run _ _ _ _ _ (on_checkpoints_read _ _ _ Hcp)).
  destruct (bk_table _ _ (fb_book _ _ Hf)) as (t & Ht & _).
  rewrite (st_bind_run _ _ _ tt s) by (unfold Leases_initialize; by rewrite Ht).
  rewrite (st_bind_run st_get _ a a a) by done. unfold _require_current_writer, require_current.
  by rewrite (still_writer_run _ _ Hf).
Qed.

(** ** The leases beside the log *)

Definition on_book {A} (m : ST WriterBook A) : ST FencedLog A :=
  st_zoom fl_book (λ b a, {| fl_book := b; fl_records := fl_records a |}) m.

Lemma on_book_fenced {A} (m : ST WriterDB A) (m' : ST WriterBook A) : book_simulates m m' → fenced_simulates m (on_book m').
Proof.
  intros H s a [Hlog Hbook Hrs]. destruct (H s (fl_book a) Hbook) as (Hres & Hb' & Hcp). unfold on_book, st_zoom.
  destruct (m' (fl_book a)) as [r b']. cbn [fst snd] in *. split; [done|]. constructor; [|done|done].
  rewrite Hcp. destruct Hb' as [B1 B2 B3 _]. rewrite Hcp in B1, B2, B3. destruct Hlog as [H1 H2 H3 H4 H5]. by constructor.
Qed.

(** ** The repository leaves the leases alone *)

Definition leaves_leases {A} (m : ST WriterDB A) : Prop := ∀ s, wd_leases (m s).2 = wd_leases s.

Lemma leaves_ret {A} (x : A) : leaves_leases (mret x).
Proof. done. Qed.
Lemma leaves_lift {A} (m : result A) : leaves_leases (st_lift m).
Proof. done. Qed.
Lemma leaves_get : leaves_leases st_get.
Proof. done. Qed.
Lemma leaves_raise_if b c msg : leaves_leases (st_raise_if b c msg).
Proof. done. Qed.
Lemma leaves_checkpoints {A} (m : ST CheckpointStore A) : leaves_leases (on_checkpoints m).
Proof. intros s. unfold on_checkpoints, st_zoom. by destruct (m (wd_checkpoints s)). Qed.
Lemma leaves_bind {A B} (m : ST WriterDB A) (k : A → ST WriterDB B) :
  leaves_leases m → (∀ x, leaves_leases (k x)) → leaves_leases (x ← m; k x).
Proof.
  intros Hm Hk s. unfold mbind, st_bind. specialize (Hm s). destruct (m s) as [[x|e] s1]; [|done]. cbn in Hm.
  by rewrite Hk.
Qed.
Lemma leaves_transaction {A} (m : ST WriterDB A) : leaves_leases m → leaves_leases (db_transaction m).
Proof.
  intros Hm s. unfold db_transaction. destruct (cs_locked _); [done|]. specialize (Hm s). by destruct (m s) as [[x|e] s1].
Qed.
Lemma leaves_require l : leaves_leases (require_current_in_transaction l).
Proof.
  unfold require_current_in_transaction, read_leases. apply leaves_bind; [apply leaves_lift|intros _].
  apply leaves_bind; [apply leaves_raise_if|intros _]. apply leaves_bind; [by intros s|intros t].
  destruct (_ !! _); [|apply leaves_lift]. repeat (apply leaves_bind; [apply leaves_lift|intros ?]). apply leaves_ret.
Qed.
Lemma leaves_map_exn {A} f (m : ST WriterDB A) : leaves_leases m → leaves_leases (st_map_exn f m).
Proof. intros Hm s. unfold st_map_exn. specialize (Hm s). by destruct (m s) as [[x|e] s1]. Qed.

#[local] Hint Resolve leaves_ret leaves_lift leaves_get leaves_raise_if leaves_checkpoints leaves_require leaves_map_exn : leases.
Ltac leaves :=
  repeat first
    [ solve [auto with leases]
    | apply leaves_bind; [|intros ?]
    | apply leaves_transaction
    | apply leaves_map_exn
    | match goal with |- leaves_leases (match ?x with _ => _ end) => destruct x end
    | progress cbv zeta ].

Lemma leaves_receipt l kind subject now : leaves_leases (_append_writer_fence_event l kind subject now).
Proof. unfold _append_writer_fence_event. leaves. Qed.
#[local] Hint Resolve leaves_receipt : leases.
Lemma leaves_current_writer l : leaves_leases (_require_current_writer_in_transaction l).
Proof. unfold _require_current_writer_in_transaction. leaves. Qed.
#[local] Hint Resolve leaves_current_writer : leases.

(** Its writes are steps elsewhere. *)
Lemma dispatch_step l t s : lease_step s (WriterFenced_record_dispatch l t s).2.
Proof. apply step_elsewhere. revert s. change (leaves_leases (WriterFenced_record_dispatch l t)). unfold WriterFenced_record_dispatch. leaves. Qed.
Lemma observation_step l o s : lease_step s (WriterFenced_record_observation l o s).2.
Proof. apply step_elsewhere. revert s. change (leaves_leases (WriterFenced_record_observation l o)). unfold WriterFenced_record_observation. leaves. Qed.
Lemma cancellation_step l task plan reason s : lease_step s (WriterFenced_record_cancellation l task plan reason s).2.
Proof.
  apply step_elsewhere. revert s. change (leaves_leases (WriterFenced_record_cancellation l task plan reason)).
  unfold WriterFenced_record_cancellation. leaves.
Qed.

(** ** Writers that lost their lease *)

Lemma books_fun s b b' : books s b → books s b' → wb_leases b = wb_leases b'.
Proof.
  intros Hb Hb'. apply map_eq. intros [task plan]. destruct (bk_table _ _ Hb) as (t & Ht & Hm).
  destruct (bk_table _ _ Hb') as (t' & Ht' & Hm'). rewrite Ht in Ht'. injection Ht' as <-.
  pose proof (book_lookup _ _ task plan Hm) as H. pose proof (book_lookup _ _ task plan Hm') as H'.
  destruct (wb_leases b !! _) as [x|], (wb_leases b' !! _) as [y|].
  - destruct H as (now & Hrow & _ & _ & Hx), H' as (now' & Hrow' & _ & _ & Hy). rewrite Hrow in Hrow'.
    apply (inj Some) in Hrow'. rewrite Hrow', Hy in Hx. by injection Hx as ->.
  - destruct H as (now & Hrow & _). congruence.
  - destruct H' as (now & Hrow & _). congruence.
  - done.
Qed.

(** A write that starts with the check of a lease that is refused does nothing. *)
Lemma guard_stops {A} s l task e (m : ST WriterDB A) : require_current_in_transaction l s = (Raise e, s) →
  ∃ e', db_transaction (on_checkpoints (_require_task task) ;; _require_current_writer_in_transaction l ;; m) s = (Raise e', s).
Proof.
  intros He. unfold db_transaction. destruct (cs_locked _); [by eexists|].
  assert (on_checkpoints (_require_task task) s = ((_require_task task (wd_checkpoints s)).1, s)) as Htask.
  { apply on_checkpoints_read. unfold _require_task, mbind, st_bind, st_get, st_raise_if, st_lift. by destruct (raise_if _ _ _). }
  destruct (_require_task task (wd_checkpoints s)).1 as [[]|e'].
  - rewrite (st_bind_run _ _ _ _ _ Htask). unfold _require_current_writer_in_transaction.
    erewrite (st_bind_stop (st_map_exn _ _)); [by eexists|]. unfold st_map_exn, mbind, st_bind. by rewrite He.
  - rewrite (st_bind_stop _ _ _ _ _ Htask). by eexists.
Qed.

Ltac stopped He :=
  repeat match goal with
  | |- ∃ e, (Raise _, ?s) = (Raise e, ?s) => by eexists
  | |- ∃ e, mbind _ (st_lift ?r) ?s = _ =>
      let x := fresh "x" in destruct r as [x|x];
      [rewrite (st_bind_run (st_lift (Ok x)) _ s _ s) by done|rewrite (st_bind_stop (st_lift (Raise x)) _ s _ s) by done; by eexists]
  | |- ∃ e, mbind _ (st_raise_if ?b _ _) ?s = _ =>
      destruct b; [rewrite (st_bind_stop (st_raise_if true _ _) _ s _ s eq_refl); by eexists|
                   rewrite (st_bind_run (st_raise_if false _ _) _ s _ s eq_refl)]
  | |- ∃ e, mbind _ st_get ?s = _ => rewrite (st_bind_run st_get _ s s s) by done; cbv zeta
  | |- ∃ e, db_transaction _ _ = _ => eapply guard_stops, He
  end.

Section Stopped.
Context (l : RuntimeWriterLease) (s : WriterDB) (e : exn) (He : require_current_in_transaction l s = (Raise e, s)).

Lemma dispatch_stopped t : ∃ e, WriterFenced_record_dispatch l t s = (Raise e, s).
Proof. unfold WriterFenced_record_dispatch. stopped He. Qed.
Lemma observation_stopped o : ∃ e, WriterFenced_record_observation l o s = (Raise e, s).
Proof. unfold WriterFenced_record_observation. stopped He. Qed.
Lemma cancellation_stopped task plan reason : ∃ e, WriterFenced_record_cancellation l task plan reason s = (Raise e, s).
Proof. unfold WriterFenced_record_cancellation. cbv zeta. stopped He. Qed.
Lemma load_stopped task plan : ∃ e, WriterFenced_load l task plan s = (Raise e, s).
Proof.
  unfold WriterFenced_load. stopped He. unfold _require_current_writer, require_current.
  erewrite (st_bind_stop (st_map_exn _ _)); [by eexists|]. unfold st_map_exn, mbind, st_bind. by rewrite He.
Qed.
End Stopped.

(** Once a lease is no longer the one in the book, it is refused, unless another lease has its digest. *)
Lemma lost_refused s b l : books s b → wb_leases b !! lease_key l ≠ Some l →
  (∃ held, wb_leases b !! lease_key l = Some held ∧ collision (utf8_encode (lease_text held)) (utf8_encode (lease_text l)))
  ∨ ∃ e, require_current_in_transaction l s = (Raise e, s).
Proof.
  intros Hb Hlost. destruct (bk_table _ _ Hb) as (t & Ht & Hm). rewrite (require_run _ _ _ l Ht Hm).
  destruct (book_require l (wb_leases b)) as [x|e] eqn:H; [left|right; by eexists].
  apply book_require_ok in H as (_ & _ & Hx & _ & Hsha). exists x. split; [done|].
  destruct (lease_sha_binds x l Hsha) as [->|?]; done.
Qed.
End Operations.

(** ** The two guarantees *)

(** C12: the fenced database implements the log with writers. Creating the tables gives the empty log; from a
    database that stands for a log, every operation of the repository of a lease, and every claim, release
    and check of leases beside it, gives the answer - the value or the exception - the log gives and leaves a
    database that stands for the log's next state. In the log a record is added only by the lease that is
    current, an observation only by the writer of its dispatch, and a load by the current writer returns
    precisely what was recorded; the audit of the receipts accepts every such database. *)
Theorem fenced_refines `{Hashlib} :
  (∀ s s', cs_tables (wd_checkpoints s) = None → wd_leases s = None →
     (on_checkpoints CheckpointRepository_initialize ;; Leases_initialize) s = (Ok tt, s') →
     fenced_by s' {| fl_book := {| wb_tasks := cs_tasks (wd_checkpoints s); wb_leases := ∅;
                                   wb_now := cs_now (wd_checkpoints s); wb_locked := cs_locked (wd_checkpoints s) |};
                     fl_records := [] |})
  ∧ (∀ l, fenced_simulates (WriterFenced_initialize l) (log_initialize l))
  ∧ (∀ l t, fenced_simulates (WriterFenced_record_dispatch l t) (log_record_dispatch l t))
  ∧ (∀ l o, storable o → fenced_simulates (WriterFenced_record_observation l o) (log_record_observation l o))
  ∧ (∀ l task plan reason,
       fenced_simulates (WriterFenced_record_cancellation l task plan reason) (log_record_cancellation l task plan reason))
  ∧ (∀ l task plan, fenced_simulates (WriterFenced_load l task plan) (log_load l task plan))
  ∧ (∀ l, fenced_simulates (verify_writer_fence_bindings l) (mret true))
  ∧ (∀ task plan run issued, fenced_simulates (claim task plan run issued) (on_book (lease_claim task plan run issued)))
  ∧ (∀ l released, fenced_simulates (release l released) (on_book (lease_release l released)))
  ∧ (∀ l, fenced_simulates (require_current l) (on_book (lease_require l))).
Proof.
  split_and!.
  - intros s s' Hcp Hl. unfold on_checkpoints, st_zoom, CheckpointRepository_initialize, Leases_initialize, mbind, st_bind.
    rewrite Hcp. destruct (cs_locked (wd_checkpoints s)) eqn:Hlock; [done|]. cbn. rewrite Hl, Hlock. intros [= <-].
    constructor.
    + constructor; cbn; try done. constructor; cbn; try constructor. by intros o ?%elem_of_nil.
    + constructor; cbn; try done. exists no_leases. split; [done|]. split; [|by intros ? ?]. intros key.
      cbn [wb_leases no_leases lt_leases]. rewrite !lookup_empty. constructor.
    + constructor; try constructor; cbn; try constructor. 1: by intros o ?%elem_of_nil. by intros r o ?%elem_of_nil.
  - exact initialize_fenced.
  - exact record_dispatch_fenced.
  - exact record_observation_fenced.
  - exact record_cancellation_fenced.
  - exact load_fenced.
  - intros l s a Hf. by rewrite (verify_bindings_run _ _ _ Hf).
  - intros task plan run issued. exact (on_book_fenced _ _ (claim_sim task plan run issued)).
  - intros l released. exact (on_book_fenced _ _ (release_sim l released)).
  - intros l. exact (on_book_fenced _ _ (require_sim l)).
Qed.

(** C8: a writer that lost its lease never writes again. Once the lease a writer held has been superseded by
    another claim, or released, then whatever claims, releases and writes follow, every dispatch, observation
    and cancellation it records and every load it makes is refused and changes nothing - unless the lease
    that is in its place and its own are a collision of the digest. *)
Theorem superseded_writer_locked_out `{Hashlib} l s b s1 b1 s2 (Hb : books s b)
    (Hheld : wb_leases b !! lease_key l = Some l) (Hsteps : rtc lease_step s s1) (Hb1 : books s1 b1)
    (Hlost : wb_leases b1 !! lease_key l ≠ Some l) (Hafter : rtc lease_step s1 s2) :
  (∃ b2 held, books s2 b2 ∧ wb_leases b2 !! lease_key l = Some held
     ∧ collision (utf8_encode (lease_text held)) (utf8_encode (lease_text l)))
  ∨ (∀ t, ∃ e, WriterFenced_record_dispatch l t s2 = (Raise e, s2))
    ∧ (∀ o, ∃ e, WriterFenced_record_observation l o s2 = (Raise e, s2))
    ∧ (∀ task plan reason, ∃ e, WriterFenced_record_cancellation l task plan reason s2 = (Raise e, s2))
    ∧ (∀ task plan, ∃ e, WriterFenced_load l task plan s2 = (Raise e, s2)).
Proof.
  destruct (lease_steps_books _ _ _ Hb Hsteps) as (b1' & Hb1' & Hg). rewrite (books_fun _ _ _ Hb1 Hb1') in Hlost.
  destruct (Hg _ _ Hheld) as (l1 & Hl1 & Hs). apply succeeds_superseded in Hs; [|congruence].
  destruct (lease_steps_books _ _ _ Hb1' Hafter) as (b2 & Hb2 & Hg2). destruct (Hg2 _ _ Hl1) as (l2 & Hl2 & Hs2).
  pose proof (superseded_neq _ _ (superseded_trans _ _ _ Hs Hs2)) as Hne.
  destruct (lost_refused s2 b2 l Hb2) as [(held & Hheld2 & Hc)|[e He]]; [congruence|left; by exists b2, held|right].
  split_and!; intros; [by eapply dispatch_stopped|by eapply observation_stopped|by eapply cancellation_stopped|by eapply load_stopped].
Qed.

(** ** Examples *)

Section Examples.
#[local] Existing Instance checksum_hashlib.

(** The plan of the sample ticket, claimed by one run and then by another. *)
Definition fence_plan : string := dt_plan_fingerprint sample_ticket.
Definition claimed (run : string) (s : WriterDB) : WriterDB := (claim "task" fence_plan run None s).2.
Definition claimed_book (run : string) (b : WriterBook) : WriterBook := (lease_claim "task" fence_plan run None b).2.
Definition writer_a : RuntimeWriterLease := new_lease "task" fence_plan "run-a" 1 "2026-01-01T00:00:00Z".
Definition writer_b : RuntimeWriterLease := new_lease "task" fence_plan "run-b" 2 "2026-01-01T00:00:00Z".

Definition db_a : WriterDB := claimed "run-a" empty_writer_db.
Definition dispatched_db : WriterDB := (WriterFenced_record_dispatch writer_a sample_ticket db_a).2.
Definition db_b : WriterDB := claimed "run-b" dispatched_db.

(** The next writer sees the dispatch as one to recover, and cannot record it as its own. *)
Example dispatch_recovered : rx_recovery_required_ticket_ids <$> (WriterFenced_load writer_b "task" fence_plan db_b).1
  = Ok [dt_ticket_id sample_ticket].
Proof. vm_compute. reflexivity. Qed.
Example dispatch_not_adopted : (WriterFenced_record_dispatch writer_b sample_ticket db_b).1
  = raise ExecutionWriterFenceError "EXECUTION_WRITER_GENERATION_BINDING_MISMATCH".
Proof. vm_compute. reflexivity. Qed.
Example stale_cancel : (WriterFenced_record_cancellation writer_a "task" fence_plan "stop" db_b).1
  = raise ExecutionWriterFenceError "EXECUTION_WRITER_FENCE_DENIED:WRITER_LEASE_STALE".
Proof. vm_compute. reflexivity. Qed.

(** A dispatch recorded without a receipt is refused by the audit. *)
Example unfenced_dispatch :
  (WriterFenced_load writer_a "task" fence_plan (on_checkpoints (record_dispatch sample_ticket) db_a).2).1
  = raise ExecutionWriterFenceError "EXECUTION_WRITER_FENCE_BINDINGS_INVALID".
Proof. vm_compute. reflexivity. Qed.

Lemma books_a : books db_a (claimed_book "run-a" empty_writer_book).
Proof. apply claim_sim, empty_books. Qed.
Lemma held_a : wb_leases (claimed_book "run-a" empty_writer_book) !! lease_key writer_a = Some writer_a.
Proof. vm_compute. reflexivity. Qed.
Lemma steps_to_b : rtc lease_step db_a db_b.
Proof.
  eapply rtc_l; [exact (dispatch_step writer_a sample_ticket db_a)|]. eapply rtc_l; [|reflexivity].
  by apply (step_claim _ _ "task" fence_plan "run-b" None).
Qed.

(** The book after the dispatch: the leases of before. *)
Lemma books_b : books db_b (claimed_book "run-b" (claimed_book "run-a" empty_writer_book)).
Proof.
  apply claim_sim. destruct books_a as [B1 B2 B3 B4]. constructor; [vm_compute; reflexivity..|].
  assert (wd_leases dispatched_db = wd_leases db_a) as ->; [vm_compute; reflexivity|done].
Qed.
Lemma lost_a : wb_leases (claimed_book "run-b" (claimed_book "run-a" empty_writer_book)) !! lease_key writer_a ≠ Some writer_a.
Proof. vm_compute. discriminate. Qed.

Lemma superseded_writer_locked_out_witness :
  (∃ b2 held, books db_b b2 ∧ wb_leases b2 !! lease_key writer_a = Some held
     ∧ collision (utf8_encode (lease_text held)) (utf8_encode (lease_text writer_a)))
  ∨ (∀ t, ∃ e, WriterFenced_record_dispatch writer_a t db_b = (Raise e, db_b))
    ∧ (∀ o, ∃ e, WriterFenced_record_observation writer_a o db_b = (Raise e, db_b))
    ∧ (∀ task plan reason, ∃ e, WriterFenced_record_cancellation writer_a task plan reason db_b = (Raise e, db_b))
    ∧ (∀ task plan, ∃ e, WriterFenced_load writer_a task plan db_b = (Raise e, db_b)).
Proof. exact (superseded_writer_locked_out writer_a db_a _ db_b _ db_b books_a held_a steps_to_b books_b lost_a (rtc_refl _ _)). Defined.
End Examples.
