(* ===== verification/DispatchBudget.v ===== *)
(** * Dispatch budgets

    [execution_dispatch_budget.py]: one step of the task's budget for each dispatch. The scheduler's guard
    only looks whether a step is left; the repository takes the step in the transaction that records the
    dispatch, its event and its receipt, with a reservation that names the dispatch. *)

From Stdlib Require Import Ascii.
From Stdlib Require String.
From S2P Require Import Prelude PyStr Hashlib PyFloat Json JsonFacts PyTime Validators.
From S2P Require Import TaskContract CapabilityAuthority WorkflowDesign ContextManifest TaskContext ExecutionPlan ExecutionObservation.
From S2P Require Import ExecutionScheduler ExecutionCheckpoint TaskStore ExecutionBudget WriterLease WriterFence.

Local Open Scope Z_scope.

Definition EXECUTION_DISPATCH_BUDGET_SCHEMA : string := "workspace-execution-dispatch-budget/v1".

Definition db_fail {A} (msg : string) : result A := raise ExecutionDispatchBudgetError msg.
Definition db_fail_if (b : bool) (msg : string) : result unit := raise_if b ExecutionDispatchBudgetError msg.

(** ** Reservations *)

Record DispatchBudgetReservation := {
  br_reservation_id : string;
  br_task_id : string;
  br_plan_fingerprint : string;
  br_node_id : string;
  br_node_fingerprint : string;
  br_authority_fingerprint : string;
  br_steps : Z;
  br_fingerprint : string;
  br_reserved_at : string;
  br_schema_version : string
}.

Record reservation_row := {
  rr_reservation_id : string; rr_task_id : string; rr_plan_fingerprint : string; rr_node_id : string;
  rr_reservation_json : string; rr_reservation_sha256 : string; rr_reserved_at : string
}.

Definition reservation_items (t : DispatchTicket) : list (string * json) := [
  ("schema_version", JStr EXECUTION_DISPATCH_BUDGET_SCHEMA); ("task_id", JStr (dt_task_id t));
  ("plan_fingerprint", JStr (dt_plan_fingerprint t)); ("node_id", JStr (dt_node_id t));
  ("node_fingerprint", JStr (dt_node_fingerprint t)); ("authority_fingerprint", JStr (dt_authority_fingerprint t));
  ("steps", JInt 1)].

(** The reservation of a ticket, under an identifier and at a time. *)
Definition reservation_of (t : DispatchTicket) (reservation_id fingerprint reserved_at : string) : DispatchBudgetReservation := {|
  br_reservation_id := reservation_id; br_task_id := dt_task_id t; br_plan_fingerprint := dt_plan_fingerprint t;
  br_node_id := dt_node_id t; br_node_fingerprint := dt_node_fingerprint t;
  br_authority_fingerprint := dt_authority_fingerprint t; br_steps := 1; br_fingerprint := fingerprint;
  br_reserved_at := reserved_at; br_schema_version := EXECUTION_DISPATCH_BUDGET_SCHEMA |}.

(** ** The database *)

(** The task store, the checkpoint and lease tables, and the reservations once their table is created:
    one SQLite database, of which the parts keep their own view of the clock and of the lock. *)
Record RuntimeDB := {
  rd_store : TaskStore;
  rd_writers : WriterDB;
  rd_reservations : option (list reservation_row)
}.

Definition set_store (t : TaskStore) (s : RuntimeDB) : RuntimeDB := {|
  rd_store := t; rd_writers := rd_writers s; rd_reservations := rd_reservations s |}.
Definition set_writers (w : WriterDB) (s : RuntimeDB) : RuntimeDB := {|
  rd_store := rd_store s; rd_writers := w; rd_reservations := rd_reservations s |}.
Definition set_reservations (r : list reservation_row) (s : RuntimeDB) : RuntimeDB := {|
  rd_store := rd_store s; rd_writers := rd_writers s; rd_reservations := Some r |}.

Definition on_writers {A} (m : ST WriterDB A) : ST RuntimeDB A := st_zoom rd_writers set_writers m.
Definition rd_now (s : RuntimeDB) : string := cs_now (wd_checkpoints (rd_writers s)).
Definition rd_locked (s : RuntimeDB) : bool := cs_locked (wd_checkpoints (rd_writers s)).

(** [with self.task_store.connect() as conn: conn.execute("BEGIN IMMEDIATE"); ...] *)
Definition runtime_transaction {A} (m : ST RuntimeDB A) : ST RuntimeDB A := λ s,
  if rd_locked s then (raise SqliteOperationalError "database is locked", s)
  else match m s with
       | (Ok a, s') => (Ok a, s')
       | (Raise e, _) => (Raise e, s)
       end.

Definition read_reservations : ST RuntimeDB (list reservation_row) := λ s,
  (match rd_reservations s with
   | Some rows => Ok rows
   | None => raise SqliteOperationalError "no such table: execution_dispatch_budget_reservations"
   end, s).

Definition reservation_for (t : DispatchTicket) (r : reservation_row) : bool :=
  in_scope (dt_task_id t) (dt_plan_fingerprint t) (rr_task_id r) (rr_plan_fingerprint r)
  && bool_decide (rr_node_id r = dt_node_id t).

Definition insert_reservation (r : reservation_row) : ST RuntimeDB unit :=
  rows ← read_reservations;
  st_raise_if (existsb (λ x, bool_decide (rr_reservation_id x = rr_reservation_id r)) rows) SqliteIntegrityError
    "UNIQUE constraint failed: execution_dispatch_budget_reservations.reservation_id" ;;
  st_raise_if (existsb (λ x, in_scope (rr_task_id r) (rr_plan_fingerprint r) (rr_task_id x) (rr_plan_fingerprint x)
                             && bool_decide (rr_node_id x = rr_node_id r)) rows) SqliteIntegrityError
    "UNIQUE constraint failed: execution_dispatch_budget_reservations.task_id, execution_dispatch_budget_reservations.plan_fingerprint, execution_dispatch_budget_reservations.node_id" ;;
  st_modify (set_reservations (rows ++ [r])).

(** ** The controller *)

Record DispatchBudgetController := { dc_budget_state : TaskExecutionBudgetState }.

(** [__init__]: the paths are those of the databases of the store and the budget state, resolved. *)
Definition DispatchBudgetController_init (budget_state : TaskExecutionBudgetState) (store_path budget_path : string)
    : result DispatchBudgetController :=
  db_fail_if (negb (bool_decide (store_path = budget_path))) "DISPATCH_BUDGET_STORE_MISMATCH" ;;
  Ok {| dc_budget_state := budget_state |}.

Definition Controller_initialize : ST RuntimeDB unit := λ s,
  match rd_reservations s with
  | Some _ => (Ok tt, s)
  | None => if rd_locked s then (raise SqliteOperationalError "database is locked", s) else (Ok tt, set_reservations [] s)
  end.

(** [datetime.now(deadline.tzinfo) >= deadline]. *)
Definition Controller_deadline_expired (deadline_at : string) (now : datetime) : result bool :=
  match fromisoformat deadline_at with
  | None => db_fail "TASK_EXECUTION_BUDGET_DEADLINE_INVALID"
  | Some deadline =>
      db_fail_if (is_none (dt_offset deadline)) "TASK_EXECUTION_BUDGET_DEADLINE_NAIVE" ;;
      Ok (instant deadline <=? instant now)
  end.

(** [int(snapshot[field])]. *)
Definition snapshot_int (snapshot : json) (field : string) : result Z :=
  match snapshot with JObj d => py_int (get d field) | _ => raise PyTypeError "object is not subscriptable" end.

Section Preflight.
Context {TZ : TokyoZone}.

Definition assert_dispatch_step_available (c : DispatchBudgetController) : ST TaskStore unit :=
  BudgetState_assert_active (dc_budget_state c) ;;
  s ← st_get;
  snapshot ← st_lift (BudgetState_snapshot (dc_budget_state c) s);
  used ← st_lift (snapshot_int snapshot "steps_used");
  limit ← st_lift (snapshot_int snapshot "max_steps");
  st_raise_if (limit <? used + 1) ExecutionBudgetExceeded "TASK_STEP_BUDGET_EXHAUSTED".

Definition Preflight_assert_active (c : DispatchBudgetController) : ST TaskStore unit :=
  BudgetState_assert_active (dc_budget_state c).

Definition Preflight_reserve (c : DispatchBudgetController) (steps tool_calls retries escalations : Z) : ST TaskStore unit :=
  if (steps =? 1) && (tool_calls =? 0) && (retries =? 0) && (escalations =? 0) then assert_dispatch_step_available c
  else if (steps =? 0) && (tool_calls =? 0) && (retries =? 0) && (escalations =? 0)
  then BudgetState_assert_active (dc_budget_state c)
  else st_lift (db_fail "DISPATCH_BUDGET_PREFLIGHT_UNSUPPORTED_RESERVATION").

(** The guard the scheduler holds. *)
Record DispatchBudgetPreflightGuard := { pg_controller : DispatchBudgetController; pg_store : TaskStore }.

Definition on_preflight {A} (m : DispatchBudgetController → ST TaskStore A) : ST DispatchBudgetPreflightGuard A := λ g,
  let '(r, s) := m (pg_controller g) (pg_store g) in (r, {| pg_controller := pg_controller g; pg_store := s |}).

#[export] Instance PreflightGuard : SchedulerBudgetGuard DispatchBudgetPreflightGuard := {
  assert_active := on_preflight Preflight_assert_active;
  reserve steps tool_calls retries escalations :=
    on_preflight (λ c, Preflight_reserve c steps tool_calls retries escalations)
}.
End Preflight.

Section Repository.
Context {HL : Hashlib}.

Definition _reservation_payload (t : DispatchTicket) : result json :=
  DispatchTicket_validate t ;; Ok (JObj (reservation_items t)).

Definition _reservation_id (payload : json) : result string :=
  text ← dumps payload; Ok ("dispatch-budget:" +:+ short_digest (sha256_of_text text)).

Section Controller.
Variable controller : DispatchBudgetController.

Definition _require_budget_scope (t : DispatchTicket) : result unit :=
  db_fail_if (negb (bool_decide (dt_task_id t = tb_task_id (dc_budget_state controller)))) "DISPATCH_BUDGET_TASK_SCOPE_MISMATCH".

(** The budget row a new dispatch is charged to, charged. *)
Definition charged_row (row : option usage_row) (now : datetime) (updated_at : string) : result usage_row :=
  match row with
  | None => db_fail "TASK_EXECUTION_BUDGET_NOT_BOUND"
  | Some row =>
      expired ← Controller_deadline_expired (us_deadline_at row) now;
      raise_if expired ExecutionBudgetExceeded "TASK_WALL_TIME_BUDGET_EXHAUSTED" ;;
      let new_steps := us_steps_used row + 1 in
      raise_if (us_max_steps row <? new_steps) ExecutionBudgetExceeded "TASK_STEP_BUDGET_EXHAUSTED" ;;
      Ok (charge row 1 0 0 0 updated_at)
  end.

Definition reserve_new_in_transaction (t : DispatchTicket) : ST RuntimeDB DispatchBudgetReservation :=
  st_lift (_require_budget_scope t) ;;
  payload ← st_lift (_reservation_payload t);
  payload_json ← st_lift (_canonical_json payload);
  payload_sha256 ← st_lift (_digest_payload payload);
  reservation_id ← st_lift (_reservation_id payload);
  rows ← read_reservations;
  match List.find (reservation_for t) rows with
  | Some existing =>
      existing_payload ← st_lift (_parse_canonical_payload (rr_reservation_json existing) (rr_reservation_sha256 existing)
                                    "DISPATCH_BUDGET_RESERVATION");
      existing_sha256 ← st_lift (_digest_payload existing_payload);
      st_raise_if (negb (bool_decide (existing_sha256 = payload_sha256))) ExecutionDispatchBudgetError
        "DISPATCH_BUDGET_RESERVATION_CONFLICT" ;;
      st_lift (db_fail "DISPATCH_BUDGET_ORPHAN_RESERVATION")
  | None =>
      s ← st_get;
      let now := rd_now s in
      row ← st_lift (charged_row (ts_usage (rd_store s) !! dt_task_id t) (ts_now (rd_store s)) now);
      st_modify (set_store (set_usage (<[dt_task_id t := row]> (ts_usage (rd_store s))) (rd_store s))) ;;
      insert_reservation {|
        rr_reservation_id := reservation_id; rr_task_id := dt_task_id t; rr_plan_fingerprint := dt_plan_fingerprint t;
        rr_node_id := dt_node_id t; rr_reservation_json := payload_json; rr_reservation_sha256 := payload_sha256;
        rr_reserved_at := now |} ;;
      mret (reservation_of t reservation_id payload_sha256 now)
  end.

Definition require_existing_in_transaction (t : DispatchTicket) : ST RuntimeDB DispatchBudgetReservation :=
  st_lift (_require_budget_scope t) ;;
  payload ← st_lift (_reservation_payload t);
  payload_sha256 ← st_lift (_digest_payload payload);
  rows ← read_reservations;
  match List.find (reservation_for t) rows with
  | None => st_lift (db_fail "DISPATCH_BUDGET_RESERVATION_MISSING")
  | Some row =>
      existing_payload ← st_lift (_parse_canonical_payload (rr_reservation_json row) (rr_reservation_sha256 row)
                                    "DISPATCH_BUDGET_RESERVATION");
      existing_sha256 ← st_lift (_digest_payload existing_payload);
      st_raise_if (negb (bool_decide (existing_sha256 = payload_sha256))) ExecutionDispatchBudgetError
        "DISPATCH_BUDGET_RESERVATION_CONFLICT" ;;
      mret (reservation_of t (rr_reservation_id row) payload_sha256 (rr_reserved_at row))
  end.
End Controller.

(** ** The repository *)

Definition Atomic_initialize (lease : RuntimeWriterLease) : ST RuntimeDB unit :=
  on_writers (WriterFenced_initialize lease) ;; Controller_initialize.

Definition Atomic_record_dispatch (lease : RuntimeWriterLease) (controller : DispatchBudgetController) (ticket : DispatchTicket)
    : ST RuntimeDB DispatchTicket :=
  st_lift (_require_scope lease (dt_task_id ticket) (dt_plan_fingerprint ticket)) ;;
  payload ← st_lift (_dispatch_payload ticket);
  payload_json ← st_lift (_canonical_json payload);
  payload_sha256 ← st_lift (_digest_payload payload);
  s ← st_get;
  let now := rd_now s in
  runtime_transaction (
    on_writers (on_checkpoints (_require_task (dt_task_id ticket))) ;;
    on_writers (_require_current_writer_in_transaction lease) ;;
    rows ← on_writers (on_checkpoints read_dispatches);
    match List.find (λ r, bool_decide (pd_ticket_id r = dt_ticket_id ticket)) rows with
    | Some existing =>
        st_lift (same_payload (pd_ticket_json existing) (pd_ticket_sha256 existing) "DISPATCH" payload_sha256) ;;
        events ← on_writers (on_checkpoints read_events);
        st_lift (_require_binding_matches_current_writer lease events "DISPATCH_RECORDED" (dt_ticket_id ticket)) ;;
        require_existing_in_transaction controller ticket ;;
        mret ticket
    | None =>
        st_raise_if (existsb (λ r, dispatch_in (dt_task_id ticket) (dt_plan_fingerprint ticket) r
                                   && bool_decide (pd_node_id r = dt_node_id ticket)) rows)
          ExecutionCheckpointError "DISPATCH_CHECKPOINT_NODE_CONFLICT" ;;
        reserve_new_in_transaction controller ticket ;;
        on_writers (on_checkpoints (insert_dispatch (dispatch_row_of ticket payload_json payload_sha256 now))) ;;
        on_writers (on_checkpoints (_append_event (dt_task_id ticket) (dt_plan_fingerprint ticket) "DISPATCH_RECORDED"
                                      (dt_ticket_id ticket) payload_json payload_sha256 now)) ;;
        on_writers (_append_writer_fence_event lease "DISPATCH" (dt_ticket_id ticket) now) ;;
        mret ticket
    end).
End Repository.

(** ** The repository as the scheduler holds it *)

Record AtomicRepository := {
  ar_lease : RuntimeWriterLease;
  ar_controller : DispatchBudgetController;
  ar_db : RuntimeDB
}.

Definition on_atomic {A} (m : RuntimeWriterLease → DispatchBudgetController → ST RuntimeDB A) : ST AtomicRepository A := λ s,
  st_zoom ar_db (λ db s, {| ar_lease := ar_lease s; ar_controller := ar_controller s; ar_db := db |})
    (m (ar_lease s) (ar_controller s)) s.

(** The other operations are those of the class it extends. *)
#[export] Instance AtomicBudgetRepository `{Hashlib} : SchedulerCheckpointRepository AtomicRepository := {
  initialize := on_atomic (λ l _, Atomic_initialize l);
  record_dispatch t := on_atomic (λ l c, Atomic_record_dispatch l c t);
  record_observation o := on_atomic (λ l _, on_writers (WriterFenced_record_observation l o));
  record_cancellation task plan reason := on_atomic (λ l _, on_writers (WriterFenced_record_cancellation l task plan reason));
  load task plan := on_atomic (λ l _, on_writers (WriterFenced_load l task plan))
}.
