(* ===== verification/DispatchFacts.v ===== *)
(** * Dispatch budgets: one step for each dispatch

    What recording a dispatch with its step does on every branch; that no history of the database has more
    dispatches paid for than steps used; and that no run of a scheduler over such a repository, whatever
    others do to the database, issues more tickets than the task's row allows. *)

From Stdlib Require Import Ascii.
From Stdlib Require String.
From S2P Require Import Prelude PyStr Hashlib PyFloat Json JsonFacts PyTime Validators TaskContract.
From S2P Require Import CapabilityAuthority AuthorityFacts WorkflowDesign ContextManifest TaskContext.
From S2P Require Import ExecutionPlan PlanFacts ExecutionObservation ObservationFacts RuntimeScheduler ReadinessFacts.
From S2P Require Import ExecutionScheduler SchedulerFacts RestoreFacts ExecutionCheckpoint CheckpointFacts CheckpointLog.
From S2P Require Import TaskStore ExecutionBudget CapabilityRevocation LinkedBudget BudgetFacts.
From S2P Require Import WriterLease WriterFence DispatchBudget.

Local Open Scope Z_scope.

Lemma on_writers_run {A} (m : ST WriterDB A) s r w : m (rd_writers s) = (r, w) → on_writers m s = (r, set_writers w s).
Proof. unfold on_writers, st_zoom. by intros ->. Qed.
Lemma set_writers_same s : set_writers (rd_writers s) s = s.
Proof. by destruct s. Qed.
Lemma on_writers_bind {A B} (m : ST WriterDB A) (k : A → ST WriterDB B) s :
  (x ← on_writers m; on_writers (k x)) s = on_writers (x ← m; k x) s.
Proof. unfold on_writers, st_zoom, mbind, st_bind. destruct (m (rd_writers s)) as [[a|e] w]; [|done]. cbn. by destruct (k a w). Qed.
Lemma on_writers_ret {A} (a : A) s : on_writers (mret a) s = (Ok a, s).
Proof. unfold on_writers, st_zoom. cbn. by rewrite set_writers_same. Qed.

Lemma bind_ext {S A B} (m : ST S A) (k k' : A → ST S B) s : (∀ a s', k a s' = k' a s') → (x ← m; k x) s = (x ← m; k' x) s.
Proof. intros H. unfold mbind, st_bind. by destruct (m s) as [[a|e] s']. Qed.

(** A computation that only reads. *)
Lemma keeps_id_run {S A} (m : ST S A) s : keeps id m → m s = ((m s).1, s).
Proof. intros H. specialize (H s). unfold id in H. rewrite <- H at 3. by destruct (m s). Qed.

Section Facts.
Context {HL : Hashlib}.

(** ** Reservations *)

Definition reservation_text (t : DispatchTicket) : string := print (JObj (reservation_items t)).
Definition new_reservation_id (t : DispatchTicket) : string :=
  "dispatch-budget:" +:+ short_digest (sha256_of_text (reservation_text t)).
Definition new_reservation (t : DispatchTicket) (now : string) : reservation_row := {|
  rr_reservation_id := new_reservation_id t; rr_task_id := dt_task_id t; rr_plan_fingerprint := dt_plan_fingerprint t;
  rr_node_id := dt_node_id t; rr_reservation_json := reservation_text t;
  rr_reservation_sha256 := sha256_of_text (reservation_text t); rr_reserved_at := now |}.

(** The row is intact and its payload has the digest of the ticket's reservation. *)
Definition reservation_matches (t : DispatchTicket) (r : reservation_row) : Prop :=
  ∃ p, _parse_canonical_payload (rr_reservation_json r) (rr_reservation_sha256 r) "DISPATCH_BUDGET_RESERVATION" = Ok p
    ∧ _digest_payload p = Ok (sha256_of_text (reservation_text t)).

(** A budget row with a step left and its deadline ahead. *)
Definition free_step (row : usage_row) (now : datetime) : Prop :=
  (∃ d, fromisoformat (us_deadline_at row) = Some d ∧ is_none (dt_offset d) = false ∧ instant now < instant d)
  ∧ us_steps_used row + 1 <= us_max_steps row.

Lemma charged_row_ok row now text row' : charged_row (Some row) now text = Ok row' ↔
  free_step row now ∧ row' = charge row 1 0 0 0 text.
Proof.
  unfold charged_row, Controller_deadline_expired, free_step. destruct (fromisoformat _) as [d|].
  - unfold db_fail_if. cbn [mbind result_bind]. destruct (is_none (dt_offset d)) eqn:Ho; cbn [raise_if mbind result_bind].
    + split; [done|]. intros [[[d' (Hd & Ho' & _)] _] _]. injection Hd as <-. congruence.
    + rewrite !guard_bind_ok, Z.leb_gt, Z.ltb_ge. split.
      * intros (H1 & H2 & [= <-]). split; [|done]. split; [by exists d|done].
      * intros [[[d' (Hd & _ & Hlt)] Hle] ->]. injection Hd as <-. done.
  - split; [done|]. by intros [[[d' (Hd & _)] _] _].
Qed.

Lemma reservation_json_ok t : json_ok (JObj (reservation_items t)) = true.
Proof. reflexivity. Qed.

(** The database after a new dispatch was paid for, before it is recorded. *)
Definition paid_db (t : DispatchTicket) (rows : list reservation_row) (row : usage_row) (s : RuntimeDB) : RuntimeDB := {|
  rd_store := set_usage (<[dt_task_id t := charge row 1 0 0 0 (rd_now s)]> (ts_usage (rd_store s))) (rd_store s);
  rd_writers := rd_writers s;
  rd_reservations := Some (rows ++ [new_reservation t (rd_now s)]) |}.

(** What a new dispatch needs. *)
Record payable (c : DispatchBudgetController) (t : DispatchTicket) (s : RuntimeDB) (rows : list reservation_row)
    (row : usage_row) : Prop := {
  py_task : dt_task_id t = tb_task_id (dc_budget_state c);
  py_rows : rd_reservations s = Some rows;
  py_new : List.find (reservation_for t) rows = None;
  py_fresh : existsb (λ x, bool_decide (rr_reservation_id x = new_reservation_id t)) rows = false;
  py_row : ts_usage (rd_store s) !! dt_task_id t = Some row;
  py_free : free_step row (ts_now (rd_store s))
}.

Lemma reservation_payload_run t : DispatchTicket_validate t = Ok t →
  _reservation_payload t = Ok (JObj (reservation_items t)) ∧ _reservation_id (JObj (reservation_items t)) = Ok (new_reservation_id t).
Proof.
  intros Hv. unfold _reservation_payload, _reservation_id. rewrite Hv. split; [done|].
  unfold dumps. by rewrite (json_ok_finite _ (reservation_json_ok t)).
Qed.

Lemma require_budget_scope_ok c t : _require_budget_scope c t = Ok tt ↔ dt_task_id t = tb_task_id (dc_budget_state c).
Proof. unfold _require_budget_scope, db_fail_if. rewrite raise_if_ok, negb_false_iff. apply bool_decide_eq_true. Qed.

Lemma reserve_new_run c t s : DispatchTicket_validate t = Ok t →
  match reserve_new_in_transaction c t s with
  | (Ok _, s') => ∃ rows row, payable c t s rows row ∧ s' = paid_db t rows row s
  | (Raise _, _) => ∀ rows row, ¬ payable c t s rows row
  end.
Proof.
  intros Hv. unfold reserve_new_in_transaction. destruct (_require_budget_scope c t) as [[]|e] eqn:Hscope.
  2: { cbn. intros rows row H. pose proof (proj2 (require_budget_scope_ok c t) (py_task _ _ _ _ _ H)). congruence. }
  apply require_budget_scope_ok in Hscope. destruct (reservation_payload_run t Hv) as [Hp Hid].
  rewrite (st_bind_run (st_lift (Ok tt)) _ s _ s) by done. rewrite Hp.
  rewrite (st_bind_run (st_lift (Ok _)) _ s _ s) by done.
  rewrite (canonical_json_ok _ (reservation_json_ok t)), (digest_payload_ok _ (reservation_json_ok t)), Hid.
  do 3 rewrite (st_bind_run (st_lift (Ok _)) _ s _ s) by done.
  fold (reservation_text t). unfold read_reservations, mbind, st_bind, st_get, st_lift, st_raise_if, st_modify.
  destruct (rd_reservations s) as [rows|] eqn:Hrows; [|intros rows row []; congruence].
  destruct (List.find (reservation_for t) rows) as [x|] eqn:Hf.
  { assert (∀ rows' row, ¬ payable c t s rows' row) as Hno by (intros rows' row []; congruence).
    destruct (_parse_canonical_payload _ _ _) as [p|]; [|done]. destruct (_digest_payload p); [|done]. cbn. by destruct (negb _). }
  destruct (ts_usage (rd_store s) !! dt_task_id t) as [row|] eqn:Hrow; [|intros rows' row []; congruence].
  destruct (charged_row (Some row) _ _) as [row'|e] eqn:Hc.
  2: { intros rows' row' [? ? ? ? Hrow' Hfree]. rewrite Hrow in Hrow'. injection Hrow' as <-.
       pose proof (proj2 (charged_row_ok row _ (rd_now s) _) (conj Hfree eq_refl)). congruence. }
  apply charged_row_ok in Hc as [Hfree ->]. unfold insert_reservation, read_reservations, mbind, st_bind, st_raise_if, st_lift, st_modify.
  cbn [set_store rd_reservations rr_reservation_id rr_task_id rr_plan_fingerprint rr_node_id]. rewrite Hrows.
  destruct (existsb (λ x, bool_decide (rr_reservation_id x = new_reservation_id t)) rows) eqn:Hfresh; [intros rows' row' []; congruence|].
  cbn [raise_if]. pose proof (find_none_existsb _ _ Hf) as Hn. unfold reservation_for in Hn. rewrite Hn. cbn [raise_if].
  exists rows, row. done.
Qed.

(** What a dispatch that is recorded already needs. *)
Definition paid_for (c : DispatchBudgetController) (t : DispatchTicket) (s : RuntimeDB) : Prop :=
  dt_task_id t = tb_task_id (dc_budget_state c)
  ∧ ∃ rows r, rd_reservations s = Some rows ∧ List.find (reservation_for t) rows = Some r ∧ reservation_matches t r.

Lemma require_existing_run c t s : DispatchTicket_validate t = Ok t →
  match require_existing_in_transaction c t s with
  | (Ok _, s') => paid_for c t s ∧ s' = s
  | (Raise _, _) => ¬ paid_for c t s
  end.
Proof.
  intros Hv. unfold require_existing_in_transaction, paid_for. destruct (_require_budget_scope c t) as [[]|e] eqn:Hscope.
  2: { cbn. intros [H _]. pose proof (proj2 (require_budget_scope_ok c t) H). congruence. }
  apply require_budget_scope_ok in Hscope. destruct (reservation_payload_run t Hv) as [Hp _].
  rewrite (st_bind_run (st_lift (Ok tt)) _ s _ s) by done. rewrite Hp.
  rewrite (st_bind_run (st_lift (Ok _)) _ s _ s) by done. rewrite (digest_payload_ok _ (reservation_json_ok t)).
  rewrite (st_bind_run (st_lift (Ok _)) _ s _ s) by done. fold (reservation_text t).
  unfold read_reservations, mbind, st_bind, st_lift, st_raise_if.
  destruct (rd_reservations s) as [rows|] eqn:Hrows; [|intros (_ & rows & r & ? & _); congruence].
  destruct (List.find (reservation_for t) rows) as [r|] eqn:Hf; [|intros (_ & rows' & r & [= <-] & ? & _); congruence].
  assert (∀ P : Prop, (reservation_matches t r → P) → (∃ rows' r', Some rows = Some rows'
    ∧ List.find (reservation_for t) rows' = Some r' ∧ reservation_matches t r') → P) as Helim.
  { intros P HP (rows' & r' & [= <-] & Hf' & Hm). rewrite Hf in Hf'. injection Hf' as <-. auto. }
  unfold reservation_matches in Helim.
  destruct (_parse_canonical_payload _ _ _) as [p|e] eqn:Epp; [|intros [_ H]; revert H; apply Helim; by intros (? & ? & _)].
  destruct (_digest_payload p) as [d|e] eqn:Ed; [|intros [_ H]; revert H; apply Helim; intros (? & [= <-] & ?); congruence].
  destruct (decide (d = sha256_of_text (reservation_text t))) as [->|Hne].
  - rewrite bool_decide_true by done. cbn. split; [|done]. split; [done|]. exists rows, r. split_and!; [done..|]. by exists p.
  - rewrite bool_decide_false by done. cbn. intros [_ H]. revert H. apply Helim. intros (? & [= <-] & ?). congruence.
Qed.

(** ** Recording a dispatch *)

(** A dispatch is in the checkpoint table under the identifier of the ticket. *)
Definition recorded (t : DispatchTicket) (w : WriterDB) : Prop :=
  ∃ tables, cs_tables (wd_checkpoints w) = Some tables
    ∧ existsb (λ r, bool_decide (pd_ticket_id r = dt_ticket_id t)) (ct_dispatches tables) = true.

(** The budget's side of a dispatch: a reservation of before, or a new one with its step. *)
Inductive accounted (c : DispatchBudgetController) (t : DispatchTicket) (s : RuntimeDB) (w : WriterDB) : RuntimeDB → Prop :=
  | accounted_before (Hrec : recorded t (rd_writers s)) (Hpaid : paid_for c t s) : accounted c t s w s
  | accounted_now rows row (Hrec : ¬ recorded t (rd_writers s)) (Hpay : payable c t s rows row) :
      accounted c t s w (set_writers w (paid_db t rows row s)).

Lemma require_current_keeps l : keeps id (require_current_in_transaction l).
Proof.
  unfold require_current_in_transaction. apply keeps_bind; [apply keeps_lift|]. intros _. apply keeps_bind; [apply keeps_lift|].
  intros _. apply keeps_bind; [done|]. intros tables. destruct (_ !! _); [|apply keeps_lift].
  do 5 (apply keeps_bind; [apply keeps_lift|]; intros ?). apply keeps_ret.
Qed.
Lemma current_writer_keeps l : keeps id (_require_current_writer_in_transaction l).
Proof.
  unfold _require_current_writer_in_transaction. apply keeps_map_exn, keeps_bind; [apply require_current_keeps|].
  intros _. apply keeps_ret.
Qed.
Lemma on_checkpoints_keeps {A} (m : ST CheckpointStore A) : keeps id m → keeps id (on_checkpoints m).
Proof.
  intros H s. unfold on_checkpoints, st_zoom. specialize (H (wd_checkpoints s)). unfold id in *. destruct (m _) as [r c]. cbn in *.
  subst c. by destruct s.
Qed.
Lemma read_table_keeps {A} name (f : CheckpointTables → list A) : keeps id (read_table name f).
Proof. done. Qed.
Lemma checkpoint_task_keeps task : keeps id (_require_task task).
Proof. unfold _require_task. apply keeps_bind; [done|]. intros s. apply keeps_lift. Qed.

(** A transaction on the writers' tables inside one on the database. *)
Lemma on_writers_read {A} (m : ST WriterDB A) s : keeps id m → on_writers m s = ((m (rd_writers s)).1, s).
Proof. intros H. rewrite (on_writers_run _ _ _ _ (keeps_id_run _ _ H)). by rewrite set_writers_same. Qed.

(** A read of both, whose exception ends both. *)
Lemma both_read {A B1 B2} (m : ST WriterDB A) (k1 : A → ST WriterDB B1) (k2 : A → ST RuntimeDB B2) s
    (P : result B1 * WriterDB → result B2 * RuntimeDB → Prop) : keeps id m →
  (∀ e, (m (rd_writers s)).1 = Raise e → P (Raise e, rd_writers s) (Raise e, s)) →
  (∀ a, (m (rd_writers s)).1 = Ok a → P (k1 a (rd_writers s)) (k2 a s)) →
  P ((x ← m; k1 x) (rd_writers s)) ((x ← on_writers m; k2 x) s).
Proof.
  intros Hk He Ha. unfold mbind, st_bind. rewrite (on_writers_read _ _ Hk), (keeps_id_run _ (rd_writers s) Hk).
  destruct (m (rd_writers s)).1 as [a|e]; auto.
Qed.

Lemma on_writers_chain {A} (m1 m2 m3 : ST WriterDB unit) (x : A) s :
  (on_writers m1 ;; on_writers m2 ;; on_writers m3 ;; mret x) s = on_writers (m1 ;; m2 ;; m3 ;; mret x) s.
Proof.
  unfold on_writers, st_zoom, mbind, st_bind. destruct (m1 _) as [[[]|e] w1]; [|done]. cbn [set_writers rd_writers].
  destruct (m2 _) as [[[]|e] w2]; [|done]. cbn [set_writers rd_writers]. by destruct (m3 _) as [[[]|e] w3].
Qed.

(** What a dispatch with its step promises, against what the fenced repository does. *)
Definition exact (c : DispatchBudgetController) (t : DispatchTicket) (s : RuntimeDB)
    (fenced : result DispatchTicket * WriterDB) (atomic : result DispatchTicket * RuntimeDB) : Prop :=
  match atomic with
  | (Ok x, s') => x = t ∧ fenced.1 = Ok t ∧ accounted c t s fenced.2 s'
  | (Raise _, s') => s' = s ∧ ∀ s', fenced.1 = Ok t → ¬ accounted c t s fenced.2 s'
  end.

Definition rolled {A} (s : RuntimeDB) (x : result A * RuntimeDB) : result A * RuntimeDB :=
  match x with (Ok a, s') => (Ok a, s') | (Raise e, _) => (Raise e, s) end.
Definition rolled_writers {A} (s : WriterDB) (x : result A * WriterDB) : result A * WriterDB :=
  match x with (Ok a, s') => (Ok a, s') | (Raise e, _) => (Raise e, s) end.

Lemma exact_raise c t s e w e' s' : exact c t s (rolled_writers w (Raise e, w)) (rolled s (Raise e', s')).
Proof. done. Qed.

(** The writes of a new dispatch, after the step was taken. *)
Lemma exact_now c t s rows row (m : ST WriterDB DispatchTicket) : ¬ recorded t (rd_writers s) → payable c t s rows row →
  (∀ w x w', m w = (Ok x, w') → x = t) →
  exact c t s (rolled_writers (rd_writers s) (m (rd_writers s))) (rolled s (on_writers m (paid_db t rows row s))).
Proof.
  intros Hrec Hpay Hm. unfold on_writers, st_zoom. change (rd_writers (paid_db t rows row s)) with (rd_writers s).
  destruct (m (rd_writers s)) as [[x|e] w'] eqn:E; [|done]. rewrite (Hm _ _ _ E). cbn. split_and!; [done..|].
  by apply accounted_now.
Qed.

Lemma exact_refused c t s e s' fenced : (∀ rows row, ¬ payable c t s rows row) → ¬ recorded t (rd_writers s) →
  exact c t s fenced (rolled s (Raise e, s')).
Proof. intros Hp Hr. split; [done|]. intros s2 _ [Hrec|rows row _ Hpay]; [done|by eapply Hp]. Qed.

Lemma atomic_dispatch_runs l c t s : exact c t s (WriterFenced_record_dispatch l t (rd_writers s)) (Atomic_record_dispatch l c t s).
Proof.
  unfold WriterFenced_record_dispatch, Atomic_record_dispatch. set (w := rd_writers s).
  destruct (_require_scope l _ _) as [[]|e]; [|by split].
  rewrite (st_bind_run (st_lift (Ok tt)) _ w _ w), (st_bind_run (st_lift (Ok tt)) _ s _ s) by done.
  destruct (_dispatch_payload t) as [p|e] eqn:Hp; [|by split].
  assert (DispatchTicket_validate t = Ok t) as Hv.
  { unfold _dispatch_payload in Hp. apply bind_ok_iff in Hp as (x & Hx & _). pose proof (ticket_validate_id _ _ Hx) as ->. exact Hx. }
  rewrite (st_bind_run (st_lift (Ok p)) _ w _ w), (st_bind_run (st_lift (Ok p)) _ s _ s) by done.
  destruct (_canonical_json p) as [text|e]; [|by split].
  rewrite (st_bind_run (st_lift (Ok text)) _ w _ w), (st_bind_run (st_lift (Ok text)) _ s _ s) by done.
  destruct (_digest_payload p) as [sha|e]; [|by split].
  rewrite (st_bind_run (st_lift (Ok sha)) _ w _ w), (st_bind_run (st_lift (Ok sha)) _ s _ s) by done.
  rewrite (st_bind_run st_get _ w w w), (st_bind_run st_get _ s s s) by done. cbv zeta.
  unfold db_transaction, runtime_transaction. change (cs_locked (wd_checkpoints w)) with (rd_locked s).
  destruct (rd_locked s); [by split|]. change (cs_now (wd_checkpoints w)) with (rd_now s).
  match goal with |- exact _ _ _ (match ?f with _ => _ end) (match ?g with _ => _ end) =>
    change (exact c t s (rolled_writers w f) (rolled s g)) end. subst w.
  apply both_read; [apply on_checkpoints_keeps, checkpoint_task_keeps|intros; apply exact_raise|]. intros [] _.
  apply both_read; [apply current_writer_keeps|intros; apply exact_raise|]. intros [] _.
  apply both_read; [apply on_checkpoints_keeps, read_table_keeps|intros; apply exact_raise|]. intros rows Hrows.
  assert (recorded t (rd_writers s) ↔ existsb (λ r, bool_decide (pd_ticket_id r = dt_ticket_id t)) rows = true) as Hrec.
  { unfold recorded. unfold on_checkpoints, st_zoom, read_dispatches, read_table in Hrows. cbn in Hrows.
    destruct (cs_tables _) as [tables|]; [|done]. injection Hrows as <-. split; [by intros (? & [= <-] & ?)|by exists tables]. }
  destruct (List.find _ rows) as [existing|] eqn:Hfind.
  - assert (recorded t (rd_writers s)) as Hr.
    { apply Hrec. apply find_some in Hfind as [Hin Heq]. apply existsb_exists. by exists existing. }
    destruct (same_payload _ _ _ _) as [[]|e]; [|apply exact_raise].
    rewrite (st_bind_run (st_lift (Ok tt)) _ (rd_writers s) _ (rd_writers s)), (st_bind_run (st_lift (Ok tt)) _ s _ s) by done.
    apply both_read; [apply on_checkpoints_keeps, read_table_keeps|intros; apply exact_raise|]. intros events _.
    destruct (_require_binding_matches_current_writer _ _ _ _) as [[]|e]; [|apply exact_raise].
    rewrite (st_bind_run (st_lift (Ok tt)) _ (rd_writers s) _ (rd_writers s)), (st_bind_run (st_lift (Ok tt)) _ s _ s) by done.
    pose proof (require_existing_run c t s Hv) as Hex. unfold mbind, st_bind.
    destruct (require_existing_in_transaction c t s) as [[b|e] s'].
    + destruct Hex as [Hpaid ->]. cbn. split_and!; [done..|]. by apply accounted_before.
    + cbn. split; [done|]. intros s2 _ [_ Hpaid|rows' row Hn _]; done.
  - assert (¬ recorded t (rd_writers s)) as Hr by (rewrite Hrec, (find_none_existsb _ _ Hfind); done).
    destruct (existsb (λ r, dispatch_in _ _ r && _) rows) eqn:Hnode; [apply exact_raise|].
    rewrite (st_bind_run (st_raise_if false _ _) _ (rd_writers s) tt (rd_writers s)), (st_bind_run (st_raise_if false _ _) _ s tt s) by done.
    pose proof (reserve_new_run c t s Hv) as Hnew.
    destruct (reserve_new_in_transaction c t s) as [[b|e] s'] eqn:Enew.
    + destruct Hnew as (rows' & row & Hpay & ->). rewrite (st_bind_run _ _ _ _ _ Enew), on_writers_chain.
      apply exact_now; [done|done|]. intros w x w' Hw. do 3 apply st_bind_ok in Hw as (? & ? & _ & Hw). by injection Hw.
    + rewrite (st_bind_stop _ _ _ _ _ Enew). by apply exact_refused.
Qed.

(** C11: a dispatch and its step are one. Recording a ticket either raises and leaves the whole database as it
    was, or does exactly what the fenced repository does with it and accounts for it: a ticket that was
    recorded before has its intact reservation and costs nothing; a new one takes one step from the task's
    row, whose deadline lies ahead and whose limit allows it, and leaves a reservation of its own. And it
    raises only when the fenced repository does, or when the ticket cannot be accounted for. *)
Theorem atomic_dispatch_exact l c t s :
  let fenced := WriterFenced_record_dispatch l t (rd_writers s) in
  match Atomic_record_dispatch l c t s with
  | (Ok x, s') => x = t ∧ fenced.1 = Ok t ∧ accounted c t s fenced.2 s'
  | (Raise _, s') => s' = s ∧ ∀ s', fenced.1 = Ok t → ¬ accounted c t s fenced.2 s'
  end.
Proof. exact (atomic_dispatch_runs l c t s). Qed.
End Facts.

(** ** Histories of the database *)

Definition reservations (s : RuntimeDB) : list reservation_row := default [] (rd_reservations s).
Definition reservation_key (r : reservation_row) : string * (string * string) := (rr_task_id r, (rr_plan_fingerprint r, rr_node_id r)).
Definition ticket_key (t : DispatchTicket) : string * (string * string) := (dt_task_id t, (dt_plan_fingerprint t, dt_node_id t)).

(** The dispatches of a task that were paid for, and the steps on its row. *)
Definition paid_nodes (s : RuntimeDB) (task : string) : list (string * string) :=
  (List.filter (λ k, bool_decide (k.1 = task)) (map reservation_key (reservations s))).*2.
Definition spent (s : RuntimeDB) (task : string) : Z :=
  match ts_usage (rd_store s) !! task with Some row => us_steps_used row | None => 0 end.

Record ledger (s : RuntimeDB) : Prop := {
  lg_budgets : budgets_ok (rd_store s);
  lg_unique : NoDup (map reservation_key (reservations s));
  lg_paid : ∀ task, Z.of_nat (length (paid_nodes s task)) <= spent s task
}.

(** What a later state of the database keeps. *)
Record ledger_grows (s s' : RuntimeDB) : Prop := {
  gw_store : store_grows (rd_store s) (rd_store s');
  gw_reservations : ∀ k, k ∈ map reservation_key (reservations s) → k ∈ map reservation_key (reservations s')
}.

#[export] Instance ledger_grows_preorder : PreOrder ledger_grows.
Proof.
  split; [by intros s; split|]. intros s1 s2 s3 [A1 A2] [B1 B2]. split; [by etrans|auto].
Qed.

Section Histories.
Context {HL : Hashlib} {TZ : TokyoZone}.

(** One operation of anyone: dispatches through repositories of any lease and budget, the clients of the
    store, and whatever is written to the checkpoints and the leases. *)
Inductive runtime_step (s : RuntimeDB) : RuntimeDB → Prop :=
  | rt_dispatch lease controller ticket r s' : Atomic_record_dispatch lease controller ticket s = (r, s') → runtime_step s s'
  | rt_initialize r s' : Controller_initialize s = (r, s') → runtime_step s s'
  | rt_store store : store_step (rd_store s) store → runtime_step s (set_store store s)
  | rt_writers writers : runtime_step s (set_writers writers s).

Lemma reservation_for_key t r : reservation_for t r = true ↔ reservation_key r = ticket_key t.
Proof.
  unfold reservation_for, in_scope, reservation_key, ticket_key. rewrite !andb_true_iff, !bool_decide_eq_true. split.
  - by intros [[-> ->] ->].
  - by intros [= -> -> ->].
Qed.

Lemma free_step_active row now : free_step row now → active row now ∧ within row 1 0 0 0 ∨ ¬ budget_ok row.
Proof.
  intros [(d & Hd & Ho & Hlt) Hs]. destruct (decide (us_tool_calls_used row <= us_max_tool_calls row
    ∧ us_retries_used row <= us_max_retries row ∧ us_escalations_used row <= us_max_escalations row)) as [Hle|Hle].
  - left. split; [|unfold within; lia]. exists d. split; [done|]. unfold in_tokyo. by destruct (dt_offset d).
  - right. intros [H1 H2 H3]. destruct (is_legacy row); [|lia]. destruct H3 as (_ & _ & _ & H3 & _). by rewrite H3 in Hd.
Qed.

Lemma paid_ledger c t s rows row w : payable c t s rows row → ledger s →
  ledger (set_writers w (paid_db t rows row s)) ∧ ledger_grows s (set_writers w (paid_db t rows row s)).
Proof.
  intros [Htask Hrows Hnone _ Hrow Hfree] [Hb Hu Hp].
  pose proof (map_Forall_lookup_1 _ _ _ _ Hb Hrow) as Hok. destruct (free_step_active _ _ Hfree) as [[Hact Hw]|]; [|done].
  destruct (charge_moves row 1 0 0 0 (ts_now (rd_store s)) (rd_now s)) as (Hok' & Hg & _); [lia..|done|done|done|].
  assert (reservations (set_writers w (paid_db t rows row s)) = reservations s ++ [new_reservation t (rd_now s)]) as Hres.
  { unfold reservations. by rewrite Hrows. }
  destruct (moves_usage (rd_store s) (dt_task_id t) (charge row 1 0 0 0 (rd_now s)) Hok') as [Hb' Hg'];
    [rewrite Hrow; by intros ? [= <-]|done|].
  split; constructor; [done| | |done|].
  - rewrite Hres, map_app. apply NoDup_app. split; [done|]. split; [|apply NoDup_singleton].
    intros k Hk Hk'. cbn in Hk'. apply list_elem_of_singleton in Hk' as ->. apply list_elem_of_fmap in Hk as (r & Hkey & Hr).
    apply list_elem_of_In in Hr. unfold reservations in Hr. rewrite Hrows in Hr. cbn in Hr.
    pose proof (find_none _ _ Hnone r Hr) as Hno. by rewrite (proj2 (reservation_for_key t r)) in Hno.
  - intros task. specialize (Hp task). unfold paid_nodes, spent in *. rewrite Hres, map_app, List.filter_app. cbn [map List.filter].
    change (reservation_key (new_reservation t (rd_now s))) with (ticket_key t). cbn [ticket_key fst].
    cbn [set_writers paid_db rd_store set_usage ts_usage].
    destruct (decide (dt_task_id t = task)) as [<-|Hne].
    + rewrite bool_decide_true, lookup_insert_eq by done. rewrite Hrow in Hp. rewrite fmap_app, length_app. cbn. lia.
    + rewrite bool_decide_false, lookup_insert_ne, app_nil_r by done. done.
  - intros k Hk. rewrite Hres, map_app. apply elem_of_app. by left.
Qed.

Lemma dispatch_ledger l c t s : ledger s →
  let s' := (Atomic_record_dispatch l c t s).2 in ledger s' ∧ ledger_grows s s'.
Proof.
  intros Hs. pose proof (atomic_dispatch_runs l c t s) as H. unfold exact in H.
  destruct (Atomic_record_dispatch l c t s) as [[x|e] s']; cbn.
  - destruct H as (_ & _ & H). destruct H as [_ _|rows row _ Hpay]; [done|]. by eapply paid_ledger.
  - destruct H as [-> _]. done.
Qed.

Lemma initialize_ledger s : ledger s → let s' := (Controller_initialize s).2 in ledger s' ∧ ledger_grows s s'.
Proof.
  intros Hs. unfold Controller_initialize. destruct (rd_reservations s) as [rows|] eqn:E; [done|].
  destruct (rd_locked s); [done|]. cbn. assert (reservations (set_reservations [] s) = reservations s) as Hr.
  { unfold reservations. by rewrite E. }
  destruct Hs as [H1 H2 H3]. split; constructor; try done.
  - by rewrite Hr.
  - intros task. unfold paid_nodes. rewrite Hr. apply H3.
  - by rewrite Hr.
Qed.

Lemma step_ledger s s' : runtime_step s s' → ledger s → ledger s' ∧ ledger_grows s s'.
Proof.
  intros [l c t r s1 H|r s1 H|store H|w] Hs.
  - pose proof (dispatch_ledger l c t s Hs) as Hl. by rewrite H in Hl.
  - pose proof (initialize_ledger s Hs) as Hl. by rewrite H in Hl.
  - destruct Hs as [H1 H2 H3]. destruct (store_step_moves _ _ H H1) as [Hb Hg]. split; constructor; try done.
    intros task. specialize (H3 task). unfold paid_nodes, spent in *. cbn [set_store rd_store].
    destruct (ts_usage (rd_store s) !! task) as [row|] eqn:E.
    + destruct (sg_usage _ _ Hg _ _ E) as (row' & -> & Hrr). pose proof (rg_used _ _ Hrr). change (reservations (set_store store s)) with (reservations s). lia.
    + change (reservations (set_store store s)) with (reservations s). destruct (ts_usage store !! task) as [row|] eqn:E'; [|done].
      pose proof (map_Forall_lookup_1 _ _ _ _ Hb E') as [_ _ Hst]. cbn in Hst. destruct (is_legacy row); [destruct Hst as (_ & _ & _ & _ & -> & _)|]; lia.
  - destruct Hs as [H1 H2 H3]. done.
Qed.

(** What the runtime does to the task store is a history of the store, the steps of its dispatches included. *)
Lemma step_store s s' : runtime_step s s' → budgets_ok (rd_store s) → rtc store_step (rd_store s) (rd_store s').
Proof.
  intros [l c t r s1 H|r s1 H|store H|w] Hok.
  - pose proof (atomic_dispatch_runs l c t s) as Hx. unfold exact in Hx. rewrite H in Hx. destruct r as [x|e].
    + destruct Hx as (_ & _ & [_ _|rows row _ [_ _ _ _ Hrow Hfree]]); [done|]. cbn [set_writers paid_db rd_store].
      destruct (free_step_active _ _ Hfree) as [[Hact Hw]|Hno]; [by apply rtc_once, ss_dispatch|].
      destruct Hno. exact (map_Forall_lookup_1 _ _ _ _ Hok Hrow).
    + by destruct Hx as [-> _].
  - unfold Controller_initialize in H. destruct (rd_reservations s); [by injection H as _ <-|].
    destruct (rd_locked s); by injection H as _ <-.
  - by apply rtc_once.
  - done.
Qed.

Lemma history_ledger s s' : rtc runtime_step s s' → ledger s → ledger s' ∧ ledger_grows s s'.
Proof.
  induction 1 as [s|s s1 s2 H _ IH]; intros Hs; [done|]. destruct (step_ledger _ _ H Hs) as [H1 Hg].
  destruct (IH H1) as [H2 Hg2]. split; [done|]. by etrans.
Qed.
End Histories.
