(* ===== verification/PaidRuns.v ===== *)
(** * Paid runs

    What a checkpoint repository that pays for its dispatches promises the scheduler, as an interface; what
    a run over such a repository can issue, whatever guards the scheduler holds and whatever others do to
    the database; and that the repository of the dispatch budget keeps the promise. *)

From Stdlib Require Import Ascii.
From Stdlib Require String.
From S2P Require Import Prelude PyStr Hashlib PyFloat Json JsonFacts PyTime Validators TaskContract.
From S2P Require Import CapabilityAuthority AuthorityFacts WorkflowDesign ContextManifest TaskContext.
From S2P Require Import ExecutionPlan PlanFacts ExecutionObservation ObservationFacts RuntimeScheduler ReadinessFacts.
From S2P Require Import ExecutionScheduler SchedulerFacts RestoreFacts ExecutionCheckpoint CheckpointFacts CheckpointLog.
From S2P Require Import TaskStore ExecutionBudget CapabilityRevocation LinkedBudget BudgetFacts.
From S2P Require Import WriterLease WriterFence DispatchBudget DispatchFacts.

Local Open Scope Z_scope.

(** ** The promise *)

(** The task whose dispatches are paid for; the dispatches, by plan and node, that have a step of its
    budget; the steps used and their limit; what others may do. *)
Class DispatchBooks (C : Type) := {
  books_task : C → string;
  books_ok : C → Prop;
  booked : C → string * string → Prop;
  booked_steps : C → Z;
  booked_limit : C → Z;
  books_env : C → C → Prop
}.

Definition books_kept {C} `{!DispatchBooks C} (c c' : C) : Prop :=
  books_ok c' ∧ (books_task c' = books_task c ∧ booked_limit c' = booked_limit c) ∧ booked_steps c <= booked_steps c'
  ∧ ∀ k, booked c k → booked c' k.

Definition dispatch_key (t : DispatchTicket) : string * string := (dt_plan_fingerprint t, dt_node_id t).

Class DispatchLedger (C : Type) `{!SchedulerCheckpointRepository C} `{!DispatchBooks C} := {
  books_count c ks : books_ok c → NoDup ks → (∀ k, k ∈ ks → booked c k) → Z.of_nat (length ks) <= booked_steps c;
  books_within c : books_ok c → booked_steps c <= booked_limit c;
  books_dispatch t c r c' : books_ok c → record_dispatch t c = (r, c') →
    books_kept c c' ∧ ∀ x, r = Ok x → booked c' (dispatch_key t);
  books_observation o c r c' : books_ok c → record_observation o c = (r, c') → books_kept c c';
  books_cancellation task plan reason c r c' : books_ok c → record_cancellation task plan reason c = (r, c') → books_kept c c';
  books_environment c c' : books_ok c → books_env c c' → books_kept c c'
}.

Lemma books_kept_refl {C} `{!DispatchBooks C} (c : C) : books_ok c → books_kept c c.
Proof. intros H. split_and!; [done|done|done|lia|done]. Qed.
Lemma books_kept_trans {C} `{!DispatchBooks C} (c1 c2 c3 : C) : books_kept c1 c2 → books_kept c2 c3 → books_kept c1 c3.
Proof. intros (_ & [A1 A2] & A3 & A4) (B0 & [B1 B2] & B3 & B4). split_and!; [done|congruence|congruence|lia|auto]. Qed.

(** ** Runs *)

Section Runs.
Context {HL : Hashlib} {B R C : Type} `{!SchedulerBudgetGuard B} `{!SchedulerRevocationGuard R}
  `{!SchedulerCheckpointRepository C} `{!DispatchBooks C} `{!DispatchLedger C} (cfg : SchedulerConfig).

Notation state := (ExecutionScheduler B R C).
Notation plan := (ec_plan cfg).

(** Operations in any order, with any outcome; the guards may come to hold anything, and others use
    the database. *)
Inductive paid_run (s : state) : list DispatchTicket → state → Prop :=
  | paid_refl : paid_run s [] s
  | paid_issue id a t s1 ts s2 : issue_dispatch cfg id a s = (Ok t, s1) → paid_run s1 ts s2 → paid_run s (t :: ts) s2
  | paid_refuse id a e s1 ts s2 : issue_dispatch cfg id a s = (Raise e, s1) → paid_run s1 ts s2 → paid_run s ts s2
  | paid_accept o r s1 ts s2 : accept_observation cfg o s = (r, s1) → paid_run s1 ts s2 → paid_run s ts s2
  | paid_cancel reason r s1 ts s2 : cancel cfg reason s = (r, s1) → paid_run s1 ts s2 → paid_run s ts s2
  | paid_environment b g c c' ts s2 : es_checkpoint_repository s = Some c → books_env c c' →
      paid_run (set_guards b g (Some c') s) ts s2 → paid_run s ts s2.

Lemma paid_run_steps s ts s' : paid_run s ts s' → steps cfg s ts s'.
Proof.
  induction 1 as [s|s id a t s1 ts s2 H _ IH|s id a e s1 ts s2 H _ IH|s o r s1 ts s2 H _ IH|s reason r s1 ts s2 H _ IH
    |s b g c c' ts s2 Hc He _ IH].
  - constructor.
  - apply (steps_step _ _ [t] _ ts _ (step_issue _ _ _ _ _ _ H) IH).
  - apply (steps_step _ _ [] _ ts _ (step_refuse _ _ _ _ _ _ H) IH).
  - apply (steps_step _ _ [] _ ts _ (step_accept _ _ _ _ _ H) IH).
  - apply (steps_step _ _ [] _ ts _ (step_cancel _ _ _ _ _ H) IH).
  - apply (steps_step _ _ [] _ ts _ (step_environment _ _ _ _ _) IH).
Qed.

Lemma repository_revalidate n : keeps es_checkpoint_repository (_revalidate_runtime (B := B) (R := R) (C := C) cfg n).
Proof.
  unfold _revalidate_runtime. apply keeps_bind; [done|]. intros rebound. apply keeps_bind; [done|]. intros _.
  apply keeps_bind; [by apply keeps_map_exn, keeps_zoom|]. intros _. apply keeps_iterM. intros cap.
  apply keeps_bind; [by apply keeps_map_exn, keeps_zoom|]. done.
Qed.

Lemma on_checkpoint_run {A} (m : ST C A) msg (s : state) c r s' : es_checkpoint_repository s = Some c →
  on_checkpoint m msg s = (r, s') → ∃ x c', m c = (x, c') ∧ es_checkpoint_repository s' = Some c'
    ∧ (r = Ok tt → ∃ a, x = Ok a).
Proof.
  intros Hc. unfold on_checkpoint. rewrite Hc. destruct (m c) as [x c']. intros [= <- <-]. exists x, c'. split_and!; [done..|].
  destruct x; [by eexists|done].
Qed.

Lemma issue_books id a (s s' : state) r c : es_checkpoint_repository s = Some c → books_ok c →
  issue_dispatch cfg id a s = (r, s') →
  ∃ c', es_checkpoint_repository s' = Some c' ∧ books_kept c c' ∧ ∀ t, r = Ok t → booked c' (dispatch_key t).
Proof.
  intros Hc Hok H. pose proof (books_kept_refl c Hok) as Hrefl. unfold issue_dispatch in H.
  apply st_bind_cases in H as [(e & [=] & _)|(s0 & s1 & [= <- <-] & H)].
  apply st_bind_cases in H as [(e & [_ ->]%st_lift_eq & ->)|([n deps] & s1 & [_ ->]%st_lift_eq & H)]; [by exists c|].
  apply st_bind_cases in H as [(e & Hm%(keeps_run _ _ _ _ _ (repository_revalidate n)) & ->)|([] & s1 &
    Hm%(keeps_run _ _ _ _ _ (repository_revalidate n)) & H)]; [exists c; split_and!; [congruence|done|done]|].
  rewrite <- Hm in Hc.
  assert (keeps es_checkpoint_repository (st_map_exn (budget_exn "SCHEDULER_BUDGET_RESERVATION_FAILED")
    (on_budget (B := B) (R := R) (C := C) (reserve 1 0 0 0)))) as Hk by (by apply keeps_map_exn, keeps_zoom).
  apply st_bind_cases in H as [(e & Hr%(keeps_run _ _ _ _ _ Hk) & ->)|([] & s2 & Hr%(keeps_run _ _ _ _ _ Hk) & H)];
    [exists c; split_and!; [congruence|done|done]|].
  rewrite <- Hr in Hc. apply st_bind_cases in H as [(e & [=] & _)|([] & s3 & [= <-] & H)].
  apply st_bind_cases in H as [(e & [=] & _)|(? & ? & [= <- <-] & H)].
  apply st_bind_cases in H as [(e & [_ ->]%st_lift_eq & ->)|(t & s4 & [_ ->]%st_lift_eq & H)]; [by exists c|].
  apply st_bind_cases in H as [(e & Hm' & ->)|([] & s5 & Hm' & H)];
    apply (on_checkpoint_run _ _ _ c) in Hm' as (x & c' & Hx & Hc' & Hres); try done;
    destruct (books_dispatch _ _ _ _ Hok Hx) as [Hkept Hb]; [by exists c'|].
  injection H as <- <-. exists c'. split_and!; [done|done|]. intros t' [= <-]. destruct (Hres eq_refl) as [a' ->]. by eapply Hb.
Qed.

Lemma accept_books o (s s' : state) r c : es_checkpoint_repository s = Some c → books_ok c →
  accept_observation cfg o s = (r, s') → ∃ c', es_checkpoint_repository s' = Some c' ∧ books_kept c c'.
Proof.
  intros Hc Hok H. pose proof (books_kept_refl c Hok) as Hrefl. unfold accept_observation in H.
  apply st_bind_cases in H as [(e & [=] & _)|(s0 & s1 & [= <- <-] & H)].
  apply st_bind_cases in H as [(e & [_ ->]%st_lift_eq & ->)|([] & s1 & [_ ->]%st_lift_eq & H)]; [by exists c|].
  apply st_bind_cases in H as [(e & Hm & ->)|([] & s2 & Hm & H)];
    apply (on_checkpoint_run _ _ _ c) in Hm as (x & c' & Hx & Hc' & _); try done;
    pose proof (books_observation _ _ _ _ Hok Hx) as Hkept; [by exists c'|].
  apply st_bind_cases in H as [(e & [=] & _)|([] & s3 & [= <-] & H)]. injection H as _ <-. by exists c'.
Qed.

Lemma cancel_books reason (s s' : state) r c : es_checkpoint_repository s = Some c → books_ok c →
  cancel cfg reason s = (r, s') → ∃ c', es_checkpoint_repository s' = Some c' ∧ books_kept c c'.
Proof.
  intros Hc Hok H. pose proof (books_kept_refl c Hok) as Hrefl. unfold cancel in H.
  apply st_bind_cases in H as [(e & [_ ->]%st_lift_eq & ->)|([] & s1 & [_ ->]%st_lift_eq & H)]; [by exists c|].
  apply st_bind_cases in H as [(e & [=] & _)|([] & s2 & [= <-] & H)].
  apply (on_checkpoint_run _ _ _ c) in H as (x & c' & Hx & Hc' & _); [|done]. exists c'. split; [done|].
  apply st_bind_cases in Hx as [(e & [_ ->]%st_lift_eq & ->)|(pf & c1 & [_ ->]%st_lift_eq & Hx)]; [done|].
  by eapply books_cancellation.
Qed.

(** The books after a run, and the dispatches of its tickets on them. *)
Lemma paid_run_books s ts s' : paid_run s ts s' → ∀ c, es_checkpoint_repository s = Some c → books_ok c →
  ∃ c', es_checkpoint_repository s' = Some c' ∧ books_kept c c' ∧ ∀ t, t ∈ ts → booked c' (dispatch_key t).
Proof.
  induction 1 as [s|s id a t s1 ts s2 H _ IH|s id a e s1 ts s2 H _ IH|s o r s1 ts s2 H _ IH|s reason r s1 ts s2 H _ IH
    |s b g c0 c1 ts s2 Hc0 He _ IH]; intros c Hc Hok.
  - exists c. split_and!; [done|by apply books_kept_refl|by intros t []%not_elem_of_nil].
  - destruct (issue_books _ _ _ _ _ _ Hc Hok H) as (c1 & Hc1 & Hk & Hb). destruct (IH _ Hc1 (proj1 Hk)) as (c2 & Hc2 & Hk2 & Hb2).
    exists c2. split_and!; [done|by eapply books_kept_trans|]. intros t' [->|Ht]%elem_of_cons; [|auto]. by apply Hk2, Hb.
  - destruct (issue_books _ _ _ _ _ _ Hc Hok H) as (c1 & Hc1 & Hk & _). destruct (IH _ Hc1 (proj1 Hk)) as (c2 & Hc2 & Hk2 & Hb2).
    exists c2. split_and!; [done|by eapply books_kept_trans|done].
  - destruct (accept_books _ _ _ _ _ Hc Hok H) as (c1 & Hc1 & Hk). destruct (IH _ Hc1 (proj1 Hk)) as (c2 & Hc2 & Hk2 & Hb2).
    exists c2. split_and!; [done|by eapply books_kept_trans|done].
  - destruct (cancel_books _ _ _ _ _ Hc Hok H) as (c1 & Hc1 & Hk). destruct (IH _ Hc1 (proj1 Hk)) as (c2 & Hc2 & Hk2 & Hb2).
    exists c2. split_and!; [done|by eapply books_kept_trans|done].
  - rewrite Hc0 in Hc. injection Hc as <-. pose proof (books_environment _ _ Hok He) as Hk.
    destruct (IH c1 eq_refl (proj1 Hk)) as (c2 & Hc2 & Hk2 & Hb2). exists c2. split_and!; [done|by eapply books_kept_trans|done].
Qed.

(** The tickets of a run are no more than the steps its task may use. *)
Lemma paid_run_within s ts s' c : plan_shape (xp_nodes plan) → scheduler_inv cfg s → paid_run s ts s' →
  es_checkpoint_repository s = Some c → books_ok c →
  ∃ c', es_checkpoint_repository s' = Some c' ∧ books_kept c c' ∧ NoDup (map dt_node_id ts)
    ∧ (∀ t, t ∈ ts → booked c' (dispatch_key t))
    ∧ Z.of_nat (length ts) <= booked_steps c' <= booked_limit c.
Proof.
  intros Hshape Hinv Hrun Hc Hok. destruct (paid_run_books _ _ _ Hrun c Hc Hok) as (c' & Hc' & Hk & Hb).
  destruct (steps_trace cfg Hshape _ _ _ (paid_run_steps _ _ _ Hrun) Hinv) as (_ & _ & Hn & _).
  exists c'. split_and!; [done..| |].
  - rewrite <- (length_map dispatch_key ts). destruct Hk as (Hok' & _). apply books_count; [done| |].
    + apply (NoDup_fmap_1 snd). change (NoDup (map snd (map dispatch_key ts))). rewrite map_map. exact Hn.
    + by intros k (t & -> & Ht)%list_elem_of_fmap; apply Hb.
  - destruct Hk as (Hok' & [_ <-] & _). by apply books_within.
Qed.
End Runs.

(** ** The repository of the dispatch budget keeps the promise *)

Section Repository.
Context {HL : Hashlib} {TZ : TokyoZone}.

Definition repository_task (c : AtomicRepository) : string := tb_task_id (dc_budget_state (ar_controller c)).
Definition repository_row (c : AtomicRepository) : option usage_row := ts_usage (rd_store (ar_db c)) !! repository_task c.

Lemma paid_nodes_key s task k : k ∈ paid_nodes s task ↔ (task, k) ∈ map reservation_key (reservations s).
Proof.
  unfold paid_nodes. rewrite list_elem_of_fmap. split.
  - intros ([task' k'] & -> & Hin). apply list_elem_of_In, filter_In in Hin as [Hin Heq]. bool_prop. cbn in *. subst task'.
    by apply list_elem_of_In.
  - intros Hin. exists (task, k). split; [done|]. apply list_elem_of_In, filter_In. split; [by apply list_elem_of_In|].
    by apply bool_decide_eq_true.
Qed.

(** The books: the reservations of the repository's task, on the row of the task. *)
#[export] Instance AtomicRepository_books : DispatchBooks AtomicRepository := {
  books_task := repository_task;
  books_ok c := ledger (ar_db c) ∧ ∃ row, repository_row c = Some row ∧ is_legacy row = false;
  booked c k := k ∈ paid_nodes (ar_db c) (repository_task c);
  booked_steps c := spent (ar_db c) (repository_task c);
  booked_limit c := match repository_row c with Some row => us_max_steps row | None => 0 end;
  books_env c c' := ar_lease c' = ar_lease c ∧ ar_controller c' = ar_controller c ∧ rtc runtime_step (ar_db c) (ar_db c')
}.

Lemma history_books c c' : books_ok c → ar_controller c' = ar_controller c → rtc runtime_step (ar_db c) (ar_db c') →
  books_kept c c'.
Proof.
  intros (Hl & row & Hrow & Hleg) Hc Hs. destruct (history_ledger _ _ Hs Hl) as [Hl' [Hg Hres]].
  unfold books_kept, books_ok, books_task, booked, booked_steps, booked_limit, AtomicRepository_books, repository_row, repository_task, spent in *.
  rewrite Hc. destruct (sg_usage _ _ Hg _ _ Hrow) as (row' & Hrow' & Hrr). rewrite Hrow, Hrow'.
  destruct (rg_fixed _ _ Hrr Hleg) as (Hleg' & Hmax & _). pose proof (rg_used _ _ Hrr). split_and!; [done|by exists row'|done|done|lia|].
  intros k. rewrite !paid_nodes_key. apply Hres.
Qed.

Lemma writers_books {A} (m : ST WriterDB A) c r c' : books_ok c → on_atomic (λ _ _, on_writers m) c = (r, c') → books_kept c c'.
Proof.
  intros Hok H. unfold on_atomic, st_zoom in H. destruct (on_writers m (ar_db c)) as [x db] eqn:E. injection H as <- <-.
  apply (history_books _ _ Hok); [done|]. apply rtc_once. cbn. unfold on_writers, st_zoom in E.
  destruct (m (rd_writers (ar_db c))) as [y w]. injection E as <- <-. apply rt_writers.
Qed.

(** A dispatch that was recorded is paid for. *)
Lemma recorded_paid l c t s x s' : Atomic_record_dispatch l c t s = (Ok x, s') →
  dispatch_key t ∈ paid_nodes s' (tb_task_id (dc_budget_state c)).
Proof.
  intros H. pose proof (atomic_dispatch_runs l c t s) as He. rewrite H in He. destruct He as (_ & _ & He).
  apply paid_nodes_key. destruct He as [_ (Htask & rows & r & Hrows & Hf & _)|rows row _ [Htask Hrows _ _ _ _]].
  - apply find_some in Hf as [Hin Hr]. apply reservation_for_key in Hr. apply list_elem_of_fmap. exists r.
    split; [rewrite Hr; unfold ticket_key; by rewrite Htask|]. unfold reservations. rewrite Hrows. by apply list_elem_of_In.
  - unfold reservations. cbn. rewrite map_app. apply elem_of_app. right. apply list_elem_of_singleton.
    unfold reservation_key, dispatch_key. cbn. by rewrite Htask.
Qed.

#[export] Instance AtomicRepository_ledger : DispatchLedger AtomicRepository.
Proof.
  split.
  - intros c ks (Hl & _) Hn Hin. pose proof (lg_paid _ Hl (repository_task c)) as Hp.
    pose proof (submseteq_length _ _ (NoDup_submseteq _ _ Hn Hin)). unfold booked_steps, AtomicRepository_books. lia.
  - intros c (Hl & row & Hrow & Hleg). unfold booked_steps, booked_limit, AtomicRepository_books, spent.
    fold (repository_row c). rewrite Hrow. pose proof (map_Forall_lookup_1 _ _ _ _ (lg_budgets _ Hl) Hrow) as [_ _ Hs].
    rewrite Hleg in Hs. lia.
  - intros t c r c' Hok H. cbn [record_dispatch AtomicBudgetRepository] in H. unfold on_atomic, st_zoom in H.
    destruct (Atomic_record_dispatch _ _ _ _) as [x db] eqn:E. injection H as <- <-. split.
    + apply (history_books _ _ Hok); [done|]. apply rtc_once. by eapply rt_dispatch.
    + intros y ->. by eapply recorded_paid.
  - intros o c r c' Hok H. exact (writers_books _ c r c' Hok H).
  - intros task plan reason c r c' Hok H. exact (writers_books _ c r c' Hok H).
  - intros c c' Hok (_ & Hc & Hs). by apply history_books.
Qed.
End Repository.
