(* ===== verification/RuntimeComposition.v ===== *)
(** * The runtime composition

    [execution_runtime_composition.py]: one runtime for one run - the writer lease claimed for it, the
    repository that fences and pays for its dispatches, and the scheduler over both. An object of the
    source is here its attributes; a test that two references name one object is a test that they agree. *)

From Stdlib Require Import Ascii.
From Stdlib Require String.
From S2P Require Import Prelude PyStr Hashlib PyFloat Json JsonFacts PyTime Validators.
From S2P Require Import TaskContract CapabilityAuthority WorkflowDesign ContextManifest TaskContext ExecutionPlan ExecutionObservation.
From S2P Require Import RuntimeScheduler ExecutionScheduler ExecutionCheckpoint TaskStore ExecutionBudget WriterLease WriterFence DispatchBudget.

Local Open Scope Z_scope.

Definition EXECUTION_RUNTIME_COMPOSITION_SCHEMA : string := "workspace-execution-runtime-composition/v1".

Definition rc_fail_if (b : bool) (msg : string) : result unit := raise_if b ExecutionRuntimeCompositionError msg.

#[export] Instance TaskExecutionBudgetState_eq_dec : EqDecision TaskExecutionBudgetState.
Proof. solve_decision. Defined.
#[export] Instance DispatchBudgetController_eq_dec : EqDecision DispatchBudgetController.
Proof. solve_decision. Defined.

(** The repository object: what its constructor is given, and the controller set afterwards. *)
Record RepositoryObject := { ro_writer_lease : RuntimeWriterLease; ro_controller : DispatchBudgetController }.
#[export] Instance RepositoryObject_eq_dec : EqDecision RepositoryObject.
Proof. solve_decision. Defined.

Definition repository_object (r : AtomicRepository) : RepositoryObject := {|
  ro_writer_lease := ar_lease r; ro_controller := ar_controller r |}.

Record WriterFencedExecutionRuntime (R : Type) := {
  wx_run_id : string;
  wx_writer_lease : RuntimeWriterLease;
  wx_checkpoint_repository : RepositoryObject;
  wx_scheduler : ExecutionScheduler DispatchBudgetPreflightGuard R AtomicRepository;
  wx_schema_version : string
}.
Arguments wx_run_id {R} _.
Arguments wx_writer_lease {R} _.
Arguments wx_checkpoint_repository {R} _.
Arguments wx_scheduler {R} _.
Arguments wx_schema_version {R} _.

Definition WriterFencedExecutionRuntime_validate {R} (x : WriterFencedExecutionRuntime R)
    : result (WriterFencedExecutionRuntime R) :=
  rc_fail_if (negb (bool_decide (wx_schema_version x = EXECUTION_RUNTIME_COMPOSITION_SCHEMA)))
    "EXECUTION_RUNTIME_COMPOSITION_SCHEMA_MISMATCH" ;;
  rc_fail_if (negb (bool_decide (wx_run_id x = wl_run_id (wx_writer_lease x))))
    "EXECUTION_RUNTIME_COMPOSITION_RUN_ID_MISMATCH" ;;
  RuntimeWriterLease_validate (wx_writer_lease x) ;;
  rc_fail_if (negb (bool_decide (wl_status (wx_writer_lease x) = "ACTIVE")))
    "EXECUTION_RUNTIME_COMPOSITION_WRITER_NOT_ACTIVE" ;;
  rc_fail_if (negb (bool_decide (ro_writer_lease (wx_checkpoint_repository x) = wx_writer_lease x)))
    "EXECUTION_RUNTIME_COMPOSITION_LEASE_BINDING_MISMATCH" ;;
  rc_fail_if (negb (bool_decide (repository_object <$> es_checkpoint_repository (wx_scheduler x)
                                 = Some (wx_checkpoint_repository x))))
    "EXECUTION_RUNTIME_COMPOSITION_SCHEDULER_REPOSITORY_MISMATCH" ;;
  rc_fail_if (negb (bool_decide (pg_controller (es_budget_guard (wx_scheduler x))
                                 = ro_controller (wx_checkpoint_repository x))))
    "EXECUTION_RUNTIME_COMPOSITION_BUDGET_CONTROLLER_MISMATCH" ;;
  Ok x.

(** [except <cls> as exc: raise ...(f"{message}:{exc}")]. *)
Definition with_cause (cls : exn_class) (message : string) (e : exn) : exn :=
  if is_class cls (exn_cls e) then Exn ExecutionRuntimeCompositionError (message +:+ ":" +:+ exn_msg e) else e.
Definition without_cause (cls : exn_class) (message : string) (e : exn) : exn :=
  if is_class cls (exn_cls e) then Exn ExecutionRuntimeCompositionError message else e.

Section Compose.
Context {HL : Hashlib} {TZ : TokyoZone} {R : Type} `{!SchedulerRevocationGuard R}.

(** The task store with the path of its database, resolved, and the same of the budget's store. *)
Variables (store_path budget_path : string).
Variables (run_id : string) (task_context : TaskContext) (plan : ExecutionPlan) (parent_authority : TaskCapabilityAuthority)
  (budget_guard : TaskExecutionBudgetState) (revocation_guard : option R) (max_concurrency : Z)
  (checkpoint_reapproved_nodes : gset string).

Definition runtime_config : SchedulerConfig := {|
  ec_task_context := task_context; ec_plan := plan; ec_parent_authority := parent_authority;
  ec_max_concurrency := max_concurrency |}.

(** Everything that is checked before a lease is claimed. *)
Definition admission : result (R * DispatchBudgetController) :=
  rc_fail_if (is_empty run_id || negb (bool_decide (run_id = strip run_id))) "EXECUTION_RUNTIME_RUN_ID_REQUIRED" ;;
  guard ← match revocation_guard with
          | Some guard => Ok guard
          | None => raise ExecutionRuntimeCompositionError "EXECUTION_RUNTIME_REVOCATION_GUARD_REQUIRED"
          end;
  rc_fail_if (negb ((1 <=? max_concurrency) && (max_concurrency <=? MAX_SCHEDULER_CONCURRENCY)))
    "EXECUTION_RUNTIME_MAX_CONCURRENCY_INVALID" ;;
  rc_fail_if (existsb (λ id, is_empty (strip id)) (elements checkpoint_reapproved_nodes))
    "EXECUTION_RUNTIME_REAPPROVED_NODE_INVALID" ;;
  reraise (RuntimeScheduler_evaluate task_context plan parent_authority [] []) (is_class RuntimeSchedulerError)
    ExecutionRuntimeCompositionError "EXECUTION_RUNTIME_CANONICAL_ADMISSION_FAILED" ;;
  rc_fail_if (negb (bool_decide (tb_task_id budget_guard = xp_task_id plan))) "EXECUTION_RUNTIME_BUDGET_TASK_SCOPE_MISMATCH" ;;
  rc_fail_if (negb (bool_decide (budget_path = store_path))) "EXECUTION_RUNTIME_BUDGET_STORE_MISMATCH" ;;
  controller ← catch (DispatchBudgetController_init budget_guard store_path budget_path)
                 (λ e, is_class ExecutionDispatchBudgetError (exn_cls e))
                 (λ e, Raise (with_cause ExecutionDispatchBudgetError "EXECUTION_RUNTIME_DISPATCH_BUDGET_BINDING_FAILED" e));
  Ok (guard, controller).

(** The scheduler over the repository of a lease; what the constructor did to the database stays. *)
Definition compose_scheduler (guard : R) (controller : DispatchBudgetController) (lease : RuntimeWriterLease)
    : ST RuntimeDB (ExecutionScheduler DispatchBudgetPreflightGuard R AtomicRepository) := λ db,
  let '(r, s) := ExecutionScheduler_init runtime_config checkpoint_reapproved_nodes
    (start_state {| pg_controller := controller; pg_store := rd_store db |} guard
       (Some {| ar_lease := lease; ar_controller := controller; ar_db := db |})) in
  (match r with
   | Ok _ => Ok s
   | Raise e => Raise (without_cause ExecutionSchedulerError "EXECUTION_RUNTIME_SCHEDULER_COMPOSITION_FAILED" e)
   end,
   match es_checkpoint_repository s with Some c => ar_db c | None => db end).

Definition compose_writer_fenced_execution_runtime : ST RuntimeDB (WriterFencedExecutionRuntime R) :=
  '(guard, controller) ← st_lift admission;
  on_writers Leases_initialize ;;
  plan_fingerprint ← st_lift (ExecutionPlan_fingerprint plan);
  writer_lease ← st_map_exn (with_cause RuntimeWriterLeaseError "EXECUTION_RUNTIME_WRITER_CLAIM_FAILED")
                   (on_writers (claim (xp_task_id plan) plan_fingerprint run_id None));
  st_lift (WriterFenced_init writer_lease) ;;
  st_lift (DispatchBudgetController_init budget_guard store_path budget_path) ;;
  scheduler ← compose_scheduler guard controller writer_lease;
  st_lift (WriterFencedExecutionRuntime_validate {|
    wx_run_id := run_id; wx_writer_lease := writer_lease;
    wx_checkpoint_repository := {| ro_writer_lease := writer_lease; ro_controller := controller |};
    wx_scheduler := scheduler; wx_schema_version := EXECUTION_RUNTIME_COMPOSITION_SCHEMA |}).
End Compose.
