(* ===== verification/CompositionFacts.v ===== *)
(** * The composed runtime

    What composing a runtime does to the writer leases, whether it succeeds or fails, and that no run of a
    composed runtime, with anyone else at work on the same database, spends more than the task's budget. *)

From Stdlib Require Import Ascii.
From Stdlib Require String.
From S2P Require Import Prelude PyStr Hashlib PyFloat Json JsonFacts PyTime Validators TaskContract.
From S2P Require Import CapabilityAuthority AuthorityFacts WorkflowDesign ContextManifest TaskContext.
From S2P Require Import ExecutionPlan PlanFacts ExecutionObservation ObservationFacts RuntimeScheduler ReadinessFacts.
From S2P Require Import ExecutionScheduler SchedulerFacts RestoreFacts ExecutionCheckpoint CheckpointFacts CheckpointLog.
From S2P Require Import TaskStore ExecutionBudget CapabilityRevocation LinkedBudget BudgetFacts GovernedRuns.
From S2P Require Import WriterLease LeaseFacts WriterFence DispatchBudget DispatchFacts PaidRuns RuntimeComposition.

Local Open Scope Z_scope.

(** ** The constructor and its repository *)

Section Init.
Context {HL : Hashlib} {B R C : Type} `{!SchedulerBudgetGuard B} `{!SchedulerRevocationGuard R}
  `{!SchedulerCheckpointRepository C} (cfg : SchedulerConfig).

(** What the constructor asks of a repository. *)
Definition read_back : ST C RecoveredExecutionState :=
  initialize ;; plan_fingerprint ← st_lift (ExecutionPlan_fingerprint (ec_plan cfg)); load (xp_task_id (ec_plan cfg)) plan_fingerprint.

Lemma restore_state_guards reapproved rx (s s' : ExecutionScheduler B R C) : restore_state cfg reapproved rx s = Ok s' →
  es_checkpoint_repository s' = es_checkpoint_repository s ∧ es_budget_guard s' = es_budget_guard s.
Proof.
  intros H. unfold restore_state, es_fail_if in H. apply bind_ok_iff in H as (pf & _ & H).
  rewrite !guard_bind_ok in H. destruct H as (_ & _ & H). apply bind_ok_iff in H as (r & _ & H). cbv zeta in H.
  rewrite !guard_bind_ok in H. destruct H as (_ & _ & H). apply bind_ok_iff in H as (obs & _ & H).
  apply unit_bind_ok in H as [_ H]. apply guard_bind_ok in H as [_ H]. apply bind_ok_iff in H as (s2 & Hs2 & H).
  apply bind_ok_iff in H as (? & _ & [= <-]). destruct (rx_cancellation_reason rx); [|by injection Hs2 as <-].
  by apply guard_bind_ok in Hs2 as [_ [= <-]].
Qed.

Lemma init_repository reapproved (b : B) (g : R) c r s :
  ExecutionScheduler_init cfg reapproved (start_state b g (Some c)) = (r, s) →
  ∃ c', es_checkpoint_repository s = Some c' ∧ es_budget_guard s = b
    ∧ match r with Ok _ => ∃ rx, read_back c = (Ok rx, c') | Raise _ => c' = c ∨ ∃ x, read_back c = (x, c') end.
Proof.
  unfold ExecutionScheduler_init. intros [(e & [=] & _)|(? & ? & [= <- <-] & H)]%st_bind_cases.
  apply st_bind_cases in H as [(e & [_ ->]%st_lift_eq & ->)|([] & s1 & [_ ->]%st_lift_eq & H)]; [exists c; auto|].
  apply st_bind_cases in H as [(e & [=] & _)|([] & s1 & [= <-] & H)].
  unfold _restore_checkpoint in H. cbn [es_checkpoint_repository es_budget_guard es_revocation_guard start_state] in H.
  destruct (es_fail_if _ _); [|injection H as <- <-; exists c; auto].
  destruct ((initialize ;; pf ← st_lift (ExecutionPlan_fingerprint (ec_plan cfg)); load (xp_task_id (ec_plan cfg)) pf) c)
    as [x c'] eqn:Ex. exists c'. destruct x as [rx|e].
  - destruct (restore_state (B := B) _ _ _ _) as [s2|e] eqn:E.
    + injection H as <- <-. apply restore_state_guards in E as [-> ->]. split_and!; [done|done|by exists rx].
    + injection H as <- <-. split_and!; [done|done|right; by eexists].
  - injection H as <- <-. split_and!; [done|done|right; by eexists].
Qed.
End Init.

(** ** What composing does to the leases *)

(** The part of the writers' tables a book of leases stands for. *)
Definition lease_view (s : WriterDB) :=
  (wd_leases s, cs_tasks (wd_checkpoints s), cs_now (wd_checkpoints s), cs_locked (wd_checkpoints s)).

Lemma books_view `{Hashlib} s s' b : lease_view s' = lease_view s → books s b → books s' b.
Proof. unfold lease_view. intros [= E1 E2 E3 E4] [B1 B2 B3 B4]. constructor; [congruence..|by rewrite E1]. Qed.

Section Leases.
Context {HL : Hashlib}.

(** The lease a claim of a run ends with. *)
Definition claimed (held : option RuntimeWriterLease) (run : string) (l : RuntimeWriterLease) : Prop :=
  wl_run_id l = run ∧ wl_status l = "ACTIVE"
  ∧ match held with
    | None => wl_generation l = 1
    | Some h => if bool_decide (wl_status h = "ACTIVE") && bool_decide (wl_run_id h = run) then l = h
                else wl_generation l = wl_generation h + 1
    end.

Lemma claim_leases task plan run b r b' : lease_claim task plan run None b = (r, b') →
  match r with
  | Ok l => wb_leases b' = <[(task, plan) := l]> (wb_leases b) ∧ claimed (wb_leases b !! (task, plan)) run l
  | Raise _ => b' = b
  end.
Proof.
  cbn [lease_claim BookRepository]. intros [(e & [_ ->]%st_lift_eq & ->)|(? & ? & [_ ->]%st_lift_eq & H)]%st_bind_cases; [done|].
  apply st_bind_cases in H as [(e & [_ ->]%st_lift_eq & ->)|(? & ? & [_ ->]%st_lift_eq & H)]; [done|].
  apply st_bind_cases in H as [(e & [_ ->]%st_lift_eq & ->)|(? & ? & [_ ->]%st_lift_eq & H)]; [done|].
  apply st_bind_cases in H as [(e & [=] & _)|(? & ? & [= <- <-] & H)].
  apply st_bind_cases in H as [(e & [_ ->]%st_lift_eq & ->)|(ts & ? & [_ ->]%st_lift_eq & H)]; [done|].
  unfold book_transaction in H. destruct (wb_locked b); [by injection H as <- <-|].
  destruct (book_require_task task b) as [[]|e]; cbn [mbind result_bind] in H; [|by injection H as <- <-].
  destruct (book_claim task plan run ts (wb_leases b)) as [[l m]|e] eqn:E; injection H as <- <-; [|done].
  cbn [wb_leases]. unfold book_claim in E. unfold claimed. destruct (wb_leases b !! (task, plan)) as [h|] eqn:Eh.
  - destruct (_ && _) eqn:Eb.
    + injection E as <- <-. bool_prop. split; [symmetry; by apply insert_id|done].
    + unfold store_in_book in E. apply bind_ok_iff in E as (? & _ & E). apply bind_ok_iff in E as (? & _ & [= <- <-]). done.
  - unfold store_in_book in E. apply bind_ok_iff in E as (? & _ & E). apply bind_ok_iff in E as (? & _ & [= <- <-]). done.
Qed.

Lemma view_checkpoints {A} (m : ST CheckpointStore A) :
  keeps (λ c, (cs_tasks c, cs_now c, cs_locked c)) m → keeps lease_view (on_checkpoints m).
Proof.
  intros H s. specialize (H (wd_checkpoints s)). unfold on_checkpoints, st_zoom. destruct (m _) as [r c]. cbn in *.
  injection H as E1 E2 E3. unfold lease_view. cbn. by rewrite E1, E2, E3.
Qed.
Lemma keeps_from_id {S V A} (view : S → V) (m : ST S A) : keeps id m → keeps view m.
Proof. intros H s. specialize (H s). unfold id in H. by rewrite H. Qed.

(** The check outside a transaction is the same read. *)
Lemma current_writer_view l : keeps id (_require_current_writer l).
Proof. exact (current_writer_keeps l). Qed.

Lemma load_view l task plan : keeps id (WriterFenced_load l task plan).
Proof.
  unfold WriterFenced_load. apply keeps_bind; [apply keeps_lift|]. intros _. apply keeps_bind; [apply current_writer_view|].
  intros _. apply keeps_bind.
  - apply on_checkpoints_keeps. unfold CheckpointRepository_load, verify_event_chain. apply keeps_bind; [apply keeps_lift|]. intros _.
    apply keeps_bind; [apply keeps_bind; [apply read_table_keeps|intros ?; apply keeps_lift]|]. intros valid.
    apply keeps_bind; [apply keeps_lift|]. intros _. apply keeps_bind; [apply checkpoint_task_keeps|]. intros _.
    do 3 (apply keeps_bind; [apply read_table_keeps|]; intros ?). apply keeps_lift.
  - intros state. apply keeps_bind; [|intros bound; apply keeps_bind; [apply keeps_lift|intros _; apply keeps_ret]].
    unfold verify_writer_fence_bindings. apply keeps_bind.
    + apply on_checkpoints_keeps. unfold verify_event_chain. apply keeps_bind; [apply read_table_keeps|intros ?; apply keeps_lift].
    + intros valid. destruct (negb valid); [apply keeps_ret|].
      do 3 (apply keeps_bind; [apply on_checkpoints_keeps, read_table_keeps|]; intros ?). apply keeps_lift.
Qed.

(** Creating the tables leaves a book that is there as it is. *)
Lemma initialize_view l s b : books s b → lease_view (WriterFenced_initialize l s).2 = lease_view s.
Proof.
  intros Hb. unfold WriterFenced_initialize.
  assert (keeps lease_view (on_checkpoints CheckpointRepository_initialize)) as Hk.
  { apply view_checkpoints. intros c. unfold CheckpointRepository_initialize. destruct (cs_tables c); [done|]. destruct (cs_locked c) eqn:El; cbn; by rewrite ?El. }
  unfold mbind at 1, st_bind at 1. specialize (Hk s). destruct (on_checkpoints _ s) as [[[]|e] s1]; [|done]. cbn in Hk.
  pose proof (books_view _ _ _ Hk Hb) as Hb1. destruct (bk_table _ _ Hb1) as (t & Ht & _).
  unfold mbind, st_bind, Leases_initialize. rewrite Ht. by rewrite (keeps_from_id lease_view _ (current_writer_view l)).
Qed.
End Leases.

(** ** Composing *)

Section Compose.
Context {HL : Hashlib} {TZ : TokyoZone} {R : Type} `{!SchedulerRevocationGuard R}.

(** A computation whose every outcome is one some operations lead to. *)
Definition advances {A} (m : ST RuntimeDB A) : Prop := ∀ db, rtc runtime_step db (m db).2.

Lemma advances_lift {A} (m : result A) : advances (st_lift m).
Proof. intros db. apply rtc_refl. Qed.
Lemma advances_bind {A B} (m : ST RuntimeDB A) (k : A → ST RuntimeDB B) :
  advances m → (∀ a, advances (k a)) → advances (x ← m; k x).
Proof.
  intros Hm Hk db. unfold mbind, st_bind. specialize (Hm db). destruct (m db) as [[a|e] db1]; [|done]. etrans; [exact Hm|apply Hk].
Qed.
Lemma advances_writers {A} (m : ST WriterDB A) : advances (on_writers m).
Proof. intros db. unfold on_writers, st_zoom. destruct (m _) as [r w]. apply rtc_once, rt_writers. Qed.
Lemma advances_map_exn {A} f (m : ST RuntimeDB A) : advances m → advances (st_map_exn f m).
Proof. intros Hm db. specialize (Hm db). unfold st_map_exn. by destruct (m db) as [[a|e] db1]. Qed.
Lemma advances_initialize : advances Controller_initialize.
Proof. intros db. apply rtc_once. destruct (Controller_initialize db) as [r db'] eqn:E. by eapply rt_initialize. Qed.

Lemma on_atomic_run {A} (m : RuntimeWriterLease → DispatchBudgetController → ST RuntimeDB A) c r c' :
  on_atomic m c = (r, c') → m (ar_lease c) (ar_controller c) (ar_db c) = (r, ar_db c')
    ∧ ar_lease c' = ar_lease c ∧ ar_controller c' = ar_controller c.
Proof. unfold on_atomic, st_zoom. destruct (m _ _ _) as [x db]. by intros [= <- <-]. Qed.

(** What the constructor does to the database of the repository. *)
Lemma read_back_atomic cfg (c : AtomicRepository) r c' : read_back cfg c = (r, c') →
  rtc runtime_step (ar_db c) (ar_db c') ∧ ar_lease c' = ar_lease c ∧ ar_controller c' = ar_controller c
  ∧ ∀ b, books (rd_writers (ar_db c)) b → books (rd_writers (ar_db c')) b.
Proof.
  unfold read_back. intros H.
  assert (∀ r c1, initialize c = (r, c1) → rtc runtime_step (ar_db c) (ar_db c1) ∧ ar_lease c1 = ar_lease c
    ∧ ar_controller c1 = ar_controller c ∧ ∀ b, books (rd_writers (ar_db c)) b → books (rd_writers (ar_db c1)) b) as Hinit.
  { intros r1 c1 Hi. apply (on_atomic_run (λ l _, Atomic_initialize l)) in Hi as (Hi & Hl & Hc). split_and!; [|done|done|].
    - assert (advances (Atomic_initialize (ar_lease c))) as Ha.
      { apply advances_bind; [apply advances_writers|intros _; apply advances_initialize]. }
      specialize (Ha (ar_db c)). by rewrite Hi in Ha.
    - intros b Hb. unfold Atomic_initialize in Hi. pose proof (initialize_view (ar_lease c) _ _ Hb) as Hv.
      destruct (WriterFenced_initialize (ar_lease c) (rd_writers (ar_db c))) as [x w] eqn:Ew. cbn in Hv.
      apply (books_view _ _ _ Hv) in Hb. pose proof (on_writers_run _ _ _ _ Ew) as Hw.
      apply st_bind_cases in Hi as [(e & Hm & ->)|([] & db1 & Hm & Hi)]; rewrite Hw in Hm; injection Hm as ? Hdb.
      + by rewrite <- Hdb.
      + subst db1. unfold Controller_initialize in Hi. cbn [set_writers rd_reservations] in Hi.
        destruct (rd_reservations _); [injection Hi as _ <-; done|]. destruct (rd_locked _); injection Hi as _ <-; done. }
  apply st_bind_cases in H as [(e & Hi & ->)|([] & c1 & Hi & H)]; apply Hinit in Hi as (H1 & H2 & H3 & H4); [done|].
  apply st_bind_cases in H as [(e & [_ ->]%st_lift_eq & ->)|(fp & ? & [_ ->]%st_lift_eq & H)]; [done|].
  apply (on_atomic_run (λ l _, on_writers (WriterFenced_load l (xp_task_id (ec_plan cfg)) fp))) in H as (H & Hl & Hc). unfold on_writers, st_zoom in H. cbv beta in H.
  pose proof (load_view (ar_lease c1) (xp_task_id (ec_plan cfg)) fp (rd_writers (ar_db c1))) as Hv.
  destruct (WriterFenced_load _ _ _ _) as [x w]. unfold id in Hv. cbn in Hv. subst w. rewrite set_writers_same in H.
  injection H as _ H. rewrite <- H. split_and!; [done|congruence|congruence|done].
Qed.

Context (store_path budget_path run_id : string) (task_context : TaskContext) (plan : ExecutionPlan)
  (parent_authority : TaskCapabilityAuthority) (budget : TaskExecutionBudgetState) (guard : option R) (max_concurrency : Z)
  (reapproved : gset string).

Notation cfg := (runtime_config task_context plan parent_authority max_concurrency).
Notation compose := (compose_writer_fenced_execution_runtime store_path budget_path run_id task_context plan parent_authority
  budget guard max_concurrency reapproved).

Lemma compose_scheduler_run (g : R) ctl l db r db' :
  compose_scheduler task_context plan parent_authority max_concurrency reapproved g ctl l db = (r, db') →
  rtc runtime_step db db' ∧ (∀ b, books (rd_writers db) b → books (rd_writers db') b)
  ∧ ∀ s, r = Ok s → ∃ s0 c, ExecutionScheduler_init cfg reapproved s0 = (Ok tt, s) ∧ es_checkpoint_repository s = Some c
      ∧ ar_lease c = l ∧ ar_controller c = ctl ∧ ar_db c = db'.
Proof.
  unfold compose_scheduler. destruct (ExecutionScheduler_init _ _ _) as [x s] eqn:E. intros [= <- <-].
  pose proof E as Hi. apply init_repository in Hi as (c & Hc & _ & Hx). rewrite Hc.
  assert (rtc runtime_step db (ar_db c) ∧ (∀ b, books (rd_writers db) b → books (rd_writers (ar_db c)) b)
    ∧ ar_lease c = l ∧ ar_controller c = ctl) as (H1 & H2 & H3 & H4).
  { destruct x as [[]|e]; [destruct Hx as [rx Hx]|destruct Hx as [->|[x Hx]]];
      [apply read_back_atomic in Hx as (A1 & A2 & A3 & A4); by split_and!|by split_and!; [apply rtc_refl|..]|
       apply read_back_atomic in Hx as (A1 & A2 & A3 & A4); by split_and!]. }
  split_and!; [done|done|]. intros s' Hs. destruct x as [[]|e]; [|done]. injection Hs as <-. by eexists _, c.
Qed.

Lemma admission_task g ctl : admission store_path budget_path run_id task_context plan parent_authority budget guard
    max_concurrency reapproved = Ok (g, ctl) → tb_task_id (dc_budget_state ctl) = xp_task_id plan.
Proof.
  unfold admission, rc_fail_if. intros H. apply guard_bind_ok in H as [_ H]. apply bind_ok_iff in H as (? & _ & H).
  do 2 apply guard_bind_ok in H as [_ H]. apply bind_ok_iff in H as (? & _ & H). apply guard_bind_ok in H as [Ht H].
  apply guard_bind_ok in H as [_ H]. apply bind_ok_iff in H as (c & Hc & H). injection H as -> ->. bool_prop.
  unfold DispatchBudgetController_init, db_fail_if in Hc. by destruct (negb _); [|injection Hc as <-].
Qed.

Lemma runtime_validate_id (x y : WriterFencedExecutionRuntime R) : WriterFencedExecutionRuntime_validate x = Ok y → y = x.
Proof.
  unfold WriterFencedExecutionRuntime_validate, rc_fail_if. intros H. do 2 apply guard_bind_ok in H as [_ H].
  apply bind_ok_iff in H as (? & _ & H). do 4 apply guard_bind_ok in H as [_ H]. by injection H.
Qed.

(** A runtime whose scheduler came out of its constructor over the repository of a lease. *)
Record runtime_over (l : RuntimeWriterLease) (db : RuntimeDB) (x : WriterFencedExecutionRuntime R) : Prop := {
  ov_lease : wx_writer_lease x = l;
  ov_run : wx_run_id x = run_id;
  ov_init : ∃ s0, ExecutionScheduler_init cfg reapproved s0 = (Ok tt, wx_scheduler x);
  ov_repository : ∃ c, es_checkpoint_repository (wx_scheduler x) = Some c ∧ ar_lease c = l ∧ ar_db c = db
    ∧ repository_task c = xp_task_id plan
}.

(** The leases after composing: as before, or with the lease of the run for the task and plan. *)
Definition leases_after (b : WriterBook) (r : result (WriterFencedExecutionRuntime R)) (db' : RuntimeDB) : Prop :=
  ∃ b', books (rd_writers db') b'
  ∧ ((wb_leases b' = wb_leases b ∧ ∃ e, r = Raise e)
     ∨ ∃ fp l, ExecutionPlan_fingerprint plan = Ok fp ∧ wb_leases b' = <[(xp_task_id plan, fp) := l]> (wb_leases b)
         ∧ claimed (wb_leases b !! (xp_task_id plan, fp)) run_id l
         ∧ match r with Ok x => runtime_over l db' x | Raise _ => True end).

Lemma leases_kept b e db : books (rd_writers db) b → leases_after b (Raise e) db.
Proof. intros Hb. exists b. split; [done|]. left. eauto. Qed.

(** From the claim on. *)
Lemma compose_claimed g ctl fp l db r db' b b1 : tb_task_id (dc_budget_state ctl) = xp_task_id plan →
  ExecutionPlan_fingerprint plan = Ok fp → books (rd_writers db) b1 →
  wb_leases b1 = <[(xp_task_id plan, fp) := l]> (wb_leases b) → claimed (wb_leases b !! (xp_task_id plan, fp)) run_id l →
  (st_lift (WriterFenced_init l) ;; st_lift (DispatchBudgetController_init budget store_path budget_path) ;;
   s ← compose_scheduler task_context plan parent_authority max_concurrency reapproved g ctl l;
   st_lift (WriterFencedExecutionRuntime_validate {|
     wx_run_id := run_id; wx_writer_lease := l;
     wx_checkpoint_repository := {| ro_writer_lease := l; ro_controller := ctl |};
     wx_scheduler := s; wx_schema_version := EXECUTION_RUNTIME_COMPOSITION_SCHEMA |})) db = (r, db') →
  rtc runtime_step db db' ∧ leases_after b r db'.
Proof.
  intros Htask Hfp Hb Hleases Hclaimed H.
  assert (∀ e, leases_after b (Raise e) db) as Hstop.
  { intros e. exists b1. split; [done|]. right. by exists fp, l. }
  apply st_bind_cases in H as [(e & [_ ->]%st_lift_eq & ->)|([] & ? & [_ ->]%st_lift_eq & H)]; [by split; [apply rtc_refl|]|].
  apply st_bind_cases in H as [(e & [_ ->]%st_lift_eq & ->)|(ctl' & ? & [_ ->]%st_lift_eq & H)]; [by split; [apply rtc_refl|]|].
  apply st_bind_cases in H as [(e & Hm & ->)|(s & db2 & Hm & H)]; apply compose_scheduler_run in Hm as (Hadv & Hbooks & Hs).
  - split; [done|]. exists b1. split; [by apply Hbooks|]. right. by exists fp, l.
  - apply st_lift_eq in H as [Hval ->]. split; [done|]. exists b1. split; [by apply Hbooks|]. right. exists fp, l.
    split_and!; [done..|]. destruct r as [x|e]; [|done]. apply runtime_validate_id in Hval as ->.
    destruct (Hs s eq_refl) as (s0 & c & Hinit & Hc & Hl & Hctl & Hdb). constructor; [done|done|by exists s0|].
    exists c. split_and!; [done..|]. unfold repository_task. by rewrite Hctl.
Qed.

(** What composing does, whatever comes of it. *)
Lemma compose_run db r db' b : compose db = (r, db') → books (rd_writers db) b → rtc runtime_step db db' ∧ leases_after b r db'.
Proof.
  unfold compose_writer_fenced_execution_runtime. intros H Hb.
  apply st_bind_cases in H as [(e & [_ ->]%st_lift_eq & ->)|([g ctl] & ? & [Htask%admission_task ->]%st_lift_eq & H)];
    [by split; [apply rtc_refl|apply leases_kept]|].
  destruct (bk_table _ _ Hb) as (t & Ht & _).
  assert (on_writers Leases_initialize db = (Ok tt, db)) as Hli.
  { rewrite (on_writers_run _ _ (Ok tt) (rd_writers db)); [by rewrite set_writers_same|]. unfold Leases_initialize. by rewrite Ht. }
  rewrite (st_bind_run _ _ _ _ _ Hli) in H.
  apply st_bind_cases in H as [(e & [_ ->]%st_lift_eq & ->)|(fp & ? & [Hfp ->]%st_lift_eq & H)];
    [by split; [apply rtc_refl|apply leases_kept]|].
  destruct (claim_sim (xp_task_id plan) fp run_id None _ _ Hb) as (Hres & Hb1 & _).
  destruct (lease_claim (xp_task_id plan) fp run_id None b) as [r1 b1] eqn:Ebook. cbn [fst snd] in Hres, Hb1.
  destruct (claim (xp_task_id plan) fp run_id None (rd_writers db)) as [r2 w1] eqn:Eclaim. cbn [fst snd] in Hres, Hb1. subst r2.
  apply claim_leases in Ebook. pose proof (on_writers_run _ _ _ _ Eclaim) as Hw.
  pose proof (advances_writers (claim (xp_task_id plan) fp run_id None) db) as Hadv.
  rewrite Hw in Hadv. cbn [snd] in Hadv. set (db1 := set_writers w1 db) in *.
  apply st_bind_cases in H as [(e & Hm & ->)|(l & db1' & Hm & H)]; unfold st_map_exn in Hm; rewrite Hw in Hm;
    destruct r1 as [l1|e1]; try done.
  - injection Hm as _ <-. subst b1. split; [done|]. by apply leases_kept.
  - injection Hm as -> <-. destruct Ebook as [Hleases Hclaimed].
    destruct (compose_claimed g ctl fp l db1 r db' b b1) as [Hadv2 Hafter]; [done..|]. split; [by etrans|done].
Qed.
End Compose.

(** ** The guarantees *)

Section Guarantees.
Context {HL : Hashlib} {TZ : TokyoZone} {R : Type} `{!SchedulerRevocationGuard R}.
Context (store_path budget_path run_id : string) (task_context : TaskContext) (plan : ExecutionPlan)
  (parent_authority : TaskCapabilityAuthority) (budget : TaskExecutionBudgetState) (guard : option R) (max_concurrency : Z)
  (reapproved : gset string).

Notation cfg := (runtime_config task_context plan parent_authority max_concurrency).
Notation compose := (compose_writer_fenced_execution_runtime store_path budget_path run_id task_context plan parent_authority
  budget guard max_concurrency reapproved).

(** C2: the budget of a composed runtime. A task's budget is bound from its contract and a runtime composed
    over it. Then in any run of its scheduler - whatever its guards come to hold, whatever is refused, while
    others dispatch, report, claim leases, reserve budget and write to the same database - the tickets name
    distinct nodes, each has a reservation in the database with a step on the task's row, and together they
    are at most the steps used there, which never pass the contract's [max_steps]. *)
Theorem composed_run_within_budget s0 db b x db' ts (s' : ExecutionScheduler DispatchBudgetPreflightGuard R AtomicRepository)
    (Hok : budgets_ok s0) (Hbind : from_bound_contract (xp_task_id plan) s0 = (Ok budget, rd_store db))
    (Hledger : ledger db) (Hbooks : books (rd_writers db) b) (Hcompose : compose db = (Ok x, db'))
    (Hrun : paid_run cfg (wx_scheduler x) ts s') :
  ∃ limits c row, _bound_execution_limits (xp_task_id plan) s0 = Ok limits
    ∧ es_checkpoint_repository s' = Some c ∧ ts_usage (rd_store (ar_db c)) !! xp_task_id plan = Some row
    ∧ NoDup (map dt_node_id ts) ∧ (∀ t, t ∈ ts → dispatch_key t ∈ paid_nodes (ar_db c) (xp_task_id plan))
    ∧ Z.of_nat (length ts) <= us_steps_used row <= el_max_steps limits.
Proof.
  apply from_contract_row in Hbind as (_ & l & row & Hl & _ & Hrow & Hleg & Hmax); [|done].
  destruct (compose_run _ _ _ _ _ _ _ _ _ _ _ _ _ _ Hcompose Hbooks) as (Hsteps & b' & _ & [[_ [e [=]]]|(fp & l' & _ & _ & _ & Hover)]).
  destruct Hover as [_ _ [s1 Hinit] (c & Hc & _ & Hdb & Htask)]. subst db'.
  pose proof (init_admitted _ _ _ _ Hinit) as [Had _]. pose proof (plan_valid_shape _ _ (ad_plan _ _ _ Had)) as Hshape.
  destruct (history_ledger _ _ Hsteps Hledger) as [Hl' Hg]. destruct (sg_usage _ _ (gw_store _ _ Hg) _ _ Hrow) as (row1 & Hrow1 & Hrr).
  destruct (rg_fixed _ _ Hrr Hleg) as (Hleg1 & Hmax1 & _).
  assert (books_ok c) as Hbc by (split; [done|exists row1; unfold repository_row; by rewrite Htask]).
  destruct (paid_run_within cfg _ _ _ c Hshape (init_invariant _ _ _ _ Hinit) Hrun Hc Hbc) as (c' & Hc' & Hk & Hn & Hpaid & Hle).
  destruct Hk as ((_ & row2 & Hrow2 & _) & [Htask' _] & _).
  unfold books_task, booked_steps, booked_limit, booked, AtomicRepository_books, spent, repository_row in *.
  rewrite Htask', Htask in *. rewrite Hrow1, Hmax1, Hmax, Hrow2 in Hle. exists l, c', row2. done.
Qed.

(** Composing and the writer leases. Whatever composing comes to, the lease table stands for a book
    afterwards. Either no lease changed - then it raised before or at the claim - or exactly the entry of the
    task and plan is the active lease of this run: the one it held, so that a failed composition may be
    tried again without another generation, or the next generation after the lease it supersedes. A
    runtime that is returned holds this lease, and its scheduler came out of its constructor over the
    repository of this lease and the task's budget. *)
Theorem composition_leases db r db' b (Hbooks : books (rd_writers db) b) (Hcompose : compose db = (r, db')) :
  leases_after run_id task_context plan parent_authority max_concurrency reapproved b r db'.
Proof. by apply (compose_run _ _ _ _ _ _ _ _ _ _ _ _ _ _ Hcompose). Qed.
End Guarantees.

(** The sample plan, composed for a run and dispatched; then another run takes over. *)
Section Examples.
#[local] Existing Instance checksum_hashlib.
#[local] Existing Instance nine_hours.

Definition composed_db : RuntimeDB := {|
  rd_store := bc_store sample_client; rd_writers := {| wd_checkpoints := sample_database; wd_leases := Some no_leases |};
  rd_reservations := None |}.
Definition fresh_book : WriterBook := {|
  wb_tasks := cs_tasks sample_database; wb_leases := ∅; wb_now := cs_now sample_database; wb_locked := cs_locked sample_database |}.

Definition compose_for (run : string) : ST RuntimeDB (WriterFencedExecutionRuntime TaskStore) :=
  compose_writer_fenced_execution_runtime "/data/tasks.db" "/data/tasks.db" run (ec_task_context sample_config)
    (ec_plan sample_config) (ec_parent_authority sample_config) (bc_state sample_client) (Some bound_store)
    (ec_max_concurrency sample_config) ∅.

Definition composed : WriterFencedExecutionRuntime TaskStore.
Proof. let r := eval vm_compute in (compose_for "run-a" composed_db).1 in match r with Ok ?x => exact x end. Defined.
Definition composed_after : RuntimeDB.
Proof. let s := eval vm_compute in (compose_for "run-a" composed_db).2 in exact s. Defined.
Lemma compose_runs : compose_for "run-a" composed_db = (Ok composed, composed_after).
Proof. vm_compute. reflexivity. Qed.

(** The first node is dispatched, with a step. *)
Notation runtime_state := (ExecutionScheduler DispatchBudgetPreflightGuard TaskStore AtomicRepository).
Definition composed_issued : runtime_state.
Proof. let s := eval vm_compute in (issue_dispatch sample_config "in" false (wx_scheduler composed)).2 in exact s. Defined.
Definition composed_ticket : DispatchTicket.
Proof.
  let r := eval vm_compute in (issue_dispatch sample_config "in" false (wx_scheduler composed)).1 in
  match r with Ok ?t => exact t end.
Defined.
Lemma composed_issue : issue_dispatch sample_config "in" false (wx_scheduler composed) = (Ok composed_ticket, composed_issued).
Proof. vm_compute. reflexivity. Qed.
Lemma composed_run : paid_run sample_config (wx_scheduler composed) [composed_ticket] composed_issued.
Proof. apply (paid_issue _ _ _ _ _ _ _ _ composed_issue). apply paid_refl. Qed.

(** The operator takes a tool away before the first dispatch, which does not use it. *)
Definition composed_revoked : runtime_state :=
  set_guards (es_budget_guard (wx_scheduler composed)) revoked_store (es_checkpoint_repository (wx_scheduler composed))
    (wx_scheduler composed).
Definition revoked_issued : runtime_state.
Proof. let s := eval vm_compute in (issue_dispatch sample_config "in" false composed_revoked).2 in exact s. Defined.
Lemma revoked_issue : issue_dispatch sample_config "in" false composed_revoked = (Ok composed_ticket, revoked_issued).
Proof. vm_compute. reflexivity. Qed.

(** In the composed runtime the guard of the budget does not count what it grants; the repository does. *)
Lemma revoked_never_dispatched_witness : ¬ ∃ n tool, n ∈ xp_nodes (ec_plan sample_config)
    ∧ en_node_id n = dt_node_id composed_ticket
    ∧ tool ∈ en_allowed_tools n ∧ _capability tool = Ok (cr_capability sample_revocation).
Proof.
  intros (n & tool & Hn & Hid & Htool & Hcap).
  refine (revoked_never_dispatched sample_config bound_store sample_id "search_docs" "operator_revoked" sample_revocation
    revoked_store composed_revoked revoked_issued [composed_ticket] bound_store_ok sample_revoke eq_refl eq_refl sample_plan_valid
    (gov_issue _ _ _ _ _ _ _ _ _ revoked_issue (gov_refl _ _ _)) composed_ticket n tool _ Hn Hid Htool Hcap).
  left.
Defined.

Definition issued_db : RuntimeDB.
Proof. let c := eval vm_compute in (es_checkpoint_repository composed_issued) in match c with Some ?c => exact (ar_db c) end. Defined.
Example one_step : spent issued_db sample_id = 1 ∧ paid_nodes issued_db sample_id = [dispatch_key composed_ticket].
Proof. vm_compute. split; reflexivity. Qed.

(** Composing again for the run keeps its generation; for another run it takes the next one, and the run
    it supersedes can no longer dispatch. *)
Definition recomposed (run : string) : result Z := wl_generation ∘ wx_writer_lease <$> (compose_for run issued_db).1.
Example same_run : recomposed "run-a" = Ok 1 ∧ recomposed "run-b" = Ok 2.
Proof. vm_compute. split; reflexivity. Qed.
Example superseded_run : (record_dispatch composed_ticket {|
    ar_lease := wx_writer_lease composed; ar_controller := {| dc_budget_state := bc_state sample_client |};
    ar_db := (compose_for "run-b" issued_db).2 |}).1
  = raise ExecutionWriterFenceError "EXECUTION_WRITER_FENCE_DENIED:WRITER_LEASE_STALE".
Proof. vm_compute. reflexivity. Qed.

(** A run without a name is refused before anything is claimed. *)
Example nameless_run : compose_for " run" composed_db
  = (raise ExecutionRuntimeCompositionError "EXECUTION_RUNTIME_RUN_ID_REQUIRED", composed_db).
Proof. vm_compute. reflexivity. Qed.

Lemma composed_ledger : ledger composed_db.
Proof.
  pose proof (proj1 sample_client_ok) as Hok. constructor; [exact Hok|constructor|]. intros task. cbn. unfold spent.
  change (rd_store composed_db) with (bc_store sample_client). destruct (ts_usage _ !! task) as [row|] eqn:E; [|done].
  pose proof (map_Forall_lookup_1 _ _ _ _ Hok E) as [_ _ Hs]. destruct (is_legacy row); [destruct Hs as (_ & _ & _ & _ & -> & _)|]; lia.
Qed.
Lemma composed_books : books (rd_writers composed_db) fresh_book.
Proof.
  constructor; [done..|]. exists no_leases. split; [done|]. split; [|by intros ? ?]. intros key.
  cbn [wb_leases fresh_book no_leases lt_leases]. rewrite !lookup_empty. constructor.
Qed.

Lemma composed_run_within_budget_witness : ∃ limits c row, _bound_execution_limits sample_id contended_store = Ok limits
    ∧ es_checkpoint_repository composed_issued = Some c ∧ ts_usage (rd_store (ar_db c)) !! sample_id = Some row
    ∧ NoDup (map dt_node_id [composed_ticket])
    ∧ (∀ t, t ∈ [composed_ticket] → dispatch_key t ∈ paid_nodes (ar_db c) sample_id)
    ∧ Z.of_nat (length [composed_ticket]) <= us_steps_used row <= el_max_steps limits.
Proof.
  exact (composed_run_within_budget "/data/tasks.db" "/data/tasks.db" "run-a" (ec_task_context sample_config) (ec_plan sample_config) (ec_parent_authority sample_config)
    (bc_state sample_client) (Some bound_store) (ec_max_concurrency sample_config) ∅ contended_store composed_db
    fresh_book composed composed_after [composed_ticket] composed_issued bound_store_ok sample_binding composed_ledger
    composed_books compose_runs composed_run).
Defined.

Lemma composition_leases_witness : leases_after "run-a" (ec_task_context sample_config) (ec_plan sample_config)
  (ec_parent_authority sample_config) (ec_max_concurrency sample_config) ∅ fresh_book (Ok composed) composed_after.
Proof. exact (composition_leases "/data/tasks.db" "/data/tasks.db" "run-a" (ec_task_context sample_config) (ec_plan sample_config) (ec_parent_authority sample_config)
    (bc_state sample_client) (Some bound_store) (ec_max_concurrency sample_config) ∅
    composed_db (Ok composed) composed_after fresh_book composed_books compose_runs). Defined.
End Examples.
