(* ===== verification/Cron.v ===== *)
(** * Cron expressions and intervals

    The time arithmetic of [persistent_scheduler.py]: the five fields of a cron expression, the next minute
    an expression matches in a time zone, and the next run of an interval. A datetime is here its UTC
    instant in microseconds. *)

From Stdlib Require Import Ascii.
From Stdlib Require String.
From S2P Require Import Prelude PyStr PyFloat Json PyTime.

Local Open Scope Z_scope.

(** The time zone database of the system: a zone gives the offset from UTC at an instant. *)
Definition zone : Type := Z → Z.
Class ZoneInfo := zone_info : string → result zone.

Definition _MAX_CRON_SEARCH_MINUTES : Z := 370 * 24 * 60.

Definition ps_fail {A} (code : string) : result A := raise PersistentSchedulerError code.
Definition ps_fail_if (b : bool) (code : string) : result unit := raise_if b PersistentSchedulerError code.

(** ** The language *)

(** [str.isdigit]: the superscripts of Latin-1 count as digits. *)
Definition is_digit_char (c : ascii) : bool := is_digit c || (code c =? 178)%N || (code c =? 179)%N || (code c =? 185)%N.
Definition isdigit (s : string) : bool := negb (is_empty s) && forall_char is_digit_char s.

(** [s.partition(sep)]; [None] when [sep] is not in [s]. *)
Fixpoint partition (sep : ascii) (s : string) : string * option string :=
  match s with
  | EmptyString => ("", None)
  | String c t => if bool_decide (c = sep) then ("", Some t) else prod_map (String c) id (partition sep t)
  end.

Definition is_int_space (c : ascii) : bool := in_range 9 13 c || (code c =? 32)%N || (code c =? 133)%N || (code c =? 160)%N.
Fixpoint skip_int_space (s : string) : string :=
  match s with String c t => if is_int_space c then skip_int_space t else s | EmptyString => "" end.

(** The digits of a literal, single underscores between them left out, and the text after them. *)
Fixpoint scan_digits (underscore : bool) (s : string) : option (string * string) :=
  match s with
  | String c t =>
      if bool_decide (c = "_"%char) then if underscore then None else scan_digits true t
      else if is_digit c then prod_map (String c) id <$> scan_digits false t
      else if underscore then None else Some ("", s)
  | EmptyString => if underscore then None else Some ("", "")
  end.

(** [int(s)]; Python 3.11 refuses more than 4300 digits. *)
Definition int_of_str (s : string) : result Z :=
  let invalid := raise PyValueError ("invalid literal for int() with base 10: " +:+ take_str 200 (repr_str s)) in
  let '(negative, t) := match skip_int_space s with
                        | String "-" t => (true, t) | String "+" t => (false, t) | t => (false, t)
                        end in
  match scan_digits true t with
  | None => invalid
  | Some (ds, rest) =>
      raise_if (4300 <? len ds) PyValueError ("Exceeds the limit (4300 digits) for integer string conversion: value has "
        +:+ str_of_Z (len ds) +:+ " digits; use sys.set_int_max_str_digits() to increase the limit") ;;
      if is_empty (skip_int_space rest) then Ok (if negative : bool then - digits_value ds else digits_value ds) else invalid
  end.

(** [range(start, stop, step)] for a positive step. *)
Definition py_range (start stop step : Z) : list Z :=
  map (λ i, start + step * Z.of_nat i) (seq 0 (Z.to_nat ((stop - start + step - 1) / step))).

(** ** Datetimes *)

Definition minute : Z := 60 * second.

(** [d.astimezone(timezone.utc)] of an aware datetime. *)
Definition to_utc (d : datetime) : result Z :=
  raise_if (negb (in_calendar (instant d))) PyOverflowError "date value out of range" ;; Ok (instant d).

(** [t + timedelta]. *)
Definition add_delta (t delta : Z) : result Z :=
  raise_if (negb (in_calendar (t + delta))) PyOverflowError "date value out of range" ;; Ok (t + delta).

(** [t.astimezone(tz)], the local time. *)
Definition localtime (tz : zone) (t : Z) : result Z := add_delta t (tz t).

Definition _aware_utc (value : datetime) (field : string) : result Z :=
  match dt_offset value with
  | None => ps_fail (upper field +:+ "_MUST_BE_TIMEZONE_AWARE")
  | Some _ => to_utc value
  end.

(** The text of a UTC instant. *)
Definition _iso (t : Z) : string := isoformat {| dt_local := t; dt_offset := Some 0 |}.

Definition _parse_iso (value field : string) : result Z :=
  match fromisoformat value with
  | None => ps_fail ("INVALID_" +:+ upper field)
  | Some parsed => _aware_utc parsed field
  end.

(** ** Cron fields *)

Definition normalize (minimum maximum : Z) (sunday_alias : bool) (number : Z) : result Z :=
  if sunday_alias && (number =? 7) then Ok 0
  else ps_fail_if (negb ((minimum <=? number) && (number <=? maximum))) "CRON_FIELD_OUT_OF_RANGE" ;; Ok number.

(** The text after the slash. *)
Definition cron_step (minimum maximum : Z) (step_text : option string) : result Z :=
  match step_text with
  | None => Ok 1
  | Some text =>
      if isdigit text then
        step ← int_of_str text;
        ps_fail_if (step <? 1) "CRON_STEP_INVALID" ;;
        ps_fail_if (maximum - minimum + 1 <? step) "CRON_STEP_INVALID" ;;
        Ok step
      else ps_fail "CRON_STEP_INVALID"
  end.

(** The values one part of a field adds. *)
Definition cron_part (minimum maximum : Z) (sunday_alias : bool) (raw : string) : result (list Z) :=
  let part := strip raw in
  ps_fail_if (is_empty part) "CRON_FIELD_INVALID" ;;
  let '(base, step_text) := partition "/" part in
  step ← cron_step minimum maximum step_text;
  if bool_decide (base = "*") then mapM (normalize minimum maximum sunday_alias) (py_range minimum (maximum + 1) step)
  else
    match partition "-" base with
    | (lower_text, Some upper_text) =>
        ps_fail_if (negb (isdigit lower_text) || negb (isdigit upper_text)) "CRON_RANGE_INVALID" ;;
        raw_start ← int_of_str lower_text;
        raw_end ← int_of_str upper_text;
        ps_fail_if (raw_end <? raw_start) "CRON_RANGE_INVALID" ;;
        normalize minimum maximum sunday_alias raw_start ;;
        normalize minimum maximum sunday_alias raw_end ;;
        mapM (normalize minimum maximum sunday_alias) (py_range raw_start (raw_end + 1) step)
    | (_, None) =>
        ps_fail_if (bool_decide (step_text ≠ None) || negb (isdigit base)) "CRON_FIELD_INVALID" ;;
        number ← int_of_str base;
        value ← normalize minimum maximum sunday_alias number;
        Ok [value]
    end.

Definition _parse_cron_field (expression : string) (minimum maximum : Z) (sunday_alias : bool) : result (gset Z) :=
  let text := strip expression in
  ps_fail_if (is_empty text) "CRON_FIELD_EMPTY" ;;
  values ← foldM (λ (values : gset Z) part, new ← cron_part minimum maximum sunday_alias part; Ok (values ∪ list_to_set new))
             ∅ (split_on "," text);
  ps_fail_if (bool_decide (values = ∅)) "CRON_FIELD_EMPTY" ;;
  Ok values.

(** ** Cron expressions *)

Record _CronMatcher := {
  cm_expression : string;
  cm_minutes : gset Z;
  cm_hours : gset Z;
  cm_days : gset Z;
  cm_months : gset Z;
  cm_weekdays : gset Z;
  cm_day_any : bool;
  cm_weekday_any : bool
}.

Definition CronMatcher_parse (expression : string) : result _CronMatcher :=
  let canonical := join " " (split_ws (strip expression)) in
  let fields := if is_empty canonical then [] else split_on " " canonical in
  match fields with
  | [minute; hour; day; month; weekday] =>
      minutes ← _parse_cron_field minute 0 59 false;
      hours ← _parse_cron_field hour 0 23 false;
      days ← _parse_cron_field day 1 31 false;
      months ← _parse_cron_field month 1 12 false;
      weekdays ← _parse_cron_field weekday 0 6 true;
      Ok {| cm_expression := canonical; cm_minutes := minutes; cm_hours := hours; cm_days := days; cm_months := months;
            cm_weekdays := weekdays; cm_day_any := bool_decide (day = "*"); cm_weekday_any := bool_decide (weekday = "*") |}
  | _ => ps_fail "CRON_EXPRESSION_REQUIRES_FIVE_FIELDS"
  end.

Definition CronMatcher_matches (m : _CronMatcher) (local : Z) : bool :=
  let n := local / day + 1 in
  let '(_, local_month, local_day) := ord2ymd n in
  let cron_weekday := ((n + 6) mod 7 + 1) mod 7 in
  let day_match := bool_decide (local_day ∈ cm_days m) in
  let weekday_match := bool_decide (cron_weekday ∈ cm_weekdays m) in
  let calendar_day_match :=
    if cm_day_any m && cm_weekday_any m then true
    else if cm_day_any m then weekday_match
    else if cm_weekday_any m then day_match
    else day_match || weekday_match in
  bool_decide (local / minute mod 60 ∈ cm_minutes m)
  && bool_decide (local mod day / (60 * minute) ∈ cm_hours m)
  && bool_decide (local_month ∈ cm_months m)
  && calendar_day_match.

(** ** The next run *)

Section Next.
Context {ZI : ZoneInfo}.

(** The key of the zone and the zone. *)
Definition _timezone (value : string) : result (string * zone) :=
  let text := strip value in
  ps_fail_if (is_empty text || (128 <? len text)) "SCHEDULE_TIMEZONE_INVALID" ;;
  tz ← reraise (zone_info text) (is_class ZoneInfoNotFoundError) PersistentSchedulerError "SCHEDULE_TIMEZONE_INVALID";
  Ok (text, tz).

(** The rounds of the loop that are left, from [cursor] on. *)
Fixpoint cron_search (rounds : nat) (matcher : _CronMatcher) (tz : zone) (cursor : Z) : result Z :=
  match rounds with
  | O => ps_fail "CRON_NEXT_RUN_OUTSIDE_SEARCH_HORIZON"
  | S rounds =>
      local ← localtime tz cursor;
      if CronMatcher_matches matcher local then Ok cursor
      else next ← add_delta cursor minute; cron_search rounds matcher tz next
  end.

Definition _next_cron (expression tz_name : string) (after : Z) : result Z :=
  matcher ← CronMatcher_parse expression;
  '(_, tz) ← _timezone tz_name;
  cursor ← add_delta (after - after mod minute) minute;
  cron_search (Z.to_nat _MAX_CRON_SEARCH_MINUTES) matcher tz cursor.
End Next.

(** [timedelta.total_seconds()] of a duration of [us] microseconds, which is not negative, as a float
    [m / 2 ^ k]: the true division by [10 ** 6] rounds to 53 bits, ties to even. *)
Definition total_seconds (us : Z) : Z * Z :=
  let e := Z.log2 (us * 2 ^ 20 / second) - 20 in
  let k := 52 - e in
  let n := us * 2 ^ k in
  let q := n / second in
  let r := 2 * (n mod second) in
  ((if (r <? second) || ((r =? second) && Z.even q) then q else q + 1), k).

(** [int(elapsed // interval)]: the remainder of the float division is exact, and so is the floor. *)
Definition floor_quotient (elapsed : Z * Z) (interval : Z) : Z := elapsed.1 / (2 ^ elapsed.2 * interval).

Definition _next_interval (interval_seconds scheduled current : Z) : result Z :=
  if current <? scheduled then Ok scheduled
  else
    let jumps := floor_quotient (total_seconds (current - scheduled)) interval_seconds + 1 in
    add_delta scheduled (jumps * interval_seconds * second).
