(* ===== verification/CronFacts.v ===== *)
(** * Cron expressions and intervals: what the next run is

    Which numbers a field admits; that the next run of an expression is the first minute after the given
    instant that matches, and that the search fails only when no minute within its horizon does; and where
    the next run of an interval lies. *)

From Stdlib Require Import Ascii.
From Stdlib Require String.
From S2P Require Import Prelude PyStr PyFloat Json PyTime PyTimeFacts Cron.

Local Open Scope Z_scope.

(** ** Fields *)

(** What a part of a field says: its numbers [lo], [lo + step], ... up to [hi]. *)
Inductive part_denotes (minimum maximum : Z) (part : string) : Z → Z → Z → Prop :=
  | denotes_any step_text step : partition "/" part = ("*", step_text) → cron_step minimum maximum step_text = Ok step →
      part_denotes minimum maximum part minimum maximum step
  | denotes_range base step_text step from_text to_text lo hi : partition "/" part = (base, step_text) → base ≠ "*" →
      cron_step minimum maximum step_text = Ok step → partition "-" base = (from_text, Some to_text) →
      int_of_str from_text = Ok lo → int_of_str to_text = Ok hi → lo ≤ hi →
      part_denotes minimum maximum part lo hi step
  | denotes_one text lo : partition "/" part = (text, None) → text ≠ "*" → partition "-" text = (text, None) → int_of_str text = Ok lo →
      part_denotes minimum maximum part lo lo 1.

(** Sunday is 0, and 7 where it has the alias. *)
Definition admits (minimum maximum : Z) (sunday_alias : bool) (expression : string) (value : Z) : Prop :=
  ∃ raw lo hi step number, raw ∈ split_on "," (strip expression) ∧ part_denotes minimum maximum (strip raw) lo hi step
  ∧ lo ≤ number ≤ hi ∧ (number - lo) mod step = 0 ∧ value = (if sunday_alias && (number =? 7) then 0 else number).

Lemma cron_step_pos lo hi t step : cron_step lo hi t = Ok step → 1 ≤ step.
Proof.
  destruct t as [t|]; cbn [cron_step]; [|intros [= <-]; lia]. destruct (isdigit t); [|done].
  intros H. apply bind_ok_iff in H as (n & _ & H). unfold ps_fail_if in H. rewrite !guard_bind_ok in H.
  destruct H as (H & _ & [= <-]). apply Z.ltb_ge in H. lia.
Qed.

Lemma elem_of_py_range lo hi step v : 1 ≤ step → v ∈ py_range lo (hi + 1) step ↔ lo ≤ v ≤ hi ∧ (v - lo) mod step = 0.
Proof.
  intros Hs. unfold py_range. rewrite list_elem_of_fmap. split.
  - intros (i & -> & Hi%elem_of_seq). replace (lo + step * Z.of_nat i - lo) with (Z.of_nat i * step) by lia.
    rewrite Z.mod_mul by lia. split; [|done]. split; [nia|].
    assert (Z.of_nat i < (hi + 1 - lo + step - 1) / step) as Hl by lia.
    assert (Z.of_nat i + 1 ≤ (hi + 1 - lo + step - 1) / step) as Hl' by lia.
    assert (step * (Z.of_nat i + 1) ≤ hi + 1 - lo + step - 1); [|lia].
    etransitivity; [apply Z.mul_le_mono_nonneg_l; [lia|exact Hl']|]. apply Z.mul_div_le. lia.
  - intros [Hv Hm]. apply Z.mod_divide in Hm as [k Hk]; [|lia]. exists (Z.to_nat k).
    assert (0 ≤ k) by nia. split; [rewrite Z2Nat.id by lia; lia|]. apply elem_of_seq. split; [lia|].
    assert (k < (hi + 1 - lo + step - 1) / step); [|lia].
    enough (k + 1 ≤ (hi + 1 - lo + step - 1) / step) by lia. apply Z.div_le_lower_bound; [lia|]. nia.
Qed.

Lemma mapM_elem {A B} (f : A → result B) l ys : mapM f l = Ok ys → ∀ y, y ∈ ys ↔ ∃ x, x ∈ l ∧ f x = Ok y.
Proof.
  revert ys. induction l as [|x l IH]; cbn [mapM]; intros ys H y; [injection H as <-; split; [by intros ?%elem_of_nil|by intros (? & ?%elem_of_nil & _)]|].
  apply bind_ok_iff in H as (z & Hz & H). apply bind_ok_iff in H as (zs & Hzs & [= <-]).
  rewrite elem_of_cons, (IH _ Hzs). split.
  - intros [->|(x' & Hx & Hf)]; [exists x; split; [by left|done]|exists x'; split; [by right|done]].
  - intros (x' & [->|Hx]%elem_of_cons & Hf); [left; congruence|right; by exists x'].
Qed.

Lemma normalize_ok lo hi b n v : normalize lo hi b n = Ok v ↔
  v = (if b && (n =? 7) then 0 else n) ∧ (b && (n =? 7) = true ∨ lo ≤ n ≤ hi).
Proof.
  unfold normalize, ps_fail_if. destruct (b && (n =? 7)); [naive_solver|].
  rewrite guard_bind_ok, negb_false_iff, andb_true_iff, !Z.leb_le. naive_solver.
Qed.

Lemma partition_no_sep sep s a : partition sep s = (a, None) → a = s.
Proof.
  revert a. induction s as [|c s IH]; cbn [partition]; intros a; [by intros [= <-]|]. case_bool_decide; [done|].
  destruct (partition sep s) as [x y]. cbn. intros [= <- ->]. by rewrite (IH x).
Qed.

Lemma normal_range lo hi b l h step vs : 1 ≤ step → mapM (normalize lo hi b) (py_range l (h + 1) step) = Ok vs →
  ∀ v, v ∈ vs ↔ ∃ n, l ≤ n ≤ h ∧ (n - l) mod step = 0 ∧ v = (if b && (n =? 7) then 0 else n).
Proof.
  intros Hs Hvs v. rewrite (mapM_elem _ _ _ Hvs). split.
  - intros (n & Hn%elem_of_py_range & [-> _]%normalize_ok); [|done]. exists n. naive_solver.
  - intros (n & Hn & Hm & ->). exists n. assert (n ∈ py_range l (h + 1) step) as Hin by by apply elem_of_py_range.
    split; [done|].
    clear Hn Hm. revert vs Hvs n Hin. induction (py_range l (h + 1) step) as [|x xs IH]; intros vs Hvs n Hin; [by apply elem_of_nil in Hin|].
    cbn [mapM] in Hvs. apply bind_ok_iff in Hvs as (y & Hy & Hvs). apply bind_ok_iff in Hvs as (ys & Hys & _).
    apply elem_of_cons in Hin as [->|Hin]; [|by eapply IH]. rewrite Hy. by apply normalize_ok in Hy as [-> _].
Qed.

Lemma part_denotes_unique lo hi part l h step l' h' step' :
  part_denotes lo hi part l h step → part_denotes lo hi part l' h' step' → l = l' ∧ h = h' ∧ step = step'.
Proof.
  intros [] []; repeat match goal with H : ?a = _, H' : ?a = _ |- _ => rewrite H in H'; injection H' as; subst end; try done; lia.
Qed.

(** The values of a part are the ones it denotes. *)
Lemma cron_part_denotes lo hi b raw values : cron_part lo hi b raw = Ok values → ∃ l h step,
  part_denotes lo hi (strip raw) l h step ∧ ∀ v, v ∈ values ↔
    ∃ n, l ≤ n ≤ h ∧ (n - l) mod step = 0 ∧ v = (if b && (n =? 7) then 0 else n).
Proof.
  unfold cron_part, ps_fail_if. intros H. apply guard_bind_ok in H as [_ H].
  destruct (partition "/" (strip raw)) as [base st] eqn:Ep. apply bind_ok_iff in H as (step & Hst & H).
  pose proof (cron_step_pos _ _ _ _ Hst) as Hs. case_bool_decide as Hb.
  - subst base. exists lo, hi, step. split; [by eapply denotes_any|]. by eapply normal_range.
  - destruct (partition "-" base) as [from_text [to_text|]] eqn:Eb.
    + apply guard_bind_ok in H as [_ H]. apply bind_ok_iff in H as (l & Hl & H). apply bind_ok_iff in H as (h & Hh & H).
      apply guard_bind_ok in H as [Hlh H]. apply Z.ltb_ge in Hlh.
      apply bind_ok_iff in H as (? & _ & H). apply bind_ok_iff in H as (? & _ & H).
      exists l, h, step. split; [by eapply denotes_range|]. by eapply normal_range.
    + apply guard_bind_ok in H as [Hg H]. apply orb_false_iff in Hg as [Hst' _]. apply bool_decide_eq_false, dec_stable in Hst'. subst st.
      injection Hst as <-. apply bind_ok_iff in H as (n & Hn & H). apply bind_ok_iff in H as (v & Hv & [= <-]).
      pose proof (partition_no_sep _ _ _ Eb) as ->.
      exists n, n, 1. split; [by eapply denotes_one|]. intros w. rewrite list_elem_of_singleton. apply normalize_ok in Hv as [-> _].
      split; [intros ->; exists n; split; [lia|]; split; [apply Z.mod_1_r|done]|]. intros (n' & Hn' & _ & ->). by replace n' with n by lia.
Qed.

Lemma cron_part_range lo hi b raw values : lo ≤ 0 ∨ b = false → cron_part lo hi b raw = Ok values → 0 ≤ hi → Forall (λ v, lo ≤ v ≤ hi) values.
Proof.
  intros Hlo H Hhi. apply Forall_elem. intros v Hv.
  assert (∀ n v, normalize lo hi b n = Ok v → lo ≤ v ≤ hi) as Hn.
  { intros n w [-> Hw]%normalize_ok. destruct (b && (n =? 7)) eqn:E; [|naive_solver].
    apply andb_true_iff in E as [-> _]. destruct Hlo; [lia|done]. }
  unfold cron_part, ps_fail_if in H. apply guard_bind_ok in H as [_ H].
  destruct (partition "/" (strip raw)) as [base st]. apply bind_ok_iff in H as (step & _ & H). case_bool_decide.
  - apply (mapM_elem _ _ _ H) in Hv as (n & _ & Hv). by eapply Hn.
  - destruct (partition "-" base) as [from_text [to_text|]].
    + apply guard_bind_ok in H as [_ H]. do 2 apply bind_ok_iff in H as (? & _ & H).
      apply guard_bind_ok in H as [_ H]. do 2 apply bind_ok_iff in H as (? & _ & H).
      apply (mapM_elem _ _ _ H) in Hv as (n & _ & Hv). by eapply Hn.
    + apply guard_bind_ok in H as [_ H]. apply bind_ok_iff in H as (n & _ & H). apply bind_ok_iff in H as (w & Hw & [= <-]).
      apply list_elem_of_singleton in Hv as ->. by eapply Hn.
Qed.

Lemma foldM_union {A} (f : A → result (list Z)) l : ∀ (s s' : gset Z),
  foldM (λ s x, new ← f x; Ok (s ∪ list_to_set new)) s l = Ok s' →
  (∀ x, x ∈ l → ∃ new, f x = Ok new) ∧ ∀ v, v ∈ s' ↔ v ∈ s ∨ ∃ x new, x ∈ l ∧ f x = Ok new ∧ v ∈ new.
Proof.
  induction l as [|x l IH]; cbn [foldM]; intros s s' H.
  - injection H as <-. split; [by intros x ?%elem_of_nil|]. intros v. split; [by left|]. intros [?|(? & ? & ?%elem_of_nil & _)]; done.
  - apply bind_ok_iff in H as (t & Ht & H). apply bind_ok_iff in Ht as (new & Hnew & [= <-]).
    destruct (IH _ _ H) as [Hall Hel]. split.
    + intros y [->|Hy]%elem_of_cons; [by exists new|by apply Hall].
    + intros v. rewrite Hel, elem_of_union, elem_of_list_to_set. split.
      * intros [[Hv|Hv]|(y & new' & Hy & Hf & Hv)]; [by left|right; exists x, new|right; exists y, new']; split_and!; try done; [by left|by right].
      * intros [Hv|(y & new' & [->|Hy]%elem_of_cons & Hf & Hv)]; [by left; left| |right; by exists y, new'].
        left. right. congruence.
Qed.

(** The values of a field are exactly the numbers it admits - those of its comma-separated parts, with their
    ranges and steps - and there is one. *)
Theorem cron_field_exact expression lo hi b values : _parse_cron_field expression lo hi b = Ok values →
  values ≠ ∅ ∧ ∀ v, v ∈ values ↔ admits lo hi b expression v.
Proof.
  unfold _parse_cron_field, ps_fail_if. intros H. apply guard_bind_ok in H as [_ H].
  apply bind_ok_iff in H as (vs & Hvs & H). apply guard_bind_ok in H as [Hne [= <-]]. apply bool_decide_eq_false in Hne.
  destruct (foldM_union _ _ _ _ Hvs) as [Hall Hel]. split; [done|]. intros v. rewrite Hel. split.
  - intros [?%elem_of_empty|(raw & new & Hraw & Hnew & Hv)]; [done|].
    destruct (cron_part_denotes _ _ _ _ _ Hnew) as (l & h & step & Hd & Hin). destruct (proj1 (Hin v) Hv) as (n & Hn & Hm & Heq).
    by exists raw, l, h, step, n.
  - intros (raw & l & h & step & n & Hraw & Hd & Hn & Hm & ->). right.
    destruct (Hall raw Hraw) as [new Hnew]. exists raw, new. split; [done|]. split; [done|].
    destruct (cron_part_denotes _ _ _ _ _ Hnew) as (l' & h' & step' & Hd' & Hin).
    destruct (part_denotes_unique _ _ _ _ _ _ _ _ _ Hd Hd') as (<- & <- & <-). apply Hin. by exists n.
Qed.

Example cron_field_exact_witness : ∃ values, _parse_cron_field "5-7, 1" 0 6 true = Ok values
  ∧ values ≠ ∅ ∧ ∀ v, v ∈ values ↔ admits 0 6 true "5-7, 1" v.
Proof. eexists. split; [vm_compute; reflexivity|]. apply (cron_field_exact "5-7, 1" 0 6 true). vm_compute. reflexivity. Defined.

Lemma cron_field_range expression lo hi b values : lo ≤ 0 ∨ b = false → 0 ≤ hi →
  _parse_cron_field expression lo hi b = Ok values → ∀ v, v ∈ values → lo ≤ v ≤ hi.
Proof.
  unfold _parse_cron_field, ps_fail_if. intros Hb Hhi H. apply guard_bind_ok in H as [_ H].
  apply bind_ok_iff in H as (vs & Hvs & H). apply guard_bind_ok in H as [_ [= <-]].
  destruct (foldM_union _ _ _ _ Hvs) as [_ Hel]. intros v [?%elem_of_empty|(raw & new & _ & Hnew & Hv)]%Hel; [done|].
  exact (proj1 (Forall_elem _ _) (cron_part_range _ _ _ _ _ Hb Hnew Hhi) _ Hv).
Qed.

(** ** The next minute that matches *)

(** Whether the expression matches at an instant, in its zone. *)
Definition matches_at (m : _CronMatcher) (tz : zone) (t : Z) : bool := CronMatcher_matches m (t + tz t).

Lemma add_delta_ok t d u : add_delta t d = Ok u ↔ u = t + d ∧ in_calendar (t + d) = true.
Proof. unfold add_delta. rewrite guard_bind_ok, negb_false_iff. naive_solver. Qed.

Lemma cron_search_found rounds m tz cursor t : cron_search rounds m tz cursor = Ok t →
  ∃ k, 0 ≤ k < Z.of_nat rounds ∧ t = cursor + k * minute ∧ matches_at m tz t = true
  ∧ ∀ j, 0 ≤ j < k → matches_at m tz (cursor + j * minute) = false.
Proof.
  revert cursor. induction rounds as [|rounds IH]; intros cursor H; [done|]. cbn [cron_search] in H.
  apply bind_ok_iff in H as (local & [-> Hl]%add_delta_ok & H). fold (matches_at m tz cursor) in H.
  destruct (matches_at m tz cursor) eqn:E.
  - injection H as <-. exists 0. split; [lia|]. split; [lia|]. split; [done|]. lia.
  - apply bind_ok_iff in H as (next & [-> _]%add_delta_ok & H). destruct (IH _ H) as (k & Hk & -> & Ht & Hj).
    exists (k + 1). split; [lia|]. split; [lia|]. split; [done|]. intros j Hjk.
    destruct (decide (j = 0)) as [->|]; [by rewrite Z.mul_0_l, Z.add_0_r|].
    replace (cursor + j * minute) with (cursor + minute + (j - 1) * minute) by lia. apply Hj. lia.
Qed.

Lemma cron_search_none rounds m tz cursor : cron_search rounds m tz cursor = ps_fail "CRON_NEXT_RUN_OUTSIDE_SEARCH_HORIZON" →
  ∀ j, 0 ≤ j < Z.of_nat rounds → matches_at m tz (cursor + j * minute) = false.
Proof.
  revert cursor. induction rounds as [|rounds IH]; intros cursor H j Hj; [lia|]. cbn [cron_search] in H.
  unfold localtime, add_delta in H. destruct (negb (in_calendar (cursor + tz cursor))); [done|]. cbn [raise_if mbind result_bind] in H.
  fold (matches_at m tz cursor) in H. destruct (matches_at m tz cursor) eqn:E; [done|].
  destruct (negb (in_calendar (cursor + minute))); [done|]. cbn [raise_if mbind result_bind] in H.
  destruct (decide (j = 0)) as [->|]; [by rewrite Z.mul_0_l, Z.add_0_r|].
  replace (cursor + j * minute) with (cursor + minute + (j - 1) * minute) by lia. apply IH; [done|lia].
Qed.

Lemma cron_search_finds rounds m tz cursor : (∀ t, cursor ≤ t ≤ cursor + Z.of_nat rounds * minute → in_calendar t = true ∧ in_calendar (t + tz t) = true) →
  cron_search rounds m tz cursor = ps_fail "CRON_NEXT_RUN_OUTSIDE_SEARCH_HORIZON" ∨ ∃ t, cron_search rounds m tz cursor = Ok t.
Proof.
  revert cursor. induction rounds as [|rounds IH]; intros cursor H; [by left|]. cbn [cron_search].
  assert (localtime tz cursor = Ok (cursor + tz cursor)) as -> by (apply add_delta_ok; split; [done|apply H; unfold minute, second; lia]).
  cbn [mbind result_bind]. destruct (CronMatcher_matches m (cursor + tz cursor)); [right; by eexists|].
  assert (add_delta cursor minute = Ok (cursor + minute)) as -> by (apply add_delta_ok; split; [done|apply H; unfold minute, second; lia]).
  cbn [mbind result_bind]. apply IH. intros t Ht. apply H. unfold minute, second in *; lia.
Qed.

(** The first minute after an instant at which the expression matches. *)
Definition first_match (m : _CronMatcher) (tz : zone) (after t : Z) : Prop :=
  after < t ∧ t mod minute = 0 ∧ matches_at m tz t = true
  ∧ ∀ u, after < u < t → u mod minute = 0 → matches_at m tz u = false.

(** The last minute the search looks at. *)
Definition horizon (after : Z) : Z := after - after mod minute + _MAX_CRON_SEARCH_MINUTES * minute.

(** The calendar and the clock of the zone go on until a limit. *)
Definition clock_until (tz : zone) (after limit : Z) : Prop :=
  ∀ t, after < t ≤ limit → in_calendar t = true ∧ in_calendar (t + tz t) = true.

Section NextCron.
Context {ZI : ZoneInfo}.

Lemma minutes_after after u : after < u → u mod minute = 0 → ∃ j, 0 ≤ j ∧ u = after - after mod minute + minute + j * minute.
Proof.
  intros Hu Hm. exists ((u - (after - after mod minute) - minute) / minute).
  pose proof (Z.div_mod u minute ltac:(done)). pose proof (Z.div_mod after minute ltac:(done)).
  pose proof (Z.mod_pos_bound after minute ltac:(done)).
  assert (u - (after - after mod minute) - minute = (u / minute - after / minute - 1) * minute) as -> by lia.
  rewrite Z.div_mul by done. split; [|lia].
  assert (after / minute < u / minute); [|lia]. apply Z.div_lt_upper_bound; [done|]. lia.
Qed.

Lemma cron_search_first e m tz after rounds t :
  CronMatcher_parse e = Ok m → cron_search rounds m tz (after - after mod minute + minute) = Ok t → first_match m tz after t.
Proof.
  intros _ (k & Hk & -> & Ht & Hj)%cron_search_found.
  pose proof (Z.div_mod after minute ltac:(done)). pose proof (Z.mod_pos_bound after minute ltac:(done)).
  assert (0 < minute) by done. split; [nia|]. split; [|split; [done|]].
  - replace (after - after mod minute + minute + k * minute) with ((after / minute + 1 + k) * minute) by lia. by apply Z.mod_mul.
  - intros u Hu Hm. destruct (minutes_after after u) as (j & Hj0 & ->); [lia|done|]. apply Hj. nia.
Qed.

Section Expression.
Context (expression tz_name : string) (after : Z) (m : _CronMatcher) (key : string) (tz : zone).
Context (Hm : CronMatcher_parse expression = Ok m) (Htz : _timezone tz_name = Ok (key, tz)).

Lemma next_cron_first t : _next_cron expression tz_name after = Ok t → first_match m tz after t ∧ t ≤ horizon after.
Proof.
  unfold _next_cron. rewrite Hm, Htz. cbn [mbind result_bind]. intros H. apply bind_ok_iff in H as (cursor & [-> _]%add_delta_ok & H).
  split; [by eapply cron_search_first|]. apply cron_search_found in H as (k & Hk & -> & _).
  rewrite Z2Nat.id in Hk by done. unfold horizon. assert (0 < minute) by done. nia.
Qed.

Lemma next_cron_returns : clock_until tz after (horizon after + minute) →
  (∃ t, _next_cron expression tz_name after = Ok t) ∨ _next_cron expression tz_name after = ps_fail "CRON_NEXT_RUN_OUTSIDE_SEARCH_HORIZON".
Proof.
  intros Hcal. unfold _next_cron. rewrite Hm, Htz. cbn [mbind result_bind].
  pose proof (Z.mod_pos_bound after minute ltac:(done)) as Hb. unfold horizon, clock_until in *.
  assert (0 < minute ∧ minute ≤ _MAX_CRON_SEARCH_MINUTES * minute) as [H0 H1] by done.
  assert (add_delta (after - after mod minute) minute = Ok (after - after mod minute + minute)) as ->
    by (apply add_delta_ok; split; [done|apply Hcal; lia]).
  cbn [mbind result_bind].
  assert (Z.of_nat (Z.to_nat _MAX_CRON_SEARCH_MINUTES) = _MAX_CRON_SEARCH_MINUTES) as Hr by (apply Z2Nat.id; done).
  generalize dependent (Z.to_nat _MAX_CRON_SEARCH_MINUTES). intros rounds Hr.
  destruct (cron_search_finds rounds m tz (after - after mod minute + minute)) as [Hs|[t Hs]]; [|by right|by left; exists t].
  intros t Ht. apply Hcal. rewrite Hr in Ht. lia.
Qed.

Lemma next_cron_gives_up : clock_until tz after (horizon after + minute) →
  _next_cron expression tz_name after = ps_fail "CRON_NEXT_RUN_OUTSIDE_SEARCH_HORIZON" →
  ∀ u, after < u ≤ horizon after → u mod minute = 0 → matches_at m tz u = false.
Proof.
  intros Hcal. unfold _next_cron. rewrite Hm, Htz. cbn [mbind result_bind].
  pose proof (Z.mod_pos_bound after minute ltac:(done)) as Hb. unfold horizon, clock_until in *.
  assert (0 < minute ∧ minute ≤ _MAX_CRON_SEARCH_MINUTES * minute) as [H0 H1] by done.
  assert (add_delta (after - after mod minute) minute = Ok (after - after mod minute + minute)) as ->
    by (apply add_delta_ok; split; [done|apply Hcal; lia]).
  cbn [mbind result_bind]. intros Hs u Hu Hmu. destruct (minutes_after after u) as (j & Hj & ->); [lia|done|].
  apply (cron_search_none _ _ _ _ Hs). rewrite Z2Nat.id by done. nia.
Qed.

Lemma next_cron_fails : clock_until tz after (horizon after + minute) →
  (∀ u, after < u ≤ horizon after → u mod minute = 0 → matches_at m tz u = false) →
  _next_cron expression tz_name after = ps_fail "CRON_NEXT_RUN_OUTSIDE_SEARCH_HORIZON".
Proof.
  intros Hcal Hno. destruct (next_cron_returns Hcal) as [[t Ht]|]; [|done].
  apply next_cron_first in Ht as [(Hlt & Hmt & Hmatch & _) Hle]. rewrite Hno in Hmatch; done.
Qed.
End Expression.

(** C29: the next run of a cron expression is the first minute after the given instant that matches in its
    time zone, and the search gives up exactly when no minute of its horizon of 370 days does. *)
Theorem next_cron_exact expression tz_name after m key tz :
  CronMatcher_parse expression = Ok m → _timezone tz_name = Ok (key, tz) → clock_until tz after (horizon after + minute) →
  (∃ t, _next_cron expression tz_name after = Ok t ∧ first_match m tz after t ∧ t ≤ horizon after)
  ∨ (_next_cron expression tz_name after = ps_fail "CRON_NEXT_RUN_OUTSIDE_SEARCH_HORIZON"
     ∧ ∀ u, after < u ≤ horizon after → u mod minute = 0 → matches_at m tz u = false).
Proof.
  intros Hm Htz Hcal. destruct (next_cron_returns _ _ _ _ _ _ Hm Htz Hcal) as [[t Ht]|Hf].
  - left. exists t. destruct (next_cron_first _ _ _ _ _ _ Hm Htz _ Ht) as [Hfirst Hle]. done.
  - right. split; [done|]. by eapply next_cron_gives_up.
Qed.
End NextCron.

Definition utc_zones : ZoneInfo := λ key, if bool_decide (key = "UTC") then Ok (λ _, 0) else raise ZoneInfoNotFoundError key.

Lemma clock_until_utc after limit : in_calendar after = true → in_calendar limit = true → clock_until (λ _, 0) after limit.
Proof.
  unfold in_calendar. cbv zeta. rewrite !andb_true_iff, !Z.leb_le. intros [H1 _] [_ H2] t [Hlo Hhi]. rewrite Z.add_0_r.
  assert (in_calendar t = true); [|done]. unfold in_calendar. cbv zeta. rewrite andb_true_iff, !Z.leb_le.
  pose proof (Z.div_le_mono after t day ltac:(done) ltac:(lia)). pose proof (Z.div_le_mono t limit day ltac:(done) ltac:(lia)). lia.
Qed.

(** 2026-03-06, a Friday, at 17:45:10: the next run on a working day at nine is on Monday. *)
Definition friday : Z := 63908415910 * second.

Example next_cron_exact_witness : ∃ m,
  CronMatcher_parse "*/15 9-17 * * 1-5" = Ok m ∧ clock_until (λ _, 0) friday (horizon friday + minute)
  ∧ ((∃ t, @_next_cron utc_zones "*/15 9-17 * * 1-5" "UTC" friday = Ok t ∧ first_match m (λ _, 0) friday t ∧ t ≤ horizon friday)
     ∨ (@_next_cron utc_zones "*/15 9-17 * * 1-5" "UTC" friday = ps_fail "CRON_NEXT_RUN_OUTSIDE_SEARCH_HORIZON"
        ∧ ∀ u, friday < u ≤ horizon friday → u mod minute = 0 → matches_at m (λ _, 0) u = false)).
Proof.
  eexists. split; [vm_compute; reflexivity|].
  assert (clock_until (λ _, 0) friday (horizon friday + minute)) as Hc by (apply clock_until_utc; vm_compute; reflexivity).
  split; [exact Hc|]. apply (@next_cron_exact utc_zones _ "UTC" friday _ "UTC"); [vm_compute; reflexivity|vm_compute; reflexivity|exact Hc].
Defined.

Example friday_evening : (_iso <$> @_next_cron utc_zones "*/5 * * * *" "UTC" friday) = Ok "2026-03-06T17:50:00+00:00".
Proof. vm_compute. reflexivity. Qed.

(** ** Intervals *)

(** The float of a duration is within half a unit of it. *)
Lemma total_seconds_near us m k : total_seconds us = (m, k) →
  us * 2 ^ k / second ≤ m ∧ 2 * (m * second - us * 2 ^ k) ≤ second.
Proof.
  unfold total_seconds. cbv zeta. intros [= <- <-]. set (k := 52 - _). set (n := us * 2 ^ k).
  pose proof (Z.div_mod n second ltac:(done)) as Hd. pose proof (Z.mod_pos_bound n second ltac:(done)) as Hb.
  destruct ((2 * (n mod second) <? second) || ((2 * (n mod second) =? second) && Z.even (n / second))) eqn:E; [lia|].
  apply orb_false_iff in E as [E _]. apply Z.ltb_ge in E. unfold second in *. lia.
Qed.

Lemma total_seconds_scale us m k b : total_seconds us = (m, k) → 0 ≤ b → 0 ≤ us < 2 ^ b * second → 52 < k + b.
Proof.
  unfold total_seconds. intros [= _ <-] Hb Hus.
  enough (Z.log2 (us * 2 ^ 20 / second) < b + 20) by lia.
  destruct (decide (us * 2 ^ 20 / second ≤ 0)) as [Hz|Hz]; [rewrite Z.log2_nonpos by done; lia|].
  apply Z.log2_lt_pow2; [lia|]. apply Z.div_lt_upper_bound; [done|]. rewrite Z.pow_add_r by lia. nia.
Qed.

Lemma calendar_range t : in_calendar t = true → 0 ≤ t < 2 ^ 59.
Proof.
  unfold in_calendar. cbv zeta. change (ymd2ord 9999 12 31) with 3652059. rewrite andb_true_iff, !Z.leb_le. intros [H1 H2].
  pose proof (Z.div_mod t day ltac:(done)). pose proof (Z.mod_pos_bound t day ltac:(done)). unfold day, second in *. lia.
Qed.

(** The next run of an interval is the scheduled run while that lies ahead; otherwise it is a run of the same
    grid, later than the given instant, and - unless the schedule lies more than 2^33 seconds (272 years) behind, where the
    float division of the code may round up - the first one. *)
Theorem next_interval_exact interval scheduled current t : 0 < interval → in_calendar scheduled = true → in_calendar current = true →
  _next_interval interval scheduled current = Ok t →
  if current <? scheduled then t = scheduled
  else current < t ∧ (t - scheduled) mod (interval * second) = 0
    ∧ (current - scheduled < 2 ^ 33 * second → t ≤ current + interval * second).
Proof.
  intros Hi Hs%calendar_range Hc%calendar_range. unfold _next_interval.
  destruct (Z.ltb_spec current scheduled) as [Hlt|Hge]; [by intros [= <-]|].
  destruct (total_seconds (current - scheduled)) as [m k] eqn:E. intros [-> _]%add_delta_ok. unfold floor_quotient. cbn [fst snd].
  set (us := current - scheduled) in *. destruct (total_seconds_near _ _ _ E) as [Hlo Hhi].
  assert (0 ≤ k) as Hk by (pose proof (total_seconds_scale us m k 40 E); unfold us, second in *; lia).
  assert (0 < 2 ^ k) as Hp by (apply Z.pow_pos_nonneg; lia).
  set (K := us / (second * interval)).
  assert (0 < second * interval) as Hsi by (unfold second; lia).
  pose proof (Z.div_mod us (second * interval) ltac:(lia)) as Hd. fold K in Hd.
  pose proof (Z.mod_pos_bound us (second * interval) Hsi) as Hb.
  assert (K ≤ m / (2 ^ k * interval)) as HK.
  { apply Z.div_le_lower_bound; [nia|]. etransitivity; [|exact Hlo]. apply Z.div_le_lower_bound; [done|]. nia. }
  split_and!.
  - assert (current < scheduled + (K + 1) * interval * second); [|unfold second in *; nia]. unfold us in Hd, Hb. nia.
  - replace (scheduled + (m / (2 ^ k * interval) + 1) * interval * second - scheduled)
      with ((m / (2 ^ k * interval) + 1) * (interval * second)) by lia. apply Z.mod_mul. unfold second. lia.
  - intros Hnear. assert (20 ≤ k) as Hk20 by (pose proof (total_seconds_scale us m k 33 E); lia).
    assert (2 ^ 20 ≤ 2 ^ k) as Hp20 by (apply Z.pow_le_mono_r; lia).
    assert (m / (2 ^ k * interval) < K + 1) as HK'.
    { apply Z.div_lt_upper_bound; [nia|]. assert (us + 1 ≤ (K + 1) * interval * second) as Hu by nia.
      assert ((us + 1) * 2 ^ k ≤ (K + 1) * interval * second * 2 ^ k) by (apply Z.mul_le_mono_nonneg_r; lia).
      unfold second in *. nia. }
    unfold us in Hd, Hb. unfold second in *. nia.
Qed.

Example next_interval_exact_witness : (0 < 90 ∧ in_calendar friday = true ∧ in_calendar (friday + 200 * second) = true
  ∧ _next_interval 90 friday (friday + 200 * second) = Ok (friday + 270 * second))
  ∧ if friday + 200 * second <? friday then friday + 270 * second = friday
    else friday + 200 * second < friday + 270 * second ∧ (friday + 270 * second - friday) mod (90 * second) = 0
      ∧ (friday + 200 * second - friday < 2 ^ 33 * second → friday + 270 * second ≤ friday + 200 * second + 90 * second).
Proof.
  assert (_next_interval 90 friday (friday + 200 * second) = Ok (friday + 270 * second)) as H by (vm_compute; reflexivity).
  split; [split_and!; [done|vm_compute; reflexivity|vm_compute; reflexivity|exact H]|].
  apply (next_interval_exact 90 friday (friday + 200 * second)); [done|vm_compute; reflexivity|vm_compute; reflexivity|exact H].
Defined.

(** Where the text of an instant is compared, the instants are. *)
Lemma iso_le t u : in_calendar t = true → in_calendar u = true → String.le (_iso t) (_iso u) ↔ t ≤ u.
Proof. apply isoformat_le. Qed.

Lemma iso_inj t u : in_calendar t = true → in_calendar u = true → _iso t = _iso u → t = u.
Proof. intros Ht Hu He. pose proof (iso_le t u Ht Hu). pose proof (iso_le u t Hu Ht). rewrite He in *. pose proof (reflexivity (R := String.le) (_iso u)). naive_solver lia. Qed.

Lemma parse_iso_iso t field : in_calendar t = true → _parse_iso (_iso t) field = Ok t.
Proof.
  intros Ht. unfold _parse_iso, _iso. change {| dt_local := t; dt_offset := Some 0 |} with (utc t). rewrite fromisoformat_isoformat by done.
  unfold _aware_utc, to_utc, instant. cbn [utc dt_offset dt_local default]. rewrite Z.sub_0_r, Ht. done.
Qed.
