(* ===== verification/PersistentScheduler.v ===== *)
(** * The persistent scheduler

    [persistent_scheduler.py]: the SQLite tables of schedules bound to a task and its contract, of the claims
    on their due occurrences, and a hash-chained log of events. A claim only says that an occurrence is due:
    a schedule with an unresolved claim is passed over, an expired claim waits for a person. *)

From Stdlib Require Import Ascii.
From Stdlib Require String.
From S2P Require Import Prelude PyStr Hashlib PyFloat Json PyTime Validators TaskStore Cron.

Local Open Scope Z_scope.

Definition _MAX_DUE_PER_TICK : Z := 32.
Definition _MAX_INTERVAL_SECONDS : Z := 366 * 24 * 60 * 60.
Definition _MIN_INTERVAL_SECONDS : Z := 60.
Definition _MAX_CLAIM_LEASE_SECONDS : Z := 24 * 60 * 60.
Definition _TERMINAL_CLAIM_STATUSES : list string := ["SUCCEEDED"; "FAILED"; "CANCELLED"].
Definition _UNRESOLVED_CLAIM_STATUSES : list string := ["CLAIMED"; "RECOVERY_REQUIRED"].

Definition Schedule_canonical_json : json → result string :=
  canonical_json PersistentSchedulerError "SCHEDULE_STATE_NOT_CANONICAL_JSON".
Definition Schedule_digest `{Hashlib} : json → result string :=
  digest PersistentSchedulerError "SCHEDULE_STATE_NOT_CANONICAL_JSON".

Definition _schedule_id (value : string) : result string :=
  let text := strip value in ps_fail_if (negb (id_re text) || (128 <? len text)) "SCHEDULE_ID_INVALID" ;; Ok text.
Definition _task_id (value : string) : result string :=
  let text := strip value in ps_fail_if (negb (id_re text)) "SCHEDULE_TASK_ID_INVALID" ;; Ok text.

(** ** Schedules, claims and events *)

Record PersistentSchedule := {
  sch_schedule_id : string; sch_task_id : string; sch_kind : string; sch_schedule_value : string;
  sch_timezone_name : string; sch_contract_sha256 : string; sch_next_run_at : string; sch_enabled : bool;
  sch_created_at : string; sch_updated_at : string; sch_last_error : option string
}.
Record ScheduleClaim := {
  sc_claim_id : string; sc_schedule_id : string; sc_task_id : string; sc_scheduled_for : string; sc_claimed_at : string;
  sc_lease_until : string; sc_contract_sha256 : string; sc_status : string
}.
Record ScheduleEvent := {
  sv_sequence : Z; sv_event_id : string; sv_prev_hash : string; sv_event_hash : string; sv_schedule_id : string;
  sv_action : string; sv_timestamp : string; sv_details : json
}.

Definition SCHEDULE_SCHEMA : string := "workspace-persistent-schedule/v1".
Definition SCHEDULE_CLAIM_SCHEMA : string := "workspace-persistent-schedule-claim/v1".

Definition Schedule_to_dict (p : PersistentSchedule) : json := JObj [
  ("schema_version", JStr SCHEDULE_SCHEMA); ("schedule_id", JStr (sch_schedule_id p)); ("task_id", JStr (sch_task_id p));
  ("kind", JStr (sch_kind p)); ("schedule_value", JStr (sch_schedule_value p)); ("timezone", JStr (sch_timezone_name p));
  ("contract_sha256", JStr (sch_contract_sha256 p)); ("next_run_at", JStr (sch_next_run_at p)); ("enabled", JBool (sch_enabled p));
  ("created_at", JStr (sch_created_at p)); ("updated_at", JStr (sch_updated_at p));
  ("last_error", match sch_last_error p with Some e => JStr e | None => JNull end)].

Definition Claim_to_dict (c : ScheduleClaim) : json := JObj [
  ("schema_version", JStr SCHEDULE_CLAIM_SCHEMA); ("claim_id", JStr (sc_claim_id c)); ("schedule_id", JStr (sc_schedule_id c));
  ("task_id", JStr (sc_task_id c)); ("scheduled_for", JStr (sc_scheduled_for c)); ("claimed_at", JStr (sc_claimed_at c));
  ("lease_until", JStr (sc_lease_until c)); ("contract_sha256", JStr (sc_contract_sha256 c)); ("status", JStr (sc_status c))].

(** ** The tables *)

(** A row of [scheduled_jobs], whose key is the identifier of the schedule. *)
Record job_row := {
  jb_task_id : string; jb_kind : string; jb_schedule_value : string; jb_timezone_name : string; jb_contract_sha256 : string;
  jb_next_run_at : string; jb_enabled : bool; jb_created_at : string; jb_updated_at : string; jb_last_error : option string
}.
(** A row of [schedule_claims], whose key is the identifier of the claim. *)
Record claim_row := {
  cw_schedule_id : string; cw_task_id : string; cw_scheduled_for : string; cw_claimed_at : string; cw_lease_until : string;
  cw_contract_sha256 : string; cw_status : string; cw_completed_at : option string; cw_result_details : string
}.
Record schedule_event_row := {
  ve_event_id : string; ve_prev_hash : string; ve_event_hash : string; ve_schedule_id : string; ve_action : string;
  ve_timestamp : string; ve_details_json : string
}.

#[export] Instance job_row_eq_dec : EqDecision job_row.
Proof. solve_decision. Defined.
#[export] Instance claim_row_eq_dec : EqDecision claim_row.
Proof. solve_decision. Defined.

(** The events in the order of their sequence numbers, which count from 1. *)
Record ScheduleTables := {
  st_jobs : gmap string job_row;
  st_claims : gmap string claim_row;
  st_events : list schedule_event_row
}.
Definition no_schedules : ScheduleTables := {| st_jobs := ∅; st_claims := ∅; st_events := [] |}.

(** The database of the task store with the schedule tables, once they are created. *)
Record ScheduleDB := {
  sd_store : TaskStore;
  sd_tables : option ScheduleTables
}.

Definition set_schedule_store (t : TaskStore) (s : ScheduleDB) : ScheduleDB := {| sd_store := t; sd_tables := sd_tables s |}.
Definition set_schedule_tables (t : ScheduleTables) (s : ScheduleDB) : ScheduleDB := {|
  sd_store := sd_store s; sd_tables := Some t |}.
Definition set_jobs (j : gmap string job_row) (t : ScheduleTables) : ScheduleTables := {|
  st_jobs := j; st_claims := st_claims t; st_events := st_events t |}.
Definition set_claims (c : gmap string claim_row) (t : ScheduleTables) : ScheduleTables := {|
  st_jobs := st_jobs t; st_claims := c; st_events := st_events t |}.
Definition add_schedule_event (e : schedule_event_row) (t : ScheduleTables) : ScheduleTables := {|
  st_jobs := st_jobs t; st_claims := st_claims t; st_events := st_events t ++ [e] |}.

(** [with self.store.connect() as conn: conn.execute("BEGIN IMMEDIATE"); ...] *)
Definition schedule_transaction {A} (m : ST ScheduleDB A) : ST ScheduleDB A := λ s,
  let s0 := set_schedule_store (next_attempt (sd_store s)) s in
  if default false (head (ts_contention (sd_store s))) then (raise SqliteOperationalError "database is locked", s0)
  else match m s0 with
       | (Ok a, s') => (Ok a, s')
       | (Raise e, _) => (Raise e, s0)
       end.

Definition read_tables (table : string) : ST ScheduleDB ScheduleTables := λ s,
  (match sd_tables s with Some t => Ok t | None => raise SqliteOperationalError ("no such table: " +:+ table) end, s).

Definition modify_tables (f : ScheduleTables → ScheduleTables) : ST ScheduleDB unit :=
  t ← read_tables "scheduled_jobs"; st_modify (set_schedule_tables (f t)).

Definition Scheduler_initialize : ST ScheduleDB unit := λ s,
  match sd_tables s with
  | Some _ => (Ok tt, s)
  | None =>
      if default false (head (ts_contention (sd_store s)))
      then (raise SqliteOperationalError "database is locked", set_schedule_store (next_attempt (sd_store s)) s)
      else (Ok tt, {| sd_store := next_attempt (sd_store s); sd_tables := Some no_schedules |})
  end.

(** ** Rows *)

Definition _row_to_schedule (id : string) (r : job_row) : PersistentSchedule := {|
  sch_schedule_id := id; sch_task_id := jb_task_id r; sch_kind := jb_kind r; sch_schedule_value := jb_schedule_value r;
  sch_timezone_name := jb_timezone_name r; sch_contract_sha256 := jb_contract_sha256 r; sch_next_run_at := jb_next_run_at r;
  sch_enabled := jb_enabled r; sch_created_at := jb_created_at r; sch_updated_at := jb_updated_at r;
  sch_last_error := match jb_last_error r with Some "" => None | e => e end |}.

Definition _row_to_claim (id : string) (r : claim_row) (status : string) : ScheduleClaim := {|
  sc_claim_id := id; sc_schedule_id := cw_schedule_id r; sc_task_id := cw_task_id r; sc_scheduled_for := cw_scheduled_for r;
  sc_claimed_at := cw_claimed_at r; sc_lease_until := cw_lease_until r; sc_contract_sha256 := cw_contract_sha256 r;
  sc_status := status |}.

Definition set_next_run (next_run_at updated_at : string) (r : job_row) : job_row := {|
  jb_task_id := jb_task_id r; jb_kind := jb_kind r; jb_schedule_value := jb_schedule_value r; jb_timezone_name := jb_timezone_name r;
  jb_contract_sha256 := jb_contract_sha256 r; jb_next_run_at := next_run_at; jb_enabled := jb_enabled r;
  jb_created_at := jb_created_at r; jb_updated_at := updated_at; jb_last_error := None |}.
Definition set_enabled (enabled : bool) (updated_at : string) (last_error : option string) (r : job_row) : job_row := {|
  jb_task_id := jb_task_id r; jb_kind := jb_kind r; jb_schedule_value := jb_schedule_value r; jb_timezone_name := jb_timezone_name r;
  jb_contract_sha256 := jb_contract_sha256 r; jb_next_run_at := jb_next_run_at r; jb_enabled := enabled;
  jb_created_at := jb_created_at r; jb_updated_at := updated_at; jb_last_error := last_error |}.
Definition set_status (status : string) (r : claim_row) : claim_row := {|
  cw_schedule_id := cw_schedule_id r; cw_task_id := cw_task_id r; cw_scheduled_for := cw_scheduled_for r;
  cw_claimed_at := cw_claimed_at r; cw_lease_until := cw_lease_until r; cw_contract_sha256 := cw_contract_sha256 r;
  cw_status := status; cw_completed_at := cw_completed_at r; cw_result_details := cw_result_details r |}.
Definition set_result (status completed_at details : string) (r : claim_row) : claim_row := {|
  cw_schedule_id := cw_schedule_id r; cw_task_id := cw_task_id r; cw_scheduled_for := cw_scheduled_for r;
  cw_claimed_at := cw_claimed_at r; cw_lease_until := cw_lease_until r; cw_contract_sha256 := cw_contract_sha256 r;
  cw_status := status; cw_completed_at := Some completed_at; cw_result_details := details |}.

(** [ORDER BY key, id] over the rows of a table. *)
Definition row_le (a b : string * string) : Prop := a.1 ≠ b.1 ∧ String.le a.1 b.1 ∨ a.1 = b.1 ∧ String.le a.2 b.2.
#[export] Instance row_le_dec : RelDecision row_le := λ a b, decide (_ ∨ _).
Definition Schedule_order_by {R} (key : R → string) (rows : list (string * R)) : list (string * R) :=
  merge_sort (λ a b, row_le (key a.2, a.1) (key b.2, b.1)) rows.

(** [now or _utc_now()], as a UTC instant. *)
Definition current_time (now : option datetime) (s : ScheduleDB) : result Z :=
  match now with Some d => _aware_utc d "now" | None => to_utc (ts_now (sd_store s)) end.

Section Scheduler.
Context {HL : Hashlib} {ZI : ZoneInfo}.

(** ** The log *)

(** [text.split(":", 1)[1][:32]]. *)
Definition Schedule_short_digest (d : string) : string := take_str 32 (default "" (snd (partition ":" d))).

Definition schedule_event_body (schedule_id action timestamp : string) (details : json) (prev_hash : string) : json := JObj [
  ("schedule_id", JStr schedule_id); ("action", JStr action); ("timestamp", JStr timestamp); ("details", details);
  ("prev_hash", JStr prev_hash)].

Definition last_event_hash (events : list schedule_event_row) : string :=
  match last events with Some e => ve_event_hash e | None => "GENESIS" end.

Definition Schedule_append_event (schedule_id action : string) (timestamp : Z) (details : json) : ST ScheduleDB ScheduleEvent :=
  t ← read_tables "schedule_events";
  let prev_hash := last_event_hash (st_events t) in
  let timestamp_text := _iso timestamp in
  event_hash ← st_lift (Schedule_digest (schedule_event_body schedule_id action timestamp_text details prev_hash));
  let event_id := "sev_" +:+ Schedule_short_digest event_hash in
  details_json ← st_lift (Schedule_canonical_json details);
  st_raise_if (mem_str event_id (map ve_event_id (st_events t))) SqliteIntegrityError
    "UNIQUE constraint failed: schedule_events.event_id" ;;
  modify_tables (add_schedule_event {| ve_event_id := event_id; ve_prev_hash := prev_hash; ve_event_hash := event_hash;
    ve_schedule_id := schedule_id; ve_action := action; ve_timestamp := timestamp_text; ve_details_json := details_json |}) ;;
  mret {| sv_sequence := Z.of_nat (length (st_events t)) + 1; sv_event_id := event_id; sv_prev_hash := prev_hash;
          sv_event_hash := event_hash; sv_schedule_id := schedule_id; sv_action := action; sv_timestamp := timestamp_text;
          sv_details := details |}.

(** [all], stopping at the first row that does not follow from the one before. *)
Fixpoint verify_events (previous : string) (rows : list schedule_event_row) : result bool :=
  match rows with
  | [] => Ok true
  | row :: rows =>
      details ← loads (ve_details_json row);
      expected ← Schedule_digest (schedule_event_body (ve_schedule_id row) (ve_action row) (ve_timestamp row) details
                                    (ve_prev_hash row));
      if negb (bool_decide (ve_prev_hash row = previous)) then Ok false
      else if negb (bool_decide (ve_event_hash row = expected)) then Ok false
      else if negb (bool_decide (ve_event_id row = "sev_" +:+ Schedule_short_digest expected)) then Ok false
      else verify_events expected rows
  end.

Definition Schedule_verify_event_chain : ST ScheduleDB bool :=
  t ← read_tables "schedule_events"; st_lift (verify_events "GENESIS" (st_events t)).

(** ** Registration *)

Definition _contract_digest (store : TaskStore) (task_id : string) : result string :=
  match ts_contracts store !! task_id with
  | None => ps_fail "SCHEDULE_TASK_CONTRACT_REQUIRED"
  | Some row =>
      ps_fail_if (negb (is_sha256_ref (cb_contract_sha256 row))) "SCHEDULE_TASK_CONTRACT_DIGEST_INVALID" ;;
      Ok (cb_contract_sha256 row)
  end.

Definition _task_exists (store : TaskStore) (task_id : string) : result unit :=
  ps_fail_if (bool_decide (task_id ∉ ts_tasks store)) "SCHEDULE_TASK_NOT_FOUND".

Definition Scheduler_get (schedule_id : string) : ST ScheduleDB PersistentSchedule :=
  id ← st_lift (_schedule_id schedule_id);
  t ← read_tables "scheduled_jobs";
  match st_jobs t !! id with
  | None => st_lift (raise PyKeyError id)
  | Some row => mret (_row_to_schedule id row)
  end.

Definition _register (schedule_id task_id kind schedule_value timezone_name : string) (next_run_at now : Z)
    : ST ScheduleDB PersistentSchedule :=
  schedule_transaction (
    s ← st_get;
    st_lift (_task_exists (sd_store s) task_id) ;;
    contract_sha256 ← st_lift (_contract_digest (sd_store s) task_id);
    t ← read_tables "scheduled_jobs";
    st_raise_if (bool_decide (st_jobs t !! schedule_id ≠ None)) PersistentSchedulerError "SCHEDULE_ALREADY_EXISTS" ;;
    modify_tables (λ t, set_jobs (<[schedule_id := {| jb_task_id := task_id; jb_kind := kind;
      jb_schedule_value := schedule_value; jb_timezone_name := timezone_name; jb_contract_sha256 := contract_sha256;
      jb_next_run_at := _iso next_run_at; jb_enabled := true; jb_created_at := _iso now; jb_updated_at := _iso now;
      jb_last_error := None |}]> (st_jobs t)) t) ;;
    Schedule_append_event schedule_id "REGISTER" now (JObj [
      ("task_id", JStr task_id); ("kind", JStr kind); ("schedule_value", JStr schedule_value);
      ("timezone", JStr timezone_name); ("contract_sha256", JStr contract_sha256); ("next_run_at", JStr (_iso next_run_at))])) ;;
  Scheduler_get schedule_id.

Definition register_interval (schedule_id task_id : string) (interval_seconds : Z) (start_at now : option datetime)
    : ST ScheduleDB PersistentSchedule :=
  schedule_id ← st_lift (_schedule_id schedule_id);
  task_id ← st_lift (_task_id task_id);
  st_raise_if (negb ((_MIN_INTERVAL_SECONDS <=? interval_seconds) && (interval_seconds <=? _MAX_INTERVAL_SECONDS)))
    PersistentSchedulerError "SCHEDULE_INTERVAL_INVALID" ;;
  s ← st_get;
  current ← st_lift (current_time now s);
  start ← st_lift (match start_at with
                   | Some d => _aware_utc d "start_at"
                   | None => add_delta current (interval_seconds * second)
                   end);
  next_run ← st_lift (if start <? current then _next_interval interval_seconds start current else Ok start);
  _register schedule_id task_id "interval" (str_of_Z interval_seconds) "UTC" next_run current.

Definition register_cron (schedule_id task_id expression timezone_name : string) (now : option datetime)
    : ST ScheduleDB PersistentSchedule :=
  schedule_id ← st_lift (_schedule_id schedule_id);
  task_id ← st_lift (_task_id task_id);
  matcher ← st_lift (CronMatcher_parse expression);
  '(key, _) ← st_lift (_timezone timezone_name);
  s ← st_get;
  current ← st_lift (current_time now s);
  next_run ← st_lift (_next_cron (cm_expression matcher) key current);
  _register schedule_id task_id "cron" (cm_expression matcher) key next_run current.

Definition list_schedules (enabled_only : bool) : ST ScheduleDB (list PersistentSchedule) :=
  t ← read_tables "scheduled_jobs";
  let rows := filter (λ p, enabled_only = true → jb_enabled p.2 = true) (map_to_list (st_jobs t)) in
  mret (map (λ p, _row_to_schedule p.1 p.2) (Schedule_order_by (λ _, "") rows)).

Definition disable (schedule_id : string) (now : option datetime) : ST ScheduleDB PersistentSchedule :=
  schedule_id ← st_lift (_schedule_id schedule_id);
  s ← st_get;
  current ← st_lift (current_time now s);
  schedule_transaction (
    t ← read_tables "scheduled_jobs";
    match st_jobs t !! schedule_id with
    | None => st_lift (raise PyKeyError schedule_id)
    | Some row =>
        modify_tables (λ t, set_jobs (<[schedule_id := set_enabled false (_iso current) (jb_last_error row) row]> (st_jobs t)) t) ;;
        Schedule_append_event schedule_id "DISABLE" current (JObj [])
    end) ;;
  Scheduler_get schedule_id.

Definition _next_after_row (row : job_row) (now : Z) : result Z :=
  scheduled_for ← _parse_iso (jb_next_run_at row) "next_run_at";
  if bool_decide (jb_kind row = "interval") then
    interval ← reraise (int_of_str (jb_schedule_value row)) is_value_error PersistentSchedulerError "SCHEDULE_INTERVAL_CORRUPT";
    ps_fail_if (negb ((_MIN_INTERVAL_SECONDS <=? interval) && (interval <=? _MAX_INTERVAL_SECONDS))) "SCHEDULE_INTERVAL_CORRUPT" ;;
    _next_interval interval scheduled_for now
  else if bool_decide (jb_kind row = "cron") then _next_cron (jb_schedule_value row) (jb_timezone_name row) now
  else ps_fail "SCHEDULE_KIND_CORRUPT".

Definition enable (schedule_id : string) (now : option datetime) : ST ScheduleDB PersistentSchedule :=
  schedule_id ← st_lift (_schedule_id schedule_id);
  s ← st_get;
  current ← st_lift (current_time now s);
  schedule_transaction (
    t ← read_tables "scheduled_jobs";
    match st_jobs t !! schedule_id with
    | None => st_lift (raise PyKeyError schedule_id)
    | Some row =>
        s ← st_get;
        current_contract ← st_lift (_contract_digest (sd_store s) (jb_task_id row));
        st_raise_if (negb (bool_decide (current_contract = jb_contract_sha256 row))) PersistentSchedulerError
          "SCHEDULE_TASK_CONTRACT_CHANGED" ;;
        next_run ← st_lift (_next_after_row row current);
        modify_tables (λ t, set_jobs (<[schedule_id := set_enabled true (_iso current) None
          (set_next_run (_iso next_run) (_iso current) row)]> (st_jobs t)) t) ;;
        Schedule_append_event schedule_id "ENABLE" current (JObj [("next_run_at", JStr (_iso next_run))])
    end) ;;
  Scheduler_get schedule_id.

(** ** Claims *)

Definition unresolved_of (schedule_id : string) (c : claim_row) : bool :=
  bool_decide (cw_schedule_id c = schedule_id) && mem_str (cw_status c) _UNRESOLVED_CLAIM_STATUSES.
Definition _has_unresolved_claim (t : ScheduleTables) (schedule_id : string) : bool :=
  existsb (λ p, unresolved_of schedule_id p.2) (map_to_list (st_claims t)).

Definition auto_disable (schedule_id : string) (row : job_row) (current : Z) (reason : string) : ST ScheduleDB unit :=
  modify_tables (λ t, set_jobs (<[schedule_id := set_enabled false (_iso current) (Some reason) row]> (st_jobs t)) t) ;;
  Schedule_append_event schedule_id "AUTO_DISABLE" current (JObj [("reason_code", JStr reason)]) ;;
  mret tt.

Definition claim_identity (schedule_id task_id scheduled_for contract_sha256 : string) : json := JObj [
  ("schedule_id", JStr schedule_id); ("task_id", JStr task_id); ("scheduled_for", JStr scheduled_for);
  ("contract_sha256", JStr contract_sha256)].

(** The primary key and the unique occurrence of a new row of [schedule_claims]. *)
Definition claim_taken (t : ScheduleTables) (claim_id schedule_id scheduled_for : string) : bool :=
  bool_decide (st_claims t !! claim_id ≠ None)
  || existsb (λ p, bool_decide (cw_schedule_id p.2 = schedule_id ∧ cw_scheduled_for p.2 = scheduled_for)) (map_to_list (st_claims t)).

(** The body of the loop of [claim_due] on one row; [None] when it goes on with the next. *)
Definition claim_row_due (current lease_seconds : Z) (schedule_id : string) (row : job_row) : ST ScheduleDB (option ScheduleClaim) :=
  t ← read_tables "schedule_claims";
  if _has_unresolved_claim t schedule_id then mret None
  else
    s ← st_get;
    match _contract_digest (sd_store s) (jb_task_id row) with
    | Raise e => auto_disable schedule_id row current (exn_msg e) ;; mret None
    | Ok current_contract =>
        if negb (bool_decide (current_contract = jb_contract_sha256 row)) then
          auto_disable schedule_id row current "SCHEDULE_TASK_CONTRACT_CHANGED" ;; mret None
        else
          scheduled_for ← st_lift (_parse_iso (jb_next_run_at row) "next_run_at");
          next_run ← st_lift (_next_after_row row current);
          claim_digest ← st_lift (Schedule_digest (claim_identity schedule_id (jb_task_id row) (_iso scheduled_for) current_contract));
          let claim_id := "scl_" +:+ Schedule_short_digest claim_digest in
          lease_until ← st_lift (add_delta current (lease_seconds * second));
          st_raise_if (claim_taken t claim_id schedule_id (_iso scheduled_for)) PersistentSchedulerError
            "SCHEDULE_OCCURRENCE_ALREADY_CLAIMED" ;;
          let claim := {| cw_schedule_id := schedule_id; cw_task_id := jb_task_id row; cw_scheduled_for := _iso scheduled_for;
            cw_claimed_at := _iso current; cw_lease_until := _iso lease_until; cw_contract_sha256 := current_contract;
            cw_status := "CLAIMED"; cw_completed_at := None; cw_result_details := "{}" |} in
          modify_tables (λ t, set_claims (<[claim_id := claim]> (st_claims t)) t) ;;
          modify_tables (λ t, set_jobs (<[schedule_id := set_next_run (_iso next_run) (_iso current) row]> (st_jobs t)) t) ;;
          Schedule_append_event schedule_id "CLAIM" current (JObj [
            ("claim_id", JStr claim_id); ("scheduled_for", JStr (_iso scheduled_for)); ("lease_until", JStr (_iso lease_until));
            ("next_run_at", JStr (_iso next_run)); ("contract_sha256", JStr current_contract)]) ;;
          mret (Some (_row_to_claim claim_id claim "CLAIMED"))
    end.

Fixpoint claim_rows (current limit lease_seconds : Z) (rows : list (string * job_row)) (claims : list ScheduleClaim)
    : ST ScheduleDB (list ScheduleClaim) :=
  match rows with
  | [] => mret claims
  | (schedule_id, row) :: rows =>
      if limit <=? Z.of_nat (length claims) then mret claims
      else
        claim ← claim_row_due current lease_seconds schedule_id row;
        claim_rows current limit lease_seconds rows (claims ++ option_list claim)
  end.

(** [WHERE enabled=1 AND next_run_at<=? ORDER BY next_run_at,schedule_id LIMIT ?]; the times are compared as text. *)
Definition due_rows (t : ScheduleTables) (current_text : string) : list (string * job_row) :=
  take (Z.to_nat _MAX_DUE_PER_TICK) (Schedule_order_by jb_next_run_at
    (filter (λ p, jb_enabled p.2 = true ∧ String.le (jb_next_run_at p.2) current_text) (map_to_list (st_jobs t)))).

Definition claim_due (now : option datetime) (limit lease_seconds : Z) : ST ScheduleDB (list ScheduleClaim) :=
  st_raise_if (negb ((1 <=? limit) && (limit <=? _MAX_DUE_PER_TICK))) PersistentSchedulerError "SCHEDULE_DUE_LIMIT_INVALID" ;;
  st_raise_if (negb ((1 <=? lease_seconds) && (lease_seconds <=? _MAX_CLAIM_LEASE_SECONDS))) PersistentSchedulerError
    "SCHEDULE_LEASE_INVALID" ;;
  s ← st_get;
  current ← st_lift (current_time now s);
  schedule_transaction (
    t ← read_tables "scheduled_jobs";
    claim_rows current limit lease_seconds (due_rows t (_iso current)) []).

Definition mark_recovery (current : Z) (claim_id : string) (row : claim_row) : ST ScheduleDB ScheduleClaim :=
  modify_tables (λ t, set_claims (<[claim_id := set_status "RECOVERY_REQUIRED" row]> (st_claims t)) t) ;;
  Schedule_append_event (cw_schedule_id row) "RECOVERY_REQUIRED" current (JObj [("claim_id", JStr claim_id)]) ;;
  mret (_row_to_claim claim_id row "RECOVERY_REQUIRED").

Definition expired_claims (t : ScheduleTables) (current_text : string) (limit : Z) : list (string * claim_row) :=
  take (Z.to_nat limit) (Schedule_order_by cw_lease_until
    (filter (λ p, cw_status p.2 = "CLAIMED" ∧ String.le (cw_lease_until p.2) current_text) (map_to_list (st_claims t)))).

Definition mark_expired_claims_recovery_required (now : option datetime) (limit : Z) : ST ScheduleDB (list ScheduleClaim) :=
  st_raise_if (negb ((1 <=? limit) && (limit <=? 128))) PersistentSchedulerError "SCHEDULE_RECOVERY_LIMIT_INVALID" ;;
  s ← st_get;
  current ← st_lift (current_time now s);
  schedule_transaction (
    t ← read_tables "schedule_claims";
    st_mapM (λ p, mark_recovery current p.1 p.2) (expired_claims t (_iso current) limit)).

(** [details or {}]. *)
Definition complete_claim (claim_id status : string) (details : option (list (string * json))) (now : option datetime)
    : ST ScheduleDB ScheduleClaim :=
  let claim_id := strip claim_id in
  st_raise_if (negb (id_re claim_id)) PersistentSchedulerError "SCHEDULE_CLAIM_ID_INVALID" ;;
  let status := upper (strip status) in
  st_raise_if (negb (mem_str status _TERMINAL_CLAIM_STATUSES)) PersistentSchedulerError "SCHEDULE_CLAIM_TERMINAL_STATUS_INVALID" ;;
  let result_details := JObj (default [] details) in
  details_json ← st_lift (Schedule_canonical_json result_details);
  s ← st_get;
  current ← st_lift (current_time now s);
  schedule_transaction (
    t ← read_tables "schedule_claims";
    match st_claims t !! claim_id with
    | None => st_lift (raise PyKeyError claim_id)
    | Some row =>
        if mem_str (cw_status row) _TERMINAL_CLAIM_STATUSES then
          st_raise_if (negb (bool_decide (cw_status row = status))) PersistentSchedulerError "SCHEDULE_CLAIM_ALREADY_TERMINAL" ;;
          mret (_row_to_claim claim_id row (cw_status row))
        else
          st_raise_if (negb (mem_str (cw_status row) _UNRESOLVED_CLAIM_STATUSES)) PersistentSchedulerError
            "SCHEDULE_CLAIM_STATE_INVALID" ;;
          let row' := set_result status (_iso current) details_json row in
          modify_tables (λ t, set_claims (<[claim_id := row']> (st_claims t)) t) ;;
          Schedule_append_event (cw_schedule_id row) "COMPLETE" current (JObj [
            ("claim_id", JStr claim_id); ("status", JStr status); ("result", result_details)]) ;;
          mret (_row_to_claim claim_id row' status)
    end).

(** [ORDER BY claimed_at DESC,claim_id]. *)
Definition latest_first (a b : string * claim_row) : Prop :=
  cw_claimed_at a.2 ≠ cw_claimed_at b.2 ∧ String.le (cw_claimed_at b.2) (cw_claimed_at a.2)
  ∨ cw_claimed_at a.2 = cw_claimed_at b.2 ∧ String.le a.1 b.1.
#[export] Instance latest_first_dec : RelDecision latest_first := λ a b, decide (_ ∨ _).

Definition list_claims (statuses : option (list string)) (limit : Z) : ST ScheduleDB (list ScheduleClaim) :=
  st_raise_if (negb ((1 <=? limit) && (limit <=? 1000))) PersistentSchedulerError "SCHEDULE_CLAIM_LIST_LIMIT_INVALID" ;;
  wanted ← st_lift (match statuses with
                    | None => Ok None
                    | Some values =>
                        let normalized := map (λ v, upper (strip v)) values in
                        let allowed := _UNRESOLVED_CLAIM_STATUSES ++ _TERMINAL_CLAIM_STATUSES in
                        ps_fail_if (bool_decide (normalized = []) || negb (forallb (λ v, mem_str v allowed) normalized))
                          "SCHEDULE_CLAIM_STATUS_FILTER_INVALID" ;;
                        Ok (Some normalized)
                    end);
  t ← read_tables "schedule_claims";
  let rows := filter (λ p, from_option (mem_str (cw_status p.2)) true wanted = true) (map_to_list (st_claims t)) in
  mret (map (λ p, _row_to_claim p.1 p.2 (cw_status p.2)) (take (Z.to_nat limit) (merge_sort latest_first rows))).
End Scheduler.
