(* ===== verification/ScheduleFacts.v ===== *)
(** * The persistent scheduler: what its tables guarantee

    The changes an operation makes to the tables, as a step relation; the invariant of every reachable
    database - one unresolved claim for a schedule, one claim for an occurrence, an event chain that verifies -
    and the life of a claim. *)

From Stdlib Require Import Ascii SpecFloat.
From Stdlib Require String.
From S2P Require Import Prelude PyStr Hashlib PyFloat Json JsonFacts PyTime PyTimeFacts Validators TaskStore Cron CronFacts.
From S2P Require Import PersistentScheduler.

Local Open Scope Z_scope.

(** ** Steps of the tables *)

(** A schedule keeps what it was registered with. *)
Definition same_schedule (r r' : job_row) : Prop :=
  jb_task_id r' = jb_task_id r ∧ jb_kind r' = jb_kind r ∧ jb_schedule_value r' = jb_schedule_value r
  ∧ jb_timezone_name r' = jb_timezone_name r ∧ jb_contract_sha256 r' = jb_contract_sha256 r ∧ jb_created_at r' = jb_created_at r.

(** The next run is the text of an instant. *)
Definition job_ok (r : job_row) : Prop := ∃ n, in_calendar n = true ∧ jb_next_run_at r = _iso n.

Definition unresolved (c : claim_row) : Prop := cw_status c ∈ _UNRESOLVED_CLAIM_STATUSES.
Definition terminal (c : claim_row) : Prop := cw_status c ∈ _TERMINAL_CLAIM_STATUSES.

Definition open_claim (t : ScheduleTables) (schedule_id : string) : Prop :=
  ∃ cid c, st_claims t !! cid = Some c ∧ cw_schedule_id c = schedule_id ∧ unresolved c.

Lemma has_unresolved_spec t id : _has_unresolved_claim t id = true ↔ open_claim t id.
Proof.
  unfold _has_unresolved_claim, open_claim. rewrite existsb_exists. split.
  - intros ((cid & c) & Hin & Hu). apply list_elem_of_In, elem_of_map_to_list in Hin. cbn [snd] in Hu.
    unfold unresolved_of in Hu. apply andb_true_iff in Hu as [Hid%bool_decide_eq_true Hs%mem_str_true]. by exists cid, c.
  - intros (cid & c & Hc & Hid & Hu). exists (cid, c). split; [by apply list_elem_of_In, elem_of_map_to_list|].
    unfold unresolved_of. cbn [snd]. apply andb_true_iff. by rewrite bool_decide_eq_true, mem_str_true.
Qed.

Lemma has_unresolved_false t id : _has_unresolved_claim t id = false ↔ ¬ open_claim t id.
Proof. rewrite <- has_unresolved_spec. by destruct (_has_unresolved_claim t id). Qed.

Lemma claim_taken_false t cid id time : claim_taken t cid id time = false ↔
  st_claims t !! cid = None ∧ ∀ cid' c, st_claims t !! cid' = Some c → ¬ (cw_schedule_id c = id ∧ cw_scheduled_for c = time).
Proof.
  unfold claim_taken. rewrite orb_false_iff, bool_decide_eq_false. split.
  - intros [Hn He]. split; [by apply dec_stable|]. intros cid' c Hc Hs.
    assert (existsb (λ p, bool_decide (cw_schedule_id p.2 = id ∧ cw_scheduled_for p.2 = time)) (map_to_list (st_claims t)) = true); [|congruence].
    apply existsb_exists. exists (cid', c). split; [by apply list_elem_of_In, elem_of_map_to_list|]. by apply bool_decide_eq_true.
  - intros [Hn Hall]. split; [by rewrite Hn; tauto|]. apply not_true_is_false. intros He. apply existsb_exists in He as ((cid' & c) & Hin & Hb).
    apply list_elem_of_In, elem_of_map_to_list in Hin. apply bool_decide_eq_true in Hb. by eapply Hall.
Qed.

Section Facts.
Context {HL : Hashlib} {ZI : ZoneInfo}.

(** An event that follows the events of a log. *)
Definition follows (events : list schedule_event_row) (e : schedule_event_row) : Prop :=
  ∃ details hash, json_ok details = true ∧ ve_prev_hash e = last_event_hash events ∧ ve_details_json e = print details
  ∧ Schedule_digest (schedule_event_body (ve_schedule_id e) (ve_action e) (ve_timestamp e) details (ve_prev_hash e)) = Ok hash
  ∧ ve_event_hash e = hash ∧ ve_event_id e = "sev_" +:+ Schedule_short_digest hash.

Inductive table_step (t : ScheduleTables) : ScheduleTables → Prop :=
  | step_register id row : st_jobs t !! id = None → job_ok row → table_step t (set_jobs (<[id := row]> (st_jobs t)) t)
  | step_job id row row' : st_jobs t !! id = Some row → same_schedule row row' → (job_ok row → job_ok row') →
      table_step t (set_jobs (<[id := row']> (st_jobs t)) t)
  | step_claim cid row c : st_jobs t !! (cw_schedule_id c) = Some row → ¬ open_claim t (cw_schedule_id c) →
      claim_taken t cid (cw_schedule_id c) (cw_scheduled_for c) = false → cw_status c = "CLAIMED" →
      cw_task_id c = jb_task_id row → cw_contract_sha256 c = jb_contract_sha256 row →
      table_step t (set_claims (<[cid := c]> (st_claims t)) t)
  | step_recover cid c : st_claims t !! cid = Some c → cw_status c = "CLAIMED" →
      table_step t (set_claims (<[cid := set_status "RECOVERY_REQUIRED" c]> (st_claims t)) t)
  | step_complete cid c status completed_at details : st_claims t !! cid = Some c → unresolved c → status ∈ _TERMINAL_CLAIM_STATUSES →
      table_step t (set_claims (<[cid := set_result status completed_at details c]> (st_claims t)) t)
  | step_event e : follows (st_events t) e → table_step t (add_schedule_event e t).

(** ** The invariant *)

Record tables_ok (t : ScheduleTables) : Prop := {
  to_jobs : ∀ id row, st_jobs t !! id = Some row → job_ok row;
  to_claims : ∀ cid c, st_claims t !! cid = Some c → (unresolved c ∨ terminal c) ∧ ∃ row,
    st_jobs t !! cw_schedule_id c = Some row ∧ cw_task_id c = jb_task_id row ∧ cw_contract_sha256 c = jb_contract_sha256 row;
  to_single : ∀ cid cid' c c', st_claims t !! cid = Some c → st_claims t !! cid' = Some c' →
    cw_schedule_id c = cw_schedule_id c' → unresolved c → unresolved c' → cid = cid';
  to_occurrence : ∀ cid cid' c c', st_claims t !! cid = Some c → st_claims t !! cid' = Some c' →
    cw_schedule_id c = cw_schedule_id c' → cw_scheduled_for c = cw_scheduled_for c' → cid = cid';
  to_chain : verify_events "GENESIS" (st_events t) = Ok true
}.

Lemma no_schedules_ok : tables_ok no_schedules.
Proof. split; intros; set_solver. Qed.

(** ** The event chain *)

Lemma schedule_digest_print body hash : Schedule_digest body = Ok hash → hash = sha256_of_text (print body) ∧ all_finite body = true.
Proof.
  unfold Schedule_digest, digest, canonical_json, dumps. destruct (all_finite body); [|done]. cbn. by intros [= <-].
Qed.

(** The digest is that of the details as they are read back. *)
Lemma body_canon id action time details prev : json_ok details = true →
  Schedule_digest (schedule_event_body id action time (canon details) prev) = Schedule_digest (schedule_event_body id action time details prev).
Proof.
  intros Hok. unfold Schedule_digest, digest, canonical_json, dumps.
  assert (all_finite (canon details) = true) as Hc.
  { pose proof (json_ok_finite _ Hok) as H. revert H. clear. induction details as [| | |f| |l IH|l IH] using json_ind'; try done; cbn [canon all_finite].
    - rewrite !forallb_forall. intros H x Hx%in_map_iff. destruct Hx as (y & <- & Hy). rewrite List.Forall_forall in IH. auto.
    - rewrite !forallb_forall. intros H x Hx. rewrite <- list_elem_of_In in Hx. rewrite sort_items_perm in Hx.
      apply list_elem_of_fmap in Hx as (y & -> & Hy%list_elem_of_In). rewrite List.Forall_forall in IH. cbn. by apply IH, H. }
  unfold schedule_event_body. cbn [all_finite forallb snd]. rewrite Hc, json_ok_finite by done. cbn [andb reraise catch mbind result_bind].
  cbn [print map fst snd]. by rewrite print_canon.
Qed.

Lemma last_event_hash_snoc events e : last_event_hash (events ++ [e]) = ve_event_hash e.
Proof. unfold last_event_hash. by rewrite last_snoc. Qed.

Lemma verify_events_snoc previous events e : verify_events previous events = Ok true →
  follows events e → previous = "GENESIS" ∨ events ≠ [] →
  verify_events previous (events ++ [e]) = Ok true.
Proof.
  revert previous. induction events as [|x events IH]; intros previous Hv Hf Hp.
  - destruct Hp as [->|]; [|done]. destruct Hf as (details & hash & Hok & Hprev & Hd & Hh & He & Hid). cbn [app verify_events].
    rewrite Hd, (loads_dumps details _ Hok (dumps_ok _ Hok)). cbn [mbind result_bind]. rewrite body_canon, Hh by done.
    cbn [mbind result_bind]. rewrite He, Hid, Hprev. cbn. by rewrite !bool_decide_true.
  - cbn [app verify_events] in Hv |- *. apply bind_ok_iff in Hv as (details & -> & Hv). apply bind_ok_iff in Hv as (expected & Hex & Hv).
    cbn [mbind result_bind]. rewrite Hex. cbn [mbind result_bind].
    destruct (negb (bool_decide (ve_prev_hash x = previous))); [done|].
    destruct (negb (bool_decide (ve_event_hash x = expected))) eqn:Ee; [done|].
    destruct (negb (bool_decide (ve_event_id x = _))); [done|].
    destruct events as [|y events].
    + destruct Hf as (d & hash & Hok & Hprev & Hd & Hh & He & Hid). cbn [app verify_events].
      rewrite Hd, (loads_dumps d _ Hok (dumps_ok _ Hok)). cbn [mbind result_bind]. rewrite body_canon, Hh by done.
      cbn [mbind result_bind]. rewrite He, Hid, Hprev. apply negb_false_iff, bool_decide_eq_true in Ee.
      cbn. by rewrite Ee, !bool_decide_true.
    + apply IH; [done| |by right]. destruct Hf as (d & hash & Hok & Hprev & Hrest). exists d, hash. split; [done|]. split; [|done].
      rewrite Hprev. unfold last_event_hash. by rewrite !last_cons_cons.
Qed.

(** ** Every step keeps the invariant *)

Lemma unresolved_not_terminal c : unresolved c → terminal c → False.
Proof.
  unfold unresolved, terminal, _UNRESOLVED_CLAIM_STATUSES, _TERMINAL_CLAIM_STATUSES. rewrite !elem_of_cons, !elem_of_nil.
  intros H1 H2. destruct_or! H1; destruct_or! H2; try done; congruence.
Qed.

(** A change of one row that keeps its schedule and what it claims. *)
Definition same_claim (c c' : claim_row) : Prop :=
  cw_schedule_id c' = cw_schedule_id c ∧ cw_task_id c' = cw_task_id c ∧ cw_scheduled_for c' = cw_scheduled_for c
  ∧ cw_claimed_at c' = cw_claimed_at c ∧ cw_lease_until c' = cw_lease_until c ∧ cw_contract_sha256 c' = cw_contract_sha256 c.

Lemma update_claim_ok t cid c c' : tables_ok t → st_claims t !! cid = Some c → same_claim c c' →
  (unresolved c' ∨ terminal c') → (unresolved c' → unresolved c) → tables_ok (set_claims (<[cid := c']> (st_claims t)) t).
Proof.
  intros Hok Hc (Hs & Ht & Hf & _ & _ & Hsha) Hst Hu. destruct Hok as [Hj Hcl Hsi Hoc Hch].
  split; cbn [st_jobs st_claims st_events set_claims]; [done|..|done].
  - intros cid' d. destruct (decide (cid' = cid)) as [->|Hne]; [|rewrite lookup_insert_ne by done; apply Hcl].
    rewrite lookup_insert_eq. intros [= <-]. split; [done|]. destruct (Hcl _ _ Hc) as [_ (row & Hr)]. exists row. by rewrite Hs, Ht, Hsha.
  - intros i j a b. rewrite !lookup_insert_Some. intros [[<- <-]|[Hi Ha]] [[<- <-]|[Hj' Hb]] He Hua Hub; [done|..].
    + eapply Hsi; [exact Hc|exact Hb|congruence|by apply Hu|done].
    + eapply Hsi; [exact Ha|exact Hc|congruence|done|by apply Hu].
    + by eapply Hsi.
  - intros i j a b. rewrite !lookup_insert_Some. intros [[<- <-]|[Hi Ha]] [[<- <-]|[Hj' Hb]] He Hfa; [done|..].
    + eapply Hoc; [exact Hc|exact Hb|congruence..].
    + eapply Hoc; [exact Ha|exact Hc|congruence..].
    + by eapply Hoc.
Qed.

Lemma new_claim_ok t cid c row : tables_ok t → st_jobs t !! cw_schedule_id c = Some row → ¬ open_claim t (cw_schedule_id c) →
  claim_taken t cid (cw_schedule_id c) (cw_scheduled_for c) = false → unresolved c →
  cw_task_id c = jb_task_id row → cw_contract_sha256 c = jb_contract_sha256 row →
  tables_ok (set_claims (<[cid := c]> (st_claims t)) t).
Proof.
  intros [Hj Hcl Hsi Hoc Hch] Hrow Hopen [Hnew Htaken]%claim_taken_false Hst Ht Hsha.
  split; cbn [st_jobs st_claims st_events set_claims]; [done|..|done].
  - intros cid' d. destruct (decide (cid' = cid)) as [->|Hne]; [|rewrite lookup_insert_ne by done; apply Hcl].
    rewrite lookup_insert_eq. intros [= <-]. split; [by left|]. by exists row.
  - intros i j a b. rewrite !lookup_insert_Some. intros [[<- <-]|[Hi Ha]] [[<- <-]|[Hj' Hb]] He Hua Hub; [done|..].
    + destruct Hopen. by exists j, b.
    + destruct Hopen. by exists i, a.
    + by eapply Hsi.
  - intros i j a b. rewrite !lookup_insert_Some. intros [[<- <-]|[Hi Ha]] [[<- <-]|[Hj' Hb]] He Hf; [done|..].
    + by destruct (Htaken _ _ Hb).
    + by destruct (Htaken _ _ Ha).
    + by eapply Hoc.
Qed.

Lemma update_job_ok t id row : tables_ok t → job_ok row →
  (∀ r, st_jobs t !! id = Some r → same_schedule r row) → tables_ok (set_jobs (<[id := row]> (st_jobs t)) t).
Proof.
  intros [Hj Hcl Hsi Hoc Hch] Hrow Hsame. split; cbn [st_jobs st_claims st_events set_jobs]; [..|done|done|done].
  - intros i r. rewrite lookup_insert_Some. intros [[<- <-]|[Hi Hr]]; [done|by eapply Hj].
  - intros cid c Hc. destruct (Hcl _ _ Hc) as (Hst & r & Hr & Ht & Hsha). split; [done|].
    destruct (decide (cw_schedule_id c = id)) as [<-|Hne].
    + exists row. rewrite lookup_insert_eq. destruct (Hsame _ Hr) as (E1 & _ & _ & _ & E2 & _). split; [done|]. by rewrite E1, E2.
    + exists r. by rewrite lookup_insert_ne.
Qed.

Lemma table_step_ok t t' : tables_ok t → table_step t t' → tables_ok t'.
Proof.
  intros Hok [id row Hn Hr|id row row' Hr Hs Hj|cid row c Hr Ho Ht Hst Htask Hsha|cid c Hc Hst|cid c status w d Hc Hu Hst|e He].
  - apply update_job_ok; [done|done|]. by rewrite Hn.
  - apply update_job_ok; [done|apply Hj; by eapply to_jobs|]. intros r. rewrite Hr. by intros [= <-].
  - eapply new_claim_ok; try done. unfold unresolved. rewrite Hst. apply elem_of_cons. by left.
  - eapply update_claim_ok; [done|exact Hc|done|left|]; unfold unresolved; cbn [set_status cw_status]; [set_solver|].
    rewrite Hst. set_solver.
  - eapply update_claim_ok; [done|exact Hc|done|by right|done].
  - destruct Hok as [Hj Hcl Hsi Hoc Hch]. split; try done. cbn [st_events add_schedule_event].
    apply verify_events_snoc; [done|done|by left].
Qed.

Lemma table_steps_ok t t' : tables_ok t → rtc table_step t t' → tables_ok t'.
Proof. intros Hok H. induction H as [|a b c Hs _ IH]; [done|]. apply IH. by eapply table_step_ok. Qed.

(** ** The life of a claim *)

(** A claim is open, then waits for recovery or not, then has its result for good. *)
Definition claim_life (c c' : claim_row) : Prop :=
  c' = c ∨ (cw_status c = "CLAIMED" ∧ c' = set_status "RECOVERY_REQUIRED" c)
  ∨ (unresolved c ∧ ∃ status completed_at details, status ∈ _TERMINAL_CLAIM_STATUSES ∧ c' = set_result status completed_at details c).

Lemma terminal_is_final c c' : terminal c → claim_life c c' → c' = c.
Proof.
  intros Ht [->|[[Hs _]|[Hu _]]]; [done|..]; exfalso; eapply unresolved_not_terminal; try done.
  unfold unresolved. rewrite Hs. set_solver.
Qed.

Lemma claim_life_trans c c' c'' : claim_life c c' → claim_life c' c'' → claim_life c c''.
Proof.
  intros [->|[[Hs ->]|[Hu (st & w & d & Hst & ->)]]] H2; [done|..].
  - destruct H2 as [->|[[Hs' _]|[_ (st & w & d & Hst & ->)]]]; [by right; left|done|].
    right. right. split; [unfold unresolved; rewrite Hs; set_solver|]. by exists st, w, d.
  - right. right. split; [done|]. exists st, w, d. split; [done|].
    apply terminal_is_final in H2; [done|]. done.
Qed.

(** What a later database still has of an earlier one. *)
Record later (t t' : ScheduleTables) : Prop := {
  la_jobs : ∀ id row, st_jobs t !! id = Some row → ∃ row', st_jobs t' !! id = Some row' ∧ same_schedule row row';
  la_claims : ∀ cid c, st_claims t !! cid = Some c → ∃ c', st_claims t' !! cid = Some c' ∧ claim_life c c';
  la_events : ∃ new, st_events t' = st_events t ++ new
}.

#[export] Instance later_preorder : PreOrder later.
Proof.
  split.
  - intros t. split; [by intros id row H; exists row|by intros cid c H; exists c; split; [|left]|exists []; by rewrite app_nil_r].
  - intros t1 t2 t3 [Hj Hc [n1 He]] [Hj' Hc' [n2 He']]. split.
    + intros id row H. destruct (Hj _ _ H) as (r2 & H2 & S2). destruct (Hj' _ _ H2) as (r3 & H3 & S3).
      exists r3. split; [done|]. unfold same_schedule in *. naive_solver congruence.
    + intros cid c H. destruct (Hc _ _ H) as (c2 & H2 & L2). destruct (Hc' _ _ H2) as (c3 & H3 & L3).
      exists c3. split; [done|]. by eapply claim_life_trans.
    + exists (n1 ++ n2). by rewrite He', He, app_assoc.
Qed.

Lemma later_claims t cid c c' : st_claims t !! cid = Some c → claim_life c c' → later t (set_claims (<[cid := c']> (st_claims t)) t).
Proof.
  intros Hc Hl. split; cbn [st_jobs st_claims st_events set_claims].
  - intros id row H. by exists row.
  - intros i d Hd. destruct (decide (i = cid)) as [->|Hne].
    + exists c'. rewrite lookup_insert_eq. split; [done|]. congruence.
    + exists d. rewrite lookup_insert_ne by done. split; [done|by left].
  - exists []. by rewrite app_nil_r.
Qed.

Lemma later_jobs t id row : (∀ r, st_jobs t !! id = Some r → same_schedule r row) → later t (set_jobs (<[id := row]> (st_jobs t)) t).
Proof.
  intros Hs. split; cbn [st_jobs st_claims st_events set_jobs].
  - intros i r Hr. destruct (decide (i = id)) as [->|Hne].
    + exists row. rewrite lookup_insert_eq. split; [done|by apply Hs].
    + exists r. by rewrite lookup_insert_ne.
  - intros cid c H. exists c. split; [done|by left].
  - exists []. by rewrite app_nil_r.
Qed.

Lemma table_step_later t t' : table_step t t' → later t t'.
Proof.
  intros [id row Hn Hr|id row row' Hr Hs Hj|cid row c Hr Ho Ht Hst Htask Hsha|cid c Hc Hst|cid c status w d Hc Hu Hst|e He].
  - apply later_jobs. by rewrite Hn.
  - apply later_jobs. intros r. rewrite Hr. by intros [= <-].
  - apply claim_taken_false in Ht as [Hn _]. split; cbn [st_jobs st_claims st_events set_claims].
    + intros id r H. by exists r.
    + intros i d Hd. exists d. rewrite lookup_insert_ne by (intros ->; congruence). split; [done|by left].
    + exists []. by rewrite app_nil_r.
  - eapply later_claims; [done|]. by right; left.
  - eapply later_claims; [done|]. right. right. split; [done|]. by exists status, w, d.
  - split; cbn [st_jobs st_claims st_events add_schedule_event]; [by intros id r H; exists r|by intros cid c H; exists c; split; [|left]|by exists [e]].
Qed.

Lemma table_steps_later t t' : rtc table_step t t' → later t t'.
Proof. induction 1 as [|a b c Hs _ IH]; [done|]. etransitivity; [by apply table_step_later|done]. Qed.

(** ** What the operations do to the tables *)

Definition moved (s s' : ScheduleDB) : Prop :=
  match sd_tables s with
  | None => sd_tables s' = None
  | Some t => ∃ t', sd_tables s' = Some t' ∧ rtc table_step t t'
  end.

#[export] Instance moved_preorder : PreOrder moved.
Proof.
  split.
  - intros s. unfold moved. destruct (sd_tables s); [by eexists|done].
  - intros s1 s2 s3. unfold moved. destruct (sd_tables s1) as [t1|]; [|by intros ->].
    intros (t2 & -> & H2) (t3 & -> & H3). exists t3. split; [done|]. by etransitivity.
Qed.

(** The operation moves the tables by steps, whether it returns or raises, and leaves the task store alone. *)
Definition steps_from {A} (s : ScheduleDB) (m : ST ScheduleDB A) : Prop :=
  moved s (m s).2 ∧ ts_contracts (sd_store (m s).2) = ts_contracts (sd_store s).

Lemma steps_bind {A B} s (m : ST ScheduleDB A) (f : A → ST ScheduleDB B) :
  steps_from s m → (∀ a s1, m s = (Ok a, s1) → steps_from s1 (f a)) → steps_from s (m ≫= f).
Proof.
  unfold steps_from, mbind, st_bind. intros [Hm Hc] Hf. destruct (m s) as [[a|e] s1]; cbn [snd] in *; [|done].
  specialize (Hf a s1 eq_refl) as [Hf Hc']. split; [by etransitivity|congruence].
Qed.

Lemma steps_lift {A} s (r : result A) : steps_from s (st_lift r).
Proof. split; [reflexivity|done]. Qed.
Lemma steps_ret {A} s (a : A) : steps_from s (mret a).
Proof. split; [reflexivity|done]. Qed.
Lemma steps_get s : steps_from s st_get.
Proof. split; [reflexivity|done]. Qed.
Lemma steps_raise_if s b c m : steps_from s (st_raise_if b c m).
Proof. apply steps_lift. Qed.
Lemma steps_read s name : steps_from s (read_tables name).
Proof. split; [reflexivity|done]. Qed.

Lemma read_tables_ok name s t s1 : read_tables name s = (Ok t, s1) → sd_tables s = Some t ∧ s1 = s.
Proof. unfold read_tables. destruct (sd_tables s); [|done]. by intros [= -> ->]. Qed.

Lemma modify_tables_ok f s u s1 : modify_tables f s = (Ok u, s1) → ∃ t, sd_tables s = Some t ∧ s1 = set_schedule_tables (f t) s.
Proof.
  unfold modify_tables, mbind, st_bind, read_tables, st_modify. destruct (sd_tables s) as [t|]; [|done].
  intros [= _ <-]. by exists t.
Qed.

Lemma steps_modify f s : (∀ t, sd_tables s = Some t → rtc table_step t (f t)) → steps_from s (modify_tables f).
Proof.
  intros Hf. unfold steps_from, modify_tables, mbind, st_bind, read_tables, st_modify, moved.
  destruct (sd_tables s) as [t|] eqn:E; cbn [snd fst sd_tables sd_store set_schedule_tables]; [|by split].
  split; [|done]. exists (f t). split; [done|by apply Hf].
Qed.

Lemma next_attempt_contracts s : ts_contracts (next_attempt s) = ts_contracts s.
Proof. done. Qed.

(** The same, when the operation returns: a transaction that raises is taken back. *)
Definition steps_ok {A} (s : ScheduleDB) (m : ST ScheduleDB A) : Prop :=
  ∀ a s', m s = (Ok a, s') → moved s s' ∧ ts_contracts (sd_store s') = ts_contracts (sd_store s).

Lemma steps_from_ok {A} s (m : ST ScheduleDB A) : steps_from s m → steps_ok s m.
Proof. intros H a s' E. unfold steps_from in H. by rewrite E in H. Qed.

Lemma steps_transaction {A} s (m : ST ScheduleDB A) :
  steps_ok (set_schedule_store (next_attempt (sd_store s)) s) m → steps_from s (schedule_transaction m).
Proof.
  unfold steps_from, schedule_transaction. set (s0 := set_schedule_store _ s).
  assert (moved s s0) as H0 by (unfold moved; cbn; destruct (sd_tables s); [by eexists|done]).
  destruct (default false _); [done|].
  intros Hok. specialize (Hok). unfold steps_ok in Hok. destruct (m s0) as [[a|e] s']; cbn [snd]; [|done].
  destruct (Hok a s' eq_refl) as [Hm Hc]. split; [by etransitivity|done].
Qed.

Create HintDb schedules.
#[local] Hint Resolve steps_lift steps_ret steps_get steps_raise_if steps_read : schedules.

(** Take one operation after the other. *)
Ltac steps :=
  repeat first
    [ solve [eauto with schedules]
    | match goal with
      | |- steps_from _ (schedule_transaction _) => apply steps_transaction, steps_from_ok
      | |- steps_from _ (mbind _ _) => apply steps_bind; [|intros ? ? ?]
      | |- steps_from _ (if ?b then _ else _) => destruct b eqn:?
      | |- steps_from _ (match ?x with _ => _ end) => destruct x eqn:?
      end ].

Lemma append_event_steps s id action time details : json_ok details = true → steps_from s (Schedule_append_event id action time details).
Proof.
  intros Hok. unfold Schedule_append_event. apply steps_bind; [apply steps_read|]. intros t s1 [Ht ->]%read_tables_ok.
  apply steps_bind; [apply steps_lift|]. intros hash s1 [Hhash <-]%pair_equal_spec.
  apply steps_bind; [apply steps_lift|]. intros text s2 [Htext <-]%pair_equal_spec.
  apply steps_bind; [apply steps_raise_if|]. intros ? s3 [_ <-]%pair_equal_spec.
  apply steps_bind; [|intros ? ? _; apply steps_ret].
  apply steps_modify. intros t' Ht'. assert (t' = t) as -> by congruence. apply rtc_once, step_event.
  exists details, hash. split; [done|]. split; [done|]. split; [|split; [exact Hhash|done]].
  cbn [ve_details_json]. unfold Schedule_canonical_json, canonical_json in Htext. rewrite dumps_ok in Htext by done. by injection Htext.
Qed.
#[local] Hint Resolve append_event_steps : schedules.

(** The tables after an event was appended. *)
Lemma append_event_tables s id action time details e s' t : sd_tables s = Some t →
  Schedule_append_event id action time details s = (Ok e, s') → ∃ row, s' = set_schedule_tables (add_schedule_event row t) s.
Proof.
  intros Ht. unfold Schedule_append_event, mbind, st_bind, read_tables. rewrite Ht. unfold st_lift.
  destruct (Schedule_digest _) as [hash|]; [|done]. destruct (Schedule_canonical_json details) as [text|]; [|done].
  unfold st_raise_if, st_lift, raise_if. destruct (mem_str _ _); [done|]. unfold modify_tables, mbind, st_bind, read_tables. rewrite Ht.
  unfold st_modify, mret, st_ret. intros [= _ <-]. by eexists.
Qed.

Lemma modify_on s f t : sd_tables s = Some t → modify_tables f s = (Ok tt, set_schedule_tables (f t) s).
Proof. intros Ht. unfold modify_tables, mbind, st_bind, read_tables. by rewrite Ht. Qed.

Lemma get_steps s id : steps_from s (Scheduler_get id).
Proof. unfold Scheduler_get. steps. Qed.
#[local] Hint Resolve get_steps : schedules.

(** ** Every time the scheduler writes lies in the calendar *)

Lemma aware_utc_ok d f t : _aware_utc d f = Ok t → in_calendar t = true.
Proof.
  unfold _aware_utc, to_utc. destruct (dt_offset d); [|done]. rewrite guard_bind_ok, negb_false_iff. by intros [H [= <-]].
Qed.

Lemma current_time_ok now s t : current_time now s = Ok t → in_calendar t = true.
Proof.
  unfold current_time. destruct now as [d|]; [apply aware_utc_ok|]. unfold to_utc. rewrite guard_bind_ok, negb_false_iff.
  by intros [H [= <-]].
Qed.

Lemma parse_iso_ok text f t : _parse_iso text f = Ok t → in_calendar t = true.
Proof. unfold _parse_iso. destruct (fromisoformat text); [apply aware_utc_ok|done]. Qed.

Lemma next_interval_ok i scheduled now t : in_calendar scheduled = true → _next_interval i scheduled now = Ok t → in_calendar t = true.
Proof.
  unfold _next_interval. intros Hs. destruct (now <? scheduled); [by intros [= <-]|]. by intros [-> H]%add_delta_ok.
Qed.

Lemma cron_search_ok rounds m tz cursor t : in_calendar cursor = true → cron_search rounds m tz cursor = Ok t → in_calendar t = true.
Proof.
  revert cursor. induction rounds as [|rounds IH]; intros cursor Hc H; [done|]. cbn [cron_search] in H.
  apply bind_ok_iff in H as (local & _ & H). destruct (CronMatcher_matches m local); [by injection H as <-|].
  apply bind_ok_iff in H as (next & [-> Hn]%add_delta_ok & H). by eapply IH.
Qed.

Lemma next_cron_ok e z now t : _next_cron e z now = Ok t → in_calendar t = true ∧ now < t.
Proof.
  unfold _next_cron. intros H. apply bind_ok_iff in H as (m & Hm & H). apply bind_ok_iff in H as ([key tz] & _ & H).
  apply bind_ok_iff in H as (cursor & [-> Hc]%add_delta_ok & H). split; [by eapply cron_search_ok|].
  by apply (cron_search_first _ _ _ _ _ _ Hm) in H as [Hlt _].
Qed.

Lemma next_after_row_ok row now t : in_calendar now = true → _next_after_row row now = Ok t → in_calendar t = true ∧ now < t.
Proof.
  unfold _next_after_row. intros Hnow H. apply bind_ok_iff in H as (sch & Hs & H). apply parse_iso_ok in Hs.
  case_bool_decide; [|case_bool_decide; [by apply next_cron_ok in H|done]].
  apply bind_ok_iff in H as (i & _ & H). unfold ps_fail_if in H. apply guard_bind_ok in H as [Hi H].
  apply negb_false_iff, andb_true_iff in Hi as [Hi _]. apply Z.leb_le in Hi. unfold _MIN_INTERVAL_SECONDS in Hi.
  split; [by eapply next_interval_ok|].
  pose proof (next_interval_exact i sch now t ltac:(lia) Hs Hnow H) as He.
  destruct (Z.ltb_spec now sch) as [Hlt|_]; [by subst t|by destruct He].
Qed.

Lemma job_ok_iso n : in_calendar n = true → ∀ r, jb_next_run_at r = _iso n → job_ok r.
Proof. intros Hn r Hr. by exists n. Qed.

(** ** The operations on schedules *)

Ltac reads := repeat match goal with
  | H : read_tables _ _ = (Ok _, _) |- _ => apply read_tables_ok in H as [? ->]
  | H : st_lift _ _ = (Ok _, _) |- _ => injection H as ? ?; subst
  | H : st_get _ = (Ok _, _) |- _ => injection H as ? ?; subst
  | H : st_raise_if ?b _ _ _ = (Ok _, _) |- _ => destruct b eqn:?; [discriminate H|]; injection H as _ ?; subst
  end.

Lemma register_steps s id task kind value zone next now : in_calendar next = true → steps_from s (_register id task kind value zone next now).
Proof.
  intros Hn. unfold _register. steps. reads. apply steps_modify. intros t Ht. assert (t = a2) as -> by congruence.
  apply rtc_once, step_register; [|by apply (job_ok_iso next)]. by destruct (st_jobs a2 !! id).
Qed.
#[local] Hint Resolve register_steps : schedules.

Lemma register_interval_steps s id task i start now : steps_from s (register_interval id task i start now).
Proof.
  unfold register_interval. steps. reads. apply register_steps.
  assert (in_calendar a4 = true) by (destruct start; [by eapply aware_utc_ok|by apply add_delta_ok in H4 as [-> ?]]).
  destruct (a4 <? a3); [by eapply next_interval_ok|by injection H5 as <-].
Qed.

Lemma register_cron_steps s id task e zone now : steps_from s (register_cron id task e zone now).
Proof.
  unfold register_cron. steps. reads. apply register_steps.
  match goal with H : _next_cron _ _ _ = Ok _ |- _ => by apply next_cron_ok in H as [? _] end.
Qed.

Lemma set_job_steps s id row row' t : sd_tables s = Some t → st_jobs t !! id = Some row → same_schedule row row' → (job_ok row → job_ok row') →
  steps_from s (modify_tables (λ t, set_jobs (<[id := row']> (st_jobs t)) t)).
Proof. intros Ht Hr Hs Hj. apply steps_modify. intros t' Ht'. assert (t' = t) as -> by congruence. by eapply rtc_once, step_job. Qed.

Lemma disable_steps s id now : steps_from s (disable id now).
Proof. unfold disable. steps. reads. by eapply set_job_steps. Qed.

Lemma enable_steps s id now : steps_from s (enable id now).
Proof.
  unfold enable. steps. reads. eapply set_job_steps; [done..|]. intros _. apply (job_ok_iso a6); [|done].
  apply current_time_ok in H1. by apply (next_after_row_ok _ _ _ H1) in H6 as [? _].
Qed.

Lemma set_claim_steps s cid c c' t : sd_tables s = Some t → table_step t (set_claims (<[cid := c']> (st_claims t)) t) →
  st_claims t !! cid = Some c → steps_from s (modify_tables (λ t, set_claims (<[cid := c']> (st_claims t)) t)).
Proof. intros Ht Hs Hc. apply steps_modify. intros t' Ht'. assert (t' = t) as -> by congruence. by apply rtc_once. Qed.

Lemma complete_steps s cid status details now : json_ok (JObj (default [] details)) = true → steps_from s (complete_claim cid status details now).
Proof.
  intros Hd. unfold complete_claim. steps; reads; [|apply append_event_steps; by cbn [json_ok forallb snd andb] in *; rewrite Hd].
  eapply set_claim_steps; [done| |done]. bool_prop. apply step_complete; [done|by apply mem_str_true|by apply mem_str_true].
Qed.

(** One change of the tables followed by its event. *)
Lemma change_and_log s t f id action time details : sd_tables s = Some t → table_step t (f t) → json_ok details = true →
  ∀ (e : ScheduleEvent) s', (modify_tables f ;; Schedule_append_event id action time details) s = (Ok e, s') →
  ∃ row, s' = set_schedule_tables (add_schedule_event row (f t)) s ∧ rtc table_step t (add_schedule_event row (f t)).
Proof.
  intros Ht Hf Hd e s'. unfold mbind, st_bind. rewrite (modify_on _ _ _ Ht). set (s1 := set_schedule_tables (f t) s). intros E.
  pose proof (append_event_steps s1 id action time details Hd) as He. unfold steps_from, moved in He. rewrite E in He.
  destruct (append_event_tables s1 _ _ _ _ _ _ (f t) eq_refl E) as (row & ->). cbn in He.
  destruct He as [(t2 & [= <-] & Hr) _]. exists row. split; [done|]. by eapply rtc_l.
Qed.

Lemma st_bind_assoc {S A B C} (m : ST S A) (f : A → ST S B) (g : B → ST S C) s :
  (m ≫= λ a, f a ≫= g) s = ((m ≫= f) ≫= g) s.
Proof. unfold mbind, st_bind. by destruct (m s) as [[]]. Qed.

Lemma mark_recovery_ok s t cid c current r s' : sd_tables s = Some t → st_claims t !! cid = Some c → cw_status c = "CLAIMED" →
  mark_recovery current cid c s = (Ok r, s') → ∃ t', s' = set_schedule_tables t' s ∧ rtc table_step t t'
    ∧ ∀ cid', cid' ≠ cid → st_claims t' !! cid' = st_claims t !! cid'.
Proof.
  intros Ht Hc Hs. unfold mark_recovery. rewrite st_bind_assoc. intros (e & s1 & E & [= _ <-])%st_bind_ok.
  eapply change_and_log in E as (row & -> & Hr); [|done|by eapply step_recover|done].
  eexists. split; [done|]. split; [done|]. intros cid' Hne. cbn. by rewrite lookup_insert_ne.
Qed.

Lemma mark_all_ok current rows : ∀ s t r s', sd_tables s = Some t → NoDup rows.*1 →
  (∀ cid c, (cid, c) ∈ rows → st_claims t !! cid = Some c ∧ cw_status c = "CLAIMED") →
  st_mapM (λ p, mark_recovery current p.1 p.2) rows s = (Ok r, s') → ∃ t', s' = set_schedule_tables t' s ∧ rtc table_step t t'.
Proof.
  induction rows as [|[cid c] rows IH]; intros s t r s' Ht Hn Hrows H.
  - injection H as _ <-. exists t. split; [|done]. destruct s as [st tb]. cbn in Ht. by subst tb.
  - cbn [st_mapM] in H. apply st_bind_ok in H as (y & s1 & E & H). apply st_bind_ok in H as (ys & s2 & H & [= _ <-]).
    cbn [fst snd] in E. destruct (Hrows cid c) as [Hc Hs]; [by left|].
    destruct (mark_recovery_ok _ _ _ _ _ _ _ Ht Hc Hs E) as (t1 & -> & Hr1 & Hframe).
    apply NoDup_cons in Hn as [Hnew Hn]. destruct (IH (set_schedule_tables t1 s) t1 ys s2) as (t2 & -> & Hr2); [done|done| |done|].
    + intros cid' c' Hin. rewrite Hframe; [by apply Hrows; right|]. intros ->. apply Hnew. by apply (list_elem_of_fmap_2 fst) in Hin.
    + exists t2. split; [done|]. by etransitivity.
Qed.

Lemma sublist_fmap {A B} (f : A → B) (l l' : list A) : l `sublist_of` l' → f <$> l `sublist_of` f <$> l'.
Proof. induction 1; cbn; by constructor. Qed.

Lemma Schedule_order_by_perm {R} (key : R → string) rows : Schedule_order_by key rows ≡ₚ rows.
Proof. apply merge_sort_Permutation. Qed.

Lemma NoDup_keys_filter {R} (m : gmap string R) (P : string * R → Prop) `{∀ p, Decision (P p)} : NoDup (filter P (map_to_list m)).*1.
Proof. eapply sublist_NoDup; [apply (NoDup_fst_map_to_list m)|]. apply sublist_fmap, sublist_filter. Qed.

Lemma recover_steps s now limit : steps_from s (mark_expired_claims_recovery_required now limit).
Proof.
  unfold mark_expired_claims_recovery_required. apply steps_bind; [apply steps_raise_if|intros ? ? ?].
  apply steps_bind; [apply steps_get|intros ? ? ?]. apply steps_bind; [apply steps_lift|intros ? ? ?]. reads.
  apply steps_transaction. intros r s' Hm. apply st_bind_ok in Hm as (t & s1 & [Ht ->]%read_tables_ok & Hm).
  apply (mark_all_ok _ _ _ t) in Hm as (t' & -> & Hr); [|done|..].
  - split; [|done]. unfold moved. rewrite Ht. by eexists.
  - unfold expired_claims. eapply sublist_NoDup; [|apply sublist_fmap, sublist_take]. rewrite (Schedule_order_by_perm cw_lease_until). apply NoDup_keys_filter.
  - intros cid c Hin. unfold expired_claims in Hin. apply (sublist_subseteq _ _ (sublist_take _ _)) in Hin. rewrite Schedule_order_by_perm in Hin.
    apply list_elem_of_filter in Hin as [[Hs _] Hin]. split; [by apply elem_of_map_to_list in Hin|done].
Qed.
End Facts.
