(* ===== verification/ScheduleClaims.v ===== *)
(** * The persistent scheduler: claims on due occurrences

    What [claim_due] does with each due schedule and with all of them; that every operation keeps the
    invariant, over any history; and what can keep a due schedule from being claimed. *)

From Stdlib Require Import Ascii SpecFloat.
From Stdlib Require String.
From S2P Require Import Prelude PyStr Hashlib PyFloat Json JsonFacts PyTime PyTimeFacts Validators TaskStore Cron CronFacts.
From S2P Require Import PersistentScheduler ScheduleFacts.

Local Open Scope Z_scope.

Section Claims.
Context {HL : Hashlib} {ZI : ZoneInfo}.

(** ** One row *)

(** The contract of the task is still the one the schedule was registered with. *)
Definition bound_to (store : TaskStore) (row : job_row) : Prop :=
  _contract_digest store (jb_task_id row) = Ok (jb_contract_sha256 row).

#[export] Instance bound_to_dec store row : Decision (bound_to store row).
Proof.
  unfold bound_to. destruct (_contract_digest store (jb_task_id row)) as [d|e]; [|by right].
  destruct (decide (d = jb_contract_sha256 row)) as [->|Hne]; [by left|right; by intros [= ?]].
Defined.

Definition new_claim (current lease_until scheduled : Z) (id : string) (row : job_row) : claim_row := {|
  cw_schedule_id := id; cw_task_id := jb_task_id row; cw_scheduled_for := _iso scheduled; cw_claimed_at := _iso current;
  cw_lease_until := _iso lease_until; cw_contract_sha256 := jb_contract_sha256 row; cw_status := "CLAIMED";
  cw_completed_at := None; cw_result_details := "{}" |}.

Definition disable_job (current : Z) (reason id : string) (row : job_row) (t : ScheduleTables) : ScheduleTables :=
  set_jobs (<[id := set_enabled false (_iso current) (Some reason) row]> (st_jobs t)) t.
Definition claim_job (cid : string) (c : claim_row) (current next : Z) (id : string) (row : job_row) (t : ScheduleTables) : ScheduleTables :=
  set_jobs (<[id := set_next_run (_iso next) (_iso current) row]> (st_jobs t)) (set_claims (<[cid := c]> (st_claims t)) t).

(** The claim and the tables a row leaves behind. *)
Inductive row_outcome (current lease : Z) (store : TaskStore) (id : string) (row : job_row) (t : ScheduleTables)
    : option ScheduleClaim → ScheduleTables → Prop :=
  | row_blocked : open_claim t id → row_outcome current lease store id row t None t
  | row_disabled reason e : ¬ open_claim t id → ¬ bound_to store row →
      row_outcome current lease store id row t None (add_schedule_event e (disable_job current reason id row t))
  | row_claimed cid scheduled next e : ¬ open_claim t id → bound_to store row →
      _parse_iso (jb_next_run_at row) "next_run_at" = Ok scheduled → _next_after_row row current = Ok next →
      claim_taken t cid id (_iso scheduled) = false →
      let c := new_claim current (current + lease * second) scheduled id row in
      row_outcome current lease store id row t (Some (_row_to_claim cid c "CLAIMED"))
        (add_schedule_event e (claim_job cid c current next id row t)).

Lemma claim_row_due_ok s t current lease id row c s' : in_calendar current = true → sd_tables s = Some t → st_jobs t !! id = Some row →
  claim_row_due current lease id row s = (Ok c, s') →
  ∃ t', s' = set_schedule_tables t' s ∧ rtc table_step t t' ∧ row_outcome current lease (sd_store s) id row t c t'.
Proof.
  intros Hcur Ht Hrow. unfold claim_row_due. intros H. apply st_bind_ok in H as (t0 & s1 & [Ht0 ->]%read_tables_ok & H).
  assert (t0 = t) as -> by congruence. clear Ht0.
  destruct (_has_unresolved_claim t id) eqn:Eo.
  { injection H as <- <-. exists t. split; [destruct s; cbn in Ht; by subst|]. split; [done|]. apply row_blocked. by apply has_unresolved_spec. }
  apply has_unresolved_false in Eo. apply st_bind_ok in H as (s1 & s2 & [= <- <-] & H).
  assert (∀ reason, ¬ bound_to (sd_store s) row → (auto_disable id row current reason ;; mret None) s = (Ok c, s') →
    ∃ t', s' = set_schedule_tables t' s ∧ rtc table_step t t' ∧ row_outcome current lease (sd_store s) id row t c t') as Hdis.
  { intros reason Hb Hd. apply st_bind_ok in Hd as (u & s1 & Hd & [= <- <-]). unfold auto_disable in Hd. rewrite st_bind_assoc in Hd.
    apply st_bind_ok in Hd as (e & s2 & E & [= <- <-]). eapply (change_and_log _ t) in E as (ev & -> & Hr); [|done|by eapply step_job|done].
    eexists. split; [done|]. split; [exact Hr|]. by eapply (row_disabled _ _ _ _ _ _ reason ev). }
  destruct (_contract_digest (sd_store s) (jb_task_id row)) as [d|e] eqn:Ed.
  2: { apply (Hdis (exn_msg e)); [unfold bound_to; by rewrite Ed|done]. }
  destruct (negb (bool_decide (d = jb_contract_sha256 row))) eqn:Eb.
  { apply (Hdis "SCHEDULE_TASK_CONTRACT_CHANGED"); [|done]. apply negb_true_iff, bool_decide_eq_false in Eb. unfold bound_to. rewrite Ed. by intros [= ?]. }
  apply negb_false_iff, bool_decide_eq_true in Eb. subst d. clear Hdis.
  apply st_bind_ok in H as (scheduled & s1 & [Hs <-]%pair_equal_spec & H).
  apply st_bind_ok in H as (next & s2 & [Hn <-]%pair_equal_spec & H).
  apply st_bind_ok in H as (dig & s3 & [_ <-]%pair_equal_spec & H).
  apply st_bind_ok in H as (lu & s4 & [[-> _]%add_delta_ok <-]%pair_equal_spec & H).
  apply st_bind_ok in H as (u & s5 & Hg & H). unfold st_raise_if, st_lift, raise_if in Hg.
  destruct (claim_taken _ _ _ _) eqn:Etaken; [done|]. injection Hg as _ <-. set (cid := "scl_" +:+ Schedule_short_digest dig) in *.
  fold (new_claim current (current + lease * second) scheduled id row) in H. set (cl := new_claim _ _ _ _ _) in H.
  apply st_bind_ok in H as (u1 & s6 & E & H). rewrite (modify_on _ _ _ Ht) in E. injection E as _ <-. rewrite st_bind_assoc in H.
  apply st_bind_ok in H as (e & s7 & E & [= <- <-]).
  set (t1 := set_claims (<[cid := cl]> (st_claims t)) t) in *.
  eapply (change_and_log _ t1) in E as (ev & -> & Hr); [|done| |done].
  2: { eapply (step_job t1 id row); [done|done|]. intros _. apply (job_ok_iso next); [|done]. by apply (next_after_row_ok _ _ _ Hcur) in Hn as [? _]. }
  eexists. split; [done|]. split.
  - eapply rtc_l; [|exact Hr]. by apply (step_claim t cid row cl).
  - by apply (row_claimed current lease (sd_store s) id row t cid scheduled next ev).
Qed.

(** What a change leaves alone: the schedules with other identifiers, and every claim there is. *)
Record frame (ids : list string) (t t' : ScheduleTables) : Prop := {
  fr_jobs : ∀ id, id ∉ ids → st_jobs t' !! id = st_jobs t !! id;
  fr_open : ∀ id, id ∉ ids → open_claim t' id ↔ open_claim t id;
  fr_claims : ∀ cid c, st_claims t !! cid = Some c → st_claims t' !! cid = Some c
}.

Lemma frame_refl ids t : frame ids t t.
Proof. by split. Qed.

Lemma frame_trans ids ids' t1 t2 t3 : frame ids t1 t2 → frame ids' t2 t3 → frame (ids ++ ids') t1 t3.
Proof.
  intros [Hj Ho Hc] [Hj' Ho' Hc']. split.
  - intros id [H1 H2]%not_elem_of_app. by rewrite Hj', Hj.
  - intros id [H1 H2]%not_elem_of_app. by rewrite Ho', Ho.
  - auto.
Qed.

Lemma row_outcome_frame current lease store id row t c t' : row_outcome current lease store id row t c t' → frame [id] t t'.
Proof.
  intros [Ho|reason e Ho Hb|cid scheduled next e Ho Hb Hs Hn Ht cl]; [done|..].
  - split; [|done|done]. intros id' Hne%not_elem_of_cons. cbn. by rewrite lookup_insert_ne by (intros ->; by destruct Hne).
  - apply claim_taken_false in Ht as [Hnew _].
    split; [intros id' [Hne _]%not_elem_of_cons; cbn; by rewrite lookup_insert_ne by congruence| |].
    + intros id' [Hne _]%not_elem_of_cons. unfold open_claim. cbn. split; intros (i & d & Hd & Hid & Hu); exists i, d; (split; [|done]).
      * apply lookup_insert_Some in Hd as [[<- <-]|[_ Hd]]; [by destruct Hne|done].
      * rewrite lookup_insert_ne by congruence. done.
    + intros i d Hd. cbn. rewrite lookup_insert_ne by congruence. done.
Qed.

(** ** All due rows *)

(** A claim on the next run of a schedule that was free and still bound to its contract. *)
Record claimed (current lease : Z) (store : TaskStore) (t t' : ScheduleTables) (row : job_row) (claim : ScheduleClaim) : Prop := {
  cd_free : ¬ open_claim t (sc_schedule_id claim);
  cd_bound : bound_to store row;
  cd_due : ∃ scheduled, _parse_iso (jb_next_run_at row) "next_run_at" = Ok scheduled ∧ sc_scheduled_for claim = _iso scheduled;
  cd_fields : sc_task_id claim = jb_task_id row ∧ sc_contract_sha256 claim = jb_contract_sha256 row ∧ sc_status claim = "CLAIMED"
    ∧ sc_claimed_at claim = _iso current ∧ sc_lease_until claim = _iso (current + lease * second);
  cd_row : ∃ c, st_claims t' !! sc_claim_id claim = Some c ∧ claim = _row_to_claim (sc_claim_id claim) c (cw_status c);
  cd_next : ∃ row' next, st_jobs t' !! sc_schedule_id claim = Some row' ∧ jb_next_run_at row' = _iso next
    ∧ in_calendar next = true ∧ current < next
}.

Lemma row_outcome_claimed current lease store id row t claim t' : in_calendar current = true →
  row_outcome current lease store id row t (Some claim) t' →
  sc_schedule_id claim = id ∧ claimed current lease store t t' row claim.
Proof.
  intros Hcur Ho. inversion Ho as [| |cid scheduled next e Hfree Hb Hs Hn Ht cl]; subst. split; [done|]. split; try done.
  - by exists scheduled.
  - exists cl. cbn. by rewrite lookup_insert_eq.
  - exists (set_next_run (_iso next) (_iso current) row), next. cbn. rewrite lookup_insert_eq.
    destruct (next_after_row_ok _ _ _ Hcur Hn) as [Hc Hlt]. done.
Qed.

(** Later rows and earlier ones do not touch a claim. *)
Lemma claimed_frame current lease store t0 t t' t'' ids ids' row claim : frame ids t0 t → sc_schedule_id claim ∉ ids →
  claimed current lease store t t' row claim → frame ids' t' t'' → sc_schedule_id claim ∉ ids' → claimed current lease store t0 t'' row claim.
Proof.
  intros [_ Ho _] Hid [Hf Hb Hd Hfi (c & Hc & Hcl) (row' & next & Hr & Hrest)] [Hj _ Hcs] Hid'. split; [by rewrite <- Ho|done..| |].
  - exists c. split; [by apply Hcs|done].
  - exists row', next. by rewrite Hj.
Qed.

Lemma claim_rows_ok current limit lease rows : in_calendar current = true → ∀ s t acc cs s', sd_tables s = Some t → NoDup rows.*1 →
  (∀ id row, (id, row) ∈ rows → st_jobs t !! id = Some row) → claim_rows current limit lease rows acc s = (Ok cs, s') →
  ∃ t' new, s' = set_schedule_tables t' s ∧ rtc table_step t t' ∧ frame rows.*1 t t' ∧ cs = acc ++ new
  ∧ (sc_schedule_id <$> new) `sublist_of` rows.*1
  ∧ (∀ claim, claim ∈ new → ∃ row, (sc_schedule_id claim, row) ∈ rows ∧ claimed current lease (sd_store s) t t' row claim)
  ∧ (Z.of_nat (length acc) ≤ limit → Z.of_nat (length cs) ≤ limit)
  ∧ (Z.of_nat (length cs) < limit → ∀ id row, (id, row) ∈ rows → ¬ open_claim t id → bound_to (sd_store s) row → id ∈ sc_schedule_id <$> new).
Proof.
  intros Hcur. induction rows as [|[id row] rows IH]; intros s t acc cs s' Ht Hn Hrows H.
  { injection H as <- <-. exists t, []. rewrite app_nil_r. split; [destruct s; cbn in Ht; by subst|]. split_and!; try done.
    - by intros claim ?%elem_of_nil.
    - intros _ i r ?%elem_of_nil. done. }
  cbn [claim_rows] in H. destruct (Z.leb_spec limit (Z.of_nat (length acc))) as [Hl|Hl].
  { injection H as <- <-. exists t, []. rewrite app_nil_r. split; [destruct s; cbn in Ht; by subst|]. split_and!; try done.
    - apply sublist_nil_l.
    - by intros claim ?%elem_of_nil.
    - lia. }
  apply st_bind_ok in H as (c & s1 & E & H).
  destruct (claim_row_due_ok _ t _ _ _ _ _ _ Hcur Ht (Hrows id row (list_elem_of_here _ _)) E) as (t1 & -> & Hr1 & Ho).
  pose proof (row_outcome_frame _ _ _ _ _ _ _ _ Ho) as Hf1.
  apply NoDup_cons in Hn as [Hnew Hn].
  destruct (IH (set_schedule_tables t1 s) t1 (acc ++ option_list c) cs s') as (t2 & new & -> & Hr2 & Hf2 & -> & Hsub & Hcl & Hlim & Hall); [done|done| |done|].
  { intros i r Hin. rewrite (fr_jobs _ _ _ Hf1); [by apply Hrows; right|]. intros ->%list_elem_of_singleton.
    apply Hnew. by apply (list_elem_of_fmap_2 fst) in Hin. }
  assert (∀ i r, (i, r) ∈ rows → i ∉ [id]) as Hne.
  { intros i r Hin ->%list_elem_of_singleton. apply Hnew. by apply (list_elem_of_fmap_2 fst) in Hin. }
  exists t2, (option_list c ++ new). split; [done|]. split; [by etransitivity|]. split; [rewrite fmap_cons; by apply (frame_trans [id] rows.*1 t t1 t2)|].
  split; [by rewrite app_assoc|]. split; [|split; [|split]].
  - rewrite fmap_app. destruct c as [claim|]; cbn; [|by constructor].
    destruct (row_outcome_claimed _ _ _ _ _ _ _ _ Hcur Ho) as [-> _]. by constructor.
  - intros claim [Hin|Hin]%elem_of_app.
    + destruct c as [claim'|]; [|by apply elem_of_nil in Hin]. apply list_elem_of_singleton in Hin as ->.
      destruct (row_outcome_claimed _ _ _ _ _ _ _ _ Hcur Ho) as [Hid Hc]. exists row. rewrite Hid. split; [by left|].
      apply (claimed_frame _ _ _ t t t1 t2 [] rows.*1 row claim' (frame_refl _ _)); [by intros ?%elem_of_nil|exact Hc|exact Hf2|by rewrite Hid].
    + destruct (Hcl claim Hin) as (r & Hr & Hc). exists r. split; [by right|].
      apply (claimed_frame _ _ _ t t1 t2 t2 [id] [] r claim Hf1); [by eapply Hne|exact Hc|apply frame_refl|by intros ?%elem_of_nil].
  - intros _. apply Hlim. rewrite length_app. destruct c; cbn; lia.
  - intros Hlt i r [[= -> ->]|Hin]%elem_of_cons Hfree Hb; rewrite fmap_app, elem_of_app.
    + left. inversion Ho as [Hop| |cid scheduled next e]; subst; [done|done|]. cbn. by left.
    + right. eapply Hall; [done|exact Hin| |exact Hb]. rewrite (fr_open _ _ _ Hf1); [done|by eapply Hne].
Qed.

(** ** The tick *)


Definition all_due (t : ScheduleTables) (current_text : string) : list (string * job_row) :=
  filter (λ p, jb_enabled p.2 = true ∧ String.le (jb_next_run_at p.2) current_text) (map_to_list (st_jobs t)).



Lemma due_rows_sub t text p : p ∈ due_rows t text → p ∈ all_due t text.
Proof.
  unfold due_rows. fold (all_due t text). intros Hin. apply (sublist_subseteq _ _ (sublist_take _ _)) in Hin. by rewrite Schedule_order_by_perm in Hin.
Qed.

Lemma NoDup_due_rows t text : NoDup (due_rows t text).*1.
Proof.
  unfold due_rows. eapply sublist_NoDup; [|apply sublist_fmap, sublist_take]. rewrite Schedule_order_by_perm. apply NoDup_keys_filter.
Qed.



(** ** Histories *)

Lemma claim_due_steps s now limit lease : steps_from s (claim_due now limit lease).
Proof.
  unfold claim_due. do 2 (apply steps_bind; [apply steps_raise_if|intros ? ? [_ <-]%pair_equal_spec]).
  apply steps_bind; [apply steps_get|intros ? ? [= <- <-]]. apply steps_bind; [apply steps_lift|intros current ? [Hc <-]%pair_equal_spec].
  apply steps_transaction. intros cs s' H. apply st_bind_ok in H as (t & s1 & [Ht ->]%read_tables_ok & E).
  pose proof (current_time_ok _ _ _ Hc) as Hcur. eapply (claim_rows_ok current limit lease _ Hcur _ t) in E as (t' & new & -> & Hr & _).
  - split; [|done]. unfold moved. rewrite Ht. by exists t'.
  - done.
  - apply NoDup_due_rows.
  - intros id row Hin%due_rows_sub. unfold all_due in Hin. apply list_elem_of_filter in Hin as [_ Hin]. by apply elem_of_map_to_list in Hin.
Qed.

(** Whatever the callers do, whether it returns or raises, and whatever others do to the task store. *)
Inductive schedule_step (s : ScheduleDB) : ScheduleDB → Prop :=
  | sched_initialize : schedule_step s (Scheduler_initialize s).2
  | sched_register_interval id task interval start now : schedule_step s (register_interval id task interval start now s).2
  | sched_register_cron id task expression zone now : schedule_step s (register_cron id task expression zone now s).2
  | sched_disable id now : schedule_step s (disable id now s).2
  | sched_enable id now : schedule_step s (enable id now s).2
  | sched_claim now limit lease : schedule_step s (claim_due now limit lease s).2
  | sched_recover now limit : schedule_step s (mark_expired_claims_recovery_required now limit s).2
  | sched_complete cid status details now : json_ok (JObj (default [] details)) = true →
      schedule_step s (complete_claim cid status details now s).2
  | sched_store store : schedule_step s (set_schedule_store store s).

Lemma schedule_step_moved s s' : schedule_step s s' →
  moved s s' ∨ sd_tables s = None ∧ sd_tables s' = Some no_schedules.
Proof.
  intros []; [|left..].
  - unfold Scheduler_initialize. destruct (sd_tables s) eqn:E; [by left|]. destruct (default false _); cbn.
    + left. unfold moved. cbn. by rewrite E.
    + by right.
  - apply register_interval_steps.
  - apply register_cron_steps.
  - apply disable_steps.
  - apply enable_steps.
  - apply claim_due_steps.
  - apply recover_steps.
  - by apply complete_steps.
  - unfold moved. cbn. destruct (sd_tables s); [by eexists|done].
Qed.

Lemma history_later s s' t : rtc schedule_step s s' → sd_tables s = Some t → ∃ t', sd_tables s' = Some t' ∧ rtc table_step t t'.
Proof.
  intros H. revert t. induction H as [s|s1 s2 s3 Hs _ IH]; intros t Ht; [by exists t|].
  destruct (schedule_step_moved _ _ Hs) as [Hm|[Hn _]]; [|congruence]. unfold moved in Hm. rewrite Ht in Hm.
  destruct Hm as (t2 & Ht2 & Hr). destruct (IH _ Ht2) as (t3 & Ht3 & Hr'). exists t3. split; [done|]. by etransitivity.
Qed.

Lemma history_ok s s' t : rtc schedule_step s s' → sd_tables s = None → sd_tables s' = Some t → tables_ok t.
Proof.
  intros H. induction H as [s|s1 s2 s3 Hs H IH]; intros H1 H3; [congruence|].
  destruct (schedule_step_moved _ _ Hs) as [Hm|[_ H2]].
  - unfold moved in Hm. rewrite H1 in Hm. auto.
  - destruct (history_later _ _ _ H H2) as (t' & Ht' & Hr). assert (t' = t) as -> by congruence.
    by eapply table_steps_ok; [apply no_schedules_ok|].
Qed.

(** C24: in every database the operations can lead to, a schedule has at most one unresolved claim, an occurrence at most
    one claim, every claim is on a registered schedule with its task and contract, and the event chain verifies; from
    there on schedules keep what they were registered with, claims only advance, one with a result keeps it,
    and events are only added. *)
Theorem schedule_history s0 s s' t : sd_tables s0 = None → rtc schedule_step s0 s → sd_tables s = Some t → rtc schedule_step s s' →
  tables_ok t ∧ Schedule_verify_event_chain s = (Ok true, s)
  ∧ ∃ t', sd_tables s' = Some t' ∧ later t t' ∧ ∀ cid c, st_claims t !! cid = Some c → terminal c → st_claims t' !! cid = Some c.
Proof.
  intros H0 Hs Ht Hs'. pose proof (history_ok _ _ _ Hs H0 Ht) as Hok. split; [done|]. split.
  - unfold Schedule_verify_event_chain, mbind, st_bind, read_tables, st_lift. rewrite Ht. by rewrite (to_chain _ Hok).
  - destruct (history_later _ _ _ Hs' Ht) as (t' & Ht' & Hr). exists t'. pose proof (table_steps_later _ _ Hr) as Hl.
    split; [done|]. split; [done|]. intros cid c Hc Hterm. destruct (la_claims _ _ Hl _ _ Hc) as (c' & Hc' & Hlife).
    by apply terminal_is_final in Hlife as ->.
Qed.

(** ** What keeps a due schedule waiting *)

Lemma claim_due_window now limit lease s t current : sd_tables s = Some t → current_time now s = Ok current →
  1 ≤ limit ≤ 32 → 1 ≤ lease ≤ 86400 → default false (head (ts_contention (sd_store s))) = false →
  claim_due now limit lease s =
    match claim_rows current limit lease (due_rows t (_iso current)) [] (set_schedule_store (next_attempt (sd_store s)) s) with
    | (Ok cs, s') => (Ok cs, s')
    | (Raise e, _) => (Raise e, set_schedule_store (next_attempt (sd_store s)) s)
    end.
Proof.
  intros Ht Hc Hl Hle Hcon. unfold claim_due, mbind, st_bind, st_raise_if, st_lift, st_get, _MAX_DUE_PER_TICK, _MAX_CLAIM_LEASE_SECONDS.
  rewrite !(proj2 (Z.leb_le _ _)) by lia. cbn [andb negb raise_if]. rewrite Hc. unfold schedule_transaction. rewrite Hcon.
  unfold read_tables. cbn [sd_tables set_schedule_store]. by rewrite Ht.
Qed.

(** The 32 rows a tick looks at are chosen before the schedules with an unresolved claim are passed over: once they all
    have one, a tick claims nothing, whatever else is due. *)
Theorem blocked_window_starves now limit lease s t current : sd_tables s = Some t → current_time now s = Ok current →
  1 ≤ limit ≤ 32 → 1 ≤ lease ≤ 86400 → default false (head (ts_contention (sd_store s))) = false →
  forallb (λ p, _has_unresolved_claim t p.1) (due_rows t (_iso current)) = true →
  claim_due now limit lease s = (Ok [], set_schedule_store (next_attempt (sd_store s)) s).
Proof.
  intros Ht Hc Hl Hle Hcon Hall. rewrite (claim_due_window _ _ _ _ _ _ Ht Hc Hl Hle Hcon).
  set (s0 := set_schedule_store _ s). assert (sd_tables s0 = Some t) as Ht0 by done. clearbody s0.
  induction (due_rows t (_iso current)) as [|[id row] rows IH]; [done|]. cbn [forallb fst] in Hall. apply andb_true_iff in Hall as [Hid Hall].
  cbn [claim_rows length]. assert ((limit <=? Z.of_nat 0) = false) as -> by (apply Z.leb_gt; lia).
  unfold claim_row_due, mbind, st_bind, read_tables. rewrite Ht0, Hid. cbn [mret st_ret option_list app]. by apply IH.
Qed.

(** When the next run of the first due schedule cannot be found, the tick raises and claims nothing: the other due
    schedules wait with it. *)
Theorem lost_schedule_stops_the_tick now limit lease s t current id row rest e : sd_tables s = Some t → current_time now s = Ok current →
  1 ≤ limit ≤ 32 → 1 ≤ lease ≤ 86400 → default false (head (ts_contention (sd_store s))) = false →
  due_rows t (_iso current) = (id, row) :: rest → _has_unresolved_claim t id = false → bound_to (sd_store s) row →
  _next_after_row row current = Raise e →
  claim_due now limit lease s = (Raise e, set_schedule_store (next_attempt (sd_store s)) s).
Proof.
  intros Ht Hc Hl Hle Hcon Hrows Hfree Hb Hnext. rewrite (claim_due_window _ _ _ _ _ _ Ht Hc Hl Hle Hcon), Hrows.
  cbn [claim_rows length]. assert ((limit <=? Z.of_nat 0) = false) as -> by (apply Z.leb_gt; lia).
  unfold claim_row_due, mbind, st_bind, read_tables, st_get, st_lift. cbn [sd_tables set_schedule_store]. rewrite Ht, Hfree.
  change (_contract_digest _ (jb_task_id row)) with (_contract_digest (sd_store s) (jb_task_id row)). rewrite Hb, bool_decide_true by done.
  cbn [negb]. destruct (_parse_iso (jb_next_run_at row) "next_run_at") as [sch|e'] eqn:Ep.
  - by rewrite Hnext.
  - unfold _next_after_row in Hnext. rewrite Ep in Hnext. cbn in Hnext. congruence.
Qed.
End Claims.

(** ** Examples *)

Definition ex_sha : string := "sha256:aaaaaaaaaaaaaaaaaaaaaaaaaaaaaaaaaaaaaaaaaaaaaaaaaaaaaaaaaaaaaaaa".
Definition ex_contract : contract_row := {|
  cb_schema_version := "v1"; cb_contract_json := "{}"; cb_contract_sha256 := ex_sha; cb_bound_at := "" |}.
Definition ex_store (now : Z) : TaskStore := {|
  ts_tasks := {["t1"]}; ts_contracts := <["t1" := ex_contract]> ∅; ts_usage := ∅; ts_revocations := None; ts_activities := [];
  ts_now := {| dt_local := now; dt_offset := Some 0 |}; ts_contention := [] |}.
Definition ex_start : ScheduleDB := {| sd_store := ex_store friday; sd_tables := None |}.
Definition later_by (seconds : Z) : option datetime := Some {| dt_local := friday + seconds * second; dt_offset := Some 0 |}.

Section Examples.
#[local] Existing Instance checksum_hashlib.
#[local] Existing Instance utc_zones.

(** A schedule every ninety seconds, with one claim five minutes later. *)
Definition ex_registered : ScheduleDB := (register_interval "s1" "t1" 90 None None (Scheduler_initialize ex_start).2).2.
Definition ex_claimed : ScheduleDB := (claim_due (later_by 300) 8 300 ex_registered).2.
Definition ex_done : ScheduleDB := (mark_expired_claims_recovery_required (later_by 700) 8 ex_claimed).2.
Definition schedule_tables_of (s : ScheduleDB) : ScheduleTables := default no_schedules (sd_tables s).

Lemma ex_registered_history : rtc schedule_step ex_start ex_registered.
Proof. eapply rtc_l; [apply sched_initialize|]. apply rtc_once. apply sched_register_interval. Qed.



Example schedule_history_witness : (sd_tables ex_start = None ∧ sd_tables ex_claimed = Some (schedule_tables_of ex_claimed))
  ∧ tables_ok (schedule_tables_of ex_claimed) ∧ Schedule_verify_event_chain ex_claimed = (Ok true, ex_claimed)
  ∧ ∃ t', sd_tables ex_done = Some t' ∧ later (schedule_tables_of ex_claimed) t'
    ∧ ∀ cid c, st_claims (schedule_tables_of ex_claimed) !! cid = Some c → terminal c → st_claims t' !! cid = Some c.
Proof.
  assert (sd_tables ex_claimed = Some (schedule_tables_of ex_claimed)) as Ht by (vm_compute; reflexivity).
  split; [exact (conj eq_refl Ht)|].
  apply (schedule_history ex_start ex_claimed ex_done (schedule_tables_of ex_claimed)); [reflexivity| |exact Ht|].
  - exact (rtc_r _ _ _ ex_registered_history (sched_claim _ _ _ _)).
  - exact (rtc_once _ _ (sched_recover _ _ _)).
Defined.

(** 32 schedules whose claims nobody resolves, and one more that is free. *)
Definition ex_job (next : Z) : job_row := {|
  jb_task_id := "t1"; jb_kind := "interval"; jb_schedule_value := "60"; jb_timezone_name := "UTC"; jb_contract_sha256 := ex_sha;
  jb_next_run_at := _iso next; jb_enabled := true; jb_created_at := _iso next; jb_updated_at := _iso next; jb_last_error := None |}.
Definition stuck_names : list string := map (λ i, "stuck" +:+ pad 2 (Z.of_nat i)) (seq 0 32).
Definition stuck_claim (id : string) : claim_row := set_status "RECOVERY_REQUIRED"
  (new_claim (friday - 120 * second) (friday - 60 * second) (friday - 180 * second) id (ex_job friday)).
Definition ex_starved_tables : ScheduleTables := {|
  st_jobs := <["waiting" := ex_job (friday + second)]> (list_to_map (map (λ id, (id, ex_job friday)) stuck_names));
  st_claims := list_to_map (map (λ id, ("claim-" +:+ id, stuck_claim id)) stuck_names); st_events := [] |}.
Definition ex_starved : ScheduleDB := {| sd_store := ex_store friday; sd_tables := Some ex_starved_tables |}.

Example blocked_window_starves_witness :
  forallb (λ p, _has_unresolved_claim ex_starved_tables p.1) (due_rows ex_starved_tables (_iso (friday + 300 * second))) = true
  ∧ (st_jobs ex_starved_tables !! "waiting" = Some (ex_job (friday + second)) ∧ _has_unresolved_claim ex_starved_tables "waiting" = false
     ∧ bound_to (sd_store ex_starved) (ex_job (friday + second)))
  ∧ claim_due (later_by 300) 8 300 ex_starved = (Ok [], set_schedule_store (next_attempt (sd_store ex_starved)) ex_starved).
Proof.
  assert (forallb (λ p, _has_unresolved_claim ex_starved_tables p.1) (due_rows ex_starved_tables (_iso (friday + 300 * second))) = true)
    as H by (vm_compute; reflexivity).
  split; [exact H|]. split; [split; [reflexivity|split; [vm_compute; reflexivity|reflexivity]]|].
  apply (blocked_window_starves (later_by 300) 8 300 ex_starved ex_starved_tables (friday + 300 * second));
    [reflexivity|reflexivity|lia|lia|reflexivity|exact H].
Defined.

(** The midnight of 2028-02-29, and a schedule for midnight on each 29th of February. *)
Definition leap_day : Z := 740405 * day.
Definition leap_job : job_row := {|
  jb_task_id := "t1"; jb_kind := "cron"; jb_schedule_value := "0 0 29 2 *"; jb_timezone_name := "UTC"; jb_contract_sha256 := ex_sha;
  jb_next_run_at := _iso leap_day; jb_enabled := true; jb_created_at := _iso friday; jb_updated_at := _iso friday; jb_last_error := None |}.
Definition leap_now : Z := leap_day + 30 * second.

(** From one leap day on, the next one is further away than the scheduler searches. *)
Lemma no_other_leap_day m u : CronMatcher_parse "0 0 29 2 *" = Ok m → leap_now < u ≤ horizon leap_now → u mod minute = 0 →
  matches_at m (λ _, 0) u = false.
Proof.
  intros Hm Hu Hmu. apply not_true_is_false. unfold matches_at, CronMatcher_matches. rewrite Z.add_0_r. intros H.
  change (horizon leap_now) with 64002960000000000 in Hu. change leap_now with 63970992030000000 in Hu.
  assert (740405 ≤ u / day ≤ 740775) as Hd.
  { change day with 86400000000. split; [apply Z.div_le_lower_bound|apply Z.lt_succ_r, Z.div_lt_upper_bound]; lia. }
  destruct (ord2ymd_spec (u / day + 1)) as (y & mo & d & E & [Hy Hmo Hdd Ho Hr]); [lia|]. rewrite E in H.
  assert (∀ (s : gset Z) x l, elements s = l → x ∈ s → x ∈ l) as Hel by (intros s x l <-; by rewrite elem_of_elements).
  vm_compute in Hm. injection Hm as <-. cbn [cm_day_any cm_weekday_any cm_days cm_months cm_hours cm_minutes] in H.
  rewrite !andb_true_iff, !bool_decide_eq_true in H. destruct H as [[[Hmin Hhour] Hmonth] Hday].
  cbn in Hday. apply bool_decide_eq_true in Hday.
  eapply (Hel _ _ [0]) in Hmin; [|reflexivity]. eapply (Hel _ _ [0]) in Hhour; [|reflexivity].
  eapply (Hel _ _ [2]) in Hmonth; [|reflexivity]. eapply (Hel _ _ [29]) in Hday; [|reflexivity].
  rewrite list_elem_of_singleton in Hmin, Hhour, Hmonth, Hday. subst mo d.
  assert (is_leap y = true) as Hleap by (unfold days_in_month, month_lengths in Hdd; destruct (is_leap y); [done|]; destruct Hdd as [_ Hdd]; exfalso; by apply Hdd).
  assert (y = 2028) as ->.
  { destruct (decide (y < 2028)) as [Hlt|Hge].
    - pose proof (days_before_year_mono y 2028 Hlt). change (days_before_year 2028) with 740346 in *. unfold ymd2ord in Ho. lia.
    - destruct (decide (2031 < y)) as [Hlt|]; [|destruct (decide (y = 2028)) as [|Hne]; [done|exfalso]].
      + pose proof (days_before_year_mono 2031 y Hlt) as Hm. change (days_before_year 2031 + year_length 2031) with 741807 in Hm.
        unfold ymd2ord in Ho. lia.
      + assert (y = 2029 ∨ y = 2030 ∨ y = 2031) as [-> | [-> | ->]] by lia; discriminate Hleap. }
  change (ymd2ord 2028 2 29) with 740406 in Ho. clear -Hu Hmu Hmin Hhour Ho Hd. unfold minute, day, second in *.
  Z.to_euclidean_division_equations. lia.
Qed.

Example lost_schedule_stops_the_tick_witness :
  let tables := set_jobs (<["leap" := leap_job]> (<["waiting" := ex_job (leap_day + second)]> ∅)) no_schedules in
  let s := {| sd_store := ex_store leap_now; sd_tables := Some tables |} in
  (due_rows tables (_iso leap_now) = [("leap", leap_job); ("waiting", ex_job (leap_day + second))]
   ∧ _next_after_row leap_job leap_now = ps_fail "CRON_NEXT_RUN_OUTSIDE_SEARCH_HORIZON")
  ∧ claim_due None 8 300 s
    = (ps_fail "CRON_NEXT_RUN_OUTSIDE_SEARCH_HORIZON", set_schedule_store (next_attempt (sd_store s)) s).
Proof.
  intros tables s.
  assert (due_rows tables (_iso leap_now) = [("leap", leap_job); ("waiting", ex_job (leap_day + second))]) as Hrows by (vm_compute; reflexivity).
  assert (∃ m, CronMatcher_parse "0 0 29 2 *" = Ok m) as [m Hm] by (eexists; vm_compute; reflexivity).
  assert (_next_after_row leap_job leap_now = ps_fail "CRON_NEXT_RUN_OUTSIDE_SEARCH_HORIZON") as Hnext.
  { change (_next_cron "0 0 29 2 *" "UTC" leap_now = ps_fail "CRON_NEXT_RUN_OUTSIDE_SEARCH_HORIZON").
    apply (next_cron_fails "0 0 29 2 *" "UTC" leap_now m "UTC" (λ _, 0) Hm); [reflexivity| |].
    - apply clock_until_utc; vm_compute; reflexivity.
    - intros u Hu Hmu. by apply no_other_leap_day. }
  split; [exact (conj Hrows Hnext)|].
  apply (lost_schedule_stops_the_tick None 8 300 s tables leap_now "leap" leap_job [("waiting", ex_job (leap_day + second))]);
    [reflexivity|reflexivity|lia|lia|reflexivity|exact Hrows|reflexivity|reflexivity|exact Hnext].
Defined.
End Examples.
