(* ===== verification/RuntimeCheckpoint.v ===== *)
(** * Runtime checkpoints and their recovery

    [runtime_checkpoint.py]: the immutable record of a run at one moment - context, plan, authority,
    approvals, observations and the scheduling decision they give, each by fingerprint - its text, and
    the evaluation that decides, from the live inputs, whether the run may go on. Nothing is executed. *)

From Stdlib Require Import Ascii.
From Stdlib Require String.
From S2P Require Import Prelude PyStr Hashlib PyFloat Json PyTime Validators TaskContract.
From S2P Require Import CapabilityAuthority WorkflowDesign ContextManifest TaskContext ExecutionPlan.
From S2P Require Import ExecutionObservation RuntimeScheduler ExecutionCheckpoint.

Local Open Scope Z_scope.

Definition RUNTIME_CHECKPOINT_SCHEMA : string := "workspace-runtime-checkpoint/v1".
Definition RUNTIME_CHECKPOINT_ENVELOPE_SCHEMA : string := "workspace-runtime-checkpoint-envelope/v1".
Definition RUNTIME_RECOVERY_DECISION_SCHEMA : string := "workspace-runtime-recovery-decision/v1".
Definition CHECKPOINT_RECOVERY_STATUSES : list string :=
  ["RECOVERABLE"; "MANUAL_RECONCILIATION"; "BLOCKED"; "COMPLETE"].

Definition rc_fail {A} (msg : string) : result A := raise RuntimeCheckpointError msg.
Definition rc_fail_if (b : bool) (msg : string) : result unit := raise_if b RuntimeCheckpointError msg.

Definition Runtime_canonical_json : json → result string :=
  canonical_json RuntimeCheckpointError "RUNTIME_CHECKPOINT_NOT_CANONICAL_JSON".
Definition Runtime_digest `{Hashlib} : json → result string :=
  digest RuntimeCheckpointError "RUNTIME_CHECKPOINT_NOT_CANONICAL_JSON".

(** ** Values of any type *)

(** [for c in text]. *)
Fixpoint characters (s : string) : list string :=
  match s with EmptyString => [] | String c s => String c "" :: characters s end.

(** [tuple(v)]: a dict iterates over its keys. *)
Definition tuple_of (v : json) : result (list json) :=
  match v with
  | JList l => Ok l
  | JStr s => Ok (map JStr (characters s))
  | JObj d => Ok (map (λ kv, JStr kv.1) d)
  | JNull => raise PyTypeError "'NoneType' object is not iterable"
  | JBool _ => raise PyTypeError "'bool' object is not iterable"
  | JInt _ => raise PyTypeError "'int' object is not iterable"
  | JFloat _ => raise PyTypeError "'float' object is not iterable"
  end.

Definition Runtime_sha256 (field : string) (value : json) : result string :=
  match value with JStr s => sha256_ref RuntimeCheckpointError s field | _ => rc_fail (invalid field) end.
Definition Runtime_compact_id (field : string) (value : json) : result string :=
  match value with JStr s => compact_id RuntimeCheckpointError s field | _ => rc_fail (invalid field) end.

(** Only the text [_iso8601] would write for the instant is accepted. *)
Definition Runtime_timestamp (field : string) (value : json) : result string :=
  match value with
  | JStr s =>
      rc_fail_if (is_empty s || negb (bool_decide (s = strip s))) (invalid field) ;;
      match fromisoformat (normalize_zulu s) with
      | None => rc_fail (invalid field)
      | Some parsed =>
          rc_fail_if (bool_decide (dt_offset parsed = None)) (upper field +:+ "_MUST_BE_TIMEZONE_AWARE") ;;
          canonical ← utc_isoformat parsed;
          rc_fail_if (negb (bool_decide (canonical = s))) (upper field +:+ "_MUST_BE_NORMALIZED_UTC") ;;
          Ok s
      end
  | _ => rc_fail (invalid field)
  end.

Definition Runtime_iso8601 (value : datetime) : result string :=
  rc_fail_if (bool_decide (dt_offset value = None)) "CAPTURED_AT_MUST_BE_TIMEZONE_AWARE" ;;
  utc_isoformat value.

(** The loop of [_normalized_ids] and [_normalized_hashes]: one check for each value, then no repetition. *)
Fixpoint collect_distinct (check : json → result string) (field : string) (seen : list string) (values : list json)
    : result (list string) :=
  match values with
  | [] => Ok []
  | value :: values =>
      item ← check value;
      rc_fail_if (mem_str item seen) ("DUPLICATE_" +:+ upper field) ;;
      rest ← collect_distinct check field (item :: seen) values;
      Ok (item :: rest)
  end.
Definition Runtime_normalized_ids (field : string) (values : list json) : result (list string) :=
  ids ← collect_distinct (Runtime_compact_id field) field [] values; Ok (sorted_str ids).
Definition Runtime_normalized_hashes (field : string) (values : list json) : result (list string) :=
  hashes ← collect_distinct (Runtime_sha256 field) field [] values; Ok (sorted_str hashes).

(** ** Checkpoints *)

Record RuntimeCheckpoint := {
  rk_checkpoint_id : string;
  rk_task_id : string;
  rk_task_context_fingerprint : string;
  rk_task_context_identity_fingerprint : string;
  rk_plan_fingerprint : string;
  rk_parent_authority_fingerprint : string;
  rk_scheduling_decision_fingerprint : string;
  rk_approved_node_ids : list string;
  rk_observation_fingerprints : list string;
  rk_captured_at : string;
  rk_schema_version : string
}.

#[export] Instance RuntimeCheckpoint_eq_dec : EqDecision RuntimeCheckpoint.
Proof. solve_decision. Defined.

Definition Runtime_identity_items (c : RuntimeCheckpoint) : list (string * json) := [
  ("schema_version", JStr (rk_schema_version c)); ("task_id", JStr (rk_task_id c));
  ("task_context_fingerprint", JStr (rk_task_context_fingerprint c));
  ("task_context_identity_fingerprint", JStr (rk_task_context_identity_fingerprint c));
  ("plan_fingerprint", JStr (rk_plan_fingerprint c));
  ("parent_authority_fingerprint", JStr (rk_parent_authority_fingerprint c));
  ("scheduling_decision_fingerprint", JStr (rk_scheduling_decision_fingerprint c));
  ("approved_node_ids", json_strs (rk_approved_node_ids c));
  ("observation_fingerprints", json_strs (rk_observation_fingerprints c));
  ("captured_at", JStr (rk_captured_at c))].

Definition RUNTIME_CHECKPOINT_KEYS : list string := [
  "checkpoint_id"; "schema_version"; "task_id"; "task_context_fingerprint"; "task_context_identity_fingerprint";
  "plan_fingerprint"; "parent_authority_fingerprint"; "scheduling_decision_fingerprint"; "approved_node_ids";
  "observation_fingerprints"; "captured_at"].

Section Checkpoints.
Context {HL : Hashlib}.

Definition RuntimeCheckpoint_fingerprint (c : RuntimeCheckpoint) : result string :=
  Runtime_digest (JObj (Runtime_identity_items c)).

(** [validate] on the raw fields. *)
Definition validate_checkpoint_fields (checkpoint_id task_id context identity plan authority decision : json)
    (approved observations : list json) (captured_at schema : json) : result RuntimeCheckpoint :=
  rc_fail_if (negb (is_str schema RUNTIME_CHECKPOINT_SCHEMA)) "RUNTIME_CHECKPOINT_SCHEMA_VERSION_MISMATCH" ;;
  id ← Runtime_compact_id "checkpoint_id" checkpoint_id;
  task ← Runtime_compact_id "task_id" task_id;
  context ← Runtime_sha256 "task_context_fingerprint" context;
  identity ← Runtime_sha256 "task_context_identity_fingerprint" identity;
  plan ← Runtime_sha256 "plan_fingerprint" plan;
  authority ← Runtime_sha256 "parent_authority_fingerprint" authority;
  decision ← Runtime_sha256 "scheduling_decision_fingerprint" decision;
  approvals ← Runtime_normalized_ids "approved_node_id" approved;
  rc_fail_if (negb (bool_decide (strings_of approved = Some approvals))) "APPROVED_NODE_IDS_NOT_NORMALIZED" ;;
  hashes ← Runtime_normalized_hashes "observation_fingerprint" observations;
  rc_fail_if (negb (bool_decide (strings_of observations = Some hashes))) "OBSERVATION_FINGERPRINTS_NOT_NORMALIZED" ;;
  captured ← Runtime_timestamp "captured_at" captured_at;
  let checkpoint := {|
    rk_checkpoint_id := id; rk_task_id := task; rk_task_context_fingerprint := context;
    rk_task_context_identity_fingerprint := identity; rk_plan_fingerprint := plan;
    rk_parent_authority_fingerprint := authority; rk_scheduling_decision_fingerprint := decision;
    rk_approved_node_ids := approvals; rk_observation_fingerprints := hashes; rk_captured_at := captured;
    rk_schema_version := RUNTIME_CHECKPOINT_SCHEMA |} in
  fingerprint ← RuntimeCheckpoint_fingerprint checkpoint;
  rc_fail_if (negb (bool_decide (id = "runtime-checkpoint:" +:+ short_digest fingerprint)))
    "RUNTIME_CHECKPOINT_IDENTITY_MISMATCH" ;;
  Ok checkpoint.

Definition RuntimeCheckpoint_validate (c : RuntimeCheckpoint) : result RuntimeCheckpoint :=
  validate_checkpoint_fields (JStr (rk_checkpoint_id c)) (JStr (rk_task_id c)) (JStr (rk_task_context_fingerprint c))
    (JStr (rk_task_context_identity_fingerprint c)) (JStr (rk_plan_fingerprint c))
    (JStr (rk_parent_authority_fingerprint c)) (JStr (rk_scheduling_decision_fingerprint c))
    (map JStr (rk_approved_node_ids c)) (map JStr (rk_observation_fingerprints c)) (JStr (rk_captured_at c))
    (JStr (rk_schema_version c)).

Definition RuntimeCheckpoint_canonical_dict (c : RuntimeCheckpoint) : result json :=
  RuntimeCheckpoint_validate c ;;
  Ok (JObj (("checkpoint_id", JStr (rk_checkpoint_id c)) :: Runtime_identity_items c)).

(** ** Capture *)

(** One round of the loop of [_observation_fingerprints]: what has been seen under each identifier, and
    the fingerprints in the order of the observations. *)
Definition add_observation_fingerprint (plan : ExecutionPlan) (parent : TaskCapabilityAuthority)
    (acc : gmap string string * list string) (o : ExecutionObservation) : result (gmap string string * list string) :=
  let '(by_id, fingerprints) := acc in
  reraise (ExecutionObservation_validate o (Some plan) (Some parent)) (is_class ExecutionObservationError)
    RuntimeCheckpointError "CHECKPOINT_OBSERVATION_REVALIDATION_FAILED" ;;
  fingerprint ← ExecutionObservation_fingerprint o;
  match by_id !! eo_observation_id o with
  | Some previous =>
      rc_fail_if (negb (bool_decide (previous = fingerprint))) "CHECKPOINT_OBSERVATION_ID_COLLISION" ;;
      Ok (by_id, fingerprints)
  | None => Ok (<[eo_observation_id o := fingerprint]> by_id, fingerprints ++ [fingerprint])
  end.

Definition _observation_fingerprints (observations : list ExecutionObservation) (plan : ExecutionPlan)
    (parent : TaskCapabilityAuthority) : result (list string) :=
  '(_, fingerprints) ← foldM (add_observation_fingerprint plan parent) (∅, []) observations;
  Ok (sorted_str fingerprints).

Definition RuntimeCheckpointBuilder_build (task_context : TaskContext) (plan : ExecutionPlan)
    (parent : TaskCapabilityAuthority) (observations : list ExecutionObservation) (approved_node_ids : list string)
    (captured_at : option datetime) (now : datetime) : result RuntimeCheckpoint :=
  reraise (TaskContext_validate task_context ;; ExecutionPlan_validate plan (Some parent) ;; Ok tt)
    is_value_error RuntimeCheckpointError "CHECKPOINT_CANONICAL_REVALIDATION_FAILED" ;;
  rc_fail_if (negb (bool_decide (tx_task_id task_context = xp_task_id plan))) "CHECKPOINT_TASK_MISMATCH" ;;
  context ← TaskContext_fingerprint task_context;
  rc_fail_if (negb (bool_decide (context = xp_task_context_fingerprint plan)))
    "CHECKPOINT_TASK_CONTEXT_FINGERPRINT_MISMATCH" ;;
  identity ← identity_fingerprint task_context;
  rc_fail_if (negb (bool_decide (identity = xp_task_context_identity_fingerprint plan)))
    "CHECKPOINT_TASK_CONTEXT_IDENTITY_MISMATCH" ;;
  rc_fail_if (negb (bool_decide (tx_authority_fingerprint task_context = ca_fingerprint parent)))
    "CHECKPOINT_PARENT_AUTHORITY_MISMATCH" ;;
  approvals ← Runtime_normalized_ids "approved_node_id" (map JStr approved_node_ids);
  fingerprints ← _observation_fingerprints observations plan parent;
  decision ← reraise (RuntimeScheduler_evaluate task_context plan parent observations approvals)
    (is_class RuntimeSchedulerError) RuntimeCheckpointError "CHECKPOINT_SCHEDULER_REVALIDATION_FAILED";
  timestamp ← Runtime_iso8601 (default now captured_at);
  plan_fingerprint ← ExecutionPlan_fingerprint plan;
  decision_fingerprint ← SchedulingDecision_fingerprint decision;
  let checkpoint id := {|
    rk_checkpoint_id := id; rk_task_id := tx_task_id task_context; rk_task_context_fingerprint := context;
    rk_task_context_identity_fingerprint := identity; rk_plan_fingerprint := plan_fingerprint;
    rk_parent_authority_fingerprint := ca_fingerprint parent;
    rk_scheduling_decision_fingerprint := decision_fingerprint; rk_approved_node_ids := approvals;
    rk_observation_fingerprints := fingerprints; rk_captured_at := timestamp;
    rk_schema_version := RUNTIME_CHECKPOINT_SCHEMA |} in
  digest ← RuntimeCheckpoint_fingerprint (checkpoint "");
  RuntimeCheckpoint_validate (checkpoint ("runtime-checkpoint:" +:+ short_digest digest)).

(** ** Text *)

Definition RuntimeCheckpointCodec_dumps (c : RuntimeCheckpoint) : result string :=
  RuntimeCheckpoint_validate c ;;
  record ← RuntimeCheckpoint_canonical_dict c;
  fingerprint ← RuntimeCheckpoint_fingerprint c;
  Runtime_canonical_json (JObj [("schema_version", JStr RUNTIME_CHECKPOINT_ENVELOPE_SCHEMA); ("checkpoint", record);
                                ("checkpoint_fingerprint", JStr fingerprint)]).

(** The fields are read in the order of the constructor's arguments. *)
Definition checkpoint_from_record (raw : list (string * json)) : result RuntimeCheckpoint :=
  approved ← tuple_of (get raw "approved_node_ids");
  observations ← tuple_of (get raw "observation_fingerprints");
  validate_checkpoint_fields (get raw "checkpoint_id") (get raw "task_id") (get raw "task_context_fingerprint")
    (get raw "task_context_identity_fingerprint") (get raw "plan_fingerprint")
    (get raw "parent_authority_fingerprint") (get raw "scheduling_decision_fingerprint") approved observations
    (get raw "captured_at") (get raw "schema_version").

Definition RuntimeCheckpointCodec_loads (payload : string) : result RuntimeCheckpoint :=
  rc_fail_if (is_empty payload) "INVALID_RUNTIME_CHECKPOINT_PAYLOAD" ;;
  value ← reraise (loads payload) (is_class PyJSONDecodeError) RuntimeCheckpointError "RUNTIME_CHECKPOINT_JSON_INVALID";
  match value with
  | JObj envelope =>
      rc_fail_if (negb (is_str (get envelope "schema_version") RUNTIME_CHECKPOINT_ENVELOPE_SCHEMA))
        "RUNTIME_CHECKPOINT_ENVELOPE_SCHEMA_VERSION_MISMATCH" ;;
      match get envelope "checkpoint" with
      | JObj raw =>
          rc_fail_if (negb (has_keys raw RUNTIME_CHECKPOINT_KEYS)) "RUNTIME_CHECKPOINT_RECORD_SHAPE_INVALID" ;;
          checkpoint ← reraise (checkpoint_from_record raw)
                         (λ c, bool_decide (c = PyKeyError) || bool_decide (c = PyTypeError))
                         RuntimeCheckpointError "RUNTIME_CHECKPOINT_RECORD_SHAPE_INVALID";
          fingerprint ← RuntimeCheckpoint_fingerprint checkpoint;
          rc_fail_if (negb (is_str (get envelope "checkpoint_fingerprint") fingerprint))
            "RUNTIME_CHECKPOINT_INTEGRITY_FAILED" ;;
          canonical ← Runtime_canonical_json value;
          rc_fail_if (negb (bool_decide (canonical = payload))) "RUNTIME_CHECKPOINT_ENVELOPE_NOT_CANONICAL" ;;
          Ok checkpoint
      | _ => rc_fail "RUNTIME_CHECKPOINT_RECORD_NOT_OBJECT"
      end
  | _ => rc_fail "RUNTIME_CHECKPOINT_ENVELOPE_NOT_OBJECT"
  end.

(** ** Recovery *)

Record RuntimeRecoveryDecision := {
  rd_status : string;
  rd_scheduling_decision : SchedulingDecision;
  rd_reason_code : string;
  rd_manual_node_ids : list string;
  rd_schema_version : string
}.

Definition RuntimeRecoveryDecision_canonical_dict (d : RuntimeRecoveryDecision) : result json :=
  rc_fail_if (negb (bool_decide (rd_schema_version d = RUNTIME_RECOVERY_DECISION_SCHEMA)))
    "RUNTIME_RECOVERY_DECISION_SCHEMA_VERSION_MISMATCH" ;;
  rc_fail_if (negb (mem_str (rd_status d) CHECKPOINT_RECOVERY_STATUSES)) "INVALID_RUNTIME_RECOVERY_STATUS" ;;
  rc_fail_if (is_empty (rd_reason_code d)) "INVALID_RECOVERY_REASON_CODE" ;;
  normalized ← Runtime_normalized_ids "manual_node_id" (map JStr (rd_manual_node_ids d));
  rc_fail_if (negb (bool_decide (rd_manual_node_ids d = normalized))) "MANUAL_NODE_IDS_NOT_NORMALIZED" ;;
  decision ← SchedulingDecision_canonical_dict (rd_scheduling_decision d);
  Ok (JObj [("schema_version", JStr (rd_schema_version d)); ("status", JStr (rd_status d));
            ("reason_code", JStr (rd_reason_code d)); ("manual_node_ids", json_strs (rd_manual_node_ids d));
            ("scheduling_decision", decision)]).

Definition RuntimeRecoveryDecision_fingerprint (d : RuntimeRecoveryDecision) : result string :=
  v ← RuntimeRecoveryDecision_canonical_dict d; Runtime_digest v.

(** [tuple(sorted({o.node_id for o in observations if o.status == "PARTIAL"}))]. *)
Definition manual_nodes (observations : list ExecutionObservation) : list string :=
  sorted_str (dict_fromkeys (map eo_node_id (List.filter (λ o, bool_decide (eo_status o = "PARTIAL")) observations))).

(** The status and the reason of a recovery. *)
Definition recovery_outcome (manual : list string) (scheduling : SchedulingDecision) : string * string :=
  if negb (bool_decide (manual = []))
  then ("MANUAL_RECONCILIATION", "PARTIAL_OBSERVATION_MUST_NOT_BE_AUTO_REPLAYED")
  else if bool_decide (sd_status scheduling = "COMPLETE") then ("COMPLETE", "CHECKPOINT_ALREADY_COMPLETE")
  else if bool_decide (sd_status scheduling = "BLOCKED") then ("BLOCKED", "SCHEDULER_BLOCKED")
  else ("RECOVERABLE", "CHECKPOINT_REVALIDATED_NO_EXECUTION_PERFORMED").

Definition RuntimeRecovery_evaluate (c : RuntimeCheckpoint) (task_context : TaskContext) (plan : ExecutionPlan)
    (parent : TaskCapabilityAuthority) (observations : list ExecutionObservation) : result RuntimeRecoveryDecision :=
  RuntimeCheckpoint_validate c ;;
  reraise (TaskContext_validate task_context ;; ExecutionPlan_validate plan (Some parent) ;; Ok tt)
    is_value_error RuntimeCheckpointError "RECOVERY_CANONICAL_REVALIDATION_FAILED" ;;
  rc_fail_if (negb (bool_decide (rk_task_id c = tx_task_id task_context))
              || negb (bool_decide (rk_task_id c = xp_task_id plan))) "RECOVERY_TASK_MISMATCH" ;;
  context ← TaskContext_fingerprint task_context;
  rc_fail_if (negb (bool_decide (rk_task_context_fingerprint c = context)))
    "RECOVERY_TASK_CONTEXT_FINGERPRINT_MISMATCH" ;;
  identity ← identity_fingerprint task_context;
  rc_fail_if (negb (bool_decide (rk_task_context_identity_fingerprint c = identity)))
    "RECOVERY_TASK_CONTEXT_IDENTITY_MISMATCH" ;;
  plan_fingerprint ← ExecutionPlan_fingerprint plan;
  rc_fail_if (negb (bool_decide (rk_plan_fingerprint c = plan_fingerprint))) "RECOVERY_PLAN_FINGERPRINT_MISMATCH" ;;
  rc_fail_if (negb (bool_decide (rk_parent_authority_fingerprint c = ca_fingerprint parent)))
    "RECOVERY_PARENT_AUTHORITY_MISMATCH" ;;
  fingerprints ← _observation_fingerprints observations plan parent;
  rc_fail_if (negb (bool_decide (fingerprints = rk_observation_fingerprints c))) "RECOVERY_OBSERVATION_SET_MISMATCH" ;;
  scheduling ← reraise
    (RuntimeScheduler_evaluate task_context plan parent observations (rk_approved_node_ids c))
    (is_class RuntimeSchedulerError) RuntimeCheckpointError "RECOVERY_SCHEDULER_REVALIDATION_FAILED";
  decision_fingerprint ← SchedulingDecision_fingerprint scheduling;
  rc_fail_if (negb (bool_decide (decision_fingerprint = rk_scheduling_decision_fingerprint c)))
    "RECOVERY_SCHEDULING_DECISION_MISMATCH" ;;
  let manual := manual_nodes observations in
  let '(status, reason) := recovery_outcome manual scheduling in
  let decision := {|
    rd_status := status; rd_scheduling_decision := scheduling; rd_reason_code := reason; rd_manual_node_ids := manual;
    rd_schema_version := RUNTIME_RECOVERY_DECISION_SCHEMA |} in
  RuntimeRecoveryDecision_canonical_dict decision ;;
  Ok decision.
End Checkpoints.
