(* ===== verification/RuntimeCheckpointFacts.v ===== *)
(** * Runtime checkpoints: text and recovery

    Which checkpoints validate; that a checkpoint is read back from its text; that what was captured
    recovers, whatever the order of the observations, to the status its observations call for; and what a
    recovery has compared with the record. *)

From Stdlib Require Import Ascii.
From Stdlib Require String.
From S2P Require Import Prelude PyStr Hashlib PyFloat Json JsonFacts PyTime PyTimeFacts Validators TaskContract.
From S2P Require Import CapabilityAuthority AuthorityFacts WorkflowDesign WorkflowGraph WorkflowFacts ContextManifest TaskContext.
From S2P Require Import ExecutionPlan PlanFacts ExecutionObservation ObservationFacts RuntimeScheduler ReadinessFacts.
From S2P Require Import ExecutionCheckpoint CheckpointFacts RuntimeCheckpoint.

Local Open Scope Z_scope.

(** ** Validators *)

Definition plain_id (s : string) : Prop := s = strip s ∧ id_re s = true.

Lemma runtime_sha_ok f v x : Runtime_sha256 f v = Ok x ↔ v = JStr x ∧ is_sha256_ref x = true.
Proof. destruct v; cbn; try (split; [done|by intros [[=] _]]). rewrite sha256_ref_ok. naive_solver. Qed.
Lemma runtime_id_ok f v x : Runtime_compact_id f v = Ok x ↔ v = JStr x ∧ plain_id x.
Proof. destruct v; cbn; try (split; [done|by intros [[=] _]]). rewrite compact_id_ok. unfold plain_id. naive_solver. Qed.
Lemma runtime_timestamp_str f v x : Runtime_timestamp f v = Ok x → v = JStr x.
Proof.
  destruct v; try done. unfold Runtime_timestamp, rc_fail_if. rewrite guard_bind_ok. intros [_ H].
  destruct (fromisoformat _); [|done]. apply guard_bind_ok in H as [_ H]. apply bind_ok_iff in H as (? & _ & H).
  rewrite guard_bind_ok in H. naive_solver.
Qed.

Lemma collect_ok (check : json → result string) field (P : string → Prop) :
  (∀ v x, check v = Ok x ↔ v = JStr x ∧ P x) → ∀ values seen ids,
  collect_distinct check field seen values = Ok ids ↔
  values = map JStr ids ∧ NoDup ids ∧ Forall P ids ∧ ∀ x, x ∈ ids → x ∉ seen.
Proof.
  intros Hcheck. induction values as [|v values IH]; intros seen ids; cbn [collect_distinct].
  { split; [intros [= <-]; split_and!; [done|constructor|constructor|set_solver]|].
    intros (Hv & _). by destruct ids. }
  rewrite bind_ok_iff. setoid_rewrite Hcheck. split.
  - intros (x & [-> Hx] & H). apply guard_bind_ok in H as [Hs H]. apply mem_str_false in Hs.
    apply bind_ok_iff in H as (rest & (-> & Hd & Hp & Hn)%IH & [= <-]). cbn [map]. split_and!; [done| |by constructor|].
    + constructor; [|done]. intros Hin. apply (Hn _ Hin). left.
    + intros y [->|Hy]%elem_of_cons; [done|]. specialize (Hn _ Hy). set_solver.
  - intros (Hv & Hd & Hp & Hn). destruct ids as [|x ids]; [done|]. injection Hv as -> ->.
    apply NoDup_cons in Hd as [Hx Hd]. inversion_clear Hp. exists x. split; [done|].
    apply guard_bind_ok. split; [apply mem_str_false, Hn; left|].
    apply bind_ok_iff. exists ids. split; [|done]. apply IH. split_and!; [done..|].
    intros y Hy [->|Hs]%elem_of_cons; [done|]. apply (Hn y); [by right|done].
Qed.

Definition distinct_sorted (P : string → Prop) (l : list string) : Prop := l = sorted_str l ∧ NoDup l ∧ Forall P l.

Lemma json_str_inj l l' : map JStr l = map JStr l' → l = l'.
Proof. revert l'. induction l as [|x l IH]; intros [|y l']; cbn; try done. intros [= -> ?%IH]. by subst. Qed.

Lemma normalized_with_ok check field (P : string → Prop) values r : (∀ v x, check v = Ok x ↔ v = JStr x ∧ P x) →
  (ids ← collect_distinct check field [] values; Ok (sorted_str ids)) = Ok r ↔
  ∃ ids, values = map JStr ids ∧ NoDup ids ∧ Forall P ids ∧ r = sorted_str ids.
Proof.
  intros Hc. rewrite bind_ok_iff. setoid_rewrite (collect_ok _ _ _ Hc). split.
  - intros (ids & (? & ? & ? & _) & [= <-]). by exists ids.
  - intros (ids & ? & ? & ? & ->). exists ids. split_and!; [done..| |done]. set_solver.
Qed.

(** What a tuple of a record must be: the strings themselves, in order. *)
Lemma normal_tuple check field (P : string → Prop) values r : (∀ v x, check v = Ok x ↔ v = JStr x ∧ P x) →
  (ids ← collect_distinct check field [] values; Ok (sorted_str ids)) = Ok r ∧ strings_of values = Some r ↔
  values = map JStr r ∧ distinct_sorted P r.
Proof.
  intros Hc. rewrite (normalized_with_ok _ _ _ _ _ Hc). unfold distinct_sorted. split.
  - intros ((ids & -> & Hd & Hp & ->) & Hs). rewrite strings_of_strs in Hs. injection Hs as Hs. rewrite <- Hs at 1.
    split; [done|]. split; [by rewrite sorted_str_idemp|]. by rewrite <- Hs.
  - intros (-> & Hs & Hd & Hp). split; [by exists r|]. apply strings_of_strs.
Qed.

(** ** Valid checkpoints *)

Section Valid.
Context {HL : Hashlib}.

Lemma runtime_json_ok v : json_ok v = true → Runtime_canonical_json v = Ok (print v).
Proof. intros Hv. unfold Runtime_canonical_json, canonical_json. by rewrite dumps_ok. Qed.
Lemma runtime_digest_ok v : json_ok v = true → Runtime_digest v = Ok (sha256_of_text (print v)).
Proof. intros Hv. unfold Runtime_digest, digest, canonical_json. by rewrite dumps_ok. Qed.

Lemma runtime_identity_ok c : json_ok (JObj (Runtime_identity_items c)) = true.
Proof. unfold Runtime_identity_items. cbn [json_ok forallb snd json_strs]. rewrite !json_ok_strs. reflexivity. Qed.

Definition checkpoint_sha (c : RuntimeCheckpoint) : string := sha256_of_text (print (JObj (Runtime_identity_items c))).

Lemma checkpoint_fingerprint_ok c : RuntimeCheckpoint_fingerprint c = Ok (checkpoint_sha c).
Proof. apply runtime_digest_ok, runtime_identity_ok. Qed.

Record checkpoint_ok (c : RuntimeCheckpoint) : Prop := {
  ck_schema : rk_schema_version c = RUNTIME_CHECKPOINT_SCHEMA;
  ck_names : plain_id (rk_checkpoint_id c) ∧ plain_id (rk_task_id c);
  ck_hashes : Forall (λ h, is_sha256_ref h = true) [rk_task_context_fingerprint c; rk_task_context_identity_fingerprint c;
    rk_plan_fingerprint c; rk_parent_authority_fingerprint c; rk_scheduling_decision_fingerprint c];
  ck_approved : distinct_sorted plain_id (rk_approved_node_ids c);
  ck_observed : distinct_sorted (λ h, is_sha256_ref h = true) (rk_observation_fingerprints c);
  ck_captured : Runtime_timestamp "captured_at" (JStr (rk_captured_at c)) = Ok (rk_captured_at c);
  ck_identity : rk_checkpoint_id c = "runtime-checkpoint:" +:+ short_digest (checkpoint_sha c)
}.

(** Validation accepts exactly these records, and returns the fields it was given. *)
Lemma checkpoint_fields_ok id task context identity plan authority decision approved observations captured schema c :
  validate_checkpoint_fields id task context identity plan authority decision approved observations captured schema = Ok c ↔
  ((id = JStr (rk_checkpoint_id c) ∧ task = JStr (rk_task_id c) ∧ context = JStr (rk_task_context_fingerprint c)
    ∧ identity = JStr (rk_task_context_identity_fingerprint c) ∧ plan = JStr (rk_plan_fingerprint c)
    ∧ authority = JStr (rk_parent_authority_fingerprint c) ∧ decision = JStr (rk_scheduling_decision_fingerprint c))
   ∧ approved = map JStr (rk_approved_node_ids c) ∧ observations = map JStr (rk_observation_fingerprints c)
   ∧ captured = JStr (rk_captured_at c) ∧ schema = JStr (rk_schema_version c))
  ∧ checkpoint_ok c.
Proof.
  unfold validate_checkpoint_fields, rc_fail_if. rewrite guard_bind_ok. split.
  - intros (Hs & H). apply bind_ok_iff in H as (i & [-> Hi]%runtime_id_ok & H).
    apply bind_ok_iff in H as (t & [-> Ht]%runtime_id_ok & H). apply bind_ok_iff in H as (x & [-> Hx]%runtime_sha_ok & H).
    apply bind_ok_iff in H as (y & [-> Hy]%runtime_sha_ok & H). apply bind_ok_iff in H as (p & [-> Hp]%runtime_sha_ok & H).
    apply bind_ok_iff in H as (a & [-> Ha]%runtime_sha_ok & H). apply bind_ok_iff in H as (d & [-> Hd]%runtime_sha_ok & H).
    apply bind_ok_iff in H as (ids & Hids & H). apply guard_bind_ok in H as [Hn H].
    apply bind_ok_iff in H as (hs & Hhs & H). apply guard_bind_ok in H as [Hm H].
    apply bind_ok_iff in H as (cap & Hcap & H). cbv zeta in H. rewrite checkpoint_fingerprint_ok in H. cbn [mbind result_bind] in H.
    apply guard_bind_ok in H as [Hid [= <-]]. bool_prop.
    pose proof (proj1 (normal_tuple _ _ _ _ _ (runtime_id_ok _)) (conj Hids Hn)) as [-> Hids'].
    pose proof (proj1 (normal_tuple _ _ _ _ _ (runtime_sha_ok _)) (conj Hhs Hm)) as [-> Hhs'].
    pose proof (runtime_timestamp_str _ _ _ Hcap) as ->.
    destruct schema; try done. cbn in Hs. bool_prop. subst s. cbn. split; [done|].
    constructor; cbn; try done. by repeat constructor.
  - intros [((-> & -> & -> & -> & -> & -> & ->) & -> & -> & -> & ->) [Hs [Hi Ht] Hh Ha Ho Hc Hid]]. cbn [is_str].
    rewrite (bool_decide_eq_true_2 _ Hs). split; [done|].
    inversion_clear Hh as [|? ? Hx Hh']. inversion_clear Hh' as [|? ? Hy Hh]. inversion_clear Hh as [|? ? Hp Hh'].
    inversion_clear Hh' as [|? ? Hau Hh]. inversion_clear Hh as [|? ? Hd _].
    destruct (proj2 (normal_tuple _ "approved_node_id" _ _ _ (runtime_id_ok "approved_node_id")) (conj eq_refl Ha)) as [Ha1 Ha2].
    destruct (proj2 (normal_tuple _ "observation_fingerprint" _ _ _ (runtime_sha_ok "observation_fingerprint")) (conj eq_refl Ho)) as [Ho1 Ho2].
    destruct c as [i t x y p a d approved observations captured schema].
    cbn [rk_checkpoint_id rk_task_id rk_task_context_fingerprint rk_task_context_identity_fingerprint rk_plan_fingerprint
      rk_parent_authority_fingerprint rk_scheduling_decision_fingerprint rk_approved_node_ids rk_observation_fingerprints
      rk_captured_at rk_schema_version] in *. subst schema.
    do 7 (apply bind_ok_iff; eexists; split; [first [by apply runtime_id_ok|by apply runtime_sha_ok]|]).
    apply bind_ok_iff. exists approved. split; [exact Ha1|]. apply guard_bind_ok. split; [by rewrite Ha2, bool_decide_eq_true_2|].
    apply bind_ok_iff. exists observations. split; [exact Ho1|]. apply guard_bind_ok. split; [by rewrite Ho2, bool_decide_eq_true_2|].
    apply bind_ok_iff. exists captured. split; [done|]. cbv zeta. rewrite checkpoint_fingerprint_ok. cbn [mbind result_bind].
    apply guard_bind_ok. split; [by rewrite bool_decide_eq_true_2|done].
Qed.

Lemma checkpoint_validate_ok c x : RuntimeCheckpoint_validate c = Ok x ↔ x = c ∧ checkpoint_ok c.
Proof.
  unfold RuntimeCheckpoint_validate. rewrite checkpoint_fields_ok. split.
  - intros [((H1 & H2 & H3 & H4 & H5 & H6 & H7) & H8%json_str_inj & H9%json_str_inj & H10 & H11) Hok].
    assert (x = c) as -> by (destruct x, c; cbn in *; congruence). done.
  - by intros [-> ?].
Qed.
Lemma checkpoint_valid c : checkpoint_ok c → RuntimeCheckpoint_validate c = Ok c.
Proof. intros H. by apply checkpoint_validate_ok. Qed.

(** ** Text *)

Definition checkpoint_record (c : RuntimeCheckpoint) : list (string * json) :=
  ("checkpoint_id", JStr (rk_checkpoint_id c)) :: Runtime_identity_items c.
Definition checkpoint_envelope (c : RuntimeCheckpoint) : list (string * json) := [
  ("schema_version", JStr RUNTIME_CHECKPOINT_ENVELOPE_SCHEMA); ("checkpoint", JObj (checkpoint_record c));
  ("checkpoint_fingerprint", JStr (checkpoint_sha c))].

Lemma checkpoint_record_ok c : json_ok (JObj (checkpoint_record c)) = true.
Proof.
  unfold checkpoint_record, Runtime_identity_items. cbn [json_ok forallb snd json_strs]. rewrite !json_ok_strs. reflexivity.
Qed.
Lemma checkpoint_envelope_ok c extra : NoDup (checkpoint_envelope c ++ extra).*1 → forallb (λ kv, json_ok kv.2) extra = true →
  json_ok (JObj (checkpoint_envelope c ++ extra)) = true.
Proof.
  intros Hd He. cbn [json_ok]. rewrite bool_decide_eq_true_2 by done. cbn [andb checkpoint_envelope app forallb snd].
  by rewrite checkpoint_record_ok, He.
Qed.

Lemma checkpoint_dumps_ok c : checkpoint_ok c → RuntimeCheckpointCodec_dumps c = Ok (print (JObj (checkpoint_envelope c))).
Proof.
  intros H. unfold RuntimeCheckpointCodec_dumps, RuntimeCheckpoint_canonical_dict. rewrite checkpoint_valid by done.
  cbn [mbind result_bind]. rewrite checkpoint_fingerprint_ok. cbn [mbind result_bind]. apply runtime_json_ok.
  rewrite <- (app_nil_r (checkpoint_envelope c)). apply checkpoint_envelope_ok; [|done]. apply (bool_decide_unpack _). reflexivity.
Qed.

Lemma canon_str x : canon (JStr x) = JStr x.
Proof. done. Qed.
Lemma checkpoint_record_read c : checkpoint_ok c → checkpoint_from_record (canon_items (checkpoint_record c)) = Ok c.
Proof.
  intros H. unfold checkpoint_from_record.
  assert (NoDup (checkpoint_record c).*1) as Hd by (apply (bool_decide_unpack _); reflexivity).
  rewrite !get_canon by done. unfold checkpoint_record, Runtime_identity_items. read_items. unfold json_strs. rewrite !canon_strs.
  cbn [canon tuple_of mbind result_bind]. by apply checkpoint_fields_ok.
Qed.

(** The text of a record is read back whatever else its envelope holds. *)
Lemma checkpoint_loads_ok c extra : checkpoint_ok c → NoDup (checkpoint_envelope c ++ extra).*1 →
  forallb (λ kv, json_ok kv.2) extra = true →
  RuntimeCheckpointCodec_loads (print (JObj (checkpoint_envelope c ++ extra))) = Ok c.
Proof.
  intros H Hd He. pose proof (checkpoint_envelope_ok c extra Hd He) as Hok. set (envelope := checkpoint_envelope c ++ extra) in *.
  unfold RuntimeCheckpointCodec_loads. destruct (print_head _ Hok) as (h & t & Hp & _).
  assert (is_empty (print (JObj envelope)) = false) as -> by (by rewrite Hp). cbn [rc_fail_if raise_if mbind result_bind].
  rewrite (loads_dumps _ _ Hok (dumps_ok _ Hok)). cbn [reraise catch mbind result_bind].
  change (canon (JObj envelope)) with (JObj (canon_items envelope)). cbv iota.
  rewrite !get_canon by done.
  assert (get envelope "schema_version" = JStr RUNTIME_CHECKPOINT_ENVELOPE_SCHEMA) as -> by done.
  assert (get envelope "checkpoint" = JObj (checkpoint_record c)) as -> by done.
  assert (get envelope "checkpoint_fingerprint" = JStr (checkpoint_sha c)) as -> by done.
  rewrite !canon_str. cbn [is_str]. rewrite bool_decide_eq_true_2 by done. cbn [negb rc_fail_if raise_if mbind result_bind].
  change (canon (JObj (checkpoint_record c))) with (JObj (canon_items (checkpoint_record c))). cbv iota.
  rewrite has_keys_canon. change (has_keys (checkpoint_record c) _) with true. cbn [negb rc_fail_if raise_if mbind result_bind].
  rewrite checkpoint_record_read by done. cbn [reraise catch mbind result_bind]. rewrite checkpoint_fingerprint_ok.
  cbn [mbind result_bind is_str]. rewrite bool_decide_eq_true_2 by done. cbn [negb rc_fail_if raise_if mbind result_bind].
  change (JObj (canon_items envelope)) with (canon (JObj envelope)). rewrite runtime_json_ok by (by apply json_ok_canon).
  rewrite print_canon. cbn [mbind result_bind]. by rewrite bool_decide_eq_true_2.
Qed.
End Valid.

(** ** The observations of a checkpoint *)

Section Recovery.
Context {HL : Hashlib}.

(** Every observation validates, one identifier has one fingerprint, and [m] lists them by identifier. *)
Record fingerprinted (p : ExecutionPlan) (parent : TaskCapabilityAuthority) (obs : list ExecutionObservation)
    (m : gmap string string) : Prop := {
  fp_valid : ∀ o, o ∈ obs → ExecutionObservation_validate o (Some p) (Some parent) = Ok o
    ∧ ∃ f, ExecutionObservation_fingerprint o = Ok f ∧ m !! eo_observation_id o = Some f;
  fp_only : ∀ id f, m !! id = Some f → ∃ o, o ∈ obs ∧ eo_observation_id o = id
}.

Lemma add_fingerprint_ok p parent m fs o acc : add_observation_fingerprint p parent (m, fs) o = Ok acc ↔
  ExecutionObservation_validate o (Some p) (Some parent) = Ok o ∧ ∃ f, ExecutionObservation_fingerprint o = Ok f
  ∧ ((m !! eo_observation_id o = Some f ∧ acc = (m, fs))
     ∨ (m !! eo_observation_id o = None ∧ acc = (<[eo_observation_id o := f]> m, fs ++ [f]))).
Proof.
  unfold add_observation_fingerprint, rc_fail_if. rewrite bind_ok_iff. setoid_rewrite reraise_ok. split.
  - intros (x & Hx & H). pose proof (observation_observed _ _ _ _ Hx) as [-> _]. split; [done|].
    apply bind_ok_iff in H as (f & Hf & H). exists f. split; [done|]. destruct (m !! _) as [g|]; [|right; by injection H as <-].
    apply guard_bind_ok in H as [Hg [= <-]]. bool_prop. subst. by left.
  - intros (Hx & f & Hf & H). exists o. split; [done|]. rewrite Hf. cbn [mbind result_bind].
    destruct H as [[-> ->]|[-> ->]]; [|done]. by rewrite bool_decide_eq_true_2.
Qed.

Lemma add_all_ok p parent obs : ∀ m fs m' fs', foldM (add_observation_fingerprint p parent) (m, fs) obs = Ok (m', fs') →
  fs ≡ₚ (map_to_list m).*2 → m ⊆ m' ∧ fs' ≡ₚ (map_to_list m').*2
  ∧ (∀ o, o ∈ obs → ExecutionObservation_validate o (Some p) (Some parent) = Ok o
      ∧ ∃ f, ExecutionObservation_fingerprint o = Ok f ∧ m' !! eo_observation_id o = Some f)
  ∧ (∀ id f, m' !! id = Some f → m !! id = Some f ∨ ∃ o, o ∈ obs ∧ eo_observation_id o = id).
Proof.
  induction obs as [|o obs IH]; intros m fs m' fs' H Hfs; cbn [foldM] in H.
  { injection H as <- <-. split_and!; [done|done|set_solver|by left]. }
  apply bind_ok_iff in H as ([m1 fs1] & (Hv & f & Hf & Hacc)%add_fingerprint_ok & H).
  assert (fs1 ≡ₚ (map_to_list m1).*2 ∧ m ⊆ m1 ∧ m1 !! eo_observation_id o = Some f
    ∧ ∀ id g, m1 !! id = Some g → m !! id = Some g ∨ id = eo_observation_id o) as (Hfs1 & Hsub & Hid & Honly).
  { destruct Hacc as [[Hl [= -> ->]]|[Hl [= -> ->]]].
    - split_and!; [done|done|done|by left].
    - split_and!; [|by apply insert_subseteq|by rewrite lookup_insert_eq|].
      + rewrite map_to_list_insert by done. cbn. rewrite Hfs. apply Permutation_app_comm.
      + intros id g. rewrite lookup_insert_Some. naive_solver. }
  apply IH in H as (Hsub' & Hfs' & Hall & Hon); [|done]. split_and!; [by etrans|done| |].
  - intros x [->|Hx]%elem_of_cons; [|by apply Hall]. split; [done|]. exists f. split; [done|]. by eapply lookup_weaken.
  - intros id g Hg. destruct (Hon id g Hg) as [H1|(x & Hx & <-)]; [|right; exists x; set_solver].
    destruct (Honly id g H1) as [?| ->]; [by left|right]. exists o. set_solver.
Qed.

Lemma add_all_total p parent (M : gmap string string) obs : ∀ m fs, m ⊆ M →
  (∀ o, o ∈ obs → ExecutionObservation_validate o (Some p) (Some parent) = Ok o
    ∧ ∃ f, ExecutionObservation_fingerprint o = Ok f ∧ M !! eo_observation_id o = Some f) →
  ∃ m' fs', foldM (add_observation_fingerprint p parent) (m, fs) obs = Ok (m', fs') ∧ m' ⊆ M.
Proof.
  induction obs as [|o obs IH]; intros m fs Hsub Hall; cbn [foldM]; [by exists m, fs|].
  destruct (Hall o ltac:(left)) as (Hv & f & Hf & Hm).
  assert (∃ m1 fs1, add_observation_fingerprint p parent (m, fs) o = Ok (m1, fs1) ∧ m1 ⊆ M) as (m1 & fs1 & H1 & Hs1).
  { destruct (m !! eo_observation_id o) as [g|] eqn:E.
    - assert (g = f) as -> by (pose proof (lookup_weaken _ _ _ _ E Hsub); congruence).
      exists m, fs. split; [|done]. apply add_fingerprint_ok. split; [done|]. exists f. split; [done|]. by left.
    - exists (<[eo_observation_id o := f]> m), (fs ++ [f]). split; [|by apply insert_subseteq_l].
      apply add_fingerprint_ok. split; [done|]. exists f. split; [done|]. by right. }
  rewrite H1. cbn [mbind result_bind]. apply IH; [done|]. intros x Hx. apply Hall. by right.
Qed.

(** The fingerprints of the observations depend on nothing but which observations there are. *)
Lemma observation_fingerprints_ok obs p parent fs : _observation_fingerprints obs p parent = Ok fs ↔
  ∃ m, fingerprinted p parent obs m ∧ fs = sorted_str (map_to_list m).*2.
Proof.
  unfold _observation_fingerprints. rewrite bind_ok_iff. split.
  - intros ([m l] & H & [= <-]). apply add_all_ok in H as (_ & Hl & Hall & Hon); [|by rewrite map_to_list_empty].
    exists m. split; [|by apply sorted_str_unique]. constructor; [done|]. intros id f Hid.
    destruct (Hon id f Hid) as [[]%lookup_empty_Some|?]; done.
  - intros (m & [Hall Hon] & ->). destruct (add_all_total p parent m obs ∅ []) as (m' & l & H & Hsub);
      [apply map_empty_subseteq|done|]. exists (m', l). split; [done|].
    apply add_all_ok in H as (_ & Hl & Hall' & _); [|by rewrite map_to_list_empty].
    assert (m = m') as ->; [|f_equal; by apply sorted_str_unique].
    apply (anti_symm (⊆)); [|done]. apply map_subseteq_spec. intros id f Hf.
    destruct (Hon id f Hf) as (o & Ho & <-). destruct (Hall o Ho) as (_ & g & Hg & Hm).
    destruct (Hall' o Ho) as (_ & g' & Hg' & Hm'). congruence.
Qed.

Lemma observation_fingerprints_same obs obs' p parent fs : (∀ o, o ∈ obs ↔ o ∈ obs') →
  _observation_fingerprints obs p parent = Ok fs → _observation_fingerprints obs' p parent = Ok fs.
Proof.
  intros Hsame (m & [Hall Hon] & ->)%observation_fingerprints_ok. apply observation_fingerprints_ok. exists m. split; [|done].
  constructor; [intros o Ho; by apply Hall, Hsame|]. intros id f Hf. destruct (Hon id f Hf) as (o & Ho & <-). exists o. by rewrite <- Hsame.
Qed.


(** ** Capture and recovery *)

(** The record of a run: each of its fields is the one the live inputs give. *)
Record captured (tc : TaskContext) (p : ExecutionPlan) (parent : TaskCapabilityAuthority)
    (obs : list ExecutionObservation) (c : RuntimeCheckpoint) (d : SchedulingDecision) : Prop := {
  cp_valid : checkpoint_ok c;
  cp_task : rk_task_id c = tx_task_id tc;
  cp_context : TaskContext_fingerprint tc = Ok (rk_task_context_fingerprint c);
  cp_context_identity : identity_fingerprint tc = Ok (rk_task_context_identity_fingerprint c);
  cp_plan : ExecutionPlan_fingerprint p = Ok (rk_plan_fingerprint c);
  cp_authority : ca_fingerprint parent = rk_parent_authority_fingerprint c;
  cp_observations : _observation_fingerprints obs p parent = Ok (rk_observation_fingerprints c);
  cp_decision : RuntimeScheduler_evaluate tc p parent obs (rk_approved_node_ids c) = Ok d;
  cp_fingerprint : SchedulingDecision_fingerprint d = Ok (rk_scheduling_decision_fingerprint c)
}.

Lemma evaluate_admitted tc p parent obs ids d : RuntimeScheduler_evaluate tc p parent obs ids = Ok d → admitted tc p parent.
Proof. unfold RuntimeScheduler_evaluate. by intros [H%check_admission_ok _]%unit_bind_ok. Qed.

Lemma build_captured tc p parent obs ids at_ now c :
  RuntimeCheckpointBuilder_build tc p parent obs ids at_ now = Ok c → ∃ d, captured tc p parent obs c d
    ∧ rk_approved_node_ids c = sorted_str ids.
Proof.
  unfold RuntimeCheckpointBuilder_build, rc_fail_if. intros [_ H]%unit_bind_ok. apply guard_bind_ok in H as [_ H].
  apply bind_ok_iff in H as (context & Hctx & H). apply guard_bind_ok in H as [_ H].
  apply bind_ok_iff in H as (identity & Hid & H). apply guard_bind_ok in H as [_ H]. apply guard_bind_ok in H as [_ H].
  apply bind_ok_iff in H as (approvals & Happ & H). apply bind_ok_iff in H as (fs & Hfs & H).
  apply bind_ok_iff in H as (d & Hd%reraise_ok & H). apply bind_ok_iff in H as (t & _ & H).
  apply bind_ok_iff in H as (pf & Hpf & H). apply bind_ok_iff in H as (df & Hdf & H). cbv zeta in H.
  apply bind_ok_iff in H as (dig & _ & H). apply checkpoint_validate_ok in H as [-> Hok].
  exists d. split; [by constructor|]. cbn.
  apply (normalized_with_ok _ _ _ _ _ (runtime_id_ok _)) in Happ as (ids' & Hi%json_str_inj & _ & _ & ->). by subst.
Qed.

Lemma plan_node_id p parent n : ExecutionPlan_validate p parent = Ok p → n ∈ xp_nodes p → node_id_re (en_node_id n) = true.
Proof.
  intros (_ & (w & levels & Hp) & _)%plan_validate_inv Hin.
  pose proof (proj1 (validated_workflow_ok p w) (po_workflow _ _ _ Hp)) as (Hok & _).
  destruct (plan_source _ _ _ n Hp Hin) as (source & Hs & <- & _).
  pose proof (proj1 (wo_nodes _ Hok)) as Hall. rewrite Forall_elem in Hall. by apply Hall.
Qed.


Lemma node_id_plain_id s : node_id_re s = true → plain_id s.
Proof.
  intros H. split.
  - symmetry. apply strip_word. revert H. intros H%node_id_plain. revert H. apply forall_char_impl.
    by intros c [-> _]%plain_char_normal.
  - destruct s as [|c t]; [done|]. cbn [node_id_re id_re] in *. rewrite !andb_true_iff in *. destruct H as [[Hc Hl] Ht].
    apply Nat.leb_le in Hl. split; [split|].
    + revert Hc. destruct c as [[] [] [] [] [] [] [] []]; by vm_compute.
    + apply Nat.leb_le. lia.
    + revert Ht. apply forall_char_impl. intros d.
      destruct d as [[] [] [] [] [] [] [] []]; by vm_compute.
Qed.

Definition recovery_of (obs : list ExecutionObservation) (d : SchedulingDecision) : RuntimeRecoveryDecision := {|
  rd_status := (recovery_outcome (manual_nodes obs) d).1; rd_scheduling_decision := d;
  rd_reason_code := (recovery_outcome (manual_nodes obs) d).2; rd_manual_node_ids := manual_nodes obs;
  rd_schema_version := RUNTIME_RECOVERY_DECISION_SCHEMA |}.

Lemma elem_of_manual obs id : id ∈ manual_nodes obs ↔ ∃ o, o ∈ obs ∧ eo_node_id o = id ∧ eo_status o = "PARTIAL".
Proof.
  unfold manual_nodes. rewrite elem_of_sorted_str, elem_of_dict_fromkeys, list_elem_of_fmap.
  setoid_rewrite list_elem_of_In at 1. setoid_rewrite filter_In. setoid_rewrite <- list_elem_of_In.
  setoid_rewrite bool_decide_eq_true. naive_solver.
Qed.

Lemma recovery_dict_total p parent obs fs d v : _observation_fingerprints obs p parent = Ok fs →
  SchedulingDecision_canonical_dict d = Ok v → ∃ w, RuntimeRecoveryDecision_canonical_dict (recovery_of obs d) = Ok w.
Proof.
  intros (m & [Hall _] & _)%observation_fingerprints_ok Hv. unfold RuntimeRecoveryDecision_canonical_dict. cbn [recovery_of
    rd_schema_version rd_status rd_reason_code rd_manual_node_ids rd_scheduling_decision].
  rewrite bool_decide_eq_true_2 by done. cbn [negb rc_fail_if raise_if mbind result_bind].
  assert (mem_str (recovery_outcome (manual_nodes obs) d).1 CHECKPOINT_RECOVERY_STATUSES = true
    ∧ is_empty (recovery_outcome (manual_nodes obs) d).2 = false) as [-> ->] by (unfold recovery_outcome; repeat case_match; split; reflexivity).
  cbn [negb rc_fail_if raise_if mbind result_bind]. unfold Runtime_normalized_ids.
  destruct (proj2 (normal_tuple _ "manual_node_id" _ (map JStr (manual_nodes obs)) (manual_nodes obs) (runtime_id_ok "manual_node_id"))) as [-> _].
  { split; [done|]. split; [unfold manual_nodes; by rewrite sorted_str_idemp|].
    split; [unfold manual_nodes; rewrite sorted_str_perm; apply NoDup_dict_fromkeys|].
    apply Forall_elem. intros id (o & Ho & <- & _)%elem_of_manual. destruct (Hall o Ho) as [Hval _].
    apply observation_observed in Hval as (_ & n & a & Hob). destruct (obs_node _ _ _ _ _ Hob) as (Hn & <- & _).
    apply node_id_plain_id. eapply plan_node_id; [apply Hob|done]. }
  cbn [mbind result_bind]. rewrite bool_decide_eq_true_2 by done. cbn [negb rc_fail_if raise_if mbind result_bind].
  rewrite Hv. by eexists.
Qed.

(** The evaluation accepts exactly the live inputs the checkpoint records. *)
Lemma recovery_ok c tc p parent obs r : RuntimeRecovery_evaluate c tc p parent obs = Ok r ↔
  ∃ d, captured tc p parent obs c d ∧ r = recovery_of obs d.
Proof.
  unfold RuntimeRecovery_evaluate, rc_fail_if. split.
  - intros H. apply bind_ok_iff in H as (? & [_ Hok]%checkpoint_validate_ok & H). apply unit_bind_ok in H as [_ H].
    apply guard_bind_ok in H as [Ht H]. bool_prop. apply bind_ok_iff in H as (ctx & Hx & H).
    apply guard_bind_ok in H as [Hxe H]. apply bind_ok_iff in H as (i & Hi & H). apply guard_bind_ok in H as [Hie H].
    apply bind_ok_iff in H as (pf & Hpf & H). apply guard_bind_ok in H as [Hpe H]. apply guard_bind_ok in H as [Hae H].
    apply bind_ok_iff in H as (fs & Hfs & H). apply guard_bind_ok in H as [Hfe H].
    apply bind_ok_iff in H as (d & Hd%reraise_ok & H). apply bind_ok_iff in H as (df & Hdf & H).
    apply guard_bind_ok in H as [Hde H]. bool_prop. subst. exists d. split; [by constructor|]. cbv zeta in H. unfold recovery_of.
    destruct (recovery_outcome _ _) as [st re]. apply bind_ok_iff in H as (? & _ & H). by injection H.
  - intros (d & [Hok Ht Hx Hi Hp Ha Hfs Hd Hdf] & ->). rewrite checkpoint_valid by done. cbn [mbind result_bind].
    pose proof (evaluate_admitted _ _ _ _ _ _ Hd) as [Hc Hpl Htask _ _ _]. rewrite Hc. cbn [mbind result_bind].
    rewrite Hpl. cbn [reraise catch mbind result_bind].
    apply guard_bind_ok; split; [by rewrite <- Htask, <- Ht, bool_decide_eq_true_2|].
    apply bind_ok_iff. eexists. split; [exact Hx|]. apply guard_bind_ok; split; [by rewrite bool_decide_eq_true_2|].
    apply bind_ok_iff. eexists. split; [exact Hi|]. apply guard_bind_ok; split; [by rewrite bool_decide_eq_true_2|].
    apply bind_ok_iff. eexists. split; [exact Hp|]. apply guard_bind_ok; split; [by rewrite bool_decide_eq_true_2|].
    apply guard_bind_ok; split; [by rewrite bool_decide_eq_true_2|].
    apply bind_ok_iff. eexists. split; [exact Hfs|]. apply guard_bind_ok; split; [by rewrite bool_decide_eq_true_2|].
    apply bind_ok_iff. exists d. split; [by apply reraise_ok|].
    apply bind_ok_iff. eexists. split; [exact Hdf|]. apply guard_bind_ok; split; [by rewrite bool_decide_eq_true_2|]. cbv zeta.
    unfold SchedulingDecision_fingerprint in Hdf. apply bind_ok_iff in Hdf as (v & Hv & _).
    destruct (recovery_dict_total p parent obs _ d v Hfs Hv) as [w Hw]. unfold recovery_of in Hw |- *.
    destruct (recovery_outcome _ _) as [st re]. cbn [fst snd] in *. by rewrite Hw.
Qed.

Lemma captured_faithful tc p parent obs c d : captured tc p parent obs c d → ids_faithful obs ∨ fingerprint_collision obs.
Proof. intros Hc. eapply evaluate_faithful, (cp_decision _ _ _ _ _ _ Hc). Qed.

(** The same observations in another order are the same run. *)
Lemma captured_perm tc p parent obs obs' c d : ids_faithful obs → obs ≡ₚ obs' → captured tc p parent obs c d →
  captured tc p parent obs' c d.
Proof.
  intros Hfaith Hperm [Hok Ht Hx Hi Hp Ha Hfs Hd Hdf]. constructor; try done.
  - revert Hfs. apply observation_fingerprints_same. intros o. by rewrite Hperm.
  - by apply (evaluate_perm tc p parent obs obs' (rk_approved_node_ids c) (rk_approved_node_ids c) d Hfaith Hperm).
Qed.
End Recovery.

(** ** The status of a recovery *)

Definition no_partial (obs : list ExecutionObservation) : Prop := ∀ o, o ∈ obs → eo_status o ≠ "PARTIAL".

(** What the observations call for: an operator where a node reported a partial result; nothing more when every
    node succeeded; the block to be lifted when nothing is ready and something is blocked; otherwise the run goes
    on - with a node that is ready, or with none at all when every node has reported and one did not succeed. *)
Inductive recovery_status (nodes : list ExecutionNode) (obs : list ExecutionObservation) (approved : list string)
    : string → Prop :=
  | rs_manual o : o ∈ obs → eo_status o = "PARTIAL" → recovery_status nodes obs approved "MANUAL_RECONCILIATION"
  | rs_complete : no_partial obs → (∀ n, n ∈ nodes → succeeded obs (en_node_id n)) →
      recovery_status nodes obs approved "COMPLETE"
  | rs_blocked n : no_partial obs → (∀ m, m ∈ nodes → ¬ ready obs approved m) → n ∈ nodes → blocked nodes obs approved n →
      recovery_status nodes obs approved "BLOCKED"
  | rs_ready n : no_partial obs → n ∈ nodes → ready obs approved n → recovery_status nodes obs approved "RECOVERABLE"
  | rs_settled n : no_partial obs → (∀ m, m ∈ nodes → observed_node obs (en_node_id m)) → n ∈ nodes →
      ¬ succeeded obs (en_node_id n) → recovery_status nodes obs approved "RECOVERABLE".

Lemma status_cases records : records ≠ [] →
  (decision_status records = "COMPLETE" ∧ ∀ r, r ∈ records → nr_state r = "SUCCEEDED")
  ∨ (decision_status records = "READY" ∧ ∃ r, r ∈ records ∧ nr_state r = "READY")
  ∨ (decision_status records = "BLOCKED" ∧ (∀ r, r ∈ records → nr_state r ≠ "READY") ∧ ∃ r, r ∈ records ∧ nr_state r = "BLOCKED")
  ∨ (decision_status records = "WAITING" ∧ (∀ r, r ∈ records → nr_state r ≠ "READY" ∧ nr_state r ≠ "BLOCKED")
     ∧ ∃ r, r ∈ records ∧ nr_state r ≠ "SUCCEEDED").
Proof.
  intros Hne. pose proof (complete_status records Hne) as Hc. pose proof (ready_status records) as Hr.
  assert (∀ st, existsb (has_state st) records = false → ∀ r, r ∈ records → nr_state r ≠ st) as Hno.
  { intros st E r Hin Hst. assert (existsb (has_state st) records = true) by (apply existsb_state; by exists r). congruence. }
  destruct (decide (decision_status records = "COMPLETE")) as [E|E]; [left; naive_solver|right].
  destruct (decide (decision_status records = "READY")) as [E'|E']; [left; naive_solver|right].
  unfold decision_status in *. rewrite (bool_decide_eq_false_2 _ Hne) in *. cbn [negb andb] in *.
  destruct (forallb (has_state "SUCCEEDED") records) eqn:Es; [done|].
  destruct (existsb (has_state "READY") records) eqn:Er; [done|].
  destruct (existsb (has_state "BLOCKED") records) eqn:Eb.
  - left. split_and!; [done|by apply Hno|by apply existsb_state].
  - right. split_and!; [done|intros r Hin; split; by apply Hno|].
    apply not_true_iff_false in Es. destruct (decide (Exists (λ r, nr_state r ≠ "SUCCEEDED") records)) as [Hx|Hx].
    { apply Exists_exists in Hx. naive_solver. }
    destruct Es. apply forallb_forall. intros r Hin%list_elem_of_In. apply bool_decide_eq_true.
    destruct (decide (nr_state r = "SUCCEEDED")); [done|]. destruct Hx. apply Exists_exists. by exists r.
Qed.

Section Outcome.
Context {HL : Hashlib}.

(** A node of a plan with nothing partial, ready or blocked has been reported. *)
Lemma nothing_left nodes obs approved : plan_shape nodes → no_partial obs → (∀ o, o ∈ obs → eo_status o ∈ OBSERVATION_STATUSES) →
  (∀ n, n ∈ nodes → ¬ ready obs approved n) → (∀ n, n ∈ nodes → ¬ blocked nodes obs approved n) →
  ∀ n, n ∈ nodes → observed_node obs (en_node_id n).
Proof.
  intros Hsh Hp Hst Hr Hb.
  assert (∀ after before, nodes = before ++ after → (∀ n, n ∈ before → observed_node obs (en_node_id n)) →
    ∀ n, n ∈ nodes → observed_node obs (en_node_id n)) as Hgen; [|by apply (Hgen nodes []); [|set_solver]].
  induction after as [|n after IH]; intros before Hn Hbefore; [rewrite app_nil_r in Hn; by subst|].
  apply (IH (before ++ [n])); [by rewrite <- app_assoc|]. intros m [Hm|Hm%list_elem_of_singleton]%elem_of_app; [auto|]. subst m.
  assert (n ∈ nodes) as Hin by (rewrite Hn; set_solver).
  destruct (decide (Exists (λ o, eo_node_id o = en_node_id n) obs)) as [Hobs|Hobs]; rewrite Exists_exists in Hobs; [done|].
  destruct (decide (Forall (λ d, Exists (λ o, eo_node_id o = d ∧ eo_status o = "SUCCEEDED") obs) (en_depends_on n))) as [Hs|Hs].
  - assert (∀ d, d ∈ en_depends_on n → succeeded obs d) as Hs'.
    { rewrite Forall_elem in Hs. intros d Hd. by specialize (Hs d Hd) as ?%Exists_exists. }
    destruct (en_approval_required n) eqn:Ha.
    + destruct (decide (en_node_id n ∈ approved)) as [Hx|Hx]; [by destruct (Hr n Hin)|].
      destruct (Hb n Hin). by apply blocked_approval.
    + destruct (Hr n Hin). split_and!; [done|done|]. by rewrite Ha.
  - apply not_Forall_Exists in Hs; [|intros ?; apply _]. apply Exists_exists in Hs as (d & Hd & Hns).
    pose proof (ps_order _ Hsh _ _ _ Hn d Hd) as (m & -> & Hm)%list_elem_of_fmap.
    destruct (Hbefore m Hm) as (o & Ho & Hid). destruct (Hb n Hin). apply (blocked_stopped _ _ _ _ (en_node_id m)); [done..|].
    exists o. split_and!; [done..|]. specialize (Hst o Ho). specialize (Hp o Ho).
    unfold OBSERVATION_STATUSES in Hst. rewrite !elem_of_cons, elem_of_nil in Hst.
    destruct Hst as [Hst|[?|[?|[?|[]]]]]; [|by left|done|by right]. destruct Hns. apply Exists_exists. by exists o.
Qed.

Lemma recovery_status_ok tc p parent obs ids d : ids_faithful obs → RuntimeScheduler_evaluate tc p parent obs ids = Ok d →
  recovery_status (xp_nodes p) obs (sd_approved_node_ids d) (rd_status (recovery_of obs d)).
Proof.
  intros Hfaith H. destruct (evaluate_spec _ _ _ _ _ _ Hfaith H) as [Hev Hd].
  pose proof (evaluable_unique _ _ _ _ _ Hfaith Hev) as Hu. pose proof (ds_records _ _ _ _ Hd) as Hr.
  pose proof (plan_valid_shape _ _ (ad_plan _ _ _ (ev_admitted _ _ _ _ _ Hev))) as Hsh.
  pose proof (admissible_status _ _ _ _ (ev_observations _ _ _ _ _ Hev)) as Hst.
  set (approved := sd_approved_node_ids d) in *. unfold recovery_of, recovery_outcome. cbn [rd_status].
  assert (sd_records d ≠ []) as Hne.
  { intros E. rewrite E in Hr. apply Forall2_nil_inv_r in Hr. by apply (ps_some _ Hsh). }
  assert (∀ st P, (∀ n, node_spec (xp_nodes p) obs approved n st ↔ P n) →
    (∀ r, r ∈ sd_records d → nr_state r ≠ st) → ∀ n, n ∈ xp_nodes p → ¬ P n) as Hnone.
  { intros st P HP Hno n Hn HPn. apply HP in HPn. destruct (state_records _ _ _ _ _ _ Hu Hr Hn HPn) as (r & Hin & _ & E).
    by apply (Hno r). }
  destruct (bool_decide_reflect (manual_nodes obs = [])) as [Hm|Hm]; cbn [negb].
  2: { destruct (manual_nodes obs) as [|id l] eqn:E; [done|]. assert (id ∈ manual_nodes obs) as Hid by (rewrite E; left).
       apply elem_of_manual in Hid as (o & Ho & _ & Hs). by apply (rs_manual _ _ _ o). }
  assert (no_partial obs) as Hp.
  { intros o Ho Hs. assert (eo_node_id o ∈ manual_nodes obs) as Hin by (apply elem_of_manual; by exists o).
    rewrite Hm in Hin. by apply not_elem_of_nil in Hin. }
  pose proof (state_ids _ _ _ _ "READY" _ Hu Hr (λ n, proj1 (spec_states _ _ _ n))) as Hready.
  pose proof (state_ids _ _ _ _ "BLOCKED" _ Hu Hr (λ n, proj1 (proj2 (spec_states _ _ _ n)))) as Hblocked.
  rewrite (ds_status _ _ _ _ Hd).
  destruct (status_cases _ Hne) as [[-> Hall]|[[-> (r & Hin & Hs)]|[(-> & Hnr & r & Hin & Hs)|(-> & Hno & r & Hin & Hs)]]]; cbn [fst].
  - apply rs_complete; [done|]. intros n Hn. pose proof Hn as [i Hi]%list_elem_of_lookup.
    destruct (Forall2_lookup_l _ _ _ _ _ Hr Hi) as (r & Hri & Hrec). apply list_elem_of_lookup_2 in Hri.
    apply (spec_states (xp_nodes p) obs approved). rewrite <- (Hall r Hri). apply Hrec.
  - destruct (proj1 (Hready (nr_node_id r))) as (n & Hn & _ & Hrd); [by exists r|]. by apply (rs_ready _ _ _ n).
  - destruct (proj1 (Hblocked (nr_node_id r))) as (n & Hn & _ & Hbl); [by exists r|]. apply (rs_blocked _ _ _ n); [done| |done..].
    by apply (Hnone "READY" _ (λ n, proj1 (spec_states _ _ _ n))).
  - apply list_elem_of_lookup in Hin as [i Hi]. destruct (Forall2_lookup_r _ _ _ _ _ Hr Hi) as (n & Hn & Hrec).
    apply list_elem_of_lookup_2 in Hn. apply (rs_settled _ _ _ n); [done| |done|].
    + apply (nothing_left _ _ approved Hsh Hp Hst).
      * apply (Hnone "READY" _ (λ n, proj1 (spec_states _ _ _ n))). naive_solver.
      * apply (Hnone "BLOCKED" _ (λ n, proj1 (proj2 (spec_states _ _ _ n)))). naive_solver.
    + intros Hsu%(proj2 (proj2 (spec_states (xp_nodes p) obs approved n))). apply Hs.
      eapply node_spec_fun; [exact Hu|apply Hrec|done].
Qed.

Lemma blocked_ext nodes obs a a' n : (∀ id, id ∈ a ↔ id ∈ a') → blocked nodes obs a n → blocked nodes obs a' n.
Proof.
  intros Ha. induction 1 as [n Hn Hd Hr Hna|n d Hn Hd Hs|n m Hn Hd Hm _ IH].
  - apply blocked_approval; [done..|]. by rewrite <- Ha.
  - by apply (blocked_stopped _ _ _ _ d).
  - by apply (blocked_by _ _ _ _ m).
Qed.

Lemma recovery_status_ext nodes obs a a' st : (∀ id, id ∈ a ↔ id ∈ a') →
  recovery_status nodes obs a st → recovery_status nodes obs a' st.
Proof.
  intros Ha. assert (∀ n, ready obs a n ↔ ready obs a' n) as Hr by (intros n; unfold ready; by rewrite Ha).
  intros [o Ho Hs|Hp Hs|n Hp Hnr Hn Hb|n Hp Hn Hrd|n Hp Hall Hn Hs].
  - by apply (rs_manual _ _ _ o).
  - by apply rs_complete.
  - apply (rs_blocked _ _ _ n); [done| |done|by apply (blocked_ext _ _ a)]. intros m Hm. rewrite <- Hr. auto.
  - apply (rs_ready _ _ _ n); [done..|]. by apply Hr.
  - by apply (rs_settled _ _ _ n).
Qed.

Lemma approvals_kept tc p parent obs c d : ids_faithful obs → captured tc p parent obs c d →
  sd_approved_node_ids d = rk_approved_node_ids c.
Proof.
  intros Hfaith Hc. destruct (evaluate_spec _ _ _ _ _ _ Hfaith (cp_decision _ _ _ _ _ _ Hc)) as [_ Hd].
  rewrite (ds_approved _ _ _ _ Hd). destruct (ck_approved _ (cp_valid _ _ _ _ _ _ Hc)) as (Hs & Hn & _).
  by rewrite (dict_fromkeys_id _ Hn).
Qed.

(** C23: what was captured recovers. From the context, the plan, the authority and the observations a checkpoint
    was built from - the observations in any order - the evaluation returns a decision: it carries the scheduling
    decision of the moment of capture, its status is the one the observations call for, and the nodes it
    leaves to an operator are those that reported a partial result. Nothing is assumed of the identifiers
    of the observations: the only other case is that two of them, of different nodes or statuses, have one
    full fingerprint, a collision of the digest. *)
Theorem captured_recovers tc p parent obs obs' ids at_ now c (Hperm : obs ≡ₚ obs')
    (H : RuntimeCheckpointBuilder_build tc p parent obs ids at_ now = Ok c) :
  (∃ r, RuntimeRecovery_evaluate c tc p parent obs' = Ok r
   ∧ RuntimeScheduler_evaluate tc p parent obs ids = Ok (rd_scheduling_decision r)
   ∧ recovery_status (xp_nodes p) obs ids (rd_status r)
   ∧ ∀ id, id ∈ rd_manual_node_ids r ↔ ∃ o, o ∈ obs ∧ eo_node_id o = id ∧ eo_status o = "PARTIAL")
  ∨ fingerprint_collision obs.
Proof.
  apply build_captured in H as (d & Hc & Hids).
  destruct (captured_faithful _ _ _ _ _ _ Hc) as [Hfaith|?]; [left|by right]. exists (recovery_of obs' d).
  assert (∀ id, id ∈ rk_approved_node_ids c ↔ id ∈ ids) as Happ by (intros id; by rewrite Hids, elem_of_sorted_str).
  pose proof (evaluate_perm tc p parent obs obs _ ids d Hfaith (Permutation_refl _) Happ (cp_decision _ _ _ _ _ _ Hc)) as He.
  split_and!; [| |..].
  - apply recovery_ok. exists d. split; [|done]. by apply (captured_perm tc p parent obs).
  - exact He.
  - assert (manual_nodes obs' = manual_nodes obs) as Hm.
    { unfold manual_nodes. apply sorted_str_unique, NoDup_Permutation; [apply NoDup_dict_fromkeys..|]. intros id.
      rewrite !elem_of_dict_fromkeys, !list_elem_of_fmap. setoid_rewrite list_elem_of_In at 1 2. setoid_rewrite filter_In.
      setoid_rewrite <- list_elem_of_In. by setoid_rewrite Hperm. }
    unfold recovery_of. rewrite Hm. pose proof (recovery_status_ok _ _ _ _ _ _ Hfaith He) as Hst. revert Hst.
    apply recovery_status_ext. intros id. rewrite (approvals_kept _ _ _ _ _ _ Hfaith Hc). apply Happ.
  - intros id. cbn. rewrite elem_of_manual. by setoid_rewrite Hperm.
Qed.

(** A run whose last node failed is reported as one that can go on. When every node has a final report and
    one of them did not succeed, the scheduling decision is WAITING with no node ready, and the recovery of such
    a run answers RECOVERABLE: nothing says that the run is over. (Or two full fingerprints collide.) *)
Theorem finished_run_recoverable tc p parent obs ids at_ now c n
    (H : RuntimeCheckpointBuilder_build tc p parent obs ids at_ now = Ok c) (Hfinal : no_partial obs)
    (Hall : ∀ m, m ∈ xp_nodes p → observed_node obs (en_node_id m)) (Hn : n ∈ xp_nodes p)
    (Hbad : ¬ succeeded obs (en_node_id n)) :
  (∃ r, RuntimeRecovery_evaluate c tc p parent obs = Ok r ∧ rd_status r = "RECOVERABLE"
   ∧ sd_status (rd_scheduling_decision r) = "WAITING" ∧ ready_node_ids (rd_scheduling_decision r) = [])
  ∨ fingerprint_collision obs.
Proof.
  apply build_captured in H as (d & Hc & _).
  destruct (captured_faithful _ _ _ _ _ _ Hc) as [Hfaith|?]; [left|by right]. exists (recovery_of obs d). split; [apply recovery_ok; by exists d|].
  pose proof (cp_decision _ _ _ _ _ _ Hc) as He. destruct (evaluate_spec _ _ _ _ _ _ Hfaith He) as [Hev Hd].
  pose proof (evaluable_unique _ _ _ _ _ Hfaith Hev) as Hu. pose proof (ds_records _ _ _ _ Hd) as Hr.
  assert (∀ m, m ∈ xp_nodes p → ¬ ready obs (sd_approved_node_ids d) m) as Hnr by (intros m Hm [Hno _]; auto).
  assert (∀ m, m ∈ xp_nodes p → ¬ blocked (xp_nodes p) obs (sd_approved_node_ids d) m) as Hnb
    by (intros m Hm [Hno _]%(blocked_inv _ _ _ Hu); auto).
  assert (ready_node_ids d = []) as Hnone.
  { destruct (ready_node_ids d) as [|id l] eqn:E; [done|]. assert (id ∈ ready_node_ids d) as Hid by (rewrite E; left).
    unfold ready_node_ids in Hid. apply elem_of_state_ids in Hid.
    apply (state_ids _ _ _ _ "READY" _ Hu Hr (λ n, proj1 (spec_states _ _ _ n))) in Hid as (m & Hm & _ & Hrd). by destruct (Hnr m Hm). }
  assert (sd_status d = "WAITING") as Hw.
  { rewrite (ds_status _ _ _ _ Hd). pose proof (plan_valid_shape _ _ (ad_plan _ _ _ (ev_admitted _ _ _ _ _ Hev))) as Hsh.
    assert (sd_records d ≠ []) as Hne.
    { intros E. rewrite E in Hr. apply Forall2_nil_inv_r in Hr. by apply (ps_some _ Hsh). }
    destruct (status_cases _ Hne) as [[_ Hs]|[[_ (r & Hin & Hs)]|[(_ & _ & r & Hin & Hs)|[-> _]]]]; [| | |done].
    - destruct Hbad. apply list_elem_of_lookup in Hn as [i Hi]. destruct (Forall2_lookup_l _ _ _ _ _ Hr Hi) as (r & Hri & Hrec).
      apply list_elem_of_lookup_2 in Hri. apply (spec_states (xp_nodes p) obs (sd_approved_node_ids d)). rewrite <- (Hs r Hri). apply Hrec.
    - destruct (proj1 (state_ids _ _ _ _ "READY" _ Hu Hr (λ n, proj1 (spec_states _ _ _ n)) (nr_node_id r))) as (m & Hm & _ & Hx);
        [by exists r|]. by destruct (Hnr m Hm).
    - destruct (proj1 (state_ids _ _ _ _ "BLOCKED" _ Hu Hr (λ n, proj1 (proj2 (spec_states _ _ _ n))) (nr_node_id r))) as (m & Hm & _ & Hx);
        [by exists r|]. by destruct (Hnb m Hm). }
  assert (manual_nodes obs = []) as Hm.
  { destruct (manual_nodes obs) as [|id l] eqn:E; [done|]. assert (id ∈ manual_nodes obs) as Hid by (rewrite E; left).
    apply elem_of_manual in Hid as (o & Ho & _ & Hs). by destruct (Hfinal o Ho). }
  unfold recovery_of, recovery_outcome. cbn [rd_status rd_scheduling_decision]. by rewrite Hm, Hw.
Qed.





(** A checkpoint is read back from its text. *)
Theorem checkpoint_text_roundtrip c (Hc : RuntimeCheckpoint_validate c = Ok c) :
  ∃ text, RuntimeCheckpointCodec_dumps c = Ok text ∧ RuntimeCheckpointCodec_loads text = Ok c.
Proof.
  apply checkpoint_validate_ok in Hc as [_ Hok]. eexists. split; [by apply checkpoint_dumps_ok|].
  rewrite <- (app_nil_r (checkpoint_envelope c)). apply checkpoint_loads_ok; [done| |done]. apply (bool_decide_unpack _). reflexivity.
Qed.

(** The text of a checkpoint is not sealed. The reader does not look at the other members of the
    envelope: any checkpoint is read as well from a text that carries a further member, of any name and any value,
    and that is not the text the writer gives it. *)
Theorem checkpoint_envelope_open c key value (Hc : RuntimeCheckpoint_validate c = Ok c)
    (Hkey : key ∉ ["schema_version"; "checkpoint"; "checkpoint_fingerprint"]) (Hvalue : json_ok value = true) :
  ∃ text, RuntimeCheckpointCodec_loads text = Ok c ∧ RuntimeCheckpointCodec_dumps c ≠ Ok text
  ∧ loads text = Ok (canon (JObj (checkpoint_envelope c ++ [(key, value)]))).
Proof.
  apply checkpoint_validate_ok in Hc as [_ Hok].
  assert (NoDup (checkpoint_envelope c ++ [(key, value)]).*1) as Hd.
  { rewrite fmap_app. apply NoDup_app. split_and!; [apply (bool_decide_unpack _); reflexivity| |by apply NoDup_singleton].
    intros k Hk ->%list_elem_of_singleton. by apply Hkey. }
  assert (forallb (λ kv, json_ok kv.2) [(key, value)] = true) as He by (cbn; by rewrite Hvalue).
  pose proof (checkpoint_envelope_ok c _ Hd He) as Hj.
  exists (print (JObj (checkpoint_envelope c ++ [(key, value)]))). split_and!.
  - by apply checkpoint_loads_ok.
  - rewrite checkpoint_dumps_ok by done. intros E. assert (∀ x y : string, Ok x = Ok y → x = y) as Hinj by congruence.
    apply Hinj, print_inj in E; [| |done]; clear Hinj.
    + apply (f_equal (λ v, match v with JObj l => length l | _ => 0%nat end)) in E. cbn [canon] in E.
      rewrite !sort_items_perm, !length_map in E. done.
    + rewrite <- (app_nil_r (checkpoint_envelope c)). apply checkpoint_envelope_ok; [|done]. apply (bool_decide_unpack _). reflexivity.
  - by apply loads_dumps, dumps_ok.
Qed.
End Outcome.

(** The sample run, captured with its first two nodes reported, and with its last one failed. *)
Section Examples.
#[local] Existing Instance checksum_hashlib.

Definition capture_time : datetime := {| dt_local := 739252 * day; dt_offset := Some (9 * 3600 * second) |}.

Definition capture_sample (obs : list ExecutionObservation) : result RuntimeCheckpoint :=
  RuntimeCheckpointBuilder_build sample_context sample_plan sample_parent obs ["work"] None capture_time.

Definition sample_checkpoint : RuntimeCheckpoint.
Proof. let r := eval vm_compute in (capture_sample [sample_in; sample_work]) in match r with Ok ?c => exact c end. Defined.
Lemma sample_checkpoint_ok : capture_sample [sample_in; sample_work] = Ok sample_checkpoint.
Proof. vm_compute. reflexivity. Qed.
Lemma sample_checkpoint_valid : RuntimeCheckpoint_validate sample_checkpoint = Ok sample_checkpoint.
Proof. vm_compute. reflexivity. Qed.

Example sample_captured_at : rk_captured_at sample_checkpoint = "2025-01-01T15:00:00Z".
Proof. vm_compute. reflexivity. Qed.

Lemma captured_recovers_witness : ∃ r,
  RuntimeRecovery_evaluate sample_checkpoint sample_context sample_plan sample_parent [sample_work; sample_in] = Ok r
  ∧ recovery_status (xp_nodes sample_plan) [sample_in; sample_work] ["work"] (rd_status r).
Proof.
  destruct (captured_recovers sample_context sample_plan sample_parent [sample_in; sample_work] [sample_work; sample_in] ["work"]
    None capture_time sample_checkpoint (Permutation_swap _ _ _) sample_checkpoint_ok)
    as [(r & H & _ & Hs & _)|[]%(no_sample_collision _ (reflexivity _))].
  exists r. split; [exact H|exact Hs].
Defined.


Lemma checkpoint_text_roundtrip_witness : ∃ text,
  RuntimeCheckpointCodec_dumps sample_checkpoint = Ok text ∧ RuntimeCheckpointCodec_loads text = Ok sample_checkpoint.
Proof. exact (checkpoint_text_roundtrip sample_checkpoint sample_checkpoint_valid). Defined.

Lemma checkpoint_envelope_open_witness : ∃ text, RuntimeCheckpointCodec_loads text = Ok sample_checkpoint
  ∧ RuntimeCheckpointCodec_dumps sample_checkpoint ≠ Ok text.
Proof.
  destruct (checkpoint_envelope_open sample_checkpoint "approved" (JBool true) sample_checkpoint_valid) as (text & H1 & H2 & _).
  - apply (bool_decide_unpack _). vm_compute. exact I.
  - reflexivity.
  - exists text. split; [exact H1|exact H2].
Defined.

Definition sample_failed : ExecutionObservation.
Proof.
  let r := eval vm_compute in (observe_sample "out" "FAILED" (Some "TIMEOUT") []) in match r with Ok ?o => exact o end.
Defined.
Definition failed_checkpoint : RuntimeCheckpoint.
Proof.
  let r := eval vm_compute in (capture_sample [sample_in; sample_work; sample_failed]) in match r with Ok ?c => exact c end.
Defined.

Lemma finished_run_recoverable_witness : ∃ r, RuntimeRecovery_evaluate failed_checkpoint sample_context sample_plan sample_parent
    [sample_in; sample_work; sample_failed] = Ok r ∧ rd_status r = "RECOVERABLE"
  ∧ sd_status (rd_scheduling_decision r) = "WAITING" ∧ ready_node_ids (rd_scheduling_decision r) = [].
Proof.
  assert (∃ n, n ∈ xp_nodes sample_plan ∧ en_node_id n = "out") as (n & Hn & Hid).
  { eexists. split; [vm_compute; right; right; left|reflexivity]. }
  assert (∀ o, o ∈ [sample_in; sample_work; sample_failed] → o = sample_in ∨ o = sample_work ∨ o = sample_failed) as Hcases.
  { intros o Ho. rewrite !elem_of_cons, elem_of_nil in Ho. naive_solver. }
  destruct (finished_run_recoverable sample_context sample_plan sample_parent [sample_in; sample_work; sample_failed] ["work"] None
    capture_time failed_checkpoint n) as [H|Hcol]; [..|exact H|].
  - vm_compute. reflexivity.
  - intros o Ho%Hcases. destruct Ho as [->|[->| ->]]; by vm_compute.
  - intros m Hm. pose proof (eq_refl (xp_nodes sample_plan)) as E. unfold observed_node.
    repeat (apply elem_of_cons in Hm as [->|Hm];
      [first [exists sample_in; split; [apply (bool_decide_unpack _); vm_compute; exact I|reflexivity]
             |exists sample_work; split; [apply (bool_decide_unpack _); vm_compute; exact I|reflexivity]
             |exists sample_failed; split; [apply (bool_decide_unpack _); vm_compute; exact I|reflexivity]]|]).
    by apply not_elem_of_nil in Hm.
  - exact Hn.
  - rewrite Hid. intros (o & Ho%Hcases & Hi & Hs). destruct Ho as [->|[->| ->]]; by vm_compute in Hi, Hs.
  - exfalso. revert Hcol. apply faithful_no_collision.
    intros o o' Ho%Hcases Ho'%Hcases. destruct Ho as [->|[->| ->]], Ho' as [->|[->| ->]]; by vm_compute.
Defined.
End Examples.
