(* ===== verification/DispatchRecovery.v ===== *)
(** * Dispatch recovery

    [runtime_dispatch_recovery.py]: the transient state of a run - the scheduler's snapshot, its budget and the
    revocations - bound to a runtime checkpoint, the text of that binding, and the evaluation that compares it with
    the live budget and the live revocations before a run may go on. Nothing is dispatched. *)

From Stdlib Require Import Ascii.
From Stdlib Require String.
From S2P Require Import Prelude PyStr Hashlib PyFloat Json PyTime Validators TaskContract TaskStore.
From S2P Require Import CapabilityAuthority WorkflowDesign ContextManifest TaskContext ExecutionPlan.
From S2P Require Import ExecutionObservation RuntimeScheduler ExecutionScheduler ExecutionCheckpoint ExecutionBudget.
From S2P Require Import CapabilityRevocation RuntimeCheckpoint.

Local Open Scope Z_scope.

Definition RUNTIME_DISPATCH_RECOVERY_BINDING_SCHEMA : string := "workspace-runtime-dispatch-recovery-binding/v1".
Definition RUNTIME_DISPATCH_RECOVERY_BINDING_ENVELOPE_SCHEMA : string :=
  "workspace-runtime-dispatch-recovery-binding-envelope/v1".
Definition RUNTIME_DISPATCH_RECOVERY_DECISION_SCHEMA : string := "workspace-runtime-dispatch-recovery-decision/v1".
Definition BUDGET_STATE_SCHEMA : string := "workspace-task-execution-budget-state/v2".
Definition REVOCATION_SCHEMA : string := "workspace-capability-revocation/v1".

Definition dr_fail {A} (msg : string) : result A := raise RuntimeDispatchRecoveryError msg.
Definition dr_fail_if (b : bool) (msg : string) : result unit := raise_if b RuntimeDispatchRecoveryError msg.

Definition Dispatch_canonical_json : json → result string :=
  canonical_json RuntimeDispatchRecoveryError "DISPATCH_RECOVERY_NOT_CANONICAL_JSON".
Definition Dispatch_digest `{Hashlib} : json → result string :=
  digest RuntimeDispatchRecoveryError "DISPATCH_RECOVERY_NOT_CANONICAL_JSON".

(** ** Values of any type *)

Definition Dispatch_compact (field : string) (value : json) : result string :=
  match value with
  | JStr s => dr_fail_if (negb (bool_decide (s = strip s)) || negb (capability_re s)) (invalid field) ;; Ok s
  | _ => dr_fail (invalid field)
  end.
Definition Dispatch_bounded_text (field : string) (value : json) : result string :=
  match value with JStr s => single_line RuntimeDispatchRecoveryError s field 256 | _ => dr_fail (invalid field) end.
Definition Dispatch_sha256 (field : string) (value : json) : result string :=
  match value with JStr s => sha256_ref RuntimeDispatchRecoveryError s field | _ => dr_fail (invalid field) end.
Definition Dispatch_reason (message : string) (value : json) : result string :=
  match value with JStr s => dr_fail_if (negb (reason_re s)) message ;; Ok s | _ => dr_fail message end.

(** Any readable instant with an offset, as it was written. *)
Definition Dispatch_timestamp (field : string) (value : json) : result string :=
  match value with
  | JStr s =>
      dr_fail_if (is_empty s || negb (bool_decide (s = strip s))) (invalid field) ;;
      match fromisoformat (normalize_zulu s) with
      | None => dr_fail (invalid field)
      | Some parsed =>
          dr_fail_if (bool_decide (dt_offset parsed = None)) (upper field +:+ "_MUST_BE_TIMEZONE_AWARE") ;; Ok s
      end
  | _ => dr_fail (invalid field)
  end.

(** A bool is an int of the language, and refused. *)
Definition _nonnegative_int (field : string) (value : json) : result Z :=
  match value with JInt z => dr_fail_if (z <? 0) (invalid field) ;; Ok z | _ => dr_fail (invalid field) end.
Definition _positive_int (field : string) (value : json) : result Z :=
  result ← _nonnegative_int field value; dr_fail_if (result <? 1) (invalid field) ;; Ok result.

(** All values are checked and sorted before repetitions are looked for. *)
Definition sorted_distinct (check : json → result string) (field : string) (values : list json) : result (list string) :=
  items ← mapM check values;
  let sorted := sorted_str items in
  dr_fail_if (negb (bool_decide (NoDup sorted))) ("DUPLICATE_" +:+ upper field) ;;
  Ok sorted.
Definition Dispatch_normalized_ids (field : string) (values : list json) : result (list string) :=
  sorted_distinct (Dispatch_compact field) field values.
Definition Dispatch_normalized_hashes (field : string) (values : list json) : result (list string) :=
  sorted_distinct (Dispatch_sha256 field) field values.

(** A value to iterate over, which a text is not. *)
Definition iterable (field : string) (value : json) : result (list json) :=
  match value with JStr _ => dr_fail (invalid field) | _ => tuple_of value end.

(** ** Budgets *)

Record RuntimeBudgetSnapshot := {
  bs_task_id : string;
  bs_max_steps : Z;
  bs_max_tool_calls : Z;
  bs_max_model_retries : Z;
  bs_max_model_escalations : Z;
  bs_max_wall_time_ms : Z;
  bs_steps_used : Z;
  bs_tool_calls_used : Z;
  bs_model_retries_used : Z;
  bs_model_escalations_used : Z;
  bs_deadline_at : string;
  bs_schema_version : string
}.

#[export] Instance RuntimeBudgetSnapshot_eq_dec : EqDecision RuntimeBudgetSnapshot.
Proof. solve_decision. Defined.

Definition BUDGET_SNAPSHOT_KEYS : list string := [
  "schema_version"; "task_id"; "max_steps"; "max_tool_calls"; "max_model_retries"; "max_model_escalations";
  "max_wall_time_ms"; "steps_used"; "tool_calls_used"; "model_retries_used"; "model_escalations_used"; "deadline_at"].

(** One round of the loop over the counters. *)
Definition used_within (field : string) (value : json) (maximum : Z) : result Z :=
  used ← _nonnegative_int field value;
  dr_fail_if (maximum <? used) (upper field +:+ "_EXCEEDS_LIMIT") ;; Ok used.

(** [validate] on the raw fields of a mapping. *)
Definition budget_from_fields (d : list (string * json)) : result RuntimeBudgetSnapshot :=
  dr_fail_if (negb (is_str (get d "schema_version") BUDGET_STATE_SCHEMA)) "BUDGET_SNAPSHOT_SCHEMA_VERSION_MISMATCH" ;;
  task ← Dispatch_compact "budget_task_id" (get d "task_id");
  steps ← _positive_int "max_steps" (get d "max_steps");
  tools ← _nonnegative_int "max_tool_calls" (get d "max_tool_calls");
  retries ← _nonnegative_int "max_model_retries" (get d "max_model_retries");
  escalations ← _nonnegative_int "max_model_escalations" (get d "max_model_escalations");
  wall ← _nonnegative_int "max_wall_time_ms" (get d "max_wall_time_ms");
  dr_fail_if (wall <? 100) "INVALID_MAX_WALL_TIME_MS" ;;
  steps_used ← used_within "steps_used" (get d "steps_used") steps;
  tools_used ← used_within "tool_calls_used" (get d "tool_calls_used") tools;
  retries_used ← used_within "model_retries_used" (get d "model_retries_used") retries;
  escalations_used ← used_within "model_escalations_used" (get d "model_escalations_used") escalations;
  deadline ← Dispatch_timestamp "budget_deadline_at" (get d "deadline_at");
  Ok {| bs_task_id := task; bs_max_steps := steps; bs_max_tool_calls := tools; bs_max_model_retries := retries;
        bs_max_model_escalations := escalations; bs_max_wall_time_ms := wall; bs_steps_used := steps_used;
        bs_tool_calls_used := tools_used; bs_model_retries_used := retries_used;
        bs_model_escalations_used := escalations_used; bs_deadline_at := deadline;
        bs_schema_version := BUDGET_STATE_SCHEMA |}.

Definition budget_items (b : RuntimeBudgetSnapshot) : list (string * json) := [
  ("schema_version", JStr (bs_schema_version b)); ("task_id", JStr (bs_task_id b));
  ("max_steps", JInt (bs_max_steps b)); ("max_tool_calls", JInt (bs_max_tool_calls b));
  ("max_model_retries", JInt (bs_max_model_retries b)); ("max_model_escalations", JInt (bs_max_model_escalations b));
  ("max_wall_time_ms", JInt (bs_max_wall_time_ms b)); ("steps_used", JInt (bs_steps_used b));
  ("tool_calls_used", JInt (bs_tool_calls_used b)); ("model_retries_used", JInt (bs_model_retries_used b));
  ("model_escalations_used", JInt (bs_model_escalations_used b)); ("deadline_at", JStr (bs_deadline_at b))].

Definition RuntimeBudgetSnapshot_validate (b : RuntimeBudgetSnapshot) : result RuntimeBudgetSnapshot :=
  budget_from_fields (budget_items b).
Definition RuntimeBudgetSnapshot_canonical_dict (b : RuntimeBudgetSnapshot) : result json :=
  RuntimeBudgetSnapshot_validate b ;; Ok (JObj (budget_items b)).
Definition RuntimeBudgetSnapshot_fingerprint `{Hashlib} (b : RuntimeBudgetSnapshot) : result string :=
  payload ← RuntimeBudgetSnapshot_canonical_dict b; Dispatch_digest payload.

Definition budget_from_mapping (payload : json) : result RuntimeBudgetSnapshot :=
  match payload with
  | JObj d => dr_fail_if (negb (has_keys d BUDGET_SNAPSHOT_KEYS)) "BUDGET_SNAPSHOT_SHAPE_INVALID" ;; budget_from_fields d
  | _ => dr_fail "BUDGET_SNAPSHOT_NOT_MAPPING"
  end.

Definition immutable_tuple (b : RuntimeBudgetSnapshot) : string * Z * Z * Z * Z * Z * string :=
  (bs_task_id b, bs_max_steps b, bs_max_tool_calls b, bs_max_model_retries b, bs_max_model_escalations b,
   bs_max_wall_time_ms b, bs_deadline_at b).
Definition budget_counters (b : RuntimeBudgetSnapshot) : list Z :=
  [bs_steps_used b; bs_tool_calls_used b; bs_model_retries_used b; bs_model_escalations_used b].

(** ** Revocations *)

Record RuntimeRevocationSnapshot := {
  rs_task_id : string;
  rs_capability : string;
  rs_reason_code : string;
  rs_revoked_at : string
}.

#[export] Instance RuntimeRevocationSnapshot_eq_dec : EqDecision RuntimeRevocationSnapshot.
Proof. solve_decision. Defined.

(** What a guard may list: revocations, or values of any other type. *)
Inductive revocation_value :=
  | RevObject (r : Revocation)
  | RevRaw (v : json).

Definition revocation_from_fields (task_id capability reason revoked_at : json) : result RuntimeRevocationSnapshot :=
  task ← Dispatch_compact "revocation_task_id" task_id;
  capability ← Dispatch_compact "revoked_capability" capability;
  reason ← Dispatch_reason "INVALID_REVOCATION_REASON_CODE" reason;
  revoked ← Dispatch_timestamp "revoked_at" revoked_at;
  Ok {| rs_task_id := task; rs_capability := capability; rs_reason_code := reason; rs_revoked_at := revoked |}.

Definition RuntimeRevocationSnapshot_validate (r : RuntimeRevocationSnapshot) : result RuntimeRevocationSnapshot :=
  revocation_from_fields (JStr (rs_task_id r)) (JStr (rs_capability r)) (JStr (rs_reason_code r)) (JStr (rs_revoked_at r)).

Definition REVOCATION_KEYS : list string := ["task_id"; "capability"; "reason_code"; "revoked_at"].

Definition from_revocation (value : revocation_value) : result RuntimeRevocationSnapshot :=
  match value with
  | RevObject r =>
      revocation_from_fields (JStr (cr_task_id r)) (JStr (cr_capability r)) (JStr (cr_reason_code r)) (JStr (cr_revoked_at r))
  | RevRaw (JObj d) =>
      dr_fail_if (negb (has_keys d REVOCATION_KEYS) && negb (has_keys d ("schema_version" :: REVOCATION_KEYS)))
        "REVOCATION_SNAPSHOT_SHAPE_INVALID" ;;
      dr_fail_if (match dict_get "schema_version" d with Some v => negb (is_str v REVOCATION_SCHEMA) | None => false end)
        "REVOCATION_SNAPSHOT_SCHEMA_VERSION_MISMATCH" ;;
      revocation_from_fields (get d "task_id") (get d "capability") (get d "reason_code") (get d "revoked_at")
  | RevRaw _ => dr_fail "INVALID_REVOCATION_SNAPSHOT"
  end.

Definition revocation_items (r : RuntimeRevocationSnapshot) : list (string * json) := [
  ("task_id", JStr (rs_task_id r)); ("capability", JStr (rs_capability r)); ("reason_code", JStr (rs_reason_code r));
  ("revoked_at", JStr (rs_revoked_at r))].
Definition RuntimeRevocationSnapshot_canonical_dict (r : RuntimeRevocationSnapshot) : result json :=
  RuntimeRevocationSnapshot_validate r ;; Ok (JObj (revocation_items r)).
Definition RuntimeRevocationSnapshot_fingerprint `{Hashlib} (r : RuntimeRevocationSnapshot) : result string :=
  payload ← RuntimeRevocationSnapshot_canonical_dict r; Dispatch_digest payload.

(** [sorted(rows, key=lambda row: row.capability)]. *)
Definition by_capability (rows : list RuntimeRevocationSnapshot) : list RuntimeRevocationSnapshot :=
  order_by (λ a b, bool_decide (String.le (rs_capability a) (rs_capability b))) rows.

(** ** Bindings *)

Record RuntimeDispatchRecoveryBinding := {
  db_binding_id : string;
  db_runtime_checkpoint_fingerprint : string;
  db_task_id : string;
  db_task_context_fingerprint : string;
  db_plan_fingerprint : string;
  db_parent_authority_fingerprint : string;
  db_scheduler_state_fingerprint : string;
  db_max_concurrency : Z;
  db_cancelled : bool;
  db_cancellation_reason : option string;
  db_dispatch_sequence : Z;
  db_approved_node_ids : list string;
  db_in_flight_ticket_fingerprints : list string;
  db_observation_fingerprints : list string;
  db_budget : RuntimeBudgetSnapshot;
  db_revocations : list RuntimeRevocationSnapshot;
  db_captured_at : string;
  db_schema_version : string
}.

#[export] Instance RuntimeDispatchRecoveryBinding_eq_dec : EqDecision RuntimeDispatchRecoveryBinding.
Proof. solve_decision. Defined.

(** The loop over the revocations of a binding. *)
Fixpoint check_revocations (task_id : string) (seen : list string) (rows : list RuntimeRevocationSnapshot) : result unit :=
  match rows with
  | [] => Ok tt
  | row :: rows =>
      RuntimeRevocationSnapshot_validate row ;;
      dr_fail_if (negb (bool_decide (rs_task_id row = task_id))) "REVOCATION_TASK_MISMATCH" ;;
      dr_fail_if (mem_str (rs_capability row) seen) "DUPLICATE_REVOKED_CAPABILITY" ;;
      check_revocations task_id (rs_capability row :: seen) rows
  end.

(** [if cancelled: _bounded_text(reason) elif reason is not None: raise]. *)
Definition check_cancellation (cancelled : bool) (reason : json) : result (option string) :=
  if cancelled then Some <$> Dispatch_bounded_text "cancellation_reason" reason
  else match reason with JNull => Ok None | _ => dr_fail "UNEXPECTED_CANCELLATION_REASON" end.

Definition check_concurrency (value : json) : result Z :=
  concurrency ← _positive_int "max_concurrency" value;
  dr_fail_if (MAX_SCHEDULER_CONCURRENCY <? concurrency) "MAX_CONCURRENCY_EXCEEDS_RUNTIME_LIMIT" ;; Ok concurrency.

Definition check_flag (value : json) : result bool :=
  match value with JBool b => Ok b | _ => dr_fail "INVALID_CANCELLED_FLAG" end.

Definition BINDING_KEYS : list string := [
  "binding_id"; "schema_version"; "runtime_checkpoint_fingerprint"; "task_id"; "task_context_fingerprint";
  "plan_fingerprint"; "parent_authority_fingerprint"; "scheduler_state_fingerprint"; "max_concurrency"; "cancelled";
  "cancellation_reason"; "dispatch_sequence"; "approved_node_ids"; "in_flight_ticket_fingerprints";
  "observation_fingerprints"; "budget"; "revocations"; "captured_at"].

Section Bindings.
Context {HL : Hashlib}.

Definition Dispatch_identity_items (b : RuntimeDispatchRecoveryBinding) : result (list (string * json)) :=
  budget ← RuntimeBudgetSnapshot_canonical_dict (db_budget b);
  revocations ← mapM RuntimeRevocationSnapshot_canonical_dict (db_revocations b);
  Ok [("schema_version", JStr (db_schema_version b));
      ("runtime_checkpoint_fingerprint", JStr (db_runtime_checkpoint_fingerprint b));
      ("task_id", JStr (db_task_id b)); ("task_context_fingerprint", JStr (db_task_context_fingerprint b));
      ("plan_fingerprint", JStr (db_plan_fingerprint b));
      ("parent_authority_fingerprint", JStr (db_parent_authority_fingerprint b));
      ("scheduler_state_fingerprint", JStr (db_scheduler_state_fingerprint b));
      ("max_concurrency", JInt (db_max_concurrency b)); ("cancelled", JBool (db_cancelled b));
      ("cancellation_reason", json_opt_str (db_cancellation_reason b));
      ("dispatch_sequence", JInt (db_dispatch_sequence b)); ("approved_node_ids", json_strs (db_approved_node_ids b));
      ("in_flight_ticket_fingerprints", json_strs (db_in_flight_ticket_fingerprints b));
      ("observation_fingerprints", json_strs (db_observation_fingerprints b)); ("budget", budget);
      ("revocations", JList revocations); ("captured_at", JStr (db_captured_at b))].

Definition RuntimeDispatchRecoveryBinding_fingerprint (b : RuntimeDispatchRecoveryBinding) : result string :=
  items ← Dispatch_identity_items b; Dispatch_digest (JObj items).

(** [validate]; the fields that may come from a stored record are raw, the tuples as [tuple(...)] gives them. *)
Definition validate_binding_fields (d : list (string * json)) (approved in_flight observations : list json)
    (budget : RuntimeBudgetSnapshot) (revocations : list RuntimeRevocationSnapshot) : result RuntimeDispatchRecoveryBinding :=
  dr_fail_if (negb (is_str (get d "schema_version") RUNTIME_DISPATCH_RECOVERY_BINDING_SCHEMA))
    "DISPATCH_RECOVERY_BINDING_SCHEMA_VERSION_MISMATCH" ;;
  id ← Dispatch_compact "binding_id" (get d "binding_id");
  task ← Dispatch_compact "task_id" (get d "task_id");
  checkpoint ← Dispatch_sha256 "runtime_checkpoint_fingerprint" (get d "runtime_checkpoint_fingerprint");
  context ← Dispatch_sha256 "task_context_fingerprint" (get d "task_context_fingerprint");
  plan ← Dispatch_sha256 "plan_fingerprint" (get d "plan_fingerprint");
  authority ← Dispatch_sha256 "parent_authority_fingerprint" (get d "parent_authority_fingerprint");
  scheduler ← Dispatch_sha256 "scheduler_state_fingerprint" (get d "scheduler_state_fingerprint");
  cancelled ← check_flag (get d "cancelled");
  concurrency ← check_concurrency (get d "max_concurrency");
  sequence ← _nonnegative_int "dispatch_sequence" (get d "dispatch_sequence");
  reason ← check_cancellation cancelled (get d "cancellation_reason");
  approvals ← Dispatch_normalized_ids "approved_node_id" approved;
  dr_fail_if (negb (bool_decide (strings_of approved = Some approvals))) "APPROVED_NODE_IDS_NOT_NORMALIZED" ;;
  tickets ← Dispatch_normalized_hashes "in_flight_ticket_fingerprint" in_flight;
  dr_fail_if (negb (bool_decide (strings_of in_flight = Some tickets))) "IN_FLIGHT_TICKET_FINGERPRINTS_NOT_NORMALIZED" ;;
  hashes ← Dispatch_normalized_hashes "observation_fingerprint" observations;
  dr_fail_if (negb (bool_decide (strings_of observations = Some hashes))) "OBSERVATION_FINGERPRINTS_NOT_NORMALIZED" ;;
  RuntimeBudgetSnapshot_validate budget ;;
  dr_fail_if (negb (bool_decide (bs_task_id budget = task))) "BUDGET_TASK_MISMATCH" ;;
  check_revocations task [] revocations ;;
  dr_fail_if (negb (bool_decide (by_capability revocations = revocations))) "REVOCATIONS_NOT_NORMALIZED" ;;
  captured ← Dispatch_timestamp "captured_at" (get d "captured_at");
  let binding := {|
    db_binding_id := id; db_runtime_checkpoint_fingerprint := checkpoint; db_task_id := task;
    db_task_context_fingerprint := context; db_plan_fingerprint := plan; db_parent_authority_fingerprint := authority;
    db_scheduler_state_fingerprint := scheduler; db_max_concurrency := concurrency; db_cancelled := cancelled;
    db_cancellation_reason := reason; db_dispatch_sequence := sequence; db_approved_node_ids := approvals;
    db_in_flight_ticket_fingerprints := tickets; db_observation_fingerprints := hashes; db_budget := budget;
    db_revocations := revocations; db_captured_at := captured;
    db_schema_version := RUNTIME_DISPATCH_RECOVERY_BINDING_SCHEMA |} in
  fingerprint ← RuntimeDispatchRecoveryBinding_fingerprint binding;
  dr_fail_if (negb (bool_decide (id = "dispatch-recovery:" +:+ short_digest fingerprint)))
    "DISPATCH_RECOVERY_BINDING_IDENTITY_MISMATCH" ;;
  Ok binding.

(** The scalar fields of a binding under the names the record has. *)
Definition binding_scalars (b : RuntimeDispatchRecoveryBinding) : list (string * json) := [
  ("schema_version", JStr (db_schema_version b)); ("binding_id", JStr (db_binding_id b)); ("task_id", JStr (db_task_id b));
  ("runtime_checkpoint_fingerprint", JStr (db_runtime_checkpoint_fingerprint b));
  ("task_context_fingerprint", JStr (db_task_context_fingerprint b)); ("plan_fingerprint", JStr (db_plan_fingerprint b));
  ("parent_authority_fingerprint", JStr (db_parent_authority_fingerprint b));
  ("scheduler_state_fingerprint", JStr (db_scheduler_state_fingerprint b)); ("cancelled", JBool (db_cancelled b));
  ("max_concurrency", JInt (db_max_concurrency b)); ("dispatch_sequence", JInt (db_dispatch_sequence b));
  ("cancellation_reason", json_opt_str (db_cancellation_reason b)); ("captured_at", JStr (db_captured_at b))].

Definition RuntimeDispatchRecoveryBinding_validate (b : RuntimeDispatchRecoveryBinding) : result RuntimeDispatchRecoveryBinding :=
  validate_binding_fields (binding_scalars b) (map JStr (db_approved_node_ids b))
    (map JStr (db_in_flight_ticket_fingerprints b)) (map JStr (db_observation_fingerprints b)) (db_budget b) (db_revocations b).

Definition RuntimeDispatchRecoveryBinding_canonical_dict (b : RuntimeDispatchRecoveryBinding) : result json :=
  RuntimeDispatchRecoveryBinding_validate b ;;
  items ← Dispatch_identity_items b;
  Ok (JObj (("binding_id", JStr (db_binding_id b)) :: items)).

(** ** Capture *)

Definition SCHEDULER_SNAPSHOT_KEYS : list string := [
  "schema_version"; "task_id"; "task_context_fingerprint"; "plan_fingerprint"; "parent_authority_fingerprint";
  "max_concurrency"; "cancelled"; "cancellation_reason"; "dispatch_sequence"; "approved_node_ids"; "in_flight";
  "observations"].

Definition BindingBuilder_build (c : RuntimeCheckpoint) (scheduler_snapshot budget_snapshot : json)
    (revocations : list revocation_value) : result RuntimeDispatchRecoveryBinding :=
  reraise (RuntimeCheckpoint_validate c) (is_class RuntimeCheckpointError) RuntimeDispatchRecoveryError
    "RUNTIME_CHECKPOINT_REVALIDATION_FAILED" ;;
  match scheduler_snapshot with
  | JObj s =>
      dr_fail_if (negb (has_keys s SCHEDULER_SNAPSHOT_KEYS)) "SCHEDULER_SNAPSHOT_SHAPE_INVALID" ;;
      dr_fail_if (negb (is_str (get s "schema_version") EXECUTION_SCHEDULER_SCHEMA))
        "SCHEDULER_SNAPSHOT_SCHEMA_VERSION_MISMATCH" ;;
      dr_fail_if (negb (is_str (get s "task_id") (rk_task_id c))) "SCHEDULER_TASK_MISMATCH" ;;
      dr_fail_if (negb (is_str (get s "task_context_fingerprint") (rk_task_context_fingerprint c)))
        "SCHEDULER_TASK_CONTEXT_MISMATCH" ;;
      dr_fail_if (negb (is_str (get s "plan_fingerprint") (rk_plan_fingerprint c))) "SCHEDULER_PLAN_MISMATCH" ;;
      dr_fail_if (negb (is_str (get s "parent_authority_fingerprint") (rk_parent_authority_fingerprint c)))
        "SCHEDULER_AUTHORITY_MISMATCH" ;;
      approved ← iterable "approved_node_id" (get s "approved_node_ids");
      approvals ← Dispatch_normalized_ids "approved_node_id" approved;
      observed ← iterable "observation_fingerprint" (get s "observations");
      observations ← Dispatch_normalized_hashes "observation_fingerprint" observed;
      tickets ← iterable "in_flight_ticket_fingerprint" (get s "in_flight");
      in_flight ← Dispatch_normalized_hashes "in_flight_ticket_fingerprint" tickets;
      dr_fail_if (negb (bool_decide (approvals = rk_approved_node_ids c))) "SCHEDULER_APPROVAL_STATE_MISMATCH" ;;
      dr_fail_if (negb (bool_decide (observations = rk_observation_fingerprints c))) "SCHEDULER_OBSERVATION_STATE_MISMATCH" ;;
      budget ← budget_from_mapping budget_snapshot;
      dr_fail_if (negb (bool_decide (bs_task_id budget = rk_task_id c))) "BUDGET_TASK_MISMATCH" ;;
      rows ← mapM from_revocation revocations;
      let normalized := by_capability rows in
      dr_fail_if (negb (bool_decide (NoDup (map rs_capability normalized)))) "DUPLICATE_REVOKED_CAPABILITY" ;;
      iterM (λ row, dr_fail_if (negb (bool_decide (rs_task_id row = rk_task_id c))) "REVOCATION_TASK_MISMATCH") normalized ;;
      concurrency ← check_concurrency (get s "max_concurrency");
      cancelled ← check_flag (get s "cancelled");
      reason ← check_cancellation cancelled (get s "cancellation_reason");
      sequence ← _nonnegative_int "dispatch_sequence" (get s "dispatch_sequence");
      scheduler_state ← Dispatch_digest (JObj [
        ("schema_version", JStr EXECUTION_SCHEDULER_SCHEMA); ("task_id", JStr (rk_task_id c));
        ("task_context_fingerprint", JStr (rk_task_context_fingerprint c));
        ("plan_fingerprint", JStr (rk_plan_fingerprint c));
        ("parent_authority_fingerprint", JStr (rk_parent_authority_fingerprint c));
        ("max_concurrency", JInt concurrency); ("cancelled", JBool cancelled);
        ("cancellation_reason", json_opt_str reason); ("dispatch_sequence", JInt sequence);
        ("approved_node_ids", json_strs approvals); ("in_flight", json_strs in_flight);
        ("observations", json_strs observations)]);
      checkpoint_fingerprint ← RuntimeCheckpoint_fingerprint c;
      let binding id := {|
        db_binding_id := id; db_runtime_checkpoint_fingerprint := checkpoint_fingerprint; db_task_id := rk_task_id c;
        db_task_context_fingerprint := rk_task_context_fingerprint c; db_plan_fingerprint := rk_plan_fingerprint c;
        db_parent_authority_fingerprint := rk_parent_authority_fingerprint c;
        db_scheduler_state_fingerprint := scheduler_state; db_max_concurrency := concurrency; db_cancelled := cancelled;
        db_cancellation_reason := reason; db_dispatch_sequence := sequence; db_approved_node_ids := approvals;
        db_in_flight_ticket_fingerprints := in_flight; db_observation_fingerprints := observations;
        db_budget := budget; db_revocations := normalized; db_captured_at := rk_captured_at c;
        db_schema_version := RUNTIME_DISPATCH_RECOVERY_BINDING_SCHEMA |} in
      digest ← RuntimeDispatchRecoveryBinding_fingerprint (binding "");
      RuntimeDispatchRecoveryBinding_validate (binding ("dispatch-recovery:" +:+ short_digest digest))
  | _ => dr_fail "SCHEDULER_SNAPSHOT_NOT_MAPPING"
  end.

(** ** Text *)

Definition BindingCodec_dumps (b : RuntimeDispatchRecoveryBinding) : result string :=
  RuntimeDispatchRecoveryBinding_validate b ;;
  record ← RuntimeDispatchRecoveryBinding_canonical_dict b;
  fingerprint ← RuntimeDispatchRecoveryBinding_fingerprint b;
  Dispatch_canonical_json (JObj [("schema_version", JStr RUNTIME_DISPATCH_RECOVERY_BINDING_ENVELOPE_SCHEMA);
                                 ("binding", record); ("binding_fingerprint", JStr fingerprint)]).

Definition binding_from_record (raw : list (string * json)) (revocations : list json) : result RuntimeDispatchRecoveryBinding :=
  approved ← tuple_of (get raw "approved_node_ids");
  in_flight ← tuple_of (get raw "in_flight_ticket_fingerprints");
  observations ← tuple_of (get raw "observation_fingerprints");
  budget ← budget_from_mapping (get raw "budget");
  rows ← mapM (λ v, from_revocation (RevRaw v)) revocations;
  validate_binding_fields raw approved in_flight observations budget rows.

Definition is_object (v : json) : bool := match v with JObj _ => true | _ => false end.

Definition BindingCodec_loads (payload : string) : result RuntimeDispatchRecoveryBinding :=
  dr_fail_if (is_empty payload) "INVALID_DISPATCH_RECOVERY_BINDING_PAYLOAD" ;;
  value ← reraise (loads payload) (is_class PyJSONDecodeError) RuntimeDispatchRecoveryError
            "DISPATCH_RECOVERY_BINDING_JSON_INVALID";
  match value with
  | JObj envelope =>
      dr_fail_if (negb (has_keys envelope ["schema_version"; "binding"; "binding_fingerprint"]))
        "DISPATCH_RECOVERY_BINDING_ENVELOPE_SHAPE_INVALID" ;;
      dr_fail_if (negb (is_str (get envelope "schema_version") RUNTIME_DISPATCH_RECOVERY_BINDING_ENVELOPE_SCHEMA))
        "DISPATCH_RECOVERY_BINDING_ENVELOPE_SCHEMA_MISMATCH" ;;
      match get envelope "binding" with
      | JObj raw =>
          revocations ← match get raw "revocations" with
            | JList rows =>
                dr_fail_if (negb (has_keys raw BINDING_KEYS) || negb (is_object (get raw "budget")))
                  "DISPATCH_RECOVERY_BINDING_RECORD_SHAPE_INVALID" ;; Ok rows
            | _ => dr_fail "DISPATCH_RECOVERY_BINDING_RECORD_SHAPE_INVALID"
            end;
          binding ← reraise (binding_from_record raw revocations)
                      (λ c, bool_decide (c = PyKeyError) || bool_decide (c = PyTypeError))
                      RuntimeDispatchRecoveryError "DISPATCH_RECOVERY_BINDING_RECORD_SHAPE_INVALID";
          fingerprint ← RuntimeDispatchRecoveryBinding_fingerprint binding;
          dr_fail_if (negb (is_str (get envelope "binding_fingerprint") fingerprint))
            "DISPATCH_RECOVERY_BINDING_INTEGRITY_FAILED" ;;
          canonical ← Dispatch_canonical_json value;
          dr_fail_if (negb (bool_decide (canonical = payload))) "DISPATCH_RECOVERY_BINDING_ENVELOPE_NOT_CANONICAL" ;;
          Ok binding
      | _ => dr_fail "DISPATCH_RECOVERY_BINDING_RECORD_NOT_OBJECT"
      end
  | _ => dr_fail "DISPATCH_RECOVERY_BINDING_ENVELOPE_SHAPE_INVALID"
  end.
End Bindings.

(** ** Recovery *)

Record RuntimeDispatchRecoveryDecision := {
  dd_status : string;
  dd_reason_code : string;
  dd_checkpoint_recovery : RuntimeRecoveryDecision;
  dd_manual_dispatch_fingerprints : list string;
  dd_newly_revoked_capabilities : list string;
  dd_live_budget_fingerprint : string;
  dd_schema_version : string
}.

Definition RuntimeDispatchRecoveryDecision_canonical_dict (d : RuntimeDispatchRecoveryDecision) : result json :=
  dr_fail_if (negb (bool_decide (dd_schema_version d = RUNTIME_DISPATCH_RECOVERY_DECISION_SCHEMA)))
    "DISPATCH_RECOVERY_DECISION_SCHEMA_VERSION_MISMATCH" ;;
  dr_fail_if (negb (mem_str (dd_status d) CHECKPOINT_RECOVERY_STATUSES)) "INVALID_DISPATCH_RECOVERY_STATUS" ;;
  dr_fail_if (negb (reason_re (dd_reason_code d))) "INVALID_DISPATCH_RECOVERY_REASON_CODE" ;;
  manual ← Dispatch_normalized_hashes "manual_dispatch_fingerprint" (map JStr (dd_manual_dispatch_fingerprints d));
  dr_fail_if (negb (bool_decide (dd_manual_dispatch_fingerprints d = manual))) "MANUAL_DISPATCH_FINGERPRINTS_NOT_NORMALIZED" ;;
  revoked ← Dispatch_normalized_ids "newly_revoked_capability" (map JStr (dd_newly_revoked_capabilities d));
  dr_fail_if (negb (bool_decide (dd_newly_revoked_capabilities d = revoked))) "NEWLY_REVOKED_CAPABILITIES_NOT_NORMALIZED" ;;
  Dispatch_sha256 "live_budget_fingerprint" (JStr (dd_live_budget_fingerprint d)) ;;
  recovery ← RuntimeRecoveryDecision_canonical_dict (dd_checkpoint_recovery d);
  Ok (JObj [("schema_version", JStr (dd_schema_version d)); ("status", JStr (dd_status d));
            ("reason_code", JStr (dd_reason_code d)); ("checkpoint_recovery", recovery);
            ("manual_dispatch_fingerprints", json_strs (dd_manual_dispatch_fingerprints d));
            ("newly_revoked_capabilities", json_strs (dd_newly_revoked_capabilities d));
            ("live_budget_fingerprint", JStr (dd_live_budget_fingerprint d))]).
Definition RuntimeDispatchRecoveryDecision_fingerprint `{Hashlib} (d : RuntimeDispatchRecoveryDecision) : result string :=
  payload ← RuntimeDispatchRecoveryDecision_canonical_dict d; Dispatch_digest payload.

(** The live collaborators. *)
Class DispatchRecoveryBudgetGuard (B : Type) := {
  recovery_assert_active : ST B unit;
  budget_snapshot : ST B json
}.
Class DispatchRecoveryRevocationGuard (R : Type) := {
  revocations_for : string → ST R (list revocation_value)
}.

Record LiveGuards (B R : Type) := { lg_budget : B; lg_revocation : R }.
Arguments lg_budget {B R} _.
Arguments lg_revocation {B R} _.

(** [except (KeyError, TypeError, ValueError, RuntimeError) as exc], the module's own errors passing. *)
Definition live_exn (failure : string) (e : exn) : exn :=
  if bool_decide (exn_cls e = RuntimeDispatchRecoveryError) then e
  else if bool_decide (exn_cls e = PyKeyError) || bool_decide (exn_cls e = PyTypeError) || is_value_error (exn_cls e)
          || is_runtime_error (exn_cls e)
  then Exn RuntimeDispatchRecoveryError failure else e.

Definition capability_table (rows : list RuntimeRevocationSnapshot) : gmap string RuntimeRevocationSnapshot :=
  fold_left (λ m row, <[rs_capability row := row]> m) rows ∅.

(** A captured revocation that is gone, or not what it was. *)
Definition rolled_back (live : gmap string RuntimeRevocationSnapshot) (captured : RuntimeRevocationSnapshot) : bool :=
  negb (bool_decide (live !! rs_capability captured = Some captured)).

(** A live counter below the captured one. *)
Definition counter_rollback (live captured : RuntimeBudgetSnapshot) : bool :=
  existsb (λ p, p.1 <? p.2) (zip (budget_counters live) (budget_counters captured)).

Section Recovery.
Context {HL : Hashlib} {B R : Type} `{!DispatchRecoveryBudgetGuard B} `{!DispatchRecoveryRevocationGuard R}.

Notation guards := (LiveGuards B R).

Definition with_budget {A} (m : ST B A) : ST guards A :=
  st_zoom lg_budget (λ b g, {| lg_budget := b; lg_revocation := lg_revocation g |}) m.
Definition with_revocations {A} (m : ST R A) : ST guards A :=
  st_zoom lg_revocation (λ r g, {| lg_budget := lg_budget g; lg_revocation := r |}) m.

Definition live_budget : ST guards RuntimeBudgetSnapshot :=
  st_map_exn (live_exn "LIVE_BUDGET_SNAPSHOT_FAILED")
    (payload ← with_budget budget_snapshot; st_lift (budget_from_mapping payload)).

Definition live_revocations (task_id : string) : ST guards (list RuntimeRevocationSnapshot) :=
  st_map_exn (live_exn "LIVE_REVOCATION_SNAPSHOT_FAILED")
    (values ← with_revocations (revocations_for task_id);
     rows ← st_lift (mapM from_revocation values);
     mret (by_capability rows)).

(** The status and the reason; the budget is only asked when nothing else decides. *)
Definition dispatch_outcome_of (b : RuntimeDispatchRecoveryBinding) (base : RuntimeRecoveryDecision) (newly_revoked : list string)
    : ST guards (string * string) :=
  if bool_decide (rd_status base = "COMPLETE") then mret ("COMPLETE", "DISPATCH_RECOVERY_COMPLETE")
  else if bool_decide (rd_status base = "MANUAL_RECONCILIATION")
  then mret ("MANUAL_RECONCILIATION", "CHECKPOINT_REQUIRES_MANUAL_RECONCILIATION")
  else if negb (bool_decide (db_in_flight_ticket_fingerprints b = []))
  then mret ("MANUAL_RECONCILIATION", "IN_FLIGHT_DISPATCH_REQUIRES_MANUAL_RECONCILIATION")
  else if db_cancelled b then mret ("BLOCKED", "SCHEDULER_CANCELLED_AT_CHECKPOINT")
  else if bool_decide (rd_status base = "BLOCKED") then mret ("BLOCKED", "CHECKPOINT_RECOVERY_BLOCKED")
  else λ g,
    match with_budget recovery_assert_active g with
    | (Ok _, g') =>
        (Ok ("RECOVERABLE", if bool_decide (newly_revoked = [])
                            then "DISPATCH_RECOVERY_REVALIDATED_NO_EXECUTION_PERFORMED"
                            else "DISPATCH_RECOVERY_REVALIDATED_WITH_NEW_REVOCATIONS"), g')
    | (Raise e, g') =>
        (if bool_decide (exn_cls e = ExecutionBudgetExceeded) then Ok ("BLOCKED", "LIVE_BUDGET_NOT_ACTIVE")
         else if is_value_error (exn_cls e) || is_runtime_error (exn_cls e) then dr_fail "LIVE_BUDGET_REVALIDATION_FAILED"
         else Raise e, g')
    end.

Definition RuntimeDispatchRecovery_evaluate (b : RuntimeDispatchRecoveryBinding) (c : RuntimeCheckpoint)
    (task_context : TaskContext) (plan : ExecutionPlan) (parent : TaskCapabilityAuthority)
    (observations : list ExecutionObservation) : ST guards RuntimeDispatchRecoveryDecision :=
  st_lift (RuntimeDispatchRecoveryBinding_validate b ;; RuntimeCheckpoint_validate c ;; Ok tt) ;;
  checkpoint_fingerprint ← st_lift (RuntimeCheckpoint_fingerprint c);
  st_raise_if (negb (bool_decide (db_runtime_checkpoint_fingerprint b = checkpoint_fingerprint)))
    RuntimeDispatchRecoveryError "DISPATCH_RECOVERY_CHECKPOINT_MISMATCH" ;;
  st_raise_if (negb (bool_decide (db_task_id b = rk_task_id c))
               || negb (bool_decide (db_task_context_fingerprint b = rk_task_context_fingerprint c))
               || negb (bool_decide (db_plan_fingerprint b = rk_plan_fingerprint c))
               || negb (bool_decide (db_parent_authority_fingerprint b = rk_parent_authority_fingerprint c)))
    RuntimeDispatchRecoveryError "DISPATCH_RECOVERY_CANONICAL_BINDING_MISMATCH" ;;
  base ← st_lift (reraise (RuntimeRecovery_evaluate c task_context plan parent observations)
           (is_class RuntimeCheckpointError) RuntimeDispatchRecoveryError "DISPATCH_RECOVERY_CHECKPOINT_REVALIDATION_FAILED");
  live ← live_budget;
  st_raise_if (negb (bool_decide (immutable_tuple live = immutable_tuple (db_budget b))))
    RuntimeDispatchRecoveryError "LIVE_BUDGET_IMMUTABLE_STATE_MISMATCH" ;;
  st_raise_if (counter_rollback live (db_budget b)) RuntimeDispatchRecoveryError "LIVE_BUDGET_COUNTER_ROLLBACK_DETECTED" ;;
  rows ← live_revocations (rk_task_id c);
  let live_by_capability := capability_table rows in
  st_raise_if (negb (bool_decide (size live_by_capability = length rows))) RuntimeDispatchRecoveryError
    "DUPLICATE_LIVE_REVOKED_CAPABILITY" ;;
  st_raise_if (existsb (rolled_back live_by_capability) (db_revocations b)) RuntimeDispatchRecoveryError
    "LIVE_REVOCATION_ROLLBACK_DETECTED" ;;
  let newly_revoked := sorted_diff (map rs_capability rows) (map rs_capability (db_revocations b)) in
  '(status, reason) ← dispatch_outcome_of b base newly_revoked;
  live_fingerprint ← st_lift (RuntimeBudgetSnapshot_fingerprint live);
  let decision := {|
    dd_status := status; dd_reason_code := reason; dd_checkpoint_recovery := base;
    dd_manual_dispatch_fingerprints :=
      if bool_decide (status = "MANUAL_RECONCILIATION") then db_in_flight_ticket_fingerprints b else [];
    dd_newly_revoked_capabilities := newly_revoked; dd_live_budget_fingerprint := live_fingerprint;
    dd_schema_version := RUNTIME_DISPATCH_RECOVERY_DECISION_SCHEMA |} in
  st_lift (RuntimeDispatchRecoveryDecision_canonical_dict decision) ;;
  mret decision.
End Recovery.

(** ** The live guards of a run *)

Section Guards.
Context {TZ : TokyoZone}.

#[export] Instance BudgetClient_recovery_guard : DispatchRecoveryBudgetGuard BudgetClient := {
  recovery_assert_active := on_store BudgetState_assert_active;
  budget_snapshot := on_store (λ b, s ← st_get; st_lift (BudgetState_snapshot b s))
}.
End Guards.

#[export] Instance RevocationStore_recovery_guard : DispatchRecoveryRevocationGuard TaskStore := {
  revocations_for task_id := rows ← list_for_task task_id; mret (map RevObject rows)
}.
