(* ===== verification/DispatchRecoveryFacts.v ===== *)
(** * Dispatch recovery: bindings and their text

    Which budget snapshots, revocations and bindings validate, and that a binding is read back from its text. *)

From Stdlib Require Import Ascii.
From Stdlib Require String.
From S2P Require Import Prelude PyStr Hashlib PyFloat Json JsonFacts PyTime PyTimeFacts Validators TaskContract TaskStore.
From S2P Require Import CapabilityAuthority AuthorityFacts WorkflowDesign WorkflowGraph WorkflowFacts ContextManifest TaskContext.
From S2P Require Import ExecutionPlan PlanFacts ExecutionObservation ObservationFacts RuntimeScheduler ReadinessFacts.
From S2P Require Import ExecutionScheduler SchedulerFacts RestoreFacts ExecutionCheckpoint CheckpointFacts CheckpointLog.
From S2P Require Import ExecutionBudget CapabilityRevocation LinkedBudget BudgetFacts RuntimeCheckpoint RuntimeCheckpointFacts.
From S2P Require Import DispatchRecovery.

Local Open Scope Z_scope.

(** ** Validators *)

Definition plain_name (s : string) : Prop := s = strip s ∧ capability_re s = true.
Definition hash_ref (s : string) : Prop := is_sha256_ref s = true.
Definition readable_time (s : string) : Prop := Dispatch_timestamp "" (JStr s) = Ok s.

Lemma dispatch_name_ok f v x : Dispatch_compact f v = Ok x ↔ v = JStr x ∧ plain_name x.
Proof.
  destruct v; cbn; try (split; [done|by intros [[=] _]]). unfold dr_fail_if, plain_name.
  rewrite guard_bind_ok, orb_false_iff, !negb_false_iff, bool_decide_eq_true. naive_solver.
Qed.
Lemma dispatch_hash_ok f v x : Dispatch_sha256 f v = Ok x ↔ v = JStr x ∧ hash_ref x.
Proof. destruct v; cbn; try (split; [done|by intros [[=] _]]). rewrite sha256_ref_ok. unfold hash_ref. naive_solver. Qed.
Lemma dispatch_reason_ok m v x : Dispatch_reason m v = Ok x ↔ v = JStr x ∧ reason_re x = true.
Proof.
  destruct v; cbn; try (split; [done|by intros [[=] _]]). unfold dr_fail_if. rewrite guard_bind_ok, negb_false_iff. naive_solver.
Qed.
Lemma dispatch_time_ok f v x : Dispatch_timestamp f v = Ok x ↔ v = JStr x ∧ readable_time x.
Proof.
  assert (∀ f s x, Dispatch_timestamp f (JStr s) = Ok x ↔ x = s ∧ (is_empty s || negb (bool_decide (s = strip s))) = false
    ∧ ∃ d, fromisoformat (normalize_zulu s) = Some d ∧ dt_offset d ≠ None) as Hgen.
  { intros f' s x'. unfold Dispatch_timestamp, dr_fail_if. rewrite guard_bind_ok. destruct (fromisoformat _) as [d|].
    - rewrite guard_bind_ok, bool_decide_eq_false. naive_solver.
    - naive_solver. }
  destruct v; try (split; [done|by intros [[=] _]]). unfold readable_time. rewrite !Hgen. naive_solver.
Qed.
Lemma nonnegative_ok f v z : _nonnegative_int f v = Ok z ↔ v = JInt z ∧ 0 <= z.
Proof.
  destruct v; cbn; try (split; [done|by intros [[=] _]]). unfold dr_fail_if. rewrite guard_bind_ok, Z.ltb_ge. naive_solver.
Qed.
Lemma positive_ok f v z : _positive_int f v = Ok z ↔ v = JInt z ∧ 1 <= z.
Proof.
  unfold _positive_int, dr_fail_if. rewrite bind_ok_iff. setoid_rewrite nonnegative_ok. setoid_rewrite guard_bind_ok.
  setoid_rewrite Z.ltb_ge. naive_solver lia.
Qed.
Lemma used_ok f v m z : used_within f v m = Ok z ↔ v = JInt z ∧ 0 <= z <= m.
Proof.
  unfold used_within, dr_fail_if. rewrite bind_ok_iff. setoid_rewrite nonnegative_ok. setoid_rewrite guard_bind_ok.
  setoid_rewrite Z.ltb_ge. naive_solver.
Qed.

Lemma map_check_ok (check : json → result string) (P : string → Prop) values ids :
  (∀ v x, check v = Ok x ↔ v = JStr x ∧ P x) → mapM check values = Ok ids ↔ values = map JStr ids ∧ Forall P ids.
Proof.
  intros Hc. revert ids. induction values as [|v values IH]; intros ids; cbn [mapM].
  { split; [intros [= <-]; by split|]. intros [H _]. by destruct ids. }
  rewrite bind_ok_iff. setoid_rewrite Hc. split.
  - intros (x & [-> Hx] & H). apply bind_ok_iff in H as (xs & [-> Hxs]%IH & [= <-]). split; [done|by constructor].
  - intros [Hv Hp]. destruct ids as [|x ids]; [done|]. injection Hv as -> ->. inversion_clear Hp. exists x. split; [done|].
    apply bind_ok_iff. exists ids. split; [by apply IH|done].
Qed.

Lemma sorted_distinct_ok check field (P : string → Prop) values r : (∀ v x, check v = Ok x ↔ v = JStr x ∧ P x) →
  sorted_distinct check field values = Ok r ↔
  ∃ ids, values = map JStr ids ∧ NoDup ids ∧ Forall P ids ∧ r = sorted_str ids.
Proof.
  intros Hc. unfold sorted_distinct, dr_fail_if. rewrite bind_ok_iff. split.
  - intros (ids & [-> Hp]%(map_check_ok _ _ _ _ Hc) & H). cbv zeta in H. apply guard_bind_ok in H as [Hd [= <-]]. bool_prop.
    rewrite sorted_str_perm in Hd. by exists ids.
  - intros (ids & -> & Hd & Hp & ->). exists ids. split; [by apply (map_check_ok _ _ _ _ Hc)|]. cbv zeta. apply guard_bind_ok.
    split; [|done]. rewrite bool_decide_eq_true_2; [done|]. by rewrite sorted_str_perm.
Qed.

Lemma sorted_tuple check field (P : string → Prop) values r : (∀ v x, check v = Ok x ↔ v = JStr x ∧ P x) →
  sorted_distinct check field values = Ok r ∧ strings_of values = Some r ↔ values = map JStr r ∧ distinct_sorted P r.
Proof.
  intros Hc. rewrite (sorted_distinct_ok _ _ _ _ _ Hc). unfold distinct_sorted. split.
  - intros ((ids & -> & Hd & Hp & ->) & Hs). rewrite strings_of_strs in Hs. injection Hs as Hs. rewrite <- Hs at 1.
    split; [done|]. split; [by rewrite sorted_str_idemp|]. by rewrite <- Hs.
  - intros (-> & Hs & Hd & Hp). split; [by exists r|]. apply strings_of_strs.
Qed.

(** ** Budget snapshots *)

Record snapshot_ok (b : RuntimeBudgetSnapshot) : Prop := {
  so_schema : bs_schema_version b = BUDGET_STATE_SCHEMA;
  so_task : plain_name (bs_task_id b);
  so_limits : 1 <= bs_max_steps b ∧ 0 <= bs_max_tool_calls b ∧ 0 <= bs_max_model_retries b
    ∧ 0 <= bs_max_model_escalations b ∧ 100 <= bs_max_wall_time_ms b;
  so_used : 0 <= bs_steps_used b <= bs_max_steps b ∧ 0 <= bs_tool_calls_used b <= bs_max_tool_calls b
    ∧ 0 <= bs_model_retries_used b <= bs_max_model_retries b
    ∧ 0 <= bs_model_escalations_used b <= bs_max_model_escalations b;
  so_deadline : readable_time (bs_deadline_at b)
}.

(** The dict has these items. *)
Definition reads (d items : list (string * json)) : Prop := Forall (λ kv, get d kv.1 = kv.2) items.

Lemma reads_canon d items : NoDup d.*1 → reads d items → Forall (λ kv, canon kv.2 = kv.2) items → reads (canon_items d) items.
Proof.
  intros Hd Hr Hc. unfold reads in *. rewrite !Forall_elem in *. intros [k v] Hin. cbn. rewrite get_canon by done.
  pose proof (Hr _ Hin) as E. cbn in E. rewrite E. apply (Hc _ Hin).
Qed.

Lemma is_str_ok v s : negb (is_str v s) = false ↔ v = JStr s.
Proof. rewrite negb_false_iff. destruct v; cbn; try done. rewrite bool_decide_eq_true. naive_solver. Qed.

(** Validation reads the fields it is given, and no others. *)
Lemma budget_fields_ok d b : budget_from_fields d = Ok b ↔ reads d (budget_items b) ∧ snapshot_ok b.
Proof.
  unfold budget_from_fields, dr_fail_if, reads. rewrite guard_bind_ok, is_str_ok. split.
  - intros (Hs & H). apply bind_ok_iff in H as (t & [Ht Htn]%dispatch_name_ok & H).
    apply bind_ok_iff in H as (ms & [Hms Hms0]%positive_ok & H). apply bind_ok_iff in H as (mt & [Hmt Hmt0]%nonnegative_ok & H).
    apply bind_ok_iff in H as (mr & [Hmr Hmr0]%nonnegative_ok & H). apply bind_ok_iff in H as (me & [Hme Hme0]%nonnegative_ok & H).
    apply bind_ok_iff in H as (mw & [Hmw Hmw0]%nonnegative_ok & H). apply guard_bind_ok in H as [Hw H]. apply Z.ltb_ge in Hw.
    apply bind_ok_iff in H as (us & [Hus Hus0]%used_ok & H). apply bind_ok_iff in H as (ut & [Hut Hut0]%used_ok & H).
    apply bind_ok_iff in H as (ur & [Hur Hur0]%used_ok & H). apply bind_ok_iff in H as (ue & [Hue Hue0]%used_ok & H).
    apply bind_ok_iff in H as (dl & [Hdl Hdl0]%dispatch_time_ok & H). injection H as <-.
    split; [|by constructor]. unfold budget_items. cbn. rewrite !Forall_cons. by split_and!.
  - intros [Hg [Hs Ht (Hms & Hmt & Hmr & Hme & Hmw) (Hus & Hut & Hur & Hue) Hd]]. unfold budget_items in Hg.
    rewrite !Forall_cons in Hg. cbn [fst snd] in Hg. destruct Hg as (E0 & E1 & E2 & E3 & E4 & E5 & E6 & E7 & E8 & E9 & E10 & E11 & _).
    split; [congruence|]. apply bind_ok_iff. eexists. split; [by apply dispatch_name_ok|].
    apply bind_ok_iff. eexists. split; [by apply positive_ok|]. do 4 (apply bind_ok_iff; eexists; split; [apply nonnegative_ok; split; [done|lia]|]).
    apply guard_bind_ok. split; [by apply Z.ltb_ge|]. do 4 (apply bind_ok_iff; eexists; split; [by apply used_ok|]).
    apply bind_ok_iff. eexists. split; [by apply dispatch_time_ok|]. destruct b. cbn in *. congruence.
Qed.

Lemma budget_items_reads b : reads (budget_items b) (budget_items b).
Proof. unfold reads, budget_items. rewrite !Forall_cons. by split_and!. Qed.

Lemma reads_eq d b b' : reads d (budget_items b) → reads d (budget_items b') → b = b'.
Proof.
  unfold reads, budget_items. rewrite !Forall_cons. cbn [fst snd]. destruct b, b'. cbn. naive_solver congruence.
Qed.

Lemma snapshot_validate_ok b x : RuntimeBudgetSnapshot_validate b = Ok x ↔ x = b ∧ snapshot_ok b.
Proof.
  unfold RuntimeBudgetSnapshot_validate. rewrite budget_fields_ok. split.
  - intros [Hr Hok]. assert (x = b) as -> by (eapply reads_eq; [exact Hr|apply budget_items_reads]). done.
  - intros [-> Hok]. split; [apply budget_items_reads|done].
Qed.
Lemma snapshot_valid b : snapshot_ok b → RuntimeBudgetSnapshot_validate b = Ok b.
Proof. intros H. by apply snapshot_validate_ok. Qed.

Lemma budget_mapping_ok v b : budget_from_mapping v = Ok b ↔
  ∃ d, v = JObj d ∧ has_keys d BUDGET_SNAPSHOT_KEYS = true ∧ reads d (budget_items b) ∧ snapshot_ok b.
Proof.
  destruct v; cbn [budget_from_mapping]; try (split; [done|by intros (? & ? & _)]). unfold dr_fail_if.
  rewrite guard_bind_ok, negb_false_iff, budget_fields_ok. naive_solver.
Qed.

Lemma budget_items_canon b : Forall (λ kv, canon kv.2 = kv.2) (budget_items b).
Proof. unfold budget_items. by rewrite !Forall_cons. Qed.
Lemma budget_items_ok b : json_ok (JObj (budget_items b)) = true.
Proof. reflexivity. Qed.

(** ** Revocation snapshots *)

Record revocation_ok (r : RuntimeRevocationSnapshot) : Prop := {
  ro_names : plain_name (rs_task_id r) ∧ plain_name (rs_capability r);
  ro_reason : reason_re (rs_reason_code r) = true;
  ro_time : readable_time (rs_revoked_at r)
}.

Lemma revocation_fields_ok task capability reason revoked r : revocation_from_fields task capability reason revoked = Ok r ↔
  (task = JStr (rs_task_id r) ∧ capability = JStr (rs_capability r) ∧ reason = JStr (rs_reason_code r)
   ∧ revoked = JStr (rs_revoked_at r)) ∧ revocation_ok r.
Proof.
  unfold revocation_from_fields. split.
  - intros H. apply bind_ok_iff in H as (t & [-> Ht]%dispatch_name_ok & H). apply bind_ok_iff in H as (c & [-> Hc]%dispatch_name_ok & H).
    apply bind_ok_iff in H as (re & [-> Hre]%dispatch_reason_ok & H). apply bind_ok_iff in H as (at_ & [-> Hat]%dispatch_time_ok & [= <-]).
    by split; [|constructor].
  - intros [(-> & -> & -> & ->) [[Ht Hc] Hre Hat]]. apply bind_ok_iff. eexists. split; [by apply dispatch_name_ok|].
    apply bind_ok_iff. eexists. split; [by apply dispatch_name_ok|]. apply bind_ok_iff. eexists. split; [by apply dispatch_reason_ok|].
    apply bind_ok_iff. eexists. split; [by apply dispatch_time_ok|]. by destruct r.
Qed.

Lemma revocation_validate_ok r x : RuntimeRevocationSnapshot_validate r = Ok x ↔ x = r ∧ revocation_ok r.
Proof.
  unfold RuntimeRevocationSnapshot_validate. rewrite revocation_fields_ok. split; [|by intros [-> ?]].
  intros [([= E1] & [= E2] & [= E3] & [= E4]) Hok]. assert (x = r) as -> by (destruct x, r; cbn in *; congruence). done.
Qed.
Lemma revocation_valid r : revocation_ok r → RuntimeRevocationSnapshot_validate r = Ok r.
Proof. intros H. by apply revocation_validate_ok. Qed.

(** A revocation is read back from its item. *)
Lemma revocation_read r : revocation_ok r → from_revocation (RevRaw (canon (JObj (revocation_items r)))) = Ok r.
Proof.
  intros H. change (canon (JObj (revocation_items r))) with (JObj (canon_items (revocation_items r))). cbn [from_revocation].
  assert (NoDup (revocation_items r).*1) as Hd by (apply (bool_decide_unpack _); reflexivity).
  rewrite !has_keys_canon, !get_canon by done. rewrite dict_get_none.
  2: { rewrite canon_items_keys. apply (bool_decide_unpack _). reflexivity. }
  change (has_keys (revocation_items r) REVOCATION_KEYS) with true. cbn [negb andb dr_fail_if raise_if mbind result_bind].
  unfold revocation_items. read_items. rewrite !canon_str. by apply revocation_fields_ok.
Qed.

(** ** Valid bindings *)

Section Valid.
Context {HL : Hashlib}.

Lemma dispatch_json_ok v : json_ok v = true → Dispatch_canonical_json v = Ok (print v).
Proof. intros Hv. unfold Dispatch_canonical_json, canonical_json. by rewrite dumps_ok. Qed.
Lemma dispatch_digest_ok v : json_ok v = true → Dispatch_digest v = Ok (sha256_of_text (print v)).
Proof. intros Hv. unfold Dispatch_digest, digest, canonical_json. by rewrite dumps_ok. Qed.

(** The items of a binding whose budget and revocations are valid. *)
Definition binding_items (b : RuntimeDispatchRecoveryBinding) : list (string * json) := [
  ("schema_version", JStr (db_schema_version b));
  ("runtime_checkpoint_fingerprint", JStr (db_runtime_checkpoint_fingerprint b));
  ("task_id", JStr (db_task_id b)); ("task_context_fingerprint", JStr (db_task_context_fingerprint b));
  ("plan_fingerprint", JStr (db_plan_fingerprint b));
  ("parent_authority_fingerprint", JStr (db_parent_authority_fingerprint b));
  ("scheduler_state_fingerprint", JStr (db_scheduler_state_fingerprint b));
  ("max_concurrency", JInt (db_max_concurrency b)); ("cancelled", JBool (db_cancelled b));
  ("cancellation_reason", json_opt_str (db_cancellation_reason b));
  ("dispatch_sequence", JInt (db_dispatch_sequence b)); ("approved_node_ids", json_strs (db_approved_node_ids b));
  ("in_flight_ticket_fingerprints", json_strs (db_in_flight_ticket_fingerprints b));
  ("observation_fingerprints", json_strs (db_observation_fingerprints b)); ("budget", JObj (budget_items (db_budget b)));
  ("revocations", JList (map (λ r, JObj (revocation_items r)) (db_revocations b))); ("captured_at", JStr (db_captured_at b))].
Definition binding_record (b : RuntimeDispatchRecoveryBinding) : list (string * json) :=
  ("binding_id", JStr (db_binding_id b)) :: binding_items b.

Lemma revocation_list_ok l : forallb json_ok (map (λ r, JObj (revocation_items r)) l) = true.
Proof. by induction l. Qed.
Lemma binding_record_ok b : json_ok (JObj (binding_record b)) = true.
Proof.
  unfold binding_record, binding_items. cbn [json_ok forallb snd json_strs]. rewrite !json_ok_strs, revocation_list_ok.
  change (json_ok (JObj (budget_items (db_budget b)))) with true. by destruct (db_cancellation_reason b).
Qed.
Lemma binding_items_json_ok b : json_ok (JObj (binding_items b)) = true.
Proof.
  unfold binding_items. cbn [json_ok forallb snd json_strs]. rewrite !json_ok_strs, revocation_list_ok.
  change (json_ok (JObj (budget_items (db_budget b)))) with true. by destruct (db_cancellation_reason b).
Qed.

Definition binding_sha (b : RuntimeDispatchRecoveryBinding) : string := sha256_of_text (print (JObj (binding_items b))).

Definition cancellation_ok (cancelled : bool) (reason : option string) : Prop :=
  match reason with
  | None => cancelled = false
  | Some s => cancelled = true ∧ single_line RuntimeDispatchRecoveryError s "cancellation_reason" 256 = Ok s
  end.

Record revocations_ok (task : string) (rows : list RuntimeRevocationSnapshot) : Prop := {
  rv_valid : Forall revocation_ok rows;
  rv_task : Forall (λ r, rs_task_id r = task) rows;
  rv_distinct : NoDup (map rs_capability rows);
  rv_sorted : by_capability rows = rows
}.

Record binding_ok (b : RuntimeDispatchRecoveryBinding) : Prop := {
  bo_schema : db_schema_version b = RUNTIME_DISPATCH_RECOVERY_BINDING_SCHEMA;
  bo_names : plain_name (db_binding_id b) ∧ plain_name (db_task_id b);
  bo_hashes : Forall hash_ref [db_runtime_checkpoint_fingerprint b; db_task_context_fingerprint b; db_plan_fingerprint b;
    db_parent_authority_fingerprint b; db_scheduler_state_fingerprint b];
  bo_concurrency : 1 <= db_max_concurrency b <= MAX_SCHEDULER_CONCURRENCY;
  bo_sequence : 0 <= db_dispatch_sequence b;
  bo_cancellation : cancellation_ok (db_cancelled b) (db_cancellation_reason b);
  bo_approved : distinct_sorted plain_name (db_approved_node_ids b);
  bo_in_flight : distinct_sorted hash_ref (db_in_flight_ticket_fingerprints b);
  bo_observed : distinct_sorted hash_ref (db_observation_fingerprints b);
  bo_budget : snapshot_ok (db_budget b) ∧ bs_task_id (db_budget b) = db_task_id b;
  bo_revocations : revocations_ok (db_task_id b) (db_revocations b);
  bo_captured : readable_time (db_captured_at b);
  bo_identity : db_binding_id b = "dispatch-recovery:" +:+ short_digest (binding_sha b)
}.

Lemma revocation_dict_ok r : revocation_ok r → RuntimeRevocationSnapshot_canonical_dict r = Ok (JObj (revocation_items r)).
Proof. intros H. unfold RuntimeRevocationSnapshot_canonical_dict. by rewrite revocation_valid. Qed.
Lemma revocation_dicts_ok rows : Forall revocation_ok rows →
  mapM RuntimeRevocationSnapshot_canonical_dict rows = Ok (map (λ r, JObj (revocation_items r)) rows).
Proof.
  induction 1 as [|r rows Hr _ IH]; [done|]. cbn [mapM map].
  rewrite revocation_dict_ok by done. cbn [mbind result_bind]. by rewrite IH.
Qed.

Lemma identity_items_ok b : snapshot_ok (db_budget b) → Forall revocation_ok (db_revocations b) →
  Dispatch_identity_items b = Ok (binding_items b).
Proof.
  intros Hb Hr. unfold Dispatch_identity_items, RuntimeBudgetSnapshot_canonical_dict. rewrite snapshot_valid by done.
  cbn [mbind result_bind]. by rewrite revocation_dicts_ok.
Qed.
Lemma binding_fingerprint_ok b : snapshot_ok (db_budget b) → Forall revocation_ok (db_revocations b) →
  RuntimeDispatchRecoveryBinding_fingerprint b = Ok (binding_sha b).
Proof.
  intros Hb Hr. unfold RuntimeDispatchRecoveryBinding_fingerprint. rewrite identity_items_ok by done.
  apply dispatch_digest_ok, binding_items_json_ok.
Qed.

Lemma check_flag_ok v x : check_flag v = Ok x ↔ v = JBool x.
Proof. destruct v; cbn; naive_solver. Qed.
Lemma check_concurrency_ok v z : check_concurrency v = Ok z ↔ v = JInt z ∧ 1 <= z <= MAX_SCHEDULER_CONCURRENCY.
Proof.
  unfold check_concurrency, dr_fail_if. rewrite bind_ok_iff. setoid_rewrite positive_ok. setoid_rewrite guard_bind_ok.
  setoid_rewrite Z.ltb_ge. naive_solver.
Qed.
Lemma check_cancellation_ok cancelled v x : check_cancellation cancelled v = Ok x ↔ v = json_opt_str x ∧ cancellation_ok cancelled x.
Proof.
  unfold check_cancellation, cancellation_ok. destruct cancelled.
  - destruct v; cbn; try (split; [done|by destruct x; cbn; intros [? ?]]).
    destruct (single_line _ _ _ _) as [t|] eqn:E; cbn.
    + pose proof (single_line_id _ _ _ _ _ E) as ->. split; [by intros [= <-]|]. destruct x; cbn; [|by intros [? ?]].
      by intros [[= ->] _].
    + split; [done|]. destruct x; cbn; [|by intros [? ?]]. intros [[= ->] [_ Hs]]. congruence.
  - destruct v, x; cbn; naive_solver.
Qed.

Lemma check_revocations_ok task rows : ∀ seen, check_revocations task seen rows = Ok tt ↔
  Forall revocation_ok rows ∧ Forall (λ r, rs_task_id r = task) rows ∧ NoDup (map rs_capability rows)
  ∧ ∀ r, r ∈ rows → rs_capability r ∉ seen.
Proof.
  induction rows as [|r rows IH]; intros seen; cbn [check_revocations map].
  { split; [|done]. intros _. split_and!; [constructor..|set_solver]. }
  unfold dr_fail_if. rewrite bind_ok_iff. setoid_rewrite revocation_validate_ok. split.
  - intros (? & [-> Hr] & H). rewrite !guard_bind_ok in H. destruct H as (Ht & Hs & (Hv & Htask & Hd & Hn)%IH). bool_prop.
    apply mem_str_false in Hs. split_and!; [by constructor|by constructor| |].
    + constructor; [|done]. intros (x & Hx & Hin)%list_elem_of_fmap. apply (Hn x Hin). rewrite <- Hx. left.
    + intros x [->|Hin]%elem_of_cons; [done|]. specialize (Hn x Hin). set_solver.
  - intros (Hv & Ht & Hd & Hn). inversion_clear Hv. inversion_clear Ht. apply NoDup_cons in Hd as [Hx Hd].
    exists r. split; [done|]. rewrite !guard_bind_ok. split_and!; [by rewrite bool_decide_eq_true_2|apply mem_str_false, Hn; left|].
    apply IH. split_and!; [done..|]. intros x Hin [Heq|Hs]%elem_of_cons; [|by apply (Hn x); [right|]].
    apply Hx. rewrite <- Heq. by apply list_elem_of_fmap_2.
Qed.

(** Validation accepts exactly these bindings, and returns the fields it was given. *)
Lemma binding_fields_ok d approved in_flight observations budget revocations b :
  validate_binding_fields d approved in_flight observations budget revocations = Ok b ↔
  reads d (binding_scalars b) ∧ (approved = map JStr (db_approved_node_ids b)
    ∧ in_flight = map JStr (db_in_flight_ticket_fingerprints b) ∧ observations = map JStr (db_observation_fingerprints b)
    ∧ budget = db_budget b ∧ revocations = db_revocations b) ∧ binding_ok b.
Proof.
  unfold validate_binding_fields, dr_fail_if, reads. rewrite guard_bind_ok, is_str_ok. split.
  - intros (Hs & H). apply bind_ok_iff in H as (i & [Hi Hi0]%dispatch_name_ok & H).
    apply bind_ok_iff in H as (t & [Ht Ht0]%dispatch_name_ok & H). apply bind_ok_iff in H as (ck & [Hc Hc0]%dispatch_hash_ok & H).
    apply bind_ok_iff in H as (x & [Hx Hx0]%dispatch_hash_ok & H). apply bind_ok_iff in H as (p & [Hp Hp0]%dispatch_hash_ok & H).
    apply bind_ok_iff in H as (a & [Ha Ha0]%dispatch_hash_ok & H). apply bind_ok_iff in H as (ss & [Hss Hss0]%dispatch_hash_ok & H).
    apply bind_ok_iff in H as (ca & Hca%check_flag_ok & H). apply bind_ok_iff in H as (mc & [Hmc Hmc0]%check_concurrency_ok & H).
    apply bind_ok_iff in H as (sq & [Hsq Hsq0]%nonnegative_ok & H). apply bind_ok_iff in H as (re & [Hre Hre0]%check_cancellation_ok & H).
    apply bind_ok_iff in H as (ids & Hids & H). apply guard_bind_ok in H as [Hids0 H].
    apply bind_ok_iff in H as (ts & Hts & H). apply guard_bind_ok in H as [Hts0 H].
    apply bind_ok_iff in H as (hs & Hhs & H). apply guard_bind_ok in H as [Hhs0 H].
    apply bind_ok_iff in H as (bb & [-> Hb]%snapshot_validate_ok & H). apply guard_bind_ok in H as [Hbt H].
    apply unit_bind_ok in H as [(Hv & Hvt & Hvd & _)%check_revocations_ok H]. apply guard_bind_ok in H as [Hvs H].
    apply bind_ok_iff in H as (cap & [Hcap Hcap0]%dispatch_time_ok & H). cbv zeta in H.
    rewrite binding_fingerprint_ok in H by done. cbn [mbind result_bind] in H. apply guard_bind_ok in H as [Hid [= <-]]. bool_prop.
    pose proof (proj1 (sorted_tuple _ _ _ _ _ (dispatch_name_ok _)) (conj Hids Hids0)) as [-> Hids'].
    pose proof (proj1 (sorted_tuple _ _ _ _ _ (dispatch_hash_ok _)) (conj Hts Hts0)) as [-> Hts'].
    pose proof (proj1 (sorted_tuple _ _ _ _ _ (dispatch_hash_ok _)) (conj Hhs Hhs0)) as [-> Hhs'].
    split; [unfold binding_scalars; cbn; rewrite !Forall_cons; by split_and!|]. split; [done|].
    constructor; cbn; try done. by repeat constructor.
  - intros (Hg & (-> & -> & -> & -> & ->) & [Hs [Hi Ht] Hh Hmc Hsq Hre Hids Hts Hhs [Hb Hbt] [Hv Hvt Hvd Hvs] Hcap Hid]).
    unfold binding_scalars in Hg. rewrite !Forall_cons in Hg. rewrite !Forall_cons in Hh. cbn [fst snd] in Hg.
    destruct Hg as (E0 & E1 & E2 & E3 & E4 & E5 & E6 & E7 & E8 & E9 & E10 & E11 & E12 & _). destruct Hh as (H3 & H4 & H5 & H6 & H7 & _).
    split; [congruence|]. do 2 (apply bind_ok_iff; eexists; split; [by apply dispatch_name_ok|]).
    do 5 (apply bind_ok_iff; eexists; split; [by apply dispatch_hash_ok|]).
    apply bind_ok_iff; eexists; split; [by apply check_flag_ok|]. apply bind_ok_iff; eexists; split; [by apply check_concurrency_ok|].
    apply bind_ok_iff; eexists; split; [by apply nonnegative_ok|]. apply bind_ok_iff; eexists; split; [by apply check_cancellation_ok|].
    destruct (proj2 (sorted_tuple _ "approved_node_id" _ _ _ (dispatch_name_ok "approved_node_id")) (conj eq_refl Hids)) as [Ha1 Ha2].
    destruct (proj2 (sorted_tuple _ "in_flight_ticket_fingerprint" _ _ _ (dispatch_hash_ok "in_flight_ticket_fingerprint"))
      (conj eq_refl Hts)) as [Ht1 Ht2].
    destruct (proj2 (sorted_tuple _ "observation_fingerprint" _ _ _ (dispatch_hash_ok "observation_fingerprint"))
      (conj eq_refl Hhs)) as [Ho1 Ho2].
    apply bind_ok_iff. eexists. split; [exact Ha1|]. apply guard_bind_ok. split; [by rewrite Ha2, bool_decide_eq_true_2|].
    apply bind_ok_iff. eexists. split; [exact Ht1|]. apply guard_bind_ok. split; [by rewrite Ht2, bool_decide_eq_true_2|].
    apply bind_ok_iff. eexists. split; [exact Ho1|]. apply guard_bind_ok. split; [by rewrite Ho2, bool_decide_eq_true_2|].
    apply bind_ok_iff. eexists. split; [by apply snapshot_validate_ok|]. apply guard_bind_ok. split; [by rewrite bool_decide_eq_true_2|].
    apply unit_bind_ok. split; [apply check_revocations_ok; split_and!; [done..|set_solver]|].
    apply guard_bind_ok. split; [by rewrite bool_decide_eq_true_2|].
    apply bind_ok_iff. eexists. split; [by apply dispatch_time_ok|]. cbv zeta.
    match goal with |- context [RuntimeDispatchRecoveryBinding_fingerprint ?b'] =>
      replace b' with b by (destruct b; cbn in *; congruence) end.
    rewrite binding_fingerprint_ok by done. cbn [mbind result_bind]. apply guard_bind_ok.
    by rewrite bool_decide_eq_true_2.
Qed.

Lemma opt_item_inj x y : json_opt_str x = json_opt_str y → x = y.
Proof. destruct x, y; cbn; congruence. Qed.

Lemma binding_scalars_reads b : reads (binding_scalars b) (binding_scalars b).
Proof. unfold reads, binding_scalars. rewrite !Forall_cons. by split_and!. Qed.

Lemma dispatch_binding_eq b b' d : reads d (binding_scalars b) → reads d (binding_scalars b') →
  db_approved_node_ids b = db_approved_node_ids b' → db_in_flight_ticket_fingerprints b = db_in_flight_ticket_fingerprints b' →
  db_observation_fingerprints b = db_observation_fingerprints b' → db_budget b = db_budget b' →
  db_revocations b = db_revocations b' → b = b'.
Proof.
  unfold reads, binding_scalars. rewrite !Forall_cons. cbn [fst snd].
  intros (E0 & E1 & E2 & E3 & E4 & E5 & E6 & E7 & E8 & E9 & E10 & E11 & E12 & _)
    (F0 & F1 & F2 & F3 & F4 & F5 & F6 & F7 & F8 & F9 & F10 & F11 & F12 & _) G1 G2 G3 G4 G5.
  rewrite E0 in F0. rewrite E1 in F1. rewrite E2 in F2. rewrite E3 in F3. rewrite E4 in F4. rewrite E5 in F5.
  rewrite E6 in F6. rewrite E7 in F7. rewrite E8 in F8. rewrite E9 in F9. rewrite E10 in F10. rewrite E11 in F11.
  rewrite E12 in F12. apply opt_item_inj in F11.
  injection F0 as F0. injection F1 as F1. injection F2 as F2. injection F3 as F3. injection F4 as F4. injection F5 as F5.
  injection F6 as F6. injection F7 as F7. injection F8 as F8. injection F9 as F9. injection F10 as F10. injection F12 as F12.
  destruct b, b'. cbn in *. by subst.
Qed.

Lemma dispatch_binding_validate_ok b x : RuntimeDispatchRecoveryBinding_validate b = Ok x ↔ x = b ∧ binding_ok b.
Proof.
  unfold RuntimeDispatchRecoveryBinding_validate. rewrite binding_fields_ok. split.
  - intros (Hr & (H1%json_str_inj & H2%json_str_inj & H3%json_str_inj & H4 & H5) & Hok).
    assert (x = b) as ->; [|done]. eapply dispatch_binding_eq; [exact Hr|apply binding_scalars_reads|congruence..].
  - intros [-> Hok]. split; [apply binding_scalars_reads|done].
Qed.
Lemma binding_valid b : binding_ok b → RuntimeDispatchRecoveryBinding_validate b = Ok b.
Proof. intros H. by apply dispatch_binding_validate_ok. Qed.

(** ** Text *)

Definition binding_envelope (b : RuntimeDispatchRecoveryBinding) : list (string * json) := [
  ("schema_version", JStr RUNTIME_DISPATCH_RECOVERY_BINDING_ENVELOPE_SCHEMA); ("binding", JObj (binding_record b));
  ("binding_fingerprint", JStr (binding_sha b))].
Lemma binding_envelope_ok b : json_ok (JObj (binding_envelope b)) = true.
Proof.
  pose proof (binding_record_ok b) as H. unfold binding_envelope. set (r := JObj (binding_record b)) in *.
  cbn [json_ok forallb snd]. by rewrite H.
Qed.

Lemma binding_dumps_ok b : binding_ok b → BindingCodec_dumps b = Ok (print (JObj (binding_envelope b))).
Proof.
  intros H. pose proof (proj1 (bo_budget _ H)) as Hb. pose proof (rv_valid _ _ (bo_revocations _ H)) as Hr.
  unfold BindingCodec_dumps, RuntimeDispatchRecoveryBinding_canonical_dict. rewrite binding_valid by done.
  cbn [mbind result_bind]. rewrite identity_items_ok, binding_fingerprint_ok by done. cbn [mbind result_bind].
  apply dispatch_json_ok, binding_envelope_ok.
Qed.

Lemma revocations_read rows : Forall revocation_ok rows →
  mapM (λ v, from_revocation (RevRaw v)) (map canon (map (λ r, JObj (revocation_items r)) rows)) = Ok rows.
Proof.
  induction 1 as [|r rows Hr _ IH]; [done|]. cbn [map mapM]. rewrite revocation_read by done. cbn [mbind result_bind]. by rewrite IH.
Qed.

Lemma binding_record_read b : binding_ok b →
  binding_from_record (canon_items (binding_record b)) (map canon (map (λ r, JObj (revocation_items r)) (db_revocations b))) = Ok b.
Proof.
  intros H. pose proof (proj1 (bo_budget _ H)) as Hb. pose proof (rv_valid _ _ (bo_revocations _ H)) as Hr.
  assert (NoDup (binding_record b).*1) as Hd by (apply (bool_decide_unpack _); reflexivity).
  unfold binding_from_record. rewrite !get_canon by done.
  assert (get (binding_record b) "approved_node_ids" = json_strs (db_approved_node_ids b)) as -> by done.
  assert (get (binding_record b) "in_flight_ticket_fingerprints" = json_strs (db_in_flight_ticket_fingerprints b)) as -> by done.
  assert (get (binding_record b) "observation_fingerprints" = json_strs (db_observation_fingerprints b)) as -> by done.
  assert (get (binding_record b) "budget" = JObj (budget_items (db_budget b))) as -> by done.
  unfold json_strs. rewrite !canon_strs. cbn [tuple_of mbind result_bind].
  change (canon (JObj (budget_items (db_budget b)))) with (JObj (canon_items (budget_items (db_budget b)))).
  rewrite (proj2 (budget_mapping_ok _ (db_budget b))).
  2: { eexists. split_and!; [done|by rewrite has_keys_canon| |done].
       apply reads_canon; [apply (bool_decide_unpack _); reflexivity|apply budget_items_reads|apply budget_items_canon]. }
  cbn [mbind result_bind]. rewrite revocations_read by done. cbn [mbind result_bind]. apply binding_fields_ok.
  split; [|by split]. apply reads_canon; [done| |].
  - unfold reads, binding_scalars. rewrite !Forall_cons. by split_and!.
  - unfold binding_scalars. rewrite !Forall_cons. split_and!; try done. by destruct (db_cancellation_reason b).
Qed.

Lemma binding_loads_ok text envelope raw budget rows b f :
  is_empty text = false → loads text = Ok (JObj envelope) →
  has_keys envelope ["schema_version"; "binding"; "binding_fingerprint"] = true →
  get envelope "schema_version" = JStr RUNTIME_DISPATCH_RECOVERY_BINDING_ENVELOPE_SCHEMA →
  get envelope "binding" = JObj raw → has_keys raw BINDING_KEYS = true → get raw "budget" = JObj budget →
  get raw "revocations" = JList rows → binding_from_record raw rows = Ok b →
  RuntimeDispatchRecoveryBinding_fingerprint b = Ok f → get envelope "binding_fingerprint" = JStr f →
  Dispatch_canonical_json (JObj envelope) = Ok text → BindingCodec_loads text = Ok b.
Proof.
  intros H1 H2 H3 H4 H5 H6 H7 H8 H9 H10 H11 H12. unfold BindingCodec_loads.
  rewrite H1. cbn [dr_fail_if raise_if mbind result_bind]. rewrite H2. cbn [reraise catch mbind result_bind].
  rewrite H3, H4, H5, H8, H6, H7. cbn [is_str is_object negb orb]. rewrite bool_decide_eq_true_2 by done.
  cbn [dr_fail_if raise_if negb mbind result_bind]. rewrite H9. cbn [reraise catch mbind result_bind]. rewrite H10.
  cbn [mbind result_bind]. rewrite H11, H12. cbn [is_str mbind result_bind].
  rewrite !bool_decide_eq_true_2 by done. reflexivity.
Qed.

Lemma binding_envelope_get b : NoDup (binding_envelope b).*1
  ∧ has_keys (binding_envelope b) ["schema_version"; "binding"; "binding_fingerprint"] = true
  ∧ get (binding_envelope b) "schema_version" = JStr RUNTIME_DISPATCH_RECOVERY_BINDING_ENVELOPE_SCHEMA
  ∧ get (binding_envelope b) "binding" = JObj (binding_record b)
  ∧ get (binding_envelope b) "binding_fingerprint" = JStr (binding_sha b).
Proof. unfold binding_envelope. generalize (binding_record b) (binding_sha b). intros r f. split_and!; try done.
  apply (bool_decide_unpack _). reflexivity. Qed.

Lemma binding_record_get b : NoDup (binding_record b).*1 ∧ has_keys (binding_record b) BINDING_KEYS = true
  ∧ get (binding_record b) "budget" = JObj (budget_items (db_budget b))
  ∧ get (binding_record b) "revocations" = JList (map (λ r, JObj (revocation_items r)) (db_revocations b)).
Proof. split_and!; try done. apply (bool_decide_unpack _). reflexivity. Qed.

(** C38: what [BindingCodec.dumps] writes for a binding [validate] accepts, [BindingCodec.loads] reads back as that
    binding: the text is canonical, its envelope and record have exactly the expected members, and the fingerprint and
    the identity of the record are its own. *)
Theorem binding_text_roundtrip b (Hb : RuntimeDispatchRecoveryBinding_validate b = Ok b) :
  ∃ text, BindingCodec_dumps b = Ok text ∧ BindingCodec_loads text = Ok b.
Proof.
  apply dispatch_binding_validate_ok in Hb as [_ H]. pose proof (proj1 (bo_budget _ H)) as Hb. pose proof (rv_valid _ _ (bo_revocations _ H)) as Hr.
  eexists. split; [by apply binding_dumps_ok|]. pose proof (binding_envelope_ok b) as Hok.
  destruct (print_head _ Hok) as (h & t & Hp & _). destruct (binding_envelope_get b) as (Hd & Hk & Es & Eb & Ef).
  destruct (binding_record_get b) as (Hd' & Hk' & Ebu & Er). eapply (binding_loads_ok _ (canon_items (binding_envelope b))
    (canon_items (binding_record b)) (canon_items (budget_items (db_budget b)))).
  - by rewrite Hp.
  - by rewrite (loads_dumps _ _ Hok (dumps_ok _ Hok)).
  - by rewrite has_keys_canon.
  - by rewrite get_canon, Es.
  - by rewrite get_canon, Eb.
  - by rewrite has_keys_canon.
  - by rewrite get_canon, Ebu.
  - by rewrite get_canon, Er.
  - by apply binding_record_read.
  - by apply binding_fingerprint_ok.
  - by rewrite get_canon, Ef.
  - rewrite <- (print_canon (JObj _)). apply dispatch_json_ok. by apply (json_ok_canon (JObj _)).
Qed.
End Valid.
