(* ===== verification/DispatchDecisions.v ===== *)
(** * Dispatch recovery: decisions and histories

    What an evaluation has compared and what it decides; what a run that may go on has compared with the live
    store; and that what was captured from a store is recovered in every later state of it. *)

From Stdlib Require Import Ascii.
From Stdlib Require String.
From S2P Require Import Prelude PyStr Hashlib PyFloat Json JsonFacts PyTime PyTimeFacts Validators TaskContract TaskStore.
From S2P Require Import CapabilityAuthority AuthorityFacts WorkflowDesign WorkflowGraph WorkflowFacts ContextManifest TaskContext.
From S2P Require Import ExecutionPlan PlanFacts ExecutionObservation ObservationFacts RuntimeScheduler ReadinessFacts.
From S2P Require Import ExecutionScheduler SchedulerFacts RestoreFacts ExecutionCheckpoint CheckpointFacts CheckpointLog.
From S2P Require Import ExecutionBudget CapabilityRevocation LinkedBudget BudgetFacts RuntimeCheckpoint RuntimeCheckpointFacts.
From S2P Require Import DispatchRecovery DispatchRecoveryFacts.

Local Open Scope Z_scope.

(** ** What an evaluation has compared *)

Section Decision.
Context {HL : Hashlib} {B R : Type} `{!DispatchRecoveryBudgetGuard B} `{!DispatchRecoveryRevocationGuard R}.

Notation guards := (LiveGuards B R).

Lemma from_revocation_ok v r : from_revocation v = Ok r → revocation_ok r.
Proof.
  destruct v as [x|[]]; cbn [from_revocation]; try done.
  - by intros [_ H]%revocation_fields_ok.
  - unfold dr_fail_if. intros [_ [_ [_ H]%revocation_fields_ok]%guard_bind_ok]%guard_bind_ok. done.
Qed.

Lemma from_revocations_ok values rows : mapM from_revocation values = Ok rows → Forall revocation_ok rows.
Proof.
  revert rows. induction values as [|v values IH]; intros rows; cbn [mapM]; [intros [= <-]; constructor|].
  intros (r & Hr%from_revocation_ok & (rs & Hrs%IH & [= <-])%bind_ok_iff)%bind_ok_iff. by constructor.
Qed.

Lemma by_capability_perm rows : by_capability rows ≡ₚ rows.
Proof. apply order_by_perm. Qed.

Lemma live_revocations_ok task (g : guards) rows (g' : guards) : live_revocations task g = (Ok rows, g') ↔
  ∃ values rows', with_revocations (revocations_for task) g = (Ok values, g') ∧ mapM from_revocation values = Ok rows'
    ∧ rows = by_capability rows'.
Proof.
  unfold live_revocations, st_map_exn, mbind, st_bind, st_lift, mret, st_ret.
  destruct (with_revocations (revocations_for task) g) as [[values|e] g1]; [|by split; [|intros (? & ? & ? & _)]].
  destruct (mapM from_revocation values) as [rows'|e] eqn:E.
  - split; [intros [= <- <-]; by exists values, rows'|]. intros (v & r & [= <- <-] & Hr & ->). congruence.
  - split; [done|]. intros (v & r & [= <- <-] & Hr & _). congruence.
Qed.

Lemma live_budget_ok (g : guards) live (g' : guards) : live_budget g = (Ok live, g') ↔
  ∃ payload, with_budget budget_snapshot g = (Ok payload, g') ∧ budget_from_mapping payload = Ok live.
Proof.
  unfold live_budget, st_map_exn, mbind, st_bind, st_lift.
  destruct (with_budget budget_snapshot g) as [[payload|e] g1]; [|by split; [|intros (? & ? & _)]].
  destruct (budget_from_mapping payload) as [live'|e] eqn:E.
  - split; [intros [= <- <-]; by exists payload|]. intros (v & [= <- <-] & Hr). congruence.
  - split; [done|]. intros (v & [= <- <-] & Hr). congruence.
Qed.

(** The live budget is the captured one, with counters no lower. *)
Record budget_covers (captured live : RuntimeBudgetSnapshot) : Prop := {
  bv_fixed : immutable_tuple live = immutable_tuple captured;
  bv_counters : Forall2 Z.le (budget_counters captured) (budget_counters live)
}.

Lemma counter_rollback_false live captured : counter_rollback live captured = false ↔
  Forall2 Z.le (budget_counters captured) (budget_counters live).
Proof.
  unfold counter_rollback, budget_counters. cbn. rewrite !orb_false_iff, !Z.ltb_ge, !Forall2_cons.
  split; [intros (? & ? & ? & ? & _); split_and!; auto|intros (? & ? & ? & ? & _); split_and!; auto].
Qed.

(** Every captured revocation is still live, unchanged. *)
Lemma capability_table_ok rows : NoDup (map rs_capability rows) →
  size (capability_table rows) = length rows ∧ ∀ x r, capability_table rows !! x = Some r ↔ r ∈ rows ∧ rs_capability r = x.
Proof.
  unfold capability_table. induction rows as [|r0 rows IH] using rev_ind; intros Hd.
  { cbn. split; [apply map_size_empty|]. intros x r. rewrite lookup_empty, elem_of_nil. naive_solver. }
  rewrite map_app in Hd. cbn [map] in Hd. apply NoDup_app in Hd as (Hd & Hn & _). destruct (IH Hd) as [Hs Hl].
  rewrite fold_left_app. cbn [fold_left]. set (m := fold_left _ rows ∅) in *.
  assert (m !! rs_capability r0 = None) as Hfresh.
  { destruct (m !! rs_capability r0) as [r|] eqn:E; [|done]. apply Hl in E as [Hr E]. destruct (Hn (rs_capability r0)); [|left].
    rewrite <- E. by apply list_elem_of_fmap_2. }
  split; [rewrite map_size_insert_None, length_app by done; cbn; lia|]. intros x r. rewrite elem_of_app, list_elem_of_singleton.
  destruct (decide (rs_capability r0 = x)) as [<-|Hne].
  - rewrite lookup_insert_eq. split; [naive_solver|]. intros [[Hr| ->] E]; [|done].
    assert (m !! rs_capability r0 = Some r) as E' by (by apply Hl). congruence.
  - rewrite lookup_insert_ne by done. rewrite Hl. naive_solver.
Qed.

Lemma capability_table_size rows : (size (capability_table rows) ≤ length rows)%nat
  ∧ (size (capability_table rows) = length rows → NoDup (map rs_capability rows)).
Proof.
  assert (∀ x, is_Some (capability_table rows !! x) ↔ x ∈ map rs_capability rows) as Hk.
  { unfold capability_table. induction rows as [|r0 rows IH] using rev_ind; intros x.
    - cbn. rewrite lookup_empty, elem_of_nil. split; [by intros [? ?]|done].
    - rewrite fold_left_app, map_app. cbn [fold_left map]. rewrite elem_of_app, list_elem_of_singleton, <- IH.
      rewrite lookup_insert_is_Some. destruct (decide (rs_capability r0 = x)); naive_solver. }
  assert (dom (capability_table rows) = list_to_set (map rs_capability rows)) as Hdom.
  { apply set_eq. intros x. by rewrite elem_of_dom, elem_of_list_to_set, Hk. }
  rewrite <- size_dom, Hdom. rewrite <- (length_map rs_capability rows). generalize (map rs_capability rows). clear.
  intros l. induction l as [|x l [IH1 IH2]]; [split; [done|constructor]|]. cbn [list_to_set length].
  destruct (decide (x ∈ l)) as [Hx|Hx].
  - assert (({[x]} ∪ list_to_set l : gset string) = list_to_set l) as -> by set_solver. split; [lia|]. intros E. lia.
  - rewrite size_union, size_singleton by set_solver. split; [lia|]. intros E. constructor; [done|]. apply IH2. lia.
Qed.

Record revalidated (b : RuntimeDispatchRecoveryBinding) (c : RuntimeCheckpoint) (tc : TaskContext) (p : ExecutionPlan)
    (parent : TaskCapabilityAuthority) (obs : list ExecutionObservation) (base : RuntimeRecoveryDecision)
    (live : RuntimeBudgetSnapshot) (rows : list RuntimeRevocationSnapshot) : Prop := {
  rl_binding : binding_ok b;
  rl_checkpoint : db_runtime_checkpoint_fingerprint b = checkpoint_sha c;
  rl_bound : db_task_id b = rk_task_id c ∧ db_task_context_fingerprint b = rk_task_context_fingerprint c
    ∧ db_plan_fingerprint b = rk_plan_fingerprint c ∧ db_parent_authority_fingerprint b = rk_parent_authority_fingerprint c;
  rl_base : RuntimeRecovery_evaluate c tc p parent obs = Ok base;
  rl_budget : budget_covers (db_budget b) live;
  rl_distinct : NoDup (map rs_capability rows);
  rl_kept : ∀ r, r ∈ db_revocations b → r ∈ rows
}.

Definition newly_revoked (b : RuntimeDispatchRecoveryBinding) (rows : list RuntimeRevocationSnapshot) : list string :=
  sorted_diff (map rs_capability rows) (map rs_capability (db_revocations b)).

Definition dispatch_decision_of (b : RuntimeDispatchRecoveryBinding) (base : RuntimeRecoveryDecision)
    (live : RuntimeBudgetSnapshot) (rows : list RuntimeRevocationSnapshot) (status reason : string) : RuntimeDispatchRecoveryDecision := {|
  dd_status := status; dd_reason_code := reason; dd_checkpoint_recovery := base;
  dd_manual_dispatch_fingerprints :=
    if bool_decide (status = "MANUAL_RECONCILIATION") then db_in_flight_ticket_fingerprints b else [];
  dd_newly_revoked_capabilities := newly_revoked b rows;
  dd_live_budget_fingerprint := sha256_of_text (print (JObj (budget_items live)));
  dd_schema_version := RUNTIME_DISPATCH_RECOVERY_DECISION_SCHEMA |}.

Lemma st_raise_ok {S} b cls msg (s s' : S) : st_raise_if b cls msg s = (Ok tt, s') ↔ b = false ∧ s = s'.
Proof. unfold st_raise_if, st_lift. destruct b; cbn; naive_solver. Qed.

Lemma recovery_decision_dict c tc p parent obs base : RuntimeRecovery_evaluate c tc p parent obs = Ok base →
  ∃ v, RuntimeRecoveryDecision_canonical_dict base = Ok v.
Proof.
  intros (d & [_ _ _ _ _ _ Hfs _ Hdf] & ->)%recovery_ok.
  unfold SchedulingDecision_fingerprint in Hdf. apply bind_ok_iff in Hdf as (v & Hv & _).
  by apply (recovery_dict_total p parent obs _ d v Hfs Hv).
Qed.

Lemma sorted_diff_idemp a b : sorted_diff a b = sorted_str (sorted_diff a b) ∧ NoDup (sorted_diff a b).
Proof.
  unfold sorted_diff. rewrite sorted_str_idemp. split; [done|]. rewrite sorted_str_perm. apply NoDup_dict_fromkeys.
Qed.

(** What an evaluation returns prints. *)
Lemma dispatch_decision_dict b c tc p parent obs base live rows status reason :
  RuntimeRecovery_evaluate c tc p parent obs = Ok base → binding_ok b → Forall revocation_ok rows →
  mem_str status CHECKPOINT_RECOVERY_STATUSES = true → reason_re reason = true →
  ∃ v, RuntimeDispatchRecoveryDecision_canonical_dict (dispatch_decision_of b base live rows status reason) = Ok v.
Proof.
  intros Hbase Hb Hrows Hst Hre. destruct (recovery_decision_dict _ _ _ _ _ _ Hbase) as [v Hv].
  eexists. unfold RuntimeDispatchRecoveryDecision_canonical_dict, dispatch_decision_of, dr_fail_if.
  cbn [dd_status dd_reason_code dd_schema_version dd_manual_dispatch_fingerprints dd_newly_revoked_capabilities
    dd_live_budget_fingerprint dd_checkpoint_recovery].
  apply guard_bind_ok; split; [by rewrite bool_decide_eq_true_2|]. apply guard_bind_ok; split; [by rewrite Hst|].
  apply guard_bind_ok; split; [by rewrite Hre|].
  set (manual := if bool_decide _ then _ else _). assert (distinct_sorted hash_ref manual) as Hm.
  { subst manual. destruct (bool_decide _); [apply Hb|by repeat constructor]. }
  destruct (proj2 (sorted_tuple _ "manual_dispatch_fingerprint" _ (map JStr manual) manual
    (dispatch_hash_ok "manual_dispatch_fingerprint")) (conj eq_refl Hm)) as [Hm1 _].
  apply bind_ok_iff. eexists. split; [exact Hm1|]. apply guard_bind_ok; split; [by rewrite bool_decide_eq_true_2|].
  set (newly := newly_revoked b rows). assert (distinct_sorted plain_name newly) as Hn.
  { destruct (sorted_diff_idemp (map rs_capability rows) (map rs_capability (db_revocations b))) as [H1 H2].
    split; [done|]. split; [done|]. apply Forall_elem. intros x [Hx _]%elem_of_sorted_diff.
    apply list_elem_of_fmap in Hx as (r & -> & Hr). rewrite Forall_elem in Hrows. apply (ro_names _ (Hrows r Hr)). }
  destruct (proj2 (sorted_tuple _ "newly_revoked_capability" _ (map JStr newly) newly
    (dispatch_name_ok "newly_revoked_capability")) (conj eq_refl Hn)) as [Hn1 _].
  apply bind_ok_iff. eexists. split; [exact Hn1|]. apply guard_bind_ok; split; [by rewrite bool_decide_eq_true_2|].
  apply bind_ok_iff. eexists. split; [apply dispatch_hash_ok; split; [done|apply sha256_of_text_shape]|].
  apply bind_ok_iff. exists v. by split.
Qed.

Lemma dispatch_outcome_names b base newly (g : guards) status reason g' :
  dispatch_outcome_of b base newly g = (Ok (status, reason), g') →
  mem_str status CHECKPOINT_RECOVERY_STATUSES = true ∧ reason_re reason = true.
Proof. unfold dispatch_outcome_of. repeat case_match; intros H'; try discriminate H'; injection H' as <- <- _; split; reflexivity. Qed.

Lemma capability_set_ok rows : bool_decide (size (capability_table rows) = length rows) = true ↔ NoDup (map rs_capability rows).
Proof.
  rewrite bool_decide_eq_true. split; [apply capability_table_size|]. intros H. by apply capability_table_ok.
Qed.

Lemma rolled_back_false rows captured : NoDup (map rs_capability rows) →
  existsb (rolled_back (capability_table rows)) captured = false ↔ ∀ r, r ∈ captured → r ∈ rows.
Proof.
  intros Hd. pose proof (proj2 (capability_table_ok rows Hd)) as Hl. rewrite <- not_true_iff_false, existsb_exists. split.
  - intros Hno r Hr. destruct (decide (capability_table rows !! rs_capability r = Some r)) as [E|E]; [by apply Hl in E as [? _]|].
    destruct Hno. exists r. split; [by apply list_elem_of_In|]. unfold rolled_back. by rewrite bool_decide_eq_false_2.
  - intros Hall (r & Hr%list_elem_of_In & Hback). unfold rolled_back in Hback.
    rewrite bool_decide_eq_true_2 in Hback; [done|]. apply Hl. auto.
Qed.

(** An evaluation returns exactly when everything compares, and the decision is the one of its outcome. *)
Lemma dispatch_evaluate_ok b c tc p parent obs (g : guards) d (g' : guards) :
  RuntimeDispatchRecovery_evaluate b c tc p parent obs g = (Ok d, g') ↔
  ∃ base live rows g1 g2 status reason,
    live_budget g = (Ok live, g1) ∧ live_revocations (rk_task_id c) g1 = (Ok rows, g2)
    ∧ revalidated b c tc p parent obs base live rows
    ∧ dispatch_outcome_of b base (newly_revoked b rows) g2 = (Ok (status, reason), g')
    ∧ d = dispatch_decision_of b base live rows status reason.
Proof.
  unfold RuntimeDispatchRecovery_evaluate. split.
  - intros H. apply st_bind_ok in H as ([] & ? & [= Hv <-] & H). apply bind_ok_iff in Hv as (? & [-> Hb]%dispatch_binding_validate_ok & Hv).
    apply bind_ok_iff in Hv as (? & [-> Hc]%checkpoint_validate_ok & _).
    apply st_bind_ok in H as (f & ? & [= Hf <-] & H). rewrite checkpoint_fingerprint_ok in Hf. injection Hf as <-.
    apply st_bind_ok in H as ([] & ? & [Hck <-]%st_raise_ok & H). apply st_bind_ok in H as ([] & ? & [Hbd <-]%st_raise_ok & H).
    apply st_bind_ok in H as (base & ? & [= Hbase <-] & H). apply reraise_ok in Hbase.
    apply st_bind_ok in H as (live & g1 & Hlive & H). apply st_bind_ok in H as ([] & ? & [Hfix <-]%st_raise_ok & H).
    apply st_bind_ok in H as ([] & ? & [Hcnt <-]%st_raise_ok & H). apply counter_rollback_false in Hcnt.
    apply st_bind_ok in H as (rows & g2 & Hrows & H). cbv zeta in H. apply st_bind_ok in H as ([] & ? & [Hd <-]%st_raise_ok & H).
    apply negb_false_iff, capability_set_ok in Hd. apply st_bind_ok in H as ([] & ? & [Hk <-]%st_raise_ok & H).
    rewrite rolled_back_false in Hk by done. apply st_bind_ok in H as ([status reason] & g3 & Hout & H).
    apply st_bind_ok in H as (lf & ? & [= Hlf <-] & H). apply st_bind_ok in H as (? & ? & [= _ <-] & H). injection H as <- <-.
    bool_prop. exists base, live, rows, g1, g2, status, reason. split_and!; try done.
    unfold dispatch_decision_of. apply live_budget_ok in Hlive as (payload & _ & (? & _ & _ & _ & Hs)%budget_mapping_ok).
    unfold RuntimeBudgetSnapshot_fingerprint, RuntimeBudgetSnapshot_canonical_dict in Hlf. rewrite snapshot_valid in Hlf by done.
    cbn [mbind result_bind] in Hlf. rewrite dispatch_digest_ok in Hlf by apply budget_items_ok. injection Hlf as <-. done.
  - intros (base & live & rows & g1 & g2 & status & reason & Hlive & Hrows & [Hb Hck Hbd Hbase Hbud Hd Hk] & Hout & ->).
    apply st_bind_ok. exists tt, g. split.
    { unfold st_lift. f_equal. rewrite binding_valid by done. apply recovery_ok in Hbase as (d & Hcap & _). cbn [mbind result_bind].
      by rewrite (checkpoint_valid _ (cp_valid _ _ _ _ _ _ Hcap)). }
    apply st_bind_ok. exists (checkpoint_sha c), g. split; [unfold st_lift; by rewrite checkpoint_fingerprint_ok|].
    apply st_bind_ok. exists tt, g. split; [apply st_raise_ok; split; [by rewrite bool_decide_eq_true_2|done]|].
    destruct Hbd as (E1 & E2 & E3 & E4).
    apply st_bind_ok. exists tt, g. split; [apply st_raise_ok; split; [by rewrite !bool_decide_eq_true_2|done]|].
    apply st_bind_ok. exists base, g. split; [unfold st_lift; f_equal; by apply reraise_ok|].
    apply st_bind_ok. exists live, g1. split; [done|].
    apply st_bind_ok. exists tt, g1. split; [apply st_raise_ok; split; [by rewrite bool_decide_eq_true_2 by apply Hbud|done]|].
    apply st_bind_ok. exists tt, g1. split; [apply st_raise_ok; split; [by apply counter_rollback_false, Hbud|done]|].
    apply st_bind_ok. exists rows, g2. split; [done|]. cbv zeta.
    apply st_bind_ok. exists tt, g2. split; [apply st_raise_ok; split; [by apply negb_false_iff, capability_set_ok|done]|].
    apply st_bind_ok. exists tt, g2. split; [apply st_raise_ok; split; [by apply rolled_back_false|done]|].
    apply st_bind_ok. exists (status, reason), g'. split; [done|]. cbv beta iota.
    pose proof Hlive as (payload & _ & (? & _ & _ & _ & Hs)%budget_mapping_ok)%live_budget_ok.
    pose proof Hrows as (values & rows' & _ & Hvals & Heq)%live_revocations_ok.
    assert (Forall revocation_ok rows) as Hall.
    { rewrite Heq, by_capability_perm. by apply (from_revocations_ok values). }
    apply st_bind_ok. exists (sha256_of_text (print (JObj (budget_items live)))), g'. split.
    { unfold st_lift. f_equal. unfold RuntimeBudgetSnapshot_fingerprint, RuntimeBudgetSnapshot_canonical_dict.
      rewrite snapshot_valid by done. cbn [mbind result_bind]. apply dispatch_digest_ok, budget_items_ok. }
    destruct (dispatch_outcome_names _ _ _ _ _ _ _ Hout) as [Hst Hre].
    destruct (dispatch_decision_dict b c tc p parent obs base live rows status reason Hbase Hb Hall Hst Hre) as [v Hv].
    apply st_bind_ok. exists v, g'. split; [unfold st_lift; f_equal; exact Hv|done].
Qed.
End Decision.

(** ** The revocations of a store *)

Definition revocation_of (id : string) (kv : string * string * revocation_row) : option Revocation :=
  if bool_decide (kv.1.1 = id)
  then Some {| cr_task_id := id; cr_capability := kv.1.2; cr_reason_code := rv_reason_code kv.2; cr_revoked_at := rv_revoked_at kv.2 |}
  else None.

(** The row of the table behind a revocation. *)
Definition row_of (reason revoked : string) : revocation_row := {| rv_reason_code := reason; rv_revoked_at := revoked |}.

Lemma revocation_of_some id kv r : revocation_of id kv = Some r ↔
  kv = ((id, cr_capability r), row_of (cr_reason_code r) (cr_revoked_at r)) ∧ cr_task_id r = id.
Proof.
  destruct kv as [[t x] [re at_]], r as [t' x' re' at']. unfold revocation_of, row_of. cbn. case_bool_decide.
  - split; [by intros [= <- <- <- <-]; subst|]. by intros [[= -> -> -> ->] ->].
  - split; [done|]. intros [[= -> -> -> ->] ?]. done.
Qed.

Lemma revocations_distinct id l : NoDup l.*1 → NoDup (map cr_capability (omap (revocation_of id) l)).
Proof.
  induction l as [|kv l IH]; intros Hd; [constructor|]. cbn [fmap list_fmap] in Hd. apply NoDup_cons in Hd as [Hn Hd].
  cbn [omap list_omap]. destruct (revocation_of id kv) as [r|] eqn:E; [|by apply IH]. cbn [map]. constructor; [|by apply IH].
  intros (r' & Hx & Hr')%list_elem_of_fmap. apply list_elem_of_omap in Hr' as (kv' & Hin & E').
  apply revocation_of_some in E as [-> _], E' as [-> _]. apply Hn. apply list_elem_of_fmap. eexists. split; [|exact Hin]. cbn. congruence.
Qed.

Lemma ensure_schema_keeps s s' : _ensure_schema s = (Ok tt, s') → revocations s' = revocations s ∧ ts_usage s' = ts_usage s.
Proof.
  unfold _ensure_schema, mbind, st_bind, st_get, revocations. destruct (ts_revocations s) as [m|] eqn:E.
  - intros [= <-]. by rewrite E.
  - intros H%write_ok. unfold st_modify in H. by injection H as <-.
Qed.

Lemma list_for_task_ok task s values s' : list_for_task task s = (Ok values, s') →
  revocations s' = revocations s ∧ NoDup (map cr_capability values)
  ∧ ∀ r, r ∈ values ↔ cr_task_id r = strip task
      ∧ revocations s !! (strip task, cr_capability r) = Some (row_of (cr_reason_code r) (cr_revoked_at r)).
Proof.
  unfold list_for_task. intros H. apply st_bind_ok in H as ([] & s1 & Ht & H).
  assert (s1 = s) as ->.
  { unfold get_task in Ht. apply st_bind_ok in Ht as (? & ? & [= <- <-] & Ht). by injection Ht. }
  apply st_bind_ok in H as ([] & s2 & Hs & H). apply ensure_schema_keeps in Hs as [Hrev _].
  apply st_bind_ok in H as (? & ? & [= <- <-] & H). injection H as <- <-. split; [done|].
  change (omap _ (map_to_list (revocations s2))) with (omap (revocation_of (strip task)) (map_to_list (revocations s2))).
  rewrite Hrev. set (l := omap _ _).
  match goal with |- context [order_by ?le l] => pose proof (order_by_perm le l) as Hp; set (v := order_by le l) in * end. split.
  - change (NoDup (cr_capability <$> v)). rewrite Hp. apply revocations_distinct, NoDup_fst_map_to_list.
  - intros r. rewrite Hp. unfold l. rewrite list_elem_of_omap. split.
    + intros ([k row] & Hin%elem_of_map_to_list & [E ?]%revocation_of_some). injection E as -> ->. done.
    + intros [Ht' Hl]. eexists. split; [by apply elem_of_map_to_list, Hl|]. by apply revocation_of_some.
Qed.

Definition snapshot_of (r : Revocation) : RuntimeRevocationSnapshot := {|
  rs_task_id := cr_task_id r; rs_capability := cr_capability r; rs_reason_code := cr_reason_code r; rs_revoked_at := cr_revoked_at r |}.

Lemma listed_snapshots values rows : mapM from_revocation (map RevObject values) = Ok rows ↔
  rows = map snapshot_of values ∧ Forall revocation_ok rows.
Proof.
  revert rows. induction values as [|r values IH]; intros rows; cbn [map mapM].
  { split; [by intros [= <-]|by intros [-> _]]. }
  rewrite bind_ok_iff. cbn [from_revocation]. setoid_rewrite revocation_fields_ok. split.
  - intros (x & [([= E1] & [= E2] & [= E3] & [= E4]) Hx] & Hrest). apply bind_ok_iff in Hrest as (xs & [-> Hxs]%IH & [= <-]).
    split; [|by constructor]. f_equal. destruct x, r. unfold snapshot_of. cbn in *. congruence.
  - intros [-> Hall]. inversion_clear Hall as [|? ? Hx Hxs]. exists (snapshot_of r). split; [by split|].
    apply bind_ok_iff. exists (map snapshot_of values). split; [by apply IH|done].
Qed.

(** ** The budget of a store *)

Definition snapshot_row (id : string) (row : usage_row) : RuntimeBudgetSnapshot := {|
  bs_task_id := id; bs_max_steps := us_max_steps row; bs_max_tool_calls := us_max_tool_calls row;
  bs_max_model_retries := us_max_retries row; bs_max_model_escalations := us_max_escalations row;
  bs_max_wall_time_ms := us_max_wall_time_ms row; bs_steps_used := us_steps_used row;
  bs_tool_calls_used := us_tool_calls_used row; bs_model_retries_used := us_retries_used row;
  bs_model_escalations_used := us_escalations_used row; bs_deadline_at := us_deadline_at row;
  bs_schema_version := BUDGET_STATE_SCHEMA |}.

Lemma store_snapshot_ok tb s v live : BudgetState_snapshot tb s = Ok v → budget_from_mapping v = Ok live ↔
  ∃ row, ts_usage s !! tb_task_id tb = Some row ∧ live = snapshot_row (tb_task_id tb) row ∧ snapshot_ok live.
Proof.
  unfold BudgetState_snapshot, task_execution_budget_for_task. destruct (ts_usage s !! tb_task_id tb) as [row|]; [|done].
  cbn [mbind result_bind]. intros [= <-].
  change (JObj _) with (JObj (budget_items (snapshot_row (tb_task_id tb) row))). rewrite budget_mapping_ok. split.
  - intros (d & [= <-] & _ & Hr & Hok). exists row. split_and!; [done| |done].
    eapply reads_eq; [exact Hr|apply budget_items_reads].
  - intros (row' & [= <-] & -> & Hok). eexists. split_and!; [done|done|apply budget_items_reads|done].
Qed.

Lemma snapshot_not_legacy id row : snapshot_ok (snapshot_row id row) → is_legacy row = false.
Proof.
  intros [_ _ (H1 & H2 & _ & _ & H5) _ Hd]. unfold is_legacy. cbn in *.
  rewrite !orb_false_iff, !Z.ltb_ge. split_and!; [lia..|]. destruct (us_deadline_at row); [|done]. by vm_compute in Hd.
Qed.

(** What a store holds later covers what was captured. *)
Lemma grown_covers id row row' : snapshot_ok (snapshot_row id row) → row_grows row row' → budget_ok row' →
  snapshot_ok (snapshot_row id row') ∧ budget_covers (snapshot_row id row) (snapshot_row id row').
Proof.
  intros Hok [Hr He _ (U1 & U2 & U3 & U4) Hf] [Br Be Bs]. pose proof (snapshot_not_legacy _ _ Hok) as Hleg.
  destruct (Hf Hleg) as (Hleg' & F1 & F2 & F3 & F4). rewrite Hleg' in Bs.
  destruct Hok as [S0 S1 (S2 & S3 & S4 & S5 & S6) (S7 & S8 & S9 & S10) S11]. cbn in *. split.
  - constructor; cbn; rewrite ?F1, ?F2, ?F3, ?F4, ?Hr, ?He; try done; split_and!; try done; lia.
  - constructor; unfold immutable_tuple, budget_counters; cbn; [by rewrite F1, F2, F3, F4, Hr, He|]. by rewrite !Forall2_cons.
Qed.

(** ** Recovery over a store *)

Section Stores.
Context {HL : Hashlib} {TZ : TokyoZone}.

Notation guards := (LiveGuards BudgetClient TaskStore).

(** Asking for nothing: granted before the deadline, refused with a code after it; nothing is charged. *)
Lemma active_run tb s s1 row dl : ts_usage s !! tb_task_id tb = Some row → snapshot_ok (snapshot_row (tb_task_id tb) row) →
  fromisoformat (us_deadline_at row) = Some dl → free_attempt s = Some s1 →
  ∃ res s', BudgetState_assert_active tb s = (res, s')
    ∧ (active row (ts_now s1) ∧ res = Ok tt
       ∨ ¬ active row (ts_now s1) ∧ ∃ code, res = raise ExecutionBudgetExceeded code).
Proof.
  intros Hr [_ _ _ (U1 & U2 & U3 & U4) _] Hdl Hf. cbn in U1, U2, U3, U4. unfold BudgetState_assert_active.
  rewrite (reserve_run tb 0 0 0 0 s row), Hf by done.
  destruct (reserve_row row 0 0 0 0 (ts_now s1)) as [r'|e] eqn:E.
  - apply reserve_row_ok in E as (Hact & _ & ->). eexists _, _. split; [done|by left].
  - eexists _, _. split; [done|]. right. split.
    + intros Hact. assert (reserve_row row 0 0 0 0 (ts_now s1) = Ok row) as E'; [|congruence].
      apply reserve_row_ok. split_and!; [done|unfold within; lia|done].
    + rewrite (reserve_row_refusal _ dl) in E by done. destruct (refusal _ _ _ _ _ _ _) as [code|] eqn:Ec; [|done].
      injection E as <-. exists code. apply refusal_code in Ec. unfold exhausted_exn. cbn. by rewrite Ec.
Qed.

Lemma active_ok tb s row s' : ts_usage s !! tb_task_id tb = Some row → BudgetState_assert_active tb s = (Ok tt, s') →
  ts_usage s' = ts_usage s ∧ ∃ s1, free_attempt s = Some s1 ∧ active row (ts_now s1).
Proof.
  intros Hr. unfold BudgetState_assert_active. rewrite (reserve_run tb 0 0 0 0 s row) by done.
  destruct (free_attempt s) as [s1|] eqn:Ef; [|done]. destruct (reserve_row _ _ _ _ _ _) as [r'|e] eqn:E; [|done].
  apply reserve_row_ok in E as (Hact & _ & ->). intros [= <-]. split; [|by exists s1]. cbn [set_usage ts_usage]. by rewrite insert_id.
Qed.

(** The outcome without asking the budget, and with its answer. *)
Lemma outcome_recoverable b base newly (g : guards) reason g' :
  dispatch_outcome_of b base newly g = (Ok ("RECOVERABLE", reason), g') →
  rd_status base ≠ "COMPLETE" ∧ rd_status base ≠ "MANUAL_RECONCILIATION" ∧ rd_status base ≠ "BLOCKED"
  ∧ db_in_flight_ticket_fingerprints b = [] ∧ db_cancelled b = false ∧ with_budget recovery_assert_active g = (Ok tt, g').
Proof.
  unfold dispatch_outcome_of. do 5 (case_match; [discriminate|]). destruct (with_budget _ g) as [[[]|e] g1] eqn:E.
  - intros [= _ <-]. bool_prop. by split_and!.
  - repeat case_match; discriminate.
Qed.

Lemma recovery_statuses c tc p parent obs base : RuntimeRecovery_evaluate c tc p parent obs = Ok base →
  rd_status base ∈ ["COMPLETE"; "MANUAL_RECONCILIATION"; "BLOCKED"; "RECOVERABLE"].
Proof.
  intros (d & _ & ->)%recovery_ok. unfold recovery_of, recovery_outcome. cbn [rd_status].
  repeat case_match; cbn [fst]; set_solver.
Qed.

(** C22: what a run that may go on has compared with the live stores. When the evaluation of a binding against the
    budget and the revocations of a store says RECOVERABLE, nothing was in flight and nothing was cancelled at the
    capture; the runtime checkpoint itself recovers; the task's budget row has the captured limits and
    deadline, counters no lower than the captured ones and a deadline that lies ahead at the attempt that
    found the database free; every captured revocation is in the table unchanged, and the newly revoked
    capabilities it reports are exactly the others. Asking charged nothing. *)
Theorem recoverable_dispatch b c tc p parent obs client store d (g' : guards)
    (H : RuntimeDispatchRecovery_evaluate b c tc p parent obs {| lg_budget := client; lg_revocation := store |} = (Ok d, g'))
    (Hs : dd_status d = "RECOVERABLE") :
  db_in_flight_ticket_fingerprints b = [] ∧ db_cancelled b = false
  ∧ (∃ base, RuntimeRecovery_evaluate c tc p parent obs = Ok base ∧ rd_status base = "RECOVERABLE")
  ∧ (∃ row s1, ts_usage (bc_store client) !! db_task_id b = Some row
      ∧ budget_covers (db_budget b) (snapshot_row (db_task_id b) row)
      ∧ free_attempt (bc_store client) = Some s1 ∧ active row (ts_now s1))
  ∧ (∀ r, r ∈ db_revocations b →
      revocations store !! (db_task_id b, rs_capability r) = Some (row_of (rs_reason_code r) (rs_revoked_at r)))
  ∧ (∀ x, x ∈ dd_newly_revoked_capabilities d ↔
      is_Some (revocations store !! (db_task_id b, x)) ∧ x ∉ map rs_capability (db_revocations b))
  ∧ ts_usage (bc_store (lg_budget g')) = ts_usage (bc_store client).
Proof.
  apply dispatch_evaluate_ok in H as (base & live & rows & g1 & g2 & status & reason & Hlive & Hrows & Hrl & Hout & ->).
  cbn in Hs. subst status. pose proof (recovery_statuses _ _ _ _ _ _ (rl_base _ _ _ _ _ _ _ _ _ Hrl)) as Hst.
  apply outcome_recoverable in Hout as (N1 & N2 & N3 & Hfl & Hca & Hact). rewrite !elem_of_cons in Hst.
  assert (rd_status base = "RECOVERABLE") as Hbase by (destruct Hst as [?|[?|[?|[?|?%not_elem_of_nil]]]]; done). clear Hst N1 N2 N3.
  apply live_budget_ok in Hlive as (payload & Hp & Hm). unfold with_budget, st_zoom in Hp. cbn [lg_budget] in Hp.
  unfold budget_snapshot, BudgetClient_recovery_guard, on_store, mbind, st_bind, st_get, st_lift in Hp.
  injection Hp as Hp <-. destruct (proj1 (store_snapshot_ok _ _ _ _ Hp) Hm) as (row & Hrow & -> & Hok).
  pose proof (proj1 (rl_bound _ _ _ _ _ _ _ _ _ Hrl)) as Htask. destruct (rl_budget _ _ _ _ _ _ _ _ _ Hrl) as [Hfix Hcnt].
  pose proof (bo_budget _ (rl_binding _ _ _ _ _ _ _ _ _ Hrl)) as [_ Hbt].
  assert (tb_task_id (bc_state client) = db_task_id b) as Hid.
  { rewrite <- Hbt. exact (f_equal (λ t, t.1.1.1.1.1.1) Hfix). }
  rewrite Hid in *. apply live_revocations_ok in Hrows as (values & rows' & Hv & Hvals & ->).
  unfold with_revocations, st_zoom in Hv. cbn [lg_revocation] in Hv.
  unfold revocations_for, RevocationStore_recovery_guard, mbind, st_bind in Hv.
  destruct (list_for_task _ store) as [[l|e] store'] eqn:Hl; [|done]. injection Hv as <- <-.
  apply list_for_task_ok in Hl as (_ & Hld & Hl). apply listed_snapshots in Hvals as [-> Hvalid].
  unfold with_budget, st_zoom in Hact. cbn [lg_budget] in Hact.
  unfold recovery_assert_active, BudgetClient_recovery_guard, on_store in Hact. cbn [bc_state bc_store] in Hact.
  destruct (BudgetState_assert_active (bc_state client) (bc_store client)) as [res s'] eqn:Ha. injection Hact as -> <-.
  apply (active_ok _ _ row) in Ha as (Hu & s1 & Hf & Hact); [|by rewrite Hid].
  assert (strip (rk_task_id c) = db_task_id b) as Hstrip.
  { rewrite <- Htask. symmetry. apply (bo_names _ (rl_binding _ _ _ _ _ _ _ _ _ Hrl)). }
  assert (∀ r, r ∈ by_capability (map snapshot_of l) ↔ rs_task_id r = db_task_id b
    ∧ revocations store !! (db_task_id b, rs_capability r) = Some (row_of (rs_reason_code r) (rs_revoked_at r))) as Hmem.
  { intros r. rewrite by_capability_perm, list_elem_of_fmap. setoid_rewrite Hl. rewrite Hstrip. split.
    - intros (x & -> & Hx). done.
    - intros Hx. exists {| cr_task_id := rs_task_id r; cr_capability := rs_capability r; cr_reason_code := rs_reason_code r;
        cr_revoked_at := rs_revoked_at r |}. split; [by destruct r|done]. }
  split_and!; [done|done|exists base; split; [apply Hrl|done]|by exists row, s1| | |done].
  - intros r Hr. apply Hmem. by apply Hrl.
  - intros x. cbn [dispatch_decision_of dd_newly_revoked_capabilities]. unfold newly_revoked. rewrite elem_of_sorted_diff.
    assert (x ∈ map rs_capability (by_capability (map snapshot_of l)) ↔ is_Some (revocations store !! (db_task_id b, x))) as ->; [|done].
    rewrite list_elem_of_fmap. setoid_rewrite Hmem. split.
    + intros (r & -> & _ & E). by rewrite E.
    + intros [[re at_] E]. exists {| rs_task_id := db_task_id b; rs_capability := x; rs_reason_code := re; rs_revoked_at := at_ |}. done.
Qed.

(** What the builder has bound. *)
Lemma build_inv c snap payload values b : BindingBuilder_build c snap payload values = Ok b →
  binding_ok b ∧ db_runtime_checkpoint_fingerprint b = checkpoint_sha c
  ∧ (db_task_id b = rk_task_id c ∧ db_task_context_fingerprint b = rk_task_context_fingerprint c
     ∧ db_plan_fingerprint b = rk_plan_fingerprint c ∧ db_parent_authority_fingerprint b = rk_parent_authority_fingerprint c)
  ∧ budget_from_mapping payload = Ok (db_budget b)
  ∧ ∃ rows, mapM from_revocation values = Ok rows ∧ db_revocations b = by_capability rows.
Proof.
  unfold BindingBuilder_build. intros H. apply bind_ok_iff in H as (? & _ & H). destruct snap as [| | | | | |s]; try done.
  unfold dr_fail_if in H. do 6 apply guard_bind_ok in H as [_ H].
  apply bind_ok_iff in H as (? & _ & H). apply bind_ok_iff in H as (approvals & _ & H).
  apply bind_ok_iff in H as (? & _ & H). apply bind_ok_iff in H as (observations & _ & H).
  apply bind_ok_iff in H as (? & _ & H). apply bind_ok_iff in H as (flight & _ & H). do 2 apply guard_bind_ok in H as [_ H].
  apply bind_ok_iff in H as (budget & Hbud & H). apply guard_bind_ok in H as [_ H].
  apply bind_ok_iff in H as (rows & Hrows & H). cbv zeta in H. apply guard_bind_ok in H as [_ H]. apply unit_bind_ok in H as [_ H].
  apply bind_ok_iff in H as (mc & _ & H). apply bind_ok_iff in H as (ca & _ & H). apply bind_ok_iff in H as (re & _ & H).
  apply bind_ok_iff in H as (sq & _ & H). apply bind_ok_iff in H as (ss & _ & H). apply bind_ok_iff in H as (cf & Hcf & H).
  apply bind_ok_iff in H as (dg & _ & H). apply dispatch_binding_validate_ok in H as [-> Hok].
  rewrite checkpoint_fingerprint_ok in Hcf. injection Hcf as <-. split_and!; try done. by exists rows.
Qed.

Lemma list_for_task_total task s : strip task ∈ ts_tasks s → ts_contention s = [] →
  ∃ values s', list_for_task task s = (Ok values, s').
Proof.
  intros Ht Hc. unfold list_for_task, get_task, _ensure_schema, mbind, st_bind, st_get, st_raise_if, st_lift, write.
  rewrite bool_decide_eq_false_2 by set_solver. cbn [raise_if]. destruct (ts_revocations s); [by eexists _, _|].
  rewrite Hc. by eexists _, _.
Qed.
Lemma list_for_task_known task s values s' : list_for_task task s = (Ok values, s') → strip task ∈ ts_tasks s.
Proof.
  unfold list_for_task. intros ([] & s1 & Ht & _)%st_bind_ok. unfold get_task in Ht.
  apply st_bind_ok in Ht as (? & ? & [= <- <-] & [Ht _]%st_raise_ok). apply bool_decide_eq_false in Ht.
  destruct (decide (strip task ∈ ts_tasks s)); set_solver.
Qed.

Section Later.
Context (c : RuntimeCheckpoint) (snap : json) (tb : TaskExecutionBudgetState) (s0 s1 : TaskStore) (payload : json)
  (values : list Revocation) (s0' : TaskStore) (b : RuntimeDispatchRecoveryBinding).
Context (Hok : budgets_ok s0) (Hpay : BudgetState_snapshot tb s0 = Ok payload)
  (Hrev : list_for_task (rk_task_id c) s0 = (Ok values, s0'))
  (Hb : BindingBuilder_build c snap payload (map RevObject values) = Ok b)
  (Hsteps : rtc store_step s0 s1) (Hfree : ts_contention s1 = [])
  (Hread : ∀ x row, revocations s1 !! (rk_task_id c, x) = Some row → revocation_ok {|
    rs_task_id := rk_task_id c; rs_capability := x; rs_reason_code := rv_reason_code row; rs_revoked_at := rv_revoked_at row |}).

Definition later_guards (s : TaskStore) : guards := {| lg_budget := {| bc_state := tb; bc_store := s1 |}; lg_revocation := s |}.

(** The budget of the later state. *)
Lemma later_budget : ∃ row, ts_usage s1 !! tb_task_id tb = Some row ∧ us_deadline_at row = bs_deadline_at (db_budget b)
  ∧ live_budget (later_guards s1) = (Ok (snapshot_row (tb_task_id tb) row), later_guards s1)
  ∧ snapshot_ok (snapshot_row (tb_task_id tb) row) ∧ budget_covers (db_budget b) (snapshot_row (tb_task_id tb) row).
Proof.
  apply build_inv in Hb as (_ & _ & _ & Hbud & _). destruct (history_moves _ _ Hsteps Hok) as [Hok1 Hg].
  apply (store_snapshot_ok _ _ _ _ Hpay) in Hbud as (row0 & Hrow0 & Hbud & Hsok).
  destruct (sg_usage _ _ Hg _ _ Hrow0) as (row & Hrow & Hgrow). rewrite Hbud in Hsok.
  destruct (grown_covers _ _ _ Hsok Hgrow (map_Forall_lookup_1 _ _ _ _ Hok1 Hrow)) as [Hlok Hcov]. rewrite <- Hbud in Hcov.
  exists row. split_and!; [done|exact (f_equal (λ t, t.2) (bv_fixed _ _ Hcov))| |done|done]. apply live_budget_ok.
  destruct (BudgetState_snapshot tb s1) as [v|e] eqn:Ev.
  - exists v. split; [|by apply (store_snapshot_ok _ _ _ _ Ev); exists row]. unfold with_budget, st_zoom, later_guards. cbn [lg_budget].
    unfold budget_snapshot, BudgetClient_recovery_guard, on_store, mbind, st_bind, st_get, st_lift. cbn [bc_state bc_store].
    by rewrite Ev.
  - unfold BudgetState_snapshot, task_execution_budget_for_task in Ev. by rewrite Hrow in Ev.
Qed.

(** The revocations of the later state: distinct, and the captured ones among them. *)
Lemma later_revocations : ∃ rows s1', live_revocations (rk_task_id c) (later_guards s1) = (Ok rows, later_guards s1')
  ∧ NoDup (map rs_capability rows) ∧ ∀ r, r ∈ db_revocations b → r ∈ rows.
Proof.
  apply build_inv in Hb as (Hbok & _ & Hbd & _ & rows0 & Hrows0 & Hdr). destruct (history_moves _ _ Hsteps Hok) as [_ Hg].
  pose proof (list_for_task_known _ _ _ _ Hrev) as Hknown.
  destruct (list_for_task_total (rk_task_id c) s1) as (l1 & s1' & Hl1); [pose proof (sg_tasks _ _ Hg); set_solver|done|].
  destruct (list_for_task_ok _ _ _ _ Hrev) as (_ & _ & Hm0). destruct (list_for_task_ok _ _ _ _ Hl1) as (_ & Hd1 & Hm1).
  assert (strip (rk_task_id c) = rk_task_id c) as Hstrip by (rewrite <- (proj1 Hbd); symmetry; apply (bo_names _ Hbok)).
  rewrite Hstrip in Hm0, Hm1.
  assert (mapM from_revocation (map RevObject l1) = Ok (map snapshot_of l1)) as Hrows1.
  { apply listed_snapshots. split; [done|]. apply Forall_elem. intros r (x & -> & [Hx Hlook]%Hm1)%list_elem_of_fmap.
    specialize (Hread _ _ Hlook). unfold snapshot_of. by rewrite Hx. }
  apply listed_snapshots in Hrows0 as [-> _]. exists (by_capability (map snapshot_of l1)), s1'. split_and!.
  - apply live_revocations_ok. exists (map RevObject l1), (map snapshot_of l1). split_and!; [|done|done].
    unfold with_revocations, st_zoom, later_guards. cbn [lg_revocation].
    unfold revocations_for, RevocationStore_recovery_guard, mbind, st_bind. by rewrite Hl1.
  - change (NoDup (rs_capability <$> by_capability (map snapshot_of l1))). rewrite by_capability_perm.
    change (NoDup (map rs_capability (map snapshot_of l1))). by rewrite map_map.
  - intros r. rewrite Hdr, !by_capability_perm, !list_elem_of_fmap. setoid_rewrite Hm0. setoid_rewrite Hm1.
    intros (x & -> & Hx & Hlook). exists x. split_and!; [done..|]. pose proof (sg_revocations _ _ Hg). by eapply lookup_weaken.
Qed.

(** The outcome, once the budget is the only thing left to ask. *)
Lemma later_outcome base newly row s dl : rd_status base ∈ ["COMPLETE"; "MANUAL_RECONCILIATION"; "BLOCKED"; "RECOVERABLE"] →
  ts_usage s1 !! tb_task_id tb = Some row → snapshot_ok (snapshot_row (tb_task_id tb) row) →
  fromisoformat (us_deadline_at row) = Some dl →
  ∃ status reason g', dispatch_outcome_of b base newly (later_guards s) = (Ok (status, reason), g')
  ∧ (status = "RECOVERABLE" ↔ rd_status base = "RECOVERABLE" ∧ db_in_flight_ticket_fingerprints b = []
      ∧ db_cancelled b = false ∧ instant (ts_now s1) < instant (in_tokyo dl)).
Proof.
  intros Hst Hrow Hsok Hdl. unfold dispatch_outcome_of. rewrite !elem_of_cons in Hst.
  case_bool_decide as H1; [eexists _, _, _; split; [done|]; naive_solver congruence|].
  case_bool_decide as H2; [eexists _, _, _; split; [done|]; naive_solver congruence|].
  case_bool_decide as H3; cbn [negb]; [|eexists _, _, _; split; [done|]; naive_solver congruence].
  destruct (db_cancelled b) eqn:H4; [eexists _, _, _; split; [done|]; naive_solver congruence|].
  case_bool_decide as H5; [eexists _, _, _; split; [done|]; naive_solver congruence|].
  assert (rd_status base = "RECOVERABLE") as Hbase by (destruct Hst as [?|[?|[?|[?|?%not_elem_of_nil]]]]; done).
  assert (active row (ts_now s1) ↔ instant (ts_now s1) < instant (in_tokyo dl)) as Hact.
  { unfold active. rewrite Hdl. naive_solver. }
  assert (free_attempt s1 = Some s1) as Hf by (unfold free_attempt; by rewrite Hfree).
  destruct (active_run tb s1 s1 row dl Hrow Hsok Hdl Hf) as (res & s' & Ha & Hcase).
  unfold with_budget, st_zoom, later_guards. cbn [lg_budget]. unfold recovery_assert_active, BudgetClient_recovery_guard, on_store.
  cbn [bc_state bc_store]. rewrite Ha. destruct Hcase as [[Hnow ->]|[Hnow (code & ->)]]; eexists _, _, _; (split; [done|]).
  - split; [|done]. intros _. split_and!; [done..|by apply Hact].
  - split; [done|]. intros (_ & _ & _ & Hi). by destruct Hnow; apply Hact.
Qed.
End Later.

(** C21: what was captured from a store is recovered in every later state of it. A binding built from the store's own
    budget snapshot and revocation list evaluates, against any later state of that store - after any operations of any
    clients - to a decision: no rollback is ever reported, provided no other process is in the way and the
    revocation rows are readable. The decision is RECOVERABLE exactly when the checkpoint recovers, nothing was
    in flight or cancelled at the capture, and the deadline still lies ahead. *)
Theorem capture_recovers c snap tb s0 payload values s0' b tc p parent obs base s1 dl
    (Hok : budgets_ok s0) (Hpay : BudgetState_snapshot tb s0 = Ok payload)
    (Hrev : list_for_task (rk_task_id c) s0 = (Ok values, s0'))
    (Hb : BindingBuilder_build c snap payload (map RevObject values) = Ok b)
    (Hbase : RuntimeRecovery_evaluate c tc p parent obs = Ok base)
    (Hsteps : rtc store_step s0 s1) (Hfree : ts_contention s1 = [])
    (Hread : ∀ x row, revocations s1 !! (rk_task_id c, x) = Some row → revocation_ok {|
      rs_task_id := rk_task_id c; rs_capability := x; rs_reason_code := rv_reason_code row; rs_revoked_at := rv_revoked_at row |})
    (Hdl : fromisoformat (bs_deadline_at (db_budget b)) = Some dl) :
  ∃ d g', RuntimeDispatchRecovery_evaluate b c tc p parent obs
      {| lg_budget := {| bc_state := tb; bc_store := s1 |}; lg_revocation := s1 |} = (Ok d, g')
  ∧ (dd_status d = "RECOVERABLE" ↔ rd_status base = "RECOVERABLE" ∧ db_in_flight_ticket_fingerprints b = []
      ∧ db_cancelled b = false ∧ instant (ts_now s1) < instant (in_tokyo dl)).
Proof.
  destruct (later_budget c snap tb s0 s1 payload values b Hok Hpay Hb Hsteps) as (row & Hrow & Hd & Hlive & Hsok & Hcov).
  destruct (later_revocations c snap tb s0 s1 payload values s0' b Hok Hpay Hrev Hb Hsteps Hfree Hread) as (rows & s1' & Hrows & Hdis & Hkept).
  rewrite <- Hd in Hdl. pose proof (recovery_statuses _ _ _ _ _ _ Hbase) as Hst.
  destruct (later_outcome tb s1 b Hfree base (newly_revoked b rows) row s1' dl Hst Hrow Hsok Hdl) as (status & reason & g' & Hout & Hiff).
  exists (dispatch_decision_of b base (snapshot_row (tb_task_id tb) row) rows status reason), g'. split; [|exact Hiff].
  apply dispatch_evaluate_ok. apply build_inv in Hb as (Hbok & Hck & Hbd & _).
  exists base, (snapshot_row (tb_task_id tb) row), rows, (later_guards tb s1 s1), (later_guards tb s1 s1'), status, reason. by split_and!.
Qed.
End Stores.
