(* ===== verification/DispatchCapture.v ===== *)
(** * Dispatch recovery: capture

    The schedulers whose snapshots the builder refuses, that the capture of a run without a repository is
    accepted, and the sample run: captured, recovered after a revocation. *)

From Stdlib Require Import Ascii.
From Stdlib Require String.
From S2P Require Import Prelude PyStr Hashlib PyFloat Json JsonFacts PyTime PyTimeFacts Validators TaskContract TaskStore.
From S2P Require Import CapabilityAuthority AuthorityFacts WorkflowDesign WorkflowGraph WorkflowFacts ContextManifest TaskContext.
From S2P Require Import ExecutionPlan PlanFacts ExecutionObservation ObservationFacts RuntimeScheduler ReadinessFacts.
From S2P Require Import ExecutionScheduler SchedulerFacts RestoreFacts ExecutionCheckpoint CheckpointFacts CheckpointLog.
From S2P Require Import ExecutionBudget CapabilityRevocation LinkedBudget BudgetFacts RuntimeCheckpoint RuntimeCheckpointFacts.
From S2P Require Import GovernedRuns CronFacts DispatchRecovery DispatchRecoveryFacts DispatchDecisions.

Local Open Scope Z_scope.

(** ** Capture from a scheduler *)

Section Capture.
Context {HL : Hashlib} {B R C : Type} `{!SchedulerBudgetGuard B} `{!SchedulerRevocationGuard R}
  `{!SchedulerCheckpointRepository C} (cfg : SchedulerConfig).

Notation state := (ExecutionScheduler B R C).
Notation plan := (ec_plan cfg).

Lemma name_capability s : id_re s = true → capability_re s = true.
Proof.
  destruct s as [|c t]; [done|]. cbn [id_re capability_re]. rewrite !andb_true_iff. intros [[-> ->] Ht]. split; [done|].
  revert Ht. apply forall_char_impl. intros d. destruct d as [[] [] [] [] [] [] [] []]; by vm_compute.
Qed.
Lemma plain_id_name s : plain_id s → plain_name s.
Proof. intros [H1 H2]. split; [done|by apply name_capability]. Qed.

Lemma hex_name c : is_hex_lower c = true → negb (is_space c) = true ∧ is_alnum c || mem_char c "._:/@+-=" = true.
Proof. destruct c as [[] [] [] [] [] [] [] []]; by vm_compute. Qed.

Lemma binding_name text : plain_name ("dispatch-recovery:" +:+ short_digest (sha256_of_text text)).
Proof.
  assert (∃ h, short_digest (sha256_of_text text) = h ∧ forall_char is_hex_lower h = true ∧ (String.length h ≤ 24)%nat) as (h & -> & Hh & Hl).
  { eexists. split; [done|]. pose proof (sha256_hexdigest_shape (utf8_encode text)) as Hs. unfold is_hex64 in Hs.
    apply andb_true_iff in Hs as [Hlen Hhex]. unfold short_digest.
    change (after_colon (sha256_of_text text)) with (sha256_hexdigest (utf8_encode text)). split; [by apply forall_char_take|].
    clear. generalize (sha256_hexdigest (utf8_encode text)). generalize 24%nat. intros n. induction n as [|n IH]; intros [|c s]; cbn; try lia.
    specialize (IH s). lia. }
  split.
  - symmetry. apply strip_word. rewrite forall_char_app. apply andb_true_iff. split; [done|].
    revert Hh. apply forall_char_impl. intros c Hc. by apply hex_name.
  - cbn [String.append capability_re]. apply andb_true_iff. split; [apply andb_true_iff; split; [done|]|].
    + apply Nat.leb_le. cbn. lia.
    + change (forall_char (λ d, is_alnum d || mem_char d "._:/@+-=") ("ispatch-recovery:" +:+ h) = true).
      rewrite forall_char_app. apply andb_true_iff. split; [done|]. revert Hh. apply forall_char_impl. intros c Hc. by apply hex_name.
Qed.

Lemma captured_time f s : Runtime_timestamp f (JStr s) = Ok s → readable_time s.
Proof.
  unfold Runtime_timestamp, readable_time, Dispatch_timestamp, rc_fail_if, dr_fail_if. intros [-> H]%guard_bind_ok.
  cbn [raise_if mbind result_bind]. destruct (fromisoformat _) as [d|]; [|done]. apply guard_bind_ok in H as [-> _]. done.
Qed.

(** The fingerprints of the observations of the nodes are those of the checkpoint. *)
Lemma checkpoint_fingerprints obs p parent fs gs : NoDup (map eo_observation_id obs) →
  _observation_fingerprints obs p parent = Ok fs → mapM ExecutionObservation_fingerprint obs = Ok gs → fs = sorted_str gs.
Proof.
  intros Hd (m & [Hall Hon] & ->)%observation_fingerprints_ok Hgs%mapM_Forall2. apply sorted_str_unique.
  assert (length (map eo_observation_id obs) = length gs) as Hlen by (rewrite length_map; by eapply Forall2_length).
  assert (m = list_to_map (zip (map eo_observation_id obs) gs)) as ->.
  { apply map_eq. intros id. apply option_eq. intros f.
    rewrite <- elem_of_list_to_map by (by rewrite fst_zip by lia). split.
    - intros Hf. destruct (Hon id f Hf) as (o & Ho & <-). destruct (Hall o Ho) as (_ & g & Hg & Hm).
      apply list_elem_of_lookup in Ho as [i Hi]. destruct (Forall2_lookup_l _ _ _ _ _ Hgs Hi) as (g' & Hg' & E).
      apply list_elem_of_lookup. exists i. apply lookup_zip_with_Some. exists (eo_observation_id o), g'.
      split_and!; [congruence| |done]. by rewrite list_lookup_fmap, Hi.
    - intros (i & Hi)%list_elem_of_lookup. apply lookup_zip_with_Some in Hi as (x & g & [= -> ->] & Hx & Hg).
      apply list_lookup_fmap_Some in Hx as (o & -> & Ho). destruct (Forall2_lookup_l _ _ _ _ _ Hgs Ho) as (g' & Hg' & E).
      apply list_elem_of_lookup_2 in Ho. destruct (Hall o Ho) as (_ & g'' & Hg'' & Hm). congruence. }
  rewrite map_to_list_to_map by (by rewrite fst_zip by lia). by rewrite snd_zip by lia.
Qed.

Lemma omap_nodup {A B'} (f : A → option B') (key : B' → string) (akey : A → string) l :
  (∀ x y, x ∈ l → f x = Some y → key y = akey x) → NoDup (map akey l) → NoDup (map key (omap f l)).
Proof.
  intros Hk. induction l as [|x l IH]; intros Hd; [constructor|]. cbn [map] in Hd. apply NoDup_cons in Hd as [Hn Hd].
  assert (NoDup (map key (omap f l))) as Hrest by (apply IH; [intros; apply Hk; [by right|done]|done]).
  cbn [omap list_omap]. destruct (f x) as [y|] eqn:E; [|done]. cbn [map]. constructor; [|done].
  intros (z & Hz & (w & Hw & Ew)%list_elem_of_omap)%list_elem_of_fmap. apply Hn.
  rewrite <- (Hk x y); [|left|done]. rewrite Hz, (Hk w z); [|by right|done]. by apply list_elem_of_fmap_2.
Qed.

(** Each list of fingerprints of a snapshot is one of hash references. *)
Lemma digests_hashes {A} (f : A → result string) l fs : (∀ x h, f x = Ok h → hash_ref h) → mapM f l = Ok fs → Forall hash_ref fs.
Proof. intros Hf Hfs%mapM_Forall2. induction Hfs; constructor; eauto. Qed.
Lemma es_digest_hash v h : ExecutionScheduler._digest v = Ok h → hash_ref h.
Proof. unfold ExecutionScheduler._digest, digest. intros (t & _ & [= <-])%bind_ok_iff. apply sha256_of_text_shape. Qed.

(** The snapshot of a scheduler. *)
Definition snapshot_items (s : state) (context plan_fingerprint : string) (flight observed : list string) : list (string * json) := [
  ("schema_version", JStr EXECUTION_SCHEDULER_SCHEMA); ("task_id", JStr (xp_task_id plan));
  ("task_context_fingerprint", JStr context); ("plan_fingerprint", JStr plan_fingerprint);
  ("parent_authority_fingerprint", JStr (ca_fingerprint (ec_parent_authority cfg)));
  ("max_concurrency", JInt (ec_max_concurrency cfg)); ("cancelled", JBool (es_cancelled s));
  ("cancellation_reason", json_opt_str (es_cancellation_reason s)); ("dispatch_sequence", JInt (es_dispatch_sequence s));
  ("approved_node_ids", json_strs (sorted_set_ids (es_approved_nodes s))); ("in_flight", json_strs flight);
  ("observations", json_strs observed)].

Lemma snapshot_ok_iff (s : state) v : snapshot cfg s = Ok v ↔
  ∃ context pf flight observed, TaskContext_fingerprint (ec_task_context cfg) = Ok context ∧ ExecutionPlan_fingerprint plan = Ok pf
  ∧ mapM DispatchTicket_fingerprint (omap (λ n, es_in_flight s !! en_node_id n) (xp_nodes plan)) = Ok flight
  ∧ mapM ExecutionObservation_fingerprint (_ordered_observations cfg s) = Ok observed
  ∧ v = JObj (snapshot_items s context pf flight observed
      ++ (if is_none (es_checkpoint_repository s) then []
          else [("checkpoint_bound", JBool true); ("recovery_required_ticket_ids", json_strs (recovery_required_ticket_ids cfg s))])).
Proof.
  unfold snapshot. split.
  - intros (x & Hx & (y & Hy & (fl & Hfl & (ob & Hob & [= <-])%bind_ok_iff)%bind_ok_iff)%bind_ok_iff)%bind_ok_iff.
    exists x, y, fl, ob. by split_and!.
  - intros (x & y & fl & ob & -> & -> & -> & -> & ->). done.
Qed.

Lemma bound_cancellation s0 c payload values b : BindingBuilder_build c (JObj s0) payload values = Ok b →
  ∃ cancelled reason, get s0 "cancelled" = JBool cancelled ∧ get s0 "cancellation_reason" = json_opt_str reason
    ∧ cancellation_ok cancelled reason.
Proof.
  unfold BindingBuilder_build, dr_fail_if. intros (? & _ & H)%bind_ok_iff. do 6 apply guard_bind_ok in H as [_ H].
  do 6 apply bind_ok_iff in H as (? & _ & H). do 2 apply guard_bind_ok in H as [_ H].
  apply bind_ok_iff in H as (? & _ & H). apply guard_bind_ok in H as [_ H]. apply bind_ok_iff in H as (? & _ & H). cbv zeta in H.
  apply guard_bind_ok in H as [_ H]. apply unit_bind_ok in H as [_ H]. apply bind_ok_iff in H as (? & _ & H).
  apply bind_ok_iff in H as (cancelled & Hf%check_flag_ok & H). apply bind_ok_iff in H as (reason & [Hr Hok]%check_cancellation_ok & _).
  by exists cancelled, reason.
Qed.

(** The schedulers that cannot be bound. The snapshot of a scheduler that keeps a checkpoint repository names the
    repository and the tickets that need recovery, which the builder refuses as a shape that is not its own, whatever the
    budget and the revocations; and a scheduler cancelled for a reason longer than 256 characters, which [cancel] takes
    and records, is refused as well. *)
Theorem schedulers_refused (s : state) v c payload values
    (Hs : snapshot cfg s = Ok v) (Hc : RuntimeCheckpoint_validate c = Ok c) :
  (es_checkpoint_repository s ≠ None →
    BindingBuilder_build c v payload values = raise RuntimeDispatchRecoveryError "SCHEDULER_SNAPSHOT_SHAPE_INVALID")
  ∧ (∀ reason, es_cancellation_reason s = Some reason → 256 < len reason → ∀ b, BindingBuilder_build c v payload values ≠ Ok b).
Proof.
  apply snapshot_ok_iff in Hs as (context & pf & flight & observed & _ & _ & _ & _ & ->). split.
  - intros Hrep. destruct (es_checkpoint_repository s); [|done]. unfold BindingBuilder_build. rewrite Hc. reflexivity.
  - intros reason Hr Hlong b (cancelled & reason' & _ & Hr' & Hok)%bound_cancellation.
    assert (json_opt_str (Some reason) = json_opt_str reason') as <-%opt_item_inj.
    { rewrite <- Hr', <- Hr. by destruct (es_checkpoint_repository s). }
    destruct Hok as [_ Hs]. unfold single_line in Hs. apply guard_bind_ok in Hs as [_ Hs]. apply guard_bind_ok in Hs as [Hs _].
    apply Z.ltb_lt in Hlong. by rewrite Hlong in Hs.
Qed.

Lemma order_by_idemp {A} (le : A → A → bool) l : (∀ x y, le x y = false → le y x = true) → order_by le (order_by le l) = order_by le l.
Proof.
  intros Htot. assert (∀ x k, Sorted (λ x y, le x y = true) k → Sorted (λ x y, le x y = true) (insert_by le x k)) as Hins.
  { intros x k Hk. induction Hk as [|y k Hk IH Hy]; cbn [insert_by]; [by repeat constructor|]. destruct (le x y) eqn:E.
    - by repeat constructor.
    - constructor; [done|]. apply Htot in E. destruct k as [|z k]; cbn [insert_by]; [by constructor|].
      destruct (le x z); [by constructor|]. inversion_clear Hy. by constructor. }
  assert (Sorted (λ x y, le x y = true) (order_by le l)) as Hs.
  { unfold order_by. induction l as [|x l IH]; [constructor|]. cbn [foldr]. by apply Hins. }
  revert Hs. generalize (order_by le l). clear. intros k Hk. unfold order_by. induction Hk as [|x k Hk IH Hx]; [done|].
  cbn [foldr]. rewrite IH. destruct Hx as [|y k Hy]; [done|]. cbn [insert_by]. by rewrite Hy.
Qed.
Lemma by_capability_idemp rows : by_capability (by_capability rows) = by_capability rows.
Proof.
  apply order_by_idemp. intros x y. rewrite bool_decide_eq_false, bool_decide_eq_true. intros H.
  destruct (total String.le (rs_capability x) (rs_capability y)); [done|auto].
Qed.

(** The binding of a capture. *)
Definition bound_capture (s : state) (c : RuntimeCheckpoint) (flight : list string) (budget : RuntimeBudgetSnapshot)
    (rows : list RuntimeRevocationSnapshot) (scheduler_state id : string) : RuntimeDispatchRecoveryBinding := {|
  db_binding_id := id; db_runtime_checkpoint_fingerprint := checkpoint_sha c; db_task_id := rk_task_id c;
  db_task_context_fingerprint := rk_task_context_fingerprint c; db_plan_fingerprint := rk_plan_fingerprint c;
  db_parent_authority_fingerprint := rk_parent_authority_fingerprint c; db_scheduler_state_fingerprint := scheduler_state;
  db_max_concurrency := ec_max_concurrency cfg; db_cancelled := es_cancelled s;
  db_cancellation_reason := es_cancellation_reason s; db_dispatch_sequence := es_dispatch_sequence s;
  db_approved_node_ids := rk_approved_node_ids c; db_in_flight_ticket_fingerprints := sorted_str flight;
  db_observation_fingerprints := rk_observation_fingerprints c; db_budget := budget; db_revocations := by_capability rows;
  db_captured_at := rk_captured_at c; db_schema_version := RUNTIME_DISPATCH_RECOVERY_BINDING_SCHEMA |}.

Lemma bound_capture_ok (s : state) c flight budget rows scheduler_state : checkpoint_ok c → 0 <= es_dispatch_sequence s →
  1 <= ec_max_concurrency cfg <= MAX_SCHEDULER_CONCURRENCY → cancellation_ok (es_cancelled s) (es_cancellation_reason s) →
  NoDup flight → Forall hash_ref flight → snapshot_ok budget → bs_task_id budget = rk_task_id c →
  Forall revocation_ok rows → Forall (λ r, rs_task_id r = rk_task_id c) rows → NoDup (map rs_capability rows) →
  hash_ref scheduler_state →
  let b := bound_capture s c flight budget rows scheduler_state in
  binding_ok (b ("dispatch-recovery:" +:+ short_digest (binding_sha (b "")))).
Proof.
  intros [K0 [K1 K2] K3 [K4 [K5 K6]] K7 K8 _] Hseq Hmc Hca Hnd Hfl Hbud Hbt Hv Ht Hd Hss b.
  rewrite !Forall_cons in K3. destruct K3 as (K31 & K32 & K33 & K34 & K35 & _). constructor; cbn -[String.append short_digest binding_sha]; try done.
  - split; [apply binding_name|by apply plain_id_name].
  - repeat constructor; try done. apply sha256_of_text_shape.
  - split; [done|]. split; [done|]. eapply Forall_impl; [exact K6|]. apply plain_id_name.
  - split; [by rewrite sorted_str_idemp|]. rewrite sorted_str_perm. done.
  - constructor.
    + by rewrite by_capability_perm.
    + by rewrite by_capability_perm.
    + change (NoDup (rs_capability <$> by_capability rows)). by rewrite by_capability_perm.
    + apply by_capability_idemp.
  - by apply (captured_time "captured_at").
Qed.
(** No two observations of a scheduler share an identifier unless they share it by accident. *)
Lemma ordered_ids (s : state) : scheduler_inv cfg s → NoDup (map en_node_id (xp_nodes plan)) →
  ids_faithful (_ordered_observations cfg s) → NoDup (map eo_observation_id (_ordered_observations cfg s)).
Proof.
  intros Hinv Hd Hfaith. assert (NoDup (map eo_node_id (_ordered_observations cfg s))) as Hn.
  { apply (omap_nodup _ eo_node_id en_node_id); [|done]. intros n o _ Ho. by apply (iv_observations _ _ _ _ _ _ Hinv) in Ho as [? _]. }
  revert Hn Hfaith. generalize (_ordered_observations cfg s). clear. intros l. induction l as [|o l IH]; intros Hn Hf; [constructor|].
  cbn [map] in *. apply NoDup_cons in Hn as [Ho Hn]. constructor; [|apply IH; [done|]; intros ? ? ? ?; apply Hf; by right].
  intros (o' & Ho' & Hin)%list_elem_of_fmap. apply Ho.
  rewrite (proj1 (Hf o o' ltac:(left) ltac:(by right) Ho')). by apply list_elem_of_fmap_2.
Qed.

(** Two tickets in flight, of different nodes, with one fingerprint. *)
Definition ticket_collision (s : state) : Prop := ∃ t t' f id id',
  es_in_flight s !! id = Some t ∧ es_in_flight s !! id' = Some t' ∧ dt_node_id t ≠ dt_node_id t'
  ∧ DispatchTicket_fingerprint t = Ok f ∧ DispatchTicket_fingerprint t' = Ok f.

(** What is digested without repetition has distinct digests, or two of one digest are there. *)
Lemma digests_distinct {A} (f : A → result string) (key : A → string) l ys : mapM f l = Ok ys → NoDup (map key l) →
  NoDup ys ∨ ∃ a b y, a ∈ l ∧ b ∈ l ∧ key a ≠ key b ∧ f a = Ok y ∧ f b = Ok y.
Proof.
  intros H%mapM_Forall2 Hd. induction H as [|a y l ys Hy Hl IH]; [left; constructor|].
  cbn [map] in Hd. apply NoDup_cons in Hd as [Ha Hd].
  destruct (IH Hd) as [Hn|(b & b' & z & Hb & Hb' & ?)]; [|right; exists b, b', z; split; [by right|]; split; [by right|done]].
  destruct (decide (y ∈ ys)) as [[i Hi]%list_elem_of_lookup|Hy']; [right|left; by constructor].
  destruct (Forall2_lookup_r _ _ _ _ _ Hl Hi) as (b & Hb%list_elem_of_lookup_2 & Hfb).
  exists a, b, y. split_and!; [left|by right| |done|done]. intros E. apply Ha. rewrite E. by apply list_elem_of_fmap_2.
Qed.

Lemma flight_distinct (s : state) flight : scheduler_inv cfg s → NoDup (map en_node_id (xp_nodes plan)) →
  mapM DispatchTicket_fingerprint (omap (λ n, es_in_flight s !! en_node_id n) (xp_nodes plan)) = Ok flight →
  NoDup flight ∨ ticket_collision s.
Proof.
  intros Hinv Hd H. destruct (digests_distinct _ dt_node_id _ _ H) as [?|(t & t' & f & Ht & Ht' & Hne & Hf & Hf')]; [|by left|right].
  - apply (omap_nodup _ dt_node_id en_node_id); [|done]. intros n t _ Ht.
    by destruct (tk_node _ _ _ _ _ _ (iv_tickets _ _ _ _ _ _ Hinv _ _ (or_introl Ht))) as (? & _ & ? & _).
  - apply list_elem_of_omap in Ht as (n & _ & Ht), Ht' as (n' & _ & Ht'). by exists t, t', f, (en_node_id n), (en_node_id n').
Qed.

(** The capture with the identifier its content gives. *)
Definition final_capture (s : state) (c : RuntimeCheckpoint) (flight : list string) (budget : RuntimeBudgetSnapshot)
    (rows : list RuntimeRevocationSnapshot) (ss : string) : RuntimeDispatchRecoveryBinding :=
  bound_capture s c flight budget rows ss
    ("dispatch-recovery:" +:+ short_digest (binding_sha (bound_capture s c flight budget rows ss ""))).

Lemma capture_built (s : state) c flight observed payload budget values rows : checkpoint_ok c →
  xp_task_id plan = rk_task_id c → ca_fingerprint (ec_parent_authority cfg) = rk_parent_authority_fingerprint c →
  sorted_set_ids (es_approved_nodes s) = rk_approved_node_ids c → rk_observation_fingerprints c = sorted_str observed →
  NoDup flight → Forall hash_ref flight → 0 <= es_dispatch_sequence s → 1 <= ec_max_concurrency cfg <= MAX_SCHEDULER_CONCURRENCY →
  budget_from_mapping payload = Ok budget → bs_task_id budget = rk_task_id c → mapM from_revocation values = Ok rows →
  Forall (λ r, rs_task_id r = rk_task_id c) rows → NoDup (map rs_capability rows) →
  cancellation_ok (es_cancelled s) (es_cancellation_reason s) →
  ∃ ss, binding_ok (final_capture s c flight budget rows ss)
    ∧ BindingBuilder_build c (JObj (snapshot_items s (rk_task_context_fingerprint c) (rk_plan_fingerprint c) flight observed)) payload values
      = Ok (final_capture s c flight budget rows ss).
Proof.
  intros Hck Htask Ha Happ Hfs Hfd Hfh Hseq Hmax Hbud Hbt Hrows Hrt Hrd Hca.
  destruct (ck_approved _ Hck) as (Hap1 & Hap2 & Hap3). destruct (ck_observed _ Hck) as (_ & Hod & Hoh).
  rewrite Hfs, sorted_str_perm in Hod, Hoh. pose proof (from_revocations_ok _ _ Hrows) as Hrv.
  apply budget_mapping_ok in Hbud as Hbok. destruct Hbok as (_ & _ & _ & _ & Hbok).
  assert (∀ ss, hash_ref ss → binding_ok (final_capture s c flight budget rows ss)) as Hfinal.
  { intros ss Hss. by apply bound_capture_ok. }
  eexists. split; [apply Hfinal, sha256_of_text_shape|].
  unfold BindingBuilder_build, dr_fail_if. apply bind_ok_iff. exists c.
  split; [apply reraise_ok; by apply checkpoint_valid|]. unfold snapshot_items.
  set (snap := _ :: _).
  assert (has_keys snap SCHEDULER_SNAPSHOT_KEYS = true ∧ get snap "schema_version" = JStr EXECUTION_SCHEDULER_SCHEMA
    ∧ get snap "task_id" = JStr (xp_task_id plan) ∧ get snap "task_context_fingerprint" = JStr (rk_task_context_fingerprint c)
    ∧ get snap "plan_fingerprint" = JStr (rk_plan_fingerprint c) ∧ get snap "parent_authority_fingerprint" = JStr (ca_fingerprint (ec_parent_authority cfg))
    ∧ get snap "approved_node_ids" = json_strs (sorted_set_ids (es_approved_nodes s)) ∧ get snap "observations" = json_strs observed
    ∧ get snap "in_flight" = json_strs flight ∧ get snap "max_concurrency" = JInt (ec_max_concurrency cfg)
    ∧ get snap "cancelled" = JBool (es_cancelled s) ∧ get snap "cancellation_reason" = json_opt_str (es_cancellation_reason s)
    ∧ get snap "dispatch_sequence" = JInt (es_dispatch_sequence s))
    as (-> & -> & -> & -> & -> & -> & -> & -> & -> & -> & -> & -> & ->) by (repeat split).
  apply guard_bind_ok; split; [reflexivity|]. do 5 (apply guard_bind_ok; split; [apply is_str_ok; congruence|]).
  clearbody snap. unfold json_strs at 1 2 3, iterable, tuple_of.
  apply bind_ok_iff. eexists. split; [done|]. apply bind_ok_iff. exists (rk_approved_node_ids c).
  split; [apply (sorted_distinct_ok _ _ _ _ _ (dispatch_name_ok _)); exists (rk_approved_node_ids c); rewrite Happ; split_and!; try done;
    eapply Forall_impl; [exact Hap3|apply plain_id_name]|].
  apply bind_ok_iff. eexists. split; [done|]. apply bind_ok_iff. exists (rk_observation_fingerprints c).
  split; [apply (sorted_distinct_ok _ _ _ _ _ (dispatch_hash_ok _)); by exists observed|].
  apply bind_ok_iff. eexists. split; [done|]. apply bind_ok_iff. exists (sorted_str flight).
  split; [apply (sorted_distinct_ok _ _ _ _ _ (dispatch_hash_ok _)); by exists flight|].
  do 2 (apply guard_bind_ok; split; [by rewrite bool_decide_eq_true_2|]).
  apply bind_ok_iff. exists budget. split; [done|]. apply guard_bind_ok; split; [by rewrite bool_decide_eq_true_2|].
  apply bind_ok_iff. exists rows. split; [done|]. cbv zeta.
  apply guard_bind_ok; split; [rewrite bool_decide_eq_true_2; [done|]; change (NoDup (rs_capability <$> by_capability rows)); by rewrite by_capability_perm|].
  apply unit_bind_ok. split; [apply iterM_Forall; rewrite by_capability_perm; eapply Forall_impl; [exact Hrt|]; intros r Hr; cbn beta; by rewrite bool_decide_eq_true_2|].
  apply bind_ok_iff. eexists. split; [by apply check_concurrency_ok|]. apply bind_ok_iff. eexists. split; [by apply check_flag_ok|].
  apply bind_ok_iff. eexists. split; [by apply check_cancellation_ok|]. apply bind_ok_iff. eexists. split; [by apply nonnegative_ok|].
  rewrite dispatch_digest_ok.
  2: { cbn [json_ok forallb snd json_strs]. rewrite !json_ok_strs. by destruct (es_cancellation_reason s). }
  apply bind_ok_iff. eexists. split; [done|].
  apply bind_ok_iff. eexists. split; [apply checkpoint_fingerprint_ok|].
  apply bind_ok_iff. eexists. split; [by apply binding_fingerprint_ok; [|cbn; rewrite by_capability_perm]|].
  apply (binding_valid (final_capture s c flight budget rows _)), Hfinal, sha256_of_text_shape.
Qed.

(** The capture of a run is accepted. For a scheduler without a repository, after any operations, the checkpoint
    built from its observations and approvals, its own snapshot, a budget and distinct revocations of the task
    are bound: the builder returns a valid binding of exactly these parts - provided a cancellation reason is one line of
    256 characters at most. The other cases are collisions: two observations of different nodes, or two tickets, with
    one fingerprint. *)
Theorem capture_accepted reapproved (s0 s1 : state) ts (s : state) v c at_ now payload budget values rows
    (Hinit : ExecutionScheduler_init cfg reapproved s0 = (Ok tt, s1)) (Hsteps : steps cfg s1 ts s)
    (Hrep : es_checkpoint_repository s = None)
    (Hs : snapshot cfg s = Ok v)
    (Hc : RuntimeCheckpointBuilder_build (ec_task_context cfg) plan (ec_parent_authority cfg) (_ordered_observations cfg s)
            (sorted_set_ids (es_approved_nodes s)) at_ now = Ok c)
    (Hbud : budget_from_mapping payload = Ok budget) (Hbt : bs_task_id budget = rk_task_id c)
    (Hrows : mapM from_revocation values = Ok rows) (Hrt : Forall (λ r, rs_task_id r = rk_task_id c) rows)
    (Hrd : NoDup (map rs_capability rows))
    (Hca : cancellation_ok (es_cancelled s) (es_cancellation_reason s)) :
  (∃ b, BindingBuilder_build c v payload values = Ok b ∧ RuntimeDispatchRecoveryBinding_validate b = Ok b
  ∧ db_cancelled b = es_cancelled s ∧ db_budget b = budget ∧ (∀ r, r ∈ db_revocations b ↔ r ∈ rows)
  ∧ (∀ f, f ∈ db_in_flight_ticket_fingerprints b ↔
       ∃ t, DispatchTicket_fingerprint t = Ok f ∧ ∃ n, n ∈ xp_nodes plan ∧ es_in_flight s !! en_node_id n = Some t))
  ∨ fingerprint_collision (_ordered_observations cfg s) ∨ ticket_collision s.
Proof.
  pose proof (init_admitted _ _ _ _ Hinit) as [Hadm Hmax].
  pose proof (steps_invariant cfg (plan_valid_shape _ _ (ad_plan _ _ _ Hadm)) _ _ _ Hsteps (init_invariant _ _ _ _ Hinit)) as Hinv.
  apply build_captured in Hc as (d & Hcap & Happ). apply snapshot_ok_iff in Hs as (context & pf & flight & observed & Hctx & Hpf & Hflight & Hob & ->).
  destruct (captured_faithful _ _ _ _ _ _ Hcap) as [Hobs|?]; [|by right; left].
  destruct (flight_distinct s flight Hinv (ps_ids _ (plan_valid_shape _ _ (ad_plan _ _ _ Hadm))) Hflight) as [Hfd|?]; [left|by right; right].
  rewrite Hrep. cbn [is_none]. rewrite app_nil_r.
  pose proof (evaluate_admitted _ _ _ _ _ _ (cp_decision _ _ _ _ _ _ Hcap)) as Had.
  pose proof (cp_valid _ _ _ _ _ _ Hcap) as Hck. pose proof (plan_valid_shape _ _ (ad_plan _ _ _ Had)) as Hsh.
  pose proof (ordered_ids s Hinv (ps_ids _ Hsh) Hobs) as Hids.
  pose proof (checkpoint_fingerprints _ _ _ _ _ Hids (cp_observations _ _ _ _ _ _ Hcap) Hob) as Hfs.
  assert (sorted_set_ids (es_approved_nodes s) = rk_approved_node_ids c) as Happ'.
  { rewrite Happ. unfold sorted_set_ids. by rewrite sorted_str_idemp. }
  assert (xp_task_id plan = rk_task_id c) as Htask by (rewrite (cp_task _ _ _ _ _ _ Hcap); symmetry; apply Had).
  pose proof (cp_context _ _ _ _ _ _ Hcap) as Hx. rewrite Hctx in Hx. injection Hx as ->.
  pose proof (cp_plan _ _ _ _ _ _ Hcap) as Hp. rewrite Hpf in Hp. injection Hp as ->.
  destruct (capture_built s c flight observed payload budget values rows) as (ss & Hok & Hbuild); try done.
  { apply Hcap. }
  { by apply (digests_hashes _ _ _ (λ t h, es_digest_hash _ h)) in Hflight. }
  { apply Hinv. }
  exists (final_capture s c flight budget rows ss). split; [done|]. split; [by apply binding_valid|]. split; [done|]. split; [done|].
  split; [intros r; cbn; by rewrite by_capability_perm|]. intros f. cbn. rewrite elem_of_sorted_str.
  apply mapM_elem with (y := f) in Hflight as ->. setoid_rewrite list_elem_of_omap. naive_solver.
Qed.
End Capture.

(** ** The sample run, captured and recovered *)

Section Examples.
#[local] Existing Instance checksum_hashlib.
#[local] Existing Instance nine_hours.

Notation free_state := (ExecutionScheduler BudgetClient TaskStore CheckpointStore).

(** A scheduler without a repository whose first two nodes are reported, the second one approved. *)
Definition free_start : free_state.
Proof.
  let s := eval vm_compute in
    (ExecutionScheduler_init (C := CheckpointStore) sample_config ∅ (start_state sample_client bound_store None)).2 in exact s.
Defined.
Lemma free_init : ExecutionScheduler_init sample_config ∅ (start_state sample_client bound_store None) = (Ok tt, free_start).
Proof. vm_compute. reflexivity. Qed.
Definition free_in : free_state.
Proof.
  let s := eval vm_compute in (accept_observation sample_config sample_in (issue_dispatch sample_config "in" false free_start).2).2 in exact s.
Defined.
Definition free_observed : free_state.
Proof.
  let s := eval vm_compute in (accept_observation sample_config sample_work (issue_dispatch sample_config "work" true free_in).2).2 in exact s.
Defined.
Definition free_tickets : list DispatchTicket.
Proof.
  let a := eval vm_compute in (issue_dispatch sample_config "in" false free_start).1 in
  let b := eval vm_compute in (issue_dispatch sample_config "work" true free_in).1 in
  match a with Ok ?t => match b with Ok ?u => exact [t; u] end end.
Defined.
Lemma free_run : steps sample_config free_start free_tickets free_observed.
Proof.
  assert (∀ s s1 s2 id a t o, issue_dispatch sample_config id a s = (Ok t, s1) →
    accept_observation sample_config o s1 = (Ok o, s2) → steps (B := BudgetClient) (R := TaskStore) (C := CheckpointStore) sample_config s [t] s2) as Hone.
  { intros s s1 s2 id a t o H1 H2. apply (steps_step _ _ [t] s1 []); [exact (step_issue _ _ _ _ _ _ H1)|].
    apply (steps_step _ _ [] s2 []); [exact (step_accept _ _ _ _ _ H2)|constructor]. }
  eapply (steps_app _ free_start [_] free_in [_]).
  - eapply (Hone _ (issue_dispatch sample_config "in" false free_start).2 _ "in" false _ sample_in); vm_compute; reflexivity.
  - eapply (Hone _ (issue_dispatch sample_config "work" true free_in).2 _ "work" true _ sample_work); vm_compute; reflexivity.
Qed.

Definition free_checkpoint : RuntimeCheckpoint.
Proof.
  let r := eval vm_compute in (RuntimeCheckpointBuilder_build sample_context sample_plan sample_parent
    (_ordered_observations sample_config free_observed) (sorted_set_ids (es_approved_nodes free_observed)) None capture_time) in
  match r with Ok ?c => exact c end.
Defined.
Lemma free_capture : RuntimeCheckpointBuilder_build (ec_task_context sample_config) (ec_plan sample_config)
  (ec_parent_authority sample_config) (_ordered_observations sample_config free_observed)
  (sorted_set_ids (es_approved_nodes free_observed)) None capture_time = Ok free_checkpoint.
Proof. vm_compute. reflexivity. Qed.

Definition free_snapshot : json.
Proof. let r := eval vm_compute in (snapshot sample_config free_observed) in match r with Ok ?v => exact v end. Defined.
Lemma free_snapshot_ok : snapshot sample_config free_observed = Ok free_snapshot.
Proof. vm_compute. reflexivity. Qed.

(** The store of the budget at the moment of capture. *)
Definition free_store : TaskStore := bc_store (es_budget_guard free_observed).
Definition free_payload : json.
Proof.
  let r := eval vm_compute in (BudgetState_snapshot (bc_state sample_client) free_store) in match r with Ok ?v => exact v end.
Defined.
Lemma free_payload_ok : BudgetState_snapshot (bc_state sample_client) free_store = Ok free_payload.
Proof. vm_compute. reflexivity. Qed.
Definition free_budget : RuntimeBudgetSnapshot.
Proof. let r := eval vm_compute in (budget_from_mapping free_payload) in match r with Ok ?v => exact v end. Defined.
Lemma free_budget_ok : budget_from_mapping free_payload = Ok free_budget.
Proof. vm_compute. reflexivity. Qed.

Definition free_binding : RuntimeDispatchRecoveryBinding.
Proof.
  let r := eval vm_compute in (BindingBuilder_build free_checkpoint free_snapshot free_payload []) in
  match r with Ok ?b => exact b end.
Defined.
Lemma free_binding_ok : BindingBuilder_build free_checkpoint free_snapshot free_payload (map RevObject []) = Ok free_binding.
Proof. vm_compute. reflexivity. Qed.

Lemma binding_text_roundtrip_witness : ∃ text,
  BindingCodec_dumps free_binding = Ok text ∧ BindingCodec_loads text = Ok free_binding.
Proof. apply (binding_text_roundtrip free_binding). vm_compute. reflexivity. Defined.

(** The sample scheduler of a whole run keeps a repository. *)
Lemma schedulers_refused_witness : ∃ v, snapshot sample_config full_observed = Ok v
  ∧ BindingBuilder_build free_checkpoint v free_payload [] = raise RuntimeDispatchRecoveryError "SCHEDULER_SNAPSHOT_SHAPE_INVALID".
Proof.
  assert (∃ v, snapshot sample_config full_observed = Ok v) as [v Hv] by (eexists; vm_compute; reflexivity).
  exists v. split; [exact Hv|]. apply (schedulers_refused sample_config full_observed v free_checkpoint free_payload [] Hv).
  - vm_compute. reflexivity.
  - discriminate.
Defined.

Lemma capture_accepted_witness : ∃ b, BindingBuilder_build free_checkpoint free_snapshot free_payload [] = Ok b
  ∧ db_cancelled b = false ∧ db_budget b = free_budget.
Proof.
  destruct (capture_accepted sample_config ∅ (start_state sample_client bound_store None) free_start free_tickets free_observed free_snapshot free_checkpoint None capture_time free_payload free_budget [] [])
    as [(b & Hb & _ & Hc & Hbud & _)|[Hcol|(t & t' & f & id & id' & Ht & _)]].
  - exact free_init.
  - exact free_run.
  - reflexivity.
  - exact free_snapshot_ok.
  - exact free_capture.
  - exact free_budget_ok.
  - vm_compute. reflexivity.
  - reflexivity.
  - constructor.
  - constructor.
  - reflexivity.
  - exists b. split; [exact Hb|]. split; [exact Hc|exact Hbud].
  - exfalso. revert Hcol. apply no_sample_collision.
    assert (_ordered_observations sample_config free_observed = [sample_in; sample_work]) as -> by (vm_compute; reflexivity).
    reflexivity.
  - exfalso. revert Ht. assert (es_in_flight free_observed = ∅) as -> by (vm_compute; reflexivity). by rewrite lookup_empty.
Defined.

(** Later another operator takes a tool away, and time passes. *)
Definition later_store : TaskStore.
Proof.
  let s := eval vm_compute in (revoke sample_id "read_file" "OPERATOR" (set_clock (ts_now free_store) [] free_store)) in exact s.2.
Defined.
Lemma later_steps : rtc store_step free_store later_store.
Proof.
  eapply rtc_l; [exact (ss_time free_store (ts_now free_store) [])|]. apply rtc_once.
  apply (ss_revoke _ sample_id "read_file" "OPERATOR"
    (revoke sample_id "read_file" "OPERATOR" (set_clock (ts_now free_store) [] free_store)).1). vm_compute. reflexivity.
Qed.
Definition free_row : usage_row.
Proof. let r := eval vm_compute in (ts_usage free_store !! sample_id) in match r with Some ?x => exact x end. Defined.
Lemma free_rows : ts_usage free_store = {[sample_id := free_row]}.
Proof. vm_compute. reflexivity. Qed.
Lemma free_store_ok : budgets_ok free_store.
Proof.
  unfold budgets_ok. rewrite free_rows. apply map_Forall_singleton. constructor; vm_compute; repeat split; discriminate.
Qed.
Definition later_row : revocation_row.
Proof.
  let r := eval vm_compute in (revocations later_store !! (sample_id, "read_file")) in match r with Some ?x => exact x end.
Defined.
Lemma later_rows : revocations later_store = {[(sample_id, "read_file") := later_row]}.
Proof. vm_compute. reflexivity. Qed.

Definition free_base : RuntimeRecoveryDecision.
Proof.
  let r := eval vm_compute in (RuntimeRecovery_evaluate free_checkpoint sample_context sample_plan sample_parent [sample_in; sample_work]) in
  match r with Ok ?d => exact d end.
Defined.
Lemma free_base_ok : RuntimeRecovery_evaluate free_checkpoint sample_context sample_plan sample_parent [sample_in; sample_work] = Ok free_base.
Proof. vm_compute. reflexivity. Qed.
Lemma free_list : list_for_task (rk_task_id free_checkpoint) free_store = (Ok [], (list_for_task (rk_task_id free_checkpoint) free_store).2).
Proof. vm_compute. reflexivity. Qed.

Notation later_sample := {| lg_budget := {| bc_state := bc_state sample_client; bc_store := later_store |}; lg_revocation := later_store |}.

Definition free_deadline : datetime.
Proof.
  let r := eval vm_compute in (fromisoformat (bs_deadline_at (db_budget free_binding))) in match r with Some ?d => exact d end.
Defined.

Lemma capture_recovers_witness : ∃ d g',
  RuntimeDispatchRecovery_evaluate free_binding free_checkpoint sample_context sample_plan sample_parent [sample_in; sample_work] later_sample = (Ok d, g')
  ∧ dd_status d = "RECOVERABLE".
Proof.
  destruct (capture_recovers free_checkpoint free_snapshot (bc_state sample_client) free_store free_payload [] _ free_binding
    sample_context sample_plan sample_parent [sample_in; sample_work] free_base later_store free_deadline free_store_ok free_payload_ok free_list
    free_binding_ok free_base_ok later_steps) as (d & g' & Hd & Hiff).
  - vm_compute. reflexivity.
  - intros x row. rewrite later_rows, lookup_singleton_Some. intros [[= <-] <-].
    constructor; [split; split; vm_compute; reflexivity|vm_compute; reflexivity..].
  - vm_compute. reflexivity.
  - exists d, g'. split; [exact Hd|]. apply Hiff. split_and!; vm_compute; reflexivity.
Defined.

(** The tool that was taken away is reported as newly revoked. *)
Definition later_decision : RuntimeDispatchRecoveryDecision.
Proof.
  let r := eval vm_compute in (RuntimeDispatchRecovery_evaluate free_binding free_checkpoint sample_context sample_plan sample_parent
    [sample_in; sample_work] later_sample).1 in match r with Ok ?d => exact d end.
Defined.
Example later_revoked : dd_newly_revoked_capabilities later_decision = ["read_file"].
Proof. reflexivity. Qed.

Lemma recoverable_dispatch_witness : ∃ row, ts_usage later_store !! sample_id = Some row
  ∧ budget_covers (db_budget free_binding) (snapshot_row sample_id row).
Proof.
  assert (∃ g', RuntimeDispatchRecovery_evaluate free_binding free_checkpoint sample_context sample_plan sample_parent [sample_in; sample_work]
    later_sample = (Ok later_decision, g')) as [g' H] by (eexists; vm_compute; reflexivity).
  destruct (recoverable_dispatch free_binding free_checkpoint sample_context sample_plan sample_parent [sample_in; sample_work] _ _ later_decision g' H)
    as (_ & _ & _ & (row & s1 & Hrow & Hc & _) & _); [reflexivity|].
  exists row. split; [exact Hrow|exact Hc].
Defined.
End Examples.
