(* ===== verification/WorkflowAdmission.v ===== *)
(** * Workflow admission

    [workflow_state_machine.py]: which validated workflows the state machine may execute.
    Version 3 executes trees with one research, one presentation and one daily report node;
    version 4 also one parallel region of two lanes. *)

From Stdlib Require Import Ascii.
From Stdlib Require String.
From S2P Require Import Prelude PyStr Json WorkflowDesign.

Local Open Scope Z_scope.

Definition _ALLOWED_PAIRS : list (string * string) := [
  ("input", "input"); ("agent", "research"); ("validation", "validate"); ("decision", "validate");
  ("approval", "human_approval"); ("agent", "presentation"); ("agent", "daily_report"); ("output", "output")].

Definition _ALLOWED_PAIRS_V4 : list (string * string) := [
  ("input", "input"); ("agent", "research"); ("validation", "validate"); ("decision", "validate");
  ("approval", "human_approval"); ("parallel", "parallel_fork"); ("parallel", "parallel_join");
  ("agent", "presentation"); ("agent", "daily_report"); ("output", "output")].

(** The conditions of the children of a branching node, sorted. *)
Definition _BRANCH_CONDITIONS (kind : string) : option (list string) :=
  if bool_decide (kind = "decision") then Some ["failed"; "passed"]
  else if bool_decide (kind = "approval") then Some ["approved"; "rejected"]
  else None.

Definition WORKFLOW_V4_MAX_PARALLEL_BRANCHES : Z := 2.
Definition WORKFLOW_V4_MAX_PARALLEL_WORKERS : Z := 2.

Definition ws_fail {A} (msg : string) : result A := raise WorkflowStateError msg.
Definition ws_fail_if (b : bool) (msg : string) : result unit := raise_if b WorkflowStateError msg.

(** ** The graph as dicts *)

(** [_children(contract)[node_id]]: one entry for each edge, in the order of the nodes. *)
Definition _children (c : wf_contract) (node_id : string) : list string :=
  concat (map (λ n, map (λ _, wn_id n) (filter (λ parent, parent = node_id) (wn_depends_on n))) (wc_nodes c)).

(** [_node_map(contract).get(node_id)] and [_node_map(contract)[node_id]]. *)
Definition _node_map (c : wf_contract) (node_id : string) : option wf_node :=
  find (λ n, bool_decide (wn_id n = node_id)) (rev (wc_nodes c)).
Definition node_at (c : wf_contract) (node_id : string) : result wf_node :=
  match _node_map c node_id with Some n => Ok n | None => raise PyKeyError node_id end.

Definition _normalized_condition (n : wf_node) : string :=
  lower (strip (squeeze (default "" (wn_condition n)))).

Definition roots_of (c : wf_contract) : list string :=
  map wn_id (filter (λ n, wn_depends_on n = []) (wc_nodes c)).
Definition count_action (action : string) (c : wf_contract) : Z :=
  Z.of_nat (length (filter (λ n, wn_action n = action) (wc_nodes c))).
Definition leaves_of (c : wf_contract) : list string :=
  filter (λ id, _children c id = []) (map wn_id (wc_nodes c)).

(** [any(by_id[i] ... for i in ids)]. *)
Fixpoint any_node (c : wf_contract) (p : wf_node → bool) (ids : list string) : result bool :=
  match ids with
  | [] => Ok false
  | id :: ids => n ← node_at c id; if p n then Ok true else any_node c p ids
  end.

Definition is_kind (kind : string) (n : wf_node) : bool := bool_decide (wn_kind n = kind).
Definition is_action (action : string) (n : wf_node) : bool := bool_decide (wn_action n = action).

(** ** One node *)

(** The children of a decision or an approval; [seen] collects their conditions. *)
Fixpoint check_branch (c : wf_contract) (node : wf_node) (expected : list string) (direct : string)
    (seen : list string) (branch : list string) : result (list string) :=
  match branch with
  | [] => Ok seen
  | child_id :: branch =>
      child ← node_at c child_id;
      let condition := _normalized_condition child in
      ws_fail_if (negb (mem_str condition expected))
        ("branch from " +:+ wn_id node +:+ " must use one of " +:+ repr_list expected) ;;
      ws_fail_if (mem_str condition seen)
        ("branch from " +:+ wn_id node +:+ " repeats condition " +:+ condition) ;;
      ws_fail_if (mem_str condition ["failed"; "rejected"] && negb (is_kind "output" child))
        (condition +:+ direct) ;;
      check_branch c node expected direct (seen ++ [condition]) branch
  end.

(** The children of any other node. *)
Definition check_plain (c : wf_contract) (branch : list string) : result unit :=
  iterM (λ child_id,
    child ← node_at c child_id;
    ws_fail_if (negb (is_empty (_normalized_condition child)))
      "conditions are executable only after decision or approval nodes") branch.

Definition check_conditions (c : wf_contract) (node : wf_node) (direct : string) (plain : bool)
    (branch : list string) : result unit :=
  match _BRANCH_CONDITIONS (wn_kind node) with
  | Some expected =>
      seen ← check_branch c node expected direct [] branch;
      ws_fail_if ((Z.of_nat (length branch) =? 2) && negb (subset_str seen expected && subset_str expected seen))
        ("two-way " +:+ wn_kind node +:+ " branch must provide exactly " +:+ repr_list expected)
  | None => if plain then check_plain c branch else Ok tt
  end.

Definition admit_node (c : wf_contract) (node : wf_node) : result unit :=
  ws_fail_if (negb (bool_decide ((wn_kind node, wn_action node) ∈ _ALLOWED_PAIRS)))
    ("node " +:+ wn_id node +:+ " uses a design-only kind/action pair") ;;
  ws_fail_if (1 <? Z.of_nat (length (wn_depends_on node))) "branch joins remain design-only in V3" ;;
  (if is_kind "approval" node
   then ws_fail_if (negb (wn_approval_required node)) "approval nodes must set approval_required=true"
   else ws_fail_if (wn_approval_required node)
          "approval_required may only be asserted by an approval node in V3") ;;
  let branch := _children c (wn_id node) in
  ws_fail_if (2 <? Z.of_nat (length branch)) "V3 supports at most two deterministic branch targets" ;;
  ws_fail_if ((1 <? Z.of_nat (length branch)) && negb (is_kind "decision" node || is_kind "approval" node))
    "only validation decisions or approval checkpoints may branch in V3" ;;
  check_conditions c node " branch must terminate directly at output in V3" true branch.

Definition admit_node_v4 (c : wf_contract) (node : wf_node) : result unit :=
  ws_fail_if (negb (bool_decide ((wn_kind node, wn_action node) ∈ _ALLOWED_PAIRS_V4)))
    ("node " +:+ wn_id node +:+ " uses a design-only kind/action pair") ;;
  (if is_kind "approval" node
   then ws_fail_if (negb (wn_approval_required node)) "approval nodes must set approval_required=true"
   else ws_fail_if (wn_approval_required node) "approval_required may only be asserted by an approval node") ;;
  ws_fail_if ((1 <? Z.of_nat (length (wn_depends_on node))) && negb (is_action "parallel_join" node))
    "only the bounded parallel_join may have multiple parents" ;;
  let branch := _children c (wn_id node) in
  ws_fail_if (2 <? Z.of_nat (length branch)) "V4 supports at most two deterministic child edges" ;;
  ws_fail_if ((1 <? Z.of_nat (length branch))
              && negb (is_kind "decision" node || is_kind "approval" node || is_kind "parallel" node))
    "only decision, approval, or parallel fork may branch" ;;
  ws_fail_if (is_action "parallel_join" node && negb (Z.of_nat (length branch) =? 1))
    "parallel_join requires exactly one downstream decision" ;;
  check_conditions c node " branch must terminate directly at output" (negb (is_action "parallel_fork" node)) branch.

(** ** Walks over the graph *)

(** Every path from the root, with the actions above each node.  The graph is a tree when
    the loop runs, so each node is popped once: as many rounds as there are nodes are enough. *)
Fixpoint walk_paths (fuel : nat) (c : wf_contract) (stack : list (string * list string)) (visited : gset string)
    : result (gset string) :=
  match stack with
  | [] => Ok visited
  | (node_id, ancestors) :: stack =>
      match fuel with
      | O => raise PyAssertionError "unreachable"
      | S fuel =>
          node ← node_at c node_id;
          let action := wn_action node in
          ws_fail_if (bool_decide (action = "presentation") && negb (mem_str "research" ancestors))
            "presentation must be downstream of research" ;;
          ws_fail_if (bool_decide (action = "daily_report") && negb (mem_str "presentation" ancestors))
            "daily_report must be downstream of presentation" ;;
          ws_fail_if (is_kind "decision" node && negb (mem_str "research" ancestors || mem_str "presentation" ancestors))
            "decision requires a prior validated agent stage" ;;
          walk_paths fuel c (map (λ child, (child, action :: ancestors)) (rev (_children c node_id)) ++ stack)
            ({[node_id]} ∪ visited)
      end
  end.

(** The nodes that can be reached: a node already seen is dropped, so each edge is pushed
    once, and one round for each edge and each start is enough. *)
Fixpoint reach (fuel : nat) (c : wf_contract) (stack : list string) (visited : gset string) : result (gset string) :=
  match stack with
  | [] => Ok visited
  | node_id :: stack =>
      match fuel with
      | O => raise PyAssertionError "unreachable"
      | S fuel =>
          if bool_decide (node_id ∈ visited) then reach fuel c stack visited
          else reach fuel c (rev (_children c node_id) ++ stack) ({[node_id]} ∪ visited)
      end
  end.

Definition edge_count (c : wf_contract) : nat := length (concat (map wn_depends_on (wc_nodes c))).

(** ** Version 3 *)

Definition admit_tree (c : wf_contract) (root : string) : result (wf_contract * string) :=
  ws_fail_if (negb (count_action "input" c =? 1)) "V3 permits exactly one input action" ;;
  ws_fail_if (negb (count_action "research" c =? 1)) "V3 requires exactly one research action" ;;
  ws_fail_if (negb (count_action "presentation" c =? 1)) "V3 requires exactly one presentation action" ;;
  ws_fail_if (negb (count_action "daily_report" c =? 1)) "V3 requires exactly one daily_report action" ;;
  iterM (admit_node c) (wc_nodes c) ;;
  let leaves := leaves_of c in
  bad ← (match leaves with [] => Ok true | _ => any_node c (λ n, negb (is_kind "output" n)) leaves end);
  ws_fail_if bad "every executable V3 branch must terminate at an output node" ;;
  visited ← walk_paths (length (wc_nodes c)) c [(root, [])] ∅;
  ws_fail_if (negb (bool_decide (size visited = length (wc_nodes c)))) "V3 requires one connected workflow graph" ;;
  Ok (c, root).

(** [len(roots) != 1 or by_id[roots[0]]["action"] != "input"]. *)
Definition single_root (c : wf_contract) (msg : string) : result string :=
  match roots_of c with
  | [root] => n ← node_at c root; ws_fail_if (negb (is_action "input" n)) msg ;; Ok root
  | _ => ws_fail msg
  end.

(** [except WorkflowDesignError as exc: raise WorkflowStateError(str(exc))]. *)
Definition design_error (m : result wf_contract) : result wf_contract :=
  catch m (λ e, is_class WorkflowDesignError (exn_cls e)) (λ e, ws_fail (exn_msg e)).

Definition _admit (sensitivity : string) (raw_contract : json) : result (wf_contract * string) :=
  c ← design_error (validate_contract raw_contract);
  ws_fail_if (negb (bool_decide (wc_trigger c = "manual"))) "schedule/event triggers remain design-only in V3" ;;
  ws_fail_if (negb (bool_decide (wc_risk_level c = "low"))) "V3.0 execution remains limited to low-risk workflows" ;;
  ws_fail_if (bool_decide (sensitivity = "secret")) "Workflow Studio cannot represent secret data class" ;;
  ws_fail_if (negb (bool_decide (wc_data_class c = sensitivity)))
    "workflow data_class must match the active WorkSpace confidentiality zone" ;;
  root ← single_root c "V3 requires exactly one input root";
  admit_tree c root.

(** ** Version 4 *)

Record lane := { ln_research : string; ln_presentation : string }.
Record parallel_plan := { pp_fork : string; pp_join : string; pp_decision : string; pp_lanes : list lane }.

#[export] Instance lane_eq_dec : EqDecision lane.
Proof. solve_decision. Defined.

Definition plan_lane (c : wf_contract) (join_id research_id : string) : result lane :=
  match _children c research_id with
  | [presentation_id] =>
      presentation ← node_at c presentation_id;
      ws_fail_if (negb (is_action "presentation" presentation))
        "parallel research must flow directly to presentation" ;;
      ws_fail_if (negb (is_empty (_normalized_condition presentation)))
        "parallel presentation edges cannot use conditions" ;;
      ws_fail_if (negb (bool_decide (_children c presentation_id = [join_id])))
        "each parallel presentation must flow directly to the join" ;;
      Ok {| ln_research := research_id; ln_presentation := presentation_id |}
  | _ => ws_fail "each parallel research node requires one presentation child"
  end.

(** [{_normalized_condition(by_id[cid]): cid for cid in children[decision]}]. *)
Fixpoint outcomes_of (c : wf_contract) (ids : list string) (acc : gmap string string) : result (gmap string string) :=
  match ids with
  | [] => Ok acc
  | id :: ids => n ← node_at c id; outcomes_of c ids (<[_normalized_condition n := id]> acc)
  end.

(** The decision after the join, and its failed branch. *)
Definition plan_decision (c : wf_contract) (join_id : string) : result string :=
  let msg := "parallel join must flow directly to one deterministic decision" in
  decision ← match _children c join_id with
             | [id] => n ← node_at c id; ws_fail_if (negb (is_kind "decision" n)) msg ;; Ok n
             | _ => ws_fail msg
             end;
  outcomes ← outcomes_of c (_children c (wn_id decision)) ∅;
  ws_fail_if (negb (bool_decide (dom outcomes = ({["passed"; "failed"]} : gset string))))
    "post-join decision requires exact passed and failed branches" ;;
  failed ← node_at c (default "" (outcomes !! "failed"));
  ws_fail_if (negb (is_kind "output" failed)) "post-join failed branch must terminate directly at output" ;;
  Ok (wn_id decision).

Definition _parallel_plan (c : wf_contract) : result (option parallel_plan) :=
  match filter (λ n, wn_action n = "parallel_fork") (wc_nodes c),
        filter (λ n, wn_action n = "parallel_join") (wc_nodes c) with
  | [], [] => Ok None
  | [fork], [join] =>
      let lane_roots := _children c (wn_id fork) in
      ws_fail_if (negb (Z.of_nat (length lane_roots) =? WORKFLOW_V4_MAX_PARALLEL_BRANCHES))
        "ver.0.0.1 requires exactly two parallel lanes" ;;
      conditioned ← any_node c (λ n, negb (is_empty (_normalized_condition n))) lane_roots;
      ws_fail_if conditioned "parallel fork lanes cannot use conditions" ;;
      other ← any_node c (λ n, negb (is_action "research" n)) lane_roots;
      ws_fail_if other "each parallel lane must start with research" ;;
      lanes ← mapM (plan_lane c (wn_id join)) (sorted_str lane_roots);
      ws_fail_if (negb (bool_decide (sorted_str (wn_depends_on join) = sorted_str (map ln_presentation lanes))))
        "parallel join must depend on exactly both lane presentations" ;;
      ws_fail_if (negb (is_empty (_normalized_condition join))) "parallel join cannot use a condition" ;;
      decision ← plan_decision c (wn_id join);
      Ok (Some {| pp_fork := wn_id fork; pp_join := wn_id join; pp_decision := decision; pp_lanes := lanes |})
  | _, _ => ws_fail "ver.0.0.1 permits exactly one parallel fork and one join"
  end.

(** [next(cid for cid in ids if condition(cid) == "passed")]. *)
Fixpoint passed_child (c : wf_contract) (ids : list string) : result string :=
  match ids with
  | [] => raise PyStopIteration ""
  | id :: ids =>
      n ← node_at c id;
      if bool_decide (_normalized_condition n = "passed") then Ok id else passed_child c ids
  end.

Definition admit_parallel (c : wf_contract) (plan : parallel_plan) (root : string) : result (wf_contract * string) :=
  ws_fail_if (negb (count_action "input" c =? 1)) "V4 permits exactly one input action" ;;
  ws_fail_if (negb (count_action "research" c =? 2))
    "bounded V4 parallel execution requires exactly two research nodes" ;;
  ws_fail_if (negb (count_action "presentation" c =? 2))
    "bounded V4 parallel execution requires exactly two presentation nodes" ;;
  ws_fail_if (negb (count_action "daily_report" c =? 1)) "V4 requires exactly one daily_report action" ;;
  iterM (admit_node_v4 c) (wc_nodes c) ;;
  let leaves := leaves_of c in
  bad ← (match leaves with [] => Ok true | _ => any_node c (λ n, negb (is_kind "output" n)) leaves end);
  ws_fail_if bad "every executable V4 branch must terminate at output" ;;
  visited ← reach (1 + edge_count c) c [root] ∅;
  ws_fail_if (negb (bool_decide (size visited = length (wc_nodes c)))) "V4 requires one connected workflow graph" ;;
  passed ← passed_child c (_children c (pp_decision plan));
  downstream ← reach (1 + edge_count c) c [passed] ∅;
  let daily := map wn_id (filter (λ n, wn_action n = "daily_report") (wc_nodes c)) in
  ws_fail_if (existsb (λ id, negb (bool_decide (id ∈ downstream))) daily)
    "daily_report must be downstream of the verified post-join passed path" ;;
  ws_fail_if (bool_decide (pp_join plan ∈ downstream)) "parallel graph contains an invalid backward dependency" ;;
  Ok (c, root).

Definition _admit_v4 (sensitivity : string) (raw_contract : json) : result (wf_contract * string) :=
  c ← design_error (validate_contract_v4 raw_contract);
  plan ← _parallel_plan c;
  match plan with
  | None => _admit sensitivity (contract_json c)
  | Some plan =>
      ws_fail_if (negb (bool_decide (wc_trigger c = "manual"))) "schedule/event triggers remain design-only in ver.0.0.1" ;;
      ws_fail_if (negb (bool_decide (wc_risk_level c = "low"))) "ver.0.0.1 execution remains limited to low-risk workflows" ;;
      ws_fail_if (bool_decide (sensitivity = "secret")) "Workflow Studio cannot represent secret data class" ;;
      ws_fail_if (negb (bool_decide (wc_data_class c = sensitivity)))
        "workflow data_class must match the active WorkSpace confidentiality zone" ;;
      root ← single_root c "V4 requires exactly one input root";
      admit_parallel c plan root
  end.
