(* ===== verification/WorkflowState.v ===== *)
(** * The workflow state machine

    [workflow_state_machine.py]: the durable controllers that execute admitted workflows, of
    versions 3 and 4 and with the aggregate budget of version 4.  The files of a controller are
    explicit state; the task store, the validator bridge, the agents, the clock and the thread
    scheduler are an interface, [WorkflowRuntime], over a state of their own. *)

From Stdlib Require Import Ascii.
From Stdlib Require String.
From S2P Require Import Prelude PyStr Hashlib Json TaskContract WorkflowDesign WorkflowAdmission.
From S2P Require Import TaskStore ExecutionBudget LinkedBudget.

Local Open Scope Z_scope.

(** ** Exceptions of stateful code *)

(** [isinstance(e, Exception)]: an interrupt is not. *)
Definition is_exception (e : exn) : bool := negb (bool_decide (exn_cls e = PyKeyboardInterrupt)).

(** [try: m  except Exception as e: handler]. *)
Definition st_except {S A} (m : ST S A) (handler : exn → ST S A) : ST S A := λ s,
  match m s with
  | (Ok a, s') => (Ok a, s')
  | (Raise e, s') => if is_exception e then handler e s' else (Raise e, s')
  end.

(** [try: m  finally: cleanup]. *)
Definition st_finally {S A} (m : ST S A) (cleanup : ST S unit) : ST S A := λ s,
  let '(r, s') := m s in
  match cleanup s' with
  | (Ok _, s2) => (r, s2)
  | (Raise e, s2) => (Raise e, s2)
  end.

(** [type(e).__name__] and [str(e)]. *)
Definition exn_type_name (c : exn_class) : string :=
  match c with
  | PyValueError => "ValueError" | PyTypeError => "TypeError" | PyKeyError => "KeyError"
  | PyRuntimeError => "RuntimeError" | PyOverflowError => "OverflowError"
  | PyJSONDecodeError => "JSONDecodeError" | PyStopIteration => "StopIteration"
  | SqliteOperationalError => "OperationalError" | SqliteIntegrityError => "IntegrityError"
  | PyAttributeError => "AttributeError" | PyAssertionError => "AssertionError"
  | PyKeyboardInterrupt => "KeyboardInterrupt"
  | TaskContractError => "TaskContractError" | CapabilityAuthorityDenied => "CapabilityAuthorityDenied"
  | WorkflowDesignError => "WorkflowDesignError" | TaskContextError => "TaskContextError"
  | ContextManifestError => "ContextManifestError"
  | HarnessTaskCompilationError => "HarnessTaskCompilationError"
  | ExecutionPlanError => "ExecutionPlanError" | ExecutionObservationError => "ExecutionObservationError"
  | RuntimeSchedulerError => "RuntimeSchedulerError" | ExecutionSchedulerError => "ExecutionSchedulerError"
  | ExecutionBudgetExceeded => "ExecutionBudgetExceeded"
  | ExecutionCheckpointError => "ExecutionCheckpointError" | WorkflowStateError => "WorkflowStateError"
  | RuntimeWriterLeaseError => "RuntimeWriterLeaseError"
  | ExecutionWriterFenceError => "ExecutionWriterFenceError"
  | ExecutionDispatchBudgetError => "ExecutionDispatchBudgetError"
  | ExecutionRuntimeCompositionError => "ExecutionRuntimeCompositionError"
  | PersistentSchedulerError => "PersistentSchedulerError" | ZoneInfoNotFoundError => "ZoneInfoNotFoundError"
  | RuntimeCheckpointError => "RuntimeCheckpointError"
  | RuntimeDispatchRecoveryError => "RuntimeDispatchRecoveryError"
  | WorkflowDraftError => "WorkflowDraftError" | WorkflowDraftConflict => "WorkflowDraftConflict"
  | WorkflowDraftNotFound => "WorkflowDraftNotFound"
  end.
Definition exn_str (e : exn) : string :=
  if bool_decide (exn_cls e = PyKeyError) then repr_str (exn_msg e) else exn_msg e.

(** ** Data *)

Inductive controller := ControllerV3 | ControllerV4 | BudgetedControllerV4.
Definition is_v4 (v : controller) : bool := match v with ControllerV3 => false | _ => true end.

Definition STATE_SCHEMA_VERSION (v : controller) : string :=
  if is_v4 v then "workspace-workflow-state/v4" else "workspace-workflow-state/v3".
Definition EXECUTION_PROFILE : string := "workspace-checkpoint-graph/v1".
Definition EXECUTION_PROFILE_V4 : string := "workspace-bounded-parallel-dag/v1".
Definition profile_of (v : controller) : string := if is_v4 v then EXECUTION_PROFILE_V4 else EXECUTION_PROFILE.
(** The agent name of the activities the overridden methods record. *)
Definition agent_of (v : controller) : string := if is_v4 v then "workflow_v4" else "workflow_v3".
Definition WORKFLOW_MAX_WALL_TIME_MS : Z := 86400000.
Definition DISPLAY_VERSION : string := "ver.0.0.2".

Inductive TaskStatus :=
  | NEW | RESEARCHING | RESEARCH_COMPLETED | PRESENTATION_CREATING | PRESENTATION_COMPLETED
  | DONE | FAILED | WAITING_HUMAN.
#[export] Instance TaskStatus_eq_dec : EqDecision TaskStatus.
Proof. solve_decision. Defined.

Definition status_value (s : TaskStatus) : string :=
  match s with
  | NEW => "NEW" | RESEARCHING => "RESEARCHING" | RESEARCH_COMPLETED => "RESEARCH_COMPLETED"
  | PRESENTATION_CREATING => "PRESENTATION_CREATING" | PRESENTATION_COMPLETED => "PRESENTATION_COMPLETED"
  | DONE => "DONE" | FAILED => "FAILED" | WAITING_HUMAN => "WAITING_HUMAN"
  end.
(** [TaskStatus(text)]; [None] is its [ValueError]. *)
Definition status_of_value (text : string) : option TaskStatus :=
  find (λ s, bool_decide (status_value s = text))
    [NEW; RESEARCHING; RESEARCH_COMPLETED; PRESENTATION_CREATING; PRESENTATION_COMPLETED; DONE; FAILED; WAITING_HUMAN].

Record wf_options := {
  opt_language : string; opt_audience : string; opt_purpose : string; opt_slide_count : Z
}.

(** The entries of the state that no transition changes. *)
Record ws_header := {
  wh_schema_version : string;
  wh_task_id : string;
  wh_execution_profile : string;
  wh_workflow_sha256 : string;
  wh_task_contract_sha256 : string;
  wh_dispatch_fingerprint : string;
  wh_root_node : string;
  wh_options : wf_options;
  wh_created_at : string
}.

Record branch_choice := { bc_node_id : string; bc_outcome : string; bc_selected_node : option string }.

Record checkpoint := {
  cp_node_id : string; cp_fingerprint : string; cp_status : string; cp_prior_task_status : string;
  cp_decided_by : option string; cp_decision : option string
}.

Record validation := { va_source : string; va_passed : bool }.

Record region_branch := {
  rb_task_id : string; rb_research_node : string; rb_presentation_node : string; rb_status : string;
  rb_reason : option string
}.
Record parallel_region := {
  pr_status : string; pr_fork_node : string; pr_join_node : string; pr_max_workers : Z;
  pr_branches : list region_branch; pr_outcome : option string
}.

Record WorkflowState := {
  ws_head : ws_header;
  ws_status : string;
  ws_revision : Z;
  ws_current_node : option string;
  ws_completed_nodes : list string;
  ws_branch_history : list branch_choice;
  ws_checkpoint : option checkpoint;
  ws_last_validation : option validation;
  ws_runtime_bound : bool;
  ws_terminal_reason : option string;
  ws_error : option string;
  ws_initial_approver_ref : option string;
  ws_parallel_region : option parallel_region;
  ws_updated_at : string
}.

Definition ws_task_id (s : WorkflowState) : string := wh_task_id (ws_head s).

(** The assignments [state[key] = value]. *)
Definition set_ws_status (x : string) (s : WorkflowState) : WorkflowState :=
  Build_WorkflowState (ws_head s) x (ws_revision s) (ws_current_node s) (ws_completed_nodes s)
    (ws_branch_history s) (ws_checkpoint s) (ws_last_validation s) (ws_runtime_bound s) (ws_terminal_reason s)
    (ws_error s) (ws_initial_approver_ref s) (ws_parallel_region s) (ws_updated_at s).
Definition set_ws_revision (x : Z) (s : WorkflowState) : WorkflowState :=
  Build_WorkflowState (ws_head s) (ws_status s) x (ws_current_node s) (ws_completed_nodes s)
    (ws_branch_history s) (ws_checkpoint s) (ws_last_validation s) (ws_runtime_bound s) (ws_terminal_reason s)
    (ws_error s) (ws_initial_approver_ref s) (ws_parallel_region s) (ws_updated_at s).
Definition set_ws_current_node (x : option string) (s : WorkflowState) : WorkflowState :=
  Build_WorkflowState (ws_head s) (ws_status s) (ws_revision s) x (ws_completed_nodes s)
    (ws_branch_history s) (ws_checkpoint s) (ws_last_validation s) (ws_runtime_bound s) (ws_terminal_reason s)
    (ws_error s) (ws_initial_approver_ref s) (ws_parallel_region s) (ws_updated_at s).
Definition set_ws_completed_nodes (x : list string) (s : WorkflowState) : WorkflowState :=
  Build_WorkflowState (ws_head s) (ws_status s) (ws_revision s) (ws_current_node s) x
    (ws_branch_history s) (ws_checkpoint s) (ws_last_validation s) (ws_runtime_bound s) (ws_terminal_reason s)
    (ws_error s) (ws_initial_approver_ref s) (ws_parallel_region s) (ws_updated_at s).
Definition set_ws_branch_history (x : list branch_choice) (s : WorkflowState) : WorkflowState :=
  Build_WorkflowState (ws_head s) (ws_status s) (ws_revision s) (ws_current_node s) (ws_completed_nodes s)
    x (ws_checkpoint s) (ws_last_validation s) (ws_runtime_bound s) (ws_terminal_reason s)
    (ws_error s) (ws_initial_approver_ref s) (ws_parallel_region s) (ws_updated_at s).
Definition set_ws_checkpoint (x : option checkpoint) (s : WorkflowState) : WorkflowState :=
  Build_WorkflowState (ws_head s) (ws_status s) (ws_revision s) (ws_current_node s) (ws_completed_nodes s)
    (ws_branch_history s) x (ws_last_validation s) (ws_runtime_bound s) (ws_terminal_reason s)
    (ws_error s) (ws_initial_approver_ref s) (ws_parallel_region s) (ws_updated_at s).
Definition set_ws_last_validation (x : option validation) (s : WorkflowState) : WorkflowState :=
  Build_WorkflowState (ws_head s) (ws_status s) (ws_revision s) (ws_current_node s) (ws_completed_nodes s)
    (ws_branch_history s) (ws_checkpoint s) x (ws_runtime_bound s) (ws_terminal_reason s)
    (ws_error s) (ws_initial_approver_ref s) (ws_parallel_region s) (ws_updated_at s).
Definition set_ws_runtime_bound (x : bool) (s : WorkflowState) : WorkflowState :=
  Build_WorkflowState (ws_head s) (ws_status s) (ws_revision s) (ws_current_node s) (ws_completed_nodes s)
    (ws_branch_history s) (ws_checkpoint s) (ws_last_validation s) x (ws_terminal_reason s)
    (ws_error s) (ws_initial_approver_ref s) (ws_parallel_region s) (ws_updated_at s).
Definition set_ws_terminal_reason (x : option string) (s : WorkflowState) : WorkflowState :=
  Build_WorkflowState (ws_head s) (ws_status s) (ws_revision s) (ws_current_node s) (ws_completed_nodes s)
    (ws_branch_history s) (ws_checkpoint s) (ws_last_validation s) (ws_runtime_bound s) x
    (ws_error s) (ws_initial_approver_ref s) (ws_parallel_region s) (ws_updated_at s).
Definition set_ws_error (x : option string) (s : WorkflowState) : WorkflowState :=
  Build_WorkflowState (ws_head s) (ws_status s) (ws_revision s) (ws_current_node s) (ws_completed_nodes s)
    (ws_branch_history s) (ws_checkpoint s) (ws_last_validation s) (ws_runtime_bound s) (ws_terminal_reason s)
    x (ws_initial_approver_ref s) (ws_parallel_region s) (ws_updated_at s).
Definition set_ws_initial_approver_ref (x : option string) (s : WorkflowState) : WorkflowState :=
  Build_WorkflowState (ws_head s) (ws_status s) (ws_revision s) (ws_current_node s) (ws_completed_nodes s)
    (ws_branch_history s) (ws_checkpoint s) (ws_last_validation s) (ws_runtime_bound s) (ws_terminal_reason s)
    (ws_error s) x (ws_parallel_region s) (ws_updated_at s).
Definition set_ws_parallel_region (x : option parallel_region) (s : WorkflowState) : WorkflowState :=
  Build_WorkflowState (ws_head s) (ws_status s) (ws_revision s) (ws_current_node s) (ws_completed_nodes s)
    (ws_branch_history s) (ws_checkpoint s) (ws_last_validation s) (ws_runtime_bound s) (ws_terminal_reason s)
    (ws_error s) (ws_initial_approver_ref s) x (ws_updated_at s).
Definition set_ws_updated_at (x : string) (s : WorkflowState) : WorkflowState :=
  Build_WorkflowState (ws_head s) (ws_status s) (ws_revision s) (ws_current_node s) (ws_completed_nodes s)
    (ws_branch_history s) (ws_checkpoint s) (ws_last_validation s) (ws_runtime_bound s) (ws_terminal_reason s)
    (ws_error s) (ws_initial_approver_ref s) (ws_parallel_region s) x.

(** ** The collaborators *)

Inductive agent := ResearchAgent | PresentationAgent | DailyAgent.

(** The budget of an inference scope. *)
Inductive task_budget :=
  | OwnBudget (b : TaskExecutionBudgetState)
  | SharedBudget (l : LinkedTaskExecutionBudgetState).

(** The task store, the validator ledger and bridge, the agents in their inference scope, the
    clock and the thread scheduler, over a state [W]; any of their operations may raise.
    [runtime_begin] returns no budget when the attempt is incomplete, [agent_unload] nothing to
    call when the model's residency is managed, [lane_schedule] the interleaving of two threads
    and whether the first one is reported first. *)
Class WorkflowRuntime (W : Type) := {
  artifacts_root : string;
  bridge_sensitivity : string;
  bridge_public_web : bool;
  redact_sensitive_text : string → string;
  clock_now : ST W string;
  clock_date : ST W string;
  store_create_task : string → string → ST W string;
  store_status : string → ST W TaskStatus;
  store_set_status : string → TaskStatus → ST W unit;
  store_contract_sha256 : string → ST W (option string);
  store_validator_attempts : string → string → ST W (list Z);
  store_record_activity : string → string → string → string → string → ST W unit;
  store_record_artifact : string → string → string → string → ST W unit;
  ledger_bind_contract : TaskContract → ST W string;
  ledger_record : string → string → string → string → list string → string → Z → ST W unit;
  runtime_begin : string → option TaskContract → ST W (option TaskExecutionBudgetState);
  record_research_evidence : string → TaskStatus → ST W bool;
  record_presentation_validation : string → TaskStatus → ST W bool;
  evaluate_verified : string → ST W bool;
  budget_from_contract : string → ST W TaskExecutionBudgetState;
  budget_reserve_step : task_budget → ST W unit;
  budget_assert_active : TaskExecutionBudgetState → ST W unit;
  research_run : string → task_budget → ST W unit;
  presentation_run : string → wf_options → task_budget → ST W unit;
  daily_run : string → ST W unit;
  agent_unload : agent → option (ST W unit);
  lane_schedule : ST W (list bool * bool)
}.

(** A state file that this class wrote, one that is not an object, or text that does not parse;
    a contract file that parses or does not. *)
Inductive state_file := StateText | StateOther | StateFile (s : WorkflowState).
Inductive contract_file := ContractText | ContractJson (payload : json).

Record Sys (W : Type) := {
  sy_states : gmap string state_file;
  sy_contracts : gmap string contract_file;
  sy_world : W
}.
Arguments Build_Sys {W} _ _ _.
Arguments sy_states {W} _.
Arguments sy_contracts {W} _.
Arguments sy_world {W} _.

Definition set_sy_states {W} (x : gmap string state_file) (y : Sys W) : Sys W :=
  {| sy_states := x; sy_contracts := sy_contracts y; sy_world := sy_world y |}.
Definition set_sy_contracts {W} (x : gmap string contract_file) (y : Sys W) : Sys W :=
  {| sy_states := sy_states y; sy_contracts := x; sy_world := sy_world y |}.
Definition set_sy_world {W} (x : W) (y : Sys W) : Sys W :=
  {| sy_states := sy_states y; sy_contracts := sy_contracts y; sy_world := x |}.

Definition world {W A} (m : ST W A) : ST (Sys W) A := st_zoom sy_world set_sy_world m.
