(* ===== verification/WorkflowController.v ===== *)
(** * The operations of the workflow controllers

    [workflow_state_machine.py]: preparation, authorization, the run of a workflow up to its next
    checkpoint, the decision on a checkpoint, and the parallel region of version 4.  The state of
    a workflow is a value that the operations pass on; an exception drops it, and what the file
    holds is what was last written. *)

From Stdlib Require Import Ascii.
From Stdlib Require String.
From S2P Require Import Prelude PyStr Hashlib Json JsonFacts TaskContract WorkflowDesign WorkflowAdmission.
From S2P Require Import TaskStore ExecutionBudget LinkedBudget WorkflowState.

Local Open Scope Z_scope.

(** [PRESENTATION_PLAN_SCHEMA_V1] of [presentation_schemas.py]. *)
Definition PRESENTATION_PLAN_SCHEMA_V1 : list (string * json) :=
  let text (limits : list (string * json)) := JObj (("type", JStr "string") :: limits) in
  let texts (count limit : Z) := JObj [("type", JStr "array"); ("maxItems", JInt count);
    ("items", text [("minLength", JInt 1); ("maxLength", JInt limit)])] in
  [("type", JStr "object"); ("additionalProperties", JBool false);
   ("required", json_strs ["title"; "subtitle"; "slides"]);
   ("properties", JObj [
      ("title", text [("minLength", JInt 1); ("maxLength", JInt 300)]);
      ("subtitle", text [("maxLength", JInt 500)]);
      ("slides", JObj [("type", JStr "array"); ("minItems", JInt 1); ("maxItems", JInt 20);
         ("items", JObj [("type", JStr "object"); ("additionalProperties", JBool false);
            ("required", json_strs ["kind"; "title"; "claim_refs"; "proposal_points"; "context_points"; "speaker_notes"]);
            ("properties", JObj [
               ("kind", text [("enum", json_strs ["title"; "content"; "comparison"; "risks"; "decision"; "timeline"; "summary"])]);
               ("title", text [("minLength", JInt 1); ("maxLength", JInt 240)]);
               ("claim_refs", texts 4 64);
               ("proposal_points", texts 2 800);
               ("context_points", texts 2 800);
               ("speaker_notes", text [("maxLength", JInt 1200)])])])])])].

Definition _safe_task_id (task_id : string) : result string :=
  let safe := strip task_id in
  ws_fail_if (is_empty safe || mem_char "/" safe || mem_char backslash safe || contains safe "..")
    "invalid task_id" ;;
  Ok safe.

Definition _bounded_text (value field default_text : string) (limit : Z) : result string :=
  let text := squeeze (if is_empty value then default_text else value) in
  let text := if is_empty text then default_text else text in
  ws_fail_if (limit <? len text) (field +:+ " exceeds " +:+ str_of_Z limit +:+ " characters") ;;
  Ok text.

Section Controller.
Context {HL : Hashlib} {W : Type} {RT : WorkflowRuntime W}.
Variable v : controller.

Definition _canonical_sha256 (payload : json) : string := sha256_of_text (print_any payload).

Definition _actor_ref (actor_id : string) : result string :=
  let actor := strip actor_id in
  ws_fail_if (is_empty actor) "approver identity is required" ;;
  Ok (sha256_of_text actor).

(** ** Files *)

Definition workflow_root : string :=
  artifacts_root +:+ (if is_v4 v then "/workflow_state_v4" else "/workflow_state").
Definition _state_path (safe : string) : string := workflow_root +:+ "/" +:+ safe +:+ ".state.json".
Definition _contract_path (safe : string) : string := workflow_root +:+ "/" +:+ safe +:+ ".contract.json".

Definition _write_state (s : WorkflowState) : ST (Sys W) unit :=
  safe ← st_lift (_safe_task_id (ws_task_id s));
  st_modify (λ y, set_sy_states (<[safe := StateFile s]> (sy_states y)) y).

Definition _write_contract (task_id : string) (c : wf_contract) : ST (Sys W) unit :=
  safe ← st_lift (_safe_task_id task_id);
  st_modify (λ y, set_sy_contracts (<[safe := ContractJson (canon (contract_json c))]> (sy_contracts y)) y).

(** [state["updated_at"] = now], then the write. *)
Definition save (s : WorkflowState) : ST (Sys W) WorkflowState :=
  now ← world clock_now;
  let s := set_ws_updated_at now s in
  _write_state s ;; mret s.

Definition _load_state (task_id : string) : ST (Sys W) WorkflowState :=
  safe ← st_lift (_safe_task_id task_id);
  y ← st_get;
  match sy_states y !! safe with
  | None => st_lift (ws_fail "workflow state not found")
  | Some StateText => st_lift (ws_fail "workflow state is unreadable")
  | Some StateOther => st_lift (ws_fail "invalid workflow state")
  | Some (StateFile s) =>
      st_raise_if (negb (bool_decide (wh_schema_version (ws_head s) = STATE_SCHEMA_VERSION v)))
        WorkflowStateError "invalid workflow state" ;;
      st_raise_if (negb (bool_decide (ws_task_id s = task_id))) WorkflowStateError "workflow state task mismatch" ;;
      mret s
  end.

Definition validate_of (raw : json) : result wf_contract :=
  if is_v4 v then validate_contract_v4 raw else validate_contract raw.
(** The exceptions that [_load_contract] takes for an invalid contract. *)
Definition contract_error (c : exn_class) : bool :=
  if is_v4 v then is_value_error c
  else bool_decide (c = PyJSONDecodeError) || bool_decide (c = WorkflowDesignError).

Definition _load_contract (s : WorkflowState) : ST (Sys W) wf_contract :=
  safe ← st_lift (_safe_task_id (ws_task_id s));
  y ← st_get;
  match sy_contracts y !! safe with
  | None => st_lift (ws_fail "workflow contract artifact missing")
  | Some ContractText => st_lift (ws_fail "workflow contract artifact invalid")
  | Some (ContractJson raw) =>
      c ← st_lift (reraise (validate_of raw) contract_error WorkflowStateError "workflow contract artifact invalid");
      st_raise_if (negb (bool_decide (_canonical_sha256 (contract_json c) = wh_workflow_sha256 (ws_head s))))
        WorkflowStateError "workflow contract fingerprint mismatch" ;;
      mret c
  end.

(** ** Preparation *)

Definition admit_workflow (raw_contract : json) : result (wf_contract * string) :=
  if is_v4 v then _admit_v4 bridge_sensitivity raw_contract else _admit bridge_sensitivity raw_contract.

(** [self.compiler.compile(...)] with 24 hours for the checkpoints. *)
Definition _task_contract (task_id : string) : result TaskContract :=
  base ← compile {| rq_task_id := task_id; rq_task_type := "analysis"; rq_sensitivity := bridge_sensitivity;
                    rq_risk_level := "low"; rq_allowed_sources := []; rq_allowed_tools := None;
                    rq_write_scope := WsStr "none"; rq_public_web := bridge_public_web;
                    rq_output_schema := Some PRESENTATION_PLAN_SCHEMA_V1; rq_deterministic_only := false |};
  let b := tc_execution_budget base in
  TaskContract_validate {|
    tc_task_id := tc_task_id base; tc_task_type := tc_task_type base; tc_sensitivity := tc_sensitivity base;
    tc_risk_level := tc_risk_level base; tc_allowed_sources := tc_allowed_sources base;
    tc_allowed_tools := tc_allowed_tools base; tc_write_scope := tc_write_scope base;
    tc_network_scope := tc_network_scope base; tc_context_budget := tc_context_budget base;
    tc_generation_budget := tc_generation_budget base;
    tc_execution_budget := {| max_steps := max_steps b; max_tool_calls := max_tool_calls b;
      max_retries := max_retries b; max_escalations := max_escalations b;
      max_wall_time_ms := WORKFLOW_MAX_WALL_TIME_MS |};
    tc_evidence_required := tc_evidence_required base; tc_validators := tc_validators base;
    tc_model_policy := tc_model_policy base; tc_cache_policy := tc_cache_policy base;
    tc_logging_policy := tc_logging_policy base; tc_output_schema := tc_output_schema base;
    tc_schema_version := tc_schema_version base;
    tc_policy_reason_codes := tc_policy_reason_codes base ++
      [if is_v4 v then "WORKFLOW_V4_CHECKPOINT_24H_BOUND" else "WORKFLOW_V3_CHECKPOINT_24H_BOUND"] |}.

(** The keyword arguments of [prepare], checked. *)
Definition prepare_options (language audience purpose : string) (slide_count : json) (output_format : string)
    : result wf_options :=
  let language := lower (strip (if is_empty language then "ja" else language)) in
  ws_fail_if (negb (mem_str language ["ja"; "vi"; "en"])) "unsupported language" ;;
  audience ← _bounded_text audience "audience" "R&D internal" 120;
  purpose ← _bounded_text purpose "purpose" "inform" 80;
  slides ← match slide_count with
           | JInt n => if (3 <=? n) && (n <=? 20) then Ok n
                       else ws_fail "slide_count must be an integer between 3 and 20"
           | _ => ws_fail "slide_count must be an integer between 3 and 20"
           end;
  ws_fail_if (negb (bool_decide (lower (strip output_format) = "pptx")))
    (if is_v4 v then "ver.0.0.1 currently supports output_format=pptx only"
     else "V3 currently supports output_format=pptx only") ;;
  Ok {| opt_language := language; opt_audience := audience; opt_purpose := purpose; opt_slide_count := slides |}.

Definition dispatch_fingerprint (task_id workflow_sha contract_sha : string) : string :=
  _canonical_sha256 (JObj [
    ("schema_version", JStr (STATE_SCHEMA_VERSION v)); ("task_id", JStr task_id);
    ("workflow_sha256", JStr workflow_sha); ("task_contract_sha256", JStr contract_sha);
    ("execution_profile", JStr (profile_of v))]).

Definition prepared_state (task_id workflow_sha contract_sha root : string) (options : wf_options) (now : string)
    : WorkflowState := {|
  ws_head := {| wh_schema_version := STATE_SCHEMA_VERSION v; wh_task_id := task_id;
                wh_execution_profile := profile_of v; wh_workflow_sha256 := workflow_sha;
                wh_task_contract_sha256 := contract_sha;
                wh_dispatch_fingerprint := dispatch_fingerprint task_id workflow_sha contract_sha;
                wh_root_node := root; wh_options := options; wh_created_at := now |};
  ws_status := "prepared"; ws_revision := 1; ws_current_node := Some root; ws_completed_nodes := [];
  ws_branch_history := []; ws_checkpoint := None; ws_last_validation := None; ws_runtime_bound := false;
  ws_terminal_reason := None; ws_error := None; ws_initial_approver_ref := None; ws_parallel_region := None;
  ws_updated_at := now |}.

(** What the caller is told. *)
Definition preparation_json (s : WorkflowState) (tc : TaskContract) (parallel : bool) : json := JObj (
  [("schema_version", JStr (wh_schema_version (ws_head s)))]
  ++ (if is_v4 v then [("release_version", JStr DISPLAY_VERSION)] else [])
  ++ [("task_id", JStr (ws_task_id s)); ("status", JStr "prepared");
      ("execution_profile", JStr (profile_of v)); ("workflow_sha256", JStr (wh_workflow_sha256 (ws_head s)));
      ("task_contract_sha256", JStr (wh_task_contract_sha256 (ws_head s)));
      ("approval_fingerprint", JStr (wh_dispatch_fingerprint (ws_head s)));
      ("approval_required", JBool true); ("admin_approval_required", JBool true);
      ("execution_authorized", JBool false); ("risk_level", JStr "low"); ("sensitivity", JStr bridge_sensitivity);
      ("supports_pause_resume", JBool true); ("supports_deterministic_branching", JBool true)]
  ++ (if is_v4 v then [("supports_bounded_parallel_dag", JBool true); ("parallel_region_present", JBool parallel);
        ("parallel_max_workers", JInt WORKFLOW_V4_MAX_PARALLEL_WORKERS);
        ("parallel_max_branches", JInt WORKFLOW_V4_MAX_PARALLEL_BRANCHES)] else [])
  ++ match TaskContract_to_dict tc with
     | JObj d => [("budget", get d "execution_budget"); ("model_policy", get d "model_policy")]
     | _ => []
     end).

Definition prepare (raw_contract : json) (language audience purpose : string) (slide_count : json)
    (output_format : string) : ST (Sys W) json :=
  '(c, root_node) ← st_lift (admit_workflow raw_contract);
  options ← st_lift (prepare_options language audience purpose slide_count output_format);
  let workflow_sha := _canonical_sha256 (contract_json c) in
  task_id ← world (store_create_task (wc_title c) (wc_objective c));
  tc ← st_lift (_task_contract task_id);
  contract_sha ← world (ledger_bind_contract tc);
  _write_contract task_id c ;;
  now ← world clock_now;
  let s := prepared_state task_id workflow_sha contract_sha root_node options now in
  _write_state s ;;
  safe ← st_lift (_safe_task_id task_id);
  world (store_record_artifact task_id "workflow_state" (agent_of v +:+ "_contract") (_contract_path safe)) ;;
  world (store_record_artifact task_id "workflow_state" (agent_of v +:+ "_state") (_state_path safe)) ;;
  world (store_record_activity task_id (agent_of v) "workflow_prepared" "ok"
    ("profile=" +:+ profile_of v +:+ " workflow=" +:+ workflow_sha +:+ " contract=" +:+ contract_sha)) ;;
  plan ← st_lift (if is_v4 v then _parallel_plan c else Ok None);
  mret (preparation_json s tc (match plan with Some _ => true | None => false end)).

(** ** The summary of a workflow *)

Record public_checkpoint := { pc_node_id : string; pc_label : string; pc_fingerprint : string }.
Record summary := {
  sm_task_id : string;
  sm_status : string;
  sm_revision : Z;
  sm_current_node : option string;
  sm_completed_nodes : list string;
  sm_checkpoint : option public_checkpoint;
  sm_last_validation : option validation;
  sm_parallel_region : option parallel_region;
  sm_terminal_reason : option string;
  sm_error : option string
}.

Definition summary_of (c : wf_contract) (s : WorkflowState) : summary := {|
  sm_task_id := ws_task_id s; sm_status := if is_empty (ws_status s) then "unknown" else ws_status s;
  sm_revision := ws_revision s; sm_current_node := ws_current_node s; sm_completed_nodes := ws_completed_nodes s;
  sm_checkpoint := match ws_checkpoint s with
                   | Some cp =>
                       if bool_decide (cp_status cp = "pending") then
                         let label := match _node_map c (cp_node_id cp) with
                                      | Some n => if is_empty (wn_label n) then cp_node_id cp else wn_label n
                                      | None => cp_node_id cp
                                      end in
                         Some {| pc_node_id := cp_node_id cp; pc_label := take_str 120 label;
                                 pc_fingerprint := cp_fingerprint cp |}
                       else None
                   | None => None
                   end;
  sm_last_validation := match ws_last_validation s with
                        | Some va => Some {| va_source := if is_empty (va_source va) then "unknown" else va_source va;
                                             va_passed := va_passed va |}
                        | None => None
                        end;
  sm_parallel_region := if is_v4 v then ws_parallel_region s else None;
  sm_terminal_reason := ws_terminal_reason s; sm_error := ws_error s |}.

Definition _summary (s : WorkflowState) : ST (Sys W) summary :=
  c ← _load_contract s; mret (summary_of c s).

(** ** Running the nodes *)

Definition activity_of (agent : string) (s : WorkflowState) (action status details : string) : ST (Sys W) unit :=
  world (store_record_activity (ws_task_id s) agent action status details).

Definition _runtime_context (s : WorkflowState) : ST (Sys W) (WorkflowState * TaskExecutionBudgetState) :=
  let task_id := ws_task_id s in
  let bound_sha := wh_task_contract_sha256 (ws_head s) in
  tc ← st_lift (_task_contract task_id);
  st_raise_if (negb (bool_decide (_canonical_sha256 (TaskContract_to_dict tc) = bound_sha))) WorkflowStateError
    "runtime TaskContract compiler drift detected" ;;
  record ← world (store_contract_sha256 task_id);
  st_raise_if (negb (bool_decide (record = Some bound_sha))) WorkflowStateError
    "bound TaskContract no longer matches workflow state" ;;
  if negb (ws_runtime_bound s) then
    attempt ← world (runtime_begin task_id (Some tc));
    s ← save (set_ws_runtime_bound true s);
    match attempt with
    | Some budget => mret (s, budget)
    | None => st_lift (ws_fail "runtime authority binding incomplete")
    end
  else
    budget ← world (budget_from_contract task_id);
    mret (s, budget).

Definition _release_agent_model (a : agent) : ST (Sys W) unit :=
  match agent_unload a with
  | Some unload => st_except (world unload) (λ _, mret tt)
  | None => mret tt
  end.

Definition _next_unconditional (node_id : string) (c : wf_contract) : result (option string) :=
  match _children c node_id with
  | [] => Ok None
  | [child_id] =>
      child ← node_at c child_id;
      ws_fail_if (negb (is_empty (_normalized_condition child))) "conditioned edge requires deterministic selection" ;;
      Ok (Some child_id)
  | _ => ws_fail "branch node requires deterministic selection"
  end.

(** [self._normalized_condition(by_id[child_id]) == outcome]; a child is a node of the graph. *)
Definition has_condition (c : wf_contract) (outcome child_id : string) : bool :=
  match _node_map c child_id with Some n => bool_decide (_normalized_condition n = outcome) | None => false end.

Definition _select_branch (s : WorkflowState) (c : wf_contract) (node_id outcome : string)
    : result (WorkflowState * option string) :=
  let candidates := filter (λ id, has_condition c outcome id = true) (_children c node_id) in
  ws_fail_if (1 <? Z.of_nat (length candidates)) "ambiguous deterministic branch" ;;
  let selected := head candidates in
  Ok (set_ws_branch_history (ws_branch_history s ++
        [{| bc_node_id := node_id; bc_outcome := outcome; bc_selected_node := selected |}]) s, selected).

Definition add_completed (node_id : string) (s : WorkflowState) : WorkflowState :=
  if mem_str node_id (ws_completed_nodes s) then s
  else set_ws_completed_nodes (ws_completed_nodes s ++ [node_id]) s.

Definition _complete_node (s : WorkflowState) (node_id : string) (next_node : option string)
    : ST (Sys W) WorkflowState :=
  save (set_ws_revision (ws_revision s + 1) (set_ws_current_node next_node (add_completed node_id s))).

Definition checkpoint_fingerprint (s : WorkflowState) (node_id : string) (revision : Z) : string :=
  _canonical_sha256 (JObj [
    ("schema_version", JStr (STATE_SCHEMA_VERSION v)); ("task_id", JStr (ws_task_id s));
    ("workflow_sha256", JStr (wh_workflow_sha256 (ws_head s)));
    ("task_contract_sha256", JStr (wh_task_contract_sha256 (ws_head s))); ("node_id", JStr node_id);
    ("revision", JInt revision);
    ("completed_sha256", JStr (_canonical_sha256 (json_strs (ws_completed_nodes s))))]).

Definition _pause_for_approval (s : WorkflowState) (node : wf_node) : ST (Sys W) summary :=
  prior ← world (store_status (ws_task_id s));
  let revision := ws_revision s + 1 in
  let cp := {| cp_node_id := wn_id node; cp_fingerprint := checkpoint_fingerprint s (wn_id node) revision;
               cp_status := "pending"; cp_prior_task_status := status_value prior; cp_decided_by := None;
               cp_decision := None |} in
  s ← save (set_ws_checkpoint (Some cp) (set_ws_revision revision (set_ws_status "paused" s)));
  world (store_set_status (ws_task_id s) WAITING_HUMAN) ;;
  activity_of (agent_of v) s "approval_checkpoint_paused" "blocked"
    ("node=" +:+ wn_id node +:+ " revision=" +:+ str_of_Z revision) ;;
  _summary s.

Definition record_validation (source : string) (passed : bool) (s : WorkflowState) : WorkflowState :=
  set_ws_last_validation (Some {| va_source := source; va_passed := passed |}) s.

Definition _run_research (s : WorkflowState) : ST (Sys W) WorkflowState :=
  '(s, budget) ← _runtime_context s;
  st_finally (world (budget_reserve_step (OwnBudget budget)) ;; world (research_run (ws_task_id s) (OwnBudget budget)))
    (_release_agent_model ResearchAgent) ;;
  status ← world (store_status (ws_task_id s));
  passed ← world (record_research_evidence (ws_task_id s) status);
  save (record_validation "research" passed s).

(** [last.get("source") == "research" and last.get("passed") is True]. *)
Definition research_passed (s : WorkflowState) : bool :=
  match ws_last_validation s with
  | Some va => bool_decide (va_source va = "research") && va_passed va
  | None => false
  end.

Definition _run_presentation (s : WorkflowState) : ST (Sys W) WorkflowState :=
  st_raise_if (negb (research_passed s)) WorkflowStateError "presentation requires passed research evidence" ;;
  '(s, budget) ← _runtime_context s;
  st_finally (world (budget_reserve_step (OwnBudget budget)) ;;
              world (presentation_run (ws_task_id s) (wh_options (ws_head s)) (OwnBudget budget)))
    (_release_agent_model PresentationAgent) ;;
  status ← world (store_status (ws_task_id s));
  passed ← world (record_presentation_validation (ws_task_id s) status);
  save (record_validation "presentation" passed s).

Definition _run_daily_report (s : WorkflowState) : ST (Sys W) unit :=
  target_date ← world clock_date;
  st_finally (world (daily_run target_date)) (_release_agent_model DailyAgent) ;;
  activity_of "workflow_v3" s "daily_report_attached" "ok" ("date=" +:+ target_date).

(** The workflow ends blocked and its task failed. *)
Definition finish_blocked (reason : string) (s : WorkflowState) : ST (Sys W) summary :=
  s ← save (set_ws_terminal_reason (Some reason) (set_ws_status "blocked" s));
  status ← world (store_status (ws_task_id s));
  (if bool_decide (status = FAILED) then mret tt else world (store_set_status (ws_task_id s) FAILED)) ;;
  _summary s.

Definition validation_passed (s : WorkflowState) : bool :=
  match ws_last_validation s with Some va => va_passed va | None => false end.

Definition _finish_output (s : WorkflowState) (node_id : string) : ST (Sys W) summary :=
  s ← _complete_node s node_id None;
  if bool_decide (ws_terminal_reason s = Some "approval_rejected") then
    s ← save (set_ws_status "rejected" s);
    activity_of "workflow_v3" s "workflow_rejected" "blocked" "approval checkpoint rejected" ;;
    _summary s
  else if negb (validation_passed s) then finish_blocked "validation_failed" s
  else
    verified ← world (evaluate_verified (ws_task_id s));
    '(s, budget) ← _runtime_context s;
    world (budget_assert_active budget) ;;
    if negb verified then finish_blocked "required_validator_missing" s
    else
      world (store_set_status (ws_task_id s) DONE) ;;
      s ← save (set_ws_terminal_reason (Some "verified") (set_ws_status "completed" s));
      activity_of "workflow_v3" s "workflow_completed" "ok" ("verified=true output_node=" +:+ node_id) ;;
      _summary s.
End Controller.
