(* ===== verification/WorkflowMachine.v ===== *)
(** * Parallel regions, runs and decisions

    [workflow_state_machine.py]: the two lanes of a parallel region, whose threads take turns at
    the calls they make, the loop that runs a workflow node by node, and the calls of the
    gateway: [start], [decide_checkpoint] and [status]. *)

From Stdlib Require Import Ascii.
From Stdlib Require String.
From S2P Require Import Prelude PyStr Hashlib Json JsonFacts TaskContract WorkflowDesign WorkflowAdmission.
From S2P Require Import TaskStore ExecutionBudget LinkedBudget WorkflowState WorkflowController.

Local Open Scope Z_scope.

(** ** Threads *)

(** A thread: finished, or at a call and what it does with the call's outcome. *)
Inductive thread (W A : Type) :=
  | Finished (r : result A)
  | Calling {B : Type} (call : ST W B) (continue : result B → thread W A).
Arguments Finished {W A} r.
Arguments Calling {W A B} call continue.

Definition call {W B} (m : ST W B) : thread W B := Calling m Finished.

Fixpoint thread_bind {W A B} (t : thread W A) (k : A → thread W B) : thread W B :=
  match t with
  | Finished (Ok a) => k a
  | Finished (Raise e) => Finished (Raise e)
  | Calling m h => Calling m (λ r, thread_bind (h r) k)
  end.

(** [try: t  except Exception: handler]. *)
Fixpoint thread_except {W A} (t : thread W A) (handler : exn → thread W A) : thread W A :=
  match t with
  | Finished (Ok a) => Finished (Ok a)
  | Finished (Raise e) => if is_exception e then handler e else Finished (Raise e)
  | Calling m h => Calling m (λ r, thread_except (h r) handler)
  end.

Fixpoint run_thread {W A} (t : thread W A) (w : W) : result A * W :=
  match t with
  | Finished r => (r, w)
  | Calling m h => let '(r, w') := m w in run_thread (h r) w'
  end.

(** The turns name the thread that makes the next call, [true] for the first; when they are used
    up, or the thread named has finished, the threads run to their ends. *)
Fixpoint run_threads {W A} (turns : list bool) (t u : thread W A) (w : W) : (result A * result A) * W :=
  match turns, t, u with
  | true :: turns, Calling m h, u => let '(r, w') := m w in run_threads turns (h r) u w'
  | false :: turns, t, Calling m h => let '(r, w') := m w in run_threads turns t (h r) w'
  | _, t, u => let '(a, w1) := run_thread t w in let '(b, w2) := run_thread u w1 in ((a, b), w2)
  end.

Record lane_result := {
  lr_task_id : string; lr_research_node : string; lr_presentation_node : string; lr_verified : bool;
  lr_reason : string
}.

Section Machine.
Context {HL : Hashlib} {W : Type} {RT : WorkflowRuntime W}.
Variable v : controller.

Notation "x ←ₜ t ; k" := (thread_bind t (λ x, k)) (at level 100, t at level 99, k at level 200, right associativity).

(** ** The lanes *)

(** [_child_runtime]: the budget of the lane, linked to the parent's when that is bound. *)
Definition _child_runtime (parent : option TaskExecutionBudgetState) (task_id : string) : thread W task_budget :=
  attempt ←ₜ call (runtime_begin task_id None);
  match attempt with
  | None => Finished (ws_fail "parallel child runtime authority binding incomplete")
  | Some child =>
      match parent with
      | None => Finished (Ok (OwnBudget child))
      | Some parent => Finished (l ← from_states parent child "" ""; Ok (SharedBudget l))
      end
  end.

Definition fail_child (child : string) : thread W unit :=
  status ←ₜ call (store_status child);
  if bool_decide (status = FAILED) then Finished (Ok tt) else call (store_set_status child FAILED).

(** What the lane does once its runtime is bound. *)
Definition lane_body (options : wf_options) (child : string) (budget : task_budget) : thread W (bool * string) :=
  _ ←ₜ call (budget_reserve_step budget);
  _ ←ₜ call (research_run child budget);
  status ←ₜ call (store_status child);
  evidence_passed ←ₜ call (record_research_evidence child status);
  if negb evidence_passed then
    _ ←ₜ fail_child child;
    Finished (Ok (false, "research_evidence_failed"))
  else
    _ ←ₜ call (budget_reserve_step budget);
    _ ←ₜ call (presentation_run child options budget);
    status ←ₜ call (store_status child);
    schema_passed ←ₜ call (record_presentation_validation child status);
    verification ←ₜ call (evaluate_verified child);
    let verified := schema_passed && verification in
    _ ←ₜ call (store_set_status child (if verified then DONE else FAILED));
    Finished (Ok (verified, if verified then "verified" else "required_validator_missing")).

Definition run_lane (parent : option TaskExecutionBudgetState) (options : wf_options) (b : region_branch)
    : thread W lane_result :=
  let child := rb_task_id b in
  budget ←ₜ _child_runtime parent child;
  r ←ₜ thread_except (lane_body options child budget)
         (λ _, _ ←ₜ thread_except (fail_child child) (λ _, Finished (Ok tt));
               Finished (Ok (false, "runtime_exception")));
  Finished (Ok {| lr_task_id := child; lr_research_node := rb_research_node b;
                  lr_presentation_node := rb_presentation_node b; lr_verified := r.1; lr_reason := r.2 |}).

(** [_run_parallel_lane]; the budgeted controller binds the parent's budget first. *)
Definition _run_parallel_lane (s : WorkflowState) (b : region_branch) : thread W lane_result :=
  match v with
  | BudgetedControllerV4 =>
      let parent_task_id := strip (ws_task_id s) in
      if is_empty parent_task_id then Finished (ws_fail "parallel parent task identity is missing")
      else
        parent ←ₜ call (budget_from_contract parent_task_id);
        run_lane (Some parent) (wh_options (ws_head s)) b
  | _ => run_lane None (wh_options (ws_head s)) b
  end.

(** The pool: both lanes run to their ends, then the results are taken in the order in which
    the lanes are reported; the first one that raised raises. *)
Definition run_lanes (s : WorkflowState) (b1 b2 : region_branch) : ST W (list lane_result) :=
  '(turns, first) ← lane_schedule;
  '(r1, r2) ← (λ w, let '(rs, w') := run_threads turns (_run_parallel_lane s b1) (_run_parallel_lane s b2) w in
                    (Ok rs, w'));
  if first : bool then (a ← st_lift r1; b ← st_lift r2; mret [a; b])
  else (b ← st_lift r2; a ← st_lift r1; mret [b; a]).

(** ** The region *)

Definition insert_result (r : lane_result) (l : list lane_result) : list lane_result :=
  match l with
  | [x] => if bool_decide (String.le (lr_task_id x) (lr_task_id r)) then [x; r] else [r; x]
  | _ => r :: l
  end.
(** [results.sort(key=task_id)] of at most two results. *)
Definition sort_results (l : list lane_result) : list lane_result := foldl (λ acc r, insert_result r acc) [] l.

Definition _record_parent_parallel_validation (s : WorkflowState) (results : list lane_result)
    : ST (Sys W) (WorkflowState * bool) :=
  let child_refs := map lr_task_id results in
  let all_verified := match results with [] => false | _ => forallb lr_verified results end in
  st_iterM (λ validator,
    existing ← world (store_validator_attempts (ws_task_id s) validator);
    world (ledger_record (ws_task_id s) validator (if all_verified then "passed" else "failed")
      (if all_verified then "PARALLEL_CHILDREN_VERIFIED" else "PARALLEL_CHILD_UNVERIFIED") child_refs
      "parallel-aggregate/v1" (match existing with [] => 0 | a :: l => foldr Z.max a l end + 1))) ["evidence"; "schema"] ;;
  mret (record_validation "parallel_branches" all_verified s, all_verified).

Definition set_region (status : string) (branches : list region_branch) (outcome : option string)
    (plan : parallel_plan) (s : WorkflowState) : WorkflowState :=
  set_ws_parallel_region (Some {| pr_status := status; pr_fork_node := pp_fork plan; pr_join_node := pp_join plan;
    pr_max_workers := WORKFLOW_V4_MAX_PARALLEL_WORKERS; pr_branches := branches; pr_outcome := outcome |}) s.

(** A child task for each lane. *)
Fixpoint create_branches (c : wf_contract) (index : Z) (lanes : list lane) : ST (Sys W) (list region_branch) :=
  match lanes with
  | [] => mret []
  | l :: lanes =>
      research_node ← st_lift (node_at c (ln_research l));
      child ← world (store_create_task (wc_title c +:+ " " +:+ String "183"%char (" parallel lane " +:+ str_of_Z index))
                (wc_objective c +:+ " " +:+ String "183"%char (" lane=" +:+ wn_label research_node)));
      rest ← create_branches c (index + 1) lanes;
      mret ({| rb_task_id := child; rb_research_node := ln_research l; rb_presentation_node := ln_presentation l;
               rb_status := "prepared"; rb_reason := None |} :: rest)
  end.

(** The branch with the result of its task; a later result for one task replaces an earlier one. *)
Definition branch_result (results : list lane_result) (b : region_branch) : region_branch :=
  let result := find (λ r, bool_decide (lr_task_id r = rb_task_id b)) (rev results) in
  {| rb_task_id := rb_task_id b; rb_research_node := rb_research_node b;
     rb_presentation_node := rb_presentation_node b;
     rb_status := match result with Some r => if lr_verified r then "verified" else "failed" | None => "failed" end;
     rb_reason := Some (match result with Some r => if is_empty (lr_reason r) then "unknown" else lr_reason r
                                        | None => "unknown" end) |}.

Definition region_status (s : WorkflowState) : string :=
  match ws_parallel_region s with Some r => pr_status r | None => "" end.

Definition _run_parallel_region (s : WorkflowState) (c : wf_contract) (plan : parallel_plan)
    : ST (Sys W) WorkflowState :=
  st_raise_if (mem_str (region_status s) ["starting"; "running"]) WorkflowStateError
    "automatic replay of an interrupted parallel region is denied" ;;
  st_raise_if (bool_decide (region_status s = "completed")) WorkflowStateError
    "completed parallel region cannot be replayed" ;;
  '(s, parent_budget) ← _runtime_context v s;
  world (budget_reserve_step (OwnBudget parent_budget)) ;;
  s ← save (set_region "starting" [] None plan s);
  branches ← create_branches c 1 (pp_lanes plan);
  s ← save (set_region "running" branches None plan s);
  activity_of "workflow_v4" s "parallel_region_started" "ok"
    ("branches=" +:+ str_of_Z (Z.of_nat (length branches)) +:+ " max_workers="
       +:+ str_of_Z WORKFLOW_V4_MAX_PARALLEL_WORKERS) ;;
  results ← st_finally
    (match branches with [b1; b2] => world (run_lanes s b1 b2) | _ => mret [] end)
    (_release_agent_model ResearchAgent ;; _release_agent_model PresentationAgent);
  let results := sort_results results in
  '(s, all_verified) ← _record_parent_parallel_validation s results;
  let outcome := if all_verified : bool then "passed" else "failed" in
  s ← save (set_region "completed" (map (branch_result results) branches) (Some outcome) plan s);
  activity_of "workflow_v4" s "parallel_region_completed" (if all_verified then "ok" else "blocked")
    ("outcome=" +:+ outcome +:+ " branches=" +:+ str_of_Z (Z.of_nat (length results))) ;;
  mret s.

Definition _complete_parallel_region (s : WorkflowState) (c : wf_contract) (plan : parallel_plan)
    : ST (Sys W) WorkflowState :=
  let done_nodes := pp_fork plan :: concat (map (λ l, [ln_research l; ln_presentation l]) (pp_lanes plan))
                      ++ [pp_join plan] in
  let s := fold_left (λ s id, add_completed id s) done_nodes s in
  next_node ← st_lift (_next_unconditional (pp_join plan) c);
  save (set_ws_revision (ws_revision s + 1) (set_ws_current_node next_node s)).

(** ** The loop *)

(** What a round leads to: the next round, or the end of the call. *)
Inductive outcome_of_round :=
  | Continue (s : WorkflowState)
  | Return (m : summary).

Definition complete_and_go (s : WorkflowState) (c : wf_contract) (node_id : string) : ST (Sys W) outcome_of_round :=
  next ← st_lift (_next_unconditional node_id c);
  s ← _complete_node s node_id next;
  mret (Continue s).

Definition decide_node (s : WorkflowState) (c : wf_contract) (node_id : string) : ST (Sys W) outcome_of_round :=
  match ws_last_validation s with
  | None => st_lift (ws_fail "decision node has no authoritative validator result")
  | Some last =>
      let outcome := if va_passed last then "passed" else "failed" in
      '(s, selected) ← st_lift (_select_branch s c node_id outcome);
      match selected with
      | None => st_lift (ws_fail ("decision branch " +:+ outcome +:+ " has no target"))
      | Some next => s ← _complete_node s node_id (Some next); mret (Continue s)
      end
  end.

Definition fork_node (s : WorkflowState) (c : wf_contract) (plan : option parallel_plan) (node_id : string)
    : ST (Sys W) outcome_of_round :=
  match plan with
  | Some plan =>
      st_raise_if (negb (bool_decide (node_id = pp_fork plan))) WorkflowStateError
        "parallel fork is not bound to the admitted region" ;;
      s ← _run_parallel_region s c plan;
      s ← _complete_parallel_region s c plan;
      mret (Continue s)
  | None => st_lift (ws_fail "parallel fork is not bound to the admitted region")
  end.

Definition run_node (c : wf_contract) (plan : option parallel_plan) (s : WorkflowState) (node_id : string)
    : ST (Sys W) outcome_of_round :=
  node ← st_lift (match _node_map c node_id with
                  | Some n => Ok n
                  | None => ws_fail "current workflow node no longer exists"
                  end);
  let action := wn_action node in
  activity_of (agent_of v) s "node_entered" "ok" ("node=" +:+ node_id +:+ " action=" +:+ action) ;;
  if bool_decide (action = "input") then complete_and_go s c node_id
  else if bool_decide (action = "research") then
    s ← _run_research v s; complete_and_go s c node_id
  else if is_kind "validation" node then
    match ws_last_validation s with
    | None => st_lift (ws_fail "validation node has no authoritative validator result")
    | Some _ => complete_and_go s c node_id
    end
  else if is_kind "decision" node then decide_node s c node_id
  else if is_kind "approval" node then m ← _pause_for_approval v s node; mret (Return m)
  else if is_v4 v && bool_decide (action = "parallel_fork") then fork_node s c plan node_id
  else if is_v4 v && bool_decide (action = "parallel_join") then
    st_lift (ws_fail "parallel join cannot be entered independently")
  else if bool_decide (action = "presentation") then
    s ← _run_presentation v s; complete_and_go s c node_id
  else if bool_decide (action = "daily_report") then
    _run_daily_report s ;; complete_and_go s c node_id
  else if bool_decide (action = "output") then m ← _finish_output v s node_id; mret (Return m)
  else st_lift (ws_fail ("unsupported runtime action: " +:+ action)).

(** [while state.get("current_node")]; each round goes to a node further down the graph, so as
    many rounds as there are nodes are enough, and one to find the end. *)
Fixpoint advance_loop (fuel : nat) (c : wf_contract) (plan : option parallel_plan) (s : WorkflowState)
    : ST (Sys W) (option summary) :=
  match fuel with
  | O => mret None
  | S fuel =>
      match ws_current_node s with
      | Some node_id =>
          if is_empty node_id then st_lift (ws_fail "workflow terminated without an output node")
          else
            o ← run_node c plan s node_id;
            match o with
            | Continue s => advance_loop fuel c plan s
            | Return m => mret (Some m)
            end
      | None => st_lift (ws_fail "workflow terminated without an output node")
      end
  end.

Definition _advance (s : WorkflowState) (c : wf_contract) : ST (Sys W) (option summary) :=
  plan ← st_lift (if is_v4 v then _parallel_plan c else Ok None);
  s ← save (set_ws_status "running" s);
  advance_loop (length (wc_nodes c) + 1) c plan s.

(** ** The calls *)

Definition _mark_runtime_failure (task_id : string) (e : exn) : ST (Sys W) unit :=
  let safe := take_str 400 (redact_sensitive_text (exn_type_name (exn_cls e) +:+ ": " +:+ exn_str e)) in
  s ← _load_state v task_id;
  save (set_ws_terminal_reason (Some "runtime_exception") (set_ws_error (Some safe) (set_ws_status "failed" s))) ;;
  current ← world (store_status task_id);
  (if bool_decide (current = FAILED) || bool_decide (current = WAITING_HUMAN) then mret tt
   else world (store_set_status task_id FAILED)) ;;
  world (store_record_activity task_id "workflow_v3" "workflow_failed" "error" safe).

(** [try: return self._advance(state, contract)  except Exception: mark the failure and raise]. *)
Definition advance_or_fail (task_id : string) (s : WorkflowState) (c : wf_contract) : ST (Sys W) (option summary) :=
  st_except (_advance s c) (λ e, _mark_runtime_failure task_id e ;; st_lift (Raise e)).

Definition workflow_start (task_id approval_fingerprint confirmation approver_id : string)
    : ST (Sys W) (option summary) :=
  s ← _load_state v task_id;
  st_raise_if (negb (bool_decide (ws_status s = "prepared"))) WorkflowStateError
    "workflow preparation is not startable" ;;
  st_raise_if (negb (bool_decide (strip approval_fingerprint = wh_dispatch_fingerprint (ws_head s))))
    WorkflowStateError "dispatch approval fingerprint mismatch" ;;
  st_raise_if (negb (bool_decide (strip confirmation = "AUTHORIZE"))) WorkflowStateError
    "explicit AUTHORIZE confirmation is required" ;;
  actor ← st_lift (_actor_ref approver_id);
  s ← save (set_ws_revision (ws_revision s + 1) (set_ws_status "running" (set_ws_initial_approver_ref (Some actor) s)));
  world (store_record_activity task_id "workflow_v3" "workflow_authorized" "ok"
    ("profile=" +:+ EXECUTION_PROFILE +:+ " approver=" +:+ actor)) ;;
  c ← _load_contract v s;
  advance_or_fail task_id s c.

(** The state after a decision on its checkpoint. *)
Definition decided_state (s : WorkflowState) (cp : checkpoint) (actor normalized : string) (selected : option string)
    : WorkflowState :=
  let cp := {| cp_node_id := cp_node_id cp; cp_fingerprint := cp_fingerprint cp; cp_status := "decided";
               cp_prior_task_status := cp_prior_task_status cp; cp_decided_by := Some actor;
               cp_decision := Some normalized |} in
  set_ws_current_node selected (set_ws_revision (ws_revision s + 1)
    (add_completed (cp_node_id cp) (set_ws_checkpoint (Some cp) s))).

(** [decide_checkpoint] after its guards. *)
Definition apply_decision (task_id : string) (s : WorkflowState) (cp : checkpoint) (approve : bool) (actor : string)
    : ST (Sys W) (option summary) :=
  let normalized := if approve then "APPROVE" else "REJECT" in
  let node_id := cp_node_id cp in
  c ← _load_contract v s;
  '(s, selected) ← st_lift (_select_branch s c node_id (if approve then "approved" else "rejected"));
  st_raise_if (approve && match selected with None => true | Some _ => false end) WorkflowStateError
    "approval checkpoint has no approved branch" ;;
  prior ← st_lift (match status_of_value (if is_empty (cp_prior_task_status cp) then "NEW" else cp_prior_task_status cp) with
                   | Some st => Ok st
                   | None => ws_fail "checkpoint prior task status is invalid"
                   end);
  now ← world clock_now;
  let s := set_ws_updated_at now (decided_state s cp actor normalized selected) in
  world (store_set_status task_id prior) ;;
  let s := if approve then s else set_ws_terminal_reason (Some "approval_rejected") s in
  match selected with
  | None =>
      let s := set_ws_status "rejected" s in
      _write_state s ;;
      world (store_record_activity task_id "workflow_v3" "approval_checkpoint_rejected" "blocked"
        ("node=" +:+ node_id +:+ " approver=" +:+ actor)) ;;
      mret (Some (summary_of v c s))
  | Some _ =>
      let s := set_ws_status "running" s in
      _write_state s ;;
      world (store_record_activity task_id "workflow_v3" "approval_checkpoint_decided"
        (if approve then "ok" else "blocked")
        ("node=" +:+ node_id +:+ " decision=" +:+ normalized +:+ " approver=" +:+ actor)) ;;
      advance_or_fail task_id s c
  end.

Definition decide_checkpoint (task_id checkpoint_fingerprint decision confirmation approver_id : string)
    : ST (Sys W) (option summary) :=
  s ← _load_state v task_id;
  st_raise_if (negb (bool_decide (ws_status s = "paused"))) WorkflowStateError
    "workflow is not paused at an approval checkpoint" ;;
  match ws_checkpoint s with
  | None => st_lift (ws_fail "approval checkpoint is not pending")
  | Some cp =>
      st_raise_if (negb (bool_decide (cp_status cp = "pending"))) WorkflowStateError
        "approval checkpoint is not pending" ;;
      st_raise_if (negb (bool_decide (strip checkpoint_fingerprint = cp_fingerprint cp))) WorkflowStateError
        "checkpoint fingerprint mismatch" ;;
      let normalized := upper (strip decision) in
      st_raise_if (negb (mem_str normalized ["APPROVE"; "REJECT"])) WorkflowStateError
        "decision must be APPROVE or REJECT" ;;
      st_raise_if (negb (bool_decide (strip confirmation = normalized))) WorkflowStateError
        ("explicit " +:+ normalized +:+ " confirmation is required") ;;
      actor ← st_lift (_actor_ref approver_id);
      apply_decision task_id s cp (bool_decide (normalized = "APPROVE")) actor
  end.

Definition workflow_status (task_id : string) : ST (Sys W) summary :=
  s ← _load_state v task_id; _summary v s.
End Machine.
