(* ===== verification/WorkflowDesk.v ===== *)
(** * A desk for workflows

    A concrete [WorkflowRuntime] and sample workflows, on which the theorems about the workflow
    controllers are instantiated: tasks are numbered, agents log their runs, and validators
    answer what the desk says. *)

From Stdlib Require Import Ascii.
From Stdlib Require String.
From S2P Require Import Prelude PyStr Hashlib Json JsonFacts TaskContract WorkflowDesign WorkflowAdmission.
From S2P Require Import TaskStore ExecutionBudget LinkedBudget WorkflowState WorkflowController WorkflowMachine.

Local Open Scope Z_scope.

Record desk := {
  dk_ticks : Z;
  dk_next : Z;
  dk_status : gmap string TaskStatus;
  dk_contracts : gmap string string;
  dk_log : list string;
  dk_evidence : bool;
  dk_schema : bool;
  dk_locked : bool
}.

Definition desk_with (f : gmap string TaskStatus → gmap string TaskStatus) (entry : list string) (d : desk) : desk := {|
  dk_ticks := dk_ticks d + 1; dk_next := dk_next d; dk_status := f (dk_status d); dk_contracts := dk_contracts d;
  dk_log := dk_log d ++ entry; dk_evidence := dk_evidence d; dk_schema := dk_schema d; dk_locked := dk_locked d |}.
Definition note (entry : string) : ST desk unit := st_modify (desk_with id [entry]).

Definition desk_create (title request : string) : ST desk string := λ d,
  let task_id := "TASK-" +:+ str_of_Z (dk_next d) in
  (Ok task_id, {| dk_ticks := dk_ticks d + 1; dk_next := dk_next d + 1; dk_status := <[task_id := NEW]> (dk_status d);
                  dk_contracts := dk_contracts d; dk_log := dk_log d; dk_evidence := dk_evidence d;
                  dk_schema := dk_schema d; dk_locked := dk_locked d |}).
Definition desk_status (task_id : string) : ST desk TaskStatus := λ d,
  (match dk_status d !! task_id with
   | Some s => Ok s | None => raise PyKeyError ("Unknown task_id: " +:+ task_id) end, d).
Definition desk_set_status (task_id : string) (status : TaskStatus) : ST desk unit :=
  st_modify (desk_with <[task_id := status]> []).
Definition desk_bind (sha : string) (task_id : string) : ST desk string := λ d,
  (Ok sha, {| dk_ticks := dk_ticks d; dk_next := dk_next d; dk_status := dk_status d;
              dk_contracts := <[task_id := sha]> (dk_contracts d); dk_log := dk_log d; dk_evidence := dk_evidence d;
              dk_schema := dk_schema d; dk_locked := dk_locked d |}).

Definition desk_budget (task_id : string) : TaskExecutionBudgetState := {|
  tb_task_id := task_id; tb_max_steps := 12; tb_max_tool_calls := 10; tb_max_model_retries := 1;
  tb_max_model_escalations := 1; tb_max_wall_time_ms := 86400000; tb_deadline_at := "2026-07-02T09:00:00+09:00" |}.

(** A locked database refuses activities. *)
Definition desk_activity (task_id agent action status details : string) : ST desk unit :=
  d ← st_get;
  if dk_locked d then st_lift (raise SqliteOperationalError "database is locked") else note (action +:+ " " +:+ details).

#[export] Instance desk_runtime {HL : Hashlib} : WorkflowRuntime desk := {|
  artifacts_root := "/srv/artifacts"; bridge_sensitivity := "internal"; bridge_public_web := false;
  redact_sensitive_text := id;
  clock_now := d ← st_get; mret ("t" +:+ str_of_Z (dk_ticks d)); clock_date := mret "2026-07-01";
  store_create_task := desk_create; store_status := desk_status; store_set_status := desk_set_status;
  store_contract_sha256 task_id := d ← st_get; mret (dk_contracts d !! task_id);
  store_validator_attempts _ _ := mret []; store_record_activity := desk_activity;
  store_record_artifact _ _ _ path := note path;
  ledger_bind_contract tc := desk_bind (sha256_of_text (print_any (TaskContract_to_dict tc))) (tc_task_id tc);
  ledger_record task_id validator status _ _ _ _ := note (task_id +:+ " " +:+ validator +:+ " " +:+ status);
  runtime_begin task_id _ := mret (Some (desk_budget task_id));
  record_research_evidence _ _ := d ← st_get; mret (dk_evidence d);
  record_presentation_validation _ _ := d ← st_get; mret (dk_schema d);
  evaluate_verified _ := mret true;
  budget_from_contract task_id := mret (desk_budget task_id);
  budget_reserve_step _ := mret tt; budget_assert_active _ := mret tt;
  research_run task_id _ := note ("research " +:+ task_id) ;; desk_set_status task_id RESEARCH_COMPLETED;
  presentation_run task_id _ _ := note ("presentation " +:+ task_id) ;; desk_set_status task_id PRESENTATION_COMPLETED;
  daily_run date := note ("daily report " +:+ date);
  agent_unload _ := None;
  lane_schedule := mret ([true; false; true; false; false], true)
|}.

Definition clean_desk (evidence schema : bool) : Sys desk := Build_Sys ∅ ∅ {|
  dk_ticks := 0; dk_next := 1; dk_status := ∅; dk_contracts := ∅; dk_log := []; dk_evidence := evidence;
  dk_schema := schema; dk_locked := false |}.

(** ** Sample workflows *)

Definition sample_node (id kind action condition : string) (deps : list string) : json := JObj [
  ("id", JStr id); ("label", JStr id); ("kind", JStr kind); ("action", JStr action); ("condition", JStr condition);
  ("approval_required", JBool (bool_decide (kind = "approval"))); ("depends_on", JList (map JStr deps))].

Definition workflow_of (nodes : list json) : json := JObj [
  ("title", JStr "Weekly survey"); ("objective", JStr "Collect and present the week"); ("trigger", JStr "manual");
  ("risk_level", JStr "low"); ("data_class", JStr "internal"); ("nodes", JList nodes); ("outputs", JList []);
  ("warnings", JList [])].

(** Research, a decision, an approval, then presentation and daily report. *)
Definition approval_workflow : json := workflow_of [
  sample_node "start" "input" "input" "" []; sample_node "find" "agent" "research" "" ["start"];
  sample_node "check" "decision" "validate" "" ["find"]; sample_node "stop" "output" "output" "failed" ["check"];
  sample_node "ask" "approval" "human_approval" "passed" ["check"];
  sample_node "no" "output" "output" "rejected" ["ask"]; sample_node "show" "agent" "presentation" "approved" ["ask"];
  sample_node "report" "agent" "daily_report" "" ["show"]; sample_node "done" "output" "output" "" ["report"]].

(** Two lanes, a decision on both, an approval, then the daily report. *)
Definition lanes_workflow : json := workflow_of [
  sample_node "start" "input" "input" "" []; sample_node "fork" "parallel" "parallel_fork" "" ["start"];
  sample_node "find_a" "agent" "research" "" ["fork"]; sample_node "find_b" "agent" "research" "" ["fork"];
  sample_node "show_a" "agent" "presentation" "" ["find_a"]; sample_node "show_b" "agent" "presentation" "" ["find_b"];
  sample_node "join" "parallel" "parallel_join" "" ["show_a"; "show_b"];
  sample_node "check" "decision" "validate" "" ["join"]; sample_node "stop" "output" "output" "failed" ["check"];
  sample_node "ask" "approval" "human_approval" "passed" ["check"];
  sample_node "no" "output" "output" "rejected" ["ask"];
  sample_node "report" "agent" "daily_report" "approved" ["ask"]; sample_node "done" "output" "output" "" ["report"]].

Section Samples.
Context {HL : Hashlib}.

Definition prepare_sample (v : controller) (raw : json) : ST (Sys desk) json :=
  prepare v raw "en" "" "" (JInt 6) "pptx".

Definition file_of (task_id : string) (y : Sys desk) : option WorkflowState :=
  match sy_states y !! task_id with Some (StateFile s) => Some s | _ => None end.

(** Authorize the workflow of [task_id] with its fingerprint; decide its checkpoint. *)
Definition start_sample (v : controller) (task_id : string) : ST (Sys desk) (option summary) :=
  y ← st_get;
  let fp := match file_of task_id y with Some s => wh_dispatch_fingerprint (ws_head s) | None => "" end in
  workflow_start v task_id fp "AUTHORIZE" "admin".
Definition decide_sample (v : controller) (task_id decision : string) : ST (Sys desk) (option summary) :=
  y ← st_get;
  let fp := match file_of task_id y with
            | Some s => match ws_checkpoint s with Some cp => cp_fingerprint cp | None => "" end
            | None => ""
            end in
  decide_checkpoint v task_id fp decision decision "admin".
End Samples.
