(* ===== verification/WorkflowAdmissionFacts.v ===== *)
(** * Facts about workflow admission

    The graph that admission walks is the dependency relation of the workflow; version 3 admits
    exactly the bounded trees of its specification, and what version 4 admits has one parallel
    region whose failure cannot reach the daily report. *)

From Stdlib Require Import Ascii.
From Stdlib Require String.
From S2P Require Import Prelude PyStr Json WorkflowDesign WorkflowGraph WorkflowFacts WorkflowAdmission.

Local Open Scope Z_scope.

(** ** The dicts of the graph *)

Notation parent_of c := (node_depends_on (wc_nodes c)).

Lemma filter_eq_length (x : string) l : filter (λ y, y = x) l = [] ↔ x ∉ l.
Proof.
  split.
  - intros H Hx. assert (x ∈ filter (λ y, y = x) l) as Hin by (by apply list_elem_of_filter). rewrite H in Hin. set_solver.
  - intros Hx. destruct (filter _ l) as [|y k] eqn:E; [done|]. exfalso.
    assert (y ∈ filter (λ y, y = x) l) as [-> ?]%list_elem_of_filter by (rewrite E; left). done.
Qed.

Lemma children_spec c id child : child ∈ _children c id ↔ parent_of c child id.
Proof.
  unfold _children, node_depends_on. rewrite list_elem_of_In, in_concat. split.
  - intros (l & Hl & Hin). apply list_elem_of_In, list_elem_of_fmap in Hl as (n & -> & Hn).
    apply list_elem_of_In, list_elem_of_fmap in Hin as (p & -> & Hp).
    apply list_elem_of_filter in Hp as [-> Hp]. eauto.
  - intros (n & Hn & <- & Hp). exists (map (λ _, wn_id n) (filter (λ p, p = id) (wn_depends_on n))).
    split; apply list_elem_of_In, list_elem_of_fmap; [eauto|]. exists id. split; [done|]. by apply list_elem_of_filter.
Qed.

(** The distinct nodes of a validated workflow and their edges. *)
Record graph_wf (c : wf_contract) : Prop := {
  gw_ids : NoDup (map wn_id (wc_nodes c));
  gw_edges : graph_edges_ok (wc_nodes c);
  gw_acyclic : acyclic (wc_nodes c);
  gw_depends : ∀ n, n ∈ wc_nodes c → NoDup (wn_depends_on n)
}.

Lemma workflow_graph_wf c : workflow_ok c → graph_wf c.
Proof.
  intros H. split; [apply H|apply H|apply H|]. intros n Hn.
  pose proof (proj1 (wo_nodes _ H)) as Hok. rewrite Forall_elem in Hok. apply (Hok n Hn).
Qed.

Section Graph.
Context {c : wf_contract} (Hc : graph_wf c).

Lemma node_unique n n' : n ∈ wc_nodes c → n' ∈ wc_nodes c → wn_id n = wn_id n' → n = n'.
Proof.
  intros Hn Hn' He. pose proof (gw_ids _ Hc) as Hnd.
  apply list_elem_of_lookup in Hn as [i Hi], Hn' as [j Hj].
  assert (i = j) as ->; [|congruence].
  eapply (proj1 (NoDup_alt _) Hnd i j (wn_id n)); rewrite list_lookup_fmap, ?Hi, ?Hj; cbn; congruence.
Qed.

Lemma node_map_spec id n : _node_map c id = Some n ↔ n ∈ wc_nodes c ∧ wn_id n = id.
Proof.
  unfold _node_map. split.
  - intros H. apply find_some in H as [Hin Hb]. apply bool_decide_eq_true in Hb.
    split; [|done]. by apply list_elem_of_In, in_rev.
  - intros [Hn <-]. destruct (find _ _) as [n'|] eqn:E.
    + apply find_some in E as [Hin Hb]. apply bool_decide_eq_true in Hb. f_equal. apply node_unique; [|done..].
      by apply list_elem_of_In, in_rev.
    + exfalso. assert (In n (rev (wc_nodes c))) as Hi by (apply in_rev; rewrite rev_involutive; by apply list_elem_of_In).
      pose proof (find_none _ _ E n Hi) as Hnone. by apply bool_decide_eq_false in Hnone.
Qed.

Lemma node_map_ids id : id ∈ map wn_id (wc_nodes c) → ∃ n, _node_map c id = Some n.
Proof. intros (n & -> & Hn)%list_elem_of_fmap. exists n. by apply node_map_spec. Qed.

Lemma child_ids id child : parent_of c child id → child ∈ map wn_id (wc_nodes c) ∧ id ∈ map wn_id (wc_nodes c).
Proof.
  intros (n & Hn & <- & Hp). split; [by apply list_elem_of_fmap_2|]. by apply (proj1 (gw_edges _ Hc) n).
Qed.

Lemma children_NoDup id : NoDup (_children c id).
Proof.
  unfold _children. pose proof (gw_depends _ Hc) as Hd. pose proof (gw_ids _ Hc) as Hnd.
  induction (wc_nodes c) as [|n l IH]; cbn [map concat] in *; [constructor|].
  apply NoDup_cons in Hnd as [Hn Hnd]. apply NoDup_app. split_and!.
  - pose proof (NoDup_filter (λ p, p = id) _ (Hd n ltac:(left))) as Hf.
    assert (∀ p, p ∈ filter (λ p, p = id) (wn_depends_on n) → p = id) as Hall
      by (intros p [-> _]%list_elem_of_filter; done).
    destruct (filter _ _) as [|p [|q k]]; cbn; [constructor|apply NoDup_singleton|].
    rewrite (Hall p), (Hall q) in Hf by set_solver. apply NoDup_cons in Hf as [Hf _]. exfalso. apply Hf. left.
  - intros x (p & -> & Hp)%list_elem_of_fmap Hx. apply Hn.
    apply list_elem_of_In, in_concat in Hx as (k & Hk & Hx).
    apply list_elem_of_In, list_elem_of_fmap in Hk as (m & -> & Hm).
    apply list_elem_of_In, list_elem_of_fmap in Hx as (q & Hq & _). rewrite Hq. by apply list_elem_of_fmap_2.
  - apply IH; [|done]. intros m Hm. apply Hd. by right.
Qed.

(** The nodes can be numbered so that every node comes after its parents. *)
Lemma rank_exists : ∃ rank : string → nat,
  (∀ id, id ∈ map wn_id (wc_nodes c) → (rank id < length (wc_nodes c))%nat)
  ∧ ∀ ch p, parent_of c ch p → (rank p < rank ch)%nat.
Proof.
  destruct (proj2 (graph_total _ (gw_ids _ Hc)) (conj (gw_edges _ Hc) (gw_acyclic _ Hc))) as [[order level] Hg].
  destruct (graph_order _ _ _ (gw_ids _ Hc) Hg) as (Hperm & Htopo & _).
  assert (NoDup order) as Hnd by (rewrite Hperm; apply Hc).
  set (rank id := match list_find (λ x, x = id) order with Some (i, _) => i | None => 0%nat end).
  assert (∀ i id, order !! i = Some id → rank id = i) as Hrank.
  { intros i id Hi. unfold rank. destruct (list_find _ _) as [[j x]|] eqn:E.
    - apply list_find_Some in E as (Hj & -> & _). by eapply (proj1 (NoDup_alt _) Hnd).
    - apply list_find_None in E. rewrite Forall_elem in E. by destruct (E id); [by eapply list_elem_of_lookup_2|]. }
  exists rank. split.
  - intros id Hid. rewrite <- Hperm in Hid. apply list_elem_of_lookup in Hid as [i Hi]. rewrite (Hrank _ _ Hi).
    rewrite <- (length_map wn_id), <- Hperm. by eapply lookup_lt_Some.
  - intros ch p Hp. destruct (child_ids _ _ Hp) as [Hch _]. rewrite <- Hperm in Hch.
    apply list_elem_of_split in Hch as (o1 & o2 & Ho). pose proof (Htopo _ _ _ Ho _ Hp) as Hin.
    apply list_elem_of_lookup in Hin as [j Hj]. pose proof (lookup_lt_Some _ _ _ Hj).
    rewrite (Hrank j p), (Hrank (length o1) ch); [lia|..]; rewrite Ho.
    + by rewrite list_lookup_middle.
    + by rewrite lookup_app_l.
Qed.

(** A node and its proper ancestors. *)
Definition above (id m : string) : Prop := tc (parent_of c) id m.
Definition action_above (action id : string) : Prop :=
  ∃ n, n ∈ wc_nodes c ∧ above id (wn_id n) ∧ wn_action n = action.

Lemma above_step child p m : (∀ q, parent_of c child q → q = p) → parent_of c child p →
  above child m ↔ m = p ∨ above p m.
Proof.
  intros Hu Hp. split.
  - intros H. inversion H as [? ? H1|? z ? H1 H2]; subst; [left; by apply Hu|right]. by rewrite <- (Hu z H1).
  - intros [->|H]; [by constructor|]. by eapply tc_l.
Qed.
End Graph.
Arguments above c id m : clear implicits.
Arguments action_above c action id : clear implicits.

(** ** The walk over the paths *)

(** What the walk checks at a node: presentation after research, daily report after
    presentation, a decision after one of the agents. *)
Definition stage_ok (c : wf_contract) (n : wf_node) : Prop :=
  (wn_action n = "presentation" → action_above c "research" (wn_id n))
  ∧ (wn_action n = "daily_report" → action_above c "presentation" (wn_id n))
  ∧ (wn_kind n = "decision" → action_above c "research" (wn_id n) ∨ action_above c "presentation" (wn_id n)).

Section Walk.
Context {c : wf_contract} (Hc : graph_wf c).
Hypothesis Hone : ∀ n, n ∈ wc_nodes c → (length (wn_depends_on n) ≤ 1)%nat.

Notation ids := (map wn_id (wc_nodes c)).

Lemma one_parent child p q : parent_of c child p → parent_of c child q → p = q.
Proof.
  intros (n & Hn & <- & Hp) (n' & Hn' & He & Hq). apply (node_unique Hc) in He as ->; [|done..].
  specialize (Hone n Hn). destruct (wn_depends_on n) as [|x [|y l]]; cbn in *; [set_solver| |lia]. set_solver.
Qed.

(** [popped] are the nodes the loop has taken from the stack. *)
Record walk_inv (popped : list string) (stack : list (string * list string)) : Prop := {
  wi_nodup : NoDup (popped ++ map fst stack);
  wi_ids : popped ++ map fst stack ⊆ ids;
  wi_parents : ∀ x p, x ∈ popped ++ map fst stack → parent_of c x p → p ∈ popped;
  wi_children : ∀ x y, x ∈ popped → parent_of c y x → y ∈ popped ++ map fst stack;
  wi_above : ∀ id anc, (id, anc) ∈ stack → ∀ a, a ∈ anc ↔ action_above c a id
}.

Lemma walk_start root : root ∈ ids → (∀ p, ¬ parent_of c root p) → walk_inv [] [(root, [])].
Proof.
  intros Hr Hp. split; cbn [map fst app].
  - apply NoDup_singleton.
  - set_solver.
  - intros x p ->%list_elem_of_singleton H. by destruct (Hp p).
  - set_solver.
  - intros id anc [= -> ->]%list_elem_of_singleton a. split; [set_solver|].
    intros (n & _ & Ha & _). inversion Ha as [? ? H|? z ? H]; subst; by edestruct Hp.
Qed.

Lemma walk_pop popped id anc stack n : walk_inv popped ((id, anc) :: stack) → n ∈ wc_nodes c → wn_id n = id →
  walk_inv (popped ++ [id]) (map (λ child, (child, wn_action n :: anc)) (rev (_children c id)) ++ stack).
Proof.
  intros [H1 H2 H3 H4 H5] Hn Hid. cbn [map fst] in *.
  set (new := map (λ child, (child, wn_action n :: anc)) (rev (_children c id))).
  assert (map fst new = rev (_children c id)) as Hnew by (unfold new; rewrite map_map; apply map_id).
  assert (∀ x, x ∈ map fst new ↔ parent_of c x id) as Hch.
  { intros x. rewrite Hnew. rewrite <- children_spec. rewrite !list_elem_of_In. symmetry. apply in_rev. }
  assert (∀ x, x ∈ map fst new → x ∉ popped ++ id :: map fst stack) as Hfresh.
  { intros x Hx Hin. apply Hch in Hx. pose proof (H3 _ _ Hin Hx) as Hp.
    apply NoDup_app in H1 as (_ & H1 & _). apply (H1 _ Hp). left. }
  assert (map fst (new ++ stack) = map fst new ++ map fst stack) as Happ by apply map_app.
  split; rewrite ?Happ.
  - rewrite <- app_assoc. cbn [app].
    apply NoDup_app in H1 as (N1 & N2 & N3). apply NoDup_cons in N3 as [N3 N4]. apply NoDup_app. split_and!; [done|..].
    + intros x Hx [->|Hin]%elem_of_cons; [apply (N2 _ Hx); left|].
      apply elem_of_app in Hin as [Hin|Hin]; [apply (Hfresh _ Hin); set_solver|]. apply (N2 _ Hx). by right.
    + apply NoDup_cons. split; [intros [Hin|Hin]%elem_of_app; [apply (Hfresh _ Hin); set_solver|done]|].
      apply NoDup_app. split_and!; [|intros x Hx Hin; apply (Hfresh _ Hx); set_solver|done].
      rewrite Hnew. apply NoDup_ListNoDup, NoDup_rev, NoDup_ListNoDup, (children_NoDup Hc).
  - intros x. rewrite !elem_of_app. intros [[Hx|Hx]|[Hx|Hx]]; [set_solver..| |set_solver].
    apply Hch in Hx. by apply (child_ids Hc) in Hx as [? _].
  - intros x p Hx Hp. rewrite !elem_of_app in Hx. rewrite elem_of_app, list_elem_of_singleton.
    destruct Hx as [[Hx| ->%list_elem_of_singleton]|[Hx|Hx]].
    + left. eapply H3; [|exact Hp]. set_solver.
    + left. eapply H3; [|exact Hp]. set_solver.
    + right. apply Hch in Hx. by eapply one_parent.
    + left. eapply H3; [|exact Hp]. set_solver.
  - intros x y Hx Hp. rewrite elem_of_app, list_elem_of_singleton in Hx. rewrite !elem_of_app, list_elem_of_singleton.
    destruct Hx as [Hx| ->].
    + specialize (H4 _ _ Hx Hp). rewrite elem_of_app, elem_of_cons in H4. naive_solver.
    + right. left. by apply Hch.
  - intros x a' [Hin|Hin]%elem_of_app; [|apply H5; by right].
    apply list_elem_of_fmap in Hin as (ch & [= -> ->] & Hch').
    assert (parent_of c ch id) as Hpar by (apply Hch; rewrite Hnew; done).
    intros a. rewrite elem_of_cons, (H5 id anc) by left. unfold action_above.
    assert (∀ m, above c ch m ↔ m = id ∨ above c id m) as Hab.
    { intros m. apply above_step; [|done]. intros q Hq. by eapply one_parent. }
    setoid_rewrite Hab. split.
    + intros [->|(m & Hm & Hx & Ha)]; [exists n; subst id; naive_solver|naive_solver].
    + intros (m & Hm & [Hx|Hx] & <-); [left|right; naive_solver]. f_equal. apply (node_unique Hc); congruence.
Qed.

Lemma stage_checks n anc : (∀ a, a ∈ anc ↔ action_above c a (wn_id n)) →
  stage_ok c n ↔
  (bool_decide (wn_action n = "presentation") && negb (mem_str "research" anc) = false
   ∧ bool_decide (wn_action n = "daily_report") && negb (mem_str "presentation" anc) = false
   ∧ is_kind "decision" n && negb (mem_str "research" anc || mem_str "presentation" anc) = false).
Proof.
  intros Ha. unfold stage_ok, is_kind. rewrite !andb_false_imp, !negb_false_iff, !bool_decide_eq_true, orb_true_iff,
    !mem_str_true, !Ha. done.
Qed.

Lemma walk_room popped stack : walk_inv popped stack → (length popped + length stack ≤ length (wc_nodes c))%nat.
Proof.
  intros [H1 H2 _ _ _]. pose proof (submseteq_length _ _ (NoDup_submseteq _ _ H1 H2)) as H.
  by rewrite length_app, !length_map in H.
Qed.

Lemma walk_result fuel : ∀ popped stack visited', walk_inv popped stack →
  walk_paths fuel c stack (list_to_set popped) = Ok visited' →
  ∃ final, walk_inv final [] ∧ popped ++ map fst stack ⊆ final ∧ visited' = list_to_set final
    ∧ ∀ n, n ∈ wc_nodes c → wn_id n ∈ final → wn_id n ∉ popped → stage_ok c n.
Proof.
  induction fuel as [|fuel IH]; intros popped [|[id anc] stack] visited' Hinv; cbn [walk_paths]; try done.
  1,2: intros [= <-]; exists popped; cbn [map]; rewrite app_nil_r; split_and!; done.
  unfold ws_fail_if. intros H. apply bind_ok_iff in H as (n & Hn & H). unfold node_at in Hn.
  destruct (_node_map c id) as [n'|] eqn:En; [|done]. injection Hn as ->. apply (node_map_spec Hc) in En as [Hn Hid].
  rewrite !guard_bind_ok in H. destruct H as (G1 & G2 & G3 & H).
  pose proof (walk_pop _ _ _ _ _ Hinv Hn Hid) as Hinv'.
  replace ({[id]} ∪ list_to_set popped) with (list_to_set (popped ++ [id]) : gset string) in H by set_solver.
  apply IH in H as (final & F1 & F2 & -> & F4); [|done]. exists final. split_and!; [done| |done|].
  - rewrite map_app in F2. cbn [map fst]. set_solver.
  - intros m Hm Hf Hp. destruct (decide (wn_id m = id)) as [He|Hne]; [|apply F4; set_solver].
    assert (m = n) as -> by (apply (node_unique Hc); congruence).
    apply (stage_checks _ anc); [|done]. rewrite Hid. apply (wi_above _ _ Hinv). left.
Qed.

Lemma walk_total fuel : ∀ popped stack, walk_inv popped stack → (length (wc_nodes c) ≤ fuel + length popped)%nat →
  (∃ visited', walk_paths fuel c stack (list_to_set popped) = Ok visited')
  ∨ (∃ msg, walk_paths fuel c stack (list_to_set popped) = raise WorkflowStateError msg)
    ∧ ∃ n, n ∈ wc_nodes c ∧ ¬ stage_ok c n.
Proof.
  induction fuel as [|fuel IH]; intros popped [|[id anc] stack] Hinv Hfuel; cbn [walk_paths]; [by left; eexists| |by left; eexists|].
  - pose proof (walk_room _ _ Hinv). cbn in *. lia.
  - destruct (node_map_ids Hc id) as [n En]; [apply (wi_ids _ _ Hinv); set_solver|].
    unfold node_at. rewrite En. cbn [mbind result_bind]. apply (node_map_spec Hc) in En as [Hn Hid].
    pose proof (stage_checks n anc) as Hst. rewrite Hid in Hst. specialize (Hst (wi_above _ _ Hinv _ _ ltac:(left))).
    unfold ws_fail_if.
    destruct (bool_decide (wn_action n = "presentation") && _); [right; split; [by eexists|exists n; naive_solver]|].
    destruct (bool_decide (wn_action n = "daily_report") && _); [right; split; [by eexists|exists n; naive_solver]|].
    destruct (is_kind "decision" n && _); [right; split; [by eexists|exists n; naive_solver]|].
    cbn [raise_if mbind result_bind].
    replace ({[id]} ∪ list_to_set popped) with (list_to_set (popped ++ [id]) : gset string) by set_solver.
    apply IH; [by apply walk_pop|]. rewrite length_app. cbn. lia.
Qed.
End Walk.

(** ** One node *)

Definition child_of (c : wf_contract) (n ch : wf_node) : Prop := ch ∈ wc_nodes c ∧ wn_id n ∈ wn_depends_on ch.

(** The children of a decision or an approval carry distinct conditions of its vocabulary, and
    a failed or rejected branch is an output; other children carry no condition. *)
Definition conditions_ok (c : wf_contract) (plain : bool) (n : wf_node) : Prop :=
  match _BRANCH_CONDITIONS (wn_kind n) with
  | Some expected =>
      (∀ ch, child_of c n ch → _normalized_condition ch ∈ expected
         ∧ (_normalized_condition ch ∈ ["failed"; "rejected"] → wn_kind ch = "output"))
      ∧ (∀ ch ch', child_of c n ch → child_of c n ch' →
           _normalized_condition ch = _normalized_condition ch' → ch = ch')
  | None => plain = true → ∀ ch, child_of c n ch → _normalized_condition ch = ""
  end.

Section Nodes.
Context {c : wf_contract} (Hc : graph_wf c).

(** The nodes of a list of identifiers. *)
Definition named (ids : list string) (ns : list wf_node) : Prop := Forall2 (λ id n, _node_map c id = Some n) ids ns.

Lemma children_named n : n ∈ wc_nodes c →
  ∃ ns, named (_children c (wn_id n)) ns ∧ NoDup ns ∧ ∀ ch, ch ∈ ns ↔ child_of c n ch.
Proof.
  intros Hn. assert (∀ id, id ∈ _children c (wn_id n) → ∃ m, _node_map c id = Some m) as Hall.
  { intros id Hid. apply (node_map_ids Hc). apply children_spec in Hid. by apply (child_ids Hc) in Hid as [? _]. }
  assert (∃ ns, named (_children c (wn_id n)) ns) as [ns Hns].
  { induction (_children c (wn_id n)) as [|id l IH]; [exists []; constructor|].
    destruct (Hall id ltac:(left)) as [m Hm]. destruct IH as [ns Hns]; [intros; apply Hall; by right|].
    exists (m :: ns). by constructor. }
  exists ns. assert (map wn_id ns = _children c (wn_id n)) as Hids.
  { clear Hall. induction Hns as [|id m l k Hm _ IH]; cbn; [done|]. apply (node_map_spec Hc) in Hm as [_ ->]. by rewrite IH. }
  split_and!; [done| |].
  - apply (NoDup_fmap_1 wn_id). change (NoDup (map wn_id ns)). rewrite Hids. apply (children_NoDup Hc).
  - assert (∀ ch, ch ∈ ns → ch ∈ wc_nodes c) as Hin.
    { intros ch Hch. apply list_elem_of_lookup in Hch as [i Hi].
      destruct (Forall2_lookup_r _ _ _ _ _ Hns Hi) as (id & _ & Hm). by apply (node_map_spec Hc) in Hm as [? _]. }
    intros ch. unfold child_of. split.
    + intros Hch. split; [by apply Hin|]. assert (wn_id ch ∈ _children c (wn_id n)) as H
        by (rewrite <- Hids; by apply list_elem_of_fmap_2).
      apply children_spec in H as (ch' & Hch' & He & Hp). by apply (node_unique Hc) in He as ->; [|..|apply Hin].
    + intros [Hch Hp]. assert (wn_id ch ∈ map wn_id ns) as H by (rewrite Hids; apply children_spec; eexists; eauto).
      apply list_elem_of_fmap in H as (ch' & He & Hch'). apply (node_unique Hc) in He as ->; [done..|by apply Hin].
Qed.

Lemma check_branch_ok node expected direct ids ns : named ids ns → ∀ seen seen',
  check_branch c node expected direct seen ids = Ok seen' ↔
  seen' = seen ++ map _normalized_condition ns
  ∧ (∀ ch, ch ∈ ns → _normalized_condition ch ∈ expected
       ∧ (_normalized_condition ch ∈ ["failed"; "rejected"] → wn_kind ch = "output"))
  ∧ NoDup (map _normalized_condition ns) ∧ (∀ ch, ch ∈ ns → _normalized_condition ch ∉ seen).
Proof.
  induction 1 as [|id n ids ns Hn Hns IH]; intros seen seen'; cbn [check_branch map].
  - rewrite app_nil_r. split; [|naive_solver]. intros [= ->]. split_and!; [done|set_solver|constructor|set_solver].
  - unfold node_at. rewrite Hn. cbn [mbind result_bind]. unfold ws_fail_if. rewrite !guard_bind_ok, IH, andb_false_imp.
    rewrite !negb_false_iff, mem_str_true, mem_str_false, mem_str_true, NoDup_cons. unfold is_kind.
    rewrite bool_decide_eq_true. rewrite <- app_assoc. cbn [app]. split.
    + intros (H1 & H2 & H3 & -> & H5 & H6 & H7). split_and!; [done| | |done|].
      * intros ch [->|Hch]%elem_of_cons; [done|by apply H5].
      * intros (ch & He & Hch)%list_elem_of_fmap. apply (H7 ch Hch). rewrite <- He. set_solver.
      * intros ch [->|Hch]%elem_of_cons; [done|]. specialize (H7 ch Hch). set_solver.
    + intros (-> & H1 & [H2 H3] & H4). pose proof (H1 n ltac:(left)) as [G1 G2]. split_and!; [done|apply H4; left|done|done| |done|].
      * intros ch Hch. apply H1. by right.
      * intros ch Hch. rewrite elem_of_app, list_elem_of_singleton. intros [Hin|He]; [apply (H4 ch); [by right|done]|].
        apply H2. rewrite <- He. by apply list_elem_of_fmap_2.
Qed.

Lemma check_plain_ok ids ns : named ids ns →
  check_plain c ids = Ok tt ↔ ∀ ch, ch ∈ ns → _normalized_condition ch = "".
Proof.
  unfold check_plain, ws_fail_if. induction 1 as [|id n ids ns Hn Hns IH]; cbn [iterM]; [split; [set_solver|done]|].
  rewrite unit_bind_ok, IH. unfold node_at. rewrite Hn. cbn [mbind result_bind]. rewrite raise_if_ok, negb_false_iff, is_empty_true.
  split; [intros [H1 H2] ch [->|?]%elem_of_cons; auto|]. intros H. split; [apply H; left|intros; apply H; by right].
Qed.

Lemma two_conditions n expected (l : list string) : _BRANCH_CONDITIONS (wn_kind n) = Some expected →
  NoDup l → (∀ x, x ∈ l → x ∈ expected) →
  (Z.of_nat (length l) =? 2) && negb (subset_str l expected && subset_str expected l) = false.
Proof.
  intros He Hnd Hsub. apply andb_false_imp. rewrite Z.eqb_eq, negb_false_iff, andb_true_iff, !subset_str_spec.
  intros Hl. split; [done|]. assert (length expected = 2%nat) as He2.
  { unfold _BRANCH_CONDITIONS in He. by repeat case_bool_decide; simplify_eq. }
  intros x Hx. assert (l ≡ₚ expected) as ->; [|done].
  apply submseteq_length_Permutation; [by apply NoDup_submseteq|lia].
Qed.

(** Distinct conditions of distinct nodes. *)
Lemma condition_names (ns : list wf_node) : NoDup ns →
  NoDup (map _normalized_condition ns) ↔
  (∀ ch ch', ch ∈ ns → ch' ∈ ns → _normalized_condition ch = _normalized_condition ch' → ch = ch').
Proof.
  intros Hnd. induction Hnd as [|n ns Hn Hnd IH]; cbn [map]; [split; [set_solver|constructor]|].
  rewrite NoDup_cons, IH. split.
  - intros [H1 H2] ch ch' [->|Hch]%elem_of_cons [->|Hch']%elem_of_cons He; [done|..|by apply H2].
    + destruct H1. rewrite He. by apply list_elem_of_fmap_2.
    + destruct H1. rewrite <- He. by apply list_elem_of_fmap_2.
  - intros H. split; [|intros; apply H; [by right..|done]].
    intros (ch & He & Hch)%list_elem_of_fmap. apply Hn. rewrite (H n ch); [done|by left|by right|done].
Qed.

Lemma check_conditions_ok n direct plain : n ∈ wc_nodes c →
  check_conditions c n direct plain (_children c (wn_id n)) = Ok tt ↔ conditions_ok c plain n.
Proof.
  intros Hn. destruct (children_named n Hn) as (ns & Hns & Hnd & Hch).
  unfold check_conditions, conditions_ok. destruct (_BRANCH_CONDITIONS (wn_kind n)) as [expected|] eqn:He.
  - rewrite bind_ok_iff. setoid_rewrite (check_branch_ok n expected direct _ _ Hns). setoid_rewrite <- Hch. split.
    + intros (? & (-> & H1 & H2 & _) & _). split; [done|]. intros ch ch' Hin Hin' Heq.
      by eapply condition_names.
    + intros [H1 H2]. exists (map _normalized_condition ns). split.
      * split_and!; [done..| |set_solver]. by apply condition_names.
      * apply raise_if_ok. replace (length (_children c (wn_id n))) with (length (map _normalized_condition ns))
          by (rewrite length_map; symmetry; apply (Forall2_length _ _ _ Hns)).
        apply (two_conditions n); [done| |].
        -- by apply condition_names.
        -- intros x (ch & -> & Hin)%list_elem_of_fmap. by apply H1.
  - destruct plain; [|naive_solver]. rewrite (check_plain_ok _ _ Hns). setoid_rewrite Hch. naive_solver.
Qed.
End Nodes.

(** ** Version 3 *)

(** The executable workflows of version 3: rooted trees of known stages in which branches are
    deterministic, failed and rejected branches end at once, and every branch ends in an output. *)
Record executable_tree (c : wf_contract) (root : string) : Prop := {
  xt_root : ∃ n, n ∈ wc_nodes c ∧ wn_id n = root ∧ wn_depends_on n = [] ∧ wn_action n = "input";
  xt_parent : ∀ n, n ∈ wc_nodes c → wn_id n ≠ root → ∃ p, wn_depends_on n = [p];
  xt_once : ∀ a, a ∈ ["input"; "research"; "presentation"; "daily_report"] →
    ∃ n, filter (λ n, wn_action n = a) (wc_nodes c) = [n];
  xt_pair : ∀ n, n ∈ wc_nodes c → (wn_kind n, wn_action n) ∈ _ALLOWED_PAIRS;
  xt_approval : ∀ n, n ∈ wc_nodes c → wn_approval_required n = bool_decide (wn_kind n = "approval");
  xt_fanout : ∀ n, n ∈ wc_nodes c → (length (_children c (wn_id n)) ≤ 2)%nat
    ∧ ((1 < length (_children c (wn_id n)))%nat → wn_kind n = "decision" ∨ wn_kind n = "approval");
  xt_conditions : ∀ n, n ∈ wc_nodes c → conditions_ok c true n;
  xt_leaves : ∀ n, n ∈ wc_nodes c → _children c (wn_id n) = [] → wn_kind n = "output";
  xt_stages : ∀ n, n ∈ wc_nodes c → stage_ok c n
}.

Lemma count_action_one a c : (count_action a c =? 1) = true ↔ ∃ n, filter (λ n, wn_action n = a) (wc_nodes c) = [n].
Proof.
  unfold count_action. rewrite Z.eqb_eq. destruct (filter _ _) as [|n [|m l]]; cbn; [naive_solver lia|naive_solver|].
  split; [lia|]. by intros [? [=]].
Qed.

Lemma iterM_ok {A} (f : A → result unit) l : iterM f l = Ok tt ↔ ∀ x, x ∈ l → f x = Ok tt.
Proof.
  induction l as [|x l IH]; cbn [iterM]; [split; [set_solver|done]|]. rewrite unit_bind_ok, IH.
  split; [intros [H1 H2] y [->|?]%elem_of_cons; auto|]. intros H. split; [apply H; left|intros; apply H; by right].
Qed.

Section Admission.
Context {c : wf_contract} (Hc : graph_wf c).
Notation ids := (map wn_id (wc_nodes c)).

Lemma any_node_ok p l : l ⊆ ids →
  any_node c p l = Ok (existsb (λ id, match _node_map c id with Some n => p n | None => false end) l).
Proof.
  induction l as [|id l IH]; intros Hl; cbn [any_node existsb]; [done|].
  destruct (node_map_ids Hc id) as [n Hn]; [set_solver|]. unfold node_at. rewrite Hn. cbn [mbind result_bind].
  destruct (p n); [done|]. apply IH. set_solver.
Qed.

Lemma leaves_ok : wc_nodes c ≠ [] →
  (match leaves_of c with [] => Ok true | _ => any_node c (λ n, negb (is_kind "output" n)) (leaves_of c) end) = Ok false
  ↔ (∀ n, n ∈ wc_nodes c → _children c (wn_id n) = [] → wn_kind n = "output").
Proof.
  intros Hne. assert (leaves_of c ≠ []) as Hl.
  { destruct (rank_exists Hc) as (rank & Hlt & Hr). intros Hnil.
    assert (∀ k id, id ∈ ids → (length (wc_nodes c) - rank id ≤ k)%nat → False) as Hno.
    { induction k as [|k IH]; intros id Hid Hk; [specialize (Hlt id Hid); lia|].
      destruct (_children c id) as [|ch l] eqn:E.
      - assert (id ∈ leaves_of c) as Hin by (by apply list_elem_of_filter). rewrite Hnil in Hin. set_solver.
      - assert (parent_of c ch id) as Hp by (apply children_spec; rewrite E; left). specialize (Hr _ _ Hp).
        apply (IH ch); [by apply (child_ids Hc) in Hp as [? _]|]. specialize (Hlt id Hid). lia. }
    destruct (wc_nodes c) as [|n l] eqn:E; [done|]. eapply (Hno _ (wn_id n)); [left|done]. }
  assert (leaves_of c ⊆ ids) as Hsub by (intros x [_ ?]%list_elem_of_filter; done).
  destruct (leaves_of c) as [|id l] eqn:E; [done|]. rewrite <- E in *. rewrite any_node_ok by done. split.
  - intros [= H] n Hn Hch. destruct (decide (wn_kind n = "output")) as [|Hk]; [done|]. exfalso.
    assert (existsb (λ id, match _node_map c id with Some n => negb (is_kind "output" n) | None => false end) (leaves_of c) = true)
      as Ht; [|congruence].
    apply existsb_exists. exists (wn_id n). split.
    + apply list_elem_of_In, list_elem_of_filter. split; [done|]. by apply list_elem_of_fmap_2.
    + rewrite (proj2 (node_map_spec Hc _ n)) by done. unfold is_kind. by rewrite bool_decide_eq_false_2.
  - intros H. f_equal. apply not_true_is_false. intros (x & Hx & Hb)%existsb_exists.
    apply list_elem_of_In, list_elem_of_filter in Hx as [Hch Hx]. destruct (_node_map c x) as [n|] eqn:En; [|done].
    apply (node_map_spec Hc) in En as [Hn <-]. unfold is_kind in Hb. by rewrite bool_decide_eq_true_2 in Hb by auto.
Qed.

Lemma admit_node_ok n : n ∈ wc_nodes c →
  admit_node c n = Ok tt ↔
  (wn_kind n, wn_action n) ∈ _ALLOWED_PAIRS ∧ (length (wn_depends_on n) ≤ 1)%nat
  ∧ wn_approval_required n = bool_decide (wn_kind n = "approval")
  ∧ ((length (_children c (wn_id n)) ≤ 2)%nat
     ∧ ((1 < length (_children c (wn_id n)))%nat → wn_kind n = "decision" ∨ wn_kind n = "approval"))
  ∧ conditions_ok c true n.
Proof.
  intros Hn. unfold admit_node, ws_fail_if. rewrite !guard_bind_ok, unit_bind_ok, !guard_bind_ok, (check_conditions_ok Hc) by done.
  rewrite negb_false_iff, bool_decide_eq_true, Z.ltb_ge, andb_false_imp, Z.ltb_ge, Z.ltb_lt, negb_false_iff, orb_true_iff.
  unfold is_kind. rewrite !bool_decide_eq_true.
  assert ((if bool_decide (wn_kind n = "approval")
           then raise_if (negb (wn_approval_required n)) WorkflowStateError "approval nodes must set approval_required=true"
           else raise_if (wn_approval_required n) WorkflowStateError
                  "approval_required may only be asserted by an approval node in V3") = Ok tt
          ↔ wn_approval_required n = bool_decide (wn_kind n = "approval")) as ->.
  { case_bool_decide; rewrite raise_if_ok; destruct (wn_approval_required n); naive_solver. }
  split.
  - intros (H1 & H2 & H3 & H4 & H5 & H6). split_and!; try done; [lia|lia|]. intros. apply H5. lia.
  - intros (H1 & H2 & H3 & [H4 H5] & H6). split_and!; try done; [lia|lia|]. intros. apply H5. lia.
Qed.

Lemma single_root_ok msg root : single_root c msg = Ok root ↔
  roots_of c = [root] ∧ ∃ n, n ∈ wc_nodes c ∧ wn_id n = root ∧ wn_depends_on n = [] ∧ wn_action n = "input".
Proof.
  unfold single_root. destruct (roots_of c) as [|r [|r' l]] eqn:E; [naive_solver| |naive_solver].
  assert (∃ n, n ∈ wc_nodes c ∧ wn_id n = r ∧ wn_depends_on n = []) as (n & Hn & Hid & Hd).
  { assert (r ∈ roots_of c) as Hr by (rewrite E; left). apply list_elem_of_fmap in Hr as (n & -> & Hn).
    apply list_elem_of_filter in Hn as [? ?]. eauto. }
  unfold node_at. rewrite (proj2 (node_map_spec Hc r n)) by done. cbn [mbind result_bind]. unfold ws_fail_if, is_action.
  rewrite guard_bind_ok, negb_false_iff, bool_decide_eq_true. split.
  - intros [Ha [= ->]]. split; [done|]. eauto.
  - intros [[= ->] (n' & Hn' & Hid' & _ & Ha)]. assert (n' = n) as -> by (apply (node_unique Hc); congruence). done.
Qed.

Lemma roots_tree root : (∃ n, n ∈ wc_nodes c ∧ wn_id n = root ∧ wn_depends_on n = []) →
  roots_of c = [root] ↔ ∀ n, n ∈ wc_nodes c → wn_id n ≠ root → wn_depends_on n ≠ [].
Proof.
  intros (n & Hn & Hid & Hd). unfold roots_of. split.
  - intros H m Hm Hne He. assert (wn_id m ∈ map wn_id (filter (λ n, wn_depends_on n = []) (wc_nodes c))) as Hin
      by (apply list_elem_of_fmap_2, list_elem_of_filter; done).
    rewrite H in Hin. set_solver.
  - intros H. assert (∀ m, m ∈ filter (λ n, wn_depends_on n = []) (wc_nodes c) → m = n) as Hall.
    { intros m [Hm Hin]%list_elem_of_filter. destruct (decide (wn_id m = root)) as [He|Hne]; [|by destruct (H m)].
      apply (node_unique Hc); congruence. }
    assert (n ∈ filter (λ n, wn_depends_on n = []) (wc_nodes c)) as Hin by (by apply list_elem_of_filter).
    pose proof (NoDup_filter (λ n, wn_depends_on n = []) _ (NoDup_fmap_1 wn_id _ (gw_ids _ Hc))) as Hnd.
    destruct (filter _ _) as [|x [|y l]]; [set_solver| |].
    + cbn. f_equal. rewrite (Hall x); [done|left].
    + rewrite (Hall x), (Hall y) in Hnd by set_solver. apply NoDup_cons in Hnd as [Hnd _]. set_solver.
Qed.
End Admission.

(** In a tree every node is below the root. *)
Lemma tree_connected c root : graph_wf c → (∀ n, n ∈ wc_nodes c → wn_id n ≠ root → wn_depends_on n ≠ []) →
  ∀ id, id ∈ map wn_id (wc_nodes c) → id = root ∨ above c id root.
Proof.
  intros Hc Hp. destruct (rank_exists Hc) as (rank & _ & Hr).
  assert (∀ k id, (rank id < k)%nat → id ∈ map wn_id (wc_nodes c) → id = root ∨ above c id root) as Hall; [|eauto].
  induction k as [|k IH]; intros id Hk Hid; [lia|]. destruct (decide (id = root)) as [|Hne]; [by left|right].
  apply list_elem_of_fmap in Hid as (n & -> & Hn). specialize (Hp n Hn Hne).
  destruct (wn_depends_on n) as [|p l] eqn:E; [done|]. assert (parent_of c (wn_id n) p) as Hpar by (exists n; split_and!; [done..|rewrite E; left]).
  pose proof (Hr _ _ Hpar). destruct (IH p) as [->|Hab]; [lia|by apply (child_ids Hc) in Hpar as [_ ?]|by constructor|].
  by eapply tc_l.
Qed.

Lemma admit_tree_ok c root r : workflow_ok c →
  (∃ n, n ∈ wc_nodes c ∧ wn_id n = root ∧ wn_depends_on n = [] ∧ wn_action n = "input") → roots_of c = [root] →
  admit_tree c root = Ok r ↔ r = (c, root) ∧ executable_tree c root.
Proof.
  intros Hok Hroot Hroots. pose proof (workflow_graph_wf c Hok) as Hc.
  destruct Hroot as (n0 & Hn0 & Hid0 & Hd0 & Ha0).
  assert (wc_nodes c ≠ []) as Hne by (intros He; rewrite He in Hn0; set_solver).
  assert (∀ n, n ∈ wc_nodes c → wn_id n ≠ root → wn_depends_on n ≠ []) as Hparent by (apply (roots_tree Hc); [eauto|done]).
  assert (root ∈ map wn_id (wc_nodes c)) as Hin by (rewrite <- Hid0; by apply list_elem_of_fmap_2).
  assert (∀ p, ¬ parent_of c root p) as Htop.
  { intros p (n & Hn & He & Hp). assert (n = n0) as -> by (apply (node_unique Hc); congruence). rewrite Hd0 in Hp. set_solver. }
  unfold admit_tree, ws_fail_if. rewrite !guard_bind_ok, !negb_false_iff, !count_action_one, unit_bind_ok, iterM_ok.
  assert (∀ final : list string, walk_inv (c := c) final [] → root ∈ final → final ≡ₚ map wn_id (wc_nodes c)) as Hfull.
  { intros final [F1 F2 _ F4 _] Hr. cbn [map] in *. rewrite app_nil_r in *.
    apply NoDup_Permutation; [done|apply Hc|]. intros id. split; [apply F2|]. intros Hid.
    destruct (tree_connected c root Hc Hparent id Hid) as [->|Ha]; [done|]. clear Hid. unfold above in Ha.
    induction Ha as [x y Hxy|x y z Hxy _ IH]; [eapply F4; [exact Hr|done]|]. eapply F4; [apply IH; done|done]. }
  split.
  - intros (O1 & O2 & O3 & O4 & Hnodes & H). apply bind_ok_iff in H as (bad & Hbad & H). rewrite guard_bind_ok in H.
    destruct H as (-> & H). pose proof (proj1 (leaves_ok Hc Hne) Hbad) as Hleaves. apply bind_ok_iff in H as (visited & Hv & H).
    rewrite guard_bind_ok in H. destruct H as (_ & [= <-]). split; [done|].
    assert (∀ n, n ∈ wc_nodes c → _) as Hall by (intros n Hn; exact (proj1 (admit_node_ok Hc n Hn) (Hnodes n Hn))).
    assert (∀ n, n ∈ wc_nodes c → (length (wn_depends_on n) ≤ 1)%nat) as Hone by (intros n Hn; apply (Hall n Hn)).
    apply (walk_result Hc Hone _ [] _ _ (walk_start Hc Hone root Hin Htop)) in Hv as (final & Hf & Hsub & -> & Hst).
    split; [by exists n0| | |intros n Hn; apply (Hall n Hn)..|done|].
    + intros n Hn Hid. specialize (Hone n Hn). specialize (Hparent n Hn Hid).
      destruct (wn_depends_on n) as [|p [|q l]]; cbn in *; [done|by exists p|lia].
    + intros a Ha. repeat (apply elem_of_cons in Ha as [->|Ha]; [done|]). set_solver.
    + intros n Hn. apply Hst; [done| |set_solver]. rewrite (Hfull final Hf) by set_solver. by apply list_elem_of_fmap_2.
  - intros [-> [X1 X2 X3 X4 X5 X6 X7 X8 X9]]. split_and!; [apply X3; set_solver..| |].
    { intros n Hn. apply (admit_node_ok Hc n Hn). split_and!; [auto| |auto|apply X6; auto|apply X6; auto|auto].
      destruct (decide (wn_id n = root)) as [He|Hr]; [|by destruct (X2 n Hn Hr) as [p ->]].
      assert (n = n0) as -> by (apply (node_unique Hc); congruence). rewrite Hd0. cbn. lia. }
    rewrite (proj2 (leaves_ok Hc Hne) X8). cbn [mbind result_bind raise_if].
    assert (∀ n, n ∈ wc_nodes c → (length (wn_depends_on n) ≤ 1)%nat) as Hone.
    { intros n Hn. destruct (decide (wn_id n = root)) as [He|Hr]; [|by destruct (X2 n Hn Hr) as [p ->]].
      assert (n = n0) as -> by (apply (node_unique Hc); congruence). rewrite Hd0. cbn. lia. }
    pose proof (walk_start Hc Hone root Hin Htop) as Hstart.
    destruct (walk_total Hc Hone (length (wc_nodes c)) [] _ Hstart) as [[visited Hv]|[_ (n & Hn & Hst)]];
      [cbn; lia| |by destruct (Hst (X9 n Hn))].
    cbn [list_to_set] in Hv. rewrite Hv. cbn [mbind result_bind].
    apply (walk_result Hc Hone _ [] _ _ Hstart) in Hv as (final & Hf & Hsub & -> & _).
    pose proof (Hfull final Hf ltac:(set_solver)) as Hp. rewrite bool_decide_eq_true_2; [done|].
    rewrite size_list_to_set; [|rewrite Hp; apply Hc]. pose proof (Permutation_length Hp) as Hl. by rewrite length_map in Hl.
Qed.

Lemma design_error_ok m c : design_error m = Ok c ↔ m = Ok c.
Proof. unfold design_error, catch. destruct m as [|e]; [done|]. by destruct (is_class _ _). Qed.

Lemma admit_iff sensitivity raw c root :
  _admit sensitivity raw = Ok (c, root) ↔
  validate_contract raw = Ok c
  ∧ (wc_trigger c = "manual" ∧ wc_risk_level c = "low" ∧ sensitivity ≠ "secret" ∧ wc_data_class c = sensitivity)
  ∧ executable_tree c root.
Proof.
  unfold _admit, ws_fail_if. rewrite bind_ok_iff. setoid_rewrite design_error_ok. split.
  - intros (c' & Hv & H). rewrite !guard_bind_ok, !negb_false_iff, !bool_decide_eq_true, bool_decide_eq_false in H.
    destruct H as (H1 & H2 & H3 & H4 & H). pose proof (validate_contract_ok _ _ Hv) as Hok.
    apply bind_ok_iff in H as (r & Hr & H). apply (single_root_ok (workflow_graph_wf _ Hok)) in Hr as [R1 R2].
    apply admit_tree_ok in H as [[= <- <-] Hx]; done.
  - intros (Hv & (H1 & H2 & H3 & H4) & Hx). exists c. split; [done|].
    rewrite !guard_bind_ok, !negb_false_iff, !bool_decide_eq_true, bool_decide_eq_false. split_and!; [done..|].
    pose proof (validate_contract_ok _ _ Hv) as Hok. pose proof (workflow_graph_wf _ Hok) as Hc.
    pose proof (xt_root _ _ Hx) as (n & Hn & Hid & Hd & Ha).
    assert (roots_of c = [root]) as Hr.
    { apply (roots_tree Hc); [eauto|]. intros m Hm Hne. by destruct (xt_parent _ _ Hx m Hm Hne) as [p ->]. }
    apply bind_ok_iff. exists root. split; [apply (single_root_ok Hc); naive_solver|].
    apply admit_tree_ok; [done|naive_solver|done|done].
Qed.
