(* ===== verification/WorkflowParallelFacts.v ===== *)
(** * Facts about parallel admission

    The parallel region that version 4 admits, and what its admission promises about the whole
    graph: one region of two lanes, joined before one decision, whose failure ends at an output. *)

From Stdlib Require Import Ascii.
From Stdlib Require String.
From S2P Require Import Prelude PyStr Json WorkflowDesign WorkflowGraph WorkflowFacts WorkflowAdmission.
From S2P Require Import WorkflowAdmissionFacts.

Local Open Scope Z_scope.

(** ** Validated contracts of version 4 *)

Lemma restored_edges pairs nodes : edges_of (map (restore_node pairs) nodes) = edges_of nodes.
Proof.
  unfold edges_of. rewrite map_map. f_equal. apply map_ext. intros n. by rewrite restore_node_id, restore_node_depends.
Qed.

Lemma v4_graph_wf raw c : validate_contract_v4 raw = Ok c → graph_wf c.
Proof.
  unfold validate_contract_v4, wf_fail. destruct raw as [| | | | | |d]; try done.
  destruct (get d "nodes") as [| | | | |raw_nodes|] eqn:Hget; try done. intros H.
  apply bind_ok_iff in H as ([nodes pairs] & Hsur & H). apply bind_ok_iff in H as (c0 & Hc & [= <-]).
  pose proof (workflow_graph_wf _ (validate_contract_ok _ _ Hc)) as [G1 [G2 G2'] G3 G4].
  assert (map wn_id (map (restore_node pairs) (wc_nodes c0)) = map wn_id (wc_nodes c0)) as Hids
    by (rewrite map_map; apply map_ext; intros; apply restore_node_id).
  split; cbn [wc_nodes].
  - by rewrite Hids.
  - split; [|by rewrite restored_edges].
    intros n p (n0 & -> & Hn)%list_elem_of_fmap. rewrite restore_node_depends, restore_node_id, Hids. auto.
  - apply acyclic_edges. rewrite restored_edges. by apply acyclic_edges.
  - intros n (n0 & -> & Hn)%list_elem_of_fmap. rewrite restore_node_depends. auto.
Qed.

(** ** The region *)

(** A lane from the fork to the join. *)
Definition lane_ok (c : wf_contract) (fork join : string) (l : lane) : Prop :=
  parent_of c (ln_research l) fork
  ∧ (∃ n, _node_map c (ln_research l) = Some n ∧ wn_action n = "research" ∧ _normalized_condition n = "")
  ∧ _children c (ln_research l) = [ln_presentation l]
  ∧ (∃ n, _node_map c (ln_presentation l) = Some n ∧ wn_action n = "presentation" ∧ _normalized_condition n = "")
  ∧ _children c (ln_presentation l) = [join].

Record region_ok (c : wf_contract) (plan : parallel_plan) : Prop := {
  rg_fork : ∃ n, filter (λ n, wn_action n = "parallel_fork") (wc_nodes c) = [n] ∧ wn_id n = pp_fork plan;
  rg_join : ∃ n, filter (λ n, wn_action n = "parallel_join") (wc_nodes c) = [n] ∧ wn_id n = pp_join plan
    ∧ wn_depends_on n ≡ₚ map ln_presentation (pp_lanes plan) ∧ _normalized_condition n = "";
  rg_lanes : ∀ l, l ∈ pp_lanes plan → lane_ok c (pp_fork plan) (pp_join plan) l;
  rg_two : map ln_research (pp_lanes plan) ≡ₚ _children c (pp_fork plan) ∧ length (pp_lanes plan) = 2%nat;
  rg_decision : _children c (pp_join plan) = [pp_decision plan]
    ∧ ∃ n, _node_map c (pp_decision plan) = Some n ∧ wn_kind n = "decision";
  rg_conditions : ∀ n, n ∈ wc_nodes c → pp_decision plan ∈ wn_depends_on n → _normalized_condition n ∈ ["passed"; "failed"];
  rg_outcomes : ∀ o, o ∈ ["passed"; "failed"] →
    ∃ n, n ∈ wc_nodes c ∧ pp_decision plan ∈ wn_depends_on n ∧ _normalized_condition n = o
}.

Section Region.
Context {c : wf_contract} (Hc : graph_wf c).
Notation ids := (map wn_id (wc_nodes c)).

Lemma children_ids id : _children c id ⊆ ids.
Proof. intros x Hx%children_spec. by apply (child_ids Hc) in Hx as [? _]. Qed.

Lemma no_node p l : l ⊆ ids → any_node c p l = Ok false → ∀ id n, id ∈ l → _node_map c id = Some n → p n = false.
Proof.
  intros Hl H id n Hid Hn. rewrite (any_node_ok Hc) in H by done. injection H as H.
  apply not_true_is_false. intros Hp. apply not_true_iff_false in H. apply H. apply existsb_exists.
  exists id. split; [by apply list_elem_of_In|]. by rewrite Hn.
Qed.

Lemma plan_lane_ok join id l : plan_lane c join id = Ok l →
  ln_research l = id ∧ _children c id = [ln_presentation l]
  ∧ (∃ n, _node_map c (ln_presentation l) = Some n ∧ wn_action n = "presentation" ∧ _normalized_condition n = "")
  ∧ _children c (ln_presentation l) = [join].
Proof.
  unfold plan_lane, ws_fail, ws_fail_if. destruct (_children c id) as [|p [|q k]] eqn:E; try done. intros H.
  apply bind_ok_iff in H as (n & Hn & H). unfold node_at in Hn. destruct (_node_map c p) as [n'|] eqn:En; [|done].
  injection Hn as ->. unfold is_action in H. rewrite !guard_bind_ok, !negb_false_iff, !bool_decide_eq_true, is_empty_true in H.
  destruct H as (H1 & H2 & H3 & [= <-]). cbn. split_and!; eauto.
Qed.

Lemma outcomes_ok l : l ⊆ ids → ∀ acc m, outcomes_of c l acc = Ok m →
  ∀ o id, m !! o = Some id → acc !! o = Some id ∨ ∃ n, id ∈ l ∧ _node_map c id = Some n ∧ _normalized_condition n = o.
Proof.
  induction l as [|x l IH]; intros Hl acc m; cbn [outcomes_of]; [intros [= ->]; by left|].
  intros H o id Hm. apply bind_ok_iff in H as (n & Hn & H). unfold node_at in Hn.
  destruct (_node_map c x) as [n'|] eqn:En; [|done]. injection Hn as ->.
  destruct (IH ltac:(set_solver) _ _ H o id Hm) as [Hacc|(n' & Hin & ? & ?)].
  - destruct (decide (_normalized_condition n = o)) as [He|Hne].
    + rewrite He, lookup_insert_eq in Hacc. injection Hacc as ->. right. exists n. set_solver.
    + rewrite lookup_insert_ne in Hacc by done. by left.
  - right. exists n'. set_solver.
Qed.

Lemma outcomes_all l : l ⊆ ids → ∀ acc m, outcomes_of c l acc = Ok m →
  ∀ o, is_Some (acc !! o) ∨ (∃ id n, id ∈ l ∧ _node_map c id = Some n ∧ _normalized_condition n = o) → o ∈ dom m.
Proof.
  induction l as [|x l IH]; intros Hl acc m; cbn [outcomes_of].
  - intros [= ->] o [H|(? & ? & H & _)]; [by apply elem_of_dom|set_solver].
  - intros H o Ho. apply bind_ok_iff in H as (n & Hn & H). unfold node_at in Hn.
    destruct (_node_map c x) as [n'|] eqn:En; [|done]. injection Hn as ->.
    eapply (IH ltac:(set_solver) _ _ H). destruct (decide (_normalized_condition n = o)) as [He|Hne].
    + left. rewrite He, lookup_insert_eq. by eexists.
    + rewrite lookup_insert_ne by done. destruct Ho as [?|(id & m' & [->|Hin]%elem_of_cons & Hm & Ho)]; [by left|congruence|].
      right. naive_solver.
Qed.

Lemma plan_decision_ok join d : plan_decision c join = Ok d →
  _children c join = [d] ∧ (∃ n, _node_map c d = Some n ∧ wn_kind n = "decision")
  ∧ (∀ n, n ∈ wc_nodes c → d ∈ wn_depends_on n → _normalized_condition n ∈ ["passed"; "failed"])
  ∧ (∀ o, o ∈ ["passed"; "failed"] → ∃ n, n ∈ wc_nodes c ∧ d ∈ wn_depends_on n ∧ _normalized_condition n = o).
Proof.
  unfold plan_decision, ws_fail, ws_fail_if. intros H. apply bind_ok_iff in H as (dn & Hd & H).
  destruct (_children c join) as [|id [|id' l]] eqn:E; try done. apply bind_ok_iff in Hd as (n & Hn & Hd). unfold node_at in Hn.
  destruct (_node_map c id) as [n'|] eqn:En; [|done]. injection Hn as ->. rewrite guard_bind_ok in Hd. destruct Hd as [Hk [= <-]].
  unfold is_kind in Hk. apply negb_false_iff, bool_decide_eq_true in Hk. pose proof (proj1 (node_map_spec Hc _ _) En) as [_ Hid].
  apply bind_ok_iff in H as (m & Hm & H). rewrite guard_bind_ok, negb_false_iff, bool_decide_eq_true in H. destruct H as [Hdom H].
  apply bind_ok_iff in H as (f & _ & H). rewrite guard_bind_ok in H. destruct H as [_ [= <-]]. rewrite Hid in *.
  assert (∀ n, n ∈ wc_nodes c ∧ id ∈ wn_depends_on n ↔ wn_id n ∈ _children c id ∧ _node_map c (wn_id n) = Some n) as Hch.
  { intros ch. rewrite children_spec, (node_map_spec Hc). split.
    - intros [H1 H2]. split; [by exists ch|done].
    - intros [(ch' & H1 & He & H2) [H3 _]]. by apply (node_unique Hc) in He as ->. }
  split_and!; [done|by exists n| |].
  - intros ch Hin Hp. assert (_normalized_condition ch ∈ dom m) as Hx.
    { eapply (outcomes_all _ (children_ids id) _ _ Hm). right. exists (wn_id ch), ch.
      destruct (proj1 (Hch ch) (conj Hin Hp)). done. }
    rewrite Hdom in Hx. set_solver.
  - intros o Ho. assert (o ∈ dom m) as [x Hx]%elem_of_dom by (rewrite Hdom; set_solver).
    destruct (outcomes_ok _ (children_ids id) _ _ Hm o x Hx) as [He|(ch & Hin & Hch' & <-)]; [by rewrite lookup_empty in He|].
    exists ch. pose proof (proj1 (node_map_spec Hc _ _) Hch') as [_ <-]. pose proof (proj2 (Hch ch) (conj Hin Hch')) as [? ?]. done.
Qed.

Lemma parallel_plan_ok plan : _parallel_plan c = Ok (Some plan) → region_ok c plan.
Proof.
  unfold _parallel_plan, ws_fail, ws_fail_if. destruct (filter (λ n, wn_action n = "parallel_fork") (wc_nodes c)) as [|fork [|? ?]] eqn:Ef;
    destruct (filter (λ n, wn_action n = "parallel_join") (wc_nodes c)) as [|join [|? ?]] eqn:Ej; try done.
  rewrite guard_bind_ok. intros [H1 H]. apply bind_ok_iff in H as (b1 & Hb1 & H). rewrite guard_bind_ok in H. destruct H as [-> H].
  apply bind_ok_iff in H as (b2 & Hb2 & H). rewrite guard_bind_ok in H. destruct H as [-> H].
  apply bind_ok_iff in H as (lanes & Hl & H). rewrite !guard_bind_ok in H. destruct H as (H2 & H3 & H).
  apply bind_ok_iff in H as (d & Hd & [= <-]). apply plan_decision_ok in Hd as (D1 & D2 & D3 & D4).
  apply negb_false_iff, Z.eqb_eq in H1. apply negb_false_iff, bool_decide_eq_true in H2. apply negb_false_iff, is_empty_true in H3.
  pose proof (no_node _ _ (children_ids (wn_id fork)) Hb1) as Hcond. pose proof (no_node _ _ (children_ids (wn_id fork)) Hb2) as Hact.
  assert (map ln_research lanes = sorted_str (_children c (wn_id fork))
    ∧ ∀ l, l ∈ lanes → lane_ok c (wn_id fork) (wn_id join) l) as [Hres Hlanes].
  { assert (∀ x, x ∈ sorted_str (_children c (wn_id fork)) → x ∈ _children c (wn_id fork)) as Hsub by (intros x; by rewrite elem_of_sorted_str).
    clear H2. revert lanes Hl Hsub. induction (sorted_str (_children c (wn_id fork))) as [|x l IH]; intros lanes Hl Hsub; cbn [mapM] in Hl.
    - injection Hl as <-. split; [done|set_solver].
    - apply bind_ok_iff in Hl as (ln & Hln & Hl). apply bind_ok_iff in Hl as (lns & Hlns & [= <-]).
      destruct (IH _ Hlns) as [IH1 IH2]; [intros; apply Hsub; by right|]. apply plan_lane_ok in Hln as (<- & L1 & L2 & L3).
      split; [cbn; congruence|]. intros l' [->|Hin]%elem_of_cons; [|by apply IH2]. pose proof (Hsub _ ltac:(left)) as Hx.
      split_and!; [by apply children_spec| |done..]. destruct (node_map_ids Hc (ln_research ln)) as [n Hn]; [by eapply (children_ids)|].
      exists n. split; [done|]. pose proof (Hact _ _ Hx Hn) as A. pose proof (Hcond _ _ Hx Hn) as B. unfold is_action in A.
      by apply negb_false_iff, bool_decide_eq_true in A; apply negb_false_iff, is_empty_true in B. }
  split; cbn [pp_fork pp_join pp_lanes pp_decision]; [eauto| |done| |done..].
  - exists join. split_and!; [done..| |done]. rewrite <- (sorted_str_perm (wn_depends_on join)), H2. apply sorted_str_perm.
  - rewrite Hres. split; [apply sorted_str_perm|]. rewrite <- (length_map ln_research), Hres.
    rewrite (Permutation_length (sorted_str_perm _)). change WORKFLOW_V4_MAX_PARALLEL_BRANCHES with 2 in H1. lia.
Qed.
End Region.

(** ** The whole graph *)

Lemma reach_sound c fuel : ∀ stack visited visited', reach fuel c stack visited = Ok visited' →
  ∀ x, x ∈ visited' → x ∈ visited ∨ ∃ s, s ∈ stack ∧ (x = s ∨ above c x s).
Proof.
  induction fuel as [|fuel IH]; intros [|id stack] visited visited'; cbn [reach]; try done;
    [intros [= ->]; by left|intros [= ->]; by left|].
  case_bool_decide as Hv; intros H x Hx; destruct (IH _ _ _ H x Hx) as [Hin|(s & Hs & Hx')].
  - by left.
  - right. exists s. split; [by right|done].
  - apply elem_of_union in Hin as [->%elem_of_singleton|]; [right|by left]. exists id. split; [left|by left].
  - right. apply elem_of_app in Hs as [Hs|Hs]; [|exists s; split; [by right|done]]. exists id. split; [left|right].
    assert (parent_of c s id) as Hp by (apply children_spec, list_elem_of_In, in_rev, list_elem_of_In; done).
    destruct Hx' as [->|Ha]; [by constructor|]. by eapply tc_r.
Qed.

Record executable_parallel (c : wf_contract) (root : string) (plan : parallel_plan) : Prop := {
  ep_region : region_ok c plan;
  ep_root : ∃ n, n ∈ wc_nodes c ∧ wn_id n = root ∧ wn_depends_on n = [] ∧ wn_action n = "input";
  ep_parent : ∀ n, n ∈ wc_nodes c → wn_id n ≠ root → wn_depends_on n ≠ [];
  ep_single : ∀ n, n ∈ wc_nodes c → wn_action n ≠ "parallel_join" → (length (wn_depends_on n) ≤ 1)%nat;
  ep_agents : length (filter (λ n, wn_action n = "research") (wc_nodes c)) = 2%nat
    ∧ length (filter (λ n, wn_action n = "presentation") (wc_nodes c)) = 2%nat
    ∧ ∃ n, filter (λ n, wn_action n = "daily_report") (wc_nodes c) = [n];
  ep_pair : ∀ n, n ∈ wc_nodes c → (wn_kind n, wn_action n) ∈ _ALLOWED_PAIRS_V4;
  ep_approval : ∀ n, n ∈ wc_nodes c → wn_approval_required n = bool_decide (wn_kind n = "approval");
  ep_fanout : ∀ n, n ∈ wc_nodes c → (length (_children c (wn_id n)) ≤ 2)%nat;
  ep_conditions : ∀ n, n ∈ wc_nodes c → conditions_ok c (negb (is_action "parallel_fork" n)) n;
  ep_leaves : ∀ n, n ∈ wc_nodes c → _children c (wn_id n) = [] → wn_kind n = "output";
  ep_daily : ∀ n, n ∈ wc_nodes c → wn_action n = "daily_report" →
    ∃ p, p ∈ wc_nodes c ∧ pp_decision plan ∈ wn_depends_on p ∧ _normalized_condition p = "passed"
      ∧ (n = p ∨ above c (wn_id n) (wn_id p))
}.

Section Admission.
Context {c : wf_contract} (Hc : graph_wf c).

Lemma admit_node_v4_ok n : n ∈ wc_nodes c → admit_node_v4 c n = Ok tt →
  (wn_kind n, wn_action n) ∈ _ALLOWED_PAIRS_V4
  ∧ (wn_action n ≠ "parallel_join" → (length (wn_depends_on n) ≤ 1)%nat)
  ∧ wn_approval_required n = bool_decide (wn_kind n = "approval")
  ∧ (length (_children c (wn_id n)) ≤ 2)%nat
  ∧ conditions_ok c (negb (is_action "parallel_fork" n)) n.
Proof.
  intros Hn. unfold admit_node_v4, ws_fail_if. rewrite !guard_bind_ok, unit_bind_ok, !guard_bind_ok, (check_conditions_ok Hc) by done.
  rewrite negb_false_iff, bool_decide_eq_true, andb_false_imp, Z.ltb_lt, negb_false_iff, Z.ltb_ge.
  unfold is_action at 1. rewrite bool_decide_eq_true. intros (H1 & H3 & H2 & H4 & _ & _ & H5). split_and!; [done| | |lia|done].
  - intros Ha. destruct (decide (1 < Z.of_nat (length (wn_depends_on n)))) as [Hl|]; [by destruct Ha; apply H2|lia].
  - unfold is_kind in H3. case_bool_decide; rewrite raise_if_ok in H3; by destruct (wn_approval_required n).
Qed.

Lemma passed_child_ok l id : l ⊆ map wn_id (wc_nodes c) → passed_child c l = Ok id →
  id ∈ l ∧ ∃ n, _node_map c id = Some n ∧ _normalized_condition n = "passed".
Proof.
  induction l as [|x l IH]; intros Hl; cbn [passed_child]; [done|]. intros H. apply bind_ok_iff in H as (n & Hn & H).
  unfold node_at in Hn. destruct (_node_map c x) as [n'|] eqn:En; [|done]. injection Hn as ->. case_bool_decide.
  - injection H as <-. split; [left|by exists n].
  - destruct (IH ltac:(set_solver) H) as [? ?]. split; [by right|done].
Qed.

Lemma admit_parallel_ok plan root r : region_ok c plan → wc_nodes c ≠ [] → roots_of c = [root] →
  (∃ n, n ∈ wc_nodes c ∧ wn_id n = root ∧ wn_depends_on n = [] ∧ wn_action n = "input") →
  admit_parallel c plan root = Ok r → r = (c, root) ∧ executable_parallel c root plan.
Proof.
  intros Hreg Hne Hroots Hroot. unfold admit_parallel, ws_fail_if.
  rewrite !guard_bind_ok, unit_bind_ok, iterM_ok, !negb_false_iff. intros (_ & C2 & C3 & C4 & Hnodes & H).
  apply bind_ok_iff in H as (bad & Hbad & H). rewrite guard_bind_ok in H. destruct H as (-> & H).
  pose proof (proj1 (leaves_ok Hc Hne) Hbad) as Hleaves. apply bind_ok_iff in H as (visited & _ & H).
  rewrite guard_bind_ok in H. destruct H as [_ H]. apply bind_ok_iff in H as (passed & Hp & H).
  apply bind_ok_iff in H as (down & Hdown & H). rewrite !guard_bind_ok in H. destruct H as (Hdaily & _ & [= <-]).
  apply (passed_child_ok _ _ (children_ids Hc _)) in Hp as (Hpin & pn & Hpn & Hcond).
  pose proof (proj1 (node_map_spec Hc _ _) Hpn) as [Hpn' Hpid].
  assert (∀ n, n ∈ wc_nodes c → _) as Hall by (intros n Hn; exact (admit_node_v4_ok n Hn (Hnodes n Hn))).
  apply Z.eqb_eq in C2, C3. split; [done|]. split; try done; try (intros n Hn; apply (Hall n Hn)).
  - apply (roots_tree Hc); [naive_solver|done].
  - unfold count_action in C2, C3. split_and!; [lia..|]. by apply count_action_one.
  - intros n Hn Ha. exists pn. apply children_spec in Hpin as (pn' & H1 & H2 & H3).
    assert (pn' = pn) as -> by (apply (node_unique Hc); congruence). split_and!; [done..|].
    assert (wn_id n ∈ down) as Hin.
    { destruct (decide (wn_id n ∈ down)) as [|Hno]; [done|]. exfalso.
      apply not_true_iff_false in Hdaily. apply Hdaily, existsb_exists. exists (wn_id n). split; [|by rewrite bool_decide_eq_false_2].
      apply list_elem_of_In, list_elem_of_fmap_2. by apply list_elem_of_filter. }
    destruct (reach_sound _ _ _ _ _ Hdown _ Hin) as [?|(s & ->%list_elem_of_singleton & [He|Ha'])]; [set_solver|left|right].
    + apply (node_unique Hc); congruence.
    + by rewrite Hpid.
Qed.
End Admission.

Lemma admit_v4_ok sensitivity raw c root : _admit_v4 sensitivity raw = Ok (c, root) →
  (∃ c0, validate_contract_v4 raw = Ok c0 ∧ _parallel_plan c0 = Ok None
     ∧ _admit sensitivity (contract_json c0) = Ok (c, root))
  ∨ ∃ plan, validate_contract_v4 raw = Ok c ∧ _parallel_plan c = Ok (Some plan)
     ∧ (wc_trigger c = "manual" ∧ wc_risk_level c = "low" ∧ sensitivity ≠ "secret" ∧ wc_data_class c = sensitivity)
     ∧ executable_parallel c root plan.
Proof.
  unfold _admit_v4, ws_fail_if. intros H. apply bind_ok_iff in H as (c0 & Hv & H). apply (proj1 (design_error_ok _ _)) in Hv.
  apply bind_ok_iff in H as ([plan|] & Hp & H); [right|left; by exists c0].
  rewrite !guard_bind_ok, !negb_false_iff, !bool_decide_eq_true, bool_decide_eq_false in H.
  destruct H as (H1 & H2 & H3 & H4 & H). apply bind_ok_iff in H as (r & Hr & H).
  pose proof (v4_graph_wf _ _ Hv) as Hc. apply (single_root_ok Hc) in Hr as [R1 R2].
  apply (admit_parallel_ok Hc) in H as [[= <- <-] Hx]; [|by apply (parallel_plan_ok Hc)| |done..].
  - exists plan. done.
  - intros He. destruct R2 as (n & Hn & _). rewrite He in Hn. set_solver.
Qed.
