(* ===== verification/WorkflowRefinement.v ===== *)
(** * The controllers refine the abstract machine

    Every write of a state file during a call is reachable, by the transitions of
    [WorkflowSteps.v], from the state the call found; nothing else of the files changes.  The
    collaborators are arbitrary, and an exception or an interrupt may end the call anywhere. *)

From Stdlib Require Import Ascii.
From Stdlib Require String.
From S2P Require Import Prelude PyStr Hashlib Json JsonFacts TaskContract WorkflowDesign WorkflowAdmission.
From S2P Require Import TaskStore ExecutionBudget LinkedBudget WorkflowState WorkflowController WorkflowMachine WorkflowSteps.

Local Open Scope Z_scope.

Section Refinement.
Context {HL : Hashlib} {W : Type} {RT : WorkflowRuntime W}.
Variable v : controller.
Variable c : wf_contract.
Variable y0 : Sys W.
Variable k : string.
Variable s0 : WorkflowState.
Hypothesis Hkey : _safe_task_id (ws_task_id s0) = Ok k.

Notation reached := (rtc (wf_step v c) s0).

(** The files, during a call on the workflow of key [k]: only its state file has changed, to a
    state reached from the first one. *)
Definition owns (y : Sys W) : Prop :=
  sy_contracts y = sy_contracts y0
  ∧ ∃ f, reached f ∧ sy_states y = <[k := StateFile f]> (sy_states y0).

(** A computation keeps to the files, and what it returns satisfies [Q]. *)
Definition upholds {A} (m : ST (Sys W) A) (Q : A → Prop) : Prop :=
  ∀ y r y', owns y → m y = (r, y') → owns y' ∧ ∀ a, r = Ok a → Q a.

Lemma upholds_mono {A} (m : ST (Sys W) A) (P Q : A → Prop) : upholds m P → (∀ a, P a → Q a) → upholds m Q.
Proof. intros Hm HPQ y r y' Hy H. destruct (Hm _ _ _ Hy H) as [? HP]. split; [done|]. eauto. Qed.

Lemma upholds_ret {A} (a : A) (Q : A → Prop) : Q a → upholds (mret a) Q.
Proof. intros HQ y r y' Hy [= <- <-]. split; [done|]. by intros ? [= <-]. Qed.

Lemma upholds_lift {A} (m : result A) (Q : A → Prop) : (∀ a, m = Ok a → Q a) → upholds (st_lift m) Q.
Proof. intros HQ y r y' Hy [= <- <-]. split; done. Qed.

Lemma upholds_bind {A B} (m : ST (Sys W) A) (f : A → ST (Sys W) B) (P : A → Prop) (Q : B → Prop) :
  upholds m P → (∀ a, P a → upholds (f a) Q) → upholds (a ← m; f a) Q.
Proof.
  intros Hm Hf y r y' Hy. unfold mbind, st_bind. destruct (m y) as [[a|e] y1] eqn:E; intros H;
    destruct (Hm _ _ _ Hy E) as [Hy1 HP].
  - by eapply (Hf a (HP a eq_refl)).
  - injection H as <- <-. split; [done|]. by intros ? [=].
Qed.

Lemma upholds_bind_lift {A B} (m : result A) (f : A → ST (Sys W) B) (Q : B → Prop) :
  (∀ a, m = Ok a → upholds (f a) Q) → upholds (a ← st_lift m; f a) Q.
Proof. intros Hf. eapply upholds_bind; [by apply (upholds_lift m (λ a, m = Ok a))|done]. Qed.

Lemma upholds_world {A} (m : ST W A) : upholds (world m) (λ _, True).
Proof.
  intros y r y' [Hc (f & Hf & Hs)] H. unfold world, st_zoom in H. destruct (m (sy_world y)) as [r1 w] eqn:E.
  injection H as <- <-. split; [|done]. split; [done|]. by exists f.
Qed.

Lemma upholds_except {A} (m : ST (Sys W) A) h (Q : A → Prop) : upholds m Q → (∀ e, upholds (h e) Q) → upholds (st_except m h) Q.
Proof.
  intros Hm Hh y r y' Hy. unfold st_except. destruct (m y) as [[a|e] y1] eqn:E; destruct (Hm _ _ _ Hy E) as [Hy1 HQ].
  - intros [= <- <-]. split; done.
  - destruct (is_exception e); [by apply Hh|]. intros [= <- <-]. split; [done|]. by intros ? [=].
Qed.

Lemma upholds_finally {A} (m : ST (Sys W) A) n (Q : A → Prop) P : upholds m Q → upholds n P → upholds (st_finally m n) Q.
Proof.
  intros Hm Hn y r y' Hy. unfold st_finally. destruct (m y) as [r1 y1] eqn:E. destruct (Hm _ _ _ Hy E) as [Hy1 HQ].
  destruct (n y1) as [[u|e] y2] eqn:E2; destruct (Hn _ _ _ Hy1 E2) as [Hy2 _]; intros [= <- <-]; split; try done.
Qed.

Lemma upholds_raise_if b cls msg : upholds (st_raise_if b cls msg) (λ _, b = false).
Proof. apply upholds_lift. intros u H. by apply raise_if_ok in H. Qed.

(** What is reached is written to the file of its task. *)
Lemma upholds_write s : reached s → upholds (_write_state s) (λ _, True).
Proof.
  intros Hs y r y' [Hc (f & Hf & Hst)] H. unfold _write_state in H.
  assert (_safe_task_id (ws_task_id s) = Ok k) as Hk by (unfold ws_task_id in *; by rewrite (wf_steps_head _ _ _ _ Hs)).
  unfold mbind, st_bind, st_lift in H. rewrite Hk in H. injection H as <- <-. split; [|done]. split; [done|].
  exists s. split; [done|]. cbn. by rewrite Hst, insert_insert_eq.
Qed.

Lemma reached_step s s' : reached s → wf_step v c s s' → reached s'.
Proof. intros. by eapply rtc_r. Qed.

(** [save] writes what is reached; the state it returns is the same but for its time stamp. *)
Lemma upholds_save s : reached s → upholds (save s) (λ s', reached s' ∧ ∃ now, s' = set_ws_updated_at now s).
Proof.
  intros Hs. unfold save. eapply upholds_bind; [apply upholds_world|]. intros now _.
  assert (reached (set_ws_updated_at now s)) as Hn by (eapply reached_step; [done|constructor]).
  eapply upholds_bind; [by apply upholds_write|]. intros _ _. apply upholds_ret. eauto.
Qed.

(** ** The operations of a run *)

(** What the transitions look at. *)
Definition view (s : WorkflowState) :=
  (ws_status s, ws_current_node s, ws_terminal_reason s, ws_parallel_region s, ws_last_validation s).

Ltac upholds_step :=
  lazymatch goal with
  | |- upholds (st_raise_if _ _ _ ≫= _) _ => eapply upholds_bind; [apply upholds_raise_if|]; intros ? ?; cbv beta in *
  | |- upholds (world _ ≫= _) _ => eapply upholds_bind; [apply upholds_world|]; intros ? _
  | |- upholds (activity_of _ _ _ _ _ ≫= _) _ => eapply upholds_bind; [apply upholds_world|]; intros ? _
  | |- upholds (st_lift _ ≫= _) _ => apply upholds_bind_lift; intros ? ?
  | |- upholds (mret _) _ => apply upholds_ret
  | |- upholds (st_lift _) _ => apply upholds_lift; intros ? ?
  | |- upholds (world _) _ => eapply upholds_mono; [apply upholds_world|]; intros ? _
  | |- upholds (save _ ≫= _) _ => eapply upholds_bind; [apply upholds_save|]; [|intros ? [? [? ->]]]
  | |- upholds (save _) _ => eapply upholds_mono; [apply upholds_save|]; [|intros ? [? [? ->]]]
  end.

Ltac upholds_calls :=
  repeat lazymatch goal with
  | |- upholds (world _ ≫= _) _ => upholds_step
  | |- upholds (st_raise_if _ _ _ ≫= _) _ => upholds_step
  | |- upholds (activity_of _ _ _ _ _ ≫= _) _ => upholds_step
  | |- upholds (st_lift _ ≫= _) _ => upholds_step
  end.

Lemma upholds_runtime_context s : reached s → ws_status s = "running" →
  upholds (_runtime_context v s) (λ '(s', _), reached s' ∧ view s' = view s).
Proof.
  intros Hs Hr. unfold _runtime_context. repeat upholds_step. destruct (negb (ws_runtime_bound s)).
  - upholds_step. upholds_step; [by eapply reached_step, step_bind|].
    match goal with |- upholds (match ?a with _ => _ end) _ => destruct a end; upholds_step; [done|discriminate].
  - by repeat upholds_step.
Qed.

Lemma upholds_release a : upholds (_release_agent_model a) (λ _, True).
Proof.
  unfold _release_agent_model. destruct (agent_unload a); [|by upholds_step].
  apply upholds_except; [apply upholds_world|]. intros e. by upholds_step.
Qed.

Lemma view_at_node s s' n : view s' = view s → at_node c s n → at_node c s' n.
Proof. intros [= H1 H2 _ _ _] (G1 & G2 & G3). split_and!; congruence. Qed.

Lemma upholds_get : upholds st_get (λ _, True).
Proof. intros y r y' Hy [= <- <-]. done. Qed.

Lemma upholds_load_contract s : upholds (_load_contract v s) (λ _, True).
Proof.
  unfold _load_contract. upholds_step. eapply upholds_bind; [apply upholds_get|]. intros y _.
  destruct (sy_contracts y !! _) as [[|raw]|]; repeat upholds_step; done.
Qed.

Lemma upholds_summary s : upholds (_summary v s) (λ _, True).
Proof. unfold _summary. eapply upholds_bind; [apply upholds_load_contract|]. intros ? _. by upholds_step. Qed.

Lemma upholds_complete s id next : reached (completed_state s id next) →
  upholds (_complete_node s id next) (λ s', reached s' ∧ view s' = view (completed_state s id next)).
Proof. intros H. unfold _complete_node. by upholds_step. Qed.

(** The agents' runs leave the state at its node. *)
Lemma upholds_recorded s n source passed : reached s → at_node c s n →
  (source, wn_action n) ∈ [("research", "research"); ("presentation", "presentation"); ("parallel_branches", "parallel_fork")] →
  (source = "presentation" → research_passed s = true) →
  (source = "parallel_branches" → region_status s = "running") →
  upholds (save (record_validation source passed s)) (λ s', reached s' ∧ at_node c s' n).
Proof. intros Hs Hn Hin Hp Hr. upholds_step; [by eapply reached_step, step_validate|]. split; [done|]. apply Hn. Qed.

Lemma upholds_run_research s n : reached s → at_node c s n → wn_action n = "research" →
  upholds (_run_research v s) (λ s', reached s' ∧ at_node c s' n).
Proof.
  intros Hs Hn Ha. unfold _run_research. eapply upholds_bind; [apply upholds_runtime_context; [done|apply Hn]|].
  intros [s1 b] [Hs1 Hv]. eapply upholds_bind.
  { eapply upholds_finally; [|apply upholds_release]. repeat upholds_step. exact I. }
  intros _ _. upholds_calls. apply upholds_recorded; [done|by eapply view_at_node| |done..]. rewrite Ha. set_solver.
Qed.

Lemma upholds_run_presentation s n : reached s → at_node c s n → wn_action n = "presentation" →
  upholds (_run_presentation v s) (λ s', reached s' ∧ at_node c s' n).
Proof.
  intros Hs Hn Ha. unfold _run_presentation. upholds_step.
  eapply upholds_bind; [apply upholds_runtime_context; [done|apply Hn]|]. intros [s1 b] [Hs1 Hv]. eapply upholds_bind.
  { eapply upholds_finally; [|apply upholds_release]. repeat upholds_step. exact I. }
  intros _ _. upholds_calls. apply upholds_recorded; [done|by eapply view_at_node| | |done].
  - rewrite Ha. set_solver.
  - intros _. injection Hv as _ _ _ _ Hl. unfold research_passed in *. rewrite Hl. by apply negb_false_iff.
Qed.

Lemma upholds_run_daily s : upholds (_run_daily_report s) (λ _, True).
Proof.
  unfold _run_daily_report. upholds_step. eapply upholds_bind.
  { eapply upholds_finally; [apply upholds_world|apply upholds_release]. }
  intros _ _. unfold activity_of. apply upholds_world.
Qed.

Lemma upholds_pause s n : reached s → at_node c s n → wn_kind n = "approval" → upholds (_pause_for_approval v s n) (λ _, True).
Proof.
  intros Hs Hn Hk. unfold _pause_for_approval. upholds_step. upholds_step.
  { eapply reached_step; [done|]. by apply (step_pause v c s n). }
  upholds_calls. apply upholds_summary.
Qed.

Lemma upholds_blocked s reason : reached (set_ws_terminal_reason (Some reason) (set_ws_status "blocked" s)) →
  upholds (finish_blocked v reason s) (λ _, True).
Proof.
  intros Hs. unfold finish_blocked. upholds_step; [done|]. upholds_step. apply (upholds_bind _ _ (λ _, True)); [|intros ? _; apply upholds_summary].
  case_bool_decide; [by upholds_step|apply upholds_world].
Qed.

Lemma upholds_finish_output s n : reached s → at_node c s n → wn_action n = "output" →
  upholds (_finish_output v s (wn_id n)) (λ _, True).
Proof.
  intros Hs Hn Ha. unfold _finish_output.
  eapply upholds_bind; [apply upholds_complete; by eapply reached_step, step_output|]. intros s1 [Hs1 Hv].
  assert (ws_status s1 = "running" ∧ ws_current_node s1 = None) as [Hr Hcur].
  { injection Hv as H1 H2 _ _ _. destruct Hn as (Hr & _). rewrite H1, H2. unfold completed_state, add_completed.
    by destruct (mem_str _ _). }
  case_bool_decide as Hrej.
  { upholds_step; [by eapply reached_step, step_rejected|]. upholds_step. apply upholds_summary. }
  destruct (negb (validation_passed s1)) eqn:Hp.
  { apply upholds_blocked. eapply reached_step; [done|]. apply step_blocked; [done..|].
    apply negb_true_iff in Hp. by rewrite Hp. }
  apply negb_false_iff in Hp. upholds_step. eapply upholds_bind; [by apply upholds_runtime_context|]. intros [s2 b] [Hs2 [= H1 H2 H3 _ H5]].
  assert (validation_passed s2 = true) as Hp2 by (unfold validation_passed in *; by rewrite H5).
  upholds_step. match goal with |- upholds (if ?b then _ else _) _ => destruct b end.
  { apply upholds_blocked. eapply reached_step; [done|]. apply step_blocked; [congruence..|]. by rewrite Hp2. }
  upholds_step. upholds_step; [eapply reached_step; [done|]; apply step_finish; congruence|]. upholds_step. apply upholds_summary.
Qed.

(** ** The parallel region *)

Lemma upholds_create_branches i lanes : upholds (create_branches c i lanes) (λ _, True).
Proof.
  revert i. induction lanes as [|l lanes IH]; intros i; cbn [create_branches]; [by upholds_step|]. upholds_calls.
  eapply upholds_bind; [apply IH|]. intros ? _. by upholds_step.
Qed.

Lemma upholds_iterM {A} (f : A → ST (Sys W) unit) l : (∀ x, upholds (f x) (λ _, True)) → upholds (st_iterM f l) (λ _, True).
Proof.
  intros Hf. induction l as [|x l IH]; cbn [st_iterM]; [by upholds_step|]. eapply upholds_bind; [apply Hf|]. intros ? _. apply IH.
Qed.

Lemma set_region_at st bs o plan s n : at_node c s n → at_node c (set_region st bs o plan s) n.
Proof. done. Qed.

Lemma upholds_region s n plan : reached s → at_node c s n → wn_action n = "parallel_fork" →
  plan_of v c = Some plan → wn_id n = pp_fork plan →
  upholds (_run_parallel_region v s c plan) (λ s', reached s' ∧ at_node c s' n ∧ region_status s' = "completed").
Proof.
  intros Hs Hn Ha Hplan Hfork. unfold _run_parallel_region. upholds_step. upholds_step.
  eapply upholds_bind; [apply upholds_runtime_context; [done|apply Hn]|]. intros [s1 b] [Hs1 Hv]. upholds_calls.
  assert (region_status s1 = region_status s) as Hrs by (unfold region_status; injection Hv as _ _ _ -> _; done).
  assert (reached (set_region "starting" [] None plan s1)) as Hs2.
  { eapply reached_step; [done|]. apply (step_region_start v c s1 n); [by eapply view_at_node|done..|]. rewrite Hrs.
    match goal with H : mem_str _ _ = false |- _ => apply mem_str_false in H end. case_bool_decide; [done|]. set_solver. }
  upholds_step; [done|]. eapply upholds_bind; [apply upholds_create_branches|]. intros branches _.
  match goal with |- upholds (save (set_region _ _ _ _ ?s) ≫= _) _ => set (s2 := s) in * end.
  assert (at_node c s2 n) as Hn2 by (by eapply view_at_node in Hv).
  upholds_step; [eapply reached_step; [done|by apply (step_region_run v c s2 n)]|].
  match goal with |- upholds (activity_of _ ?s _ _ _ ≫= _) _ => set (s3 := s) in * end. upholds_step.
  apply (upholds_bind _ _ (λ _, True)).
  { eapply upholds_finally.
    - destruct branches as [|b1 [|b2 [|? ?]]]; first [by apply upholds_ret | apply upholds_world].
    - eapply upholds_bind; [apply upholds_release|]. intros ? _. apply upholds_release. }
  intros results _. apply (upholds_bind _ _ (λ '(s', ok), s' = record_validation "parallel_branches" ok s3)).
  { unfold _record_parent_parallel_validation. apply (upholds_bind _ _ (λ _, True)); [|intros; by upholds_step].
    apply upholds_iterM. intros validator. upholds_calls. apply upholds_world. }
  intros [s4 ok] ->.
  assert (reached (record_validation "parallel_branches" ok s3)) as Hs4.
  { eapply reached_step; [done|]. apply (step_validate v c s3 n); [done| |done|done]. rewrite Ha. set_solver. }
  upholds_step; [eapply reached_step; [done|]; by apply (step_region_done v c _ n _ _ {| va_source := "parallel_branches"; va_passed := ok |})|].
  upholds_step. by upholds_step.
Qed.

Lemma add_all_fields l s : ws_status (fold_left (λ s id, add_completed id s) l s) = ws_status s
  ∧ ws_revision (fold_left (λ s id, add_completed id s) l s) = ws_revision s.
Proof.
  revert s. induction l as [|id l IH]; intros s; cbn [fold_left]; [done|]. destruct (IH (add_completed id s)) as [-> ->].
  unfold add_completed. by destruct (mem_str _ _).
Qed.

Lemma upholds_complete_region s n plan : reached s → at_node c s n → plan_of v c = Some plan → wn_id n = pp_fork plan →
  region_status s = "completed" →
  upholds (_complete_parallel_region s c plan) (λ s', reached s' ∧ ws_status s' = "running").
Proof.
  intros Hs Hn Hplan Hfork Hr. unfold _complete_parallel_region. upholds_step.
  match goal with H : _next_unconditional _ _ = Ok ?x |- _ => rename H into Hnext; rename x into next end.
  fold (region_nodes plan). destruct (add_all_fields (region_nodes plan) s) as [Hst Hrev]. rewrite Hrev.
  upholds_step; [eapply reached_step; [done|by apply (step_join v c s n)]|]. split; [done|].
  trans (ws_status s); [exact Hst|apply Hn].
Qed.

(** ** The loop *)

(** A round goes on from a reached state that is still running. *)
Definition round_ok (o : outcome_of_round) : Prop :=
  match o with Continue s => reached s ∧ ws_status s = "running" | Return _ => True end.

Lemma upholds_complete_and_go s n : reached s → at_node c s n → plain_node n →
  (wn_action n ∉ ["input"; "research"] → wn_kind n = "validation" → ws_last_validation s ≠ None) →
  upholds (complete_and_go s c (wn_id n)) round_ok.
Proof.
  intros Hs Hn Hp Hl. unfold complete_and_go. upholds_step.
  eapply upholds_bind; [apply upholds_complete; eapply reached_step; [done|by eapply step_complete]|].
  intros s' [Hs' [= Hst _ _ _ _]]. apply upholds_ret. split; [done|]. rewrite Hst.
  unfold completed_state, add_completed. destruct (mem_str _ _); apply Hn.
Qed.

Lemma upholds_decide_node s n : reached s → at_node c s n → wn_kind n = "decision" →
  upholds (decide_node s c (wn_id n)) round_ok.
Proof.
  intros Hs Hn Hk. unfold decide_node. destruct (ws_last_validation s) as [last|] eqn:Hl; [|by upholds_step].
  apply upholds_bind_lift. intros [s1 [next|]] Hsel; [|by upholds_step].
  eapply upholds_bind; [apply upholds_complete; eapply reached_step; [done|by eapply step_choose]|].
  intros s' [Hs' [= Hst _ _ _ _]]. apply upholds_ret. split; [done|]. rewrite Hst. apply select_branch_ok in Hsel as [-> _].
  unfold completed_state, add_completed. destruct (mem_str _ _); apply Hn.
Qed.

Lemma upholds_fork_node s n : reached s → at_node c s n → wn_action n = "parallel_fork" →
  upholds (fork_node v s c (plan_of v c) (wn_id n)) round_ok.
Proof.
  intros Hs Hn Ha. unfold fork_node. destruct (plan_of v c) as [plan|] eqn:Hp; [|by upholds_step]. upholds_step.
  match goal with H : negb (bool_decide _) = false |- _ => apply negb_false_iff, bool_decide_eq_true in H end.
  eapply upholds_bind; [by apply upholds_region|]. intros s1 (Hs1 & Hn1 & Hr1).
  eapply upholds_bind; [by eapply upholds_complete_region|]. intros s2 Hs2. by apply upholds_ret.
Qed.

Lemma upholds_run_node s id : reached s → ws_status s = "running" → ws_current_node s = Some id →
  upholds (run_node v c (plan_of v c) s id) round_ok.
Proof.
  intros Hs Hr Hcur. unfold run_node. apply upholds_bind_lift. intros n Hn.
  destruct (_node_map c id) as [n'|] eqn:En; [|done]. injection Hn as ->.
  assert (wn_id n = id) as <- by (unfold _node_map in En; apply find_some in En as [_ En]; by apply bool_decide_eq_true in En).
  assert (at_node c s n) as Hat by done. upholds_step. unfold is_kind.
  case_bool_decide as Hin; [apply upholds_complete_and_go; [done..|by left|rewrite Hin; set_solver]|].
  case_bool_decide as Hres.
  { eapply upholds_bind; [by apply (upholds_run_research s n)|]. intros s1 [Hs1 Hn1].
    apply upholds_complete_and_go; [done..|by right; left|rewrite Hres; set_solver]. }
  case_bool_decide as Hval.
  { destruct (ws_last_validation s) as [last|] eqn:Hl; [|by upholds_step].
    apply upholds_complete_and_go; [done..|by right; right; left|by rewrite Hl]. }
  case_bool_decide as Hdec; [by apply upholds_decide_node|].
  case_bool_decide as Happ; [eapply upholds_bind; [by apply upholds_pause|]; intros ? _; by apply upholds_ret|].
  destruct (is_v4 v && _) eqn:Hfork.
  { apply andb_true_iff in Hfork as [_ Hf]. apply bool_decide_eq_true in Hf. by apply upholds_fork_node. }
  destruct (is_v4 v && bool_decide (wn_action n = "parallel_join")). { apply upholds_lift. done. }
  clear Hfork.   assert (wn_kind n ∉ ["decision"; "approval"]) as Hk by set_solver.
  case_bool_decide as Hpre.
  { eapply upholds_bind; [apply (upholds_run_presentation s n); [exact Hs|exact Hat|exact Hpre]|]. intros s1 [Hs1 Hn1].
    apply upholds_complete_and_go; [done..| |done]. right; right; right. rewrite Hpre. set_solver. }
  case_bool_decide as Hday.
  { eapply upholds_bind; [apply upholds_run_daily|]. intros ? _.
    apply upholds_complete_and_go; [done..| |done]. right; right; right. rewrite Hday. set_solver. }
  case_bool_decide as Hout; [|by upholds_step].
  eapply upholds_bind; [by apply upholds_finish_output|]. intros ? _. by apply upholds_ret.
Qed.

Lemma upholds_advance_loop fuel s : reached s → ws_status s = "running" →
  upholds (advance_loop v fuel c (plan_of v c) s) (λ _, True).
Proof.
  revert s. induction fuel as [|fuel IH]; intros s Hs Hr; cbn [advance_loop]; [by upholds_step|].
  destruct (ws_current_node s) as [id|] eqn:Hcur; [|by upholds_step]. destruct (is_empty id); [by upholds_step|].
  eapply upholds_bind; [by apply upholds_run_node|]. intros [s1|m] Ho; [apply IH; apply Ho|by upholds_step].
Qed.

Lemma upholds_advance s : reached s → ws_status s = "running" → upholds (_advance v s c) (λ _, True).
Proof.
  intros Hs Hr. unfold _advance. apply upholds_bind_lift. intros plan Hp.
  assert (plan = plan_of v c) as -> by (unfold plan_of; destruct (is_v4 v); [by rewrite Hp|by injection Hp]).
  assert (set_ws_status "running" s = s) as He by (destruct s; cbn in *; by subst). rewrite He.
  upholds_step; [done|]. by apply upholds_advance_loop.
Qed.

(** ** Failures *)

Lemma load_state_ok t (y : Sys W) r (y' : Sys W) : _load_state v t y = (r, y') →
  y' = y ∧ ∀ s, r = Ok s → ws_task_id s = t ∧ wh_schema_version (ws_head s) = STATE_SCHEMA_VERSION v
    ∧ ∃ k', _safe_task_id t = Ok k' ∧ sy_states y !! k' = Some (StateFile s).
Proof.
  intros H. unfold _load_state, mbind, st_bind, st_lift, st_get in H. destruct (_safe_task_id t) as [k'|]; [|by injection H as <- <-].
  destruct (sy_states y !! k') as [[| |s]|] eqn:El; try by injection H as <- <-.
  unfold st_raise_if, st_lift, raise_if, mret, st_ret in H. case_bool_decide as E1; cbn [negb] in H; [|by injection H as <- <-].
  case_bool_decide as E; cbn [negb] in H; injection H as <- <-; [|done]. split; [done|]. intros ? [= <-].
  split_and!; [done..|]. by exists k'.
Qed.

Lemma upholds_load_state t : upholds (_load_state v t) (λ s, ws_task_id s = t ∧ (_safe_task_id t = Ok k → reached s)).
Proof.
  intros y r y' Hy [-> Hr]%load_state_ok.
  split; [done|]. intros s Hs. destruct (Hr s Hs) as (Ht & _ & k' & Hk & Hl). split; [done|]. intros Hk2.
  destruct Hy as (_ & f & Hf & Hst). assert (k' = k) as -> by congruence.
  rewrite Hst, lookup_insert_eq in Hl. by injection Hl as ->.
Qed.

Lemma upholds_failure t e : _safe_task_id t = Ok k → upholds (_mark_runtime_failure v t e) (λ _, True).
Proof.
  intros Ht. unfold _mark_runtime_failure. eapply upholds_bind; [apply upholds_load_state|]. intros s [_ Hs]. specialize (Hs Ht).
  upholds_step; [eapply reached_step; [done|apply step_fail]|]. upholds_step.
  apply (upholds_bind _ _ (λ _, True)); [|intros; apply upholds_world].
  destruct (_ || _); [by upholds_step|apply upholds_world].
Qed.

Lemma upholds_advance_or_fail t s : _safe_task_id t = Ok k → reached s → ws_status s = "running" →
  upholds (advance_or_fail v t s c) (λ _, True).
Proof.
  intros Ht Hs Hr. unfold advance_or_fail. apply upholds_except; [by apply upholds_advance|]. intros e.
  eapply upholds_bind; [by apply upholds_failure|]. intros ? _. by upholds_step.
Qed.

(** ** The calls *)

(** The contract that the call reads, when it reads one, is [c]. *)
Hypothesis Hload : ∀ c', (_load_contract v s0 y0).1 = Ok c' → c' = c.

Lemma load_contract_result s y : owns y → ws_head s = ws_head s0 → (_load_contract v s y).1 = (_load_contract v s0 y0).1.
Proof.
  intros [Hc _] Hh. unfold _load_contract, ws_task_id, mbind, st_bind, st_lift, st_get. rewrite Hh, Hc.
  destruct (_safe_task_id _) as [k'|]; [|done]. destruct (sy_contracts y0 !! k') as [[|raw]|]; try done.
  destruct (reraise _ _ _ _); [|done]. unfold st_raise_if, st_lift. by destruct (negb _).
Qed.

Lemma upholds_load_this s : reached s → upholds (_load_contract v s) (λ c', c' = c).
Proof.
  intros Hs y r y' Hy H. destruct (upholds_load_contract s y r y' Hy H) as [Hy' _]. split; [done|]. intros c' ->.
  apply Hload. rewrite <- (load_contract_result s y Hy) by (by apply wf_steps_head in Hs). by rewrite H.
Qed.

(** [start] after it has read the state. *)
Definition start_from (task_id approval_fingerprint confirmation approver_id : string) (s : WorkflowState)
    : ST (Sys W) (option summary) :=
  st_raise_if (negb (bool_decide (ws_status s = "prepared"))) WorkflowStateError
    "workflow preparation is not startable" ;;
  st_raise_if (negb (bool_decide (strip approval_fingerprint = wh_dispatch_fingerprint (ws_head s))))
    WorkflowStateError "dispatch approval fingerprint mismatch" ;;
  st_raise_if (negb (bool_decide (strip confirmation = "AUTHORIZE"))) WorkflowStateError
    "explicit AUTHORIZE confirmation is required" ;;
  actor ← st_lift (_actor_ref approver_id);
  s ← save (set_ws_revision (ws_revision s + 1) (set_ws_status "running" (set_ws_initial_approver_ref (Some actor) s)));
  world (store_record_activity task_id "workflow_v3" "workflow_authorized" "ok"
    ("profile=" +:+ EXECUTION_PROFILE +:+ " approver=" +:+ actor)) ;;
  c ← _load_contract v s;
  advance_or_fail v task_id s c.

Lemma upholds_start t fp cf who : _safe_task_id t = Ok k → upholds (start_from t fp cf who s0) (λ _, True).
Proof.
  intros Ht. unfold start_from. upholds_calls.
  match goal with H : negb (bool_decide (ws_status s0 = _)) = false |- _ => apply negb_false_iff, bool_decide_eq_true in H; rename H into Hp end.
  upholds_step; [eapply reached_step; [reflexivity|by apply step_authorize]|]. upholds_step.
  eapply upholds_bind; [by apply upholds_load_this|]. intros c' ->. by apply upholds_advance_or_fail.
Qed.

Lemma upholds_decision t cp approve actor : _safe_task_id t = Ok k → ws_status s0 = "paused" →
  ws_checkpoint s0 = Some cp → cp_status cp = "pending" → upholds (apply_decision v t s0 cp approve actor) (λ _, True).
Proof.
  intros Ht Hs Hcp Hpend. unfold apply_decision. eapply upholds_bind; [by apply upholds_load_this|]. intros c' ->.
  apply upholds_bind_lift. intros [s1 selected] Hsel. upholds_calls.
  assert (wf_step v c s0 (set_ws_status (match selected with Some _ => "running" | None => "rejected" end)
    ((if approve then id else set_ws_terminal_reason (Some "approval_rejected"))
       (set_ws_updated_at a1 (decided_state s1 cp actor (if approve then "APPROVE" else "REJECT") selected))))) as Hstep.
  { destruct approve; [|by eapply step_reject]. destruct selected as [next|]; [|done]. by eapply step_approve. }
  destruct selected as [next|].
  - eapply upholds_bind; [apply upholds_write; eapply reached_step; [reflexivity|]; by destruct approve|]. intros ? _.
    upholds_step. apply upholds_advance_or_fail; [done| |by destruct approve].
    eapply reached_step; [reflexivity|]. by destruct approve.
  - eapply upholds_bind; [apply upholds_write; eapply reached_step; [reflexivity|]; by destruct approve|]. intros ? _.
    upholds_step. by upholds_step.
Qed.
End Refinement.
