(* ===== verification/WorkflowInvariant.v ===== *)
(** * The invariant of running workflows

    What holds of the state of an admitted workflow after any transitions of the abstract
    machine: a node is entered after all the nodes it depends on, a branch is entered by the
    decision that names it, every node once, and nothing before the authorization. *)

From Stdlib Require Import Ascii.
From Stdlib Require String.
From S2P Require Import Prelude PyStr Hashlib Json JsonFacts TaskContract WorkflowDesign WorkflowGraph WorkflowFacts.
From S2P Require Import WorkflowAdmission WorkflowAdmissionFacts WorkflowParallelFacts.
From S2P Require Import TaskStore ExecutionBudget LinkedBudget WorkflowState WorkflowController WorkflowMachine WorkflowSteps.

Local Open Scope Z_scope.

(** ** The shape of admitted workflows *)

Record wf_shape (v : controller) (c : wf_contract) (root : string) : Prop := {
  sh_graph : graph_wf c;
  sh_root : root ∈ map wn_id (wc_nodes c) ∧ ∀ p, ¬ parent_of c root p;
  sh_single : ∀ ch p q, parent_of c ch p → parent_of c ch q →
    p = q ∨ ∃ plan, plan_of v c = Some plan ∧ ch = pp_join plan;
  sh_pair : ∀ n, n ∈ wc_nodes c → (wn_kind n, wn_action n) ∈ _ALLOWED_PAIRS_V4;
  sh_region : ∀ plan, plan_of v c = Some plan → region_ok c plan
}.

Lemma pairs_v4 p : p ∈ _ALLOWED_PAIRS → p ∈ _ALLOWED_PAIRS_V4.
Proof.
  assert (Forall (λ p, p ∈ _ALLOWED_PAIRS_V4) _ALLOWED_PAIRS) as H by (apply (bool_decide_unpack _); by vm_compute).
  rewrite Forall_elem in H. apply H.
Qed.

(** No node of version 3 is a parallel one. *)
Lemma pairs_v3 kind action : (kind, action) ∈ _ALLOWED_PAIRS → action ∉ ["parallel_fork"; "parallel_join"].
Proof.
  assert (Forall (λ p, p.2 ∉ ["parallel_fork"; "parallel_join"]) _ALLOWED_PAIRS) as H by (apply (bool_decide_unpack _); by vm_compute).
  rewrite Forall_elem in H. apply (H (kind, action)).
Qed.

Lemma pair_kind kind action : (kind, action) ∈ _ALLOWED_PAIRS_V4 →
  (kind ∈ ["decision"; "approval"; "parallel"] → action ∉ ["input"; "research"; "presentation"; "daily_report"])
  ∧ (action ∈ ["parallel_fork"; "parallel_join"] → kind = "parallel")
  ∧ (action ∈ ["research"; "presentation"] → kind = "agent").
Proof.
  assert (Forall (λ p, (p.1 ∈ ["decision"; "approval"; "parallel"] → p.2 ∉ ["input"; "research"; "presentation"; "daily_report"])
    ∧ (p.2 ∈ ["parallel_fork"; "parallel_join"] → p.1 = "parallel") ∧ (p.2 ∈ ["research"; "presentation"] → p.1 = "agent"))
    _ALLOWED_PAIRS_V4) as H by (apply (bool_decide_unpack _); by vm_compute).
  rewrite Forall_elem in H. apply (H (kind, action)).
Qed.

Lemma output_kind kind : (kind, "output") ∈ _ALLOWED_PAIRS_V4 → kind = "output".
Proof.
  assert (Forall (λ p, p.2 = "output" → p.1 = "output") _ALLOWED_PAIRS_V4) as H by (apply (bool_decide_unpack _); by vm_compute).
  rewrite Forall_elem in H. intros Hk. exact (H (kind, "output") Hk eq_refl).
Qed.

Lemma inner_kind k : k ∈ ["agent"; "parallel"] → k ∉ ["decision"; "approval"].
Proof.
  assert (Forall (λ k, k ∉ ["decision"; "approval"]) ["agent"; "parallel"]) as H by (apply (bool_decide_unpack _); by vm_compute).
  rewrite Forall_elem in H. apply H.
Qed.

Lemma tree_shape c root v : graph_wf c → executable_tree c root → plan_of v c = None → wf_shape v c root.
Proof.
  intros Hc [X1 X2 X3 X4 _ _ _ _ _] Hplan. destruct X1 as (n0 & Hn0 & Hid0 & Hd0 & _).
  assert (∀ p, ¬ parent_of c root p) as Htop.
  { intros p (n & Hn & He & Hp). assert (n = n0) as -> by (apply (node_unique Hc); congruence). rewrite Hd0 in Hp. set_solver. }
  split.
  - done.
  - split; [|done]. rewrite <- Hid0. by apply list_elem_of_fmap_2.
  - intros ch p q (n & Hn & <- & Hp) (n' & Hn' & He & Hq). left. apply (node_unique Hc) in He as ->; [|done..].
    destruct (X2 n Hn) as [x Hx]; [|rewrite Hx in Hp, Hq; apply list_elem_of_singleton in Hp, Hq; congruence].
    intros Hr. apply (Htop p). exists n. done.
  - intros n Hn. by apply pairs_v4, X4.
  - intros plan Hp. congruence.
Qed.

Lemma tree_no_plan c v : (∀ n, n ∈ wc_nodes c → (wn_kind n, wn_action n) ∈ _ALLOWED_PAIRS) → plan_of v c = None.
Proof.
  intros Hp. unfold plan_of. destruct (is_v4 v); [|done]. unfold _parallel_plan.
  assert (∀ a, a ∈ ["parallel_fork"; "parallel_join"] → filter (λ n, wn_action n = a) (wc_nodes c) = []) as Hf.
  { intros a Ha. destruct (filter _ _) as [|n l] eqn:E; [done|]. exfalso.
    assert (n ∈ filter (λ n, wn_action n = a) (wc_nodes c)) as [Hact Hn]%list_elem_of_filter by (rewrite E; left).
    specialize (Hp n Hn). rewrite Hact in Hp. by apply pairs_v3 in Hp. }
  by rewrite !Hf by set_solver.
Qed.

Lemma admit_shape {HL : Hashlib} {W : Type} {RT : WorkflowRuntime W} v raw c root :
  admit_workflow (RT := RT) v raw = Ok (c, root) → wf_shape v c root.
Proof.
  assert (∀ sens raw, _admit sens raw = Ok (c, root) → wf_shape v c root) as Htree.
  { intros sens r Hr. apply admit_iff in Hr as (Hv & _ & Hx).
    apply tree_shape; [by eapply workflow_graph_wf, validate_contract_ok|done|]. apply tree_no_plan, Hx. }
  unfold admit_workflow. destruct (is_v4 v) eqn:Hv4; [|apply Htree].
  intros [(c0 & _ & _ & H)|(plan & Hval & Hp & _ & Hx)]%admit_v4_ok; [by eapply Htree|].
  pose proof (v4_graph_wf _ _ Hval) as Hc.
  assert (plan_of v c = Some plan) as Hplan by (unfold plan_of; by rewrite Hv4, Hp).
  destruct (ep_root _ _ _ Hx) as (n0 & Hn0 & Hid0 & Hd0 & _). split.
  - done.
  - split; [rewrite <- Hid0; by apply list_elem_of_fmap_2|].
    intros p (n & Hn & He & Hpp). assert (n = n0) as -> by (apply (node_unique Hc); congruence). rewrite Hd0 in Hpp. set_solver.
  - intros ch p q (n & Hn & <- & Hpp) (n' & Hn' & He & Hq). apply (node_unique Hc) in He as ->; [|done..].
    destruct (decide (wn_action n = "parallel_join")) as [Hj|Hj].
    + right. exists plan. split; [done|]. destruct (rg_join _ _ (ep_region _ _ _ Hx)) as (j & Hf & <- & _).
      assert (n ∈ filter (λ n, wn_action n = "parallel_join") (wc_nodes c)) as Hin by (by apply list_elem_of_filter).
      rewrite Hf in Hin. apply list_elem_of_singleton in Hin as ->. done.
    + left. pose proof (ep_single _ _ _ Hx n Hn Hj). destruct (wn_depends_on n) as [|x [|x' l]]; cbn in *; [set_solver| |lia]. set_solver.
  - apply Hx.
  - intros plan' Hp'. assert (plan' = plan) as -> by congruence. apply Hx.
Qed.

(** ** The invariant *)

Section Invariant.
Context {HL : Hashlib} {v : controller} {c : wf_contract} {root : string} (Hsh : wf_shape v c root).
Notation ids := (map wn_id (wc_nodes c)).

(** The nodes a state has completed, and the one it is at. *)
Definition visited (s : WorkflowState) (x : string) : Prop := x ∈ ws_completed_nodes s ∨ ws_current_node s = Some x.

(** The nodes of the region that no round is at: the lanes and the join. *)
Definition inner_nodes (plan : parallel_plan) : list string :=
  concat (map (λ l, [ln_research l; ln_presentation l]) (pp_lanes plan)) ++ [pp_join plan].

Definition outcome_text (va : validation) : string := if va_passed va then "passed" else "failed".

(** The region has completed, with this outcome. *)
Definition region_outcome (s : WorkflowState) (o : string) : Prop :=
  ∃ r, ws_parallel_region s = Some r ∧ pr_status r = "completed" ∧ pr_outcome r = Some o.

Record run_ok (s : WorkflowState) : Prop := {
  (* nothing has run without an authorization *)
  ro_authorized : ws_initial_approver_ref s = None →
    ws_completed_nodes s = [] ∧ ws_status s ∈ ["prepared"; "failed"];
  (* a node is entered after the nodes it depends on, and once *)
  ro_ids : ∀ x, visited s x → x ∈ ids;
  ro_deps : ∀ x p, visited s x → parent_of c x p → p ∈ ws_completed_nodes s;
  ro_new : ∀ x, ws_current_node s = Some x → x ∉ ws_completed_nodes s;
  ro_once : NoDup (ws_completed_nodes s);
  ro_inner : ∀ plan x, plan_of v c = Some plan → ws_current_node s = Some x → x ∉ inner_nodes plan;
  (* a branch is entered by the choice that names it, and each choice is made once *)
  ro_choice : ∀ x n p pn, visited s x → _node_map c x = Some n → parent_of c x p → _node_map c p = Some pn →
    wn_kind pn ∈ ["decision"; "approval"] →
    {| bc_node_id := p; bc_outcome := _normalized_condition n; bc_selected_node := Some x |} ∈ ws_branch_history s;
  ro_history : NoDup (map bc_node_id (ws_branch_history s))
    ∧ ∀ b, b ∈ ws_branch_history s → bc_node_id b ∈ ws_completed_nodes s;
  (* a paused workflow waits at an approval *)
  ro_paused : ws_status s = "paused" → ∃ cp n, ws_checkpoint s = Some cp ∧ cp_status cp = "pending"
    ∧ ws_current_node s = Some (cp_node_id cp) ∧ _node_map c (cp_node_id cp) = Some n ∧ wn_kind n = "approval";
  (* a region runs at its fork, and the decision after it follows its outcome *)
  ro_started : ∀ plan, plan_of v c = Some plan → region_status s ≠ "" → visited s (pp_fork plan);
  ro_region : ∀ plan, plan_of v c = Some plan →
    (ws_current_node s = Some (pp_fork plan) → region_status s = "completed" →
       ∃ va, ws_last_validation s = Some va ∧ region_outcome s (outcome_text va))
    ∧ (ws_current_node s = Some (pp_decision plan) →
       ∃ va, ws_last_validation s = Some va ∧ region_outcome s (outcome_text va))
    ∧ (∀ b, b ∈ ws_branch_history s → bc_node_id b = pp_decision plan → region_outcome s (bc_outcome b));
  (* a completed workflow is at its end, with a validation that passed *)
  ro_completed : ws_status s = "completed" → ws_current_node s = None ∧ validation_passed s = true
}.

(** ** Where a run goes next *)

Lemma elem_add_completed id s x : x ∈ ws_completed_nodes (add_completed id s) ↔ x ∈ ws_completed_nodes s ∨ x = id.
Proof.
  unfold add_completed. destruct (mem_str id _) eqn:E; [apply mem_str_true in E; naive_solver|].
  cbn. by rewrite elem_of_app, list_elem_of_singleton.
Qed.
Lemma NoDup_add_completed id s : NoDup (ws_completed_nodes s) → NoDup (ws_completed_nodes (add_completed id s)).
Proof.
  unfold add_completed. intros H. destruct (mem_str id _) eqn:E; [done|]. apply mem_str_false in E. cbn.
  apply NoDup_app. split_and!; [done| |apply NoDup_singleton]. intros x Hx ->%list_elem_of_singleton. done.
Qed.
Lemma add_completed_same id s : ws_initial_approver_ref (add_completed id s) = ws_initial_approver_ref s
  ∧ ws_status (add_completed id s) = ws_status s ∧ ws_current_node (add_completed id s) = ws_current_node s
  ∧ ws_branch_history (add_completed id s) = ws_branch_history s ∧ ws_checkpoint (add_completed id s) = ws_checkpoint s
  ∧ ws_parallel_region (add_completed id s) = ws_parallel_region s
  ∧ ws_last_validation (add_completed id s) = ws_last_validation s.
Proof. unfold add_completed. by destruct (mem_str _ _). Qed.

Lemma at_ids s n : at_node c s n → n ∈ wc_nodes c ∧ visited s (wn_id n).
Proof. intros (_ & Hc & Hn). apply (node_map_spec (sh_graph _ _ _ Hsh)) in Hn as [? _]. split; [done|by right]. Qed.

Lemma fork_is plan : plan_of v c = Some plan →
  ∃ n, n ∈ wc_nodes c ∧ wn_id n = pp_fork plan ∧ wn_action n = "parallel_fork" ∧ wn_kind n = "parallel".
Proof.
  intros Hp. destruct (rg_fork _ _ (sh_region _ _ _ Hsh _ Hp)) as (n & Hf & Hid).
  assert (n ∈ filter (λ n, wn_action n = "parallel_fork") (wc_nodes c)) as [Ha Hn]%list_elem_of_filter by (rewrite Hf; left).
  exists n. split_and!; [done..|]. apply (pair_kind _ (wn_action n) (sh_pair _ _ _ Hsh n Hn)). rewrite Ha. set_solver.
Qed.
Lemma join_is plan : plan_of v c = Some plan →
  ∃ n, n ∈ wc_nodes c ∧ wn_id n = pp_join plan ∧ wn_action n = "parallel_join" ∧ wn_kind n = "parallel"
    ∧ wn_depends_on n ≡ₚ map ln_presentation (pp_lanes plan).
Proof.
  intros Hp. destruct (rg_join _ _ (sh_region _ _ _ Hsh _ Hp)) as (n & Hf & Hid & Hd & _).
  assert (n ∈ filter (λ n, wn_action n = "parallel_join") (wc_nodes c)) as [Ha Hn]%list_elem_of_filter by (rewrite Hf; left).
  exists n. split_and!; [done..| |done]. apply (pair_kind _ (wn_action n) (sh_pair _ _ _ Hsh n Hn)). rewrite Ha. set_solver.
Qed.

Lemma kind_at id n n' : n ∈ wc_nodes c → wn_id n = id → _node_map c id = Some n' → n' = n.
Proof. intros Hn <- H. apply (node_map_spec (sh_graph _ _ _ Hsh)) in H as [? ?]. by apply (node_unique (sh_graph _ _ _ Hsh)). Qed.

Lemma inner_elem plan x : x ∈ inner_nodes plan ↔
  (∃ l, l ∈ pp_lanes plan ∧ (x = ln_research l ∨ x = ln_presentation l)) ∨ x = pp_join plan.
Proof.
  unfold inner_nodes. rewrite elem_of_app, list_elem_of_singleton, list_elem_of_In, in_concat. split.
  - intros [(k & Hk & Hx)| ->]; [left|by right]. apply list_elem_of_In, list_elem_of_fmap in Hk as (l & -> & Hl).
    apply list_elem_of_In in Hx. exists l. set_solver.
  - intros [(l & Hl & Hx)| ->]; [left|by right]. exists [ln_research l; ln_presentation l].
    split; apply list_elem_of_In; [apply list_elem_of_fmap; by exists l|set_solver].
Qed.

(** The parents of the nodes of the region. *)
Lemma inner_parents plan x p : plan_of v c = Some plan → x ∈ inner_nodes plan → parent_of c x p →
  p = pp_fork plan ∨ p ∈ inner_nodes plan.
Proof.
  intros Hp Hx Hpar. pose proof (sh_region _ _ _ Hsh _ Hp) as Hreg. destruct (join_is plan Hp) as (j & Hj & Hjid & Hja & Hjk & Hjd).
  apply inner_elem in Hx as [(l & Hl & Hx)| ->].
  - destruct (rg_lanes _ _ Hreg l Hl) as (L1 & (rn & L2 & L2a & _) & L3 & (pn & L4 & L4a & _) & L5).
    assert (x ≠ pp_join plan) as Hnj.
    { intros He. destruct Hx as [Hx|Hx]; rewrite He in Hx.
      - rewrite <- Hx in L2. apply (kind_at _ j) in L2 as ->; [congruence|done..].
      - rewrite <- Hx in L4. apply (kind_at _ j) in L4 as ->; [congruence|done..]. }
    destruct Hx as [-> | ->].
    + left. by destruct (sh_single _ _ _ Hsh _ _ _ Hpar L1) as [|(plan' & Hp' & He)]; [|congruence].
    + right. apply inner_elem. left. exists l. split; [done|left].
      assert (parent_of c (ln_presentation l) (ln_research l)) as Hq by (apply children_spec; rewrite L3; left).
      by destruct (sh_single _ _ _ Hsh _ _ _ Hpar Hq) as [|(plan' & Hp' & He)]; [|congruence].
  - right. destruct Hpar as (j' & Hj' & He & Hin). assert (j' = j) as -> by (apply (node_unique (sh_graph _ _ _ Hsh)); congruence).
    rewrite Hjd in Hin. apply list_elem_of_fmap in Hin as (l & -> & Hl). apply inner_elem. left. exists l. split; [done|by right].
Qed.

(** A child of a node that is neither the fork nor inside the region is not inside it either. *)
Lemma next_outside plan x p : plan_of v c = Some plan → parent_of c x p → p ≠ pp_fork plan → p ∉ inner_nodes plan →
  x ∉ inner_nodes plan.
Proof. intros Hp Hpar Hf Hi Hx. by destruct (inner_parents plan x p Hp Hx Hpar). Qed.

Lemma next_single x p q : (∀ plan, plan_of v c = Some plan → x ∉ inner_nodes plan) →
  parent_of c x p → parent_of c x q → q = p.
Proof.
  intros Hi Hp Hq. destruct (sh_single _ _ _ Hsh _ _ _ Hp Hq) as [|(plan & Hplan & He)]; [done|].
  destruct (Hi plan Hplan). apply inner_elem. by right.
Qed.

(** ** Preservation *)

Lemma fork_first s plan : run_ok s → plan_of v c = Some plan → visited s (pp_decision plan) → pp_fork plan ∈ ws_completed_nodes s.
Proof.
  intros Hok Hp Hd. pose proof (sh_region _ _ _ Hsh _ Hp) as Hreg.
  destruct (rg_decision _ _ Hreg) as [Hch _]. assert (parent_of c (pp_decision plan) (pp_join plan)) as P1
    by (apply children_spec; rewrite Hch; left).
  pose proof (ro_deps _ Hok _ _ Hd P1) as Hj. destruct (rg_two _ _ Hreg) as [_ H2].
  destruct (pp_lanes plan) as [|l ls] eqn:El; [done|]. destruct (rg_lanes _ _ Hreg l) as (L1 & _ & L3 & _ & L5); [rewrite El; left|].
  assert (parent_of c (pp_join plan) (ln_presentation l)) as P2 by (apply children_spec; rewrite L5; left).
  assert (parent_of c (ln_presentation l) (ln_research l)) as P3 by (apply children_spec; rewrite L3; left).
  pose proof (ro_deps _ Hok _ _ (or_introl Hj) P2) as Hpr. pose proof (ro_deps _ Hok _ _ (or_introl Hpr) P3) as Hr.
  exact (ro_deps _ Hok _ _ (or_introl Hr) L1).
Qed.

Lemma decision_kind plan n : plan_of v c = Some plan → _node_map c (pp_decision plan) = Some n → wn_kind n = "decision".
Proof.
  intros Hp Hn. destruct (rg_decision _ _ (sh_region _ _ _ Hsh _ Hp)) as [_ (m & Hm & Hk)]. congruence.
Qed.

(** Transitions that stay at their node. *)
Lemma run_stay s s' : run_ok s →
  ws_completed_nodes s' = ws_completed_nodes s → ws_current_node s' = ws_current_node s →
  ws_branch_history s' = ws_branch_history s →
  (ws_initial_approver_ref s' = None → ws_initial_approver_ref s = None ∧ ws_status s' ∈ ["prepared"; "failed"]) →
  (ws_status s' = "paused" → ∃ cp n, ws_checkpoint s' = Some cp ∧ cp_status cp = "pending"
    ∧ ws_current_node s' = Some (cp_node_id cp) ∧ _node_map c (cp_node_id cp) = Some n ∧ wn_kind n = "approval") →
  (ws_parallel_region s' = ws_parallel_region s ∧ ws_last_validation s' = ws_last_validation s
   ∨ ∀ plan, plan_of v c = Some plan → ws_current_node s = Some (pp_fork plan) ∧
       (region_status s' = "completed" → ∃ va, ws_last_validation s' = Some va ∧ region_outcome s' (outcome_text va))
     ∨ ws_current_node s ≠ Some (pp_fork plan) ∧ ws_current_node s ≠ Some (pp_decision plan)
       ∧ ws_parallel_region s' = ws_parallel_region s) →
  (ws_status s' = "completed" → ws_current_node s' = None ∧ validation_passed s' = true) →
  run_ok s'.
Proof.
  intros Hok Hco Hcu Hh Ha Hpa Hreg Hcm. split.
  - intros Hn. destruct (Ha Hn) as [Hn0 Hst]. destruct (ro_authorized _ Hok Hn0). rewrite Hco. done.
  - unfold visited. rewrite Hco, Hcu. apply Hok.
  - unfold visited. rewrite Hco, Hcu. apply Hok.
  - rewrite Hcu, Hco. apply Hok.
  - rewrite Hco. apply Hok.
  - intros plan x Hp. rewrite Hcu. by apply Hok.
  - unfold visited. rewrite Hco, Hcu, Hh. apply Hok.
  - rewrite Hh, Hco. apply Hok.
  - done.
  - intros plan Hp. unfold visited, region_status. rewrite Hco, Hcu. destruct Hreg as [[Hr _]|Hreg].
    + rewrite Hr. by apply Hok.
    + destruct (Hreg plan Hp) as [[Hf _]|(_ & _ & Hr)]; [by right|]. rewrite Hr. by apply Hok.
  - intros plan Hp. rewrite Hh, Hcu. destruct Hreg as [[Hr Hl]|Hreg].
    + unfold region_outcome, region_status. rewrite Hr, Hl. by apply Hok.
    + destruct (Hreg plan Hp) as [[Hf Hc]|(Hf & Hd & Hr)].
      * split_and!; [intros _; apply Hc| |].
        -- intros Hd. exfalso. apply (ro_new _ Hok _ Hf). apply fork_first; [done..|by right].
        -- intros b Hb He. exfalso. apply (ro_new _ Hok _ Hf). apply fork_first; [done..|].
           left. rewrite <- He. by apply Hok.
      * unfold region_outcome, region_status. rewrite Hr. split_and!; [done|done|]. by apply Hok.
  - done.
Qed.

Lemma no_self x : ¬ parent_of c x x.
Proof. intros (n & Hn & <- & Hp). by apply (proj1 (gw_edges _ (sh_graph _ _ _ Hsh)) n (wn_id n)). Qed.

(** Transitions that complete their node and go to one of its children. *)
Lemma run_enter s s' id n extra : run_ok s →
  ws_initial_approver_ref s ≠ None → ws_current_node s = Some id → _node_map c id = Some n → wn_action n ≠ "parallel_fork" →
  ws_completed_nodes s' = ws_completed_nodes (add_completed id s) →
  ws_branch_history s' = ws_branch_history s ++ extra →
  ws_parallel_region s' = ws_parallel_region s → ws_last_validation s' = ws_last_validation s →
  ws_initial_approver_ref s' = ws_initial_approver_ref s →
  ws_status s' ∉ ["paused"; "completed"] →
  (∀ x, ws_current_node s' = Some x → parent_of c x id) →
  (extra = [] ∧ wn_kind n ∉ ["decision"; "approval"]
   ∨ ∃ o, extra = [{| bc_node_id := id; bc_outcome := o; bc_selected_node := ws_current_node s' |}]
     ∧ (∀ x m, ws_current_node s' = Some x → _node_map c x = Some m → _normalized_condition m = o)
     ∧ (∀ plan, plan_of v c = Some plan → id = pp_decision plan → region_outcome s o)) →
  run_ok s'.
Proof.
  intros Hok Hau Hcur Hn Hna Hco Hh Hr Hl Hap Hst Hnx Hex. pose proof (sh_graph _ _ _ Hsh) as Hg.
  assert (∀ x, x ∈ ws_completed_nodes s' ↔ x ∈ ws_completed_nodes s ∨ x = id) as Hel
    by (intros x; by rewrite Hco, elem_add_completed).
  pose proof (ro_new _ Hok _ Hcur) as Hnew.
  assert (∀ plan, plan_of v c = Some plan → id ≠ pp_fork plan ∧ id ∉ inner_nodes plan) as Hout.
  { intros plan Hp. split; [|by eapply ro_inner]. intros ->. destruct (fork_is plan Hp) as (f & Hf & Hfid & Hfa & _).
    apply (kind_at _ f) in Hn as ->; done. }
  assert (∀ plan x, plan_of v c = Some plan → ws_current_node s' = Some x → x ∉ inner_nodes plan) as Hin.
  { intros plan x Hp Hx. destruct (Hout plan Hp). by eapply next_outside; [|apply Hnx| |]. }
  assert (∀ x p, ws_current_node s' = Some x → parent_of c x p → p = id) as Hone.
  { intros x p Hx Hp. eapply next_single; [|by apply Hnx|done]. intros plan Hpl. by eapply Hin. }
  assert (∀ x, visited s' x → visited s x ∨ ws_current_node s' = Some x) as Hvis.
  { intros x [Hx|Hx]; [|by right]. left. apply Hel in Hx as [Hx|Hx]; [by left|right; congruence]. }
  assert (∀ x, ws_current_node s' = Some x → x ∉ ws_completed_nodes s') as Hnew'.
  { intros x Hx [Hc| ->]%Hel; [|by apply (no_self id), Hnx].
    apply Hnew. eapply ro_deps; [done|by left|by apply Hnx]. }
  split.
  - intros Hno. congruence.
  - intros x [Hx|Hx]%Hvis; [by apply Hok|]. apply Hnx in Hx. by apply (child_ids Hg) in Hx as [? _].
  - intros x p [Hx|Hx]%Hvis Hp; apply Hel; [left; by eapply ro_deps|right; by eapply Hone].
  - done.
  - rewrite Hco. apply NoDup_add_completed, Hok.
  - intros plan x Hp Hx. by eapply Hin.
  - intros x m p pn Hx Hm Hp Hpn Hk. rewrite Hh. apply elem_of_app. apply Hvis in Hx as [Hx|Hx]; [left; by eapply ro_choice|right].
    pose proof (Hone _ _ Hx Hp) as ->. assert (pn = n) as -> by congruence.
    destruct Hex as [[_ Hk']|(o & -> & Ho & _)]; [done|]. rewrite (Ho _ _ Hx Hm), Hx. apply list_elem_of_singleton. done.
  - destruct (ro_history _ Hok) as [H1 H2]. rewrite Hh. destruct Hex as [[-> _]|(o & -> & _)].
    + rewrite app_nil_r. split; [done|]. intros b Hb. apply Hel. left. by apply H2.
    + rewrite map_app. cbn [map bc_node_id]. split.
      * apply NoDup_app. split_and!; [done| |apply NoDup_singleton]. intros x (b & -> & Hb)%list_elem_of_fmap He.
        apply list_elem_of_singleton in He. apply Hnew. rewrite <- He. by apply H2.
      * intros b [Hb|Hb]%elem_of_app; apply Hel; [left; by apply H2|right]. apply list_elem_of_singleton in Hb as ->. done.
  - intros He. rewrite He in Hst. set_solver.
  - intros plan Hp. unfold region_status. rewrite Hr. intros Hs. destruct (ro_started _ Hok plan Hp Hs) as [Hf|Hf].
    + left. apply Hel. by left.
    + exfalso. destruct (Hout plan Hp) as [Hf' _]. congruence.
  - intros plan Hp. destruct (ro_region _ Hok plan Hp) as (_ & _ & G3). unfold region_outcome, region_status in *. rewrite Hr, Hl.
    split_and!.
    + intros Hf Hs. exfalso. destruct (ro_started _ Hok plan Hp) as [Hc|Hc]; [unfold region_status; by rewrite Hs| |].
      * apply (Hnew' _ Hf). apply Hel. by left.
      * destruct (Hout plan Hp). congruence.
    + intros Hd. exfalso. destruct (rg_decision _ _ (sh_region _ _ _ Hsh _ Hp)) as [Hch _].
      assert (parent_of c (pp_decision plan) (pp_join plan)) as Hpj by (apply children_spec; rewrite Hch; left).
      destruct (Hout plan Hp) as [_ Hi]. apply Hi. rewrite <- (Hone _ _ Hd Hpj). apply inner_elem. by right.
    + intros b Hb He. rewrite Hh in Hb. apply elem_of_app in Hb as [Hb|Hb]; [by apply G3|].
      destruct Hex as [[-> _]|(o & -> & _ & Ho)]; [set_solver|]. apply list_elem_of_singleton in Hb as ->. cbn in *. by apply (Ho plan).
  - intros He. rewrite He in Hst. set_solver.
Qed.

Lemma add_all_spec l s : let s' := fold_left (λ s id, add_completed id s) l s in
  (∀ x, x ∈ ws_completed_nodes s' ↔ x ∈ ws_completed_nodes s ∨ x ∈ l)
  ∧ (NoDup (ws_completed_nodes s) → NoDup (ws_completed_nodes s'))
  ∧ ws_branch_history s' = ws_branch_history s ∧ ws_initial_approver_ref s' = ws_initial_approver_ref s
  ∧ ws_status s' = ws_status s ∧ ws_parallel_region s' = ws_parallel_region s
  ∧ ws_last_validation s' = ws_last_validation s.
Proof.
  revert s. induction l as [|id l IH]; intros s; cbn [fold_left]; [set_solver|].
  destruct (IH (add_completed id s)) as (I1 & I2 & -> & -> & -> & -> & ->).
  destruct (add_completed_same id s) as (-> & -> & _ & -> & _ & -> & ->). split_and!; try done.
  - intros x. rewrite I1, elem_add_completed, elem_of_cons. tauto.
  - intros H. by apply I2, NoDup_add_completed.
Qed.

(** The transition that completes the whole region at once. *)
Lemma run_join s plan next : run_ok s → plan_of v c = Some plan → ws_status s = "running" →
  ws_current_node s = Some (pp_fork plan) → region_status s = "completed" →
  _next_unconditional (pp_join plan) c = Ok next →
  run_ok (set_ws_revision (ws_revision s + 1) (set_ws_current_node next
    (fold_left (λ s id, add_completed id s) (region_nodes plan) s))).
Proof.
  intros Hok Hp Hrun Hf Hrs Hnext. pose proof (sh_graph _ _ _ Hsh) as Hg. pose proof (sh_region _ _ _ Hsh _ Hp) as Hreg.
  destruct (rg_decision _ _ Hreg) as [Hch (dn & Hdn & Hdk)].
  assert (next = Some (pp_decision plan)) as ->.
  { unfold _next_unconditional in Hnext. rewrite Hch in Hnext. apply bind_ok_iff in Hnext as (? & _ & Hnext).
    unfold ws_fail_if in Hnext. rewrite guard_bind_ok in Hnext. destruct Hnext as [_ [= <-]]. done. }
  assert (parent_of c (pp_decision plan) (pp_join plan)) as Hpj by (apply children_spec; rewrite Hch; left).
  destruct (add_all_spec (region_nodes plan) s) as (Hel & Hnd & Hh & Ha & Hst & Hr & Hl).
  set (s1 := fold_left (λ s id, add_completed id s) (region_nodes plan) s) in *.
  set (s' := set_ws_revision (ws_revision s + 1) (set_ws_current_node (Some (pp_decision plan)) s1)).
  assert (ws_completed_nodes s' = ws_completed_nodes s1) as Hco by done.
  pose proof (ro_new _ Hok _ Hf) as Hnew. destruct (fork_is plan Hp) as (fn & Hfn & Hfid & _ & Hfk).
  assert (region_nodes plan = pp_fork plan :: inner_nodes plan) as Hrn by done.
  assert (∀ x, x ∈ ws_completed_nodes s' ↔ x ∈ ws_completed_nodes s ∨ x = pp_fork plan ∨ x ∈ inner_nodes plan) as Hel'.
  { intros x. rewrite Hco, Hel, Hrn, elem_of_cons. done. }
  assert (∀ x, x ∈ inner_nodes plan → x ∈ ids ∧ ∃ n, _node_map c x = Some n ∧ wn_kind n ∈ ["agent"; "parallel"]) as Hik.
  { intros x [(l & Hin & Hx)| ->]%inner_elem.
    - destruct (rg_lanes _ _ Hreg l Hin) as (_ & (rn & L2 & L2a & _) & _ & (pn & L4 & L4a & _) & _).
      assert (∀ n, _node_map c x = Some n → wn_action n ∈ ["research"; "presentation"] →
        x ∈ ids ∧ ∃ n, _node_map c x = Some n ∧ wn_kind n ∈ ["agent"; "parallel"]) as Hone.
      { intros n Hn Hact. pose proof (proj1 (node_map_spec Hg _ _) Hn) as [Hin' <-]. split; [by apply list_elem_of_fmap_2|].
        exists n. split; [done|]. rewrite (proj2 (proj2 (pair_kind _ _ (sh_pair _ _ _ Hsh n Hin'))) Hact). set_solver. }
      destruct Hx as [-> | ->]; [apply (Hone rn); [done|]; rewrite L2a; set_solver|apply (Hone pn); [done|]; rewrite L4a; set_solver].
    - destruct (join_is plan Hp) as (j & Hj & <- & _ & Hk & _). split; [by apply list_elem_of_fmap_2|].
      exists j. split; [by apply (node_map_spec Hg)|]. rewrite Hk. set_solver. }
  assert (pp_decision plan ∉ ws_completed_nodes s') as Hdnew.
  { intros [Hc|[He|Hi]]%Hel'.
    - apply Hnew, fork_first; [done..|by left].
    - rewrite He in Hdn. apply (kind_at _ fn) in Hdn as ->; [congruence|done..].
    - destruct (Hik _ Hi) as (_ & n & Hn & Hk). assert (n = dn) as -> by congruence. apply inner_kind in Hk. rewrite Hdk in Hk. apply Hk. left. }
  assert (∀ x, visited s' x → visited s x ∨ x ∈ inner_nodes plan ∨ x = pp_decision plan) as Hvis.
  { intros x [[Hx|[->|Hx]]%Hel'|Hx]; [by left; left|by left; right|by right; left|right; right]. by injection Hx. }
  assert (∀ x p, x = pp_decision plan → parent_of c x p → p = pp_join plan) as Hdpar.
  { intros x p -> Hpar. eapply next_single; [|exact Hpj|exact Hpar]. intros plan' Hp' Hi. assert (plan' = plan) as -> by congruence.
    apply Hdnew, Hel'. by right; right. }
  destruct (ro_region _ Hok plan Hp) as (G1 & _ & G3). destruct (ro_history _ Hok) as [Hh1 Hh2].
  split.
  - intros Hno. change (ws_initial_approver_ref s1 = None) in Hno. rewrite Ha in Hno.
    destruct (ro_authorized _ Hok Hno) as [_ Hs]. rewrite Hrun in Hs. set_solver.
  - intros x [Hx|[Hx| ->]]%Hvis; [by apply Hok|by apply Hik|]. by apply (child_ids Hg) in Hpj as [? _].
  - intros x p [Hx|[Hx|Hx]]%Hvis Hpar; apply Hel'.
    + left. by eapply ro_deps.
    + destruct (inner_parents plan x p Hp Hx Hpar) as [->|]; [right; by left|right; by right].
    + right; right. rewrite (Hdpar _ _ Hx Hpar). apply inner_elem. by right.
  - intros x [= <-]. done.
  - rewrite Hco. apply Hnd, Hok.
  - intros plan' x Hp' [= <-] Hi. assert (plan' = plan) as -> by congruence. apply Hdnew, Hel'. by right; right.
  - intros x n p pn [Hx|[Hx|Hx]]%Hvis Hn Hpar Hpn Hk; change (ws_branch_history s') with (ws_branch_history s1); rewrite Hh.
    + by eapply ro_choice.
    + exfalso. destruct (inner_parents plan x p Hp Hx Hpar) as [->|Hi].
      * apply (kind_at _ fn) in Hpn as ->; [|done..]. rewrite Hfk in Hk. set_solver.
      * destruct (Hik _ Hi) as (_ & m & Hm & Hmk). assert (m = pn) as -> by congruence. by apply inner_kind in Hmk.
    + exfalso. rewrite (Hdpar _ _ Hx Hpar) in Hpn. destruct (join_is plan Hp) as (j & Hj & Hjid & _ & Hjk & _).
      apply (kind_at _ j) in Hpn as ->; [|done..]. rewrite Hjk in Hk. set_solver.
  - change (ws_branch_history s') with (ws_branch_history s1). rewrite Hh. split; [done|]. intros b Hb. apply Hel'. left. by apply Hh2.
  - change (ws_status s1 = "paused" → ∃ cp n, ws_checkpoint s' = Some cp ∧ cp_status cp = "pending"
      ∧ ws_current_node s' = Some (cp_node_id cp) ∧ _node_map c (cp_node_id cp) = Some n ∧ wn_kind n = "approval").
    rewrite Hst, Hrun. done.
  - intros plan' Hp' _. assert (plan' = plan) as -> by congruence. left. apply Hel'. right. by left.
  - intros plan' Hp'. assert (plan' = plan) as -> by congruence.
    change (ws_branch_history s') with (ws_branch_history s1). change (ws_last_validation s') with (ws_last_validation s1).
    unfold region_outcome. change (ws_parallel_region s') with (ws_parallel_region s1). rewrite Hh, Hl, Hr.
    destruct (G1 Hf Hrs) as (va & Hva & Ho). split_and!; [|intros _; by exists va|done].
    intros [= He]. exfalso. apply Hdnew, Hel'. right. left. done.
  - change (ws_status s1 = "completed" → ws_current_node s' = None ∧ validation_passed s' = true). rewrite Hst, Hrun. done.
Qed.

Lemma has_condition_at o x m : has_condition c o x = true → _node_map c x = Some m → _normalized_condition m = o.
Proof. unfold has_condition. intros H Hm. rewrite Hm in H. by apply bool_decide_eq_true in H. Qed.

Lemma next_child id nx : _next_unconditional id c = Ok nx → ∀ x, nx = Some x → parent_of c x id.
Proof.
  unfold _next_unconditional, ws_fail, ws_fail_if. intros H x ->. apply children_spec.
  destruct (_children c id) as [|ch [|? ?]]; try done. apply bind_ok_iff in H as (? & _ & H).
  rewrite guard_bind_ok in H. destruct H as [_ [= ->]]. left.
Qed.

Lemma plain_outside n : n ∈ wc_nodes c → plain_node n → wn_action n ≠ "parallel_fork" ∧ wn_kind n ∉ ["decision"; "approval"].
Proof.
  intros Hn Hp. destruct (pair_kind _ _ (sh_pair _ _ _ Hsh n Hn)) as (P1 & P2 & _).
  assert (wn_action n = "parallel_fork" → wn_kind n = "parallel") as P2' by (intros Hf; apply P2; rewrite Hf; left).
  assert (∀ k, k ∈ ["decision"; "approval"] → k ∈ ["decision"; "approval"; "parallel"]) as Hsub
    by (intros k [->|Hk]%elem_of_cons; [left|right; apply elem_of_cons; left; by apply list_elem_of_singleton]).
  destruct Hp as [Ha|[Ha|[Hk|[Hk Ha]]]].
  - split; [congruence|]. intros Hk. exact (P1 (Hsub _ Hk) ltac:(rewrite Ha; left)).
  - split; [congruence|]. intros Hk. exact (P1 (Hsub _ Hk) ltac:(rewrite Ha; right; left)).
  - split; [intros Hf; specialize (P2' Hf); congruence|]. rewrite Hk. by apply (bool_decide_unpack _).
  - split; [|done]. intros Hf. rewrite Hf in Ha. (repeat (apply elem_of_cons in Ha as [Ha|Ha]; [done|]); by apply elem_of_nil in Ha).
Qed.

Lemma running_authorized s : run_ok s → ws_status s ∈ ["running"; "paused"] → ws_initial_approver_ref s ≠ None.
Proof.
  intros Hok Hs Hn. destruct (ro_authorized _ Hok Hn) as [_ H].
  apply elem_of_cons in Hs as [Hs|Hs%list_elem_of_singleton]; rewrite Hs in H;
    repeat (apply elem_of_cons in H as [H|H]; [done|]); by apply elem_of_nil in H.
Qed.

Lemma completed_fields s id nx : let s' := completed_state s id nx in
  ws_completed_nodes s' = ws_completed_nodes (add_completed id s) ∧ ws_current_node s' = nx
  ∧ ws_branch_history s' = ws_branch_history s ∧ ws_parallel_region s' = ws_parallel_region s
  ∧ ws_last_validation s' = ws_last_validation s ∧ ws_initial_approver_ref s' = ws_initial_approver_ref s
  ∧ ws_status s' = ws_status s.
Proof. destruct (add_completed_same id s) as (H1 & H2 & _ & H3 & _ & H4 & H5). done. Qed.

Lemma decision_outcome s last plan : run_ok s → plan_of v c = Some plan → ws_current_node s = Some (pp_decision plan) →
  ws_last_validation s = Some last → region_outcome s (outcome_text last).
Proof. intros Hok Hp Hd Hl. destruct (ro_region _ Hok plan Hp) as (_ & G & _). destruct (G Hd) as (va & Hva & Ho). by assert (va = last) as -> by congruence. Qed.

Lemma running_not (s : WorkflowState) : ws_status s = "running" → ws_status s ∉ ["paused"; "completed"].
Proof. intros ->. by apply (bool_decide_unpack _). Qed.

Lemma step_complete_ok s n nx : run_ok s → at_node c s n → plain_node n → _next_unconditional (wn_id n) c = Ok nx →
  run_ok (completed_state s (wn_id n) nx).
Proof.
  intros Hok Hn Hp Hnx. destruct (at_ids _ _ Hn) as [Hin _]. destruct (plain_outside n Hin Hp) as [Hf Hk].
  destruct Hn as (Hr & Hc & Hm). destruct (completed_fields s (wn_id n) nx) as (F1 & F2 & F3 & F4 & F5 & F6 & F7).
  apply (run_enter s _ (wn_id n) n []); try done.
  - apply running_authorized; [done|]. rewrite Hr. left.
  - by rewrite app_nil_r.
  - rewrite F7. by apply running_not.
  - rewrite F2. by apply next_child.
  - by left.
Qed.

Lemma step_choose_ok s n last s' nx : run_ok s → at_node c s n → wn_kind n = "decision" →
  ws_last_validation s = Some last → _select_branch s c (wn_id n) (outcome_text last) = Ok (s', Some nx) →
  run_ok (completed_state s' (wn_id n) (Some nx)).
Proof.
  intros Hok Hn Hk Hl Hsel. destruct (at_ids _ _ Hn) as [Hin _]. destruct Hn as (Hr & Hc & Hm).
  apply select_branch_ok in Hsel as [-> Hnx]. destruct (Hnx nx eq_refl) as [Hch Hcond].
  match goal with |- run_ok (completed_state ?x _ _) => set (s1 := x) in * end.
  destruct (completed_fields s1 (wn_id n) (Some nx)) as (F1 & F2 & F3 & F4 & F5 & F6 & F7).
  apply (run_enter s _ (wn_id n) n [{| bc_node_id := wn_id n; bc_outcome := outcome_text last; bc_selected_node := Some nx |}]); try done.
  - apply running_authorized; [done|]. rewrite Hr. left.
  - intros Hf. destruct (pair_kind _ _ (sh_pair _ _ _ Hsh n Hin)) as (_ & P2 & _). rewrite P2 in Hk; [done|]. rewrite Hf. left.
  - rewrite F1. unfold add_completed, s1. by destruct (mem_str _ _).
  - rewrite F7. by apply running_not.
  - rewrite F2. intros x [= <-]. by apply children_spec.
  - right. exists (outcome_text last). rewrite F2. split_and!; [done| |].
    + intros x m [= <-] Hx. by eapply has_condition_at.
    + intros plan Hp He. apply (decision_outcome _ _ plan); [done..|congruence|done].
Qed.

(** The decision on the checkpoint of an approval. *)
Lemma step_decided_ok s s1 s' cp o selected : run_ok s → ws_status s = "paused" → ws_checkpoint s = Some cp →
  _select_branch s c (cp_node_id cp) o = Ok (s1, selected) →
  ws_completed_nodes s' = ws_completed_nodes (add_completed (cp_node_id cp) s1) → ws_current_node s' = selected →
  ws_branch_history s' = ws_branch_history s1 → ws_parallel_region s' = ws_parallel_region s1 →
  ws_last_validation s' = ws_last_validation s1 → ws_initial_approver_ref s' = ws_initial_approver_ref s1 →
  ws_status s' ∉ ["paused"; "completed"] → run_ok s'.
Proof.
  intros Hok Hpa Hcp Hsel Hco Hcu Hh Hre Hla Hap Hst. destruct (ro_paused _ Hok Hpa) as (cp' & n & Hcp' & _ & Hc & Hm & Hk).
  assert (cp' = cp) as -> by congruence. apply select_branch_ok in Hsel as [-> Hnx].
  pose proof (proj1 (node_map_spec (sh_graph _ _ _ Hsh) _ _) Hm) as [Hin _].
  apply (run_enter s _ (cp_node_id cp) n [{| bc_node_id := cp_node_id cp; bc_outcome := o; bc_selected_node := selected |}]); try done.
  - apply running_authorized; [done|]. rewrite Hpa. right. left.
  - intros Hf. destruct (pair_kind _ _ (sh_pair _ _ _ Hsh n Hin)) as (_ & P2 & _). rewrite P2 in Hk; [done|]. rewrite Hf. left.
  - rewrite Hco. unfold add_completed. cbn. by destruct (mem_str _ _).
  - rewrite Hcu. intros x Hx. destruct (Hnx x Hx) as [Hch _]. by apply children_spec.
  - right. exists o. rewrite Hcu. split_and!; [done| |].
    + intros x m Hx Hxm. destruct (Hnx x Hx) as [_ Hcond]. by eapply has_condition_at.
    + intros plan Hp He. rewrite He in Hm. pose proof (decision_kind plan n Hp Hm). congruence.
Qed.

(** Only time stamps, messages and the runtime mark change. *)
Lemma run_same s s' : run_ok s → ws_completed_nodes s' = ws_completed_nodes s → ws_current_node s' = ws_current_node s →
  ws_branch_history s' = ws_branch_history s → ws_initial_approver_ref s' = ws_initial_approver_ref s →
  ws_status s' = ws_status s → ws_checkpoint s' = ws_checkpoint s →
  ws_parallel_region s' = ws_parallel_region s → ws_last_validation s' = ws_last_validation s → run_ok s'.
Proof.
  intros Hok H1 H2 H3 H4 H5 H6 H7 H8. apply (run_stay s); try done.
  - rewrite H4, H5. intros Hn. split; [done|]. by apply (ro_authorized _ Hok).
  - rewrite H2, H5, H6. apply Hok.
  - by left.
  - unfold validation_passed. rewrite H2, H5, H8. apply Hok.
Qed.

(** The status becomes one of the ends of a run. *)
Lemma run_end s s' : run_ok s → ws_completed_nodes s' = ws_completed_nodes s → ws_current_node s' = ws_current_node s →
  ws_branch_history s' = ws_branch_history s → ws_initial_approver_ref s' = ws_initial_approver_ref s →
  ws_parallel_region s' = ws_parallel_region s → ws_last_validation s' = ws_last_validation s →
  (ws_initial_approver_ref s = None → ws_status s' ∈ ["prepared"; "failed"]) → ws_status s' ≠ "paused" →
  (ws_status s' = "completed" → ws_current_node s = None ∧ validation_passed s = true) → run_ok s'.
Proof.
  intros Hok H1 H2 H3 H4 H5 H6 H7 H8 H9. apply (run_stay s); try done.
  - rewrite H4. intros Hn. by split; [|apply H7].
  - by left.
  - unfold validation_passed in *. rewrite H2, H6. done.
Qed.

Lemma step_validate_ok s n source passed : run_ok s → at_node c s n →
  (source, wn_action n) ∈ [("research", "research"); ("presentation", "presentation"); ("parallel_branches", "parallel_fork")] →
  (source = "parallel_branches" → region_status s = "running") → run_ok (record_validation source passed s).
Proof.
  intros Hok Hn Hin Hreg. destruct (at_ids _ _ Hn) as [Hnin _]. destruct Hn as (Hr & Hc & Hm).
  destruct (pair_kind _ _ (sh_pair _ _ _ Hsh n Hnin)) as (_ & _ & P3).
  apply (run_stay s); try done.
  - intros Hno. exfalso. apply (running_authorized _ Hok); [rewrite Hr; left|done].
  - cbn. by rewrite Hr.
  - right. intros plan Hp. destruct (decide (ws_current_node s = Some (pp_fork plan))) as [Hf|Hf].
    + left. split; [done|]. destruct (fork_is plan Hp) as (f & Hfin & Hfid & Hfa & _).
      assert (n = f) as ->.
      { apply (node_unique (sh_graph _ _ _ Hsh)); [done..|]. rewrite Hfid. rewrite Hc in Hf. by injection Hf. }
      rewrite Hfa in Hin. repeat (apply elem_of_cons in Hin as [[=]|Hin]); [|by apply elem_of_nil in Hin].
      intros Hcm. change (region_status s = "completed") in Hcm. rewrite Hreg in Hcm by done. done.
    + right. split_and!; [done| |done]. intros Hd. assert (wn_id n = pp_decision plan) as He by congruence. rewrite He in Hm.
      pose proof (decision_kind plan n Hp Hm) as Hk.
      repeat (apply elem_of_cons in Hin as [Hin|Hin]); [..|by apply elem_of_nil in Hin]; injection Hin as _ Ha.
      * rewrite P3 in Hk; [done|]. rewrite Ha. left.
      * rewrite P3 in Hk; [done|]. rewrite Ha. right. left.
      * destruct (pair_kind _ _ (sh_pair _ _ _ Hsh n Hnin)) as (_ & P2 & _). rewrite P2 in Hk; [done|]. rewrite Ha. left.
  - cbn. by rewrite Hr.
Qed.

Lemma step_region_ok s n plan st bs o : run_ok s → at_node c s n → plan_of v c = Some plan → wn_id n = pp_fork plan →
  (st = "completed" → ∃ va, ws_last_validation s = Some va ∧ o = Some (outcome_text va)) →
  run_ok (set_region st bs o plan s).
Proof.
  intros Hok (Hr & Hc & Hm) Hp Hid Hst. apply (run_stay s); try done.
  - intros Hno. exfalso. apply (running_authorized _ Hok); [rewrite Hr; left|done].
  - cbn. by rewrite Hr.
  - right. intros plan' Hp'. assert (plan' = plan) as -> by congruence. left. split; [congruence|].
    intros Hcm. destruct (Hst Hcm) as (va & Hva & ->). exists va. split; [done|]. eexists. split_and!; [done..|reflexivity].
  - cbn. by rewrite Hr.
Qed.

Lemma decided_fields s cp actor normalized nx : let s' := decided_state s cp actor normalized nx in
  ws_completed_nodes s' = ws_completed_nodes (add_completed (cp_node_id cp) s)
  ∧ ws_branch_history s' = ws_branch_history s ∧ ws_parallel_region s' = ws_parallel_region s
  ∧ ws_last_validation s' = ws_last_validation s ∧ ws_initial_approver_ref s' = ws_initial_approver_ref s.
Proof. unfold decided_state, add_completed. cbn. by destruct (mem_str _ _). Qed.

Lemma step_output_ok s n : run_ok s → at_node c s n → wn_action n = "output" → run_ok (completed_state s (wn_id n) None).
Proof.
  intros Hok Hn Ha. destruct (at_ids _ _ Hn) as [Hin _]. destruct Hn as (Hr & Hc & Hm).
  destruct (completed_fields s (wn_id n) None) as (F1 & F2 & F3 & F4 & F5 & F6 & F7).
  apply (run_enter s _ (wn_id n) n []); try done.
  - apply running_authorized; [done|]. rewrite Hr. left.
  - congruence.
  - by rewrite app_nil_r.
  - rewrite F7. by apply running_not.
  - left. split; [done|]. rewrite (output_kind (wn_kind n)); [by apply (bool_decide_unpack _)|].
    rewrite <- Ha. by apply (sh_pair _ _ _ Hsh).
Qed.

Lemma wf_step_ok s s' : wf_step v c s s' → run_ok s → run_ok s'.
Proof.
  intros Hstep Hok. assert (∀ k : string, ws_status s = k → k ∈ ["running"; "paused"] → ws_initial_approver_ref s ≠ None) as Hau
    by (intros k <- Hk; by apply running_authorized).
  destruct Hstep as [s now|s actor Hs|s Hs|s n source passed Hn Hin _ Hreg|s n next Hn Hp _ Hnx|s n last s1 next Hn Hk Hl Hsel
    |s n plan Hn Hp Hid _|s n plan bs Hn Hp Hid _|s n plan bs last Hn Hp Hid _ Hl _|s n plan next Hn Hp Hid Hs Hnx
    |s n prior Hn Hk|s s1 cp actor next now Hs Hcp _ Hsel|s s1 cp actor next now Hs Hcp _ Hsel|s n Hn Ha
    |s Hs Hcu _|s reason Hs Hcu _ _|s Hs Hcu _ Hv|s message].
  - by apply (run_same s).
  - apply (run_stay s); try done. by left.
  - by apply (run_same s).
  - by eapply step_validate_ok.
  - by eapply step_complete_ok.
  - by eapply step_choose_ok.
  - by eapply step_region_ok.
  - by eapply step_region_ok.
  - eapply step_region_ok; [done..|]. intros _. by exists last.
  - destruct Hn as (Hr & Hc & _). apply (run_join s plan next); try done. congruence.
  - pose proof Hn as (Hr & Hc & Hm). apply (run_stay s); try done.
    + intros Hno. exfalso. by apply (Hau "running"); [|left|].
    + intros _. eexists _, n. split_and!; try done.
    + by left.
  - destruct (decided_fields s1 cp actor "APPROVE" (Some next)) as (F1 & F2 & F3 & F4 & F5).
    apply (step_decided_ok s s1 _ cp "approved" (Some next)); try done. by apply running_not.
  - destruct (decided_fields s1 cp actor "REJECT" next) as (F1 & F2 & F3 & F4 & F5).
    apply (step_decided_ok s s1 _ cp "rejected" next); try done. cbn. destruct next; by apply (bool_decide_unpack _).
  - by apply (step_output_ok s n).
  - apply (run_end s); try done. intros Hno. exfalso. by apply (Hau "running"); [|left|].
  - apply (run_end s); try done. intros Hno. exfalso. by apply (Hau "running"); [|left|].
  - apply (run_end s); try done. intros Hno. exfalso. by apply (Hau "running"); [|left|].
  - apply (run_end s); try done. intros _. right. left.
Qed.
End Invariant.
