(* ===== verification/WorkflowRuns.v ===== *)
(** * Histories of workflow controllers

    Termination of the runs, the effect of each call on the files, and what holds of every state
    file after any sequence of calls, of changes of the collaborators' state between them, and of
    damage to the contract files. *)

From Stdlib Require Import Ascii.
From Stdlib Require String.
From S2P Require Import Prelude PyStr Hashlib Json JsonFacts TaskContract WorkflowDesign WorkflowGraph WorkflowFacts.
From S2P Require Import WorkflowAdmission WorkflowAdmissionFacts WorkflowParallelFacts PlanFacts.
From S2P Require Import TaskStore ContractReload ExecutionBudget LinkedBudget WorkflowState WorkflowController WorkflowMachine.
From S2P Require Import WorkflowSteps WorkflowRefinement WorkflowInvariant.

Local Open Scope Z_scope.

(** ** Termination *)

Section Termination.
Context {HL : Hashlib} {W : Type} {RT : WorkflowRuntime W}.
Variable v : controller.
Variable c : wf_contract.
Hypothesis Hc : graph_wf c.

(** What a computation returns, whatever state it starts from. *)
Definition yields {A} (m : ST (Sys W) A) (Q : A → Prop) : Prop := ∀ y a y', m y = (Ok a, y') → Q a.

Lemma yields_any {A} (m : ST (Sys W) A) : yields m (λ _, True).
Proof. done. Qed.
Lemma yields_bind {A B} (m : ST (Sys W) A) (f : A → ST (Sys W) B) P Q :
  yields m P → (∀ a, P a → yields (f a) Q) → yields (a ← m; f a) Q.
Proof. intros Hm Hf y b y' H. apply st_bind_ok in H as (a & y1 & H1 & H2). eapply Hf; [by eapply Hm|exact H2]. Qed.
Lemma yields_lift {A B} (m : result A) (f : A → ST (Sys W) B) Q :
  (∀ a, m = Ok a → yields (f a) Q) → yields (a ← st_lift m; f a) Q.
Proof. intros Hf y b y' H. apply st_bind_ok in H as (a & y1 & [= H1 <-] & H2). by eapply Hf. Qed.
Lemma yields_ret {A} (a : A) (Q : A → Prop) : Q a → yields (mret a) Q.
Proof. intros HQ y b y' [= <- <-]. done. Qed.
Lemma yields_skip {A B} (m : ST (Sys W) A) (f : A → ST (Sys W) B) Q : (∀ a, yields (f a) Q) → yields (a ← m; f a) Q.
Proof. intros Hf. eapply yields_bind; [apply yields_any|]. auto. Qed.

Lemma yields_save s : yields (save s) (λ s', ws_current_node s' = ws_current_node s).
Proof. unfold save. apply yields_skip. intros now. apply yields_skip. intros ?. by apply yields_ret. Qed.

Section Rank.
Variable rank : string → nat.
Hypothesis Hrank : ∀ ch p, parent_of c ch p → (rank p < rank ch)%nat.

(** A round that goes on has moved down the graph. *)
Definition moves_down (id : string) (o : outcome_of_round) : Prop :=
  match o with
  | Continue s => ∀ x, ws_current_node s = Some x → (rank id < rank x)%nat ∧ x ∈ map wn_id (wc_nodes c)
  | Return _ => True
  end.

Lemma child_down id x : parent_of c x id → (rank id < rank x)%nat ∧ x ∈ map wn_id (wc_nodes c).
Proof. intros H. split; [by apply Hrank|]. by apply (child_ids Hc) in H as [? _]. Qed.

Lemma complete_down s id nx Q : (∀ s', ws_current_node s' = nx → Q (Continue s')) →
  yields (s' ← _complete_node s id nx; mret (Continue s')) Q.
Proof.
  intros HQ. eapply yields_bind; [apply yields_save|]. intros s' Hs'. apply yields_ret, HQ. by rewrite Hs'.
Qed.

Lemma complete_and_go_down s id : yields (complete_and_go s c id) (moves_down id).
Proof.
  unfold complete_and_go. apply yields_lift. intros nx Hnx. apply complete_down. intros s' Hs' x Hx.
  apply child_down. eapply next_child; [exact Hnx|congruence].
Qed.

Lemma decide_node_down s id : yields (decide_node s c id) (moves_down id).
Proof.
  unfold decide_node. destruct (ws_last_validation s) as [last|]; [|done].
  apply yields_lift. intros [s1 [nx|]] Hsel; [|done]. apply select_branch_ok in Hsel as [_ Hnx]. apply complete_down.
  intros s' Hs' x Hx. apply child_down, children_spec. apply Hnx. congruence.
Qed.

Lemma fork_node_down s id plan : (∀ p, plan = Some p → region_ok c p) → yields (fork_node v s c plan id) (moves_down id).
Proof.
  intros Hp. unfold fork_node. destruct plan as [plan|]; [|done]. specialize (Hp plan eq_refl).
  apply yields_lift. intros u Hu. apply raise_if_ok, negb_false_iff, bool_decide_eq_true in Hu as ->.
  apply yields_skip. intros s1. eapply yields_bind; [|intros s2 Hs2; apply yields_ret; exact Hs2].
  unfold _complete_parallel_region. apply yields_lift. intros nx Hnx. intros y s' y' H. apply yields_save in H. cbn in H.
  intros x Hx. destruct (rg_two _ _ Hp) as [_ H2]. destruct (pp_lanes plan) as [|l ls] eqn:El; [done|].
  destruct (rg_lanes _ _ Hp l) as (L1 & _ & L3 & _ & L5); [rewrite El; left|].
  assert (parent_of c x (pp_join plan)) as P1 by (eapply next_child; [exact Hnx|congruence]).
  assert (parent_of c (pp_join plan) (ln_presentation l)) as P2 by (apply children_spec; rewrite L5; left).
  assert (parent_of c (ln_presentation l) (ln_research l)) as P3 by (apply children_spec; rewrite L3; left).
  destruct (child_down _ _ P1). apply Hrank in L1, P1, P2, P3. split; [lia|done].
Qed.

Lemma run_node_down s id plan : (∀ p, plan = Some p → region_ok c p) → yields (run_node v c plan s id) (moves_down id).
Proof.
  intros Hp. unfold run_node. apply yields_lift. intros n _. apply yields_skip. intros ?.
  case_bool_decide; [apply complete_and_go_down|]. case_bool_decide; [apply yields_skip; intros; apply complete_and_go_down|].
  destruct (is_kind "validation" n); [destruct (ws_last_validation s); [apply complete_and_go_down|done]|].
  destruct (is_kind "decision" n); [apply decide_node_down|].
  destruct (is_kind "approval" n); [apply yields_skip; intros; by apply yields_ret|].
  destruct (is_v4 v && _); [by apply fork_node_down|].
  destruct (is_v4 v && bool_decide (wn_action n = "parallel_join")); [done|].
  destruct (bool_decide (wn_action n = "presentation")); [apply yields_skip; intros; apply complete_and_go_down|].
  destruct (bool_decide (wn_action n = "daily_report")); [apply yields_skip; intros; apply complete_and_go_down|].
  destruct (bool_decide (wn_action n = "output")); [apply yields_skip; intros; by apply yields_ret|done].
Qed.

Lemma loop_ends plan fuel : (∀ p, plan = Some p → region_ok c p) →
  (∀ id, id ∈ map wn_id (wc_nodes c) → (rank id < length (wc_nodes c))%nat) →
  ∀ s, (∀ x, ws_current_node s = Some x → x ∈ map wn_id (wc_nodes c) → (length (wc_nodes c) < fuel + rank x)%nat) →
  (0 < fuel)%nat → yields (advance_loop v fuel c plan s) (λ o, o ≠ None).
Proof.
  intros Hp Hlt. induction fuel as [|fuel IH]; intros s Hx H0; [lia|]. cbn [advance_loop].
  destruct (ws_current_node s) as [id|] eqn:Hcur; [|done]. destruct (is_empty id); [done|].
  destruct (_node_map c id) as [n|] eqn:En.
  - eapply yields_bind; [by apply run_node_down|]. intros [s1|m] Ho; [|by apply yields_ret].
    apply (node_map_spec Hc) in En as [Hn Hid]. assert (id ∈ map wn_id (wc_nodes c)) as Hin by (subst id; by apply list_elem_of_fmap_2).
    specialize (Hx id eq_refl Hin). specialize (Hlt id Hin). apply IH; [|lia].
    intros x Hx1 Hxin. destruct (Ho x Hx1). lia.
  - intros y a y' H. apply st_bind_ok in H as (o & y1 & H & _). unfold run_node in H. by rewrite En in H.
Qed.
End Rank.

Lemma advance_yields s : yields (_advance v s c) (λ o, o ≠ None).
Proof.
  destruct (rank_exists Hc) as (rank & Hlt & Hr). unfold _advance. apply yields_lift. intros plan Hp. apply yields_skip. intros s1.
  apply (loop_ends rank Hr); [|done|intros; lia|lia]. intros p ->. destruct (is_v4 v); [|done]. by apply (parallel_plan_ok Hc).
Qed.
End Termination.

(** A contract that a controller has read. *)
Lemma loaded_graph {HL : Hashlib} {W : Type} {RT : WorkflowRuntime W} v s (y : Sys W) c y' :
  _load_contract v s y = (Ok c, y') → graph_wf c ∧ wh_workflow_sha256 (ws_head s) = _canonical_sha256 (contract_json c)
    ∧ (∃ raw, validate_of v raw = Ok c) ∧ y' = y.
Proof.
  unfold _load_contract. intros H. apply st_bind_ok in H as (k & y1 & [= _ <-] & H). apply st_bind_ok in H as (y1 & y2 & [= <- <-] & H).
  destruct (sy_contracts y !! k) as [[|raw]|]; try done. apply st_bind_ok in H as (c1 & y1 & [= H1 <-] & H).
  apply st_bind_ok in H as (u & y1 & [= H2 <-] & [= <- <-]). apply raise_if_ok, negb_false_iff, bool_decide_eq_true in H2.
  assert (validate_of v raw = Ok c1) as Hv.
  { unfold reraise, catch in H1. destruct (validate_of v raw) as [|e]; [done|]. by destruct (contract_error _ _). }
  split_and!; [|done|by exists raw|done]. unfold validate_of in Hv. destruct (is_v4 v); [by eapply v4_graph_wf|].
  by eapply workflow_graph_wf, validate_contract_ok.
Qed.

Lemma loaded_file {HL : Hashlib} {W : Type} {RT : WorkflowRuntime W} v s (y : Sys W) c y' :
  _load_contract v s y = (Ok c, y') → ∃ k raw, sy_contracts y !! k = Some (ContractJson raw) ∧ validate_of v raw = Ok c.
Proof.
  unfold _load_contract. intros H. apply st_bind_ok in H as (k & y1 & [= _ <-] & H). apply st_bind_ok in H as (y1 & y2 & [= <- <-] & H).
  destruct (sy_contracts y !! k) as [[|raw]|] eqn:E; try done. apply st_bind_ok in H as (c1 & y1 & [= H1 <-] & H).
  apply st_bind_ok in H as (u & y1 & _ & [= <- _]). exists k, raw. split; [done|].
  unfold reraise, catch in H1. destruct (validate_of v raw) as [|e]; [done|]. by destruct (contract_error _ _).
Qed.

Lemma advance_or_fail_ends {HL : Hashlib} {W : Type} {RT : WorkflowRuntime W} v t s c (y : Sys W) o y' : graph_wf c →
  advance_or_fail v t s c y = (Ok o, y') → o ≠ None.
Proof.
  intros Hc H. unfold advance_or_fail, st_except in H. destruct (_advance v s c y) as [[a|e] y1] eqn:E.
  - injection H as <- <-. by eapply advance_yields.
  - destruct (is_exception e); [|done]. by apply st_bind_ok in H as (? & ? & _ & [=]).
Qed.

Lemma decision_ends {HL : Hashlib} {W : Type} {RT : WorkflowRuntime W} v t s cp approve actor (y : Sys W) o y' :
  apply_decision v t s cp approve actor y = (Ok o, y') → o ≠ None.
Proof.
  intros H ->. unfold apply_decision in H. apply st_bind_ok in H as (c & ? & L & H). apply loaded_graph in L as (Hc & _).
  apply st_bind_ok in H as ([s1 selected] & ? & _ & H). do 4 (apply st_bind_ok in H as (? & ? & _ & H)).
  destruct selected; do 2 (apply st_bind_ok in H as (? & ? & _ & H)); [by eapply advance_or_fail_ends|done].
Qed.

(** C18: every call on a workflow comes to an end.  A run visits each node of its graph at most
    once, so the rounds that the loop is given - one more than there are nodes - are enough:
    [start] and [decide_checkpoint] return a summary or raise, whatever the state, the files and
    the collaborators are, and never run out of rounds. *)
Theorem runs_end {HL : Hashlib} {W : Type} {RT : WorkflowRuntime W} v task_id fp confirmation approver decision (y : Sys W) :
  (workflow_start v task_id fp confirmation approver y).1 ≠ Ok None
  ∧ (decide_checkpoint v task_id fp decision confirmation approver y).1 ≠ Ok None.
Proof.
  split.
  - destruct (workflow_start _ _ _ _ _ y) as [r y'] eqn:H. cbn. intros ->. unfold workflow_start in H.
    do 8 (apply st_bind_ok in H as (? & ? & ? & H)).
    match goal with L : _load_contract _ _ _ = _ |- _ => apply loaded_graph in L as (Hc & _) end.
    by eapply advance_or_fail_ends.
  - destruct (decide_checkpoint _ _ _ _ _ _ y) as [r y'] eqn:H. cbn. intros ->. unfold decide_checkpoint in H.
    apply st_bind_ok in H as (s & y1 & _ & H). apply st_bind_ok in H as (? & ? & _ & H). destruct (ws_checkpoint s) as [cp|]; [|done].
    do 5 (apply st_bind_ok in H as (? & ? & _ & H)). by eapply decision_ends.
Qed.

(** ** The effect of a call *)

Section Calls.
Context {HL : Hashlib} {W : Type} {RT : WorkflowRuntime W}.
Variable v : controller.

(** Any contract, for calls that read none. *)
Definition no_contract : wf_contract := Build_wf_contract "" "" "" "" "" [] [] [].

(** The workflow of [k] was waiting for an authorization or a decision, and has made transitions
    of the abstract machine with the contract the call read. *)
Definition run_moved (y y' : Sys W) (k : string) (s s' : WorkflowState) : Prop :=
  sy_states y !! k = Some (StateFile s) ∧ ws_status s ∈ ["prepared"; "paused"]
  ∧ wh_schema_version (ws_head s) = STATE_SCHEMA_VERSION v
  ∧ sy_states y' = <[k := StateFile s']> (sy_states y)
  ∧ ∀ c, (∀ c', (_load_contract v s y).1 = Ok c' → c' = c) → rtc (wf_step v c) s s'.

(** The files after a call: as before, but for at most one workflow. *)
Definition call_effect (y y' : Sys W) : Prop :=
  sy_contracts y' = sy_contracts y ∧ (sy_states y' = sy_states y ∨ ∃ k s s', run_moved y y' k s s').

Lemma effect_of_keeps {A} y k s (m : ST (Sys W) A) r y' :
  sy_states y !! k = Some (StateFile s) → ws_status s ∈ ["prepared"; "paused"] →
  wh_schema_version (ws_head s) = STATE_SCHEMA_VERSION v →
  (∀ c, (∀ c', (_load_contract v s y).1 = Ok c' → c' = c) → upholds v c y k s m (λ _, True)) →
  m y = (r, y') → sy_contracts y' = sy_contracts y ∧ ∃ s', run_moved y y' k s s'.
Proof.
  intros Hl Hs Hsc Hk Hm.
  assert (∀ c, owns v c y k s y) as Hown.
  { intros c. split; [done|]. exists s. split; [done|]. by rewrite insert_id. }
  assert (∃ c0, ∀ c', (_load_contract v s y).1 = Ok c' → c' = c0) as [c0 Hc0].
  { destruct (_load_contract v s y).1 as [c1|e]; [by exists c1; intros ? [= ->]|by exists no_contract]. }
  destruct (Hk c0 Hc0 _ _ _ (Hown c0) Hm) as [[Hco (f & Hf & Hst)] _]. split; [done|]. exists f.
  split_and!; [done..|]. intros c Hc. destruct (Hk c Hc _ _ _ (Hown c) Hm) as [[_ (f' & Hf' & Hst')] _].
  assert (f' = f) as ->; [|done]. rewrite Hst in Hst'. apply (f_equal (lookup k)) in Hst'. rewrite !lookup_insert_eq in Hst'.
  by injection Hst'.
Qed.

Lemma raise_if_fails {A} (b : bool) cls msg (m : ST (Sys W) A) y r y' : (st_raise_if b cls msg ;; m) y = (r, y') →
  b = true ∧ y' = y ∨ b = false ∧ m y = (r, y').
Proof. unfold st_raise_if, st_lift, mbind, st_bind. destruct b; [intros [= <- <-]; by left|by right]. Qed.

(** The authorization was exact. *)
Definition start_authorized (s : WorkflowState) (fp confirmation approver : string) : Prop :=
  ws_status s = "prepared" ∧ strip fp = wh_dispatch_fingerprint (ws_head s) ∧ strip confirmation = "AUTHORIZE"
  ∧ strip approver ≠ "".

(** The decision was exact. *)
Definition decision_authorized (s : WorkflowState) (fp decision confirmation approver : string) : Prop :=
  ws_status s = "paused" ∧ (∃ cp, ws_checkpoint s = Some cp ∧ cp_status cp = "pending" ∧ strip fp = cp_fingerprint cp)
  ∧ upper (strip decision) ∈ ["APPROVE"; "REJECT"] ∧ strip confirmation = upper (strip decision) ∧ strip approver ≠ "".

(** The call has moved the workflow of [task_id], whose state was [G], or no state. *)
Definition authorized_effect (task_id : string) (G : WorkflowState → Prop) (y y' : Sys W) : Prop :=
  sy_contracts y' = sy_contracts y
  ∧ (sy_states y' = sy_states y ∨ ∃ k s s', _safe_task_id task_id = Ok k ∧ G s ∧ run_moved y y' k s s').

Lemma authorized_call task_id G (y y' : Sys W) : authorized_effect task_id G y y' → call_effect y y'.
Proof. intros [H [He|(k & s & s' & _ & _ & Hm)]]; (split; [done|]); [by left|right; eauto]. Qed.

Lemma actor_named approver actor : _actor_ref approver = Ok actor → strip approver ≠ "".
Proof. unfold _actor_ref, ws_fail_if. rewrite guard_bind_ok. intros [H _] He. by rewrite He in H. Qed.

Lemma start_outcome task_id fp confirmation approver y r y' :
  workflow_start v task_id fp confirmation approver y = (r, y') →
  authorized_effect task_id (λ s, start_authorized s fp confirmation approver) y y'.
Proof.
  unfold workflow_start. intros H. unfold mbind at 1, st_bind at 1 in H.
  destruct (_load_state v task_id y) as [rs y1] eqn:El. destruct (load_state_ok _ _ _ _ _ El) as [-> Hok].
  destruct rs as [s|e]; [|simplify_eq; split; [done|by left]]. destruct (Hok s eq_refl) as (Ht & Hsc & k & Hk & Hl).
  pose proof H as H0. apply raise_if_fails in H0 as [[_ ->]|[Hs H0]]; [split; [done|by left]|].
  apply raise_if_fails in H0 as [[_ ->]|[G2 H0]]; [split; [done|by left]|].
  apply raise_if_fails in H0 as [[_ ->]|[G3 H0]]; [split; [done|by left]|].
  apply negb_false_iff, bool_decide_eq_true in Hs, G2, G3. assert (y' = y ∨ strip approver ≠ "") as [->|Hnamed]; [|split; [done|by left]|].
  { clear H. unfold mbind, st_bind, st_lift in H0. destruct (_actor_ref approver) as [actor|e] eqn:Ea;
      [right; by eapply actor_named|left; by injection H0]. }
  eapply (effect_of_keeps y k s (start_from v task_id fp confirmation approver s)) in H as [Hco [s' Hm]];
    [|done|rewrite Hs; left|done|].
  - split; [done|]. right. exists k, s, s'. done.
  - intros c Hc. subst task_id. by apply upholds_start.
Qed.

Lemma decide_outcome task_id fp decision confirmation approver y r y' :
  decide_checkpoint v task_id fp decision confirmation approver y = (r, y') →
  authorized_effect task_id (λ s, decision_authorized s fp decision confirmation approver) y y'.
Proof.
  unfold decide_checkpoint. intros H. unfold mbind at 1, st_bind at 1 in H.
  destruct (_load_state v task_id y) as [rs y1] eqn:El. destruct (load_state_ok _ _ _ _ _ El) as [-> Hok].
  destruct rs as [s|e]; [|simplify_eq; split; [done|by left]]. destruct (Hok s eq_refl) as (Ht & Hsc & k & Hk & Hl).
  apply raise_if_fails in H as [[_ ->]|[Hs H]]; [split; [done|by left]|]. apply negb_false_iff, bool_decide_eq_true in Hs.
  destruct (ws_checkpoint s) as [cp|] eqn:Hcp; [|by injection H as <- <-; split; [done|left]].
  do 4 (apply raise_if_fails in H as [[_ ->]|[? H]]; [split; [done|by left]|]).
  repeat match goal with G : negb _ = false |- _ => apply negb_false_iff in G end.
  repeat match goal with G : bool_decide _ = true |- _ => apply bool_decide_eq_true in G | G : mem_str _ _ = true |- _ => apply mem_str_true in G end.
  unfold mbind, st_bind, st_lift in H. destruct (_actor_ref approver) as [actor|e] eqn:Ea; [|by injection H as <- <-; split; [done|left]].
  eapply (effect_of_keeps y k s) in H as [Hco [s' Hm]]; [|done|rewrite Hs; right; left|done|].
  - split; [done|]. right. exists k, s, s'. split_and!; [done| |done]. split_and!; [done|by exists cp|done..|by eapply actor_named].
  - intros c Hc. subst task_id. by apply upholds_decision.
Qed.

(** A computation that leaves the files alone. *)
Definition quiet {A} (m : ST (Sys W) A) : Prop :=
  ∀ y r y', m y = (r, y') → sy_states y' = sy_states y ∧ sy_contracts y' = sy_contracts y.
Lemma quiet_bind {A B} (m : ST (Sys W) A) (f : A → ST (Sys W) B) : quiet m → (∀ a, quiet (f a)) → quiet (a ← m; f a).
Proof.
  intros Hm Hf y r y'. unfold mbind, st_bind. destruct (m y) as [[a|e] y1] eqn:E; intros H; destruct (Hm _ _ _ E) as [H1 H2].
  - destruct (Hf a _ _ _ H). split; congruence.
  - by injection H as <- <-.
Qed.
Lemma quiet_lift {A} (m : result A) : quiet (st_lift m).
Proof. by intros y r y' [= <- <-]. Qed.
Lemma quiet_ret {A} (a : A) : quiet (mret a).
Proof. by intros y r y' [= <- <-]. Qed.
Lemma quiet_world {A} (m : ST W A) : quiet (world m).
Proof. intros y r y'. unfold world, st_zoom. destruct (m _). by intros [= <- <-]. Qed.
Lemma quiet_load_contract s : quiet (_load_contract v s).
Proof.
  intros y r y' H. destruct r as [c|e]; [by apply loaded_graph in H as (_ & _ & _ & ->)|].
  unfold _load_contract, mbind, st_bind, st_lift, st_get in H. destruct (_safe_task_id _) as [k|]; [|by simplify_eq].
  destruct (sy_contracts y !! k) as [[|raw]|]; try by simplify_eq.
  destruct (reraise _ _ _ _); [|by simplify_eq]. unfold st_raise_if, st_lift in H. destruct (raise_if _ _ _); by simplify_eq.
Qed.

Lemma status_quiet task_id : quiet (workflow_status v task_id).
Proof.
  unfold workflow_status. apply quiet_bind.
  - intros y r y' H. by apply load_state_ok in H as [-> _].
  - intros s. unfold _summary. apply quiet_bind; [apply quiet_load_contract|intros; apply quiet_ret].
Qed.

(** What a preparation leaves: nothing, a contract file, or a contract file and a new state. *)
Lemma prepare_effect raw language audience purpose slides format y r y' :
  prepare v raw language audience purpose slides format y = (r, y') →
  (sy_states y' = sy_states y ∧ sy_contracts y' = sy_contracts y)
  ∨ ∃ c root options task_id k w1, admit_workflow v raw = Ok (c, root)
      ∧ prepare_options v language audience purpose slides format = Ok options
      ∧ store_create_task (wc_title c) (wc_objective c) (sy_world y) = (Ok task_id, w1) ∧ _safe_task_id task_id = Ok k
      ∧ sy_contracts y' = <[k := ContractJson (canon (contract_json c))]> (sy_contracts y)
      ∧ (sy_states y' = sy_states y
         ∨ ∃ contract_sha now, sy_states y' = <[k := StateFile (prepared_state v task_id
             (_canonical_sha256 (contract_json c)) contract_sha root options now)]> (sy_states y)).
Proof.
  unfold prepare. intros H. unfold mbind at 1, st_bind at 1, st_lift at 1 in H.
  destruct (admit_workflow v raw) as [[c root]|e] eqn:Ha; [|injection H as <- <-; by left].
  unfold mbind at 1, st_bind at 1, st_lift at 1 in H.
  destruct (prepare_options _ _ _ _ _ _) as [options|e] eqn:Ho; [|injection H as <- <-; by left].
  unfold mbind at 1, st_bind at 1, world at 1, st_zoom at 1 in H.
  destruct (store_create_task _ _ _) as [[task_id|e] w1] eqn:Hct; [|injection H as <- <-; by left].
  unfold mbind at 1, st_bind at 1, st_lift at 1 in H.
  destruct (_task_contract v task_id) as [tc|e]; [|injection H as <- <-; by left].
  unfold mbind at 1, st_bind at 1, world at 1, st_zoom at 1 in H.
  destruct (ledger_bind_contract tc _) as [[contract_sha|e] w2]; [|injection H as <- <-; by left].
  unfold mbind at 1, st_bind at 1, _write_contract at 1, mbind at 1, st_bind at 1, st_lift at 1 in H.
  destruct (_safe_task_id task_id) as [k|e] eqn:Hk; [|injection H as <- <-; by left].
  right. exists c, root, options, task_id, k, w1. split_and!; [done..| |].
  all: unfold mbind at 1, st_bind at 1, st_modify at 1, world at 1, st_zoom at 1 in H; cbn [set_sy_contracts set_sy_world sy_world] in H.
  all: destruct (clock_now w2) as [[now|e] w3]; [|injection H as <- <-; by eauto].
  all: unfold mbind at 1, st_bind at 1, _write_state at 1, mbind at 1, st_bind at 1, st_lift at 1 in H.
  all: unfold ws_task_id in H; cbn [prepared_state ws_head wh_task_id] in H; rewrite Hk in H; unfold st_modify at 1 in H.
  all: match type of H with ?m ?y1 = _ => assert (quiet m) as Hq end.
  1,3: repeat (apply quiet_bind; [first [apply quiet_lift|apply quiet_world]|intros ?]); apply quiet_ret.
  all: apply Hq in H as [H1 H2]; cbn in H1, H2.
  - done.
  - right. eauto.
Qed.
End Calls.

(** ** The fingerprint of a contract *)

Lemma contract_text_inj c c' : print (contract_json c) = print (contract_json c') → c = c'.
Proof.
  intros H. apply print_inj in H; [|apply contract_json_ok..]. rewrite !canon_contract in H.
  injection H as H1 H2 H3 H4 H5 H6 H7 H8.
  assert (∀ l l' : list string, map JStr l = map JStr l' → l = l') as Hstr.
  { induction l as [|x l IH]; intros [|x' l']; cbn; try done. intros [= -> Hl]. f_equal. by apply IH. }
  apply Hstr in H4, H8.
  assert (∀ l l' : list wf_node, map canon (map node_json l) = map canon (map node_json l') → l = l') as Hnodes.
  { induction l as [|n l IH]; intros [|n' l']; cbn [map]; try done. rewrite !canon_node. intros [= E1 E2 E3 E4 E5 E6 E7 Hl].
    apply Hstr in E4. f_equal; [|by apply IH]. destruct n as [i la ki ac de co ap], n' as [i' la' ki' ac' de' co' ap']; cbn in *.
    subst. f_equal. destruct co, co'; congruence. }
  apply Hnodes in H2. destruct c, c'; cbn in *. by subst.
Qed.

Section History.
Context {HL : Hashlib} {W : Type} {RT : WorkflowRuntime W}.
Variable v : controller.

(** A contract file that was written holds another contract with the fingerprint of [c]. *)
Definition contract_collision (written : list contract_file) (c : wf_contract) : Prop :=
  ∃ raw c', ContractJson raw ∈ written ∧ validate_of v raw = Ok c'
    ∧ collision (utf8_encode (print (contract_json c))) (utf8_encode (print (contract_json c'))).

Lemma contract_sha_binds c c' : _canonical_sha256 (contract_json c) = _canonical_sha256 (contract_json c') →
  c' = c ∨ collision (utf8_encode (print (contract_json c))) (utf8_encode (print (contract_json c'))).
Proof.
  unfold _canonical_sha256. rewrite !print_any_contract.
  intros H. unfold sha256_of_text in H. apply (inj _) in H.
  destruct (decide (print (contract_json c) = print (contract_json c'))) as [He|Hne].
  - left. symmetry. by apply contract_text_inj.
  - right. split; [|done]. by intros ?%utf8_encode_inj.
Qed.

(** ** Histories *)

Inductive wf_request :=
  | Prepare (raw : json) (language audience purpose : string) (slide_count : json) (output_format : string)
  | Start (task_id approval_fingerprint confirmation approver_id : string)
  | Decide (task_id checkpoint_fingerprint decision confirmation approver_id : string)
  | Status (task_id : string).

Definition serve (q : wf_request) (y : Sys W) : Sys W :=
  match q with
  | Prepare raw language audience purpose slides format => (prepare v raw language audience purpose slides format y).2
  | Start task_id fp confirmation approver => (workflow_start v task_id fp confirmation approver y).2
  | Decide task_id fp decision confirmation approver => (decide_checkpoint v task_id fp decision confirmation approver y).2
  | Status task_id => (workflow_status v task_id y).2
  end.

(** Task identifiers are the primary keys of the store: a new task's has no state file yet. *)
Definition fresh_task (q : wf_request) (y : Sys W) : Prop :=
  match q with
  | Prepare _ _ _ _ _ _ => ∀ title objective task_id w k,
      store_create_task title objective (sy_world y) = (Ok task_id, w) → _safe_task_id task_id = Ok k → sy_states y !! k = None
  | _ => True
  end.

(** The contract file a call may write. *)
Definition writes (q : wf_request) : list contract_file :=
  match q with
  | Prepare raw _ _ _ _ _ => match admit_workflow v raw with Ok (c, _) => [ContractJson (canon (contract_json c))] | Raise _ => [] end
  | _ => []
  end.

(** Calls, in any order; between them the collaborators' state changes in any way, and contract
    files may be replaced.  The list holds the contents that contract files were ever given. *)
Inductive history : list contract_file → Sys W → Prop :=
  | history_start w : history [] (Build_Sys ∅ ∅ w)
  | history_call l y q : history l y → fresh_task q y → history (l ++ writes q) (serve q y)
  | history_world l y w : history l y → history l (set_sy_world w y)
  | history_contract l y k f : history l y → history (l ++ [f]) (set_sy_contracts (<[k := f]> (sy_contracts y)) y).

(** The state belongs to an admitted workflow, and has run as it must. *)
Definition sound_state (written : list contract_file) (s : WorkflowState) : Prop :=
  ∃ raw c root, admit_workflow v raw = Ok (c, root) ∧ wh_schema_version (ws_head s) = STATE_SCHEMA_VERSION v
    ∧ wh_workflow_sha256 (ws_head s) = _canonical_sha256 (contract_json c) ∧ wh_root_node (ws_head s) = root
    ∧ (run_ok (v := v) (c := c) s ∨ contract_collision written c).

Lemma sound_more l l' s : sound_state l s → sound_state (l ++ l') s.
Proof.
  intros (raw & c & root & Ha & Hsc & Hsha & Hroot & Hok). exists raw, c, root. split_and!; [done..|].
  destruct Hok as [Hok|(raw' & c' & Hin & H)]; [by left|right]. exists raw', c'. split; [|done]. apply elem_of_app. by left.
Qed.

Lemma prepared_ok raw c root task_id workflow_sha contract_sha options now : admit_workflow v raw = Ok (c, root) →
  run_ok (v := v) (c := c) (prepared_state v task_id workflow_sha contract_sha root options now).
Proof.
  intros Ha. pose proof (admit_shape v raw c root Ha) as Hsh. destruct (sh_root _ _ _ Hsh) as [Hr Htop].
  assert (∀ x, visited (prepared_state v task_id workflow_sha contract_sha root options now) x → x = root) as Hv
    by (intros x [Hx|[= ->]]; [cbn in Hx; by apply elem_of_nil in Hx|done]).
  split; cbn [prepared_state ws_initial_approver_ref ws_completed_nodes ws_status ws_current_node ws_branch_history].
  - intros _. split; [done|left].
  - by intros x ->%Hv.
  - intros x p ->%Hv Hp. by destruct (Htop p).
  - intros x _ Hx. by apply elem_of_nil in Hx.
  - constructor.
  - intros plan x Hp [= <-] Hi.
    pose proof (sh_region _ _ _ Hsh _ Hp) as Hreg. apply (inner_elem Hsh) in Hi as [(l & Hl & Hx)|Hx].
    + destruct (rg_lanes _ _ Hreg l Hl) as (L1 & _ & L3 & _). destruct Hx as [Hx|Hx]; [by apply (Htop (pp_fork plan)); rewrite Hx|].
      apply (Htop (ln_research l)). rewrite Hx. apply children_spec. rewrite L3. left.
    + destruct (rg_two _ _ Hreg) as [_ H2]. destruct (pp_lanes plan) as [|l ls] eqn:El; [done|].
      destruct (rg_lanes _ _ Hreg l) as (_ & _ & _ & _ & L5); [rewrite El; left|].
      apply (Htop (ln_presentation l)). rewrite Hx. apply children_spec. rewrite L5. left.
  - intros x n p pn ->%Hv _ Hp. by destruct (Htop p).
  - split; [constructor|]. intros b Hb. by apply elem_of_nil in Hb.
  - done.
  - intros plan _ Hne. done.
  - intros plan Hp. split_and!; [done| |intros b Hb; by apply elem_of_nil in Hb].
    intros [= He]. destruct (rg_decision _ _ (sh_region _ _ _ Hsh _ Hp)) as [Hch _].
    destruct (Htop (pp_join plan)). rewrite He. apply children_spec. rewrite Hch. left.
  - done.
Qed.

(** A call whose contract is not the admitted one has read another with its fingerprint. *)
Lemma moved_sound l (y y' : Sys W) k s s' : (∀ k f, sy_contracts y !! k = Some f → f ∈ l) →
  run_moved v y y' k s s' → sound_state l s → sound_state l s'.
Proof.
  intros Hf (Hl & _ & _ & _ & Hsteps) (raw & c & root & Ha & Hsc & Hsha & Hroot & Hok).
  assert (ws_head s' = ws_head s) as Hh.
  { assert (∃ c0, ∀ c', (_load_contract v s y).1 = Ok c' → c' = c0) as [c0 Hc0].
    { destruct (_load_contract v s y).1 as [c1|e]; [by exists c1; intros ? [= ->]|by exists no_contract]. }
    by apply (wf_steps_head _ _ _ _ (Hsteps c0 Hc0)). }
  exists raw, c, root. rewrite Hh. split_and!; [done..|]. destruct Hok as [Hok|]; [|by right].
  destruct (_load_contract v s y) as [[c1|e] y1] eqn:El.
  - pose proof (loaded_file v s y c1 y1 El) as (k1 & raw1 & Hk1 & Hraw1).
    apply loaded_graph in El as (_ & Hs1 & _ & _). rewrite Hsha in Hs1.
    destruct (contract_sha_binds _ _ Hs1) as [->|]; [|right; exists raw1, c1; split; [by eapply Hf|done]].
    left. pose proof (admit_shape v raw c root Ha) as Hsh. assert (rtc (wf_step v c) s s') as Hst by (apply Hsteps; by intros ? [= ->]).
    clear -Hst Hok Hsh. induction Hst as [|x y z Hxy _ IH]; [done|]. by apply IH, (wf_step_ok Hsh x).
  - left. pose proof (admit_shape v raw c root Ha) as Hsh. assert (rtc (wf_step v c) s s') as Hst by (by apply Hsteps).
    clear -Hst Hok Hsh. induction Hst as [|x y z Hxy _ IH]; [done|]. by apply IH, (wf_step_ok Hsh x).
Qed.

Lemma serve_effect q (y : Sys W) : (∀ raw l a p n f, q ≠ Prepare raw l a p n f) → call_effect v y (serve q y).
Proof.
  intros Hq. destruct q as [raw l a p n f|t fp cf who|t fp d cf who|t]; cbn [serve]; [by destruct (Hq raw l a p n f)|..].
  - destruct (workflow_start _ _ _ _ _ y) as [r y'] eqn:E. by eapply authorized_call, start_outcome.
  - destruct (decide_checkpoint _ _ _ _ _ _ y) as [r y'] eqn:E. by eapply authorized_call, decide_outcome.
  - destruct (workflow_status _ _ y) as [r y'] eqn:E. apply status_quiet in E as [H1 H2]. split; [done|by left].
Qed.

Lemma history_files l (y : Sys W) k f : history l y → sy_contracts y !! k = Some f → f ∈ l.
Proof.
  intros Hh. revert k f. induction Hh as [w|l y q Hh IH _|l y w _ IH|l y k' f' _ IH]; intros k f Hl; cbn in Hl.
  - by rewrite lookup_empty in Hl.
  - apply elem_of_app. destruct q as [raw la a p n o|t fp cf who|t fp d cf who|t].
    1: { cbn [serve] in Hl. destruct (prepare _ _ _ _ _ _ _ y) as [r y'] eqn:E. cbn in Hl.
      apply prepare_effect in E as [[_ E]|(c & root & options & task_id & k1 & w1 & Ha & _ & _ & _ & E & _)];
        rewrite E in Hl; [left; by eapply IH|].
      apply lookup_insert_Some in Hl as [[<- <-]|[_ Hl]]; [|left; by eapply IH]. right. cbn [writes]. rewrite Ha. left. }
    all: left; match type of Hl with sy_contracts (serve ?q0 ?y0) !! _ = _ => pose proof (serve_effect q0 y0) as [He _]; [done|] end;
      rewrite He in Hl; by eapply IH.
  - by eapply IH.
  - apply elem_of_app. apply lookup_insert_Some in Hl as [[_ <-]|[_ Hl]]; [right; left|left; by eapply IH].
Qed.

Lemma history_sound l (y : Sys W) k s : history l y → sy_states y !! k = Some (StateFile s) → sound_state l s.
Proof.
  intros Hh. revert k s. induction Hh as [w|l y q Hh IH Hfresh|l y w _ IH|l y k' f _ IH]; intros k s Hl; cbn in Hl;
    [by rewrite lookup_empty in Hl| |by eapply IH|by eapply sound_more, IH].
  destruct q as [raw la a p n f|t fp cf who|t fp d cf who|t].
  1: { cbn [serve] in Hl. destruct (prepare _ _ _ _ _ _ _ y) as [r y'] eqn:E. cbn in Hl.
    apply prepare_effect in E as [[E _]|(c & root & options & task_id & k1 & w1 & Ha & _ & Hct & Hk & _ & [E|(sha & now & E)])];
      rewrite E in Hl; [by eapply sound_more, IH..|].
    apply lookup_insert_Some in Hl as [[<- [= <-]]|[_ Hl]]; [|by eapply sound_more, IH].
    exists raw, c, root. split_and!; [done..|]. left. by eapply prepared_ok. }
  all: apply sound_more; match type of Hl with sy_states (serve ?q ?y0) !! _ = _ => pose proof (serve_effect q y0) as [_ [He|(k1 & s1 & s2 & Hm)]]; [done|..] end.
  all: try (rewrite He in Hl; by eapply IH).
  all: pose proof Hm as (Hl1 & _ & _ & Hst & _); rewrite Hst in Hl; apply lookup_insert_Some in Hl as [[<- [= <-]]|[_ Hl]];
    [eapply moved_sound; [intros ? ?; by apply history_files|exact Hm|by eapply IH]|by eapply IH].
Qed.
End History.
