(* ===== verification/WorkflowRegion.v ===== *)
(** * The verdict on a parallel region

    What the two lanes of a region may answer under every interleaving of their calls, and what
    the region makes of their answers. *)

From Stdlib Require Import Ascii.
From Stdlib Require String.
From S2P Require Import Prelude PyStr Hashlib Json JsonFacts TaskContract WorkflowDesign WorkflowAdmission PlanFacts.
From S2P Require Import TaskStore ExecutionBudget LinkedBudget WorkflowState WorkflowController WorkflowMachine.
From S2P Require Import WorkflowDesk WorkflowSteps.

Local Open Scope Z_scope.

(** ** What a thread may answer *)

(** Each call answers as it does in some world, whatever the other threads have done to it. *)
Fixpoint may {W A} (t : thread W A) (r : result A) : Prop :=
  match t with
  | Finished r' => r = r'
  | Calling m h => ∃ w, may (h (m w).1) r
  end.

Section Threads.
Context {W : Type}.

Lemma run_thread_may {A} (t : thread W A) w : may t (run_thread t w).1.
Proof.
  revert w. induction t as [r|B m h IH]; intros w; cbn [run_thread may]; [done|].
  destruct (m w) as [r w'] eqn:E. exists w. rewrite E. apply IH.
Qed.

Lemma run_to_ends {A} (t u : thread W A) w : let r := (let '(a, w1) := run_thread t w in
  let '(b, w2) := run_thread u w1 in ((a, b), w2)).1 in may t r.1 ∧ may u r.2.
Proof.
  pose proof (run_thread_may t w) as Ht. destruct (run_thread t w) as [a w1].
  pose proof (run_thread_may u w1) as Hu. by destruct (run_thread u w1) as [b w2].
Qed.

(** Whatever the turns are, each thread answers as one of its own runs. *)
Lemma run_threads_may {A} turns (t u : thread W A) w :
  may t (run_threads turns t u w).1.1 ∧ may u (run_threads turns t u w).1.2.
Proof.
  revert t u w. induction turns as [|turn turns IH]; intros t u w; cbn [run_threads]; [apply run_to_ends|].
  destruct turn.
  - destruct t as [r|B m h]; [apply (run_to_ends (Finished r))|].
    destruct (m w) as [r w'] eqn:E. destruct (IH (h r) u w') as [H1 H2]. split; [|done]. exists w. by rewrite E.
  - destruct u as [r|B m h]; [apply (run_to_ends t (Finished r))|].
    destruct (m w) as [r w'] eqn:E. destruct (IH t (h r) w') as [H1 H2]. split; [done|]. exists w. by rewrite E.
Qed.

Lemma may_bind {A B} (t : thread W A) (k : A → thread W B) b :
  may (thread_bind t k) (Ok b) → ∃ a, may t (Ok a) ∧ may (k a) (Ok b).
Proof.
  induction t as [[a|e]|C m h IH]; cbn [thread_bind may].
  - intros H. by exists a.
  - done.
  - intros [w H]. apply IH in H as (a & H1 & H2). exists a. split; [by exists w|done].
Qed.

Lemma may_call {A} (m : ST W A) r : may (call m) r → ∃ w, (m w).1 = r.
Proof. cbn. intros [w H]. by exists w. Qed.

Lemma may_except {A} (t : thread W A) h a :
  may (thread_except t h) (Ok a) → may t (Ok a) ∨ ∃ e, may (h e) (Ok a).
Proof.
  induction t as [[x|e]|C m k IH]; cbn [thread_except may].
  - by left.
  - destruct (is_exception e); [|done]. right. by exists e.
  - intros [w H]. apply IH in H as [H|H]; [left; by exists w|by right].
Qed.
End Threads.

(** ** The lanes *)

Section Lanes.
Context {HL : Hashlib} {W : Type} {RT : WorkflowRuntime W}.
Variable v : controller.

(** The validators have accepted the task, the bridge has found it verified, and it is done. *)
Definition lane_verdict (child : string) : Prop :=
  (∃ st w, (record_research_evidence child st w).1 = Ok true)
  ∧ (∃ st w, (record_presentation_validation child st w).1 = Ok true)
  ∧ (∃ w, (evaluate_verified child w).1 = Ok true) ∧ ∃ w, (store_set_status child DONE w).1 = Ok tt.

Ltac thread_step H := let a := fresh "a" in let Ha := fresh "Ha" in apply may_bind in H as (a & Ha & H).

Lemma lane_body_verified options child budget r : may (lane_body options child budget) (Ok r) →
  r.1 = true → lane_verdict child.
Proof.
  unfold lane_body. intros H Hr. do 4 thread_step H. destruct (negb a2) eqn:E2.
  - thread_step H. cbn in H. injection H as ->. done.
  - apply negb_false_iff in E2 as ->. do 6 thread_step H. cbn in H. injection H as ->. cbn in Hr.
    apply andb_true_iff in Hr as [-> ->]. cbn [andb] in Ha8.
    apply may_call in Ha2 as [w2 Ha2], Ha6 as [w6 Ha6], Ha7 as [w7 Ha7], Ha8 as [w8 Ha8]. destruct a7. red. eauto 10.
Qed.

Lemma run_lane_verified parent options b r : may (run_lane parent options b) (Ok r) →
  lr_task_id r = rb_task_id b ∧ (lr_verified r = true → lane_verdict (rb_task_id b)).
Proof.
  unfold run_lane. intros H. do 2 thread_step H. cbn in H. injection H as ->. split; [done|]. cbn. intros Hr.
  apply may_except in Ha0 as [Ha0|[e Ha0]]; [by eapply lane_body_verified|].
  thread_step Ha0. cbn in Ha0. injection Ha0 as ->. done.
Qed.

Lemma lane_verified s b r : may (_run_parallel_lane v s b) (Ok r) →
  lr_task_id r = rb_task_id b ∧ (lr_verified r = true → lane_verdict (rb_task_id b)).
Proof.
  unfold _run_parallel_lane. destruct v; try apply run_lane_verified. destruct (is_empty _); [done|]. intros H.
  thread_step H. by eapply run_lane_verified.
Qed.

(** Both lanes have answered, in one order or the other. *)
Lemma run_lanes_ok s b1 b2 w l w' : run_lanes v s b1 b2 w = (Ok l, w') →
  ∃ r1 r2, may (_run_parallel_lane v s b1) (Ok r1) ∧ may (_run_parallel_lane v s b2) (Ok r2) ∧ (l = [r1; r2] ∨ l = [r2; r1]).
Proof.
  unfold run_lanes. intros H. apply st_bind_ok in H as ([turns first] & w1 & _ & H).
  apply st_bind_ok in H as ([r1 r2] & w2 & H1 & H).
  pose proof (run_threads_may turns (_run_parallel_lane v s b1) (_run_parallel_lane v s b2) w1) as [M1 M2].
  destruct (run_threads _ _ _ w1) as [rs w3]. injection H1 as -> <-. cbn in M1, M2.
  destruct first; apply st_bind_ok in H as (a & w4 & [= -> <-] & H); apply st_bind_ok in H as (b & w5 & [= -> <-] & [= <- <-]);
    eauto 8.
Qed.

Lemma sort_two r1 r2 : sort_results [r1; r2] = [r1; r2] ∨ sort_results [r1; r2] = [r2; r1].
Proof. cbn. case_bool_decide; [by left|by right]. Qed.

Lemma sort_perm l : (∃ r1 r2, l = [r1; r2]) → sort_results l ≡ₚ l.
Proof. intros (r1 & r2 & ->). destruct (sort_two r1 r2) as [-> | ->]; [done|apply Permutation_swap]. Qed.

Lemma create_branches_ok (c : wf_contract) i lanes y bs y' : create_branches c i lanes y = (Ok bs, y') →
  map rb_research_node bs = map ln_research lanes ∧ map rb_presentation_node bs = map ln_presentation lanes.
Proof.
  revert i y bs y'. induction lanes as [|l lanes IH]; intros i y bs y'; cbn [create_branches]; [by intros [= <- <-]|].
  intros H. apply st_bind_ok in H as (n & y1 & _ & H). apply st_bind_ok in H as (child & y2 & _ & H).
  apply st_bind_ok in H as (rest & y3 & Hr & [= <- <-]). apply IH in Hr as [H1 H2]. cbn. by rewrite H1, H2.
Qed.

Lemma save_ok s (y : Sys W) s' y' : save s y = (Ok s', y') → ∃ now, s' = set_ws_updated_at now s.
Proof.
  unfold save. intros H. apply st_bind_ok in H as (now & y1 & _ & H). apply st_bind_ok in H as (u & y2 & _ & [= <- <-]). by exists now.
Qed.

Lemma branch_result_task results b : rb_task_id (branch_result results b) = rb_task_id b.
Proof. done. Qed.

(** The branches of two lanes whose results are at hand. *)
Lemma branch_statuses results b1 b2 r1 r2 : lr_task_id r1 = rb_task_id b1 → lr_task_id r2 = rb_task_id b2 →
  results ≡ₚ [r1; r2] → rb_task_id b1 ≠ rb_task_id b2 →
  rb_status (branch_result results b1) = (if lr_verified r1 then "verified" else "failed")
  ∧ rb_status (branch_result results b2) = (if lr_verified r2 then "verified" else "failed").
Proof.
  intros H1 H2 Hp Hne.
  assert (results = [r1; r2] ∨ results = [r2; r1]) as [-> | ->].
  { symmetry in Hp. destruct (Permutation_length_2_inv Hp) as [-> | ->]; auto. }
  all: unfold branch_result; cbn [rb_status rev app find]; rewrite H1, H2; repeat case_bool_decide; try done; congruence.
Qed.

Lemma all_verified_perm l l' : l ≡ₚ l' → forallb lr_verified l = forallb lr_verified l'.
Proof. induction 1 as [|x l l' _ IH|x y l|l l' l'' _ -> _ ->]; cbn; [done|by rewrite IH| |done]. by destruct (lr_verified x), (lr_verified y). Qed.

Lemma record_parent_ok s results (y : Sys W) s' b y' : results ≠ [] → _record_parent_parallel_validation s results y = (Ok (s', b), y') →
  b = forallb lr_verified results ∧ s' = record_validation "parallel_branches" b s.
Proof.
  intros Hne. unfold _record_parent_parallel_validation. intros H. apply st_bind_ok in H as (u & y1 & _ & [= <- <- <-]).
  by destruct results.
Qed.

Lemma finally_ok {A} (m : ST (Sys W) A) f y a y' : st_finally m f y = (Ok a, y') → ∃ y1, m y = (Ok a, y1).
Proof. unfold st_finally. destruct (m y) as [r y1]. destruct (f y1) as [[u|e] y2]; intros [= -> _]. by exists y1. Qed.

(** A region that has answered. *)
Lemma region_answer s c plan (y : Sys W) s' y' : length (pp_lanes plan) = 2%nat →
  _run_parallel_region v s c plan y = (Ok s', y') →
  region_status s ∉ ["starting"; "running"; "completed"]
  ∧ ∃ r b1 b2 (verified1 verified2 : bool), ws_parallel_region s' = Some r ∧ pr_status r = "completed" ∧ pr_branches r = [b1; b2]
    ∧ map rb_research_node (pr_branches r) = map ln_research (pp_lanes plan)
    ∧ map rb_presentation_node (pr_branches r) = map ln_presentation (pp_lanes plan)
    ∧ pr_outcome r = Some (if verified1 && verified2 then "passed" else "failed")
    ∧ ws_last_validation s' = Some {| va_source := "parallel_branches"; va_passed := verified1 && verified2 |}
    ∧ (verified1 = true → lane_verdict (rb_task_id b1)) ∧ (verified2 = true → lane_verdict (rb_task_id b2))
    ∧ (rb_task_id b1 ≠ rb_task_id b2 →
        rb_status b1 = (if verified1 then "verified" else "failed") ∧ rb_status b2 = (if verified2 then "verified" else "failed")).
Proof.
  intros Htwo H. unfold _run_parallel_region in H.
  apply st_bind_ok in H as (u1 & y1 & [= G1 <-] & H). apply st_bind_ok in H as (u2 & y2 & [= G2 <-] & H).
  apply raise_if_ok in G1, G2. apply mem_str_false in G1. apply bool_decide_eq_false in G2.
  split; [set_solver|].
  apply st_bind_ok in H as ([s1 budget] & y3 & _ & H). apply st_bind_ok in H as (u3 & y4 & _ & H).
  apply st_bind_ok in H as (s2 & y5 & _ & H). apply st_bind_ok in H as (branches & y6 & Hb & H).
  apply create_branches_ok in Hb as [B1 B2]. apply st_bind_ok in H as (s3 & y7 & _ & H).
  apply st_bind_ok in H as (u4 & y8 & _ & H). apply st_bind_ok in H as (results & y9 & Hr & H).
  apply finally_ok in Hr as [y10 Hr].
  assert (length branches = 2%nat) as Hlen by (rewrite <- Htwo, <- (length_map rb_research_node), B1; apply length_map).
  destruct branches as [|b1 [|b2 [|? ?]]]; try done. unfold world, st_zoom in Hr.
  destruct (run_lanes v s3 b1 b2 (sy_world y8)) as [rl w] eqn:Hl. injection Hr as -> <-.
  apply run_lanes_ok in Hl as (r1 & r2 & M1 & M2 & Hl). apply lane_verified in M1 as [T1 V1], M2 as [T2 V2].
  assert (sort_results results ≡ₚ [r1; r2]) as Hp.
  { rewrite sort_perm by (destruct Hl as [-> | ->]; eauto). destruct Hl as [-> | ->]; [done|apply Permutation_swap]. }
  apply st_bind_ok in H as ([s4 all_verified] & y11 & Hv & H).
  apply record_parent_ok in Hv as [-> ->]; [|intros He; rewrite He in Hp; by apply Permutation_nil_cons in Hp].
  rewrite (all_verified_perm _ _ Hp) in H. cbn [forallb] in H. rewrite andb_true_r in H.
  apply st_bind_ok in H as (s5 & y12 & Hs & H). apply save_ok in Hs as [now ->]. apply st_bind_ok in H as (u5 & y13 & _ & [= <- <-]).
  eexists _, _, _, (lr_verified r1), (lr_verified r2). split_and!; [done..| |].
  1: done.
  intros Hne. by apply branch_statuses.
Qed.
End Lanes.
