(* ===== verification/WorkflowBinding.v ===== *)
(** * What an approval is bound to

    The fingerprint of a checkpoint, and the checkpoint a paused workflow waits at. *)

From Stdlib Require Import Ascii.
From Stdlib Require String.
From S2P Require Import Prelude PyStr Hashlib Json JsonFacts TaskContract WorkflowDesign WorkflowGraph WorkflowFacts.
From S2P Require Import WorkflowAdmission WorkflowAdmissionFacts WorkflowParallelFacts PlanFacts.
From S2P Require Import TaskStore ContractReload ExecutionBudget LinkedBudget WorkflowState WorkflowController WorkflowMachine.
From S2P Require Import WorkflowSteps WorkflowRefinement WorkflowRuns.

Local Open Scope Z_scope.

Section Fingerprint.
Context {HL : Hashlib}.

(** The text whose bytes are hashed. *)
Definition fingerprint_text (payload : json) : string := utf8_encode (print_any payload).

Lemma canonical_sha_binds a b : json_ok a = true → json_ok b = true → _canonical_sha256 a = _canonical_sha256 b →
  canon a = canon b ∨ collision (fingerprint_text a) (fingerprint_text b).
Proof.
  intros Ha Hb H. unfold _canonical_sha256, sha256_of_text in H. apply (inj _) in H.
  destruct (decide (print_any a = print_any b)) as [He|Hne].
  - left. apply print_inj; [done..|]. by rewrite !print_any_finite in He by (by apply json_ok_finite).
  - right. split; [|done]. by intros ?%utf8_encode_inj.
Qed.

Lemma strs_ok l : json_ok (json_strs l) = true.
Proof. unfold json_strs. cbn. apply forallb_forall. by intros x (? & <- & _)%in_map_iff. Qed.

Definition checkpoint_payload (v : controller) (s : WorkflowState) (node_id : string) (revision : Z) : json := JObj [
  ("schema_version", JStr (STATE_SCHEMA_VERSION v)); ("task_id", JStr (ws_task_id s));
  ("workflow_sha256", JStr (wh_workflow_sha256 (ws_head s)));
  ("task_contract_sha256", JStr (wh_task_contract_sha256 (ws_head s))); ("node_id", JStr node_id);
  ("revision", JInt revision);
  ("completed_sha256", JStr (_canonical_sha256 (json_strs (ws_completed_nodes s))))].

Lemma fingerprint_payload v s n r : checkpoint_fingerprint v s n r = _canonical_sha256 (checkpoint_payload v s n r).
Proof.
  unfold checkpoint_fingerprint, checkpoint_payload. lazymatch goal with |- ?a = ?a => exact eq_refl end.
Qed.

Lemma canon_payload v s n r : canon (checkpoint_payload v s n r) = JObj [
  ("completed_sha256", JStr (_canonical_sha256 (json_strs (ws_completed_nodes s)))); ("node_id", JStr n);
  ("revision", JInt r); ("schema_version", JStr (STATE_SCHEMA_VERSION v));
  ("task_contract_sha256", JStr (wh_task_contract_sha256 (ws_head s))); ("task_id", JStr (ws_task_id s));
  ("workflow_sha256", JStr (wh_workflow_sha256 (ws_head s)))].
Proof. reflexivity. Qed.

(** The same task, workflow, contract, node, revision and completed nodes. *)
Definition same_checkpoint (s : WorkflowState) (n : string) (r : Z) (s' : WorkflowState) (n' : string) (r' : Z) : Prop :=
  ws_task_id s = ws_task_id s' ∧ wh_workflow_sha256 (ws_head s) = wh_workflow_sha256 (ws_head s')
  ∧ wh_task_contract_sha256 (ws_head s) = wh_task_contract_sha256 (ws_head s')
  ∧ n = n' ∧ r = r' ∧ ws_completed_nodes s = ws_completed_nodes s'.

Lemma checkpoint_binds v s n r s' n' r' : checkpoint_fingerprint v s n r = checkpoint_fingerprint v s' n' r' →
  same_checkpoint s n r s' n' r'
  ∨ collision (fingerprint_text (checkpoint_payload v s n r)) (fingerprint_text (checkpoint_payload v s' n' r'))
  ∨ collision (fingerprint_text (json_strs (ws_completed_nodes s))) (fingerprint_text (json_strs (ws_completed_nodes s'))).
Proof.
  intros H. rewrite !fingerprint_payload in H.
  apply canonical_sha_binds in H as [H|H]; [|by right; left|reflexivity..]. rewrite !canon_payload in H.
  assert (_canonical_sha256 (json_strs (ws_completed_nodes s)) = _canonical_sha256 (json_strs (ws_completed_nodes s'))) as H1
    by congruence.
  assert (n = n' ∧ r = r') as [-> ->] by (split; congruence).
  assert (ws_task_id s = ws_task_id s' ∧ wh_workflow_sha256 (ws_head s) = wh_workflow_sha256 (ws_head s')
    ∧ wh_task_contract_sha256 (ws_head s) = wh_task_contract_sha256 (ws_head s')) as (H4 & H5 & H6) by (split_and!; congruence).
  clear H. apply canonical_sha_binds in H1 as [H1|H1]; [|by right; right|apply strs_ok..]. left.
  split_and!; try done. unfold json_strs in H1. cbn [canon] in H1. injection H1 as H1.
  rewrite !map_map in H1. cbn [canon] in H1. revert H1. generalize (ws_completed_nodes s), (ws_completed_nodes s').
  induction l as [|x l IH]; intros [|x' l']; cbn; try done. intros [= -> Hl]. f_equal. by apply IH.
Qed.

(** ** Paused workflows *)

(** The checkpoint that a paused workflow waits at has the fingerprint of its state. *)
Definition paused_bound (v : controller) (s : WorkflowState) : Prop :=
  ws_status s = "paused" → ∃ cp, ws_checkpoint s = Some cp ∧ cp_status cp = "pending"
    ∧ cp_fingerprint cp = checkpoint_fingerprint v s (cp_node_id cp) (ws_revision s).

Lemma add_all_status l s : ws_status (fold_left (λ s id, add_completed id s) l s) = ws_status s.
Proof. revert s. induction l as [|id l IH]; intros s; cbn; [done|]. rewrite IH. unfold add_completed. by destruct (mem_str _ _). Qed.

Lemma bound_step v c s s' : wf_step v c s s' → paused_bound v s → paused_bound v s'.
Proof.
  assert (∀ t : WorkflowState, ws_status t = "running" → paused_bound v t) as Hrun by (intros t Ht Hp; congruence).
  intros Hst Hb. destruct Hst as [s now|s actor|s|s n source passed Hat|s n next Hat|s n last s' next Hat Hk Hva Hsel|s n plan Hat
    |s n plan branches Hat|s n plan branches last Hat|s n plan next Hat|s n prior Hat|s s' cp actor next now
    |s s' cp actor next now|s n Hat|s|s reason|s|s message].
  - intros Hp. apply Hb in Hp. exact Hp.
  - by apply Hrun.
  - by apply Hrun.
  - apply Hrun. by destruct Hat.
  - apply Hrun. destruct Hat. unfold completed_state, add_completed. by destruct (mem_str _ _).
  - apply Hrun. apply select_branch_ok in Hsel as [-> _]. destruct Hat. unfold completed_state, add_completed. by destruct (mem_str _ _).
  - apply Hrun. by destruct Hat.
  - apply Hrun. by destruct Hat.
  - apply Hrun. by destruct Hat.
  - apply Hrun. cbn. rewrite add_all_status. destruct Hat. unfold add_completed. by destruct (mem_str _ _).
  - intros _. eexists. split; [reflexivity|]. done.
  - by apply Hrun.
  - destruct next; [by apply Hrun|]. intros Hp. cbn in Hp. discriminate.
  - apply Hrun. destruct Hat. unfold completed_state, add_completed. by destruct (mem_str _ _).
  - intros Hp. cbn in Hp. discriminate.
  - intros Hp. cbn in Hp. discriminate.
  - intros Hp. cbn in Hp. discriminate.
  - intros Hp. cbn in Hp. discriminate.
Qed.
End Fingerprint.

(** ** What holds of every state file *)

Section Always.
Context {HL : Hashlib} {W : Type} {RT : WorkflowRuntime W}.
Variable v : controller.
Variable P : WorkflowState → Prop.
Hypothesis P_prepared : ∀ task_id workflow_sha contract_sha root options now,
  P (prepared_state v task_id workflow_sha contract_sha root options now).
Hypothesis P_step : ∀ c s s', wf_step v c s s' → P s → P s'.

Lemma always_moved (y y' : Sys W) k s s' : run_moved v y y' k s s' → P s → P s'.
Proof.
  intros (_ & _ & _ & _ & Hst) Hs.
  assert (∃ c0, ∀ c', (_load_contract v s y).1 = Ok c' → c' = c0) as [c0 Hc0].
  { destruct (_load_contract v s y).1 as [c1|e]; [by exists c1; intros ? [= ->]|by exists no_contract]. }
  specialize (Hst c0 Hc0). clear -Hst Hs P_step. induction Hst as [|a b d Hab _ IH]; [done|]. eauto.
Qed.

Lemma history_always l (y : Sys W) k s : history v l y → sy_states y !! k = Some (StateFile s) → P s.
Proof.
  intros Hh. revert k s. induction Hh as [w|l y q Hh IH Hfresh|l y w _ IH|l y k' f _ IH]; intros k s Hl; cbn in Hl;
    [by rewrite lookup_empty in Hl| |by eapply IH..].
  destruct q as [raw la a p n f|t fp cf who|t fp d cf who|t].
  1: { cbn [serve] in Hl. destruct (prepare _ _ _ _ _ _ _ y) as [r y'] eqn:E. cbn in Hl.
    apply prepare_effect in E as [[E _]|(c & root & options & task_id & k1 & w1 & Ha & _ & Hct & Hk & _ & [E|(sha & now & E)])];
      rewrite E in Hl; [by eapply IH..|].
    apply lookup_insert_Some in Hl as [[<- [= <-]]|[_ Hl]]; [apply P_prepared|by eapply IH]. }
  all: match type of Hl with sy_states (serve ?v0 ?q ?y0) !! _ = _ => pose proof (serve_effect v0 q y0) as [_ [He|(k1 & s1 & s2 & Hm)]]; [done|..] end.
  all: try (rewrite He in Hl; by eapply IH).
  all: pose proof Hm as (Hl1 & _ & _ & Hst & _); rewrite Hst in Hl; apply lookup_insert_Some in Hl as [[<- [= <-]]|[_ Hl]];
    [eapply always_moved; [exact Hm|by eapply IH]|by eapply IH].
Qed.
End Always.

Lemma history_bound {HL : Hashlib} {W : Type} {RT : WorkflowRuntime W} v l (y : Sys W) k s :
  history v l y → sy_states y !! k = Some (StateFile s) → paused_bound v s.
Proof. apply history_always; [done|]. intros c s1 s2. apply bound_step. Qed.

Lemma history_head {HL : Hashlib} {W : Type} {RT : WorkflowRuntime W} v l (y : Sys W) k s :
  history v l y → sy_states y !! k = Some (StateFile s) →
  wh_dispatch_fingerprint (ws_head s) =
    dispatch_fingerprint v (ws_task_id s) (wh_workflow_sha256 (ws_head s)) (wh_task_contract_sha256 (ws_head s)).
Proof.
  revert l y k s. intros l y k s. unfold ws_task_id.
  apply (history_always v (λ s, wh_dispatch_fingerprint (ws_head s) = dispatch_fingerprint v (wh_task_id (ws_head s))
    (wh_workflow_sha256 (ws_head s)) (wh_task_contract_sha256 (ws_head s)))); [done|].
  intros c s1 s2 Hst. by rewrite (wf_step_head _ _ _ _ Hst).
Qed.
