(* ===== verification/WorkflowTheorems.v ===== *)
(** * What the workflow controllers promise

    The theorems about the workflow state machine: refinement of the abstract machine, the
    invariant of all histories, the order of a run, what is admitted, and the authorization that
    loses its contract; and their instances on the desk. *)

From Stdlib Require Import Ascii.
From Stdlib Require String.
From S2P Require Import Prelude PyStr Hashlib Json JsonFacts TaskContract WorkflowDesign WorkflowGraph WorkflowFacts.
From S2P Require Import WorkflowAdmission WorkflowAdmissionFacts WorkflowParallelFacts PlanFacts.
From S2P Require Import TaskStore ExecutionBudget LinkedBudget WorkflowState WorkflowController WorkflowMachine.
From S2P Require Import WorkflowDesk WorkflowSteps WorkflowRefinement WorkflowInvariant WorkflowRuns WorkflowRegion WorkflowBinding.

Local Open Scope Z_scope.

Existing Instance checksum_hashlib.

(** ** Admission *)

(** C20: version 3 admits a workflow exactly when it validates, is manual, of low risk and of the
    active data class, and is an executable tree: one input root, every other node below exactly
    one node, one research, one presentation and one daily report node in that order down the
    tree, branches only on distinct known conditions, failed and rejected branches that are
    outputs, and every path ending in an output. *)
Theorem admit_exact sensitivity raw c root :
  _admit sensitivity raw = Ok (c, root) ↔
  validate_contract raw = Ok c
  ∧ (wc_trigger c = "manual" ∧ wc_risk_level c = "low" ∧ sensitivity ≠ "secret" ∧ wc_data_class c = sensitivity)
  ∧ executable_tree c root.
Proof. apply admit_iff. Qed.

(** C19: what version 4 admits either has no parallel region and is admitted by version 3, or is a
    manual low-risk workflow of the active data class with one region: a fork into two lanes, each
    a research node followed by a presentation node, one join of exactly both lanes and one
    decision whose children are named [passed] and [failed]; every other node is below at most one
    node, and the daily report is only below the [passed] child of that decision. *)
Theorem admit_v4_sound sensitivity raw c root : _admit_v4 sensitivity raw = Ok (c, root) →
  (∃ c0, validate_contract_v4 raw = Ok c0 ∧ _parallel_plan c0 = Ok None
     ∧ _admit sensitivity (contract_json c0) = Ok (c, root))
  ∨ ∃ plan, validate_contract_v4 raw = Ok c ∧ _parallel_plan c = Ok (Some plan)
     ∧ (wc_trigger c = "manual" ∧ wc_risk_level c = "low" ∧ sensitivity ≠ "secret" ∧ wc_data_class c = sensitivity)
     ∧ executable_parallel c root plan.
Proof. apply admit_v4_ok. Qed.

(** What a sample is admitted as. *)
Definition admitted_sample (m : result (wf_contract * string)) : wf_contract * string :=
  match m with Ok r => r | Raise _ => (no_contract, "") end.

Lemma admit_v4_sound_witness : let r := admitted_sample (_admit_v4 "internal" lanes_workflow) in
  ∃ plan, _parallel_plan r.1 = Ok (Some plan) ∧ executable_parallel r.1 r.2 plan.
Proof.
  intros r. destruct (admit_v4_sound "internal" lanes_workflow r.1 r.2) as [(c0 & Hv & Hp & _)|(plan & _ & Hp & _ & Hx)].
  - vm_compute. reflexivity.
  - exfalso. assert (match validate_contract_v4 lanes_workflow with Ok c => match _parallel_plan c with Ok None => false | _ => true end
      | _ => true end = true) as Ht by (vm_compute; reflexivity). rewrite Hv, Hp in Ht. discriminate.
  - exists plan. split; assumption.
Defined.

(** ** Refinement *)

(** C3: every call of a workflow controller moves the files along the abstract machine, whatever
    the store, the agents and the validators do and wherever an exception interrupts it.  A
    preparation adds at most one new prepared state, of an admitted workflow; any other call
    leaves every contract, and the state of every workflow but at most one - which was waiting
    for its authorization or for a decision - and takes that one along transitions of the
    machine with the contract the call has read.  A workflow that has started, ended or failed
    is never taken up again. *)
Theorem calls_refine {HL : Hashlib} {W : Type} {RT : WorkflowRuntime W} v q (y : Sys W) :
  match q with
  | Prepare raw language audience purpose slides format =>
      let y' := serve v q y in
      (sy_states y' = sy_states y ∧ sy_contracts y' = sy_contracts y)
      ∨ ∃ c root options task_id k w1, admit_workflow v raw = Ok (c, root)
          ∧ prepare_options v language audience purpose slides format = Ok options
          ∧ store_create_task (wc_title c) (wc_objective c) (sy_world y) = (Ok task_id, w1) ∧ _safe_task_id task_id = Ok k
          ∧ sy_contracts y' = <[k := ContractJson (canon (contract_json c))]> (sy_contracts y)
          ∧ (sy_states y' = sy_states y
             ∨ ∃ contract_sha now, sy_states y' = <[k := StateFile (prepared_state v task_id
                 (_canonical_sha256 (contract_json c)) contract_sha root options now)]> (sy_states y))
  | _ => call_effect v y (serve v q y)
  end.
Proof.
  destruct q as [raw l a p n f|t fp cf who|t fp d cf who|t]; [|by apply serve_effect..].
  cbn [serve]. destruct (prepare v raw l a p n f y) as [r y'] eqn:E. by eapply prepare_effect.
Qed.

(** ** The invariant *)

(** C4: in every history of calls, crashes, changes of the store between the calls and damage to
    the contract files, each state file belongs to a workflow that was admitted, and its run is
    in order: nothing has run without an authorization; a node is entered only after every node
    it depends on, and at most once; a branch is entered only by the recorded decision that
    selects it, and each decision is made once; a paused workflow waits at an approval; the
    decision after a parallel region follows the region's outcome; and a workflow is completed
    only at its end and with a validation that passed.  The only way out is a contract file with
    another contract of the same SHA-256 fingerprint. *)
Theorem histories_sound {HL : Hashlib} {W : Type} {RT : WorkflowRuntime W} v l (y : Sys W) k s :
  history v l y → sy_states y !! k = Some (StateFile s) → sound_state v l s.
Proof. apply history_sound. Qed.

(** A history on the desk: prepared, authorized, approved. *)
Definition sample_requests (v : controller) (raw : json) (decision : string) : list (Sys desk → wf_request) := [
  λ _, Prepare raw "en" "" "" (JInt 6) "pptx";
  λ y, Start "TASK-1" (match file_of "TASK-1" y with Some s => wh_dispatch_fingerprint (ws_head s) | None => "" end)
    "AUTHORIZE" "admin";
  λ y, Decide "TASK-1" (match file_of "TASK-1" y with
                        | Some s => match ws_checkpoint s with Some cp => cp_fingerprint cp | None => "" end
                        | None => "" end) decision decision "admin"].
Definition serve_all (v : controller) (qs : list (Sys desk → wf_request)) (y : Sys desk) : Sys desk :=
  foldl (λ y q, serve v (q y) y) y qs.

Lemma sample_history v raw decision evidence schema :
  ∃ l, history v l (serve_all v (sample_requests v raw decision) (clean_desk evidence schema)).
Proof.
  eexists. unfold serve_all, sample_requests. cbn [foldl].
  apply history_call; [|exact I]. apply history_call; [|exact I]. apply history_call; [apply history_start|].
  intros title objective task_id w k _ _. apply lookup_empty.
Qed.

(** The sample workflow with lanes, approved and run to its end. *)
Definition lanes_run : Sys desk :=
  serve_all BudgetedControllerV4 (sample_requests BudgetedControllerV4 lanes_workflow "APPROVE") (clean_desk true true).

Lemma lanes_run_state : ∃ s, sy_states lanes_run !! "TASK-1" = Some (StateFile s) ∧ ws_status s = "completed"
  ∧ ws_completed_nodes s = ["start"; "fork"; "find_a"; "show_a"; "find_b"; "show_b"; "join"; "check"; "ask"; "report"; "done"].
Proof.
  assert ((λ s, (ws_status s, ws_completed_nodes s)) <$> file_of "TASK-1" lanes_run =
    Some ("completed", ["start"; "fork"; "find_a"; "show_a"; "find_b"; "show_b"; "join"; "check"; "ask"; "report"; "done"])) as H
    by (vm_compute; reflexivity).
  unfold file_of in H. destruct (sy_states lanes_run !! "TASK-1") as [[| |s]|]; try discriminate.
  injection H as H1 H2. exists s. done.
Qed.

Lemma histories_sound_witness : ∃ l s, sy_states lanes_run !! "TASK-1" = Some (StateFile s)
  ∧ ws_status s = "completed" ∧ sound_state BudgetedControllerV4 l s.
Proof.
  destruct (sample_history BudgetedControllerV4 lanes_workflow "APPROVE" true true) as [l Hl].
  destruct lanes_run_state as (s & Hs & Hd & _). exists l, s. split; [exact Hs|]. split; [exact Hd|].
  exact (histories_sound _ l lanes_run "TASK-1" s Hl Hs).
Defined.

(** ** The order of a run *)

Section Order.
Context {v : controller} {c : wf_contract} {root : string}.
Hypothesis Hsh : wf_shape v c root.

Lemma visited_above s x m : run_ok (v := v) (c := c) s → visited s x → above c x m → m ∈ ws_completed_nodes s.
Proof.
  intros Hok Hx Hm. revert Hx. induction Hm as [x m H|x y m H _ IH]; intros Hx.
  - by eapply (ro_deps s Hok).
  - apply IH. left. by eapply (ro_deps s Hok).
Qed.

(** A report of an admitted workflow is below a research and a presentation node. *)
Lemma report_agents {HL : Hashlib} {W : Type} {RT : WorkflowRuntime W} raw n a : admit_workflow v raw = Ok (c, root) →
  n ∈ wc_nodes c → wn_action n = "daily_report" → a ∈ ["research"; "presentation"] → action_above c a (wn_id n).
Proof.
  assert (∀ sens raw, _admit sens raw = Ok (c, root) → n ∈ wc_nodes c → wn_action n = "daily_report" →
    a ∈ ["research"; "presentation"] → action_above c a (wn_id n)) as Htree.
  { intros sens r (_ & _ & Hx)%admit_iff Hn Hd Ha. destruct (xt_stages _ _ Hx n Hn) as (_ & H2 & _).
    destruct (H2 Hd) as (p & Hp & Habove & Hact). apply elem_of_cons in Ha as [->| ->%list_elem_of_singleton]; [|by exists p].
    destruct (xt_stages _ _ Hx p Hp) as (H1 & _). destruct (H1 Hact) as (r' & Hr & Hra & Hract).
    exists r'. split_and!; [done| |done]. by eapply tc_transitive. }
  intros Ha Hn Hd Hact. unfold admit_workflow in Ha. destruct (is_v4 v) eqn:Hv4; [|by eapply Htree].
  apply admit_v4_ok in Ha as [(c0 & _ & _ & H)|(plan & _ & Hp & _ & Hx)]; [by eapply Htree|].
  destruct (ep_daily _ _ _ Hx n Hn Hd) as (p & Hpn & Hdp & _ & Hbelow). pose proof (ep_region _ _ _ Hx) as Hreg.
  destruct (rg_two _ _ Hreg) as [_ H2]. destruct (pp_lanes plan) as [|l ls] eqn:El; [done|].
  destruct (rg_lanes _ _ Hreg l) as (_ & (rn & Hrn & Hra & _) & L3 & (pn & Hpn' & Hpa & _) & L5); [rewrite El; left|].
  apply (node_map_spec (sh_graph _ _ _ Hsh)) in Hrn as [Hrn Hrid], Hpn' as [Hpn' Hpid].
  assert (above c (wn_id n) (pp_decision plan)) as Hdec.
  { assert (parent_of c (wn_id p) (pp_decision plan)) as Hpp by (by exists p).
    destruct Hbelow as [->|Hb]; [by apply tc_once|]. by eapply tc_r. }
  assert (parent_of c (pp_decision plan) (pp_join plan)) as P1.
  { apply children_spec. destruct (rg_decision _ _ Hreg) as [-> _]. left. }
  assert (parent_of c (pp_join plan) (ln_presentation l)) as P2 by (apply children_spec; rewrite L5; left).
  assert (parent_of c (ln_presentation l) (ln_research l)) as P3 by (apply children_spec; rewrite L3; left).
  pose proof (tc_r _ _ _ (tc_r _ _ _ Hdec P1) P2) as Hpres.
  apply elem_of_cons in Hact as [->| ->%list_elem_of_singleton].
  - exists rn. rewrite Hrid. split_and!; [done| |done]. by eapply tc_r.
  - exists pn. by rewrite Hpid.
Qed.

(** Behind a region, the report is on the branch that passed. *)
Lemma report_passed {HL : Hashlib} {W : Type} {RT : WorkflowRuntime W} raw s n plan : admit_workflow v raw = Ok (c, root) →
  run_ok (v := v) (c := c) s → n ∈ wc_nodes c → wn_action n = "daily_report" → visited s (wn_id n) →
  plan_of v c = Some plan → region_outcome s "passed".
Proof.
  intros Ha Hok Hn Hd Hvis Hplan. unfold admit_workflow in Ha. unfold plan_of in Hplan. destruct (is_v4 v) eqn:Hv4; [|done].
  apply admit_v4_ok in Ha as [(c0 & _ & _ & H)|(plan' & _ & Hp & _ & Hx)].
  { apply admit_iff in H as (_ & _ & Hx). pose proof (tree_no_plan c v (xt_pair _ _ Hx)) as Hno.
    unfold plan_of in Hno. rewrite Hv4 in Hno. congruence. }
  rewrite Hp in Hplan. injection Hplan as ->.
  assert (plan_of v c = Some plan) as Hplan by (unfold plan_of; by rewrite Hv4, Hp).
  destruct (ep_daily _ _ _ Hx n Hn Hd) as (p & Hpn & Hdp & Hcond & Hbelow).
  destruct (rg_decision _ _ (ep_region _ _ _ Hx)) as [_ (dn & Hdn & Hdk)].
  assert (visited s (wn_id p)) as Hvp by (destruct Hbelow as [->|Hb]; [done|left; by eapply visited_above]).
  destruct (ro_region s Hok plan Hplan) as (_ & _ & Hout).
  eapply (Hout {| bc_node_id := pp_decision plan; bc_outcome := "passed"; bc_selected_node := Some (wn_id p) |}); [|done].
  rewrite <- Hcond. eapply (ro_choice s Hok (wn_id p) p (pp_decision plan) dn); [done| |by exists p|done|rewrite Hdk; left].
  by apply (node_map_spec (sh_graph _ _ _ Hsh)).
Qed.
End Order.

(** C6: in every history, the daily report of a workflow is reached last: a state whose report
    node is completed or current has completed every node above it, a research and a presentation
    node among them; at each decision or approval on the way its history holds the choice of the
    branch towards the report; and where the workflow has a parallel region, the region has
    completed with the outcome [passed].  The only way out is a contract file with another
    contract of the same fingerprint. *)
Theorem report_last {HL : Hashlib} {W : Type} {RT : WorkflowRuntime W} v l (y : Sys W) k s :
  history v l y → sy_states y !! k = Some (StateFile s) →
  ∃ raw c root, admit_workflow v raw = Ok (c, root) ∧ wh_workflow_sha256 (ws_head s) = _canonical_sha256 (contract_json c)
    ∧ (contract_collision v l c ∨ ∀ n, n ∈ wc_nodes c → wn_action n = "daily_report" → visited s (wn_id n) →
         (∀ m, above c (wn_id n) m → m ∈ ws_completed_nodes s)
         ∧ (∀ a, a ∈ ["research"; "presentation"] → ∃ m, m ∈ wc_nodes c ∧ wn_action m = a ∧ wn_id m ∈ ws_completed_nodes s)
         ∧ (∀ x p, x ∈ wc_nodes c → x = n ∨ above c (wn_id n) (wn_id x) → p ∈ wc_nodes c → wn_id p ∈ wn_depends_on x →
              wn_kind p ∈ ["decision"; "approval"] →
              {| bc_node_id := wn_id p; bc_outcome := _normalized_condition x; bc_selected_node := Some (wn_id x) |}
                ∈ ws_branch_history s)
         ∧ (∀ plan, plan_of v c = Some plan → region_outcome s "passed")).
Proof.
  intros Hh Hl. apply (history_sound v l y k s Hh) in Hl as (raw & c & root & Ha & _ & Hsha & _ & Hok).
  exists raw, c, root. split_and!; [done..|]. destruct Hok as [Hok|]; [right|by left]. intros n Hn Hd Hvis.
  pose proof (admit_shape v raw c root Ha) as Hsh.
  assert (∀ m, above c (wn_id n) m → m ∈ ws_completed_nodes s) as Hup by (intros m; by eapply visited_above).
  split_and!; [done| | |].
  - intros a Hact. destruct (report_agents Hsh raw n a Ha Hn Hd Hact) as (m & Hm & Hab & Hma). exists m. auto.
  - intros x p Hx Hxn Hp Hdep Hk. eapply (ro_choice s Hok (wn_id x) x (wn_id p) p); [| |by exists x| |done].
    + destruct Hxn as [->|Hb]; [done|left; by apply Hup].
    + by apply (node_map_spec (sh_graph _ _ _ Hsh)).
    + by apply (node_map_spec (sh_graph _ _ _ Hsh)).
  - intros plan Hp. by eapply (report_passed Hsh).
Qed.

Lemma report_last_witness : ∃ (l : list contract_file) (s : WorkflowState) (raw : json) (c : wf_contract) (root : string), sy_states lanes_run !! "TASK-1" = Some (StateFile s)
  ∧ "report" ∈ ws_completed_nodes s ∧ admit_workflow (RT := desk_runtime) BudgetedControllerV4 raw = Ok (c, root)
  ∧ wh_workflow_sha256 (ws_head s) = _canonical_sha256 (contract_json c).
Proof.
  destruct (sample_history BudgetedControllerV4 lanes_workflow "APPROVE" true true) as [l Hl].
  destruct lanes_run_state as (s & Hs & _ & Hd). exists l, s.
  destruct (report_last _ l lanes_run "TASK-1" s Hl Hs) as (raw & c & root & Ha & Hsha & _). exists raw, c, root.
  split; [exact Hs|]. split; [rewrite Hd; apply (bool_decide_unpack _); vm_compute; reflexivity|]. split; assumption.
Defined.

(** ** The verdict on a region *)

(** C17: the verdict on a parallel region.  When [_run_parallel_region] returns, under every
    interleaving of the two lanes and whichever is reported first, the region had not been
    started before and has completed, with a branch for each lane of the plan; its outcome is
    [passed] or [failed], and is what the decision after it will see; it is [passed] only if for
    the task of each branch the validators have accepted evidence and presentation, the bridge
    has found the task verified and the task was set to done; and when the two tasks are
    different, the outcome is [passed] exactly when both branches are reported as verified. *)
Theorem region_verdict {HL : Hashlib} {W : Type} {RT : WorkflowRuntime W} v s c plan (y : Sys W) s' y' :
  region_ok c plan → _run_parallel_region v s c plan y = (Ok s', y') →
  region_status s ∉ ["starting"; "running"; "completed"]
  ∧ ∃ r, ws_parallel_region s' = Some r ∧ pr_status r = "completed"
    ∧ map rb_research_node (pr_branches r) = map ln_research (pp_lanes plan)
    ∧ map rb_presentation_node (pr_branches r) = map ln_presentation (pp_lanes plan)
    ∧ (∃ passed : bool, pr_outcome r = Some (if passed then "passed" else "failed")
         ∧ ws_last_validation s' = Some {| va_source := "parallel_branches"; va_passed := passed |})
    ∧ (pr_outcome r = Some "passed" → ∀ b, b ∈ pr_branches r → lane_verdict (rb_task_id b))
    ∧ (NoDup (map rb_task_id (pr_branches r)) →
         (pr_outcome r = Some "passed" ↔ ∀ b, b ∈ pr_branches r → rb_status b = "verified")).
Proof.
  intros Hreg H. apply region_answer in H as [Hs (r & b1 & b2 & p1 & p2 & Hr & Hst & Hb & H1 & H2 & Ho & Hv & V1 & V2 & Hst12)];
    [|apply Hreg]. split; [done|]. exists r. split_and!; [done..|by exists (p1 && p2)| |].
  - rewrite Ho, Hb. intros Hp b. destruct p1, p2; try done. intros [-> | ->%list_elem_of_singleton]%elem_of_cons; auto.
  - rewrite Ho, Hb. cbn [map]. rewrite NoDup_cons, list_elem_of_singleton. intros [Hne _]. destruct (Hst12 Hne) as [S1 S2]. split.
    + intros Hp b. destruct p1, p2; try done. intros [-> | ->%list_elem_of_singleton]%elem_of_cons; done.
    + intros Hall. assert (rb_status b1 = "verified") as E1 by (apply Hall; left).
      assert (rb_status b2 = "verified") as E2 by (apply Hall; right; left). rewrite S1 in E1. rewrite S2 in E2. by destruct p1, p2.
Qed.

(** The sample workflow with lanes, prepared, and its plan. *)
Definition lanes_contract : wf_contract := (admitted_sample (_admit_v4 "internal" lanes_workflow)).1.
Definition lanes_plan : parallel_plan :=
  match _parallel_plan lanes_contract with Ok (Some plan) => plan | _ => {| pp_fork := ""; pp_join := ""; pp_decision := ""; pp_lanes := [] |} end.
Definition lanes_prepared : Sys desk := (prepare_sample BudgetedControllerV4 lanes_workflow (clean_desk true true)).2.

Lemma lanes_region : region_ok lanes_contract lanes_plan.
Proof.
  destruct (admit_v4_ok "internal" lanes_workflow lanes_contract (admitted_sample (_admit_v4 "internal" lanes_workflow)).2)
    as [(c0 & Hv & Hp & _)|(plan & _ & Hp & _ & Hx)].
  - vm_compute. reflexivity.
  - exfalso. assert (match validate_contract_v4 lanes_workflow with Ok c => match _parallel_plan c with Ok None => false | _ => true end
      | _ => true end = true) as Ht by (vm_compute; reflexivity). rewrite Hv, Hp in Ht. discriminate.
  - unfold lanes_plan. rewrite Hp. apply Hx.
Qed.

Lemma region_verdict_witness : ∃ s s' (y' : Sys desk) r, file_of "TASK-1" lanes_prepared = Some s
  ∧ _run_parallel_region BudgetedControllerV4 s lanes_contract lanes_plan lanes_prepared = (Ok s', y')
  ∧ ws_parallel_region s' = Some r ∧ pr_outcome r = Some "passed" ∧ ∀ b, b ∈ pr_branches r → lane_verdict (rb_task_id b).
Proof.
  assert (match file_of "TASK-1" lanes_prepared with
          | Some s => match (_run_parallel_region BudgetedControllerV4 s lanes_contract lanes_plan lanes_prepared).1 with
                      | Ok s' => match ws_parallel_region s' with Some r => pr_outcome r | None => None end
                      | Raise _ => None
                      end
          | None => None
          end = Some "passed") as H by (vm_compute; reflexivity).
  destruct (file_of "TASK-1" lanes_prepared) as [s|]; [|discriminate].
  destruct (_run_parallel_region BudgetedControllerV4 s lanes_contract lanes_plan lanes_prepared) as [[s'|e] y'] eqn:E;
    [|discriminate].
  destruct (region_verdict _ s lanes_contract lanes_plan lanes_prepared s' y' lanes_region E)
    as (_ & r & Hr & _ & _ & _ & _ & Hv & _).
  cbn [fst] in H. rewrite Hr in H. exists s, s', y', r. split; [reflexivity|]. split; [exact E|]. split; [exact Hr|].
  split; [exact H|]. exact (Hv H).
Defined.

(** ** The authorization that loses its contract *)

Lemma st_bind_returns {S A B} (m : ST S A) (f : A → ST S B) y a y1 : m y = (Ok a, y1) → (x ← m; f x) y = f a y1.
Proof. unfold mbind, st_bind. by intros ->. Qed.
Lemma st_bind_raises {S A B} (m : ST S A) (f : A → ST S B) y e y1 : m y = (Raise e, y1) → (x ← m; f x) y = (Raise e, y1).
Proof. unfold mbind, st_bind. by intros ->. Qed.
Lemma st_guard_true {S A} (b : bool) cls msg (m : ST S A) y : b = true → (st_raise_if b cls msg ;; m) y = (raise cls msg, y).
Proof. by intros ->. Qed.
Lemma st_guard_false {S A} (b : bool) cls msg (m : ST S A) y : b = false → (st_raise_if b cls msg ;; m) y = m y.
Proof. by intros ->. Qed.

(** Neither call takes up a workflow that is neither prepared nor paused. *)
Lemma refused {HL : Hashlib} {W : Type} {RT : WorkflowRuntime W} v task_id k s (y : Sys W) a b c d :
  _safe_task_id task_id = Ok k → sy_states y !! k = Some (StateFile s) → ws_task_id s = task_id →
  wh_schema_version (ws_head s) = STATE_SCHEMA_VERSION v → ws_status s ∉ ["prepared"; "paused"] →
  workflow_start v task_id a b c y = (raise WorkflowStateError "workflow preparation is not startable", y)
  ∧ decide_checkpoint v task_id a d b c y =
      (raise WorkflowStateError "workflow is not paused at an approval checkpoint", y).
Proof.
  intros Hk Hl Ht Hsc Hs. assert (_load_state v task_id y = (Ok s, y)) as Hload.
  { unfold _load_state, mbind, st_bind, st_lift, st_get. rewrite Hk, Hl.
    unfold st_raise_if, st_lift, raise_if. rewrite !bool_decide_eq_true_2 by done. done. }
  split; unfold workflow_start, decide_checkpoint; rewrite (st_bind_returns _ _ _ _ _ Hload); apply st_guard_true;
    apply negb_true_iff, bool_decide_eq_false; set_solver.
Qed.

(** C40: [start] records the authorization before it reads the contract, and reads the contract
    outside the handler that marks failures.  When the contract file is missing, a correct
    authorization is consumed: the call raises, the state file says that the workflow is running
    though no node has run, and from then on - in every state of the system that still has this
    state file, the contract restored or not - neither [start] nor [decide_checkpoint] takes the
    workflow up again. *)
Theorem lost_contract {HL : Hashlib} {W : Type} {RT : WorkflowRuntime W} v task_id fp confirmation approver actor k s (y : Sys W) now w1 w2 :
  _safe_task_id task_id = Ok k → sy_states y !! k = Some (StateFile s) → ws_task_id s = task_id →
  wh_schema_version (ws_head s) = STATE_SCHEMA_VERSION v → ws_status s = "prepared" →
  strip fp = wh_dispatch_fingerprint (ws_head s) → strip confirmation = "AUTHORIZE" → _actor_ref approver = Ok actor →
  sy_contracts y !! k = None →
  clock_now (sy_world y) = (Ok now, w1) →
  store_record_activity task_id "workflow_v3" "workflow_authorized" "ok"
    ("profile=" +:+ EXECUTION_PROFILE +:+ " approver=" +:+ actor) w1 = (Ok tt, w2) →
  ∃ s' y', workflow_start v task_id fp confirmation approver y =
      (raise WorkflowStateError "workflow contract artifact missing", y')
    ∧ sy_states y' = <[k := StateFile s']> (sy_states y)
    ∧ ws_status s' = "running" ∧ ws_initial_approver_ref s' = Some actor
    ∧ ws_current_node s' = ws_current_node s ∧ ws_completed_nodes s' = ws_completed_nodes s
    ∧ ∀ (y2 : Sys W) a b c d, sy_states y2 !! k = Some (StateFile s') →
        workflow_start v task_id a b c y2 = (raise WorkflowStateError "workflow preparation is not startable", y2)
        ∧ decide_checkpoint v task_id a d b c y2 =
            (raise WorkflowStateError "workflow is not paused at an approval checkpoint", y2).
Proof.
  intros Hk Hl Ht Hsc Hs Hfp Hcf Hact Hno Hnow Hw2.
  set (s' := set_ws_updated_at now (set_ws_revision (ws_revision s + 1)
    (set_ws_status "running" (set_ws_initial_approver_ref (Some actor) s)))).
  set (y1 := set_sy_states (<[k := StateFile s']> (sy_states y)) (set_sy_world w1 y)).
  exists s', (set_sy_world w2 y1). split_and!; [|done..|].
  - unfold workflow_start. assert (_load_state v task_id y = (Ok s, y)) as Hload.
    { unfold _load_state, mbind, st_bind, st_lift, st_get. rewrite Hk, Hl.
      unfold st_raise_if, st_lift, raise_if. rewrite !bool_decide_eq_true_2 by done. done. }
    rewrite (st_bind_returns _ _ _ _ _ Hload), !st_guard_false by (rewrite ?Hs, ?Hfp, ?Hcf, bool_decide_eq_true_2; done).
    rewrite (st_bind_returns _ _ y actor y) by (unfold st_lift; by rewrite Hact).
    assert (save (set_ws_revision (ws_revision s + 1) (set_ws_status "running" (set_ws_initial_approver_ref (Some actor) s))) y
      = (Ok s', y1)) as Hsave.
    { unfold save, mbind, st_bind, world, st_zoom. rewrite Hnow. unfold _write_state, mbind, st_bind, st_lift.
      change (ws_task_id (set_ws_updated_at now _)) with (ws_task_id s). by rewrite Ht, Hk. }
    rewrite (st_bind_returns _ _ _ _ _ Hsave).
    rewrite (st_bind_returns _ _ y1 tt (set_sy_world w2 y1)) by (unfold world, st_zoom; change (sy_world y1) with w1; by rewrite Hw2).
    apply st_bind_raises. unfold _load_contract, mbind, st_bind, st_lift, st_get.
    change (ws_task_id s') with (ws_task_id s). rewrite Ht, Hk. cbn. by rewrite Hno.
  - intros y2 a b c d Hl2. eapply refused; [done|exact Hl2|done..|]. set_solver.
Qed.

Lemma file_of_state k (y : Sys desk) s : file_of k y = Some s → sy_states y !! k = Some (StateFile s).
Proof. unfold file_of. destruct (sy_states y !! k) as [[| |s0]|]; try done. by intros [= ->]. Qed.

Lemma lanes_prepared_state : ∃ s, file_of "TASK-1" lanes_prepared = Some s ∧ ws_task_id s = "TASK-1"
  ∧ wh_schema_version (ws_head s) = STATE_SCHEMA_VERSION BudgetedControllerV4 ∧ ws_status s = "prepared"
  ∧ strip (wh_dispatch_fingerprint (ws_head s)) = wh_dispatch_fingerprint (ws_head s)
  ∧ ws_completed_nodes s = [] ∧ ws_current_node s = Some "start".
Proof.
  assert (match file_of "TASK-1" lanes_prepared with
          | Some s => bool_decide (ws_task_id s = "TASK-1" ∧ wh_schema_version (ws_head s) = STATE_SCHEMA_VERSION BudgetedControllerV4
              ∧ ws_status s = "prepared" ∧ strip (wh_dispatch_fingerprint (ws_head s)) = wh_dispatch_fingerprint (ws_head s)
              ∧ ws_completed_nodes s = [] ∧ ws_current_node s = Some "start")
          | None => false
          end = true) as H by (vm_compute; reflexivity).
  destruct (file_of "TASK-1" lanes_prepared) as [s|]; [|discriminate]. exists s. split; [done|]. by apply bool_decide_eq_true in H.
Qed.

Lemma lost_contract_witness : ∃ s s' y',
  file_of "TASK-1" lanes_prepared = Some s
  ∧ workflow_start BudgetedControllerV4 "TASK-1" (wh_dispatch_fingerprint (ws_head s)) "AUTHORIZE" "admin"
      (set_sy_contracts ∅ lanes_prepared) = (raise WorkflowStateError "workflow contract artifact missing", y')
  ∧ sy_states y' !! "TASK-1" = Some (StateFile s') ∧ ws_status s' = "running" ∧ ws_completed_nodes s' = []
  ∧ ws_current_node s' = Some "start".
Proof.
  destruct lanes_prepared_state as (s & Hs & H1 & H2 & H3 & H4 & H5 & H6). apply file_of_state in Hs as El.
  pose (w1 := (clock_now (sy_world lanes_prepared)).2).
  pose (w2 := (store_record_activity "TASK-1" "workflow_v3" "workflow_authorized" "ok"
    ("profile=" +:+ EXECUTION_PROFILE +:+ " approver=" +:+ sha256_of_text "admin") w1).2).
  destruct (lost_contract BudgetedControllerV4 "TASK-1" (wh_dispatch_fingerprint (ws_head s)) "AUTHORIZE" "admin"
    (sha256_of_text "admin") "TASK-1" s (set_sy_contracts ∅ lanes_prepared) "t4" w1 w2) as (s' & y' & Hrun & Hst & Hr & _ & Hcur & Hdone & _).
  1,7,8: vm_compute; reflexivity.
  1: exact El. 1: exact H1. 1: exact H2. 1: exact H3. 1: exact H4.
  - apply lookup_empty.
  - vm_compute. reflexivity.
  - vm_compute. reflexivity.
  - exists s, s', y'. split; [exact Hs|]. split; [exact Hrun|]. split; [rewrite Hst; apply lookup_insert_eq|].
    split; [exact Hr|]. split; [rewrite Hdone; exact H5|]. rewrite Hcur. exact H6.
Defined.

(** ** What an approval is bound to *)








